(* ===== verification/_CoqProject ===== *)
-Q . S2P
FacetsNode.v
Prelude.v
GoEncoding.v
Sha256.v
RelayModel.v
RelayState.v
RelayFence.v
RelayTenant.v
RelayMember.v
RelaySubscription.v
RelayDelivery.v
RelayBlob.v
RelayCheckpoint.v
RelayMachine.v
RelayExample.v
RelayInvariant.v
RelayFenceFacts.v
RelayOperationFacts.v
RelayCheckpointFacts.v
RelayReachable.v
RelayMessaging.v
RelayCustody.v
RelayAccess.v
RelayClaims.v
RelayRecovery.v
Carriage.v
CarriageFacts.v
StorageCapacity.v
Rendezvous.v
RendezvousFacts.v
P256.v
GoText.v
ServiceAuthority.v
ComputePool.v
ComputePrivacy.v
ComputeAdmission.v
ComputeJobs.v
ComputePoolStore.v
ComputePoolFacts.v
ComputeJobsFacts.v
ComputeExample.v
KeyCustody.v
DeviceSyncModel.v
DeviceSync.v
DeviceSyncSpaces.v
DeviceSyncExample.v
DeviceSyncFacts.v
DeviceSyncInvariant.v
DeviceSyncRevocation.v
DeviceSyncDevices.v
DeviceSyncRegistry.v
SharedSpacesModel.v
SharedSpacesChanges.v
SharedSpacesCompute.v
SharedSpaces.v
SharedSpacesAuthority.v
SharedSpacesSpec.v
SharedSpacesInvariant.v
SharedSpacesMembership.v
SharedSpacesAudit.v
SharedSpacesCapability.v
SharedSpacesKeys.v
SharedSpacesRevocation.v
ComputeQueue.v
ComputeQueueCanonical.v
ComputeQueueAuthorization.v
ComputeQueueReceipts.v
ComputeQueueTransitions.v
ComputeQueueAttempts.v
ComputeQueueItems.v
ComputeQueueLifecycle.v
ComputeQueueOccurrence.v
ComputeQueueBoundary.v
ComputeQueueTerminal.v
ComputeQueueEvidence.v
ComputeQueueAdmission.v
ComputeQueueFacts.v
ComputeQueueReportFacts.v
ComputeQueueHistoryFacts.v
ComputeQueueCustodyFacts.v
