(* ===== verification/FacetsNode.v ===== *)
(** * FacetsNode: the content-blind relay and its companions

    FacetsNode is a family of Go services around one core: a relay that stores
    opaque envelopes and encrypted blobs for the members of a domain, keeps
    each domain as a log with cursors and receipts, and collects what
    checkpoints have made redundant, without ever reading content.  This
    library models the decision-making packages of the repository and proves
    what they promise.

    ** Parts, files and source

    Foundations.
    - [Prelude]: 64-bit integers with their wrap-around ([i64], [u64]), the
      state-and-error monad [M] with its predicate transformer [wp], record
      update, validation chains ([>>?]), map and list lemmas.
    - [GoEncoding]: the parts of the Go standard library that the source uses,
      executable: hex, strict base64url, big-endian integers, string order,
      [sort.Search]; UUID text is a parameter ([UuidLib]).
    - [Sha256]: executable SHA-256.

    The relay, src/internal/relay.
    - [RelayModel]: model.go, data_plane.go, checkpoint.go, errors.go,
      capacity_policy.go (values, validation, cursors, digests).
    - [RelayState]: the structs of the in-memory store and its lookups.
      Message objects are shared by pointer between a log, its index and the
      deletion sets of checkpoints: they live in a heap, [dom_heap].
    - [RelayFence] (memory_fence.go), [RelayTenant], [RelayMember],
      [RelaySubscription], [RelayDelivery] (memory.go), [RelayBlob]
      (memory_upload.go), [RelayCheckpoint] (memory_checkpoint.go): one
      definition per method and per loop, composed as the code composes them.
      A method whose name starts with a capital resolves the caller and calls
      its lower-case body on the domain.
    - [RelayMachine]: all the calls of the store as one machine; every call
      runs under the store's mutex, so an execution is a list of calls.
      [CallOf] is how the services above make such calls.
    - [RelayInvariant], [RelayFenceFacts], [RelayOperationFacts] (members,
      subscriptions, delivery, blobs), [RelayCheckpointFacts]: each operation
      keeps the well-formedness of its domain; [RelayReachable] collects them
      over the machine.  [RelayMessaging], [RelayCustody], [RelayAccess],
      [RelayClaims], [RelayRecovery] state what follows for the user of the
      relay.  [RelayExample] is the concrete store at which theorems are
      exercised; the end of [RelayRecovery] runs the code where it and its
      documents part.

    Around the relay.
    - [Carriage], [CarriageFacts]: src/internal/carriage, frames and the
      resumable transfer driver.
    - [StorageCapacity]: capacity.go and writer.go of
      src/internal/storagecapacity, and what admission guarantees.
    - [Rendezvous], [RendezvousFacts]: src/internal/rendezvous, the pairing
      mailboxes.

    Device sync over the relay, src/internal/devicesync: the memory store keeps
    who owns which relay domains and admissions, and calls the relay's methods
    for everything that the relay enforces.
    - [ServiceAuthority]: scopes and initial bindings of
      src/internal/serviceauthority; the signed manifest inside a binding is
      the parameter [ManifestLib].  [GoText]: the white space that the
      source trims.
    - [DeviceSyncModel]: model.go, entitlement.go, discovery.go,
      join_request.go, space_sponsor.go, errors.go.
    - [DeviceSync] (join requests, account admissions) and [DeviceSyncSpaces]
      (devices, revocation, Spaces, sponsored admissions, status): the state
      and the methods of memory.go, memory_sponsor.go and
      memory_sponsor_cancel.go.  Its state holds the whole relay store, and
      [relay] runs a relay call inside it.  The end of [DeviceSyncSpaces] has
      all calls of both stores as one machine.  A method's relay calls follow
      one another: its mutex does not stop direct calls of the relay in
      between, and such interleavings are left out.
    - [DeviceSyncFacts]: the rules that carry an invariant of both stores over
      every call; [DeviceSyncInvariant], [DeviceSyncRevocation],
      [DeviceSyncDevices]: the invariants and what they give;
      [DeviceSyncRegistry]: the registry of devices, a specification as a small
      state machine, and that device sync refines it; [DeviceSyncExample]:
      concrete stores.

    Compute pools, src/internal/computepool.
    - [GoText]: JSON trees, [json.Marshal] and the canonical form the package
      signs (object keys sorted, numbers through [float64]).  [P256]: the
      class of curve operations.
    - [ComputePool] (contracts.go), [ComputePrivacy] (privacy_contracts.go,
      policy_evaluator.go, disclosure_contracts.go),
      [ComputeAdmission] (admission_contracts.go up to admissions),
      [ComputeJobs] (the rest of it and lifecycle_evaluator.go),
      [ComputePoolStore] (store.go).  ECDSA and Ed25519 are the classes
      [CurveLib] and [Ed25519Lib].
    - [ComputeJobsFacts], [ComputePoolFacts]: what accepted records imply;
      [ComputeExample] is a worker and a job with toy signatures, with runs on
      inputs on which the code and its intent differ.

    Key custody, src/internal/keycustody: [KeyCustody]; AES-GCM is the class
    [AeadLib] with its laws, and the random source a stream.

    Shared spaces, src/internal/sharedspaces: the authority over participants,
    roles, devices and content keys of a Space.  Its memory store calls the
    relay for every member it admits, changes or revokes, and key custody for
    every managed content key.
    - [SharedSpacesModel] (model.go up to participants and invitations, errors.go),
      [SharedSpacesChanges] (the rest of model.go, authority events, views and
      provisioning_admission.go),
      [SharedSpacesCompute] (compute_capability.go with signer and verifier).
    - [SharedSpaces] and [SharedSpacesAuthority]: memory.go.  The store keeps
      slices of device keys by reference ([ms_arrays]), because the source
      sorts and writes in place into arrays that a check and the store share.
      A slice of a call's argument is fresh; the spare capacity that [append]
      leaves is the parameter [SliceLib].
    - [SharedSpacesSpec]: its calls as one machine over the relay, key custody
      and the store, the relay's own calls included, and the transitions of a
      Space that the calls refine; [SharedSpacesInvariant]: what is true of
      every reachable store.  [SharedSpacesAudit] (the Space at which theorems
      are exercised; authority events, key epochs, the chain of rosters, guarded
      calls), [SharedSpacesCapability], [SharedSpacesKeys] (every epoch keeps
      its managed key), [SharedSpacesRevocation] (and a role change that cannot
      succeed): what follows.  [SharedSpacesMembership]: who is in a Space, as a
      specification that the store refines.

    The compute queue, src/internal/computequeue: portable records of
    scheduled work.  Nothing there stores or schedules; a record is accepted
    or refused against its predecessor, the records around it and verified
    receipts, and these checks are the component.
    - [ComputeQueue] (errors and primitives: canonical.go, primitives.go),
      [ComputeQueueCanonical] (the JSON scanner and writer of canonical.go),
      [ComputeQueueAuthorization] (bindings and policies),
      [ComputeQueueReceipts] (receipts, envelopes, verified receipts),
      [ComputeQueueTransitions] (the graphs and events, and schedules),
      [ComputeQueueAttempts], [ComputeQueueItems] (and reports),
      [ComputeQueueOccurrence]: the records with their validation, digests and
      updates.  [ComputeQueueLifecycle]: leases,
      signers and evidence of an assignment.  [ComputeQueueBoundary]: the
      authorization of attempts and their advance.  [ComputeQueueTerminal],
      [ComputeQueueEvidence]: the evidence of a final state, and the
      transitions of an occurrence.  [ComputeQueueAdmission]: job custody
      admissions with their P-256 verifier.
    - An error is a value of [QueueError]; a check returns [option], a
      function with a result a sum.  The parser of UUID texts is the class
      [UuidParser], a JSON decoder of a record the class [JsonDecoder].
    - [ComputeQueueFacts]: the tactic [passes], which takes an accepted check
      apart, digests and graphs, and a concrete attempt;
      [ComputeQueueReportFacts]: reports count items, and attempts are bounded;
      [ComputeQueueHistoryFacts]: histories of accepted calls by rule
      induction; [ComputeQueueCustodyFacts]: what custody and completion stand
      for, with an admission that the checks accept.

    ** What the theorems show

    - Invariants over every reachable store: the log and its index and
      counters, the fence discipline, the checkpoint history, the mailboxes.
    - Functional behaviour on every branch of publication, fetch,
      acknowledgment, fence refresh, activation, collection, recovery,
      rotation, rendezvous fetch, with the exact retry of each.
    - Safety: revocation is final, a tenant's revocation is all or nothing and
      names the first target at fault, collection deletes only what is covered
      and in custody and reports it exactly, an admission is claimed once, a
      closed route stays closed.
    - Composition: a device that device sync revokes is fenced by the relay in
      every domain of its principal, for good; the relay under device sync and
      under shared spaces is a reachable relay.
    - Refinement: device sync implements a registry in which a device is
      enrolled and withdrawn once and the last one leaves only with its
      principal; the store of Spaces implements a membership in which the
      founding host stays and only removals and revoked devices change the key
      epoch.  The registry counts what device sync itself revoked: see the run
      at the end of [DeviceSyncDevices] for a membership that was revoked at
      the relay directly.
    - Spaces: the event log replayed gives the Space; a revocation takes it one
      epoch further and grants the key to exactly the devices that remain;
      rosters are one signed chain; the key that was generated for an epoch of a
      managed Space can be had back whatever calls follow.
    - Evidence: an accepted job history is one signed chain, a completed job
      was executed and applied; a policy that allows more waits for everyone;
      queued work is in signed custody as a whole, a completed occurrence has a
      signed application of every item, a report is the count of its items.
    - Histories of the compute queue: whatever updates and events are accepted,
      an occurrence and an assignment stay what was authorized, final states
      are final, an assignment has ten events at most and an occurrence 32
      attempts.
    - Liveness: asking for the plan and collecting again and again completes
      the deletion of a checkpoint; a transfer through an honest
      source and sink completes; a published message stays available.
    - Codecs and canonical forms: cursors, frames, plan digests, capability
      lists.  Bounds: leases, storage admission and reservations on [int64].

    ** Modelling choices

    Go maps are [gmap]; where the source iterates over a map the model uses
    [map_to_list] and the theorems do not depend on its order.  Integers are
    [Z], with [i64] or [u64] at the additions and subtractions that could
    wrap.  [time.Now], contexts, sources, sinks and capacity probes are
    parameters.  Loops without a structural measure carry fuel computed from
    their bound (the bytes left of a transfer, the length of the data written,
    the width of a binary search), and a theorem or lemma shows it is enough.

    ** Not modelled

    The PostgreSQL stores (SQL run by a database), HTTP routing and server
    start-up, file-system custody of blobs, platform probes and system
    administration are input and output.  Of device sync, the bootstrap
    documents and the object-scope contracts, which the memory store does not
    implement, are left out, and so are attended_invitation.go and
    provisioning_bootstrap.go of shared spaces (wire contracts).  Of the
    compute queue, reading the trust-store file is left out; copying of
    records is the identity, since nothing there writes to an argument, and
    where the source iterates over a map in its random order the order decides
    only which of several errors is named.  The authority and migration
    documents, custody of jobs, backups and objects, and the migration
    coordinator are separate services that are not modelled.  Error texts are
    kept; JSON decoding of requests is not part of the modelled packages. *)
