(* ===== verification/Prelude.v ===== *)
(** * Prelude: what every component shares

    Machine integers with their wrap-around ([i64], [u64]), optional values,
    validation chains ([>>?]), record update, the state-and-error monad [M]
    with its predicate transformer [wp] and its tactics, lemmas on maps and
    lists.  [FacetsNode] is the guide to the development. *)

From stdpp Require Export base tactics option list gmap strings sorting fin_maps.
From Stdlib Require Export ZArith Lia.

#[global] Set Default Proof Using "Type".

Declare Scope go_scope.
Delimit Scope go_scope with go.
Open Scope go_scope.
Open Scope Z_scope.

(** ** Machine integers

    Go's [int], [int64] and [uint64] are [Z]; the wrap-around of every
    addition or subtraction that the source performs on them is written with
    [i64] and [u64]. *)

Infix "≥" := Z.ge (at level 70, no associativity) : Z_scope.

#[global] Instance Z_ge_decision : RelDecision Z.ge.
Proof. intros x y. refine (cast_if (decide (y ≤ x))); lia. Defined.
#[global] Instance Z_gt_decision : RelDecision Z.gt.
Proof. intros x y. refine (cast_if (decide (y < x))); lia. Defined.

Abbreviation int64 := Z (only parsing).
Abbreviation uint64 := Z (only parsing).

Definition MaxInt64 : Z := 2 ^ 63 - 1.

Definition u64 (x : Z) : Z := x mod 2 ^ 64.

Definition i64 (x : Z) : Z := (x + 2 ^ 63) mod 2 ^ 64 - 2 ^ 63.

(** Go's [len] of a slice or map, an [int]. *)
Definition zlen {A} (l : list A) : Z := Z.of_nat (length l).

Definition zsize {K A} `{Countable K} (m : gmap K A) : Z := Z.of_nat (size m).

(** ** Optional values

    A Go pointer to an immutable scalar is an [option]; the idiom
    [p != nil && P( *p )] is [some_and p P]. *)

Definition some_and {A} (o : option A) (P : A → Prop) : Prop :=
  match o with Some a => P a | None => False end.

#[global] Instance some_and_dec {A} (o : option A) (P : A → Prop)
  `{∀ a, Decision (P a)} : Decision (some_and o P).
Proof. destruct o; simpl; apply _. Defined.

(** The idiom [p == nil || P( *p )]. *)
Definition none_or {A} (o : option A) (P : A → Prop) : Prop :=
  match o with Some a => P a | None => True end.

#[global] Instance none_or_dec {A} (o : option A) (P : A → Prop)
  `{∀ a, Decision (P a)} : Decision (none_or o P).
Proof. destruct o; simpl; apply _. Defined.

(** ** Validation

    The value of [Validate]-style methods: [None] is a nil error.  [a >>? b]
    returns the error of [a], and runs [b] when there is none. *)
Definition err_when {E} (P : Prop) `{Decision P} (e : E) : option E :=
  if decide P then Some e else None.

Definition err_then {E} (a b : option E) : option E :=
  match a with Some e => Some e | None => b end.

Notation "a >>? b" := (err_then a b) (at level 100, right associativity) : go_scope.

(** ** Record update

    [r <| field := v |>] replaces one field.  [Eta] lists the fields of a
    record once; [mk_update] turns that list into the update of one field. *)

Class Eta (R : Type) := eta : R → R.
#[global] Hint Mode Eta ! : typeclass_instances.

Class Update {R A : Type} (field : R → A) := update : (A → A) → R → R.
#[global] Arguments update {_ _} field {_} _ _.

Ltac mk_update :=
  match goal with
  | |- @Update ?R ?A ?field =>
    let body := constr:(_ : Eta R) in
    let body := eval red in body in
    lazymatch eval pattern field in body with
    | (fun _ => ?constant) _ => fail "no such field"
    | ?rebuild _ =>
      let f := constr:(fun (g : A → A) => rebuild (fun r : R => g (field r))) in
      let f := eval cbv beta in f in exact f
    end
  end.

Notation "r <| field := v |>" := (update field (fun _ => v) r)
  (at level 1, left associativity, format "r  <|  field  :=  v  |>") : go_scope.

(** ** Stateful, fallible computations

    A Go method returning [(A, error)] while mutating state [S] is a function
    from the state to the final state and the outcome.  The state survives an
    error return: mutations made before the [return err] stay. *)

Definition M (E S A : Type) : Type := S → S * (E + A).

Section monad.
Context {E S : Type}.

Definition ret {A} (a : A) : M E S A := fun s => (s, inr a).

Definition throw {A} (e : E) : M E S A := fun s => (s, inl e).

Definition bind {A B} (m : M E S A) (f : A → M E S B) : M E S B := fun s =>
  match m s with
  | (s', inl e) => (s', inl e)
  | (s', inr a) => f a s'
  end.

Definition get : M E S S := fun s => (s, inr s).

Definition modify (f : S → S) : M E S unit := fun s => (f s, inr tt).

(** [if cond { return err }] *)
Definition reject_if (P : Prop) `{Decision P} (e : E) : M E S unit := fun s =>
  if decide P then (s, inl e) else (s, inr tt).

(** [if err := f(); err != nil { return err }] *)
Definition check (o : option E) : M E S unit := fun s =>
  match o with Some e => (s, inl e) | None => (s, inr tt) end.

(** [x, err := f(); if err != nil { return err }] *)
Definition try {A} (r : E + A) : M E S A := fun s => (s, r).

(** [x, ok := m[k]; if !ok { return err }] *)
Definition found_or {A} (o : option A) (e : E) : M E S A := fun s =>
  match o with Some a => (s, inr a) | None => (s, inl e) end.
End monad.

Notation "'let*' x ':=' m 'in' k" := (bind m (fun x => k))
  (at level 10, x pattern, m at level 99, k at level 200) : go_scope.
Notation "m ';;;' k" := (bind m (fun _ => k))
  (at level 100, right associativity) : go_scope.

(** A predicate transformer for [M]: [wp m Q s] says that running [m] from [s]
    ends in a final state and an outcome satisfying [Q]. *)

Definition wp {E S A} (m : M E S A) (Q : S → E + A → Prop) (s : S) : Prop :=
  Q (m s).1 (m s).2.

(** [Preserves I m]: [m] keeps [I], whether it succeeds or fails.  A class, so
    that a component's promise about its operations is found by resolution. *)
Class Preserves {E S A} (I : S → Prop) (m : M E S A) : Prop :=
  preserves : ∀ s, I s → wp m (fun s' _ => I s') s.
#[global] Hint Mode Preserves - - - ! ! : typeclass_instances.

(** ** Sums over maps *)

Definition map_sum {K A} `{Countable K} (f : A → Z) (m : gmap K A) : Z :=
  map_fold (fun _ x acc => f x + acc) 0 m.

Definition list_sum {A} (f : A → Z) (l : list A) : Z :=
  foldr (fun x acc => f x + acc) 0 l.

(** Some entry of the map satisfies [P]: the outcome of a [for range] loop
    that looks for one, whatever the iteration order. *)
Definition map_any {K A} `{Countable K} (P : K → A → Prop) (m : gmap K A) : Prop :=
  Exists (fun kv => P kv.1 kv.2) (map_to_list m).

#[global] Instance map_any_dec {K A} `{Countable K} (P : K → A → Prop)
  `{∀ k a, Decision (P k a)} (m : gmap K A) : Decision (map_any P m).
Proof. unfold map_any. apply _. Defined.

(** Deciding an applied predicate decides its body. *)
#[global] Hint Extern 5 (Decision _) => progress cbv beta : typeclass_instances.

(** The number of entries satisfying [P]. *)
Definition map_count {K A} `{Countable K} (P : K → A → Prop)
  `{∀ k a, Decision (P k a)} (m : gmap K A) : Z :=
  zsize (filter (fun kv => P kv.1 kv.2) m).

(** ** Machine integer lemmas *)

Lemma i64_small x : - 2 ^ 63 ≤ x < 2 ^ 63 → i64 x = x.
Proof. intros. unfold i64. rewrite Z.mod_small; lia. Qed.

Lemma u64_small x : 0 ≤ x < 2 ^ 64 → u64 x = x.
Proof. intros. unfold u64. by rewrite Z.mod_small. Qed.

Lemma i64_range x : - 2 ^ 63 ≤ i64 x < 2 ^ 63.
Proof. unfold i64. pose proof (Z.mod_pos_bound (x + 2 ^ 63) (2 ^ 64)). lia. Qed.

(** [i64] is reduction modulo 2^64, so it absorbs itself under a sum. *)
Lemma i64_add_l x y : i64 (i64 x + y) = i64 (x + y).
Proof.
  unfold i64.
  replace ((x + 2 ^ 63) mod 2 ^ 64 - 2 ^ 63 + y + 2 ^ 63)
    with ((x + 2 ^ 63) mod 2 ^ 64 + y) by lia.
  rewrite Zplus_mod_idemp_l. f_equal. f_equal. lia.
Qed.

Lemma i64_sub_l x y : i64 (i64 x - y) = i64 (x - y).
Proof. rewrite <- !Z.add_opp_r. apply i64_add_l. Qed.

Lemma err_when_None {E} P `{Decision P} (e : E) : err_when P e = None ↔ ¬ P.
Proof. unfold err_when. case_decide; naive_solver. Qed.

Lemma err_when_Some {E} P `{Decision P} (e e' : E) : err_when P e = Some e' ↔ P ∧ e' = e.
Proof. unfold err_when. case_decide; naive_solver. Qed.

Lemma err_then_None {E} (a b : option E) : err_then a b = None ↔ a = None ∧ b = None.
Proof. destruct a; simpl; naive_solver. Qed.

(** ** Options *)

Lemma some_and_Some {A} (o : option A) P : some_and o P ↔ ∃ a, o = Some a ∧ P a.
Proof. destruct o; simpl; naive_solver. Qed.

Lemma none_or_spec {A} (o : option A) P : none_or o P ↔ ∀ a, o = Some a → P a.
Proof. destruct o; simpl; naive_solver. Qed.

(** Linear arithmetic with division and remainder by constants. *)
Ltac dlia := Z.to_euclidean_division_equations; lia.

(** ** Rules for [wp] *)

Section wp.
Context {E S : Type}.
Implicit Types s : S.

Lemma wp_elim {A} (m : M E S A) Q s s' r : wp m Q s → m s = (s', r) → Q s' r.
Proof. unfold wp. intros HQ Hm. by rewrite Hm in HQ. Qed.

Lemma wp_intro {A} (m : M E S A) (Q : S → E + A → Prop) s :
  (∀ s' r, m s = (s', r) → Q s' r) → wp m Q s.
Proof. unfold wp. destruct (m s) eqn:Hm. intros HQ. by apply HQ. Qed.

Lemma wp_mono {A} (m : M E S A) (P Q : S → E + A → Prop) s :
  wp m P s → (∀ s' r, P s' r → Q s' r) → wp m Q s.
Proof. unfold wp. auto. Qed.

Lemma wp_ret {A} (a : A) (Q : S → E + A → Prop) s : Q s (inr a) → wp (ret a) Q s.
Proof. done. Qed.

Lemma wp_throw {A} (e : E) (Q : S → E + A → Prop) s : Q s (inl e) → wp (throw e) Q s.
Proof. done. Qed.

Lemma wp_bind {A B} (m : M E S A) (f : A → M E S B) (Q : S → E + B → Prop) s :
  wp m (fun s' r => match r with inl e => Q s' (inl e) | inr a => wp (f a) Q s' end) s →
  wp (bind m f) Q s.
Proof. unfold wp, bind. by destruct (m s) as [s' [e|a]]. Qed.

Lemma wp_get (Q : S → E + S → Prop) s : Q s (inr s) → wp get Q s.
Proof. done. Qed.

Lemma wp_modify f (Q : S → E + unit → Prop) s : Q (f s) (inr tt) → wp (modify f) Q s.
Proof. done. Qed.

Lemma wp_reject_if (P : Prop) `{Decision P} (e : E) (Q : S → E + unit → Prop) s :
  (P → Q s (inl e)) → (¬ P → Q s (inr tt)) → wp (reject_if P e) Q s.
Proof. unfold wp, reject_if. case_decide; auto. Qed.

Lemma wp_check (o : option E) (Q : S → E + unit → Prop) s :
  (∀ e, o = Some e → Q s (inl e)) → (o = None → Q s (inr tt)) → wp (check o) Q s.
Proof. unfold wp, check. destruct o; eauto. Qed.

Lemma wp_try {A} (r : E + A) (Q : S → E + A → Prop) s :
  (∀ e, r = inl e → Q s (inl e)) → (∀ a, r = inr a → Q s (inr a)) → wp (try r) Q s.
Proof. unfold wp, try. destruct r; eauto. Qed.

Lemma wp_found_or {A} (o : option A) (e : E) (Q : S → E + A → Prop) s :
  (o = None → Q s (inl e)) → (∀ a, o = Some a → Q s (inr a)) → wp (found_or o e) Q s.
Proof. unfold wp, found_or. destruct o; eauto. Qed.
End wp.

(** A run with a known outcome. *)
Lemma ran {E S A} (m : M E S A) s r : (m s).2 = r → m s = ((m s).1, r).
Proof. intros <-. by destruct (m s). Qed.

(** [wp_step] applies the rule of the computation at the head of the goal;
    the outcome of each test appears as a hypothesis. *)
Ltac wp_step :=
  lazymatch goal with
  | |- wp (bind _ _) _ _ => apply wp_bind
  | |- wp (ret _) _ _ => apply wp_ret
  | |- wp (throw _) _ _ => apply wp_throw
  | |- wp get _ _ => apply wp_get
  | |- wp (modify _) _ _ => apply wp_modify
  | |- wp (reject_if _ _) _ _ => apply wp_reject_if; intros ?
  | |- wp (check _) _ _ => apply wp_check; [intros ? ?|intros ?]
  | |- wp (try _) _ _ => apply wp_try; intros ? ?
  | |- wp (found_or _ _) _ _ => apply wp_found_or; [intros ?|intros ? ?]
  | |- wp (if ?c then _ else _) _ _ => destruct c eqn:?
  | |- wp (match ?c with _ => _ end) _ _ => destruct c eqn:?
  end; cbn beta iota.

Ltac wp_steps := repeat wp_step.

(** ** Sums *)

Section map_sum.
Context {K A : Type} `{Countable K}.
Implicit Types (f : A → Z) (m : gmap K A).

Lemma map_sum_empty f : map_sum f (∅ : gmap K A) = 0.
Proof. apply map_fold_empty. Qed.

Lemma map_sum_insert f m i x :
  m !! i = None → map_sum f (<[i:=x]> m) = f x + map_sum f m.
Proof. intros Hi. unfold map_sum. rewrite map_fold_insert_L; [done| |done]. intros. lia. Qed.

Lemma map_sum_delete f m i x :
  m !! i = Some x → map_sum f (delete i m) = map_sum f m - f x.
Proof.
  intros Hi. rewrite <- (insert_delete_id m i x Hi) at 2.
  rewrite map_sum_insert by apply lookup_delete_eq. lia.
Qed.

Lemma map_sum_update f m i x y :
  m !! i = Some x → map_sum f (<[i:=y]> m) = map_sum f m - f x + f y.
Proof.
  intros Hi. rewrite <- insert_delete_eq, map_sum_insert by apply lookup_delete_eq.
  rewrite (map_sum_delete _ _ _ x) by done. lia.
Qed.

Lemma map_sum_nonneg f m : (∀ k x, m !! k = Some x → 0 ≤ f x) → 0 ≤ map_sum f m.
Proof.
  induction m as [|i x m Hi IH] using map_ind; intros Hf; [by rewrite map_sum_empty|].
  rewrite map_sum_insert by done.
  assert (0 ≤ f x) by (apply (Hf i), lookup_insert_eq).
  enough (0 ≤ map_sum f m) by lia. apply IH. intros k y Hk.
  apply (Hf k). rewrite lookup_insert_ne; [done|]. intros ->. congruence.
Qed.

Lemma map_any_spec (P : K → A → Prop) m :
  map_any P m ↔ ∃ k x, m !! k = Some x ∧ P k x.
Proof.
  unfold map_any. rewrite Exists_exists. split.
  - intros ([k x] & Hin & HP). apply elem_of_map_to_list in Hin. eauto.
  - intros (k & x & Hk & HP). exists (k, x). by rewrite elem_of_map_to_list.
Qed.
End map_sum.

(** Filters that agree on the elements of the list. *)
Lemma filter_ext_in {A} (P Q : A → Prop) `{∀ x, Decision (P x)} `{∀ x, Decision (Q x)}
    (l : list A) :
  (∀ x, x ∈ l → P x ↔ Q x) → filter P l = filter Q l.
Proof.
  induction l as [|x l IH]; intros HPQ; [done|]. rewrite !filter_cons.
  rewrite IH by (intros y Hy; apply HPQ; by right).
  specialize (HPQ x (list_elem_of_here x l)). repeat case_decide; tauto.
Qed.

Lemma length_filter_split {A} (P : A → Prop) `{∀ x, Decision (P x)} (l : list A) :
  zlen l = zlen (filter P l) + zlen (filter (fun x => ¬ P x) l).
Proof.
  unfold zlen. induction l as [|x l IH]; [done|]. rewrite !filter_cons.
  repeat case_decide; simpl; try tauto; lia.
Qed.

(** Distinct images have one preimage in the list. *)
Lemma NoDup_fmap_inj_elem {A B} (f : A → B) (l : list A) x y :
  NoDup (f <$> l) → x ∈ l → y ∈ l → f x = f y → x = y.
Proof.
  induction l as [|a l IH]; [by intros _ ?%elem_of_nil|]. cbn. intros [Ha Hl]%NoDup_cons.
  intros [->|Hx]%elem_of_cons [->|Hy]%elem_of_cons Hf; [done| | |by apply IH]; exfalso; apply Ha;
    apply list_elem_of_fmap; eauto.
Qed.

Section list_sum.
Context {A : Type}.
Implicit Types (f : A → Z) (l : list A).

Lemma list_sum_app f l1 l2 : list_sum f (l1 ++ l2) = list_sum f l1 + list_sum f l2.
Proof. induction l1; simpl; lia. Qed.

Lemma list_sum_nonneg f l : Forall (fun x => 0 ≤ f x) l → 0 ≤ list_sum f l.
Proof. induction 1; simpl; lia. Qed.

(** Splitting a sum along a filter. *)
Lemma list_sum_filter f l (P : A → Prop) `{∀ x, Decision (P x)} :
  list_sum f (filter P l) = list_sum f l - list_sum f (filter (fun x => ¬ P x) l).
Proof.
  induction l as [|x l IH]; [done|]. rewrite !filter_cons.
  repeat case_decide; simpl in *; try tauto; lia.
Qed.

Lemma zlen_app l1 l2 : zlen (l1 ++ l2) = zlen l1 + zlen l2.
Proof. unfold zlen. rewrite length_app. lia. Qed.
End list_sum.

(** ** Loops over maps and counters *)

(** A loop of [delete]s. *)
Lemma lookup_foldl_delete {K A} `{Countable K} (l : list K) (m : gmap K A) k x :
  foldl (fun m i => delete i m) m l !! k = Some x ↔ m !! k = Some x ∧ k ∉ l.
Proof.
  revert m. induction l as [|i l IH]; intros m; simpl.
  - rewrite elem_of_nil. tauto.
  - rewrite IH, lookup_delete_Some, not_elem_of_cons. naive_solver.
Qed.

(** A loop that subtracts from a counter. *)
Lemma foldl_i64_sub {A} (f : A → Z) l total :
  foldl (fun t x => i64 (t - f x)) (i64 total) l = i64 (total - list_sum f l).
Proof.
  revert total. induction l as [|x l IH]; intros total; simpl; [f_equal; lia|].
  rewrite i64_sub_l, IH. f_equal. lia.
Qed.

(** A fold whose steps keep an invariant. *)
Lemma foldl_invariant {A B} (P : B → Prop) (f : B → A → B) l b :
  P b → (∀ b a, P b → P (f b a)) → P (foldl f b l).
Proof. intros Hb Hf. revert b Hb. induction l; simpl; auto. Qed.

Lemma list_sum_perm {A} (f : A → Z) l1 l2 : l1 ≡ₚ l2 → list_sum f l1 = list_sum f l2.
Proof. induction 1; simpl; lia. Qed.

Lemma omap_lookup_delete {K A} `{Countable K} (m : gmap K A) i (l : list K) :
  i ∉ l → omap (fun k => delete i m !! k) l = omap (fun k => m !! k) l.
Proof.
  induction l as [|k l IH]; [done|]. rewrite not_elem_of_cons. intros [Hk Hl]. simpl.
  rewrite lookup_delete_ne by done. destruct (m !! k); [f_equal|]; by apply IH.
Qed.

(** Deleting distinct keys takes the sum of their entries away. *)
Lemma map_sum_foldl_delete {K A} `{Countable K} (f : A → Z) (m : gmap K A) (l : list K) :
  NoDup l →
  map_sum f (foldl (fun m i => delete i m) m l) =
  map_sum f m - list_sum f (omap (fun k => m !! k) l).
Proof.
  intros Hl. revert m. induction Hl as [|i l Hi Hl IH]; intros m; [simpl; lia|].
  cbn [foldl]. rewrite IH, omap_lookup_delete by done.
  destruct (m !! i) as [x|] eqn:Hx; simpl; rewrite Hx; simpl.
  - rewrite (map_sum_delete _ _ _ x) by done. unfold omap. lia.
  - by rewrite delete_id.
Qed.

(** ** Sizes *)

Section zsize.
Context {K A : Type} `{Countable K}.
Implicit Types m : gmap K A.

Lemma zsize_insert_new m k x : m !! k = None → zsize (<[k := x]> m) = zsize m + 1.
Proof. intros Hk. unfold zsize. rewrite map_size_insert_None by done. lia. Qed.

Lemma zsize_insert_old m k x : is_Some (m !! k) → zsize (<[k := x]> m) = zsize m.
Proof. intros Hk. unfold zsize. by rewrite map_size_insert_Some. Qed.

Lemma zsize_insert_le m k x : zsize m ≤ zsize (<[k := x]> m) ≤ zsize m + 1.
Proof.
  destruct (m !! k) eqn:Hk; [rewrite zsize_insert_old by done|rewrite zsize_insert_new by done];
    lia.
Qed.

Lemma zsize_delete_le m k : zsize (delete k m) ≤ zsize m.
Proof. unfold zsize. rewrite map_size_delete. destruct (m !! k); unfold id; lia. Qed.

Lemma zsize_nonneg m : 0 ≤ zsize m.
Proof. unfold zsize. lia. Qed.

Lemma zsize_foldl_delete (l : list K) m :
  NoDup l → (∀ k, k ∈ l → is_Some (m !! k)) →
  zsize (foldl (fun m k => delete k m) m l) = zsize m - zlen l.
Proof.
  intros Hl. revert m. induction Hl as [|k l Hk Hl IH]; intros m Hm; simpl.
  - change (zlen (@nil K)) with 0. lia.
  - rewrite IH.
    + destruct (Hm k) as [x Hx]; [by left|]. unfold zsize, zlen. rewrite map_size_delete, Hx.
      assert (size m ≠ 0)%nat. { apply map_size_ne_0_lookup. eauto. } simpl. lia.
    + intros k' Hk'. rewrite lookup_delete_ne by (intros ->; done). apply Hm. by right.
Qed.
End zsize.

(** ** Sorting *)

(** Sorting permutations of a list whose keys are distinct gives one list. *)
Lemma merge_sort_unique {A} (R : relation A) `{!RelDecision R, !Total R, !Transitive R} l1 l2 :
  (∀ x y, x ∈ l1 → y ∈ l1 → R x y → R y x → x = y) → l1 ≡ₚ l2 →
  merge_sort R l1 = merge_sort R l2.
Proof.
  intros Hanti Hp. apply (StronglySorted_unique_strong R).
  - intros x y. rewrite !merge_sort_Permutation. intros Hx Hy. apply Hanti; [done|by rewrite Hp].
  - by apply StronglySorted_merge_sort.
  - by apply StronglySorted_merge_sort.
  - by rewrite !merge_sort_Permutation.
Qed.
