(* ===== verification/GoEncoding.v ===== *)
(** * The Go standard library functions the relay relies on

    Big-endian integers ([encoding/binary]), lower-case hex ([encoding/hex]),
    strict unpadded base64url ([base64.RawURLEncoding.Strict()]), ASCII
    [strings.ToLower], the string ordering of [<] and [sort.Strings], the JSON
    rendering of strings and integers, and binary search ([sort.Search]).
    A Go [string] is a [string] of bytes and a [[]byte] a list of bytes. *)

From Stdlib Require Export Ascii.
From stdpp Require Import pretty.
From S2P Require Import Prelude.
#[local] Open Scope Z_scope.

Abbreviation bytes := (list ascii) (only parsing).

Definition byte_of (n : Z) : ascii := ascii_of_N (Z.to_N n).

Definition byte_val (c : ascii) : Z := Z.of_N (N_of_ascii c).

Definition str (s : string) : bytes := String.list_ascii_of_string s.

Definition of_str (l : bytes) : string := String.string_of_list_ascii l.

(** ** encoding/binary *)

(** [width] bytes, most significant first; higher bits of [n] are dropped. *)
Fixpoint be_bytes (width : nat) (n : Z) : bytes :=
  match width with
  | O => []
  | S w => byte_of (n / 256 ^ Z.of_nat w mod 256) :: be_bytes w n
  end.

Fixpoint be_value (acc : Z) (l : bytes) : Z :=
  match l with
  | [] => acc
  | c :: l' => be_value (acc * 256 + byte_val c) l'
  end.

Definition BigEndian_PutUint64 (n : Z) : bytes := be_bytes 8 n.
Definition BigEndian_PutUint32 (n : Z) : bytes := be_bytes 4 n.
Definition BigEndian_Uint (l : bytes) : Z := be_value 0 l.

(** ** UUIDs

    [uuid.UUID] is [[16]byte]; a value is the sixteen bytes read as one
    big-endian number, so [==] is equality and the zero array [uuid.Nil] is 0.
    The text forms belong to github.com/google/uuid and stay parameters. *)

Abbreviation UUID := N (only parsing).

Definition uuid_Nil : UUID := 0%N.

Definition uuid_bytes (u : UUID) : bytes := be_bytes 16 (Z.of_N u).

Class UuidLib := {
  uuid_String : UUID → string;
  uuid_MarshalText : UUID → string;
}.

(** ** encoding/hex *)

Definition hex_digits : string := "0123456789abcdef".

Definition hex_digit (n : Z) : ascii :=
  default Ascii.zero (String.get (Z.to_nat n) hex_digits).

Definition hex_value (c : ascii) : option Z :=
  let n := byte_val c in
  if decide (48 ≤ n ≤ 57) then Some (n - 48)
  else if decide (97 ≤ n ≤ 102) then Some (n - 87)
  else if decide (65 ≤ n ≤ 70) then Some (n - 55)
  else None.

Fixpoint hex_encode (l : bytes) : bytes :=
  match l with
  | [] => []
  | c :: l' => hex_digit (byte_val c / 16) :: hex_digit (byte_val c mod 16) :: hex_encode l'
  end.

Definition hex_EncodeToString (l : bytes) : string := of_str (hex_encode l).

Fixpoint hex_decode (l : bytes) : option bytes :=
  match l with
  | [] => Some []
  | h :: lo :: l' =>
    a ← hex_value h; b ← hex_value lo; rest ← hex_decode l';
    Some (byte_of (a * 16 + b) :: rest)
  | _ => None
  end.

Definition hex_DecodeString (s : string) : option bytes := hex_decode (str s).

(** ** base64.RawURLEncoding.Strict() *)

Definition b64_alphabet : string :=
  "ABCDEFGHIJKLMNOPQRSTUVWXYZabcdefghijklmnopqrstuvwxyz0123456789-_".

Definition b64_char (n : Z) : ascii :=
  default Ascii.zero (String.get (Z.to_nat n) b64_alphabet).

Definition b64_value (c : ascii) : option Z :=
  let n := byte_val c in
  if decide (65 ≤ n ≤ 90) then Some (n - 65)
  else if decide (97 ≤ n ≤ 122) then Some (n - 71)
  else if decide (48 ≤ n ≤ 57) then Some (n + 4)
  else if decide (n = 45) then Some 62
  else if decide (n = 95) then Some 63
  else None.

(** Three bytes make four sextets; a final one or two bytes make two or
    three, with zero trailing bits. *)
Fixpoint b64_sextets (l : bytes) : list Z :=
  match l with
  | [] => []
  | [a] => let a := byte_val a in [a / 4; a mod 4 * 16]
  | [a; b] =>
    let a := byte_val a in let b := byte_val b in
    [a / 4; a mod 4 * 16 + b / 16; b mod 16 * 4]
  | a :: b :: c :: l' =>
    let a := byte_val a in let b := byte_val b in let c := byte_val c in
    [a / 4; a mod 4 * 16 + b / 16; b mod 16 * 4 + c / 64; c mod 64] ++ b64_sextets l'
  end.

Definition b64_EncodeToString (l : bytes) : string := of_str (b64_char <$> b64_sextets l).

(** Groups of four sextets; strict mode refuses non-zero trailing bits, and a
    single left-over sextet is always an error. *)
Fixpoint b64_unsextets (l : list Z) : option bytes :=
  match l with
  | [] => Some []
  | [_] => None
  | [x; y] => if decide (y mod 16 = 0) then Some [byte_of (x * 4 + y / 16)] else None
  | [x; y; z] =>
    if decide (z mod 4 = 0)
    then Some [byte_of (x * 4 + y / 16); byte_of (y mod 16 * 16 + z / 4)] else None
  | x :: y :: z :: w :: l' =>
    rest ← b64_unsextets l';
    Some (byte_of (x * 4 + y / 16) :: byte_of (y mod 16 * 16 + z / 4)
          :: byte_of (z mod 4 * 64 + w) :: rest)
  end.

(** The decoder skips line feeds and carriage returns. *)
Definition b64_significant (l : bytes) : bytes :=
  filter (fun c => ¬ (byte_val c = 10 ∨ byte_val c = 13)) l.

Definition b64_DecodeString (s : string) : option bytes :=
  sextets ← mapM b64_value (b64_significant (str s));
  b64_unsextets sextets.

(** ** strings, ordering, JSON *)

(** [strings.ToLower] on ASCII letters.  Bytes of 128 and above are left
    alone; the source applies it to UUID texts and to candidate hex digests,
    and a digest with such a byte is refused by the hex decoder anyway. *)
Definition lower_byte (c : ascii) : ascii :=
  if decide (65 ≤ byte_val c ≤ 90) then byte_of (byte_val c + 32) else c.

Definition strings_ToLower (s : string) : string := of_str (lower_byte <$> str s).

(** Go orders strings byte by byte. *)
Definition str_lt (a b : string) : Prop := String.compare a b = Lt.
Definition str_le (a b : string) : Prop := String.compare a b ≠ Gt.

#[global] Instance str_lt_dec a b : Decision (str_lt a b).
Proof. unfold str_lt. apply _. Defined.
#[global] Instance str_le_dec a b : Decision (str_le a b).
Proof. unfold str_le. apply _. Defined.

Definition len (s : string) : Z := Z.of_nat (String.length s).

(** [json.Marshal] of a string, byte by byte for ASCII text. *)
Definition json_byte (c : ascii) : bytes :=
  let n := byte_val c in
  if decide (n = 34 ∨ n = 92) then [byte_of 92; c]
  else if decide (n = 8) then str "\b"
  else if decide (n = 12) then str "\f"
  else if decide (n = 10) then str "\n"
  else if decide (n = 13) then str "\r"
  else if decide (n = 9) then str "\t"
  else if decide (n < 32 ∨ n = 60 ∨ n = 62 ∨ n = 38)
  then str "\u00" ++ [hex_digit (n / 16); hex_digit (n mod 16)]
  else [c].

Definition json_string (s : string) : bytes :=
  [byte_of 34] ++ (str s ≫= json_byte) ++ [byte_of 34].

Definition json_int (n : Z) : bytes := str (pretty n).

(** ** sort.Search

    The smallest index in [0, n) satisfying a monotone predicate, by binary
    search; each iteration halves [j - i], so [n] iterations are enough. *)
Fixpoint search_loop (fuel : nat) (f : Z → bool) (i j : Z) : Z :=
  match fuel with
  | O => i
  | S fuel =>
    if decide (i < j) then
      let h := (i + j) / 2 in
      if f h then search_loop fuel f i h else search_loop fuel f (h + 1) j
    else i
  end.

Definition sort_Search (n : Z) (f : Z → bool) : Z := search_loop (Z.to_nat n) f 0 n.

(** ** Bytes *)

Lemma byte_val_range c : 0 ≤ byte_val c < 256.
Proof. unfold byte_val. pose proof (N_ascii_bounded c). lia. Qed.

Lemma byte_of_val c : byte_of (byte_val c) = c.
Proof. unfold byte_of, byte_val. rewrite N2Z.id. apply ascii_N_embedding. Qed.

Lemma byte_val_of n : 0 ≤ n < 256 → byte_val (byte_of n) = n.
Proof. intros. unfold byte_of, byte_val. rewrite N_ascii_embedding; lia. Qed.

#[global] Instance byte_val_inj : Inj (=) (=) byte_val.
Proof. intros c c' H. by rewrite <- (byte_of_val c), H, byte_of_val. Qed.

Lemma str_of_str l : str (of_str l) = l.
Proof. apply String.list_ascii_of_string_of_list_ascii. Qed.

Lemma of_str_str s : of_str (str s) = s.
Proof. apply String.string_of_list_ascii_of_string. Qed.

Lemma len_of_str l : len (of_str l) = zlen l.
Proof. unfold len, zlen. f_equal. induction l; simpl; [done|]. by f_equal. Qed.

(** A property of all bytes, decided by computation. *)
Lemma byte_brute (P : ascii → Prop) `{∀ c, Decision (P c)} :
  forallb (fun n => bool_decide (P (byte_of (Z.of_nat n)))) (seq 0 256) = true → ∀ c, P c.
Proof.
  intros Hall c. rewrite forallb_forall in Hall.
  pose proof (byte_val_range c).
  specialize (Hall (Z.to_nat (byte_val c))). rewrite Z2Nat.id, byte_of_val in Hall by lia.
  eapply bool_decide_eq_true_1, Hall, in_seq. lia.
Qed.

(** A property of all integers below a small bound, decided by computation. *)
Lemma small_brute (n : nat) (P : Z → Prop) `{∀ z, Decision (P z)} :
  forallb (fun k => bool_decide (P (Z.of_nat k))) (seq 0 n) = true →
  ∀ z, 0 ≤ z < Z.of_nat n → P z.
Proof.
  intros Hall z Hz. rewrite forallb_forall in Hall.
  specialize (Hall (Z.to_nat z)). rewrite Z2Nat.id in Hall by lia.
  eapply bool_decide_eq_true_1, Hall, in_seq. lia.
Qed.

(** ** Big-endian integers *)

Lemma be_bytes_length w n : length (be_bytes w n) = w.
Proof. induction w; simpl; auto. Qed.

Lemma be_value_acc l acc : be_value acc l = acc * 256 ^ zlen l + be_value 0 l.
Proof.
  revert acc. induction l as [|c l IH]; intros acc; [unfold zlen; simpl; lia|].
  cbn [be_value]. rewrite (IH (acc * 256 + byte_val c)), (IH (0 * 256 + byte_val c)).
  unfold zlen. cbn [length]. rewrite Nat2Z.inj_succ, Z.pow_succ_r by lia. lia.
Qed.

Lemma be_value_bytes w n : be_value 0 (be_bytes w n) = n mod 256 ^ Z.of_nat w.
Proof.
  induction w as [|w IH]; [by rewrite Z.mod_1_r|].
  cbn [be_bytes be_value]. rewrite be_value_acc, IH.
  unfold zlen. rewrite be_bytes_length.
  pose proof (Z.pow_pos_nonneg 256 (Z.of_nat w)).
  rewrite byte_val_of by (apply Z.mod_pos_bound; lia).
  replace (Z.of_nat (S w)) with (Z.of_nat w + 1) by lia.
  rewrite Z.pow_add_r, Z.pow_1_r, Z.rem_mul_r by lia. lia.
Qed.

Lemma be_value_range l : 0 ≤ be_value 0 l < 256 ^ zlen l.
Proof.
  induction l as [|c l IH]; [unfold zlen; simpl; lia|].
  cbn [be_value]. rewrite be_value_acc. pose proof (byte_val_range c).
  replace (zlen (c :: l)) with (zlen l + 1) by (unfold zlen; simpl; lia).
  rewrite Z.pow_add_r, Z.pow_1_r by (unfold zlen; lia). nia.
Qed.

Lemma be_bytes_value l : be_bytes (length l) (be_value 0 l) = l.
Proof.
  enough (∀ k, be_bytes (length l) (k * 256 ^ zlen l + be_value 0 l) = l) as Hk.
  { specialize (Hk 0). by rewrite Z.mul_0_l in Hk. }
  induction l as [|c l IH]; intros k; [done|].
  cbn [be_bytes length be_value]. rewrite (be_value_acc l).
  pose proof (be_value_range l) as Hr. pose proof (byte_val_range c).
  unfold zlen in *. cbn [length] in *. rewrite Nat2Z.inj_succ, Z.pow_succ_r by lia.
  set (B := 256 ^ Z.of_nat (length l)) in *.
  replace (k * (256 * B) + ((0 * 256 + byte_val c) * B + be_value 0 l))
    with ((k * 256 + byte_val c) * B + be_value 0 l) by lia.
  f_equal; [|apply IH].
  rewrite Z.div_add_l, (Z.div_small (be_value 0 l)), Z.add_0_r by lia.
  rewrite Z.add_comm, Z.mod_add, Z.mod_small by lia. apply byte_of_val.
Qed.

(** ** Hex *)

Lemma hex_value_digit n : 0 ≤ n < 16 → hex_value (hex_digit n) = Some n.
Proof. revert n. apply (small_brute 16 (fun n => hex_value (hex_digit n) = Some n)). by vm_compute. Qed.

Lemma hex_decode_encode l : hex_DecodeString (hex_EncodeToString l) = Some l.
Proof.
  unfold hex_DecodeString, hex_EncodeToString. rewrite str_of_str.
  induction l as [|c l IH]; [done|]. pose proof (byte_val_range c).
  cbn [hex_encode hex_decode].
  rewrite (hex_value_digit (byte_val c / 16)) by dlia.
  rewrite (hex_value_digit (byte_val c mod 16)) by dlia.
  cbn [mbind option_bind]. rewrite IH. cbn [mbind option_bind]. do 2 f_equal.
  rewrite Z.mul_comm, <- Z.div_mod by lia. apply byte_of_val.
Qed.

Lemma hex_encode_length l : len (hex_EncodeToString l) = 2 * zlen l.
Proof.
  unfold hex_EncodeToString. rewrite len_of_str. unfold zlen.
  induction l as [|c l IH]; [done|]. cbn [hex_encode length] in *. lia.
Qed.

#[global] Instance hex_EncodeToString_inj : Inj (=) (=) hex_EncodeToString.
Proof.
  intros l l' H. apply (f_equal hex_DecodeString) in H.
  rewrite !hex_decode_encode in H. congruence.
Qed.

Lemma hex_lower_value c : lower_byte c = c →
  match hex_value c with Some n => hex_digit n = c ∧ 0 ≤ n < 16 | None => True end.
Proof.
  revert c. apply (byte_brute (fun c => lower_byte c = c →
    match hex_value c with Some n => hex_digit n = c ∧ 0 ≤ n < 16 | None => True end)).
  by vm_compute.
Qed.

Lemma lower_fixpoint s : strings_ToLower s = s → Forall (fun c => lower_byte c = c) (str s).
Proof.
  intros H. apply (f_equal str) in H. unfold strings_ToLower in H. rewrite str_of_str in H.
  induction (str s) as [|c l IH]; [constructor|].
  cbn in H. injection H as Hc Hl. constructor; auto.
Qed.

(** Induction over a list in groups of two. *)
Lemma list_ind_2 {A} (P : list A → Prop) :
  P [] → (∀ a, P [a]) → (∀ a b l, P l → P (a :: b :: l)) → ∀ l, P l.
Proof. intros H0 H1 H2. fix IH 1. intros [|a [|b l]]; [done|done|]. apply H2, IH. Qed.

(** Lower-case hex is canonical: decoding and encoding gives the text back. *)
Lemma hex_encode_decode s l :
  strings_ToLower s = s → hex_DecodeString s = Some l → hex_EncodeToString l = s.
Proof.
  intros Hlow%lower_fixpoint. unfold hex_DecodeString. rewrite <- (of_str_str s) at 2.
  revert l Hlow. generalize (str s) as t. intros t.
  induction t as [|h|h lo t IH] using list_ind_2; intros l Hlow Hdec.
  1, 2: simpl in Hdec; by simplify_eq.
  rewrite !Forall_cons in Hlow. destruct Hlow as (Hh & Hlo & Ht).
  simpl in Hdec. pose proof (hex_lower_value h Hh) as H1. pose proof (hex_lower_value lo Hlo) as H2.
  destruct (hex_value h) as [a|], (hex_value lo) as [b|]; simpl in Hdec; try done.
  destruct (hex_decode t) as [r|] eqn:Hr; simpl in Hdec; [|done]. simplify_eq.
  destruct H1 as [<- ?], H2 as [<- ?].
  specialize (IH r Ht eq_refl). unfold hex_EncodeToString in *.
  cbn [hex_encode]. rewrite byte_val_of by lia.
  rewrite Z.div_add_l, (Z.div_small b 16), Z.add_0_r by lia.
  rewrite Z.add_comm, Z.mod_add, Z.mod_small by lia.
  apply (f_equal str) in IH. rewrite !str_of_str in IH. rewrite <- IH. done.
Qed.

(** ** Base64url *)

Lemma b64_value_char n : 0 ≤ n < 64 → b64_value (b64_char n) = Some n.
Proof. revert n. apply (small_brute 64 (fun n => b64_value (b64_char n) = Some n)). by vm_compute. Qed.

Lemma b64_significant_char n :
  0 ≤ n < 64 → ¬ (byte_val (b64_char n) = 10 ∨ byte_val (b64_char n) = 13).
Proof.
  revert n. apply (small_brute 64
    (fun n => ¬ (byte_val (b64_char n) = 10 ∨ byte_val (b64_char n) = 13))). by vm_compute.
Qed.

(** Induction over a list in groups of three. *)
Lemma list_ind_3 {A} (P : list A → Prop) :
  P [] → (∀ a, P [a]) → (∀ a b, P [a; b]) →
  (∀ a b c l, P l → P (a :: b :: c :: l)) → ∀ l, P l.
Proof.
  intros H0 H1 H2 H3. fix IH 1.
  intros [|a [|b [|c l]]]; [done|done|done|]. apply H3, IH.
Qed.

Lemma b64_sextets_range l : Forall (fun n => 0 ≤ n < 64) (b64_sextets l).
Proof.
  induction l as [|a|a b|a b c l IH] using list_ind_3; cbn [b64_sextets app];
    repeat (apply Forall_cons; split);
    try (pose proof (byte_val_range a); dlia);
    try (pose proof (byte_val_range a); pose proof (byte_val_range b); dlia);
    try (pose proof (byte_val_range b); pose proof (byte_val_range c); dlia); auto.
Qed.

Lemma byte_of_eq n c : n = byte_val c → byte_of n = c.
Proof. intros ->. apply byte_of_val. Qed.

Lemma b64_unsextets_sextets l : b64_unsextets (b64_sextets l) = Some l.
Proof.
  induction l as [|a|a b|a b c l IH] using list_ind_3; [done|..];
    pose proof (byte_val_range a); try pose proof (byte_val_range b);
    try pose proof (byte_val_range c); cbn [b64_sextets b64_unsextets app].
  - rewrite decide_True by dlia. do 2 f_equal. apply byte_of_eq. dlia.
  - rewrite decide_True by dlia. repeat f_equal; apply byte_of_eq; dlia.
  - rewrite IH. cbn [mbind option_bind]. repeat f_equal; apply byte_of_eq; dlia.
Qed.

(** Decoding inverts encoding. *)
Lemma b64_decode_encode l : b64_DecodeString (b64_EncodeToString l) = Some l.
Proof.
  unfold b64_DecodeString, b64_EncodeToString. rewrite str_of_str.
  pose proof (b64_sextets_range l) as Hr.
  assert (b64_significant (b64_char <$> b64_sextets l) = b64_char <$> b64_sextets l) as ->.
  { unfold b64_significant. induction Hr; [done|]. rewrite fmap_cons, filter_cons_True, IHHr; auto.
    by apply b64_significant_char. }
  assert (mapM b64_value (b64_char <$> b64_sextets l) = Some (b64_sextets l)) as ->.
  { apply mapM_fmap_Forall_Some. eapply Forall_impl; [exact Hr|]. intros. by apply b64_value_char. }
  cbn. apply b64_unsextets_sextets.
Qed.

#[global] Instance b64_EncodeToString_inj : Inj (=) (=) b64_EncodeToString.
Proof.
  intros l l' H. apply (f_equal b64_DecodeString) in H.
  rewrite !b64_decode_encode in H. congruence.
Qed.

Lemma b64_encode_nonempty c l : b64_EncodeToString (c :: l) ≠ "".
Proof.
  intros H. apply (f_equal b64_DecodeString) in H.
  rewrite b64_decode_encode in H. by vm_compute in H.
Qed.

(** ** Binary search *)

(** For a predicate that, once true, stays true up to [j], the search returns
    the first index at which it holds, or [j]. *)
Lemma search_loop_spec fuel f i j :
  0 ≤ i ≤ j → j - i ≤ Z.of_nat fuel →
  (∀ h k, i ≤ h ≤ k → k < j → f h = true → f k = true) →
  let r := search_loop fuel f i j in
  i ≤ r ≤ j ∧ (∀ k, i ≤ k < r → f k = false) ∧ (r < j → f r = true).
Proof.
  revert i j. induction fuel as [|fuel IH]; intros i j Hij Hfuel Hmono; cbn [search_loop].
  { split_and!; dlia. }
  case_decide; [|split_and!; lia].
  assert (i ≤ (i + j) / 2 < j) by dlia.
  destruct (f ((i + j) / 2)) eqn:Hh.
  - destruct (IH i ((i + j) / 2)) as (Hr & Hlow & Hup); [dlia|dlia| |].
    { intros h k ? ?. apply Hmono; lia. }
    split_and!; [dlia|dlia|done|]. intros _.
    destruct (decide (search_loop fuel f i ((i + j) / 2) < (i + j) / 2)); [auto|].
    replace (search_loop _ _ _ _) with ((i + j) / 2) by dlia. done.
  - destruct (IH ((i + j) / 2 + 1) j) as (Hr & Hlow & Hup); [dlia|dlia| |].
    { intros h k ? ?. apply Hmono; lia. }
    split_and!; [dlia|dlia| |done].
    intros k Hk. destruct (decide (k ≤ (i + j) / 2)); [|apply Hlow; dlia].
    destruct (f k) eqn:Hfk; [|done]. rewrite (Hmono k ((i + j) / 2)) in Hh; done || dlia.
Qed.

(** ** String order *)

Lemma str_le_leb a b : str_le a b ↔ String.le a b.
Proof. unfold str_le, String.le, String.leb. destruct (a ?= b)%string; simpl; naive_solver. Qed.

#[global] Instance str_le_trans : Transitive str_le.
Proof. intros a b c. rewrite !str_le_leb. apply transitivity. Qed.

#[global] Instance str_le_total : Total str_le.
Proof. intros a b. rewrite !str_le_leb. apply total. apply _. Qed.

#[global] Instance str_le_refl : Reflexive str_le.
Proof. intros a. rewrite str_le_leb. reflexivity. Qed.

#[global] Instance str_le_antisymm : AntiSymm (=) str_le.
Proof. intros a b. rewrite !str_le_leb. apply (anti_symm String.le). Qed.

Lemma str_lt_not_le a b : str_lt a b ↔ ¬ str_le b a.
Proof.
  unfold str_lt, str_le. rewrite (String.compare_antisym b a).
  destruct (a ?= b)%string; simpl; naive_solver.
Qed.

#[global] Instance str_lt_trans : Transitive str_lt.
Proof.
  intros a b c. rewrite !str_lt_not_le. intros Hab Hbc Hca.
  destruct (total str_le b c) as [Hle|Hle]; [|done]. apply Hab. by transitivity c.
Qed.

(** ** A concrete library

    RFC 4122 text, 8-4-4-4-12 hexadecimal digits: the [UuidLib] at which the
    theorems are exercised.  [token n] is the 32-byte token of number [n]. *)

Definition dashed (h : string) : string :=
  (String.substring 0 8 h +:+ "-" +:+ String.substring 8 4 h +:+ "-" +:+ String.substring 12 4 h +:+ "-" +:+
   String.substring 16 4 h +:+ "-" +:+ String.substring 20 12 h)%string.

Definition rfc4122 : UuidLib := {|
  uuid_String u := dashed (hex_EncodeToString (uuid_bytes u));
  uuid_MarshalText u := dashed (hex_EncodeToString (uuid_bytes u)) |}.

Definition token (n : Z) : string := b64_EncodeToString (be_bytes 32 n).
