(* ===== verification/Sha256.v ===== *)
(** * crypto/sha256

    FIPS 180-4 SHA-256 over lists of bytes, executable, so that every digest
    the relay compares can be evaluated.  Words are 32-bit values in [N]. *)

From S2P Require Import Prelude GoEncoding.
From Stdlib Require Import NArith.
#[local] Open Scope N_scope.

Definition mask32 : N := 4294967295.

Definition add32 (a b : N) : N := N.land (a + b) mask32.

Definition rotr (n x : N) : N :=
  N.lor (N.shiftr x n) (N.land (N.shiftl x (32 - n)) mask32).

Definition big_sigma0 (x : N) : N := N.lxor (N.lxor (rotr 2 x) (rotr 13 x)) (rotr 22 x).
Definition big_sigma1 (x : N) : N := N.lxor (N.lxor (rotr 6 x) (rotr 11 x)) (rotr 25 x).
Definition small_sigma0 (x : N) : N := N.lxor (N.lxor (rotr 7 x) (rotr 18 x)) (N.shiftr x 3).
Definition small_sigma1 (x : N) : N := N.lxor (N.lxor (rotr 17 x) (rotr 19 x)) (N.shiftr x 10).

Definition choose32 (e f g : N) : N := N.lxor (N.land e f) (N.land (N.lxor e mask32) g).
Definition majority (a b c : N) : N :=
  N.lxor (N.lxor (N.land a b) (N.land a c)) (N.land b c).

(** The constants are the first 32 bits of the fractional parts of the square
    and cube roots of the first primes. *)
Fixpoint primes_from (fuel : nat) (n : N) (found : list N) : list N :=
  match fuel with
  | O => found
  | S fuel =>
    let composite := existsb (fun p => n mod p =? 0) found in
    primes_from fuel (n + 1) (if composite then found else found ++ [n])
  end.

(** The 64 primes below 312. *)
Definition first_primes : list N := Eval vm_compute in primes_from 310 2 [].

(** The largest [r] with [r ^ 3 <= n] below [2 ^ bits + acc], bit by bit. *)
Fixpoint cube_root (bits : nat) (acc n : N) : N :=
  match bits with
  | O => acc
  | S bits =>
    let r := acc + 2 ^ N.of_nat bits in
    cube_root bits (if r * r * r <=? n then r else acc) n
  end.

Definition round_constants : list N := Eval vm_compute in
  (fun p => cube_root 40 0 (p * 2 ^ 96) mod 2 ^ 32) <$> first_primes.

Definition square_constants : list N := Eval vm_compute in
  (fun p => N.sqrt (p * 2 ^ 64) mod 2 ^ 32) <$> take 8 first_primes.

Record hash_state := HashState { ha : N; hb : N; hc : N; hd : N; he : N; hf : N; hg : N; hh : N }.

Definition initial_hash : hash_state :=
  match square_constants with
  | [a; b; c; d; e; f; g; h] => HashState a b c d e f g h
  | _ => HashState 0 0 0 0 0 0 0 0
  end.

Definition round (s : hash_state) (k w : N) : hash_state :=
  let t1 := add32 (add32 (hh s) (big_sigma1 (he s)))
                  (add32 (choose32 (he s) (hf s) (hg s)) (add32 k w)) in
  let t2 := add32 (big_sigma0 (ha s)) (majority (ha s) (hb s) (hc s)) in
  HashState (add32 t1 t2) (ha s) (hb s) (hc s) (add32 (hd s) t1) (he s) (hf s) (hg s).

(** The window holds the next sixteen words of the message schedule. *)
Fixpoint rounds (ks window : list N) (s : hash_state) : hash_state :=
  match ks, window with
  | k :: ks, w :: rest =>
    let next := add32 (add32 (small_sigma1 (nth 13 rest 0)) (nth 8 rest 0))
                      (add32 (small_sigma0 (nth 0 rest 0)) w) in
    rounds ks (rest ++ [next]) (round s k w)
  | _, _ => s
  end.

Definition add_state (s t : hash_state) : hash_state :=
  HashState (add32 (ha s) (ha t)) (add32 (hb s) (hb t)) (add32 (hc s) (hc t)) (add32 (hd s) (hd t))
            (add32 (he s) (he t)) (add32 (hf s) (hf t)) (add32 (hg s) (hg t)) (add32 (hh s) (hh t)).

Definition compress (s : hash_state) (block : list N) : hash_state :=
  add_state s (rounds round_constants block s).

(** Big-endian 32-bit words of a byte string. *)
Fixpoint words (l : bytes) : list N :=
  match l with
  | a :: b :: c :: d :: l' => Z.to_N (BigEndian_Uint [a; b; c; d]) :: words l'
  | _ => []
  end.

(** One [1] bit, zeros, and the 64-bit length in bits. *)
Definition pad (l : bytes) : bytes :=
  let n := zlen l in
  l ++ [byte_of 128] ++ replicate (Z.to_nat ((55 - n) mod 64)) (byte_of 0)
    ++ BigEndian_PutUint64 (8 * n).

Fixpoint blocks (fuel : nat) (ws : list N) (s : hash_state) : hash_state :=
  match fuel, ws with
  | S fuel, _ :: _ => blocks fuel (drop 16 ws) (compress s (take 16 ws))
  | _, _ => s
  end.

Definition digest_bytes (s : hash_state) : bytes :=
  [ha s; hb s; hc s; hd s; he s; hf s; hg s; hh s] ≫= fun w => BigEndian_PutUint32 (Z.of_N w).

(** [sha256.Sum256]; one block per sixteen words, so as many iterations as
    words are enough. *)
Definition Sum256 (l : bytes) : bytes :=
  let ws := words (pad l) in digest_bytes (blocks (length ws) ws initial_hash).

Definition sha256_Size : Z := 32%Z.

(** The FIPS 180-4 test vectors. *)
Example Sum256_abc : hex_EncodeToString (Sum256 (str "abc")) =
  "ba7816bf8f01cfea414140de5dae2223b00361a396177a9cb410ff61f20015ad".
Proof. by vm_compute. Qed.

Example Sum256_two_blocks :
  hex_EncodeToString (Sum256 (str "abcdbcdecdefdefgefghfghighijhijkijkljklmklmnlmnomnopnopq")) =
  "248d6a61d20638b8e5c026930c3e6039a33ce45964ff2167f6ecedd419db06c1".
Proof. by vm_compute. Qed.

Lemma Sum256_length l : zlen (Sum256 l) = 32%Z.
Proof.
  unfold Sum256, digest_bytes. generalize (blocks (length (words (pad l))) (words (pad l)) initial_hash).
  intros s. cbn [mbind list_bind]. unfold zlen. rewrite !length_app.
  unfold BigEndian_PutUint32. rewrite !be_bytes_length. done.
Qed.

#[global] Opaque Sum256.
