(* ===== verification/RelayModel.v ===== *)
(** * internal/relay: protocol types, limits and validation

    The data of [model.go], [data_plane.go], [checkpoint.go],
    [capacity_policy.go] and [errors.go]: one record per struct, one [_Validate]
    per [Validate] method, the credential digests, the cursors and the
    authorization predicates. *)

From S2P Require Import Prelude GoEncoding Sha256.
#[local] Open Scope Z_scope.

(** ** errors.go *)

Inductive ErrorCode : Set :=
  | CodeInvalidDomain | CodeInvalidTenant | CodeInvalidSubscription | CodeInvalidMember
  | CodeInvalidAdmission | CodeInvalidEnvelope | CodeInvalidBlob | CodeInvalidBlobUpload
  | CodeInvalidCursor | CodeInvalidAcknowledgment | CodeInvalidCheckpoint
  | CodeInvalidCheckpointFence | CodeCheckpointFenceNotFound | CodeCheckpointFenceCollision
  | CodeCheckpointFenceActive | CodeCheckpointNotFound | CodeCheckpointCollision
  | CodeCheckpointNotEligible | CodeCheckpointUnavailable | CodeRebootstrapIncomplete
  | CodeRebootstrapExpired | CodeCollectionPlanStale | CodeInvalidCredentialRotation
  | CodeUnauthorized | CodeWrongScope | CodeDomainNotFound | CodeTenantNotFound
  | CodeSubscriptionNotFound | CodeMemberNotFound | CodeAdmissionNotFound | CodeMemberExpired
  | CodeMemberRevoked | CodeAdmissionExpired | CodeAdmissionRevoked | CodeMissingCapability
  | CodeDomainCollision | CodeTenantCollision | CodeSubscriptionCollision | CodeMemberCollision
  | CodeAdmissionCollision | CodeAdmissionClaimed | CodeCredentialRotationCollision
  | CodeMemberCapabilityCollision | CodeCredentialReuse | CodeMessageCollision
  | CodeBlobCollision | CodeMessageNotFound | CodeBlobNotFound | CodeBlobUploadNotFound
  | CodeBlobUploadCollision | CodeDomainFull | CodeTenantFull.

(** A [ProtocolError] carries a code; [PlainError] is an error of [fmt.Errorf]. *)
Inductive GoError : Set :=
  | ProtocolError (Code : ErrorCode) (message : string)
  | PlainError (message : string).

#[global] Instance ErrorCode_eq_dec : EqDecision ErrorCode.
Proof. solve_decision. Defined.
#[global] Instance GoError_eq_dec : EqDecision GoError.
Proof. solve_decision. Defined.

Definition protocolError (code : ErrorCode) (message : string) : GoError :=
  ProtocolError code message.

Definition ErrorHasCode (err : GoError) (code : ErrorCode) : Prop :=
  match err with ProtocolError c _ => c = code | PlainError _ => False end.

(** ** Constants *)

Definition SchemaVersion : Z := 1.
Definition EnvelopeAlgorithm : string := "HKDF-SHA256+A256GCM".
Definition MaximumCiphertextByteCount : Z := 16 * 1024 * 1024.
Definition MaximumBlobByteCount : Z := 256 * 1024 * 1024.
Definition MaximumPageSize : Z := 100.
Definition AbsoluteMaximumMessageCount : Z := 1000000.
Definition AbsoluteMaximumBlobCount : Z := 1000000.
Definition AbsoluteMaximumMessageByteCount : Z := 1 * 1024 * 1024 * 1024 * 1024.
Definition AbsoluteMaximumBlobByteCount : Z := 1 * 1024 * 1024 * 1024 * 1024.
Definition MaximumAdmissionLifetimeMilliseconds : Z := 7 * 24 * 60 * 60 * 1000.
Definition MaximumActiveMemberCountPerDomain : Z := 256.
Definition MaximumRetainedMemberCountPerDomain : Z := 4096.
Definition MaximumOutstandingAdmissionCount : Z := 64.
Definition MaximumRetainedAdmissionCount : Z := 4096.
Definition MaximumAdmissionCollectionBatch : Z := 256.
Definition AdmissionRecoveryWindowMilliseconds : Z := 30 * 24 * 60 * 60 * 1000.
Definition MaximumCredentialRotationsPerSubject : Z := 256.
Definition MaximumCredentialRotationsPerDomain : Z := 4096.
Definition MinimumAuthorizationTokenSize : Z := 32.
Definition MaximumSequence : Z := 2 ^ 63 - 1.

Definition DefaultMaximumDomainCountPerTenant : Z := 256.
Definition DefaultMaximumMessageCountPerTenant : Z := 1000000.
Definition DefaultMaximumMessageBytesPerTenant : Z := 1 * 1024 * 1024 * 1024 * 1024.
Definition DefaultMaximumBlobCountPerTenant : Z := 1000000.
Definition DefaultMaximumBlobBytesPerTenant : Z := 1 * 1024 * 1024 * 1024 * 1024.

Definition MinimumSubscriptionRebootstrapLeaseMilliseconds : Z := 5 * 60 * 1000.
Definition MaximumSubscriptionRebootstrapLeaseMilliseconds : Z := 24 * 60 * 60 * 1000.

Definition MaximumCheckpointCollectionCount : Z := 10000.
Definition MinimumCheckpointFenceLifetimeMilliseconds : Z := 5 * 60 * 1000.
Definition DefaultCheckpointFenceLifetimeMilliseconds : Z := 2 * 60 * 60 * 1000.
Definition MaximumCheckpointFenceLifetimeMilliseconds : Z := 24 * 60 * 60 * 1000.

(** The domain separators end in a zero byte. *)
Definition domain_separator (s : string) : bytes := str s ++ [byte_of 0].

Definition memberAuthorizationDomain : bytes :=
  domain_separator "Facets replica relay member authorization v1".
Definition domainAuthorizationDomain : bytes :=
  domain_separator "Facets replica relay domain administration v1".
Definition admissionAuthorizationDomain : bytes :=
  domain_separator "Facets replica relay member admission v1".
Definition envelopeReferenceDomain : bytes :=
  domain_separator "Facets replica relay envelope reference v1".
Definition tenantAuthorizationDomain : bytes :=
  domain_separator "Facets replica relay tenant provisioning v1".

(** ** String checks *)

(** Sixty-four lower-case hex digits. *)
Definition validDigest (value : string) : Prop :=
  ¬ (len value ≠ sha256_Size * 2 ∨ strings_ToLower value ≠ value) ∧
  some_and (hex_DecodeString value) (fun decoded => zlen decoded = sha256_Size).

#[global] Instance validDigest_dec value : Decision (validDigest value).
Proof. unfold validDigest. apply _. Defined.

(** [hex] on both sides, then a constant-time comparison of the bytes. *)
Definition constantTimeDigestEqual (lhs rhs : string) : Prop :=
  some_and (hex_DecodeString lhs) (fun l =>
  some_and (hex_DecodeString rhs) (fun r => l = r)).

#[global] Instance constantTimeDigestEqual_dec l r : Decision (constantTimeDigestEqual l r).
Proof. unfold constantTimeDigestEqual. apply _. Defined.

Definition digestEqual (left right : string) : Prop :=
  some_and (hex_DecodeString left) (fun l =>
  some_and (hex_DecodeString right) (fun r => zlen l = sha256_Size ∧ l = r)).

#[global] Instance digestEqual_dec l r : Decision (digestEqual l r).
Proof. unfold digestEqual. apply _. Defined.

(** Canonical base64url of a bounded size. *)
Definition validBase64URLSize (value : string) (minimum maximum : Z) : Prop :=
  some_and (b64_DecodeString value) (fun decoded =>
    minimum ≤ zlen decoded ∧ zlen decoded ≤ maximum ∧ b64_EncodeToString decoded = value).

#[global] Instance validBase64URLSize_dec v a b : Decision (validBase64URLSize v a b).
Proof. unfold validBase64URLSize. apply _. Defined.

Definition validateToken (value : string) : option GoError :=
  err_when (¬ some_and (b64_DecodeString value) (fun decoded =>
      zlen decoded = MinimumAuthorizationTokenSize ∧ b64_EncodeToString decoded = value))
    (PlainError "token must be 32-byte unpadded base64url").

Definition BlobID (b : bytes) : string := b64_EncodeToString (Sum256 b).

Definition ValidateBlobID (value : string) : option GoError :=
  err_when (¬ some_and (b64_DecodeString value) (fun decoded =>
      zlen decoded = sha256_Size ∧ b64_EncodeToString decoded = value))
    (protocolError CodeInvalidBlob "blob identifier is invalid").

(** ** Cursors *)

Definition EncodeCursor (sequence : uint64) : string :=
  b64_EncodeToString (BigEndian_PutUint64 sequence).

Definition DecodeCursor (cursor : string) : GoError + uint64 :=
  if decide (cursor = "") then inr 0
  else
    match b64_DecodeString cursor with
    | Some decoded =>
      if decide (zlen decoded ≠ 8 ∨ b64_EncodeToString decoded ≠ cursor)
      then inl (protocolError CodeInvalidCursor "cursor is invalid")
      else
        let sequence := BigEndian_Uint decoded in
        if decide (sequence > MaximumSequence)
        then inl (protocolError CodeInvalidCursor "cursor is outside the supported range")
        else inr sequence
    | None => inl (protocolError CodeInvalidCursor "cursor is invalid")
    end.

Definition blank_byte (c : ascii) : Prop :=
  byte_val c = 10 ∨ byte_val c = 13 ∨ byte_val c = 9 ∨ byte_val c = 32.

#[global] Instance blank_byte_dec c : Decision (blank_byte c).
Proof. unfold blank_byte. apply _. Defined.

Definition ValidateOpaqueCursor (cursor : string) : option GoError :=
  err_when (cursor = "" ∨ len cursor > 4096 ∨ Exists blank_byte (str cursor))
    (protocolError CodeInvalidCursor "cursor is invalid").

(** ** Capabilities *)

Abbreviation Capability := string (only parsing).

Definition CapabilityPublishMessage : Capability := "message_publish".
Definition CapabilityFetchMessage : Capability := "message_fetch".
Definition CapabilityAcknowledgeMessage : Capability := "message_acknowledge".
Definition CapabilityPublishBlob : Capability := "blob_publish".
Definition CapabilityFetchBlob : Capability := "blob_fetch".
Definition CapabilityPublishCheckpoint : Capability := "checkpoint_publish".

Definition Capability_Valid (c : Capability) : Prop :=
  c = CapabilityPublishMessage ∨ c = CapabilityFetchMessage ∨
  c = CapabilityAcknowledgeMessage ∨ c = CapabilityPublishBlob ∨
  c = CapabilityFetchBlob ∨ c = CapabilityPublishCheckpoint.

#[global] Instance Capability_Valid_dec c : Decision (Capability_Valid c).
Proof. unfold Capability_Valid. apply _. Defined.

(** The loop of [validCapabilities], which the admission and member
    validations repeat: every capability is known and follows its predecessor. *)
Fixpoint valid_from (previous : option Capability) (capabilities : list Capability) : Prop :=
  match capabilities with
  | [] => True
  | c :: rest =>
    ¬ (¬ Capability_Valid c ∨ some_and previous (fun p => str_le c p)) ∧
    valid_from (Some c) rest
  end.

#[global] Instance valid_from_dec p l : Decision (valid_from p l).
Proof. revert p. induction l; intros p; simpl; apply _. Defined.

Definition validCapabilities (capabilities : list Capability) : Prop :=
  valid_from None capabilities.

#[global] Instance validCapabilities_dec l : Decision (validCapabilities l).
Proof. unfold validCapabilities. apply _. Defined.

(** [capabilitiesEqual] compares lengths, then elements: slice equality. *)
Definition capabilitiesEqual (left right : list Capability) : Prop := left = right.

#[global] Instance capabilitiesEqual_dec l r : Decision (capabilitiesEqual l r).
Proof. unfold capabilitiesEqual. apply _. Defined.

(** ** Credentials and their digests *)

Record Credential := mkCredential {
  cred_TenantID : UUID; cred_DomainID : UUID; cred_MemberID : UUID; cred_Token : string }.

Record AdministrationCredential := mkAdministrationCredential {
  acred_TenantID : UUID; acred_DomainID : UUID; acred_Token : string }.

Record AdmissionCredential := mkAdmissionCredential {
  mcred_TenantID : UUID; mcred_DomainID : UUID; mcred_AdmissionID : UUID; mcred_Token : string }.

Record TenantCredential := mkTenantCredential {
  tcred_TenantID : UUID; tcred_Token : string }.

(** Fields are separated by zero bytes; all but the last are lower-cased. *)
Fixpoint digest_material (fields : list string) : bytes :=
  match fields with
  | [] => []
  | [field] => str field
  | field :: rest => str (strings_ToLower field) ++ [byte_of 0] ++ digest_material rest
  end.

Definition scopedDigest (domain : bytes) (fields : list string) : string :=
  hex_EncodeToString (Sum256 (domain ++ digest_material fields)).

Section digests.
Context `{UuidLib}.

Definition AuthorizationDigest (c : Credential) : GoError + string :=
  if decide (cred_TenantID c = uuid_Nil ∨ cred_DomainID c = uuid_Nil ∨
             cred_MemberID c = uuid_Nil)
  then inl (PlainError "member scope is invalid")
  else match validateToken (cred_Token c) with
       | Some err => inl err
       | None => inr (scopedDigest memberAuthorizationDomain
           [uuid_String (cred_TenantID c); uuid_String (cred_DomainID c);
            uuid_String (cred_MemberID c); cred_Token c])
       end.

Definition AdministrationDigest (c : AdministrationCredential) : GoError + string :=
  if decide (acred_TenantID c = uuid_Nil ∨ acred_DomainID c = uuid_Nil)
  then inl (PlainError "domain scope is invalid")
  else match validateToken (acred_Token c) with
       | Some err => inl err
       | None => inr (scopedDigest domainAuthorizationDomain
           [uuid_String (acred_TenantID c); uuid_String (acred_DomainID c); acred_Token c])
       end.

Definition AdmissionAuthorizationDigest (c : AdmissionCredential) : GoError + string :=
  if decide (mcred_TenantID c = uuid_Nil ∨ mcred_DomainID c = uuid_Nil ∨
             mcred_AdmissionID c = uuid_Nil)
  then inl (PlainError "admission scope is invalid")
  else match validateToken (mcred_Token c) with
       | Some err => inl err
       | None => inr (scopedDigest admissionAuthorizationDomain
           [uuid_String (mcred_TenantID c); uuid_String (mcred_DomainID c);
            uuid_String (mcred_AdmissionID c); mcred_Token c])
       end.

Definition TenantAuthorizationDigest (c : TenantCredential) : GoError + string :=
  if decide (tcred_TenantID c = uuid_Nil)
  then inl (PlainError "tenant scope is invalid")
  else match validateToken (tcred_Token c) with
       | Some err => inl err
       | None => inr (scopedDigest tenantAuthorizationDomain
           [uuid_String (tcred_TenantID c); tcred_Token c])
       end.
End digests.

(** [actual, err := digest(...); err != nil || !equal(actual, expected)] *)
Definition digest_rejected (actual : GoError + string) (expected : string) : Prop :=
  match actual with
  | inl _ => True
  | inr digest => ¬ constantTimeDigestEqual digest expected
  end.

#[global] Instance digest_rejected_dec a e : Decision (digest_rejected a e).
Proof. destruct a; simpl; apply _. Defined.

(** ** Tenants (data_plane.go, capacity_policy.go) *)

Record TenantQuota := mkTenantQuota {
  tq_MaximumDomainCount : Z;
  tq_MaximumAggregateMessageCount : Z;
  tq_MaximumAggregateMessageByteCount : int64;
  tq_MaximumAggregateBlobCount : Z;
  tq_MaximumAggregateBlobByteCount : int64 }.

#[global] Instance TenantQuota_eq_dec : EqDecision TenantQuota.
Proof. solve_decision. Defined.

Definition TenantQuota_UsesSharedCapacity (q : TenantQuota) : Prop :=
  q = mkTenantQuota 0 0 0 0 0.

#[global] Instance TenantQuota_UsesSharedCapacity_dec q :
  Decision (TenantQuota_UsesSharedCapacity q).
Proof. unfold TenantQuota_UsesSharedCapacity. apply _. Defined.

Definition TenantQuota_Valid (q : TenantQuota) : Prop :=
  TenantQuota_UsesSharedCapacity q ∨
  (tq_MaximumDomainCount q > 0 ∧ tq_MaximumAggregateMessageCount q > 0 ∧
   tq_MaximumAggregateMessageByteCount q > 0 ∧ tq_MaximumAggregateBlobCount q > 0 ∧
   tq_MaximumAggregateBlobByteCount q > 0).

#[global] Instance TenantQuota_Valid_dec q : Decision (TenantQuota_Valid q).
Proof. unfold TenantQuota_Valid. apply _. Defined.

Record TenantRegistration := mkTenantRegistration {
  tr_Version : Z;
  tr_RetryID : UUID;
  tr_TenantID : UUID;
  tr_AuthorizationDigest : string;
  tr_CreatedAtMilliseconds : int64;
  tr_MaximumDomainCount : Z;
  tr_MaximumAggregateMessageCount : Z;
  tr_MaximumAggregateMessageByteCount : int64;
  tr_MaximumAggregateBlobCount : Z;
  tr_MaximumAggregateBlobByteCount : int64 }.

#[global] Instance TenantRegistration_eq_dec : EqDecision TenantRegistration.
Proof. solve_decision. Defined.

Definition TenantRegistration_Quota (r : TenantRegistration) : TenantQuota :=
  mkTenantQuota (tr_MaximumDomainCount r) (tr_MaximumAggregateMessageCount r)
    (tr_MaximumAggregateMessageByteCount r) (tr_MaximumAggregateBlobCount r)
    (tr_MaximumAggregateBlobByteCount r).

Definition TenantRegistration_UsesSharedCapacity (r : TenantRegistration) : Prop :=
  TenantQuota_UsesSharedCapacity (TenantRegistration_Quota r).

#[global] Instance TenantRegistration_UsesSharedCapacity_dec r :
  Decision (TenantRegistration_UsesSharedCapacity r).
Proof. unfold TenantRegistration_UsesSharedCapacity. apply _. Defined.

Definition TenantRegistration_Validate (r : TenantRegistration) : option GoError :=
  err_when (tr_Version r ≠ SchemaVersion ∨ tr_RetryID r = uuid_Nil ∨
      tr_TenantID r = uuid_Nil ∨ ¬ validDigest (tr_AuthorizationDigest r) ∨
      tr_CreatedAtMilliseconds r < 0 ∨ ¬ TenantQuota_Valid (TenantRegistration_Quota r))
    (protocolError CodeInvalidTenant "tenant fields are invalid").

Definition TenantRegistration_Authorize `{UuidLib} (r : TenantRegistration)
    (credential : TenantCredential) : option GoError :=
  err_when (tcred_TenantID credential ≠ tr_TenantID r)
    (protocolError CodeWrongScope "tenant credential belongs to another tenant") >>?
  err_when (digest_rejected (TenantAuthorizationDigest credential) (tr_AuthorizationDigest r))
    (protocolError CodeUnauthorized "tenant credential is invalid").

Record TenantCredentialRotation := mkTenantCredentialRotation {
  trot_Version : Z;
  trot_RotationID : UUID;
  trot_TenantID : UUID;
  trot_ReplacementAuthorizationDigest : string;
  trot_RotatedAtMilliseconds : int64 }.

Definition TenantCredentialRotation_Validate (r : TenantCredentialRotation) : option GoError :=
  err_when (trot_Version r ≠ SchemaVersion ∨ trot_RotationID r = uuid_Nil ∨
      trot_TenantID r = uuid_Nil ∨ ¬ validDigest (trot_ReplacementAuthorizationDigest r) ∨
      trot_RotatedAtMilliseconds r < 0)
    (protocolError CodeInvalidCredentialRotation "tenant credential rotation is invalid").

Inductive Acceptance : Set := AcceptanceAccepted | AcceptanceDuplicate.

#[global] Instance Acceptance_eq_dec : EqDecision Acceptance.
Proof. solve_decision. Defined.

Record TenantCredentialRotationResult := mkTenantCredentialRotationResult {
  trr_Acceptance : Acceptance;
  trr_RotationID : UUID;
  trr_TenantID : UUID;
  trr_AuthorizationDigest : string;
  trr_RotatedAtMilliseconds : int64 }.

Record TenantStatus := mkTenantStatus {
  ts_TenantID : UUID;
  ts_DomainCount : int64;
  ts_AggregateMessageCount : int64;
  ts_AggregateMessageByteCount : int64;
  ts_AggregateBlobCount : int64;
  ts_AggregateBlobByteCount : int64;
  ts_ReservedBlobCount : int64;
  ts_ReservedBlobByteCount : int64;
  ts_Quota : TenantQuota }.

Record TenantMembershipRevocationItem := mkTenantMembershipRevocationItem {
  tri_DomainID : UUID; tri_SubscriptionID : UUID; tri_MemberID : UUID }.

#[global] Instance TenantMembershipRevocationItem_eq_dec :
  EqDecision TenantMembershipRevocationItem.
Proof. solve_decision. Defined.

Record TenantMembershipRevocation := mkTenantMembershipRevocation {
  tmr_Version : Z;
  tmr_RetryID : UUID;
  tmr_RevokedAtMilliseconds : int64;
  tmr_Memberships : list TenantMembershipRevocationItem }.

#[global] Instance TenantMembershipRevocation_eq_dec : EqDecision TenantMembershipRevocation.
Proof. solve_decision. Defined.

(** The loop over the targets, with the set of domains already seen. *)
Fixpoint revocation_targets_valid (seenDomains : gset UUID)
    (items : list TenantMembershipRevocationItem) : option GoError :=
  match items with
  | [] => None
  | item :: rest =>
    err_when (tri_DomainID item = uuid_Nil ∨ tri_SubscriptionID item = uuid_Nil ∨
              tri_MemberID item = uuid_Nil)
      (protocolError CodeInvalidMember "tenant membership revocation target is invalid") >>?
    err_when (tri_DomainID item ∈ seenDomains)
      (protocolError CodeInvalidMember "tenant membership revocation repeats a domain") >>?
    revocation_targets_valid ({[ tri_DomainID item ]} ∪ seenDomains) rest
  end.

Definition TenantMembershipRevocation_Validate (r : TenantMembershipRevocation) : option GoError :=
  err_when (tmr_Version r ≠ SchemaVersion ∨ tmr_RetryID r = uuid_Nil ∨
      tmr_RevokedAtMilliseconds r < 0 ∨ tmr_Memberships r = [])
    (protocolError CodeInvalidMember "tenant membership revocation is invalid") >>?
  revocation_targets_valid ∅ (tmr_Memberships r).

Record TenantMembershipRevocationResult := mkTenantMembershipRevocationResult {
  tmrr_Acceptance : Acceptance;
  tmrr_RetryID : UUID;
  tmrr_RevokedAtMilliseconds : int64;
  tmrr_Memberships : list TenantMembershipRevocationItem }.

(** ** Domains *)

Record DomainRegistration := mkDomainRegistration {
  dr_Version : Z;
  dr_TenantID : UUID;
  dr_DomainID : UUID;
  dr_AdministrationDigest : string;
  dr_CreatedAtMilliseconds : int64;
  dr_MaximumMessageCount : Z;
  dr_MaximumMessageByteCount : int64;
  dr_MaximumBlobCount : Z;
  dr_MaximumBlobByteCount : int64 }.

#[global] Instance DomainRegistration_eq_dec : EqDecision DomainRegistration.
Proof. solve_decision. Defined.

#[global] Instance eta_DomainRegistration : Eta DomainRegistration := fun r =>
  mkDomainRegistration (dr_Version r) (dr_TenantID r) (dr_DomainID r) (dr_AdministrationDigest r)
    (dr_CreatedAtMilliseconds r) (dr_MaximumMessageCount r) (dr_MaximumMessageByteCount r)
    (dr_MaximumBlobCount r) (dr_MaximumBlobByteCount r).
#[global] Instance upd_dr_AdministrationDigest : Update dr_AdministrationDigest := ltac:(mk_update).
#[global] Instance upd_dr_MaximumMessageCount : Update dr_MaximumMessageCount := ltac:(mk_update).
#[global] Instance upd_dr_MaximumMessageByteCount : Update dr_MaximumMessageByteCount := ltac:(mk_update).
#[global] Instance upd_dr_MaximumBlobCount : Update dr_MaximumBlobCount := ltac:(mk_update).
#[global] Instance upd_dr_MaximumBlobByteCount : Update dr_MaximumBlobByteCount := ltac:(mk_update).

Definition DomainRegistration_UsesSharedCapacity (r : DomainRegistration) : Prop :=
  dr_MaximumMessageCount r = 0 ∧ dr_MaximumMessageByteCount r = 0 ∧
  dr_MaximumBlobCount r = 0 ∧ dr_MaximumBlobByteCount r = 0.

#[global] Instance DomainRegistration_UsesSharedCapacity_dec r :
  Decision (DomainRegistration_UsesSharedCapacity r).
Proof. unfold DomainRegistration_UsesSharedCapacity. apply _. Defined.

Definition DomainRegistration_WithSharedCapacity (r : DomainRegistration) : DomainRegistration :=
  r <| dr_MaximumMessageCount := 0 |> <| dr_MaximumMessageByteCount := 0 |>
    <| dr_MaximumBlobCount := 0 |> <| dr_MaximumBlobByteCount := 0 |>.

Definition DomainRegistration_Validate (r : DomainRegistration) : option GoError :=
  err_when (dr_Version r ≠ SchemaVersion ∨ dr_TenantID r = uuid_Nil ∨
      dr_DomainID r = uuid_Nil ∨ ¬ validDigest (dr_AdministrationDigest r) ∨
      dr_CreatedAtMilliseconds r < 0)
    (protocolError CodeInvalidDomain "domain fields are invalid") >>?
  err_when (¬ DomainRegistration_UsesSharedCapacity r ∧
      (dr_MaximumMessageCount r ≤ 0 ∨
       dr_MaximumMessageCount r > AbsoluteMaximumMessageCount ∨
       dr_MaximumBlobCount r ≤ 0 ∨
       dr_MaximumMessageByteCount r ≤ 0 ∨
       dr_MaximumMessageByteCount r > AbsoluteMaximumMessageByteCount ∨
       dr_MaximumBlobCount r > AbsoluteMaximumBlobCount ∨
       dr_MaximumBlobByteCount r ≤ 0 ∨
       dr_MaximumBlobByteCount r > AbsoluteMaximumBlobByteCount))
    (protocolError CodeInvalidDomain "domain fields are invalid").

Definition DomainRegistration_Authorize `{UuidLib} (r : DomainRegistration)
    (credential : AdministrationCredential) : option GoError :=
  DomainRegistration_Validate r >>?
  err_when (acred_TenantID credential ≠ dr_TenantID r ∨ acred_DomainID credential ≠ dr_DomainID r)
    (protocolError CodeWrongScope "administration credential belongs to another domain") >>?
  err_when (digest_rejected (AdministrationDigest credential) (dr_AdministrationDigest r))
    (protocolError CodeUnauthorized "administration credential is invalid").

Record CredentialRotation := mkCredentialRotation {
  rot_RotationID : UUID; rot_AuthorizationDigest : string }.

Definition CredentialRotation_Validate (r : CredentialRotation) : option GoError :=
  err_when (rot_RotationID r = uuid_Nil ∨ ¬ validDigest (rot_AuthorizationDigest r))
    (protocolError CodeInvalidCredentialRotation "credential rotation fields are invalid").

Record CredentialRotationResult := mkCredentialRotationResult {
  rr_Acceptance : Acceptance;
  rr_RotationID : UUID;
  rr_AuthorizationDigest : string;
  rr_RotatedAtMilliseconds : int64 }.

Record AdmissionCollectionResult := mkAdmissionCollectionResult {
  acr_CollectedCount : Z; acr_HasMore : bool; acr_EligibleBeforeMilliseconds : int64 }.

Record DomainQuota := mkDomainQuota {
  dq_MaximumMessageCount : Z;
  dq_MaximumMessageByteCount : int64;
  dq_MaximumBlobCount : Z;
  dq_MaximumBlobByteCount : int64 }.

Record DomainStatus := mkDomainStatus {
  ds_TenantID : UUID;
  ds_DomainID : UUID;
  ds_MessageCount : int64;
  ds_MessageByteCount : int64;
  ds_BlobCount : int64;
  ds_BlobByteCount : int64;
  ds_ReservedBlobCount : int64;
  ds_ReservedBlobByteCount : int64;
  ds_ActiveSubscriptionCount : int64;
  ds_OldestUncollectedCursor : option string;
  ds_LatestActivatedCheckpointID : option UUID;
  ds_Quota : DomainQuota }.

(** ** Subscriptions *)

Abbreviation SubscriptionStatus := string (only parsing).

Definition SubscriptionActive : SubscriptionStatus := "active".
Definition SubscriptionRebootstrapRequired : SubscriptionStatus := "rebootstrap_required".
Definition SubscriptionRevoked : SubscriptionStatus := "revoked".

Definition SubscriptionStatus_Valid (s : SubscriptionStatus) : Prop :=
  s = SubscriptionActive ∨ s = SubscriptionRebootstrapRequired ∨ s = SubscriptionRevoked.

#[global] Instance SubscriptionStatus_Valid_dec s : Decision (SubscriptionStatus_Valid s).
Proof. unfold SubscriptionStatus_Valid. apply _. Defined.

Record Subscription := mkSubscription {
  sub_Version : Z;
  sub_TenantID : UUID;
  sub_DomainID : UUID;
  sub_SubscriptionID : UUID;
  sub_Status : SubscriptionStatus;
  sub_StartCursor : option string;
  sub_CreatedAtMilliseconds : int64;
  sub_UpdatedAtMilliseconds : int64 }.

#[global] Instance Subscription_eq_dec : EqDecision Subscription.
Proof. solve_decision. Defined.

#[global] Instance eta_Subscription : Eta Subscription := fun s =>
  mkSubscription (sub_Version s) (sub_TenantID s) (sub_DomainID s) (sub_SubscriptionID s)
    (sub_Status s) (sub_StartCursor s) (sub_CreatedAtMilliseconds s) (sub_UpdatedAtMilliseconds s).
#[global] Instance upd_sub_Status : Update sub_Status := ltac:(mk_update).
#[global] Instance upd_sub_StartCursor : Update sub_StartCursor := ltac:(mk_update).
#[global] Instance upd_sub_UpdatedAtMilliseconds : Update sub_UpdatedAtMilliseconds := ltac:(mk_update).

(** Go's zero [Subscription], which a missing map key reads as. *)
Definition Subscription_zero : Subscription :=
  mkSubscription 0 uuid_Nil uuid_Nil uuid_Nil "" None 0 0.

Definition Subscription_Validate (s : Subscription) : option GoError :=
  err_when (sub_Version s ≠ SchemaVersion ∨ sub_TenantID s = uuid_Nil ∨
      sub_DomainID s = uuid_Nil ∨ sub_SubscriptionID s = uuid_Nil ∨
      ¬ SubscriptionStatus_Valid (sub_Status s) ∨ sub_CreatedAtMilliseconds s < 0 ∨
      sub_UpdatedAtMilliseconds s < sub_CreatedAtMilliseconds s)
    (protocolError CodeInvalidSubscription "subscription fields are invalid") >>?
  err_when (some_and (sub_StartCursor s) (fun c => ValidateOpaqueCursor c ≠ None))
    (protocolError CodeInvalidSubscription "subscription start cursor is invalid").

Record SubscriptionCreateRequest := mkSubscriptionCreateRequest {
  scr_RetryID : UUID; scr_SubscriptionID : UUID; scr_CreatedAtMilliseconds : int64 }.

#[global] Instance SubscriptionCreateRequest_eq_dec : EqDecision SubscriptionCreateRequest.
Proof. solve_decision. Defined.

Definition SubscriptionCreateRequest_Validate (r : SubscriptionCreateRequest) : option GoError :=
  err_when (scr_RetryID r = uuid_Nil ∨ scr_SubscriptionID r = uuid_Nil ∨
      scr_CreatedAtMilliseconds r < 0)
    (protocolError CodeInvalidSubscription "subscription creation is invalid").

(** The create and status-change responses have the same three fields. *)
Record SubscriptionResponse := mkSubscriptionResponse {
  sr_Acceptance : Acceptance; sr_RetryID : UUID; sr_Subscription : Subscription }.

Record SubscriptionStatusChangeRequest := mkSubscriptionStatusChangeRequest {
  ssc_RetryID : UUID; ssc_Status : SubscriptionStatus; ssc_ChangedAtMilliseconds : int64 }.

#[global] Instance SubscriptionStatusChangeRequest_eq_dec :
  EqDecision SubscriptionStatusChangeRequest.
Proof. solve_decision. Defined.

Definition SubscriptionStatusChangeRequest_Validate (r : SubscriptionStatusChangeRequest)
    : option GoError :=
  err_when (ssc_RetryID r = uuid_Nil ∨ ¬ SubscriptionStatus_Valid (ssc_Status r) ∨
      ssc_Status r = SubscriptionActive ∨ ssc_ChangedAtMilliseconds r < 0)
    (protocolError CodeInvalidSubscription "subscription status change is invalid").

Record SubscriptionRebootstrapRequest := mkSubscriptionRebootstrapRequest {
  srr_RetryID : UUID;
  srr_CheckpointID : UUID;
  srr_RootMessageID : UUID;
  srr_RequestedAtMilliseconds : int64;
  srr_LeaseDurationMilliseconds : int64 }.

#[global] Instance SubscriptionRebootstrapRequest_eq_dec :
  EqDecision SubscriptionRebootstrapRequest.
Proof. solve_decision. Defined.

Definition SubscriptionRebootstrapRequest_Validate (r : SubscriptionRebootstrapRequest)
    : option GoError :=
  err_when (srr_RetryID r = uuid_Nil ∨ srr_CheckpointID r = uuid_Nil ∨
      srr_RootMessageID r = uuid_Nil ∨ srr_RequestedAtMilliseconds r < 0 ∨
      srr_LeaseDurationMilliseconds r < MinimumSubscriptionRebootstrapLeaseMilliseconds ∨
      srr_LeaseDurationMilliseconds r > MaximumSubscriptionRebootstrapLeaseMilliseconds)
    (protocolError CodeInvalidSubscription "subscription rebootstrap request is invalid").

Definition SubscriptionRebootstrapRequest_LeaseExpiresAt (r : SubscriptionRebootstrapRequest)
    (nowMilliseconds : int64) : GoError + int64 :=
  match SubscriptionRebootstrapRequest_Validate r with
  | Some err => inl err
  | None =>
    if decide (nowMilliseconds < 0 ∨
               nowMilliseconds > MaxInt64 - srr_LeaseDurationMilliseconds r)
    then inl (protocolError CodeInvalidSubscription "subscription rebootstrap lease is invalid")
    else inr (i64 (nowMilliseconds + srr_LeaseDurationMilliseconds r))
  end.

Record SubscriptionRebootstrapResponse := mkSubscriptionRebootstrapResponse {
  srp_Acceptance : Acceptance;
  srp_RetryID : UUID;
  srp_CheckpointID : UUID;
  srp_RootMessageID : UUID;
  srp_LeaseExpiresAtMilliseconds : int64;
  srp_Subscription : Subscription }.

Record SubscriptionRebootstrapRenewal := mkSubscriptionRebootstrapRenewal {
  srn_RetryID : UUID;
  srn_RequestRetryID : UUID;
  srn_CheckpointID : UUID;
  srn_RootMessageID : UUID;
  srn_ExpectedLeaseExpiresAtMilliseconds : int64;
  srn_RequestedAtMilliseconds : int64;
  srn_LeaseDurationMilliseconds : int64 }.

#[global] Instance SubscriptionRebootstrapRenewal_eq_dec :
  EqDecision SubscriptionRebootstrapRenewal.
Proof. solve_decision. Defined.

Definition SubscriptionRebootstrapRenewal_Validate (r : SubscriptionRebootstrapRenewal)
    : option GoError :=
  err_when (srn_RetryID r = uuid_Nil ∨ srn_RequestRetryID r = uuid_Nil ∨
      srn_CheckpointID r = uuid_Nil ∨ srn_RootMessageID r = uuid_Nil ∨
      srn_ExpectedLeaseExpiresAtMilliseconds r ≤ 0 ∨
      srn_RequestedAtMilliseconds r < 0 ∨
      srn_LeaseDurationMilliseconds r < MinimumSubscriptionRebootstrapLeaseMilliseconds ∨
      srn_LeaseDurationMilliseconds r > MaximumSubscriptionRebootstrapLeaseMilliseconds)
    (protocolError CodeInvalidSubscription "subscription rebootstrap renewal is invalid").

Definition SubscriptionRebootstrapRenewal_LeaseExpiresAt (r : SubscriptionRebootstrapRenewal)
    (nowMilliseconds : int64) : GoError + int64 :=
  match SubscriptionRebootstrapRenewal_Validate r with
  | Some err => inl err
  | None =>
    if decide (nowMilliseconds < 0 ∨
               nowMilliseconds > MaxInt64 - srn_LeaseDurationMilliseconds r)
    then inl (protocolError CodeInvalidSubscription "subscription rebootstrap renewal lease is invalid")
    else inr (i64 (nowMilliseconds + srn_LeaseDurationMilliseconds r))
  end.

Record SubscriptionRebootstrapRenewalResponse := mkSubscriptionRebootstrapRenewalResponse {
  snr_Acceptance : Acceptance;
  snr_RetryID : UUID;
  snr_RequestRetryID : UUID;
  snr_CheckpointID : UUID;
  snr_RootMessageID : UUID;
  snr_PreviousLeaseExpiresAtMilliseconds : int64;
  snr_LeaseExpiresAtMilliseconds : int64;
  snr_Subscription : Subscription }.

Record SubscriptionRebootstrapCancellation := mkSubscriptionRebootstrapCancellation {
  src_RetryID : UUID;
  src_RequestRetryID : UUID;
  src_CheckpointID : UUID;
  src_RootMessageID : UUID;
  src_CancelledAtMilliseconds : int64 }.

#[global] Instance SubscriptionRebootstrapCancellation_eq_dec :
  EqDecision SubscriptionRebootstrapCancellation.
Proof. solve_decision. Defined.

Definition SubscriptionRebootstrapCancellation_Validate (r : SubscriptionRebootstrapCancellation)
    : option GoError :=
  err_when (src_RetryID r = uuid_Nil ∨ src_RequestRetryID r = uuid_Nil ∨
      src_CheckpointID r = uuid_Nil ∨ src_RootMessageID r = uuid_Nil ∨
      src_CancelledAtMilliseconds r < 0)
    (protocolError CodeInvalidSubscription "subscription rebootstrap cancellation is invalid").

Record SubscriptionRebootstrapCompletion := mkSubscriptionRebootstrapCompletion {
  sco_RetryID : UUID;
  sco_RequestRetryID : UUID;
  sco_CheckpointID : UUID;
  sco_RootMessageID : UUID;
  sco_CompletedThroughCursor : string;
  sco_CompletedAtMilliseconds : int64 }.

#[global] Instance SubscriptionRebootstrapCompletion_eq_dec :
  EqDecision SubscriptionRebootstrapCompletion.
Proof. solve_decision. Defined.

Definition SubscriptionRebootstrapCompletion_Validate (r : SubscriptionRebootstrapCompletion)
    : option GoError :=
  err_when (sco_RetryID r = uuid_Nil ∨ sco_RequestRetryID r = uuid_Nil ∨
      sco_CheckpointID r = uuid_Nil ∨ sco_RootMessageID r = uuid_Nil ∨
      sco_CompletedAtMilliseconds r < 0)
    (protocolError CodeInvalidSubscription "subscription rebootstrap completion is invalid") >>?
  err_when (ValidateOpaqueCursor (sco_CompletedThroughCursor r) ≠ None)
    (protocolError CodeInvalidCursor "rebootstrap completion cursor is invalid").

(** The cancellation and completion responses have the same six fields. *)
Record SubscriptionRecoveryResponse := mkSubscriptionRecoveryResponse {
  sre_Acceptance : Acceptance;
  sre_RetryID : UUID;
  sre_RequestRetryID : UUID;
  sre_CheckpointID : UUID;
  sre_RootMessageID : UUID;
  sre_Subscription : Subscription }.

(** ** Members *)

Record MemberRegistration := mkMemberRegistration {
  mr_Version : Z;
  mr_TenantID : UUID;
  mr_DomainID : UUID;
  mr_MemberID : UUID;
  mr_AuthorizationDigest : string;
  mr_Capabilities : list Capability;
  mr_CreatedAtMilliseconds : int64;
  mr_ExpiresAtMilliseconds : option int64;
  mr_RevokedAtMilliseconds : option int64 }.

#[global] Instance MemberRegistration_eq_dec : EqDecision MemberRegistration.
Proof. solve_decision. Defined.

#[global] Instance eta_MemberRegistration : Eta MemberRegistration := fun r =>
  mkMemberRegistration (mr_Version r) (mr_TenantID r) (mr_DomainID r) (mr_MemberID r)
    (mr_AuthorizationDigest r) (mr_Capabilities r) (mr_CreatedAtMilliseconds r)
    (mr_ExpiresAtMilliseconds r) (mr_RevokedAtMilliseconds r).
#[global] Instance upd_mr_AuthorizationDigest : Update mr_AuthorizationDigest := ltac:(mk_update).
#[global] Instance upd_mr_Capabilities : Update mr_Capabilities := ltac:(mk_update).
#[global] Instance upd_mr_RevokedAtMilliseconds : Update mr_RevokedAtMilliseconds := ltac:(mk_update).

(** Go's zero [MemberRegistration]. *)
Definition MemberRegistration_zero : MemberRegistration :=
  mkMemberRegistration 0 uuid_Nil uuid_Nil uuid_Nil "" [] 0 None None.

Definition MemberRegistration_Validate (r : MemberRegistration) : option GoError :=
  err_when (mr_Version r ≠ SchemaVersion ∨ mr_TenantID r = uuid_Nil ∨
      mr_DomainID r = uuid_Nil ∨ mr_MemberID r = uuid_Nil ∨
      ¬ validDigest (mr_AuthorizationDigest r) ∨ mr_CreatedAtMilliseconds r < 0 ∨
      mr_Capabilities r = [])
    (protocolError CodeInvalidMember "member fields are invalid") >>?
  err_when (¬ valid_from None (mr_Capabilities r))
    (protocolError CodeInvalidMember "member capabilities are invalid") >>?
  err_when (some_and (mr_ExpiresAtMilliseconds r) (fun e => e ≤ mr_CreatedAtMilliseconds r))
    (protocolError CodeInvalidMember "member expiry is invalid") >>?
  err_when (some_and (mr_RevokedAtMilliseconds r) (fun e => e < mr_CreatedAtMilliseconds r))
    (protocolError CodeInvalidMember "member revocation is invalid").

Definition MemberRegistration_VerifyCredential `{UuidLib} (r : MemberRegistration)
    (credential : Credential) (nowMilliseconds : int64) : option GoError :=
  MemberRegistration_Validate r >>?
  err_when (cred_TenantID credential ≠ mr_TenantID r ∨
      cred_DomainID credential ≠ mr_DomainID r ∨ cred_MemberID credential ≠ mr_MemberID r)
    (protocolError CodeWrongScope "member credential belongs to another scope") >>?
  err_when (nowMilliseconds < mr_CreatedAtMilliseconds r ∨
      some_and (mr_ExpiresAtMilliseconds r) (fun e => nowMilliseconds ≥ e))
    (protocolError CodeMemberExpired "member is not active") >>?
  err_when (some_and (mr_RevokedAtMilliseconds r) (fun e => nowMilliseconds ≥ e))
    (protocolError CodeMemberRevoked "member is revoked") >>?
  err_when (digest_rejected (AuthorizationDigest credential) (mr_AuthorizationDigest r))
    (protocolError CodeUnauthorized "member credential is invalid").

(** The index that binary search finds for [capability]. *)
Definition capability_index (capabilities : list Capability) (capability : Capability) : Z :=
  sort_Search (zlen capabilities) (fun index =>
    bool_decide (str_le capability (nth (Z.to_nat index) capabilities ""))).

Definition MemberRegistration_Authorize `{UuidLib} (r : MemberRegistration)
    (credential : Credential) (capability : Capability) (nowMilliseconds : int64)
    : option GoError :=
  MemberRegistration_VerifyCredential r credential nowMilliseconds >>?
  let index := capability_index (mr_Capabilities r) capability in
  err_when (index = zlen (mr_Capabilities r) ∨
      nth (Z.to_nat index) (mr_Capabilities r) "" ≠ capability)
    (protocolError CodeMissingCapability "member lacks the required capability").

Record MemberCapabilityChange := mkMemberCapabilityChange {
  mcc_Version : Z;
  mcc_RetryID : UUID;
  mcc_MemberID : UUID;
  mcc_PreviousCapabilities : list Capability;
  mcc_NextCapabilities : list Capability;
  mcc_ChangedAtMilliseconds : int64 }.

#[global] Instance MemberCapabilityChange_eq_dec : EqDecision MemberCapabilityChange.
Proof. solve_decision. Defined.

Definition MemberCapabilityChange_Validate (c : MemberCapabilityChange) : option GoError :=
  err_when (mcc_Version c ≠ SchemaVersion ∨ mcc_RetryID c = uuid_Nil ∨
      mcc_MemberID c = uuid_Nil ∨ mcc_ChangedAtMilliseconds c < 0 ∨
      mcc_PreviousCapabilities c = [] ∨ mcc_NextCapabilities c = [] ∨
      ¬ validCapabilities (mcc_PreviousCapabilities c) ∨
      ¬ validCapabilities (mcc_NextCapabilities c) ∨
      capabilitiesEqual (mcc_PreviousCapabilities c) (mcc_NextCapabilities c))
    (protocolError CodeInvalidMember "member capability change fields are invalid").

Record MemberCapabilityChangeResult := mkMemberCapabilityChangeResult {
  mcr_Acceptance : Acceptance;
  mcr_RetryID : UUID;
  mcr_MemberID : UUID;
  mcr_PreviousCapabilities : list Capability;
  mcr_CurrentCapabilities : list Capability;
  mcr_ChangedAtMilliseconds : int64 }.

#[global] Instance eta_MemberCapabilityChangeResult : Eta MemberCapabilityChangeResult := fun r =>
  mkMemberCapabilityChangeResult (mcr_Acceptance r) (mcr_RetryID r) (mcr_MemberID r)
    (mcr_PreviousCapabilities r) (mcr_CurrentCapabilities r) (mcr_ChangedAtMilliseconds r).
#[global] Instance upd_mcr_Acceptance : Update mcr_Acceptance := ltac:(mk_update).

Record MemberAdmission := mkMemberAdmission {
  ma_Version : Z;
  ma_TenantID : UUID;
  ma_DomainID : UUID;
  ma_AdmissionID : UUID;
  ma_AuthorizationDigest : string;
  ma_Capabilities : list Capability;
  ma_CreatedAtMilliseconds : int64;
  ma_ExpiresAtMilliseconds : int64;
  ma_MemberExpiresAtMilliseconds : option int64;
  ma_RevokedAtMilliseconds : option int64;
  ma_ClaimedAtMilliseconds : option int64;
  ma_ClaimedMemberID : option UUID }.

#[global] Instance MemberAdmission_eq_dec : EqDecision MemberAdmission.
Proof. solve_decision. Defined.

#[global] Instance eta_MemberAdmission : Eta MemberAdmission := fun a =>
  mkMemberAdmission (ma_Version a) (ma_TenantID a) (ma_DomainID a) (ma_AdmissionID a)
    (ma_AuthorizationDigest a) (ma_Capabilities a) (ma_CreatedAtMilliseconds a)
    (ma_ExpiresAtMilliseconds a) (ma_MemberExpiresAtMilliseconds a) (ma_RevokedAtMilliseconds a)
    (ma_ClaimedAtMilliseconds a) (ma_ClaimedMemberID a).
#[global] Instance upd_ma_RevokedAtMilliseconds : Update ma_RevokedAtMilliseconds := ltac:(mk_update).
#[global] Instance upd_ma_ClaimedAtMilliseconds : Update ma_ClaimedAtMilliseconds := ltac:(mk_update).
#[global] Instance upd_ma_ClaimedMemberID : Update ma_ClaimedMemberID := ltac:(mk_update).

Definition MemberAdmission_Validate (a : MemberAdmission) : option GoError :=
  err_when (ma_Version a ≠ SchemaVersion ∨ ma_TenantID a = uuid_Nil ∨
      ma_DomainID a = uuid_Nil ∨ ma_AdmissionID a = uuid_Nil ∨
      ¬ validDigest (ma_AuthorizationDigest a) ∨ ma_Capabilities a = [] ∨
      ma_CreatedAtMilliseconds a < 0 ∨
      ma_ExpiresAtMilliseconds a ≤ ma_CreatedAtMilliseconds a ∨
      i64 (ma_ExpiresAtMilliseconds a - ma_CreatedAtMilliseconds a) >
        MaximumAdmissionLifetimeMilliseconds)
    (protocolError CodeInvalidAdmission "admission fields are invalid") >>?
  err_when (¬ valid_from None (ma_Capabilities a))
    (protocolError CodeInvalidAdmission "admission capabilities are invalid") >>?
  err_when (some_and (ma_MemberExpiresAtMilliseconds a) (fun e => e ≤ ma_ExpiresAtMilliseconds a))
    (protocolError CodeInvalidAdmission "member expiry must follow admission expiry") >>?
  err_when (some_and (ma_RevokedAtMilliseconds a) (fun e => e < ma_CreatedAtMilliseconds a))
    (protocolError CodeInvalidAdmission "admission revocation is invalid") >>?
  err_when (¬ (ma_ClaimedAtMilliseconds a = None ↔ ma_ClaimedMemberID a = None))
    (protocolError CodeInvalidAdmission "admission claim state is incomplete") >>?
  err_when (some_and (ma_ClaimedAtMilliseconds a) (fun claimed =>
      claimed < ma_CreatedAtMilliseconds a ∨ claimed ≥ ma_ExpiresAtMilliseconds a ∨
      some_and (ma_ClaimedMemberID a) (fun m => m = uuid_Nil)))
    (protocolError CodeInvalidAdmission "admission claim state is invalid").

Definition MemberAdmission_VerifyCredential `{UuidLib} (a : MemberAdmission)
    (credential : AdmissionCredential) : option GoError :=
  MemberAdmission_Validate a >>?
  err_when (mcred_TenantID credential ≠ ma_TenantID a ∨
      mcred_DomainID credential ≠ ma_DomainID a ∨
      mcred_AdmissionID credential ≠ ma_AdmissionID a)
    (protocolError CodeWrongScope "admission credential belongs to another scope") >>?
  err_when (digest_rejected (AdmissionAuthorizationDigest credential) (ma_AuthorizationDigest a))
    (protocolError CodeUnauthorized "admission credential is invalid").

Definition MemberAdmission_RequireActive (a : MemberAdmission) (nowMilliseconds : int64)
    : option GoError :=
  err_when (nowMilliseconds < ma_CreatedAtMilliseconds a ∨
      nowMilliseconds ≥ ma_ExpiresAtMilliseconds a)
    (protocolError CodeAdmissionExpired "admission is not active") >>?
  err_when (some_and (ma_RevokedAtMilliseconds a) (fun e => nowMilliseconds ≥ e))
    (protocolError CodeAdmissionRevoked "admission is revoked").

Record MemberAdmissionClaim := mkMemberAdmissionClaim {
  mac_MemberID : UUID; mac_AuthorizationDigest : string }.

Definition MemberAdmissionClaim_Validate (c : MemberAdmissionClaim) : option GoError :=
  err_when (mac_MemberID c = uuid_Nil ∨ ¬ validDigest (mac_AuthorizationDigest c))
    (protocolError CodeInvalidMember "member claim fields are invalid").

Record SubscriptionMemberRegistration := mkSubscriptionMemberRegistration {
  smr_SubscriptionID : UUID; smr_MemberRegistration : MemberRegistration }.

Record SubscriptionMemberAdmission := mkSubscriptionMemberAdmission {
  sma_SubscriptionID : UUID; sma_Admission : MemberAdmission }.

Record SubscriptionAdmissionClaimResult := mkSubscriptionAdmissionClaimResult {
  sacl_Acceptance : Acceptance; sacl_Member : SubscriptionMemberRegistration }.

Record SubscriptionAdmissionCreateResult := mkSubscriptionAdmissionCreateResult {
  sacr_Acceptance : Acceptance; sacr_Admission : SubscriptionMemberAdmission }.

Record AdmissionClaimResult := mkAdmissionClaimResult {
  acl_Acceptance : Acceptance; acl_Member : MemberRegistration }.

Record AdmissionCreateResult := mkAdmissionCreateResult {
  acre_Acceptance : Acceptance; acre_Admission : MemberAdmission }.

(** ** Provisioning *)

Record DomainProvisioning := mkDomainProvisioning {
  dp_Version : Z;
  dp_RetryID : UUID;
  dp_Registration : DomainRegistration;
  dp_Subscription : Subscription;
  dp_InitialMember : MemberRegistration;
  dp_AdministrationPlainDigest : string;
  dp_InitialMemberPlainDigest : string }.

#[global] Instance eta_DomainProvisioning : Eta DomainProvisioning := fun p =>
  mkDomainProvisioning (dp_Version p) (dp_RetryID p) (dp_Registration p) (dp_Subscription p)
    (dp_InitialMember p) (dp_AdministrationPlainDigest p) (dp_InitialMemberPlainDigest p).
#[global] Instance DomainProvisioning_eq_dec : EqDecision DomainProvisioning.
Proof. solve_decision. Defined.
#[global] Instance upd_dp_Registration : Update dp_Registration := ltac:(mk_update).

Definition DomainProvisioning_Validate (p : DomainProvisioning) : option GoError :=
  err_when (dp_Version p ≠ SchemaVersion ∨ dp_RetryID p = uuid_Nil)
    (protocolError CodeInvalidDomain "domain provisioning fields are invalid") >>?
  DomainRegistration_Validate (dp_Registration p) >>?
  Subscription_Validate (dp_Subscription p) >>?
  MemberRegistration_Validate (dp_InitialMember p) >>?
  err_when (sub_TenantID (dp_Subscription p) ≠ dr_TenantID (dp_Registration p) ∨
      sub_DomainID (dp_Subscription p) ≠ dr_DomainID (dp_Registration p) ∨
      mr_TenantID (dp_InitialMember p) ≠ dr_TenantID (dp_Registration p) ∨
      mr_DomainID (dp_InitialMember p) ≠ dr_DomainID (dp_Registration p) ∨
      sub_Status (dp_Subscription p) ≠ SubscriptionActive ∨
      sub_CreatedAtMilliseconds (dp_Subscription p) ≠
        dr_CreatedAtMilliseconds (dp_Registration p) ∨
      mr_CreatedAtMilliseconds (dp_InitialMember p) <
        dr_CreatedAtMilliseconds (dp_Registration p))
    (protocolError CodeWrongScope "initial domain authority has inconsistent scope").

(** Server-side normalisation of a domain's limits after tenant authorization. *)
Definition TenantRegistration_ApplyCapacityPolicy (r : TenantRegistration)
    (domain : DomainProvisioning) : GoError + DomainProvisioning :=
  if decide (TenantRegistration_UsesSharedCapacity r) then
    inr (domain <| dp_Registration :=
           DomainRegistration_WithSharedCapacity (dp_Registration domain) |>)
  else if decide (DomainRegistration_UsesSharedCapacity (dp_Registration domain)) then
    inl (protocolError CodeInvalidDomain "bounded tenant requires explicit domain limits")
  else inr domain.

Record DomainProvisioningResult := mkDomainProvisioningResult {
  dpr_Acceptance : Acceptance;
  dpr_RetryID : UUID;
  dpr_TenantID : UUID;
  dpr_DomainID : UUID;
  dpr_SubscriptionID : UUID;
  dpr_MemberID : UUID;
  dpr_AdministrationAuthorizationDigest : string;
  dpr_MemberAuthorizationDigest : string }.

Record TenantProvisioningResult := mkTenantProvisioningResult {
  tpr_Acceptance : Acceptance;
  tpr_RetryID : UUID;
  tpr_TenantProvisioningAuthorizationDigest : string;
  tpr_InitialDomain : DomainProvisioningResult }.

(** ** Envelopes and messages *)

Record Envelope := mkEnvelope {
  env_Version : Z;
  env_Algorithm : string;
  env_TenantID : UUID;
  env_DomainID : UUID;
  env_MessageID : UUID;
  env_PublisherMemberID : UUID;
  env_KeyEpoch : uint64;
  env_CreatedAtMilliseconds : int64;
  env_Nonce : string;
  env_Ciphertext : string;
  env_AuthenticationTag : string }.

#[global] Instance Envelope_eq_dec : EqDecision Envelope.
Proof. solve_decision. Defined.

Definition Envelope_Validate (e : Envelope) : option GoError :=
  err_when (env_Version e ≠ SchemaVersion ∨ env_Algorithm e ≠ EnvelopeAlgorithm ∨
      env_TenantID e = uuid_Nil ∨ env_DomainID e = uuid_Nil ∨ env_MessageID e = uuid_Nil ∨
      env_PublisherMemberID e = uuid_Nil ∨ env_KeyEpoch e = 0 ∨
      env_KeyEpoch e > MaximumSequence ∨ env_CreatedAtMilliseconds e < 0)
    (protocolError CodeInvalidEnvelope "envelope fields are invalid") >>?
  err_when (¬ validBase64URLSize (env_Nonce e) 12 12 ∨
      ¬ validBase64URLSize (env_AuthenticationTag e) 16 16 ∨
      ¬ validBase64URLSize (env_Ciphertext e) 1 MaximumCiphertextByteCount)
    (protocolError CodeInvalidEnvelope "envelope binary fields are invalid").

Definition Envelope_ValidateForPublish (e : Envelope) (credential : Credential)
    : option GoError :=
  Envelope_Validate e >>?
  err_when (env_TenantID e ≠ cred_TenantID credential ∨
      env_DomainID e ≠ cred_DomainID credential ∨
      env_PublisherMemberID e ≠ cred_MemberID credential)
    (protocolError CodeWrongScope "envelope and publisher scopes differ").

Definition Envelope_CiphertextByteCount (e : Envelope) : GoError + int64 :=
  match Envelope_Validate e with
  | Some err => inl err
  | None =>
    match b64_DecodeString (env_Ciphertext e) with
    | None => inl (protocolError CodeInvalidEnvelope "ciphertext encoding is invalid")
    | Some decoded => inr (zlen decoded)
    end
  end.

(** One member of a JSON object. *)
Definition json_field (name : string) (value : bytes) : bytes :=
  json_string name ++ [byte_of 58] ++ value.

(** [json.Marshal] of the reference map: keys in byte order, no spaces. *)
Definition envelope_reference `{UuidLib} (e : Envelope) : bytes :=
  let comma := [byte_of 44] in
  let text u := json_string (uuid_MarshalText u) in
  [byte_of 123]
    ++ json_field "algorithm" (json_string (env_Algorithm e)) ++ comma
    ++ json_field "authenticationTag" (json_string (env_AuthenticationTag e)) ++ comma
    ++ json_field "ciphertext" (json_string (env_Ciphertext e)) ++ comma
    ++ json_field "createdAtMilliseconds" (json_int (env_CreatedAtMilliseconds e)) ++ comma
    ++ json_field "domainID" (text (env_DomainID e)) ++ comma
    ++ json_field "keyEpoch" (json_int (env_KeyEpoch e)) ++ comma
    ++ json_field "messageID" (text (env_MessageID e)) ++ comma
    ++ json_field "nonce" (json_string (env_Nonce e)) ++ comma
    ++ json_field "publisherMemberID" (text (env_PublisherMemberID e)) ++ comma
    ++ json_field "tenantID" (text (env_TenantID e)) ++ comma
    ++ json_field "version" (json_int (env_Version e))
    ++ [byte_of 125].

Definition Envelope_ReferenceDigest `{UuidLib} (e : Envelope) : GoError + string :=
  match Envelope_Validate e with
  | Some err => inl err
  | None => inr (hex_EncodeToString (Sum256 (envelopeReferenceDomain ++ envelope_reference e)))
  end.

Abbreviation AcknowledgmentStage := string (only parsing).

Definition AcknowledgmentAccepted : AcknowledgmentStage := "accepted".
Definition AcknowledgmentApplied : AcknowledgmentStage := "applied".

Definition AcknowledgmentStage_Valid (s : AcknowledgmentStage) : Prop :=
  s = AcknowledgmentAccepted ∨ s = AcknowledgmentApplied.

#[global] Instance AcknowledgmentStage_Valid_dec s : Decision (AcknowledgmentStage_Valid s).
Proof. unfold AcknowledgmentStage_Valid. apply _. Defined.

Record Message := mkMessage { msg_Sequence : uint64; msg_Envelope : Envelope }.

Record PublishResult := mkPublishResult { pr_Acceptance : Acceptance; pr_Sequence : uint64 }.

Record FetchResult := mkFetchResult { fr_Messages : list Message; fr_NextSequence : uint64 }.

Record AcknowledgmentResult := mkAcknowledgmentResult {
  ar_Acceptance : Acceptance; ar_Stage : AcknowledgmentStage }.

(** ** Blobs and uploads *)

Record BlobMetadata := mkBlobMetadata {
  bm_TenantID : UUID;
  bm_DomainID : UUID;
  bm_BlobID : string;
  bm_PublisherMemberID : UUID;
  bm_ByteCount : int64;
  bm_CreatedAtMilliseconds : int64 }.

Definition BlobMetadata_Validate (m : BlobMetadata) : option GoError :=
  err_when (bm_TenantID m = uuid_Nil ∨ bm_DomainID m = uuid_Nil ∨
      bm_PublisherMemberID m = uuid_Nil ∨ bm_ByteCount m < 0 ∨
      bm_ByteCount m > MaximumBlobByteCount ∨ bm_CreatedAtMilliseconds m < 0)
    (protocolError CodeInvalidBlob "blob metadata is invalid") >>?
  ValidateBlobID (bm_BlobID m).

Record BlobPublishResult := mkBlobPublishResult {
  bpr_Acceptance : Acceptance; bpr_ByteCount : int64 }.

Record BlobUploadRequest := mkBlobUploadRequest {
  bur_RetryID : UUID;
  bur_UploadID : UUID;
  bur_RelayBlobID : string;
  bur_ByteCount : int64;
  bur_CreatedAtMilliseconds : int64 }.

#[global] Instance BlobUploadRequest_eq_dec : EqDecision BlobUploadRequest.
Proof. solve_decision. Defined.

(** [err != nil] on a nested identifier check is replaced by the caller's error. *)
Definition BlobUploadRequest_Validate (r : BlobUploadRequest) : option GoError :=
  err_when (bur_RetryID r = uuid_Nil ∨ bur_UploadID r = uuid_Nil ∨
      bur_ByteCount r < 0 ∨ bur_ByteCount r > MaximumBlobByteCount ∨
      bur_CreatedAtMilliseconds r < 0)
    (protocolError CodeInvalidBlobUpload "blob upload fields are invalid") >>?
  err_when (ValidateBlobID (bur_RelayBlobID r) ≠ None)
    (protocolError CodeInvalidBlobUpload "blob upload identifier is invalid").

Record BlobUploadChunkRequest := mkBlobUploadChunkRequest {
  buc_UploadID : UUID; buc_Offset : int64; buc_ByteCount : int64; buc_ChunkSHA256 : string }.

#[global] Instance BlobUploadChunkRequest_eq_dec : EqDecision BlobUploadChunkRequest.
Proof. solve_decision. Defined.

Definition BlobUploadChunkRequest_Validate (r : BlobUploadChunkRequest) : option GoError :=
  err_when (buc_UploadID r = uuid_Nil ∨ buc_Offset r < 0 ∨ buc_ByteCount r ≤ 0 ∨
      ¬ validDigest (buc_ChunkSHA256 r))
    (protocolError CodeInvalidBlobUpload "blob upload chunk is invalid").

Record BlobUploadStatus := mkBlobUploadStatus {
  bus_UploadID : UUID;
  bus_RelayBlobID : string;
  bus_ByteCount : int64;
  bus_CommittedOffset : int64;
  bus_Finalized : bool;
  bus_CreatedAtMilliseconds : int64;
  bus_UpdatedAtMilliseconds : int64 }.

#[global] Instance eta_BlobUploadStatus : Eta BlobUploadStatus := fun s =>
  mkBlobUploadStatus (bus_UploadID s) (bus_RelayBlobID s) (bus_ByteCount s)
    (bus_CommittedOffset s) (bus_Finalized s) (bus_CreatedAtMilliseconds s)
    (bus_UpdatedAtMilliseconds s).
#[global] Instance upd_bus_CommittedOffset : Update bus_CommittedOffset := ltac:(mk_update).
#[global] Instance upd_bus_Finalized : Update bus_Finalized := ltac:(mk_update).
#[global] Instance upd_bus_UpdatedAtMilliseconds : Update bus_UpdatedAtMilliseconds := ltac:(mk_update).

Definition BlobUploadStatus_Validate (s : BlobUploadStatus) : option GoError :=
  err_when (bus_UploadID s = uuid_Nil ∨ bus_ByteCount s < 0 ∨
      bus_CommittedOffset s < 0 ∨ bus_CommittedOffset s > bus_ByteCount s ∨
      (bus_Finalized s = true ∧ bus_CommittedOffset s ≠ bus_ByteCount s) ∨
      bus_CreatedAtMilliseconds s < 0 ∨
      bus_UpdatedAtMilliseconds s < bus_CreatedAtMilliseconds s)
    (protocolError CodeInvalidBlobUpload "blob upload status is invalid") >>?
  err_when (ValidateBlobID (bus_RelayBlobID s) ≠ None)
    (protocolError CodeInvalidBlobUpload "blob upload status identifier is invalid").

Record BlobUploadCreateResponse := mkBlobUploadCreateResponse {
  bucr_Acceptance : Acceptance; bucr_RetryID : UUID; bucr_Status : BlobUploadStatus }.

Record BlobUploadFinalizationRequest := mkBlobUploadFinalizationRequest {
  bufq_RetryID : UUID;
  bufq_UploadID : UUID;
  bufq_RelayBlobID : string;
  bufq_ByteCount : int64;
  bufq_FinalizedAtMilliseconds : int64 }.

#[global] Instance BlobUploadFinalizationRequest_eq_dec :
  EqDecision BlobUploadFinalizationRequest.
Proof. solve_decision. Defined.

Definition BlobUploadFinalizationRequest_Validate (r : BlobUploadFinalizationRequest)
    : option GoError :=
  err_when (bufq_RetryID r = uuid_Nil ∨ bufq_UploadID r = uuid_Nil ∨ bufq_ByteCount r < 0 ∨
      bufq_ByteCount r > MaximumBlobByteCount ∨ bufq_FinalizedAtMilliseconds r < 0)
    (protocolError CodeInvalidBlobUpload "blob upload finalization is invalid") >>?
  err_when (ValidateBlobID (bufq_RelayBlobID r) ≠ None)
    (protocolError CodeInvalidBlobUpload "blob upload finalization identifier is invalid").

Record BlobUploadFinalizationResponse := mkBlobUploadFinalizationResponse {
  bufr_Acceptance : Acceptance;
  bufr_RetryID : UUID;
  bufr_UploadID : UUID;
  bufr_RelayBlobID : string;
  bufr_ByteCount : int64 }.

#[global] Instance eta_BlobUploadFinalizationResponse : Eta BlobUploadFinalizationResponse := fun r =>
  mkBlobUploadFinalizationResponse (bufr_Acceptance r) (bufr_RetryID r) (bufr_UploadID r)
    (bufr_RelayBlobID r) (bufr_ByteCount r).
#[global] Instance upd_bufr_Acceptance : Update bufr_Acceptance := ltac:(mk_update).

(** ** Checkpoint fences *)

Abbreviation CheckpointFenceStatus := string (only parsing).

Definition CheckpointFenceActive : CheckpointFenceStatus := "active".
Definition CheckpointFenceActivated : CheckpointFenceStatus := "activated".
Definition CheckpointFenceExpired : CheckpointFenceStatus := "expired".
Definition CheckpointFenceAborted : CheckpointFenceStatus := "aborted".

Record CheckpointFenceRequest := mkCheckpointFenceRequest {
  cfr_RetryID : UUID; cfr_FenceID : UUID; cfr_RequestedAtMilliseconds : int64 }.

#[global] Instance CheckpointFenceRequest_eq_dec : EqDecision CheckpointFenceRequest.
Proof. solve_decision. Defined.

Definition CheckpointFenceRequest_Validate (r : CheckpointFenceRequest) : option GoError :=
  err_when (cfr_RetryID r = uuid_Nil ∨ cfr_FenceID r = uuid_Nil ∨
      cfr_RequestedAtMilliseconds r < 0)
    (protocolError CodeInvalidCheckpointFence "checkpoint fence request is invalid").

Record CheckpointFenceState := mkCheckpointFenceState {
  cfs_FenceID : UUID;
  cfs_Status : CheckpointFenceStatus;
  cfs_BoundaryCursor : string;
  cfs_AcquiredAtMilliseconds : int64;
  cfs_ExpiresAtMilliseconds : int64 }.

#[global] Instance eta_CheckpointFenceState : Eta CheckpointFenceState := fun s =>
  mkCheckpointFenceState (cfs_FenceID s) (cfs_Status s) (cfs_BoundaryCursor s)
    (cfs_AcquiredAtMilliseconds s) (cfs_ExpiresAtMilliseconds s).
#[global] Instance upd_cfs_Status : Update cfs_Status := ltac:(mk_update).

Definition CheckpointFenceState_Validate (s : CheckpointFenceState) : option GoError :=
  err_when (cfs_FenceID s = uuid_Nil ∨ cfs_AcquiredAtMilliseconds s < 0 ∨
      cfs_ExpiresAtMilliseconds s ≤ cfs_AcquiredAtMilliseconds s ∨
      ValidateOpaqueCursor (cfs_BoundaryCursor s) ≠ None)
    (protocolError CodeInvalidCheckpointFence "checkpoint fence state is invalid") >>?
  err_when (¬ (cfs_Status s = CheckpointFenceActive ∨ cfs_Status s = CheckpointFenceActivated ∨
               cfs_Status s = CheckpointFenceExpired ∨ cfs_Status s = CheckpointFenceAborted))
    (protocolError CodeInvalidCheckpointFence "checkpoint fence status is invalid").

Record CheckpointFenceResponse := mkCheckpointFenceResponse {
  cfp_Acceptance : Acceptance;
  cfp_RetryID : UUID;
  cfp_FenceID : UUID;
  cfp_BoundaryCursor : string;
  cfp_AcquiredAtMilliseconds : int64;
  cfp_ExpiresAtMilliseconds : int64 }.

Record CheckpointFenceAbortRequest := mkCheckpointFenceAbortRequest {
  cfa_RetryID : UUID; cfa_FenceID : UUID; cfa_AbortedAtMilliseconds : int64 }.

#[global] Instance CheckpointFenceAbortRequest_eq_dec : EqDecision CheckpointFenceAbortRequest.
Proof. solve_decision. Defined.

Definition CheckpointFenceAbortRequest_Validate (r : CheckpointFenceAbortRequest)
    : option GoError :=
  err_when (cfa_RetryID r = uuid_Nil ∨ cfa_FenceID r = uuid_Nil ∨
      cfa_AbortedAtMilliseconds r < 0)
    (protocolError CodeInvalidCheckpointFence "checkpoint fence abort is invalid").

Record CheckpointFenceAbortResponse := mkCheckpointFenceAbortResponse {
  cfar_Acceptance : Acceptance;
  cfar_RetryID : UUID;
  cfar_FenceID : UUID;
  cfar_Status : CheckpointFenceStatus }.

#[global] Instance eta_CheckpointFenceAbortResponse : Eta CheckpointFenceAbortResponse := fun r =>
  mkCheckpointFenceAbortResponse (cfar_Acceptance r) (cfar_RetryID r) (cfar_FenceID r)
    (cfar_Status r).
#[global] Instance upd_cfar_Acceptance : Update cfar_Acceptance := ltac:(mk_update).

(** ** Checkpoints *)

Record CheckpointCandidate := mkCheckpointCandidate {
  cc_Version : Z;
  cc_RetryID : UUID;
  cc_CheckpointID : UUID;
  cc_FenceID : UUID;
  cc_TenantID : UUID;
  cc_DomainID : UUID;
  cc_PublisherSubscriptionID : UUID;
  cc_KeyEpoch : uint64;
  cc_CoveredThroughCursor : string;
  cc_RetainedMessageIDs : list UUID;
  cc_RetainedBlobIDs : list string;
  cc_CreatedAtMilliseconds : int64 }.

#[global] Instance eta_CheckpointCandidate : Eta CheckpointCandidate := fun c =>
  mkCheckpointCandidate (cc_Version c) (cc_RetryID c) (cc_CheckpointID c) (cc_FenceID c)
    (cc_TenantID c) (cc_DomainID c) (cc_PublisherSubscriptionID c) (cc_KeyEpoch c)
    (cc_CoveredThroughCursor c) (cc_RetainedMessageIDs c) (cc_RetainedBlobIDs c)
    (cc_CreatedAtMilliseconds c).
#[global] Instance upd_cc_RetainedMessageIDs : Update cc_RetainedMessageIDs := ltac:(mk_update).
#[global] Instance upd_cc_RetainedBlobIDs : Update cc_RetainedBlobIDs := ltac:(mk_update).

(** The two canonical-order loops: every element is acceptable and follows its
    predecessor under [rank]. *)
Fixpoint canonical_from {A} (rank : A → string) (bad : A → Prop) (previous : option A)
    (l : list A) : Prop :=
  match l with
  | [] => True
  | x :: rest =>
    ¬ (bad x ∨ some_and previous (fun p => str_le (rank x) (rank p))) ∧
    canonical_from rank bad (Some x) rest
  end.

#[global] Instance canonical_from_dec {A} (rank : A → string) bad
  `{∀ x, Decision (bad x)} p l : Decision (canonical_from rank bad p l).
Proof. revert p. induction l; intros p; simpl; apply _. Defined.

Definition CheckpointCandidate_Validate `{UuidLib} (c : CheckpointCandidate) : option GoError :=
  err_when (cc_Version c ≠ SchemaVersion ∨ cc_RetryID c = uuid_Nil ∨
      cc_CheckpointID c = uuid_Nil ∨ cc_FenceID c = uuid_Nil ∨ cc_TenantID c = uuid_Nil ∨
      cc_DomainID c = uuid_Nil ∨ cc_PublisherSubscriptionID c = uuid_Nil ∨
      cc_KeyEpoch c = 0 ∨ cc_CreatedAtMilliseconds c < 0 ∨
      ValidateOpaqueCursor (cc_CoveredThroughCursor c) ≠ None)
    (protocolError CodeInvalidCheckpoint "checkpoint candidate fields are invalid") >>?
  err_when (¬ canonical_from uuid_String (fun id => id = uuid_Nil) None (cc_RetainedMessageIDs c))
    (protocolError CodeInvalidCheckpoint "retained message IDs are not canonical") >>?
  err_when (¬ canonical_from id (fun id => ValidateBlobID id ≠ None) None (cc_RetainedBlobIDs c))
    (protocolError CodeInvalidCheckpoint "retained blob IDs are not canonical").

(** A string is hashed behind its length. *)
Definition checkpointDigestString (value : string) : bytes :=
  BigEndian_PutUint64 (len value) ++ str value.

Definition CheckpointCandidateDigest (candidate : CheckpointCandidate) : string :=
  hex_EncodeToString (Sum256 (
    domain_separator "Facets replica relay checkpoint candidate v1"
    ++ BigEndian_PutUint64 (u64 (cc_Version candidate))
    ++ uuid_bytes (cc_RetryID candidate)
    ++ uuid_bytes (cc_CheckpointID candidate)
    ++ uuid_bytes (cc_FenceID candidate)
    ++ uuid_bytes (cc_TenantID candidate)
    ++ uuid_bytes (cc_DomainID candidate)
    ++ uuid_bytes (cc_PublisherSubscriptionID candidate)
    ++ BigEndian_PutUint64 (cc_KeyEpoch candidate)
    ++ checkpointDigestString (cc_CoveredThroughCursor candidate)
    ++ BigEndian_PutUint64 (zlen (cc_RetainedMessageIDs candidate))
    ++ (cc_RetainedMessageIDs candidate ≫= uuid_bytes)
    ++ BigEndian_PutUint64 (zlen (cc_RetainedBlobIDs candidate))
    ++ (cc_RetainedBlobIDs candidate ≫= checkpointDigestString)
    ++ BigEndian_PutUint64 (u64 (cc_CreatedAtMilliseconds candidate)))).

Record CheckpointStageResponse := mkCheckpointStageResponse {
  csr_Acceptance : Acceptance; csr_RetryID : UUID; csr_CheckpointID : UUID }.

Record CheckpointActivationRequest := mkCheckpointActivationRequest {
  caq_RetryID : UUID; caq_CheckpointID : UUID; caq_ActivatedAtMilliseconds : int64 }.

#[global] Instance CheckpointActivationRequest_eq_dec : EqDecision CheckpointActivationRequest.
Proof. solve_decision. Defined.

(** The zero request of a checkpoint that has not been activated. *)
Definition CheckpointActivationRequest_zero : CheckpointActivationRequest :=
  mkCheckpointActivationRequest uuid_Nil uuid_Nil 0.

Definition CheckpointActivationRequest_Validate (r : CheckpointActivationRequest)
    : option GoError :=
  err_when (caq_RetryID r = uuid_Nil ∨ caq_CheckpointID r = uuid_Nil ∨
      caq_ActivatedAtMilliseconds r < 0)
    (protocolError CodeInvalidCheckpoint "checkpoint activation is invalid").

Record CheckpointActivationResponse := mkCheckpointActivationResponse {
  car_Acceptance : Acceptance;
  car_RetryID : UUID;
  car_CheckpointID : UUID;
  car_ActivatedAtMilliseconds : int64;
  car_StartCursor : string }.

#[global] Instance eta_CheckpointActivationResponse : Eta CheckpointActivationResponse := fun r =>
  mkCheckpointActivationResponse (car_Acceptance r) (car_RetryID r) (car_CheckpointID r)
    (car_ActivatedAtMilliseconds r) (car_StartCursor r).
#[global] Instance upd_car_Acceptance : Update car_Acceptance := ltac:(mk_update).

Record CheckpointDryRunRequest := mkCheckpointDryRunRequest { cdq_CheckpointID : UUID }.

Definition CheckpointDryRunRequest_Validate (r : CheckpointDryRunRequest) : option GoError :=
  err_when (cdq_CheckpointID r = uuid_Nil)
    (protocolError CodeInvalidCheckpoint "checkpoint dry run is invalid").

Record CheckpointDryRunResponse := mkCheckpointDryRunResponse {
  cdr_CheckpointID : UUID;
  cdr_Eligible : bool;
  cdr_MessageCount : int64;
  cdr_MessageByteCount : int64;
  cdr_BlobCount : int64;
  cdr_BlobByteCount : int64;
  cdr_MissingCustodySubscriptionIDs : list UUID;
  cdr_PlanDigest : string }.

Record CheckpointCollectionRequest := mkCheckpointCollectionRequest {
  ccq_RetryID : UUID;
  ccq_CheckpointID : UUID;
  ccq_PlanDigest : string;
  ccq_MaximumMessageCount : int64;
  ccq_MaximumBlobCount : int64;
  ccq_RequestedAtMilliseconds : int64 }.

#[global] Instance CheckpointCollectionRequest_eq_dec : EqDecision CheckpointCollectionRequest.
Proof. solve_decision. Defined.

Definition CheckpointCollectionRequest_Validate (r : CheckpointCollectionRequest)
    : option GoError :=
  err_when (ccq_RetryID r = uuid_Nil ∨ ccq_CheckpointID r = uuid_Nil ∨
      ¬ validDigest (ccq_PlanDigest r) ∨
      ccq_MaximumMessageCount r < 0 ∨
      ccq_MaximumMessageCount r > MaximumCheckpointCollectionCount ∨
      ccq_MaximumBlobCount r < 0 ∨ ccq_MaximumBlobCount r > MaximumCheckpointCollectionCount ∨
      (ccq_MaximumMessageCount r = 0 ∧ ccq_MaximumBlobCount r = 0) ∨
      ccq_RequestedAtMilliseconds r < 0)
    (protocolError CodeInvalidCheckpoint "checkpoint collection is invalid").

Record CheckpointCollectionResponse := mkCheckpointCollectionResponse {
  ccr_Duplicate : bool;
  ccr_RetryID : UUID;
  ccr_CheckpointID : UUID;
  ccr_PlanDigest : string;
  ccr_DeletedMessageCount : int64;
  ccr_DeletedMessageByteCount : int64;
  ccr_DeletedBlobCount : int64;
  ccr_DeletedBlobByteCount : int64;
  ccr_Completed : bool }.

#[global] Instance eta_CheckpointCollectionResponse : Eta CheckpointCollectionResponse := fun r =>
  mkCheckpointCollectionResponse (ccr_Duplicate r) (ccr_RetryID r) (ccr_CheckpointID r)
    (ccr_PlanDigest r) (ccr_DeletedMessageCount r) (ccr_DeletedMessageByteCount r)
    (ccr_DeletedBlobCount r) (ccr_DeletedBlobByteCount r) (ccr_Completed r).
#[global] Instance upd_ccr_Duplicate : Update ccr_Duplicate := ltac:(mk_update).

Record CheckpointPlanMessage := mkCheckpointPlanMessage {
  cpm_Sequence : uint64; cpm_MessageID : UUID; cpm_ByteCount : int64 }.

Record CheckpointPlanBlob := mkCheckpointPlanBlob {
  cpb_BlobID : string; cpb_ByteCount : int64 }.

(** Sequence first, then the sixteen bytes of the message identifier, whose
    byte order is the order of the numbers they spell. *)
Definition plan_message_le (a b : CheckpointPlanMessage) : Prop :=
  cpm_Sequence a < cpm_Sequence b ∨
  (cpm_Sequence a = cpm_Sequence b ∧ (cpm_MessageID a ≤ cpm_MessageID b)%N).

#[global] Instance plan_message_le_dec : RelDecision plan_message_le.
Proof. intros a b. unfold plan_message_le. apply _. Defined.

Definition plan_blob_le (a b : CheckpointPlanBlob) : Prop := str_le (cpb_BlobID a) (cpb_BlobID b).

#[global] Instance plan_blob_le_dec : RelDecision plan_blob_le.
Proof. intros a b. unfold plan_blob_le. apply _. Defined.

Definition CheckpointPlanDigest (tenantID domainID checkpointID : UUID)
    (activationOrdinal : uint64) (messages : list CheckpointPlanMessage)
    (blobs : list CheckpointPlanBlob) : string :=
  let messages := merge_sort plan_message_le messages in
  let blobs := merge_sort plan_blob_le blobs in
  hex_EncodeToString (Sum256 (
    domain_separator "Facets replica relay checkpoint collection plan v1"
    ++ uuid_bytes tenantID ++ uuid_bytes domainID ++ uuid_bytes checkpointID
    ++ BigEndian_PutUint64 activationOrdinal
    ++ BigEndian_PutUint64 (zlen messages)
    ++ (messages ≫= fun m => BigEndian_PutUint64 (cpm_Sequence m) ++ uuid_bytes (cpm_MessageID m)
                             ++ BigEndian_PutUint64 (u64 (cpm_ByteCount m)))
    ++ BigEndian_PutUint64 (zlen blobs)
    ++ (blobs ≫= fun b => BigEndian_PutUint64 (len (cpb_BlobID b)) ++ str (cpb_BlobID b)
                          ++ BigEndian_PutUint64 (u64 (cpb_ByteCount b))))).
