(* ===== verification/RelayState.v ===== *)
(** * internal/relay: the state of the in-memory store

    The unexported structs of [memory.go], [memory_checkpoint.go],
    [memory_fence.go] and [memory_upload.go], the store itself, and the lookups
    ([authorizedDomain], [authorizedMember], the subscription lookups, tenant
    usage) that every operation goes through.

    Pointers.  A [*memoryMessage] is shared by a domain's [messages] slice, its
    [messageByID] map and the [deletionMessages] of checkpoints, and its
    acknowledgment map is mutated in place; message objects therefore live in a
    heap ([dom_heap]) and the three containers hold references.  The other
    pointers ([*memoryDomain], [*memoryCheckpoint], [*memoryCheckpointFence],
    [*memoryBlobUpload], [*memoryTenant]) have exactly one owner, the map they
    are stored in, so they are values of that map and a mutation is an insert. *)

From S2P Require Import Prelude GoEncoding Sha256 RelayModel.
#[local] Open Scope Z_scope.

(** ** Messages and fences *)

(** The address of a message object. *)
Abbreviation messageRef := N (only parsing).

Record memoryMessage := mkMemoryMessage {
  mm_message : Message;
  mm_byteCount : int64;
  mm_publisherMember : UUID;
  mm_publisherSubscription : UUID;
  mm_acknowledgments : gmap UUID AcknowledgmentStage;
  mm_checkpointFenceID : option UUID }.

#[global] Instance eta_memoryMessage : Eta memoryMessage := fun m =>
  mkMemoryMessage (mm_message m) (mm_byteCount m) (mm_publisherMember m)
    (mm_publisherSubscription m) (mm_acknowledgments m) (mm_checkpointFenceID m).
#[global] Instance upd_mm_acknowledgments : Update mm_acknowledgments := ltac:(mk_update).
#[global] Instance upd_mm_checkpointFenceID : Update mm_checkpointFenceID := ltac:(mk_update).

Definition mm_Sequence (m : memoryMessage) : uint64 := msg_Sequence (mm_message m).
Definition mm_MessageID (m : memoryMessage) : UUID := env_MessageID (msg_Envelope (mm_message m)).

Record memoryFenceMessageTombstone := mkMemoryFenceMessageTombstone {
  mft_publisherMember : UUID; mft_digest : string; mft_sequence : uint64 }.

Record memoryCheckpointFence := mkMemoryCheckpointFence {
  mcf_request : CheckpointFenceRequest;
  mcf_state : CheckpointFenceState;
  mcf_holderSubscriptionID : UUID }.

#[global] Instance eta_memoryCheckpointFence : Eta memoryCheckpointFence := fun f =>
  mkMemoryCheckpointFence (mcf_request f) (mcf_state f) (mcf_holderSubscriptionID f).
#[global] Instance upd_mcf_state : Update mcf_state := ltac:(mk_update).

Definition mcf_Status (f : memoryCheckpointFence) : CheckpointFenceStatus :=
  cfs_Status (mcf_state f).

Definition mcf_set_Status (status : CheckpointFenceStatus) (f : memoryCheckpointFence)
    : memoryCheckpointFence :=
  f <| mcf_state := (mcf_state f) <| cfs_Status := status |> |>.

Record memoryFenceAbort := mkMemoryFenceAbort {
  mfa_request : CheckpointFenceAbortRequest; mfa_result : CheckpointFenceAbortResponse }.

(** ** Checkpoints *)

(** The [state] string of a checkpoint is only ever one of four literals. *)
Inductive checkpointState : Set := staged | activated | retired | invalidated.

#[global] Instance checkpointState_eq_dec : EqDecision checkpointState.
Proof. solve_decision. Defined.

Record memoryCheckpoint := mkMemoryCheckpoint {
  mc_candidate : CheckpointCandidate;
  mc_candidateDigest : string;
  mc_publisherMemberID : UUID;
  mc_coveredThrough : uint64;
  mc_state : checkpointState;
  mc_activationOrdinal : uint64;
  mc_activationRequest : CheckpointActivationRequest;
  mc_startSequence : uint64;
  mc_required : gset UUID;
  mc_deletionMessages : gmap UUID messageRef;
  mc_deletionBlobs : gmap string BlobMetadata }.

#[global] Instance eta_memoryCheckpoint : Eta memoryCheckpoint := fun c =>
  mkMemoryCheckpoint (mc_candidate c) (mc_candidateDigest c) (mc_publisherMemberID c)
    (mc_coveredThrough c) (mc_state c) (mc_activationOrdinal c) (mc_activationRequest c)
    (mc_startSequence c) (mc_required c) (mc_deletionMessages c) (mc_deletionBlobs c).
#[global] Instance upd_mc_candidate : Update mc_candidate := ltac:(mk_update).
#[global] Instance upd_mc_state : Update mc_state := ltac:(mk_update).
#[global] Instance upd_mc_activationOrdinal : Update mc_activationOrdinal := ltac:(mk_update).
#[global] Instance upd_mc_activationRequest : Update mc_activationRequest := ltac:(mk_update).
#[global] Instance upd_mc_startSequence : Update mc_startSequence := ltac:(mk_update).
#[global] Instance upd_mc_required : Update mc_required := ltac:(mk_update).
#[global] Instance upd_mc_deletionMessages : Update mc_deletionMessages := ltac:(mk_update).
#[global] Instance upd_mc_deletionBlobs : Update mc_deletionBlobs := ltac:(mk_update).

Record memoryCheckpointActivation := mkMemoryCheckpointActivation {
  mca_checkpointID : UUID;
  mca_request : CheckpointActivationRequest;
  mca_result : CheckpointActivationResponse }.

Record memoryCheckpointCollection := mkMemoryCheckpointCollection {
  mcl_request : CheckpointCollectionRequest; mcl_result : CheckpointCollectionResponse }.

(** ** Uploads *)

Record memoryBlobUpload := mkMemoryBlobUpload {
  mbu_request : BlobUploadRequest;
  mbu_status : BlobUploadStatus;
  mbu_subscriptionID : UUID;
  mbu_publisherMemberID : UUID;
  mbu_chunks : gmap Z BlobUploadChunkRequest }.

#[global] Instance eta_memoryBlobUpload : Eta memoryBlobUpload := fun u =>
  mkMemoryBlobUpload (mbu_request u) (mbu_status u) (mbu_subscriptionID u)
    (mbu_publisherMemberID u) (mbu_chunks u).
#[global] Instance upd_mbu_status : Update mbu_status := ltac:(mk_update).
#[global] Instance upd_mbu_chunks : Update mbu_chunks := ltac:(mk_update).

Record memoryBlobUploadFinalization := mkMemoryBlobUploadFinalization {
  mbf_request : BlobUploadFinalizationRequest; mbf_result : BlobUploadFinalizationResponse }.

(** ** Recorded requests *)

Record memorySubscriptionChange := mkMemorySubscriptionChange {
  msc_subscriptionID : UUID;
  msc_request : SubscriptionStatusChangeRequest;
  msc_result : Subscription }.

Record memorySubscriptionRebootstrapRequest := mkMemorySubscriptionRebootstrapRequest {
  msr_subscriptionID : UUID;
  msr_request : SubscriptionRebootstrapRequest;
  msr_expiresAtMilliseconds : int64;
  msr_result : Subscription }.

#[global] Instance eta_memorySubscriptionRebootstrapRequest :
  Eta memorySubscriptionRebootstrapRequest := fun r =>
  mkMemorySubscriptionRebootstrapRequest (msr_subscriptionID r) (msr_request r)
    (msr_expiresAtMilliseconds r) (msr_result r).
#[global] Instance upd_msr_expiresAtMilliseconds : Update msr_expiresAtMilliseconds := ltac:(mk_update).

Record memorySubscriptionRebootstrapRenewal := mkMemorySubscriptionRebootstrapRenewal {
  msn_subscriptionID : UUID;
  msn_request : SubscriptionRebootstrapRenewal;
  msn_previousExpiresAtMilliseconds : int64;
  msn_expiresAtMilliseconds : int64;
  msn_result : Subscription }.

Record memorySubscriptionRebootstrapCancellation := mkMemorySubscriptionRebootstrapCancellation {
  msx_subscriptionID : UUID;
  msx_request : SubscriptionRebootstrapCancellation;
  msx_result : Subscription }.

Record memorySubscriptionRebootstrapCompletion := mkMemorySubscriptionRebootstrapCompletion {
  mso_subscriptionID : UUID;
  mso_recoveryStartSequence : uint64;
  mso_request : SubscriptionRebootstrapCompletion;
  mso_result : Subscription }.

(** [administrationRotationSubject] and [memberRotationSubject]. *)
Inductive rotationSubject : Set := administrationRotationSubject | memberRotationSubject.

#[global] Instance rotationSubject_eq_dec : EqDecision rotationSubject.
Proof. solve_decision. Defined.

Record memoryCredentialRotation := mkMemoryCredentialRotation {
  mcr_subjectType : rotationSubject;
  mcr_subjectID : UUID;
  mcr_previousAuthorizationDigest : string;
  mcr_newAuthorizationDigest : string;
  mcr_rotatedAtMilliseconds : int64 }.

Record memoryMemberCapabilityChange := mkMemoryMemberCapabilityChange {
  mmc_request : MemberCapabilityChange; mmc_result : MemberCapabilityChangeResult }.

(** ** Domains, tenants, the store *)

(** [dom_heap] and [dom_nextRef] are the message objects and the next unused
    address; every other field is a field of the Go struct. *)
Record memoryDomain := mkMemoryDomain {
  dom_provisioningRetryID : UUID;
  dom_registration : DomainRegistration;
  dom_subscriptions : gmap UUID Subscription;
  dom_subscriptionCreates : gmap UUID SubscriptionCreateRequest;
  dom_subscriptionChanges : gmap UUID memorySubscriptionChange;
  dom_rebootstrapRequests : gmap UUID memorySubscriptionRebootstrapRequest;
  dom_rebootstrapRenewals : gmap UUID memorySubscriptionRebootstrapRenewal;
  dom_rebootstrapCancellations : gmap UUID memorySubscriptionRebootstrapCancellation;
  dom_rebootstrapCompletions : gmap UUID memorySubscriptionRebootstrapCompletion;
  dom_memberSubscriptions : gmap UUID UUID;
  dom_admissionSubscriptions : gmap UUID UUID;
  dom_members : gmap UUID MemberRegistration;
  dom_admissions : gmap UUID MemberAdmission;
  dom_messages : list messageRef;
  dom_messageByID : gmap UUID messageRef;
  dom_blobs : gmap string BlobMetadata;
  dom_rotations : gmap UUID memoryCredentialRotation;
  dom_capabilityChanges : gmap UUID memoryMemberCapabilityChange;
  dom_nextSequence : uint64;
  dom_messageBytes : int64;
  dom_blobBytes : int64;
  dom_checkpoints : gmap UUID memoryCheckpoint;
  dom_checkpointStageRetries : gmap UUID UUID;
  dom_checkpointActivations : gmap UUID memoryCheckpointActivation;
  dom_checkpointCollections : gmap UUID memoryCheckpointCollection;
  dom_activatedCheckpoints : list UUID;
  dom_checkpointOrdinal : uint64;
  dom_checkpointFences : gmap UUID memoryCheckpointFence;
  dom_checkpointFenceRetries : gmap UUID UUID;
  dom_checkpointFenceAborts : gmap UUID memoryFenceAbort;
  dom_fenceMessageTombstones : gmap UUID memoryFenceMessageTombstone;
  dom_blobFenceIDs : gmap string UUID;
  dom_blobUploads : gmap UUID memoryBlobUpload;
  dom_blobUploadCreates : gmap UUID UUID;
  dom_blobUploadFinalizations : gmap UUID memoryBlobUploadFinalization;
  dom_reservedBlobCount : int64;
  dom_reservedBlobBytes : int64;
  dom_heap : gmap messageRef memoryMessage;
  dom_nextRef : messageRef }.

#[global] Instance eta_memoryDomain : Eta memoryDomain := fun d =>
  mkMemoryDomain (dom_provisioningRetryID d) (dom_registration d) (dom_subscriptions d)
    (dom_subscriptionCreates d) (dom_subscriptionChanges d) (dom_rebootstrapRequests d)
    (dom_rebootstrapRenewals d) (dom_rebootstrapCancellations d) (dom_rebootstrapCompletions d)
    (dom_memberSubscriptions d) (dom_admissionSubscriptions d) (dom_members d) (dom_admissions d)
    (dom_messages d) (dom_messageByID d) (dom_blobs d) (dom_rotations d) (dom_capabilityChanges d)
    (dom_nextSequence d) (dom_messageBytes d) (dom_blobBytes d) (dom_checkpoints d)
    (dom_checkpointStageRetries d) (dom_checkpointActivations d) (dom_checkpointCollections d)
    (dom_activatedCheckpoints d) (dom_checkpointOrdinal d) (dom_checkpointFences d)
    (dom_checkpointFenceRetries d) (dom_checkpointFenceAborts d) (dom_fenceMessageTombstones d)
    (dom_blobFenceIDs d) (dom_blobUploads d) (dom_blobUploadCreates d)
    (dom_blobUploadFinalizations d) (dom_reservedBlobCount d) (dom_reservedBlobBytes d) (dom_heap
    d) (dom_nextRef d).
#[global] Instance upd_dom_registration : Update dom_registration := ltac:(mk_update).
#[global] Instance upd_dom_subscriptions : Update dom_subscriptions := ltac:(mk_update).
#[global] Instance upd_dom_subscriptionCreates : Update dom_subscriptionCreates := ltac:(mk_update).
#[global] Instance upd_dom_subscriptionChanges : Update dom_subscriptionChanges := ltac:(mk_update).
#[global] Instance upd_dom_rebootstrapRequests : Update dom_rebootstrapRequests := ltac:(mk_update).
#[global] Instance upd_dom_rebootstrapRenewals : Update dom_rebootstrapRenewals := ltac:(mk_update).
#[global] Instance upd_dom_rebootstrapCancellations : Update dom_rebootstrapCancellations := ltac:(mk_update).
#[global] Instance upd_dom_rebootstrapCompletions : Update dom_rebootstrapCompletions := ltac:(mk_update).
#[global] Instance upd_dom_memberSubscriptions : Update dom_memberSubscriptions := ltac:(mk_update).
#[global] Instance upd_dom_admissionSubscriptions : Update dom_admissionSubscriptions := ltac:(mk_update).
#[global] Instance upd_dom_members : Update dom_members := ltac:(mk_update).
#[global] Instance upd_dom_admissions : Update dom_admissions := ltac:(mk_update).
#[global] Instance upd_dom_messages : Update dom_messages := ltac:(mk_update).
#[global] Instance upd_dom_messageByID : Update dom_messageByID := ltac:(mk_update).
#[global] Instance upd_dom_blobs : Update dom_blobs := ltac:(mk_update).
#[global] Instance upd_dom_rotations : Update dom_rotations := ltac:(mk_update).
#[global] Instance upd_dom_capabilityChanges : Update dom_capabilityChanges := ltac:(mk_update).
#[global] Instance upd_dom_nextSequence : Update dom_nextSequence := ltac:(mk_update).
#[global] Instance upd_dom_messageBytes : Update dom_messageBytes := ltac:(mk_update).
#[global] Instance upd_dom_blobBytes : Update dom_blobBytes := ltac:(mk_update).
#[global] Instance upd_dom_checkpoints : Update dom_checkpoints := ltac:(mk_update).
#[global] Instance upd_dom_checkpointStageRetries : Update dom_checkpointStageRetries := ltac:(mk_update).
#[global] Instance upd_dom_checkpointActivations : Update dom_checkpointActivations := ltac:(mk_update).
#[global] Instance upd_dom_checkpointCollections : Update dom_checkpointCollections := ltac:(mk_update).
#[global] Instance upd_dom_activatedCheckpoints : Update dom_activatedCheckpoints := ltac:(mk_update).
#[global] Instance upd_dom_checkpointOrdinal : Update dom_checkpointOrdinal := ltac:(mk_update).
#[global] Instance upd_dom_checkpointFences : Update dom_checkpointFences := ltac:(mk_update).
#[global] Instance upd_dom_checkpointFenceRetries : Update dom_checkpointFenceRetries := ltac:(mk_update).
#[global] Instance upd_dom_checkpointFenceAborts : Update dom_checkpointFenceAborts := ltac:(mk_update).
#[global] Instance upd_dom_fenceMessageTombstones : Update dom_fenceMessageTombstones := ltac:(mk_update).
#[global] Instance upd_dom_blobFenceIDs : Update dom_blobFenceIDs := ltac:(mk_update).
#[global] Instance upd_dom_blobUploads : Update dom_blobUploads := ltac:(mk_update).
#[global] Instance upd_dom_blobUploadCreates : Update dom_blobUploadCreates := ltac:(mk_update).
#[global] Instance upd_dom_blobUploadFinalizations : Update dom_blobUploadFinalizations := ltac:(mk_update).
#[global] Instance upd_dom_reservedBlobCount : Update dom_reservedBlobCount := ltac:(mk_update).
#[global] Instance upd_dom_reservedBlobBytes : Update dom_reservedBlobBytes := ltac:(mk_update).
#[global] Instance upd_dom_heap : Update dom_heap := ltac:(mk_update).
#[global] Instance upd_dom_nextRef : Update dom_nextRef := ltac:(mk_update).

Record memoryTenantRotation := mkMemoryTenantRotation {
  mtr_previousAuthorizationDigest : string;
  mtr_newAuthorizationDigest : string;
  mtr_rotatedAtMilliseconds : int64 }.

Record memoryTenant := mkMemoryTenant {
  ten_registration : TenantRegistration;
  ten_rotations : gmap UUID memoryTenantRotation;
  ten_membershipRevocations : gmap UUID TenantMembershipRevocation }.

#[global] Instance eta_memoryTenant : Eta memoryTenant := fun t =>
  mkMemoryTenant (ten_registration t) (ten_rotations t) (ten_membershipRevocations t).
#[global] Instance upd_ten_registration : Update ten_registration := ltac:(mk_update).
#[global] Instance upd_ten_rotations : Update ten_rotations := ltac:(mk_update).
#[global] Instance upd_ten_membershipRevocations : Update ten_membershipRevocations := ltac:(mk_update).

(** [domainKey]: tenant, then domain. *)
Abbreviation domainKey := (UUID * UUID)%type (only parsing).

(** [st_checkpointFence] is a [time.Duration], in nanoseconds. *)
Record MemoryStore := mkMemoryStore {
  st_tenants : gmap UUID memoryTenant;
  st_domains : gmap domainKey memoryDomain;
  st_checkpointFence : int64 }.

#[global] Instance eta_MemoryStore : Eta MemoryStore := fun s =>
  mkMemoryStore (st_tenants s) (st_domains s) (st_checkpointFence s).
#[global] Instance upd_st_tenants : Update st_tenants := ltac:(mk_update).
#[global] Instance upd_st_domains : Update st_domains := ltac:(mk_update).

Definition Millisecond : Z := 1000000.

(** [time.Duration.Milliseconds], truncating towards zero. *)
Definition Duration_Milliseconds (d : int64) : int64 := Z.quot d Millisecond.

Definition NewMemoryStore (checkpointFenceTTL : list int64) : MemoryStore :=
  let ttl := DefaultCheckpointFenceLifetimeMilliseconds * Millisecond in
  let ttl :=
    match checkpointFenceTTL with
    | first :: _ =>
      if decide (MinimumCheckpointFenceLifetimeMilliseconds * Millisecond ≤ first ∧
                 first ≤ MaximumCheckpointFenceLifetimeMilliseconds * Millisecond)
      then first else ttl
    | [] => ttl
    end in
  mkMemoryStore ∅ ∅ ttl.

Abbreviation DomainM A := (M GoError memoryDomain A) (only parsing).
Abbreviation StoreM A := (M GoError MemoryStore A) (only parsing).

(** ** Lookups *)

(** The objects behind a list of references. *)
Definition deref (d : memoryDomain) (refs : list messageRef) : list memoryMessage :=
  omap (fun r => dom_heap d !! r) refs.

(** [domain.messages], dereferenced. *)
Definition stored (d : memoryDomain) : list memoryMessage := deref d (dom_messages d).

Definition lookup_message (d : memoryDomain) (id : UUID) : option (messageRef * memoryMessage) :=
  r ← dom_messageByID d !! id; m ← dom_heap d !! r; Some (r, m).

(** Mutation of a message object through one of its references. *)
Definition put_message (r : messageRef) (m : memoryMessage) (d : memoryDomain) : memoryDomain :=
  d <| dom_heap := <[r := m]> (dom_heap d) |>.

Definition latest_activated (d : memoryDomain) : option UUID := last (dom_activatedCheckpoints d).

Definition put_domain (key : domainKey) (d : memoryDomain) (s : MemoryStore) : MemoryStore :=
  s <| st_domains := <[key := d]> (st_domains s) |>.

(** Runs the locked body of an operation on the domain that authorization
    returned; the pointer's mutations land back in the store. *)
Definition in_domain {A} (key : domainKey) (authorized : GoError + memoryDomain)
    (body : DomainM A) : StoreM A := fun s =>
  match authorized with
  | inl err => (s, inl err)
  | inr domain => let '(domain, result) := body domain in (put_domain key domain s, result)
  end.

Definition readableMemberSubscription (domain : memoryDomain) (memberID : UUID)
    : GoError + Subscription :=
  match dom_memberSubscriptions domain !! memberID with
  | None => inl (protocolError CodeInvalidSubscription "member has no subscription")
  | Some subscriptionID =>
    if decide (subscriptionID = uuid_Nil)
    then inl (protocolError CodeInvalidSubscription "member has no subscription")
    else
      match dom_subscriptions domain !! subscriptionID with
      | None => inl (protocolError CodeSubscriptionNotFound "subscription was not found")
      | Some subscription =>
        if decide (sub_Status subscription ≠ SubscriptionActive ∧
                   sub_Status subscription ≠ SubscriptionRebootstrapRequired)
        then inl (protocolError CodeInvalidSubscription "subscription is not readable")
        else inr subscription
      end
  end.

Definition activeMemberSubscription (domain : memoryDomain) (memberID : UUID)
    : GoError + Subscription :=
  match readableMemberSubscription domain memberID with
  | inl err => inl err
  | inr subscription =>
    if decide (sub_Status subscription ≠ SubscriptionActive)
    then inl (protocolError CodeInvalidSubscription "subscription is not active")
    else inr subscription
  end.

Definition latestCheckpointStartCursor (domain : memoryDomain) : option string :=
  id ← latest_activated domain;
  checkpoint ← dom_checkpoints domain !! id;
  if decide (mc_state checkpoint ≠ activated) then None
  else Some (EncodeCursor (mc_startSequence checkpoint)).

(** The loop of [tenantUsageLocked] over one of its four accumulators. *)
Definition tenant_total (f : memoryDomain → Z) (s : MemoryStore) (tenantID : UUID) : int64 :=
  i64 (map_sum f (filter (fun kd : domainKey * memoryDomain => kd.1.1 = tenantID) (st_domains s))).

Definition tenantUsageLocked (s : MemoryStore) (tenantID : UUID)
    : Z * int64 * Z * int64 :=
  (tenant_total (fun d => zlen (dom_messages d)) s tenantID,
   tenant_total dom_messageBytes s tenantID,
   tenant_total (fun d => zsize (dom_blobs d)) s tenantID,
   tenant_total dom_blobBytes s tenantID).

Definition tenantReservedBlobCountLocked (s : MemoryStore) (tenantID : UUID) : int64 :=
  tenant_total dom_reservedBlobCount s tenantID.

Definition tenantReservedBlobBytesLocked (s : MemoryStore) (tenantID : UUID) : int64 :=
  tenant_total dom_reservedBlobBytes s tenantID.

Definition ensureTenantMessageCapacityLocked (s : MemoryStore) (tenantID : UUID)
    (additionalBytes : int64) : option GoError :=
  match st_tenants s !! tenantID with
  | None => Some (protocolError CodeTenantNotFound "tenant was not found")
  | Some tenant =>
    let '(messages, messageBytes, _, _) := tenantUsageLocked s tenantID in
    let r := ten_registration tenant in
    err_when (¬ TenantRegistration_UsesSharedCapacity r ∧
        (messages ≥ tr_MaximumAggregateMessageCount r ∨
         additionalBytes > i64 (tr_MaximumAggregateMessageByteCount r - messageBytes)))
      (protocolError CodeTenantFull "tenant reached its message or byte limit")
  end.

Definition ensureTenantBlobCapacityLocked (s : MemoryStore) (tenantID : UUID)
    (additionalBytes : int64) : option GoError :=
  match st_tenants s !! tenantID with
  | None => Some (protocolError CodeTenantNotFound "tenant was not found")
  | Some tenant =>
    let '(_, _, blobs, blobBytes) := tenantUsageLocked s tenantID in
    let reservedCount := tenantReservedBlobCountLocked s tenantID in
    let reservedBytes := tenantReservedBlobBytesLocked s tenantID in
    let r := ten_registration tenant in
    err_when (¬ TenantRegistration_UsesSharedCapacity r ∧
        (i64 (blobs + reservedCount) ≥ tr_MaximumAggregateBlobCount r ∨
         additionalBytes >
           i64 (i64 (tr_MaximumAggregateBlobByteCount r - blobBytes) - reservedBytes)))
      (protocolError CodeTenantFull "tenant reached its blob or byte limit")
  end.

Definition memberActiveAt (member : MemberRegistration) (nowMilliseconds : int64) : Prop :=
  nowMilliseconds ≥ mr_CreatedAtMilliseconds member ∧
  none_or (mr_ExpiresAtMilliseconds member) (fun e => nowMilliseconds < e) ∧
  none_or (mr_RevokedAtMilliseconds member) (fun e => nowMilliseconds < e).

#[global] Instance memberActiveAt_dec m now : Decision (memberActiveAt m now).
Proof. unfold memberActiveAt. apply _. Defined.

Section authorization.
Context `{UuidLib}.

Definition authorizedDomain (s : MemoryStore) (credential : AdministrationCredential)
    : GoError + memoryDomain :=
  match st_domains s !! (acred_TenantID credential, acred_DomainID credential) with
  | None => inl (protocolError CodeDomainNotFound "domain was not found")
  | Some domain =>
    match DomainRegistration_Authorize (dom_registration domain) credential with
    | Some err => inl err
    | None => inr domain
    end
  end.

Definition authorizedMember (s : MemoryStore) (credential : Credential)
    (capability : Capability) (nowMilliseconds : int64) : GoError + memoryDomain :=
  match st_domains s !! (cred_TenantID credential, cred_DomainID credential) with
  | None => inl (protocolError CodeDomainNotFound "domain was not found")
  | Some domain =>
    match dom_members domain !! cred_MemberID credential with
    | None => inl (protocolError CodeMemberNotFound "member was not found")
    | Some member =>
      match MemberRegistration_Authorize member credential capability nowMilliseconds with
      | Some err => inl err
      | None => inr domain
      end
    end
  end.

(** memory_member_authority.go *)
Definition GetMemberAuthority (tenantID domainID memberID : UUID)
    : StoreM SubscriptionMemberRegistration :=
  let unavailable := protocolError CodeUnauthorized "member authority unavailable" in
  let* s := get in
  let* domain := found_or (st_domains s !! (tenantID, domainID)) unavailable in
  reject_if (dr_TenantID (dom_registration domain) ≠ tenantID) unavailable;;;
  let subscriptionID := default uuid_Nil (dom_memberSubscriptions domain !! memberID) in
  let* member := found_or (dom_members domain !! memberID) unavailable in
  let* subscription := found_or (dom_subscriptions domain !! subscriptionID) unavailable in
  reject_if (sub_Status subscription ≠ SubscriptionActive) unavailable;;;
  ret (mkSubscriptionMemberRegistration subscriptionID member).

(** The operations that take a domain-administration credential. *)
Definition as_administrator {A} (credential : AdministrationCredential) (body : DomainM A)
    : StoreM A :=
  let* s := get in
  in_domain (acred_TenantID credential, acred_DomainID credential)
    (authorizedDomain s credential) body.

(** The operations that take a member credential with a capability. *)
Definition as_member {A} (credential : Credential) (capability : Capability)
    (nowMilliseconds : int64) (body : DomainM A) : StoreM A :=
  let* s := get in
  in_domain (cred_TenantID credential, cred_DomainID credential)
    (authorizedMember s credential capability nowMilliseconds) body.
End authorization.
