(* ===== verification/RelayFence.v ===== *)
(** * internal/relay: checkpoint write fences (memory_fence.go)

    A fence lets one subscription quarantine its writes while it stages a
    checkpoint.  At most one fence of a domain is active; a fence that expires
    or is aborted takes its quarantined messages and blobs with it. *)

From S2P Require Import Prelude GoEncoding Sha256 RelayModel RelayState.
#[local] Open Scope Z_scope.

(** ** Helpers *)

Definition invalidate_candidate (fenceID : UUID) (checkpoint : memoryCheckpoint)
    : memoryCheckpoint :=
  if decide (cc_FenceID (mc_candidate checkpoint) = fenceID ∧ mc_state checkpoint = staged) then
    checkpoint <| mc_state := invalidated |>
      <| mc_candidate := (mc_candidate checkpoint)
           <| cc_RetainedMessageIDs := [] |> <| cc_RetainedBlobIDs := [] |> |>
  else checkpoint.

Definition invalidateMemoryFenceCandidate (fenceID : UUID) (domain : memoryDomain)
    : memoryDomain :=
  domain <| dom_checkpoints := invalidate_candidate fenceID <$> dom_checkpoints domain |>.

Section fences.
Context `{UuidLib}.

(** One iteration of the message loop of [cleanupMemoryFenceAuthority];
    [dom_messages] is the slice of messages kept so far. *)
Definition cleanup_message (fenceID : UUID) (domain : memoryDomain) (r : messageRef)
    : memoryDomain :=
  match dom_heap domain !! r with
  | None => domain
  | Some message =>
    if decide (mm_checkpointFenceID message ≠ Some fenceID) then
      domain <| dom_messages := dom_messages domain ++ [r] |>
    else
      let domain :=
        match Envelope_ReferenceDigest (msg_Envelope (mm_message message)) with
        | inl _ => domain
        | inr digest =>
          domain <| dom_fenceMessageTombstones :=
            <[mm_MessageID message := mkMemoryFenceMessageTombstone
                (mm_publisherMember message) digest (mm_Sequence message)]>
              (dom_fenceMessageTombstones domain) |>
        end in
      domain <| dom_messageByID := delete (mm_MessageID message) (dom_messageByID domain) |>
        <| dom_messageBytes := i64 (dom_messageBytes domain - mm_byteCount message) |>
  end.

(** One iteration of its blob loop, for an entry of [blobFenceIDs]. *)
Definition cleanup_blob (fenceID : UUID) (domain : memoryDomain) (entry : string * UUID)
    : memoryDomain :=
  let '(blobID, associatedFenceID) := entry in
  if decide (associatedFenceID ≠ fenceID) then domain
  else
    let domain :=
      match dom_blobs domain !! blobID with
      | Some blob =>
        domain <| dom_blobBytes := i64 (dom_blobBytes domain - bm_ByteCount blob) |>
          <| dom_blobs := delete blobID (dom_blobs domain) |>
      | None => domain
      end in
    domain <| dom_blobFenceIDs := delete blobID (dom_blobFenceIDs domain) |>.

Definition cleanup_messages (fenceID : UUID) (domain : memoryDomain) : memoryDomain :=
  foldl (cleanup_message fenceID) (domain <| dom_messages := [] |>) (dom_messages domain).

Definition cleanup_blobs (fenceID : UUID) (domain : memoryDomain) : memoryDomain :=
  foldl (cleanup_blob fenceID) domain (map_to_list (dom_blobFenceIDs domain)).

Definition cleanupMemoryFenceAuthority (fenceID : UUID) (domain : memoryDomain)
    : memoryDomain :=
  cleanup_blobs fenceID (cleanup_messages fenceID domain).

(** Setting a fence's status through its pointer in the map. *)
Definition set_fence_status (key : UUID) (status : CheckpointFenceStatus)
    (domain : memoryDomain) : memoryDomain :=
  domain <| dom_checkpointFences :=
    alter (mcf_set_Status status) key (dom_checkpointFences domain) |>.

(** One iteration of [refreshMemoryFence]. *)
Definition refresh_fence (now : int64) (domain : memoryDomain) (key : UUID) : memoryDomain :=
  match dom_checkpointFences domain !! key with
  | None => domain
  | Some fence =>
    if decide (mcf_Status fence = CheckpointFenceActive ∧
               now ≥ cfs_ExpiresAtMilliseconds (mcf_state fence))
    then
      let fenceID := cfs_FenceID (mcf_state fence) in
      let domain := set_fence_status key CheckpointFenceExpired domain in
      let domain := invalidateMemoryFenceCandidate fenceID domain in
      cleanupMemoryFenceAuthority fenceID domain
    else domain
  end.

Definition refreshMemoryFence (now : int64) (domain : memoryDomain) : memoryDomain :=
  foldl (refresh_fence now) domain (map_to_list (dom_checkpointFences domain)).*1.

Definition active_for (subscriptionID : UUID) (fence : memoryCheckpointFence) : Prop :=
  mcf_Status fence = CheckpointFenceActive ∧ mcf_holderSubscriptionID fence = subscriptionID.

#[global] Instance active_for_dec sid fence : Decision (active_for sid fence).
Proof. unfold active_for. apply _. Defined.

Definition memoryActiveFenceForSubscription (domain : memoryDomain) (subscriptionID : UUID)
    : option memoryCheckpointFence :=
  head (filter (active_for subscriptionID) (map_to_list (dom_checkpointFences domain)).*2).

Definition foreign_active (subscriptionID : UUID) (_ : UUID) (fence : memoryCheckpointFence)
    : Prop :=
  mcf_Status fence = CheckpointFenceActive ∧ mcf_holderSubscriptionID fence ≠ subscriptionID.

#[global] Instance foreign_active_dec sid k fence : Decision (foreign_active sid k fence).
Proof. unfold foreign_active. apply _. Defined.

Definition memoryFenceAllowsWrite (subscriptionID : UUID) (now : int64) : DomainM unit :=
  modify (refreshMemoryFence now);;;
  let* domain := get in
  reject_if (map_any (foreign_active subscriptionID) (dom_checkpointFences domain))
    (protocolError CodeCheckpointFenceActive "another subscription holds the checkpoint fence").

Definition fenceResponse (fence : memoryCheckpointFence) (retryID : UUID)
    (acceptance : Acceptance) : CheckpointFenceResponse :=
  let state := mcf_state fence in
  mkCheckpointFenceResponse acceptance retryID (cfs_FenceID state) (cfs_BoundaryCursor state)
    (cfs_AcquiredAtMilliseconds state) (cfs_ExpiresAtMilliseconds state).

(** A message or blob tagged with [fenceID] is visible once that fence is
    activated ([fence == nil || Status != Activated] hides it). *)
Definition fence_revealed (domain : memoryDomain) (fenceID : option UUID) : Prop :=
  none_or fenceID (fun id =>
    some_and (dom_checkpointFences domain !! id) (fun fence =>
      mcf_Status fence = CheckpointFenceActivated)).

#[global] Instance fence_revealed_dec d f : Decision (fence_revealed d f).
Proof. unfold fence_revealed. apply _. Defined.

(** ** Operations *)

Definition createCheckpointFence (checkpointFence : int64) (credential : Credential)
    (request : CheckpointFenceRequest) (now : int64) : DomainM CheckpointFenceResponse :=
  let* domain := get in
  let* subscription := try (activeMemberSubscription domain (cred_MemberID credential)) in
  modify (refreshMemoryFence now);;;
  let* domain := get in
  match dom_checkpointFenceRetries domain !! cfr_RetryID request with
  | Some existingID =>
    let collision := protocolError CodeCheckpointFenceCollision "fence retry ID was reused" in
    let* existing := found_or (dom_checkpointFences domain !! existingID) collision in
    reject_if (¬ (mcf_request existing = request ∧
                  mcf_holderSubscriptionID existing = sub_SubscriptionID subscription)) collision;;;
    ret (fenceResponse existing (cfr_RetryID request) AcceptanceDuplicate)
  | None =>
    reject_if (is_Some (dom_checkpointFences domain !! cfr_FenceID request))
      (protocolError CodeCheckpointFenceCollision "fence ID was reused");;;
    reject_if (map_any (fun _ fence => mcf_Status fence = CheckpointFenceActive)
                 (dom_checkpointFences domain))
      (protocolError CodeCheckpointFenceActive "domain already has an active fence");;;
    let state := mkCheckpointFenceState (cfr_FenceID request) CheckpointFenceActive
      (EncodeCursor (dom_nextSequence domain)) now
      (i64 (now + Duration_Milliseconds checkpointFence)) in
    let fence := mkMemoryCheckpointFence request state (sub_SubscriptionID subscription) in
    modify (fun domain =>
      domain <| dom_checkpointFences :=
                  <[cfr_FenceID request := fence]> (dom_checkpointFences domain) |>
             <| dom_checkpointFenceRetries :=
                  <[cfr_RetryID request := cfr_FenceID request]>
                    (dom_checkpointFenceRetries domain) |>);;;
    ret (fenceResponse fence (cfr_RetryID request) AcceptanceAccepted)
  end.

Definition CreateCheckpointFence (credential : Credential) (request : CheckpointFenceRequest)
    (now : int64) : StoreM CheckpointFenceResponse :=
  check (CheckpointFenceRequest_Validate request);;;
  reject_if (cfr_RequestedAtMilliseconds request > now)
    (protocolError CodeInvalidCheckpointFence "fence request is in the future");;;
  let* s := get in
  as_member credential CapabilityPublishCheckpoint now
    (createCheckpointFence (st_checkpointFence s) credential request now).

Definition getCheckpointFence (credential : Credential) (fenceID : UUID) (now : int64)
    : DomainM CheckpointFenceState :=
  let* domain := get in
  let* subscription := try (activeMemberSubscription domain (cred_MemberID credential)) in
  modify (refreshMemoryFence now);;;
  let* domain := get in
  let* fence := found_or (dom_checkpointFences domain !! fenceID)
    (protocolError CodeCheckpointFenceNotFound "fence was not found") in
  reject_if (mcf_holderSubscriptionID fence ≠ sub_SubscriptionID subscription)
    (protocolError CodeWrongScope "fence belongs to another subscription");;;
  ret (mcf_state fence).

Definition GetCheckpointFence (credential : Credential) (fenceID : UUID) (now : int64)
    : StoreM CheckpointFenceState :=
  as_member credential CapabilityPublishCheckpoint now
    (getCheckpointFence credential fenceID now).

Definition abortCheckpointFence (credential : Credential)
    (request : CheckpointFenceAbortRequest) (now : int64)
    : DomainM CheckpointFenceAbortResponse :=
  let* domain := get in
  let* subscription := try (activeMemberSubscription domain (cred_MemberID credential)) in
  match dom_checkpointFenceAborts domain !! cfa_RetryID request with
  | Some existing =>
    let collision :=
      protocolError CodeCheckpointFenceCollision "fence abort retry ID was reused" in
    let* fence := found_or (dom_checkpointFences domain !! cfa_FenceID request) collision in
    reject_if (¬ (mfa_request existing = request ∧
                  mcf_holderSubscriptionID fence = sub_SubscriptionID subscription)) collision;;;
    ret ((mfa_result existing) <| cfar_Acceptance := AcceptanceDuplicate |>)
  | None =>
    modify (refreshMemoryFence now);;;
    let* domain := get in
    let* fence := found_or (dom_checkpointFences domain !! cfa_FenceID request)
      (protocolError CodeCheckpointFenceNotFound "fence was not found") in
    reject_if (mcf_holderSubscriptionID fence ≠ sub_SubscriptionID subscription)
      (protocolError CodeWrongScope "fence belongs to another subscription");;;
    reject_if (mcf_Status fence ≠ CheckpointFenceActive)
      (protocolError CodeCheckpointFenceCollision "fence is not active");;;
    modify (set_fence_status (cfa_FenceID request) CheckpointFenceAborted);;;
    modify (invalidateMemoryFenceCandidate (cfa_FenceID request));;;
    modify (cleanupMemoryFenceAuthority (cfa_FenceID request));;;
    let result := mkCheckpointFenceAbortResponse AcceptanceAccepted (cfa_RetryID request)
      (cfa_FenceID request) CheckpointFenceAborted in
    modify (fun domain =>
      domain <| dom_checkpointFenceAborts :=
        <[cfa_RetryID request := mkMemoryFenceAbort request result]>
          (dom_checkpointFenceAborts domain) |>);;;
    ret result
  end.

Definition AbortCheckpointFence (credential : Credential)
    (request : CheckpointFenceAbortRequest) (now : int64)
    : StoreM CheckpointFenceAbortResponse :=
  check (CheckpointFenceAbortRequest_Validate request);;;
  reject_if (cfa_AbortedAtMilliseconds request > now)
    (protocolError CodeInvalidCheckpointFence "fence abort is in the future");;;
  as_member credential CapabilityPublishCheckpoint now
    (abortCheckpointFence credential request now).
End fences.
