(* ===== verification/RelayTenant.v ===== *)
(** * internal/relay: tenants and domains (memory.go)

    Provisioning, the tenant credential, status reports and the atomic
    revocation of a tenant's memberships. *)

From S2P Require Import Prelude GoEncoding Sha256 RelayModel RelayState.
#[local] Open Scope Z_scope.

(** ** Comparisons

    [subscriptionEqual], [memberEqual] and [tenantMembershipRevocationEqual]
    compare field by field, optional fields by value and slices element by
    element: equality of the records. *)

Definition subscriptionEqual (left right : Subscription) : Prop := left = right.
Definition memberEqual (lhs rhs : MemberRegistration) : Prop := lhs = rhs.
Definition tenantMembershipRevocationEqual (left right : TenantMembershipRevocation) : Prop :=
  left = right.

#[global] Instance subscriptionEqual_dec l r : Decision (subscriptionEqual l r).
Proof. unfold subscriptionEqual. apply _. Defined.
#[global] Instance memberEqual_dec l r : Decision (memberEqual l r).
Proof. unfold memberEqual. apply _. Defined.
#[global] Instance tenantMembershipRevocationEqual_dec l r :
  Decision (tenantMembershipRevocationEqual l r).
Proof. unfold tenantMembershipRevocationEqual. apply _. Defined.

Definition provisioning_key (p : DomainProvisioning) : domainKey :=
  (dr_TenantID (dp_Registration p), dr_DomainID (dp_Registration p)).

(** [domain] is nil when the map has no such domain. *)
Definition domainProvisioningEqual (domain : option memoryDomain) (p : DomainProvisioning) : Prop :=
  some_and domain (fun domain =>
    ¬ (dom_provisioningRetryID domain ≠ dp_RetryID p ∨
       dom_registration domain ≠ dp_Registration p) ∧
    subscriptionEqual
      (default Subscription_zero
         (dom_subscriptions domain !! sub_SubscriptionID (dp_Subscription p)))
      (dp_Subscription p) ∧
    memberEqual
      (default MemberRegistration_zero (dom_members domain !! mr_MemberID (dp_InitialMember p)))
      (dp_InitialMember p) ∧
    default uuid_Nil (dom_memberSubscriptions domain !! mr_MemberID (dp_InitialMember p)) =
      sub_SubscriptionID (dp_Subscription p)).

#[global] Instance domainProvisioningEqual_dec d p : Decision (domainProvisioningEqual d p).
Proof. unfold domainProvisioningEqual. apply _. Defined.

Definition domainProvisioningResult (p : DomainProvisioning) (acceptance : Acceptance)
    : DomainProvisioningResult :=
  mkDomainProvisioningResult acceptance (dp_RetryID p) (dr_TenantID (dp_Registration p))
    (dr_DomainID (dp_Registration p)) (sub_SubscriptionID (dp_Subscription p))
    (mr_MemberID (dp_InitialMember p)) (dr_AdministrationDigest (dp_Registration p))
    (mr_AuthorizationDigest (dp_InitialMember p)).

Definition tenantProvisioningResult (t : TenantRegistration) (p : DomainProvisioning)
    (acceptance : Acceptance) : TenantProvisioningResult :=
  mkTenantProvisioningResult acceptance (tr_RetryID t) (tr_AuthorizationDigest t)
    (domainProvisioningResult p acceptance).

(** The domain that [createDomainLocked] stores. *)
Definition new_domain (p : DomainProvisioning) : memoryDomain :=
  let subscriptionID := sub_SubscriptionID (dp_Subscription p) in
  let memberID := mr_MemberID (dp_InitialMember p) in
  {| dom_provisioningRetryID := dp_RetryID p;
     dom_registration := dp_Registration p;
     dom_subscriptions := {[subscriptionID := dp_Subscription p]};
     dom_subscriptionCreates := ∅;
     dom_subscriptionChanges := ∅;
     dom_rebootstrapRequests := ∅;
     dom_rebootstrapRenewals := ∅;
     dom_rebootstrapCancellations := ∅;
     dom_rebootstrapCompletions := ∅;
     dom_memberSubscriptions := {[memberID := subscriptionID]};
     dom_admissionSubscriptions := ∅;
     dom_members := {[memberID := dp_InitialMember p]};
     dom_admissions := ∅;
     dom_messages := [];
     dom_messageByID := ∅;
     dom_blobs := ∅;
     dom_rotations := ∅;
     dom_capabilityChanges := ∅;
     dom_nextSequence := 0;
     dom_messageBytes := 0;
     dom_blobBytes := 0;
     dom_checkpoints := ∅;
     dom_checkpointStageRetries := ∅;
     dom_checkpointActivations := ∅;
     dom_checkpointCollections := ∅;
     dom_activatedCheckpoints := [];
     dom_checkpointOrdinal := 0;
     dom_checkpointFences := ∅;
     dom_checkpointFenceRetries := ∅;
     dom_checkpointFenceAborts := ∅;
     dom_fenceMessageTombstones := ∅;
     dom_blobFenceIDs := ∅;
     dom_blobUploads := ∅;
     dom_blobUploadCreates := ∅;
     dom_blobUploadFinalizations := ∅;
     dom_reservedBlobCount := 0;
     dom_reservedBlobBytes := 0;
     dom_heap := ∅;
     dom_nextRef := 0%N |}.

Definition createDomainLocked (p : DomainProvisioning) : MemoryStore → MemoryStore :=
  put_domain (provisioning_key p) (new_domain p).

Definition put_tenant (tenantID : UUID) (t : memoryTenant) (s : MemoryStore) : MemoryStore :=
  s <| st_tenants := <[tenantID := t]> (st_tenants s) |>.

Definition new_tenant (registration : TenantRegistration) : memoryTenant :=
  mkMemoryTenant registration ∅ ∅.

(** The tenant that [CreateDomain] invents when there is none. *)
Definition legacy_tenant (registration : DomainRegistration) : TenantRegistration :=
  mkTenantRegistration SchemaVersion (dr_DomainID registration) (dr_TenantID registration)
    (dr_AdministrationDigest registration) (dr_CreatedAtMilliseconds registration)
    DefaultMaximumDomainCountPerTenant DefaultMaximumMessageCountPerTenant
    DefaultMaximumMessageBytesPerTenant DefaultMaximumBlobCountPerTenant
    DefaultMaximumBlobBytesPerTenant.

(** The number of domains of a tenant. *)
Definition domain_count (s : MemoryStore) (tenantID : UUID) : Z :=
  zsize (filter (fun kd : domainKey * memoryDomain => kd.1.1 = tenantID) (st_domains s)).

(** ** Provisioning *)

Definition CreateDomain (registration : DomainRegistration) (initialMember : MemberRegistration)
    : StoreM Acceptance :=
  let subscription := mkSubscription SchemaVersion (dr_TenantID registration)
    (dr_DomainID registration) (mr_MemberID initialMember) SubscriptionActive None
    (dr_CreatedAtMilliseconds registration) (dr_CreatedAtMilliseconds registration) in
  let provisioning := mkDomainProvisioning SchemaVersion (mr_MemberID initialMember)
    registration subscription initialMember "" "" in
  check (DomainProvisioning_Validate provisioning);;;
  let* s := get in
  match st_domains s !! provisioning_key provisioning with
  | Some existing =>
    if decide (domainProvisioningEqual (Some existing) provisioning)
    then ret AcceptanceDuplicate
    else throw (protocolError CodeDomainCollision "domain ID was reused")
  | None =>
    modify (fun s =>
      match st_tenants s !! dr_TenantID registration with
      | Some _ => s
      | None => put_tenant (dr_TenantID registration) (new_tenant (legacy_tenant registration)) s
      end);;;
    modify (createDomainLocked provisioning);;;
    ret AcceptanceAccepted
  end.

Definition ProvisionTenant (tenant : TenantRegistration) (initialDomain : DomainProvisioning)
    : StoreM TenantProvisioningResult :=
  check (TenantRegistration_Validate tenant);;;
  check (DomainProvisioning_Validate initialDomain);;;
  reject_if (tr_TenantID tenant ≠ dr_TenantID (dp_Registration initialDomain) ∨
      tr_CreatedAtMilliseconds tenant ≠ dr_CreatedAtMilliseconds (dp_Registration initialDomain))
    (protocolError CodeWrongScope "initial domain belongs to another tenant");;;
  let* initialDomain := try (TenantRegistration_ApplyCapacityPolicy tenant initialDomain) in
  let* s := get in
  reject_if (map_any (fun tenantID existing => tenantID ≠ tr_TenantID tenant ∧
                        tr_RetryID (ten_registration existing) = tr_RetryID tenant)
               (st_tenants s))
    (protocolError CodeTenantCollision "tenant retry ID was reused");;;
  match st_tenants s !! tr_TenantID tenant with
  | Some existing =>
    let domain := st_domains s !!
      (tr_TenantID tenant, dr_DomainID (dp_Registration initialDomain)) in
    if decide (ten_registration existing = tenant ∧ domainProvisioningEqual domain initialDomain)
    then ret (tenantProvisioningResult tenant initialDomain AcceptanceDuplicate)
    else throw (protocolError CodeTenantCollision "tenant ID or retry ID was reused")
  | None =>
    modify (put_tenant (tr_TenantID tenant) (new_tenant tenant));;;
    modify (createDomainLocked initialDomain);;;
    ret (tenantProvisioningResult tenant initialDomain AcceptanceAccepted)
  end.

Section tenants.
Context `{UuidLib}.

Definition ProvisionDomain (credential : TenantCredential) (provisioning : DomainProvisioning)
    (nowMilliseconds : int64) : StoreM DomainProvisioningResult :=
  check (DomainProvisioning_Validate provisioning);;;
  reject_if (dr_TenantID (dp_Registration provisioning) ≠ tcred_TenantID credential ∨
      dr_CreatedAtMilliseconds (dp_Registration provisioning) > nowMilliseconds)
    (protocolError CodeWrongScope "domain belongs to another tenant");;;
  let* s := get in
  let* tenant := found_or (st_tenants s !! tcred_TenantID credential)
    (protocolError CodeTenantNotFound "tenant was not found") in
  check (TenantRegistration_Authorize (ten_registration tenant) credential);;;
  let* provisioning :=
    try (TenantRegistration_ApplyCapacityPolicy (ten_registration tenant) provisioning) in
  match st_domains s !!
      (tcred_TenantID credential, dr_DomainID (dp_Registration provisioning)) with
  | Some existing =>
    if decide (domainProvisioningEqual (Some existing) provisioning)
    then ret (domainProvisioningResult provisioning AcceptanceDuplicate)
    else throw (protocolError CodeDomainCollision "domain ID was reused")
  | None =>
    reject_if (map_any (fun (key : domainKey) existing => key.1 = tcred_TenantID credential ∧
                          dom_provisioningRetryID existing = dp_RetryID provisioning)
                 (st_domains s))
      (protocolError CodeDomainCollision "domain retry ID was reused");;;
    reject_if (¬ TenantRegistration_UsesSharedCapacity (ten_registration tenant) ∧
        domain_count s (tcred_TenantID credential) ≥
          tr_MaximumDomainCount (ten_registration tenant))
      (protocolError CodeTenantFull "tenant reached its domain limit");;;
    modify (createDomainLocked provisioning);;;
    ret (domainProvisioningResult provisioning AcceptanceAccepted)
  end.

(** ** The tenant credential *)

Definition RotateTenantCredential (credential : TenantCredential)
    (rotation : TenantCredentialRotation) : StoreM TenantCredentialRotationResult :=
  let tenantID := tcred_TenantID credential in
  let replacement := trot_ReplacementAuthorizationDigest rotation in
  check (TenantCredentialRotation_Validate rotation);;;
  let* actualDigest :=
    try (match TenantAuthorizationDigest credential with
         | inl _ => inl (protocolError CodeUnauthorized "tenant credential is invalid")
         | inr digest => inr digest
         end) in
  let* s := get in
  let* tenant := found_or (st_tenants s !! tenantID)
    (protocolError CodeTenantNotFound "tenant was not found") in
  match ten_rotations tenant !! trot_RotationID rotation with
  | Some existing =>
    if decide ((digestEqual actualDigest (mtr_previousAuthorizationDigest existing) ∨
                digestEqual actualDigest (mtr_newAuthorizationDigest existing)) ∧
               trot_TenantID rotation = tenantID ∧
               replacement = mtr_newAuthorizationDigest existing ∧
               trot_RotatedAtMilliseconds rotation = mtr_rotatedAtMilliseconds existing)
    then ret (mkTenantCredentialRotationResult AcceptanceDuplicate (trot_RotationID rotation)
                tenantID (mtr_newAuthorizationDigest existing)
                (mtr_rotatedAtMilliseconds existing))
    else throw (protocolError CodeCredentialRotationCollision "tenant rotation ID was reused")
  | None =>
    reject_if (trot_TenantID rotation ≠ tenantID)
      (protocolError CodeWrongScope "rotation belongs to another tenant");;;
    check (TenantRegistration_Authorize (ten_registration tenant) credential);;;
    reject_if (trot_RotatedAtMilliseconds rotation <
          tr_CreatedAtMilliseconds (ten_registration tenant) ∨
        digestEqual replacement (tr_AuthorizationDigest (ten_registration tenant)))
      (protocolError CodeInvalidCredentialRotation "tenant credential rotation is invalid");;;
    reject_if (map_any (fun _ used =>
          digestEqual replacement (mtr_previousAuthorizationDigest used) ∨
          digestEqual replacement (mtr_newAuthorizationDigest used)) (ten_rotations tenant))
      (protocolError CodeCredentialReuse "tenant credential digest was already used");;;
    let registration := ten_registration tenant in
    modify (put_tenant tenantID (tenant
      <| ten_rotations := <[trot_RotationID rotation := mkMemoryTenantRotation
           (tr_AuthorizationDigest registration) replacement
           (trot_RotatedAtMilliseconds rotation)]> (ten_rotations tenant) |>
      <| ten_registration := mkTenantRegistration (tr_Version registration)
           (tr_RetryID registration) (tr_TenantID registration) replacement
           (tr_CreatedAtMilliseconds registration) (tr_MaximumDomainCount registration)
           (tr_MaximumAggregateMessageCount registration)
           (tr_MaximumAggregateMessageByteCount registration)
           (tr_MaximumAggregateBlobCount registration)
           (tr_MaximumAggregateBlobByteCount registration) |>));;;
    ret (mkTenantCredentialRotationResult AcceptanceAccepted (trot_RotationID rotation)
           tenantID replacement (trot_RotatedAtMilliseconds rotation))
  end.

(** ** Status *)

Definition GetTenantStatus (credential : TenantCredential) : StoreM TenantStatus :=
  let tenantID := tcred_TenantID credential in
  let* s := get in
  let* tenant := found_or (st_tenants s !! tenantID)
    (protocolError CodeTenantNotFound "tenant was not found") in
  check (TenantRegistration_Authorize (ten_registration tenant) credential);;;
  let '(messages, messageBytes, blobs, blobBytes) := tenantUsageLocked s tenantID in
  ret (mkTenantStatus tenantID (domain_count s tenantID) messages messageBytes blobs blobBytes
         (tenantReservedBlobCountLocked s tenantID) (tenantReservedBlobBytesLocked s tenantID)
         (TenantRegistration_Quota (ten_registration tenant))).

Definition getDomainStatus (credential : AdministrationCredential) : DomainM DomainStatus :=
  let* domain := get in
  let active := map_count (fun _ subscription => sub_Status subscription = SubscriptionActive)
    (dom_subscriptions domain) in
  let oldest :=
    match stored domain with
    | [] => None
    | first :: _ => Some (EncodeCursor (u64 (mm_Sequence first - 1)))
    end in
  let registration := dom_registration domain in
  ret (mkDomainStatus (acred_TenantID credential) (acred_DomainID credential)
         (zlen (dom_messages domain)) (dom_messageBytes domain)
         (zsize (dom_blobs domain)) (dom_blobBytes domain)
         (dom_reservedBlobCount domain) (dom_reservedBlobBytes domain)
         active oldest (latest_activated domain)
         (mkDomainQuota (dr_MaximumMessageCount registration)
            (dr_MaximumMessageByteCount registration) (dr_MaximumBlobCount registration)
            (dr_MaximumBlobByteCount registration))).

Definition GetDomainStatus (credential : AdministrationCredential) : StoreM DomainStatus :=
  as_administrator credential (getDomainStatus credential).

(** ** Membership revocation *)

(** One iteration of the validating loop. *)
Definition revocation_target_error (s : MemoryStore) (tenantID : UUID)
    (revocation : TenantMembershipRevocation) (target : TenantMembershipRevocationItem)
    : option GoError :=
  match st_domains s !! (tenantID, tri_DomainID target) with
  | None => Some (protocolError CodeDomainNotFound "revocation domain was not found")
  | Some domain =>
    match dom_members domain !! tri_MemberID target with
    | None => Some (protocolError CodeMemberNotFound "revocation member was not found")
    | Some member =>
      err_when (default uuid_Nil (dom_memberSubscriptions domain !! tri_MemberID target) ≠
                tri_SubscriptionID target)
        (protocolError CodeMemberNotFound "revocation member was not found") >>?
      match dom_subscriptions domain !! tri_SubscriptionID target with
      | None =>
        Some (protocolError CodeSubscriptionNotFound "revocation subscription was not found")
      | Some subscription =>
        err_when (is_Some (mr_RevokedAtMilliseconds member))
          (protocolError CodeMemberRevoked "revocation member was already revoked") >>?
        err_when (tmr_RevokedAtMilliseconds revocation < mr_CreatedAtMilliseconds member ∨
            tmr_RevokedAtMilliseconds revocation < sub_CreatedAtMilliseconds subscription ∨
            tmr_RevokedAtMilliseconds revocation < sub_UpdatedAtMilliseconds subscription)
          (protocolError CodeInvalidMember "tenant membership revocation is out of order")
      end
    end
  end.

(** The whole validating loop: the first error, if any. *)
Fixpoint revocation_errors (s : MemoryStore) (tenantID : UUID)
    (revocation : TenantMembershipRevocation) (targets : list TenantMembershipRevocationItem)
    : option GoError :=
  match targets with
  | [] => None
  | target :: rest =>
    revocation_target_error s tenantID revocation target >>?
    revocation_errors s tenantID revocation rest
  end.

Definition revoke_membership (revokedAt : int64) (target : TenantMembershipRevocationItem)
    (domain : memoryDomain) : memoryDomain :=
  let member := default MemberRegistration_zero (dom_members domain !! tri_MemberID target) in
  let subscription :=
    default Subscription_zero (dom_subscriptions domain !! tri_SubscriptionID target) in
  domain
    <| dom_members := <[tri_MemberID target :=
         member <| mr_RevokedAtMilliseconds := Some revokedAt |>]> (dom_members domain) |>
    <| dom_subscriptions := <[tri_SubscriptionID target :=
         subscription <| sub_Status := SubscriptionRevoked |> <| sub_StartCursor := None |>
           <| sub_UpdatedAtMilliseconds := revokedAt |>]> (dom_subscriptions domain) |>.

(** One iteration of the mutating loop. *)
Definition revoke_target (tenantID : UUID) (revokedAt : int64) (s : MemoryStore)
    (target : TenantMembershipRevocationItem) : MemoryStore :=
  match st_domains s !! (tenantID, tri_DomainID target) with
  | None => s
  | Some domain =>
    put_domain (tenantID, tri_DomainID target) (revoke_membership revokedAt target domain) s
  end.

Definition record_revocation (tenantID : UUID) (revocation : TenantMembershipRevocation)
    (s : MemoryStore) : MemoryStore :=
  s <| st_tenants := alter (fun tenant => tenant <| ten_membershipRevocations :=
         <[tmr_RetryID revocation := revocation]> (ten_membershipRevocations tenant) |>)
         tenantID (st_tenants s) |>.

Definition RevokeTenantMemberships (credential : TenantCredential)
    (revocation : TenantMembershipRevocation) : StoreM TenantMembershipRevocationResult :=
  let tenantID := tcred_TenantID credential in
  check (TenantMembershipRevocation_Validate revocation);;;
  let* s := get in
  let* tenant := found_or (st_tenants s !! tenantID)
    (protocolError CodeTenantNotFound "tenant was not found") in
  check (TenantRegistration_Authorize (ten_registration tenant) credential);;;
  match ten_membershipRevocations tenant !! tmr_RetryID revocation with
  | Some existing =>
    if decide (tenantMembershipRevocationEqual existing revocation)
    then ret (mkTenantMembershipRevocationResult AcceptanceDuplicate (tmr_RetryID existing)
                (tmr_RevokedAtMilliseconds existing) (tmr_Memberships existing))
    else throw (protocolError CodeMemberCollision
                  "tenant membership revocation retry ID was reused")
  | None =>
    check (revocation_errors s tenantID revocation (tmr_Memberships revocation));;;
    modify (fun s => foldl (revoke_target tenantID (tmr_RevokedAtMilliseconds revocation)) s
                       (tmr_Memberships revocation));;;
    modify (record_revocation tenantID revocation);;;
    ret (mkTenantMembershipRevocationResult AcceptanceAccepted (tmr_RetryID revocation)
           (tmr_RevokedAtMilliseconds revocation) (tmr_Memberships revocation))
  end.
End tenants.
