(* ===== verification/RelayMember.v ===== *)
(** * internal/relay: members, admissions and their credentials (memory.go)

    Rotation of administration and member credentials, the admission life cycle
    (create, claim, revoke, collect) and membership changes. *)

From S2P Require Import Prelude GoEncoding Sha256 RelayModel RelayState RelayTenant.
#[local] Open Scope Z_scope.

(** ** Map writes *)

Definition put_member (id : UUID) (m : MemberRegistration) (d : memoryDomain) : memoryDomain :=
  d <| dom_members := <[id := m]> (dom_members d) |>.

Definition put_memberSubscription (id subscriptionID : UUID) (d : memoryDomain) : memoryDomain :=
  d <| dom_memberSubscriptions := <[id := subscriptionID]> (dom_memberSubscriptions d) |>.

Definition put_subscription (id : UUID) (s : Subscription) (d : memoryDomain) : memoryDomain :=
  d <| dom_subscriptions := <[id := s]> (dom_subscriptions d) |>.

Definition put_admission (id : UUID) (a : MemberAdmission) (d : memoryDomain) : memoryDomain :=
  d <| dom_admissions := <[id := a]> (dom_admissions d) |>.

Definition put_rotation (id : UUID) (r : memoryCredentialRotation) (d : memoryDomain)
    : memoryDomain :=
  d <| dom_rotations := <[id := r]> (dom_rotations d) |>.

(** [domain, ok := s.domains[key]; if !ok { return CodeDomainNotFound }] *)
Definition in_found_domain {A} (key : domainKey) (body : DomainM A) : StoreM A :=
  let* s := get in
  in_domain key
    (match st_domains s !! key with
     | None => inl (protocolError CodeDomainNotFound "domain was not found")
     | Some domain => inr domain
     end) body.

(** ** Credential rotation *)

Definition memoryRotationRetryResult (existing : memoryCredentialRotation)
    (subjectType : rotationSubject) (subjectID : UUID) (actualDigest : string)
    (rotation : CredentialRotation) : DomainM CredentialRotationResult :=
  reject_if (actualDigest ≠ mcr_previousAuthorizationDigest existing ∧
             actualDigest ≠ mcr_newAuthorizationDigest existing)
    (protocolError CodeUnauthorized "credential is not authorized for this rotation");;;
  reject_if (mcr_subjectType existing ≠ subjectType ∨ mcr_subjectID existing ≠ subjectID ∨
             mcr_newAuthorizationDigest existing ≠ rot_AuthorizationDigest rotation)
    (protocolError CodeCredentialRotationCollision "credential rotation ID was reused");;;
  ret (mkCredentialRotationResult AcceptanceDuplicate (rot_RotationID rotation)
         (mcr_newAuthorizationDigest existing) (mcr_rotatedAtMilliseconds existing)).

Definition of_subject (subjectType : rotationSubject) (subjectID : UUID)
    (rotation : memoryCredentialRotation) : Prop :=
  mcr_subjectType rotation = subjectType ∧ mcr_subjectID rotation = subjectID.

#[global] Instance of_subject_dec t i r : Decision (of_subject t i r).
Proof. unfold of_subject. apply _. Defined.

Definition rotationDigestWasUsed (rotations : gmap UUID memoryCredentialRotation)
    (subjectType : rotationSubject) (subjectID : UUID) (digest : string) : Prop :=
  map_any (fun _ rotation => of_subject subjectType subjectID rotation ∧
             (mcr_previousAuthorizationDigest rotation = digest ∨
              mcr_newAuthorizationDigest rotation = digest)) rotations.

#[global] Instance rotationDigestWasUsed_dec r t i d : Decision (rotationDigestWasUsed r t i d).
Proof. unfold rotationDigestWasUsed. apply _. Defined.

Definition ensureCredentialRotationCapacity (rotations : gmap UUID memoryCredentialRotation)
    (subjectType : rotationSubject) (subjectID : UUID) : option GoError :=
  err_when (zsize rotations ≥ MaximumCredentialRotationsPerDomain)
    (protocolError CodeDomainFull "domain reached its credential rotation limit") >>?
  err_when (map_count (fun _ rotation => of_subject subjectType subjectID rotation) rotations ≥
            MaximumCredentialRotationsPerSubject)
    (protocolError CodeDomainFull "subject reached its credential rotation limit").

Section members.
Context `{UuidLib}.

Definition rotateAdministrationCredential (credential : AdministrationCredential)
    (actualDigest : string) (rotation : CredentialRotation) (nowMilliseconds : int64)
    : DomainM CredentialRotationResult :=
  let* domain := get in
  match dom_rotations domain !! rot_RotationID rotation with
  | Some existing =>
    memoryRotationRetryResult existing administrationRotationSubject
      (acred_DomainID credential) actualDigest rotation
  | None =>
    let registration := dom_registration domain in
    check (DomainRegistration_Authorize registration credential);;;
    reject_if (nowMilliseconds < dr_CreatedAtMilliseconds registration)
      (protocolError CodeInvalidCredentialRotation
         "credential rotation precedes domain creation");;;
    reject_if (rotationDigestWasUsed (dom_rotations domain) administrationRotationSubject
                 (acred_DomainID credential) (rot_AuthorizationDigest rotation) ∨
               rot_AuthorizationDigest rotation = dr_AdministrationDigest registration)
      (protocolError CodeCredentialReuse "administration credential digest was already used");;;
    check (ensureCredentialRotationCapacity (dom_rotations domain)
             administrationRotationSubject (acred_DomainID credential));;;
    modify (put_rotation (rot_RotationID rotation)
      (mkMemoryCredentialRotation administrationRotationSubject (acred_DomainID credential)
         (dr_AdministrationDigest registration) (rot_AuthorizationDigest rotation)
         nowMilliseconds));;;
    modify (fun domain => domain <| dom_registration :=
      (dom_registration domain)
        <| dr_AdministrationDigest := rot_AuthorizationDigest rotation |> |>);;;
    ret (mkCredentialRotationResult AcceptanceAccepted (rot_RotationID rotation)
           (rot_AuthorizationDigest rotation) nowMilliseconds)
  end.

Definition RotateAdministrationCredential (credential : AdministrationCredential)
    (rotation : CredentialRotation) (nowMilliseconds : int64)
    : StoreM CredentialRotationResult :=
  check (CredentialRotation_Validate rotation);;;
  let* actualDigest :=
    try (match AdministrationDigest credential with
         | inl _ => inl (protocolError CodeUnauthorized "administration credential is invalid")
         | inr digest => inr digest
         end) in
  in_found_domain (acred_TenantID credential, acred_DomainID credential)
    (rotateAdministrationCredential credential actualDigest rotation nowMilliseconds).

Definition rotateMemberCredential (credential : Credential) (actualDigest : string)
    (rotation : CredentialRotation) (nowMilliseconds : int64)
    : DomainM CredentialRotationResult :=
  let memberID := cred_MemberID credential in
  let* domain := get in
  match dom_rotations domain !! rot_RotationID rotation with
  | Some existing =>
    memoryRotationRetryResult existing memberRotationSubject memberID actualDigest rotation
  | None =>
    let* member := found_or (dom_members domain !! memberID)
      (protocolError CodeMemberNotFound "member was not found") in
    check (MemberRegistration_VerifyCredential member credential nowMilliseconds);;;
    reject_if (rotationDigestWasUsed (dom_rotations domain) memberRotationSubject memberID
                 (rot_AuthorizationDigest rotation) ∨
               rot_AuthorizationDigest rotation = mr_AuthorizationDigest member)
      (protocolError CodeCredentialReuse "member credential digest was already used");;;
    check (ensureCredentialRotationCapacity (dom_rotations domain) memberRotationSubject
             memberID);;;
    modify (put_rotation (rot_RotationID rotation)
      (mkMemoryCredentialRotation memberRotationSubject memberID
         (mr_AuthorizationDigest member) (rot_AuthorizationDigest rotation) nowMilliseconds));;;
    modify (put_member memberID
      (member <| mr_AuthorizationDigest := rot_AuthorizationDigest rotation |>));;;
    ret (mkCredentialRotationResult AcceptanceAccepted (rot_RotationID rotation)
           (rot_AuthorizationDigest rotation) nowMilliseconds)
  end.

Definition RotateMemberCredential (credential : Credential) (rotation : CredentialRotation)
    (nowMilliseconds : int64) : StoreM CredentialRotationResult :=
  check (CredentialRotation_Validate rotation);;;
  let* actualDigest :=
    try (match AuthorizationDigest credential with
         | inl _ => inl (protocolError CodeUnauthorized "member credential is invalid")
         | inr digest => inr digest
         end) in
  in_found_domain (cred_TenantID credential, cred_DomainID credential)
    (rotateMemberCredential credential actualDigest rotation nowMilliseconds).
End members.

(** ** Capacity *)

Definition active_member_count (members : gmap UUID MemberRegistration) (nowMilliseconds : int64)
    : Z :=
  map_count (fun _ member => memberActiveAt member nowMilliseconds) members.

Definition ensureMemberCapacity (members : gmap UUID MemberRegistration)
    (nowMilliseconds : int64) : option GoError :=
  err_when (zsize members ≥ MaximumRetainedMemberCountPerDomain)
    (protocolError CodeDomainFull "domain reached its retained member limit") >>?
  err_when (active_member_count members nowMilliseconds ≥ MaximumActiveMemberCountPerDomain)
    (protocolError CodeDomainFull "domain reached its active member limit").

Definition countOutstandingAdmissions (admissions : gmap UUID MemberAdmission)
    (nowMilliseconds : int64) : Z :=
  map_count (fun _ admission =>
    ma_ClaimedAtMilliseconds admission = None ∧
    none_or (ma_RevokedAtMilliseconds admission) (fun revoked => nowMilliseconds < revoked) ∧
    nowMilliseconds ≥ ma_CreatedAtMilliseconds admission ∧
    nowMilliseconds < ma_ExpiresAtMilliseconds admission) admissions.

Definition admissionCollectionCutoff (nowMilliseconds : int64) : int64 :=
  if decide (nowMilliseconds ≤ AdmissionRecoveryWindowMilliseconds) then 0
  else i64 (nowMilliseconds - AdmissionRecoveryWindowMilliseconds).

Definition admissionCollectibleAt (admission : MemberAdmission) (cutoff : int64) : Prop :=
  let terminalAt := ma_ExpiresAtMilliseconds admission in
  let terminalAt := default terminalAt (ma_RevokedAtMilliseconds admission) in
  let terminalAt := default terminalAt (ma_ClaimedAtMilliseconds admission) in
  terminalAt ≤ cutoff.

#[global] Instance admissionCollectibleAt_dec a c : Decision (admissionCollectibleAt a c).
Proof. unfold admissionCollectibleAt. apply _. Defined.

(** Creation time, revocation and claim are not compared. *)
Definition admissionCreationEqual (lhs rhs : MemberAdmission) : Prop :=
  ¬ (ma_Version lhs ≠ ma_Version rhs ∨ ma_TenantID lhs ≠ ma_TenantID rhs ∨
     ma_DomainID lhs ≠ ma_DomainID rhs ∨ ma_AdmissionID lhs ≠ ma_AdmissionID rhs ∨
     ma_AuthorizationDigest lhs ≠ ma_AuthorizationDigest rhs ∨
     ma_ExpiresAtMilliseconds lhs ≠ ma_ExpiresAtMilliseconds rhs ∨
     ma_MemberExpiresAtMilliseconds lhs ≠ ma_MemberExpiresAtMilliseconds rhs) ∧
  ma_Capabilities lhs = ma_Capabilities rhs.

#[global] Instance admissionCreationEqual_dec l r : Decision (admissionCreationEqual l r).
Proof. unfold admissionCreationEqual. apply _. Defined.

Definition no_active_subscription (domain : memoryDomain) (subscriptionID : UUID) : Prop :=
  ¬ some_and (dom_subscriptions domain !! subscriptionID) (fun subscription =>
      sub_Status subscription = SubscriptionActive).

#[global] Instance no_active_subscription_dec d i : Decision (no_active_subscription d i).
Proof. unfold no_active_subscription. apply _. Defined.

(** ** Admissions *)

Section admissions.
Context `{UuidLib}.

Definition createSubscriptionAdmission (credential : AdministrationCredential)
    (subscriptionID : UUID) (registration : MemberAdmission) (nowMilliseconds : int64)
    : DomainM SubscriptionAdmissionCreateResult :=
  let admissionID := ma_AdmissionID registration in
  let* domain := get in
  reject_if (ma_TenantID registration ≠ acred_TenantID credential ∨
             ma_DomainID registration ≠ acred_DomainID credential)
    (protocolError CodeWrongScope "admission belongs to another domain");;;
  match dom_admissions domain !! admissionID with
  | Some existing =>
    if decide (admissionCreationEqual existing registration ∧
               default uuid_Nil (dom_admissionSubscriptions domain !! admissionID) =
                 subscriptionID)
    then ret (mkSubscriptionAdmissionCreateResult AcceptanceDuplicate
                (mkSubscriptionMemberAdmission subscriptionID existing))
    else throw (protocolError CodeAdmissionCollision "admission ID was reused")
  | None =>
    reject_if (zsize (dom_admissions domain) ≥ MaximumRetainedAdmissionCount)
      (protocolError CodeDomainFull "domain reached its retained admission limit");;;
    reject_if (countOutstandingAdmissions (dom_admissions domain) nowMilliseconds ≥
               MaximumOutstandingAdmissionCount)
      (protocolError CodeDomainFull "domain reached its outstanding admission limit");;;
    reject_if (no_active_subscription domain subscriptionID)
      (protocolError CodeSubscriptionNotFound "active subscription was not found");;;
    modify (put_admission admissionID registration);;;
    modify (fun domain => domain <| dom_admissionSubscriptions :=
      <[admissionID := subscriptionID]> (dom_admissionSubscriptions domain) |>);;;
    ret (mkSubscriptionAdmissionCreateResult AcceptanceAccepted
           (mkSubscriptionMemberAdmission subscriptionID registration))
  end.

Definition CreateSubscriptionAdmission (credential : AdministrationCredential)
    (subscriptionID : UUID) (registration : MemberAdmission) (nowMilliseconds : int64)
    : StoreM SubscriptionAdmissionCreateResult :=
  check (MemberAdmission_Validate registration);;;
  reject_if (is_Some (ma_RevokedAtMilliseconds registration) ∨
             is_Some (ma_ClaimedAtMilliseconds registration) ∨
             is_Some (ma_ClaimedMemberID registration))
    (protocolError CodeInvalidAdmission "new admission already has terminal state");;;
  reject_if (subscriptionID = uuid_Nil)
    (protocolError CodeInvalidSubscription "admission subscription is invalid");;;
  reject_if (ma_CreatedAtMilliseconds registration > nowMilliseconds ∨
             ma_ExpiresAtMilliseconds registration ≤ nowMilliseconds)
    (protocolError CodeInvalidAdmission "admission is not currently issuable");;;
  as_administrator credential
    (createSubscriptionAdmission credential subscriptionID registration nowMilliseconds).

(** [ensureTestSubscription]: an absent subscription reads as the zero
    struct, whose identifier is nil. *)
Definition ensure_test_subscription (credential : AdministrationCredential)
    (subscriptionID : UUID) (createdAtMilliseconds : int64) (domain : memoryDomain)
    : memoryDomain :=
  if decide (sub_SubscriptionID
               (default Subscription_zero (dom_subscriptions domain !! subscriptionID)) =
             uuid_Nil)
  then put_subscription subscriptionID
         (mkSubscription SchemaVersion (acred_TenantID credential) (acred_DomainID credential)
            subscriptionID SubscriptionActive None createdAtMilliseconds
            createdAtMilliseconds) domain
  else domain.

Definition ensureTestSubscription (credential : AdministrationCredential)
    (subscriptionID : UUID) (createdAtMilliseconds : int64) : StoreM unit :=
  as_administrator credential
    (modify (ensure_test_subscription credential subscriptionID createdAtMilliseconds)).

Definition CreateAdmission (credential : AdministrationCredential)
    (registration : MemberAdmission) (nowMilliseconds : int64) : StoreM AdmissionCreateResult :=
  ensureTestSubscription credential (ma_AdmissionID registration)
    (ma_CreatedAtMilliseconds registration);;;
  let* result := CreateSubscriptionAdmission credential (ma_AdmissionID registration)
    registration nowMilliseconds in
  ret (mkAdmissionCreateResult (sacr_Acceptance result)
         (sma_Admission (sacr_Admission result))).

(** A claimed admission: the exact retry, or a collision. *)
Definition claimed_admission_result (domain : memoryDomain) (admission : MemberAdmission)
    (claimedMemberID : UUID) (claim : MemberAdmissionClaim) (nowMilliseconds : int64)
    : DomainM SubscriptionAdmissionClaimResult :=
  let member := default MemberRegistration_zero (dom_members domain !! claimedMemberID) in
  let admissionSubscription :=
    default uuid_Nil (dom_admissionSubscriptions domain !! ma_AdmissionID admission) in
  let subscription :=
    default Subscription_zero (dom_subscriptions domain !! admissionSubscription) in
  let memberSubscription :=
    default uuid_Nil (dom_memberSubscriptions domain !! mr_MemberID member) in
  if decide (claimedMemberID = mac_MemberID claim ∧
             mr_AuthorizationDigest member = mac_AuthorizationDigest claim ∧
             sub_Status subscription = SubscriptionActive ∧
             memberActiveAt member nowMilliseconds ∧
             memberSubscription = admissionSubscription)
  then ret (mkSubscriptionAdmissionClaimResult AcceptanceDuplicate
              (mkSubscriptionMemberRegistration memberSubscription member))
  else throw (protocolError CodeAdmissionClaimed "admission was already claimed").

(** The checks on the membership that a claim replaces. *)
Definition replacement_refused (domain : memoryDomain) (claim : MemberAdmissionClaim)
    (subscriptionID previousSubscriptionID : UUID) : Prop :=
  ¬ some_and (dom_members domain !! mac_MemberID claim) (fun previous =>
      some_and (dom_subscriptions domain !! previousSubscriptionID) (fun previousSubscription =>
        ¬ (default uuid_Nil (dom_memberSubscriptions domain !! mac_MemberID claim) ≠
             previousSubscriptionID ∨
           subscriptionID = previousSubscriptionID ∨
           mr_AuthorizationDigest previous = mac_AuthorizationDigest claim ∨
           (sub_Status previousSubscription ≠ SubscriptionRevoked ∧
            sub_Status previousSubscription ≠ SubscriptionRebootstrapRequired)))).

#[global] Instance replacement_refused_dec d c s p : Decision (replacement_refused d c s p).
Proof. unfold replacement_refused. apply _. Defined.

Definition active_others (members : gmap UUID MemberRegistration) (memberID : UUID)
    (nowMilliseconds : int64) : Z :=
  map_count (fun id existing => id ≠ memberID ∧ memberActiveAt existing nowMilliseconds)
    members.

(** [claimSubscriptionAdmission] below the domain lookup;
    [previousSubscriptionID] is nil for a plain claim. *)
Definition claimAdmission (credential : AdmissionCredential) (claim : MemberAdmissionClaim)
    (previousSubscriptionID : UUID) (nowMilliseconds : int64)
    : DomainM SubscriptionAdmissionClaimResult :=
  let* domain := get in
  let* admission := found_or (dom_admissions domain !! mcred_AdmissionID credential)
    (protocolError CodeAdmissionNotFound "admission was not found") in
  check (MemberAdmission_VerifyCredential admission credential);;;
  match ma_ClaimedMemberID admission with
  | Some claimedMemberID =>
    claimed_admission_result domain admission claimedMemberID claim nowMilliseconds
  | None =>
    check (MemberAdmission_RequireActive admission nowMilliseconds);;;
    let subscriptionID :=
      default uuid_Nil (dom_admissionSubscriptions domain !! ma_AdmissionID admission) in
    reject_if (no_active_subscription domain subscriptionID)
      (protocolError CodeInvalidSubscription "subscription is not active");;;
    (if decide (previousSubscriptionID ≠ uuid_Nil) then
       reject_if (replacement_refused domain claim subscriptionID previousSubscriptionID)
         (protocolError CodeMemberCollision
            "inactive membership changed before replacement");;;
       reject_if (active_others (dom_members domain) (mac_MemberID claim) nowMilliseconds ≥
                  MaximumActiveMemberCountPerDomain)
         (protocolError CodeDomainFull "domain reached its active member limit")
     else
       reject_if (is_Some (dom_members domain !! mac_MemberID claim))
         (protocolError CodeMemberCollision "member ID was reused");;;
       check (ensureMemberCapacity (dom_members domain) nowMilliseconds));;;
    let member := mkMemberRegistration SchemaVersion (ma_TenantID admission)
      (ma_DomainID admission) (mac_MemberID claim) (mac_AuthorizationDigest claim)
      (ma_Capabilities admission) nowMilliseconds (ma_MemberExpiresAtMilliseconds admission)
      None in
    check (MemberRegistration_Validate member);;;
    modify (put_member (mr_MemberID member) member);;;
    modify (put_memberSubscription (mr_MemberID member) subscriptionID);;;
    modify (put_admission (ma_AdmissionID admission)
      (admission <| ma_ClaimedAtMilliseconds := Some nowMilliseconds |>
                 <| ma_ClaimedMemberID := Some (mac_MemberID claim) |>));;;
    ret (mkSubscriptionAdmissionClaimResult AcceptanceAccepted
           (mkSubscriptionMemberRegistration subscriptionID member))
  end.

Definition claimSubscriptionAdmission (credential : AdmissionCredential)
    (claim : MemberAdmissionClaim) (previousSubscriptionID : UUID) (nowMilliseconds : int64)
    : StoreM SubscriptionAdmissionClaimResult :=
  check (MemberAdmissionClaim_Validate claim);;;
  in_found_domain (mcred_TenantID credential, mcred_DomainID credential)
    (claimAdmission credential claim previousSubscriptionID nowMilliseconds).

Definition ClaimSubscriptionAdmission (credential : AdmissionCredential)
    (claim : MemberAdmissionClaim) (nowMilliseconds : int64)
    : StoreM SubscriptionAdmissionClaimResult :=
  claimSubscriptionAdmission credential claim uuid_Nil nowMilliseconds.

Definition ClaimSubscriptionAdmissionReplacingInactiveMembership
    (credential : AdmissionCredential) (claim : MemberAdmissionClaim)
    (previousSubscriptionID : UUID) (nowMilliseconds : int64)
    : StoreM SubscriptionAdmissionClaimResult :=
  reject_if (previousSubscriptionID = uuid_Nil)
    (protocolError CodeInvalidSubscription "replacement subscription is missing");;;
  claimSubscriptionAdmission credential claim previousSubscriptionID nowMilliseconds.

Definition ClaimAdmission (credential : AdmissionCredential) (claim : MemberAdmissionClaim)
    (nowMilliseconds : int64) : StoreM AdmissionClaimResult :=
  let* result := ClaimSubscriptionAdmission credential claim nowMilliseconds in
  ret (mkAdmissionClaimResult (sacl_Acceptance result)
         (smr_MemberRegistration (sacl_Member result))).

(** [left.String() < right.String()], as the total preorder it refines. *)
Definition uuid_string_le (left right : UUID) : Prop :=
  str_le (uuid_String left) (uuid_String right).

#[global] Instance uuid_string_le_dec : RelDecision uuid_string_le.
Proof. intros l r. unfold uuid_string_le. apply _. Defined.

Definition eligible_admissions (domain : memoryDomain) (nowMilliseconds : int64) : list UUID :=
  let cutoff := admissionCollectionCutoff nowMilliseconds in
  if decide (nowMilliseconds > AdmissionRecoveryWindowMilliseconds) then
    merge_sort uuid_string_le
      (filter (fun kv : UUID * MemberAdmission => admissionCollectibleAt kv.2 cutoff)
         (map_to_list (dom_admissions domain))).*1
  else [].

Definition collectAdmissions (nowMilliseconds : int64) : DomainM AdmissionCollectionResult :=
  let* domain := get in
  let eligible := eligible_admissions domain nowMilliseconds in
  let hasMore := bool_decide (zlen eligible > MaximumAdmissionCollectionBatch) in
  let eligible :=
    if hasMore then take (Z.to_nat MaximumAdmissionCollectionBatch) eligible else eligible in
  modify (fun domain => domain <| dom_admissions :=
    foldl (fun admissions id => delete id admissions) (dom_admissions domain) eligible |>);;;
  ret (mkAdmissionCollectionResult (zlen eligible) hasMore
         (admissionCollectionCutoff nowMilliseconds)).

Definition CollectAdmissions (credential : AdministrationCredential) (nowMilliseconds : int64)
    : StoreM AdmissionCollectionResult :=
  as_administrator credential (collectAdmissions nowMilliseconds).

Definition revokeAdmission (admissionID : UUID) (nowMilliseconds : int64) : DomainM Acceptance :=
  let* domain := get in
  let* admission := found_or (dom_admissions domain !! admissionID)
    (protocolError CodeAdmissionNotFound "admission was not found") in
  reject_if (is_Some (ma_ClaimedMemberID admission))
    (protocolError CodeAdmissionClaimed "claimed admission cannot be revoked");;;
  if decide (is_Some (ma_RevokedAtMilliseconds admission)) then ret AcceptanceDuplicate
  else
    reject_if (nowMilliseconds < ma_CreatedAtMilliseconds admission)
      (protocolError CodeInvalidAdmission "revocation precedes admission");;;
    modify (put_admission admissionID
      (admission <| ma_RevokedAtMilliseconds := Some nowMilliseconds |>));;;
    ret AcceptanceAccepted.

Definition RevokeAdmission (credential : AdministrationCredential) (admissionID : UUID)
    (nowMilliseconds : int64) : StoreM Acceptance :=
  as_administrator credential (revokeAdmission admissionID nowMilliseconds).

(** ** Members *)

Definition createSubscriptionMember (credential : AdministrationCredential)
    (subscriptionID : UUID) (registration : MemberRegistration) (nowMilliseconds : int64)
    : DomainM Acceptance :=
  let memberID := mr_MemberID registration in
  let* domain := get in
  reject_if (mr_TenantID registration ≠ acred_TenantID credential ∨
             mr_DomainID registration ≠ acred_DomainID credential)
    (protocolError CodeWrongScope "member belongs to another domain");;;
  match dom_members domain !! memberID with
  | Some existing =>
    if decide (memberEqual existing registration ∧
               default uuid_Nil (dom_memberSubscriptions domain !! memberID) = subscriptionID)
    then ret AcceptanceDuplicate
    else throw (protocolError CodeMemberCollision "member ID was reused")
  | None =>
    reject_if (some_and (mr_ExpiresAtMilliseconds registration)
                 (fun expires => expires ≤ nowMilliseconds))
      (protocolError CodeInvalidMember "member is not currently issuable");;;
    check (ensureMemberCapacity (dom_members domain) nowMilliseconds);;;
    reject_if (no_active_subscription domain subscriptionID)
      (protocolError CodeSubscriptionNotFound "active subscription was not found");;;
    modify (put_member memberID registration);;;
    modify (put_memberSubscription memberID subscriptionID);;;
    ret AcceptanceAccepted
  end.

Definition CreateSubscriptionMember (credential : AdministrationCredential)
    (subscriptionID : UUID) (registration : MemberRegistration) (nowMilliseconds : int64)
    : StoreM Acceptance :=
  check (MemberRegistration_Validate registration);;;
  reject_if (mr_CreatedAtMilliseconds registration > nowMilliseconds)
    (protocolError CodeInvalidMember "member starts in the future");;;
  reject_if (subscriptionID = uuid_Nil)
    (protocolError CodeInvalidSubscription "member subscription is invalid");;;
  as_administrator credential
    (createSubscriptionMember credential subscriptionID registration nowMilliseconds).

Definition CreateMember (credential : AdministrationCredential)
    (registration : MemberRegistration) (nowMilliseconds : int64) : StoreM Acceptance :=
  ensureTestSubscription credential (mr_MemberID registration)
    (mr_CreatedAtMilliseconds registration);;;
  CreateSubscriptionMember credential (mr_MemberID registration) registration nowMilliseconds.

Definition revokeMember (memberID : UUID) (nowMilliseconds : int64) : DomainM Acceptance :=
  let* domain := get in
  let* member := found_or (dom_members domain !! memberID)
    (protocolError CodeMemberNotFound "member was not found") in
  if decide (is_Some (mr_RevokedAtMilliseconds member)) then ret AcceptanceDuplicate
  else
    reject_if (nowMilliseconds < mr_CreatedAtMilliseconds member)
      (protocolError CodeInvalidMember "revocation precedes membership");;;
    modify (put_member memberID
      (member <| mr_RevokedAtMilliseconds := Some nowMilliseconds |>));;;
    ret AcceptanceAccepted.

Definition RevokeMember (credential : AdministrationCredential) (memberID : UUID)
    (nowMilliseconds : int64) : StoreM Acceptance :=
  as_administrator credential (revokeMember memberID nowMilliseconds).

Definition changeMemberCapabilities (change : MemberCapabilityChange) (nowMilliseconds : int64)
    : DomainM MemberCapabilityChangeResult :=
  let* domain := get in
  match dom_capabilityChanges domain !! mcc_RetryID change with
  | Some existing =>
    reject_if (mmc_request existing ≠ change)
      (protocolError CodeMemberCapabilityCollision
         "member capability retry ID was reused");;;
    ret ((mmc_result existing) <| mcr_Acceptance := AcceptanceDuplicate |>)
  | None =>
    let* member := found_or (dom_members domain !! mcc_MemberID change)
      (protocolError CodeMemberNotFound "member was not found") in
    (if decide (¬ memberActiveAt member nowMilliseconds) then
       reject_if (some_and (mr_RevokedAtMilliseconds member)
                    (fun revoked => nowMilliseconds ≥ revoked))
         (protocolError CodeMemberRevoked "member is revoked");;;
       throw (protocolError CodeMemberExpired "member is not active")
     else ret tt);;;
    reject_if (mcc_ChangedAtMilliseconds change > nowMilliseconds ∨
               mcc_ChangedAtMilliseconds change < mr_CreatedAtMilliseconds member)
      (protocolError CodeInvalidMember "member capability change time is invalid");;;
    reject_if (¬ capabilitiesEqual (mr_Capabilities member) (mcc_PreviousCapabilities change))
      (protocolError CodeMemberCapabilityCollision
         "member capabilities changed concurrently");;;
    modify (put_member (mr_MemberID member)
      (member <| mr_Capabilities := mcc_NextCapabilities change |>));;;
    let result := mkMemberCapabilityChangeResult AcceptanceAccepted (mcc_RetryID change)
      (mcc_MemberID change) (mcc_PreviousCapabilities change) (mcc_NextCapabilities change)
      (mcc_ChangedAtMilliseconds change) in
    modify (fun domain => domain <| dom_capabilityChanges :=
      <[mcc_RetryID change := mkMemoryMemberCapabilityChange change result]>
        (dom_capabilityChanges domain) |>);;;
    ret result
  end.

Definition ChangeMemberCapabilities (credential : AdministrationCredential)
    (change : MemberCapabilityChange) (nowMilliseconds : int64)
    : StoreM MemberCapabilityChangeResult :=
  check (MemberCapabilityChange_Validate change);;;
  as_administrator credential (changeMemberCapabilities change nowMilliseconds).
End admissions.
