(* ===== verification/RelaySubscription.v ===== *)
(** * internal/relay: subscriptions and their recovery (memory.go)

    A subscription is active, awaiting rebootstrap, or revoked.  Recovery is a
    leased protocol of four requests (request, renew, cancel, complete). *)

From S2P Require Import Prelude GoEncoding Sha256 RelayModel RelayState RelayFence RelayMember.
#[local] Open Scope Z_scope.

(** ** Leases *)

Definition checkpointRetainsMessage (checkpoint : memoryCheckpoint) (messageID : UUID) : Prop :=
  messageID ∈ cc_RetainedMessageIDs (mc_candidate checkpoint).

#[global] Instance checkpointRetainsMessage_dec c m : Decision (checkpointRetainsMessage c m).
Proof. unfold checkpointRetainsMessage. apply _. Defined.

Definition cancelled (domain : memoryDomain) (retryID subscriptionID : UUID) : Prop :=
  map_any (fun _ cancellation => msx_subscriptionID cancellation = subscriptionID ∧
             src_RequestRetryID (msx_request cancellation) = retryID)
    (dom_rebootstrapCancellations domain).

#[global] Instance cancelled_dec d r s : Decision (cancelled d r s).
Proof. unfold cancelled. apply _. Defined.

Definition completed (domain : memoryDomain) (retryID subscriptionID : UUID) : Prop :=
  map_any (fun _ completion => mso_subscriptionID completion = subscriptionID ∧
             sco_RequestRetryID (mso_request completion) = retryID)
    (dom_rebootstrapCompletions domain).

#[global] Instance completed_dec d r s : Decision (completed d r s).
Proof. unfold completed. apply _. Defined.

Definition memoryRebootstrapRequestIsActive (domain : memoryDomain) (retryID : UUID)
    (request : memorySubscriptionRebootstrapRequest) (nowMilliseconds : int64) : Prop :=
  ¬ (nowMilliseconds < 0 ∨ nowMilliseconds ≥ msr_expiresAtMilliseconds request) ∧
  ¬ cancelled domain retryID (msr_subscriptionID request) ∧
  ¬ completed domain retryID (msr_subscriptionID request).

#[global] Instance memoryRebootstrapRequestIsActive_dec d k r now :
  Decision (memoryRebootstrapRequestIsActive d k r now).
Proof. unfold memoryRebootstrapRequestIsActive. apply _. Defined.

Definition memorySubscriptionHasActiveRebootstrap (domain : memoryDomain) (subscriptionID : UUID)
    (nowMilliseconds : int64) : Prop :=
  map_any (fun retryID request => msr_subscriptionID request = subscriptionID ∧
             memoryRebootstrapRequestIsActive domain retryID request nowMilliseconds)
    (dom_rebootstrapRequests domain).

#[global] Instance memorySubscriptionHasActiveRebootstrap_dec d s now :
  Decision (memorySubscriptionHasActiveRebootstrap d s now).
Proof. unfold memorySubscriptionHasActiveRebootstrap. apply _. Defined.

(** ** Administration *)

Section subscriptions.
Context `{UuidLib}.

Definition createSubscription (credential : AdministrationCredential)
    (request : SubscriptionCreateRequest) : DomainM SubscriptionResponse :=
  let subscriptionID := scr_SubscriptionID request in
  let* domain := get in
  match dom_subscriptionCreates domain !! scr_RetryID request with
  | Some existingRequest =>
    if decide (existingRequest = request)
    then ret (mkSubscriptionResponse AcceptanceDuplicate (scr_RetryID request)
                (default Subscription_zero (dom_subscriptions domain !! subscriptionID)))
    else throw (protocolError CodeSubscriptionCollision "subscription retry ID was reused")
  | None =>
    reject_if (is_Some (dom_subscriptions domain !! subscriptionID))
      (protocolError CodeSubscriptionCollision "subscription ID was reused");;;
    reject_if (scr_CreatedAtMilliseconds request <
               dr_CreatedAtMilliseconds (dom_registration domain))
      (protocolError CodeInvalidSubscription "subscription predates its domain");;;
    let subscription := mkSubscription SchemaVersion (acred_TenantID credential)
      (acred_DomainID credential) subscriptionID SubscriptionActive
      (latestCheckpointStartCursor domain) (scr_CreatedAtMilliseconds request)
      (scr_CreatedAtMilliseconds request) in
    modify (put_subscription subscriptionID subscription);;;
    modify (fun domain => domain <| dom_subscriptionCreates :=
      <[scr_RetryID request := request]> (dom_subscriptionCreates domain) |>);;;
    ret (mkSubscriptionResponse AcceptanceAccepted (scr_RetryID request) subscription)
  end.

Definition CreateSubscription (credential : AdministrationCredential)
    (request : SubscriptionCreateRequest) : StoreM SubscriptionResponse :=
  check (SubscriptionCreateRequest_Validate request);;;
  as_administrator credential (createSubscription credential request).

Definition GetSubscription (credential : AdministrationCredential) (subscriptionID : UUID)
    : StoreM Subscription :=
  reject_if (subscriptionID = uuid_Nil)
    (protocolError CodeInvalidSubscription "subscription ID is invalid");;;
  as_administrator credential
    (let* domain := get in
     found_or (dom_subscriptions domain !! subscriptionID)
       (protocolError CodeSubscriptionNotFound "subscription was not found")).

Definition changeSubscriptionStatus (subscriptionID : UUID)
    (request : SubscriptionStatusChangeRequest) : DomainM SubscriptionResponse :=
  let* domain := get in
  match dom_subscriptionChanges domain !! ssc_RetryID request with
  | Some existing =>
    if decide (msc_subscriptionID existing = subscriptionID ∧ msc_request existing = request)
    then ret (mkSubscriptionResponse AcceptanceDuplicate (ssc_RetryID request)
                (msc_result existing))
    else throw (protocolError CodeSubscriptionCollision
                  "subscription status retry ID was reused")
  | None =>
    let* subscription := found_or (dom_subscriptions domain !! subscriptionID)
      (protocolError CodeSubscriptionNotFound "subscription was not found") in
    reject_if (sub_Status subscription = SubscriptionRevoked)
      (protocolError CodeSubscriptionNotFound "revoked subscription cannot be changed");;;
    reject_if (ssc_ChangedAtMilliseconds request < sub_CreatedAtMilliseconds subscription ∨
               ssc_ChangedAtMilliseconds request < sub_UpdatedAtMilliseconds subscription)
      (protocolError CodeInvalidSubscription "subscription update is out of order");;;
    let subscription := subscription
      <| sub_Status := ssc_Status request |>
      <| sub_StartCursor := if decide (ssc_Status request = SubscriptionRebootstrapRequired)
                            then latestCheckpointStartCursor domain else None |>
      <| sub_UpdatedAtMilliseconds := ssc_ChangedAtMilliseconds request |> in
    modify (put_subscription subscriptionID subscription);;;
    modify (fun domain => domain <| dom_subscriptionChanges :=
      <[ssc_RetryID request := mkMemorySubscriptionChange subscriptionID request subscription]>
        (dom_subscriptionChanges domain) |>);;;
    ret (mkSubscriptionResponse AcceptanceAccepted (ssc_RetryID request) subscription)
  end.

Definition ChangeSubscriptionStatus (credential : AdministrationCredential)
    (subscriptionID : UUID) (request : SubscriptionStatusChangeRequest)
    : StoreM SubscriptionResponse :=
  reject_if (subscriptionID = uuid_Nil)
    (protocolError CodeInvalidSubscription "subscription ID is invalid");;;
  check (SubscriptionStatusChangeRequest_Validate request);;;
  as_administrator credential (changeSubscriptionStatus subscriptionID request).
End subscriptions.

(** ** Requesting recovery *)

(** [delete(message.acknowledgments, subscriptionID)] for one message of the
    slice, when it lies past [startSequence]. *)
Definition forget_acknowledgment (subscriptionID : UUID) (startSequence : uint64)
    (domain : memoryDomain) (r : messageRef) : memoryDomain :=
  match dom_heap domain !! r with
  | None => domain
  | Some message =>
    if decide (mm_Sequence message > startSequence)
    then put_message r (message <| mm_acknowledgments :=
           delete subscriptionID (mm_acknowledgments message) |>) domain
    else domain
  end.

Definition forget_acknowledgments (subscriptionID : UUID) (startSequence : uint64)
    (domain : memoryDomain) : memoryDomain :=
  foldl (forget_acknowledgment subscriptionID startSequence) domain (dom_messages domain).

Section recovery.
Context `{UuidLib}.

(** The two mutating blocks of the handler: acknowledgments past the
    checkpoint are dropped and the subscription moves to the checkpoint
    boundary. *)
Definition enter_recovery (subscription : Subscription) (startSequence : uint64)
    (nowMilliseconds : int64) : DomainM Subscription :=
  let subscriptionID := sub_SubscriptionID subscription in
  modify (forget_acknowledgments subscriptionID startSequence);;;
  let subscription := subscription
    <| sub_StartCursor := Some (EncodeCursor startSequence) |>
    <| sub_UpdatedAtMilliseconds := nowMilliseconds |> in
  modify (put_subscription subscriptionID subscription);;;
  ret subscription.

Definition requestSubscriptionRebootstrap (credential : Credential)
    (request : SubscriptionRebootstrapRequest) (leaseExpiresAt : int64)
    (nowMilliseconds : int64) : DomainM SubscriptionRebootstrapResponse :=
  let* domain := get in
  let* subscription := try (readableMemberSubscription domain (cred_MemberID credential)) in
  let subscriptionID := sub_SubscriptionID subscription in
  match dom_rebootstrapRequests domain !! srr_RetryID request with
  | Some existing =>
    if decide (msr_subscriptionID existing = subscriptionID ∧ msr_request existing = request)
    then ret (mkSubscriptionRebootstrapResponse AcceptanceDuplicate (srr_RetryID request)
                (srr_CheckpointID request) (srr_RootMessageID request)
                (msr_expiresAtMilliseconds existing) (msr_result existing))
    else throw (protocolError CodeSubscriptionCollision
                  "subscription rebootstrap retry ID was reused")
  | None =>
    let unavailable := protocolError CodeCheckpointUnavailable
      "authorized recovery checkpoint/root is unavailable" in
    let not_latest := protocolError CodeCheckpointUnavailable
      "authorized recovery checkpoint is not the latest activated checkpoint" in
    reject_if (sub_Status subscription = SubscriptionRevoked)
      (protocolError CodeSubscriptionNotFound "revoked subscription cannot rebootstrap");;;
    let* checkpoint := found_or (dom_checkpoints domain !! srr_CheckpointID request)
      unavailable in
    reject_if (mc_state checkpoint ≠ activated ∨
               ¬ checkpointRetainsMessage checkpoint (srr_RootMessageID request))
      unavailable;;;
    let* subscription :=
      (if decide (sub_Status subscription = SubscriptionRebootstrapRequired) then
         reject_if (memorySubscriptionHasActiveRebootstrap domain subscriptionID
                      nowMilliseconds)
           (protocolError CodeSubscriptionCollision
              "subscription recovery already has an active lease");;;
         reject_if (latest_activated domain ≠ Some (srr_CheckpointID request)) not_latest;;;
         enter_recovery subscription (mc_startSequence checkpoint) nowMilliseconds
       else
         reject_if (latest_activated domain ≠ Some (srr_CheckpointID request)) not_latest;;;
         enter_recovery (subscription <| sub_Status := SubscriptionRebootstrapRequired |>)
           (mc_startSequence checkpoint) nowMilliseconds) in
    modify (fun domain => domain <| dom_rebootstrapRequests :=
      <[srr_RetryID request := mkMemorySubscriptionRebootstrapRequest subscriptionID request
          leaseExpiresAt subscription]> (dom_rebootstrapRequests domain) |>);;;
    ret (mkSubscriptionRebootstrapResponse AcceptanceAccepted (srr_RetryID request)
           (srr_CheckpointID request) (srr_RootMessageID request) leaseExpiresAt subscription)
  end.

Definition RequestSubscriptionRebootstrap (credential : Credential)
    (request : SubscriptionRebootstrapRequest) (nowMilliseconds : int64)
    : StoreM SubscriptionRebootstrapResponse :=
  check (SubscriptionRebootstrapRequest_Validate request);;;
  let* leaseExpiresAt :=
    try (SubscriptionRebootstrapRequest_LeaseExpiresAt request nowMilliseconds) in
  as_member credential CapabilityFetchMessage nowMilliseconds
    (requestSubscriptionRebootstrap credential request leaseExpiresAt nowMilliseconds).

(** ** Renewing, cancelling, completing *)

Definition recovery_matches (recovery : memorySubscriptionRebootstrapRequest)
    (subscriptionID checkpointID rootMessageID : UUID) : Prop :=
  ¬ (msr_subscriptionID recovery ≠ subscriptionID ∨
     srr_CheckpointID (msr_request recovery) ≠ checkpointID ∨
     srr_RootMessageID (msr_request recovery) ≠ rootMessageID).

#[global] Instance recovery_matches_dec r s c m : Decision (recovery_matches r s c m).
Proof. unfold recovery_matches. apply _. Defined.

(** Two non-nil cursor pointers with equal targets. *)
Definition same_cursor (left right : option string) : Prop :=
  some_and left (fun l => some_and right (fun r => l = r)).

#[global] Instance same_cursor_dec l r : Decision (same_cursor l r).
Proof. unfold same_cursor. apply _. Defined.

Definition renewSubscriptionRebootstrap (credential : Credential)
    (renewal : SubscriptionRebootstrapRenewal) (candidateExpiresAt : int64)
    (nowMilliseconds : int64) : DomainM SubscriptionRebootstrapRenewalResponse :=
  let* domain := get in
  let* subscription := try (readableMemberSubscription domain (cred_MemberID credential)) in
  let subscriptionID := sub_SubscriptionID subscription in
  match dom_rebootstrapRenewals domain !! srn_RetryID renewal with
  | Some existing =>
    if decide (msn_subscriptionID existing = subscriptionID ∧ msn_request existing = renewal)
    then ret (mkSubscriptionRebootstrapRenewalResponse AcceptanceDuplicate
                (srn_RetryID renewal) (srn_RequestRetryID renewal) (srn_CheckpointID renewal)
                (srn_RootMessageID renewal) (msn_previousExpiresAtMilliseconds existing)
                (msn_expiresAtMilliseconds existing) (msn_result existing))
    else throw (protocolError CodeSubscriptionCollision
                  "subscription rebootstrap renewal retry ID was reused")
  | None =>
    let mismatch := protocolError CodeSubscriptionCollision
      "subscription rebootstrap renewal does not match its request" in
    let* recovery := found_or (dom_rebootstrapRequests domain !! srn_RequestRetryID renewal)
      mismatch in
    reject_if (¬ recovery_matches recovery subscriptionID (srn_CheckpointID renewal)
                 (srn_RootMessageID renewal)) mismatch;;;
    reject_if (msr_expiresAtMilliseconds recovery ≠
               srn_ExpectedLeaseExpiresAtMilliseconds renewal)
      (protocolError CodeSubscriptionCollision
         "subscription rebootstrap renewal lease is stale");;;
    reject_if (¬ memoryRebootstrapRequestIsActive domain (srn_RequestRetryID renewal) recovery
                 nowMilliseconds)
      (protocolError CodeRebootstrapExpired
         "subscription rebootstrap lease expired or was finalized");;;
    reject_if (sub_Status subscription ≠ SubscriptionRebootstrapRequired ∨
               ¬ same_cursor (sub_StartCursor subscription)
                   (sub_StartCursor (msr_result recovery)))
      (protocolError CodeSubscriptionCollision
         "subscription rebootstrap renewal state changed");;;
    let previousExpiresAt := msr_expiresAtMilliseconds recovery in
    let renewed :=
      if decide (candidateExpiresAt > previousExpiresAt)
      then recovery <| msr_expiresAtMilliseconds := candidateExpiresAt |>
      else recovery in
    (if decide (candidateExpiresAt > previousExpiresAt) then
       modify (fun domain => domain <| dom_rebootstrapRequests :=
         <[srn_RequestRetryID renewal := renewed]> (dom_rebootstrapRequests domain) |>)
     else ret tt);;;
    modify (fun domain => domain <| dom_rebootstrapRenewals :=
      <[srn_RetryID renewal := mkMemorySubscriptionRebootstrapRenewal subscriptionID renewal
          previousExpiresAt (msr_expiresAtMilliseconds renewed) subscription]>
        (dom_rebootstrapRenewals domain) |>);;;
    ret (mkSubscriptionRebootstrapRenewalResponse AcceptanceAccepted (srn_RetryID renewal)
           (srn_RequestRetryID renewal) (srn_CheckpointID renewal) (srn_RootMessageID renewal)
           previousExpiresAt (msr_expiresAtMilliseconds renewed) subscription)
  end.

Definition RenewSubscriptionRebootstrap (credential : Credential)
    (renewal : SubscriptionRebootstrapRenewal) (nowMilliseconds : int64)
    : StoreM SubscriptionRebootstrapRenewalResponse :=
  check (SubscriptionRebootstrapRenewal_Validate renewal);;;
  let* candidateExpiresAt :=
    try (SubscriptionRebootstrapRenewal_LeaseExpiresAt renewal nowMilliseconds) in
  as_member credential CapabilityFetchMessage nowMilliseconds
    (renewSubscriptionRebootstrap credential renewal candidateExpiresAt nowMilliseconds).

Definition cancelSubscriptionRebootstrap (credential : Credential)
    (cancellation : SubscriptionRebootstrapCancellation)
    : DomainM SubscriptionRecoveryResponse :=
  let* domain := get in
  let* subscription := try (readableMemberSubscription domain (cred_MemberID credential)) in
  let subscriptionID := sub_SubscriptionID subscription in
  let response acceptance result := mkSubscriptionRecoveryResponse acceptance
    (src_RetryID cancellation) (src_RequestRetryID cancellation)
    (src_CheckpointID cancellation) (src_RootMessageID cancellation) result in
  match dom_rebootstrapCancellations domain !! src_RetryID cancellation with
  | Some existing =>
    if decide (msx_subscriptionID existing = subscriptionID ∧
               msx_request existing = cancellation)
    then ret (response AcceptanceDuplicate (msx_result existing))
    else throw (protocolError CodeSubscriptionCollision
                  "subscription rebootstrap cancellation retry ID was reused")
  | None =>
    let mismatch := protocolError CodeSubscriptionCollision
      "subscription rebootstrap cancellation does not match its request" in
    let* recovery :=
      found_or (dom_rebootstrapRequests domain !! src_RequestRetryID cancellation) mismatch in
    reject_if (¬ recovery_matches recovery subscriptionID (src_CheckpointID cancellation)
                 (src_RootMessageID cancellation)) mismatch;;;
    reject_if (completed domain (src_RequestRetryID cancellation) subscriptionID)
      (protocolError CodeSubscriptionCollision
         "completed subscription rebootstrap cannot be cancelled");;;
    modify (fun domain => domain <| dom_rebootstrapCancellations :=
      <[src_RetryID cancellation := mkMemorySubscriptionRebootstrapCancellation subscriptionID
          cancellation subscription]> (dom_rebootstrapCancellations domain) |>);;;
    ret (response AcceptanceAccepted subscription)
  end.

Definition CancelSubscriptionRebootstrap (credential : Credential)
    (cancellation : SubscriptionRebootstrapCancellation) (nowMilliseconds : int64)
    : StoreM SubscriptionRecoveryResponse :=
  check (SubscriptionRebootstrapCancellation_Validate cancellation);;;
  as_member credential CapabilityFetchMessage nowMilliseconds
    (cancelSubscriptionRebootstrap credential cancellation).

(** A message of the recovery tail that still lacks its applied receipt. *)
Definition tail_incomplete (domain : memoryDomain) (subscriptionID : UUID)
    (startSequence throughSequence : uint64) (message : memoryMessage) : Prop :=
  ¬ (mm_Sequence message ≤ startSequence ∨ mm_Sequence message > throughSequence) ∧
  fence_revealed domain (mm_checkpointFenceID message) ∧
  default "" (mm_acknowledgments message !! subscriptionID) ≠ AcknowledgmentApplied.

#[global] Instance tail_incomplete_dec d s a b m : Decision (tail_incomplete d s a b m).
Proof. unfold tail_incomplete. apply _. Defined.

Definition completeSubscriptionRebootstrap (credential : Credential)
    (completion : SubscriptionRebootstrapCompletion) (throughSequence : uint64)
    (nowMilliseconds : int64) : DomainM SubscriptionRecoveryResponse :=
  modify (refreshMemoryFence nowMilliseconds);;;
  let* domain := get in
  let* subscription := try (readableMemberSubscription domain (cred_MemberID credential)) in
  let subscriptionID := sub_SubscriptionID subscription in
  let response acceptance result := mkSubscriptionRecoveryResponse acceptance
    (sco_RetryID completion) (sco_RequestRetryID completion) (sco_CheckpointID completion)
    (sco_RootMessageID completion) result in
  match dom_rebootstrapCompletions domain !! sco_RetryID completion with
  | Some existing =>
    if decide (mso_subscriptionID existing = subscriptionID ∧ mso_request existing = completion)
    then ret (response AcceptanceDuplicate (mso_result existing))
    else throw (protocolError CodeSubscriptionCollision
                  "subscription rebootstrap completion retry ID was reused")
  | None =>
    let not_awaiting := protocolError CodeInvalidSubscription
      "subscription is not awaiting rebootstrap completion" in
    let mismatch := protocolError CodeSubscriptionCollision
      "rebootstrap completion does not match its authorized checkpoint/root" in
    reject_if (sub_Status subscription ≠ SubscriptionRebootstrapRequired) not_awaiting;;;
    let* startCursor := found_or (sub_StartCursor subscription) not_awaiting in
    let* recovery :=
      found_or (dom_rebootstrapRequests domain !! sco_RequestRetryID completion) mismatch in
    reject_if (¬ recovery_matches recovery subscriptionID (sco_CheckpointID completion)
                 (sco_RootMessageID completion)) mismatch;;;
    reject_if (¬ memoryRebootstrapRequestIsActive domain (sco_RequestRetryID completion)
                 recovery nowMilliseconds)
      (protocolError CodeRebootstrapExpired
         "subscription rebootstrap lease expired or was cancelled");;;
    let* startSequence := try (DecodeCursor startCursor) in
    reject_if (throughSequence < startSequence ∨ throughSequence > dom_nextSequence domain)
      (protocolError CodeInvalidCursor
         "rebootstrap completion cursor is outside the retained history");;;
    reject_if (Exists (tail_incomplete domain subscriptionID startSequence throughSequence)
                 (stored domain))
      (protocolError CodeRebootstrapIncomplete
         "rebootstrap tail has not been durably applied");;;
    let subscription := subscription <| sub_Status := SubscriptionActive |>
      <| sub_StartCursor := None |> <| sub_UpdatedAtMilliseconds := nowMilliseconds |> in
    modify (put_subscription subscriptionID subscription);;;
    modify (fun domain => domain <| dom_rebootstrapCompletions :=
      <[sco_RetryID completion := mkMemorySubscriptionRebootstrapCompletion subscriptionID
          startSequence completion subscription]> (dom_rebootstrapCompletions domain) |>);;;
    ret (response AcceptanceAccepted subscription)
  end.

Definition CompleteSubscriptionRebootstrap (credential : Credential)
    (completion : SubscriptionRebootstrapCompletion) (nowMilliseconds : int64)
    : StoreM SubscriptionRecoveryResponse :=
  check (SubscriptionRebootstrapCompletion_Validate completion);;;
  let* throughSequence := try (DecodeCursor (sco_CompletedThroughCursor completion)) in
  as_member credential CapabilityAcknowledgeMessage nowMilliseconds
    (completeSubscriptionRebootstrap credential completion throughSequence nowMilliseconds).
End recovery.
