(* ===== verification/RelayDelivery.v ===== *)
(** * internal/relay: publication, fetch and acknowledgment (memory.go) *)

From S2P Require Import Prelude GoEncoding Sha256 RelayModel RelayState RelayFence RelayMember RelaySubscription.
#[local] Open Scope Z_scope.

(** ** Recovery of one's own messages *)

Definition memorySubscriptionHasAuthorizedRecovery (domain : memoryDomain)
    (subscription : Subscription) (nowMilliseconds : int64) : Prop :=
  ¬ (sub_Status subscription ≠ SubscriptionRebootstrapRequired ∨
     sub_StartCursor subscription = None) ∧
  map_any (fun retryID request =>
    msr_subscriptionID request = sub_SubscriptionID subscription ∧
    memoryRebootstrapRequestIsActive domain retryID request nowMilliseconds ∧
    sub_Status (msr_result request) = SubscriptionRebootstrapRequired ∧
    same_cursor (sub_StartCursor (msr_result request)) (sub_StartCursor subscription) ∧
    sub_UpdatedAtMilliseconds (msr_result request) = sub_UpdatedAtMilliseconds subscription)
    (dom_rebootstrapRequests domain).

#[global] Instance memorySubscriptionHasAuthorizedRecovery_dec d s now :
  Decision (memorySubscriptionHasAuthorizedRecovery d s now).
Proof. unfold memorySubscriptionHasAuthorizedRecovery. apply _. Defined.

(** A message past the cursor that [cursor] decodes to. *)
Definition past_cursor (cursor : string) (message : memoryMessage) : Prop :=
  match DecodeCursor cursor with
  | inl _ => False
  | inr startSequence => mm_Sequence message > startSequence
  end.

#[global] Instance past_cursor_dec c m : Decision (past_cursor c m).
Proof. unfold past_cursor. destruct (DecodeCursor c); apply _. Defined.

Definition memoryOwnMessageIsInAuthorizedRecovery (domain : memoryDomain)
    (subscription : Subscription) (message : memoryMessage) (nowMilliseconds : int64) : Prop :=
  memorySubscriptionHasAuthorizedRecovery domain subscription nowMilliseconds ∧
  some_and (sub_StartCursor subscription) (fun cursor => past_cursor cursor message).

#[global] Instance memoryOwnMessageIsInAuthorizedRecovery_dec d s m now :
  Decision (memoryOwnMessageIsInAuthorizedRecovery d s m now).
Proof. unfold memoryOwnMessageIsInAuthorizedRecovery. apply _. Defined.

(** ** Publication *)

Definition ensureMessageCapacity (domain : memoryDomain) (ciphertextByteCount : int64)
    : option GoError :=
  err_when (¬ DomainRegistration_UsesSharedCapacity (dom_registration domain) ∧
      ciphertextByteCount >
        i64 (dr_MaximumMessageByteCount (dom_registration domain) - dom_messageBytes domain))
    (protocolError CodeDomainFull "domain reached its message-byte limit").

(** Appends the new message object to the slice and the index. *)
Definition append_message (message : memoryMessage) (domain : memoryDomain) : memoryDomain :=
  let r := dom_nextRef domain in
  domain <| dom_heap := <[r := message]> (dom_heap domain) |>
         <| dom_nextRef := (r + 1)%N |>
         <| dom_messages := dom_messages domain ++ [r] |>
         <| dom_messageByID := <[mm_MessageID message := r]> (dom_messageByID domain) |>
         <| dom_messageBytes := i64 (dom_messageBytes domain + mm_byteCount message) |>.

Section delivery.
Context `{UuidLib}.

(** [s] is the store the domain came from: the tenant limit counts the other
    domains of [s] and the present state of this one. *)
Definition publish (s : MemoryStore) (credential : Credential) (envelope : Envelope)
    (nowMilliseconds : int64) : DomainM PublishResult :=
  let memberID := cred_MemberID credential in
  let messageID := env_MessageID envelope in
  let collision := protocolError CodeMessageCollision
    "message ID was reused with different content" in
  let key := (cred_TenantID credential, cred_DomainID credential) in
  let* domain := get in
  check (Envelope_ValidateForPublish envelope credential);;;
  let* subscription := try (activeMemberSubscription domain memberID) in
  match lookup_message domain messageID, dom_fenceMessageTombstones domain !! messageID with
  | Some (_, existing), _ =>
    if decide (mm_publisherMember existing = memberID ∧
               msg_Envelope (mm_message existing) = envelope)
    then ret (mkPublishResult AcceptanceDuplicate (mm_Sequence existing))
    else throw collision
  | None, Some tombstone =>
    let* digest := try (Envelope_ReferenceDigest envelope) in
    if decide (mft_publisherMember tombstone = memberID ∧ mft_digest tombstone = digest)
    then ret (mkPublishResult AcceptanceDuplicate (mft_sequence tombstone))
    else throw collision
  | None, None =>
    memoryFenceAllowsWrite (sub_SubscriptionID subscription) nowMilliseconds;;;
    let* domain := get in
    reject_if (¬ DomainRegistration_UsesSharedCapacity (dom_registration domain) ∧
               zlen (dom_messages domain) ≥ dr_MaximumMessageCount (dom_registration domain))
      (protocolError CodeDomainFull "domain reached its message limit");;;
    let* ciphertextByteCount := try (Envelope_CiphertextByteCount envelope) in
    check (ensureMessageCapacity domain ciphertextByteCount);;;
    check (ensureTenantMessageCapacityLocked (put_domain key domain s)
             (cred_TenantID credential) ciphertextByteCount);;;
    modify (fun domain => domain <| dom_nextSequence := u64 (dom_nextSequence domain + 1) |>);;;
    let* domain := get in
    let fenceID := (fun fence => cfs_FenceID (mcf_state fence)) <$>
      memoryActiveFenceForSubscription domain (sub_SubscriptionID subscription) in
    modify (append_message
      (mkMemoryMessage (mkMessage (dom_nextSequence domain) envelope) ciphertextByteCount
         memberID (sub_SubscriptionID subscription) ∅ fenceID));;;
    ret (mkPublishResult AcceptanceAccepted (dom_nextSequence domain))
  end.

Definition Publish (credential : Credential) (envelope : Envelope) (nowMilliseconds : int64)
    : StoreM PublishResult :=
  let* s := get in
  as_member credential CapabilityPublishMessage nowMilliseconds
    (publish s credential envelope nowMilliseconds).

(** ** Fetch *)

(** The cursor from which the page starts. *)
Definition effective_cursor (subscription : Subscription) (afterSequence : uint64)
    : GoError + uint64 :=
  match sub_StartCursor subscription with
  | None => inr afterSequence
  | Some cursor =>
    match DecodeCursor cursor with
    | inl err => inl err
    | inr start =>
      if decide (sub_Status subscription = SubscriptionRebootstrapRequired) then inr start
      else if decide (start > afterSequence) then inr start
      else inr afterSequence
    end
  end.

(** The lowest boundary of an active fence, or the last sequence. *)
Definition lower_watermark (watermark : uint64) (fence : memoryCheckpointFence) : uint64 :=
  if decide (mcf_Status fence = CheckpointFenceActive) then
    match DecodeCursor (cfs_BoundaryCursor (mcf_state fence)) with
    | inr boundary => if decide (boundary < watermark) then boundary else watermark
    | inl _ => watermark
    end
  else watermark.

Definition visibleHighWatermark (domain : memoryDomain) : uint64 :=
  foldl lower_watermark (dom_nextSequence domain)
    (map_to_list (dom_checkpointFences domain)).*2.

(** The body of the page loop does not [continue]. *)
Definition fetchable (domain : memoryDomain) (subscription : Subscription)
    (afterSequence : uint64) (nowMilliseconds : int64) (message : memoryMessage) : Prop :=
  mm_Sequence message > afterSequence ∧
  ¬ (memorySubscriptionHasAuthorizedRecovery domain subscription nowMilliseconds ∧
     default "" (mm_acknowledgments message !! sub_SubscriptionID subscription) =
       AcknowledgmentApplied) ∧
  ¬ (mm_publisherSubscription message = sub_SubscriptionID subscription ∧
     ¬ memoryOwnMessageIsInAuthorizedRecovery domain subscription message nowMilliseconds) ∧
  fence_revealed domain (mm_checkpointFenceID message).

#[global] Instance fetchable_dec d s a now m : Decision (fetchable d s a now m).
Proof. unfold fetchable. apply _. Defined.

(** The page loop over the rest of the slice; [inl] is the early return of a
    full page, [inr] the messages gathered when the slice ends. *)
Fixpoint fetch_page (keep : memoryMessage → bool) (limit : Z) (page : list Message)
    (messages : list memoryMessage) : FetchResult + list Message :=
  match messages with
  | [] => inr page
  | m :: rest =>
    if keep m then
      let page := page ++ [mm_message m] in
      if decide (zlen page = limit) then inl (mkFetchResult page (mm_Sequence m))
      else fetch_page keep limit page rest
    else fetch_page keep limit page rest
  end.

Definition fetch (credential : Credential) (afterSequence : uint64) (limit : Z)
    (nowMilliseconds : int64) : DomainM FetchResult :=
  modify (refreshMemoryFence nowMilliseconds);;;
  let* domain := get in
  let* subscription := try (readableMemberSubscription domain (cred_MemberID credential)) in
  reject_if (sub_Status subscription = SubscriptionRebootstrapRequired ∧
             ¬ memorySubscriptionHasActiveRebootstrap domain (sub_SubscriptionID subscription)
                 nowMilliseconds)
    (protocolError CodeRebootstrapExpired
       "subscription rebootstrap lease expired or was cancelled");;;
  let* afterSequence := try (effective_cursor subscription afterSequence) in
  match fetch_page (fun m => bool_decide
                      (fetchable domain subscription afterSequence nowMilliseconds m))
          limit [] (stored domain) with
  | inl full => ret full
  | inr page =>
    let next := visibleHighWatermark domain in
    ret (mkFetchResult page (if decide (afterSequence > next) then afterSequence else next))
  end.

Definition Fetch (credential : Credential) (afterSequence : uint64) (limit : Z)
    (nowMilliseconds : int64) : StoreM FetchResult :=
  reject_if (limit ≤ 0 ∨ limit > MaximumPageSize ∨ afterSequence > MaximumSequence)
    (protocolError CodeInvalidCursor "page limit is invalid");;;
  as_member credential CapabilityFetchMessage nowMilliseconds
    (fetch credential afterSequence limit nowMilliseconds).

Definition getMessage (credential : Credential) (messageID : UUID) (nowMilliseconds : int64)
    : DomainM Message :=
  let not_found := protocolError CodeMessageNotFound "message was not found" in
  modify (refreshMemoryFence nowMilliseconds);;;
  let* domain := get in
  let* subscription := try (readableMemberSubscription domain (cred_MemberID credential)) in
  let* (_, message) := found_or (lookup_message domain messageID) not_found in
  reject_if (mm_publisherSubscription message = sub_SubscriptionID subscription) not_found;;;
  reject_if (¬ fence_revealed domain (mm_checkpointFenceID message)) not_found;;;
  ret (mm_message message).

Definition GetMessage (credential : Credential) (messageID : UUID) (nowMilliseconds : int64)
    : StoreM Message :=
  reject_if (messageID = uuid_Nil)
    (protocolError CodeMessageNotFound "message was not found");;;
  as_member credential CapabilityFetchMessage nowMilliseconds
    (getMessage credential messageID nowMilliseconds).

(** ** Acknowledgment *)

Definition acknowledge (credential : Credential) (messageID : UUID)
    (stage : AcknowledgmentStage) (nowMilliseconds : int64) : DomainM AcknowledgmentResult :=
  let* domain := get in
  let* subscription := try (readableMemberSubscription domain (cred_MemberID credential)) in
  let subscriptionID := sub_SubscriptionID subscription in
  reject_if (sub_Status subscription = SubscriptionRebootstrapRequired ∧
             ¬ memorySubscriptionHasActiveRebootstrap domain subscriptionID nowMilliseconds)
    (protocolError CodeRebootstrapExpired
       "subscription rebootstrap lease expired or was cancelled");;;
  let* (r, message) := found_or (lookup_message domain messageID)
    (protocolError CodeMessageNotFound "message was not found") in
  reject_if (mm_publisherSubscription message = subscriptionID ∧
             ¬ memoryOwnMessageIsInAuthorizedRecovery domain subscription message
                 nowMilliseconds)
    (protocolError CodeInvalidAcknowledgment "publisher cannot acknowledge its message");;;
  let record :=
    modify (put_message r (message <| mm_acknowledgments :=
      <[subscriptionID := stage]> (mm_acknowledgments message) |>));;;
    ret (mkAcknowledgmentResult AcceptanceAccepted stage) in
  match mm_acknowledgments message !! subscriptionID with
  | Some existing =>
    if decide (existing = stage ∨ existing = AcknowledgmentApplied)
    then ret (mkAcknowledgmentResult AcceptanceDuplicate existing)
    else record
  | None =>
    reject_if (stage = AcknowledgmentApplied)
      (protocolError CodeInvalidAcknowledgment
         "applied requires a durable accepted acknowledgment");;;
    record
  end.

Definition Acknowledge (credential : Credential) (messageID : UUID)
    (stage : AcknowledgmentStage) (nowMilliseconds : int64) : StoreM AcknowledgmentResult :=
  reject_if (¬ AcknowledgmentStage_Valid stage)
    (protocolError CodeInvalidAcknowledgment "acknowledgment stage is invalid");;;
  as_member credential CapabilityAcknowledgeMessage nowMilliseconds
    (acknowledge credential messageID stage nowMilliseconds).
End delivery.
