(* ===== verification/RelayBlob.v ===== *)
(** * internal/relay: blobs and resumable uploads (memory.go, memory_upload.go)

    The bytes live in a blob store outside this state; [write] and [publish]
    are the callbacks through which an upload reaches it. *)

From S2P Require Import Prelude GoEncoding Sha256 RelayModel RelayState RelayFence.
#[local] Open Scope Z_scope.

Definition validateBlobRequest (blobID : string) (byteCount : int64) : option GoError :=
  ValidateBlobID blobID >>?
  err_when (byteCount < 0 ∨ byteCount > MaximumBlobByteCount)
    (protocolError CodeInvalidBlob "blob byte count is invalid").

(** Reserved uploads are not counted here. *)
Definition ensureBlobCapacity (domain : memoryDomain) (byteCount : int64) : option GoError :=
  let registration := dom_registration domain in
  err_when (¬ DomainRegistration_UsesSharedCapacity registration ∧
      zsize (dom_blobs domain) ≥ dr_MaximumBlobCount registration)
    (protocolError CodeDomainFull "domain reached its blob limit") >>?
  err_when (¬ DomainRegistration_UsesSharedCapacity registration ∧
      byteCount > i64 (dr_MaximumBlobByteCount registration - dom_blobBytes domain))
    (protocolError CodeDomainFull "domain reached its blob-byte limit").

(** The check of [CreateBlobUpload], which counts reservations. *)
Definition ensureUploadCapacity (domain : memoryDomain) (byteCount : int64) : option GoError :=
  let registration := dom_registration domain in
  err_when (¬ DomainRegistration_UsesSharedCapacity registration ∧
      (i64 (zsize (dom_blobs domain) + dom_reservedBlobCount domain) ≥
         dr_MaximumBlobCount registration ∨
       byteCount >
         i64 (i64 (dr_MaximumBlobByteCount registration - dom_blobBytes domain)
              - dom_reservedBlobBytes domain)))
    (protocolError CodeDomainFull "domain reached its blob quota").

(** Publishing a blob: the metadata, the fence tag of the holder's writes, the
    byte counter. *)
Definition publish_blob (subscriptionID : UUID) (blob : BlobMetadata) (domain : memoryDomain)
    : memoryDomain :=
  let domain := domain <| dom_blobs := <[bm_BlobID blob := blob]> (dom_blobs domain) |> in
  let domain :=
    match memoryActiveFenceForSubscription domain subscriptionID with
    | Some fence =>
      domain <| dom_blobFenceIDs :=
        <[bm_BlobID blob := cfs_FenceID (mcf_state fence)]> (dom_blobFenceIDs domain) |>
    | None => domain
    end in
  domain <| dom_blobBytes := i64 (dom_blobBytes domain + bm_ByteCount blob) |>.

Definition put_upload (id : UUID) (u : memoryBlobUpload) (d : memoryDomain) : memoryDomain :=
  d <| dom_blobUploads := <[id := u]> (dom_blobUploads d) |>.

Section blobs.
Context `{UuidLib}.

(** ** Whole blobs *)

Definition prepareBlobPublish (blobID : string) (byteCount : int64) : DomainM unit :=
  let* domain := get in
  match dom_blobs domain !! blobID with
  | Some existing =>
    reject_if (bm_ByteCount existing ≠ byteCount)
      (protocolError CodeBlobCollision "blob ID was reused with a different length")
  | None => check (ensureBlobCapacity domain byteCount)
  end.

Definition PrepareBlobPublish (credential : Credential) (blobID : string) (byteCount : int64)
    (nowMilliseconds : int64) : StoreM unit :=
  check (validateBlobRequest blobID byteCount);;;
  as_member credential CapabilityPublishBlob nowMilliseconds
    (prepareBlobPublish blobID byteCount).

Definition commitBlobPublish (s : MemoryStore) (credential : Credential) (blobID : string)
    (byteCount : int64) (nowMilliseconds : int64) : DomainM BlobPublishResult :=
  let key := (cred_TenantID credential, cred_DomainID credential) in
  let* domain := get in
  match dom_blobs domain !! blobID with
  | Some existing =>
    if decide (bm_ByteCount existing = byteCount)
    then ret (mkBlobPublishResult AcceptanceDuplicate byteCount)
    else throw (protocolError CodeBlobCollision
                  "blob ID was reused with a different length")
  | None =>
    let* subscription := try (activeMemberSubscription domain (cred_MemberID credential)) in
    let subscriptionID := sub_SubscriptionID subscription in
    memoryFenceAllowsWrite subscriptionID nowMilliseconds;;;
    let* domain := get in
    check (ensureBlobCapacity domain byteCount);;;
    check (ensureTenantBlobCapacityLocked (put_domain key domain s)
             (cred_TenantID credential) byteCount);;;
    let metadata := mkBlobMetadata (cred_TenantID credential) (cred_DomainID credential) blobID
      (cred_MemberID credential) byteCount nowMilliseconds in
    check (BlobMetadata_Validate metadata);;;
    modify (publish_blob subscriptionID metadata);;;
    ret (mkBlobPublishResult AcceptanceAccepted byteCount)
  end.

Definition CommitBlobPublish (credential : Credential) (blobID : string) (byteCount : int64)
    (nowMilliseconds : int64) : StoreM BlobPublishResult :=
  check (validateBlobRequest blobID byteCount);;;
  let* s := get in
  as_member credential CapabilityPublishBlob nowMilliseconds
    (commitBlobPublish s credential blobID byteCount nowMilliseconds).

Definition getBlobMetadata (blobID : string) : DomainM BlobMetadata :=
  let not_found := protocolError CodeBlobNotFound "blob was not found" in
  let* domain := get in
  let* metadata := found_or (dom_blobs domain !! blobID) not_found in
  reject_if (¬ fence_revealed domain (dom_blobFenceIDs domain !! blobID)) not_found;;;
  ret metadata.

Definition GetBlobMetadata (credential : Credential) (blobID : string)
    (nowMilliseconds : int64) : StoreM BlobMetadata :=
  check (ValidateBlobID blobID);;;
  as_member credential CapabilityFetchBlob nowMilliseconds (getBlobMetadata blobID).

(** ** Uploads *)

Definition AuthorizeBlobUpload (credential : Credential) (nowMilliseconds : int64)
    : StoreM unit :=
  as_member credential CapabilityPublishBlob nowMilliseconds
    (let* domain := get in
     let* _ := try (activeMemberSubscription domain (cred_MemberID credential)) in
     ret tt).

Definition createBlobUpload (s : MemoryStore) (credential : Credential)
    (request : BlobUploadRequest) (nowMilliseconds : int64)
    : DomainM BlobUploadCreateResponse :=
  let key := (cred_TenantID credential, cred_DomainID credential) in
  let reused := protocolError CodeBlobUploadCollision "blob upload retry ID was reused" in
  let* domain := get in
  let* subscription := try (activeMemberSubscription domain (cred_MemberID credential)) in
  let subscriptionID := sub_SubscriptionID subscription in
  match dom_blobUploadCreates domain !! bur_RetryID request with
  | Some existingID =>
    let* existing := found_or (dom_blobUploads domain !! existingID) reused in
    reject_if (¬ (mbu_request existing = request ∧ mbu_subscriptionID existing = subscriptionID))
      reused;;;
    ret (mkBlobUploadCreateResponse AcceptanceDuplicate (bur_RetryID request)
           (mbu_status existing))
  | None =>
    memoryFenceAllowsWrite subscriptionID nowMilliseconds;;;
    let* domain := get in
    reject_if (is_Some (dom_blobUploads domain !! bur_UploadID request))
      (protocolError CodeBlobUploadCollision "blob upload ID was reused");;;
    reject_if (some_and (dom_blobs domain !! bur_RelayBlobID request)
                 (fun blob => bm_ByteCount blob ≠ bur_ByteCount request))
      (protocolError CodeBlobCollision "blob ID was reused with a different length");;;
    check (ensureUploadCapacity domain (bur_ByteCount request));;;
    check (ensureTenantBlobCapacityLocked (put_domain key domain s)
             (cred_TenantID credential) (bur_ByteCount request));;;
    let status := mkBlobUploadStatus (bur_UploadID request) (bur_RelayBlobID request)
      (bur_ByteCount request) 0 false (bur_CreatedAtMilliseconds request)
      (bur_CreatedAtMilliseconds request) in
    modify (put_upload (bur_UploadID request)
      (mkMemoryBlobUpload request status subscriptionID (cred_MemberID credential) ∅));;;
    modify (fun domain =>
      domain <| dom_blobUploadCreates :=
                  <[bur_RetryID request := bur_UploadID request]>
                    (dom_blobUploadCreates domain) |>
             <| dom_reservedBlobCount := i64 (dom_reservedBlobCount domain + 1) |>
             <| dom_reservedBlobBytes :=
                  i64 (dom_reservedBlobBytes domain + bur_ByteCount request) |>);;;
    ret (mkBlobUploadCreateResponse AcceptanceAccepted (bur_RetryID request) status)
  end.

Definition CreateBlobUpload (credential : Credential) (request : BlobUploadRequest)
    (nowMilliseconds : int64) : StoreM BlobUploadCreateResponse :=
  check (BlobUploadRequest_Validate request);;;
  reject_if (bur_CreatedAtMilliseconds request > nowMilliseconds)
    (protocolError CodeInvalidBlobUpload "blob upload creation is in the future");;;
  let* s := get in
  as_member credential CapabilityPublishBlob nowMilliseconds
    (createBlobUpload s credential request nowMilliseconds).

(** The upload, for a member of the subscription that created it. *)
Definition owned_upload (credential : Credential) (uploadID : UUID)
    : DomainM (memoryBlobUpload * Subscription) :=
  let wrong_scope := protocolError CodeWrongScope "blob upload belongs to another subscription" in
  let* domain := get in
  let* upload := found_or (dom_blobUploads domain !! uploadID)
    (protocolError CodeBlobUploadNotFound "blob upload was not found") in
  let* subscription :=
    try (match activeMemberSubscription domain (cred_MemberID credential) with
         | inl _ => inl wrong_scope
         | inr subscription => inr subscription
         end) in
  reject_if (sub_SubscriptionID subscription ≠ mbu_subscriptionID upload) wrong_scope;;;
  ret (upload, subscription).

Definition GetBlobUpload (credential : Credential) (uploadID : UUID) (nowMilliseconds : int64)
    : StoreM BlobUploadStatus :=
  reject_if (uploadID = uuid_Nil)
    (protocolError CodeInvalidBlobUpload "blob upload ID is invalid");;;
  as_member credential CapabilityPublishBlob nowMilliseconds
    (let* (upload, _) := owned_upload credential uploadID in ret (mbu_status upload)).

(** [callback == nil], then [err := callback(status)]. *)
Definition run_callback (callback : option (BlobUploadStatus → option GoError))
    (missing : GoError) (status : BlobUploadStatus) : option GoError :=
  match callback with None => Some missing | Some f => f status end.

Definition append_chunk (request : BlobUploadChunkRequest) (nowMilliseconds : int64)
    (upload : memoryBlobUpload) : memoryBlobUpload :=
  upload <| mbu_chunks := <[buc_Offset request := request]> (mbu_chunks upload) |>
         <| mbu_status := (mbu_status upload)
              <| bus_CommittedOffset :=
                   i64 (bus_CommittedOffset (mbu_status upload) + buc_ByteCount request) |>
              <| bus_UpdatedAtMilliseconds := nowMilliseconds |> |>.

Definition appendBlobUploadChunk (credential : Credential) (request : BlobUploadChunkRequest)
    (nowMilliseconds : int64) (write : option (BlobUploadStatus → option GoError))
    : DomainM BlobUploadStatus :=
  let* (upload, subscription) := owned_upload credential (buc_UploadID request) in
  let status := mbu_status upload in
  match mbu_chunks upload !! buc_Offset request with
  | Some existing =>
    if decide (existing = request) then ret status
    else throw (protocolError CodeBlobUploadCollision "blob upload chunk offset was reused")
  | None =>
    memoryFenceAllowsWrite (sub_SubscriptionID subscription) nowMilliseconds;;;
    reject_if (bus_Finalized status = true ∨ buc_Offset request ≠ bus_CommittedOffset status ∨
               buc_ByteCount request > i64 (bus_ByteCount status - buc_Offset request))
      (protocolError CodeInvalidBlobUpload "blob upload chunk is not contiguous");;;
    check (run_callback write
             (protocolError CodeInvalidBlobUpload "blob upload writer is missing") status);;;
    let upload := append_chunk request nowMilliseconds upload in
    modify (put_upload (buc_UploadID request) upload);;;
    ret (mbu_status upload)
  end.

Definition AppendBlobUploadChunk (credential : Credential) (request : BlobUploadChunkRequest)
    (nowMilliseconds : int64) (write : option (BlobUploadStatus → option GoError))
    : StoreM BlobUploadStatus :=
  check (BlobUploadChunkRequest_Validate request);;;
  as_member credential CapabilityPublishBlob nowMilliseconds
    (appendBlobUploadChunk credential request nowMilliseconds write).

Definition finalizeBlobUpload (credential : Credential)
    (request : BlobUploadFinalizationRequest) (nowMilliseconds : int64)
    (publish : option (BlobUploadStatus → option GoError))
    : DomainM BlobUploadFinalizationResponse :=
  let blobID := bufq_RelayBlobID request in
  let* domain := get in
  match dom_blobUploadFinalizations domain !! bufq_RetryID request with
  | Some existing =>
    if decide (mbf_request existing = request)
    then ret ((mbf_result existing) <| bufr_Acceptance := AcceptanceDuplicate |>)
    else throw (protocolError CodeBlobUploadCollision
                  "blob upload finalization retry ID was reused")
  | None =>
    let* (upload, subscription) := owned_upload credential (bufq_UploadID request) in
    let status := mbu_status upload in
    let subscriptionID := sub_SubscriptionID subscription in
    memoryFenceAllowsWrite subscriptionID nowMilliseconds;;;
    reject_if (blobID ≠ bus_RelayBlobID status ∨ bufq_ByteCount request ≠ bus_ByteCount status ∨
               bus_CommittedOffset status ≠ bus_ByteCount status)
      (protocolError CodeInvalidBlobUpload
         "blob upload finalization does not match staged content");;;
    let* domain := get in
    match dom_blobs domain !! blobID with
    | Some existing =>
      reject_if (bm_ByteCount existing ≠ bufq_ByteCount request)
        (protocolError CodeBlobCollision "blob ID was reused with a different length")
    | None =>
      check (run_callback publish
               (protocolError CodeInvalidBlobUpload "blob upload publisher is missing")
               status);;;
      modify (publish_blob subscriptionID
        (mkBlobMetadata (cred_TenantID credential) (cred_DomainID credential) blobID
           (mbu_publisherMemberID upload) (bufq_ByteCount request) nowMilliseconds))
    end;;;
    modify (fun domain =>
      domain <| dom_reservedBlobCount := i64 (dom_reservedBlobCount domain - 1) |>
             <| dom_reservedBlobBytes :=
                  i64 (dom_reservedBlobBytes domain - bufq_ByteCount request) |>);;;
    modify (put_upload (bufq_UploadID request)
      (upload <| mbu_status := status <| bus_Finalized := true |>
                   <| bus_UpdatedAtMilliseconds := nowMilliseconds |> |>));;;
    let result := mkBlobUploadFinalizationResponse AcceptanceAccepted (bufq_RetryID request)
      (bufq_UploadID request) blobID (bufq_ByteCount request) in
    modify (fun domain => domain <| dom_blobUploadFinalizations :=
      <[bufq_RetryID request := mkMemoryBlobUploadFinalization request result]>
        (dom_blobUploadFinalizations domain) |>);;;
    ret result
  end.

Definition FinalizeBlobUpload (credential : Credential)
    (request : BlobUploadFinalizationRequest) (nowMilliseconds : int64)
    (publish : option (BlobUploadStatus → option GoError))
    : StoreM BlobUploadFinalizationResponse :=
  check (BlobUploadFinalizationRequest_Validate request);;;
  as_member credential CapabilityPublishBlob nowMilliseconds
    (finalizeBlobUpload credential request nowMilliseconds publish).
End blobs.
