(* ===== verification/RelayCheckpoint.v ===== *)
(** * internal/relay: checkpoints (memory_checkpoint.go)

    Staging a checkpoint under a fence, activating it (which freezes the set of
    messages and blobs it makes redundant), and collecting that set once every
    required subscription holds custody of it. *)

From S2P Require Import Prelude GoEncoding Sha256 RelayModel RelayState RelayFence RelayMember RelaySubscription.
#[local] Open Scope Z_scope.

(** ** Helpers *)

Definition memoryHasBoundRebootstrap (domain : memoryDomain) (nowMilliseconds : int64) : Prop :=
  map_any (fun retryID request =>
    some_and (dom_subscriptions domain !! msr_subscriptionID request) (fun subscription =>
      sub_Status subscription = SubscriptionRebootstrapRequired) ∧
    memoryRebootstrapRequestIsActive domain retryID request nowMilliseconds)
    (dom_rebootstrapRequests domain).

#[global] Instance memoryHasBoundRebootstrap_dec d now : Decision (memoryHasBoundRebootstrap d now).
Proof. unfold memoryHasBoundRebootstrap. apply _. Defined.

Definition memoryCheckpointRegresses (candidate : CheckpointCandidate) (coveredThrough : uint64)
    (active : option memoryCheckpoint) : Prop :=
  some_and active (fun active =>
    cc_KeyEpoch candidate < cc_KeyEpoch (mc_candidate active) ∨
    coveredThrough < mc_coveredThrough active).

#[global] Instance memoryCheckpointRegresses_dec c n a :
  Decision (memoryCheckpointRegresses c n a).
Proof. unfold memoryCheckpointRegresses. apply _. Defined.

(** The latest activated checkpoint, when there is one. *)
Definition latest_checkpoint (domain : memoryDomain) : option memoryCheckpoint :=
  id ← latest_activated domain; dom_checkpoints domain !! id.

Definition memoryRebootstrapCompletionCovers (domain : memoryDomain) (subscriptionID : UUID)
    (sequence : uint64) : Prop :=
  map_any (fun _ completion => mso_subscriptionID completion = subscriptionID ∧
             mso_recoveryStartSequence completion ≥ sequence)
    (dom_rebootstrapCompletions domain).

#[global] Instance memoryRebootstrapCompletionCovers_dec d s n :
  Decision (memoryRebootstrapCompletionCovers d s n).
Proof. unfold memoryRebootstrapCompletionCovers. apply _. Defined.

Definition sequence_le (a b : memoryMessage) : Prop := mm_Sequence a ≤ mm_Sequence b.

#[global] Instance sequence_le_dec : RelDecision sequence_le.
Proof. intros a b. unfold sequence_le. apply _. Defined.

Definition blob_key_le (a b : string * BlobMetadata) : Prop := str_le a.1 b.1.

#[global] Instance blob_key_le_dec : RelDecision blob_key_le.
Proof. intros a b. unfold blob_key_le. apply _. Defined.

(** What a checkpoint adds to the retained sets; nil adds nothing. *)
Definition retained_messages (item : option memoryCheckpoint) : list UUID :=
  match item with Some c => cc_RetainedMessageIDs (mc_candidate c) | None => [] end.

Definition retained_blobs (item : option memoryCheckpoint) : list string :=
  match item with Some c => cc_RetainedBlobIDs (mc_candidate c) | None => [] end.

(** The frozen message set: stored, covered, not retained. *)
Definition freeze_messages (domain : memoryDomain) (coveredThrough : uint64)
    (retained : gset UUID) : gmap UUID messageRef :=
  foldl (fun frozen r =>
    match dom_heap domain !! r with
    | None => frozen
    | Some message =>
      if decide (mm_Sequence message ≤ coveredThrough ∧ mm_MessageID message ∉ retained)
      then <[mm_MessageID message := r]> frozen else frozen
    end) ∅ (dom_messages domain).

Definition freeze_blobs (domain : memoryDomain) (retained : gset string)
    : gmap string BlobMetadata :=
  filter (fun kv : string * BlobMetadata => kv.1 ∉ retained) (dom_blobs domain).

Definition active_subscriptions (domain : memoryDomain) : gset UUID :=
  dom (filter (fun kv : UUID * Subscription => sub_Status kv.2 = SubscriptionActive)
         (dom_subscriptions domain)).

(** Marking a checkpoint retired drops its large sets. *)
Definition retire_checkpoint (retired : memoryCheckpoint) : memoryCheckpoint :=
  retired
    <| mc_state := RelayState.retired |>
    <| mc_candidate := (mc_candidate retired)
         <| cc_RetainedMessageIDs := [] |> <| cc_RetainedBlobIDs := [] |> |>
    <| mc_required := ∅ |> <| mc_deletionMessages := ∅ |> <| mc_deletionBlobs := ∅ |>.

(** [activatedCheckpoints[len-3]], when there are more than two. *)
Definition third_last (l : list UUID) : option UUID :=
  if decide (zlen l > 2) then l !! (length l - 3)%nat else None.

Definition put_checkpoint (id : UUID) (c : memoryCheckpoint) (d : memoryDomain) : memoryDomain :=
  d <| dom_checkpoints := <[id := c]> (dom_checkpoints d) |>.

(** The activated checkpoint: everything the activation freezes. *)
Definition activate_checkpoint (domain : memoryDomain) (checkpoint : memoryCheckpoint)
    (ordinal : uint64) (request : CheckpointActivationRequest) : memoryCheckpoint :=
  let previous := latest_checkpoint domain in
  let retainedMessages : gset UUID :=
    list_to_set (retained_messages (Some checkpoint) ++ retained_messages previous) in
  let retainedBlobs : gset string :=
    list_to_set (retained_blobs (Some checkpoint) ++ retained_blobs previous) in
  checkpoint
    <| mc_required := active_subscriptions domain |>
    <| mc_deletionMessages :=
         freeze_messages domain (mc_coveredThrough checkpoint) retainedMessages |>
    <| mc_deletionBlobs := freeze_blobs domain retainedBlobs |>
    <| mc_startSequence := mc_coveredThrough checkpoint |>
    <| mc_activationOrdinal := ordinal |>
    <| mc_activationRequest := request |>
    <| mc_state := activated |>.

(** [activatedCheckpoints = append(..., id)] and the retirement that follows. *)
Definition push_activated (id : UUID) (domain : memoryDomain) : memoryDomain :=
  let ids := dom_activatedCheckpoints domain ++ [id] in
  let domain := domain <| dom_activatedCheckpoints := ids |> in
  match third_last ids with
  | Some retiredID =>
    domain <| dom_checkpoints := alter retire_checkpoint retiredID (dom_checkpoints domain) |>
  | None => domain
  end.

Section checkpoints.
Context `{UuidLib}.

Definition memoryFenceSuffixMatches (domain : memoryDomain) (fence : memoryCheckpointFence)
    (retained : list UUID) : Prop :=
  match DecodeCursor (cfs_BoundaryCursor (mcf_state fence)) with
  | inl _ => False
  | inr boundary =>
    let expected := map mm_MessageID (filter (fun message =>
      mm_publisherSubscription message = mcf_holderSubscriptionID fence ∧
      mm_Sequence message > boundary) (stored domain)) in
    merge_sort uuid_string_le expected = retained
  end.

#[global] Instance memoryFenceSuffixMatches_dec d f l :
  Decision (memoryFenceSuffixMatches d f l).
Proof. unfold memoryFenceSuffixMatches. destruct (DecodeCursor _); apply _. Defined.

(** ** Staging *)

Definition stageCheckpoint (credential : Credential) (candidate : CheckpointCandidate)
    (coveredThrough : uint64) (nowMilliseconds : int64) : DomainM CheckpointStageResponse :=
  let checkpointID := cc_CheckpointID candidate in
  let bad_fence := protocolError CodeInvalidCheckpointFence
    "checkpoint candidate does not match an active fence" in
  let* domain := get in
  let* subscription := try (activeMemberSubscription domain (cred_MemberID credential)) in
  let subscriptionID := sub_SubscriptionID subscription in
  reject_if (subscriptionID ≠ cc_PublisherSubscriptionID candidate ∨
             coveredThrough > dom_nextSequence domain)
    (protocolError CodeInvalidCheckpoint
       "checkpoint publisher or covered cursor is invalid");;;
  match dom_checkpointStageRetries domain !! cc_RetryID candidate with
  | Some existingID =>
    reject_if (¬ some_and (dom_checkpoints domain !! existingID) (fun existing =>
        mc_candidateDigest existing = CheckpointCandidateDigest candidate ∧
        cc_PublisherSubscriptionID (mc_candidate existing) = subscriptionID))
      (protocolError CodeCheckpointCollision "checkpoint retry ID was reused");;;
    ret (mkCheckpointStageResponse AcceptanceDuplicate (cc_RetryID candidate) checkpointID)
  | None =>
    reject_if (memoryCheckpointRegresses candidate coveredThrough (latest_checkpoint domain))
      (protocolError CodeInvalidCheckpoint
         "checkpoint candidate regresses the active checkpoint frontier");;;
    modify (refreshMemoryFence nowMilliseconds);;;
    let* domain := get in
    let* fence := found_or (dom_checkpointFences domain !! cc_FenceID candidate) bad_fence in
    reject_if (mcf_Status fence ≠ CheckpointFenceActive ∨
        nowMilliseconds ≥ cfs_ExpiresAtMilliseconds (mcf_state fence) ∨
        mcf_holderSubscriptionID fence ≠ subscriptionID ∨
        cc_CoveredThroughCursor candidate ≠ cfs_BoundaryCursor (mcf_state fence))
      bad_fence;;;
    reject_if (is_Some (dom_checkpoints domain !! checkpointID))
      (protocolError CodeCheckpointCollision "checkpoint ID was reused");;;
    reject_if (¬ memoryFenceSuffixMatches domain fence (cc_RetainedMessageIDs candidate))
      (protocolError CodeInvalidCheckpoint
         "retained messages are not the exact fenced holder suffix");;;
    reject_if (Exists (fun blobID => dom_blobs domain !! blobID = None)
                 (cc_RetainedBlobIDs candidate))
      (protocolError CodeInvalidCheckpoint "retained blob is missing");;;
    modify (put_checkpoint checkpointID
      (mkMemoryCheckpoint candidate (CheckpointCandidateDigest candidate)
         (cred_MemberID credential) coveredThrough staged 0 CheckpointActivationRequest_zero 0
         ∅ ∅ ∅));;;
    modify (fun domain => domain <| dom_checkpointStageRetries :=
      <[cc_RetryID candidate := checkpointID]> (dom_checkpointStageRetries domain) |>);;;
    ret (mkCheckpointStageResponse AcceptanceAccepted (cc_RetryID candidate) checkpointID)
  end.

Definition StageCheckpoint (credential : Credential) (candidate : CheckpointCandidate)
    (nowMilliseconds : int64) : StoreM CheckpointStageResponse :=
  check (CheckpointCandidate_Validate candidate);;;
  reject_if (cc_TenantID candidate ≠ cred_TenantID credential ∨
             cc_DomainID candidate ≠ cred_DomainID credential ∨
             cc_CreatedAtMilliseconds candidate > nowMilliseconds)
    (protocolError CodeWrongScope "checkpoint candidate scope or time is invalid");;;
  let* coveredThrough := try (DecodeCursor (cc_CoveredThroughCursor candidate)) in
  as_member credential CapabilityPublishCheckpoint nowMilliseconds
    (stageCheckpoint credential candidate coveredThrough nowMilliseconds).

(** ** Activation *)

Definition activateCheckpoint (request : CheckpointActivationRequest) (nowMilliseconds : int64)
    : DomainM CheckpointActivationResponse :=
  let checkpointID := caq_CheckpointID request in
  let not_found := protocolError CodeCheckpointNotFound "checkpoint was not found" in
  let not_activatable := protocolError CodeInvalidCheckpointFence
    "checkpoint fence is no longer activatable" in
  let* domain := get in
  match dom_checkpointActivations domain !! caq_RetryID request with
  | Some existing =>
    if decide (mca_checkpointID existing = checkpointID ∧ mca_request existing = request)
    then ret ((mca_result existing) <| car_Acceptance := AcceptanceDuplicate |>)
    else throw (protocolError CodeCheckpointCollision
                  "checkpoint activation retry ID was reused")
  | None =>
    reject_if (dom_checkpoints domain !! checkpointID = None) not_found;;;
    modify (refreshMemoryFence nowMilliseconds);;;
    let* domain := get in
    let* checkpoint := found_or (dom_checkpoints domain !! checkpointID) not_found in
    let candidate := mc_candidate checkpoint in
    let fence := dom_checkpointFences domain !! cc_FenceID candidate in
    (if decide (mc_state checkpoint ≠ staged ∨
                caq_ActivatedAtMilliseconds request < cc_CreatedAtMilliseconds candidate ∨
                caq_ActivatedAtMilliseconds request > nowMilliseconds) then
       reject_if (some_and fence (fun fence =>
           mcf_Status fence = CheckpointFenceExpired ∨
           mcf_Status fence = CheckpointFenceAborted)) not_activatable;;;
       throw (protocolError CodeCheckpointCollision
                "checkpoint was already activated or activation time is invalid")
     else ret tt);;;
    reject_if (memoryCheckpointRegresses candidate (mc_coveredThrough checkpoint)
                 (latest_checkpoint domain))
      (protocolError CodeInvalidCheckpoint
         "checkpoint candidate regresses the active checkpoint frontier");;;
    let* fence := found_or fence not_activatable in
    reject_if (mcf_Status fence ≠ CheckpointFenceActive ∨
               ¬ memoryFenceSuffixMatches domain fence (cc_RetainedMessageIDs candidate))
      not_activatable;;;
    reject_if (memoryHasBoundRebootstrap domain nowMilliseconds)
      (protocolError CodeCheckpointNotEligible
         "checkpoint activation is blocked by an active client-authorized recovery");;;
    let ordinal := u64 (dom_checkpointOrdinal domain + 1) in
    let active := activate_checkpoint domain checkpoint ordinal request in
    modify (fun domain => domain <| dom_checkpointOrdinal := ordinal |>);;;
    modify (put_checkpoint checkpointID active);;;
    modify (set_fence_status (cc_FenceID candidate) CheckpointFenceActivated);;;
    modify (push_activated checkpointID);;;
    let result := mkCheckpointActivationResponse AcceptanceAccepted (caq_RetryID request)
      checkpointID (caq_ActivatedAtMilliseconds request)
      (EncodeCursor (mc_startSequence active)) in
    modify (fun domain => domain <| dom_checkpointActivations :=
      <[caq_RetryID request := mkMemoryCheckpointActivation checkpointID request result]>
        (dom_checkpointActivations domain) |>);;;
    ret result
  end.

Definition ActivateCheckpoint (credential : AdministrationCredential)
    (request : CheckpointActivationRequest) (nowMilliseconds : int64)
    : StoreM CheckpointActivationResponse :=
  check (CheckpointActivationRequest_Validate request);;;
  as_administrator credential (activateCheckpoint request nowMilliseconds).

(** ** The collection plan *)

(** [message] keeps a required, still active subscription from custody. *)
Definition lacks_custody (domain : memoryDomain) (subscriptionID : UUID)
    (message : memoryMessage) : Prop :=
  mm_publisherSubscription message ≠ subscriptionID ∧
  ¬ memoryRebootstrapCompletionCovers domain subscriptionID (mm_Sequence message) ∧
  mm_acknowledgments message !! subscriptionID = None.

#[global] Instance lacks_custody_dec d s m : Decision (lacks_custody d s m).
Proof. unfold lacks_custody. apply _. Defined.

(** The objects of [checkpoint.deletionMessages], in iteration order. *)
Definition deletion_messages (domain : memoryDomain) (checkpoint : memoryCheckpoint)
    : list memoryMessage :=
  deref domain (map_to_list (mc_deletionMessages checkpoint)).*2.

Definition deletion_blobs (checkpoint : memoryCheckpoint) : list BlobMetadata :=
  (map_to_list (mc_deletionBlobs checkpoint)).*2.

Definition missing_custody (domain : memoryDomain) (checkpoint : memoryCheckpoint)
    : list UUID :=
  merge_sort uuid_string_le
    (filter (fun id =>
       sub_Status (default Subscription_zero (dom_subscriptions domain !! id)) =
         SubscriptionActive ∧
       Exists (lacks_custody domain id) (deletion_messages domain checkpoint))
       (elements (mc_required checkpoint))).

Definition plan_message (message : memoryMessage) : CheckpointPlanMessage :=
  mkCheckpointPlanMessage (mm_Sequence message) (mm_MessageID message) (mm_byteCount message).

Definition plan_blob (blob : BlobMetadata) : CheckpointPlanBlob :=
  mkCheckpointPlanBlob (bm_BlobID blob) (bm_ByteCount blob).

Definition memoryCheckpointPlan (domain : memoryDomain) (checkpointID : UUID)
    : GoError + CheckpointDryRunResponse :=
  match dom_checkpoints domain !! checkpointID with
  | None => inl (protocolError CodeCheckpointNotFound "checkpoint was not found")
  | Some checkpoint =>
    if decide (mc_state checkpoint ≠ activated ∨ latest_activated domain ≠ Some checkpointID)
    then inl (protocolError CodeCheckpointNotEligible
                "only the latest activated checkpoint is collectable")
    else
      let missing := missing_custody domain checkpoint in
      let messages := deletion_messages domain checkpoint in
      let blobs := deletion_blobs checkpoint in
      inr (mkCheckpointDryRunResponse checkpointID (bool_decide (zlen missing = 0))
             (zlen messages) (i64 (list_sum mm_byteCount messages))
             (zlen blobs) (i64 (list_sum bm_ByteCount blobs)) missing
             (CheckpointPlanDigest (cc_TenantID (mc_candidate checkpoint))
                (cc_DomainID (mc_candidate checkpoint)) checkpointID
                (mc_activationOrdinal checkpoint) (map plan_message messages)
                (map plan_blob blobs)))
  end.

Definition DryRunCheckpointCollection (credential : AdministrationCredential)
    (request : CheckpointDryRunRequest) : StoreM CheckpointDryRunResponse :=
  check (CheckpointDryRunRequest_Validate request);;;
  as_administrator credential
    (let* domain := get in try (memoryCheckpointPlan domain (cdq_CheckpointID request))).

(** ** Collection *)

(** The first [maximum] elements, or all of them. *)
Definition cut {A} (maximum : Z) (l : list A) : list A :=
  if decide (zlen l > maximum) then take (Z.to_nat maximum) l else l.

Definition selected_messages (domain : memoryDomain) (checkpoint : memoryCheckpoint)
    (maximum : Z) : list memoryMessage :=
  cut maximum (merge_sort sequence_le (deletion_messages domain checkpoint)).

Definition selected_blobs (checkpoint : memoryCheckpoint) (maximum : Z)
    : list (string * BlobMetadata) :=
  cut maximum (merge_sort blob_key_le (map_to_list (mc_deletionBlobs checkpoint))).

Definition collect_messages (checkpointID : UUID) (messages : list memoryMessage)
    (domain : memoryDomain) : memoryDomain :=
  let ids := mm_MessageID <$> messages in
  let selected : gset UUID := list_to_set ids in
  domain
    <| dom_messageByID := foldl (fun m id => delete id m) (dom_messageByID domain) ids |>
    <| dom_checkpoints := alter (fun checkpoint =>
         checkpoint <| mc_deletionMessages :=
           foldl (fun m id => delete id m) (mc_deletionMessages checkpoint) ids |>)
         checkpointID (dom_checkpoints domain) |>
    <| dom_messageBytes :=
         foldl (fun total message => i64 (total - mm_byteCount message))
           (dom_messageBytes domain) messages |>
    <| dom_messages := filter (fun r =>
         ¬ some_and (dom_heap domain !! r) (fun message => mm_MessageID message ∈ selected))
         (dom_messages domain) |>.

Definition collect_blobs (checkpointID : UUID) (blobs : list (string * BlobMetadata))
    (domain : memoryDomain) : memoryDomain :=
  domain
    <| dom_checkpoints := alter (fun checkpoint =>
         checkpoint <| mc_deletionBlobs :=
           foldl (fun m id => delete id m) (mc_deletionBlobs checkpoint) blobs.*1 |>)
         checkpointID (dom_checkpoints domain) |>
    <| dom_blobs := foldl (fun m id => delete id m) (dom_blobs domain) blobs.*1 |>
    <| dom_blobBytes :=
         foldl (fun total blob => i64 (total - bm_ByteCount blob))
           (dom_blobBytes domain) blobs.*2 |>.

Definition deletion_done (domain : memoryDomain) (checkpointID : UUID) : bool :=
  bool_decide (some_and (dom_checkpoints domain !! checkpointID) (fun checkpoint =>
    zsize (mc_deletionMessages checkpoint) = 0 ∧ zsize (mc_deletionBlobs checkpoint) = 0)).

Definition collectCheckpoint (request : CheckpointCollectionRequest)
    : DomainM CheckpointCollectionResponse :=
  let checkpointID := ccq_CheckpointID request in
  let* domain := get in
  let* checkpoint := found_or (dom_checkpoints domain !! checkpointID)
    (protocolError CodeCheckpointNotFound "checkpoint was not found") in
  reject_if (ccq_RequestedAtMilliseconds request <
             caq_ActivatedAtMilliseconds (mc_activationRequest checkpoint))
    (protocolError CodeInvalidCheckpoint "checkpoint collection predates activation");;;
  match dom_checkpointCollections domain !! ccq_RetryID request with
  | Some existing =>
    if decide (mcl_request existing = request)
    then ret ((mcl_result existing) <| ccr_Duplicate := true |>)
    else throw (protocolError CodeCheckpointCollision
                  "checkpoint collection retry ID was reused")
  | None =>
    let* plan := try (memoryCheckpointPlan domain checkpointID) in
    reject_if (cdr_PlanDigest plan ≠ ccq_PlanDigest request)
      (protocolError CodeCollectionPlanStale "collection plan changed");;;
    reject_if (cdr_Eligible plan = false)
      (protocolError CodeCheckpointNotEligible "checkpoint lacks required custody");;;
    let messages := selected_messages domain checkpoint (ccq_MaximumMessageCount request) in
    let blobs := selected_blobs checkpoint (ccq_MaximumBlobCount request) in
    modify (collect_messages checkpointID messages);;;
    modify (collect_blobs checkpointID blobs);;;
    let* domain := get in
    let result := mkCheckpointCollectionResponse false (ccq_RetryID request) checkpointID
      (ccq_PlanDigest request)
      (zlen messages) (i64 (list_sum mm_byteCount messages))
      (zlen blobs) (i64 (list_sum bm_ByteCount blobs.*2)) (deletion_done domain checkpointID) in
    modify (fun domain => domain <| dom_checkpointCollections :=
      <[ccq_RetryID request := mkMemoryCheckpointCollection request result]>
        (dom_checkpointCollections domain) |>);;;
    ret result
  end.

Definition CollectCheckpoint (credential : AdministrationCredential)
    (request : CheckpointCollectionRequest) : StoreM CheckpointCollectionResponse :=
  check (CheckpointCollectionRequest_Validate request);;;
  as_administrator credential (collectCheckpoint request).
End checkpoints.
