(* ===== verification/RelayMachine.v ===== *)
(** * internal/relay: the store as a state machine

    Every exported method of [MemoryStore] runs under its mutex, so an
    execution is a sequence of calls in some order.  [Op] has one constructor
    per method; [perform] is the state after a call, whether it succeeded or
    returned an error.  [CreateAdmission] and [CreateMember] take the lock
    twice: [EnsureTestSubscription] is their first half, the corresponding
    subscription operation the second.

    Device sync and shared spaces call methods of the relay inside their own.
    [CallOf] recognises such a call as an operation of this machine, so that
    what holds of the operations carries over to the services. *)

From S2P Require Import Prelude GoEncoding Sha256 RelayModel RelayState RelayFence RelayTenant RelayMember RelaySubscription RelayDelivery RelayBlob RelayCheckpoint.
#[local] Open Scope Z_scope.

Inductive Op :=
  | OpCreateDomain (registration : DomainRegistration) (initialMember : MemberRegistration)
  | OpProvisionTenant (tenant : TenantRegistration) (initialDomain : DomainProvisioning)
  | OpProvisionDomain (credential : TenantCredential) (provisioning : DomainProvisioning)
      (now : int64)
  | OpRotateTenantCredential (credential : TenantCredential)
      (rotation : TenantCredentialRotation)
  | OpGetTenantStatus (credential : TenantCredential)
  | OpGetDomainStatus (credential : AdministrationCredential)
  | OpRevokeTenantMemberships (credential : TenantCredential)
      (revocation : TenantMembershipRevocation)
  | OpGetMemberAuthority (tenantID domainID memberID : UUID)
  | OpRotateAdministrationCredential (credential : AdministrationCredential)
      (rotation : CredentialRotation) (now : int64)
  | OpRotateMemberCredential (credential : Credential) (rotation : CredentialRotation)
      (now : int64)
  | OpEnsureTestSubscription (credential : AdministrationCredential) (subscriptionID : UUID)
      (createdAt : int64)
  | OpCreateSubscriptionAdmission (credential : AdministrationCredential) (subscriptionID : UUID)
      (registration : MemberAdmission) (now : int64)
  | OpClaimSubscriptionAdmission (credential : AdmissionCredential)
      (claim : MemberAdmissionClaim) (now : int64)
  | OpClaimReplacing (credential : AdmissionCredential) (claim : MemberAdmissionClaim)
      (previousSubscriptionID : UUID) (now : int64)
  | OpCollectAdmissions (credential : AdministrationCredential) (now : int64)
  | OpRevokeAdmission (credential : AdministrationCredential) (admissionID : UUID) (now : int64)
  | OpCreateSubscriptionMember (credential : AdministrationCredential) (subscriptionID : UUID)
      (registration : MemberRegistration) (now : int64)
  | OpRevokeMember (credential : AdministrationCredential) (memberID : UUID) (now : int64)
  | OpChangeMemberCapabilities (credential : AdministrationCredential)
      (change : MemberCapabilityChange) (now : int64)
  | OpCreateSubscription (credential : AdministrationCredential)
      (request : SubscriptionCreateRequest)
  | OpGetSubscription (credential : AdministrationCredential) (subscriptionID : UUID)
  | OpChangeSubscriptionStatus (credential : AdministrationCredential) (subscriptionID : UUID)
      (request : SubscriptionStatusChangeRequest)
  | OpRequestRebootstrap (credential : Credential) (request : SubscriptionRebootstrapRequest)
      (now : int64)
  | OpRenewRebootstrap (credential : Credential) (renewal : SubscriptionRebootstrapRenewal)
      (now : int64)
  | OpCancelRebootstrap (credential : Credential)
      (cancellation : SubscriptionRebootstrapCancellation) (now : int64)
  | OpCompleteRebootstrap (credential : Credential)
      (completion : SubscriptionRebootstrapCompletion) (now : int64)
  | OpPublish (credential : Credential) (envelope : Envelope) (now : int64)
  | OpFetch (credential : Credential) (afterSequence : uint64) (limit : Z) (now : int64)
  | OpGetMessage (credential : Credential) (messageID : UUID) (now : int64)
  | OpAcknowledge (credential : Credential) (messageID : UUID) (stage : AcknowledgmentStage)
      (now : int64)
  | OpPrepareBlobPublish (credential : Credential) (blobID : string) (byteCount : int64)
      (now : int64)
  | OpCommitBlobPublish (credential : Credential) (blobID : string) (byteCount : int64)
      (now : int64)
  | OpGetBlobMetadata (credential : Credential) (blobID : string) (now : int64)
  | OpAuthorizeBlobUpload (credential : Credential) (now : int64)
  | OpCreateBlobUpload (credential : Credential) (request : BlobUploadRequest) (now : int64)
  | OpGetBlobUpload (credential : Credential) (uploadID : UUID) (now : int64)
  | OpAppendBlobUploadChunk (credential : Credential) (request : BlobUploadChunkRequest)
      (now : int64) (write : option (BlobUploadStatus → option GoError))
  | OpFinalizeBlobUpload (credential : Credential) (request : BlobUploadFinalizationRequest)
      (now : int64) (publish : option (BlobUploadStatus → option GoError))
  | OpCreateCheckpointFence (credential : Credential) (request : CheckpointFenceRequest)
      (now : int64)
  | OpGetCheckpointFence (credential : Credential) (fenceID : UUID) (now : int64)
  | OpAbortCheckpointFence (credential : Credential) (request : CheckpointFenceAbortRequest)
      (now : int64)
  | OpStageCheckpoint (credential : Credential) (candidate : CheckpointCandidate) (now : int64)
  | OpActivateCheckpoint (credential : AdministrationCredential)
      (request : CheckpointActivationRequest) (now : int64)
  | OpDryRunCheckpointCollection (credential : AdministrationCredential)
      (request : CheckpointDryRunRequest)
  | OpCollectCheckpoint (credential : AdministrationCredential)
      (request : CheckpointCollectionRequest).

(** The state a call leaves behind. *)
Definition after {A} (m : StoreM A) (s : MemoryStore) : MemoryStore := (m s).1.

Section machine.
Context `{UuidLib}.

Definition perform (op : Op) : MemoryStore → MemoryStore :=
  match op with
  | OpCreateDomain r m => after (CreateDomain r m)
  | OpProvisionTenant t p => after (ProvisionTenant t p)
  | OpProvisionDomain c p now => after (ProvisionDomain c p now)
  | OpRotateTenantCredential c r => after (RotateTenantCredential c r)
  | OpGetTenantStatus c => after (GetTenantStatus c)
  | OpGetDomainStatus c => after (GetDomainStatus c)
  | OpRevokeTenantMemberships c r => after (RevokeTenantMemberships c r)
  | OpGetMemberAuthority t d m => after (GetMemberAuthority t d m)
  | OpRotateAdministrationCredential c r now => after (RotateAdministrationCredential c r now)
  | OpRotateMemberCredential c r now => after (RotateMemberCredential c r now)
  | OpEnsureTestSubscription c id at_ => after (ensureTestSubscription c id at_)
  | OpCreateSubscriptionAdmission c id r now => after (CreateSubscriptionAdmission c id r now)
  | OpClaimSubscriptionAdmission c r now => after (ClaimSubscriptionAdmission c r now)
  | OpClaimReplacing c r p now =>
    after (ClaimSubscriptionAdmissionReplacingInactiveMembership c r p now)
  | OpCollectAdmissions c now => after (CollectAdmissions c now)
  | OpRevokeAdmission c id now => after (RevokeAdmission c id now)
  | OpCreateSubscriptionMember c id r now => after (CreateSubscriptionMember c id r now)
  | OpRevokeMember c id now => after (RevokeMember c id now)
  | OpChangeMemberCapabilities c r now => after (ChangeMemberCapabilities c r now)
  | OpCreateSubscription c r => after (CreateSubscription c r)
  | OpGetSubscription c id => after (GetSubscription c id)
  | OpChangeSubscriptionStatus c id r => after (ChangeSubscriptionStatus c id r)
  | OpRequestRebootstrap c r now => after (RequestSubscriptionRebootstrap c r now)
  | OpRenewRebootstrap c r now => after (RenewSubscriptionRebootstrap c r now)
  | OpCancelRebootstrap c r now => after (CancelSubscriptionRebootstrap c r now)
  | OpCompleteRebootstrap c r now => after (CompleteSubscriptionRebootstrap c r now)
  | OpPublish c e now => after (Publish c e now)
  | OpFetch c n limit now => after (Fetch c n limit now)
  | OpGetMessage c id now => after (GetMessage c id now)
  | OpAcknowledge c id stage now => after (Acknowledge c id stage now)
  | OpPrepareBlobPublish c id n now => after (PrepareBlobPublish c id n now)
  | OpCommitBlobPublish c id n now => after (CommitBlobPublish c id n now)
  | OpGetBlobMetadata c id now => after (GetBlobMetadata c id now)
  | OpAuthorizeBlobUpload c now => after (AuthorizeBlobUpload c now)
  | OpCreateBlobUpload c r now => after (CreateBlobUpload c r now)
  | OpGetBlobUpload c id now => after (GetBlobUpload c id now)
  | OpAppendBlobUploadChunk c r now f => after (AppendBlobUploadChunk c r now f)
  | OpFinalizeBlobUpload c r now f => after (FinalizeBlobUpload c r now f)
  | OpCreateCheckpointFence c r now => after (CreateCheckpointFence c r now)
  | OpGetCheckpointFence c id now => after (GetCheckpointFence c id now)
  | OpAbortCheckpointFence c r now => after (AbortCheckpointFence c r now)
  | OpStageCheckpoint c r now => after (StageCheckpoint c r now)
  | OpActivateCheckpoint c r now => after (ActivateCheckpoint c r now)
  | OpDryRunCheckpointCollection c r => after (DryRunCheckpointCollection c r)
  | OpCollectCheckpoint c r => after (CollectCheckpoint c r)
  end.

(** [reachable ttl n s]: [n] calls lead from a new store to [s]. *)
Inductive reachable (ttl : list int64) : N → MemoryStore → Prop :=
  | reachable_new : reachable ttl 0 (NewMemoryStore ttl)
  | reachable_step n s op : reachable ttl n s → reachable ttl (n + 1) (perform op s).

Definition perform_all (ops : list Op) (s : MemoryStore) : MemoryStore :=
  foldl (fun s op => perform op s) s ops.

Lemma reachable_perform_all ttl n s ops :
  reachable ttl n s → reachable ttl (n + N.of_nat (length ops)) (perform_all ops s).
Proof.
  revert n s. induction ops as [|op ops IH]; intros n s Hs; simpl.
  - by rewrite N.add_0_r.
  - replace (n + N.of_nat (S (length ops)))%N with (n + 1 + N.of_nat (length ops))%N by lia.
    by apply IH, reachable_step.
Qed.

(** The outcome of a call. *)
Definition outcome {A} (m : StoreM A) (s : MemoryStore) : GoError + A := (m s).2.
End machine.

Section calls.
Context `{UuidLib}.

(** The operations of the relay's machine other than the claim that replaces
    an inactive membership. *)
Definition plain (op : RelayMachine.Op) : Prop :=
  match op with OpClaimReplacing _ _ _ _ => False | _ => True end.

(** The calls of a service are operations, [ok] ones, of the relay's
    machine. *)
Class CallOf {A} (ok : RelayMachine.Op → Prop) (call : StoreM A) := call_of :
  ∃ op : RelayMachine.Op, ok op ∧ ∀ r, (call r).1 = RelayMachine.perform op r.

#[global] Instance call_if {A} ok P `{Decision P} (a b : StoreM A) :
  CallOf ok a → CallOf ok b → CallOf ok (if decide P then a else b).
Proof. by case_decide. Qed.

End calls.

(** [call_op op] shows that a call is [op]. *)
Ltac call_op op :=
  exists op; split;
  [first [exact Logic.I | match goal with Hok : ∀ op, plain op → _ |- _ => by apply Hok end]|done].

#[global] Hint Extern 1 (CallOf _ (GetTenantStatus ?c)) =>
  call_op (OpGetTenantStatus c) : typeclass_instances.
#[global] Hint Extern 1 (CallOf _ (GetDomainStatus ?c)) =>
  call_op (OpGetDomainStatus c) : typeclass_instances.
#[global] Hint Extern 1 (CallOf _ (ProvisionTenant ?t ?p)) =>
  call_op (OpProvisionTenant t p) : typeclass_instances.
#[global] Hint Extern 1 (CallOf _ (ProvisionDomain ?c ?p ?now)) =>
  call_op (OpProvisionDomain c p now) : typeclass_instances.
#[global] Hint Extern 1 (CallOf _ (CreateSubscription ?c ?r)) =>
  call_op (OpCreateSubscription c r) : typeclass_instances.
#[global] Hint Extern 1 (CallOf _ (GetSubscription ?c ?id)) =>
  call_op (OpGetSubscription c id) : typeclass_instances.
#[global] Hint Extern 1 (CallOf _ (ChangeSubscriptionStatus ?c ?id ?r)) =>
  call_op (OpChangeSubscriptionStatus c id r) : typeclass_instances.
#[global] Hint Extern 1 (CallOf _ (CreateSubscriptionAdmission ?c ?id ?r ?now)) =>
  call_op (OpCreateSubscriptionAdmission c id r now) : typeclass_instances.
#[global] Hint Extern 1 (CallOf _ (ClaimSubscriptionAdmission ?c ?r ?now)) =>
  call_op (OpClaimSubscriptionAdmission c r now) : typeclass_instances.
#[global] Hint Extern 1 (CallOf _ (ClaimSubscriptionAdmissionReplacingInactiveMembership ?c ?r ?p ?now)) =>
  call_op (OpClaimReplacing c r p now) : typeclass_instances.
#[global] Hint Extern 1 (CallOf _ (RevokeTenantMemberships ?c ?r)) =>
  call_op (OpRevokeTenantMemberships c r) : typeclass_instances.
#[global] Hint Extern 1 (CallOf _ (GetMemberAuthority ?t ?d ?m)) =>
  call_op (OpGetMemberAuthority t d m) : typeclass_instances.
#[global] Hint Extern 1 (CallOf _ (Fetch ?c ?n ?limit ?now)) =>
  call_op (OpFetch c n limit now) : typeclass_instances.
#[global] Hint Extern 1 (CallOf _ (Publish ?c ?e ?now)) =>
  call_op (OpPublish c e now) : typeclass_instances.
#[global] Hint Extern 1 (CallOf _ (RevokeAdmission ?c ?id ?now)) =>
  call_op (OpRevokeAdmission c id now) : typeclass_instances.
#[global] Hint Extern 1 (CallOf _ (RevokeMember ?c ?id ?now)) =>
  call_op (OpRevokeMember c id now) : typeclass_instances.
#[global] Hint Extern 1 (CallOf _ (ChangeMemberCapabilities ?c ?r ?now)) =>
  call_op (OpChangeMemberCapabilities c r now) : typeclass_instances.
#[global] Hint Extern 1 (CallOf _ (StageCheckpoint ?c ?r ?now)) =>
  call_op (OpStageCheckpoint c r now) : typeclass_instances.
#[global] Hint Extern 1 (CallOf _ (ActivateCheckpoint ?c ?r ?now)) =>
  call_op (OpActivateCheckpoint c r now) : typeclass_instances.
