(* ===== verification/RelayExample.v ===== *)
(** * A concrete relay

    A concrete rendering of UUIDs and a small populated store, obtained by
    calling the operations: the inputs at which the theorems are exercised. *)

From S2P Require Import Prelude GoEncoding Sha256 RelayModel RelayState RelayFence RelayTenant RelayMember RelaySubscription RelayDelivery RelayBlob RelayCheckpoint RelayMachine.
#[local] Open Scope Z_scope.

#[global] Existing Instance rfc4122.

(** ** Credentials *)

Definition digest_of (r : GoError + string) : string :=
  match r with inl _ => "" | inr d => d end.

Definition tenantID : UUID := 1%N.
Definition domainID : UUID := 2%N.

Definition tenant_credential := mkTenantCredential tenantID (token 1).
Definition admin_credential := mkAdministrationCredential tenantID domainID (token 2).

(** Members 11 and 12 serve subscriptions 21 and 22. *)
Definition alice := mkCredential tenantID domainID 11%N (token 11).
Definition bob := mkCredential tenantID domainID 12%N (token 12).

Definition all_capabilities : list Capability :=
  ["blob_fetch"; "blob_publish"; "checkpoint_publish"; "message_acknowledge"; "message_fetch";
   "message_publish"].

(** ** Provisioning *)

Definition example_tenant : TenantRegistration :=
  mkTenantRegistration SchemaVersion 31%N tenantID
    (digest_of (TenantAuthorizationDigest tenant_credential)) 0 4 100 100000 10 100000.

Definition example_domain : DomainRegistration :=
  mkDomainRegistration SchemaVersion tenantID domainID
    (digest_of (AdministrationDigest admin_credential)) 0 5 1000 2 1000.

Definition example_member (c : Credential) : MemberRegistration :=
  mkMemberRegistration SchemaVersion tenantID domainID (cred_MemberID c)
    (digest_of (AuthorizationDigest c)) all_capabilities 0 None None.

Definition example_subscription (id : UUID) : Subscription :=
  mkSubscription SchemaVersion tenantID domainID id SubscriptionActive None 0 0.

Definition example_provisioning : DomainProvisioning :=
  mkDomainProvisioning SchemaVersion 32%N example_domain (example_subscription 21%N)
    (example_member alice) "" "".

Definition setup : list Op :=
  [ OpProvisionTenant example_tenant example_provisioning;
    OpCreateSubscription admin_credential (mkSubscriptionCreateRequest 33%N 22%N 0);
    OpCreateSubscriptionMember admin_credential 22%N (example_member bob) 0 ].

Definition new_store : MemoryStore := NewMemoryStore [].

(** The provisioned store. *)
Definition store0 : MemoryStore := perform_all setup new_store.

Definition domain_of (s : MemoryStore) : memoryDomain :=
  default (new_domain example_provisioning) (st_domains s !! (tenantID, domainID)).

(** ** Messages *)

Definition example_envelope (c : Credential) (id : UUID) : Envelope :=
  mkEnvelope SchemaVersion EnvelopeAlgorithm tenantID domainID id (cred_MemberID c) 1 0
    (b64_EncodeToString (be_bytes 12 7)) (b64_EncodeToString (be_bytes 5 9))
    (b64_EncodeToString (be_bytes 16 8)).

Definition succeeded {A} (r : GoError + A) : bool := match r with inl _ => false | inr _ => true end.

Example store0_provisioned : zsize (dom_members (domain_of store0)) = 2.
Proof. vm_compute. reflexivity. Qed.

Example store0_publishes :
  outcome (Publish alice (example_envelope alice 101%N) 1000) store0 =
  inr (mkPublishResult AcceptanceAccepted 1).
Proof. vm_compute. reflexivity. Qed.

(** ** Further states *)

Definition domain0 : memoryDomain := domain_of store0.

(** After some more calls. *)
Definition domain_after (ops : list Op) : memoryDomain := domain_of (perform_all ops store0).

Definition publish_one : Op := OpPublish alice (example_envelope alice 101%N) 1000.

Definition example_fence_request : CheckpointFenceRequest :=
  mkCheckpointFenceRequest 41%N 42%N 1000.

Definition fence_one : Op := OpCreateCheckpointFence alice example_fence_request 1000.

(** The fence that [fence_one] creates after [publish_one]. *)
Definition example_fence : memoryCheckpointFence :=
  mkMemoryCheckpointFence example_fence_request
    (mkCheckpointFenceState 42%N CheckpointFenceActive (EncodeCursor 1) 1000
       (1000 + DefaultCheckpointFenceLifetimeMilliseconds)) 21%N.

Example fence_one_created :
  dom_checkpointFences (domain_after [publish_one; fence_one]) !! 42%N = Some example_fence.
Proof. vm_compute. reflexivity. Qed.

(** ** A checkpoint *)

Definition example_candidate (retryID id fenceID : UUID) (cursor : string) (blobs : list string)
    (at_ : int64) : CheckpointCandidate :=
  mkCheckpointCandidate SchemaVersion retryID id fenceID tenantID domainID 21%N 1 cursor [] blobs
    at_.

(** One acknowledged message under a staged checkpoint. *)
Definition stage_one : list Op :=
  [ publish_one;
    OpAcknowledge bob 101%N AcknowledgmentAccepted 1000;
    fence_one;
    OpStageCheckpoint alice (example_candidate 43%N 44%N 42%N (EncodeCursor 1) [] 1001) 1001 ].

Definition example_activation : CheckpointActivationRequest :=
  mkCheckpointActivationRequest 45%N 44%N 1002.

Definition activated_domain : memoryDomain :=
  domain_after (stage_one ++ [OpActivateCheckpoint admin_credential example_activation 1002]).

(** The collection plan of a domain's checkpoint. *)
Definition plan_digest (d : memoryDomain) (id : UUID) : string :=
  match memoryCheckpointPlan d id with inr plan => cdr_PlanDigest plan | inl _ => "" end.

Definition example_collection : CheckpointCollectionRequest :=
  mkCheckpointCollectionRequest 46%N 44%N (plan_digest activated_domain 44%N) 10 10 1003.

Example collection_deletes_one :
  (λ r, (ccr_DeletedMessageCount r, ccr_Completed r)) <$>
    (match (collectCheckpoint example_collection activated_domain).2 with
     | inr r => Some r | inl _ => None end) = Some (1, true).
Proof. vm_compute. reflexivity. Qed.

Definition example_checkpoint : memoryCheckpoint :=
  default (mkMemoryCheckpoint (example_candidate 43%N 44%N 42%N (EncodeCursor 1) [] 1001) "" 11%N 1
             staged 0 CheckpointActivationRequest_zero 0 ∅ ∅ ∅)
    (dom_checkpoints activated_domain !! 44%N).

(** ** A recovery *)

(** The holder publishes a root message inside its fence, and the checkpoint
    that retains it becomes authority. *)
Definition rooted : list Op :=
  [ publish_one; fence_one;
    OpPublish alice (example_envelope alice 102%N) 1000;
    OpStageCheckpoint alice
      (mkCheckpointCandidate SchemaVersion 43%N 44%N 42%N tenantID domainID 21%N 1 (EncodeCursor 1)
         [102%N] [] 1001) 1001;
    OpActivateCheckpoint admin_credential example_activation 1002 ].

Definition example_recovery : SubscriptionRebootstrapRequest :=
  mkSubscriptionRebootstrapRequest 61%N 44%N 102%N 2000 300000.

Definition recovering : list Op := rooted ++ [OpRequestRebootstrap bob example_recovery 2000].

Definition example_renewal : SubscriptionRebootstrapRenewal :=
  mkSubscriptionRebootstrapRenewal 62%N 61%N 44%N 102%N 302000 3000 600000.

(** The tail is applied before the recovery is completed. *)
Definition caught_up : list Op :=
  recovering ++ [ OpAcknowledge bob 102%N AcknowledgmentAccepted 2400;
                  OpAcknowledge bob 102%N AcknowledgmentApplied 2500 ].

Definition example_completion : SubscriptionRebootstrapCompletion :=
  mkSubscriptionRebootstrapCompletion 63%N 61%N 44%N 102%N (EncodeCursor 2) 4000.

Example recovery_requested :
  sub_Status <$> dom_subscriptions (domain_after recovering) !! 22%N =
  Some SubscriptionRebootstrapRequired.
Proof. vm_compute. reflexivity. Qed.
