(* ===== verification/RelayInvariant.v ===== *)
(** * internal/relay: validation, and what holds of a domain between calls

    First the properties of the stateless part of the package: validation,
    cursors and digests, the definitions of [RelayModel].  Then the
    well-formedness of a [memoryDomain], as facts about the components that
    carry them, and the generic lemmas with which each operation is shown to
    keep them. *)

From S2P Require Import Prelude GoEncoding Sha256 RelayModel RelayState RelayFence RelayTenant RelayMember RelaySubscription RelayDelivery RelayBlob RelayCheckpoint RelayMachine RelayExample.
#[local] Open Scope Z_scope.

(** ** Cursors *)

Lemma decode_encode_cursor n :
  0 ≤ n ≤ MaximumSequence → DecodeCursor (EncodeCursor n) = inr n.
Proof.
  unfold MaximumSequence. intros Hn. unfold DecodeCursor, EncodeCursor, BigEndian_PutUint64.
  rewrite decide_False by apply b64_encode_nonempty.
  rewrite b64_decode_encode. unfold zlen. rewrite be_bytes_length.
  rewrite decide_False by naive_solver. unfold BigEndian_Uint. rewrite be_value_bytes.
  rewrite Z.mod_small by lia. rewrite decide_False by (unfold MaximumSequence; lia). done.
Qed.

Lemma decode_cursor_range c n : DecodeCursor c = inr n → 0 ≤ n ≤ MaximumSequence.
Proof.
  unfold DecodeCursor. case_decide; [intros; simplify_eq; unfold MaximumSequence; lia|].
  destruct (b64_DecodeString c) as [l|]; [|done]. case_decide; [done|]. case_decide; [done|].
  intros. simplify_eq. pose proof (be_value_range l). unfold BigEndian_Uint in *. lia.
Qed.

Lemma decode_cursor_canonical c n :
  DecodeCursor c = inr n → c = "" ∧ n = 0 ∨ c = EncodeCursor n.
Proof.
  unfold DecodeCursor. case_decide; [intros; simplify_eq; by left|].
  destruct (b64_DecodeString c) as [l|]; [|done]. case_decide as Hl; [done|].
  case_decide; [done|]. intros. simplify_eq. right.
  destruct (decide (zlen l = 8)) as [H8|]; [|naive_solver].
  destruct (decide (b64_EncodeToString l = c)) as [Hc|]; [|naive_solver].
  unfold EncodeCursor, BigEndian_PutUint64, BigEndian_Uint. rewrite <- Hc. f_equal.
  assert (length l = 8%nat) as <- by (unfold zlen in H8; lia). symmetry. apply be_bytes_value.
Qed.

(** [validBase64URLSize] holds of nothing but encodings. *)
Lemma b64_canonical_unique v (P : bytes → Prop) :
  some_and (b64_DecodeString v) (fun l => P l ∧ b64_EncodeToString l = v) ↔
  ∃ l, v = b64_EncodeToString l ∧ P l.
Proof.
  rewrite some_and_Some. split.
  - intros (l & _ & HP & Hv). eauto.
  - intros (l & -> & HP). exists l. rewrite b64_decode_encode. eauto.
Qed.

(** ** Capabilities *)

Lemma capability_sorted_from p l :
  valid_from p l ↔
  Forall Capability_Valid l ∧
  StronglySorted str_lt (match p with Some q => q :: l | None => l end).
Proof.
  revert p. induction l as [|c l IH]; intros p.
  { destruct p; simpl; split; try done; repeat constructor. }
  cbn [valid_from]. rewrite IH, Forall_cons. split.
  - intros (Hc & Hl & Hs).
    split; [split; [destruct (decide (Capability_Valid c)); tauto|done]|]. destruct p as [q|]; [|done].
    assert (str_lt q c) as Hqc by (rewrite str_lt_not_le; simpl in Hc; tauto).
    constructor; [done|]. constructor; [done|].
    apply StronglySorted_inv in Hs as [_ Hc']. eapply Forall_impl; [exact Hc'|].
    intros x ?. by transitivity c.
  - intros ((Hc & Hl) & Hs). split; [|split; [done|]].
    + intros [?|Hle]; [tauto|]. destruct p as [q|]; [|done].
      apply StronglySorted_inv in Hs as [_ [Hlt _]%Forall_cons].
      rewrite str_lt_not_le in Hlt. done.
    + destruct p; [|done]. by apply StronglySorted_inv in Hs as [? _].
Qed.

Lemma sorted_nth l i j :
  StronglySorted str_lt l → (i < j < length l)%nat → str_lt (nth i l "") (nth j l "").
Proof.
  intros Hs. revert i j. induction Hs as [|x l Hs IH Hx]; intros i j Hij; simpl in *; [lia|].
  destruct j as [|j]; [lia|]. destruct i as [|i].
  - rewrite Forall_forall in Hx. apply Hx. apply list_elem_of_In, nth_In. lia.
  - apply IH. lia.
Qed.

Lemma capability_index_correct l c :
  StronglySorted str_lt l →
  let i := capability_index l c in
  ¬ (i = zlen l ∨ nth (Z.to_nat i) l "" ≠ c) ↔ c ∈ l.
Proof.
  intros Hs. unfold capability_index, sort_Search.
  set (f := fun index => bool_decide (str_le c (nth (Z.to_nat index) l ""))).
  destruct (search_loop_spec (Z.to_nat (zlen l)) f 0 (zlen l)) as (Hr & Hlow & Hup);
    [unfold zlen; lia|unfold zlen; lia| |].
  { intros h k Hhk Hk. unfold f. rewrite !bool_decide_eq_true. intros Hc.
    destruct (decide (h = k)) as [->|]; [done|]. transitivity (nth (Z.to_nat h) l ""); [done|].
    destruct (total str_le (nth (Z.to_nat h) l "") (nth (Z.to_nat k) l "")) as [|Hge]; [done|].
    exfalso. revert Hge. apply str_lt_not_le, sorted_nth; [done|]. unfold zlen in *. lia. }
  set (r := search_loop _ _ _ _) in *. unfold zlen in *. split.
  - intros Hn. assert (r < Z.of_nat (length l)) by lia.
    destruct (decide (nth (Z.to_nat r) l "" = c)) as [Hc|]; [|tauto].
    rewrite <- Hc. apply list_elem_of_In, nth_In. lia.
  - intros Hin. apply list_elem_of_In, (In_nth _ _ "") in Hin as (k & Hk & Hkc).
    assert (f (Z.of_nat k) = true) as Hfk.
    { unfold f. rewrite bool_decide_eq_true, Nat2Z.id, Hkc. reflexivity. }
    assert (r ≤ Z.of_nat k).
    { destruct (decide (r ≤ Z.of_nat k)); [done|]. rewrite Hlow in Hfk; [done|lia]. }
    assert (f r = true) as Hfr by (apply Hup; lia).
    unfold f in Hfr. rewrite bool_decide_eq_true in Hfr.
    intros [?|Hne]; [lia|]. apply Hne. apply (anti_symm str_le); [|done].
    rewrite <- Hkc. destruct (decide (Z.to_nat r = k)) as [->|]; [reflexivity|].
    destruct (total str_le (nth (Z.to_nat r) l "") (nth k l "")) as [|Hge]; [done|].
    exfalso. revert Hge. apply str_lt_not_le, sorted_nth; [done|]. lia.
Qed.

(** ** Digests *)

Lemma lower_hex_digit n : 0 ≤ n < 16 → lower_byte (hex_digit n) = hex_digit n.
Proof. apply (small_brute 16 (fun n => lower_byte (hex_digit n) = hex_digit n)). by vm_compute. Qed.

Lemma lower_hex_encode l : strings_ToLower (hex_EncodeToString l) = hex_EncodeToString l.
Proof.
  unfold strings_ToLower, hex_EncodeToString. rewrite str_of_str. f_equal.
  induction l as [|c l IH]; [done|]. pose proof (byte_val_range c). cbn [hex_encode].
  rewrite !fmap_cons, IH, !lower_hex_digit; dlia || done.
Qed.

Lemma valid_digest_canonical s :
  validDigest s ↔ ∃ l, zlen l = sha256_Size ∧ s = hex_EncodeToString l.
Proof.
  unfold validDigest. rewrite some_and_Some. split.
  - intros (Hs & l & Hdec & Hl). exists l. split; [done|]. symmetry.
    apply hex_encode_decode; [|done].
    destruct (decide (strings_ToLower s = s)); tauto.
  - intros (l & Hl & ->). rewrite hex_decode_encode, lower_hex_encode, hex_encode_length, Hl.
    split; [|eauto]. unfold sha256_Size. intros [?|?]; [lia|done].
Qed.

Lemma valid_scoped_digest d fields : validDigest (scopedDigest d fields).
Proof.
  apply valid_digest_canonical. eexists. split; [|reflexivity]. apply Sum256_length.
Qed.

Lemma constant_time_equal_iff a b :
  validDigest a → validDigest b → constantTimeDigestEqual a b ↔ a = b.
Proof.
  rewrite !valid_digest_canonical. intros (l & Hl & ->) (r & Hr & ->).
  unfold constantTimeDigestEqual. rewrite !hex_decode_encode. simpl.
  split; [by intros ->|apply (inj hex_EncodeToString)].
Qed.

Lemma authorization_digest_valid `{UuidLib} c d :
  AuthorizationDigest c = inr d → validDigest d.
Proof.
  unfold AuthorizationDigest. case_decide; [done|]. destruct (validateToken _); [done|].
  intros. simplify_eq. apply valid_scoped_digest.
Qed.

Lemma digest_rejected_iff (actual : GoError + string) expected :
  (∀ d, actual = inr d → validDigest d) → validDigest expected →
  ¬ digest_rejected actual expected ↔ actual = inr expected.
Proof.
  intros Hd He. destruct actual as [err|d]; simpl; [naive_solver|].
  specialize (Hd d eq_refl). pose proof (constant_time_equal_iff d expected Hd He) as Heq.
  destruct (decide (constantTimeDigestEqual d expected)); naive_solver.
Qed.

(** ** Registrations *)

Lemma member_validate_fields r :
  MemberRegistration_Validate r = None →
  validDigest (mr_AuthorizationDigest r) ∧ valid_from None (mr_Capabilities r).
Proof.
  unfold MemberRegistration_Validate. rewrite !err_then_None, !err_when_None.
  intros (H1 & H2 & _). split.
  - destruct (decide (validDigest (mr_AuthorizationDigest r))); tauto.
  - destruct (decide (valid_from None (mr_Capabilities r))); tauto.
Qed.

(** ** Properties *)

(** A member credential is authorized for a capability exactly when the
    registration is valid, the credential names its tenant, domain and member,
    the member is active at that time (created, not expired, not revoked), the
    scoped SHA-256 digest of the token is the registered one, and the
    capability is in the member's list: the binary search and the
    constant-time comparison of hex strings decide exactly that. *)
Theorem authorize_iff `{UuidLib} r credential capability now :
  MemberRegistration_Authorize r credential capability now = None ↔
  MemberRegistration_Validate r = None ∧
  (cred_TenantID credential = mr_TenantID r ∧ cred_DomainID credential = mr_DomainID r ∧
   cred_MemberID credential = mr_MemberID r) ∧
  memberActiveAt r now ∧
  AuthorizationDigest credential = inr (mr_AuthorizationDigest r) ∧
  capability ∈ mr_Capabilities r.
Proof.
  unfold MemberRegistration_Authorize, MemberRegistration_VerifyCredential.
  rewrite !err_then_None, !err_when_None, !some_and_Some.
  unfold memberActiveAt. rewrite !none_or_spec.
  split.
  - intros ((Hv & Hscope & Ht & Hrev & Hd) & Hi).
    destruct (member_validate_fields r Hv) as [Hdig Hcaps].
    apply capability_sorted_from in Hcaps as [_ Hsorted].
    rewrite capability_index_correct in Hi by done.
    rewrite digest_rejected_iff in Hd by eauto using authorization_digest_valid.
    split_and!; try done.
    all: try (match goal with |- ?a = ?b => destruct (decide (a = b)); tauto end).
    + lia.
    + intros e He. destruct (decide (now < e)); [done|]. exfalso. apply Ht. right. exists e. split; [done|lia].
    + intros e He. destruct (decide (now < e)); [done|]. exfalso. apply Hrev. exists e. split; [done|lia].
  - intros (Hv & (H1 & H2 & H3) & (Hc & He & Hr) & Hd & Hin).
    destruct (member_validate_fields r Hv) as [Hdig Hcaps].
    apply capability_sorted_from in Hcaps as [_ Hsorted].
    rewrite capability_index_correct by done.
    rewrite digest_rejected_iff by eauto using authorization_digest_valid.
    split_and!; try done; [tauto| |].
    + intros [?|(e & Heq & ?)]; [lia|]. specialize (He e Heq). lia.
    + intros (e & Heq & ?). specialize (Hr e Heq). lia.
Qed.

(** A capability list is accepted exactly when every element is one of the
    six known capabilities and the list is strictly increasing in byte order
    (so it has no duplicates and has one spelling). *)
Theorem capabilities_canonical l :
  validCapabilities l ↔ Forall Capability_Valid l ∧ StronglySorted str_lt l.
Proof. apply capability_sorted_from. Qed.

(** Cursors round-trip and have one spelling: encoding then decoding gives
    the sequence back for every sequence in range, and a cursor that decodes is
    either the empty string (sequence 0) or the encoding of its sequence, which
    is in range. *)
Theorem cursor_codec :
  (∀ n, 0 ≤ n ≤ MaximumSequence → DecodeCursor (EncodeCursor n) = inr n) ∧
  (∀ c n, DecodeCursor c = inr n →
     (c = "" ∧ n = 0 ∨ c = EncodeCursor n) ∧ 0 ≤ n ≤ MaximumSequence).
Proof.
  split; [apply decode_encode_cursor|]. intros c n Hc.
  split; [by apply decode_cursor_canonical|by apply (decode_cursor_range c)].
Qed.

(** Blob identifiers are content addresses with one spelling: a string is
    a valid identifier exactly when it is the base64url encoding of 32 bytes,
    and the identifier computed from any content is valid. *)
Theorem blob_id_canonical :
  (∀ v, ValidateBlobID v = None ↔
     ∃ digest, v = b64_EncodeToString digest ∧ zlen digest = sha256_Size) ∧
  (∀ content, ValidateBlobID (BlobID content) = None).
Proof.
  assert (∀ v, ValidateBlobID v = None ↔
     ∃ digest, v = b64_EncodeToString digest ∧ zlen digest = sha256_Size) as Hv.
  { intros v. rewrite <- (b64_canonical_unique v (fun l => zlen l = sha256_Size)).
    unfold ValidateBlobID. rewrite err_when_None.
    set (P := some_and _ _). assert (Decision P) as [|] by (subst P; apply _); tauto. }
  split; [done|]. intros content. apply Hv. exists (Sum256 content).
  split; [done|apply Sum256_length].
Qed.

(** A recovery lease that is granted never overflows: it expires exactly
    the requested duration after [now], which lies between five minutes and a
    day. *)
Theorem rebootstrap_lease_bounds r now e :
  SubscriptionRebootstrapRequest_LeaseExpiresAt r now = inr e →
  e = now + srr_LeaseDurationMilliseconds r ∧ 0 ≤ now < e ∧ e ≤ MaxInt64 ∧
  MinimumSubscriptionRebootstrapLeaseMilliseconds ≤ e - now ≤
    MaximumSubscriptionRebootstrapLeaseMilliseconds.
Proof.
  unfold SubscriptionRebootstrapRequest_LeaseExpiresAt.
  destruct (SubscriptionRebootstrapRequest_Validate r) eqn:Hv; [done|].
  case_decide; [done|]. intros [= <-].
  unfold SubscriptionRebootstrapRequest_Validate in Hv. rewrite err_when_None in Hv.
  unfold MaxInt64, MinimumSubscriptionRebootstrapLeaseMilliseconds,
    MaximumSubscriptionRebootstrapLeaseMilliseconds in *.
  rewrite i64_small by lia. lia.
Qed.

Lemma rebootstrap_lease_bounds_witness :
  let r := mkSubscriptionRebootstrapRequest 1%N 2%N 3%N 0 600000 in
  SubscriptionRebootstrapRequest_LeaseExpiresAt r 1000 = inr 601000 ∧
  601000 = 1000 + srr_LeaseDurationMilliseconds r.
Proof.
  split; [vm_compute; reflexivity|].
  apply (rebootstrap_lease_bounds (mkSubscriptionRebootstrapRequest 1%N 2%N 3%N 0 600000)
           1000 601000).
  vm_compute. reflexivity.
Defined.

Lemma shared_capacity_valid p :
  DomainProvisioning_Validate p = None →
  DomainProvisioning_Validate (p <| dp_Registration :=
    DomainRegistration_WithSharedCapacity (dp_Registration p) |>) = None.
Proof.
  unfold DomainProvisioning_Validate, DomainRegistration_Validate.
  rewrite !err_then_None, !err_when_None. intros (H1 & (H2 & H3) & H4 & H5 & H6).
  split_and!; try done. intros [Hn _]. by apply Hn.
Qed.

(** The capacity policy leaves a valid provisioning valid, forces shared
    limits under a tenant that shares its capacity, and lets only explicit
    limits through under a bounded tenant. *)
Theorem capacity_policy_sound tenant p p' :
  DomainProvisioning_Validate p = None →
  TenantRegistration_ApplyCapacityPolicy tenant p = inr p' →
  DomainProvisioning_Validate p' = None ∧
  (TenantRegistration_UsesSharedCapacity tenant ↔
   DomainRegistration_UsesSharedCapacity (dp_Registration p')).
Proof.
  intros Hv. unfold TenantRegistration_ApplyCapacityPolicy. case_decide as Ht.
  - intros [= <-]. split; [by apply shared_capacity_valid|done].
  - case_decide as Hd; [done|]. intros [= <-]. split; [done|tauto].
Qed.

Lemma capacity_policy_sound_witness :
  DomainProvisioning_Validate example_provisioning = None ∧
  ¬ DomainRegistration_UsesSharedCapacity (dp_Registration example_provisioning).
Proof.
  split; [vm_compute; reflexivity|].
  assert (¬ TenantRegistration_UsesSharedCapacity example_tenant) as Hn by by vm_compute.
  intros Hd. apply Hn.
  apply (capacity_policy_sound example_tenant example_provisioning example_provisioning);
    [vm_compute; reflexivity|vm_compute; reflexivity|exact Hd].
Defined.

(** ** Facts about components

    Acknowledgments are the only mutable part of a message object; [shapes] is
    the heap without them, so that recording one changes no fact below. *)

Definition shape (m : memoryMessage) : memoryMessage := m <| mm_acknowledgments := ∅ |>.

Definition shapes (d : memoryDomain) : gmap messageRef memoryMessage := shape <$> dom_heap d.

Definition objects (heap : gmap messageRef memoryMessage) (refs : list messageRef)
    : list memoryMessage :=
  omap (fun r => heap !! r) refs.

(** The messages of a domain: the address of a message is its sequence minus
    one, the slice is in strictly increasing order, the index has exactly the
    slice's messages, the byte counter is their sum. *)
Record MessageFacts (bound : N) (heap : gmap messageRef memoryMessage) (nextRef : messageRef)
    (messages : list messageRef) (index : gmap UUID messageRef) (total : int64)
    (nextSequence : uint64) : Prop := {
  mf_bound : (nextRef ≤ bound)%N;
  mf_sequence : nextSequence = Z.of_N nextRef;
  mf_heap r m : heap !! r = Some m →
    (r < nextRef)%N ∧ mm_Sequence m = Z.of_N r + 1 ∧ 0 ≤ mm_byteCount m;
  mf_refs r : r ∈ messages → is_Some (heap !! r);
  mf_sorted : StronglySorted N.lt messages;
  mf_index id r : index !! id = Some r ↔
    r ∈ messages ∧ ∃ m, heap !! r = Some m ∧ mm_MessageID m = id;
  mf_bytes : total = i64 (list_sum mm_byteCount (objects heap messages)) }.

(** Published blobs sit under their identifier and the byte counter is their sum. *)
Record BlobFacts (blobs : gmap string BlobMetadata) (total : int64) : Prop := {
  bf_entry id b : blobs !! id = Some b → bm_BlobID b = id ∧ 0 ≤ bm_ByteCount b;
  bf_bytes : total = i64 (map_sum bm_ByteCount blobs) }.

Definition live (f : memoryCheckpointFence) : Prop :=
  mcf_Status f = CheckpointFenceActive ∨ mcf_Status f = CheckpointFenceActivated.

Definition active_fence (fences : gmap UUID memoryCheckpointFence) (id : UUID) : Prop :=
  ∃ f, fences !! id = Some f ∧ mcf_Status f = CheckpointFenceActive.

(** Fences: at most one is active; whatever is tagged with a fence belongs to
    one that is still active or was activated; past the boundary of the active
    fence there are only its holder's messages, all of them tagged. *)
Record FenceFacts (heap : gmap messageRef memoryMessage) (messages : list messageRef)
    (blobFences : gmap string UUID) (fences : gmap UUID memoryCheckpointFence)
    (nextSequence : uint64) : Prop := {
  ff_key id f : fences !! id = Some f → cfs_FenceID (mcf_state f) = id;
  ff_one id1 id2 : active_fence fences id1 → active_fence fences id2 → id1 = id2;
  ff_boundary id f : fences !! id = Some f →
    ∃ b, DecodeCursor (cfs_BoundaryCursor (mcf_state f)) = inr b ∧ 0 ≤ b ≤ nextSequence;
  ff_tag r m id : r ∈ messages → heap !! r = Some m → mm_checkpointFenceID m = Some id →
    ∃ f, fences !! id = Some f ∧ live f;
  ff_quarantine id f b r m : fences !! id = Some f → mcf_Status f = CheckpointFenceActive →
    DecodeCursor (cfs_BoundaryCursor (mcf_state f)) = inr b → r ∈ messages → heap !! r = Some m →
    (mm_Sequence m > b ↔ mm_checkpointFenceID m = Some id) ∧
    (mm_Sequence m > b → mm_publisherSubscription m = mcf_holderSubscriptionID f);
  ff_blob_tag blob id : blobFences !! blob = Some id → ∃ f, fences !! id = Some f ∧ live f }.

(** The last two activated checkpoints are activated, the earlier ones retired;
    no other checkpoint is either. *)
Definition last_two (ids : list UUID) : list UUID := drop (length ids - 2) ids.

Record CheckpointFacts (heap : gmap messageRef memoryMessage) (index : gmap UUID messageRef)
    (blobs : gmap string BlobMetadata) (blobFences : gmap string UUID)
    (fences : gmap UUID memoryCheckpointFence) (checkpoints : gmap UUID memoryCheckpoint)
    (activatedIDs : list UUID) (nextSequence : uint64) : Prop := {
  cf_nodup : NoDup activatedIDs;
  cf_listed id : id ∈ activatedIDs → is_Some (checkpoints !! id);
  cf_activated id c : checkpoints !! id = Some c →
    (mc_state c = activated ↔ id ∈ last_two activatedIDs);
  cf_retired id c : checkpoints !! id = Some c →
    (mc_state c = retired ↔ id ∈ activatedIDs ∧ id ∉ last_two activatedIDs);
  cf_covered id c : checkpoints !! id = Some c → 0 ≤ mc_coveredThrough c ≤ nextSequence;
  cf_start id c : checkpoints !! id = Some c → id ∈ activatedIDs →
    mc_startSequence c = mc_coveredThrough c;
  cf_messages id c mid r : last activatedIDs = Some id → checkpoints !! id = Some c →
    mc_deletionMessages c !! mid = Some r →
    index !! mid = Some r ∧ mid ∉ cc_RetainedMessageIDs (mc_candidate c) ∧
    ∀ m, heap !! r = Some m → mm_Sequence m ≤ mc_startSequence c ∧
      ∀ fid, mm_checkpointFenceID m = Some fid → ¬ active_fence fences fid;
  cf_blobs id c bid b : last activatedIDs = Some id → checkpoints !! id = Some c →
    mc_deletionBlobs c !! bid = Some b →
    blobs !! bid = Some b ∧ bid ∉ cc_RetainedBlobIDs (mc_candidate c) ∧
    ∀ fid, blobFences !! bid = Some fid → ¬ active_fence fences fid }.

(** The domain's own message quota, unless it shares its tenant's capacity. *)
Record QuotaFacts (registration : DomainRegistration) (heap : gmap messageRef memoryMessage)
    (messages : list messageRef) : Prop := {
  qf_valid : DomainRegistration_Validate registration = None;
  qf_messages : ¬ DomainRegistration_UsesSharedCapacity registration →
    zlen messages ≤ dr_MaximumMessageCount registration ∧
    list_sum mm_byteCount (objects heap messages) ≤ dr_MaximumMessageByteCount registration }.

(** Members and subscriptions sit under their identifiers; the retained
    members, admissions and rotations stay under the domain limits. *)
Record IdentityFacts (subscriptions : gmap UUID Subscription)
    (members : gmap UUID MemberRegistration) (admissions : gmap UUID MemberAdmission)
    (rotations : gmap UUID memoryCredentialRotation) : Prop := {
  if_subscriptions id s : subscriptions !! id = Some s → sub_SubscriptionID s = id;
  if_members id m : members !! id = Some m → mr_MemberID m = id;
  if_admissions id a : admissions !! id = Some a → ma_AdmissionID a = id;
  if_member_count : zsize members ≤ MaximumRetainedMemberCountPerDomain;
  if_admission_count : zsize admissions ≤ MaximumRetainedAdmissionCount;
  if_rotation_count : zsize rotations ≤ MaximumCredentialRotationsPerDomain }.

Definition Messages_ok (n : N) (d : memoryDomain) : Prop :=
  MessageFacts n (shapes d) (dom_nextRef d) (dom_messages d) (dom_messageByID d)
    (dom_messageBytes d) (dom_nextSequence d).
Definition Blobs_ok (d : memoryDomain) : Prop := BlobFacts (dom_blobs d) (dom_blobBytes d).
Definition Fences_ok (d : memoryDomain) : Prop :=
  FenceFacts (shapes d) (dom_messages d) (dom_blobFenceIDs d) (dom_checkpointFences d)
    (dom_nextSequence d).
Definition Checkpoints_ok (d : memoryDomain) : Prop :=
  CheckpointFacts (shapes d) (dom_messageByID d) (dom_blobs d) (dom_blobFenceIDs d)
    (dom_checkpointFences d) (dom_checkpoints d) (dom_activatedCheckpoints d)
    (dom_nextSequence d).
Definition Quota_ok (d : memoryDomain) : Prop :=
  QuotaFacts (dom_registration d) (shapes d) (dom_messages d).
Definition Identities_ok (d : memoryDomain) : Prop :=
  IdentityFacts (dom_subscriptions d) (dom_members d) (dom_admissions d) (dom_rotations d).

(** A well-formed domain that has published at most [n] messages. *)
Record WellFormed (n : N) (d : memoryDomain) : Prop := {
  wf_messages : Messages_ok n d;
  wf_blobs : Blobs_ok d;
  wf_fences : Fences_ok d;
  wf_checkpoints : Checkpoints_ok d;
  wf_quota : Quota_ok d;
  wf_identities : Identities_ok d }.

(** [wf_auto] splits the goal into the six groups and closes those whose
    components the operation did not touch. *)
Ltac wf_auto :=
  lazymatch goal with
  | H : WellFormed ?n ?d |- WellFormed ?n _ =>
    let Hm := fresh "Hm" in let Hb := fresh "Hb" in let Hf := fresh "Hf" in
    let Hc := fresh "Hc" in let Hq := fresh "Hq" in let Hi := fresh "Hi" in
    pose proof (wf_messages _ _ H) as Hm; pose proof (wf_blobs _ _ H) as Hb;
    pose proof (wf_fences _ _ H) as Hf; pose proof (wf_checkpoints _ _ H) as Hc;
    pose proof (wf_quota _ _ H) as Hq; pose proof (wf_identities _ _ H) as Hi;
    split; [try exact Hm|try exact Hb|try exact Hf|try exact Hc|try exact Hq|try exact Hi];
    clear Hm Hb Hf Hc Hq Hi
  end.

(** ** Small lemmas *)

Lemma objects_elem heap refs m :
  m ∈ objects heap refs ↔ ∃ r, r ∈ refs ∧ heap !! r = Some m.
Proof. apply list_elem_of_omap. Qed.

Lemma lookup_shapes d r m :
  shapes d !! r = Some m ↔ ∃ m', dom_heap d !! r = Some m' ∧ m = shape m'.
Proof. unfold shapes. rewrite lookup_fmap_Some. naive_solver. Qed.

Lemma shapes_put_message r m m' d :
  dom_heap d !! r = Some m → shape m' = shape m → shapes (put_message r m' d) = shapes d.
Proof.
  intros Hr Hs. unfold shapes, put_message. cbn. rewrite fmap_insert, Hs.
  apply insert_id. by rewrite lookup_fmap, Hr.
Qed.

(** Sums of the objects are the same with and without acknowledgments. *)
Lemma sum_shapes d refs :
  list_sum mm_byteCount (objects (shapes d) refs) = list_sum mm_byteCount (deref d refs).
Proof.
  unfold objects, deref, shapes. induction refs as [|r refs IH]; [done|].
  simpl. rewrite lookup_fmap. destruct (dom_heap d !! r); simpl; [by f_equal|done].
Qed.

Lemma wf_mono n n' d : (n ≤ n')%N → WellFormed n d → WellFormed n' d.
Proof.
  intros Hn [Hm ?]. split; try done. destruct Hm. split; try done. lia.
Qed.

Lemma wp_use {E S A} (I : S → Prop) (m : M E S A) `{!Preserves I m} Q s :
  I s → (∀ s' r, I s' → Q s' r) → wp m Q s.
Proof. intros Hs HQ. eapply wp_mono; [exact (preserves (I := I) s Hs)|]. simpl. auto. Qed.

#[global] Instance preserves_modify {E S} (I : S → Prop) (f : S → S) :
  (∀ s, I s → I (f s)) → Preserves I (modify (E := E) f).
Proof. intros Hf s Hs. apply wp_modify. auto. Qed.

Lemma preserves_bind {E S A B} (I : S → Prop) (m : M E S A) (k : A → M E S B) :
  Preserves I m → (∀ a, Preserves I (k a)) → Preserves I (bind m k).
Proof.
  intros Hm Hk s Hs. apply wp_bind. eapply wp_mono; [by apply Hm|].
  intros s' [e|a] Hs'; [done|]. by apply Hk.
Qed.


(** ** Dropping messages *)

Lemma objects_filter heap refs (P : memoryMessage → Prop) `{∀ m, Decision (P m)} :
  objects heap (filter (fun r => some_and (heap !! r) P) refs) = filter P (objects heap refs).
Proof.
  unfold objects. induction refs as [|r refs IH]; [done|].
  rewrite filter_cons. simpl. destruct (heap !! r) as [m|] eqn:Hr; simpl.
  - rewrite filter_cons. case_decide; simpl; [|done]. rewrite Hr. by f_equal.
  - done.
Qed.

Lemma sorted_filter {A} (R : A → A → Prop) (P : A → Prop) `{∀ x, Decision (P x)} l :
  StronglySorted R l → StronglySorted R (filter P l).
Proof.
  induction 1 as [|x l Hl IH Hx]; [constructor|]. rewrite filter_cons. case_decide; [|done].
  constructor; [done|]. rewrite Forall_forall in Hx |- *. intros y Hy. apply Hx.
  by apply list_elem_of_filter in Hy as [_ ?].
Qed.

(** Keeping the messages that satisfy [P], index and counter adjusted. *)
Lemma message_facts_filter n heap next messages index total sequence messages' index' total'
    (P : memoryMessage → Prop) `{∀ m, Decision (P m)} :
  MessageFacts n heap next messages index total sequence →
  messages' = filter (fun r => some_and (heap !! r) P) messages →
  (∀ id r, index' !! id = Some r ↔ index !! id = Some r ∧ some_and (heap !! r) P) →
  total' = i64 (total - list_sum mm_byteCount (filter (fun m => ¬ P m) (objects heap messages))) →
  MessageFacts n heap next messages' index' total' sequence.
Proof.
  intros [Hb Hs Hh Hr Hso Hi Ht] -> Hi' ->. split; try done.
  - intros r [_ Hin]%list_elem_of_filter. by apply Hr.
  - by apply sorted_filter.
  - intros id r. rewrite Hi', Hi, list_elem_of_filter. tauto.
  - rewrite Ht, i64_sub_l, objects_filter, (list_sum_filter _ _ P). done.
Qed.

Lemma list_sum_filter_le {A} (f : A → Z) (P : A → Prop) `{∀ x, Decision (P x)} l :
  Forall (fun x => 0 ≤ f x) l → list_sum f (filter P l) ≤ list_sum f l.
Proof.
  induction 1 as [|x l Hx Hl IH]; [done|]. rewrite filter_cons. case_decide; simpl; lia.
Qed.

Lemma objects_nonneg n heap next messages index total sequence :
  MessageFacts n heap next messages index total sequence →
  Forall (fun m => 0 ≤ mm_byteCount m) (objects heap messages).
Proof.
  intros Hm. rewrite Forall_forall. intros m (r & _ & Hr)%objects_elem.
  by apply (mf_heap _ _ _ _ _ _ _ Hm) in Hr as (_ & _ & ?).
Qed.

Lemma quota_facts_filter registration heap messages (P : memoryMessage → Prop)
    `{∀ m, Decision (P m)} :
  Forall (fun m => 0 ≤ mm_byteCount m) (objects heap messages) →
  QuotaFacts registration heap messages →
  QuotaFacts registration heap (filter (fun r => some_and (heap !! r) P) messages).
Proof.
  intros Hpos [Hv Hq]. split; [done|]. intros Hs. destruct (Hq Hs) as [Hc Hb].
  rewrite objects_filter. split.
  - unfold zlen in *. pose proof (length_filter (fun r => some_and (heap !! r) P) messages). lia.
  - pose proof (list_sum_filter_le mm_byteCount P (objects heap messages) Hpos). lia.
Qed.

Lemma objects_shapes d refs : objects (shapes d) refs = shape <$> deref d refs.
Proof.
  unfold objects, deref, shapes. induction refs as [|r refs IH]; [done|].
  simpl. rewrite lookup_fmap. destruct (dom_heap d !! r); simpl; [by f_equal|done].
Qed.

Lemma sum_filter_shapes (P : memoryMessage → Prop) `{∀ m, Decision (P m)} l :
  (∀ m, P (shape m) ↔ P m) →
  list_sum mm_byteCount (filter P (shape <$> l)) = list_sum mm_byteCount (filter P l).
Proof.
  intros HP. induction l as [|m l IH]; [done|].
  rewrite fmap_cons, !filter_cons. specialize (HP m).
  repeat case_decide; try tauto. cbn [list_sum foldr]. unfold list_sum in IH. by rewrite IH.
Qed.

(** ** The activated checkpoints *)

Lemma last_in_last_two ids id : last ids = Some id → id ∈ last_two ids.
Proof.
  intros [l ->]%last_Some. unfold last_two. rewrite drop_app, length_app. simpl.
  apply elem_of_app. right.
  replace (length l + 1 - 2 - length l)%nat with 0%nat by lia. apply list_elem_of_here.
Qed.

Lemma last_two_incl ids id : id ∈ last_two ids → id ∈ ids.
Proof.
  unfold last_two. intros Hid. rewrite <- (take_drop (length ids - 2) ids).
  apply elem_of_app. by right.
Qed.

Lemma latest_is_activated heap index blobs blobFences fences checkpoints ids n id c :
  CheckpointFacts heap index blobs blobFences fences checkpoints ids n →
  last ids = Some id → checkpoints !! id = Some c → mc_state c = activated.
Proof.
  intros Hc Hl Hi. apply (cf_activated _ _ _ _ _ _ _ _ Hc _ _ Hi). by apply last_in_last_two.
Qed.

Lemma invalidate_candidate_fields key c :
  (mc_state (invalidate_candidate key c) = activated ↔ mc_state c = activated) ∧
  (mc_state (invalidate_candidate key c) = retired ↔ mc_state c = retired) ∧
  mc_coveredThrough (invalidate_candidate key c) = mc_coveredThrough c ∧
  mc_startSequence (invalidate_candidate key c) = mc_startSequence c ∧
  mc_deletionMessages (invalidate_candidate key c) = mc_deletionMessages c ∧
  mc_deletionBlobs (invalidate_candidate key c) = mc_deletionBlobs c ∧
  (mc_state c ≠ staged → invalidate_candidate key c = c).
Proof.
  unfold invalidate_candidate. case_decide as Hs; [|done]. destruct Hs as [_ Hs].
  rewrite Hs. done.
Qed.

(** ** Appending to a sorted list *)

Lemma sorted_snoc {A} (R : A → A → Prop) l x :
  StronglySorted R l → Forall (fun y => R y x) l → StronglySorted R (l ++ [x]).
Proof.
  induction 1 as [|y l Hl IH Hy]; intros Hx; [repeat constructor|].
  apply Forall_cons in Hx as [Hyx Hx]. simpl. constructor; [by apply IH|].
  apply Forall_app. split; [done|]. by constructor.
Qed.

Lemma objects_insert_fresh heap r m refs :
  heap !! r = None → (∀ x, x ∈ refs → is_Some (heap !! x)) →
  objects (<[r := m]> heap) (refs ++ [r]) = objects heap refs ++ [m].
Proof.
  intros Hr Hrefs. unfold objects. induction refs as [|x refs IH]; simpl.
  - by rewrite lookup_insert_eq.
  - destruct (Hrefs x) as [y Hy]; [by left|].
    assert (x ≠ r) by congruence. rewrite lookup_insert_ne by done. rewrite Hy. simpl.
    f_equal. apply IH. intros z Hz. apply Hrefs. by right.
Qed.
