(* ===== verification/RelayFenceFacts.v ===== *)
(** * internal/relay: theorems about fences

    The cleanup loops in closed form, and fence expiry, creation and abort as
    invariant-preserving operations. *)

From S2P Require Import Prelude GoEncoding Sha256 RelayModel RelayState RelayFence RelayTenant RelayMember RelaySubscription RelayDelivery RelayBlob RelayCheckpoint RelayMachine RelayExample RelayInvariant.
#[local] Open Scope Z_scope.

(** ** The cleanup loops in closed form *)

Section cleanup.
Context `{UuidLib}.

(** A reference whose message stays. *)
Definition kept (fenceID : UUID) (heap : gmap messageRef memoryMessage) (r : messageRef)
    : Prop :=
  some_and (heap !! r) (fun m => mm_checkpointFenceID m ≠ Some fenceID).

#[global] Instance kept_dec f h r : Decision (kept f h r).
Proof. unfold kept. apply _. Defined.

Definition tagged (fenceID : UUID) (messages : list memoryMessage) : list memoryMessage :=
  filter (fun m => mm_checkpointFenceID m = Some fenceID) messages.

Definition add_tombstone (tombstones : gmap UUID memoryFenceMessageTombstone)
    (m : memoryMessage) : gmap UUID memoryFenceMessageTombstone :=
  match Envelope_ReferenceDigest (msg_Envelope (mm_message m)) with
  | inl _ => tombstones
  | inr digest =>
    <[mm_MessageID m := mkMemoryFenceMessageTombstone (mm_publisherMember m) digest
        (mm_Sequence m)]> tombstones
  end.

Lemma cleanup_message_dangling fenceID d r :
  dom_heap d !! r = None → cleanup_message fenceID d r = d.
Proof. intros Hr. unfold cleanup_message. by rewrite Hr. Qed.

Lemma cleanup_message_kept fenceID d r m :
  dom_heap d !! r = Some m → mm_checkpointFenceID m ≠ Some fenceID →
  cleanup_message fenceID d r = d <| dom_messages := dom_messages d ++ [r] |>.
Proof. intros Hr Hm. unfold cleanup_message. by rewrite Hr, decide_True. Qed.

Lemma cleanup_message_removed fenceID d r m :
  dom_heap d !! r = Some m → mm_checkpointFenceID m = Some fenceID →
  cleanup_message fenceID d r =
  d <| dom_fenceMessageTombstones := add_tombstone (dom_fenceMessageTombstones d) m |>
    <| dom_messageByID := delete (mm_MessageID m) (dom_messageByID d) |>
    <| dom_messageBytes := i64 (dom_messageBytes d - mm_byteCount m) |>.
Proof.
  intros Hr Hm. unfold cleanup_message, add_tombstone.
  rewrite Hr, decide_False by (intros Hn; by apply Hn).
  by destruct d, (Envelope_ReferenceDigest _).
Qed.

Lemma cleanup_message_fold fenceID l d :
  foldl (cleanup_message fenceID) d l =
  let removed := tagged fenceID (deref d l) in
  d <| dom_messages := dom_messages d ++ filter (kept fenceID (dom_heap d)) l |>
    <| dom_fenceMessageTombstones :=
         foldl add_tombstone (dom_fenceMessageTombstones d) removed |>
    <| dom_messageByID :=
         foldl (fun m i => delete i m) (dom_messageByID d) (mm_MessageID <$> removed) |>
    <| dom_messageBytes :=
         foldl (fun t m => i64 (t - mm_byteCount m)) (dom_messageBytes d) removed |>.
Proof.
  revert d. induction l as [|r l IH]; intros d.
  { destruct d. simpl. by rewrite app_nil_r. }
  cbn [foldl]. unfold deref, tagged. cbn [omap list_omap].
  destruct (dom_heap d !! r) as [m|] eqn:Hr.
  - destruct (decide (mm_checkpointFenceID m = Some fenceID)) as [Ht|Ht].
    + rewrite (cleanup_message_removed _ _ _ m), IH by done.
      rewrite (filter_cons_False _ r) by (unfold kept; rewrite Hr; simpl; tauto).
      rewrite (filter_cons_True _ m) by done. by destruct d.
    + rewrite (cleanup_message_kept _ _ _ m), IH by done.
      rewrite (filter_cons_True _ r) by (unfold kept; rewrite Hr; done).
      rewrite (filter_cons_False _ m) by done.
      destruct d. cbn. by rewrite <- app_assoc.
  - rewrite cleanup_message_dangling, IH by done.
    rewrite (filter_cons_False _ r) by (unfold kept; rewrite Hr; simpl; tauto). done.
Qed.

Lemma cleanup_blob_fold fenceID l d :
  NoDup l.*1 →
  foldl (cleanup_blob fenceID) d l =
  let ids := (filter (fun e => e.2 = fenceID) l).*1 in
  d <| dom_blobs := foldl (fun m i => delete i m) (dom_blobs d) ids |>
    <| dom_blobFenceIDs := foldl (fun m i => delete i m) (dom_blobFenceIDs d) ids |>
    <| dom_blobBytes := foldl (fun t b => i64 (t - bm_ByteCount b)) (dom_blobBytes d)
                          (omap (fun i => dom_blobs d !! i) ids) |>.
Proof.
  revert d. induction l as [|[i f] l IH]; intros d Hnd; [by destruct d|].
  apply NoDup_cons in Hnd as [Hi Hl]. cbn [foldl fst fmap list_fmap] in *.
  rewrite IH by done. unfold cleanup_blob. case_decide as Hf.
  - by rewrite filter_cons_False by done.
  - rewrite filter_cons_True by (destruct (decide (f = fenceID)); [done|tauto]).
    assert (i ∉ (filter (fun e : string * UUID => e.2 = fenceID) l).*1) as Hi'.
    { intros (e & -> & He)%list_elem_of_fmap. apply Hi. apply list_elem_of_fmap.
      apply list_elem_of_filter in He as [_ He]. eauto. }
    rewrite fmap_cons. cbn [fst foldl omap list_omap].
    destruct (dom_blobs d !! i) as [b|] eqn:Hb.
    + pose proof (omap_lookup_delete (dom_blobs d) i _ Hi') as Ho.
      destruct d. cbn in Ho |- *. rewrite Ho. reflexivity.
    + pose proof (delete_id (dom_blobs d) i Hb) as Hdel.
      destruct d. cbn in Hdel |- *. rewrite Hdel. reflexivity.
Qed.
End cleanup.

(** ** A fence that ends takes its quarantined writes along *)

Section ending.
Context `{UuidLib}.

Definition end_fence (key : UUID) (status : CheckpointFenceStatus) (d : memoryDomain)
    : memoryDomain :=
  cleanupMemoryFenceAuthority key
    (invalidateMemoryFenceCandidate key (set_fence_status key status d)).

Definition outside (key : UUID) (m : memoryMessage) : Prop :=
  mm_checkpointFenceID m ≠ Some key.

#[global] Instance outside_dec key m : Decision (outside key m).
Proof. unfold outside. apply _. Defined.

(** The untagged messages of the slice. *)
Definition outside_refs (key : UUID) (d : memoryDomain) : list messageRef :=
  filter (fun r => some_and (shapes d !! r) (outside key)) (dom_messages d).

Definition fence_blobs (key : UUID) (d : memoryDomain) : list string :=
  (filter (fun e : string * UUID => e.2 = key) (map_to_list (dom_blobFenceIDs d))).*1.

Lemma end_fence_eq key status d :
  let removed := tagged key (stored d) in
  let ids := fence_blobs key d in
  end_fence key status d =
  d <| dom_checkpointFences := alter (mcf_set_Status status) key (dom_checkpointFences d) |>
    <| dom_checkpoints := invalidate_candidate key <$> dom_checkpoints d |>
    <| dom_messages := outside_refs key d |>
    <| dom_fenceMessageTombstones :=
         foldl add_tombstone (dom_fenceMessageTombstones d) removed |>
    <| dom_messageByID :=
         foldl (fun m i => delete i m) (dom_messageByID d) (mm_MessageID <$> removed) |>
    <| dom_messageBytes :=
         foldl (fun t m => i64 (t - mm_byteCount m)) (dom_messageBytes d) removed |>
    <| dom_blobs := foldl (fun m i => delete i m) (dom_blobs d) ids |>
    <| dom_blobFenceIDs := foldl (fun m i => delete i m) (dom_blobFenceIDs d) ids |>
    <| dom_blobBytes := foldl (fun t b => i64 (t - bm_ByteCount b)) (dom_blobBytes d)
                          (omap (fun i => dom_blobs d !! i) ids) |>.
Proof.
  intros removed ids. unfold end_fence, cleanupMemoryFenceAuthority, cleanup_blobs,
    cleanup_messages, invalidateMemoryFenceCandidate, set_fence_status.
  rewrite cleanup_message_fold, cleanup_blob_fold by apply NoDup_fst_map_to_list.
  assert (filter (kept key (dom_heap d)) (dom_messages d) = outside_refs key d) as Hkept.
  { apply list_filter_iff. intros r. unfold kept, outside, shapes.
    rewrite lookup_fmap. by destruct (dom_heap d !! r). }
  destruct d. cbn in Hkept |- *. rewrite Hkept. reflexivity.
Qed.

Lemma elem_of_fence_blobs key d blob :
  blob ∈ fence_blobs key d ↔ dom_blobFenceIDs d !! blob = Some key.
Proof.
  unfold fence_blobs. rewrite list_elem_of_fmap. split.
  - intros ([b f] & -> & [Hf Hin]%list_elem_of_filter). simpl in *. subst.
    by apply elem_of_map_to_list.
  - intros Hb. exists (blob, key). split; [done|].
    apply list_elem_of_filter. by rewrite elem_of_map_to_list.
Qed.

Lemma fence_blobs_nodup key d : NoDup (fence_blobs key d).
Proof.
  unfold fence_blobs. pose proof (NoDup_fst_map_to_list (dom_blobFenceIDs d)) as Hnd.
  revert Hnd. induction (map_to_list (dom_blobFenceIDs d)) as [|[b f] l IH]; [constructor|].
  cbn [fmap list_fmap fst]. intros [Hb Hl]%NoDup_cons.
  rewrite filter_cons. case_decide; [|auto]. cbn [fmap list_fmap fst].
  apply NoDup_cons. split; [|auto].
  intros (e & -> & [_ He]%list_elem_of_filter)%list_elem_of_fmap. apply Hb.
  apply list_elem_of_fmap. eauto.
Qed.

Lemma elem_of_tagged key d id :
  id ∈ mm_MessageID <$> tagged key (stored d) ↔
  ∃ r m, r ∈ dom_messages d ∧ shapes d !! r = Some m ∧ mm_MessageID m = id ∧
    mm_checkpointFenceID m = Some key.
Proof.
  rewrite list_elem_of_fmap. unfold tagged, stored, deref, shapes. split.
  - intros (m & -> & [Ht (r & Hr & Hm)%list_elem_of_omap]%list_elem_of_filter).
    exists r, (shape m). rewrite lookup_fmap, Hm. done.
  - intros (r & m' & Hr & Hm & Hid & Ht). rewrite lookup_fmap_Some in Hm.
    destruct Hm as (m & <- & Hm). exists m. split; [done|].
    apply list_elem_of_filter. split; [done|]. apply list_elem_of_omap. eauto.
Qed.
End ending.

Section ending_facts.
#[local] Set Default Proof Using "All".
Context `{UuidLib} (n : N) (d : memoryDomain) (key : UUID) (status : CheckpointFenceStatus)
  (f : memoryCheckpointFence).
Hypothesis Hd : WellFormed n d.
Hypothesis Hf : dom_checkpointFences d !! key = Some f.
Hypothesis Hactive : mcf_Status f = CheckpointFenceActive.
Hypothesis Hstatus : status ≠ CheckpointFenceActive ∧ status ≠ CheckpointFenceActivated.

Let d' := end_fence key status d.

Lemma end_fence_messages : Messages_ok n d'.
Proof.
  pose proof (wf_messages _ _ Hd) as Hm. unfold d'. rewrite end_fence_eq. unfold Messages_ok.
  change (shapes (_ <| dom_blobBytes := _ |>)) with (shapes d).
  apply (message_facts_filter n _ _ (dom_messages d) (dom_messageByID d) (dom_messageBytes d)
           _ _ _ _ (outside key)).
  - exact Hm.
  - reflexivity.
  - intros id r. cbn. rewrite lookup_foldl_delete, elem_of_tagged.
    split.
    + intros [Hi Hn]. split; [done|].
      apply (mf_index _ _ _ _ _ _ _ Hm) in Hi as (Hin & m & Hr & Hid).
      rewrite Hr. simpl. intros Ht. apply Hn. by exists r, m.
    + intros [Hi Ho]. split; [done|]. intros (r' & m' & Hin & Hr & Hid & Ht).
      assert (dom_messageByID d !! id = Some r') as Hi'.
      { apply (mf_index _ _ _ _ _ _ _ Hm). eauto. }
      simplify_eq. rewrite Hr in Ho. by apply Ho.
  - cbn. pose proof (mf_bytes _ _ _ _ _ _ _ Hm) as Ht. rewrite Ht.
    rewrite foldl_i64_sub, i64_sub_l, objects_shapes. do 2 f_equal.
    rewrite sum_filter_shapes by done. unfold tagged, stored. f_equal.
    apply list_filter_iff. intros m. unfold outside.
    destruct (decide (mm_checkpointFenceID m = Some key)); tauto.
Qed.

Lemma end_fence_blobs : Blobs_ok d'.
Proof.
  destruct (wf_blobs _ _ Hd) as [He Ht]. unfold d'. rewrite end_fence_eq. split; cbn.
  - intros id b [Hb _]%lookup_foldl_delete. by apply He.
  - rewrite Ht, foldl_i64_sub, map_sum_foldl_delete by apply fence_blobs_nodup. done.
Qed.

Lemma end_fence_active id :
  active_fence (dom_checkpointFences d') id ↔
  active_fence (dom_checkpointFences d) id ∧ id ≠ key.
Proof.
  unfold d'. rewrite end_fence_eq. unfold active_fence. cbn. split.
  - intros (g & Hg & Hst). destruct (decide (id = key)) as [->|].
    + rewrite lookup_alter_eq, Hf in Hg. simpl in Hg. simplify_eq. cbn in Hst. tauto.
    + rewrite lookup_alter_ne in Hg by done. eauto.
  - intros [(g & Hg & Hst) Hne]. exists g. by rewrite lookup_alter_ne.
Qed.

Lemma end_fence_live id g :
  dom_checkpointFences d !! id = Some g → id ≠ key →
  dom_checkpointFences d' !! id = Some g.
Proof. intros. unfold d'. rewrite end_fence_eq. cbn. by rewrite lookup_alter_ne. Qed.

Lemma end_fence_fences : Fences_ok d'.
Proof.
  destruct (wf_fences _ _ Hd) as [Hk H1 Hb Ht Hq Hbt].
  assert (∀ id g, dom_checkpointFences d' !! id = Some g →
    ∃ g0, dom_checkpointFences d !! id = Some g0 ∧
      cfs_FenceID (mcf_state g) = cfs_FenceID (mcf_state g0) ∧
      cfs_BoundaryCursor (mcf_state g) = cfs_BoundaryCursor (mcf_state g0)) as Hback.
  { intros id g. unfold d'. rewrite end_fence_eq. cbn.
    destruct (decide (id = key)) as [->|]; [rewrite lookup_alter_eq|rewrite lookup_alter_ne];
      try done; [|eauto]. rewrite Hf. intros [= <-]. exists f. done. }
  assert (dom_messages d' = outside_refs key d ∧ shapes d' = shapes d ∧
    dom_nextSequence d' = dom_nextSequence d) as (Hms & Hsh & Hns).
  { unfold d'. rewrite end_fence_eq. done. }
  unfold Fences_ok. rewrite Hms, Hsh, Hns. split.
  - intros id g (g0 & Hg0 & -> & _)%Hback. by apply Hk.
  - intros id1 id2 [Ha _]%end_fence_active [Hb' _]%end_fence_active. by apply H1.
  - intros id g (g0 & Hg0 & _ & ->)%Hback. by apply (Hb id).
  - intros r m id [Hout Hin]%list_elem_of_filter Hr Hm. rewrite Hr in Hout. simpl in Hout.
    destruct (Ht r m id Hin Hr Hm) as (g & Hg & Hlive). exists g. split; [|done].
    apply end_fence_live; [done|]. intros ->. by apply Hout.
  - intros id g b r m Hg Hact Hcur [_ Hin]%list_elem_of_filter Hr.
    assert (id ≠ key) as Hne.
    { apply (end_fence_active id). by exists g. }
    assert (dom_checkpointFences d !! id = Some g) as Hg0.
    { revert Hg. unfold d'. rewrite end_fence_eq. cbn. by rewrite lookup_alter_ne. }
    by apply (Hq id g b r m).
  - intros blob id Hblob.
    assert (dom_blobFenceIDs d !! blob = Some id ∧ id ≠ key) as [Hb0 Hne].
    { revert Hblob. unfold d'. rewrite end_fence_eq. cbn. intros [Hb0 Hn]%lookup_foldl_delete.
      split; [done|]. intros ->. apply Hn. by apply elem_of_fence_blobs. }
    destruct (Hbt blob id Hb0) as (g & Hg & Hlive). exists g. split; [|done].
    by apply end_fence_live.
Qed.
End ending_facts.

Section ending_wellformed.
#[local] Set Default Proof Using "All".
Context `{UuidLib} (n : N) (d : memoryDomain) (key : UUID) (status : CheckpointFenceStatus)
  (f : memoryCheckpointFence).
Hypothesis Hd : WellFormed n d.
Hypothesis Hf : dom_checkpointFences d !! key = Some f.
Hypothesis Hactive : mcf_Status f = CheckpointFenceActive.
Hypothesis Hstatus : status ≠ CheckpointFenceActive ∧ status ≠ CheckpointFenceActivated.

Let d' := end_fence key status d.

Lemma end_fence_checkpoint id c' :
  dom_checkpoints d' !! id = Some c' →
  ∃ c, dom_checkpoints d !! id = Some c ∧ c' = invalidate_candidate key c.
Proof.
  unfold d'. rewrite end_fence_eq. cbn. rewrite lookup_fmap_Some. naive_solver.
Qed.

(** What the active fence did not tag stays where it was. *)
Lemma end_fence_index mid r :
  dom_messageByID d !! mid = Some r →
  (∀ m, shapes d !! r = Some m → mm_checkpointFenceID m ≠ Some key) →
  dom_messageByID d' !! mid = Some r.
Proof.
  intros Hi Ho. unfold d'. rewrite end_fence_eq. cbn. rewrite lookup_foldl_delete.
  split; [done|]. rewrite elem_of_tagged. intros (r' & m' & Hin & Hr & Hid & Ht).
  assert (dom_messageByID d !! mid = Some r') as Hi'.
  { apply (mf_index _ _ _ _ _ _ _ (wf_messages _ _ Hd)). eauto. }
  simplify_eq. by apply (Ho m').
Qed.

Lemma end_fence_checkpoints : Checkpoints_ok d'.
Proof.
  pose proof (wf_checkpoints _ _ Hd) as Hc.
  assert (active_fence (dom_checkpointFences d) key) as Hkey by by exists f.
  assert (dom_activatedCheckpoints d' = dom_activatedCheckpoints d ∧ shapes d' = shapes d ∧
    dom_nextSequence d' = dom_nextSequence d) as (Hids & Hsh & Hns).
  { unfold d'. rewrite end_fence_eq. done. }
  assert (∀ fid, active_fence (dom_checkpointFences d') fid →
    active_fence (dom_checkpointFences d) fid) as Hact.
  { intros fid Ha.
    exact (proj1 (proj1 (end_fence_active n d key status f Hd Hf Hactive Hstatus fid) Ha)). }
  pose proof Hc as Hc0. unfold Checkpoints_ok in *. rewrite Hids, Hsh, Hns.
  destruct Hc as [Hnd Hl Ha Hr Hcov Hst Hm Hb]. split; try done.
  - intros id Hin. apply Hl in Hin as [c Hin]. unfold d'. rewrite end_fence_eq. cbn.
    rewrite lookup_fmap, Hin. done.
  - intros id c' (c & Hid & ->)%end_fence_checkpoint.
    destruct (invalidate_candidate_fields key c) as (-> & _). by apply Ha.
  - intros id c' (c & Hid & ->)%end_fence_checkpoint.
    destruct (invalidate_candidate_fields key c) as (_ & -> & _). by apply Hr.
  - intros id c' (c & Hid & ->)%end_fence_checkpoint.
    destruct (invalidate_candidate_fields key c) as (_ & _ & -> & _). by apply (Hcov id).
  - intros id c' (c & Hid & ->)%end_fence_checkpoint Hin.
    destruct (invalidate_candidate_fields key c) as (_ & _ & -> & -> & _). by apply (Hst id).
  - intros id c' mid r Hlast (c & Hid & ->)%end_fence_checkpoint.
    pose proof (latest_is_activated _ _ _ _ _ _ _ _ _ _ Hc0 Hlast Hid) as Hstate.
    destruct (invalidate_candidate_fields key c) as (_ & _ & _ & _ & _ & _ & ->);
      [|by rewrite Hstate].
    intros Hdel. destruct (Hm id c mid r Hlast Hid Hdel) as (Hi & Hret & Hall).
    split; [|split; [done|]].
    + apply end_fence_index; [done|]. intros m Hr' Htag. by apply (proj2 (Hall m Hr') key).
    + intros m Hr'. destruct (Hall m Hr') as [Hle Hna]. split; [done|].
      intros fid Hfid Ha'. by apply (Hna fid), Hact.
  - intros id c' bid b Hlast (c & Hid & ->)%end_fence_checkpoint.
    pose proof (latest_is_activated _ _ _ _ _ _ _ _ _ _ Hc0 Hlast Hid) as Hstate.
    destruct (invalidate_candidate_fields key c) as (_ & _ & _ & _ & _ & _ & ->);
      [|by rewrite Hstate].
    intros Hdel. destruct (Hb id c bid b Hlast Hid Hdel) as (Hi & Hret & Hall).
    assert (dom_blobFenceIDs d !! bid ≠ Some key) as Hnk by (intros Hk; by apply (Hall key)).
    split; [|split; [done|]].
    + unfold d'. rewrite end_fence_eq. cbn. rewrite lookup_foldl_delete.
      by rewrite elem_of_fence_blobs.
    + intros fid Hfid Ha'. apply (Hall fid); [|by apply Hact].
      revert Hfid. unfold d'. rewrite end_fence_eq. cbn. by intros [? _]%lookup_foldl_delete.
Qed.

Lemma end_fence_rest :
  dom_messages d' = outside_refs key d ∧ shapes d' = shapes d ∧
  dom_registration d' = dom_registration d ∧ dom_subscriptions d' = dom_subscriptions d ∧
  dom_members d' = dom_members d ∧ dom_admissions d' = dom_admissions d ∧
  dom_rotations d' = dom_rotations d.
Proof. unfold d'. rewrite end_fence_eq. done. Qed.

Lemma wf_end_fence : WellFormed n d'.
Proof.
  split.
  - exact (end_fence_messages n d key status f Hd Hf Hactive Hstatus).
  - exact (end_fence_blobs n d key status f Hd Hf Hactive Hstatus).
  - exact (end_fence_fences n d key status f Hd Hf Hactive Hstatus).
  - apply end_fence_checkpoints.
  - destruct end_fence_rest as (Hm & Hsh & Hreg & _). unfold Quota_ok. rewrite Hm, Hsh, Hreg.
    apply quota_facts_filter; [|exact (wf_quota _ _ Hd)].
    exact (objects_nonneg _ _ _ _ _ _ _ (wf_messages _ _ Hd)).
  - destruct end_fence_rest as (_ & _ & _ & H1 & H2 & H3 & H4). unfold Identities_ok.
    rewrite H1, H2, H3, H4. exact (wf_identities _ _ Hd).
Qed.
End ending_wellformed.

(** ** Expiry *)

Section expiry.
Context `{UuidLib}.

Lemma refresh_fence_end now d key f n :
  WellFormed n d → dom_checkpointFences d !! key = Some f →
  refresh_fence now d key =
  if decide (mcf_Status f = CheckpointFenceActive ∧ now ≥ cfs_ExpiresAtMilliseconds (mcf_state f))
  then end_fence key CheckpointFenceExpired d else d.
Proof.
  intros Hd Hf. unfold refresh_fence. rewrite Hf.
  by rewrite (ff_key _ _ _ _ _ (wf_fences _ _ Hd) key f Hf).
Qed.

Lemma wf_refresh_fence n now d key : WellFormed n d → WellFormed n (refresh_fence now d key).
Proof.
  intros Hd. destruct (dom_checkpointFences d !! key) as [f|] eqn:Hf.
  - rewrite (refresh_fence_end now d key f n Hd Hf). case_decide as Ha; [|done].
    destruct Ha. by apply (wf_end_fence n d key _ f).
  - unfold refresh_fence. by rewrite Hf.
Qed.

Lemma wf_refresh n now d : WellFormed n d → WellFormed n (refreshMemoryFence now d).
Proof.
  intros Hd. apply (foldl_invariant (WellFormed n)); [done|]. intros. by apply wf_refresh_fence.
Qed.

#[global] Instance preserves_refresh n now :
  Preserves (WellFormed n) (modify (E := GoError) (refreshMemoryFence now)).
Proof. apply preserves_modify. apply wf_refresh. Qed.

#[global] Instance preserves_allows_write n subscriptionID now :
  Preserves (WellFormed n) (memoryFenceAllowsWrite subscriptionID now).
Proof.
  apply preserves_bind; [apply _|]. intros _ d Hd. by wp_steps.
Qed.

(** After the check, no other subscription holds an active fence. *)
Lemma allows_write_spec n subscriptionID now d :
  WellFormed n d →
  wp (memoryFenceAllowsWrite subscriptionID now)
    (fun d' r => WellFormed n d' ∧ d' = refreshMemoryFence now d ∧
       ∀ u, r = inr u → ∀ id f, dom_checkpointFences d' !! id = Some f →
         mcf_Status f = CheckpointFenceActive → mcf_holderSubscriptionID f = subscriptionID) d.
Proof.
  intros Hd. unfold memoryFenceAllowsWrite. wp_steps; (split_and!; [by apply wf_refresh|done|]).
  - done.
  - intros _ _ id f Hid Hact. destruct (decide (mcf_holderSubscriptionID f = subscriptionID));
      [done|]. exfalso. apply H0. apply map_any_spec. by exists id, f.
Qed.
End expiry.

(** A domain without the components that a refresh can change. *)
Definition rest_of (d : memoryDomain) : memoryDomain :=
  d <| dom_checkpointFences := ∅ |> <| dom_checkpoints := ∅ |> <| dom_messages := [] |>
    <| dom_fenceMessageTombstones := ∅ |> <| dom_messageByID := ∅ |> <| dom_messageBytes := 0 |>
    <| dom_blobs := ∅ |> <| dom_blobFenceIDs := ∅ |> <| dom_blobBytes := 0 |>.

(** A refresh only takes messages and blobs away, and leaves every other
    component alone. *)
Record Shrinks (d d' : memoryDomain) : Prop := {
  sh_index : dom_messageByID d' ⊆ dom_messageByID d;
  sh_messages : sublist (dom_messages d') (dom_messages d);
  sh_blobs : dom_blobs d' ⊆ dom_blobs d;
  sh_rest : rest_of d' = rest_of d }.

Lemma shrinks_refl d : Shrinks d d.
Proof. done. Qed.

Lemma shrinks_trans d1 d2 d3 : Shrinks d1 d2 → Shrinks d2 d3 → Shrinks d1 d3.
Proof.
  intros [Hi1 Hm1 Hb1 H1] [Hi2 Hm2 Hb2 H2]. split; [etrans; eassumption..|congruence].
Qed.

Section shrinking.
Context `{UuidLib}.

Lemma foldl_delete_subseteq {K A} `{Countable K} (l : list K) (m : gmap K A) :
  foldl (fun m i => delete i m) m l ⊆ m.
Proof. apply map_subseteq_spec. intros k x. rewrite lookup_foldl_delete. tauto. Qed.

Lemma end_fence_shrinks key status d : Shrinks d (end_fence key status d).
Proof.
  rewrite end_fence_eq. split; [apply foldl_delete_subseteq| |apply foldl_delete_subseteq|].
  - unfold outside_refs. cbn. apply sublist_filter.
  - reflexivity.
Qed.

Lemma refresh_shrinks n now d : WellFormed n d → Shrinks d (refreshMemoryFence now d).
Proof.
  intros Hd. unfold refreshMemoryFence. generalize (map_to_list (dom_checkpointFences d)).*1.
  intros l. revert d Hd. induction l as [|k l IH]; intros d Hd; [apply shrinks_refl|]. simpl.
  apply (shrinks_trans _ (refresh_fence now d k)); [|apply IH; by apply wf_refresh_fence].
  destruct (dom_checkpointFences d !! k) as [f|] eqn:Hf.
  - rewrite (refresh_fence_end now d k f n Hd Hf). case_decide;
      [apply end_fence_shrinks|apply shrinks_refl].
  - unfold refresh_fence. rewrite Hf. apply shrinks_refl.
Qed.
End shrinking.

(** [wf_refreshed] replaces the refreshed domain of a goal by a well-formed one. *)
Ltac wf_refreshed :=
  match goal with
  | H : WellFormed ?n ?d |- context [refreshMemoryFence ?now ?d] =>
    let H' := fresh "Hd" in
    pose proof (wf_refresh n now d H) as H';
    generalize dependent (refreshMemoryFence now d);
    let d' := fresh "d" in intros d'; intros
  end.

(** ** Creation and abort *)

Lemma active_fence_insert fences id f fid :
  active_fence (<[id := f]> fences) fid → fid = id ∨ active_fence fences fid.
Proof.
  intros (g & Hg & Ha). destruct (decide (fid = id)) as [|Hne]; [by left|right].
  rewrite lookup_insert_ne in Hg by done. by exists g.
Qed.

Section new_fence.
#[local] Set Default Proof Using "All".
Context (n : N) (d : memoryDomain) (id : UUID) (f : memoryCheckpointFence).
Hypothesis Hn : Z.of_N n ≤ MaximumSequence.
Hypothesis Hd : WellFormed n d.
Hypothesis Hfresh : dom_checkpointFences d !! id = None.
Hypothesis Hnone : ∀ k, ¬ active_fence (dom_checkpointFences d) k.
Hypothesis Hkey : cfs_FenceID (mcf_state f) = id.
Hypothesis Hboundary : cfs_BoundaryCursor (mcf_state f) = EncodeCursor (dom_nextSequence d).

Lemma sequence_range : 0 ≤ dom_nextSequence d ≤ MaximumSequence.
Proof. destruct (wf_messages _ _ Hd) as [Hb Hs]. lia. Qed.

Lemma not_tagged_fresh r m :
  r ∈ dom_messages d → shapes d !! r = Some m → mm_checkpointFenceID m ≠ Some id.
Proof.
  intros Hr Hm Ht. destruct (ff_tag _ _ _ _ _ (wf_fences _ _ Hd) r m id Hr Hm Ht) as (g & Hg & _).
  congruence.
Qed.

Let d' := d <| dom_checkpointFences := <[id := f]> (dom_checkpointFences d) |>.

Lemma new_fence_fences : Fences_ok d'.
Proof.
  destruct (wf_fences _ _ Hd) as [Hk H1 Hb Ht Hq Hbt]. split; cbn.
  - intros k g. destruct (decide (k = id)) as [->|];
      [rewrite lookup_insert_eq|rewrite lookup_insert_ne]; naive_solver.
  - intros k1 k2 [->|Ha1]%active_fence_insert [->|Ha2]%active_fence_insert; [done|..].
    all: exfalso; naive_solver.
  - pose proof sequence_range as Hr.
    intros k g. destruct (decide (k = id)) as [->|];
      [rewrite lookup_insert_eq|rewrite lookup_insert_ne]; [intros [= <-]|by apply Hb|done].
    exists (dom_nextSequence d). rewrite Hboundary, decode_encode_cursor by lia.
    split; [done|lia].
  - intros r m k Hr Hm Htag. destruct (Ht r m k Hr Hm Htag) as (g & Hg & Hl).
    exists g. rewrite lookup_insert_ne; [done|]. congruence.
  - intros k g b r m Hg Hact Hcur Hr Hm. destruct (decide (k = id)) as [->|].
    + rewrite lookup_insert_eq in Hg. injection Hg as <-. pose proof sequence_range as Hrange.
      rewrite Hboundary, decode_encode_cursor in Hcur by lia. injection Hcur as <-.
      pose proof (not_tagged_fresh r m Hr Hm).
      destruct (wf_messages _ _ Hd) as [_ Hs Hh _ _ _ _].
      destruct (Hh r m Hm) as (Hlt & Hseq & _).
      assert (¬ mm_Sequence m > dom_nextSequence d) by lia. tauto.
    + rewrite lookup_insert_ne in Hg by done. exfalso. apply (Hnone k). by exists g.
  - intros blob k Hblob. destruct (Hbt blob k Hblob) as (g & Hg & Hl).
    exists g. rewrite lookup_insert_ne; [done|]. congruence.
Qed.

Lemma new_fence_checkpoints : Checkpoints_ok d'.
Proof.
  destruct (wf_checkpoints _ _ Hd) as [Hnd Hl Ha Hr Hcov Hst Hm Hb]. split; try done; cbn.
  - intros k c mid r Hlast Hc Hdel. destruct (Hm k c mid r Hlast Hc Hdel) as (Hi & Hret & Hall).
    split; [done|split; [done|]]. intros m Hrm. destruct (Hall m Hrm) as [Hle Hna].
    split; [done|]. intros fid Hfid [->|Hact]%active_fence_insert; [|by apply (Hna fid)].
    apply (mf_index _ _ _ _ _ _ _ (wf_messages _ _ Hd)) in Hi as [Hin _].
    by apply (not_tagged_fresh r m Hin Hrm).
  - intros k c bid b Hlast Hc Hdel. destruct (Hb k c bid b Hlast Hc Hdel) as (Hi & Hret & Hall).
    split; [done|split; [done|]].
    intros fid Hfid [->|Hact]%active_fence_insert; [|by apply (Hall fid)].
    destruct (ff_blob_tag _ _ _ _ _ (wf_fences _ _ Hd) bid id Hfid) as (g & Hg & _). congruence.
Qed.

Lemma wf_new_fence : WellFormed n d'.
Proof.
  unfold d'. wf_auto; [apply new_fence_fences|apply new_fence_checkpoints].
Qed.
End new_fence.

Section operations.
Context `{UuidLib}.

Lemma no_active_fence fences :
  ¬ map_any (fun (_ : UUID) fence => mcf_Status fence = CheckpointFenceActive) fences →
  ∀ k, ¬ active_fence fences k.
Proof. rewrite map_any_spec. intros Hn k (f & Hf & Ha). apply Hn. eauto. Qed.

Lemma preserves_createCheckpointFence n ttl credential request now :
  Z.of_N n ≤ MaximumSequence →
  Preserves (WellFormed n) (createCheckpointFence ttl credential request now).
Proof.
  intros Hn d Hd. unfold createCheckpointFence. wp_steps; try wf_refreshed; try done.
  match goal with Hr : WellFormed n ?d1 |- _ => rename d1 into e; rename Hr into He end.
  assert (dom_checkpointFences e !! cfr_FenceID request = None) as Hfresh.
  { destruct (dom_checkpointFences e !! cfr_FenceID request) eqn:Hx; [|done].
    exfalso. eauto. }
  match goal with |- WellFormed n (?e' <| dom_checkpointFenceRetries := _ |>) =>
    enough (WellFormed n e') by wf_auto end.
  apply wf_new_fence; try done. by apply no_active_fence.
Qed.

Lemma preserves_getCheckpointFence n credential fenceID now :
  Preserves (WellFormed n) (getCheckpointFence credential fenceID now).
Proof. intros d Hd. unfold getCheckpointFence. wp_steps; try wf_refreshed; done. Qed.

Lemma preserves_abortCheckpointFence n credential request now :
  Preserves (WellFormed n) (abortCheckpointFence credential request now).
Proof.
  intros d Hd. unfold abortCheckpointFence. wp_steps; try wf_refreshed; try done.
  match goal with |- WellFormed n (?e' <| dom_checkpointFenceAborts := _ |>) =>
    enough (WellFormed n e') by wf_auto end.
  match goal with Hf : dom_checkpointFences ?e !! _ = Some ?f |- _ =>
    rename e into e0; rename f into f0; rename Hf into Hf0 end.
  assert (mcf_Status f0 = CheckpointFenceActive) as Ha.
  { destruct (decide (mcf_Status f0 = CheckpointFenceActive)); tauto. }
  change (WellFormed n (end_fence (cfa_FenceID request) CheckpointFenceAborted e0)).
  apply (wf_end_fence n e0 (cfa_FenceID request) CheckpointFenceAborted f0);
    [assumption|exact Hf0|exact Ha|split; discriminate].
Qed.
End operations.
