(* ===== verification/RelayOperationFacts.v ===== *)
(** * internal/relay: each operation keeps its domain well formed

    Tenants, members and admissions; subscriptions and their recovery;
    publication, fetch and acknowledgment; blobs and uploads. *)

From S2P Require Import Prelude GoEncoding Sha256 RelayModel RelayState RelayFence RelayTenant RelayMember RelaySubscription RelayDelivery RelayBlob RelayCheckpoint RelayMachine RelayExample RelayInvariant RelayFenceFacts.
#[local] Open Scope Z_scope.

(** ** Well-formedness is kept *)

Lemma identities_put_member d id m :
  Identities_ok d → mr_MemberID m = id →
  is_Some (dom_members d !! id) ∨ zsize (dom_members d) < MaximumRetainedMemberCountPerDomain →
  Identities_ok (put_member id m d).
Proof.
  intros [Hs Hm Ha Hmc Hac Hrc] Hid Hcount. split; try done; cbn.
  - intros k x [[<- <-]|[_ Hk]]%lookup_insert_Some; [done|by apply Hm].
  - destruct Hcount as [Hold|Hlt]; [by rewrite zsize_insert_old|].
    pose proof (zsize_insert_le (dom_members d) id m). lia.
Qed.

Lemma identities_put_subscription d id s :
  Identities_ok d → sub_SubscriptionID s = id → Identities_ok (put_subscription id s d).
Proof.
  intros [Hs Hm Ha Hmc Hac Hrc] Hid. split; try done; cbn.
  intros k x [[<- <-]|[_ Hk]]%lookup_insert_Some; [done|by apply Hs].
Qed.

Lemma identities_put_admission d id a :
  Identities_ok d → ma_AdmissionID a = id →
  is_Some (dom_admissions d !! id) ∨ zsize (dom_admissions d) < MaximumRetainedAdmissionCount →
  Identities_ok (put_admission id a d).
Proof.
  intros [Hs Hm Ha Hmc Hac Hrc] Hid Hcount. split; try done; cbn.
  - intros k x [[<- <-]|[_ Hk]]%lookup_insert_Some; [done|by apply Ha].
  - destruct Hcount as [Hold|Hlt]; [by rewrite zsize_insert_old|].
    pose proof (zsize_insert_le (dom_admissions d) id a). lia.
Qed.

Lemma identities_put_rotation d id r :
  Identities_ok d → zsize (dom_rotations d) < MaximumCredentialRotationsPerDomain →
  Identities_ok (put_rotation id r d).
Proof.
  intros [Hs Hm Ha Hmc Hac Hrc] Hlt. split; try done; cbn.
  pose proof (zsize_insert_le (dom_rotations d) id r). lia.
Qed.

(** A write that touches only the identity maps keeps the rest. *)
Lemma wf_put_member n d id m :
  WellFormed n d → mr_MemberID m = id →
  is_Some (dom_members d !! id) ∨ zsize (dom_members d) < MaximumRetainedMemberCountPerDomain →
  WellFormed n (put_member id m d).
Proof. intros Hd Hid Hc. wf_auto. apply identities_put_member; [apply Hd|done..]. Qed.

Lemma wf_put_subscription n d id s :
  WellFormed n d → sub_SubscriptionID s = id → WellFormed n (put_subscription id s d).
Proof. intros Hd Hid. wf_auto. apply identities_put_subscription; [apply Hd|done]. Qed.

Lemma wf_put_admission n d id a :
  WellFormed n d → ma_AdmissionID a = id →
  is_Some (dom_admissions d !! id) ∨ zsize (dom_admissions d) < MaximumRetainedAdmissionCount →
  WellFormed n (put_admission id a d).
Proof. intros Hd Hid Hc. wf_auto. apply identities_put_admission; [apply Hd|done..]. Qed.

Lemma wf_put_rotation n d id r :
  WellFormed n d → zsize (dom_rotations d) < MaximumCredentialRotationsPerDomain →
  WellFormed n (put_rotation id r d).
Proof. intros Hd Hc. wf_auto. apply identities_put_rotation; [apply Hd|done]. Qed.

Lemma wf_put_memberSubscription n d id s :
  WellFormed n d → WellFormed n (put_memberSubscription id s d).
Proof. intros Hd. wf_auto. Qed.

(** [wf_chain] peels the last write off the goal's state. *)
Ltac wf_chain :=
  first
  [ assumption
  | match goal with
    | |- WellFormed _ (put_member _ _ _) => apply wf_put_member
    | |- WellFormed _ (put_subscription _ _ _) => apply wf_put_subscription
    | |- WellFormed _ (put_admission _ _ _) => apply wf_put_admission
    | |- WellFormed _ (put_rotation _ _ _) => apply wf_put_rotation
    | |- WellFormed _ (put_memberSubscription _ _ _) => apply wf_put_memberSubscription
    | |- WellFormed ?n (update _ _ ?d) =>
      let H := fresh in enough (WellFormed n d) as H by (revert H; generalize d; intros; wf_auto);
      try assumption
    end ].

Lemma rotation_capacity rotations subjectType id :
  ensureCredentialRotationCapacity rotations subjectType id = None →
  zsize rotations < MaximumCredentialRotationsPerDomain ∧
  map_count (fun _ r => of_subject subjectType id r) rotations <
    MaximumCredentialRotationsPerSubject.
Proof. unfold ensureCredentialRotationCapacity. rewrite err_then_None, !err_when_None. lia. Qed.

Lemma member_capacity members now :
  ensureMemberCapacity members now = None →
  zsize members < MaximumRetainedMemberCountPerDomain ∧
  active_member_count members now < MaximumActiveMemberCountPerDomain.
Proof. unfold ensureMemberCapacity. rewrite err_then_None, !err_when_None. lia. Qed.

Lemma not_not {P} `{Decision P} : ¬ ¬ P → P.
Proof. destruct (decide P); tauto. Qed.

Lemma not_Some_None {A} (o : option A) : ¬ is_Some o → o = None.
Proof. destruct o; [|done]. intros Hn. by destruct Hn. Qed.

Section preservation.
Context `{UuidLib} (n : N).

Lemma preserves_rotationRetry existing t id digest rotation :
  Preserves (WellFormed n) (memoryRotationRetryResult existing t id digest rotation).
Proof. intros d Hd. unfold memoryRotationRetryResult. by wp_steps. Qed.

Lemma rotated_registration_valid r rotation :
  CredentialRotation_Validate rotation = None → DomainRegistration_Validate r = None →
  DomainRegistration_Validate (r <| dr_AdministrationDigest := rot_AuthorizationDigest rotation |>)
    = None.
Proof.
  unfold CredentialRotation_Validate, DomainRegistration_Validate.
  rewrite !err_then_None, !err_when_None. intros Hr [H1 H2]. split; [|exact H2]. cbn in *. tauto.
Qed.

Lemma preserves_rotateAdministration credential digest rotation now :
  CredentialRotation_Validate rotation = None →
  Preserves (WellFormed n) (rotateAdministrationCredential credential digest rotation now).
Proof.
  intros Hv d Hd. unfold rotateAdministrationCredential. wp_steps; try done.
  { by apply preserves_rotationRetry. }
  match goal with |- WellFormed n (?e <| dom_registration := _ |>) =>
    assert (WellFormed n e) as He end.
  { apply wf_put_rotation; [done|]. by eapply rotation_capacity. }
  revert He. generalize (put_rotation (rot_RotationID rotation)
    (mkMemoryCredentialRotation administrationRotationSubject (acred_DomainID credential)
       (dr_AdministrationDigest (dom_registration d)) (rot_AuthorizationDigest rotation) now) d).
  intros e He. wf_auto. destruct (wf_quota _ _ He) as [Hval Hq].
  split; [by apply rotated_registration_valid|exact Hq].
Qed.

Lemma preserves_rotateMember credential digest rotation now :
  Preserves (WellFormed n) (rotateMemberCredential credential digest rotation now).
Proof.
  intros d Hd. unfold rotateMemberCredential. wp_steps; try done.
  { by apply preserves_rotationRetry. }
  apply wf_put_member.
  - apply wf_put_rotation; [done|]. by eapply rotation_capacity.
  - cbn. by apply (if_members _ _ _ _ (wf_identities _ _ Hd)).
  - left. by eexists.
Qed.

Lemma preserves_createSubscriptionAdmission credential id registration now :
  Preserves (WellFormed n) (createSubscriptionAdmission credential id registration now).
Proof.
  intros d Hd. unfold createSubscriptionAdmission. wp_steps; try done.
  wf_chain. apply wf_put_admission; [done|done|]. right. lia.
Qed.

Lemma wf_ensure_test_subscription credential id at_ d :
  WellFormed n d → WellFormed n (ensure_test_subscription credential id at_ d).
Proof.
  intros Hd. unfold ensure_test_subscription. case_decide; [|done]. by apply wf_put_subscription.
Qed.

Lemma preserves_claimAdmission credential claim previous now :
  Preserves (WellFormed n) (claimAdmission credential claim previous now).
Proof.
  intros d Hd. unfold claimAdmission, claimed_admission_result. wp_steps; try done.
  all: match goal with Ha : dom_admissions ?e !! _ = Some ?x, Hw : WellFormed _ ?e |- _ =>
         let Hid := fresh in
         pose proof (if_admissions _ _ _ _ (wf_identities _ _ Hw) _ _ Ha) as Hid;
         rewrite <- Hid in Ha; clear Hid;
         apply wf_put_admission; [|done|left; exists x; exact Ha] end.
  all: apply wf_put_memberSubscription, wf_put_member; [done|done|].
  - left. match goal with Hn : ¬ replacement_refused _ _ _ _ |- _ =>
      apply not_not, some_and_Some in Hn as (m & Hm & _) end. by exists m.
  - right. by eapply member_capacity.
Qed.

Lemma preserves_collectAdmissions now : Preserves (WellFormed n) (collectAdmissions now).
Proof.
  intros d Hd. unfold collectAdmissions. wp_steps. wf_auto.
  destruct (wf_identities _ _ Hd) as [Hs Hm Ha Hmc Hac Hrc].
  match goal with |- Identities_ok (_ <| dom_admissions := foldl _ _ ?l |>) =>
    generalize l end. intros l.
  assert (∀ m0 : gmap UUID MemberAdmission, zsize (foldl (fun m i => delete i m) m0 l) ≤ zsize m0)
    as Hsize.
  { induction l as [|i l IH]; intros m0; simpl; [lia|].
    pose proof (zsize_delete_le m0 i). specialize (IH (delete i m0)). lia. }
  split; try done; cbn.
  - intros id a [Hid _]%lookup_foldl_delete. by apply Ha.
  - specialize (Hsize (dom_admissions d)). lia.
Qed.

Lemma preserves_revokeAdmission id now : Preserves (WellFormed n) (revokeAdmission id now).
Proof.
  intros d Hd. unfold revokeAdmission. wp_steps; try done.
  apply wf_put_admission; [done|cbn|left; by eexists].
  by apply (if_admissions _ _ _ _ (wf_identities _ _ Hd)).
Qed.

Lemma preserves_createSubscriptionMember credential id registration now :
  Preserves (WellFormed n) (createSubscriptionMember credential id registration now).
Proof.
  intros d Hd. unfold createSubscriptionMember. wp_steps; try done.
  apply wf_put_memberSubscription, wf_put_member; [done|done|]. right.
  by eapply member_capacity.
Qed.

Lemma preserves_revokeMember id now : Preserves (WellFormed n) (revokeMember id now).
Proof.
  intros d Hd. unfold revokeMember. wp_steps; try done.
  apply wf_put_member; [done|cbn|left; by eexists].
  by apply (if_members _ _ _ _ (wf_identities _ _ Hd)).
Qed.

Lemma preserves_changeMemberCapabilities change now :
  Preserves (WellFormed n) (changeMemberCapabilities change now).
Proof.
  intros d Hd. unfold changeMemberCapabilities. wp_steps; try done.
  wf_chain.
  match goal with Hm : dom_members d !! _ = Some ?m |- _ =>
    pose proof (if_members _ _ _ _ (wf_identities _ _ Hd) _ _ Hm) as Hid;
    apply wf_put_member; [done|done|left; rewrite Hid; by exists m] end.
Qed.

Lemma wf_revoke_membership at_ target d :
  WellFormed n d → is_Some (dom_members d !! tri_MemberID target) →
  is_Some (dom_subscriptions d !! tri_SubscriptionID target) →
  WellFormed n (revoke_membership at_ target d).
Proof.
  intros Hd [m Hm] [s Hs]. unfold revoke_membership. rewrite Hm, Hs.
  match goal with |- WellFormed n (_ <| dom_members := <[?i := ?x]> _ |> <| dom_subscriptions := <[?j := ?y]> _ |>) =>
    change (WellFormed n (put_subscription j y (put_member i x d))) end.
  apply wf_put_subscription; [apply wf_put_member; [done|cbn|left; by exists m]|cbn].
  - by apply (if_members _ _ _ _ (wf_identities _ _ Hd)).
  - by apply (if_subscriptions _ _ _ _ (wf_identities _ _ Hd)).
Qed.

(** A provisioned domain. *)
Lemma wf_new_domain p :
  DomainProvisioning_Validate p = None → WellFormed n (new_domain p).
Proof.
  intros Hv. unfold DomainProvisioning_Validate in Hv. rewrite !err_then_None in Hv.
  destruct Hv as (_ & Hreg & Hsub & Hmem & _).
  assert (shapes (new_domain p) = ∅) as Hsh by apply fmap_empty.
  split; [unfold Messages_ok|unfold Blobs_ok|unfold Fences_ok|unfold Checkpoints_ok|
    unfold Quota_ok|unfold Identities_ok]; try rewrite Hsh.
  - split; cbn; [lia|done|by intros ?? ?%lookup_empty_Some|by intros ? ?%elem_of_nil|
      constructor| |done].
    intros id r. rewrite lookup_empty, elem_of_nil. naive_solver.
  - split; cbn; [by intros ?? ?%lookup_empty_Some|done].
  - split; cbn; try (by intros ?? ?%lookup_empty_Some).
    + by intros ?? (f & ?%lookup_empty_Some & _).
    + by intros ??? ?%elem_of_nil.
    + by intros ????? ?%lookup_empty_Some.
  - split; cbn; try (by intros ?? ?%lookup_empty_Some); try done.
    + constructor.
    + by intros ? ?%elem_of_nil.
  - split; [done|]. cbn. intros Hns. unfold DomainRegistration_Validate in Hreg.
    rewrite err_then_None, !err_when_None in Hreg. destruct Hreg as [_ Hb].
    unfold zlen. simpl. split; apply Z.lt_le_incl; apply Znot_ge_lt; intros Hle; apply Hb;
      (split; [done|lia]).
  - split; cbn.
    + by intros id s [<- <-]%lookup_singleton_Some.
    + by intros id m [<- <-]%lookup_singleton_Some.
    + by intros ?? ?%lookup_empty_Some.
    + unfold zsize. rewrite map_size_singleton. done.
    + done.
    + done.
Qed.
End preservation.

(** ** Lookups *)

Lemma readable_subscription_spec d memberID s :
  readableMemberSubscription d memberID = inr s ↔
  ∃ id, dom_memberSubscriptions d !! memberID = Some id ∧ id ≠ uuid_Nil ∧
    dom_subscriptions d !! id = Some s ∧
    (sub_Status s = SubscriptionActive ∨ sub_Status s = SubscriptionRebootstrapRequired).
Proof.
  unfold readableMemberSubscription.
  destruct (dom_memberSubscriptions d !! memberID) as [id|]; [|naive_solver].
  case_decide; [naive_solver|].
  destruct (dom_subscriptions d !! id) as [x|] eqn:Hx; [|naive_solver].
  case_decide as Hst.
  - split; [done|]. intros (id' & [= <-] & _ & Hx' & Hs). simplify_eq. tauto.
  - split.
    + intros [= <-]. exists id. split_and!; try done.
      destruct (decide (sub_Status x = SubscriptionActive)); [by left|].
      destruct (decide (sub_Status x = SubscriptionRebootstrapRequired)); [by right|tauto].
    + intros (id' & [= <-] & _ & Hx' & _). by simplify_eq.
Qed.

Lemma active_subscription_spec d memberID s :
  activeMemberSubscription d memberID = inr s ↔
  ∃ id, dom_memberSubscriptions d !! memberID = Some id ∧ id ≠ uuid_Nil ∧
    dom_subscriptions d !! id = Some s ∧ sub_Status s = SubscriptionActive.
Proof.
  unfold activeMemberSubscription.
  destruct (readableMemberSubscription d memberID) as [e|x] eqn:Hr.
  - split; [done|]. intros (id & H1 & H2 & H3 & H4).
    assert (readableMemberSubscription d memberID = inr s) as Hs.
    { apply readable_subscription_spec. exists id. auto. }
    congruence.
  - case_decide as Ha.
    + split; [done|]. intros (id & H1 & H2 & H3 & H4).
      assert (readableMemberSubscription d memberID = inr s) as Hs.
      { apply readable_subscription_spec. exists id. auto. }
      congruence.
    + apply readable_subscription_spec in Hr as (id & H1 & H2 & H3 & _).
      split; [intros [= <-]; by exists id|].
      intros (id' & H1' & _ & H3' & _). congruence.
Qed.

(** The subscription a member reads through sits under its own identifier. *)
Lemma readable_stored n d memberID s :
  WellFormed n d → readableMemberSubscription d memberID = inr s →
  dom_subscriptions d !! sub_SubscriptionID s = Some s ∧ sub_SubscriptionID s ≠ uuid_Nil.
Proof.
  intros Hd (id & _ & Hnil & Hs & _)%readable_subscription_spec.
  by rewrite (if_subscriptions _ _ _ _ (wf_identities _ _ Hd) id s Hs).
Qed.

(** ** Forgetting acknowledgments *)

Lemma put_message_wf n d r m m' :
  WellFormed n d → dom_heap d !! r = Some m → shape m' = shape m →
  WellFormed n (put_message r m' d).
Proof.
  intros Hd Hr Hs. pose proof (shapes_put_message r m m' d Hr Hs) as Hsh.
  wf_auto.
  - unfold Messages_ok. rewrite Hsh. exact (wf_messages _ _ Hd).
  - unfold Fences_ok. rewrite Hsh. exact (wf_fences _ _ Hd).
  - unfold Checkpoints_ok. rewrite Hsh. exact (wf_checkpoints _ _ Hd).
  - unfold Quota_ok. rewrite Hsh. exact (wf_quota _ _ Hd).
Qed.

Lemma wf_forget_acknowledgments n id start d :
  WellFormed n d → WellFormed n (forget_acknowledgments id start d).
Proof.
  intros Hd. apply (foldl_invariant (WellFormed n)); [done|]. clear. intros d r Hd.
  unfold forget_acknowledgment. destruct (dom_heap d !! r) as [m|] eqn:Hr; [|done].
  case_decide; [|done]. by apply (put_message_wf n d r m).
Qed.

(** It changes nothing but the heap. *)
Lemma forget_acknowledgments_frame id start d :
  ∃ heap, forget_acknowledgments id start d = d <| dom_heap := heap |>.
Proof.
  unfold forget_acknowledgments. generalize (dom_messages d). intros l. revert d.
  induction l as [|r l IH]; intros d; simpl; [exists (dom_heap d); by destruct d|].
  destruct (IH (forget_acknowledgment id start d r)) as [heap Hh]. rewrite Hh.
  unfold forget_acknowledgment. destruct (dom_heap d !! r); [|by eauto].
  case_decide; [|by eauto]. exists heap. by destruct d.
Qed.

Section preservation.
Context `{UuidLib} (n : N).

Lemma preserves_createSubscription credential request :
  Preserves (WellFormed n) (createSubscription credential request).
Proof.
  intros d Hd. unfold createSubscription. wp_steps; try done. wf_chain.
  by apply wf_put_subscription.
Qed.

Lemma preserves_changeSubscriptionStatus id request :
  Preserves (WellFormed n) (changeSubscriptionStatus id request).
Proof.
  intros d Hd. unfold changeSubscriptionStatus. wp_steps; try done.
  all: wf_chain; apply wf_put_subscription; [done|cbn].
  all: by eapply if_subscriptions; [apply Hd|].
Qed.

Lemma wf_enter_recovery subscription start now d :
  WellFormed n d →
  wp (enter_recovery subscription start now) (fun d' _ => WellFormed n d') d.
Proof.
  intros Hd. unfold enter_recovery. wp_steps.
  apply wf_put_subscription; [by apply wf_forget_acknowledgments|done].
Qed.

Lemma preserves_requestRebootstrap credential request expires now :
  Preserves (WellFormed n) (requestSubscriptionRebootstrap credential request expires now).
Proof.
  intros d Hd. unfold requestSubscriptionRebootstrap. wp_steps; try done.
  all: eapply wp_mono; [by apply wf_enter_recovery|].
  all: intros d' [?|?] Hd'; [done|]; wp_steps; wf_auto.
Qed.

Lemma preserves_renewRebootstrap credential renewal expires now :
  Preserves (WellFormed n) (renewSubscriptionRebootstrap credential renewal expires now).
Proof.
  intros d Hd. unfold renewSubscriptionRebootstrap. wp_steps; try done.
  all: repeat wf_chain.
Qed.

Lemma preserves_cancelRebootstrap credential cancellation :
  Preserves (WellFormed n) (cancelSubscriptionRebootstrap credential cancellation).
Proof.
  intros d Hd. unfold cancelSubscriptionRebootstrap. wp_steps; try done. wf_chain.
Qed.

Lemma preserves_completeRebootstrap credential completion through now :
  Preserves (WellFormed n) (completeSubscriptionRebootstrap credential completion through now).
Proof.
  intros d Hd. unfold completeSubscriptionRebootstrap. wp_steps; wf_refreshed; try done.
  wf_chain. by apply wf_put_subscription.
Qed.
End preservation.

(** ** The active fence *)

Lemma active_for_subscription_Some d id f :
  memoryActiveFenceForSubscription d id = Some f →
  ∃ k, dom_checkpointFences d !! k = Some f ∧ mcf_Status f = CheckpointFenceActive ∧
    mcf_holderSubscriptionID f = id.
Proof.
  unfold memoryActiveFenceForSubscription. intros Hh.
  assert (f ∈ filter (active_for id) (map_to_list (dom_checkpointFences d)).*2) as Hin.
  { destruct (filter _ _); simpl in Hh; [done|]. simplify_eq. by left. }
  apply list_elem_of_filter in Hin as [[Ha Hs] ([k g] & -> & Hkg)%list_elem_of_fmap].
  apply elem_of_map_to_list in Hkg. by exists k.
Qed.

Lemma active_for_subscription_exists d id k f :
  dom_checkpointFences d !! k = Some f → mcf_Status f = CheckpointFenceActive →
  mcf_holderSubscriptionID f = id → is_Some (memoryActiveFenceForSubscription d id).
Proof.
  intros Hk Ha Hs. unfold memoryActiveFenceForSubscription.
  assert (f ∈ filter (active_for id) (map_to_list (dom_checkpointFences d)).*2) as Hin.
  { apply list_elem_of_filter. split; [done|]. apply list_elem_of_fmap. exists (k, f).
    by rewrite elem_of_map_to_list. }
  destruct (filter _ _); [by apply elem_of_nil in Hin|]. by eexists.
Qed.

(** The tag that a write of a subscription gets. *)
Definition fence_tag (d : memoryDomain) (id : UUID) : option UUID :=
  (fun fence => cfs_FenceID (mcf_state fence)) <$> memoryActiveFenceForSubscription d id.

(** When no other subscription holds the active fence, the tag is its key. *)
Lemma fence_tag_active n d id k :
  WellFormed n d →
  (∀ k f, dom_checkpointFences d !! k = Some f → mcf_Status f = CheckpointFenceActive →
     mcf_holderSubscriptionID f = id) →
  fence_tag d id = Some k ↔ active_fence (dom_checkpointFences d) k.
Proof.
  intros Hd Hown. unfold fence_tag. split.
  - intros (f & (k' & Hk & Ha & _)%active_for_subscription_Some & ->)%fmap_Some.
    rewrite (ff_key _ _ _ _ _ (wf_fences _ _ Hd) k' f Hk). by exists f.
  - intros (f & Hk & Ha).
    destruct (active_for_subscription_exists d id k f Hk Ha (Hown k f Hk Ha)) as [g Hg].
    rewrite Hg. simpl. f_equal.
    apply active_for_subscription_Some in Hg as (k' & Hk' & Ha' & _).
    rewrite (ff_key _ _ _ _ _ (wf_fences _ _ Hd) k' g Hk').
    apply (ff_one _ _ _ _ _ (wf_fences _ _ Hd)); by eexists.
Qed.

(** ** Appending a message *)

Section appending.
#[local] Set Default Proof Using "All".
Context (n : N) (d : memoryDomain) (m : memoryMessage).
Hypothesis Hn : Z.of_N n < MaximumSequence.
Hypothesis Hd : WellFormed n d.
Hypothesis Hsequence : mm_Sequence m = u64 (dom_nextSequence d + 1).
Hypothesis Hbytes : 0 ≤ mm_byteCount m.
Hypothesis Hnew : dom_messageByID d !! mm_MessageID m = None.
Hypothesis Hown : ∀ k f, dom_checkpointFences d !! k = Some f →
  mcf_Status f = CheckpointFenceActive →
  mcf_holderSubscriptionID f = mm_publisherSubscription m.
Hypothesis Htag : mm_checkpointFenceID m = fence_tag d (mm_publisherSubscription m).
Hypothesis Hquota : ¬ DomainRegistration_UsesSharedCapacity (dom_registration d) →
  zlen (dom_messages d) < dr_MaximumMessageCount (dom_registration d) ∧
  mm_byteCount m ≤ i64 (dr_MaximumMessageByteCount (dom_registration d) - dom_messageBytes d).

Let r := dom_nextRef d.
Let d' := append_message m (d <| dom_nextSequence := u64 (dom_nextSequence d + 1) |>).

Lemma append_fields :
  shapes d' = <[r := shape m]> (shapes d) ∧ dom_nextRef d' = (r + 1)%N ∧
  dom_messages d' = dom_messages d ++ [r] ∧
  dom_messageByID d' = <[mm_MessageID m := r]> (dom_messageByID d) ∧
  dom_messageBytes d' = i64 (dom_messageBytes d + mm_byteCount m) ∧
  dom_nextSequence d' = Z.of_N r + 1 ∧ dom_nextSequence d = Z.of_N r.
Proof.
  destruct (wf_messages _ _ Hd) as [Hb Hs _ _ _ _ _]. split_and!; try done.
  - unfold shapes. apply fmap_insert.
  - cbn. rewrite Hs. unfold MaximumSequence in Hn. rewrite u64_small by lia. done.
Qed.

Lemma append_fresh : shapes d !! r = None ∧ ∀ x, x ∈ dom_messages d → x ≠ r.
Proof.
  destruct (wf_messages _ _ Hd) as [_ _ Hh Hr _ _ _]. split.
  - destruct (shapes d !! r) eqn:Hx; [|done]. apply Hh in Hx. unfold r in Hx. lia.
  - intros x [y Hy]%Hr ->. apply Hh in Hy. unfold r in Hy. lia.
Qed.

Lemma append_messages : Messages_ok (n + 1) d'.
Proof.
  destruct append_fields as (Hsh & Href & Hms & Hix & Hby & Hsq' & Hsq).
  destruct append_fresh as [Hfresh Hne].
  pose proof (wf_messages _ _ Hd) as [Hb Hs Hh Hr Hso Hi Ht].
  unfold Messages_ok. rewrite Hsh, Href, Hms, Hix, Hby, Hsq'. split.
  - unfold r. lia.
  - lia.
  - intros x y [[<- <-]|[_ Hy]]%lookup_insert_Some; [|apply Hh in Hy; unfold r; lia].
    split; [lia|split; [|done]].
    transitivity (mm_Sequence m); [done|]. rewrite Hsequence. exact Hsq'.
  - intros x [Hx|Hx%list_elem_of_singleton]%elem_of_app.
    + rewrite lookup_insert_ne by (intros <-; by apply (Hne r)). by apply Hr.
    + subst. by rewrite lookup_insert_eq.
  - apply sorted_snoc; [done|]. rewrite Forall_forall. intros x Hx.
    destruct (Hr x Hx) as [y Hy]. apply Hh in Hy. unfold r. lia.
  - intros id x. rewrite lookup_insert_Some, elem_of_app, list_elem_of_singleton. split.
    + intros [[<- <-]|[Hne' (Hx & y & Hy & Hid)%Hi]].
      * split; [by right|]. exists (shape m). by rewrite lookup_insert_eq.
      * split; [by left|]. exists y. rewrite lookup_insert_ne; [done|].
        intros <-. by apply (Hne r).
    + intros [[Hx| ->] (y & Hy & Hid)].
      * right. rewrite lookup_insert_ne in Hy by (intros <-; by apply (Hne r)).
        assert (dom_messageByID d !! id = Some x) as Hix' by (apply Hi; eauto).
        split; [|done]. intros <-. congruence.
      * left. rewrite lookup_insert_eq in Hy. simplify_eq. done.
  - rewrite objects_insert_fresh by done. rewrite list_sum_app, Ht, i64_add_l.
    f_equal. simpl. change (mm_byteCount (shape m)) with (mm_byteCount m). lia.
Qed.

Lemma append_fences : Fences_ok d'.
Proof.
  destruct append_fields as (Hsh & _ & Hms & _ & _ & Hsq' & Hsq).
  destruct append_fresh as [Hfresh Hne].
  pose proof (wf_messages _ _ Hd) as [_ _ Hh _ _ _ _].
  pose proof (wf_fences _ _ Hd) as [Hk H1 Hb Ht Hq Hbt].
  change (dom_blobFenceIDs d') with (dom_blobFenceIDs d).
  unfold Fences_ok. rewrite Hsh, Hms, Hsq'.
  change (dom_checkpointFences d') with (dom_checkpointFences d).
  change (dom_blobFenceIDs d') with (dom_blobFenceIDs d). split; try done.
  - intros id f Hf. destruct (Hb id f Hf) as (b & ? & ?). exists b. split; [done|lia].
  - intros x y id [Hx|Hx%list_elem_of_singleton]%elem_of_app Hy Hid.
    + rewrite lookup_insert_ne in Hy by (intros <-; by apply (Hne r)). by apply (Ht x y).
    + subst x. rewrite lookup_insert_eq in Hy. injection Hy as <-.
      change (mm_checkpointFenceID m = Some id) in Hid. rewrite Htag in Hid.
      apply (fence_tag_active n) in Hid as (f & Hf & Ha); [|done|done].
      exists f. split; [done|by left].
  - intros id f b x y Hf Ha Hcur [Hx|Hx%list_elem_of_singleton]%elem_of_app Hy.
    + rewrite lookup_insert_ne in Hy by (intros <-; by apply (Hne r)). by apply (Hq id f b x).
    + subst x. rewrite lookup_insert_eq in Hy. injection Hy as <-.
      change (mm_checkpointFenceID (shape m)) with (mm_checkpointFenceID m).
      change (mm_publisherSubscription (shape m)) with (mm_publisherSubscription m).
      change (mm_Sequence (shape m)) with (mm_Sequence m).
      split; [|intros _; symmetry; by apply (Hown id)].
      destruct (Hb id f Hf) as (b' & Hb' & Hrange). assert (b' = b) as -> by congruence.
      change (u64 (dom_nextSequence d + 1) = Z.of_N r + 1) in Hsq'.
      rewrite Hsequence, Hsq', Htag, (fence_tag_active n) by done.
      split; [intros _; by exists f|lia].
Qed.

Lemma append_checkpoints : Checkpoints_ok d'.
Proof.
  destruct append_fields as (Hsh & _ & _ & Hix & _ & Hsq' & Hsq).
  destruct append_fresh as [Hfresh Hne].
  pose proof (wf_checkpoints _ _ Hd) as [Hnd Hl Ha Hr Hcov Hst Hm Hb].
  unfold Checkpoints_ok. rewrite Hsh, Hix, Hsq'. split; try done.
  - intros id c Hc. apply Hcov in Hc. lia.
  - intros id c mid x Hlast Hc Hdel. destruct (Hm id c mid x Hlast Hc Hdel) as (Hi & Hret & Hall).
    split; [|split; [done|]].
    + rewrite lookup_insert_ne; [done|]. congruence.
    + intros y Hy. apply Hall. rewrite lookup_insert_ne in Hy; [done|]. intros <-.
      apply (mf_index _ _ _ _ _ _ _ (wf_messages _ _ Hd)) in Hi as [Hin _]. by apply (Hne r).
Qed.

Lemma append_quota : Quota_ok d'.
Proof.
  destruct append_fields as (Hsh & _ & Hms & _).
  destruct append_fresh as [Hfresh Hne].
  pose proof (wf_messages _ _ Hd) as HM.
  pose proof (wf_quota _ _ Hd) as [Hv Hq].
  unfold Quota_ok. rewrite Hsh, Hms.
  change (dom_registration d') with (dom_registration d). split; [done|]. intros Hns.
  destruct (Hq Hns) as [Hc Hs]. destruct (Hquota Hns) as [Hc' Hs'].
  rewrite zlen_app, objects_insert_fresh, list_sum_app by (try done; apply HM).
  split; [change (zlen [r]) with 1; lia|]. simpl.
  change (mm_byteCount (shape m)) with (mm_byteCount m).
  pose proof (list_sum_nonneg mm_byteCount _ (objects_nonneg _ _ _ _ _ _ _ HM)) as Hpos.
  assert (dr_MaximumMessageByteCount (dom_registration d) ≤ AbsoluteMaximumMessageByteCount).
  { unfold DomainRegistration_Validate in Hv. rewrite err_then_None, !err_when_None in Hv.
    apply Znot_gt_le. intros Hgt. destruct Hv as [_ Hv]. apply Hv. split; [done|lia]. }
  unfold AbsoluteMaximumMessageByteCount in *.
  rewrite (mf_bytes _ _ _ _ _ _ _ HM), (i64_small (list_sum _ _)) in Hs' by lia.
  rewrite i64_small in Hs' by lia. lia.
Qed.

Lemma wf_append : WellFormed (n + 1) d'.
Proof.
  split.
  - exact append_messages.
  - exact (wf_blobs _ _ Hd).
  - exact append_fences.
  - exact append_checkpoints.
  - exact append_quota.
  - exact (wf_identities _ _ Hd).
Qed.
End appending.

(** ** Lookups *)

Lemma lookup_message_spec n d id r m :
  WellFormed n d →
  lookup_message d id = Some (r, m) ↔ dom_messageByID d !! id = Some r ∧ dom_heap d !! r = Some m.
Proof.
  intros Hd. unfold lookup_message. split.
  - intros Hl. apply bind_Some in Hl as (r' & Hr & Hl). apply bind_Some in Hl as (m' & Hm & Hl).
    by simplify_eq.
  - intros [Hr Hm]. apply bind_Some. exists r. split; [done|]. apply bind_Some. by exists m.
Qed.

Lemma lookup_message_None n d id :
  WellFormed n d → lookup_message d id = None → dom_messageByID d !! id = None.
Proof.
  intros Hd Hl. destruct (dom_messageByID d !! id) as [r|] eqn:Hr; [|done]. exfalso.
  pose proof Hr as (_ & m & Hm & _)%(mf_index _ _ _ _ _ _ _ (wf_messages _ _ Hd)).
  apply lookup_shapes in Hm as (m' & Hm & ->).
  assert (lookup_message d id = Some (r, m')) as Hs by by apply (lookup_message_spec n).
  congruence.
Qed.

Section preservation.
Context `{UuidLib} (n : N).

Lemma ciphertext_nonneg e count :
  Envelope_CiphertextByteCount e = inr count → 0 ≤ count.
Proof.
  unfold Envelope_CiphertextByteCount. destruct (Envelope_Validate e); [done|].
  destruct (b64_DecodeString _); [|done]. intros [= <-]. unfold zlen. lia.
Qed.

Lemma message_capacity d count :
  ensureMessageCapacity d count = None →
  ¬ DomainRegistration_UsesSharedCapacity (dom_registration d) →
  count ≤ i64 (dr_MaximumMessageByteCount (dom_registration d) - dom_messageBytes d).
Proof. unfold ensureMessageCapacity. rewrite err_when_None. intros Hn Hs. apply Znot_gt_le. tauto. Qed.

Lemma wf_publish s credential envelope now d :
  Z.of_N n < MaximumSequence → WellFormed n d →
  wp (publish s credential envelope now) (fun d' _ => WellFormed (n + 1) d') d.
Proof.
  intros Hn Hd. assert (WellFormed (n + 1) d) as Hd1 by (apply (wf_mono n); [lia|done]).
  unfold publish. wp_steps; try done.
  eapply wp_mono; [by apply (allows_write_spec n)|]. cbv beta. intros e [err|[]] (He & Hre & Hown).
  { apply (wf_mono n); [lia|done]. }
  specialize (Hown tt eq_refl).
  assert (WellFormed (n + 1) e) as He1 by (apply (wf_mono n); [lia|done]).
  wp_steps; try done. apply wf_append; try done.
  - by eapply ciphertext_nonneg.
  - apply (lookup_message_None n) in Heqo; [|done]. subst e.
    eapply lookup_weaken_None; [exact Heqo|]. by apply (sh_index _ _ (refresh_shrinks n now d Hd)).
  - intros Hs. split; [apply Znot_ge_lt; tauto|]. by apply message_capacity.
Qed.

Lemma preserves_fetch credential cursor limit now :
  Preserves (WellFormed n) (fetch credential cursor limit now).
Proof. intros d Hd. unfold fetch. wp_steps; wf_refreshed; done. Qed.

Lemma preserves_getMessage credential id now :
  Preserves (WellFormed n) (getMessage credential id now).
Proof. intros d Hd. unfold getMessage. wp_steps; wf_refreshed; done. Qed.

Lemma preserves_acknowledge credential id stage now :
  Preserves (WellFormed n) (acknowledge credential id stage now).
Proof.
  intros d Hd. unfold acknowledge. wp_steps; try done.
  all: match goal with Hl : lookup_message _ _ = Some _ |- _ =>
         apply (lookup_message_spec n) in Hl as [_ Hr]; [|done] end.
  all: by eapply put_message_wf.
Qed.
End preservation.

(** ** Publishing a blob *)

(** The tags after a publication. *)
Definition tag_blob (d : memoryDomain) (id : UUID) (blobID : string) : gmap string UUID :=
  match fence_tag d id with
  | Some fenceID => <[blobID := fenceID]> (dom_blobFenceIDs d)
  | None => dom_blobFenceIDs d
  end.

Lemma publish_blob_eq id blob d :
  publish_blob id blob d =
  d <| dom_blobs := <[bm_BlobID blob := blob]> (dom_blobs d) |>
    <| dom_blobFenceIDs := tag_blob d id (bm_BlobID blob) |>
    <| dom_blobBytes := i64 (dom_blobBytes d + bm_ByteCount blob) |>.
Proof.
  unfold publish_blob, tag_blob, fence_tag.
  change (memoryActiveFenceForSubscription (d <| dom_blobs := _ |>) id)
    with (memoryActiveFenceForSubscription d id).
  destruct (memoryActiveFenceForSubscription d id); by destruct d.
Qed.

Lemma tag_blob_Some d id blobID bid fid :
  tag_blob d id blobID !! bid = Some fid →
  (bid = blobID ∧ fence_tag d id = Some fid) ∨
  (dom_blobFenceIDs d !! bid = Some fid ∧ (bid = blobID → fence_tag d id = None)).
Proof.
  unfold tag_blob. destruct (fence_tag d id) as [k|] eqn:Hk; [|by right].
  intros [[<- <-]|[Hne Hb]]%lookup_insert_Some; [by left|]. right. split; [done|].
  intros ->. done.
Qed.

Section publishing.
#[local] Set Default Proof Using "All".
Context (n : N) (d : memoryDomain) (id : UUID) (blob : BlobMetadata).
Hypothesis Hd : WellFormed n d.
Hypothesis Hnew : dom_blobs d !! bm_BlobID blob = None.
Hypothesis Hcount : 0 ≤ bm_ByteCount blob.

Lemma publish_blob_blobs : Blobs_ok (publish_blob id blob d).
Proof.
  destruct (wf_blobs _ _ Hd) as [He Hb]. rewrite publish_blob_eq. split; cbn.
  - intros k b [[<- <-]|[_ Hk]]%lookup_insert_Some; [done|by apply He].
  - rewrite map_sum_insert, Hb, i64_add_l by done. f_equal. lia.
Qed.

Lemma publish_blob_fences : Fences_ok (publish_blob id blob d).
Proof.
  destruct (wf_fences _ _ Hd) as [Hk H1 Hb Ht Hq Hbt]. rewrite publish_blob_eq.
  split; try done; cbn. intros b fid [[-> Htag]|[Hold _]]%tag_blob_Some; [|by apply (Hbt b)].
  apply fmap_Some in Htag as (f & (k & Hf & Ha & _)%active_for_subscription_Some & ->).
  exists f. rewrite (Hk k f Hf). split; [done|by left].
Qed.

Lemma publish_blob_checkpoints : Checkpoints_ok (publish_blob id blob d).
Proof.
  destruct (wf_checkpoints _ _ Hd) as [Hnd Hl Ha Hr Hcov Hst Hm Hb]. rewrite publish_blob_eq.
  split; try done; cbn.
  intros k c bid b Hlast Hc Hdel. destruct (Hb k c bid b Hlast Hc Hdel) as (Hi & Hret & Hall).
  assert (bid ≠ bm_BlobID blob) by congruence.
  split; [by rewrite lookup_insert_ne|split; [done|]].
  intros fid [[? _]|[Hold _]]%tag_blob_Some; [done|by apply Hall].
Qed.

Lemma wf_publish_blob : WellFormed n (publish_blob id blob d).
Proof.
  pose proof publish_blob_blobs. pose proof publish_blob_fences.
  pose proof publish_blob_checkpoints. rewrite publish_blob_eq in *.
  split; try done; apply Hd.
Qed.
End publishing.

Lemma blob_capacity d count :
  ensureBlobCapacity d count = None →
  ¬ DomainRegistration_UsesSharedCapacity (dom_registration d) →
  zsize (dom_blobs d) < dr_MaximumBlobCount (dom_registration d) ∧
  count ≤ i64 (dr_MaximumBlobByteCount (dom_registration d) - dom_blobBytes d).
Proof.
  unfold ensureBlobCapacity. rewrite err_then_None, !err_when_None. intros [H1 H2] Hs.
  split; [apply Znot_ge_lt|apply Znot_gt_le]; tauto.
Qed.

Lemma blob_request_count blobID count :
  validateBlobRequest blobID count = None → 0 ≤ count ≤ MaximumBlobByteCount.
Proof. unfold validateBlobRequest. rewrite err_then_None, err_when_None. lia. Qed.

Section preservation.
Context `{UuidLib} (n : N).

Lemma preserves_prepareBlobPublish blobID count :
  Preserves (WellFormed n) (prepareBlobPublish blobID count).
Proof. intros d Hd. unfold prepareBlobPublish. by wp_steps. Qed.

Lemma preserves_commitBlobPublish s credential blobID count now :
  validateBlobRequest blobID count = None →
  Preserves (WellFormed n) (commitBlobPublish s credential blobID count now).
Proof.
  intros Hv d Hd. unfold commitBlobPublish. wp_steps; try done.
  eapply wp_mono; [by apply (allows_write_spec n)|]. cbv beta.
  intros e [err|[]] (He & Hre & Hown); [done|]. wp_steps; try done.
  apply wf_publish_blob; [done| |by eapply blob_request_count].
  subst e. eapply lookup_weaken_None; [done|].
  by apply (sh_blobs _ _ (refresh_shrinks n now d Hd)).
Qed.

Lemma preserves_getBlobMetadata blobID : Preserves (WellFormed n) (getBlobMetadata blobID).
Proof. intros d Hd. unfold getBlobMetadata. by wp_steps. Qed.

Lemma preserves_createBlobUpload s credential request now :
  Preserves (WellFormed n) (createBlobUpload s credential request now).
Proof.
  intros d Hd. unfold createBlobUpload. wp_steps; try done.
  eapply wp_mono; [by apply (allows_write_spec n)|]. cbv beta.
  intros e [err|[]] (He & Hre & Hown); [done|]. wp_steps; try done. repeat wf_chain. wf_auto.
Qed.

(** [owned_upload] reads. *)
Lemma owned_upload_spec credential id d :
  wp (owned_upload credential id) (fun d' r => d' = d ∧
    ∀ u s, r = inr (u, s) → dom_blobUploads d !! id = Some u ∧
      activeMemberSubscription d (cred_MemberID credential) = inr s ∧
      mbu_subscriptionID u = sub_SubscriptionID s) d.
Proof.
  unfold owned_upload. wp_steps; (split; [done|]); try done.
  intros u s [= <- <-]. split_and!; [done| |].
  - destruct (activeMemberSubscription d _); [done|]. by simplify_eq.
  - apply dec_stable. intros Hne. by apply H2.
Qed.

Lemma preserves_appendBlobUploadChunk credential request now write :
  Preserves (WellFormed n) (appendBlobUploadChunk credential request now write).
Proof.
  intros d Hd. unfold appendBlobUploadChunk. wp_step.
  eapply wp_mono; [apply owned_upload_spec|]. cbv beta.
  intros d1 [err|[u s]] [-> Hu]; [done|]. wp_steps; try done.
  eapply wp_mono; [by apply (allows_write_spec n)|]. cbv beta.
  intros e [err|[]] (He & Hre & Hown); [done|]. wp_steps; try done. wf_auto.
Qed.

Lemma preserves_finalizeBlobUpload credential request now publish :
  BlobUploadFinalizationRequest_Validate request = None →
  Preserves (WellFormed n) (finalizeBlobUpload credential request now publish).
Proof.
  intros Hv d Hd. unfold finalizeBlobUpload. wp_steps; try done.
  eapply wp_mono; [apply owned_upload_spec|]. cbv beta.
  intros d1 [err|[u s]] [-> Hu]; [done|]. wp_steps; try done.
  eapply wp_mono; [by apply (allows_write_spec n)|]. cbv beta.
  intros e [err|[]] (He & Hre & Hown); [done|]. wp_steps; try done.
  - wf_auto.
  - match goal with |- WellFormed n ?x =>
      match x with context [publish_blob ?i ?b e] =>
        assert (WellFormed n (publish_blob i b e)) as Hp end end.
    { apply wf_publish_blob; [done|done|cbn].
      unfold BlobUploadFinalizationRequest_Validate in Hv.
      rewrite err_then_None, !err_when_None in Hv. lia. }
    revert Hp. generalize (publish_blob (sub_SubscriptionID s)
      (mkBlobMetadata (cred_TenantID credential) (cred_DomainID credential)
         (bufq_RelayBlobID request) (mbu_publisherMemberID u) (bufq_ByteCount request) now) e).
    intros e' He'. wf_auto.
Qed.
End preservation.
