(* ===== verification/RelayCheckpointFacts.v ===== *)
(** * internal/relay: theorems about checkpoints *)

From S2P Require Import Prelude GoEncoding Sha256 RelayModel RelayState RelayFence RelayTenant RelayMember RelaySubscription RelayDelivery RelayBlob RelayCheckpoint RelayMachine RelayExample RelayInvariant RelayFenceFacts RelayOperationFacts.
#[local] Open Scope Z_scope.

(** ** The list of activated checkpoints *)

#[local] Arguments last_two : simpl never.
#[local] Arguments third_last : simpl never.

Lemma third_last_snoc l (x : UUID) :
  third_last (l ++ [x]) = if decide (2 ≤ length l)%nat then l !! (length l - 2)%nat else None.
Proof.
  unfold third_last, zlen. rewrite length_app. simpl.
  repeat case_decide; try lia; [|done].
  rewrite lookup_app_l by lia. f_equal. lia.
Qed.

Lemma last_two_snoc_elem l (x k : UUID) :
  NoDup (l ++ [x]) →
  k ∈ last_two (l ++ [x]) ↔ k = x ∨ (k ∈ last_two l ∧ third_last (l ++ [x]) ≠ Some k).
Proof.
  intros Hnd. rewrite third_last_snoc. unfold last_two. rewrite length_app. simpl.
  rewrite drop_app_le by lia. rewrite elem_of_app, list_elem_of_singleton.
  replace (length l + 1 - 2)%nat with (length l - 1)%nat by lia.
  apply NoDup_app in Hnd as (Hl & _ & _). case_decide as H2.
  - destruct (lookup_lt_is_Some_2 l (length l - 2)) as [y Hy]; [lia|].
    rewrite Hy, (drop_S l y (length l - 2)) by done. replace (S (length l - 2)) with (length l - 1)%nat by lia.
    rewrite <- (take_drop (length l - 2) l), (drop_S l y (length l - 2)) in Hl by done.
    replace (S (length l - 2)) with (length l - 1)%nat in Hl by lia.
    apply NoDup_app in Hl as (_ & _ & [Hyd _]%NoDup_cons).
    rewrite elem_of_cons. split.
    + intros [Hk| ->]; [right|by left]. split; [by right|]. intros [= ->]. done.
    + intros [->|[[->|Hk] Hne]]; [by right|done|by left].
  - replace (length l - 2)%nat with 0%nat by lia. replace (length l - 1)%nat with 0%nat by lia.
    split; [intros [?| ->]; [by right|by left]|intros [->|[? _]]; [by right|by left]].
Qed.

Lemma third_last_elem l (x k : UUID) :
  third_last (l ++ [x]) = Some k → k ∈ last_two l.
Proof.
  rewrite third_last_snoc. case_decide; [|done]. intros Hk. unfold last_two.
  rewrite (drop_S l k (length l - 2)) by done. apply list_elem_of_here.
Qed.

(** ** The frozen sets *)

Lemma freeze_messages_fold n d covered (retained : gset UUID) l (frozen : gmap UUID messageRef) mid r :
  WellFormed n d → (∀ x, x ∈ l → x ∈ dom_messages d) →
  foldl (fun frozen r =>
    match dom_heap d !! r with
    | None => frozen
    | Some message =>
      if decide (mm_Sequence message ≤ covered ∧ mm_MessageID message ∉ retained)
      then <[mm_MessageID message := r]> frozen else frozen
    end) frozen l !! mid = Some r →
  frozen !! mid = Some r ∨
  (r ∈ l ∧ ∃ m, dom_heap d !! r = Some m ∧ mm_MessageID m = mid ∧ mm_Sequence m ≤ covered ∧
     mid ∉ retained).
Proof.
  intros Hd. revert frozen. induction l as [|x l IH]; intros frozen Hl; simpl; [by left|].
  intros [Hf|(Hin & m & Hm)]%IH; [|right|]; [|by split; [right|exists m]|].
  - destruct (dom_heap d !! x) as [m|] eqn:Hx; [|by left].
    case_decide as Hc; [|by left]. apply lookup_insert_Some in Hf as [[<- <-]|[_ Hf]]; [|by left].
    right. split; [by left|]. by exists m.
  - intros y Hy. apply Hl. by right.
Qed.

Lemma freeze_messages_keep n d covered (retained : gset UUID) l (frozen : gmap UUID messageRef) mid r :
  WellFormed n d → (∀ x, x ∈ l → x ∈ dom_messages d) → dom_messageByID d !! mid = Some r →
  frozen !! mid = Some r →
  foldl (fun frozen r =>
    match dom_heap d !! r with
    | None => frozen
    | Some message =>
      if decide (mm_Sequence message ≤ covered ∧ mm_MessageID message ∉ retained)
      then <[mm_MessageID message := r]> frozen else frozen
    end) frozen l !! mid = Some r.
Proof.
  intros Hd Hl Hi. revert frozen. induction l as [|x l IH]; intros frozen Hf; simpl; [done|].
  apply IH; [intros y Hy; apply Hl; by right|].
  destruct (dom_heap d !! x) as [m|] eqn:Hx; [|done]. case_decide; [|done].
  destruct (decide (mm_MessageID m = mid)) as [Hm|]; [|by rewrite lookup_insert_ne].
  assert (dom_messageByID d !! mid = Some x) as Hix.
  { apply (mf_index _ _ _ _ _ _ _ (wf_messages _ _ Hd)). split; [apply Hl; by left|].
    exists (shape m). split; [|done]. apply lookup_shapes. by exists m. }
  rewrite Hm, lookup_insert_eq. congruence.
Qed.

(** The frozen message set: exactly the stored messages that are covered and
    not retained. *)
Lemma freeze_messages_spec n d covered (retained : gset UUID) mid r :
  WellFormed n d →
  freeze_messages d covered retained !! mid = Some r ↔
  dom_messageByID d !! mid = Some r ∧ mid ∉ retained ∧
  ∃ m, dom_heap d !! r = Some m ∧ mm_Sequence m ≤ covered.
Proof.
  intros Hd. unfold freeze_messages. pose proof (wf_messages _ _ Hd) as HM. split.
  - intros [?|(Hin & m & Hm & Hid & Hseq & Hret)]%(freeze_messages_fold n); [done| |done|done].
    split; [|split; [done|by exists m]]. apply (mf_index _ _ _ _ _ _ _ HM). split; [done|].
    exists (shape m). split; [|done]. apply lookup_shapes. by exists m.
  - intros (Hi & Hret & m & Hm & Hseq).
    pose proof Hi as (Hin & m' & Hm' & Hid)%(mf_index _ _ _ _ _ _ _ HM).
    apply lookup_shapes in Hm' as (m'' & Hm' & ->). simplify_eq.
    apply list_elem_of_split in Hin as (l1 & l2 & Hsplit).
    rewrite Hsplit, foldl_app. simpl. rewrite Hm. rewrite decide_True by done.
    apply (freeze_messages_keep n); [done| |done|by rewrite lookup_insert_eq].
    intros x Hx. rewrite Hsplit. apply elem_of_app. right. by right.
Qed.

Lemma freeze_blobs_spec d (retained : gset string) id b :
  freeze_blobs d retained !! id = Some b ↔ dom_blobs d !! id = Some b ∧ id ∉ retained.
Proof. unfold freeze_blobs. rewrite map_lookup_filter_Some. done. Qed.

(** ** Staging *)

Lemma wf_stage n d id c :
  WellFormed n d → dom_checkpoints d !! id = None → mc_state c = staged →
  0 ≤ mc_coveredThrough c ≤ dom_nextSequence d →
  WellFormed n (put_checkpoint id c d).
Proof.
  intros Hd Hfresh Hst Hrange. wf_auto.
  pose proof (wf_checkpoints _ _ Hd) as [Hnd Hl Ha Hr Hcov Hstart Hm Hb].
  assert (id ∉ dom_activatedCheckpoints d) as Hid.
  { intros [x Hx]%Hl. congruence. }
  assert (∀ k, last (dom_activatedCheckpoints d) = Some k → k ≠ id) as Hlast.
  { intros k [l Hk]%last_Some ->. apply Hid. rewrite Hk. apply elem_of_app. right. by left. }
  split; cbn; try done.
  - intros k [x Hx]%Hl. destruct (decide (k = id)) as [->|]; [congruence|].
    rewrite lookup_insert_ne by done. by exists x.
  - intros k x [[<- <-]|[_ Hk]]%lookup_insert_Some; [|by apply Ha]. rewrite Hst.
    split; [done|]. intros ?%last_two_incl. done.
  - intros k x [[<- <-]|[_ Hk]]%lookup_insert_Some; [|by apply Hr]. rewrite Hst.
    split; [done|]. by intros [? _].
  - intros k x [[<- <-]|[_ Hk]]%lookup_insert_Some; [done|by apply (Hcov k)].
  - intros k x [[<- <-]|[_ Hk]]%lookup_insert_Some; [done|by apply (Hstart k)].
  - intros k x mid r Hk. rewrite lookup_insert_ne by (intros ->; by apply (Hlast k)). by apply Hm.
  - intros k x bid b Hk. rewrite lookup_insert_ne by (intros ->; by apply (Hlast k)). by apply Hb.
Qed.

(** ** Activation *)

(** The four mutations of an activation, composed. *)
Definition activate (id : UUID) (c : memoryCheckpoint) (request : CheckpointActivationRequest)
    (d : memoryDomain) : memoryDomain :=
  let ordinal := u64 (dom_checkpointOrdinal d + 1) in
  push_activated id (set_fence_status (cc_FenceID (mc_candidate c)) CheckpointFenceActivated
    (put_checkpoint id (activate_checkpoint d c ordinal request)
       (d <| dom_checkpointOrdinal := ordinal |>))).

Definition activated_checkpoints (id : UUID) (c : memoryCheckpoint)
    (request : CheckpointActivationRequest) (d : memoryDomain) : gmap UUID memoryCheckpoint :=
  let ordinal := u64 (dom_checkpointOrdinal d + 1) in
  let checkpoints := <[id := activate_checkpoint d c ordinal request]> (dom_checkpoints d) in
  match third_last (dom_activatedCheckpoints d ++ [id]) with
  | Some retiredID => alter retire_checkpoint retiredID checkpoints
  | None => checkpoints
  end.

Lemma activate_eq id c request d :
  activate id c request d =
  d <| dom_checkpointOrdinal := u64 (dom_checkpointOrdinal d + 1) |>
    <| dom_checkpoints := activated_checkpoints id c request d |>
    <| dom_checkpointFences :=
         alter (mcf_set_Status CheckpointFenceActivated) (cc_FenceID (mc_candidate c))
           (dom_checkpointFences d) |>
    <| dom_activatedCheckpoints := dom_activatedCheckpoints d ++ [id] |>.
Proof.
  unfold activate, activated_checkpoints, push_activated. cbn.
  destruct (third_last _); by destruct d.
Qed.

Section activation.
#[local] Set Default Proof Using "All".
Context (n : N) (d : memoryDomain) (id : UUID) (c : memoryCheckpoint)
  (request : CheckpointActivationRequest) (f : memoryCheckpointFence).
Hypothesis Hd : WellFormed n d.
Hypothesis Hc : dom_checkpoints d !! id = Some c.
Hypothesis Hstaged : mc_state c = staged.
Hypothesis Hf : dom_checkpointFences d !! cc_FenceID (mc_candidate c) = Some f.
Hypothesis Hactive : mcf_Status f = CheckpointFenceActive.

Lemma activation_fresh : NoDup (dom_activatedCheckpoints d ++ [id]).
Proof.
  pose proof (wf_checkpoints _ _ Hd) as [Hnd Hl Ha Hr _ _ _ _].
  apply NoDup_app. split; [done|]. split; [|apply NoDup_singleton].
  intros x Hx ->%list_elem_of_singleton.
  destruct (decide (id ∈ last_two (dom_activatedCheckpoints d))) as [H2|H2].
  - apply (Ha id c Hc) in H2. congruence.
  - assert (mc_state c = retired) by (apply (Hr id c Hc); done). congruence.
Qed.

Lemma activation_lookup k c' :
  activated_checkpoints id c request d !! k = Some c' ↔
  (k = id ∧ c' = activate_checkpoint d c (u64 (dom_checkpointOrdinal d + 1)) request) ∨
  (k ≠ id ∧ ∃ c0, dom_checkpoints d !! k = Some c0 ∧
     c' = if decide (third_last (dom_activatedCheckpoints d ++ [id]) = Some k)
          then retire_checkpoint c0 else c0).
Proof.
  assert (third_last (dom_activatedCheckpoints d ++ [id]) ≠ Some id) as Hid.
  { intros Hk%third_last_elem%last_two_incl. pose proof activation_fresh as Hnd.
    apply NoDup_app in Hnd as (_ & Hx & _). apply (Hx id Hk). by left. }
  unfold activated_checkpoints. destruct (third_last _) as [x|] eqn:Hx.
  - destruct (decide (k = id)) as [->|Hk].
    + rewrite lookup_alter_ne by congruence. rewrite lookup_insert_eq. naive_solver.
    + destruct (decide (x = k)) as [->|Hxk].
      * rewrite lookup_alter_eq, lookup_insert_ne, fmap_Some by done. split.
        -- intros (c0 & Hk0 & ->). right. split; [done|]. exists c0. by rewrite decide_True.
        -- intros [[? _]|(_ & c0 & Hk0 & ->)]; [done|]. exists c0. by rewrite decide_True.
      * rewrite lookup_alter_ne, lookup_insert_ne by done. split.
        -- intros Hk0. right. split; [done|]. exists c'. by rewrite decide_False by congruence.
        -- intros [[? _]|(_ & c0 & Hk0 & ->)]; [done|]. by rewrite decide_False by congruence.
  - destruct (decide (k = id)) as [->|Hk].
    + rewrite lookup_insert_eq. naive_solver.
    + rewrite lookup_insert_ne by done. naive_solver.
Qed.

Lemma activation_active fid :
  ¬ active_fence (alter (mcf_set_Status CheckpointFenceActivated) (cc_FenceID (mc_candidate c))
                    (dom_checkpointFences d)) fid.
Proof.
  intros (g & Hg & Ha). destruct (decide (fid = cc_FenceID (mc_candidate c))) as [->|Hne].
  - rewrite lookup_alter_eq, Hf in Hg. injection Hg as <-. done.
  - rewrite lookup_alter_ne in Hg by done. apply Hne.
    apply (ff_one _ _ _ _ _ (wf_fences _ _ Hd)); by eexists.
Qed.

Lemma activation_fences : Fences_ok (activate id c request d).
Proof.
  destruct (wf_fences _ _ Hd) as [Hk H1 Hb Ht Hq Hbt].
  assert (∀ k g, dom_checkpointFences d !! k = Some g → live g → ∃ g',
    alter (mcf_set_Status CheckpointFenceActivated) (cc_FenceID (mc_candidate c))
      (dom_checkpointFences d) !! k = Some g' ∧ live g') as Hlive.
  { intros k g Hg Hl. destruct (decide (k = cc_FenceID (mc_candidate c))) as [->|Hne].
    - rewrite lookup_alter_eq, Hg. eexists. split; [done|]. by right.
    - rewrite lookup_alter_ne by done. eauto. }
  rewrite activate_eq. split; cbn.
  - intros k g. destruct (decide (k = cc_FenceID (mc_candidate c))) as [->|Hne].
    + rewrite lookup_alter_eq, Hf. intros [= <-]. exact (Hk _ f Hf).
    + rewrite lookup_alter_ne by done. by apply Hk.
  - intros k1 k2 Ha1. by apply activation_active in Ha1.
  - intros k g. destruct (decide (k = cc_FenceID (mc_candidate c))) as [->|Hne].
    + rewrite lookup_alter_eq, Hf. intros [= <-]. exact (Hb _ f Hf).
    + rewrite lookup_alter_ne by done. by apply Hb.
  - intros r m k Hr Hm Htag. destruct (Ht r m k Hr Hm Htag) as (g & Hg & Hl). by eapply Hlive.
  - intros k g b r m Hg Ha. exfalso. apply (activation_active k). by exists g.
  - intros blob k Hblob. destruct (Hbt blob k Hblob) as (g & Hg & Hl). by eapply Hlive.
Qed.

Lemma activation_checkpoints : Checkpoints_ok (activate id c request d).
Proof.
  pose proof activation_fresh as Hnd'.
  pose proof (wf_checkpoints _ _ Hd) as [Hnd Hl Ha Hr Hcov Hst Hm Hb].
  assert (∀ k, third_last (dom_activatedCheckpoints d ++ [id]) = Some k →
    k ∈ last_two (dom_activatedCheckpoints d)) as Hthird by (intros k; apply third_last_elem).
  assert (id ∉ dom_activatedCheckpoints d) as Hid.
  { apply NoDup_app in Hnd' as (_ & Hx & _). intros Hin. apply (Hx id Hin). by left. }
  rewrite activate_eq. split; cbn; [done|..].
  - intros k [Hk|Hk%list_elem_of_singleton]%elem_of_app.
    + destruct (Hl k Hk) as [x Hx].
      destruct (activated_checkpoints id c request d !! k) eqn:Hk'; [by eexists|].
      exfalso. destruct (decide (k = id)) as [->|Hne]; [done|].
      assert (activated_checkpoints id c request d !! k = Some
        (if decide (third_last (dom_activatedCheckpoints d ++ [id]) = Some k)
         then retire_checkpoint x else x)) as Hs.
      { apply activation_lookup. right. split; [done|]. by exists x. }
      congruence.
    + subst k. eexists. apply activation_lookup. by left.
  - intros k c' [[-> ->]|(Hne & c0 & Hk & ->)]%activation_lookup.
    + rewrite last_two_snoc_elem by done. split; [by left|done].
    + rewrite last_two_snoc_elem by done. case_decide as H3; cbn.
      * split; [done|]. intros [?|[_ ?]]; done.
      * rewrite (Ha k c0 Hk). split; [by right|]. intros [?|[? _]]; done.
  - intros k c' [[-> ->]|(Hne & c0 & Hk & ->)]%activation_lookup.
    + rewrite last_two_snoc_elem by done. split; [done|]. intros [_ Hn]. exfalso. apply Hn.
      by left.
    + rewrite last_two_snoc_elem, elem_of_app, list_elem_of_singleton by done.
      case_decide as H3; cbn.
      * split; [|done]. intros _. split; [left; by apply last_two_incl, Hthird|].
        intros [?|[_ ?]]; done.
      * rewrite (Hr k c0 Hk). split; [intros [H1 H2]; split; [by left|]|].
        -- intros [?|[? _]]; done.
        -- intros [[H1|?] H2]; [|done]. split; [done|]. intros H4. apply H2. by right.
  - intros k c' [[-> ->]|(Hne & c0 & Hk & ->)]%activation_lookup.
    + exact (Hcov id c Hc).
    + case_decide; exact (Hcov k c0 Hk).
  - intros k c' [[-> ->]|(Hne & c0 & Hk & ->)]%activation_lookup; [done|].
    intros [Hin|Hin%list_elem_of_singleton]%elem_of_app; [|done].
    case_decide; exact (Hst k c0 Hk Hin).
  - intros k c' mid r Hlast. rewrite last_snoc in Hlast. injection Hlast as <-.
    intros [[_ ->]|[Hne _]]%activation_lookup; [|done]. cbn.
    intros (Hi & Hret & m & Hm' & Hseq)%(freeze_messages_spec n); [|done].
    split; [done|]. split.
    + intros Hin. apply Hret. rewrite elem_of_list_to_set, elem_of_app. by left.
    + intros m'' (m' & Hm'' & ->)%lookup_shapes. simplify_eq. split; [done|].
      intros fid _. apply activation_active.
  - intros k c' bid b Hlast. rewrite last_snoc in Hlast. injection Hlast as <-.
    intros [[_ ->]|[Hne _]]%activation_lookup; [|done]. cbn.
    intros [Hi Hret]%freeze_blobs_spec. split; [done|]. split.
    + intros Hin. apply Hret. rewrite elem_of_list_to_set, elem_of_app. by left.
    + intros fid _. apply activation_active.
Qed.

Lemma wf_activate : WellFormed n (activate id c request d).
Proof.
  pose proof activation_fences. pose proof activation_checkpoints. rewrite activate_eq in *.
  split; try done; apply Hd.
Qed.
End activation.

(** ** Collection *)

(** The objects behind distinct references are distinct. *)
Lemma deref_nodup n d refs : WellFormed n d → NoDup refs → NoDup (deref d refs).
Proof.
  intros Hd. induction 1 as [|r refs Hr Hrefs IH]; [constructor|]. unfold deref in *. simpl.
  destruct (dom_heap d !! r) as [m|] eqn:Hm; [|done]. apply NoDup_cons. split; [|done].
  intros (r' & Hin & Hm')%list_elem_of_omap.
  assert (∀ x, dom_heap d !! x = Some m → mm_Sequence m = Z.of_N x + 1) as Hseq.
  { intros x Hx. apply (mf_heap _ _ _ _ _ _ _ (wf_messages _ _ Hd) x (shape m)).
    apply lookup_shapes. eauto. }
  pose proof (Hseq _ Hm). pose proof (Hseq _ Hm'). assert (r = r') by lia. by subst.
Qed.

Lemma messages_nodup n d : WellFormed n d → NoDup (dom_messages d).
Proof.
  intros Hd. pose proof (mf_sorted _ _ _ _ _ _ _ (wf_messages _ _ Hd)) as Hs.
  induction Hs as [|r l Hl IH Hr]; constructor; [|done]. rewrite Forall_forall in Hr.
  intros Hin. specialize (Hr r Hin). lia.
Qed.

Lemma cut_sublist {A} maximum (l : list A) : cut maximum l `sublist_of` l.
Proof. unfold cut. case_decide; [apply sublist_take|done]. Qed.

Section collection.
#[local] Set Default Proof Using "All".
Context (n : N) (d : memoryDomain) (id : UUID) (c : memoryCheckpoint).
Hypothesis Hd : WellFormed n d.
Hypothesis Hlast : last (dom_activatedCheckpoints d) = Some id.
Hypothesis Hc : dom_checkpoints d !! id = Some c.

Lemma deletion_messages_nodup : NoDup (deletion_messages d c).
Proof.
  apply (deref_nodup n); [done|]. apply NoDup_fmap_2_strong; [|apply NoDup_map_to_list].
  intros [i1 r1] [i2 r2] H1%elem_of_map_to_list H2%elem_of_map_to_list. simpl. intros <-.
  destruct (cf_messages _ _ _ _ _ _ _ _ (wf_checkpoints _ _ Hd) id c i1 r1 Hlast Hc H1) as [Hi1 _].
  destruct (cf_messages _ _ _ _ _ _ _ _ (wf_checkpoints _ _ Hd) id c i2 r1 Hlast Hc H2) as [Hi2 _].
  apply (mf_index _ _ _ _ _ _ _ (wf_messages _ _ Hd)) in Hi1 as (_ & m1 & Hm1 & <-).
  apply (mf_index _ _ _ _ _ _ _ (wf_messages _ _ Hd)) in Hi2 as (_ & m2 & Hm2 & <-). congruence.
Qed.

(** The deletion set's objects are stored messages under their own identifier. *)
Lemma deletion_messages_spec m :
  m ∈ deletion_messages d c ↔ ∃ r, mc_deletionMessages c !! mm_MessageID m = Some r ∧
    dom_heap d !! r = Some m ∧ dom_messageByID d !! mm_MessageID m = Some r ∧
    r ∈ dom_messages d.
Proof.
  unfold deletion_messages, deref. rewrite list_elem_of_omap. split.
  - intros (r & ([i r'] & -> & Hin%elem_of_map_to_list)%list_elem_of_fmap & Hm). simpl in Hm.
    destruct (cf_messages _ _ _ _ _ _ _ _ (wf_checkpoints _ _ Hd) id c i r' Hlast Hc Hin) as [Hi _].
    pose proof Hi as (Hr & m' & Hm' & Hid)%(mf_index _ _ _ _ _ _ _ (wf_messages _ _ Hd)).
    apply lookup_shapes in Hm' as (m'' & Hm' & ->). simplify_eq. cbn in *.
    by exists r'.
  - intros (r & Hdel & Hm & _). exists r. split; [|done].
    apply list_elem_of_fmap. exists (mm_MessageID m, r). by rewrite elem_of_map_to_list.
Qed.

Context (ms : list memoryMessage).
Hypothesis Hnd : NoDup ms.
Hypothesis Hms : ∀ m, m ∈ ms → m ∈ deletion_messages d c.

Definition selected_ids : gset UUID := list_to_set (mm_MessageID <$> ms).

Lemma selected_elem mid : mid ∈ selected_ids ↔ mid ∈ mm_MessageID <$> ms.
Proof. unfold selected_ids. by rewrite elem_of_list_to_set. Qed.

(** A stored message with a selected identifier is the selected message. *)
Lemma selected_stored r m :
  r ∈ dom_messages d → dom_heap d !! r = Some m → mm_MessageID m ∈ selected_ids → m ∈ ms.
Proof.
  intros Hr Hm (m' & Hid & Hm')%selected_elem%list_elem_of_fmap.
  destruct (proj1 (deletion_messages_spec m') (Hms m' Hm')) as (r' & _ & Hr' & Hi & Hin).
  assert (dom_messageByID d !! mm_MessageID m' = Some r) as Hi'.
  { apply (mf_index _ _ _ _ _ _ _ (wf_messages _ _ Hd)). split; [done|].
    exists (shape m). split; [|done]. apply lookup_shapes. eauto. }
  congruence.
Qed.

(** The collected messages are the stored ones with a selected identifier. *)
Lemma collected_perm :
  ms ≡ₚ filter (fun m => mm_MessageID m ∈ selected_ids) (stored d).
Proof.
  assert (NoDup (stored d)) as Hst.
  { apply (deref_nodup n); [done|]. by apply (messages_nodup n). }
  apply NoDup_Permutation; [done|by apply NoDup_filter|].
  intros m. rewrite list_elem_of_filter. unfold stored, deref. rewrite list_elem_of_omap. split.
  - intros Hm. split; [apply selected_elem, list_elem_of_fmap; eauto|].
    destruct (proj1 (deletion_messages_spec m) (Hms m Hm)) as (r & _ & Hr & _ & Hin). eauto.
  - intros [Hsel (r & Hin & Hr)]. by apply (selected_stored r).
Qed.

Lemma collect_messages_checkpoints : Checkpoints_ok (collect_messages id ms d).
Proof.
  destruct (wf_checkpoints _ _ Hd) as [Hnd' Hl Ha Hr Hcov Hst Hm Hb].
  assert (∀ k c', dom_checkpoints (collect_messages id ms d) !! k = Some c' →
    ∃ c0, dom_checkpoints d !! k = Some c0 ∧
      (k ≠ id ∧ c' = c0 ∨ k = id ∧ c' = c0 <| mc_deletionMessages :=
         foldl (fun m id => delete id m) (mc_deletionMessages c0) (mm_MessageID <$> ms) |>))
    as Hback.
  { intros k c'. unfold collect_messages. cbn. destruct (decide (k = id)) as [->|].
    - rewrite lookup_alter_eq, fmap_Some. naive_solver.
    - rewrite lookup_alter_ne by done. eauto. }
  unfold Checkpoints_ok. unfold collect_messages at 1 3 4 5 7 8. cbn.
  change (shapes (collect_messages id ms d)) with (shapes d).
  split; try done.
  - intros k [c0 Hk]%Hl. unfold collect_messages. cbn. destruct (decide (k = id)) as [->|].
    + rewrite lookup_alter_eq, Hk. done.
    + rewrite lookup_alter_ne by done. eauto.
  - intros k c' (c0 & Hk & [[_ ->]|[-> ->]])%Hback; [by apply Ha|exact (Ha id c0 Hk)].
  - intros k c' (c0 & Hk & [[_ ->]|[-> ->]])%Hback; [by apply Hr|exact (Hr id c0 Hk)].
  - intros k c' (c0 & Hk & [[_ ->]|[-> ->]])%Hback; [by apply (Hcov k)|exact (Hcov id c0 Hk)].
  - intros k c' (c0 & Hk & [[_ ->]|[-> ->]])%Hback; [by apply (Hst k)|exact (Hst id c0 Hk)].
  - intros k c' mid r Hlast' (c0 & Hk & [[Hne _]|[-> ->]])%Hback; [congruence|]. cbn.
    intros [Hdel Hns]%lookup_foldl_delete.
    destruct (Hm id c0 mid r Hlast Hk Hdel) as (Hi & Hret & Hall).
    split; [|by split]. unfold collect_messages. cbn. by apply lookup_foldl_delete.
  - intros k c' bid b Hlast' (c0 & Hk & [[Hne _]|[-> ->]])%Hback; [congruence|].
    exact (Hb id c0 bid b Hlast Hk).
Qed.

Lemma collect_messages_wf : WellFormed n (collect_messages id ms d).
Proof.
  pose proof (wf_messages _ _ Hd) as Hm. pose proof (wf_checkpoints _ _ Hd) as Hck.
  assert (dom_messages (collect_messages id ms d) =
    filter (fun r => some_and (shapes d !! r) (fun m => mm_MessageID m ∉ selected_ids))
      (dom_messages d)) as Hrefs.
  { unfold collect_messages. cbn. apply filter_ext_in. intros r Hr.
    destruct (mf_refs _ _ _ _ _ _ _ Hm r Hr) as [m' (m & Hx & ->)%lookup_shapes].
    unfold shapes. rewrite lookup_fmap, Hx. done. }
  split.
  - unfold Messages_ok. rewrite Hrefs. change (shapes (collect_messages id ms d)) with (shapes d).
    apply (message_facts_filter n _ _ (dom_messages d) (dom_messageByID d) (dom_messageBytes d)
             _ _ _ _ (fun m => mm_MessageID m ∉ selected_ids)); [exact Hm|done| |].
    + intros mid r. cbn. rewrite lookup_foldl_delete, <- selected_elem. split.
      * intros [Hi Hns]. split; [done|].
        apply (mf_index _ _ _ _ _ _ _ Hm) in Hi as (_ & m & -> & <-). done.
      * intros [Hi Hns]. split; [done|].
        apply (mf_index _ _ _ _ _ _ _ Hm) in Hi as (_ & m & Hr & <-). by rewrite Hr in Hns.
    + cbn. rewrite (mf_bytes _ _ _ _ _ _ _ Hm), foldl_i64_sub, i64_sub_l, objects_shapes.
      do 2 f_equal. rewrite sum_filter_shapes by done.
      rewrite (list_sum_perm _ _ _ collected_perm). f_equal. apply filter_ext_in.
      intros m _. destruct (decide (mm_MessageID m ∈ selected_ids)); tauto.
  - exact (wf_blobs _ _ Hd).
  - destruct (wf_fences _ _ Hd) as [Hk H1 Hb Ht Hq Hbt]. unfold Fences_ok. rewrite Hrefs.
    split; try done.
    + intros r m k [_ Hr]%list_elem_of_filter. by apply Ht.
    + intros k f b r m Hf Ha Hcur [_ Hr]%list_elem_of_filter. by apply (Hq k f b).
  - exact collect_messages_checkpoints.
  - unfold Quota_ok. rewrite Hrefs. apply quota_facts_filter; [|exact (wf_quota _ _ Hd)].
    exact (objects_nonneg _ _ _ _ _ _ _ Hm).
  - exact (wf_identities _ _ Hd).
Qed.
End collection.

Section blob_collection.
#[local] Set Default Proof Using "All".
Context (n : N) (d : memoryDomain) (id : UUID) (c : memoryCheckpoint).
Hypothesis Hd : WellFormed n d.
Hypothesis Hlast : last (dom_activatedCheckpoints d) = Some id.
Hypothesis Hc : dom_checkpoints d !! id = Some c.
Context (bs : list (string * BlobMetadata)).
Hypothesis Hnd : NoDup bs.*1.
Hypothesis Hbs : ∀ k b, (k, b) ∈ bs → mc_deletionBlobs c !! k = Some b.

Lemma collected_blob k b : (k, b) ∈ bs → dom_blobs d !! k = Some b.
Proof.
  intros Hb%Hbs. by apply (cf_blobs _ _ _ _ _ _ _ _ (wf_checkpoints _ _ Hd) id c k b Hlast Hc).
Qed.

Lemma collected_entries : omap (fun k => dom_blobs d !! k) bs.*1 = bs.*2.
Proof.
  pose proof collected_blob as Hin. clear -Hin. induction bs as [|[k b] l IH]; [done|].
  simpl. rewrite (Hin k b) by apply list_elem_of_here. f_equal. apply IH.
  intros k' b' H. apply Hin. by right.
Qed.

Lemma collect_blobs_checkpoints : Checkpoints_ok (collect_blobs id bs d).
Proof.
  destruct (wf_checkpoints _ _ Hd) as [Hnd' Hl Ha Hr Hcov Hst Hm Hb].
  assert (∀ k c', dom_checkpoints (collect_blobs id bs d) !! k = Some c' →
    ∃ c0, dom_checkpoints d !! k = Some c0 ∧
      (k ≠ id ∧ c' = c0 ∨ k = id ∧ c' = c0 <| mc_deletionBlobs :=
         foldl (fun m id => delete id m) (mc_deletionBlobs c0) bs.*1 |>)) as Hback.
  { intros k c'. unfold collect_blobs. cbn. destruct (decide (k = id)) as [->|].
    - rewrite lookup_alter_eq, fmap_Some. naive_solver.
    - rewrite lookup_alter_ne by done. eauto. }
  unfold Checkpoints_ok. unfold collect_blobs at 1 2 4 5 7 8. cbn.
  change (shapes (collect_blobs id bs d)) with (shapes d).
  split; try done.
  - intros k [c0 Hk]%Hl. unfold collect_blobs. cbn. destruct (decide (k = id)) as [->|].
    + rewrite lookup_alter_eq, Hk. done.
    + rewrite lookup_alter_ne by done. eauto.
  - intros k c' (c0 & Hk & [[_ ->]|[-> ->]])%Hback; [by apply Ha|exact (Ha id c0 Hk)].
  - intros k c' (c0 & Hk & [[_ ->]|[-> ->]])%Hback; [by apply Hr|exact (Hr id c0 Hk)].
  - intros k c' (c0 & Hk & [[_ ->]|[-> ->]])%Hback; [by apply (Hcov k)|exact (Hcov id c0 Hk)].
  - intros k c' (c0 & Hk & [[_ ->]|[-> ->]])%Hback; [by apply (Hst k)|exact (Hst id c0 Hk)].
  - intros k c' mid r Hlast' (c0 & Hk & [[Hne _]|[-> ->]])%Hback; [congruence|].
    exact (Hm id c0 mid r Hlast Hk).
  - intros k c' bid b Hlast' (c0 & Hk & [[Hne _]|[-> ->]])%Hback; [congruence|]. cbn.
    intros [Hdel Hns]%lookup_foldl_delete.
    destruct (Hb id c0 bid b Hlast Hk Hdel) as (Hi & Hret & Hall).
    split; [|by split]. unfold collect_blobs. cbn. by apply lookup_foldl_delete.
Qed.

Lemma collect_blobs_wf : WellFormed n (collect_blobs id bs d).
Proof.
  wf_auto; [|apply collect_blobs_checkpoints].
  destruct (wf_blobs _ _ Hd) as [He Ht]. split; cbn.
  - intros k b [Hb _]%lookup_foldl_delete. by apply He.
  - rewrite Ht, foldl_i64_sub, map_sum_foldl_delete, collected_entries by done. done.
Qed.
End blob_collection.

(** ** The collection plan *)

Section plans.
Context `{UuidLib}.

(** A plan exists only for the latest activated checkpoint. *)
Lemma plan_latest d id plan :
  memoryCheckpointPlan d id = inr plan →
  ∃ c, dom_checkpoints d !! id = Some c ∧ mc_state c = activated ∧
    latest_activated d = Some id.
Proof.
  unfold memoryCheckpointPlan. destruct (dom_checkpoints d !! id) as [c|]; [|done].
  case_decide as Hx; [done|]. intros _. exists c. split; [done|].
  split; apply dec_stable; tauto.
Qed.

Lemma selected_messages_spec d c maximum :
  selected_messages d c maximum `sublist_of` merge_sort sequence_le (deletion_messages d c) ∧
  (∀ m, m ∈ selected_messages d c maximum → m ∈ deletion_messages d c).
Proof.
  pose proof (cut_sublist maximum (merge_sort sequence_le (deletion_messages d c))) as Hs.
  split; [done|]. intros m Hm. rewrite <- (merge_sort_Permutation sequence_le).
  by eapply elem_of_sublist.
Qed.

Lemma selected_messages_nodup n d id c maximum :
  WellFormed n d → latest_activated d = Some id → dom_checkpoints d !! id = Some c →
  NoDup (selected_messages d c maximum).
Proof.
  intros Hd Hl Hc. eapply sublist_NoDup; [|apply selected_messages_spec].
  rewrite merge_sort_Permutation. by apply (deletion_messages_nodup n d id).
Qed.

Lemma selected_blobs_spec c maximum :
  NoDup (selected_blobs c maximum).*1 ∧
  ∀ k b, (k, b) ∈ selected_blobs c maximum → mc_deletionBlobs c !! k = Some b.
Proof.
  pose proof (cut_sublist maximum (merge_sort blob_key_le (map_to_list (mc_deletionBlobs c))))
    as Hs. split.
  - apply (sublist_NoDup _ (merge_sort blob_key_le (map_to_list (mc_deletionBlobs c))).*1).
    + rewrite merge_sort_Permutation. apply NoDup_fst_map_to_list.
    + unfold selected_blobs, cut. case_decide; [|done].
      rewrite fmap_take. apply sublist_take.
  - intros k b Hin. apply elem_of_map_to_list.
    rewrite <- (merge_sort_Permutation blob_key_le (map_to_list _)). by eapply elem_of_sublist.
Qed.
End plans.

Section preservation.
Context `{UuidLib} (n : N).

(** Collecting messages leaves the blob half of the deletion set alone. *)
Lemma wf_collect d id c ms bs :
  WellFormed n d → latest_activated d = Some id → dom_checkpoints d !! id = Some c →
  NoDup ms → (∀ m, m ∈ ms → m ∈ deletion_messages d c) →
  NoDup bs.*1 → (∀ k b, (k, b) ∈ bs → mc_deletionBlobs c !! k = Some b) →
  WellFormed n (collect_blobs id bs (collect_messages id ms d)).
Proof.
  intros Hd Hl Hc Hms Hin Hbs Hbin.
  set (c' := c <| mc_deletionMessages :=
    foldl (fun m id => delete id m) (mc_deletionMessages c) (mm_MessageID <$> ms) |>).
  apply (collect_blobs_wf n _ id c').
  - by apply (collect_messages_wf n d id c).
  - exact Hl.
  - unfold collect_messages. cbn. rewrite lookup_alter_eq, Hc. done.
  - done.
  - exact Hbin.
Qed.

Lemma preserves_collectCheckpoint request :
  Preserves (WellFormed n) (collectCheckpoint request).
Proof.
  intros d Hd. unfold collectCheckpoint. wp_steps; try done.
  match goal with Hp : memoryCheckpointPlan d _ = inr _ |- _ =>
    destruct (plan_latest d _ _ Hp) as (c & Hc & _ & Hl) end.
  clear Hc. wf_chain. eapply wf_collect; try done.
  - by eapply (selected_messages_nodup n d (ccq_CheckpointID request)).
  - apply selected_messages_spec.
  - apply selected_blobs_spec.
  - apply selected_blobs_spec.
Qed.

Lemma preserves_DryRun checkpointID :
  Preserves (WellFormed n) (let* domain := get in try (memoryCheckpointPlan domain checkpointID)).
Proof. intros d Hd. by wp_steps. Qed.

(** A refresh leaves the publication counter alone. *)
Lemma refresh_nextSequence now d :
  WellFormed n d → dom_nextSequence (refreshMemoryFence now d) = dom_nextSequence d.
Proof.
  intros Hd. pose proof (sh_rest _ _ (refresh_shrinks n now d Hd)) as Hr.
  exact (f_equal dom_nextSequence Hr).
Qed.

Lemma preserves_stageCheckpoint credential candidate covered now :
  0 ≤ covered → Preserves (WellFormed n) (stageCheckpoint credential candidate covered now).
Proof.
  intros Hcov d Hd. unfold stageCheckpoint. wp_steps; try done; try by apply wf_refresh.
  wf_chain.
  apply wf_stage; [by apply wf_refresh| |done|].
  - match goal with Hx : ¬ is_Some ?o |- ?o = None => destruct o eqn:?; [exfalso; eauto|done] end.
  - cbn. rewrite refresh_nextSequence by done. lia.
Qed.

Lemma preserves_activateCheckpoint request now :
  Preserves (WellFormed n) (activateCheckpoint request now).
Proof.
  intros d Hd. unfold activateCheckpoint. wp_steps; try done; try by apply wf_refresh.
  wf_chain.
  match goal with |- WellFormed n (push_activated ?i (set_fence_status _ _ (put_checkpoint _
      (activate_checkpoint ?e ?c _ _) _))) =>
    change (WellFormed n (activate i c request e)); eapply (wf_activate n e i c request); try done end.
  - by apply wf_refresh.
  - apply dec_stable. intros Hx; match goal with H : ¬ (mc_state _ ≠ _ ∨ _) |- _ => apply H; by left end.
  - apply dec_stable. tauto.
Qed.
End preservation.
