(* ===== verification/RelayReachable.v ===== *)
(** * internal/relay: reachable stores

    Every call of the store keeps every domain well formed; hence every domain
    of every reachable store is. *)

From S2P Require Import Prelude GoEncoding Sha256 RelayModel RelayState RelayFence RelayTenant RelayMember RelaySubscription RelayDelivery RelayBlob RelayCheckpoint RelayMachine RelayExample RelayInvariant RelayFenceFacts RelayOperationFacts RelayCheckpointFacts.
#[local] Open Scope Z_scope.

(** Every domain of the store satisfies [I]. *)
Definition each_domain (I : memoryDomain → Prop) (s : MemoryStore) : Prop :=
  ∀ key d, st_domains s !! key = Some d → I d.

(** Every domain of the store is well formed. *)
Definition StoreWF (n : N) : MemoryStore → Prop := each_domain (WellFormed n).

(** ** Lifting a domain operation to the store *)

Section lifting.
Context `{UuidLib} (I I' : memoryDomain → Prop).
Hypothesis HI : ∀ d, I d → I' d.

Lemma each_mono s : each_domain I s → each_domain I' s.
Proof using HI. intros Hs key d Hd. apply HI. by eapply Hs. Qed.

Lemma each_put key d s : each_domain I s → I' d → each_domain I' (put_domain key d s).
Proof using HI.
  intros Hs Hd k e. unfold put_domain. cbn. intros [[_ <-]|[_ He]]%lookup_insert_Some; [done|].
  by eapply each_mono.
Qed.

Lemma wp_in_domain {A} key (authorized : GoError + memoryDomain)
    (body : M GoError memoryDomain A) s :
  each_domain I s → (∀ d, authorized = inr d → st_domains s !! key = Some d) →
  (∀ d, I d → wp body (fun d' _ => I' d') d) →
  wp (in_domain key authorized body) (fun s' _ => each_domain I' s') s.
Proof using HI.
  intros Hs Ha Hbody. unfold wp, in_domain. destruct authorized as [e|d]; simpl.
  { by apply each_mono. }
  specialize (Hbody d (Hs _ _ (Ha d eq_refl))). unfold wp in Hbody.
  destruct (body d) as [d' r]. simpl in *. by apply each_put.
Qed.

Lemma wp_as_administrator {A} credential (body : M GoError memoryDomain A) s :
  each_domain I s → (∀ d, I d → wp body (fun d' _ => I' d') d) →
  wp (as_administrator credential body) (fun s' _ => each_domain I' s') s.
Proof using HI.
  intros Hs Hbody. unfold as_administrator. wp_steps. apply wp_in_domain; [done| |done].
  intros d. unfold authorizedDomain. destruct (st_domains s !! _); [|done].
  by destruct (DomainRegistration_Authorize _ _); intros [= <-].
Qed.

Lemma wp_as_member {A} credential capability now (body : M GoError memoryDomain A) s :
  each_domain I s → (∀ d, I d → wp body (fun d' _ => I' d') d) →
  wp (as_member credential capability now body) (fun s' _ => each_domain I' s') s.
Proof using HI.
  intros Hs Hbody. unfold as_member. wp_steps. apply wp_in_domain; [done| |done].
  intros d. unfold authorizedMember. destruct (st_domains s !! _); [|done].
  destruct (dom_members _ !! _); [|done].
  by destruct (MemberRegistration_Authorize _ _ _ _); intros [= <-].
Qed.

Lemma wp_in_found_domain {A} key (body : M GoError memoryDomain A) s :
  each_domain I s → (∀ d, I d → wp body (fun d' _ => I' d') d) →
  wp (in_found_domain key body) (fun s' _ => each_domain I' s') s.
Proof using HI.
  intros Hs Hbody. unfold in_found_domain. wp_steps. apply wp_in_domain; [done| |done].
  intros d. by destruct (st_domains s !! key); intros [= <-].
Qed.
End lifting.

Lemma store_wf_mono n n' s : (n ≤ n')%N → StoreWF n s → StoreWF n' s.
Proof. intros Hn. apply each_mono. intros d. by apply wf_mono. Qed.

(** ** The tenant's operations *)

Section tenants.
Context `{UuidLib} (n : N).

Lemma store_wf_tenants s t : StoreWF n s → StoreWF n (s <| st_tenants := t |>).
Proof. done. Qed.

Lemma store_wf_create s p :
  StoreWF n s → DomainProvisioning_Validate p = None → StoreWF n (createDomainLocked p s).
Proof. intros Hs Hp. apply (each_put (WellFormed n)); [done|done|by apply wf_new_domain]. Qed.

Lemma wf_created s p :
  StoreWF n s → DomainProvisioning_Validate p = None →
  StoreWF (n + 1) (createDomainLocked p s).
Proof. intros Hs Hp. apply (store_wf_mono n); [lia|]. by apply store_wf_create. Qed.

Lemma apply_policy_valid t p p' :
  TenantRegistration_ApplyCapacityPolicy t p = inr p' →
  DomainProvisioning_Validate p = None → DomainProvisioning_Validate p' = None.
Proof.
  unfold TenantRegistration_ApplyCapacityPolicy. repeat case_decide; intros [= <-] Hp;
    [by apply shared_capacity_valid|done].
Qed.

(** What the validating loop of a membership revocation has checked. *)
Definition target_present (s : MemoryStore) (tenantID : UUID)
    (target : TenantMembershipRevocationItem) : Prop :=
  ∃ d, st_domains s !! (tenantID, tri_DomainID target) = Some d ∧
    is_Some (dom_members d !! tri_MemberID target) ∧
    is_Some (dom_subscriptions d !! tri_SubscriptionID target).

Lemma revocation_errors_None s tenantID revocation targets :
  revocation_errors s tenantID revocation targets = None →
  Forall (fun target => revocation_target_error s tenantID revocation target = None) targets.
Proof.
  induction targets as [|t l IH]; simpl; [constructor|]. rewrite err_then_None.
  intros [? ?]. constructor; auto.
Qed.

Lemma target_error_present s tenantID revocation target :
  revocation_target_error s tenantID revocation target = None → target_present s tenantID target.
Proof.
  unfold revocation_target_error, target_present.
  destruct (st_domains s !! _) as [d|]; [|done].
  destruct (dom_members d !! _) eqn:Hm; [|done].
  rewrite err_then_None. destruct (dom_subscriptions d !! _) eqn:Hsub; [|naive_solver].
  intros _. exists d. by rewrite Hm, Hsub.
Qed.

Lemma revoke_target_present s tenantID at_ target other :
  target_present s tenantID other → target_present (revoke_target tenantID at_ s target) tenantID other.
Proof.
  intros (d & Hd & Hm & Hsub). unfold revoke_target.
  destruct (st_domains s !! (tenantID, tri_DomainID target)) as [e|] eqn:He; [|by exists d].
  destruct (decide (tri_DomainID target = tri_DomainID other)) as [Heq|Hne].
  - rewrite Heq in He |- *. simplify_eq. unfold target_present, put_domain. cbn.
    eexists. rewrite lookup_insert_eq. split; [done|]. unfold revoke_membership. cbn.
    rewrite !lookup_insert_is_Some'. tauto.
  - exists d. unfold put_domain. cbn. rewrite lookup_insert_ne by congruence. done.
Qed.

Lemma wf_revoke_target s tenantID at_ target :
  StoreWF n s → target_present s tenantID target → StoreWF n (revoke_target tenantID at_ s target).
Proof.
  intros Hs (d & Hd & Hm & Hsub). unfold revoke_target. rewrite Hd.
  apply (each_put (WellFormed n)); [done|done|]. apply wf_revoke_membership; [by eapply Hs|done|done].
Qed.

Lemma wf_revoke_targets s tenantID at_ targets :
  StoreWF n s → Forall (target_present s tenantID) targets →
  StoreWF n (foldl (revoke_target tenantID at_) s targets).
Proof.
  revert s. induction targets as [|t l IH]; intros s Hs; [done|]. intros [Ht Hl]%Forall_cons.
  simpl. apply IH; [by apply wf_revoke_target|]. eapply Forall_impl; [exact Hl|].
  intros o. apply revoke_target_present.
Qed.
End tenants.

(** ** Every call *)

Ltac head_of m := lazymatch m with ?f _ => head_of f | _ => m end.

(** Unfolds the called method. *)
Ltac unfold_call :=
  lazymatch goal with |- wp ?m _ _ => let f := head_of m in unfold f end.

(** The steps before the lock of a domain operation, then the body. *)
Ltac wf_call :=
  wp_steps; try (eapply store_wf_mono; [|eassumption]; lia);
  lazymatch goal with
  | |- wp (as_administrator _ _) _ _ => eapply wp_as_administrator
  | |- wp (as_member _ _ _ _) _ _ => eapply wp_as_member
  | |- wp (in_found_domain _ _) _ _ => eapply wp_in_found_domain
  end; [|eassumption|]; [intros ?; apply wf_mono; lia|].

Create HintDb relay_wf discriminated.
#[export] Hint Resolve preserves_rotateAdministration preserves_rotateMember
  preserves_createSubscriptionAdmission preserves_claimAdmission preserves_collectAdmissions
  preserves_revokeAdmission preserves_createSubscriptionMember preserves_revokeMember
  preserves_changeMemberCapabilities preserves_createSubscription
  preserves_changeSubscriptionStatus preserves_requestRebootstrap preserves_renewRebootstrap
  preserves_cancelRebootstrap preserves_completeRebootstrap preserves_fetch preserves_getMessage
  preserves_acknowledge preserves_prepareBlobPublish preserves_commitBlobPublish
  preserves_getBlobMetadata preserves_createBlobUpload preserves_appendBlobUploadChunk
  preserves_finalizeBlobUpload preserves_createCheckpointFence preserves_getCheckpointFence
  preserves_abortCheckpointFence preserves_stageCheckpoint preserves_activateCheckpoint
  preserves_DryRun preserves_collectCheckpoint : relay_wf.

Lemma wp_preserved {A} n (m : M GoError memoryDomain A) d :
  Preserves (WellFormed n) m → WellFormed n d →
  wp m (fun d' _ => WellFormed (n + 1) d') d.
Proof. intros Hm Hd. eapply wp_mono; [by apply Hm|]. simpl. intros. eapply wf_mono; [|done]. lia. Qed.

Section calls.
Context `{UuidLib} (n : N).
Hypothesis Hn : (Z.of_N n < MaximumSequence).

Lemma perform_wf op s : StoreWF n s → StoreWF (n + 1) (perform op s).
Proof using Hn.
  intros Hs. destruct op; simpl; unfold after;
    match goal with |- StoreWF _ (?m ?s).1 => change (wp m (fun s' _ => StoreWF (n + 1) s') s) end.
  all: unfold_call.
  all: wp_steps; try (eapply store_wf_mono; [|eassumption]; lia).
  all: try wf_call.
  all: try (intros d Hd; apply wp_preserved; [|exact Hd]; by auto with relay_wf lia).
  - destruct (st_tenants s !! _); by apply wf_created.
  - apply wf_created; [by apply store_wf_tenants|].
    eapply apply_policy_valid; eassumption.
  - apply wf_created; [done|]. eapply apply_policy_valid; eassumption.
  - intros d Hd. unfold getDomainStatus. wp_steps. by apply (wf_mono n); [lia|].
  - apply (store_wf_mono n); [lia|]. apply wf_revoke_targets; [done|].
    eapply Forall_impl; [by apply revocation_errors_None|]. intros t.
    apply target_error_present.
  - intros d Hd. wp_steps. apply (wf_mono n); [lia|]. by apply wf_ensure_test_subscription.
  - unfold claimSubscriptionAdmission. wf_call.
    intros d Hd. apply wp_preserved; [|exact Hd]. auto with relay_wf.
  - unfold claimSubscriptionAdmission. wf_call.
    intros d Hd. apply wp_preserved; [|exact Hd]. auto with relay_wf.
  - intros d Hd. by wp_steps; (apply (wf_mono n); [lia|]).
  - intros d Hd. by apply wf_publish.
  - intros d Hd. by wp_steps; (apply (wf_mono n); [lia|]).
  - intros d Hd. wp_step. eapply wp_mono; [apply owned_upload_spec|]. cbv beta.
    intros d1 [err|[u sub]] [-> _]; wp_steps; apply (wf_mono n); (lia || done).
  - intros d Hd. apply wp_preserved; [|exact Hd]. apply preserves_stageCheckpoint.
    eapply decode_cursor_range; eassumption.
Qed.
End calls.

Lemma new_store_domains ttl : st_domains (NewMemoryStore ttl) = ∅.
Proof. unfold NewMemoryStore. reflexivity. Qed.

Section reachability.
Context `{UuidLib} (ttl : list int64).

Lemma reachable_wf n s : reachable ttl n s → Z.of_N n ≤ MaximumSequence → StoreWF n s.
Proof.
  induction 1 as [|n s op Hs IH]; intros Hn.
  - intros key d. rewrite new_store_domains. by intros ?%lookup_empty_Some.
  - apply perform_wf; [lia|]. apply IH. lia.
Qed.
End reachability.

(** ** The example's domains are well formed *)

Lemma domain_of_wf n s :
  StoreWF n s → WellFormed n (domain_of s).
Proof.
  intros Hs. unfold domain_of. destruct (st_domains s !! (tenantID, domainID)) as [d|] eqn:Hd;
    simpl; [by eapply Hs|]. apply wf_new_domain. vm_compute. reflexivity.
Qed.

Lemma domain_after_wf ops :
  Z.of_N (3 + N.of_nat (length ops)) ≤ MaximumSequence →
  WellFormed (3 + N.of_nat (length ops)) (domain_after ops).
Proof.
  intros Hn. apply domain_of_wf. apply (reachable_wf []); [|done].
  apply reachable_perform_all. exact (reachable_perform_all [] 0 new_store setup (reachable_new [])).
Qed.

Lemma domain0_wf : WellFormed 3 domain0.
Proof. apply (domain_after_wf []). vm_compute. discriminate. Qed.
