(* ===== verification/RelayMessaging.v ===== *)
(** * internal/relay: what messaging, fences and history guarantee

    Fence expiry, exclusion of writers, publication with its exact retry,
    fetch pages and acknowledgments.  Then the well-formedness of reachable
    stores, spelled out: the log of each domain and its counters, the fencing
    of its suffix, and the checkpoints whose authority is current. *)

From S2P Require Import Prelude GoEncoding Sha256 RelayModel RelayState RelayFence RelayTenant RelayMember RelaySubscription RelayDelivery RelayBlob RelayCheckpoint RelayMachine RelayExample RelayInvariant RelayFenceFacts RelayOperationFacts RelayCheckpointFacts RelayReachable.
#[local] Open Scope Z_scope.

(** ** Expiry in closed form *)

Definition overdue (now : int64) (f : memoryCheckpointFence) : Prop :=
  mcf_Status f = CheckpointFenceActive ∧ now ≥ cfs_ExpiresAtMilliseconds (mcf_state f).

#[global] Instance overdue_dec now f : Decision (overdue now f).
Proof. unfold overdue. apply _. Defined.

Definition expire (now : int64) (f : memoryCheckpointFence) : memoryCheckpointFence :=
  if decide (overdue now f) then mcf_set_Status CheckpointFenceExpired f else f.

Section expiry.
Context `{UuidLib}.

Lemma refresh_fence_fences n now d key :
  WellFormed n d →
  dom_checkpointFences (refresh_fence now d key) = alter (expire now) key (dom_checkpointFences d).
Proof.
  intros Hd. apply map_eq. intros k. destruct (dom_checkpointFences d !! key) as [f|] eqn:Hf.
  - rewrite (refresh_fence_end now d key f n Hd Hf).
    destruct (decide (k = key)) as [->|Hne].
    + rewrite lookup_alter_eq, Hf. cbn. unfold expire.
      destruct (decide (overdue now f)) as [Ho|Ho]; unfold overdue in Ho;
        case_decide; try tauto.
      rewrite end_fence_eq. cbn. by rewrite lookup_alter_eq, Hf.
    + rewrite lookup_alter_ne by done. case_decide; [|done]. rewrite end_fence_eq. cbn.
      by rewrite lookup_alter_ne.
  - unfold refresh_fence. rewrite Hf. destruct (decide (k = key)) as [->|Hne];
      [by rewrite lookup_alter_eq, Hf|by rewrite lookup_alter_ne].
Qed.

Lemma refresh_fold_fences n now l d :
  WellFormed n d → NoDup l →
  ∀ k, dom_checkpointFences (foldl (refresh_fence now) d l) !! k =
    if decide (k ∈ l) then expire now <$> dom_checkpointFences d !! k
    else dom_checkpointFences d !! k.
Proof.
  intros Hd Hl. revert d Hd. induction Hl as [|x l Hx Hl IH]; intros d Hd k; [done|]. simpl.
  rewrite IH by (by apply wf_refresh_fence). rewrite (refresh_fence_fences n) by done.
  destruct (decide (x = k)) as [->|Hne].
  - rewrite decide_False by done. rewrite decide_True by (by left). by rewrite lookup_alter_eq.
  - rewrite lookup_alter_ne by done. destruct (decide (k ∈ l)).
    + by rewrite decide_True by (by right).
    + rewrite decide_False; [done|]. by intros [?|?]%elem_of_cons.
Qed.

(** A refresh expires exactly the overdue fences. *)
Lemma refresh_fences n now d :
  WellFormed n d → dom_checkpointFences (refreshMemoryFence now d) =
    expire now <$> dom_checkpointFences d.
Proof.
  intros Hd. apply map_eq. intros k. unfold refreshMemoryFence.
  rewrite (refresh_fold_fences n) by (done || apply NoDup_fst_map_to_list).
  rewrite lookup_fmap. case_decide as Hk; [done|].
  destruct (dom_checkpointFences d !! k) as [f|] eqn:Hf; [|done]. exfalso. apply Hk.
  apply list_elem_of_fmap. exists (k, f). by rewrite elem_of_map_to_list.
Qed.

Lemma expire_active now f :
  mcf_Status (expire now f) = CheckpointFenceActive ↔
  mcf_Status f = CheckpointFenceActive ∧ ¬ overdue now f.
Proof. unfold expire. case_decide; cbn; [split; [done|tauto]|tauto]. Qed.

(** With nothing overdue, a refresh is the identity. *)
Lemma refresh_identity now d :
  (∀ k f, dom_checkpointFences d !! k = Some f → ¬ overdue now f) →
  refreshMemoryFence now d = d.
Proof.
  intros Hnone. unfold refreshMemoryFence. induction (map_to_list (dom_checkpointFences d)).*1
    as [|k l IH]; [done|]. simpl.
  assert (refresh_fence now d k = d) as ->; [|done].
  unfold refresh_fence. destruct (dom_checkpointFences d !! k) as [f|] eqn:Hf; [|done].
  rewrite decide_False; [done|]. by apply (Hnone k).
Qed.

(** Fence expiry is exact, complete and idempotent: after
    [refreshMemoryFence now] the overdue active fences are expired and no
    other fence changed; a stored message or a published blob that is still
    tagged belongs to a fence that is active or was activated; nothing is
    added; and refreshing again at any time up to [now] changes nothing. *)
Theorem refresh_fence_spec n now now' d :
  WellFormed n d → now' ≤ now →
  let d' := refreshMemoryFence now d in
  dom_checkpointFences d' = expire now <$> dom_checkpointFences d ∧
  (∀ k f, dom_checkpointFences d' !! k = Some f → ¬ overdue now f) ∧
  (∀ m id, m ∈ stored d' → mm_checkpointFenceID m = Some id →
     ∃ f, dom_checkpointFences d' !! id = Some f ∧ live f) ∧
  (∀ blob id, dom_blobFenceIDs d' !! blob = Some id →
     ∃ f, dom_checkpointFences d' !! id = Some f ∧ live f) ∧
  dom_messages d' `sublist_of` dom_messages d ∧ dom_blobs d' ⊆ dom_blobs d ∧
  refreshMemoryFence now' d' = d'.
Proof.
  intros Hd Hnow d'. assert (WellFormed n d') as Hd' by by apply wf_refresh.
  assert (∀ k f, dom_checkpointFences d' !! k = Some f → ¬ overdue now f) as Hnone.
  { intros k f. unfold d'. rewrite (refresh_fences n), lookup_fmap by done.
    intros (g & Hg & ->)%fmap_Some. unfold expire. case_decide as Ho; [|done].
    intros [Ha _]. done. }
  pose proof (refresh_shrinks n now d Hd) as [_ Hm Hb _].
  split_and!; try done.
  - by apply (refresh_fences n).
  - intros m id (r & Hr & Hx)%list_elem_of_omap Hid.
    apply (ff_tag _ _ _ _ _ (wf_fences _ _ Hd') r (shape m)); [done| |done].
    apply lookup_shapes. eauto.
  - intros blob id. apply (ff_blob_tag _ _ _ _ _ (wf_fences _ _ Hd')).
  - apply refresh_identity. intros k f Hk [Ha Hge]. apply (Hnone k f Hk). split; [done|lia].
Qed.

(** The fence is exclusive: while a fence is active and not overdue, it
    is the only active fence of the domain, and exactly its holder passes
    [memoryFenceAllowsWrite]; every other subscription is refused with
    [CodeCheckpointFenceActive]. *)
Theorem fence_exclusive n now d id f subscriptionID :
  WellFormed n d → dom_checkpointFences d !! id = Some f →
  mcf_Status f = CheckpointFenceActive → now < cfs_ExpiresAtMilliseconds (mcf_state f) →
  (∀ id' f', dom_checkpointFences d !! id' = Some f' → mcf_Status f' = CheckpointFenceActive →
     id' = id) ∧
  (memoryFenceAllowsWrite subscriptionID now d).2 =
    if decide (mcf_holderSubscriptionID f = subscriptionID) then inr tt
    else inl (protocolError CodeCheckpointFenceActive
                "another subscription holds the checkpoint fence").
Proof.
  intros Hd Hf Ha Hnow. pose proof (wf_fences _ _ Hd) as Hfences. split.
  { intros id' f' Hf' Ha'. apply (ff_one _ _ _ _ _ Hfences); by eexists. }
  unfold memoryFenceAllowsWrite, bind, modify, get, reject_if. cbn.
  rewrite (refresh_fences n) by done.
  assert (map_any (foreign_active subscriptionID) (expire now <$> dom_checkpointFences d) ↔
    mcf_holderSubscriptionID f ≠ subscriptionID) as Hiff.
  { rewrite map_any_spec. split.
    - intros (k & g & Hg & Hga & Hgh). rewrite lookup_fmap, fmap_Some in Hg.
      destruct Hg as (g0 & Hg0 & ->). apply expire_active in Hga as [Hga _].
      assert (k = id) as -> by (apply (ff_one _ _ _ _ _ Hfences); by eexists).
      assert (g0 = f) as -> by congruence. revert Hgh. unfold expire. by case_decide.
    - intros Hh. exists id, (expire now f). rewrite lookup_fmap, Hf. split; [done|].
      unfold expire. rewrite decide_False; [done|]. intros [_ ?]. lia. }
  repeat case_decide; tauto.
Qed.
End expiry.

Lemma refresh_fence_spec_witness :
  WellFormed 5 (domain_after [publish_one; fence_one]) ∧
  refreshMemoryFence 5000 (refreshMemoryFence 9000 (domain_after [publish_one; fence_one])) =
  refreshMemoryFence 9000 (domain_after [publish_one; fence_one]).
Proof.
  assert (WellFormed 5 (domain_after [publish_one; fence_one])) as Hd.
  { apply (domain_after_wf [publish_one; fence_one]). vm_compute. discriminate. }
  split; [exact Hd|]. apply (refresh_fence_spec 5 9000 5000 _ Hd). lia.
Defined.

Lemma fence_exclusive_witness :
  (memoryFenceAllowsWrite 22%N 1500 (domain_after [publish_one; fence_one])).2 =
  inl (protocolError CodeCheckpointFenceActive
         "another subscription holds the checkpoint fence").
Proof.
  apply (fence_exclusive 5 1500 (domain_after [publish_one; fence_one]) 42%N example_fence 22%N).
  - apply (domain_after_wf [publish_one; fence_one]). vm_compute. discriminate.
  - exact fence_one_created.
  - reflexivity.
  - vm_compute. reflexivity.
Defined.

(** ** Publication *)

Section publication.
Context `{UuidLib}.

(** What a publication needs once its exact retry is excluded. *)
Record CanPublish (s : MemoryStore) (credential : Credential) (envelope : Envelope)
    (now : int64) (d : memoryDomain) (subscription : Subscription) (count : int64) : Prop := {
  cp_valid : Envelope_ValidateForPublish envelope credential = None;
  cp_active : activeMemberSubscription d (cred_MemberID credential) = inr subscription;
  cp_new : lookup_message d (env_MessageID envelope) = None;
  cp_tombstone : dom_fenceMessageTombstones d !! env_MessageID envelope = None;
  cp_fence : (memoryFenceAllowsWrite (sub_SubscriptionID subscription) now d).2 = inr tt;
  cp_count : ¬ (¬ DomainRegistration_UsesSharedCapacity (dom_registration d) ∧
    zlen (dom_messages (refreshMemoryFence now d)) ≥ dr_MaximumMessageCount (dom_registration d));
  cp_bytes : Envelope_CiphertextByteCount envelope = inr count;
  cp_domain : ensureMessageCapacity (refreshMemoryFence now d) count = None;
  cp_tenant : ensureTenantMessageCapacityLocked
    (put_domain (cred_TenantID credential, cred_DomainID credential)
       (refreshMemoryFence now d) s) (cred_TenantID credential) count = None }.

(** The components a refresh leaves alone. *)
Lemma refresh_rest n now d :
  WellFormed n d →
  let d' := refreshMemoryFence now d in
  dom_registration d' = dom_registration d ∧ dom_subscriptions d' = dom_subscriptions d ∧
  dom_memberSubscriptions d' = dom_memberSubscriptions d ∧ dom_members d' = dom_members d ∧
  dom_heap d' = dom_heap d ∧ dom_nextRef d' = dom_nextRef d ∧
  dom_nextSequence d' = dom_nextSequence d ∧
  dom_rebootstrapRequests d' = dom_rebootstrapRequests d ∧
  dom_rebootstrapCompletions d' = dom_rebootstrapCompletions d ∧
  dom_rebootstrapCancellations d' = dom_rebootstrapCancellations d ∧
  dom_rebootstrapRenewals d' = dom_rebootstrapRenewals d.
Proof.
  intros Hd d'. pose proof (sh_rest _ _ (refresh_shrinks n now d Hd)) as Hr.
  split_and!; [exact (f_equal dom_registration Hr)|exact (f_equal dom_subscriptions Hr)|
    exact (f_equal dom_memberSubscriptions Hr)|exact (f_equal dom_members Hr)|
    exact (f_equal dom_heap Hr)|exact (f_equal dom_nextRef Hr)|
    exact (f_equal dom_nextSequence Hr)|exact (f_equal dom_rebootstrapRequests Hr)|
    exact (f_equal dom_rebootstrapCompletions Hr)|
    exact (f_equal dom_rebootstrapCancellations Hr)|exact (f_equal dom_rebootstrapRenewals Hr)].
Qed.

Lemma append_message_stored n d m q :
  WellFormed n d →
  let d' := append_message m (d <| dom_nextSequence := q |>) in
  lookup_message d' (mm_MessageID m) = Some (dom_nextRef d, m) ∧
  stored d' = stored d ++ [m] ∧ dom_messages d' = dom_messages d ++ [dom_nextRef d].
Proof.
  intros Hd d'. pose proof (wf_messages _ _ Hd) as HM. split_and!; [| |done].
  - unfold lookup_message, d', append_message. cbn. rewrite lookup_insert_eq. cbn.
    by rewrite lookup_insert_eq.
  - unfold stored. apply (objects_insert_fresh (dom_heap d)).
    + destruct (dom_heap d !! dom_nextRef d) as [x|] eqn:Hx; [|done].
      destruct (mf_heap _ _ _ _ _ _ _ HM (dom_nextRef d) (shape x)) as [Hlt _];
        [apply lookup_shapes; eauto|lia].
    + intros x Hx. destruct (mf_refs _ _ _ _ _ _ _ HM x Hx) as [y (y' & Hy & _)%lookup_shapes].
      eauto.
Qed.

(** Appending a message changes the log, its index, its objects and its two
    counters, and rebinds no other identifier. *)
Lemma append_message_others n d m q id :
  WellFormed n d → id ≠ mm_MessageID m →
  lookup_message (append_message m (d <| dom_nextSequence := q |>)) id = lookup_message d id.
Proof.
  intros Hd Hid. pose proof (wf_messages _ _ Hd) as HM. unfold lookup_message, append_message. cbn.
  rewrite lookup_insert_ne by done. destruct (dom_messageByID d !! id) as [r|] eqn:Hr; [|done].
  apply (mf_index _ _ _ _ _ _ _ HM) in Hr as (_ & m' & Hm' & _).
  apply (mf_heap _ _ _ _ _ _ _ HM) in Hm' as [Hlt _]. simpl. by rewrite lookup_insert_ne by lia.
Qed.

(** [C5] A publication that meets its preconditions is accepted: the message
    gets the next sequence, joins the end of the slice and the index as the
    publisher's, unacknowledged and tagged with the publisher's active
    fence, and its bytes are added to the domain's.  Nothing else changes:
    the other message objects and identifiers stay, and every other
    component is what the expiry of overdue fences leaves, which is what was
    there if no fence is overdue. *)
Theorem publish_accepts n s credential envelope now d subscription count :
  Z.of_N n < MaximumSequence → WellFormed n d →
  CanPublish s credential envelope now d subscription count →
  let e := refreshMemoryFence now d in
  ∃ d' r m,
    publish s credential envelope now d =
      (d', inr (mkPublishResult AcceptanceAccepted (dom_nextSequence d + 1))) ∧
    dom_nextSequence d' = dom_nextSequence d + 1 ∧
    m = mkMemoryMessage (mkMessage (dom_nextSequence d + 1) envelope) count
          (cred_MemberID credential) (sub_SubscriptionID subscription) ∅
          (fence_tag e (sub_SubscriptionID subscription)) ∧
    lookup_message d' (env_MessageID envelope) = Some (r, m) ∧
    stored d' = stored e ++ [m] ∧
    dom_messages d' = dom_messages e ++ [r] ∧
    dom_heap d' = <[r := m]> (dom_heap d) ∧
    (∀ id, id ≠ env_MessageID envelope → lookup_message d' id = lookup_message e id) ∧
    dom_messageBytes d' = i64 (dom_messageBytes e + count) ∧
    d' = e <| dom_nextSequence := dom_nextSequence d' |> <| dom_messages := dom_messages d' |>
           <| dom_messageByID := dom_messageByID d' |> <| dom_messageBytes := dom_messageBytes d' |>
           <| dom_heap := dom_heap d' |> <| dom_nextRef := dom_nextRef d' |> ∧
    ((∀ k f, dom_checkpointFences d !! k = Some f → ¬ overdue now f) → e = d).
Proof.
  intros Hn Hd [Hval Hact Hnew Htomb Hfence Hcount Hbytes Hdom Hten] e.
  destruct (refresh_rest n now d Hd) as (Hreg & _ & _ & _ & Hheap & Href & Hseq & _).
  pose proof (wf_refresh n now d Hd) as He.
  unfold publish, bind, get. rewrite Hval. cbn. rewrite Hact. cbn. rewrite Hnew, Htomb.
  unfold memoryFenceAllowsWrite, bind, modify, get, reject_if, check, try, ret in *.
  cbn in Hfence |- *. case_decide as Hf; [done|].
  rewrite Hreg. rewrite decide_False by exact Hcount. rewrite Hbytes. cbn.
  rewrite Hdom, Hten. cbn. rewrite Hseq.
  assert (u64 (dom_nextSequence d + 1) = dom_nextSequence d + 1) as ->.
  { pose proof (wf_messages _ _ Hd) as [Hb Hs _ _ _ _ _]. unfold MaximumSequence in *.
    apply u64_small. lia. }
  pose proof (refresh_identity now d) as Hsame. fold e in Hheap, He, Hsame |- *. clearbody e.
  match goal with |- context [append_message ?m (_ <| dom_nextSequence := ?q |>)] =>
    pose proof (append_message_stored n e m q He) as (Hl & Hst & Hms);
    pose proof (fun id => append_message_others n e m q id He) as Ho end.
  eexists _, (dom_nextRef e), _. split; [done|].
  split; [done|]. split; [done|]. split; [exact Hl|]. split; [exact Hst|]. split; [exact Hms|].
  split; [unfold append_message; cbn; by rewrite Hheap|]. split; [exact Ho|].
  split; [done|]. split; [by destruct e|exact Hsame].
Qed.

(** The retry of a publication that the domain already holds. *)
Definition settled (credential : Credential) (envelope : Envelope) (sequence : uint64)
    (d : memoryDomain) : Prop :=
  Envelope_ValidateForPublish envelope credential = None ∧
  (∃ sub, activeMemberSubscription d (cred_MemberID credential) = inr sub) ∧
  match lookup_message d (env_MessageID envelope) with
  | Some (_, m) => mm_publisherMember m = cred_MemberID credential ∧
      msg_Envelope (mm_message m) = envelope ∧ mm_Sequence m = sequence
  | None => ∃ tombstone digest, Envelope_ReferenceDigest envelope = inr digest ∧
      dom_fenceMessageTombstones d !! env_MessageID envelope = Some tombstone ∧
      mft_publisherMember tombstone = cred_MemberID credential ∧
      mft_digest tombstone = digest ∧ mft_sequence tombstone = sequence
  end.

Lemma settled_duplicate s credential envelope now sequence d :
  settled credential envelope sequence d →
  publish s credential envelope now d =
    (d, inr (mkPublishResult AcceptanceDuplicate sequence)).
Proof.
  intros (Hval & [sub Hact] & Hm). unfold publish, bind, get, check, try. cbn.
  rewrite Hval, Hact. cbn. destruct (lookup_message d _) as [[r m]|].
  - destruct Hm as (Hp & He & <-). rewrite decide_True by done. done.
  - destruct Hm as (t & digest & Hdig & Ht & Hp & Hd & <-). rewrite Ht, Hdig. cbn.
    rewrite decide_True by done. done.
Qed.

Lemma publish_settles n s credential envelope now d :
  Z.of_N n < MaximumSequence → WellFormed n d →
  wp (publish s credential envelope now) (fun d' r => ∀ result, r = inr result →
    settled credential envelope (pr_Sequence result) d') d.
Proof.
  intros Hn Hd. unfold publish. wp_steps; try (intros ? [=]; done).
  - intros ? [= <-]. split; [done|split; [by eexists|]]. rewrite Heqo. cbn. naive_solver.
  - intros ? [= <-]. split; [done|split; [by eexists|]]. rewrite Heqo.
    eexists _, _. naive_solver.
  - eapply wp_mono; [by apply (allows_write_spec n)|]. cbv beta.
    intros e [err|[]] (He & Hre & _); [by intros ? [=]|].
    destruct (refresh_rest n now d Hd) as (_ & Hsubs & Hmems & _ & _ & _ & Hseq & _).
    wp_steps; try (intros ? [=]; done). intros ? [= <-].
    split; [done|]. split.
    + eexists. match goal with Ha : activeMemberSubscription d _ = inr ?x |- _ =>
        rewrite <- Ha end. unfold activeMemberSubscription, readableMemberSubscription. cbn.
      subst e. by rewrite Hsubs, Hmems.
    + match goal with |- context [append_message ?m (?e0 <| dom_nextSequence := ?q |>)] =>
        destruct (append_message_stored n e0 m q He) as (Hl & _) end.
      change (mm_MessageID _) with (env_MessageID envelope) in Hl.
      rewrite Hl. done.
Qed.

(** *** After the publisher's fence has ended *)

(** A valid envelope has a digest. *)
Lemma publishable_digest envelope credential :
  Envelope_ValidateForPublish envelope credential = None →
  ∃ digest, Envelope_ReferenceDigest envelope = inr digest.
Proof.
  unfold Envelope_ValidateForPublish, Envelope_ReferenceDigest. rewrite err_then_None.
  intros [-> _]. eauto.
Qed.

(** The tombstone of the only message with its identifier. *)
Lemma add_tombstones m digest l tombstones :
  Envelope_ReferenceDigest (msg_Envelope (mm_message m)) = inr digest →
  (∀ m', m' ∈ l → mm_MessageID m' = mm_MessageID m → m' = m) →
  m ∈ l ∨ tombstones !! mm_MessageID m =
            Some (mkMemoryFenceMessageTombstone (mm_publisherMember m) digest (mm_Sequence m)) →
  foldl add_tombstone tombstones l !! mm_MessageID m =
    Some (mkMemoryFenceMessageTombstone (mm_publisherMember m) digest (mm_Sequence m)).
Proof.
  intros Hdig. revert tombstones. induction l as [|x l IH]; intros tombstones Hu; simpl.
  { intros [Hin|?]; [by apply elem_of_nil in Hin|done]. }
  intros Hin. apply IH; [intros; apply Hu; [by right|done]|].
  destruct (decide (mm_MessageID x = mm_MessageID m)) as [Hid|Hne].
  { assert (x = m) as -> by (apply Hu; [by left|done]). right.
    unfold add_tombstone. rewrite Hdig. by rewrite lookup_insert_eq. }
  destruct Hin as [[->|Hin]%elem_of_cons|Ht]; [done|by left|right].
  unfold add_tombstone. destruct (Envelope_ReferenceDigest (msg_Envelope (mm_message x))); [done|].
  by rewrite lookup_insert_ne.
Qed.

Lemma add_tombstones_other id l tombstones :
  id ∉ mm_MessageID <$> l → foldl add_tombstone tombstones l !! id = tombstones !! id.
Proof.
  revert tombstones. induction l as [|x l IH]; intros tombstones; [done|].
  rewrite fmap_cons, not_elem_of_cons. intros [Hx Hl]. simpl. rewrite IH by done.
  unfold add_tombstone. destruct (Envelope_ReferenceDigest _); [done|].
  by rewrite lookup_insert_ne.
Qed.

(** The end of an active fence leaves every settled publication settled: its
    message stays, or becomes a tombstone. *)
Lemma settled_end_fence n key status f credential envelope sequence d :
  WellFormed n d → dom_checkpointFences d !! key = Some f → mcf_Status f = CheckpointFenceActive →
  status ≠ CheckpointFenceActive ∧ status ≠ CheckpointFenceActivated →
  settled credential envelope sequence d →
  settled credential envelope sequence (end_fence key status d).
Proof.
  intros Hd Hf Hactive Hstatus (Hval & [sub Hsub] & Hm). split; [done|]. split.
  { exists sub. rewrite <- Hsub. rewrite end_fence_eq. done. }
  destruct (publishable_digest _ _ Hval) as [digest Hdig].
  set (id := env_MessageID envelope) in *.
  assert (dom_heap (end_fence key status d) = dom_heap d) as Hheap by by rewrite end_fence_eq.
  assert (dom_messageByID (end_fence key status d) =
    foldl (fun m i => delete i m) (dom_messageByID d) (mm_MessageID <$> tagged key (stored d)))
    as Hindex by by rewrite end_fence_eq.
  assert (dom_fenceMessageTombstones (end_fence key status d) =
    foldl add_tombstone (dom_fenceMessageTombstones d) (tagged key (stored d)))
    as Htombs by by rewrite end_fence_eq.
  unfold lookup_message in Hm |- *. rewrite Hheap, Hindex, Htombs.
  destruct (dom_messageByID d !! id) as [r|] eqn:Hi; simpl in Hm.
  - pose proof (wf_messages _ _ Hd) as HM.
    pose proof Hi as (Hin & m' & (m & Hr & ->)%lookup_shapes & Hid)%(mf_index _ _ _ _ _ _ _ HM).
    rewrite Hr in Hm. simpl in Hm. destruct Hm as (Hp & He & Hseq).
    change (mm_MessageID m = id) in Hid.
    assert (∀ x, x ∈ tagged key (stored d) → mm_MessageID x = mm_MessageID m → x = m) as Hu.
    { intros x [_ (r' & Hin' & Hr')%list_elem_of_omap]%list_elem_of_filter Hx.
      assert (dom_messageByID d !! id = Some r') as Hi'; [|congruence].
      apply (mf_index _ _ _ _ _ _ _ HM). split; [done|]. exists (shape x). split; [|exact (eq_trans Hx Hid)].
      apply lookup_shapes. eauto. }
    destruct (decide (mm_checkpointFenceID m = Some key)) as [Ht|Ht].
    + assert (m ∈ tagged key (stored d)) as Hmt.
      { apply list_elem_of_filter. split; [done|]. apply list_elem_of_omap. eauto. }
      destruct (foldl _ (dom_messageByID d) _ !! id) as [r'|] eqn:Hx.
      { apply lookup_foldl_delete in Hx as [_ Hx]. destruct Hx. rewrite <- Hid.
        by apply list_elem_of_fmap_2. }
      simpl. eexists _, digest. split; [done|]. rewrite <- Hid.
      split; [apply add_tombstones; [by rewrite He|exact Hu|by left]|]. done.
    + rewrite (proj2 (lookup_foldl_delete _ _ id r)).
      * simpl. by rewrite Hr.
      * split; [done|]. intros (x & Hx & Hxin)%list_elem_of_fmap.
        assert (x = m) as -> by (apply Hu; [done|congruence]).
        by apply list_elem_of_filter in Hxin as [? _].
  - destruct Hm as (t & digest' & Hdig' & Ht & Hp & Hdg & Hseq).
    destruct (foldl _ (dom_messageByID d) _ !! id) as [r'|] eqn:Hx.
    { apply lookup_foldl_delete in Hx as [Hx _]. congruence. }
    simpl. exists t, digest'. split; [done|]. split; [|done].
    rewrite add_tombstones_other; [done|].
    intros (r & m & Hin & Hr & Hid & _)%elem_of_tagged.
    assert (dom_messageByID d !! id = Some r); [|congruence].
    apply (mf_index _ _ _ _ _ _ _ (wf_messages _ _ Hd)). eauto.
Qed.

Lemma settled_refresh n now credential envelope sequence d :
  WellFormed n d → settled credential envelope sequence d →
  settled credential envelope sequence (refreshMemoryFence now d).
Proof.
  intros Hd Hs.
  enough (WellFormed n (refreshMemoryFence now d) ∧
    settled credential envelope sequence (refreshMemoryFence now d)) by tauto.
  unfold refreshMemoryFence.
  apply (foldl_invariant (fun d => WellFormed n d ∧ settled credential envelope sequence d)); [done|].
  intros e key [He Hse]. split; [by apply wf_refresh_fence|].
  destruct (dom_checkpointFences e !! key) as [f|] eqn:Hf.
  - rewrite (refresh_fence_end now e key f n He Hf). case_decide as Ha; [|done].
    destruct Ha. by eapply settled_end_fence.
  - unfold refresh_fence. by rewrite Hf.
Qed.

Lemma settled_abort n credential' request now credential envelope sequence d :
  WellFormed n d → settled credential envelope sequence d →
  wp (abortCheckpointFence credential' request now)
    (fun d' _ => settled credential envelope sequence d') d.
Proof.
  intros Hd Hs. pose proof (wf_refresh n now d Hd) as He.
  pose proof (settled_refresh n now _ _ _ d Hd Hs) as Hse.
  unfold abortCheckpointFence. wp_steps; try done.
  generalize dependent (refreshMemoryFence now d). intros e; intros.
  match goal with |- settled _ _ _ (?x <| dom_checkpointFenceAborts := _ |>) =>
    enough (settled credential envelope sequence x) as Hx by exact Hx end.
  match goal with Hf : dom_checkpointFences e !! _ = Some ?f |- _ =>
    apply (settled_end_fence n (cfa_FenceID request) CheckpointFenceAborted f) end;
    [done|done|by apply dec_stable|done|done].
Qed.

(** What becomes of a domain as its fences expire or are aborted. *)
Inductive fences_end (d : memoryDomain) : memoryDomain → Prop :=
  | fences_same : fences_end d d
  | fences_expire d' now : fences_end d d' → fences_end d (refreshMemoryFence now d')
  | fences_abort d' d'' credential request now r : fences_end d d' →
      abortCheckpointFence credential request now d' = (d'', r) → fences_end d d''.

(** [C6] Publication is idempotent: repeating a successful call, at any
    time, on any store, returns [AcceptanceDuplicate] with the sequence the
    first call returned, and leaves the domain as it is.  It stays so
    whenever fences expire or are aborted in between, even if that takes the
    message itself away: its tombstone answers. *)
Theorem publish_retry n s s' credential envelope now now' d d' d'' result :
  Z.of_N n < MaximumSequence → WellFormed n d →
  publish s credential envelope now d = (d', inr result) → fences_end d' d'' →
  publish s' credential envelope now' d'' =
    (d'', inr (mkPublishResult AcceptanceDuplicate (pr_Sequence result))).
Proof.
  intros Hn Hd Hp Hends. apply settled_duplicate.
  assert (∃ n', WellFormed n' d') as [n' Hd'].
  { exists (n + 1)%N. exact (wp_elim _ _ _ _ _ (wf_publish _ _ _ _ _ _ Hn Hd) Hp). }
  pose proof (wp_elim _ _ _ _ _ (publish_settles n s credential envelope now d Hn Hd) Hp _ eq_refl)
    as Hs.
  enough (WellFormed n' d'' ∧ settled credential envelope (pr_Sequence result) d'') by tauto.
  induction Hends as [|e now1 _ [He Hse]|e e' c request now1 r _ [He Hse] Hrun]; [done|..].
  - split; [by apply wf_refresh|by eapply settled_refresh].
  - split; [exact (wp_elim _ _ _ _ _ (preserves_abortCheckpointFence n' c request now1 e He) Hrun)|].
    exact (wp_elim _ _ _ _ _ (settled_abort n' c request now1 _ _ _ e He Hse) Hrun).
Qed.

(** A message ID is never rebound: when a valid publication by an
    active member names a stored message, the domain is left alone, and the
    outcome is the exact retry if publisher and envelope are the stored ones
    and [CodeMessageCollision] otherwise. *)
Theorem publish_never_rebinds s credential envelope now d subscription r m :
  Envelope_ValidateForPublish envelope credential = None →
  activeMemberSubscription d (cred_MemberID credential) = inr subscription →
  lookup_message d (env_MessageID envelope) = Some (r, m) →
  publish s credential envelope now d =
    (d, if decide (mm_publisherMember m = cred_MemberID credential ∧
                   msg_Envelope (mm_message m) = envelope)
        then inr (mkPublishResult AcceptanceDuplicate (mm_Sequence m))
        else inl (protocolError CodeMessageCollision
                    "message ID was reused with different content")).
Proof.
  intros Hval Hact Hl. unfold publish, bind, get, check, try. cbn.
  rewrite Hval, Hact. cbn. rewrite Hl. by case_decide.
Qed.

(** A rejected publication stores nothing: whatever the error, the
    domain is unchanged except that overdue fences may have been expired. *)
Theorem publish_error_stores_nothing s credential envelope now d d' err :
  publish s credential envelope now d = (d', inl err) →
  d' = d ∨ d' = refreshMemoryFence now d.
Proof.
  intros Hp. refine (wp_elim _ (fun d' r => ∀ err, r = inl err →
    d' = d ∨ d' = refreshMemoryFence now d) _ _ _ _ Hp err eq_refl).
  unfold publish, memoryFenceAllowsWrite. clear Hp. wp_steps; intros ? [=]; tauto.
Qed.
End publication.

Lemma publish_accepts_witness :
  ∃ d', publish store0 alice (example_envelope alice 101%N) 1000 domain0 =
    (d', inr (mkPublishResult AcceptanceAccepted (dom_nextSequence domain0 + 1))).
Proof.
  destruct (publish_accepts 3 store0 alice (example_envelope alice 101%N) 1000 domain0
    (example_subscription 21%N) 5) as (d' & r & m & Hp & _); [|exact domain0_wf| |by exists d'].
  - vm_compute. reflexivity.
  - split; vm_compute; try reflexivity. intros [_ Hge]. by apply Hge.
Defined.

(** A message that its publisher's fence takes away as it expires. *)
Definition fenced_domain : memoryDomain := domain_after [publish_one; fence_one].

Definition fenced_publication : memoryDomain :=
  (publish store0 alice (example_envelope alice 102%N) 1000 fenced_domain).1.

Lemma publish_retry_witness :
  is_Some (lookup_message fenced_publication 102%N) ∧
  lookup_message (refreshMemoryFence 1000000000 fenced_publication) 102%N = None ∧
  publish store0 alice (example_envelope alice 102%N) 1000000000
    (refreshMemoryFence 1000000000 fenced_publication) =
  (refreshMemoryFence 1000000000 fenced_publication, inr (mkPublishResult AcceptanceDuplicate 2)).
Proof.
  split; [apply (bool_decide_unpack _); vm_compute; exact Logic.I|].
  split; [vm_compute; reflexivity|].
  assert ((publish store0 alice (example_envelope alice 102%N) 1000 fenced_domain).2 =
    inr (mkPublishResult AcceptanceAccepted 2)) as Hrun by (vm_compute; reflexivity).
  assert (Z.of_N 5 < MaximumSequence) as Hn by (vm_compute; reflexivity).
  assert (WellFormed 5 fenced_domain) as Hd
    by (apply (domain_after_wf [publish_one; fence_one]); vm_compute; discriminate).
  exact (publish_retry 5 store0 store0 alice (example_envelope alice 102%N) 1000 1000000000
    fenced_domain _ _ (mkPublishResult AcceptanceAccepted 2) Hn Hd (ran _ _ _ Hrun)
    (fences_expire _ _ _ (fences_same _))).
Defined.

(** The stored message of [publish_one]. *)
Definition example_message : memoryMessage :=
  mkMemoryMessage (mkMessage 1 (example_envelope alice 101%N)) 5 11%N 21%N ∅ None.

(** Another member's envelope under the identifier of [publish_one]. *)
Lemma publish_never_rebinds_witness :
  publish store0 bob (example_envelope bob 101%N) 1000 (domain_after [publish_one]) =
  (domain_after [publish_one],
   inl (protocolError CodeMessageCollision "message ID was reused with different content")).
Proof.
  apply (publish_never_rebinds store0 bob (example_envelope bob 101%N) 1000
    (domain_after [publish_one]) (example_subscription 22%N) 0%N example_message).
  - vm_compute. reflexivity.
  - vm_compute. reflexivity.
  - vm_compute. reflexivity.
Defined.

Lemma publish_error_stores_nothing_witness :
  (publish store0 bob (example_envelope bob 102%N) 1000 (domain_after [publish_one; fence_one])).1 =
    domain_after [publish_one; fence_one] ∨
  (publish store0 bob (example_envelope bob 102%N) 1000 (domain_after [publish_one; fence_one])).1 =
    refreshMemoryFence 1000 (domain_after [publish_one; fence_one]).
Proof.
  apply (publish_error_stores_nothing store0 bob (example_envelope bob 102%N) 1000
    (domain_after [publish_one; fence_one]) _ (protocolError CodeCheckpointFenceActive
         "another subscription holds the checkpoint fence")).
  apply ran. vm_compute. reflexivity.
Defined.

(** ** Fetch *)

Section fetching.
Context `{UuidLib}.

(** The page loop in closed form. *)
Lemma fetch_page_spec (keep : memoryMessage → bool) limit page l :
  zlen page < limit →
  fetch_page keep limit page l =
    let kept := filter (fun m => keep m) l in
    let rest := Z.to_nat (limit - zlen page) in
    if decide (zlen kept < limit - zlen page) then inr (page ++ (mm_message <$> kept))
    else match kept !! pred rest with
         | Some m => inl (mkFetchResult (page ++ (mm_message <$> take rest kept)) (mm_Sequence m))
         | None => inr page
         end.
Proof.
  revert page. induction l as [|m l IH]; intros page Hp; cbn zeta.
  - cbn. rewrite decide_True by (change (zlen (@nil memoryMessage)) with 0; lia).
    by rewrite app_nil_r.
  - cbn [fetch_page]. destruct (keep m) eqn:Hk;
      [rewrite filter_cons_True by (by rewrite Hk)|rewrite filter_cons_False by (rewrite Hk; by intros [])].
    + assert (∀ A (x : A) k, zlen (x :: k) = zlen k + 1) as Hcons
        by (intros; unfold zlen; simpl; lia).
      pose proof (zlen_app page [mm_message m]) as Happ. rewrite Hcons in Happ.
      change (zlen (@nil Message)) with 0 in Happ.
      case_decide as Hfull.
      * rewrite decide_False by (rewrite Hcons; unfold zlen in *; lia).
        replace (Z.to_nat (limit - zlen page)) with 1%nat by lia. done.
      * rewrite IH by lia. cbn zeta. rewrite !Hcons, Happ.
        replace (limit - (zlen page + (0 + 1))) with (limit - zlen page - 1) by lia.
        replace (Z.to_nat (limit - zlen page)) with (S (Z.to_nat (limit - zlen page - 1))) by lia.
        cbn [take pred fmap list_fmap].
        repeat case_decide; try lia; [by rewrite <- app_assoc|].
        destruct (Z.to_nat (limit - zlen page - 1)) as [|k] eqn:Hz; [lia|].
        cbn [lookup list_lookup pred]. destruct (_ !! k) as [x|] eqn:Hx; [by rewrite <- app_assoc|].
        exfalso. apply lookup_ge_None in Hx. unfold zlen in *. lia.
    + by apply IH.
Qed.

Definition before (a b : memoryMessage) : Prop := mm_Sequence a < mm_Sequence b.

(** The stored messages are in strictly increasing sequence. *)
Lemma stored_sorted n d : WellFormed n d → StronglySorted before (stored d).
Proof.
  intros Hd. pose proof (mf_sorted _ _ _ _ _ _ _ (wf_messages _ _ Hd)) as Hs.
  assert (∀ x m, dom_heap d !! x = Some m → mm_Sequence m = Z.of_N x + 1) as Hseq.
  { intros x m Hx. apply (mf_heap _ _ _ _ _ _ _ (wf_messages _ _ Hd) x (shape m)).
    apply lookup_shapes. eauto. }
  unfold stored, deref. induction Hs as [|r l Hl IH Hr]; [constructor|]. simpl.
  destruct (dom_heap d !! r) as [m|] eqn:Hm; [|done]. constructor; [done|].
  rewrite Forall_forall in Hr. rewrite Forall_forall. intros m' (r' & Hin & Hm')%list_elem_of_omap.
  specialize (Hr r' Hin). unfold before. rewrite (Hseq _ _ Hm), (Hseq _ _ Hm'). lia.
Qed.

Lemma sorted_lookup l i j a b :
  StronglySorted before l → l !! i = Some a → l !! j = Some b → mm_Sequence a ≤ mm_Sequence b →
  (i ≤ j)%nat.
Proof.
  intros Hs. revert i j. induction Hs as [|x l Hl IH Hx]; intros i j; [by rewrite lookup_nil|].
  rewrite Forall_forall in Hx. destruct i as [|i], j as [|j]; simpl; try lia.
  - intros Ha [= <-] Hle. apply list_elem_of_lookup_2, Hx in Ha. unfold before in Ha. lia.
  - intros Ha Hb Hle. specialize (IH i j Ha Hb Hle). lia.
Qed.

(** No watermark is above the boundary of an active fence. *)
Lemma visible_high_le d id f b :
  dom_checkpointFences d !! id = Some f → mcf_Status f = CheckpointFenceActive →
  DecodeCursor (cfs_BoundaryCursor (mcf_state f)) = inr b → visibleHighWatermark d ≤ b.
Proof.
  intros Hf Ha Hb. unfold visibleHighWatermark.
  assert (f ∈ (map_to_list (dom_checkpointFences d)).*2) as Hin.
  { apply list_elem_of_fmap. exists (id, f). by rewrite elem_of_map_to_list. }
  assert (∀ l w, foldl lower_watermark w l ≤ w) as Hmono.
  { induction l as [|g l IH]; intros w; simpl; [done|]. etrans; [apply IH|].
    unfold lower_watermark. repeat case_match; repeat case_decide; lia. }
  clear Hf. generalize (dom_nextSequence d).
  induction Hin as [g l|g y l Hin IH]; intros w; simpl; [|by apply IH].
  etrans; [apply Hmono|]. unfold lower_watermark. rewrite decide_True, Hb by done.
  case_decide; lia.
Qed.

(** A stored message that no fence reveals lies past an active boundary. *)
Lemma hidden_message n d m :
  WellFormed n d → m ∈ stored d → ¬ fence_revealed d (mm_checkpointFenceID m) →
  ∃ id f b, dom_checkpointFences d !! id = Some f ∧ mcf_Status f = CheckpointFenceActive ∧
    DecodeCursor (cfs_BoundaryCursor (mcf_state f)) = inr b ∧ mm_Sequence m > b.
Proof.
  intros Hd (r & Hr & Hm)%list_elem_of_omap Hrev. pose proof (wf_fences _ _ Hd) as HF.
  unfold fence_revealed in Hrev.
  destruct (mm_checkpointFenceID m) as [id|] eqn:Htag; simpl in Hrev; [|tauto].
  assert (shapes d !! r = Some (shape m)) as Hsh by (apply lookup_shapes; eauto).
  destruct (ff_tag _ _ _ _ _ HF r (shape m) id Hr Hsh Htag) as (f & Hf & [Ha|Ha]);
    rewrite Hf in Hrev; simpl in Hrev; [|tauto].
  destruct (ff_boundary _ _ _ _ _ HF id f Hf) as (b & Hb & _).
  exists id, f, b. split_and!; try done.
  by apply (ff_quarantine _ _ _ _ _ HF id f b r (shape m) Hf Ha Hb Hr Hsh).
Qed.

(** Past the boundary of an active fence nothing is revealed. *)
Lemma revealed_before_boundary n d id f b m :
  WellFormed n d → dom_checkpointFences d !! id = Some f →
  mcf_Status f = CheckpointFenceActive →
  DecodeCursor (cfs_BoundaryCursor (mcf_state f)) = inr b → m ∈ stored d →
  fence_revealed d (mm_checkpointFenceID m) → mm_Sequence m ≤ b.
Proof.
  intros Hd Hf Ha Hb (r & Hr & Hm)%list_elem_of_omap Hrev. pose proof (wf_fences _ _ Hd) as HF.
  assert (shapes d !! r = Some (shape m)) as Hsh by (apply lookup_shapes; eauto).
  apply Znot_gt_le. intros Hgt.
  assert (mm_checkpointFenceID m = Some id) as Htag
    by by apply (ff_quarantine _ _ _ _ _ HF id f b r (shape m) Hf Ha Hb Hr Hsh).
  rewrite Htag in Hrev. unfold fence_revealed in Hrev. simpl in Hrev. rewrite Hf in Hrev.
  simpl in Hrev. rewrite Ha in Hrev. done.
Qed.

(** The subscription has no use for the message: it published it, outside
    the range it is recovering, or it recovers and has applied it. *)
Definition unwanted (d : memoryDomain) (subscription : Subscription) (now : int64)
    (m : memoryMessage) : Prop :=
  (mm_publisherSubscription m = sub_SubscriptionID subscription ∧
   ¬ memoryOwnMessageIsInAuthorizedRecovery d subscription m now) ∨
  (memorySubscriptionHasAuthorizedRecovery d subscription now ∧
   default "" (mm_acknowledgments m !! sub_SubscriptionID subscription) = AcknowledgmentApplied).

Lemma fetchable_cases d sub start now m :
  mm_Sequence m > start →
  fetchable d sub start now m ∨ unwanted d sub now m ∨
  ¬ fence_revealed d (mm_checkpointFenceID m).
Proof.
  intros Hs. destruct (decide (fetchable d sub start now m)) as [|Hf]; [by left|].
  destruct (decide (fence_revealed d (mm_checkpointFenceID m))) as [Hrev|]; [|by right; right].
  right; left. unfold unwanted.
  destruct (decide (memorySubscriptionHasAuthorizedRecovery d sub now ∧
     default "" (mm_acknowledgments m !! sub_SubscriptionID sub) = AcknowledgmentApplied));
    [by right|].
  destruct (decide (mm_publisherSubscription m = sub_SubscriptionID sub ∧
     ¬ memoryOwnMessageIsInAuthorizedRecovery d sub m now)); [by left|].
  exfalso. apply Hf. done.
Qed.

(** [C7] A fetched page is exact and skips nothing.  The page is the first
    [limit] fetchable messages after the effective cursor, in sequence
    order; the returned cursor does not move backwards; and every stored
    message between the two cursors is on the page, unless the subscription
    has no use for it.  In particular no message is lost behind a fence. *)
Theorem fetch_complete n credential after limit now d d' result :
  WellFormed n d → 0 < limit →
  fetch credential after limit now d = (d', inr result) →
  ∃ sub start,
    readableMemberSubscription d' (cred_MemberID credential) = inr sub ∧
    effective_cursor sub after = inr start ∧ d' = refreshMemoryFence now d ∧
    fr_Messages result =
      mm_message <$> take (Z.to_nat limit) (filter (fetchable d' sub start now) (stored d')) ∧
    StronglySorted before (stored d') ∧ start ≤ fr_NextSequence result ∧
    ∀ m, m ∈ stored d' → start < mm_Sequence m ≤ fr_NextSequence result →
      mm_message m ∈ fr_Messages result ∨ unwanted d' sub now m.
Proof.
  intros Hd Hlimit Hrun. assert (WellFormed n (refreshMemoryFence now d)) as He by by apply wf_refresh.
  revert Hrun. unfold fetch, bind, modify, get, try, reject_if. cbn.
  set (e := refreshMemoryFence now d) in *.
  destruct (readableMemberSubscription e (cred_MemberID credential)) as [?|sub] eqn:Hsub; [done|].
  case_decide; [done|]. destruct (effective_cursor sub after) as [?|start] eqn:Hstart; [done|].
  set (keep := fun m => bool_decide (fetchable e sub start now m)).
  rewrite fetch_page_spec by (change (zlen (@nil Message)) with 0; lia). cbn zeta.
  change (zlen (@nil Message)) with 0. rewrite Z.sub_0_r. cbn [app].
  assert (filter (fun m => keep m) (stored e) = filter (fetchable e sub start now) (stored e)) as ->.
  { apply list_filter_iff. intros m. unfold keep. by rewrite bool_decide_spec. }
  set (visible := filter (fetchable e sub start now) (stored e)).
  assert (∀ m, m ∈ visible ↔ m ∈ stored e ∧ fetchable e sub start now m) as Hvis.
  { intros m. unfold visible. rewrite list_elem_of_filter. tauto. }
  assert (∀ m, m ∈ stored e → start < mm_Sequence m →
    m ∈ visible ∨ unwanted e sub now m ∨
    ∃ id f b, dom_checkpointFences e !! id = Some f ∧ mcf_Status f = CheckpointFenceActive ∧
      DecodeCursor (cfs_BoundaryCursor (mcf_state f)) = inr b ∧ mm_Sequence m > b) as Hcases.
  { intros m Hm Hs. destruct (fetchable_cases e sub start now m) as [Hf|[Hu|Hh]]; [lia|..].
    - left. by apply Hvis.
    - right. by left.
    - right. right. by eapply hidden_message. }
  intros Hrun. exists sub, start.
  assert (d' = e) as -> by (revert Hrun; case_decide; [|destruct (_ !! _)]; by intros [=]).
  do 3 (split; [done|]). fold visible. revert Hrun. case_decide as Hfull.
  - intros [= <-]. cbn [fr_Messages fr_NextSequence].
    rewrite take_ge by (unfold zlen in Hfull; lia). do 2 (split; [by eapply stored_sorted||done|]).
    split; [case_decide; lia|]. intros m Hm [Hs Hle].
    destruct (Hcases m Hm Hs) as [Hv|[Hu|(id & f & b & Hf & Ha & Hb & Hgt)]];
      [left; by apply list_elem_of_fmap_2|by right|]. exfalso.
    pose proof (visible_high_le e id f b Hf Ha Hb). case_decide; lia.
  - assert (pred (Z.to_nat limit) < length visible)%nat as Hlen by (unfold zlen in Hfull; lia).
    destruct (lookup_lt_is_Some_2 visible _ Hlen) as [m0 Hm0]. rewrite Hm0.
    intros [= <-]. cbn [fr_Messages fr_NextSequence]. split; [done|].
    split; [by eapply stored_sorted|].
    pose proof (list_elem_of_lookup_2 _ _ _ Hm0) as Hin0. apply Hvis in Hin0 as [Hst0 Hf0].
    split; [destruct Hf0; lia|]. intros m Hm [Hs Hle].
    destruct (Hcases m Hm Hs) as [Hv|[Hu|(id & f & b & Hf & Ha & Hb & Hgt)]]; [|by right|].
    + left. apply list_elem_of_fmap_2. apply list_elem_of_lookup_1 in Hv as [i Hi].
      assert (i ≤ pred (Z.to_nat limit))%nat as Hile.
      { eapply sorted_lookup; [|exact Hi|exact Hm0|done].
        apply sorted_filter. by eapply stored_sorted. }
      apply (list_elem_of_lookup_2 _ i). rewrite lookup_take_lt by lia. done.
    + exfalso. assert (mm_Sequence m0 ≤ b); [|lia].
      eapply revealed_before_boundary; try done. apply Hf0.
Qed.
End fetching.

Lemma fetch_complete_witness :
  ∃ sub start, readableMemberSubscription
      (fetch bob 0 10 1000 (domain_after [publish_one])).1 (cred_MemberID bob) = inr sub ∧
    effective_cursor sub 0 = inr start.
Proof.
  destruct (fetch_complete 4 bob 0 10 1000 (domain_after [publish_one])
    (fetch bob 0 10 1000 (domain_after [publish_one])).1
    (mkFetchResult [mkMessage 1 (example_envelope alice 101%N)] 1))
    as (sub & start & Hsub & Hstart & _).
  - apply (domain_after_wf [publish_one]). vm_compute. discriminate.
  - lia.
  - apply ran. vm_compute. reflexivity.
  - exists sub, start. split; [exact Hsub|exact Hstart].
Defined.

(** ** Acknowledgment *)

(** No acknowledgment, accepted, applied. *)
Definition ack_rank (stage : option AcknowledgmentStage) : Z :=
  match stage with
  | None => 0
  | Some s => if decide (s = AcknowledgmentApplied) then 2 else 1
  end.

Section acknowledging.
Context `{UuidLib}.

Lemma lookup_put_message d r m m' mid :
  dom_heap d !! r = Some m →
  lookup_message (put_message r m' d) mid =
    (fun p : messageRef * memoryMessage => if decide (p.1 = r) then (r, m') else p) <$>
      lookup_message d mid.
Proof.
  intros Hr. unfold lookup_message, put_message. cbn.
  destruct (dom_messageByID d !! mid) as [r'|]; [|done]. cbn.
  destruct (decide (r' = r)) as [->|Hne].
  - rewrite lookup_insert_eq, Hr. cbn. by rewrite decide_True.
  - rewrite lookup_insert_ne by done. destruct (dom_heap d !! r'); [|done]. cbn.
    by rewrite decide_False.
Qed.

(** The caller's subscription, which may acknowledge [m]. *)
Definition acknowledger (d : memoryDomain) (credential : Credential) (now : int64)
    (m : memoryMessage) (subscriptionID : UUID) : Prop :=
  ∃ sub, readableMemberSubscription d (cred_MemberID credential) = inr sub ∧
    sub_SubscriptionID sub = subscriptionID ∧
    ¬ (mm_publisherSubscription m = subscriptionID ∧
       ¬ memoryOwnMessageIsInAuthorizedRecovery d sub m now).

(** Recording a stage advances the recorder's entry on that one message. *)
Lemma recorded n d id r m sub stage (ok : memoryMessage → UUID → Prop) :
  WellFormed n d → lookup_message d id = Some (r, m) → ok m sub →
  (ack_rank (Some stage) = ack_rank (mm_acknowledgments m !! sub) ∨
   ack_rank (Some stage) = ack_rank (mm_acknowledgments m !! sub) + 1) →
  ∀ mid r0 m0, lookup_message d mid = Some (r0, m0) →
    ∃ m', lookup_message (put_message r (m <| mm_acknowledgments :=
        <[sub := stage]> (mm_acknowledgments m) |>) d) mid = Some (r0, m') ∧
      shape m' = shape m0 ∧
      ∀ subscriptionID,
        let old := mm_acknowledgments m0 !! subscriptionID in
        let new := mm_acknowledgments m' !! subscriptionID in
        (ack_rank new = ack_rank old ∨ ack_rank new = ack_rank old + 1) ∧
        (new ≠ old → mid = id ∧ new = Some stage ∧ ok m0 subscriptionID).
Proof.
  intros Hd Hm Hok Hrank mid r0 m0 Hm0.
  pose proof Hm as [Hi Hr]%(lookup_message_spec n); [|done].
  pose proof Hm0 as [Hi0 Hr0]%(lookup_message_spec n); [|done].
  rewrite (lookup_put_message d r m) by done. rewrite Hm0. cbn. case_decide as Heq.
  - subst r0. assert (m0 = m) as -> by congruence.
    assert (mid = id) as ->.
    { pose proof (wf_messages _ _ Hd) as HM.
      apply (mf_index _ _ _ _ _ _ _ HM) in Hi as (_ & x & Hx & <-).
      apply (mf_index _ _ _ _ _ _ _ HM) in Hi0 as (_ & y & Hy & <-). congruence. }
    eexists. split; [done|split; [done|]]. intros sid. cbn.
    destruct (decide (sid = sub)) as [->|Hne].
    + rewrite lookup_insert_eq. split; [done|]. done.
    + rewrite lookup_insert_ne by done. split; [by left|done].
  - eexists. split; [done|split; [done|]]. intros sid. split; [by left|done].
Qed.

(** Acknowledgments only advance, one stage at a time.  Whatever its
    outcome, [Acknowledge] changes at most the caller's own entry on the
    named message, and never on a message the caller published outside its
    recovery; that entry goes from absent to accepted or from accepted to
    applied and never back; no other part of a message changes. *)
Theorem acknowledge_advances n credential id stage now d d' res :
  WellFormed n d → acknowledge credential id stage now d = (d', res) →
  dom_messages d' = dom_messages d ∧ dom_messageByID d' = dom_messageByID d ∧
  ∀ mid r m, lookup_message d mid = Some (r, m) →
    ∃ m', lookup_message d' mid = Some (r, m') ∧ shape m' = shape m ∧
      ∀ subscriptionID,
        let old := mm_acknowledgments m !! subscriptionID in
        let new := mm_acknowledgments m' !! subscriptionID in
        (ack_rank new = ack_rank old ∨ ack_rank new = ack_rank old + 1) ∧
        (new ≠ old → mid = id ∧ new = Some stage ∧
           acknowledger d credential now m subscriptionID).
Proof.
  intros Hd Hrun. refine (wp_elim _ (fun d' _ => _) _ _ _ _ Hrun). clear Hrun d' res.
  unfold acknowledge. wp_steps; try (split_and!; [done|done|]; intros mid r0 m0 Hm0;
    exists m0; split_and!; [done|done|]; intros; split; [by left|done]).
  all: split_and!; [done|done|].
  all: apply (recorded n d id _ _ _ _ (acknowledger d credential now)); [done|done| |].
  all: try (eexists; split_and!; [eassumption|done|assumption]).
  all: match goal with Ho : mm_acknowledgments _ !! _ = _ |- _ => rewrite Ho end.
  all: cbn; repeat case_decide; first [lia|tauto|exfalso; match goal with Hx : ¬ (_ = _ ∨ _) |- _ => by apply Hx; auto end].
Qed.
End acknowledging.

Lemma acknowledge_advances_witness :
  dom_messages (acknowledge bob 101%N AcknowledgmentAccepted 1000 (domain_after [publish_one])).1 =
  dom_messages (domain_after [publish_one]).
Proof.
  apply (acknowledge_advances 4 bob 101%N AcknowledgmentAccepted 1000 (domain_after [publish_one])
    _ (inr (mkAcknowledgmentResult AcceptanceAccepted AcknowledgmentAccepted))).
  - apply (domain_after_wf [publish_one]). vm_compute. discriminate.
  - apply ran. vm_compute. reflexivity.
Defined.

(** ** Stored messages and shapes *)

Lemma stored_elem d m :
  m ∈ stored d ↔ ∃ r, r ∈ dom_messages d ∧ dom_heap d !! r = Some m.
Proof. unfold stored, deref. apply list_elem_of_omap. Qed.

Lemma heap_shape d r m : dom_heap d !! r = Some m → shapes d !! r = Some (shape m).
Proof. intros Hr. apply lookup_shapes. by exists m. Qed.

Lemma stored_sum d :
  list_sum mm_byteCount (objects (shapes d) (dom_messages d)) = list_sum mm_byteCount (stored d).
Proof. apply sum_shapes. Qed.

Section log.
Context (n : N) (d : memoryDomain) (Hd : WellFormed n d).

Lemma stored_range m : m ∈ stored d → 1 ≤ mm_Sequence m ≤ dom_nextSequence d.
Proof using Hd.
  intros (r & _ & Hr)%stored_elem. apply heap_shape in Hr.
  destruct (wf_messages _ _ Hd) as [_ Hseq Hheap _ _ _ _].
  destruct (Hheap _ _ Hr) as (? & Hs & _).
  assert (mm_Sequence m = Z.of_N r + 1) by exact Hs. lia.
Qed.

Lemma stored_bytes_nonneg : 0 ≤ list_sum mm_byteCount (stored d).
Proof using Hd.
  assert (Forall (λ m, 0 ≤ mm_byteCount m) (stored d)) as Hall.
  { apply Forall_forall. intros m (r & _ & Hr)%stored_elem. apply heap_shape in Hr.
    by apply (mf_heap _ _ _ _ _ _ _ (wf_messages _ _ Hd)) in Hr as (_ & _ & ?). }
  induction Hall; simpl; lia.
Qed.

Lemma index_spec id m :
  snd <$> lookup_message d id = Some m ↔ m ∈ stored d ∧ mm_MessageID m = id.
Proof using Hd.
  rewrite stored_elem. split.
  - intros ([r m'] & Hl & [= <-])%fmap_Some.
    apply (lookup_message_spec n) in Hl as [Hi Hr]; [|done].
    apply (mf_index _ _ _ _ _ _ _ (wf_messages _ _ Hd)) in Hi as (Hin & x & Hx & Hid).
    apply lookup_shapes in Hx as (y & Hy & ->). simplify_eq. by eauto.
  - intros [(r & Hin & Hr) Hid]. apply fmap_Some. exists (r, m). split; [|done].
    apply (lookup_message_spec n); [done|]. split; [|done].
    apply (mf_index _ _ _ _ _ _ _ (wf_messages _ _ Hd)). split; [done|].
    exists (shape m). split; [by apply heap_shape|done].
Qed.
End log.

(** A domain with its own quota has an int64 bound on its message bytes. *)
Lemma own_quota_range r :
  DomainRegistration_Validate r = None → ¬ DomainRegistration_UsesSharedCapacity r →
  dr_MaximumMessageByteCount r < 2 ^ 63.
Proof.
  unfold DomainRegistration_Validate. rewrite err_then_None, !err_when_None.
  intros [_ Hq] Hs. assert (¬ dr_MaximumMessageByteCount r > AbsoluteMaximumMessageByteCount) as Hle
    by (intros Hx; apply Hq; split; [exact Hs|]; by do 4 right; left).
  apply (Z.le_lt_trans _ AbsoluteMaximumMessageByteCount); [by apply Znot_gt_le|].
  vm_compute. reflexivity.
Qed.

Lemma length_omap_le {A B} (f : A → option B) l : (length (omap f l) ≤ length l)%nat.
Proof. induction l as [|x l IH]; csimpl; [lia|]. destruct (f x); csimpl; lia. Qed.

Section reachable.
Context `{UuidLib}.

(** [C1] Every reachable store keeps each domain's messages as a log: in
    strictly increasing sequence, within the sequence counter, which never
    exceeds the number of calls; looking a message identifier up finds
    exactly the stored message with that identifier; the byte counter is the
    sum of the stored counts, exactly so when the domain has its own quota,
    which neither the number of messages nor their bytes exceed. *)
Theorem reachable_log ttl n s key d :
  reachable ttl n s → Z.of_N n ≤ MaximumSequence → st_domains s !! key = Some d →
  StronglySorted before (stored d) ∧
  (∀ m, m ∈ stored d → 1 ≤ mm_Sequence m ≤ dom_nextSequence d) ∧
  0 ≤ dom_nextSequence d ≤ Z.of_N n ∧
  (∀ id m, snd <$> lookup_message d id = Some m ↔ m ∈ stored d ∧ mm_MessageID m = id) ∧
  dom_messageBytes d = i64 (list_sum mm_byteCount (stored d)) ∧
  (¬ DomainRegistration_UsesSharedCapacity (dom_registration d) →
     zlen (stored d) ≤ dr_MaximumMessageCount (dom_registration d) ∧
     dom_messageBytes d = list_sum mm_byteCount (stored d) ∧
     dom_messageBytes d ≤ dr_MaximumMessageByteCount (dom_registration d)).
Proof.
  intros Hs Hn Hkey. pose proof (reachable_wf ttl n s Hs Hn key d Hkey) as Hd.
  pose proof (wf_messages _ _ Hd) as [Hb Hseq _ Hrefs _ _ Hbytes].
  rewrite stored_sum in Hbytes.
  split_and!; [by eapply stored_sorted|by eapply stored_range|lia|lia|by eapply index_spec|done|].
  intros Hown. destruct (wf_quota _ _ Hd) as [Hv Hq]. destruct (Hq Hown) as [Hcount Hsum].
  rewrite stored_sum in Hsum. pose proof (own_quota_range _ Hv Hown).
  pose proof (stored_bytes_nonneg n d Hd). rewrite Hbytes.
  rewrite i64_small by lia. split_and!; [|done|done].
  unfold zlen in *. unfold stored, deref. etrans; [|exact Hcount].
  apply Nat2Z.inj_le, length_omap_le.
Qed.

(** [C2] Every reachable store keeps the suffix behind an active fence to the
    fence's holder.  At most one fence is active; a stored message lies past
    its boundary exactly when it is tagged with that fence, and is then the
    holder's; and a tag always names a fence that is active or was
    activated, so that nothing of an aborted or expired one is left. *)
Theorem reachable_fencing ttl n s key d :
  reachable ttl n s → Z.of_N n ≤ MaximumSequence → st_domains s !! key = Some d →
  (∀ id1 id2, active_fence (dom_checkpointFences d) id1 →
     active_fence (dom_checkpointFences d) id2 → id1 = id2) ∧
  (∀ id f, dom_checkpointFences d !! id = Some f → mcf_Status f = CheckpointFenceActive →
     ∃ boundary, DecodeCursor (cfs_BoundaryCursor (mcf_state f)) = inr boundary ∧
       ∀ m, m ∈ stored d →
         (mm_Sequence m > boundary ↔ mm_checkpointFenceID m = Some id) ∧
         (mm_Sequence m > boundary →
            mm_publisherSubscription m = mcf_holderSubscriptionID f)) ∧
  (∀ m id, m ∈ stored d → mm_checkpointFenceID m = Some id →
     ∃ f, dom_checkpointFences d !! id = Some f ∧ live f) ∧
  (∀ blob id, dom_blobFenceIDs d !! blob = Some id →
     ∃ f, dom_checkpointFences d !! id = Some f ∧ live f).
Proof.
  intros Hs Hn Hkey. pose proof (reachable_wf ttl n s Hs Hn key d Hkey) as Hd.
  destruct (wf_fences _ _ Hd) as [_ Hone Hbound Htag Hquar Hblob].
  split_and!; [exact Hone| | |exact Hblob].
  - intros id f Hf Hact. destruct (Hbound id f Hf) as (b & Hb & _). exists b.
    split; [exact Hb|]. intros m (r & Hin & Hr)%stored_elem.
    exact (Hquar id f b r (shape m) Hf Hact Hb Hin (heap_shape _ _ _ Hr)).
  - intros m id (r & Hin & Hr)%stored_elem Ht.
    exact (Htag r (shape m) id Hin (heap_shape _ _ _ Hr) Ht).
Qed.

(** [C3] In every reachable store checkpoint authority is a window of two.
    The activated checkpoints are the last two ever activated, each once,
    and those before them are retired; and what the latest one has selected
    for deletion is stored, was covered by it, and is not among what it
    retains. *)
Theorem reachable_checkpoints ttl n s key d :
  reachable ttl n s → Z.of_N n ≤ MaximumSequence → st_domains s !! key = Some d →
  NoDup (dom_activatedCheckpoints d) ∧
  (∀ id c, dom_checkpoints d !! id = Some c →
     (mc_state c = activated ↔ id ∈ last_two (dom_activatedCheckpoints d)) ∧
     (mc_state c = retired ↔
        id ∈ dom_activatedCheckpoints d ∧ id ∉ last_two (dom_activatedCheckpoints d))) ∧
  (∀ c, latest_checkpoint d = Some c →
     mc_state c = activated ∧ mc_startSequence c = mc_coveredThrough c ∧
     0 ≤ mc_coveredThrough c ≤ dom_nextSequence d ∧
     (∀ id r, mc_deletionMessages c !! id = Some r →
        id ∉ cc_RetainedMessageIDs (mc_candidate c) ∧
        ∃ m, lookup_message d id = Some (r, m) ∧ mm_Sequence m ≤ mc_startSequence c) ∧
     (∀ id b, mc_deletionBlobs c !! id = Some b →
        id ∉ cc_RetainedBlobIDs (mc_candidate c) ∧ dom_blobs d !! id = Some b)).
Proof.
  intros Hs Hn Hkey. pose proof (reachable_wf ttl n s Hs Hn key d Hkey) as Hd.
  pose proof (wf_checkpoints _ _ Hd) as Hc.
  split_and!; [by eapply cf_nodup| |].
  - intros id c Hi. split; [by eapply cf_activated|by eapply cf_retired].
  - intros c (id & Hlast & Hi)%bind_Some. unfold latest_activated in Hlast.
    split_and!; [by eapply latest_is_activated| |by eapply cf_covered|by eapply cf_covered| |].
    + eapply cf_start; [exact Hc|exact Hi|]. by apply last_two_incl, last_in_last_two.
    + intros mid r Hm. destruct (cf_messages _ _ _ _ _ _ _ _ Hc _ _ _ _ Hlast Hi Hm)
        as (Hidx & Hret & Hall). split; [exact Hret|].
      pose proof Hidx as (_ & m & Hm' & _)%(mf_index _ _ _ _ _ _ _ (wf_messages _ _ Hd)).
      pose proof (Hall _ Hm') as [Hle _]. apply lookup_shapes in Hm' as (x & Hx & ->).
      exists x. split; [by apply (lookup_message_spec n)|exact Hle].
    + intros bid b Hb. destruct (cf_blobs _ _ _ _ _ _ _ _ Hc _ _ _ _ Hlast Hi Hb)
        as (Hin & Hret & _). by split.
Qed.
End reachable.

(** ** The example's stores *)

Definition store_after (ops : list Op) : MemoryStore := perform_all ops store0.

Lemma store_after_reachable ops : reachable [] (3 + N.of_nat (length ops)) (store_after ops).
Proof.
  apply reachable_perform_all. exact (reachable_perform_all [] 0 new_store setup (reachable_new [])).
Qed.

Lemma domain_found s : is_Some (st_domains s !! (tenantID, domainID)) →
  st_domains s !! (tenantID, domainID) = Some (domain_of s).
Proof. intros [d Hd]. unfold domain_of. by rewrite Hd. Qed.

Lemma reachable_log_witness :
  StronglySorted before (stored (domain_after rooted)) ∧
  dom_messageBytes (domain_after rooted) = list_sum mm_byteCount (stored (domain_after rooted)).
Proof.
  destruct (reachable_log [] 8 (store_after rooted) (tenantID, domainID) (domain_after rooted))
    as (Hsorted & _ & _ & _ & _ & Hquota).
  - exact (store_after_reachable rooted).
  - vm_compute. discriminate.
  - apply domain_found. vm_compute. by eexists.
  - split; [exact Hsorted|]. apply Hquota. vm_compute. intros [? _]. discriminate.
Defined.

Lemma reachable_fencing_witness :
  Forall (fun m => mm_Sequence m > 1 ↔ mm_checkpointFenceID m = Some 42%N)
    (stored (domain_after [publish_one; fence_one])).
Proof.
  destruct (reachable_fencing [] 5 (store_after [publish_one; fence_one]) (tenantID, domainID)
    (domain_after [publish_one; fence_one])) as (_ & Hsuffix & _).
  - exact (store_after_reachable [publish_one; fence_one]).
  - vm_compute. discriminate.
  - apply domain_found. vm_compute. by eexists.
  - destruct (Hsuffix 42%N example_fence) as (b & Hb & Hm);
      [exact fence_one_created|reflexivity|].
    assert (DecodeCursor (cfs_BoundaryCursor (mcf_state example_fence)) = inr 1) as Hone
      by (vm_compute; reflexivity).
    rewrite Hone in Hb. injection Hb as <-. apply Forall_forall. intros m Hin. apply (Hm m Hin).
Defined.

Lemma reachable_checkpoints_witness :
  from_option (fun c => mc_state c = activated) False (latest_checkpoint activated_domain).
Proof.
  destruct (reachable_checkpoints [] 8
    (store_after (stage_one ++ [OpActivateCheckpoint admin_credential example_activation 1002]))
    (tenantID, domainID) activated_domain) as (_ & _ & Hlatest).
  - exact (store_after_reachable
      (stage_one ++ [OpActivateCheckpoint admin_credential example_activation 1002])).
  - vm_compute. discriminate.
  - apply domain_found. vm_compute. by eexists.
  - destruct (latest_checkpoint activated_domain) as [c|] eqn:Hc; [by apply (Hlatest c)|].
    vm_compute in Hc. discriminate.
Defined.
