(* ===== verification/RelayCustody.v ===== *)
(** * internal/relay: what checkpoints guarantee

    What an activation freezes, and what a collection deletes, keeps and
    reports. *)

From S2P Require Import Prelude GoEncoding Sha256 RelayModel RelayState RelayFence RelayTenant RelayMember RelaySubscription RelayDelivery RelayBlob RelayCheckpoint RelayMachine RelayExample RelayInvariant RelayFenceFacts RelayOperationFacts RelayCheckpointFacts RelayReachable.
#[local] Open Scope Z_scope.

(** ** Plan digests *)

#[local] Instance plan_message_le_total : Total plan_message_le.
Proof. intros a b. unfold plan_message_le. lia. Qed.

#[local] Instance plan_message_le_trans : Transitive plan_message_le.
Proof. intros a b c. unfold plan_message_le. lia. Qed.

#[local] Instance plan_blob_le_total : Total plan_blob_le.
Proof. intros a b. unfold plan_blob_le. apply (total str_le). Qed.

#[local] Instance plan_blob_le_trans : Transitive plan_blob_le.
Proof. intros a b c. unfold plan_blob_le. apply transitivity. Qed.

(** The plan digest is canonical: it does not depend on the order in
    which Go's map iteration lists the messages and blobs of the plan, as long
    as no two entries share an identifier (they come from maps). *)
Theorem plan_digest_canonical tenantID domainID checkpointID ordinal messages messages' blobs blobs' :
  NoDup (cpm_MessageID <$> messages) → NoDup (cpb_BlobID <$> blobs) →
  messages ≡ₚ messages' → blobs ≡ₚ blobs' →
  CheckpointPlanDigest tenantID domainID checkpointID ordinal messages blobs =
  CheckpointPlanDigest tenantID domainID checkpointID ordinal messages' blobs'.
Proof.
  intros Hm Hb Hpm Hpb. unfold CheckpointPlanDigest.
  rewrite (merge_sort_unique plan_message_le messages messages'), (merge_sort_unique plan_blob_le
    blobs blobs'); try done.
  - intros x y Hx Hy H1 H2. apply (NoDup_fmap_inj_elem cpb_BlobID blobs); try done.
    by apply (anti_symm str_le).
  - intros x y Hx Hy H1 H2. apply (NoDup_fmap_inj_elem cpm_MessageID messages); try done.
    unfold plan_message_le in *. lia.
Qed.

Lemma plan_digest_canonical_witness :
  CheckpointPlanDigest 1%N 2%N 3%N 1 [mkCheckpointPlanMessage 2 8%N 5; mkCheckpointPlanMessage 1 9%N 6]
    [mkCheckpointPlanBlob "b" 1; mkCheckpointPlanBlob "a" 2] =
  CheckpointPlanDigest 1%N 2%N 3%N 1 [mkCheckpointPlanMessage 1 9%N 6; mkCheckpointPlanMessage 2 8%N 5]
    [mkCheckpointPlanBlob "a" 2; mkCheckpointPlanBlob "b" 1].
Proof.
  apply plan_digest_canonical.
  - apply (bool_decide_unpack _). vm_compute. exact I.
  - apply (bool_decide_unpack _). vm_compute. exact I.
  - apply Permutation_swap.
  - apply Permutation_swap.
Defined.

(** ** Activation *)

Section activation.
Context `{UuidLib}.

(** What the previous activated checkpoint and this one retain. *)
Definition retained_by (d : memoryDomain) (c : memoryCheckpoint) (mid : UUID) : Prop :=
  mid ∈ cc_RetainedMessageIDs (mc_candidate c) ∨
  ∃ p, latest_checkpoint d = Some p ∧ mid ∈ cc_RetainedMessageIDs (mc_candidate p).

Definition retained_blob_by (d : memoryDomain) (c : memoryCheckpoint) (id : string) : Prop :=
  id ∈ cc_RetainedBlobIDs (mc_candidate c) ∨
  ∃ p, latest_checkpoint d = Some p ∧ id ∈ cc_RetainedBlobIDs (mc_candidate p).

Lemma some_or_nil {A B} (o : option A) (f : A → list B) x :
  x ∈ match o with Some a => f a | None => [] end ↔ ∃ a, o = Some a ∧ x ∈ f a.
Proof.
  destruct o as [a|]; [|rewrite elem_of_nil]; split; try done; [eauto| |].
  - by intros (? & [= <-] & ?).
  - by intros (? & ? & _).
Qed.

(** The outcome of a first activation. *)
Lemma activation_outcome n request now d :
  WellFormed n d → dom_checkpointActivations d !! caq_RetryID request = None →
  wp (activateCheckpoint request now) (fun d' r => ∀ res, r = inr res →
    let e := refreshMemoryFence now d in let id := caq_CheckpointID request in
    ∃ c f, dom_checkpoints e !! id = Some c ∧ mc_state c = staged ∧
      dom_checkpointFences e !! cc_FenceID (mc_candidate c) = Some f ∧
      mcf_Status f = CheckpointFenceActive ∧
      memoryFenceSuffixMatches e f (cc_RetainedMessageIDs (mc_candidate c)) ∧
      ¬ memoryHasBoundRebootstrap e now ∧
      ¬ memoryCheckpointRegresses (mc_candidate c) (mc_coveredThrough c) (latest_checkpoint e) ∧
      d' = (activate id c request e) <| dom_checkpointActivations :=
        <[caq_RetryID request := mkMemoryCheckpointActivation id request res]>
          (dom_checkpointActivations (activate id c request e)) |>) d.
Proof.
  intros Hd Hnew. unfold activateCheckpoint. wp_steps; try (intros ? [=]; done).
  intros res [= <-]. match goal with
    Hc : dom_checkpoints _ !! _ = Some ?c, Hf : dom_checkpointFences _ !! _ = Some ?f |- _ =>
    exists c, f end. split_and!; try done.
  - apply dec_stable. intros Hx. match goal with Hn : ¬ (mc_state _ ≠ _ ∨ _) |- _ => apply Hn end.
    by left.
  - apply dec_stable. tauto.
  - apply dec_stable. tauto.
Qed.

(** [C9] A first activation freezes exactly what it makes redundant.  The
    activated checkpoint becomes the latest; its deletion set is precisely
    the stored messages up to its covered cursor that neither it nor its
    predecessor retains, and the published blobs that neither retains;
    custody is required of exactly the subscriptions active then.  No
    message or blob goes away by activating, the frontier does not move
    back, and the fence that protected the staging is released. *)
Theorem activation_freezes n request now d d' res :
  WellFormed n d → dom_checkpointActivations d !! caq_RetryID request = None →
  activateCheckpoint request now d = (d', inr res) →
  let e := refreshMemoryFence now d in
  ∃ c c', dom_checkpoints e !! caq_CheckpointID request = Some c ∧ mc_state c = staged ∧
    latest_checkpoint d' = Some c' ∧ latest_activated d' = Some (caq_CheckpointID request) ∧
    mc_candidate c' = mc_candidate c ∧ mc_state c' = activated ∧
    dom_messages d' = dom_messages e ∧ dom_blobs d' = dom_blobs e ∧
    (∀ mid r, mc_deletionMessages c' !! mid = Some r ↔
       dom_messageByID e !! mid = Some r ∧ ¬ retained_by e c mid ∧
       ∃ m, dom_heap e !! r = Some m ∧ mm_Sequence m ≤ mc_coveredThrough c) ∧
    (∀ id b, mc_deletionBlobs c' !! id = Some b ↔
       dom_blobs e !! id = Some b ∧ ¬ retained_blob_by e c id) ∧
    (∀ sid, sid ∈ mc_required c' ↔ ∃ s, dom_subscriptions e !! sid = Some s ∧
       sub_Status s = SubscriptionActive) ∧
    (∀ p, latest_checkpoint e = Some p →
       mc_coveredThrough p ≤ mc_coveredThrough c' ∧
       cc_KeyEpoch (mc_candidate p) ≤ cc_KeyEpoch (mc_candidate c')) ∧
    ∀ id, ¬ active_fence (dom_checkpointFences d') id.
Proof.
  intros Hd Hnew Hrun e. pose proof (wf_refresh n now d Hd : WellFormed n e) as He.
  destruct (wp_elim _ _ _ _ _ (activation_outcome n request now d Hd Hnew) Hrun res eq_refl)
    as (c & f & Hc & Hst & Hf & Hact & _ & _ & Hreg & ->). fold e in Hc, Hf, Hreg |- *.
  exists c, (activate_checkpoint e c (u64 (dom_checkpointOrdinal e + 1)) request).
  assert (latest_activated (activate (caq_CheckpointID request) c request e) =
    Some (caq_CheckpointID request)) as Hlatest
    by (rewrite activate_eq; unfold latest_activated; cbn; apply last_snoc).
  split_and!; try done.
  - apply bind_Some. exists (caq_CheckpointID request). split; [exact Hlatest|].
    change (dom_checkpoints (activate (caq_CheckpointID request) c request e) !!
      caq_CheckpointID request = Some (activate_checkpoint e c
        (u64 (dom_checkpointOrdinal e + 1)) request)).
    rewrite activate_eq. by eapply (activation_lookup n e _ c request f); [..|left].
  - rewrite activate_eq. done.
  - rewrite activate_eq. done.
  - intros mid r. cbn. rewrite (freeze_messages_spec n) by done.
    rewrite elem_of_list_to_set, elem_of_app. unfold retained_by, retained_messages.
    by rewrite (some_or_nil (latest_checkpoint e)).
  - intros id b. cbn. rewrite freeze_blobs_spec.
    rewrite elem_of_list_to_set, elem_of_app. unfold retained_blob_by, retained_blobs.
    by rewrite (some_or_nil (latest_checkpoint e)).
  - intros sid. cbn. unfold active_subscriptions. rewrite elem_of_dom. split.
    + intros [s [Hs Ha]%map_lookup_filter_Some]. by exists s.
    + intros (s & Hs & Ha). exists s. by apply map_lookup_filter_Some.
  - intros p Hp. unfold memoryCheckpointRegresses in Hreg. rewrite Hp in Hreg. simpl in Hreg.
    cbn. lia.
  - intros id. rewrite activate_eq. by eapply (activation_active n e _ c request f).
Qed.
End activation.

Lemma activation_freezes_witness :
  latest_activated (activateCheckpoint example_activation 1002 (domain_after stage_one)).1 =
    Some (caq_CheckpointID example_activation).
Proof.
  destruct (activation_freezes 7 example_activation 1002 (domain_after stage_one)
    (activateCheckpoint example_activation 1002 (domain_after stage_one)).1
    (mkCheckpointActivationResponse AcceptanceAccepted 45%N 44%N 1002 (EncodeCursor 1)))
    as (c & c' & _ & _ & _ & Hl & _).
  - apply (domain_after_wf stage_one). vm_compute. discriminate.
  - vm_compute. reflexivity.
  - apply ran. vm_compute. reflexivity.
  - exact Hl.
Defined.

(** ** Collection *)

Section collection.
Context `{UuidLib}.

(** The outcome of a first collection request. *)
Lemma collection_outcome n request d :
  WellFormed n d → dom_checkpointCollections d !! ccq_RetryID request = None →
  wp (collectCheckpoint request) (fun d' r => ∀ res, r = inr res →
    let id := ccq_CheckpointID request in
    ∃ c plan, dom_checkpoints d !! id = Some c ∧ memoryCheckpointPlan d id = inr plan ∧
      cdr_Eligible plan = true ∧
      let ms := selected_messages d c (ccq_MaximumMessageCount request) in
      let bs := selected_blobs c (ccq_MaximumBlobCount request) in
      let e := collect_blobs id bs (collect_messages id ms d) in
      res = mkCheckpointCollectionResponse false (ccq_RetryID request) id (ccq_PlanDigest request)
              (zlen ms) (i64 (list_sum mm_byteCount ms))
              (zlen bs) (i64 (list_sum bm_ByteCount bs.*2)) (deletion_done e id) ∧
      d' = e <| dom_checkpointCollections :=
             <[ccq_RetryID request := mkMemoryCheckpointCollection request res]>
               (dom_checkpointCollections d) |>) d.
Proof.
  intros Hd Hnew. unfold collectCheckpoint. wp_steps; try (intros ? [=]; done).
  intros res [= <-]. eexists _, _. do 2 (split; [done|]). split; [|by split].
  match goal with Hx : cdr_Eligible ?p ≠ false |- _ => by destruct (cdr_Eligible p) end.
Qed.

Lemma recorded_collection d' e collections :
  d' = e <| dom_checkpointCollections := collections |> →
  stored d' = stored e ∧ dom_blobs d' = dom_blobs e ∧ dom_checkpoints d' = dom_checkpoints e ∧
  dom_checkpointCollections d' = collections.
Proof. by intros ->. Qed.

(** An eligible plan: every subscription of which custody is required, and
    which is still active, has custody of the whole deletion set. *)
Lemma eligible_custody d id c plan sid m :
  memoryCheckpointPlan d id = inr plan → dom_checkpoints d !! id = Some c →
  cdr_Eligible plan = true → sid ∈ mc_required c →
  sub_Status (default Subscription_zero (dom_subscriptions d !! sid)) = SubscriptionActive →
  m ∈ deletion_messages d c → ¬ lacks_custody d sid m.
Proof.
  unfold memoryCheckpointPlan. intros Hplan Hc. rewrite Hc in Hplan. revert Hplan.
  case_decide; [done|]. intros [= <-]. cbn. rewrite bool_decide_eq_true. intros Hzero Hreq Hact Hm Hlack.
  assert (sid ∈ missing_custody d c) as Hin.
  { unfold missing_custody. rewrite merge_sort_Permutation. apply list_elem_of_filter.
    split; [|by apply elem_of_elements]. split; [done|]. apply Exists_exists. eauto. }
  unfold zlen in Hzero. destruct (missing_custody d c); [by apply elem_of_nil in Hin|done].
Qed.

(** The messages after a collection. *)
Lemma stored_collect n d id c ms bs :
  WellFormed n d → latest_activated d = Some id → dom_checkpoints d !! id = Some c →
  NoDup ms → (∀ m, m ∈ ms → m ∈ deletion_messages d c) →
  stored d ≡ₚ ms ++ stored (collect_blobs id bs (collect_messages id ms d)) ∧
  stored (collect_blobs id bs (collect_messages id ms d)) `sublist_of` stored d.
Proof.
  intros Hd Hl Hc Hnd Hms.
  assert (stored (collect_blobs id bs (collect_messages id ms d)) =
    filter (fun m => mm_MessageID m ∉ selected_ids ms) (stored d)) as ->.
  { unfold stored. rewrite <- (objects_filter (dom_heap d) (dom_messages d)
      (fun m => mm_MessageID m ∉ selected_ids ms)).
    change (deref d (dom_messages (collect_messages id ms d)) =
      objects (dom_heap d) (filter (fun r => some_and (dom_heap d !! r)
        (fun m => mm_MessageID m ∉ selected_ids ms)) (dom_messages d))).
    unfold deref, objects. f_equal. apply filter_ext_in. intros r Hr.
    destruct (mf_refs _ _ _ _ _ _ _ (wf_messages _ _ Hd) r Hr) as [m' (m & Hx & ->)%lookup_shapes].
    by rewrite Hx. }
  split; [|apply sublist_filter].
  etrans; [symmetry; apply (filter_app_complement (fun m => mm_MessageID m ∈ selected_ids ms))|].
  apply Permutation_app; [|done]. symmetry. by apply (collected_perm n d id c).
Qed.

(** The blobs after a collection. *)
Lemma blobs_collect n d id c maximum :
  WellFormed n d → latest_activated d = Some id → dom_checkpoints d !! id = Some c →
  let bs := selected_blobs c maximum in
  let blobs := foldl (fun m k => delete k m) (dom_blobs d) bs.*1 in
  zsize blobs = zsize (dom_blobs d) - zlen bs ∧
  map_sum bm_ByteCount blobs = map_sum bm_ByteCount (dom_blobs d) - list_sum bm_ByteCount bs.*2.
Proof.
  intros Hd Hl Hc bs blobs. destruct (selected_blobs_spec c maximum) as [Hnd Hbs].
  pose proof (collected_blob n d id c Hd Hl Hc bs Hnd Hbs) as Hin. split.
  - unfold blobs. rewrite zsize_foldl_delete; [unfold zlen; by rewrite length_fmap|done|].
    intros k ([k' b] & -> & Hk%Hin)%list_elem_of_fmap. by exists b.
  - unfold blobs. rewrite map_sum_foldl_delete by done.
    by rewrite (collected_entries n d id c Hd Hl Hc bs Hnd Hbs).
Qed.

Lemma zlen_cut_le {A} maximum (l : list A) : 0 ≤ maximum → zlen (cut maximum l) ≤ maximum.
Proof. intros. unfold cut. case_decide; [|lia]. unfold zlen. rewrite length_take. lia. Qed.

Lemma has_custody d sid m :
  ¬ lacks_custody d sid m ↔
  mm_publisherSubscription m = sid ∨ memoryRebootstrapCompletionCovers d sid (mm_Sequence m) ∨
  is_Some (mm_acknowledgments m !! sid).
Proof.
  unfold lacks_custody. rewrite <- not_eq_None_Some.
  destruct (decide (mm_publisherSubscription m = sid)); [tauto|].
  destruct (decide (memoryRebootstrapCompletionCovers d sid (mm_Sequence m))); [tauto|].
  destruct (mm_acknowledgments m !! sid); naive_solver.
Qed.

(** What a frozen message of an eligible plan is. *)
Lemma deleted_message n d id c plan m :
  WellFormed n d → latest_activated d = Some id → dom_checkpoints d !! id = Some c →
  memoryCheckpointPlan d id = inr plan → cdr_Eligible plan = true →
  m ∈ deletion_messages d c →
  is_Some (mc_deletionMessages c !! mm_MessageID m) ∧ mm_Sequence m ≤ mc_startSequence c ∧
  mm_MessageID m ∉ cc_RetainedMessageIDs (mc_candidate c) ∧
  ∀ sid, sid ∈ mc_required c →
    sub_Status (default Subscription_zero (dom_subscriptions d !! sid)) = SubscriptionActive →
    mm_publisherSubscription m = sid ∨ memoryRebootstrapCompletionCovers d sid (mm_Sequence m) ∨
    is_Some (mm_acknowledgments m !! sid).
Proof.
  intros Hd Hl Hc Hplan Hel Hdel.
  pose proof Hdel as (r & Hr & Hx & _)%(deletion_messages_spec n d id c Hd Hl Hc).
  destruct (cf_messages _ _ _ _ _ _ _ _ (wf_checkpoints _ _ Hd) id c _ r Hl Hc Hr)
    as (_ & Hret & Hall).
  split_and!; [by exists r| |done|].
  - apply (Hall (shape m)). apply lookup_shapes. eauto.
  - intros sid Hreq Hact. apply has_custody. by eapply eligible_custody.
Qed.

Lemma deleted_blob n d id c maximum bid b :
  WellFormed n d → latest_activated d = Some id → dom_checkpoints d !! id = Some c →
  dom_blobs d !! bid = Some b →
  foldl (fun m k => delete k m) (dom_blobs d) (selected_blobs c maximum).*1 !! bid = None →
  mc_deletionBlobs c !! bid = Some b ∧ bid ∉ cc_RetainedBlobIDs (mc_candidate c).
Proof.
  intros Hd Hl Hc Hbid Hgone.
  assert (bid ∈ (selected_blobs c maximum).*1) as Hin.
  { apply dec_stable. intros Hn. rewrite (proj2 (lookup_foldl_delete _ _ _ _) (conj Hbid Hn)) in Hgone.
    done. }
  apply list_elem_of_fmap in Hin as ([k b'] & -> & Hdel%selected_blobs_spec). simpl in *.
  destruct (cf_blobs _ _ _ _ _ _ _ _ (wf_checkpoints _ _ Hd) id c k b' Hl Hc Hdel) as (Hb' & Hret & _).
  split; [congruence|done].
Qed.

(** A collection leaves all other components alone. *)
Lemma collection_frame d d' id ms bs collections :
  d' = (collect_blobs id bs (collect_messages id ms d))
         <| dom_checkpointCollections := collections |> →
  d' = d <| dom_messages := dom_messages d' |> <| dom_messageByID := dom_messageByID d' |>
         <| dom_messageBytes := dom_messageBytes d' |>
         <| dom_blobs := dom_blobs d' |> <| dom_blobBytes := dom_blobBytes d' |>
         <| dom_checkpoints := dom_checkpoints d' |>
         <| dom_checkpointCollections := dom_checkpointCollections d' |>.
Proof.
  intros ->. unfold collect_messages.
  generalize (list_to_set (mm_MessageID <$> ms) : gset UUID). intros selected.
  destruct d. unfold collect_blobs. cbn. reflexivity.
Qed.

(** [C4] A collection deletes only what it may.  The messages and blobs that
    a first collection removes were frozen by the latest activated
    checkpoint: they are up to its covered cursor, not retained by it, and
    every subscription of which custody is required and that is still
    active published them, acknowledged them or recovered past them.
    Everything else stays, in order.  Of messages and of blobs, the reported
    count is what was removed, at most the requested maximum, and the
    reported bytes are those of what was removed.  No other part of the
    domain changes: members, subscriptions, fences and message objects
    stay. *)
Theorem collection_safe n request d d' res :
  WellFormed n d → dom_checkpointCollections d !! ccq_RetryID request = None →
  0 ≤ ccq_MaximumMessageCount request → 0 ≤ ccq_MaximumBlobCount request →
  collectCheckpoint request d = (d', inr res) →
  ∃ c, latest_checkpoint d = Some c ∧ mc_state c = activated ∧
    stored d' `sublist_of` stored d ∧ dom_blobs d' ⊆ dom_blobs d ∧
    (∀ m, m ∈ stored d → m ∉ stored d' →
       is_Some (mc_deletionMessages c !! mm_MessageID m) ∧
       mm_Sequence m ≤ mc_startSequence c ∧
       mm_MessageID m ∉ cc_RetainedMessageIDs (mc_candidate c) ∧
       ∀ sid, sid ∈ mc_required c →
         sub_Status (default Subscription_zero (dom_subscriptions d !! sid)) =
           SubscriptionActive →
         mm_publisherSubscription m = sid ∨
         memoryRebootstrapCompletionCovers d sid (mm_Sequence m) ∨
         is_Some (mm_acknowledgments m !! sid)) ∧
    (∀ id b, dom_blobs d !! id = Some b → dom_blobs d' !! id = None →
       mc_deletionBlobs c !! id = Some b ∧ id ∉ cc_RetainedBlobIDs (mc_candidate c)) ∧
    zlen (stored d) = zlen (stored d') + ccr_DeletedMessageCount res ∧
    ccr_DeletedMessageCount res ≤ ccq_MaximumMessageCount request ∧
    ccr_DeletedMessageByteCount res =
      i64 (list_sum mm_byteCount (stored d) - list_sum mm_byteCount (stored d')) ∧
    zsize (dom_blobs d) = zsize (dom_blobs d') + ccr_DeletedBlobCount res ∧
    ccr_DeletedBlobCount res ≤ ccq_MaximumBlobCount request ∧
    ccr_DeletedBlobByteCount res =
      i64 (map_sum bm_ByteCount (dom_blobs d) - map_sum bm_ByteCount (dom_blobs d')) ∧
    d' = d <| dom_messages := dom_messages d' |> <| dom_messageByID := dom_messageByID d' |>
           <| dom_messageBytes := dom_messageBytes d' |>
           <| dom_blobs := dom_blobs d' |> <| dom_blobBytes := dom_blobBytes d' |>
           <| dom_checkpoints := dom_checkpoints d' |>
           <| dom_checkpointCollections := dom_checkpointCollections d' |>.
Proof.
  intros Hd Hnew Hmax Hbmax Hrun.
  destruct (wp_elim _ _ _ _ _ (collection_outcome n request d Hd Hnew) Hrun res eq_refl)
    as (c & plan & Hc & Hplan & Hel & Hres & Hd').
  destruct (plan_latest d _ _ Hplan) as (c0 & Hc0 & Hst & Hl). assert (c0 = c) as -> by congruence.
  set (ms := selected_messages d c _) in *. set (bs := selected_blobs c _) in *.
  set (id := ccq_CheckpointID request) in *.
  assert (NoDup ms) as Hnd by by apply (selected_messages_nodup n d id).
  assert (∀ m, m ∈ ms → m ∈ deletion_messages d c) as Hms by apply selected_messages_spec.
  destruct (stored_collect n d id c ms bs Hd Hl Hc Hnd Hms) as [Hperm Hsub].
  destruct (blobs_collect n d id c (ccq_MaximumBlobCount request) Hd Hl Hc) as [Hbsize Hbsum].
  fold bs in Hbsize, Hbsum.
  destruct (recorded_collection _ _ _ Hd') as (Hs & Hb & _).
  change (dom_blobs (collect_blobs _ _ _)) with (foldl (fun m k => delete k m) (dom_blobs d) bs.*1) in Hb.
  exists c. rewrite Hres, Hs, Hb. cbn [ccr_DeletedMessageCount ccr_DeletedMessageByteCount
    ccr_DeletedBlobCount ccr_DeletedBlobByteCount]. split_and!; try done.
  - unfold latest_checkpoint. apply bind_Some. by exists id.
  - apply foldl_delete_subseteq.
  - intros m Hm Hgone. rewrite Hperm, elem_of_app in Hm. destruct Hm as [Hm|]; [|done].
    by apply (deleted_message n d id c plan), Hms.
  - intros bid b Hbid Hgone. by eapply (deleted_blob n d id c).
  - unfold zlen. rewrite Hperm, length_app. lia.
  - by apply zlen_cut_le.
  - f_equal. rewrite (list_sum_perm _ _ _ Hperm), list_sum_app. lia.
  - lia.
  - by apply zlen_cut_le.
  - f_equal. lia.
  - rewrite <- Hb. exact (collection_frame _ _ _ _ _ _ Hd').
Qed.

Lemma zlen_cut {A} maximum (l : list A) :
  0 ≤ maximum → zlen (cut maximum l) = Z.min maximum (zlen l).
Proof. intros. unfold cut. case_decide; [|lia]. unfold zlen in *. rewrite length_take. lia. Qed.

Lemma zlen_merge_sort {A} (R : relation A) `{!RelDecision R} l : zlen (merge_sort R l) = zlen l.
Proof. unfold zlen. by rewrite merge_sort_Permutation. Qed.

(** Every frozen message still has its object. *)
Lemma deletion_count n d id c :
  WellFormed n d → latest_activated d = Some id → dom_checkpoints d !! id = Some c →
  zlen (deletion_messages d c) = zsize (mc_deletionMessages c).
Proof.
  intros Hd Hl Hc. unfold deletion_messages, deref, zlen, zsize.
  rewrite <- length_map_to_list.
  assert (∀ i r, (i, r) ∈ map_to_list (mc_deletionMessages c) → is_Some (dom_heap d !! r)) as Hin.
  { intros i r Hi%elem_of_map_to_list.
    destruct (cf_messages _ _ _ _ _ _ _ _ (wf_checkpoints _ _ Hd) id c i r Hl Hc Hi) as [Hx _].
    apply (mf_index _ _ _ _ _ _ _ (wf_messages _ _ Hd)) in Hx as (_ & m & Hm & _).
    apply lookup_shapes in Hm as (m' & Hm & _). eauto. }
  f_equal. induction (map_to_list (mc_deletionMessages c)) as [|[i r] l IH]; [done|]. simpl.
  destruct (Hin i r) as [m Hm]; [by left|]. rewrite Hm. simpl. f_equal. apply IH.
  intros i' r' Hi. apply (Hin i'). by right.
Qed.

Lemma collected_checkpoint d id c ms bs :
  dom_checkpoints d !! id = Some c →
  dom_checkpoints (collect_blobs id bs (collect_messages id ms d)) !! id =
    Some (c <| mc_deletionMessages :=
              foldl (fun m id => delete id m) (mc_deletionMessages c) (mm_MessageID <$> ms) |>
            <| mc_deletionBlobs :=
              foldl (fun m id => delete id m) (mc_deletionBlobs c) bs.*1 |>).
Proof.
  intros Hc. unfold collect_blobs, collect_messages. cbn.
  by rewrite !lookup_alter_eq, Hc.
Qed.

(** The deletion sets of the checkpoint after a collection. *)
Lemma collected_sizes n d id c maximum bmaximum :
  WellFormed n d → latest_activated d = Some id → dom_checkpoints d !! id = Some c →
  0 ≤ maximum → 0 ≤ bmaximum →
  let ms := selected_messages d c maximum in let bs := selected_blobs c bmaximum in
  zlen ms = Z.min maximum (zsize (mc_deletionMessages c)) ∧
  zlen bs = Z.min bmaximum (zsize (mc_deletionBlobs c)) ∧
  zsize (foldl (fun m id => delete id m) (mc_deletionMessages c) (mm_MessageID <$> ms)) =
    zsize (mc_deletionMessages c) - zlen ms ∧
  zsize (foldl (fun m id => delete id m) (mc_deletionBlobs c) bs.*1) =
    zsize (mc_deletionBlobs c) - zlen bs.
Proof.
  intros Hd Hl Hc Hmax Hbmax ms bs.
  destruct (selected_blobs_spec c bmaximum) as [Hbnd Hbs].
  pose proof (selected_messages_nodup n d id c maximum Hd Hl Hc) as Hnd.
  destruct (selected_messages_spec d c maximum) as [_ Hms]. fold ms in Hnd, Hms. split_and!.
  - unfold ms, selected_messages. rewrite zlen_cut, zlen_merge_sort by lia.
    by rewrite (deletion_count n d id).
  - unfold bs, selected_blobs. rewrite zlen_cut, zlen_merge_sort by lia.
    unfold zlen. by rewrite length_map_to_list.
  - rewrite zsize_foldl_delete; [unfold zlen; by rewrite length_fmap| |].
    + apply NoDup_fmap_2_strong; [|done]. intros x y Hx%Hms Hy%Hms Hid.
      apply (deletion_messages_spec n d id c Hd Hl Hc) in Hx as (rx & _ & Hx & Hix & _).
      apply (deletion_messages_spec n d id c Hd Hl Hc) in Hy as (ry & _ & Hy & Hiy & _). congruence.
    + intros mid (m & -> & Hm%Hms)%list_elem_of_fmap.
      apply (deletion_messages_spec n d id c Hd Hl Hc) in Hm as (r & Hr & _). by exists r.
  - rewrite zsize_foldl_delete; [unfold zlen; by rewrite length_fmap|done|].
    intros k ([k' b] & -> & Hk%Hbs)%list_elem_of_fmap. by exists b.
Qed.

(** What a collection leaves is still eligible: custody of the deletion set
    is custody of a part of it. *)
Lemma eligible_kept d d' id c c' plan :
  memoryCheckpointPlan d id = inr plan → dom_checkpoints d !! id = Some c →
  cdr_Eligible plan = true →
  dom_heap d' = dom_heap d → dom_subscriptions d' = dom_subscriptions d →
  dom_rebootstrapCompletions d' = dom_rebootstrapCompletions d →
  dom_activatedCheckpoints d' = dom_activatedCheckpoints d →
  dom_checkpoints d' !! id = Some c' → mc_state c' = mc_state c →
  mc_required c' = mc_required c → mc_deletionMessages c' ⊆ mc_deletionMessages c →
  ∃ plan', memoryCheckpointPlan d' id = inr plan' ∧ cdr_Eligible plan' = true.
Proof.
  intros Hplan Hc Hel Hheap Hsubs Hcov Hact Hc' Hstate Hreq Hsub.
  destruct (plan_latest d id plan Hplan) as (c0 & Hc0 & Hst & Hl). simplify_eq.
  unfold memoryCheckpointPlan at 1. rewrite Hc'.
  rewrite decide_False by (unfold latest_activated in *; rewrite Hstate, Hact; tauto).
  eexists. split; [reflexivity|]. cbn [cdr_Eligible]. apply bool_decide_eq_true.
  destruct (missing_custody d' c') as [|sid l] eqn:Hmissing; [done|]. exfalso.
  assert (sid ∈ missing_custody d' c') as Hsid by (rewrite Hmissing; by left).
  unfold missing_custody in Hsid.
  rewrite merge_sort_Permutation, list_elem_of_filter, elem_of_elements, Hsubs, Hreq in Hsid.
  destruct Hsid as [[Hactive (m & Hm & Hlack)%Exists_exists] Hin].
  assert (m ∈ deletion_messages d c) as Hm0.
  { unfold deletion_messages, deref in Hm |- *. rewrite Hheap in Hm.
    apply list_elem_of_omap in Hm as (r & ([i r'] & -> & Hr')%list_elem_of_fmap & Hr).
    apply list_elem_of_omap. exists r'. split; [|exact Hr]. apply list_elem_of_fmap. exists (i, r').
    split; [done|]. rewrite elem_of_map_to_list in Hr' |- *. by eapply lookup_weaken. }
  apply (eligible_custody d id c plan sid m); try done.
  unfold lacks_custody, memoryRebootstrapCompletionCovers in *. by rewrite Hcov in Hlack.
Qed.

(** One collection of an eligible plan. *)
Lemma collection_step n request d c plan :
  WellFormed n d → dom_checkpointCollections d !! ccq_RetryID request = None →
  0 ≤ ccq_MaximumMessageCount request → 0 ≤ ccq_MaximumBlobCount request →
  dom_checkpoints d !! ccq_CheckpointID request = Some c →
  caq_ActivatedAtMilliseconds (mc_activationRequest c) ≤ ccq_RequestedAtMilliseconds request →
  memoryCheckpointPlan d (ccq_CheckpointID request) = inr plan → cdr_Eligible plan = true →
  cdr_PlanDigest plan = ccq_PlanDigest request →
  let deletedMessages := Z.min (ccq_MaximumMessageCount request) (zsize (mc_deletionMessages c)) in
  let deletedBlobs := Z.min (ccq_MaximumBlobCount request) (zsize (mc_deletionBlobs c)) in
  ∃ d' res c', collectCheckpoint request d = (d', inr res) ∧ WellFormed n d' ∧
    dom_checkpoints d' !! ccq_CheckpointID request = Some c' ∧
    mc_activationRequest c' = mc_activationRequest c ∧
    (∃ plan', memoryCheckpointPlan d' (ccq_CheckpointID request) = inr plan' ∧
       cdr_Eligible plan' = true) ∧
    (∀ id, id ≠ ccq_RetryID request →
       dom_checkpointCollections d' !! id = dom_checkpointCollections d !! id) ∧
    ccr_DeletedMessageCount res = deletedMessages ∧ ccr_DeletedBlobCount res = deletedBlobs ∧
    zsize (mc_deletionMessages c') = zsize (mc_deletionMessages c) - deletedMessages ∧
    zsize (mc_deletionBlobs c') = zsize (mc_deletionBlobs c) - deletedBlobs ∧
    (ccr_Completed res = true ↔
     zsize (mc_deletionMessages c') = 0 ∧ zsize (mc_deletionBlobs c') = 0).
Proof.
  intros Hd Hnew Hmax Hbmax Hc Hat Hplan Hel Hdig deletedMessages deletedBlobs.
  assert (∃ d' res, collectCheckpoint request d = (d', inr res)) as (d' & res & Hrun).
  { unfold collectCheckpoint, bind, get, found_or, reject_if, try, modify, ret. cbn.
    rewrite Hc. rewrite decide_False by lia. rewrite Hnew, Hplan.
    rewrite decide_False by (intros Hx; by apply Hx). rewrite decide_False by (by rewrite Hel).
    by eexists _, _. }
  destruct (wp_elim _ _ _ _ _ (collection_outcome n request d Hd Hnew) Hrun res eq_refl)
    as (c0 & plan0 & Hc0 & _ & _ & Hres & Hd').
  assert (c0 = c) as -> by congruence.
  destruct (plan_latest d _ _ Hplan) as (c1 & _ & _ & Hl).
  destruct (collected_sizes n d _ c _ _ Hd Hl Hc Hmax Hbmax) as (Hm & Hb & Hm' & Hb').
  destruct (recorded_collection _ _ _ Hd') as (_ & _ & Hck & Hcol).
  set (ms := selected_messages d c _) in *. set (bs := selected_blobs c _) in *.
  pose proof (collected_checkpoint d (ccq_CheckpointID request) c ms bs Hc) as Hc'.
  exists d', res. eexists. split; [done|].
  split; [exact (wp_elim _ _ _ _ _ (preserves_collectCheckpoint n request d Hd) Hrun)|].
  split; [rewrite Hck; exact Hc'|]. split; [done|].
  split.
  { apply collection_frame in Hd'. eapply (eligible_kept d d' _ c);
      [exact Hplan|exact Hc|exact Hel|by rewrite Hd'|by rewrite Hd'|by rewrite Hd'|by rewrite Hd'
      |rewrite Hck; exact Hc'|reflexivity|reflexivity|apply foldl_delete_subseteq]. }
  split; [intros id Hid; rewrite Hcol; by rewrite lookup_insert_ne|].
  rewrite Hres. cbn [ccr_DeletedMessageCount ccr_DeletedBlobCount ccr_Completed].
  split_and!; [done|done|cbn; lia|cbn; lia|].
  unfold deletion_done. by rewrite bool_decide_eq_true, Hc'.
Qed.

(** An administrator's loop: ask for the plan, collect it under the next retry
    ID, and again. *)
Fixpoint collect_repeatedly (request : CheckpointCollectionRequest) (retryIDs : list UUID)
    : DomainM (list CheckpointCollectionResponse) :=
  match retryIDs with
  | [] => ret []
  | retryID :: rest =>
    let* domain := get in
    let* plan := try (memoryCheckpointPlan domain (ccq_CheckpointID request)) in
    let* response := collectCheckpoint (mkCheckpointCollectionRequest retryID
      (ccq_CheckpointID request) (cdr_PlanDigest plan) (ccq_MaximumMessageCount request)
      (ccq_MaximumBlobCount request) (ccq_RequestedAtMilliseconds request)) in
    let* responses := collect_repeatedly request rest in
    ret (response :: responses)
  end.

(** [C10] Collection makes progress.  From an eligible plan of the latest
    activated checkpoint, however often an administrator asks for the plan and
    collects it, with fresh retry IDs, every call succeeds: the plan stays
    eligible.  Each call deletes the smaller of its maximum and what the calls
    before it left, and it reports completion exactly when nothing is left.
    So as soon as the calls' maxima add up to the deletion set, the set is
    empty and the last call says so. *)
Theorem collection_progress n request retryIDs d c plan :
  WellFormed n d → NoDup retryIDs →
  (∀ id, id ∈ retryIDs → dom_checkpointCollections d !! id = None) →
  0 ≤ ccq_MaximumMessageCount request → 0 ≤ ccq_MaximumBlobCount request →
  dom_checkpoints d !! ccq_CheckpointID request = Some c →
  caq_ActivatedAtMilliseconds (mc_activationRequest c) ≤ ccq_RequestedAtMilliseconds request →
  memoryCheckpointPlan d (ccq_CheckpointID request) = inr plan → cdr_Eligible plan = true →
  let messages calls := Z.max 0
    (zsize (mc_deletionMessages c) - calls * ccq_MaximumMessageCount request) in
  let blobs calls := Z.max 0
    (zsize (mc_deletionBlobs c) - calls * ccq_MaximumBlobCount request) in
  ∃ d' responses c', collect_repeatedly request retryIDs d = (d', inr responses) ∧
    zlen responses = zlen retryIDs ∧
    (∀ i response, responses !! i = Some response →
       ccr_DeletedMessageCount response = messages (Z.of_nat i) - messages (Z.of_nat i + 1) ∧
       ccr_DeletedBlobCount response = blobs (Z.of_nat i) - blobs (Z.of_nat i + 1) ∧
       (ccr_Completed response = true ↔
        messages (Z.of_nat i + 1) = 0 ∧ blobs (Z.of_nat i + 1) = 0)) ∧
    dom_checkpoints d' !! ccq_CheckpointID request = Some c' ∧
    zsize (mc_deletionMessages c') = messages (zlen retryIDs) ∧
    zsize (mc_deletionBlobs c') = blobs (zlen retryIDs) ∧
    ∃ plan', memoryCheckpointPlan d' (ccq_CheckpointID request) = inr plan' ∧
      cdr_Eligible plan' = true.
Proof.
  intros Hd Hnd. revert d c plan Hd. induction Hnd as [|id ids Hid _ IH];
    intros d c plan Hd Hfresh Hmax Hbmax Hc Hat Hplan Hel; cbv zeta.
  { pose proof (zsize_nonneg (mc_deletionMessages c)). pose proof (zsize_nonneg (mc_deletionBlobs c)).
    exists d, [], c. change (zlen (@nil UUID)) with 0. split_and!; try done; [lia|lia|eauto]. }
  destruct (collection_step n (mkCheckpointCollectionRequest id (ccq_CheckpointID request)
      (cdr_PlanDigest plan) (ccq_MaximumMessageCount request) (ccq_MaximumBlobCount request)
      (ccq_RequestedAtMilliseconds request)) d c plan)
    as (e & res & ce & Hrun & He & Hce & Hate & (plane & Hplane & Hele) & Hcol & Hm & Hb & Hme & Hbe & Hdone);
    try done; [by apply Hfresh; left|]. cbn in Hce, Hplane, Hcol, Hm, Hb, Hme, Hbe.
  destruct (IH e ce plane) as (d' & responses & c' & Hruns & Hlen & Hall & Hc' & Hmc & Hbc & Hlast);
    try done; [|by rewrite Hate|].
  { intros id' Hin. rewrite Hcol by (intros ->; done). apply Hfresh. by right. }
  pose proof (zsize_nonneg (mc_deletionMessages c)). pose proof (zsize_nonneg (mc_deletionBlobs c)).
  assert (zlen (id :: ids) = zlen ids + 1) as Hzlen by (unfold zlen; simpl; lia).
  assert (0 ≤ zlen ids) by (unfold zlen; lia).
  exists d', (res :: responses), c'. split.
  { cbn [collect_repeatedly]. unfold bind at 1, get, try. rewrite Hplan. unfold bind at 1.
    unfold bind at 1. rewrite Hrun. unfold bind. by rewrite Hruns. }
  split; [unfold zlen in *; simpl; lia|]. split; [|split; [done|]].
  - intros [|i] response; simpl.
    + intros [= <-]. rewrite Hm, Hb, Hdone, Hme, Hbe. nia.
    + intros Hi. destruct (Hall i response Hi) as (-> & -> & ->). rewrite Hme, Hbe.
      split_and!; [nia|nia|]. nia.
  - rewrite Hmc, Hbc, Hme, Hbe, Hzlen. split_and!; [nia|nia|done].
Qed.
End collection.

Lemma activated_domain_wf : WellFormed 8 activated_domain.
Proof.
  apply (domain_after_wf (stage_one ++ [OpActivateCheckpoint admin_credential example_activation 1002])).
  vm_compute. discriminate.
Qed.

Lemma collection_safe_witness :
  stored (collectCheckpoint example_collection activated_domain).1 `sublist_of`
    stored activated_domain.
Proof.
  destruct (collection_safe 8 example_collection activated_domain
    (collectCheckpoint example_collection activated_domain).1
    (mkCheckpointCollectionResponse false 46%N 44%N (plan_digest activated_domain 44%N) 1 5 0 0 true))
    as (c & _ & _ & Hsub & _).
  - exact activated_domain_wf.
  - vm_compute. reflexivity.
  - vm_compute. discriminate.
  - vm_compute. discriminate.
  - apply ran. vm_compute. reflexivity.
  - exact Hsub.
Defined.

(** Two calls collect the one frozen message; the first says that it is done. *)
Lemma collection_progress_witness :
  ∃ d' responses, collect_repeatedly example_collection [46%N; 47%N] activated_domain =
      (d', inr responses) ∧ zlen responses = 2 ∧
    ∀ response, responses !! 0%nat = Some response → ccr_Completed response = true.
Proof.
  destruct (collection_progress 8 example_collection [46%N; 47%N] activated_domain
    example_checkpoint
    (mkCheckpointDryRunResponse 44%N true 1 5 0 0 [] (plan_digest activated_domain 44%N)))
    as (d' & responses & c' & Hrun & Hlen & Hall & _).
  - exact activated_domain_wf.
  - apply (bool_decide_unpack _). vm_compute. exact Logic.I.
  - intros id [->|[->|[]%elem_of_nil]%elem_of_cons]%elem_of_cons; vm_compute; reflexivity.
  - vm_compute. discriminate.
  - vm_compute. discriminate.
  - vm_compute. reflexivity.
  - vm_compute. discriminate.
  - vm_compute. reflexivity.
  - reflexivity.
  - exists d', responses. split; [exact Hrun|]. split; [exact Hlen|].
    intros response H0. apply (Hall 0%nat response H0). vm_compute. split; reflexivity.
Defined.
