(* ===== verification/RelayAccess.v ===== *)
(** * internal/relay: what the access rules guarantee

    Revocation over every call, tenant-wide revocation, admissions, credential
    rotation, the member limit, provisioning, and the recovery of a
    subscription. *)

From S2P Require Import Prelude GoEncoding Sha256 RelayModel RelayState RelayFence RelayTenant RelayMember RelaySubscription RelayDelivery RelayBlob RelayCheckpoint RelayMachine RelayExample RelayInvariant RelayFenceFacts RelayOperationFacts RelayCheckpointFacts RelayReachable.
#[local] Open Scope Z_scope.

(** ** Revoked subscriptions *)

(** Subscriptions sit under their identifiers, and the one of [id] is revoked. *)
Definition Revoked (id : UUID) (d : memoryDomain) : Prop :=
  (∀ k sub, dom_subscriptions d !! k = Some sub → sub_SubscriptionID sub = k) ∧
  ∃ sub, dom_subscriptions d !! id = Some sub ∧ sub_Status sub = SubscriptionRevoked.

(** The store has a domain under [key] that satisfies [I]. *)
Definition at_domain (key : domainKey) (I : memoryDomain → Prop) (s : MemoryStore) : Prop :=
  ∃ d, st_domains s !! key = Some d ∧ I d.

(** Every domain belongs to a registered tenant. *)
Definition owned (s : MemoryStore) : Prop :=
  ∀ key, is_Some (st_domains s !! key) → is_Some (st_tenants s !! key.1).

Lemma apply_policy_key t p p' :
  TenantRegistration_ApplyCapacityPolicy t p = inr p' → provisioning_key p' = provisioning_key p.
Proof. unfold TenantRegistration_ApplyCapacityPolicy. by repeat case_decide; intros [= <-]. Qed.

(** The domain of a new tenant, and of a provisioning, is a new one. *)
Lemma policy_key_scope t p p' id (Q : Prop) :
  TenantRegistration_ApplyCapacityPolicy t p = inr p' →
  ¬ (dr_TenantID (dp_Registration p) ≠ id ∨ Q) →
  provisioning_key p' = (id, dr_DomainID (dp_Registration p')).
Proof.
  intros [= Ht _]%apply_policy_key Hid. unfold provisioning_key. rewrite Ht. f_equal.
  apply dec_stable. tauto.
Qed.

Lemma policy_tenant t p p' id (Q : Prop) :
  TenantRegistration_ApplyCapacityPolicy t p = inr p' →
  ¬ (dr_TenantID (dp_Registration p) ≠ id ∨ Q) → dr_TenantID (dp_Registration p') = id.
Proof. intros Hp Hid. by pose proof (policy_key_scope _ _ _ _ _ Hp Hid) as [= ?]. Qed.

Lemma tenant_scope t p (Q : Prop) :
  ¬ (tr_TenantID t ≠ dr_TenantID (dp_Registration p) ∨ Q) →
  ¬ (dr_TenantID (dp_Registration p) ≠ tr_TenantID t ∨ Q).
Proof. intros Hn [Hne|HQ]; apply Hn; [left; by apply not_eq_sym|by right]. Qed.

Lemma new_tenant_key t p p' s (Q : Prop) :
  TenantRegistration_ApplyCapacityPolicy t p = inr p' →
  ¬ (tr_TenantID t ≠ dr_TenantID (dp_Registration p) ∨ Q) →
  st_tenants s !! tr_TenantID t = None → owned s →
  st_domains s !! provisioning_key p' = None.
Proof.
  intros Hp Hid%tenant_scope Ht Hown. rewrite (policy_key_scope _ _ _ _ _ Hp Hid).
  apply eq_None_not_Some. intros [? Hx]%Hown. simpl in Hx. congruence.
Qed.

(** Lifting a domain invariant to the domain of one key. *)
Section lifting.
Context `{UuidLib} (key : domainKey) (I : memoryDomain → Prop).

Lemma at_in_domain {A} key' (authorized : GoError + memoryDomain)
    (body : M GoError memoryDomain A) s :
  Preserves I body → (∀ d, authorized = inr d → st_domains s !! key' = Some d) →
  at_domain key I s → wp (in_domain key' authorized body) (fun s' _ => at_domain key I s') s.
Proof.
  intros Hbody Ha (d & Hd & HI). unfold wp, in_domain. destruct authorized as [e|d']; simpl.
  { by exists d. }
  specialize (Ha d' eq_refl). destruct (body d') as [d1 r] eqn:Hrun. simpl. unfold put_domain.
  destruct (decide (key' = key)) as [->|Hne].
  - exists d1. cbn. rewrite lookup_insert_eq. split; [done|]. assert (d' = d) as -> by congruence.
    specialize (Hbody d HI). unfold wp in Hbody. by rewrite Hrun in Hbody.
  - exists d. cbn. by rewrite lookup_insert_ne.
Qed.

Lemma at_as_administrator {A} credential (body : M GoError memoryDomain A) :
  Preserves I body → Preserves (at_domain key I) (as_administrator credential body).
Proof.
  intros Hbody s Hs. unfold as_administrator. wp_steps. apply at_in_domain; [done| |done].
  intros d. unfold authorizedDomain. destruct (st_domains s !! _); [|done].
  by destruct (DomainRegistration_Authorize _ _); intros [= <-].
Qed.

Lemma at_as_member {A} credential capability now (body : M GoError memoryDomain A) :
  Preserves I body → Preserves (at_domain key I) (as_member credential capability now body).
Proof.
  intros Hbody s Hs. unfold as_member. wp_steps. apply at_in_domain; [done| |done].
  intros d. unfold authorizedMember. destruct (st_domains s !! _); [|done].
  destruct (dom_members _ !! _); [|done].
  by destruct (MemberRegistration_Authorize _ _ _ _); intros [= <-].
Qed.

Lemma at_in_found_domain {A} key' (body : M GoError memoryDomain A) :
  Preserves I body → Preserves (at_domain key I) (in_found_domain key' body).
Proof.
  intros Hbody s Hs. unfold in_found_domain. wp_steps. apply at_in_domain; [done| |done].
  intros d. by destruct (st_domains s !! key'); intros [= <-].
Qed.

(** A new domain takes an unused key. *)
Lemma at_put_new key' d s :
  st_domains s !! key' = None → at_domain key I s → at_domain key I (put_domain key' d s).
Proof.
  intros Hnew (e & He & HI). exists e. unfold put_domain. cbn.
  rewrite lookup_insert_ne; [done|]. intros ->. congruence.
Qed.
End lifting.

Section directories.
Context `{UuidLib}.

(** Who belongs to a domain; fences, publications and checkpoints leave it
    alone. *)
Definition directory (d : memoryDomain) :=
  (dom_members d, dom_admissions d, dom_subscriptions d, dom_memberSubscriptions d).

Lemma cleanup_directory fenceID d : directory (cleanupMemoryFenceAuthority fenceID d) = directory d.
Proof.
  unfold cleanupMemoryFenceAuthority, cleanup_blobs, cleanup_messages.
  apply (foldl_invariant (fun e => directory e = directory d)).
  - apply (foldl_invariant (fun e => directory e = directory d)); [done|].
    intros e r He. unfold cleanup_message. destruct (dom_heap e !! r); [|done].
    case_decide; [done|]. by destruct (Envelope_ReferenceDigest _).
  - intros e [b f] He. unfold cleanup_blob. case_decide; [done|]. by destruct (dom_blobs e !! b).
Qed.

Lemma refresh_directory now d : directory (refreshMemoryFence now d) = directory d.
Proof.
  unfold refreshMemoryFence. apply (foldl_invariant (fun e => directory e = directory d)); [done|].
  intros e k He. unfold refresh_fence. destruct (dom_checkpointFences e !! k); [|done].
  case_decide; [|done]. by rewrite cleanup_directory.
Qed.

Lemma forget_directory sid start d : directory (forget_acknowledgments sid start d) = directory d.
Proof.
  unfold forget_acknowledgments.
  apply (foldl_invariant (fun e => directory e = directory d)); [done|].
  intros e r He. unfold forget_acknowledgment. destruct (dom_heap e !! r); [|done].
  by case_decide.
Qed.

Lemma push_directory k d : directory (push_activated k d) = directory d.
Proof. unfold push_activated. by destruct (third_last _). Qed.

Lemma publish_blob_directory k b d : directory (publish_blob k b d) = directory d.
Proof. by rewrite publish_blob_eq. Qed.

End directories.

Section revocation.
Context `{UuidLib} (id : UUID).

Lemma revoked_same d d' : dom_subscriptions d' = dom_subscriptions d → Revoked id d → Revoked id d'.
Proof. unfold Revoked. by intros ->. Qed.

Lemma revoked_put d k sub :
  sub_SubscriptionID sub = k → (k = id → sub_Status sub = SubscriptionRevoked) →
  Revoked id d → Revoked id (put_subscription k sub d).
Proof.
  intros Hk Hst (Hkey & s0 & Hs & Hst0). unfold Revoked, put_subscription. cbn. split.
  - intros k' s' [[<- <-]|[_ Hs']]%lookup_insert_Some; [done|by apply Hkey].
  - destruct (decide (k = id)) as [->|Hne].
    + exists sub. rewrite lookup_insert_eq. split; [done|]. by apply Hst.
    + exists s0. by rewrite lookup_insert_ne.
Qed.

Lemma directory_subscriptions d d' :
  directory d' = directory d → dom_subscriptions d' = dom_subscriptions d.
Proof. by intros [= _ _ ? _]. Qed.

Lemma cleanup_subscriptions fenceID d :
  dom_subscriptions (cleanupMemoryFenceAuthority fenceID d) = dom_subscriptions d.
Proof. apply directory_subscriptions, cleanup_directory. Qed.

Lemma refresh_subscriptions now d :
  dom_subscriptions (refreshMemoryFence now d) = dom_subscriptions d.
Proof. apply directory_subscriptions, refresh_directory. Qed.

Lemma forget_subscriptions sid start d :
  dom_subscriptions (forget_acknowledgments sid start d) = dom_subscriptions d.
Proof. apply directory_subscriptions, forget_directory. Qed.

Lemma push_subscriptions k d : dom_subscriptions (push_activated k d) = dom_subscriptions d.
Proof. apply directory_subscriptions, push_directory. Qed.

Lemma publish_blob_subscriptions k b d :
  dom_subscriptions (publish_blob k b d) = dom_subscriptions d.
Proof. apply directory_subscriptions, publish_blob_directory. Qed.

(** A readable subscription is not the revoked one. *)
Lemma readable_not_revoked d memberID sub :
  Revoked id d → readableMemberSubscription d memberID = inr sub → sub_SubscriptionID sub ≠ id.
Proof.
  intros (Hkey & s0 & Hs & Hst). unfold readableMemberSubscription.
  destruct (dom_memberSubscriptions d !! memberID) as [k|]; [|done].
  case_decide; [done|]. destruct (dom_subscriptions d !! k) as [x|] eqn:Hk; [|done].
  case_decide as Hr; [done|]. intros [= <-]. rewrite (Hkey k x Hk). intros ->.
  assert (x = s0) as -> by congruence. rewrite Hst in Hr. by apply Hr.
Qed.

#[local] Arguments publish_blob : simpl never.
#[local] Arguments push_activated : simpl never.
#[local] Arguments cleanupMemoryFenceAuthority : simpl never.
#[local] Arguments refreshMemoryFence : simpl never.

#[local] Ltac same :=
  solve [ done
        | match goal with Hr : Revoked id ?e |- Revoked id _ =>
            apply (revoked_same e); [|exact Hr]; repeat first
              [ rewrite push_subscriptions | rewrite publish_blob_subscriptions
              | rewrite cleanup_subscriptions | rewrite refresh_subscriptions
              | progress cbn ]; done end ].

Lemma revoked_allows_write sid now :
  Preserves (Revoked id) (memoryFenceAllowsWrite sid now).
Proof. intros d Hd. unfold memoryFenceAllowsWrite. wp_steps; same. Qed.

Lemma revoked_enter_recovery sub start now :
  sub_SubscriptionID sub ≠ id → Preserves (Revoked id) (enter_recovery sub start now).
Proof.
  intros Hne d Hd. unfold enter_recovery. wp_steps.
  apply revoked_put; [done|done|]. eapply revoked_same; [|exact Hd]. apply forget_subscriptions.
Qed.

#[local] Ltac allows :=
  match goal with |- wp (memoryFenceAllowsWrite _ _) _ _ =>
    eapply wp_mono; [by apply revoked_allows_write|]; cbv beta; intros ? [?|[]] ?; [done|];
    wp_steps; try same end.

#[local] Ltac body :=
  let d := fresh "d" in let Hd := fresh "Hd" in
  intros d Hd; repeat (match goal with |- wp ?m _ _ => let f := head_of m in unfold f end);
  wp_steps; try same; try allows.

Context (key : domainKey) (Hid : id ≠ uuid_Nil).

(** A tenant's revocation revokes, or leaves alone. *)
Lemma revoked_target at_ tenant target s :
  target_present s tenant target →
  at_domain key (Revoked id) s → at_domain key (Revoked id) (revoke_target tenant at_ s target).
Proof using Type.
  intros (e & He & _ & [sub Hsub]) (d & Hd & HI). unfold revoke_target. rewrite He.
  destruct (decide ((tenant, tri_DomainID target) = key)) as [<-|Hne].
  - assert (e = d) as -> by congruence. eexists. unfold put_domain. cbn.
    rewrite lookup_insert_eq. split; [done|].
    eapply revoked_same; [|apply (revoked_put d (tri_SubscriptionID target)
      (sub <| sub_Status := SubscriptionRevoked |> <| sub_StartCursor := None |>
           <| sub_UpdatedAtMilliseconds := at_ |>)); [| |exact HI]].
    + unfold revoke_membership. cbn. by rewrite Hsub.
    + cbn. by apply HI.
    + done.
  - exists d. unfold put_domain. cbn. by rewrite lookup_insert_ne.
Qed.

Lemma revoked_targets at_ tenant targets s :
  Forall (target_present s tenant) targets → at_domain key (Revoked id) s →
  at_domain key (Revoked id) (foldl (revoke_target tenant at_) s targets).
Proof using Type.
  revert s. induction targets as [|t l IH]; intros s; [done|]. intros [Ht Hl]%Forall_cons Hs.
  simpl. apply IH; [|by apply revoked_target]. eapply Forall_impl; [exact Hl|].
  intros o. apply revoke_target_present.
Qed.

Lemma perform_revoked op s :
  owned s → at_domain key (Revoked id) s → at_domain key (Revoked id) (perform op s).
Proof using Hid.
  intros Hown Hs. destruct op; simpl; unfold after;
    match goal with |- at_domain _ _ (?m ?s).1 =>
      change (wp m (fun s' _ => at_domain key (Revoked id) s') s) end.
  all: unfold_call; wp_steps; try done.
  all: try (lazymatch goal with
    | |- wp (as_administrator _ _) _ _ => apply at_as_administrator
    | |- wp (as_member _ _ _ _) _ _ => apply at_as_member
    | |- wp (in_found_domain _ _) _ _ => apply at_in_found_domain end; [|exact Hs]).
  all: try (intros d Hd; 
    try match goal with |- wp ?m _ _ => let f := head_of m in unfold f end;
    wp_steps; try same; try allows; fail).
  - apply at_put_new; [by destruct (st_tenants s !! _)|]. by destruct (st_tenants s !! _).
  - apply at_put_new; [|done]. eapply (new_tenant_key _ _ _ s); eassumption.
  - apply at_put_new; [|done]. by erewrite policy_key_scope by eassumption.
  - destruct (revoked_targets (tmr_RevokedAtMilliseconds revocation) (tcred_TenantID credential)
      (tmr_Memberships revocation) s) as (d & Hd & HI); [|done|by exists d].
    eapply Forall_impl; [by apply revocation_errors_None|]. intros t. apply target_error_present.
  - intros d Hd. unfold rotateAdministrationCredential, memoryRotationRetryResult. wp_steps; same.
  - intros d Hd. unfold rotateMemberCredential, memoryRotationRetryResult. wp_steps; same.
  - intros d Hd. wp_steps. unfold ensure_test_subscription. case_decide as Hnil; [|done].
    apply revoked_put; [done| |done]. intros ->. destruct Hd as (Hkey & s0 & Hs0 & _).
    rewrite Hs0 in Hnil. simpl in Hnil. rewrite (Hkey _ _ Hs0) in Hnil. done.
  - unfold claimSubscriptionAdmission. wp_steps; [done|]. apply at_in_found_domain; [|exact Hs].
    intros d Hd. unfold claimAdmission, claimed_admission_result. wp_steps; same.
  - unfold claimSubscriptionAdmission. wp_steps; [done|]. apply at_in_found_domain; [|exact Hs].
    intros d Hd. unfold claimAdmission, claimed_admission_result. wp_steps; same.
  - intros d Hd. unfold createSubscription. wp_steps; try same.
    eapply revoked_same; [|apply (revoked_put d (scr_SubscriptionID request)); [| |exact Hd]];
      [reflexivity|done|].
    intros Heq. exfalso. destruct Hd as (_ & s0 & Hs0 & _). rewrite <- Heq in Hs0. eauto.
  - intros d Hd. by wp_steps.
  - intros d Hd. unfold changeSubscriptionStatus. wp_steps; try same.
    all: eapply revoked_same; [|apply (revoked_put d subscriptionID); [| |exact Hd]];
      [reflexivity|..].
    all: cbn; first [ by eapply (proj1 Hd) |
      intros Heq; exfalso; destruct Hd as (_ & s0 & Hs0 & Hst); subst; congruence ].
  - intros d Hd. unfold requestSubscriptionRebootstrap. wp_steps; try same.
    all: eapply wp_mono; [apply revoked_enter_recovery; [|exact Hd];
      cbn; eapply readable_not_revoked; eassumption|]; cbv beta; intros ? [?|?] ?; wp_steps; same.
  - intros d Hd. unfold completeSubscriptionRebootstrap. wp_steps; try same.
    eapply revoked_same; [|apply (revoked_put (refreshMemoryFence now d))]; [done|done| |].
    + cbn. intros Heq. exfalso. eapply readable_not_revoked; [|eassumption|exact Heq]. same.
    + same.
  - intros d Hd. by wp_steps.
  - intros d Hd. unfold owned_upload. by wp_steps.
  - intros d Hd. unfold appendBlobUploadChunk, owned_upload. wp_steps; try same. allows.
  - intros d Hd. unfold finalizeBlobUpload, owned_upload. wp_steps; try same. allows.
Qed.
End revocation.

(** ** Tenants own their domains *)

Section ownership.
Context `{UuidLib}.

Lemma owned_in_domain {A} key (authorized : GoError + memoryDomain)
    (body : M GoError memoryDomain A) s :
  (∀ d, authorized = inr d → st_domains s !! key = Some d) → owned s →
  wp (in_domain key authorized body) (fun s' _ => owned s') s.
Proof.
  intros Ha Hs. unfold wp, in_domain. destruct authorized as [e|d]; simpl; [done|].
  specialize (Ha d eq_refl). destruct (body d) as [d1 r]. simpl. intros k. unfold put_domain. cbn.
  intros [<-|[_ Hk]]%lookup_insert_is_Some; [|by apply Hs].
  apply (Hs key). by exists d.
Qed.

Lemma owned_as_administrator {A} credential (body : M GoError memoryDomain A) :
  Preserves owned (as_administrator credential body).
Proof.
  intros s Hs. unfold as_administrator. wp_steps. apply owned_in_domain; [|done].
  intros d. unfold authorizedDomain. destruct (st_domains s !! _); [|done].
  by destruct (DomainRegistration_Authorize _ _); intros [= <-].
Qed.

Lemma owned_as_member {A} credential capability now (body : M GoError memoryDomain A) :
  Preserves owned (as_member credential capability now body).
Proof.
  intros s Hs. unfold as_member. wp_steps. apply owned_in_domain; [|done].
  intros d. unfold authorizedMember. destruct (st_domains s !! _); [|done].
  destruct (dom_members _ !! _); [|done].
  by destruct (MemberRegistration_Authorize _ _ _ _); intros [= <-].
Qed.

Lemma owned_in_found_domain {A} key' (body : M GoError memoryDomain A) :
  Preserves owned (in_found_domain key' body).
Proof.
  intros s Hs. unfold in_found_domain. wp_steps. apply owned_in_domain; [|done].
  intros d. by destruct (st_domains s !! key'); intros [= <-].
Qed.

Lemma owned_put_tenant id t s : owned s → owned (put_tenant id t s).
Proof. intros Hs k Hk. unfold put_tenant. cbn. apply lookup_insert_is_Some'. right. by apply Hs. Qed.

Lemma owned_create p s :
  is_Some (st_tenants s !! dr_TenantID (dp_Registration p)) → owned s →
  owned (createDomainLocked p s).
Proof.
  intros Ht Hs k. unfold createDomainLocked, put_domain. cbn.
  intros [<-|[_ Hk]]%lookup_insert_is_Some; [done|by apply Hs].
Qed.

Lemma owned_revoke_target tenant at_ s target : owned s → owned (revoke_target tenant at_ s target).
Proof.
  intros Hs. unfold revoke_target. destruct (st_domains s !! _) eqn:Hd; [|done].
  intros k. unfold put_domain. cbn. intros [<-|[_ Hk]]%lookup_insert_is_Some; [|by apply Hs].
  apply (Hs (tenant, tri_DomainID target)). by eexists.
Qed.

Lemma owned_record tenant revocation s : owned s → owned (record_revocation tenant revocation s).
Proof.
  intros Hs k Hk. unfold record_revocation. cbn. apply lookup_alter_is_Some. by apply Hs.
Qed.

Lemma perform_owned op s : owned s → owned (perform op s).
Proof.
  intros Hs. destruct op; simpl; unfold after;
    match goal with |- owned (?m ?s).1 => change (wp m (fun s' _ => owned s') s) end.
  all: unfold_call; wp_steps; try done.
  all: try (lazymatch goal with
    | |- wp (as_administrator _ _) _ _ => by apply owned_as_administrator
    | |- wp (as_member _ _ _ _) _ _ => by apply owned_as_member
    | |- wp (in_found_domain _ _) _ _ => by apply owned_in_found_domain end).
  - apply owned_create; [|by destruct (st_tenants s !! _); [|apply owned_put_tenant]].
    cbn. destruct (st_tenants s !! dr_TenantID registration) eqn:Ht; [by rewrite Ht|].
    unfold put_tenant. cbn. by rewrite lookup_insert_eq.
  - apply owned_create; [|by apply owned_put_tenant].
    erewrite policy_tenant; [|eassumption|eapply tenant_scope; eassumption].
    unfold put_tenant. cbn. by rewrite lookup_insert_eq.
  - apply owned_create; [|done].
    erewrite policy_tenant by eassumption. by eexists.
  - by apply owned_put_tenant.
  - apply owned_record. apply (foldl_invariant owned); [done|]. intros. by apply owned_revoke_target.
  - unfold claimSubscriptionAdmission. wp_steps; [done|]. by apply owned_in_found_domain.
  - unfold claimSubscriptionAdmission. wp_steps; [done|]. by apply owned_in_found_domain.
Qed.

Lemma reachable_owned ttl n s : reachable ttl n s → owned s.
Proof.
  induction 1; [|by apply perform_owned].
  intros key. rewrite new_store_domains, lookup_empty. by intros [? ?].
Qed.
End ownership.

Section revocation_forever.
Context `{UuidLib}.

(** [C8] Revocation is final.  In every store that any calls can produce, a
    revoked subscription (other than the nil identifier) is still there and
    still revoked after any further calls, by anyone, with any arguments and
    clocks, whether they succeed or fail. *)
Theorem revocation_final ttl n s ops key d id sub :
  reachable ttl n s → Z.of_N n ≤ MaximumSequence → id ≠ uuid_Nil →
  st_domains s !! key = Some d → dom_subscriptions d !! id = Some sub →
  sub_Status sub = SubscriptionRevoked →
  ∃ d' sub', st_domains (perform_all ops s) !! key = Some d' ∧
    dom_subscriptions d' !! id = Some sub' ∧ sub_Status sub' = SubscriptionRevoked.
Proof.
  intros Hs Hn Hid Hd Hsub Hst.
  assert (at_domain key (Revoked id) s) as Hat.
  { exists d. split; [done|]. split; [|by exists sub].
    apply (if_subscriptions _ _ _ _ (wf_identities _ _ (reachable_wf ttl n s Hs Hn key d Hd))). }
  pose proof (reachable_owned ttl n s Hs) as Hown. clear -Hat Hown Hid.
  assert (at_domain key (Revoked id) (perform_all ops s)) as (d' & Hd' & _ & sub' & Hs' & Hst').
  { revert s Hat Hown. induction ops as [|op ops IH]; intros s Hat Hown; simpl; [done|].
    apply IH; [by apply perform_revoked|by apply perform_owned]. }
  by exists d', sub'.
Qed.
End revocation_forever.

(** The store after the administrator revokes the subscription 22. *)
Definition revoke_bob : Op :=
  OpChangeSubscriptionStatus admin_credential 22%N
    (mkSubscriptionStatusChangeRequest 61%N SubscriptionRevoked 2000).

Lemma revocation_final_witness :
  ∃ d' sub', st_domains (perform_all [publish_one; fence_one] (perform_all [revoke_bob] store0))
      !! (tenantID, domainID) = Some d' ∧
    dom_subscriptions d' !! 22%N = Some sub' ∧ sub_Status sub' = SubscriptionRevoked.
Proof.
  apply (revocation_final [] 4 (perform_all [revoke_bob] store0) [publish_one; fence_one]
    (tenantID, domainID) (domain_after [revoke_bob]) 22%N
    ((example_subscription 22%N) <| sub_Status := SubscriptionRevoked |>
       <| sub_UpdatedAtMilliseconds := 2000 |>)).
  - apply (reachable_perform_all [] 3 store0 [revoke_bob]).
    exact (reachable_perform_all [] 0 new_store setup (reachable_new [])).
  - vm_compute. discriminate.
  - discriminate.
  - vm_compute. reflexivity.
  - vm_compute. reflexivity.
  - reflexivity.
Defined.

(** ** Tenant-wide revocation *)

Section tenant_revocation.
Context `{UuidLib}.

(** The membership of [target] is revoked in the store. *)
Definition membership_revoked (s : MemoryStore) (tenant : UUID) (at_ : int64)
    (target : TenantMembershipRevocationItem) : Prop :=
  ∃ d m sub, st_domains s !! (tenant, tri_DomainID target) = Some d ∧
    dom_members d !! tri_MemberID target = Some m ∧ mr_RevokedAtMilliseconds m = Some at_ ∧
    dom_subscriptions d !! tri_SubscriptionID target = Some sub ∧
    sub_Status sub = SubscriptionRevoked.

Lemma revoke_target_done s tenant at_ target :
  target_present s tenant target → membership_revoked (revoke_target tenant at_ s target) tenant at_ target.
Proof.
  intros (d & Hd & [m Hm] & [sub Hsub]). unfold revoke_target. rewrite Hd.
  unfold membership_revoked, put_domain, revoke_membership. cbn. eexists _, _, _.
  rewrite lookup_insert_eq. split_and!; [done|cbn; by rewrite lookup_insert_eq|done| |].
  - cbn. by rewrite lookup_insert_eq.
  - done.
Qed.

Lemma revoke_target_keeps s tenant at_ target other :
  membership_revoked s tenant at_ other →
  membership_revoked (revoke_target tenant at_ s target) tenant at_ other.
Proof.
  intros (d & m & sub & Hd & Hm & Hrev & Hsub & Hst). unfold revoke_target.
  destruct (st_domains s !! (tenant, tri_DomainID target)) as [e|] eqn:He;
    [|by exists d, m, sub].
  unfold membership_revoked, put_domain. cbn.
  destruct (decide (tri_DomainID target = tri_DomainID other)) as [Heq|Hne].
  - rewrite Heq in He |- *. assert (e = d) as -> by congruence.
    setoid_rewrite lookup_insert_eq. unfold revoke_membership. cbn.
    exists (revoke_membership at_ target d).
    exists (if decide (tri_MemberID target = tri_MemberID other)
            then m <| mr_RevokedAtMilliseconds := Some at_ |> else m).
    exists (if decide (tri_SubscriptionID target = tri_SubscriptionID other)
            then sub <| sub_Status := SubscriptionRevoked |> <| sub_StartCursor := None |>
              <| sub_UpdatedAtMilliseconds := at_ |> else sub).
    unfold revoke_membership. cbn. split; [done|].
    split_and!; case_decide as Hx; try done;
      first [rewrite Hx, lookup_insert_eq, ?Hm, ?Hsub|rewrite lookup_insert_ne by done]; done.
  - exists d, m, sub. rewrite lookup_insert_ne by congruence. done.
Qed.

Lemma revoke_targets_done tenant at_ targets s :
  Forall (target_present s tenant) targets →
  Forall (membership_revoked (foldl (revoke_target tenant at_) s targets) tenant at_) targets.
Proof.
  revert s. induction targets as [|t l IH]; intros s; [constructor|]. intros [Ht Hl]%Forall_cons.
  simpl. constructor.
  - apply (foldl_invariant (fun s => membership_revoked s tenant at_ t)).
    + by apply revoke_target_done.
    + intros. by apply revoke_target_keeps.
  - apply IH. eapply Forall_impl; [exact Hl|]. intros o. apply revoke_target_present.
Qed.

Lemma revoke_targets_other tenant at_ targets s key :
  (∀ t, t ∈ targets → key ≠ (tenant, tri_DomainID t)) →
  st_domains (foldl (revoke_target tenant at_) s targets) !! key = st_domains s !! key.
Proof.
  revert s. induction targets as [|t l IH]; intros s Hk; [done|]. simpl. rewrite IH.
  - unfold revoke_target. destruct (st_domains s !! _); [|done]. unfold put_domain. cbn.
    apply lookup_insert_ne. apply not_eq_sym, Hk. by left.
  - intros t' Ht'. apply Hk. by right.
Qed.

(** What is wrong with a target, by itself, and the error that says so: its
    domain, its member with that very subscription, and the subscription must
    be there, the member not yet revoked, and the time not before the member or
    the subscription last changed. *)
Inductive target_fault (s : MemoryStore) (tenant : UUID) (at_ : int64)
    (target : TenantMembershipRevocationItem) : GoError → Prop :=
  | fault_domain :
      st_domains s !! (tenant, tri_DomainID target) = None →
      target_fault s tenant at_ target
        (protocolError CodeDomainNotFound "revocation domain was not found")
  | fault_member d :
      st_domains s !! (tenant, tri_DomainID target) = Some d →
      dom_members d !! tri_MemberID target = None ∨
        default uuid_Nil (dom_memberSubscriptions d !! tri_MemberID target) ≠
          tri_SubscriptionID target →
      target_fault s tenant at_ target
        (protocolError CodeMemberNotFound "revocation member was not found")
  | fault_subscription d member :
      st_domains s !! (tenant, tri_DomainID target) = Some d →
      dom_members d !! tri_MemberID target = Some member →
      default uuid_Nil (dom_memberSubscriptions d !! tri_MemberID target) =
        tri_SubscriptionID target →
      dom_subscriptions d !! tri_SubscriptionID target = None →
      target_fault s tenant at_ target
        (protocolError CodeSubscriptionNotFound "revocation subscription was not found")
  | fault_revoked d member sub revokedAt :
      st_domains s !! (tenant, tri_DomainID target) = Some d →
      dom_members d !! tri_MemberID target = Some member →
      default uuid_Nil (dom_memberSubscriptions d !! tri_MemberID target) =
        tri_SubscriptionID target →
      dom_subscriptions d !! tri_SubscriptionID target = Some sub →
      mr_RevokedAtMilliseconds member = Some revokedAt →
      target_fault s tenant at_ target
        (protocolError CodeMemberRevoked "revocation member was already revoked")
  | fault_order d member sub :
      st_domains s !! (tenant, tri_DomainID target) = Some d →
      dom_members d !! tri_MemberID target = Some member →
      default uuid_Nil (dom_memberSubscriptions d !! tri_MemberID target) =
        tri_SubscriptionID target →
      dom_subscriptions d !! tri_SubscriptionID target = Some sub →
      mr_RevokedAtMilliseconds member = None →
      at_ < mr_CreatedAtMilliseconds member ∨ at_ < sub_CreatedAtMilliseconds sub ∨
        at_ < sub_UpdatedAtMilliseconds sub →
      target_fault s tenant at_ target
        (protocolError CodeInvalidMember "tenant membership revocation is out of order").

Definition sound_target (s : MemoryStore) (tenant : UUID) (at_ : int64)
    (target : TenantMembershipRevocationItem) : Prop :=
  ∀ err, ¬ target_fault s tenant at_ target err.

Lemma target_error_fault s tenant revocation target err :
  revocation_target_error s tenant revocation target = Some err →
  target_fault s tenant (tmr_RevokedAtMilliseconds revocation) target err.
Proof.
  unfold revocation_target_error, err_then, err_when.
  destruct (st_domains s !! _) as [d|] eqn:Hd; [|intros [= <-]; by constructor].
  destruct (dom_members d !! _) as [member|] eqn:Hm; [|intros [= <-]; eapply fault_member; eauto].
  case_decide as Hs; [intros [= <-]; eapply fault_member; eauto|].
  destruct (dom_subscriptions d !! _) as [sub|] eqn:Hsub;
    [|intros [= <-]; by eapply fault_subscription].
  case_decide as Hr; [destruct Hr as [t Hr]; intros [= <-]; by eapply fault_revoked|].
  case_decide; [|done]. intros [= <-]. eapply fault_order; try done.
  destruct (mr_RevokedAtMilliseconds member); [|done]. by destruct Hr.
Qed.

Lemma target_error_sound s tenant revocation target :
  revocation_target_error s tenant revocation target = None →
  sound_target s tenant (tmr_RevokedAtMilliseconds revocation) target.
Proof.
  unfold revocation_target_error, err_then, err_when. intros Hn err Hf.
  destruct Hf as [Hd|d Hd Hm|d member Hd Hm Hs Hsub|d member sub t Hd Hm Hs Hsub Hr
    |d member sub Hd Hm Hs Hsub Hr Ho]; rewrite Hd in Hn; [done|..].
  - destruct (dom_members d !! _); [|done]. destruct Hm as [|Hm]; [done|]. by rewrite decide_True in Hn.
  - rewrite Hm, decide_False, Hsub in Hn by (intros Hx; by apply Hx). done.
  - rewrite Hm, decide_False, Hsub in Hn by (intros Hx; by apply Hx). by rewrite Hr in Hn.
  - rewrite Hm, decide_False, Hsub in Hn by (intros Hx; by apply Hx).
    rewrite Hr, decide_False, decide_True in Hn by (done || by intros [? ?]). done.
Qed.

(** The loop stops at the first target that is at fault. *)
Lemma first_fault s tenant revocation targets err :
  revocation_errors s tenant revocation targets = Some err →
  ∃ before target after, targets = before ++ target :: after ∧
    Forall (sound_target s tenant (tmr_RevokedAtMilliseconds revocation)) before ∧
    target_fault s tenant (tmr_RevokedAtMilliseconds revocation) target err.
Proof.
  induction targets as [|t l IH]; simpl; [done|].
  destruct (revocation_target_error s tenant revocation t) as [e|] eqn:He; simpl.
  - intros [= <-]. exists [], t, l. split_and!; [done|constructor|by apply target_error_fault].
  - intros (before & target & after & -> & Hall & Hf)%IH. exists (t :: before), target, after.
    split_and!; [done| |done]. constructor; [by apply target_error_sound|done].
Qed.

(** A request that is turned away before its targets are looked at. *)
Definition request_refused (s : MemoryStore) (credential : TenantCredential)
    (revocation : TenantMembershipRevocation) (err : GoError) : Prop :=
  TenantMembershipRevocation_Validate revocation = Some err ∨
  st_tenants s !! tcred_TenantID credential = None ∧
    err = protocolError CodeTenantNotFound "tenant was not found" ∨
  ∃ tenant, st_tenants s !! tcred_TenantID credential = Some tenant ∧
    (TenantRegistration_Authorize (ten_registration tenant) credential = Some err ∨
     ∃ existing, ten_membershipRevocations tenant !! tmr_RetryID revocation = Some existing ∧
       existing ≠ revocation ∧
       err = protocolError CodeMemberCollision "tenant membership revocation retry ID was reused").

(** Only members and subscriptions of targets change, and of their domains
    nothing else. *)
Definition spares (tenant : UUID) (targets : list TenantMembershipRevocationItem)
    (s s' : MemoryStore) : Prop :=
  ∀ key d, st_domains s !! key = Some d → ∃ d', st_domains s' !! key = Some d' ∧
    d' = d <| dom_members := dom_members d' |> <| dom_subscriptions := dom_subscriptions d' |> ∧
    (∀ id, (∀ t, t ∈ targets → key = (tenant, tri_DomainID t) → tri_MemberID t ≠ id) →
       dom_members d' !! id = dom_members d !! id) ∧
    (∀ id, (∀ t, t ∈ targets → key = (tenant, tri_DomainID t) → tri_SubscriptionID t ≠ id) →
       dom_subscriptions d' !! id = dom_subscriptions d !! id).

Lemma revoke_targets_spare tenant at_ targets s :
  spares tenant targets s (foldl (revoke_target tenant at_) s targets).
Proof.
  revert s. induction targets as [|t l IH]; intros s key d Hd; simpl.
  { exists d. split_and!; try done. by destruct d. }
  assert (∃ d1, st_domains (revoke_target tenant at_ s t) !! key = Some d1 ∧
    d1 = d <| dom_members := dom_members d1 |> <| dom_subscriptions := dom_subscriptions d1 |> ∧
    (∀ id, (key = (tenant, tri_DomainID t) → tri_MemberID t ≠ id) →
       dom_members d1 !! id = dom_members d !! id) ∧
    (∀ id, (key = (tenant, tri_DomainID t) → tri_SubscriptionID t ≠ id) →
       dom_subscriptions d1 !! id = dom_subscriptions d !! id))
    as (d1 & Hd1 & Hrest & Hm & Hsub).
  { unfold revoke_target. destruct (st_domains s !! (tenant, _)) as [e|] eqn:He;
      [|exists d; split_and!; try done; by destruct d].
    unfold put_domain. cbn. destruct (decide (key = (tenant, tri_DomainID t))) as [->|Hne].
    - rewrite lookup_insert_eq. assert (e = d) as -> by congruence. eexists. split; [done|].
      unfold revoke_membership. cbn.
      split_and!; [by destruct d|intros id Hid; rewrite lookup_insert_ne; [done|by apply Hid]..].
    - rewrite lookup_insert_ne by congruence. exists d. split_and!; try done. by destruct d. }
  destruct (IH _ _ _ Hd1) as (d' & Hd' & Hrest' & Hm' & Hsub'). exists d'. split; [done|]. split_and!.
  - rewrite Hrest' at 1. rewrite Hrest at 1. by destruct d, d'.
  - intros id Hid. rewrite Hm' by (intros; apply Hid; [by right|done]).
    apply Hm. apply Hid. by left.
  - intros id Hid. rewrite Hsub' by (intros; apply Hid; [by right|done]).
    apply Hsub. apply Hid. by left.
Qed.

(** [C12] Revoking a tenant's memberships is all or nothing.  An error leaves
    the store unchanged; it is that of the request itself, or it names what
    is wrong with the first target at fault, all targets before it being
    sound.  An exact retry changes nothing either.  A revocation is accepted
    only if every target is sound; it then revokes the member and the
    subscription of every target, at the requested time, and spares every
    other member, every other subscription, and everything else. *)
Theorem tenant_revocation_atomic credential revocation s s' r :
  RevokeTenantMemberships credential revocation s = (s', r) →
  let tenant := tcred_TenantID credential in
  let at_ := tmr_RevokedAtMilliseconds revocation in
  match r with
  | inl err => s' = s ∧
    (request_refused s credential revocation err ∨
     ∃ before target after, tmr_Memberships revocation = before ++ target :: after ∧
       Forall (sound_target s tenant at_) before ∧ target_fault s tenant at_ target err)
  | inr result =>
    (tmrr_Acceptance result = AcceptanceDuplicate ∧ s' = s) ∨
    (tmrr_Acceptance result = AcceptanceAccepted ∧
     Forall (sound_target s tenant at_) (tmr_Memberships revocation) ∧
     Forall (membership_revoked s' tenant at_) (tmr_Memberships revocation) ∧
     spares tenant (tmr_Memberships revocation) s s' ∧
     ∀ key, (∀ t, t ∈ tmr_Memberships revocation → key ≠ (tenant, tri_DomainID t)) →
       st_domains s' !! key = st_domains s !! key)
  end.
Proof.
  intros Hrun. refine (wp_elim _ (fun s' r => _) _ _ _ _ Hrun). clear Hrun s' r.
  unfold RevokeTenantMemberships, request_refused.
  wp_steps; try by left. all: try (split; [done|]; left; naive_solver).
  - split; [done|]. right. by apply first_fault.
  - right. match goal with Hx : revocation_errors _ _ _ _ = None |- _ =>
      pose proof (revocation_errors_None _ _ _ _ Hx) as Hok end.
    assert (Forall (target_present s (tcred_TenantID credential)) (tmr_Memberships revocation)) as Hp.
    { eapply Forall_impl; [exact Hok|]. intros t. apply target_error_present. }
    split; [done|]. split; [eapply Forall_impl; [exact Hok|]; intros t; apply target_error_sound|].
    split; [exact (revoke_targets_done _ _ _ _ Hp)|].
    split; [exact (revoke_targets_spare _ _ _ _)|].
    intros key Hk. exact (revoke_targets_other _ _ _ _ _ Hk).
Qed.
End tenant_revocation.

Definition example_revocation : TenantMembershipRevocation :=
  mkTenantMembershipRevocation SchemaVersion 62%N 3000
    [mkTenantMembershipRevocationItem domainID 22%N 12%N].

Lemma tenant_revocation_atomic_witness :
  match (RevokeTenantMemberships tenant_credential example_revocation store0).2 with
  | inl _ => False
  | inr result => tmrr_Acceptance result = AcceptanceAccepted
  end ∧
  ((RevokeTenantMemberships tenant_credential
      (mkTenantMembershipRevocation SchemaVersion 62%N 3000
         [mkTenantMembershipRevocationItem domainID 22%N 99%N]) store0).1 = store0).
Proof.
  split; [vm_compute; reflexivity|].
  apply (tenant_revocation_atomic tenant_credential
    (mkTenantMembershipRevocation SchemaVersion 62%N 3000
       [mkTenantMembershipRevocationItem domainID 22%N 99%N]) store0 _
    (inl (protocolError CodeMemberNotFound "revocation member was not found"))).
  apply ran. vm_compute. reflexivity.
Defined.

(** ** Admissions *)

Section admissions.
Context `{UuidLib}.

(** The retry of a claimed admission reads, and answers from, the domain. *)
Lemma claimed_result d a memberID claim now d0 :
  wp (claimed_admission_result d a memberID claim now) (fun d' r => d' = d0 ∧
    ∀ res, r = inr res → sacl_Acceptance res = AcceptanceDuplicate ∧
      memberID = mac_MemberID claim ∧
      let member := default MemberRegistration_zero (dom_members d !! memberID) in
      mr_AuthorizationDigest member = mac_AuthorizationDigest claim ∧
      sacl_Member res = mkSubscriptionMemberRegistration
        (default uuid_Nil (dom_memberSubscriptions d !! mr_MemberID member)) member) d0.
Proof.
  unfold claimed_admission_result. wp_steps; (split; [done|]); intros res [= <-].
  naive_solver.
Qed.

(** The record of a claimed admission. *)
Definition claimed_by (d : memoryDomain) (admissionID : UUID) (claim : MemberAdmissionClaim)
    (result : SubscriptionMemberRegistration) : Prop :=
  (∃ a, dom_admissions d !! admissionID = Some a ∧
     ma_ClaimedMemberID a = Some (mac_MemberID claim)) ∧
  let member := default MemberRegistration_zero (dom_members d !! mac_MemberID claim) in
  mr_AuthorizationDigest member = mac_AuthorizationDigest claim ∧
  result = mkSubscriptionMemberRegistration
    (default uuid_Nil (dom_memberSubscriptions d !! mr_MemberID member)) member.

(** What an accepted claim found and made. *)
Definition admitted (d d' : memoryDomain) (credential : AdmissionCredential)
    (claim : MemberAdmissionClaim) (now : int64) : Prop :=
  ∃ a m sub, dom_admissions d !! mcred_AdmissionID credential = Some a ∧
    ma_ClaimedMemberID a = None ∧ MemberAdmission_VerifyCredential a credential = None ∧
    MemberAdmission_RequireActive a now = None ∧
    dom_members d' !! mac_MemberID claim = Some m ∧
    mr_Capabilities m = ma_Capabilities a ∧ mr_RevokedAtMilliseconds m = None ∧
    mr_ExpiresAtMilliseconds m = ma_MemberExpiresAtMilliseconds a ∧
    dom_memberSubscriptions d' !! mac_MemberID claim = Some (sub_SubscriptionID sub) ∧
    dom_subscriptions d' !! sub_SubscriptionID sub = Some sub ∧
    sub_Status sub = SubscriptionActive.

Lemma claim_made n d credential claim now a :
  let sid := default uuid_Nil (dom_admissionSubscriptions d !! ma_AdmissionID a) in
  let m := mkMemberRegistration SchemaVersion (ma_TenantID a) (ma_DomainID a)
    (mac_MemberID claim) (mac_AuthorizationDigest claim) (ma_Capabilities a) now
    (ma_MemberExpiresAtMilliseconds a) None in
  let d' := put_admission (ma_AdmissionID a)
    (a <| ma_ClaimedAtMilliseconds := Some now |>
       <| ma_ClaimedMemberID := Some (mac_MemberID claim) |>)
    (put_memberSubscription (mr_MemberID m) sid (put_member (mr_MemberID m) m d)) in
  WellFormed n d → dom_admissions d !! mcred_AdmissionID credential = Some a →
  ma_ClaimedMemberID a = None → MemberAdmission_VerifyCredential a credential = None →
  MemberAdmission_RequireActive a now = None → ¬ no_active_subscription d sid →
  claimed_by d' (mcred_AdmissionID credential) claim (mkSubscriptionMemberRegistration sid m) ∧
  (AcceptanceAccepted = AcceptanceAccepted → admitted d d' credential claim now).
Proof.
  intros sid m d' Hd Ha Hun Hver Hact Hsub. pose proof (wf_identities _ _ Hd) as HI.
  pose proof (if_admissions _ _ _ _ HI _ _ Ha) as Hid.
  assert (∃ sub, dom_subscriptions d !! sid = Some sub ∧ sub_Status sub = SubscriptionActive)
    as (sub & Hs & Hst).
  { apply some_and_Some, dec_stable. exact Hsub. }
  pose proof (if_subscriptions _ _ _ _ HI _ _ Hs) as Hkey. split.
  - split.
    + eexists. split; [|by instantiate (1 := a <| ma_ClaimedAtMilliseconds := Some now |>
       <| ma_ClaimedMemberID := Some (mac_MemberID claim) |>)].
      unfold d', put_admission. cbn. by rewrite Hid, lookup_insert_eq.
    + unfold d', put_admission, put_memberSubscription, put_member. cbn.
      rewrite lookup_insert_eq. cbn. by rewrite lookup_insert_eq.
  - intros _. exists a, m, sub. unfold d', put_admission, put_memberSubscription, put_member. cbn.
    rewrite !lookup_insert_eq, Hkey. done.
Qed.

Lemma claim_outcome n credential claim previous now d :
  WellFormed n d →
  wp (claimAdmission credential claim previous now) (fun d' r => ∀ res, r = inr res →
    claimed_by d' (mcred_AdmissionID credential) claim (sacl_Member res) ∧
    (sacl_Acceptance res = AcceptanceAccepted → admitted d d' credential claim now)) d.
Proof.
  intros Hd. unfold claimAdmission. wp_steps; try (by intros ? [=]).
  - eapply wp_mono; [apply (claimed_result _ _ _ _ _ d)|]. cbv beta. intros d' r [-> Hr] res ->.
    destruct (Hr res eq_refl) as (Hdup & -> & Hdig & Hm). split; [|congruence].
    split; [by eexists|]. done.
  - intros res [= <-]. by eapply claim_made.
  - intros res [= <-]. by eapply claim_made.
Qed.

(** An admission admits one member, once.  An accepted claim needs the
    admission's own credential, an unclaimed admission inside its validity,
    and an active subscription; it registers the member with exactly the
    admission's capabilities and expiry.  After any successful claim, every
    later claim of the same admission leaves the domain alone and succeeds
    only as the exact retry: same member, same authorization digest, same
    result. *)
Theorem admission_claimed_once n credential claim previous now d d' res :
  WellFormed n d → claimAdmission credential claim previous now d = (d', inr res) →
  (sacl_Acceptance res = AcceptanceAccepted → admitted d d' credential claim now) ∧
  ∀ credential' claim' previous' now' d'' r,
    mcred_AdmissionID credential' = mcred_AdmissionID credential →
    claimAdmission credential' claim' previous' now' d' = (d'', r) →
    d'' = d' ∧ ∀ res', r = inr res' →
      res' = mkSubscriptionAdmissionClaimResult AcceptanceDuplicate (sacl_Member res) ∧
      claim' = claim.
Proof.
  intros Hd Hrun.
  destruct (wp_elim _ _ _ _ _ (claim_outcome n credential claim previous now d Hd) Hrun res eq_refl)
    as (((a & Ha & Hcl) & Hdig & Hm) & Hadm). split; [done|].
  intros credential' claim' previous' now' d'' r Hid Hrun'.
  refine (wp_elim _ (fun d'' r => _) _ _ _ _ Hrun'). clear Hrun' d'' r.
  unfold claimAdmission. rewrite Hid. wp_steps; rewrite ?Ha in *; simplify_eq; try done.
  eapply wp_mono; [apply (claimed_result _ _ _ _ _ d')|]. cbv beta. intros d'' r [-> Hr].
  split; [done|]. intros res' ->. destruct (Hr res' eq_refl) as (Hdup & Hmem & Hdig' & Hm').
  destruct res' as [acc mem], claim' as [m' g'], claim as [m0 g0]; cbn in *. subst.
  split; congruence.
Qed.
End admissions.

Lemma admission_claimed_once_witness :
  ∃ d, WellFormed 4 d ∧
    (claimAdmission (mkAdmissionCredential tenantID domainID 71%N (token 71))
       (mkMemberAdmissionClaim 13%N (digest_of (AuthorizationDigest alice))) uuid_Nil 1500
       (claimAdmission (mkAdmissionCredential tenantID domainID 71%N (token 71))
          (mkMemberAdmissionClaim 14%N (digest_of (AuthorizationDigest alice))) uuid_Nil 1000 d).1).1 =
    (claimAdmission (mkAdmissionCredential tenantID domainID 71%N (token 71))
       (mkMemberAdmissionClaim 14%N (digest_of (AuthorizationDigest alice))) uuid_Nil 1000 d).1.
Proof.
  set (credential := mkAdmissionCredential tenantID domainID 71%N (token 71)).
  set (admission := mkMemberAdmission SchemaVersion tenantID domainID 71%N
    (digest_of (AdmissionAuthorizationDigest credential)) all_capabilities 900 5000 None None None None).
  set (create := OpCreateSubscriptionAdmission admin_credential 22%N admission 900).
  assert (WellFormed 4 (domain_after [create])) as Hd.
  { apply (domain_after_wf [create]). vm_compute. discriminate. }
  exists (domain_after [create]). split; [exact Hd|].
  set (claim := mkMemberAdmissionClaim 14%N (digest_of (AuthorizationDigest alice))).
  apply (admission_claimed_once 4 credential claim uuid_Nil 1000 (domain_after [create])
    (claimAdmission credential claim uuid_Nil 1000 (domain_after [create])).1
    (mkSubscriptionAdmissionClaimResult AcceptanceAccepted (mkSubscriptionMemberRegistration 22%N
       (mkMemberRegistration SchemaVersion tenantID domainID 14%N
          (digest_of (AuthorizationDigest alice)) all_capabilities 1000 None None)))
    Hd) with (credential' := credential)
    (claim' := mkMemberAdmissionClaim 13%N (digest_of (AuthorizationDigest alice)))
    (previous' := uuid_Nil) (now' := 1500)
    (r := inl (protocolError CodeAdmissionClaimed "admission was already claimed")).
  - apply ran. vm_compute. reflexivity.
  - reflexivity.
  - apply ran. vm_compute. reflexivity.
Defined.

(** ** The limit of active members *)

Section limits.
Context `{UuidLib}.

Lemma map_count_insert {A} (P Q : UUID → A → Prop) `{∀ k a, Decision (P k a)}
    `{∀ k a, Decision (Q k a)} m k x :
  (∀ i a, i ≠ k → P i a → Q i a) → map_count P (<[k := x]> m) ≤ map_count Q m + 1.
Proof.
  intros HPQ. unfold map_count, zsize.
  assert (filter (fun kv => P kv.1 kv.2) (<[k := x]> m) ⊆
    <[k := x]> (filter (fun kv : UUID * A => Q kv.1 kv.2) m)) as Hsub.
  { apply map_subseteq_spec. intros i a [Hi HP]%map_lookup_filter_Some.
    destruct (decide (i = k)) as [->|Hne].
    - rewrite lookup_insert_eq in Hi. by rewrite lookup_insert_eq.
    - rewrite lookup_insert_ne in Hi by done. rewrite lookup_insert_ne by done.
      apply map_lookup_filter_Some. split; [done|]. by apply HPQ. }
  apply map_subseteq_size in Hsub.
  pose proof (map_size_insert k x (filter (fun kv : UUID * A => Q kv.1 kv.2) m)) as Hs.
  destruct (filter _ m !! k) in Hs; unfold id in Hs; lia.
Qed.

Lemma capacity_leaves_room members memberID m now :
  ensureMemberCapacity members now = None →
  active_member_count (<[memberID := m]> members) now ≤ MaximumActiveMemberCountPerDomain.
Proof.
  unfold ensureMemberCapacity. rewrite err_then_None, !err_when_None. intros [_ Hact].
  unfold active_member_count in *.
  pose proof (map_count_insert (fun _ x => memberActiveAt x now) (fun _ x => memberActiveAt x now)
    members memberID m (fun _ _ _ HP => HP)). lia.
Qed.

(** A domain never exceeds its limit of active members through the
    calls that add one: after an accepted [CreateSubscriptionMember] or an
    accepted admission claim (plain, or replacing an inactive membership),
    at most [MaximumActiveMemberCountPerDomain] members are active at the
    time of the call. *)
Theorem active_member_limit credential subscriptionID registration acredential claim previous now d :
  (∀ d', createSubscriptionMember credential subscriptionID registration now d =
     (d', inr AcceptanceAccepted) →
     active_member_count (dom_members d') now ≤ MaximumActiveMemberCountPerDomain) ∧
  (∀ d' res, claimAdmission acredential claim previous now d = (d', inr res) →
     sacl_Acceptance res = AcceptanceAccepted →
     active_member_count (dom_members d') now ≤ MaximumActiveMemberCountPerDomain).
Proof.
  split.
  - intros d' Hrun. refine (wp_elim _ (fun d' r => r = inr AcceptanceAccepted → _) _ _ _ _ Hrun eq_refl).
    clear Hrun d'. unfold createSubscriptionMember. wp_steps; try done. intros _. cbn.
    by apply capacity_leaves_room.
  - intros d' res Hrun Hacc. refine (wp_elim _ (fun d' r => ∀ res, r = inr res →
      sacl_Acceptance res = AcceptanceAccepted → _) _ _ _ _ Hrun res eq_refl Hacc).
    clear Hrun Hacc d' res. unfold claimAdmission. wp_steps; try (by intros ? [=]).
    + eapply wp_mono; [apply (claimed_result _ _ _ _ _ d)|]. cbv beta. intros d' r [_ Hr] res ->.
      destruct (Hr res eq_refl) as [-> _]. done.
    + intros _ _ _. cbn. unfold active_member_count.
      match goal with Hx : ¬ active_others _ _ _ ≥ _ |- context [<[?k := ?m]> ?ms] =>
        pose proof (map_count_insert (fun _ x => memberActiveAt x now)
          (fun id x => id ≠ k ∧ memberActiveAt x now) ms k m (fun _ _ Hne HP => conj Hne HP)) as Hle;
        unfold active_others in Hx; revert Hle Hx end. cbn. lia.
    + intros _ _ _. cbn. by apply capacity_leaves_room.
Qed.
End limits.

Lemma active_member_limit_witness :
  active_member_count (dom_members (createSubscriptionMember admin_credential 21%N
    (example_member (mkCredential tenantID domainID 15%N (token 15))) 1000 domain0).1) 1000
  ≤ MaximumActiveMemberCountPerDomain.
Proof.
  apply (active_member_limit admin_credential 21%N
    (example_member (mkCredential tenantID domainID 15%N (token 15)))
    (mkAdmissionCredential tenantID domainID 71%N (token 71))
    (mkMemberAdmissionClaim 13%N "") uuid_Nil 1000 domain0).
  apply ran. vm_compute. reflexivity.
Defined.

(** ** Credential rotation *)

Section rotation.
Context `{UuidLib}.

Lemma administration_digest_valid c d : AdministrationDigest c = inr d → validDigest d.
Proof.
  unfold AdministrationDigest. case_decide; [done|]. destruct (validateToken _); [done|].
  intros [= <-]. apply valid_scoped_digest.
Qed.

Lemma domain_authorize_iff r c :
  DomainRegistration_Validate r = None → validDigest (dr_AdministrationDigest r) →
  DomainRegistration_Authorize r c = None ↔
  acred_TenantID c = dr_TenantID r ∧ acred_DomainID c = dr_DomainID r ∧
  AdministrationDigest c = inr (dr_AdministrationDigest r).
Proof.
  intros Hv Hdig. unfold DomainRegistration_Authorize.
  rewrite !err_then_None, !err_when_None, digest_rejected_iff; [|apply administration_digest_valid|done].
  split.
  - intros (_ & Hs & Hd). split_and!; try done; apply dec_stable; tauto.
  - intros (Ht & Hdm & Hd). split_and!; tauto.
Qed.

(** Rotating the administration credential hands over completely: an
    accepted rotation was made with the current credential; afterwards that
    credential is refused, and exactly the credentials of this domain with
    the new digest are authorized.  The new digest was neither the current
    one nor one that any earlier administration rotation of the domain used,
    so a retired credential never comes back. *)
Theorem administration_rotation credential digest rotation now d d' res :
  CredentialRotation_Validate rotation = None →
  DomainRegistration_Validate (dom_registration d) = None →
  AdministrationDigest credential = inr digest →
  rotateAdministrationCredential credential digest rotation now d = (d', inr res) →
  rr_Acceptance res = AcceptanceAccepted →
  DomainRegistration_Authorize (dom_registration d) credential = None ∧
  DomainRegistration_Authorize (dom_registration d') credential ≠ None ∧
  (∀ c, DomainRegistration_Authorize (dom_registration d') c = None ↔
     acred_TenantID c = acred_TenantID credential ∧ acred_DomainID c = acred_DomainID credential ∧
     AdministrationDigest c = inr (rot_AuthorizationDigest rotation)) ∧
  rot_AuthorizationDigest rotation ≠ digest ∧
  ∀ k used, dom_rotations d !! k = Some used →
    of_subject administrationRotationSubject (acred_DomainID credential) used →
    rot_AuthorizationDigest rotation ≠ mcr_previousAuthorizationDigest used ∧
    rot_AuthorizationDigest rotation ≠ mcr_newAuthorizationDigest used.
Proof.
  intros Hrot Hreg Hdig Hrun Hacc.
  refine (wp_elim _ (fun d' r => ∀ res, r = inr res → rr_Acceptance res = AcceptanceAccepted → _)
    _ _ _ _ Hrun res eq_refl Hacc). clear Hrun Hacc d' res.
  unfold rotateAdministrationCredential, memoryRotationRetryResult.
  wp_steps; intros res [=]; subst; try done. intros _.
  assert (∀ r, DomainRegistration_Validate r = None → validDigest (dr_AdministrationDigest r)) as Hvd.
  { intros r. unfold DomainRegistration_Validate. rewrite err_then_None, err_when_None.
    intros [Hr _]. apply dec_stable. tauto. }
  assert (validDigest (rot_AuthorizationDigest rotation)) as Hnew.
  { unfold CredentialRotation_Validate in Hrot. rewrite err_when_None in Hrot.
    apply dec_stable. tauto. }
  match goal with Ha : DomainRegistration_Authorize _ credential = None |- _ =>
    pose proof Ha as (Ht & Hdm & Hd)%(domain_authorize_iff _ _ Hreg (Hvd _ Hreg)) end.
  assert (digest = dr_AdministrationDigest (dom_registration d)) as -> by congruence.
  match goal with Hu : ¬ (rotationDigestWasUsed _ _ _ _ ∨ _) |- _ =>
    apply Decidable.not_or in Hu as [Hunused Hne] end.
  pose proof (rotated_registration_valid _ _ Hrot Hreg) as Hreg'.
  assert (∀ c, DomainRegistration_Authorize ((dom_registration d)
      <| dr_AdministrationDigest := rot_AuthorizationDigest rotation |>) c = None ↔
    acred_TenantID c = acred_TenantID credential ∧ acred_DomainID c = acred_DomainID credential ∧
    AdministrationDigest c = inr (rot_AuthorizationDigest rotation)) as Hiff.
  { intros c. rewrite domain_authorize_iff by done. cbn. by rewrite Ht, Hdm. }
  split_and!; [done| |exact Hiff|done|].
  - change (dom_registration (_ <| dom_registration := ?r |>)) with r. cbn.
    intros (_ & _ & Hx)%Hiff. congruence.
  - intros k used Hk Hsubj. split; intros Heq; apply Hunused; apply map_any_spec;
      exists k, used; (split; [done|]); (split; [done|]); [by left|by right].
Qed.
End rotation.

Definition example_rotation : CredentialRotation :=
  mkCredentialRotation 81%N
    (digest_of (AdministrationDigest (mkAdministrationCredential tenantID domainID (token 82)))).

Lemma administration_rotation_witness :
  DomainRegistration_Authorize
    (dom_registration (rotateAdministrationCredential admin_credential
       (digest_of (AdministrationDigest admin_credential)) example_rotation 1000 domain0).1)
    admin_credential ≠ None.
Proof.
  apply (administration_rotation admin_credential
    (digest_of (AdministrationDigest admin_credential)) example_rotation 1000 domain0 _
    (mkCredentialRotationResult AcceptanceAccepted 81%N
       (rot_AuthorizationDigest example_rotation) 1000)).
  - vm_compute. reflexivity.
  - vm_compute. reflexivity.
  - vm_compute. reflexivity.
  - apply ran. vm_compute. reflexivity.
  - reflexivity.
Defined.

(** ** Provisioning *)

Lemma provisioned_equal p : domainProvisioningEqual (Some (new_domain p)) p.
Proof.
  unfold domainProvisioningEqual, new_domain. cbn.
  rewrite !lookup_singleton_eq. cbn. split; [|done]. intros [?|?]; done.
Qed.

(** The store holds exactly what the call provisions. *)
Lemma provision_again tenant p p' s existing :
  TenantRegistration_Validate tenant = None → DomainProvisioning_Validate p = None →
  ¬ (tr_TenantID tenant ≠ dr_TenantID (dp_Registration p) ∨
     tr_CreatedAtMilliseconds tenant ≠ dr_CreatedAtMilliseconds (dp_Registration p)) →
  TenantRegistration_ApplyCapacityPolicy tenant p = inr p' →
  (∀ id t, st_tenants s !! id = Some t →
     ¬ (id ≠ tr_TenantID tenant ∧ tr_RetryID (ten_registration t) = tr_RetryID tenant)) →
  st_tenants s !! tr_TenantID tenant = Some existing → ten_registration existing = tenant →
  domainProvisioningEqual
    (st_domains s !! (tr_TenantID tenant, dr_DomainID (dp_Registration p'))) p' →
  ProvisionTenant tenant p s = (s, inr (tenantProvisioningResult tenant p' AcceptanceDuplicate)).
Proof.
  intros Ht Hp Hscope Hpol Hretry Hex Hreg Heq.
  unfold ProvisionTenant, bind, check, reject_if, try, get, ret.
  rewrite Ht, Hp, decide_False by done. rewrite Hpol. cbv beta iota.
  rewrite decide_False, Hex.
  - by rewrite decide_True.
  - intros (id & t & Hid & Hbad)%map_any_spec. by apply (Hretry id t).
Qed.

(** Tenant provisioning is idempotent: repeating a successful call
    reports a duplicate with the same identities and digests and leaves the
    store as it is. *)
Theorem provision_tenant_retry tenant p s s' res :
  ProvisionTenant tenant p s = (s', inr res) →
  ∃ p' acceptance, TenantRegistration_ApplyCapacityPolicy tenant p = inr p' ∧
    res = tenantProvisioningResult tenant p' acceptance ∧
    ProvisionTenant tenant p s' =
      (s', inr (tenantProvisioningResult tenant p' AcceptanceDuplicate)).
Proof.
  intros Hrun. refine (wp_elim _ (fun s' r => ∀ res, r = inr res → _) _ _ _ _ Hrun res eq_refl).
  clear Hrun s' res. unfold ProvisionTenant at 1. wp_steps; intros res [=]; subst.
  all: match goal with Ha : TenantRegistration_ApplyCapacityPolicy _ _ = inr ?p' |- _ =>
    exists p' end; eexists; (do 2 (split; [done|])).
  - match goal with Hx : ten_registration _ = tenant ∧ _ |- _ => destruct Hx as [Hreg Heq] end.
    eapply provision_again; try done. intros id t Hid Hbad.
    match goal with Hn : ¬ map_any _ _ |- _ => apply Hn, map_any_spec end. by exists id, t.
  - match goal with Hpol : TenantRegistration_ApplyCapacityPolicy _ _ = inr ?q |- _ =>
      pose proof (apply_policy_key _ _ _ Hpol) as [= Hkt Hkd] end.
    eapply provision_again; try done.
    + unfold createDomainLocked, put_domain, put_tenant. cbn.
      intros id t [[<- <-]|[_ Hid]]%lookup_insert_Some [Hne Hbad]; [done|].
      match goal with Hn : ¬ map_any _ _ |- _ => apply Hn, map_any_spec end. by exists id, t.
    + unfold createDomainLocked, put_domain, put_tenant. cbn. by rewrite lookup_insert_eq.
    + done.
    + match goal with Hs : ¬ (tr_TenantID tenant ≠ _ ∨ _) |- _ =>
        assert (tr_TenantID tenant = dr_TenantID (dp_Registration p)) as ->
          by (apply dec_stable; intros ?; apply Hs; by left) end.
      unfold createDomainLocked, put_domain, provisioning_key. cbn. rewrite Hkt.
      rewrite lookup_insert_eq. apply provisioned_equal.
Qed.

Lemma provision_tenant_retry_witness :
  ∃ p' acceptance,
    tenantProvisioningResult example_tenant example_provisioning AcceptanceAccepted =
      tenantProvisioningResult example_tenant p' acceptance ∧
    ProvisionTenant example_tenant example_provisioning
      (ProvisionTenant example_tenant example_provisioning new_store).1 =
    ((ProvisionTenant example_tenant example_provisioning new_store).1,
     inr (tenantProvisioningResult example_tenant p' AcceptanceDuplicate)).
Proof.
  destruct (provision_tenant_retry example_tenant example_provisioning new_store
    (ProvisionTenant example_tenant example_provisioning new_store).1
    (tenantProvisioningResult example_tenant example_provisioning AcceptanceAccepted))
    as (p' & acceptance & _ & Hres & Hagain).
  - apply ran. vm_compute. reflexivity.
  - exists p', acceptance. split; [exact Hres|exact Hagain].
Defined.
