(* ===== verification/RelayClaims.v ===== *)
(** * internal/relay: who claimed which admission

    Invariants of the members and admissions of a domain, stated once for any
    property that the few changes of the two maps keep, and carried over every
    call of the store. *)

From S2P Require Import Prelude GoEncoding Sha256 RelayModel RelayState RelayFence RelayTenant RelayMember RelaySubscription RelayDelivery RelayBlob RelayCheckpoint RelayMachine RelayInvariant RelayReachable RelayAccess.
#[local] Open Scope Z_scope.

(** Members and admissions sit under their identifiers, and who claimed an
    admission is a member. *)
Record ClaimFacts (members : gmap UUID MemberRegistration)
    (admissions : gmap UUID MemberAdmission) : Prop := {
  cl_member id m : members !! id = Some m → mr_MemberID m = id;
  cl_admission id a : admissions !! id = Some a → ma_AdmissionID a = id;
  cl_claimed id a memberID : admissions !! id = Some a → ma_ClaimedMemberID a = Some memberID →
    is_Some (members !! memberID) }.

(** The changes that the relay makes to the two maps.  [replacing] also
    allows the claim that takes the place of an inactive membership. *)
Record ClaimClosed (replacing : bool)
    (I : gmap UUID MemberRegistration → gmap UUID MemberAdmission → Prop) : Prop := {
  cc_facts ms ads : I ms ads → ClaimFacts ms ads;
  cc_update ms ads id m m' :
    ms !! id = Some m → mr_MemberID m' = id → I ms ads → I (<[id := m']> ms) ads;
  cc_member ms ads id m : ms !! id = None → mr_MemberID m = id → I ms ads → I (<[id := m]> ms) ads;
  cc_admission ms ads id a : ads !! id = None → ma_AdmissionID a = id →
    ma_ClaimedMemberID a = None → I ms ads → I ms (<[id := a]> ads);
  cc_delete ms ads id : I ms ads → I ms (delete id ads);
  cc_revoke ms ads id a a' : ads !! id = Some a → ma_AdmissionID a' = id →
    ma_ClaimedMemberID a = None → ma_ClaimedMemberID a' = None → I ms ads → I ms (<[id := a']> ads);
  cc_claim ms ads id a a' memberID m : ads !! id = Some a → ma_ClaimedMemberID a = None →
    ma_AdmissionID a' = id → ma_ClaimedMemberID a' = Some memberID → mr_MemberID m = memberID →
    (replacing = false → ms !! memberID = None) →
    I ms ads → I (<[memberID := m]> ms) (<[id := a']> ads) }.

(** ** One domain *)

Definition roster (d : memoryDomain) := (dom_members d, dom_admissions d).

Lemma directory_roster d d' : directory d' = directory d → roster d' = roster d.
Proof. unfold roster. by intros [= -> -> _ _]. Qed.

Lemma cleanup_roster `{UuidLib} id d : roster (cleanupMemoryFenceAuthority id d) = roster d.
Proof. apply directory_roster, cleanup_directory. Qed.
Lemma refresh_roster `{UuidLib} now d : roster (refreshMemoryFence now d) = roster d.
Proof. apply directory_roster, refresh_directory. Qed.
Lemma forget_roster `{UuidLib} id n d : roster (forget_acknowledgments id n d) = roster d.
Proof. apply directory_roster, forget_directory. Qed.
Lemma push_roster `{UuidLib} id d : roster (push_activated id d) = roster d.
Proof. apply directory_roster, push_directory. Qed.
Lemma publish_blob_roster `{UuidLib} k b d : roster (publish_blob k b d) = roster d.
Proof. apply directory_roster, publish_blob_directory. Qed.

#[local] Arguments publish_blob : simpl never.
#[local] Arguments push_activated : simpl never.
#[local] Arguments cleanupMemoryFenceAuthority : simpl never.
#[local] Arguments refreshMemoryFence : simpl never.
#[local] Arguments forget_acknowledgments : simpl never.

(** [roster_eq] shows that a change of other parts leaves the roster alone. *)
Ltac roster_eq :=
  unfold roster; cbn;
  repeat match goal with
  | |- (dom_members ?x, dom_admissions ?x) = ?r => reflexivity
  | |- (dom_members ?x, dom_admissions ?x) = ?r =>
    change (roster x = r);
    first [ rewrite push_roster | rewrite publish_blob_roster | rewrite forget_roster
          | rewrite cleanup_roster | rewrite refresh_roster ]; unfold roster; cbn
  end; done.

Section domain.
Context `{UuidLib} (replacing : bool).
Context (I : gmap UUID MemberRegistration → gmap UUID MemberAdmission → Prop).
Hypothesis HI : ClaimClosed replacing I.

Definition Roster (d : memoryDomain) : Prop := I (dom_members d) (dom_admissions d).

Lemma roster_same d d' : roster d' = roster d → Roster d → Roster d'.
Proof using Type. unfold Roster. by intros [= -> ->]. Qed.

Lemma roster_put d id m m' :
  dom_members d !! id = Some m → mr_MemberID m' = mr_MemberID m → Roster d →
  Roster (d <| dom_members := <[id := m']> (dom_members d) |>).
Proof using HI.
  intros Hm Hid Hd. unfold Roster. cbn. eapply (cc_update _ _ HI); [exact Hm| |exact Hd].
  rewrite Hid. exact (cl_member _ _ (cc_facts _ _ HI _ _ Hd) _ _ Hm).
Qed.

#[local] Ltac same :=
  solve [ done
        | match goal with Hr : Roster ?e |- Roster _ => apply (roster_same e); [roster_eq|exact Hr] end ].

#[export] Instance roster_allows_write sid now : Preserves Roster (memoryFenceAllowsWrite sid now).
Proof using Type. intros d Hd. unfold memoryFenceAllowsWrite. wp_steps; same. Qed.

#[export] Instance roster_rotateMember c digest r now :
  Preserves Roster (rotateMemberCredential c digest r now).
Proof using HI.
  intros d Hd. unfold rotateMemberCredential, memoryRotationRetryResult. wp_steps; try same.
  by eapply (roster_put (put_rotation _ _ d)).
Qed.

#[export] Instance roster_createAdmission c sid r now :
  ma_ClaimedMemberID r = None → Preserves Roster (createSubscriptionAdmission c sid r now).
Proof using HI.
  intros Hr d Hd. unfold createSubscriptionAdmission. wp_steps; try same.
  by apply (cc_admission _ _ HI).
Qed.

#[export] Instance roster_claimAdmission c claim previous now :
  (replacing = false → previous = uuid_Nil) → Preserves Roster (claimAdmission c claim previous now).
Proof using HI.
  intros Hprev d Hd. unfold claimAdmission, claimed_admission_result. wp_steps; try same.
  all: eapply (cc_claim _ _ HI); [|eassumption| | |reflexivity| |exact Hd]; cbn;
    try reflexivity; try (by rewrite (cl_admission _ _ (cc_facts _ _ HI _ _ Hd) _ _ ltac:(eassumption)));
    try (erewrite (cl_admission _ _ (cc_facts _ _ HI _ _ Hd)) by eassumption; done).
  - intros Hrep. by specialize (Hprev Hrep).
  - intros _. by apply eq_None_not_Some.
Qed.

#[export] Instance roster_collectAdmissions now : Preserves Roster (collectAdmissions now).
Proof using HI.
  intros d Hd. unfold collectAdmissions. wp_steps. unfold Roster. cbn.
  apply (foldl_invariant (fun ads => I (dom_members d) ads)); [exact Hd|].
  intros ads id. apply (cc_delete _ _ HI).
Qed.

#[export] Instance roster_revokeAdmission id now : Preserves Roster (revokeAdmission id now).
Proof using HI.
  intros d Hd. unfold revokeAdmission. wp_steps; try same.
  match goal with Ha : dom_admissions d !! id = Some ?a, Hc : ¬ is_Some (ma_ClaimedMemberID ?a) |- _ =>
    apply eq_None_not_Some in Hc; eapply (cc_revoke _ _ HI); [exact Ha| |exact Hc|exact Hc|exact Hd];
    exact (cl_admission _ _ (cc_facts _ _ HI _ _ Hd) _ _ Ha) end.
Qed.

#[export] Instance roster_createMember c sid r now :
  Preserves Roster (createSubscriptionMember c sid r now).
Proof using HI.
  intros d Hd. unfold createSubscriptionMember. wp_steps; try same.
  by apply (cc_member _ _ HI).
Qed.

#[export] Instance roster_revokeMember id now : Preserves Roster (revokeMember id now).
Proof using HI. intros d Hd. unfold revokeMember. wp_steps; try same. by eapply roster_put. Qed.

#[export] Instance roster_changeCapabilities change now :
  Preserves Roster (changeMemberCapabilities change now).
Proof using HI.
  intros d Hd. unfold changeMemberCapabilities. wp_steps; try same.
  match goal with Hm : dom_members d !! _ = Some ?m |- _ =>
    pose proof (cl_member _ _ (cc_facts _ _ HI _ _ Hd) _ _ Hm) as Hid;
    apply (roster_put d _ m); [by rewrite Hid|done|exact Hd] end.
Qed.
End domain.

(** ** Every call *)

(** [op] does not replace memberships of the domain [key]. *)
Definition replaces_elsewhere (key : domainKey) (op : Op) : Prop :=
  match op with
  | OpClaimReplacing c _ _ _ => (mcred_TenantID c, mcred_DomainID c) ≠ key
  | _ => True
  end.

Section calls.
Context `{UuidLib} (replacing : bool).
Context (I : gmap UUID MemberRegistration → gmap UUID MemberAdmission → Prop).
Hypothesis HI : ClaimClosed replacing I.

(** A call on another domain. *)
Lemma at_other_domain {A} key key' J (body : M GoError memoryDomain A) s :
  key' ≠ key → at_domain key J s → wp (in_found_domain key' body) (fun s' _ => at_domain key J s') s.
Proof using Type.
  intros Hne (d & Hd & HJ). unfold in_found_domain. wp_steps.
  unfold wp, in_domain. destruct (st_domains s !! key'); simpl; [|by exists d].
  destruct (body m). simpl. exists d. unfold put_domain. cbn. by rewrite lookup_insert_ne.
Qed.

(** A tenant's revocation updates members. *)
Lemma roster_revoke_target key at_ tenant target s :
  target_present s tenant target → at_domain key (Roster I) s →
  at_domain key (Roster I) (revoke_target tenant at_ s target).
Proof using HI.
  intros (e & He & [m Hm] & _) (d & Hd & HJ). unfold revoke_target. rewrite He.
  destruct (decide ((tenant, tri_DomainID target) = key)) as [<-|Hne].
  - assert (e = d) as -> by congruence. eexists. unfold put_domain. cbn.
    rewrite lookup_insert_eq. split; [done|]. unfold revoke_membership. rewrite Hm.
    by eapply roster_put.
  - exists d. unfold put_domain. cbn. by rewrite lookup_insert_ne.
Qed.

Lemma roster_revoke_targets key at_ tenant targets s :
  Forall (target_present s tenant) targets → at_domain key (Roster I) s →
  at_domain key (Roster I) (foldl (revoke_target tenant at_) s targets).
Proof using HI.
  revert s. induction targets as [|t l IH]; intros s; [done|]. intros [Ht Hl]%Forall_cons Hs.
  simpl. apply IH; [|by apply roster_revoke_target]. eapply Forall_impl; [exact Hl|].
  intros o. apply revoke_target_present.
Qed.

Lemma new_admission_unclaimed (r : MemberAdmission) (P Q : Prop) :
  ¬ (P ∨ Q ∨ is_Some (ma_ClaimedMemberID r)) → ma_ClaimedMemberID r = None.
Proof using Type. intros Hn. apply eq_None_not_Some. tauto. Qed.

#[local] Ltac same :=
  solve [ done
        | match goal with Hr : Roster I ?e |- Roster I _ =>
            apply (roster_same I e); [roster_eq|exact Hr] end ].

#[local] Ltac allows :=
  match goal with |- wp (memoryFenceAllowsWrite _ _) _ _ =>
    eapply wp_mono; [by apply roster_allows_write|]; cbv beta; intros ? [?|[]] ?; [done|];
    wp_steps; try same end.

(** The bodies that leave members and admissions alone. *)
#[local] Ltac body :=
  let d := fresh "d" in let Hd := fresh "Hd" in
  intros d Hd; repeat (match goal with |- wp ?m _ _ => let f := head_of m in unfold f end; wp_steps;
    try same; try allows); fail.

Lemma perform_roster_at key op s :
  (replacing = false → replaces_elsewhere key op) →
  owned s → at_domain key (Roster I) s → at_domain key (Roster I) (perform op s).
Proof using HI.
  intros Hel Hown Hs. destruct op; simpl; unfold after;
    match goal with |- at_domain _ _ (?m ?s).1 =>
      change (wp m (fun s' _ => at_domain key (Roster I) s') s) end.
  all: unfold_call; wp_steps; try done.
  all: try (lazymatch goal with
    | |- wp (as_administrator _ _) _ _ => apply at_as_administrator
    | |- wp (as_member _ _ _ _) _ _ => apply at_as_member
    | |- wp (in_found_domain _ _) _ _ => apply at_in_found_domain end; [|exact Hs]).
  all: try solve [eauto using roster_rotateMember, roster_collectAdmissions, roster_revokeAdmission,
    roster_createMember, roster_revokeMember, roster_changeCapabilities].
  all: try body.
  - apply at_put_new; [by destruct (st_tenants s !! _)|]. by destruct (st_tenants s !! _).
  - apply at_put_new; [|done]. eapply (new_tenant_key _ _ _ s); eassumption.
  - apply at_put_new; [|done]. by erewrite policy_key_scope by eassumption.
  - apply roster_revoke_targets; [|done]. eapply Forall_impl; [by apply revocation_errors_None|].
    intros t. apply target_error_present.
  - intros d Hd. wp_steps. unfold ensure_test_subscription. by case_decide.
  - eapply roster_createAdmission; [done|]. by eapply new_admission_unclaimed.
  - unfold claimSubscriptionAdmission. wp_steps; [done|]. apply at_in_found_domain; [|exact Hs].
    by eapply roster_claimAdmission.
  - unfold claimSubscriptionAdmission. wp_steps; [done|]. destruct replacing.
    + apply at_in_found_domain; [|exact Hs]. by eapply roster_claimAdmission.
    + apply at_other_domain; [by apply Hel|exact Hs].
  - intros d Hd. wp_steps; done.
  - intros d Hd. wp_steps; done.
  - intros d Hd. wp_step. unfold owned_upload. wp_steps; done.
Qed.
End calls.

(** ** New domains *)

Section new_domains.
Context `{UuidLib} (key : domainKey).

Definition absent (s : MemoryStore) : Prop := st_domains s !! key = None.

(** The domain of [key], if there is one, was just provisioned. *)
Definition just_created (s : MemoryStore) : Prop :=
  ∀ d, st_domains s !! key = Some d → ∃ p, DomainProvisioning_Validate p = None ∧ d = new_domain p.

Lemma absent_just_created s : absent s → just_created s.
Proof using Type. unfold absent, just_created. by intros -> d. Qed.

Lemma absent_in_domain {A} key' (authorized : GoError + memoryDomain)
    (body : M GoError memoryDomain A) s :
  (∀ d, authorized = inr d → st_domains s !! key' = Some d) → absent s →
  wp (in_domain key' authorized body) (fun s' _ => absent s') s.
Proof using Type.
  intros Ha Hs. unfold wp, in_domain. destruct authorized as [e|d]; simpl; [done|].
  specialize (Ha d eq_refl). destruct (body d) as [d1 r]. simpl. unfold absent, put_domain in *. cbn.
  rewrite lookup_insert_ne; [done|]. intros ->. congruence.
Qed.

Lemma absent_as_administrator {A} credential (body : M GoError memoryDomain A) :
  Preserves absent (as_administrator credential body).
Proof using Type.
  intros s Hs. unfold as_administrator. wp_steps. apply absent_in_domain; [|done].
  intros d. unfold authorizedDomain. destruct (st_domains s !! _); [|done].
  by destruct (DomainRegistration_Authorize _ _); intros [= <-].
Qed.

Lemma absent_as_member {A} credential capability now (body : M GoError memoryDomain A) :
  Preserves absent (as_member credential capability now body).
Proof using Type.
  intros s Hs. unfold as_member. wp_steps. apply absent_in_domain; [|done].
  intros d. unfold authorizedMember. destruct (st_domains s !! _); [|done].
  destruct (dom_members _ !! _); [|done].
  by destruct (MemberRegistration_Authorize _ _ _ _); intros [= <-].
Qed.

Lemma absent_in_found_domain {A} key' (body : M GoError memoryDomain A) :
  Preserves absent (in_found_domain key' body).
Proof using Type.
  intros s Hs. unfold in_found_domain. wp_steps. apply absent_in_domain; [|done].
  intros d. by destruct (st_domains s !! key'); intros [= <-].
Qed.

Lemma absent_revoke_target tenant at_ s target : absent s → absent (revoke_target tenant at_ s target).
Proof using Type.
  unfold absent, revoke_target. intros Hs. destruct (st_domains s !! (_, _)) eqn:Hd; [|done].
  unfold put_domain. cbn. rewrite lookup_insert_ne; [done|]. congruence.
Qed.

Lemma create_just_created p s :
  DomainProvisioning_Validate p = None → absent s → just_created (createDomainLocked p s).
Proof using Type.
  intros Hp Hs d. unfold createDomainLocked, put_domain, absent in *. cbn.
  intros [[_ <-]|[_ Hd]]%lookup_insert_Some; [by exists p|congruence].
Qed.

Lemma perform_just_created op s : absent s → just_created (perform op s).
Proof using Type.
  intros Hs. assert (just_created s) as Hj by by apply absent_just_created.
  destruct op; simpl; unfold after;
    match goal with |- just_created (?m ?s).1 => change (wp m (fun s' _ => just_created s') s) end.
  all: unfold_call; wp_steps; try done.
  all: try (eapply wp_mono; [lazymatch goal with
    | |- wp (as_administrator _ _) _ _ => by apply absent_as_administrator
    | |- wp (as_member _ _ _ _) _ _ => by apply absent_as_member
    | |- wp (in_found_domain _ _) _ _ => by apply absent_in_found_domain end
    |cbv beta; intros ? _ ?; by apply absent_just_created]).
  - apply create_just_created; [done|]. by destruct (st_tenants s !! _).
  - apply create_just_created; [|done]. by eapply apply_policy_valid.
  - apply create_just_created; [|done]. by eapply apply_policy_valid.
  - apply absent_just_created. unfold absent, record_revocation. cbn.
    apply (foldl_invariant absent); [done|]. intros. by apply absent_revoke_target.
  - unfold claimSubscriptionAdmission. wp_steps; [done|].
    eapply wp_mono; [by apply absent_in_found_domain|]. cbv beta. intros ? _ ?.
    by apply absent_just_created.
  - unfold claimSubscriptionAdmission. wp_steps; [done|].
    eapply wp_mono; [by apply absent_in_found_domain|]. cbv beta. intros ? _ ?.
    by apply absent_just_created.
Qed.
End new_domains.

(** [I] holds of the domain of [key], if there is one. *)
Definition where_present (key : domainKey) (I : memoryDomain → Prop) (s : MemoryStore) : Prop :=
  ∀ d, st_domains s !! key = Some d → I d.

(** What holds of new domains and is kept at a key holds where present. *)
Lemma present_from_at `{UuidLib} (I : memoryDomain → Prop) key op s :
  (at_domain key I s → at_domain key I (perform op s)) →
  (∀ p, DomainProvisioning_Validate p = None → I (new_domain p)) →
  where_present key I s → where_present key I (perform op s).
Proof.
  intros Hat Hnew Hs d Hd. destruct (st_domains s !! key) as [e|] eqn:He.
  - destruct Hat as (d' & Hd' & HI); [exists e; split; [done|by eapply Hs]|]. congruence.
  - destruct (perform_just_created key op s He d Hd) as (p & Hp & ->). by apply Hnew.
Qed.

Lemma each_from_at `{UuidLib} (I : memoryDomain → Prop) op s :
  (∀ key, at_domain key I s → at_domain key I (perform op s)) →
  (∀ p, DomainProvisioning_Validate p = None → I (new_domain p)) →
  each_domain I s → each_domain I (perform op s).
Proof. intros Hat Hnew Hs key. apply present_from_at; [apply Hat|done|]. intros d. apply Hs. Qed.

(** ** The facts about claims *)

Lemma claim_facts_closed : ClaimClosed true ClaimFacts.
Proof.
  assert (∀ (ms : gmap UUID MemberRegistration) (id memberID : UUID) (m : MemberRegistration),
    is_Some (ms !! memberID) → is_Some (<[id := m]> ms !! memberID)) as Hgrow.
  { intros. apply lookup_insert_is_Some'. by right. }
  split; [done|..].
  - intros ms ads id m m' Hm Hid [Hk Ha Hc]. split; [|done|by eauto].
    intros k x [[<- <-]|[_ Hx]]%lookup_insert_Some; [done|by apply Hk].
  - intros ms ads id m Hm Hid [Hk Ha Hc]. split; [|done|by eauto].
    intros k x [[<- <-]|[_ Hx]]%lookup_insert_Some; [done|by apply Hk].
  - intros ms ads id a Hn Hid Hun [Hk Ha Hc]. split; [done|..].
    + intros k x [[<- <-]|[_ Hx]]%lookup_insert_Some; [done|by apply Ha].
    + intros k x D [[<- <-]|[_ Hx]]%lookup_insert_Some; [congruence|by eapply Hc].
  - intros ms ads id [Hk Ha Hc]. split; [done|..].
    + intros k x [_ Hx]%lookup_delete_Some. by apply Ha.
    + intros k x D [_ Hx]%lookup_delete_Some. by eapply Hc.
  - intros ms ads id a a' Hn Hid _ Hun [Hk Ha Hc]. split; [done|..].
    + intros k x [[<- <-]|[_ Hx]]%lookup_insert_Some; [done|by apply Ha].
    + intros k x D [[<- <-]|[_ Hx]]%lookup_insert_Some; [congruence|by eapply Hc].
  - intros ms ads id a a' D m Hn Hun Hid Hcl Hm _ [Hk Ha Hc]. split.
    + intros k x [[<- <-]|[_ Hx]]%lookup_insert_Some; [done|by apply Hk].
    + intros k x [[<- <-]|[_ Hx]]%lookup_insert_Some; [done|by apply Ha].
    + intros k x D' [[<- <-]|[_ Hx]]%lookup_insert_Some Hx'.
      * apply lookup_insert_is_Some. left. congruence.
      * eauto.
Qed.

Section claims.
Context `{UuidLib}.

Lemma perform_claim_facts op s :
  owned s → each_domain (Roster ClaimFacts) s → each_domain (Roster ClaimFacts) (perform op s).
Proof.
  intros Hown. apply each_from_at.
  - intros key. by apply (perform_roster_at true _ claim_facts_closed).
  - intros p Hp. unfold Roster, new_domain. cbn.
    split; [|by intros ? ? ?%lookup_empty_Some|by intros ? ? ? ?%lookup_empty_Some].
    intros id m [<- <-]%lookup_singleton_Some. done.
Qed.
End claims.

(** ** One claim per member

    Under plain claims no member claims two admissions. *)

Record Unique (ms : gmap UUID MemberRegistration) (ads : gmap UUID MemberAdmission) : Prop := {
  un_facts : ClaimFacts ms ads;
  un_unique id1 id2 a1 a2 memberID : ads !! id1 = Some a1 → ads !! id2 = Some a2 →
    ma_ClaimedMemberID a1 = Some memberID → ma_ClaimedMemberID a2 = Some memberID → id1 = id2 }.

(** The member exists, and claimed no admission but [admissionID]. *)
Record Sole (admissionID memberID : UUID) (ms : gmap UUID MemberRegistration)
    (ads : gmap UUID MemberAdmission) : Prop := {
  so_facts : ClaimFacts ms ads;
  so_member : is_Some (ms !! memberID);
  so_sole id a : ads !! id = Some a → ma_ClaimedMemberID a = Some memberID → id = admissionID }.

(** A change that keeps [ClaimFacts] keeps what is said on top of it, when
    the rest is checked for every change. *)
Lemma closed_with (I J : gmap UUID MemberRegistration → gmap UUID MemberAdmission → Prop) :
  (∀ ms ads, I ms ads ↔ ClaimFacts ms ads ∧ J ms ads) →
  (∀ ms ads id m, J ms ads → J (<[id := m]> ms) ads) →
  (∀ ms ads id a, ma_ClaimedMemberID a = None → J ms ads → J ms (<[id := a]> ads)) →
  (∀ ms ads id, J ms ads → J ms (delete id ads)) →
  (∀ ms ads id a a' memberID m, ads !! id = Some a → ma_ClaimedMemberID a' = Some memberID →
     ms !! memberID = None → ClaimFacts ms ads → J ms ads →
     J (<[memberID := m]> ms) (<[id := a']> ads)) →
  ClaimClosed false I.
Proof.
  intros HI Hms Hads Hdel Hcl. pose proof claim_facts_closed as Hc. split.
  - intros ms ads Hi. by apply HI in Hi as [? _].
  - intros ms ads id m m' Hm Hid [Hf Hj]%HI. apply HI. split; [|by apply Hms].
    by eapply (cc_update _ _ Hc).
  - intros ms ads id m Hm Hid [Hf Hj]%HI. apply HI. split; [|by apply Hms].
    by eapply (cc_member _ _ Hc).
  - intros ms ads id a Hn Hid Hun [Hf Hj]%HI. apply HI. split; [|by apply Hads].
    by eapply (cc_admission _ _ Hc).
  - intros ms ads id [Hf Hj]%HI. apply HI. split; [|by apply Hdel]. by eapply (cc_delete _ _ Hc).
  - intros ms ads id a a' Hn Hid Hun Hun' [Hf Hj]%HI. apply HI. split; [|by apply Hads].
    by eapply (cc_revoke _ _ Hc).
  - intros ms ads id a a' D m Hn Hun Hid Hclm Hm Hnew [Hf Hj]%HI. apply HI.
    split; [by eapply (cc_claim _ _ Hc)|]. eapply Hcl; [done|done| |done|done]. by apply Hnew.
Qed.

Lemma unique_closed : ClaimClosed false Unique.
Proof.
  apply (closed_with _ (fun ms ads => ∀ id1 id2 a1 a2 D, ads !! id1 = Some a1 →
    ads !! id2 = Some a2 → ma_ClaimedMemberID a1 = Some D → ma_ClaimedMemberID a2 = Some D → id1 = id2)).
  - intros ms ads. split; [intros [? ?]|intros [? ?]]; by split.
  - done.
  - intros ms ads id a Hun Hj id1 id2 a1 a2 D.
    intros [[<- <-]|[_ H1]]%lookup_insert_Some [[<- <-]|[_ H2]]%lookup_insert_Some; try congruence.
    by eapply Hj.
  - intros ms ads id Hj id1 id2 a1 a2 D [_ H1]%lookup_delete_Some [_ H2]%lookup_delete_Some.
    by eapply Hj.
  - intros ms ads id a a' D m Ha Hcl Hnew Hf Hj id1 id2 a1 a2 D'.
    intros [[<- <-]|[_ H1]]%lookup_insert_Some [[<- <-]|[_ H2]]%lookup_insert_Some Hc1 Hc2.
    + done.
    + destruct (cl_claimed _ _ Hf _ _ _ H2 Hc2). congruence.
    + destruct (cl_claimed _ _ Hf _ _ _ H1 Hc1). congruence.
    + by eapply Hj.
Qed.

Lemma sole_closed admissionID memberID : ClaimClosed false (Sole admissionID memberID).
Proof.
  apply (closed_with _ (fun ms ads => is_Some (ms !! memberID) ∧ ∀ id a, ads !! id = Some a →
    ma_ClaimedMemberID a = Some memberID → id = admissionID)).
  - intros ms ads. split; [intros [? ? ?]|intros (? & ? & ?)]; by split.
  - intros ms ads id m [Hm Hj]. split; [|done]. apply lookup_insert_is_Some'. by right.
  - intros ms ads id a Hun [Hm Hj]. split; [done|].
    intros id' a' [[<- <-]|[_ Ha]]%lookup_insert_Some; [congruence|by apply Hj].
  - intros ms ads id [Hm Hj]. split; [done|]. intros id' a' [_ Ha]%lookup_delete_Some. by apply Hj.
  - intros ms ads id a a' D m Ha Hcl Hnew Hf [Hm Hj]. split.
    { apply lookup_insert_is_Some'. by right. }
    intros id' x [[<- <-]|[_ Hx]]%lookup_insert_Some Hc; [|by eapply Hj].
    destruct Hm as [? Hm]. congruence.
Qed.

Section plain_claims.
Context `{UuidLib}.

Lemma perform_unique key op s :
  replaces_elsewhere key op → owned s →
  where_present key (Roster Unique) s → where_present key (Roster Unique) (perform op s).
Proof.
  intros Hel Hown. apply present_from_at.
  - by apply (perform_roster_at false _ unique_closed).
  - intros p Hp. split; unfold new_domain; cbn; [|by intros ? ? ? ? ? ?%lookup_empty_Some].
    split; [|by intros ? ? ?%lookup_empty_Some|by intros ? ? ? ?%lookup_empty_Some].
    by intros id m [<- <-]%lookup_singleton_Some.
Qed.

(** The claimant of a successful plain claim claimed nothing else. *)
Lemma claim_sole credential claim now r :
  let key := (mcred_TenantID credential, mcred_DomainID credential) in
  let sole id := Roster (Sole id (mac_MemberID claim)) in
  where_present key (Roster Unique) r →
  wp (ClaimSubscriptionAdmission credential claim now) (fun r' res => ∀ a, res = inr a →
    at_domain key (sole (mcred_AdmissionID credential)) r' ∧
    ∀ id, at_domain key (sole id) r → id = mcred_AdmissionID credential) r.
Proof.
  intros key sole Hr. unfold ClaimSubscriptionAdmission, claimSubscriptionAdmission.
  wp_steps; [done|]. unfold in_found_domain. wp_steps. fold key.
  unfold wp, in_domain. destruct (st_domains r !! key) as [d|] eqn:Hd; [|done]. simpl.
  specialize (Hr _ Hd). destruct (claimAdmission _ _ _ _ d) as [d' res] eqn:Hrun. simpl.
  enough (∀ a, res = inr a → sole (mcred_AdmissionID credential) d' ∧
    ∀ id, sole id d → id = mcred_AdmissionID credential) as Hd'.
  { intros a Ha. destruct (Hd' a Ha) as [H1 H2]. split.
    - exists d'. split; [|done]. unfold put_domain. cbn. by rewrite lookup_insert_eq.
    - intros id (e & He & Hsole). apply H2. congruence. }
  refine (wp_elim _ (fun d' res => ∀ a, res = inr a → _) _ _ _ _ Hrun). clear Hrun res d'.
  destruct Hr as [Hf Hun].
  unfold claimAdmission, claimed_admission_result. wp_steps; try done; intros res [= <-].
  - match goal with Hx : ma_ClaimedMemberID ?x = Some ?m, Ha : dom_admissions d !! ?i = Some ?x,
      Hy : ?m = _ ∧ _ |- _ => rewrite (proj1 Hy) in Hx;
      assert (is_Some (dom_members d !! mac_MemberID claim)) as Hmem
        by exact (cl_claimed _ _ Hf _ _ _ Ha Hx); split;
      [|intros id [_ _ Hs]; symmetry; exact (Hs _ _ Ha Hx)];
      split; [exact Hf|exact Hmem|]; intros id a' Ha' Hc; exact (Hun _ _ _ _ _ Ha' Ha Hc Hx) end.
  - match goal with Ha : dom_admissions d !! ?i = Some ?x, Hn : ¬ is_Some (dom_members d !! _) |- _ =>
      pose proof (cl_admission _ _ Hf _ _ Ha) as Hid; apply eq_None_not_Some in Hn;
      split; [|by intros id [_ [? Hm] _]; congruence]; split end; cbn.
    + rewrite Hid. eapply (cc_claim _ _ claim_facts_closed);
        [eassumption|assumption|done|done|done|done|exact Hf].
    + apply lookup_insert_is_Some. by left.
    + rewrite Hid. intros id a' [[<- <-]|[_ Ha']]%lookup_insert_Some Hc; [done|].
      destruct (cl_claimed _ _ Hf _ _ _ Ha' Hc). congruence.
Qed.
End plain_claims.
