(* ===== verification/RelayRecovery.v ===== *)
(** * internal/relay: recovery, and where the code and its documents part

    Entering the recovery of a subscription, renewing its lease and completing
    it.  Then concrete runs, by evaluation, of behaviour that the code of the
    store has and its comments or documents exclude. *)

From S2P Require Import Prelude GoEncoding Sha256 RelayModel RelayState RelayFence RelayTenant RelayMember RelaySubscription RelayDelivery RelayBlob RelayCheckpoint RelayMachine RelayExample RelayInvariant RelayFenceFacts RelayOperationFacts RelayCheckpointFacts RelayReachable.
#[local] Open Scope Z_scope.

(** ** Forgetting, in closed form *)

Definition forget (id : UUID) (start : uint64) (m : memoryMessage) : memoryMessage :=
  if decide (mm_Sequence m > start)
  then m <| mm_acknowledgments := delete id (mm_acknowledgments m) |> else m.

Lemma forget_heap id start l d r m :
  NoDup l → dom_heap d !! r = Some m →
  dom_heap (foldl (forget_acknowledgment id start) d l) !! r =
    Some (if decide (r ∈ l) then forget id start m else m).
Proof.
  intros Hl. revert d m. induction Hl as [|x l Hx Hl IH]; intros d m Hr; simpl; [done|].
  destruct (decide (x = r)) as [->|Hne].
  - rewrite (decide_True (P := r ∈ r :: l)) by (by left).
    rewrite (IH _ (forget id start m)); [by rewrite decide_False by done|].
    unfold forget_acknowledgment, forget. rewrite Hr. destruct (decide (mm_Sequence m > start)).
    + unfold put_message. cbn. by rewrite lookup_insert_eq.
    + exact Hr.
  - rewrite (IH _ m).
    + f_equal. destruct (decide (r ∈ l)).
      * by rewrite decide_True by (by right).
      * rewrite decide_False; [done|]. by intros [?|?]%elem_of_cons.
    + unfold forget_acknowledgment. destruct (dom_heap d !! x) as [y|]; [|exact Hr].
      destruct (decide (mm_Sequence y > start)); [|exact Hr].
      unfold put_message. cbn. rewrite lookup_insert_ne by done. exact Hr.
Qed.

(** The stored messages after forgetting. *)
Lemma forget_stored n id start d :
  WellFormed n d → stored (forget_acknowledgments id start d) = forget id start <$> stored d.
Proof.
  intros Hd. destruct (forget_acknowledgments_frame id start d) as [heap Hh].
  assert (∀ r m, r ∈ dom_messages d → dom_heap d !! r = Some m →
    dom_heap (forget_acknowledgments id start d) !! r = Some (forget id start m)) as Hlk.
  { intros r m Hr Hm. unfold forget_acknowledgments.
    rewrite (forget_heap id start _ d r m (messages_nodup n d Hd) Hm).
    by rewrite decide_True. }
  assert (∀ r, r ∈ dom_messages d → is_Some (dom_heap d !! r)) as Hrefs.
  { intros r Hr. destruct (mf_refs _ _ _ _ _ _ _ (wf_messages _ _ Hd) r Hr)
      as [m' (m & Hm & _)%lookup_shapes]. by exists m. }
  unfold stored, deref.
  assert (dom_messages (forget_acknowledgments id start d) = dom_messages d) as ->
    by (rewrite Hh; reflexivity).
  induction (dom_messages d) as [|r l IH]; [done|]. simpl.
  destruct (Hrefs r) as [m Hm]; [by left|].
  rewrite Hm, (Hlk r m) by (done || by left). simpl. f_equal. apply IH.
  - intros r' m' Hr'. apply Hlk. by right.
  - intros r' Hr'. apply Hrefs. by right.
Qed.

(** ** Entering recovery *)

Section recovery.
Context `{UuidLib}.

Lemma rewound n d id start sub :
  WellFormed n d →
  let e := put_subscription id sub (forget_acknowledgments id start d) in
  stored e = forget id start <$> stored d ∧
  (∀ k, dom_subscriptions e !! k = if decide (k = id) then Some sub else dom_subscriptions d !! k) ∧
  (∀ m k, mm_acknowledgments (forget id start m) !! k =
     if decide (k = id ∧ mm_Sequence m > start) then None else mm_acknowledgments m !! k).
Proof.
  intros Hd e. split_and!.
  - exact (forget_stored n id start d Hd).
  - intros k. unfold e, put_subscription. cbn.
    destruct (forget_acknowledgments_frame id start d) as [heap ->]. cbn.
    case_decide as Hk; [by rewrite Hk, lookup_insert_eq|by rewrite lookup_insert_ne].
  - intros m k. unfold forget. destruct (decide (mm_Sequence m > start)) as [Hs|Hs].
    + cbn. destruct (decide (k = id)) as [->|Hk].
      * by rewrite decide_True, lookup_delete_eq.
      * rewrite decide_False by tauto. by rewrite lookup_delete_ne.
    + by rewrite decide_False by tauto.
Qed.

(** The store of a request, for the subscription as it was read or with the
    new status. *)
Lemma rewound_request n credential request d sub sub0 c requests stamp :
  let id := sub_SubscriptionID sub in let start := mc_startSequence c in
  let d' := (put_subscription id
    (sub0 <| sub_StartCursor := Some (EncodeCursor start) |> <| sub_UpdatedAtMilliseconds := stamp |>)
    (forget_acknowledgments id start d)) <| dom_rebootstrapRequests := requests |> in
  WellFormed n d → readableMemberSubscription d (cred_MemberID credential) = inr sub →
  dom_checkpoints d !! srr_CheckpointID request = Some c →
  ¬ (mc_state c ≠ activated ∨ ¬ checkpointRetainsMessage c (srr_RootMessageID request)) →
  ¬ (latest_activated d ≠ Some (srr_CheckpointID request)) →
  sub_Status sub0 = SubscriptionRebootstrapRequired →
  ∃ sub c, readableMemberSubscription d (cred_MemberID credential) = inr sub ∧
    latest_checkpoint d = Some c ∧ latest_activated d = Some (srr_CheckpointID request) ∧
    srr_RootMessageID request ∈ cc_RetainedMessageIDs (mc_candidate c) ∧
    let id := sub_SubscriptionID sub in let start := mc_startSequence c in
    stored d' = forget id start <$> stored d ∧
    (∃ sub', dom_subscriptions d' !! id = Some sub' ∧
       sub_Status sub' = SubscriptionRebootstrapRequired ∧
       sub_StartCursor sub' = Some (EncodeCursor start)) ∧
    (∀ k, k ≠ id → dom_subscriptions d' !! k = dom_subscriptions d !! k) ∧
    (∀ m k, mm_acknowledgments (forget id start m) !! k =
       if decide (k = id ∧ mm_Sequence m > start) then None else mm_acknowledgments m !! k).
Proof.
  intros id start d' Hd Hsub Hc Hret Hl%dec_stable Hst. exists sub, c.
  destruct (rewound n d id start (sub0 <| sub_StartCursor := Some (EncodeCursor start) |>
    <| sub_UpdatedAtMilliseconds := stamp |>) Hd) as (Hstored & Hsubs & Hack).
  split; [done|]. split; [by apply bind_Some; exists (srr_CheckpointID request)|].
  split; [done|]. split; [apply dec_stable; intros Hx; apply Hret; by right|].
  split; [exact Hstored|]. split; [|split; [|exact Hack]].
  - eexists. split; [etrans; [apply Hsubs|by rewrite decide_True]|done].
  - intros k Hk. etrans; [apply Hsubs|by rewrite decide_False].
Qed.

(** [C13] Entering recovery rewinds exactly one subscription.  An accepted
    request names the latest activated checkpoint, which retains the named
    root message; the subscription then awaits rebootstrap from that
    checkpoint's start cursor; it has forgotten its acknowledgments of every
    stored message past the cursor and kept those up to it; no other
    subscription's acknowledgment and no other subscription changed. *)
Theorem recovery_rewinds n credential request expires now d d' res :
  WellFormed n d → dom_rebootstrapRequests d !! srr_RetryID request = None →
  requestSubscriptionRebootstrap credential request expires now d = (d', inr res) →
  ∃ sub c, readableMemberSubscription d (cred_MemberID credential) = inr sub ∧
    latest_checkpoint d = Some c ∧ latest_activated d = Some (srr_CheckpointID request) ∧
    srr_RootMessageID request ∈ cc_RetainedMessageIDs (mc_candidate c) ∧
    let id := sub_SubscriptionID sub in let start := mc_startSequence c in
    stored d' = forget id start <$> stored d ∧
    (∃ sub', dom_subscriptions d' !! id = Some sub' ∧
       sub_Status sub' = SubscriptionRebootstrapRequired ∧
       sub_StartCursor sub' = Some (EncodeCursor start)) ∧
    (∀ k, k ≠ id → dom_subscriptions d' !! k = dom_subscriptions d !! k) ∧
    (∀ m k, mm_acknowledgments (forget id start m) !! k =
       if decide (k = id ∧ mm_Sequence m > start) then None else mm_acknowledgments m !! k).
Proof.
  intros Hd Hnew Hrun.
  refine (wp_elim _ (fun d' r => ∀ res, r = inr res → _) _ _ _ _ Hrun res eq_refl).
  clear Hrun d' res. unfold requestSubscriptionRebootstrap, enter_recovery.
  wp_steps; try (intros ? [=]; done).
  all: intros res [= <-]; match goal with Hs : readableMemberSubscription _ _ = inr ?s |- _ =>
    eapply (rewound_request _ _ _ _ s); try eassumption; try done end.
Qed.

(** A lease only grows, and only while it is live.  An accepted renewal
    presents the lease it extends; the request is still live then (not
    expired, cancelled or completed); afterwards the same request has the
    later of the two expiry times, reported as such, and no other request
    and no subscription changed. *)
Theorem renewal_extends credential renewal candidate now d d' res :
  dom_rebootstrapRenewals d !! srn_RetryID renewal = None →
  renewSubscriptionRebootstrap credential renewal candidate now d = (d', inr res) →
  ∃ recovery,
    dom_rebootstrapRequests d !! srn_RequestRetryID renewal = Some recovery ∧
    memoryRebootstrapRequestIsActive d (srn_RequestRetryID renewal) recovery now ∧
    msr_expiresAtMilliseconds recovery = srn_ExpectedLeaseExpiresAtMilliseconds renewal ∧
    snr_LeaseExpiresAtMilliseconds res = Z.max candidate (msr_expiresAtMilliseconds recovery) ∧
    dom_rebootstrapRequests d' !! srn_RequestRetryID renewal =
      Some (recovery <| msr_expiresAtMilliseconds := snr_LeaseExpiresAtMilliseconds res |>) ∧
    (∀ k, k ≠ srn_RequestRetryID renewal →
       dom_rebootstrapRequests d' !! k = dom_rebootstrapRequests d !! k) ∧
    dom_subscriptions d' = dom_subscriptions d.
Proof.
  intros Hnew Hrun. refine (wp_elim _ (fun d' r => ∀ res, r = inr res → _) _ _ _ _ Hrun res eq_refl).
  clear Hrun d' res. unfold renewSubscriptionRebootstrap.
  wp_steps; try (intros ? [=]; done); intros res [= <-].
  - match goal with Hr : dom_rebootstrapRequests d !! _ = Some ?r |- _ => exists r end.
    split_and!; try done.
    + by apply dec_stable.
    + by apply dec_stable.
    + cbn. case_decide; cbn; lia.
    + cbn. case_decide; [|done]. cbn. by rewrite lookup_insert_eq.
    + intros k Hk. cbn. by rewrite lookup_insert_ne.
  - match goal with Hr : dom_rebootstrapRequests d !! _ = Some ?r |- _ => exists r; rename r into r0 end.
    split_and!; try done.
    + by apply dec_stable.
    + by apply dec_stable.
    + cbn. case_decide; cbn; lia.
    + cbn. case_decide; [done|]. destruct r0. done.
Qed.

(** What a recorded completion settles. *)
Lemma recorded_completion d id retryID c recovery sub :
  let d' := (put_subscription id sub d) <| dom_rebootstrapCompletions :=
    <[retryID := c]> (dom_rebootstrapCompletions d) |> in
  mso_subscriptionID c = id → msr_subscriptionID recovery = id →
  dom_subscriptions d' !! id = Some sub ∧
  (∀ now, ¬ memoryRebootstrapRequestIsActive d' (sco_RequestRetryID (mso_request c)) recovery now) ∧
  (∀ sequence, sequence ≤ mso_recoveryStartSequence c →
     memoryRebootstrapCompletionCovers d' id sequence).
Proof.
  intros d' Hc Hr. split; [|split].
  - unfold d', put_subscription. cbn. by rewrite lookup_insert_eq.
  - intros now (_ & _ & Hx). apply Hx. unfold completed. rewrite map_any_spec.
    exists retryID, c. split; [|by rewrite Hr]. unfold d'. cbn. by rewrite lookup_insert_eq.
  - intros sequence Hs. unfold memoryRebootstrapCompletionCovers. rewrite map_any_spec.
    exists retryID, c. split; [|split; [exact Hc|lia]]. unfold d'. cbn. by rewrite lookup_insert_eq.
Qed.

(** [C11] Completing a recovery needs the applied tail it names.  An accepted
    completion belongs to a live request for the same checkpoint and root;
    every visible stored message after the start cursor and up to the named
    cursor carries the subscription's applied acknowledgment; afterwards the
    subscription is active without a start cursor, the request is not live
    at any time, and the completion counts as custody of everything up to
    the start cursor. *)
Theorem completion_requires_applied n credential completion through now d d' res :
  WellFormed n d → dom_rebootstrapCompletions d !! sco_RetryID completion = None →
  completeSubscriptionRebootstrap credential completion through now d = (d', inr res) →
  let e := refreshMemoryFence now d in
  ∃ sub recovery cursor start,
    readableMemberSubscription e (cred_MemberID credential) = inr sub ∧
    let id := sub_SubscriptionID sub in
    sub_Status sub = SubscriptionRebootstrapRequired ∧ sub_StartCursor sub = Some cursor ∧
    DecodeCursor cursor = inr start ∧ start ≤ through ≤ dom_nextSequence e ∧
    dom_rebootstrapRequests e !! sco_RequestRetryID completion = Some recovery ∧
    memoryRebootstrapRequestIsActive e (sco_RequestRetryID completion) recovery now ∧
    recovery_matches recovery id (sco_CheckpointID completion) (sco_RootMessageID completion) ∧
    (∀ m, m ∈ stored e → start < mm_Sequence m ≤ through →
       fence_revealed e (mm_checkpointFenceID m) →
       mm_acknowledgments m !! id = Some AcknowledgmentApplied) ∧
    (∃ sub', dom_subscriptions d' !! id = Some sub' ∧ sub_Status sub' = SubscriptionActive ∧
       sub_StartCursor sub' = None) ∧
    (∀ now', ¬ memoryRebootstrapRequestIsActive d' (sco_RequestRetryID completion) recovery now') ∧
    (∀ sequence, sequence ≤ start → memoryRebootstrapCompletionCovers d' id sequence).
Proof.
  intros Hd Hnew Hrun e. pose proof (sh_rest _ _ (refresh_shrinks n now d Hd)) as Hrest.
  assert (dom_rebootstrapCompletions e = dom_rebootstrapCompletions d) as Hcompl
    by exact (f_equal dom_rebootstrapCompletions Hrest). clear Hrest.
  refine (wp_elim _ (fun d' r => ∀ res, r = inr res → _) _ _ _ _ Hrun res eq_refl).
  clear Hrun d' res. unfold completeSubscriptionRebootstrap.
  wp_steps; try (intros ? [=]; done).
  { fold e in Heqo. rewrite Hcompl in Heqo. congruence. }
  fold e. intros res [= <-].
  match goal with Hs : readableMemberSubscription _ _ = inr ?s, Hc : sub_StartCursor ?s = Some ?c,
    Hr : dom_rebootstrapRequests _ !! _ = Some ?r, Hm : ¬ ¬ recovery_matches ?r _ _ _,
    Ha : ¬ ¬ memoryRebootstrapRequestIsActive _ _ _ _, Hq : DecodeCursor ?c = inr ?q,
    Hb : ¬ (_ < _ ∨ _), Ht : ¬ Exists _ _ |- _ =>
    apply dec_stable in Hm, Ha; exists s, r, c, q; rename Ht into Htail, Hm into Hmatch, Hb into Hbounds;
    destruct (recorded_completion e (sub_SubscriptionID s) (sco_RetryID completion)
      (mkMemorySubscriptionRebootstrapCompletion (sub_SubscriptionID s) q completion
        (s <| sub_Status := SubscriptionActive |> <| sub_StartCursor := None |>
           <| sub_UpdatedAtMilliseconds := now |>)) r
      (s <| sub_Status := SubscriptionActive |> <| sub_StartCursor := None |>
         <| sub_UpdatedAtMilliseconds := now |>)) as (Hsub & Hinactive & Hcovers);
    [reflexivity|apply dec_stable; intros Hx; apply Hmatch; by left|] end.
  split_and!; try done; try lia; try (by apply dec_stable).
  - apply Z.le_ngt. intros Hlt. apply Hbounds. right. by apply Z.lt_gt.
  - intros m Hm Hs Hf. destruct (mm_acknowledgments m !! _) as [stage|] eqn:Hack.
    + f_equal. apply dec_stable. intros Hx. apply Htail, Exists_exists. exists m.
      split; [done|]. split; [lia|]. split; [done|]. by rewrite Hack.
    + exfalso. apply Htail, Exists_exists. exists m.
      split; [done|]. split; [lia|]. split; [done|]. by rewrite Hack.
  - eexists. split; [exact Hsub|done].
Qed.
End recovery.

(** ** The recovery of the second subscription *)

Lemma rooted_wf : WellFormed 8 (domain_after rooted).
Proof. apply (domain_after_wf rooted). vm_compute. discriminate. Qed.

Lemma caught_up_wf : WellFormed 11 (domain_after caught_up).
Proof. apply (domain_after_wf caught_up). vm_compute. discriminate. Qed.

Lemma recovery_rewinds_witness :
  latest_activated (domain_after rooted) = Some 44%N.
Proof.
  assert (∃ res, (requestSubscriptionRebootstrap bob example_recovery 302000 2000
    (domain_after rooted)).2 = inr res) as [res Hrun] by (eexists; vm_compute; reflexivity).
  destruct (recovery_rewinds 8 bob example_recovery 302000 2000 (domain_after rooted)
    (requestSubscriptionRebootstrap bob example_recovery 302000 2000 (domain_after rooted)).1 res)
    as (sub & c & _ & _ & Hlatest & _).
  - exact rooted_wf.
  - vm_compute. reflexivity.
  - exact (ran _ _ _ Hrun).
  - exact Hlatest.
Defined.

Lemma renewal_extends_witness :
  dom_subscriptions
    (renewSubscriptionRebootstrap bob example_renewal 603000 3000 (domain_after recovering)).1 =
  dom_subscriptions (domain_after recovering).
Proof.
  assert (∃ res, (renewSubscriptionRebootstrap bob example_renewal 603000 3000
    (domain_after recovering)).2 = inr res) as [res Hrun] by (eexists; vm_compute; reflexivity).
  destruct (renewal_extends bob example_renewal 603000 3000 (domain_after recovering)
    (renewSubscriptionRebootstrap bob example_renewal 603000 3000 (domain_after recovering)).1 res)
    as (r & _ & _ & _ & _ & _ & _ & Hsubs).
  - vm_compute. reflexivity.
  - exact (ran _ _ _ Hrun).
  - exact Hsubs.
Defined.

Lemma completion_requires_applied_witness :
  ∃ sub, readableMemberSubscription (refreshMemoryFence 4000 (domain_after caught_up)) 12%N =
    inr sub ∧ sub_Status sub = SubscriptionRebootstrapRequired.
Proof.
  assert (∃ res, (completeSubscriptionRebootstrap bob example_completion 2 4000
    (domain_after caught_up)).2 = inr res) as [res Hrun] by (eexists; vm_compute; reflexivity).
  destruct (completion_requires_applied 11 bob example_completion 2 4000 (domain_after caught_up)
    (completeSubscriptionRebootstrap bob example_completion 2 4000 (domain_after caught_up)).1 res)
    as (sub & r & cursor & start & Hsub & Hstatus & _).
  - exact caught_up_wf.
  - vm_compute. reflexivity.
  - exact (ran _ _ _ Hrun).
  - exists sub. split; [exact Hsub|exact Hstatus].
Defined.

(** ** Uploads *)

Definition blob_of (n : Z) : string := BlobID (be_bytes 3 n).

(** One upload of 900 bytes: created, filled by one chunk, finalized. *)
Definition create_upload : Op :=
  OpCreateBlobUpload alice (mkBlobUploadRequest 71%N 72%N (blob_of 5) 900 1000) 1000.
Definition fill_upload : Op :=
  OpAppendBlobUploadChunk alice
    (mkBlobUploadChunkRequest 72%N 0 900 (hex_EncodeToString (be_bytes 32 1))) 1001
    (Some (fun _ => None)).
Definition finalize_upload (retryID : UUID) : Op :=
  OpFinalizeBlobUpload alice
    (mkBlobUploadFinalizationRequest retryID 72%N (blob_of 5) 900 1002) 1002
    (Some (fun _ => None)).

Definition reserved (d : memoryDomain) : int64 * int64 :=
  (dom_reservedBlobCount d, dom_reservedBlobBytes d).

(** Finalizing a finalized upload under a new retry identifier is accepted and
    returns the reservation a second time: the counters go negative. *)
Theorem finalized_twice :
  reserved (domain_after [create_upload; fill_upload; finalize_upload 73%N]) = (0, 0) ∧
  reserved (domain_after [create_upload; fill_upload; finalize_upload 73%N; finalize_upload 74%N]) =
    (-1, -900).
Proof. split; vm_compute; reflexivity. Qed.

(** A direct publication does not see what uploads have reserved: a reserved
    upload and a commit that does not fit beside it both succeed, and the
    domain exceeds its blob-byte quota. *)
Theorem reservation_ignored :
  dr_MaximumBlobByteCount (dom_registration domain0) = 1000 ∧
  dom_blobBytes (domain_after
    [create_upload; OpCommitBlobPublish alice (blob_of 6) 900 1000; fill_upload;
     finalize_upload 73%N]) = 1800.
Proof. split; vm_compute; reflexivity. Qed.

(** ** Checkpoints *)

(** Custody of one acknowledged message needs no applied acknowledgment: after
    [stage_one] it is only accepted, and the collection plan is eligible. *)
Theorem accepted_is_custody :
  mm_acknowledgments <$> stored activated_domain = [{[ 22%N := AcknowledgmentAccepted ]}] ∧
  (match memoryCheckpointPlan activated_domain 44%N with
   | inr plan => (cdr_MessageCount plan, cdr_Eligible plan)
   | inl _ => (0, false)
   end) = (1, true).
Proof. split; vm_compute; reflexivity. Qed.

(** Two checkpoints staged before the first is collected: the second retains a
    blob that the first one's collection deletes, and is activated all the
    same. *)
Definition collect_first (d : memoryDomain) : Op :=
  OpCollectCheckpoint admin_credential
    (mkCheckpointCollectionRequest 55%N 44%N (plan_digest d 44%N) 10 10 1012).

Definition two_staged : list Op :=
  [ OpCommitBlobPublish alice (blob_of 5) 10 900;
    OpCreateCheckpointFence alice (mkCheckpointFenceRequest 41%N 42%N 1000) 1000;
    OpStageCheckpoint alice (example_candidate 43%N 44%N 42%N (EncodeCursor 0) [] 1001) 1001;
    OpActivateCheckpoint admin_credential (mkCheckpointActivationRequest 45%N 44%N 1002) 1002;
    OpCreateCheckpointFence alice (mkCheckpointFenceRequest 51%N 52%N 1010) 1010;
    OpStageCheckpoint alice
      (example_candidate 53%N 54%N 52%N (EncodeCursor 0) [blob_of 5] 1011) 1011 ].

Definition retained_blob_lost : memoryDomain :=
  domain_after (two_staged ++
    [ collect_first (domain_after two_staged);
      OpActivateCheckpoint admin_credential (mkCheckpointActivationRequest 56%N 54%N 1013) 1013 ]).

Theorem activated_without_its_blob :
  latest_activated retained_blob_lost = Some 54%N ∧
  ((fun c => cc_RetainedBlobIDs (mc_candidate c)) <$> latest_checkpoint retained_blob_lost) =
    Some [blob_of 5] ∧
  dom_blobs retained_blob_lost !! blob_of 5 = None.
Proof. split_and!; vm_compute; reflexivity. Qed.

(** ** Recovery *)

(** A recovery may be completed up to its own start cursor: the visible root
    message behind it has no acknowledgment of the subscription at all. *)
Theorem completed_without_tail :
  (match (completeSubscriptionRebootstrap bob
            (mkSubscriptionRebootstrapCompletion 63%N 61%N 44%N 102%N (EncodeCursor 1) 4000) 1 4000
            (domain_after recovering)).2 with
   | inr res => Some (sub_Status (sre_Subscription res))
   | inl _ => None
   end) = Some SubscriptionActive ∧
  (fun m => (mm_Sequence m, mm_acknowledgments m !! 22%N)) <$> stored (domain_after recovering) =
    [(1, None); (2, None)].
Proof. split; vm_compute; reflexivity. Qed.
