(* ===== verification/Carriage.v ===== *)
(** * internal/carriage: framed sections and resumable transfer

    A frame is one section kind, a header and a payload.  A [Driver] moves the
    bytes of a [Source] into a [Sink], one chunk at a time, trusting only the
    sink's confirmed offset.  Sources, sinks, the context, the clock and the
    trace callback are the caller's: here they are operations on a world
    [W], passed as records of functions. *)

From S2P Require Import Prelude GoEncoding Sha256.
#[local] Open Scope Z_scope.

(** ** Failures (transfer.go) *)

Abbreviation Code := string (only parsing).
Abbreviation Phase := string (only parsing).

Definition InvalidDescriptor : Code := "CAR-DESCRIPTOR".
Definition InvalidFrame : Code := "CAR-FRAME".
Definition Capacity : Code := "CAR-CAPACITY".
Definition InvalidProgress : Code := "CAR-PROGRESS".
Definition SourceChanged : Code := "CAR-SOURCE".
Definition TransportInterrupted : Code := "CAR-IO".

Definition DescriptorPhase : Phase := "descriptor".
Definition FramePhase : Phase := "frame".
Definition SourceReadPhase : Phase := "sourceRead".
Definition ProgressPhase : Phase := "confirmedProgress".
Definition AppendPhase : Phase := "append".
Definition CommitPhase : Phase := "commit".

(** An [error]: this package's [Failure], one of the two context errors, or an
    adapter's own error with whatever it wraps. *)
Inductive CarError : Type :=
  | Failure (code : Code) (phase : Phase) (cause : option CarError)
  | Canceled
  | DeadlineExceeded
  | AdapterError (text : string) (wrapped : list CarError).

Definition failure (code : Code) (phase : Phase) : CarError := Failure code phase None.

(** [errors.As(err, &failure)]: the first [Failure] of the tree. *)
Fixpoint as_failure (err : CarError) : bool :=
  match err with
  | Failure _ _ _ => true
  | AdapterError _ wrapped => existsb as_failure wrapped
  | _ => false
  end.

(** [errors.Is(err, context.Canceled) || errors.Is(err, context.DeadlineExceeded)] *)
Fixpoint is_context_error (err : CarError) : bool :=
  match err with
  | Failure _ _ (Some cause) => is_context_error cause
  | Failure _ _ None => false
  | Canceled | DeadlineExceeded => true
  | AdapterError _ wrapped => existsb is_context_error wrapped
  end.

Definition present (err : CarError) (phase : Phase) : CarError :=
  if as_failure err || is_context_error err then err
  else Failure TransportInterrupted phase (Some err).

Definition Failure_RecoveryGuidance (code : Code) : string :=
  if decide (code = InvalidDescriptor ∨ code = InvalidFrame) then
    "Retry with a supported, intact transfer object."
  else if decide (code = Capacity) then
    "Reduce the transfer section size or use bounded chunks."
  else if decide (code = InvalidProgress) then
    "Reconcile the receiver's confirmed offset before retrying."
  else if decide (code = TransportInterrupted) then
    "Retry using the same transfer identity; progress resumes from the receiver's confirmed offset."
  else "Recreate the transfer from an unchanged immutable source.".

(** ** Frames (frame.go) *)

Definition FixedHeaderBytes : Z := 20.
Definition MaximumHeaderBytes : Z := 16 * 1024.
Definition MaximumPayloadBytes : Z := 8 * 1024 * 1024.

Record Frame := mkFrame {
  fra_SectionKind : ascii;
  fra_Header : bytes;
  fra_Payload : bytes }.

Definition zero_byte : ascii := byte_of 0.
Definition magic : bytes := str "FCAR".

Definition Frame_Encode (f : Frame) : CarError + bytes :=
  if decide (fra_SectionKind f = zero_byte) then inl (failure InvalidFrame FramePhase)
  else if decide (zlen (fra_Header f) > MaximumHeaderBytes ∨
                  zlen (fra_Payload f) > MaximumPayloadBytes)
  then inl (failure Capacity FramePhase)
  else inr (magic ++ [byte_of 1; fra_SectionKind f; zero_byte; zero_byte]
              ++ BigEndian_PutUint32 (zlen (fra_Header f))
              ++ BigEndian_PutUint64 (zlen (fra_Payload f))
              ++ fra_Header f ++ fra_Payload f).

(** [wire[from:to]] and [wire[i]] within bounds. *)
Definition slice (from to : nat) (wire : bytes) : bytes := take (to - from) (drop from wire).
Definition byte_at (wire : bytes) (i : nat) : ascii := nth i wire zero_byte.

Definition DecodeFrame (wire : bytes) : CarError + Frame :=
  if decide (zlen wire < FixedHeaderBytes ∨ slice 0 4 wire ≠ magic ∨
             byte_at wire 4 ≠ byte_of 1 ∨ byte_at wire 5 = zero_byte ∨
             byte_at wire 6 ≠ zero_byte ∨ byte_at wire 7 ≠ zero_byte)
  then inl (failure InvalidFrame FramePhase)
  else
    let headerCount := BigEndian_Uint (slice 8 12 wire) in
    let payloadCount := BigEndian_Uint (slice 12 20 wire) in
    if decide (headerCount > MaximumHeaderBytes ∨ payloadCount > MaximumPayloadBytes)
    then inl (failure Capacity FramePhase)
    else
      let expected := FixedHeaderBytes + headerCount + payloadCount in
      if decide (zlen wire ≠ expected) then inl (failure InvalidFrame FramePhase)
      else
        let start := (20 + Z.to_nat headerCount)%nat in
        inr (mkFrame (byte_at wire 5) (slice 20 start wire) (drop start wire)).

(** ** Descriptors, sources and sinks (transfer.go) *)

Record ObjectDescriptor := mkObjectDescriptor {
  od_ByteCount : uint64;
  od_SHA256 : bytes }.

Definition Describe (data : bytes) : ObjectDescriptor :=
  mkObjectDescriptor (u64 (zlen data)) (Sum256 data).

Definition TraceConfirmed : string := "confirmedProgress".
Definition TraceRead : string := "sourceRead".
Definition TraceAppend : string := "append".
Definition TraceReconcile : string := "reconcile".
Definition TraceCommit : string := "commit".

Record Event := mkEvent {
  ev_Phase : string;
  ev_Elapsed : int64;
  ev_ByteCount : Z }.

(** A call on the world that always returns. *)
Definition Call (W A : Type) : Type := W → W * A.

Record Source (W : Type) := mkSource {
  Source_Descriptor : Call W ObjectDescriptor;
  Source_ReadAt : uint64 → Z → Call W (bytes * option CarError) }.

Record Sink (W : Type) := mkSink {
  Sink_ConfirmedOffset : UUID → ObjectDescriptor → Call W (uint64 * option CarError);
  Sink_Append : UUID → ObjectDescriptor → uint64 → bytes → bytes →
    Call W (uint64 * option CarError);
  Sink_Commit : UUID → ObjectDescriptor → Call W (option CarError) }.

(** [ctx.Err()] and [time.Now()]. *)
Record Environment (W : Type) := mkEnvironment {
  ctx_Err : Call W (option CarError);
  time_Now : W → int64 }.

Arguments mkSource {W} _ _.
Arguments Source_Descriptor {W} _ _.
Arguments Source_ReadAt {W} _ _ _ _.
Arguments mkSink {W} _ _ _.
Arguments Sink_ConfirmedOffset {W} _ _ _ _.
Arguments Sink_Append {W} _ _ _ _ _ _ _.
Arguments Sink_Commit {W} _ _ _ _.
Arguments mkEnvironment {W} _ _.
Arguments ctx_Err {W} _ _.
Arguments time_Now {W} _ _.

Record Driver (W : Type) := mkDriver {
  drv_ChunkBytes : Z;
  drv_Trace : option (Event → W → W) }.
Arguments mkDriver {W} _ _.
Arguments drv_ChunkBytes {W} _.
Arguments drv_Trace {W} _.

Definition NewDriver {W} (chunkBytes : Z) (trace : option (Event → W → W))
    : CarError + Driver W :=
  if decide (chunkBytes < 1 ∨ chunkBytes > MaximumPayloadBytes)
  then inl (failure Capacity SourceReadPhase)
  else inr (mkDriver chunkBytes trace).

(** A source that owns its bytes. *)
Record BytesSource := mkBytesSource {
  bs_bytes : bytes;
  bs_descriptor : ObjectDescriptor }.

Definition NewBytesSource (data : bytes) : BytesSource := mkBytesSource data (Describe data).

Definition BytesSource_ReadAt {W} (env : Environment W) (s : BytesSource) (offset : uint64)
    (maximumBytes : Z) : Call W (bytes * option CarError) := fun w =>
  let '(w, err) := ctx_Err env w in
  match err with
  | Some err => (w, ([], Some err))
  | None =>
    if decide (maximumBytes < 1 ∨ offset > u64 (zlen (bs_bytes s)))
    then (w, ([], Some (failure SourceChanged SourceReadPhase)))
    else
      let remaining := zlen (bs_bytes s) - offset in
      let count := if decide (maximumBytes > remaining) then remaining else maximumBytes in
      (w, (take (Z.to_nat count) (drop (Z.to_nat offset) (bs_bytes s)), None))
  end.

Definition bytes_source {W} (env : Environment W) (s : BytesSource) : Source W :=
  mkSource (fun w => (w, bs_descriptor s)) (BytesSource_ReadAt env s).

(** ** Transfer *)

Section transfer.
Context {W : Type} (env : Environment W) (d : Driver W) (source : Source W) (sink : Sink W)
  (transferID : UUID).

Definition record (phase : string) (started : int64) (count : Z) (w : W) : W :=
  match drv_Trace d with
  | None => w
  | Some trace => trace (mkEvent phase (time_Now env w - started) count) w
  end.

(** The status query after a failed append: [inr] is the confirmed offset
    with which the loop goes on. *)
Definition reconcile (object : ObjectDescriptor) (stop : uint64) (appendErr : CarError)
    : Call W (CarError + uint64) := fun w =>
  let '(w, cancelled) := ctx_Err env w in
  match cancelled with
  | Some err => (w, inl err)
  | None =>
    let started := time_Now env w in
    let '(w, (confirmed, err)) := Sink_ConfirmedOffset sink transferID object w in
    let w := record TraceReconcile started 0 w in
    match err with
    | Some err => (w, inl (present err ProgressPhase))
    | None =>
      if decide (confirmed > od_ByteCount object)
      then (w, inl (failure InvalidProgress ProgressPhase))
      else if decide (confirmed < stop)
      then (w, inl (present appendErr AppendPhase))
      else (w, inr confirmed)
    end
  end.

(** One turn of the loop: the next offset, or the error with which
    [Transfer] returns at the present one. *)
Definition transfer_chunk (object : ObjectDescriptor) (offset : uint64)
    : Call W (CarError + uint64) := fun w =>
  let '(w, cancelled) := ctx_Err env w in
  match cancelled with
  | Some err => (w, inl err)
  | None =>
    let remaining := u64 (od_ByteCount object - offset) in
    let requested := if decide (remaining < drv_ChunkBytes d) then remaining
                     else drv_ChunkBytes d in
    let started := time_Now env w in
    let '(w, (chunk, err)) := Source_ReadAt source offset requested w in
    let w := record TraceRead started (zlen chunk) w in
    match err with
    | Some err => (w, inl (present err SourceReadPhase))
    | None =>
      if decide (zlen chunk = 0 ∨ zlen chunk > requested)
      then (w, inl (failure SourceChanged SourceReadPhase))
      else
        let '(w, cancelled) := ctx_Err env w in
        match cancelled with
        | Some err => (w, inl err)
        | None =>
          let stop := u64 (offset + zlen chunk) in
          let started := time_Now env w in
          let '(w, (confirmed, appendErr)) :=
            Sink_Append sink transferID object offset chunk (Sum256 chunk) w in
          let '(w, outcome) :=
            match appendErr with
            | None => (w, inr confirmed)
            | Some appendErr => reconcile object stop appendErr w
            end in
          match outcome with
          | inl err => (w, inl err)
          | inr confirmed =>
            let w := record TraceAppend started (zlen chunk) w in
            if decide (confirmed < stop ∨ confirmed > od_ByteCount object)
            then (w, inl (failure InvalidProgress AppendPhase))
            else (w, inr confirmed)
          end
        end
    end
  end.

(** The loop, which returns the offset it reached; [None] is lack of fuel. *)
Fixpoint transfer_loop (fuel : nat) (object : ObjectDescriptor) (offset : uint64) (w : W)
    : option (W * (uint64 * option CarError)) :=
  if decide (offset < od_ByteCount object) then
    match fuel with
    | O => None
    | S fuel =>
      let '(w, outcome) := transfer_chunk object offset w in
      match outcome with
      | inl err => Some (w, (offset, Some err))
      | inr confirmed => transfer_loop fuel object confirmed w
      end
    end
  else Some (w, (offset, None)).

(** What follows the loop. *)
Definition transfer_commit (object : ObjectDescriptor) (offset : uint64)
    : Call W (uint64 * option CarError) := fun w =>
  let '(w, cancelled) := ctx_Err env w in
  match cancelled with
  | Some err => (w, (offset, Some err))
  | None =>
    let started := time_Now env w in
    let '(w, err) := Sink_Commit sink transferID object w in
    let w := record TraceCommit started 0 w in
    match err with
    | Some err => (w, (offset, Some (present err CommitPhase)))
    | None => (w, (offset, None))
    end
  end.

Definition Transfer (w : W) : option (W * (uint64 * option CarError)) :=
  if decide (drv_ChunkBytes d < 1 ∨ drv_ChunkBytes d > MaximumPayloadBytes ∨
             transferID = uuid_Nil)
  then Some (w, (0, Some (failure InvalidDescriptor DescriptorPhase)))
  else
    let '(w, object) := Source_Descriptor source w in
    let started := time_Now env w in
    let '(w, (offset, err)) := Sink_ConfirmedOffset sink transferID object w in
    let w := record TraceConfirmed started 0 w in
    match err with
    | Some err => Some (w, (0, Some (present err ProgressPhase)))
    | None =>
      if decide (offset > od_ByteCount object)
      then Some (w, (0, Some (failure InvalidProgress ProgressPhase)))
      else
        match transfer_loop (Z.to_nat (od_ByteCount object - offset)) object offset w with
        | None => None
        | Some (w, (offset, Some err)) => Some (w, (offset, Some err))
        | Some (w, (offset, None)) => Some (transfer_commit object offset w)
        end
    end.
End transfer.
