(* ===== verification/CarriageFacts.v ===== *)
(** * internal/carriage: what frames and transfers guarantee

    Frames have one encoding; a transfer always returns; and through an honest
    source and sink it delivers the object's bytes, whatever replies are lost. *)

From S2P Require Import Prelude GoEncoding Sha256 Carriage.
#[local] Open Scope Z_scope.

(** ** Slices *)

Lemma zlen_be_bytes w n : zlen (be_bytes w n) = Z.of_nat w.
Proof. unfold zlen. by rewrite be_bytes_length. Qed.

Lemma slice_app l1 l2 l3 from to :
  from = length l1 → to = (from + length l2)%nat → slice from to (l1 ++ l2 ++ l3) = l2.
Proof.
  intros -> ->. unfold slice. rewrite drop_app_length.
  replace (length l1 + length l2 - length l1)%nat with (length l2) by lia.
  apply take_app_length.
Qed.

(** A list of at least eight bytes, its first eight named. *)
Lemma eight_bytes (l : bytes) :
  (8 ≤ length l)%nat →
  ∃ a b c d e f g h t, l = a :: b :: c :: d :: e :: f :: g :: h :: t.
Proof.
  intros Hl. do 8 (destruct l as [|? l]; [simpl in Hl; lia|]). do 9 eexists. done.
Qed.

(** The wire form of a frame, before its limits. *)
Definition wire_of (f : Frame) : bytes :=
  magic ++ [byte_of 1; fra_SectionKind f; zero_byte; zero_byte]
    ++ BigEndian_PutUint32 (zlen (fra_Header f)) ++ BigEndian_PutUint64 (zlen (fra_Payload f))
    ++ fra_Header f ++ fra_Payload f.

Definition within_limits (f : Frame) : Prop :=
  fra_SectionKind f ≠ zero_byte ∧ zlen (fra_Header f) ≤ MaximumHeaderBytes ∧
  zlen (fra_Payload f) ≤ MaximumPayloadBytes.

Lemma encode_iff f wire : Frame_Encode f = inr wire ↔ within_limits f ∧ wire = wire_of f.
Proof.
  unfold Frame_Encode, within_limits. case_decide as Hk; [naive_solver|].
  case_decide as Hl.
  - split; [done|]. intros ((_ & ? & ?) & _). lia.
  - split; [intros [= <-]|intros [_ ->]; done]. split; [|done]. split; [done|]. lia.
Qed.

Lemma decode_wire f : within_limits f → DecodeFrame (wire_of f) = inr f.
Proof.
  intros (Hk & Hh & Hp). destruct f as [kind header payload]; cbn in Hk, Hh, Hp.
  assert (zlen (wire_of (mkFrame kind header payload)) = 20 + zlen header + zlen payload) as Hlen.
  { unfold wire_of, BigEndian_PutUint32, BigEndian_PutUint64, zlen. cbn -[be_bytes].
    rewrite !length_app, !be_bytes_length. cbn. lia. }
  assert (zlen header < 256 ^ 4 ∧ zlen payload < 256 ^ 8) as [Hh' Hp'].
  { unfold MaximumHeaderBytes, MaximumPayloadBytes in *. lia. }
  unfold DecodeFrame. rewrite decide_False.
  2: { rewrite Hlen. unfold FixedHeaderBytes, zlen.
    intros [Hx|[Hx|[Hx|[Hx|[Hx|Hx]]]]]; [lia|by apply Hx|by apply Hx|by apply Hk|by apply Hx|by apply Hx]. }
  assert (slice 8 12 (wire_of (mkFrame kind header payload)) = BigEndian_PutUint32 (zlen header))
    as ->.
  { unfold wire_of. rewrite app_assoc. by apply slice_app; [|unfold BigEndian_PutUint32;
      rewrite be_bytes_length]. }
  assert (slice 12 20 (wire_of (mkFrame kind header payload)) = BigEndian_PutUint64 (zlen payload))
    as ->.
  { unfold wire_of. rewrite !app_assoc. rewrite <- (app_assoc _ header payload).
    rewrite <- (app_assoc _ (BigEndian_PutUint64 _)).
    apply slice_app; unfold BigEndian_PutUint32, BigEndian_PutUint64;
      rewrite ?length_app, ?be_bytes_length; done. }
  unfold BigEndian_Uint, BigEndian_PutUint32, BigEndian_PutUint64. rewrite !be_value_bytes.
  rewrite !Z.mod_small by (unfold zlen in *; lia).
  rewrite decide_False by lia. rewrite decide_False by (unfold FixedHeaderBytes; lia).
  f_equal. f_equal.
  - unfold wire_of. rewrite !app_assoc. rewrite <- (app_assoc _ header payload).
    apply slice_app; rewrite ?length_app, ?be_bytes_length; unfold zlen; cbn; lia.
  - unfold wire_of. rewrite !app_assoc. rewrite drop_app_length'; [done|].
    unfold BigEndian_PutUint32, BigEndian_PutUint64.
    rewrite !length_app, !be_bytes_length. unfold zlen. cbn. lia.
Qed.

(** The fixed part of a decodable wire form, and what its counts say. *)
Lemma decode_inv wire f : DecodeFrame wire = inr f → within_limits f ∧ wire = wire_of f.
Proof.
  unfold DecodeFrame. case_decide as Hbad; [done|].
  case_decide as Hcap; [done|]. case_decide as Hlen; [done|].
  intros Hf%(inj inr). subst f.
  assert (20 ≤ length wire)%nat as H20 by (unfold zlen, FixedHeaderBytes in *; lia).
  destruct (eight_bytes wire) as (a & b & c & d & e & kind & g & h & t & ->); [lia|].
  change (slice 8 12 (a :: b :: c :: d :: e :: kind :: g :: h :: t)) with (take 4 t) in *.
  change (slice 12 20 (a :: b :: c :: d :: e :: kind :: g :: h :: t)) with (take 8 (drop 4 t)) in *.
  change (slice 0 4 (a :: b :: c :: d :: e :: kind :: g :: h :: t)) with [a; b; c; d] in *.
  change (byte_at (a :: b :: c :: d :: e :: kind :: g :: h :: t) 4) with e in *.
  change (byte_at (a :: b :: c :: d :: e :: kind :: g :: h :: t) 5) with kind in *.
  change (byte_at (a :: b :: c :: d :: e :: kind :: g :: h :: t) 6) with g in *.
  change (byte_at (a :: b :: c :: d :: e :: kind :: g :: h :: t) 7) with h in *.
  set (hc := BigEndian_Uint (take 4 t)) in *. set (pc := BigEndian_Uint (take 8 (drop 4 t))) in *.
  assert (0 ≤ hc ∧ 0 ≤ pc) as [Hhc Hpc].
  { split; [apply (be_value_range (take 4 t))|apply (be_value_range (take 8 (drop 4 t)))]. }
  assert (length t = 12 + Z.to_nat hc + Z.to_nat pc)%nat as Ht.
  { unfold zlen, FixedHeaderBytes in Hlen. cbn [length] in Hlen. lia. }
  replace (slice 20 (20 + Z.to_nat hc) (a :: b :: c :: d :: e :: kind :: g :: h :: t))
    with (take (Z.to_nat hc) (drop 12 t)) by (unfold slice; f_equal; lia).
  change (drop (20 + Z.to_nat hc) (a :: b :: c :: d :: e :: kind :: g :: h :: t))
    with (drop (12 + Z.to_nat hc) t).
  assert (zlen (take (Z.to_nat hc) (drop 12 t)) = hc) as Hheader.
  { unfold zlen. rewrite length_take, length_drop. lia. }
  assert (zlen (drop (12 + Z.to_nat hc) t) = pc) as Hpayload.
  { unfold zlen. rewrite length_drop. lia. }
  split.
  - unfold within_limits. cbn [fra_Header fra_Payload fra_SectionKind]. rewrite Hheader, Hpayload. split; [|lia].
    intros ->. apply Hbad. tauto.
  - unfold wire_of. cbn [fra_Header fra_Payload fra_SectionKind]. rewrite Hheader, Hpayload.
    assert (BigEndian_PutUint32 hc = take 4 t) as ->.
    { rewrite <- (be_bytes_value (take 4 t)). unfold BigEndian_PutUint32. f_equal.
      rewrite length_take. lia. }
    assert (BigEndian_PutUint64 pc = take 8 (drop 4 t)) as ->.
    { rewrite <- (be_bytes_value (take 8 (drop 4 t))). unfold BigEndian_PutUint64. f_equal.
      rewrite length_take, length_drop. lia. }
    assert ([a; b; c; d] = magic ∧ e = byte_of 1 ∧ g = zero_byte ∧ h = zero_byte)
      as (Habcd & -> & -> & ->).
    { split_and!; apply dec_stable; intros Hx; apply Hbad; tauto. }
    rewrite <- Habcd. cbn [app]. do 8 f_equal.
    rewrite <- (drop_drop t (Z.to_nat hc) 12).
    rewrite (take_drop (Z.to_nat hc) (drop 12 t)).
    change 12%nat with (4 + 8)%nat. rewrite <- (drop_drop t 8 4). by rewrite !take_drop.
Qed.

(** [C33] Frames have exactly one wire form: a frame encodes to some bytes
    exactly when those bytes decode to it, so encoding is injective, decoding
    rejects every other spelling (another version, set flags, trailing bytes,
    a wrong count), and every frame with a section kind and within the limits
    has a wire form. *)
Theorem frame_codec :
  (∀ f wire, Frame_Encode f = inr wire ↔ DecodeFrame wire = inr f) ∧
  (∀ f, (∃ wire, Frame_Encode f = inr wire) ↔
     fra_SectionKind f ≠ zero_byte ∧ zlen (fra_Header f) ≤ MaximumHeaderBytes ∧
     zlen (fra_Payload f) ≤ MaximumPayloadBytes).
Proof.
  split.
  - intros f wire. rewrite encode_iff. split.
    + intros [Hl ->]. by apply decode_wire.
    + apply decode_inv.
  - intros f. setoid_rewrite encode_iff. split; [by intros (? & Hl & _)|]. intros Hl.
    by exists (wire_of f).
Qed.

(** ** Transfers always return *)

(** The numbers that cross the interfaces are [uint64]. *)
Class Uint64 {W} (source : Source W) (sink : Sink W) (transferID : UUID) : Prop := {
  uint64_descriptor w : 0 ≤ od_ByteCount (Source_Descriptor source w).2 < 2 ^ 64;
  uint64_confirmed object w : 0 ≤ (Sink_ConfirmedOffset sink transferID object w).2.1 }.

Section termination.
Context {W : Type} (env : Environment W) (d : Driver W) (source : Source W) (sink : Sink W)
  (transferID : UUID).

(** A turn of the loop that goes on has moved forward, within the object. *)
Lemma chunk_advances object offset w w' c :
  od_ByteCount object < 2 ^ 64 → 0 ≤ offset < od_ByteCount object →
  transfer_chunk env d source sink transferID object offset w = (w', inr c) →
  offset < c ≤ od_ByteCount object.
Proof.
  intros Hb Ho. unfold transfer_chunk.
  destruct (ctx_Err env w) as [w1 [err|]]; [done|].
  rewrite (u64_small (od_ByteCount object - offset)) by lia.
  set (requested := if decide (od_ByteCount object - offset < drv_ChunkBytes d) then _ else _).
  assert (requested ≤ od_ByteCount object - offset) as Hreq
    by (unfold requested; case_decide; lia).
  destruct (Source_ReadAt source offset requested w1) as [w2 [chunk [err|]]]; [done|].
  case_decide as Hc; [done|].
  destruct (ctx_Err env _) as [w3 [err|]]; [done|].
  assert (0 < zlen chunk) by (unfold zlen in *; lia).
  rewrite (u64_small (offset + zlen chunk)) by lia.
  destruct (Sink_Append sink transferID object offset chunk (Sum256 chunk) w3)
    as [w4 [confirmed appendErr]].
  destruct (match appendErr with Some e => _ | None => _ end) as [w5 [err|confirmed']]; [done|].
  case_decide as Hd; [done|]. intros [= <- <-]. lia.
Qed.

Lemma loop_returns fuel object offset w :
  od_ByteCount object < 2 ^ 64 → 0 ≤ offset ≤ od_ByteCount object →
  od_ByteCount object - offset ≤ Z.of_nat fuel →
  ∃ w' offset' err, transfer_loop env d source sink transferID fuel object offset w =
      Some (w', (offset', err)) ∧
    offset ≤ offset' ≤ od_ByteCount object ∧ (err = None → offset' = od_ByteCount object).
Proof.
  intros Hb. revert offset w. induction fuel as [|fuel IH]; intros offset w Ho Hf; simpl.
  - rewrite decide_False by lia. do 3 eexists. split; [done|]. lia.
  - case_decide as Hlt; [|do 3 eexists; split; [done|]; lia].
    destruct (transfer_chunk env d source sink transferID object offset w) as [w1 [err|c]] eqn:Hc.
    + do 3 eexists. split; [done|]. split; [lia|done].
    + apply chunk_advances in Hc; [|lia..].
      destruct (IH c w1) as (w' & o & err & Hl & Hr & He); [lia..|].
      do 3 eexists. split; [exact Hl|]. split; [lia|done].
Qed.

(** [C32] A transfer always returns, whatever the source, the sink, the
    context and the trace do, as long as the numbers they report are
    [uint64]: no chunk is sent twice in vain and the loop ends within one
    turn per byte.  The offset it returns lies within the object, and
    without an error it is the object's byte count. *)
Theorem transfer_terminates w :
  Uint64 source sink transferID →
  ∃ w' offset err, Transfer env d source sink transferID w = Some (w', (offset, err)) ∧
    0 ≤ offset ≤ od_ByteCount (Source_Descriptor source w).2 ∧
    (err = None → offset = od_ByteCount (Source_Descriptor source w).2).
Proof.
  intros Hu. unfold Transfer. pose proof (uint64_descriptor w) as Hb.
  destruct (Source_Descriptor source w) as [w1 object]; cbn in *.
  case_decide; [do 3 eexists; split; [done|]; split; [lia|done]|].
  pose proof (uint64_confirmed object w1) as Ho.
  destruct (Sink_ConfirmedOffset sink transferID object w1) as [w2 [offset [err|]]]; cbn in *;
    [do 3 eexists; split; [done|]; split; [lia|done]|].
  case_decide; [do 3 eexists; split; [done|]; split; [lia|done]|].
  destruct (loop_returns (Z.to_nat (od_ByteCount object - offset)) object offset
    (record env d TraceConfirmed (time_Now env w1) 0 w2)) as (w3 & o & err & -> & Hr & He); [lia..|].
  destruct err as [err|]; [do 3 eexists; split; [done|]; split; [lia|done]|].
  specialize (He eq_refl). unfold transfer_commit.
  destruct (ctx_Err env w3) as [w4 [err|]]; [do 3 eexists; split; [done|]; split; [lia|done]|].
  destruct (Sink_Commit sink transferID object w4) as [w5 [err|]];
    do 3 eexists; (split; [done|]); split; (lia || done).
Qed.
End termination.

(** ** Honest parties

    What a transfer needs of the outside: a source that serves immutable
    [data], a sink that reports only what it durably holds and appends whole
    chunks or nothing, even when its reply is lost, and an environment whose
    context and trace do not touch what was received. *)

Class Honest {W} (env : Environment W) (d : Driver W) (source : Source W) (sink : Sink W)
    (transferID : UUID) (data : bytes) := {
  received : W → bytes;
  committed : W → Prop;
  honest_context w : received (ctx_Err env w).1 = received w;
  honest_trace trace e w : drv_Trace d = Some trace →
    received (trace e w) = received w ∧ (committed w → committed (trace e w));
  honest_descriptor w :
    (Source_Descriptor source w).2 = Describe data ∧
    received (Source_Descriptor source w).1 = received w;
  honest_read offset n w w' chunk err :
    Source_ReadAt source offset n w = (w', (chunk, err)) →
    received w' = received w ∧
    (err = None → 0 ≤ offset ≤ zlen data → chunk `prefix_of` drop (Z.to_nat offset) data);
  honest_confirmed w w' n err :
    Sink_ConfirmedOffset sink transferID (Describe data) w = (w', (n, err)) →
    received w' = received w ∧ (err = None → n = zlen (received w));
  honest_append chunk w w' n err :
    Sink_Append sink transferID (Describe data) (zlen (received w)) chunk (Sum256 chunk) w =
      (w', (n, err)) →
    (received w' = received w ∨ received w' = received w ++ chunk) ∧
    (err = None → received w' = received w ++ chunk ∧ n = zlen (received w'));
  honest_commit w w' err :
    Sink_Commit sink transferID (Describe data) w = (w', err) →
    received w' = received w ∧ (err = None → committed w') }.

Lemma prefix_extend {A} (l data chunk : list A) :
  l `prefix_of` data → chunk `prefix_of` drop (length l) data → l ++ chunk `prefix_of` data.
Proof.
  intros [k ->]. rewrite drop_app_length. intros [k' ->]. exists k'. by rewrite app_assoc.
Qed.

Lemma prefix_full {A} (l data : list A) :
  l `prefix_of` data → ¬ zlen l < zlen data → l = data.
Proof.
  intros [k ->] Hlt. rewrite zlen_app in Hlt. destruct k as [|x k]; [by rewrite app_nil_r|].
  unfold zlen in Hlt. simpl in Hlt. lia.
Qed.

Section delivery.
Context {W : Type} {env : Environment W} {d : Driver W} {source : Source W} {sink : Sink W}
  {transferID : UUID} {data : bytes} (honest : Honest env d source sink transferID data)
  (Hsize : zlen data < 2 ^ 64).

Lemma record_received phase started n w : received (record env d phase started n w) = received w.
Proof using Type.
  unfold record. destruct (drv_Trace d) as [trace|] eqn:Ht; [|done]. by apply honest_trace.
Qed.

Lemma described : od_ByteCount (Describe data) = zlen data.
Proof using Hsize. unfold Describe. cbn. apply u64_small. unfold zlen in *. lia. Qed.

Lemma reconcile_received stop appendErr w w' r :
  reconcile env d sink transferID (Describe data) stop appendErr w = (w', r) →
  received w' = received w ∧ ∀ c, r = inr c → c = zlen (received w).
Proof using Type.
  unfold reconcile. pose proof (honest_context w) as Hctx.
  destruct (ctx_Err env w) as [w1 [err|]]; cbn in Hctx; [by intros [= <- <-]|].
  destruct (Sink_ConfirmedOffset sink transferID (Describe data) w1) as [w2 [n err]] eqn:Hc.
  apply honest_confirmed in Hc as [Hw2 Hn]. destruct err as [err|].
  { intros [= <- <-]. rewrite record_received. split; [congruence|done]. }
  specialize (Hn eq_refl). repeat case_decide; intros [= <- <-]; rewrite record_received;
    (split; [congruence|]); try done. intros c [= <-]. congruence.
Qed.

Lemma chunk_delivers w w' r :
  received w `prefix_of` data →
  transfer_chunk env d source sink transferID (Describe data) (zlen (received w)) w = (w', r) →
  received w `prefix_of` received w' ∧ received w' `prefix_of` data ∧
  ∀ c, r = inr c → c = zlen (received w').
Proof using Type.
  intros Hp. unfold transfer_chunk. pose proof (honest_context w) as Hctx.
  assert (∀ w'', received w'' = received w →
    received w `prefix_of` received w'' ∧ received w'' `prefix_of` data) as Hsame
    by (intros w'' ->; done).
  destruct (ctx_Err env w) as [w1 [err|]]; cbn in Hctx.
  { intros [= <- <-]. split_and!; [..|done]; by apply Hsame. }
  destruct (Source_ReadAt source _ _ w1) as [w2 [chunk err]] eqn:Hr.
  apply honest_read in Hr as [Hw2 Hchunk]. destruct err as [err|].
  { intros [= <- <-]. rewrite record_received. split_and!; [..|done]; apply Hsame; congruence. }
  specialize (Hchunk eq_refl). assert (chunk `prefix_of` drop (length (received w)) data) as Hpre.
  { unfold zlen in Hchunk. rewrite Nat2Z.id in Hchunk. apply Hchunk.
    apply prefix_length in Hp. lia. }
  case_decide as Hc.
  { intros [= <- <-]. rewrite record_received. split_and!; [..|done]; apply Hsame; congruence. }
  set (w2' := record _ _ _ _ _ w2). assert (received w2' = received w) as Hw2'.
  { unfold w2'. rewrite record_received. congruence. }
  pose proof (honest_context w2') as Hctx'.
  destruct (ctx_Err env w2') as [w3 [err|]]; cbn in Hctx'.
  { intros [= <- <-]. split_and!; [..|done]; apply Hsame; congruence. }
  assert (received w3 = received w) as Hw3 by congruence.
  destruct (Sink_Append sink transferID _ _ chunk (Sum256 chunk) w3) as [w4 [n appendErr]] eqn:Ha.
  rewrite <- Hw3 in Ha. apply honest_append in Ha as [Hw4 Hn]. rewrite Hw3 in Hw4, Hn.
  assert (received w `prefix_of` received w4 ∧ received w4 `prefix_of` data) as Hsame4.
  { destruct Hw4 as [->| ->]; [done|]. split; [by apply prefix_app_r|by apply prefix_extend]. }
  assert (∀ w5 o, (match appendErr with
                   | None => (w4, inr n)
                   | Some e => reconcile env d sink transferID (Describe data)
                       (u64 (zlen (received w) + zlen chunk)) e w4
                   end) = (w5, o) →
    received w5 = received w4 ∧ ∀ c, o = inr c → c = zlen (received w4)) as Hout.
  { intros w5 o. destruct appendErr as [e|]; [apply reconcile_received|].
    intros [= <- <-]. split; [done|]. intros c [= <-]. by apply Hn. }
  destruct (match appendErr with Some e => _ | None => _ end) as [w5 o].
  destruct (Hout w5 o eq_refl) as [Hw5 Ho]. clear Hout.
  destruct o as [err|c].
  { intros [= <- <-]. rewrite Hw5. by split_and!; [apply Hsame4..|]. }
  destruct (decide (c < _ ∨ c > _)); intros [= <- <-]; rewrite record_received, Hw5; split_and!;
    try apply Hsame4; try done.
Qed.

Lemma loop_delivers fuel w w' o err :
  received w `prefix_of` data →
  transfer_loop env d source sink transferID fuel (Describe data) (zlen (received w)) w =
    Some (w', (o, err)) →
  received w `prefix_of` received w' ∧ received w' `prefix_of` data ∧
  o ≤ zlen (received w') ∧ (err = None → received w' = data ∧ o = zlen data).
Proof using Hsize.
  revert w. induction fuel as [|fuel IH]; intros w Hp; cbn [transfer_loop]; rewrite described.
  - case_decide as Hlt; [done|]. intros [= <- <- <-]. split_and!; [done|done|lia|].
    intros _. by rewrite (prefix_full _ data Hp Hlt).
  - case_decide as Hlt.
    2: { intros [= <- <- <-]. split_and!; [done|done|lia|]. intros _. by rewrite (prefix_full _ data Hp Hlt). }
    destruct (transfer_chunk _ _ _ _ _ _ _ w) as [w1 [e|c]] eqn:Hc;
      apply chunk_delivers in Hc as (H1 & H2 & H3); try done.
    + intros [= <- <- <-]. split_and!; try done.
      apply prefix_length in H1. unfold zlen. lia.
    + rewrite (H3 c eq_refl). intros Hl. apply IH in Hl as (H4 & H5 & H6); [|done].
      split; [by etrans|]. by split.
Qed.

(** [C31] A transfer through honest parties delivers the object and nothing
    else.  Whatever errors, cancellations and lost replies occur on the way,
    what the sink holds only grows and stays a prefix of the source's bytes,
    and the offset returned is at most what it holds, so that a retry
    resumes from there; and when no error is returned the sink holds exactly
    the source's bytes and has committed them. *)
Theorem transfer_delivers w w' offset err :
  received w `prefix_of` data →
  Transfer env d source sink transferID w = Some (w', (offset, err)) →
  received w `prefix_of` received w' ∧ received w' `prefix_of` data ∧
  offset ≤ zlen (received w') ∧
  (err = None → received w' = data ∧ offset = zlen data ∧ committed w').
Proof using Hsize.
  intros Hp. unfold Transfer. case_decide.
  { intros [= <- <- <-]. split_and!; try done. unfold zlen. lia. }
  pose proof (honest_descriptor w) as [Hobj Hw1].
  destruct (Source_Descriptor source w) as [w1 object]; cbn in Hobj, Hw1. subst object.
  destruct (Sink_ConfirmedOffset sink transferID (Describe data) w1) as [w2 [n e]] eqn:Hc.
  apply honest_confirmed in Hc as [Hw2 Hn].
  set (w2' := record _ _ _ _ _ w2). assert (received w2' = received w) as Hw2'.
  { unfold w2'. rewrite record_received. congruence. }
  destruct e as [e|].
  { intros [= <- <- <-]. rewrite Hw2'. split_and!; try done. unfold zlen. lia. }
  rewrite (Hn eq_refl), Hw1, <- Hw2'. clear Hn. rewrite <- Hw2' in Hp.
  case_decide; [intros [= <- <- <-]; split_and!; try done; unfold zlen; lia|].
  destruct (transfer_loop _ _ _ _ _ _ _ _ w2') as [[w3 [o e]]|] eqn:Hl; [|done].
  apply loop_delivers in Hl as (H1 & H2 & H3 & H4); [|done].
  destruct e as [e|]; [by intros [= <- <- <-]|]. destruct (H4 eq_refl) as [Hfull Ho].
  unfold transfer_commit. pose proof (honest_context w3) as Hctx.
  destruct (ctx_Err env w3) as [w4 [e|]]; cbn in Hctx.
  { intros [= <- <- <-]. rewrite Hctx. by split_and!. }
  destruct (Sink_Commit sink transferID (Describe data) w4) as [w5 e] eqn:Hcommit.
  apply honest_commit in Hcommit as [Hw5 He].
  destruct e as [e|]; intros [= <- <- <-]; rewrite record_received, Hw5, Hctx.
  - by split_and!.
  - split_and!; try done. intros _. split_and!; try done. unfold record.
    destruct (drv_Trace d) as [trace|] eqn:Ht; [|by apply He].
    apply (honest_trace trace); [done|by apply He].
Qed.
End delivery.

(** ** Reliable parties

    Nothing fails for good: the context stays open, reads make progress, and
    an append whose reply was lost has still stored its chunk. *)

Class Reliable {W} {env : Environment W} {d : Driver W} {source : Source W} {sink : Sink W}
    {transferID : UUID} {data : bytes} (honest : Honest env d source sink transferID data)
    : Prop := {
  reliable_context w : (ctx_Err env w).2 = None;
  reliable_read offset n w : 0 ≤ offset < zlen data → 1 ≤ n →
    ∃ w' chunk, Source_ReadAt source offset n w = (w', (chunk, None)) ∧ 0 < zlen chunk ≤ n;
  reliable_confirmed w : (Sink_ConfirmedOffset sink transferID (Describe data) w).2.2 = None;
  reliable_append chunk w w' n err :
    Sink_Append sink transferID (Describe data) (zlen (received w)) chunk (Sum256 chunk) w =
      (w', (n, err)) → received w' = received w ++ chunk;
  reliable_commit w : received w = data →
    (Sink_Commit sink transferID (Describe data) w).2 = None }.

Section success.
Context {W : Type} {env : Environment W} {d : Driver W} {source : Source W} {sink : Sink W}
  {transferID : UUID} {data : bytes} (honest : Honest env d source sink transferID data)
  (reliable : Reliable honest) (Hsize : zlen data < 2 ^ 64)
  (Hchunk : 1 ≤ drv_ChunkBytes d ≤ MaximumPayloadBytes).

Lemma reconcile_reliable stop appendErr w :
  stop ≤ zlen (received w) ≤ zlen data →
  ∃ w', reconcile env d sink transferID (Describe data) stop appendErr w =
    (w', inr (zlen (received w))).
Proof using Hsize reliable.
  intros Hs. unfold reconcile. pose proof (honest_context w) as Hctx.
  pose proof (reliable_context w) as Hnone.
  destruct (ctx_Err env w) as [w1 err]; cbn in Hctx, Hnone. subst err.
  pose proof (reliable_confirmed w1) as Hok.
  destruct (Sink_ConfirmedOffset sink transferID (Describe data) w1) as [w2 [n err]] eqn:Hc.
  cbn in Hok. subst err. apply honest_confirmed in Hc as [_ Hn]. specialize (Hn eq_refl).
  rewrite (described Hsize), Hn, Hctx.
  rewrite decide_False by lia. rewrite decide_False by lia. by eexists.
Qed.

Lemma chunk_reliable w :
  received w `prefix_of` data → zlen (received w) < zlen data →
  ∃ w' c, transfer_chunk env d source sink transferID (Describe data) (zlen (received w)) w =
    (w', inr c).
Proof using Hsize reliable Hchunk.
  intros Hp Hlt. unfold transfer_chunk. pose proof (honest_context w) as Hctx.
  pose proof (reliable_context w) as Hnone.
  destruct (ctx_Err env w) as [w1 err]; cbn in Hctx, Hnone. subst err.
  assert (0 ≤ zlen (received w)) by (unfold zlen; lia).
  rewrite (described Hsize), (u64_small (zlen data - _)) by lia.
  set (requested := if decide (_ < _) then _ else _).
  assert (1 ≤ requested ≤ zlen data - zlen (received w)) as Hreq
    by (unfold requested; case_decide; lia).
  destruct (reliable_read (zlen (received w)) requested w1) as (w2 & chunk & Hr & Hl); [lia..|].
  rewrite Hr. apply honest_read in Hr as [Hw2 _].
  rewrite decide_False by lia. set (w2' := record _ _ _ _ _ w2).
  assert (received w2' = received w) as Hw2'.
  { unfold w2'. rewrite record_received. congruence. }
  pose proof (honest_context w2') as Hctx'. pose proof (reliable_context w2') as Hnone'.
  destruct (ctx_Err env w2') as [w3 err]; cbn in Hctx', Hnone'. subst err.
  rewrite (u64_small (_ + zlen chunk)) by lia.
  destruct (Sink_Append sink transferID _ _ chunk (Sum256 chunk) w3) as [w4 [n appendErr]] eqn:Ha.
  rewrite <- Hw2', <- Hctx' in Ha. pose proof Ha as Hstored.
  apply reliable_append in Hstored. apply honest_append in Ha as [_ Hn].
  rewrite Hctx', Hw2' in Hstored.
  assert (zlen (received w4) = zlen (received w) + zlen chunk) as Hw4
    by (rewrite Hstored; apply zlen_app).
  destruct appendErr as [e|].
  - destruct (reconcile_reliable (zlen (received w) + zlen chunk) e w4) as [w5 ->]; [lia|].
    rewrite Hw4. rewrite decide_False by lia. by do 2 eexists.
  - destruct (Hn eq_refl) as [_ ->]. rewrite Hw4. rewrite decide_False by lia. by do 2 eexists.
Qed.

Lemma loop_reliable fuel w :
  received w `prefix_of` data → zlen data - zlen (received w) ≤ Z.of_nat fuel →
  ∃ w', transfer_loop env d source sink transferID fuel (Describe data) (zlen (received w)) w =
    Some (w', (zlen data, None)) ∧ received w' = data.
Proof using Hsize reliable Hchunk.
  revert w. induction fuel as [|fuel IH]; intros w Hp Hf; cbn [transfer_loop];
    rewrite (described Hsize).
  - rewrite decide_False by lia. pose proof (prefix_full _ data Hp) as Heq.
    rewrite Heq by lia. exists w. split; [done|]. apply Heq. lia.
  - case_decide as Hlt.
    + destruct (chunk_reliable w Hp Hlt) as (w1 & c & Hc). rewrite Hc.
      pose proof Hc as (H1 & H2 & H3)%chunk_delivers; [|done].
      assert (zlen (received w) < c).
      { apply chunk_advances in Hc; [lia|rewrite (described Hsize); lia|].
        rewrite (described Hsize). unfold zlen in *. lia. }
      rewrite (H3 c eq_refl) in *. apply IH; [done|lia].
    + pose proof (prefix_full _ data Hp Hlt) as Heq. rewrite Heq. by exists w.
Qed.

(** Nothing more than reliable parties is needed: with a valid chunk
    size and a transfer identifier, a transfer that starts from any prefix
    the sink already holds ends without an error, having delivered and
    committed the whole object, even if every append's reply is lost. *)
Theorem transfer_succeeds w :
  transferID ≠ uuid_Nil → received w `prefix_of` data →
  ∃ w', Transfer env d source sink transferID w = Some (w', (zlen data, None)) ∧
    received w' = data ∧ committed w'.
Proof using Hsize reliable Hchunk.
  intros Hid Hp. unfold Transfer.
  rewrite decide_False by (unfold MaximumPayloadBytes in *; intros [?|[?|?]]; [lia|lia|done]).
  pose proof (honest_descriptor w) as [Hobj Hw1].
  destruct (Source_Descriptor source w) as [w1 object]; cbn in Hobj, Hw1. subst object.
  pose proof (reliable_confirmed w1) as Hok.
  destruct (Sink_ConfirmedOffset sink transferID (Describe data) w1) as [w2 [n err]] eqn:Hc.
  cbn in Hok. subst err. apply honest_confirmed in Hc as [Hw2 Hn].
  set (w2' := record _ _ _ _ _ w2). assert (received w2' = received w) as Hw2'.
  { unfold w2'. rewrite record_received. congruence. }
  rewrite (Hn eq_refl), Hw1, <- Hw2'. rewrite <- Hw2' in Hp. clear Hn.
  pose proof (prefix_length _ _ Hp) as Hlen. rewrite (described Hsize).
  rewrite decide_False by (unfold zlen; lia).
  destruct (loop_reliable (Z.to_nat (zlen data - zlen (received w2'))) w2' Hp) as (w3 & -> & H3);
    [unfold zlen; lia|].
  unfold transfer_commit. pose proof (honest_context w3) as Hctx.
  pose proof (reliable_context w3) as Hnone.
  destruct (ctx_Err env w3) as [w4 err]; cbn in Hctx, Hnone. subst err.
  pose proof (reliable_commit w4) as Hcommit.
  destruct (Sink_Commit sink transferID (Describe data) w4) as [w5 err] eqn:Hdone.
  cbn in Hcommit. rewrite Hcommit by congruence.
  apply honest_commit in Hdone as [Hw5 He]. rewrite Hcommit in He by congruence.
  eexists. split; [done|]. rewrite record_received. split; [congruence|].
  unfold record. destruct (drv_Trace d) as [trace|] eqn:Ht; [|by apply He].
  apply (honest_trace trace); [done|by apply He].
Qed.
End success.

(** ** A sink that loses every other reply *)

Record Wire := mkWire { wire_bytes : bytes; wire_lost : bool; wire_committed : bool }.

Definition calm : Environment Wire := mkEnvironment (fun w => (w, None)) (fun _ => 0).

Definition flaky_append (w : Wire) (offset : uint64) (chunk : bytes)
    : Wire * (uint64 * option CarError) :=
  if decide (offset = zlen (wire_bytes w)) then
    let held := wire_bytes w ++ chunk in
    (mkWire held (negb (wire_lost w)) (wire_committed w),
     if wire_lost w then (0, Some (AdapterError "connection reset" [])) else (zlen held, None))
  else (w, (0, Some (failure InvalidProgress AppendPhase))).

Definition flaky : Sink Wire :=
  mkSink (fun _ _ w => (w, (zlen (wire_bytes w), None)))
    (fun _ _ offset chunk _ w => flaky_append w offset chunk)
    (fun _ object w =>
       if decide (Sum256 (wire_bytes w) = od_SHA256 object)
       then (mkWire (wire_bytes w) (wire_lost w) true, None)
       else (w, Some (failure SourceChanged CommitPhase))).

(** The bytes source meets the source's part in any environment that leaves
    the received bytes alone. *)
Lemma bytes_source_read {W} (env : Environment W) (data : bytes) offset n w w' chunk err :
  zlen data < 2 ^ 64 →
  BytesSource_ReadAt env (NewBytesSource data) offset n w = (w', (chunk, err)) →
  w' = (ctx_Err env w).1 ∧
  (err = None → 0 ≤ offset ≤ zlen data →
     chunk `prefix_of` drop (Z.to_nat offset) data ∧
     (offset < zlen data → 0 < zlen chunk ≤ n)).
Proof.
  intros Hs. unfold BytesSource_ReadAt. destruct (ctx_Err env w) as [w1 [e|]]; [by intros [= <- <- <-]|].
  cbn [bs_bytes NewBytesSource]. rewrite (u64_small (zlen data)) by (unfold zlen in *; lia).
  case_decide as Hb; intros Hx; injection Hx as <- <- <-; (split; [done|]); [done|].
  intros _ Ho. split; [apply prefix_take|]. intros Hlt.
  unfold zlen in *. rewrite length_take, length_drop. case_decide; lia.
Qed.

Definition example_object : bytes := be_bytes 5 77.
Definition example_driver : Driver Wire := mkDriver 2 None.
Definition example_source : Source Wire := bytes_source calm (NewBytesSource example_object).

#[local] Instance example_honest : Honest calm example_driver example_source flaky 9%N example_object.
Proof.
  refine {| received := wire_bytes; committed w := wire_committed w = true |}; try done.
  - intros offset n w w' chunk err Hr. apply bytes_source_read in Hr as [-> Hc]; [|done].
    split; [done|]. intros He Ho. by apply Hc.
  - by intros w w' n err [= <- <- <-].
  - intros chunk w w' n err. cbn. unfold flaky_append. rewrite decide_True by done.
    destruct (wire_lost w); intros [= <- <- <-]; by split; [right|].
  - intros w w' err. unfold flaky. cbn [Sink_Commit]. destruct (decide _).
    + intros Hx. injection Hx as <- <-. by split.
    + intros Hx. injection Hx as <- <-. split; [reflexivity|discriminate].
Defined.

#[local] Instance example_reliable : Reliable example_honest.
Proof.
  split; try done.
  - intros offset n w Ho Hn.
    destruct (BytesSource_ReadAt calm (NewBytesSource example_object) offset n w)
      as [w' [chunk err]] eqn:Hr.
    exists w', chunk. pose proof Hr as [_ Hc]%bytes_source_read; [|done].
    assert (err = None) as ->.
    { revert Hr. unfold BytesSource_ReadAt. cbn [calm ctx_Err].
      rewrite decide_False; [congruence|].
      intros [?|Hx]; [lia|]. cbn [bs_bytes NewBytesSource] in Hx.
      rewrite u64_small in Hx by (unfold zlen; cbn; lia). lia. }
    split; [done|]. apply Hc; [done|lia|lia].
  - intros chunk w w' n err. cbn. unfold flaky_append. rewrite decide_True by done.
    by intros [= <- _].
  - intros w Hw. unfold flaky. cbn [Sink_Commit]. rewrite decide_True; [reflexivity|].
    exact (f_equal Sum256 Hw).
Qed.

#[local] Instance example_uint64 : Uint64 example_source flaky 9%N.
Proof. split; intros; [by vm_compute|cbn; unfold zlen; lia]. Qed.

Lemma transfer_terminates_witness :
  ∃ r, Transfer calm example_driver example_source flaky 9%N (mkWire [] true false) = Some r.
Proof.
  destruct (transfer_terminates calm example_driver example_source flaky 9%N (mkWire [] true false)
    example_uint64) as (w & o & e & Ht & _). by exists (w, (o, e)).
Defined.

Lemma transfer_delivers_witness :
  ∃ w', Transfer calm example_driver example_source flaky 9%N (mkWire [] true false) =
      Some (w', (5, None)) ∧ wire_bytes w' = example_object ∧ wire_committed w' = true.
Proof.
  assert (∃ w', Transfer calm example_driver example_source flaky 9%N (mkWire [] true false) =
    Some (w', (5, None))) as [w' Ht] by (eexists; vm_compute; reflexivity).
  destruct (transfer_delivers example_honest eq_refl (mkWire [] true false) w' 5 None
    (prefix_nil _) Ht) as (_ & _ & _ & Hdone).
  exists w'. split; [exact Ht|]. destruct (Hdone eq_refl) as (Hbytes & _ & Hcommit).
  split; [exact Hbytes|exact Hcommit].
Defined.

Lemma transfer_succeeds_witness :
  ∃ w', Transfer calm example_driver example_source flaky 9%N (mkWire [] true false) =
    Some (w', (5, None)).
Proof.
  assert (1 ≤ drv_ChunkBytes example_driver ≤ MaximumPayloadBytes) as Hchunk by (vm_compute; done).
  destruct (transfer_succeeds example_honest example_reliable eq_refl Hchunk
    (mkWire [] true false)) as (w' & Ht & _).
  - discriminate.
  - apply prefix_nil.
  - exists w'. exact Ht.
Defined.
