(* ===== verification/StorageCapacity.v ===== *)
(** * internal/storagecapacity: admission arithmetic (capacity.go, writer.go)

    The physical-capacity checks, on [int64] with their wrap-around written
    out, and the writer that applies them at every write boundary.  The
    provider of snapshots and the destination are the caller's.

    The theorems: the [int64] checks decide the inequalities over the integers
    that they mean, and the checked writer writes only under headroom. *)

From S2P Require Import Prelude GoEncoding.
#[local] Open Scope Z_scope.

(** An [error] of the package or of a collaborator. *)
Inductive CapacityError : Type :=
  | ErrUnavailable
  | ErrPressure
  | ErrShortWrite
  | ForeignError (text : string).

(** ** Snapshots *)

Record Snapshot := mkSnapshot {
  snap_TotalBytes : int64;
  snap_AvailableBytes : int64 }.

Definition MinimumOperatingReserve : int64 := 2 * 2 ^ 30.
Definition UploadMetadataAllowance : int64 := 64 * 2 ^ 10.
Definition ChunkMetadataAllowance : int64 := 8 * 2 ^ 10.
Definition MutationMetadataAllowance : int64 := 16 * 2 ^ 10.

Definition OperatingReserve (s : Snapshot) : CapacityError + int64 :=
  if decide (snap_TotalBytes s ≤ 0 ∨ snap_AvailableBytes s < 0 ∨
             snap_AvailableBytes s > snap_TotalBytes s)
  then inl ErrUnavailable
  else
    let reserve := Z.quot (snap_TotalBytes s) 10 in
    let reserve := if decide (Z.rem (snap_TotalBytes s) 10 ≠ 0) then i64 (reserve + 1) else reserve in
    inr (Z.max MinimumOperatingReserve reserve).

Definition Check (s : Snapshot) (outstanding additional : int64) : option CapacityError :=
  match OperatingReserve s with
  | inl _ => Some ErrUnavailable
  | inr reserve =>
    if decide (outstanding < 0 ∨ additional < 0) then Some ErrUnavailable
    else if decide (snap_AvailableBytes s < reserve ∨
                    outstanding > i64 (snap_AvailableBytes s - reserve) ∨
                    additional > i64 (i64 (snap_AvailableBytes s - reserve) - outstanding))
    then Some ErrPressure
    else None
  end.

(** ** Reservations *)

Definition UploadReservation (byteCount committedOffset chunkCount : int64)
    : CapacityError + int64 :=
  if decide (byteCount < 0 ∨ committedOffset < 0 ∨ committedOffset > byteCount ∨ chunkCount < 0 ∨
             byteCount > Z.quot (i64 (MaxInt64 - UploadMetadataAllowance)) 2)
  then inl ErrUnavailable
  else
    let base := i64 (i64 (i64 (2 * byteCount) - committedOffset) + UploadMetadataAllowance) in
    if decide (chunkCount > Z.quot (i64 (MaxInt64 - base)) ChunkMetadataAllowance)
    then inl ErrUnavailable
    else inr (i64 (base + i64 (chunkCount * ChunkMetadataAllowance))).

Definition AppendReservation (byteCount : int64) : CapacityError + int64 :=
  let overhead := i64 (ChunkMetadataAllowance + MutationMetadataAllowance) in
  if decide (byteCount ≤ 0 ∨ byteCount > i64 (MaxInt64 - overhead)) then inl ErrUnavailable
  else inr (i64 (byteCount + overhead)).

(** ** The checked writer *)

Definition MaximumWriteBoundary : Z := 2 ^ 20.

(** [Context], [Capacity] and [Destination] on a world [W]; nil is [None]. *)
Record CheckedWriter (W : Type) := mkCheckedWriter {
  cw_Err : option (W → W * option CapacityError);
  cw_Snapshot : option (W → W * (Snapshot * option CapacityError));
  cw_Destination : option (bytes → W → W * (Z * option CapacityError)) }.
Arguments mkCheckedWriter {W} _ _ _.
Arguments cw_Err {W} _.
Arguments cw_Snapshot {W} _.
Arguments cw_Destination {W} _.

Section writer.
Context {W : Type} (Err : W → W * option CapacityError)
  (snapshot : W → W * (Snapshot * option CapacityError))
  (write : bytes → W → W * (Z * option CapacityError)).

(** One turn: what it wrote, and the error with which [Write] returns. *)
Definition write_boundary (data : bytes) (w : W) : W * (Z * option CapacityError) :=
  let '(w, err) := Err w in
  match err with
  | Some err => (w, (0, Some err))
  | None =>
    let count := Z.min (zlen data) MaximumWriteBoundary in
    let '(w, (s, err)) := snapshot w in
    match err with
    | Some err => (w, (0, Some err))
    | None =>
      match Check s 0 count with
      | Some err => (w, (0, Some err))
      | None =>
        let '(w, (n, err)) := write (take (Z.to_nat count) data) w in
        match err with
        | Some err => (w, (n, Some err))
        | None => (w, (n, if decide (n ≠ count) then Some ErrShortWrite else None))
        end
      end
    end
  end.

(** [fuel] bounds the number of turns; [None] is lack of fuel. *)
Fixpoint write_loop (fuel : nat) (data : bytes) (total : Z) (w : W)
    : option (W * (Z * option CapacityError)) :=
  if decide (zlen data > 0) then
    match fuel with
    | O => None
    | S fuel =>
      let '(w, (n, err)) := write_boundary data w in
      match err with
      | Some err => Some (w, (total + n, Some err))
      | None =>
        write_loop fuel (drop (Z.to_nat (Z.min (zlen data) MaximumWriteBoundary)) data)
          (total + n) w
      end
    end
  else Some (w, (total, None)).
End writer.

Definition CheckedWriter_Write {W} (cw : CheckedWriter W) (data : bytes) (w : W)
    : option (W * (Z * option CapacityError)) :=
  match cw_Snapshot cw, cw_Destination cw, cw_Err cw with
  | Some snapshot, Some write, Some Err => write_loop Err snapshot write (length data) data 0 w
  | _, _, _ => Some (w, (0, Some ErrUnavailable))
  end.

Definition in_int64 (x : Z) : Prop := - 2 ^ 63 ≤ x < 2 ^ 63.

(** ** The reserve, in closed form *)

Definition valid_snapshot (s : Snapshot) : Prop :=
  0 < snap_TotalBytes s ∧ 0 ≤ snap_AvailableBytes s ≤ snap_TotalBytes s.

(** A tenth of the pool, rounded up, but at least two GiB. *)
Definition reserve_of (s : Snapshot) : Z :=
  Z.max MinimumOperatingReserve ((snap_TotalBytes s + 9) / 10).

Lemma operating_reserve_exact s r :
  in_int64 (snap_TotalBytes s) →
  OperatingReserve s = inr r ↔ valid_snapshot s ∧ r = reserve_of s.
Proof.
  unfold OperatingReserve, valid_snapshot, reserve_of, in_int64. intros Ht.
  case_decide as Hbad; [split; [done|lia]|].
  assert (Z.quot (snap_TotalBytes s) 10 = snap_TotalBytes s / 10) as ->
    by (apply Z.quot_div_nonneg; lia).
  assert (Z.rem (snap_TotalBytes s) 10 = snap_TotalBytes s mod 10) as ->
    by (apply Z.rem_mod_nonneg; lia).
  pose proof (Z.div_mod (snap_TotalBytes s) 10). pose proof (Z.mod_pos_bound (snap_TotalBytes s) 10).
  assert ((if decide (snap_TotalBytes s mod 10 ≠ 0) then i64 (snap_TotalBytes s / 10 + 1)
           else snap_TotalBytes s / 10) = (snap_TotalBytes s + 9) / 10) as ->.
  { case_decide.
    - rewrite i64_small by lia.
      apply Z.div_unique with (r := (snap_TotalBytes s) mod 10 - 1); lia.
    - apply Z.div_unique with (r := 9); lia. }
  split; [intros [= <-]; split; [lia|done]|by intros [_ ->]].
Qed.

(** [C36] Admission is exact: the [int64] comparisons, with every subtraction
    wrapping, accept a request exactly when the snapshot is a possible one,
    the amounts are not negative, and over the integers the outstanding and
    additional bytes together with the operating reserve fit into what is
    available.  Bad arguments are unavailability, too little room pressure. *)
Theorem capacity_check_exact s outstanding additional :
  in_int64 (snap_TotalBytes s) → in_int64 (snap_AvailableBytes s) →
  in_int64 outstanding → in_int64 additional →
  Check s outstanding additional =
    (if decide (valid_snapshot s ∧ 0 ≤ outstanding ∧ 0 ≤ additional) then
       if decide (outstanding + additional + reserve_of s ≤ snap_AvailableBytes s) then None
       else Some ErrPressure
     else Some ErrUnavailable).
Proof.
  intros Ht Ha Ho Hd. unfold Check. destruct (OperatingReserve s) as [e|r] eqn:Hr.
  - rewrite decide_False; [done|]. intros (Hv & _).
    assert (OperatingReserve s = inr (reserve_of s)) by (by apply operating_reserve_exact). congruence.
  - apply operating_reserve_exact in Hr as [Hv ->]; [|done]. unfold in_int64 in *.
    assert (0 < reserve_of s) as Hpos.
    { unfold reserve_of, MinimumOperatingReserve. lia. }
    case_decide as Hneg; [rewrite decide_False by lia; done|].
    rewrite (decide_True (P := valid_snapshot s ∧ _)) by (split; [done|lia]).
    unfold valid_snapshot in Hv. destruct (decide (snap_AvailableBytes s < reserve_of s)) as [Hlow|Hhigh].
    + rewrite decide_True by (by left). rewrite decide_False by lia. done.
    + rewrite (i64_small (snap_AvailableBytes s - _)) by lia.
      destruct (decide (outstanding > snap_AvailableBytes s - reserve_of s)) as [Hout|Hin].
      * rewrite decide_True by (right; by left). rewrite decide_False by lia. done.
      * rewrite i64_small by lia. repeat case_decide; try done; lia.
Qed.

(** ** Reservations are exact *)

(** What an upload may still take, over the integers. *)
Definition upload_need (byteCount committedOffset chunkCount : Z) : Z :=
  (byteCount - committedOffset) + byteCount + UploadMetadataAllowance +
  chunkCount * ChunkMetadataAllowance.

(** Upload reservations never overflow: a reservation is granted exactly
    for a possible upload (the committed offset within the byte count, no
    negative count) whose doubled size and whose whole need fit in an
    [int64]; it is then the remaining staging bytes, one full publication
    copy, the row allowance and one allowance per chunk, without wrapping. *)
Theorem upload_reservation_exact byteCount committedOffset chunkCount r :
  in_int64 byteCount → in_int64 committedOffset → in_int64 chunkCount →
  UploadReservation byteCount committedOffset chunkCount = inr r ↔
  0 ≤ committedOffset ≤ byteCount ∧ 0 ≤ chunkCount ∧
  2 * byteCount + UploadMetadataAllowance ≤ MaxInt64 ∧
  upload_need byteCount committedOffset chunkCount ≤ MaxInt64 ∧
  r = upload_need byteCount committedOffset chunkCount.
Proof.
  unfold in_int64. intros Hb Hc Hk. unfold UploadReservation.
  assert (UploadMetadataAllowance = 65536 ∧ ChunkMetadataAllowance = 8192) as [HU HC] by done.
  unfold upload_need. rewrite HU, HC. unfold MaxInt64.
  rewrite (i64_small (2 ^ 63 - 1 - 65536)) by lia.
  rewrite (Z.quot_div_nonneg (2 ^ 63 - 1 - 65536) 2) by lia.
  case_decide as Hbad.
  { split; [done|]. intros (? & ? & ? & _). exfalso. 
    assert ((2 ^ 63 - 1 - 65536) / 2 = 4611686018427355135) as Hq by reflexivity.
    rewrite Hq in Hbad. lia. }
  assert ((2 ^ 63 - 1 - 65536) / 2 = 4611686018427355135) as Hq by reflexivity.
  rewrite Hq in Hbad. clear Hq.
  rewrite (i64_small (2 * byteCount)) by lia.
  rewrite (i64_small (2 * byteCount - committedOffset)) by lia.
  rewrite (i64_small (2 * byteCount - committedOffset + 65536)) by lia.
  set (base := 2 * byteCount - committedOffset + 65536).
  assert (0 ≤ base < 2 ^ 63) as Hbase by lia.
  rewrite (i64_small (2 ^ 63 - 1 - base)) by lia.
  rewrite (Z.quot_div_nonneg (2 ^ 63 - 1 - base) 8192) by lia.
  assert (chunkCount ≤ (2 ^ 63 - 1 - base) / 8192 ↔ chunkCount * 8192 ≤ 2 ^ 63 - 1 - base) as Hdiv.
  { split; intros Hle.
    - pose proof (Z.mul_div_le (2 ^ 63 - 1 - base) 8192). lia.
    - apply Z.div_le_lower_bound; lia. }
  case_decide as Hfull.
  - split; [done|]. intros (_ & _ & _ & Hn & _). exfalso.
    assert (¬ chunkCount ≤ (2 ^ 63 - 1 - base) / 8192) as Hx by lia. apply Hx, Hdiv. lia.
  - assert (chunkCount * 8192 ≤ 2 ^ 63 - 1 - base) as Hle by (apply Hdiv; lia).
    rewrite (i64_small (chunkCount * 8192)) by lia.
    rewrite (i64_small (base + _)) by lia.
    split; [intros [= <-]; lia|intros (_ & _ & _ & _ & ->); f_equal; lia].
Qed.

(** ** The checked writer keeps headroom *)

Lemma boundary_progress (data : bytes) :
  zlen data > 0 → (0 < Z.to_nat (Z.min (zlen data) MaximumWriteBoundary) ≤ length data)%nat.
Proof. unfold zlen, MaximumWriteBoundary. lia. Qed.

Section writer.
Context {W : Type} (Err : W → W * option CapacityError)
  (snapshot : W → W * (Snapshot * option CapacityError))
  (write : bytes → W → W * (Z * option CapacityError)).

(** What [io.Writer] documents: between none and all of the bytes, all of
    them without an error. *)
Definition writer_contract : Prop := ∀ data w,
  0 ≤ (write data w).2.1 ≤ zlen data ∧
  ((write data w).2.2 = None → (write data w).2.1 = zlen data).

(** Whatever holds of the world is kept, if the context, the probe, and
    every write that a fresh snapshot admits keep it. *)
Definition admitted_writes_keep (I : W → Prop) : Prop :=
  (∀ w, I w → I (Err w).1) ∧ (∀ w, I w → I (snapshot w).1) ∧
  (∀ w w' s chunk, I w' → snapshot w = (w', (s, None)) → Check s 0 (zlen chunk) = None →
     0 < zlen chunk ≤ MaximumWriteBoundary → I (write chunk w').1).

Lemma boundary_spec I data w :
  zlen data > 0 → writer_contract → admitted_writes_keep I → I w →
  let count := Z.min (zlen data) MaximumWriteBoundary in
  let '(w', (n, err)) := write_boundary Err snapshot write data w in
  I w' ∧ 0 ≤ n ≤ count ∧ (err = None → n = count).
Proof using Type.
  intros Hd Hw (HE & HS & HW) Hi count. unfold write_boundary. fold count.
  assert (0 < count ≤ MaximumWriteBoundary ∧ count ≤ zlen data) as Hcount
    by (unfold count, MaximumWriteBoundary; lia).
  specialize (HE w Hi). destruct (Err w) as [w1 [e|]]; cbn in HE; [split_and!; try done; lia|].
  pose proof (HS w1 HE) as Hw2. destruct (snapshot w1) as [w2 [s [e|]]] eqn:Hs; cbn in Hw2.
  { split_and!; try done; lia. }
  destruct (Check s 0 count) as [e|] eqn:Hc; [split_and!; try done; lia|].
  assert (zlen (take (Z.to_nat count) data) = count) as Hlen.
  { unfold zlen in *. rewrite length_take. lia. }
  pose proof (HW w1 w2 s (take (Z.to_nat count) data) Hw2 Hs) as Hkeep.
  rewrite Hlen in Hkeep. specialize (Hkeep Hc ltac:(lia)).
  pose proof (Hw (take (Z.to_nat count) data) w2) as Hcontract. rewrite Hlen in Hcontract.
  destruct (write _ w2) as [w3 [n [e|]]]; cbn in Hkeep, Hcontract.
  - split_and!; try done; lia.
  - destruct Hcontract as [Hr Hn]. rewrite (Hn eq_refl).
    rewrite decide_False by (intros Hx; by apply Hx). split_and!; try done; lia.
Qed.

Lemma write_loop_spec I fuel data total w :
  (length data ≤ fuel)%nat → writer_contract → admitted_writes_keep I → I w →
  ∃ w' n err, write_loop Err snapshot write fuel data total w = Some (w', (total + n, err)) ∧
    I w' ∧ 0 ≤ n ≤ zlen data ∧ (err = None → n = zlen data).
Proof using Type.
  intros Hf Hw HI. revert data total w Hf.
  induction fuel as [|fuel IH]; intros data total w Hf Hi; cbn [write_loop].
  - rewrite decide_False by (unfold zlen; lia). exists w, 0, None.
    rewrite Z.add_0_r. unfold zlen. split_and!; try done; lia.
  - case_decide as Hd.
    2: { exists w, 0, None. rewrite Z.add_0_r. unfold zlen in *. split_and!; try done; lia. }
    pose proof (boundary_spec I data w Hd Hw HI Hi) as Hb. cbv zeta in Hb.
    destruct (write_boundary _ _ _ data w) as [w1 [n err]].
    destruct Hb as (Hi1 & Hn & Hok). pose proof (boundary_progress data Hd) as Hp.
    destruct err as [e|].
    { exists w1, n, (Some e). split_and!; try done; lia. }
    specialize (Hok eq_refl).
    destruct (IH (drop (Z.to_nat (Z.min (zlen data) MaximumWriteBoundary)) data) (total + n) w1)
      as (w2 & n2 & err & -> & Hi2 & Hn2 & Hok2); [rewrite length_drop; lia|done|].
    assert (zlen (drop (Z.to_nat (Z.min (zlen data) MaximumWriteBoundary)) data) =
      zlen data - n) as Hrest.
    { unfold zlen in *. rewrite length_drop. lia. }
    rewrite Hrest in Hn2, Hok2. exists w2, (n + n2), err.
    rewrite Z.add_assoc. split_and!; try done; try lia. intros He. specialize (Hok2 He). lia.
Qed.

(** The checked writer writes only under headroom, and ends.  Over a
    destination that meets the [io.Writer] contract, [Write] always returns
    a count between zero and the length, and the whole length without an
    error; and any invariant of the world that is kept by every write of at
    most one boundary that a snapshot taken just before it admits is kept by
    [Write]: no byte reaches the destination unchecked. *)
Theorem checked_write_spec (I : W → Prop) data w :
  writer_contract → admitted_writes_keep I → I w →
  ∃ w' n err, CheckedWriter_Write (mkCheckedWriter (Some Err) (Some snapshot) (Some write)) data w =
      Some (w', (n, err)) ∧
    I w' ∧ 0 ≤ n ≤ zlen data ∧ (err = None → n = zlen data).
Proof using Type.
  intros Hw HI Hi. unfold CheckedWriter_Write. cbn.
  destruct (write_loop_spec I (length data) data 0 w) as (w' & n & err & Hl & Hrest);
    [lia|done..|]. exists w', n, err. by rewrite Hl.
Qed.
End writer.

(** ** Concrete pools *)

Definition example_pool : Snapshot := mkSnapshot (100 * 2 ^ 30) (20 * 2 ^ 30).

Lemma capacity_check_exact_witness : Check example_pool (5 * 2 ^ 30) (6 * 2 ^ 30) = Some ErrPressure.
Proof.
  rewrite (capacity_check_exact example_pool (5 * 2 ^ 30) (6 * 2 ^ 30)); [|by vm_compute..].
  vm_compute. reflexivity.
Defined.

Lemma upload_reservation_exact_witness : UploadReservation 1000 400 1 = inr 75328.
Proof.
  apply (upload_reservation_exact 1000 400 1 75328); [by vm_compute..|].
  split_and!; vm_compute; done.
Defined.

(** A destination that keeps what it is given. *)
Lemma checked_write_spec_witness :
  ∃ w', CheckedWriter_Write (mkCheckedWriter (Some (fun w : bytes => (w, None)))
    (Some (fun w => (w, (example_pool, None))))
    (Some (fun data w => (w ++ data, (zlen data, None))))) (str "abc") [] = Some (w', (3, None)).
Proof.
  destruct (checked_write_spec (fun w : bytes => (w, None)) (fun w => (w, (example_pool, None)))
    (fun data w => (w ++ data, (zlen data, None))) (fun _ => True) (str "abc") [])
    as (w' & n & err & Hrun & _ & _ & _).
  - intros data w. cbn. split; [unfold zlen; lia|done].
  - split_and!; done.
  - done.
  - exists w'.
    assert (CheckedWriter_Write (mkCheckedWriter (Some (fun w : bytes => (w, None)))
      (Some (fun w => (w, (example_pool, None))))
      (Some (fun data w => (w ++ data, (zlen data, None))))) (str "abc") [] =
      Some (str "abc", (3, None))) as Hv by (vm_compute; reflexivity).
    pose proof Hrun as Hsame. rewrite Hv in Hsame. injection Hsame as <- <- <-. exact Hv.
Defined.
