(* ===== verification/Rendezvous.v ===== *)
(** * internal/rendezvous: pairing mailboxes (model.go, errors.go, memory.go)

    A route is a short-lived mailbox between a sponsor and a candidate: either
    publishes sealed envelopes, the other fetches and acknowledges them. *)

From S2P Require Import Prelude GoEncoding Sha256.
#[local] Open Scope Z_scope.

(** ** Errors (errors.go) *)

Inductive ErrorCode : Set :=
  | CodeInvalidRegistration | CodeInvalidEnvelope | CodeUnauthorized | CodeWrongRoute
  | CodeRouteNotFound | CodeRouteExpired | CodeRouteClosed | CodeRouteCollision
  | CodeMessageExpired | CodeMessageCollision | CodeMessageNotFound | CodeInvalidAcknowledgment
  | CodeMailboxFull.

(** A [ProtocolError], or a plain error of [fmt.Errorf]. *)
Inductive RouteError : Set :=
  | RouteProtocolError (Code : ErrorCode) (message : string)
  | RoutePlainError (message : string).

Definition protocolError (code : ErrorCode) (message : string) : RouteError :=
  RouteProtocolError code message.

Definition ErrorHasCode (err : RouteError) (code : ErrorCode) : Prop :=
  match err with RouteProtocolError c _ => c = code | RoutePlainError _ => False end.

(** ** Constants *)

Definition SchemaVersion : Z := 1.
Definition EnvelopeAlgorithm : string := "HKDF-SHA256+A256GCM".
Definition MaximumCiphertextByteCount : Z := 1048576.
Definition MaximumMessageCount : Z := 256.
Definition MaximumRouteLifetimeMS : int64 := 24 * 60 * 60 * 1000.
Definition MaximumCreationClockSkewMS : int64 := 5 * 60 * 1000.

Definition authorizationDomain : bytes :=
  str "Facets principal pairing router authorization v1" ++ [byte_of 0].

Abbreviation Role := string (only parsing).
Definition RoleSponsor : Role := "sponsor".
Definition RoleCandidate : Role := "candidate".

Definition Role_Valid (r : Role) : Prop := r = RoleSponsor ∨ r = RoleCandidate.

#[global] Instance Role_Valid_dec r : Decision (Role_Valid r).
Proof. unfold Role_Valid. apply _. Defined.

(** ** Validation of fields *)

Definition digest_size : Z := 32.

Definition validDigest (value : string) : Prop :=
  ¬ (len value ≠ digest_size * 2 ∨ strings_ToLower value ≠ value) ∧
  some_and (hex_DecodeString value) (fun decoded => zlen decoded = digest_size).

#[global] Instance validDigest_dec value : Decision (validDigest value).
Proof. unfold validDigest. apply _. Defined.

Definition validBase64URLSize (value : string) (minimum maximum : Z) : Prop :=
  some_and (b64_DecodeString value) (fun decoded =>
    zlen decoded ≥ minimum ∧ zlen decoded ≤ maximum ∧ b64_EncodeToString decoded = value).

#[global] Instance validBase64URLSize_dec v a b : Decision (validBase64URLSize v a b).
Proof. unfold validBase64URLSize. apply _. Defined.

(** [hex.DecodeString] with its error dropped: the bytes before the first bad
    pair. *)
Fixpoint hex_decode_prefix (l : bytes) : bytes :=
  match l with
  | a :: b :: rest =>
    match hex_value a, hex_value b with
    | Some h, Some lo => byte_of (16 * h + lo) :: hex_decode_prefix rest
    | _, _ => []
    end
  | _ => []
  end.

(** ** Credentials and registrations *)

Record Credential := mkCredential {
  cred_RouteID : UUID;
  cred_Role : Role;
  cred_Token : string }.

Record Registration := mkRegistration {
  reg_Version : Z;
  reg_RouteID : UUID;
  reg_SponsorAuthorizationDigest : string;
  reg_CandidateAuthorizationDigest : string;
  reg_CreatedAtMilliseconds : int64;
  reg_ExpiresAtMilliseconds : int64 }.

#[global] Instance Registration_eq_dec : EqDecision Registration.
Proof. solve_decision. Defined.

Definition Registration_Validate (r : Registration) : option RouteError :=
  err_when (reg_Version r ≠ SchemaVersion ∨ reg_RouteID r = uuid_Nil ∨
      reg_CreatedAtMilliseconds r < 0 ∨
      reg_ExpiresAtMilliseconds r ≤ reg_CreatedAtMilliseconds r ∨
      ¬ validDigest (reg_SponsorAuthorizationDigest r) ∨
      ¬ validDigest (reg_CandidateAuthorizationDigest r) ∨
      reg_SponsorAuthorizationDigest r = reg_CandidateAuthorizationDigest r)
    (protocolError CodeInvalidRegistration "registration fields are invalid").

Definition Registration_activeAt (r : Registration) (nowMilliseconds : int64) : Prop :=
  let earliestAcceptedTime := i64 (reg_CreatedAtMilliseconds r - MaximumCreationClockSkewMS) in
  let earliestAcceptedTime :=
    if decide (earliestAcceptedTime < 0) then 0 else earliestAcceptedTime in
  nowMilliseconds ≥ earliestAcceptedTime ∧ nowMilliseconds < reg_ExpiresAtMilliseconds r.

#[global] Instance Registration_activeAt_dec r now : Decision (Registration_activeAt r now).
Proof. unfold Registration_activeAt. apply _. Defined.

Definition Registration_ValidateAt (r : Registration) (nowMilliseconds : int64)
    : option RouteError :=
  Registration_Validate r >>?
  err_when (i64 (reg_ExpiresAtMilliseconds r - reg_CreatedAtMilliseconds r) > MaximumRouteLifetimeMS)
    (protocolError CodeInvalidRegistration "route lifetime exceeds the carrier limit") >>?
  err_when (¬ Registration_activeAt r nowMilliseconds)
    (protocolError CodeRouteExpired "route is not active").

Section authorization.
Context `{UuidLib}.

Definition AuthorizationDigest (token : string) (routeID : UUID) (role : Role)
    : RouteError + string :=
  if decide (routeID = uuid_Nil ∨ ¬ Role_Valid role)
  then inl (RoutePlainError "invalid route or role")
  else if decide (¬ some_and (b64_DecodeString token) (fun tokenBytes =>
             zlen tokenBytes = 32 ∧ b64_EncodeToString tokenBytes = token))
  then inl (RoutePlainError "token must be 32-byte unpadded base64url")
  else inr (hex_EncodeToString (Sum256 (authorizationDomain
             ++ str (strings_ToLower (uuid_String routeID)) ++ [byte_of 0]
             ++ str role ++ [byte_of 0] ++ str token))).

Definition Registration_Authorize (r : Registration) (credential : Credential)
    (nowMilliseconds : int64) : option RouteError :=
  Registration_Validate r >>?
  err_when (cred_RouteID credential ≠ reg_RouteID r)
    (protocolError CodeWrongRoute "credential belongs to another route") >>?
  err_when (¬ Role_Valid (cred_Role credential))
    (protocolError CodeUnauthorized "credential role is invalid") >>?
  err_when (¬ Registration_activeAt r nowMilliseconds)
    (protocolError CodeRouteExpired "route is not active") >>?
  match AuthorizationDigest (cred_Token credential) (reg_RouteID r) (cred_Role credential) with
  | inl _ => Some (protocolError CodeUnauthorized "credential token is invalid")
  | inr actual =>
    let expected := if decide (cred_Role credential = RoleSponsor)
                    then reg_SponsorAuthorizationDigest r
                    else reg_CandidateAuthorizationDigest r in
    err_when (hex_decode_prefix (str actual) ≠ hex_decode_prefix (str expected))
      (protocolError CodeUnauthorized "credential token is invalid")
  end.
End authorization.

(** ** Envelopes *)

Record Envelope := mkEnvelope {
  env_Version : Z;
  env_Algorithm : string;
  env_RouteID : UUID;
  env_MessageID : UUID;
  env_CreatedAtMilliseconds : int64;
  env_ExpiresAtMilliseconds : int64;
  env_Nonce : string;
  env_Ciphertext : string;
  env_AuthenticationTag : string }.

#[global] Instance Envelope_eq_dec : EqDecision Envelope.
Proof. solve_decision. Defined.

Definition Envelope_Validate (e : Envelope) : option RouteError :=
  err_when (env_Version e ≠ SchemaVersion ∨ env_Algorithm e ≠ EnvelopeAlgorithm ∨
      env_RouteID e = uuid_Nil ∨ env_MessageID e = uuid_Nil ∨
      env_CreatedAtMilliseconds e < 0 ∨
      env_ExpiresAtMilliseconds e ≤ env_CreatedAtMilliseconds e)
    (protocolError CodeInvalidEnvelope "envelope fields are invalid") >>?
  err_when (¬ validBase64URLSize (env_Nonce e) 12 12 ∨
      ¬ validBase64URLSize (env_AuthenticationTag e) 16 16 ∨
      ¬ validBase64URLSize (env_Ciphertext e) 1 MaximumCiphertextByteCount)
    (protocolError CodeInvalidEnvelope "envelope binary fields are invalid").

Definition Envelope_ValidateForPublish (e : Envelope) (registration : Registration)
    (nowMilliseconds : int64) : option RouteError :=
  Envelope_Validate e >>?
  err_when (env_RouteID e ≠ reg_RouteID registration)
    (protocolError CodeWrongRoute "envelope belongs to another route") >>?
  err_when (env_CreatedAtMilliseconds e > nowMilliseconds ∨
      env_ExpiresAtMilliseconds e ≤ nowMilliseconds ∨
      env_ExpiresAtMilliseconds e > reg_ExpiresAtMilliseconds registration)
    (protocolError CodeMessageExpired "message is not active within the route").

Record Entry := mkEntry {
  ent_PublisherRole : Role;
  ent_Envelope : Envelope;
  ent_Acknowledged : bool }.

Inductive Acceptance : Set := AcceptanceAccepted | AcceptanceDuplicate.

(** ** The store (memory.go) *)

Record memoryRoute := mkMemoryRoute {
  rt_registration : Registration;
  rt_entries : gmap UUID Entry;
  rt_closedAt : option int64 }.

Record MemoryStore := mkMemoryStore { routes : gmap UUID memoryRoute }.

Definition NewMemoryStore : MemoryStore := mkMemoryStore ∅.

Abbreviation RouteM := (M RouteError MemoryStore).

(** [s.routes[id] = route], and the mutation of the route behind the pointer. *)
Definition put_route (id : UUID) (route : memoryRoute) (s : MemoryStore) : MemoryStore :=
  mkMemoryStore (<[id := route]> (routes s)).

Section store.
Context `{UuidLib}.

Definition authorizedRoute (s : MemoryStore) (credential : Credential)
    (nowMilliseconds : int64) : RouteError + memoryRoute :=
  match routes s !! cred_RouteID credential with
  | None => inl (protocolError CodeRouteNotFound "route was not found")
  | Some route =>
    match Registration_Authorize (rt_registration route) credential nowMilliseconds with
    | Some err => inl err
    | None => inr route
    end
  end.

Definition CreateRoute (registration : Registration) (sponsorToken : string)
    (nowMilliseconds : int64) : RouteM Acceptance :=
  check (Registration_ValidateAt registration nowMilliseconds);;;
  let credential := mkCredential (reg_RouteID registration) RoleSponsor sponsorToken in
  check (Registration_Authorize registration credential nowMilliseconds);;;
  let* s := get in
  match routes s !! reg_RouteID registration with
  | Some existing =>
    check (Registration_Authorize (rt_registration existing) credential nowMilliseconds);;;
    if decide (rt_registration existing = registration) then ret AcceptanceDuplicate
    else throw (protocolError CodeRouteCollision
                  "route ID was reused with different registration")
  | None =>
    modify (put_route (reg_RouteID registration) (mkMemoryRoute registration ∅ None));;;
    ret AcceptanceAccepted
  end.

Definition Publish (credential : Credential) (envelope : Envelope) (nowMilliseconds : int64)
    : RouteM Acceptance :=
  let* s := get in
  let* route := try (authorizedRoute s credential nowMilliseconds) in
  check (Envelope_ValidateForPublish envelope (rt_registration route) nowMilliseconds);;;
  match rt_entries route !! env_MessageID envelope with
  | Some existing =>
    if decide (ent_PublisherRole existing = cred_Role credential ∧ ent_Envelope existing = envelope)
    then ret AcceptanceDuplicate
    else throw (protocolError CodeMessageCollision
                  "message ID was reused with different content")
  | None =>
    reject_if (rt_closedAt route ≠ None) (protocolError CodeRouteClosed "route is closed");;;
    reject_if (zsize (rt_entries route) ≥ MaximumMessageCount)
      (protocolError CodeMailboxFull "route reached its message limit");;;
    modify (put_route (cred_RouteID credential)
      (mkMemoryRoute (rt_registration route)
         (<[env_MessageID envelope := mkEntry (cred_Role credential) envelope false]>
            (rt_entries route)) (rt_closedAt route)));;;
    ret AcceptanceAccepted
  end.

(** What [Fetch] selects, and the order in which it returns it. *)
Definition fetchable (credential : Credential) (nowMilliseconds : int64) (entry : Entry) : Prop :=
  ent_PublisherRole entry ≠ cred_Role credential ∧ ent_Acknowledged entry = false ∧
  env_CreatedAtMilliseconds (ent_Envelope entry) ≤ nowMilliseconds ∧
  env_ExpiresAtMilliseconds (ent_Envelope entry) > nowMilliseconds.

#[global] Instance fetchable_dec c now e : Decision (fetchable c now e).
Proof. unfold fetchable. apply _. Defined.

Definition envelope_le (a b : Envelope) : Prop :=
  env_CreatedAtMilliseconds a < env_CreatedAtMilliseconds b ∨
  (env_CreatedAtMilliseconds a = env_CreatedAtMilliseconds b ∧
   str_le (uuid_String (env_MessageID a)) (uuid_String (env_MessageID b))).

#[global] Instance envelope_le_dec : RelDecision envelope_le.
Proof. intros a b. unfold envelope_le. apply _. Defined.

Definition Fetch (credential : Credential) (nowMilliseconds : int64) : RouteM (list Envelope) :=
  let* s := get in
  let* route := try (authorizedRoute s credential nowMilliseconds) in
  ret (merge_sort envelope_le
         (ent_Envelope <$> filter (fetchable credential nowMilliseconds)
            (map_to_list (rt_entries route)).*2)).

Definition Acknowledge (credential : Credential) (messageID : UUID) (nowMilliseconds : int64)
    : RouteM unit :=
  let* s := get in
  let* route := try (authorizedRoute s credential nowMilliseconds) in
  let* entry := found_or (rt_entries route !! messageID)
    (protocolError CodeMessageNotFound "message was not found") in
  reject_if (env_ExpiresAtMilliseconds (ent_Envelope entry) ≤ nowMilliseconds)
    (protocolError CodeMessageExpired "message is expired");;;
  reject_if (ent_PublisherRole entry = cred_Role credential)
    (protocolError CodeInvalidAcknowledgment "publisher cannot acknowledge its message");;;
  modify (put_route (cred_RouteID credential)
    (mkMemoryRoute (rt_registration route)
       (<[messageID := mkEntry (ent_PublisherRole entry) (ent_Envelope entry) true]>
          (rt_entries route)) (rt_closedAt route))).

Definition Close (credential : Credential) (nowMilliseconds : int64) : RouteM unit :=
  let* s := get in
  let* route := try (authorizedRoute s credential nowMilliseconds) in
  reject_if (cred_Role credential ≠ RoleSponsor)
    (protocolError CodeUnauthorized "only the sponsor can close a route");;;
  match rt_closedAt route with
  | Some _ => ret tt
  | None => modify (put_route (cred_RouteID credential)
      (mkMemoryRoute (rt_registration route) (rt_entries route) (Some nowMilliseconds)))
  end.

(** The fate of one route: gone when expired, without its expired entries
    otherwise. *)
Definition purge_route (nowMilliseconds : int64) (route : memoryRoute) : option memoryRoute :=
  if decide (reg_ExpiresAtMilliseconds (rt_registration route) ≤ nowMilliseconds) then None
  else Some (mkMemoryRoute (rt_registration route)
    (filter (fun kv : UUID * Entry =>
       ¬ env_ExpiresAtMilliseconds (ent_Envelope kv.2) ≤ nowMilliseconds) (rt_entries route))
    (rt_closedAt route)).

Definition PurgeExpired (nowMilliseconds : int64) : RouteM unit :=
  modify (fun s => mkMemoryStore (omap (purge_route nowMilliseconds) (routes s))).

(** ** The machine *)

Inductive Op : Type :=
  | OpCreateRoute (registration : Registration) (sponsorToken : string) (now : int64)
  | OpPublish (credential : Credential) (envelope : Envelope) (now : int64)
  | OpFetch (credential : Credential) (now : int64)
  | OpAcknowledge (credential : Credential) (messageID : UUID) (now : int64)
  | OpClose (credential : Credential) (now : int64)
  | OpPurgeExpired (now : int64).

Definition perform (op : Op) (s : MemoryStore) : MemoryStore :=
  match op with
  | OpCreateRoute r token now => (CreateRoute r token now s).1
  | OpPublish c e now => (Publish c e now s).1
  | OpFetch c now => (Fetch c now s).1
  | OpAcknowledge c id now => (Acknowledge c id now s).1
  | OpClose c now => (Close c now s).1
  | OpPurgeExpired now => (PurgeExpired now s).1
  end.

Definition perform_all (ops : list Op) (s : MemoryStore) : MemoryStore :=
  foldl (fun s op => perform op s) s ops.

Inductive reachable : MemoryStore → Prop :=
  | reachable_new : reachable NewMemoryStore
  | reachable_step s op : reachable s → reachable (perform op s).
End store.
