(* ===== verification/RendezvousFacts.v ===== *)
(** * internal/rendezvous: what mailboxes guarantee

    The invariant of reachable stores, the step every call takes on one route,
    and what follows for delivery and closing. *)

From S2P Require Import Prelude GoEncoding Sha256 Rendezvous.
#[local] Open Scope Z_scope.

(** ** The invariant *)

(** A route sits under its identifier with a valid registration; it holds at
    most [MaximumMessageCount] entries, each under its message identifier, for
    this route, from a valid role and gone before the route is. *)
Record RouteOk (id : UUID) (route : memoryRoute) : Prop := {
  ro_id : reg_RouteID (rt_registration route) = id;
  ro_registration : Registration_Validate (rt_registration route) = None;
  ro_count : zsize (rt_entries route) ≤ MaximumMessageCount;
  ro_entry mid entry : rt_entries route !! mid = Some entry →
    env_MessageID (ent_Envelope entry) = mid ∧ env_RouteID (ent_Envelope entry) = id ∧
    Envelope_Validate (ent_Envelope entry) = None ∧ Role_Valid (ent_PublisherRole entry) ∧
    env_ExpiresAtMilliseconds (ent_Envelope entry) ≤
      reg_ExpiresAtMilliseconds (rt_registration route) }.

Definition StoreOk (s : MemoryStore) : Prop :=
  ∀ id route, routes s !! id = Some route → RouteOk id route.

Section invariant.
Context `{UuidLib}.

Lemma authorized_route s credential now route :
  authorizedRoute s credential now = inr route ↔
  routes s !! cred_RouteID credential = Some route ∧
  Registration_Authorize (rt_registration route) credential now = None.
Proof.
  unfold authorizedRoute. destruct (routes s !! _) as [r|]; [|naive_solver].
  destruct (Registration_Authorize _ _ _) eqn:Ha; naive_solver.
Qed.

Lemma authorized_role r credential now :
  Registration_Authorize r credential now = None →
  cred_RouteID credential = reg_RouteID r ∧ Role_Valid (cred_Role credential) ∧
  Registration_activeAt r now.
Proof.
  unfold Registration_Authorize. rewrite !err_then_None, !err_when_None.
  intros (_ & Hid & Hrole & Hact & _). split_and!; by apply dec_stable.
Qed.

Lemma put_route_ok id route s : StoreOk s → RouteOk id route → StoreOk (put_route id route s).
Proof.
  intros Hs Hr id' r'. unfold put_route. cbn. intros [[<- <-]|[_ ?]]%lookup_insert_Some; [done|].
  by apply Hs.
Qed.

Lemma zsize_filter_le {A} (P : UUID * A → Prop) `{∀ x, Decision (P x)} (m : gmap UUID A) :
  zsize (filter P m) ≤ zsize m.
Proof.
  unfold zsize. apply Nat2Z.inj_le. apply map_subseteq_size, map_filter_subseteq.
Qed.

Lemma registration_valid_at r now : Registration_ValidateAt r now = None → Registration_Validate r = None.
Proof. unfold Registration_ValidateAt. rewrite !err_then_None. by intros (? & _). Qed.

Lemma publishable e r now :
  Envelope_ValidateForPublish e r now = None →
  Envelope_Validate e = None ∧ env_RouteID e = reg_RouteID r ∧
  env_CreatedAtMilliseconds e ≤ now < env_ExpiresAtMilliseconds e ∧
  env_ExpiresAtMilliseconds e ≤ reg_ExpiresAtMilliseconds r.
Proof.
  unfold Envelope_ValidateForPublish. rewrite !err_then_None, !err_when_None.
  intros (Hv & Hid & Ht). split_and!; [done|by apply dec_stable|lia..].
Qed.

Lemma perform_ok op s : StoreOk s → StoreOk (perform op s).
Proof.
  intros Hs. destruct op; cbn [perform];
    match goal with |- StoreOk (?m ?s).1 => change (wp m (fun s' _ => StoreOk s') s) end.
  - unfold CreateRoute. wp_steps; try done. apply put_route_ok; [done|].
    split; cbn; [done|by eapply registration_valid_at|done|done].
  - unfold Publish. wp_steps; try done.
    match goal with Hx : authorizedRoute _ _ _ = inr _ |- _ =>
      apply authorized_route in Hx as [Hr Ha] end.
    pose proof (Hs _ _ Hr) as Hok. apply authorized_role in Ha as (_ & Hrole & _).
    apply put_route_ok; [done|]. split; cbn; try apply Hok.
    + rewrite zsize_insert_new by done. lia.
    + intros mid entry [[<- <-]|[_ He]]%lookup_insert_Some; cbn; [|by apply Hok].
      match goal with Hx : Envelope_ValidateForPublish _ _ _ = None |- _ =>
        apply publishable in Hx as (Hv & Hid & _ & Hexp) end.
      rewrite Hid. split_and!; try done. apply Hok.
  - unfold Fetch. by wp_steps.
  - unfold Acknowledge. wp_steps; try done.
    match goal with Hx : authorizedRoute _ _ _ = inr _ |- _ =>
      apply authorized_route in Hx as [Hr _] end.
    pose proof (Hs _ _ Hr) as Hok. apply put_route_ok; [done|].
    split; cbn; try apply Hok.
    + rewrite zsize_insert_old by eauto. apply Hok.
    + intros mid entry [[<- <-]|[_ He]]%lookup_insert_Some; cbn; [|by apply Hok].
      by apply Hok.
  - unfold Close. wp_steps; try done.
    match goal with Hx : authorizedRoute _ _ _ = inr _ |- _ =>
      apply authorized_route in Hx as [Hr _] end.
    pose proof (Hs _ _ Hr) as Hok. apply put_route_ok; [done|]. split; apply Hok.
  - intros id route. cbn. rewrite lookup_omap. intros (r & Hr & Hp)%bind_Some.
    pose proof (Hs _ _ Hr) as Hok. unfold purge_route in Hp. case_decide; [done|].
    injection Hp as <-. split; cbn; try apply Hok.
    + etrans; [apply zsize_filter_le|apply Hok].
    + intros mid entry [He _]%map_lookup_filter_Some. by apply Hok.
Qed.

Lemma reachable_ok s : reachable s → StoreOk s.
Proof. induction 1; [|by apply perform_ok]. intros id r Hr. by cbn in Hr. Qed.

(** [C34] Every reachable store keeps its mailboxes in order: each route is
    registered under its own identifier with a valid registration, holds at
    most 256 messages, each valid, filed under its own identifier, addressed
    to this route, published by the sponsor or the candidate, and expiring
    no later than the route. *)
Theorem mailbox_invariant s id route :
  reachable s → routes s !! id = Some route →
  reg_RouteID (rt_registration route) = id ∧
  Registration_Validate (rt_registration route) = None ∧
  zsize (rt_entries route) ≤ MaximumMessageCount ∧
  ∀ mid entry, rt_entries route !! mid = Some entry →
    env_MessageID (ent_Envelope entry) = mid ∧ env_RouteID (ent_Envelope entry) = id ∧
    Envelope_Validate (ent_Envelope entry) = None ∧ Role_Valid (ent_PublisherRole entry) ∧
    env_ExpiresAtMilliseconds (ent_Envelope entry) ≤
      reg_ExpiresAtMilliseconds (rt_registration route).
Proof. intros Hs Hr. destruct (reachable_ok s Hs id route Hr). by split_and!. Qed.
End invariant.

(** ** One route's view of a call *)

Definition with_entries (entries : gmap UUID Entry) (route : memoryRoute) : memoryRoute :=
  mkMemoryRoute (rt_registration route) entries (rt_closedAt route).

(** What a call may do to the route [id]. *)
Definition route_step (id : UUID) (op : Op) (r r' : memoryRoute) : Prop :=
  match op with
  | OpPublish c e _ =>
    r' = r ∨ cred_RouteID c = id ∧ rt_closedAt r = None ∧
      rt_entries r !! env_MessageID e = None ∧
      r' = with_entries (<[env_MessageID e := mkEntry (cred_Role c) e false]> (rt_entries r)) r
  | OpAcknowledge c mid _ =>
    r' = r ∨ cred_RouteID c = id ∧ ∃ entry, rt_entries r !! mid = Some entry ∧
      ent_PublisherRole entry ≠ cred_Role c ∧
      r' = with_entries
        (<[mid := mkEntry (ent_PublisherRole entry) (ent_Envelope entry) true]> (rt_entries r)) r
  | OpClose c now =>
    r' = r ∨ cred_RouteID c = id ∧ cred_Role c = RoleSponsor ∧ rt_closedAt r = None ∧
      r' = mkMemoryRoute (rt_registration r) (rt_entries r) (Some now)
  | OpPurgeExpired now => purge_route now r = Some r'
  | _ => r' = r
  end.

(** Purges come before the expiry. *)
Definition unpurged (expires : int64) (op : Op) : Prop :=
  match op with OpPurgeExpired now => now < expires | _ => True end.

Section steps.
Context `{UuidLib}.

Lemma put_route_lookup id key route s r :
  routes s !! key = Some r →
  routes (put_route id route s) !! key = Some (if decide (id = key) then route else r).
Proof.
  intros Hk. unfold put_route. cbn. case_decide as He; [by rewrite He, lookup_insert_eq|].
  by rewrite lookup_insert_ne.
Qed.

Lemma perform_route op s id r :
  routes s !! id = Some r → unpurged (reg_ExpiresAtMilliseconds (rt_registration r)) op →
  ∃ r', routes (perform op s) !! id = Some r' ∧ route_step id op r r'.
Proof.
  intros Hr Hop. destruct op as [reg token now|c e now|c now|c mid now|c now|now]; cbn [perform].
  - change (wp (CreateRoute reg token now) (fun s' _ => ∃ r', routes s' !! id = Some r' ∧ r' = r) s).
    unfold CreateRoute. wp_steps; try by exists r.
    exists r. split; [|done]. rewrite (put_route_lookup _ _ _ _ r Hr).
    rewrite decide_False; [done|]. intros <-. congruence.
  - change (wp (Publish c e now)
      (fun s' _ => ∃ r', routes s' !! id = Some r' ∧ route_step id (OpPublish c e now) r r') s).
    unfold Publish. wp_steps; try (exists r; split; [done|by left]).
    match goal with Hx : authorizedRoute _ _ _ = inr _ |- _ =>
      apply authorized_route in Hx as [Hc _] end.
    rewrite (put_route_lookup _ _ _ _ r Hr). eexists. split; [done|].
    case_decide as He; [|by left]. right. rewrite He, Hr in Hc. injection Hc as <-.
    split_and!; try done. by apply dec_stable.
  - change (wp (Fetch c now) (fun s' _ => ∃ r', routes s' !! id = Some r' ∧ r' = r) s).
    unfold Fetch. wp_steps; by exists r.
  - change (wp (Acknowledge c mid now)
      (fun s' _ => ∃ r', routes s' !! id = Some r' ∧ route_step id (OpAcknowledge c mid now) r r') s).
    unfold Acknowledge. wp_steps; try (exists r; split; [done|by left]).
    match goal with Hx : authorizedRoute _ _ _ = inr _ |- _ =>
      apply authorized_route in Hx as [Hc _] end.
    rewrite (put_route_lookup _ _ _ _ r Hr). eexists. split; [done|].
    case_decide as He; [|by left]. right. rewrite He, Hr in Hc. injection Hc as <-.
    split; [done|]. eexists. split_and!; done.
  - change (wp (Close c now)
      (fun s' _ => ∃ r', routes s' !! id = Some r' ∧ route_step id (OpClose c now) r r') s).
    unfold Close. wp_steps; try (exists r; split; [done|by left]).
    match goal with Hx : authorizedRoute _ _ _ = inr _ |- _ =>
      apply authorized_route in Hx as [Hc _] end.
    rewrite (put_route_lookup _ _ _ _ r Hr). eexists. split; [done|].
    case_decide as He; [|by left]. right. rewrite He, Hr in Hc. injection Hc as <-.
    split_and!; try done. by apply dec_stable.
  - cbn in Hop |- *. rewrite lookup_omap, Hr. cbn. unfold purge_route.
    rewrite decide_False by lia. by eexists.
Qed.

(** The registration never changes, and what [keep] says of a route that
    every step keeps holds after any number of calls. *)
Lemma route_step_registration id op r r' :
  route_step id op r r' → rt_registration r' = rt_registration r.
Proof.
  destruct op; cbn; try naive_solver. unfold purge_route. case_decide; [done|]. by intros [= <-].
Qed.

Lemma steps_keep (keep : memoryRoute → Prop) (allowed : Op → Prop) id expires ops s r :
  (∀ op r r', allowed op → route_step id op r r' → keep r → keep r') →
  routes s !! id = Some r → reg_ExpiresAtMilliseconds (rt_registration r) = expires → keep r →
  Forall (fun op => allowed op ∧ unpurged expires op) ops →
  ∃ r', routes (perform_all ops s) !! id = Some r' ∧ keep r' ∧
    rt_registration r' = rt_registration r.
Proof.
  intros Hkeep. revert s r. induction ops as [|op ops IH]; intros s r Hr Hexp Hk; [by exists r|].
  intros [[Ha Hu] Hops]%Forall_cons. cbn.
  destruct (perform_route op s id r Hr) as (r1 & Hr1 & Hstep); [by rewrite Hexp|].
  pose proof (route_step_registration _ _ _ _ Hstep) as Hreg.
  destruct (IH (perform op s) r1 Hr1) as (r2 & H2 & Hk2 & Hreg2); [congruence|by eauto|done|].
  exists r2. split_and!; [done|done|congruence].
Qed.
End steps.

(** ** Delivery *)

#[global] Instance envelope_le_trans `{UuidLib} : Transitive envelope_le.
Proof.
  intros a b c. unfold envelope_le. intros [?|[? ?]] [?|[? ?]]; try (left; lia).
  right. split; [lia|]. by etrans.
Qed.

#[global] Instance envelope_le_total `{UuidLib} : Total envelope_le.
Proof.
  intros a b. unfold envelope_le.
  destruct (Z.lt_trichotomy (env_CreatedAtMilliseconds a) (env_CreatedAtMilliseconds b)) as [|[|]];
    [by auto| |by auto].
  destruct (total str_le (uuid_String (env_MessageID a)) (uuid_String (env_MessageID b))); auto.
Qed.

(** The call neither is the acknowledgment by its reader of the message [mid]
    that [role] published nor purges the mailbox once the message expired. *)
Definition spares (id mid : UUID) (role : Role) (expires : int64) (op : Op) : Prop :=
  match op with
  | OpAcknowledge c mid' _ => ¬ (cred_RouteID c = id ∧ cred_Role c ≠ role ∧ mid' = mid)
  | OpPurgeExpired now => now < expires
  | _ => True
  end.

Section delivery.
Context `{UuidLib}.

(** Entries of one mailbox carry distinct envelopes. *)
Lemma envelopes_nodup id route (P : Entry → Prop) `{∀ e, Decision (P e)} :
  RouteOk id route → NoDup (ent_Envelope <$> filter P (map_to_list (rt_entries route)).*2).
Proof.
  intros Hok. apply (NoDup_fmap_1 env_MessageID).
  assert (Hids : ∀ l : list (UUID * Entry), (∀ k e, (k, e) ∈ l → env_MessageID (ent_Envelope e) = k) →
    env_MessageID <$> (ent_Envelope <$> l.*2) = l.*1).
  { induction l as [|[k e] l IH]; intros Hl; [done|]. cbn. f_equal; [apply Hl; left|].
    apply IH. intros k' e' ?. apply Hl. by right. }
  eapply sublist_NoDup; [apply (NoDup_fst_map_to_list (rt_entries route))|].
  rewrite <- (Hids (map_to_list (rt_entries route))).
  - by apply fmap_sublist, fmap_sublist, sublist_filter.
  - intros k e Hin%elem_of_map_to_list. by apply (ro_entry _ _ Hok).
Qed.

Lemma fetch_run credential now s route :
  authorizedRoute s credential now = inr route →
  Fetch credential now s = (s, inr (merge_sort envelope_le
    (ent_Envelope <$> filter (fetchable credential now) (map_to_list (rt_entries route)).*2))).
Proof. intros Ha. unfold Fetch, bind, get, try. by rewrite Ha. Qed.

(** An authorized fetch changes nothing and returns, each once and in
    the order of creation time and then identifier text, exactly the
    envelopes of the mailbox that the other role published, that nobody has
    acknowledged and that are active now. *)
Theorem fetch_exact s credential now route :
  reachable s → authorizedRoute s credential now = inr route →
  ∃ envelopes, Fetch credential now s = (s, inr envelopes) ∧
    StronglySorted envelope_le envelopes ∧ NoDup envelopes ∧
    ∀ e, e ∈ envelopes ↔ ∃ role,
      rt_entries route !! env_MessageID e = Some (mkEntry role e false) ∧
      role ≠ cred_Role credential ∧
      env_CreatedAtMilliseconds e ≤ now < env_ExpiresAtMilliseconds e.
Proof.
  intros Hs Ha. pose proof Ha as [Hr _]%authorized_route.
  pose proof (reachable_ok s Hs _ _ Hr) as Hok. eexists. split; [by apply fetch_run|].
  split_and!; [by apply StronglySorted_merge_sort; apply _| |].
  - rewrite merge_sort_Permutation. by eapply envelopes_nodup.
  - intros e. rewrite merge_sort_Permutation, list_elem_of_fmap.
    setoid_rewrite list_elem_of_filter. setoid_rewrite list_elem_of_fmap. split.
    + intros (entry & -> & (Hp & Hk & Hc & He) & [mid entry'] & -> & Hin%elem_of_map_to_list).
      cbn in *. destruct (ro_entry _ _ Hok _ _ Hin) as (-> & _).
      exists (ent_PublisherRole entry'). split_and!; try done; [|lia].
      rewrite Hin. destruct entry'. cbn in *. by subst.
    + intros (role & Hl & Hrole & ? & ?). exists (mkEntry role e false). split; [done|]. split.
      * split_and!; cbn; try done; lia.
      * exists (env_MessageID e, mkEntry role e false). by rewrite elem_of_map_to_list.
Qed.

(** [C35] Delivery: a published message stays available.  From the moment a
    mailbox holds it unacknowledged, and whatever calls are made, as long as
    none is the peer's acknowledgment of this message and the mailbox is
    purged only before the message expires, every authorized fetch of the
    other role within its lifetime returns it. *)
Theorem message_stays_available s id route mid role e ops credential now :
  reachable s → routes s !! id = Some route →
  rt_entries route !! mid = Some (mkEntry role e false) →
  Forall (spares id mid role (env_ExpiresAtMilliseconds e)) ops →
  cred_RouteID credential = id → cred_Role credential ≠ role →
  Registration_Authorize (rt_registration route) credential now = None →
  env_CreatedAtMilliseconds e ≤ now < env_ExpiresAtMilliseconds e →
  ∃ envelopes, Fetch credential now (perform_all ops s) = (perform_all ops s, inr envelopes) ∧
    e ∈ envelopes.
Proof.
  intros Hs Hr He Hops Hid Hrole Hauth Hnow. subst id.
  destruct (ro_entry _ _ (reachable_ok s Hs _ _ Hr) _ _ He) as (_ & _ & _ & _ & Hexp). cbn in Hexp.
  destruct (steps_keep (fun r => rt_entries r !! mid = Some (mkEntry role e false))
    (spares (cred_RouteID credential) mid role (env_ExpiresAtMilliseconds e))
    (cred_RouteID credential) (reg_ExpiresAtMilliseconds (rt_registration route)) ops s route) as (r' & Hr' & Hkeep & Hreg);
    [|exact Hr|done|exact He| |].
  - intros op r r' Hop Hstep Hk. destruct op; cbn in Hop, Hstep; try by subst.
    + destruct Hstep as [->|(_ & _ & Hnew & ->)]; [done|]. cbn. rewrite lookup_insert_ne; [done|].
      intros Heq. rewrite Heq in Hnew. congruence.
    + destruct Hstep as [->|(Hc & entry & Hold & Hpub & ->)]; [done|]. cbn.
      rewrite lookup_insert_ne; [done|]. intros Heq. apply Hop. rewrite Heq in Hold.
      rewrite Hk in Hold. injection Hold as <-. cbn in Hpub. by split_and!.
    + by destruct Hstep as [->|(_ & _ & _ & ->)].
    + unfold purge_route in Hstep. case_decide; [done|]. injection Hstep as <-. cbn.
      apply map_lookup_filter_Some. split; [done|]. cbn. lia.
  - eapply Forall_impl; [exact Hops|]. intros op Hop. split; [done|].
    destruct op; cbn in *; try done. lia.
  - eexists. split.
    { apply fetch_run. apply authorized_route. split; [exact Hr'|]. by rewrite Hreg. }
    rewrite merge_sort_Permutation. apply list_elem_of_fmap.
    exists (mkEntry role e false). split; [done|]. apply list_elem_of_filter. split.
    { split_and!; cbn; try done; lia. }
    apply list_elem_of_fmap. exists (mid, mkEntry role e false).
    by rewrite elem_of_map_to_list.
Qed.

(** A closed route is final: whatever calls follow, until a purge at or
    after its expiry removes it, it stays closed under the same
    registration and never takes in a message it did not hold already. *)
Theorem closed_route_final s id route closed ops :
  routes s !! id = Some route → rt_closedAt route = Some closed →
  Forall (unpurged (reg_ExpiresAtMilliseconds (rt_registration route))) ops →
  ∃ route', routes (perform_all ops s) !! id = Some route' ∧
    rt_registration route' = rt_registration route ∧ rt_closedAt route' = Some closed ∧
    dom (rt_entries route') ⊆ dom (rt_entries route).
Proof.
  intros Hr Hc Hops.
  destruct (steps_keep (fun r => rt_closedAt r = Some closed ∧
      dom (rt_entries r) ⊆ dom (rt_entries route)) (fun _ => True) id
    (reg_ExpiresAtMilliseconds (rt_registration route)) ops s route)
    as (r' & Hr' & [Hc' Hd'] & Hreg); [|exact Hr|done|done| |by exists r'].
  - intros op r r' _ Hstep [Hk Hd]. destruct op; cbn in Hstep; try by subst.
    + destruct Hstep as [->|(_ & Hopen & _)]; [done|congruence].
    + destruct Hstep as [->|(_ & entry & Hold & _ & ->)]; [done|]. cbn. split; [done|].
      rewrite dom_insert_lookup_L by eauto. done.
    + destruct Hstep as [->|(_ & _ & Hopen & _)]; [done|congruence].
    + unfold purge_route in Hstep. case_decide; [done|]. injection Hstep as <-. cbn.
      split; [done|]. etrans; [|exact Hd]. apply dom_filter_subseteq.
  - eapply Forall_impl; [exact Hops|]. by intros op Hop.
Qed.
End delivery.

(** ** A concrete mailbox *)

#[local] Existing Instance rfc4122.

Definition route_digest (role : Role) (t : string) : string :=
  match AuthorizationDigest t 5%N role with inl _ => "" | inr d => d end.

Definition example_registration : Registration :=
  mkRegistration SchemaVersion 5%N (route_digest RoleSponsor (token 1))
    (route_digest RoleCandidate (token 2)) 1000 100000.

Definition sponsor : Credential := mkCredential 5%N RoleSponsor (token 1).
Definition candidate : Credential := mkCredential 5%N RoleCandidate (token 2).

Definition example_envelope (id : UUID) (created : int64) : Envelope :=
  mkEnvelope SchemaVersion EnvelopeAlgorithm 5%N id created 50000
    (b64_EncodeToString (be_bytes 12 7)) (b64_EncodeToString (be_bytes 5 9))
    (b64_EncodeToString (be_bytes 16 8)).

(** The candidate has sent 8 and 7, in this order. *)
Definition example_store : MemoryStore :=
  perform_all [ OpCreateRoute example_registration (token 1) 2000;
    OpPublish candidate (example_envelope 8%N 2001) 2002;
    OpPublish candidate (example_envelope 7%N 2000) 2003 ] NewMemoryStore.

Lemma perform_all_reachable ops s : reachable s → reachable (perform_all ops s).
Proof. revert s. induction ops as [|op ops IH]; intros s Hs; [done|]. by apply IH, reachable_step. Qed.

Lemma example_reachable : reachable example_store.
Proof. apply perform_all_reachable, reachable_new. Qed.

Example example_fetch :
  (Fetch sponsor 3000 example_store).2 = inr [example_envelope 7%N 2000; example_envelope 8%N 2001].
Proof. vm_compute. reflexivity. Qed.

(** The mailbox in that store. *)
Definition example_route : memoryRoute :=
  mkMemoryRoute example_registration
    {[ 8%N := mkEntry RoleCandidate (example_envelope 8%N 2001) false;
       7%N := mkEntry RoleCandidate (example_envelope 7%N 2000) false ]} None.

Lemma example_route_stored : routes example_store !! 5%N = Some example_route.
Proof. vm_compute. reflexivity. Qed.

Lemma mailbox_invariant_witness :
  zsize (rt_entries example_route) ≤ MaximumMessageCount.
Proof.
  destruct (mailbox_invariant _ _ _ example_reachable example_route_stored) as (_ & _ & Hc & _).
  exact Hc.
Defined.

Lemma fetch_exact_witness :
  ∃ envelopes, Fetch sponsor 3000 example_store = (example_store, inr envelopes) ∧
    StronglySorted envelope_le envelopes.
Proof.
  destruct (fetch_exact example_store sponsor 3000 example_route example_reachable)
    as (envelopes & Hf & Hs & _); [vm_compute; reflexivity|].
  exists envelopes. split; [exact Hf|exact Hs].
Defined.

(** The route closes, the sponsor reads the other message, and 7 is still there. *)
Lemma message_stays_available_witness :
  let ops := [OpClose sponsor 3000; OpAcknowledge sponsor 8%N 3001; OpPurgeExpired 4000] in
  ∃ envelopes, Fetch sponsor 5000 (perform_all ops example_store) =
    (perform_all ops example_store, inr envelopes) ∧ example_envelope 7%N 2000 ∈ envelopes.
Proof.
  intros ops. apply (message_stays_available example_store 5%N example_route 7%N RoleCandidate).
  - exact example_reachable.
  - exact example_route_stored.
  - vm_compute. reflexivity.
  - repeat constructor. intros (_ & _ & [=]).
  - reflexivity.
  - intros [=].
  - vm_compute. reflexivity.
  - vm_compute. split; [intros [=]|reflexivity].
Defined.

Lemma closed_route_final_witness :
  let ops := [OpPublish candidate (example_envelope 9%N 2500) 3000; OpPurgeExpired 50001] in
  let closed := perform (OpClose sponsor 2999) example_store in
  ∃ route', routes (perform_all ops closed) !! 5%N = Some route' ∧
    rt_registration route' = example_registration ∧ rt_closedAt route' = Some 2999 ∧
    dom (rt_entries route') ⊆ {[7%N; 8%N]}.
Proof.
  intros ops closed.
  destruct (closed_route_final closed 5%N
    (mkMemoryRoute example_registration (rt_entries example_route) (Some 2999)) 2999 ops)
    as (r & Hr & Hreg & Hc & Hd).
  - vm_compute. reflexivity.
  - reflexivity.
  - repeat constructor.
  - exists r. split_and!; [exact Hr|exact Hreg|exact Hc|]. etrans; [exact Hd|].
    vm_compute. intros x Hx. exact Hx.
Defined.
