(* ===== verification/P256.v ===== *)
(** * The Go functions of [crypto/elliptic] and [crypto/ecdsa]

    NIST P-256 over [Z]: decoding of uncompressed points and the verification
    of ECDSA signatures, as FIPS 186-4 defines them.  The source uses them
    through the interface [CurveLib]; [p256] is the implementation. *)

From S2P Require Import Prelude GoEncoding Sha256.
#[local] Open Scope Z_scope.

(** ** The curve [y^2 = x^3 - 3 x + b] *)

Definition p256_P : Z := 2 ^ 256 - 2 ^ 224 + 2 ^ 192 + 2 ^ 96 - 1.
Definition p256_N : Z := 0xffffffff00000000ffffffffffffffffbce6faada7179e84f3b9cac2fc632551.
Definition p256_B : Z := 0x5ac635d8aa3a93e7b3ebbd55769886bc651d06b0cc53b0f63bce3c3e27d2604b.
Definition p256_Gx : Z := 0x6b17d1f2e12c4247f8bce6e563a440f277037d812deb33a0f4a13945d898c296.
Definition p256_Gy : Z := 0x4fe342e2fe1a7f9b8ee7eb4a7c0f9e162bce33576b315ececbb6406837bf51f5.

Definition on_curve (x y : Z) : Prop := y * y mod p256_P = (x * x * x - 3 * x + p256_B) mod p256_P.

#[global] Instance on_curve_dec x y : Decision (on_curve x y).
Proof. unfold on_curve. apply _. Defined.

(** [elliptic.Unmarshal]: the byte 4 and two coordinates. *)
Definition Unmarshal (data : bytes) : option (Z * Z) :=
  let x := be_value 0 (take 32 (drop 1 data)) in
  let y := be_value 0 (drop 33 data) in
  if decide (zlen data = 65 ∧ hd_error data = Some (byte_of 4) ∧ x < p256_P ∧ y < p256_P ∧
             on_curve x y)
  then Some (x, y) else None.

(** ** Points

    Jacobian coordinates: [(X, Y, Z)] is the point [(X / Z^2, Y / Z^3)], and
    the point at infinity when [Z] is 0. *)

Definition Point : Set := Z * Z * Z.

Definition infinity : Point := (1, 1, 0).

Definition mulp (a b : Z) : Z := a * b mod p256_P.

Definition double (p : Point) : Point :=
  let '(x, y, z) := p in
  let delta := mulp z z in
  let gamma := mulp y y in
  let beta := mulp x gamma in
  let alpha := mulp (3 * (x - delta)) (x + delta) in
  let x' := (alpha * alpha - 8 * beta) mod p256_P in
  (x', (alpha * (4 * beta - x') - 8 * mulp gamma gamma) mod p256_P, 2 * y * z mod p256_P).

Definition add (p q : Point) : Point :=
  let '(x1, y1, z1) := p in
  let '(x2, y2, z2) := q in
  if decide (z1 = 0) then q else if decide (z2 = 0) then p
  else
    let z1z1 := mulp z1 z1 in
    let z2z2 := mulp z2 z2 in
    let u1 := mulp x1 z2z2 in
    let u2 := mulp x2 z1z1 in
    let s1 := mulp y1 (mulp z2 z2z2) in
    let s2 := mulp y2 (mulp z1 z1z1) in
    if decide (u1 = u2) then (if decide (s1 = s2) then double p else infinity)
    else
      let h := (u2 - u1) mod p256_P in
      let r := (s2 - s1) mod p256_P in
      let hh := mulp h h in
      let hhh := mulp h hh in
      let v := mulp u1 hh in
      let x3 := (r * r - hhh - 2 * v) mod p256_P in
      (x3, (r * (v - x3) - s1 * hhh) mod p256_P, mulp h (mulp z1 z2)).

(** [a P + b Q], for the bits of [a] and [b] below [bits]. *)
Fixpoint combine_from (bits : nat) (a b : Z) (p q pq acc : Point) : Point :=
  match bits with
  | O => acc
  | S bits =>
    let acc := double acc in
    let acc :=
      match Z.testbit a (Z.of_nat bits), Z.testbit b (Z.of_nat bits) with
      | true, true => add acc pq
      | true, false => add acc p
      | false, true => add acc q
      | false, false => acc
      end in
    combine_from bits a b p q pq acc
  end.

Definition combine (a b : Z) (p q : Point) : Point :=
  combine_from 256 a b p q (add p q) infinity.

(** [a^e mod m], by squaring. *)
Fixpoint pow_mod (a m : Z) (e : positive) : Z :=
  match e with
  | xH => a mod m
  | xO e => let h := pow_mod a m e in h * h mod m
  | xI e => let h := pow_mod a m e in h * h mod m * a mod m
  end.

(** The inverse modulo a prime. *)
Definition inverse (a m : Z) : Z := pow_mod a m (Z.to_pos (m - 2)).

(** ** Signatures *)

Definition Verify (publicKey : Z * Z) (digest : bytes) (r s : Z) : bool :=
  if decide (1 ≤ r < p256_N ∧ 1 ≤ s < p256_N) then
    let e := be_value 0 (take 32 digest) in
    let w := inverse s p256_N in
    let '(x, _, z) := combine (e * w mod p256_N) (r * w mod p256_N)
      (p256_Gx, p256_Gy, 1) (publicKey.1, publicKey.2, 1) in
    if decide (z = 0) then false
    else
      let zi := inverse z p256_P in
      bool_decide (mulp x (mulp zi zi) mod p256_N = r)
  else false.

(** ** The interface *)

Class CurveLib := {
  elliptic_Unmarshal : bytes → option (Z * Z);
  ecdsa_Verify : Z * Z → bytes → Z → Z → bool }.

Definition p256 : CurveLib := {| elliptic_Unmarshal := Unmarshal; ecdsa_Verify := Verify |}.
