(* ===== verification/GoText.v ===== *)
(** * Go text and JSON: [unicode/utf8], [strings] and encoding/json

    UTF-8 decoding as [utf8.DecodeRune] does it (an invalid sequence is one
    replacement rune per byte), [utf8.RuneCountInString], [utf8.ValidString],
    [strings.TrimSpace] and [strings.ContainsAny] for ASCII sets.

    [json] is the tree that [json.Marshal] writes for a struct: its fields in
    order.  [Marshal] writes it; [canonical] is what a decoding into [any] and
    a second encoding make of it: keys sorted, numbers through [float64]. *)

From S2P Require Import Prelude GoEncoding.
#[local] Open Scope Z_scope.

(** ** Decoding *)

Definition RuneError : Z := 65533.

Definition in_range (lo hi : Z) (c : ascii) : bool := bool_decide (lo ≤ byte_val c ≤ hi).

(** The value carried by a continuation byte. *)
Definition low6 (c : ascii) : Z := byte_val c - 128.

(** The first rune and its width in bytes. *)
Definition decode_rune (l : bytes) : Z * nat :=
  match l with
  | [] => (RuneError, 0%nat)
  | c0 :: l' =>
    let x := byte_val c0 in
    if decide (x < 128) then (x, 1%nat)
    else if decide (194 ≤ x ≤ 223) then
      match l' with
      | c1 :: _ => if in_range 128 191 c1 then ((x - 192) * 64 + low6 c1, 2%nat)
                   else (RuneError, 1%nat)
      | _ => (RuneError, 1%nat)
      end
    else if decide (224 ≤ x ≤ 239) then
      match l' with
      | c1 :: c2 :: _ =>
        if in_range (if decide (x = 224) then 160 else 128)
             (if decide (x = 237) then 159 else 191) c1 && in_range 128 191 c2
        then (((x - 224) * 64 + low6 c1) * 64 + low6 c2, 3%nat)
        else (RuneError, 1%nat)
      | _ => (RuneError, 1%nat)
      end
    else if decide (240 ≤ x ≤ 244) then
      match l' with
      | c1 :: c2 :: c3 :: _ =>
        if in_range (if decide (x = 240) then 144 else 128)
             (if decide (x = 244) then 143 else 191) c1 && in_range 128 191 c2
           && in_range 128 191 c3
        then ((((x - 240) * 64 + low6 c1) * 64 + low6 c2) * 64 + low6 c3, 4%nat)
        else (RuneError, 1%nat)
      | _ => (RuneError, 1%nat)
      end
    else (RuneError, 1%nat)
  end.

Fixpoint decode_runes (fuel : nat) (l : bytes) : list Z :=
  match fuel, l with
  | S fuel, _ :: _ => let '(r, width) := decode_rune l in r :: decode_runes fuel (drop width l)
  | _, _ => []
  end.

(** [for _, r := range s]; every rune has at least one byte. *)
Definition runes (s : string) : list Z := decode_runes (String.length s) (str s).

Definition utf8_RuneCountInString (s : string) : Z := zlen (runes s).

(** [utf8.ValidString]: no byte decodes as an invalid sequence. *)
Fixpoint valid_runes (fuel : nat) (l : bytes) : bool :=
  match fuel, l with
  | S fuel, _ :: _ =>
    let '(r, width) := decode_rune l in
    negb (bool_decide (r = RuneError ∧ width = 1%nat)) && valid_runes fuel (drop width l)
  | _, _ => true
  end.

Definition utf8_ValidString (s : string) : bool := valid_runes (String.length s) (str s).

(** ** strings.TrimSpace

    The encodings of the runes of [unicode.IsSpace].  A string starts (ends)
    with such a rune exactly when one of them is a prefix (suffix) of it. *)

Definition bytes_of (l : list Z) : bytes := byte_of <$> l.

Definition space_encodings : list bytes :=
  bytes_of <$> ([[9]; [10]; [11]; [12]; [13]; [32]; [194; 133]; [194; 160]; [225; 154; 128];
                 [226; 128; 168]; [226; 128; 169]; [226; 128; 175]; [226; 129; 159]; [227; 128; 128]]
    ++ ((fun n => [226; 128; 128 + Z.of_nat n]) <$> seq 0 11)).

Definition is_prefix (p l : bytes) : bool := bool_decide (take (length p) l = p).

Fixpoint trim_left (fuel : nat) (spaces : list bytes) (l : bytes) : bytes :=
  match fuel with
  | O => l
  | S fuel =>
    match filter (fun p => is_prefix p l = true) spaces with
    | [] => l
    | p :: _ => trim_left fuel spaces (drop (length p) l)
    end
  end.

Definition strings_TrimSpace (s : string) : string :=
  let left := trim_left (String.length s) space_encodings (str s) in
  of_str (reverse (trim_left (length left) (reverse <$> space_encodings) (reverse left))).

(** [strings.ContainsAny] for a set of ASCII characters. *)
Definition strings_ContainsAny (s chars : string) : Prop :=
  Exists (fun c => c ∈ str chars) (str s).

#[global] Instance strings_ContainsAny_dec s chars : Decision (strings_ContainsAny s chars).
Proof. unfold strings_ContainsAny. apply _. Defined.

Definition str_in_range (lo hi : string) (r : Z) : Prop :=
  byte_val (hd Ascii.zero (str lo)) ≤ r ≤ byte_val (hd Ascii.zero (str hi)).

#[global] Instance str_in_range_dec lo hi r : Decision (str_in_range lo hi r).
Proof. unfold str_in_range. apply _. Defined.

(** ** Examples *)

Example trim_ascii : strings_TrimSpace "  a b	" = "a b"%string.
Proof. reflexivity. Qed.

Example trim_unicode :
  strings_TrimSpace (of_str (bytes_of [226; 128; 131; 195; 169; 194; 160; 32])) =
  of_str (bytes_of [195; 169]).
Proof. vm_compute. reflexivity. Qed.

Example rune_count : runes (of_str (bytes_of [97; 195; 169; 240; 159; 152; 128; 128])) =
  [97; 233; 128512; RuneError].
Proof. vm_compute. reflexivity. Qed.

(** ** Facts *)

(** The count is at most the number of bytes. *)
Lemma rune_count_le s : utf8_RuneCountInString s ≤ len s.
Proof.
  unfold utf8_RuneCountInString, runes, len, zlen. apply inj_le.
  generalize (str s). generalize (String.length s). intros fuel l. revert l.
  induction fuel as [|fuel IH]; intros l; [done|]. destruct l as [|c l]; cbn [decode_runes length]; [lia|].
  destruct (decode_rune (c :: l)) as [r w]. cbn [length]. specialize (IH (drop w (c :: l))). lia.
Qed.

(** ** Strings *)

(** One rune of [width] bytes at the head of [l], escaped as [json.Marshal]
    does: bytes that are no UTF-8 become the replacement character, and the
    line separators U+2028 and U+2029 are escaped. *)
Definition json_rune (l : bytes) (r : Z) (width : nat) : bytes :=
  if decide (width = 1%nat) then
    if decide (r = RuneError) then str "\ufffd"
    else match l with c :: _ => json_byte c | [] => [] end
  else if decide (r = 8232) then str "\u2028"
  else if decide (r = 8233) then str "\u2029"
  else take width l.

Fixpoint json_runes (fuel : nat) (l : bytes) : bytes :=
  match fuel, l with
  | S fuel, _ :: _ =>
    let '(r, width) := decode_rune l in
    json_rune l r width ++ json_runes fuel (drop width l)
  | _, _ => []
  end.

Definition json_text (s : string) : bytes :=
  [byte_of 34] ++ json_runes (String.length s) (str s) ++ [byte_of 34].

(** The string that decoding the encoded one gives: invalid bytes replaced. *)
Fixpoint valid_text_from (fuel : nat) (l : bytes) : bytes :=
  match fuel, l with
  | S fuel, _ :: _ =>
    let '(r, width) := decode_rune l in
    (if decide (width = 1%nat ∧ r = RuneError) then bytes_of [239; 191; 189] else take width l) ++
    valid_text_from fuel (drop width l)
  | _, _ => []
  end.

Definition valid_text (s : string) : string := of_str (valid_text_from (String.length s) (str s)).

(** ** Trees *)

Inductive json :=
  | JNull
  | JBool (b : bool)
  | JInt (n : Z)
  | JString (s : string)
  | JArray (l : list json)
  | JObject (fields : list (string * json)).

Fixpoint join (separator : bytes) (l : list bytes) : bytes :=
  match l with
  | [] => []
  | [a] => a
  | a :: l => a ++ separator ++ join separator l
  end.

Fixpoint Marshal (j : json) : bytes :=
  match j with
  | JNull => str "null"
  | JBool b => str (if b then "true" else "false")
  | JInt n => json_int n
  | JString s => json_text s
  | JArray l => str "[" ++ join (str ",") (map Marshal l) ++ str "]"
  | JObject fields =>
    str "{" ++
    join (str ",") (map (fun kv => json_text kv.1 ++ str ":" ++ Marshal kv.2) fields) ++
    str "}"
  end.

(** A field, and one that [omitempty] leaves out when its pointer is nil. *)
Abbreviation field name value := [(name%string, value)] (only parsing).

Definition optional {A} (name : string) (value : A → json) (o : option A) : list (string * json) :=
  match o with Some a => [(name, value a)] | None => [] end.

(** A slice without [omitempty] that is not nil. *)
Definition JList {A} (value : A → json) (l : list A) : json := JArray (map value l).

(** A slice that may be nil: nil and an empty slice have the same elements,
    and different JSON. *)
Abbreviation Slice A := (option (list A)) (only parsing).

Definition elements {A} (s : Slice A) : list A := default [] s.

Definition JSlice {A} (value : A → json) (s : Slice A) : json :=
  match s with Some l => JList value l | None => JNull end.

Definition JUuid `{UuidLib} (u : UUID) : json := JString (uuid_MarshalText u).

(** ** Numbers through float64 *)

(** The nearest float64 of a natural number, ties to even. *)
Definition round64 (n : Z) : Z :=
  if decide (n < 2 ^ 53) then n
  else
    let e := Z.log2 n - 52 in
    let q := n / 2 ^ e in
    let r := n mod 2 ^ e in
    let up := if decide (2 * r > 2 ^ e ∨ (2 * r = 2 ^ e ∧ Z.odd q)) then 1 else 0 in
    (q + up) * 2 ^ e.

(** The shortest decimal that reads back as [f], padded with zeros: the
    largest power of ten of which some multiple rounds to [f], and of its
    multiples the nearest. *)
Fixpoint shortest (k : nat) (f : Z) : Z :=
  match k with
  | O => f
  | S k' =>
    let p := 10 ^ Z.of_nat k in
    let lo := f / p * p in
    let hi := lo + p in
    match decide (round64 lo = f), decide (round64 hi = f) with
    | left _, left _ => if decide (f - lo ≤ hi - f) then lo else hi
    | left _, right _ => lo
    | right _, left _ => hi
    | right _, right _ => shortest k' f
    end
  end.

Definition float64_int (n : Z) : Z :=
  if decide (n < 0) then - shortest 19 (round64 (- n)) else shortest 19 (round64 n).

(** ** The canonical form *)

Definition key_le (a b : string * json) : Prop := str_le a.1 b.1.

#[global] Instance key_le_dec a b : Decision (key_le a b).
Proof. unfold key_le. apply _. Defined.

Fixpoint canonical (j : json) : json :=
  match j with
  | JInt n => JInt (float64_int n)
  | JString s => JString (valid_text s)
  | JArray l => JArray (map canonical l)
  | JObject fields => JObject (merge_sort key_le (map (fun kv => (kv.1, canonical kv.2)) fields))
  | _ => j
  end.

(** ** Facts *)

Lemma round64_small n : n < 2 ^ 53 → round64 n = n.
Proof. intros. unfold round64. by rewrite decide_True. Qed.

Lemma round64_large n : 2 ^ 53 ≤ n → 2 ^ 53 ≤ round64 n.
Proof.
  intros Hn. unfold round64. rewrite decide_False by lia.
  assert (53 ≤ Z.log2 n) as Hlog.
  { change 53 with (Z.log2 (2 ^ 53)). by apply Z.log2_le_mono. }
  set (e := Z.log2 n - 52). assert (0 < 2 ^ e) as He by (apply Z.pow_pos_nonneg; lia).
  assert (2 ^ 52 ≤ n / 2 ^ e) as Hq.
  { apply Z.div_le_lower_bound; [done|]. rewrite <- Z.pow_add_r by lia.
    replace (e + 52) with (Z.log2 n) by lia. apply Z.log2_spec. lia. }
  assert (2 ≤ 2 ^ e). { change 2 with (2 ^ 1) at 1. apply Z.pow_le_mono_r; lia. }
  case_decide; nia.
Qed.

(** Integers that a float64 holds exactly are printed as they are. *)
Lemma shortest_small k n : 0 ≤ n < 2 ^ 53 → shortest k n = n.
Proof.
  intros Hn. induction k as [|k IH]; [done|]. cbn [shortest].
  set (p := 10 ^ Z.of_nat (S k)). assert (0 < p) by (apply Z.pow_pos_nonneg; lia).
  assert (∀ c, round64 c = n → c = n) as Hid.
  { intros c Hc. destruct (decide (c < 2 ^ 53)) as [Hlt|Hge]; [by rewrite round64_small in Hc|].
    pose proof (round64_large c). lia. }
  repeat case_match; auto.
Qed.

Lemma float64_int_small n : - 2 ^ 53 < n < 2 ^ 53 → float64_int n = n.
Proof.
  intros Hn. unfold float64_int. case_decide; rewrite round64_small by lia;
    rewrite shortest_small by lia; lia.
Qed.

(** ** Examples *)

Example marshal_struct :
  filter (fun c => c ≠ byte_of 34) (Marshal (JObject (field "version" (JInt 1) ++
    optional "note" JString (Some "a<b"%string) ++ optional "none" JInt None ++
    field "list" (JList JBool [true; false])))) =
  str "{version:1,note:a\u003cb,list:[true,false]}".
Proof. vm_compute. reflexivity. Qed.

Example canonical_numbers :
  map float64_int [2 ^ 53 - 1; 2 ^ 53 + 1; 2 ^ 64 - 1; 2 ^ 63; 9007199254740995; - 7] =
  [9007199254740991; 9007199254740992; 18446744073709552000; 9223372036854776000;
   9007199254740996; - 7].
Proof. vm_compute. reflexivity. Qed.
