(* ===== verification/ServiceAuthority.v ===== *)
(** * internal/serviceauthority: scopes and initial bindings (initial_binding.go)

    The sealed value with which a service store binds a principal or a Space
    to a deployment.  Manifests are signed documents of the package that this
    library does not model; their verification, digest and encoding are the
    operations of [ManifestLib]. *)

From S2P Require Import Prelude GoEncoding.
#[local] Open Scope Z_scope.

(** The sentinel [ErrInvalid], the only error of this part. *)
Inductive AuthorityError : Set := ErrInvalid.

(** ** Scopes (deployment.go) *)

Abbreviation ScopeKind := string (only parsing).

Definition ScopeDeviceSync : ScopeKind := "device_sync".
Definition ScopeSharedSpace : ScopeKind := "shared_space".
Definition ScopeComputePool : ScopeKind := "compute_pool".
Definition ScopeBackupCustody : ScopeKind := "backup_custody".

Definition ScopeKind_Valid (kind : ScopeKind) : Prop :=
  kind = ScopeDeviceSync ∨ kind = ScopeSharedSpace ∨ kind = ScopeComputePool ∨
  kind = ScopeBackupCustody.

#[global] Instance ScopeKind_Valid_dec kind : Decision (ScopeKind_Valid kind).
Proof. unfold ScopeKind_Valid. apply _. Defined.

Record Scope := mkScope {
  scope_Kind : ScopeKind;
  scope_ScopeID : UUID }.

#[global] Instance Scope_eq_dec : EqDecision Scope.
Proof. solve_decision. Defined.

Definition Scope_zero : Scope := mkScope "" uuid_Nil.

Definition Scope_Validate (scope : Scope) : option AuthorityError :=
  err_when (¬ ScopeKind_Valid (scope_Kind scope) ∨ scope_ScopeID scope = uuid_Nil) ErrInvalid.

(** ** Manifests *)

Definition TransitionInitialActivation : string := "initial_activation".

Class ManifestLib := {
  Manifest : Set;
  ManifestPayload : Set;
  Manifest_VerifiedPayload : Manifest → option ManifestPayload;
  Manifest_ReferenceDigest : Manifest → option string;
  Manifest_Marshal : Manifest → option bytes;
  (** [Validate(nil)] and [Validate(&now)]; [true] is a nil error. *)
  ManifestPayload_Validate : ManifestPayload → option int64 → bool;
  mfp_Scope : ManifestPayload → Scope;
  mfp_Revision : ManifestPayload → uint64;
  mfp_Transition : ManifestPayload → string;
  mfp_ActiveDeploymentID : ManifestPayload → UUID }.

(** ** Initial bindings *)

Definition maximumInitialBindingRecordByteCount : Z := 1024 * 1024.

Section binding.
Context `{ManifestLib}.

Record InitialBinding := mkInitialBinding {
  ib_localDeploymentID : UUID;
  ib_manifest : Manifest;
  ib_manifestDigest : string;
  ib_manifestRecord : bytes;
  ib_revision : uint64;
  ib_validatedAtMillis : int64;
  ib_offerIssuedAtMillis : int64;
  ib_offerExpiresAtMillis : int64 }.

(** A receiver is a pointer: [None] is nil. *)
Definition InitialBinding_Validate (binding : option InitialBinding) : option AuthorityError :=
  match binding with
  | None => Some ErrInvalid
  | Some b =>
    err_when (ib_localDeploymentID b = uuid_Nil ∨ ib_revision b ≠ 1 ∨ ib_revision b > MaxInt64 ∨
        ib_validatedAtMillis b < 0 ∨ ib_offerIssuedAtMillis b < 0 ∨
        ib_offerExpiresAtMillis b ≤ ib_offerIssuedAtMillis b ∨
        zlen (ib_manifestRecord b) = 0 ∨
        zlen (ib_manifestRecord b) > maximumInitialBindingRecordByteCount) ErrInvalid >>?
    match Manifest_VerifiedPayload (ib_manifest b), Manifest_ReferenceDigest (ib_manifest b),
          Manifest_Marshal (ib_manifest b) with
    | Some payload, Some digest, Some record =>
      err_when (is_Some (Scope_Validate (mfp_Scope payload)) ∨
          mfp_Revision payload ≠ ib_revision b ∨
          mfp_Transition payload ≠ TransitionInitialActivation ∨
          mfp_ActiveDeploymentID payload ≠ ib_localDeploymentID b ∨
          ManifestPayload_Validate payload None = false ∨
          digest ≠ ib_manifestDigest b ∨ record ≠ ib_manifestRecord b) ErrInvalid
    | _, _, _ => Some ErrInvalid
    end
  end.

Definition InitialBinding_RequireFreshClaimAt (binding : option InitialBinding)
    (nowMilliseconds : int64) : option AuthorityError :=
  InitialBinding_Validate binding >>?
  match binding with
  | None => Some ErrInvalid
  | Some b =>
    err_when (nowMilliseconds < ib_offerIssuedAtMillis b ∨
        nowMilliseconds ≥ ib_offerExpiresAtMillis b) ErrInvalid >>?
    match Manifest_VerifiedPayload (ib_manifest b) with
    | None => Some ErrInvalid
    | Some payload =>
      err_when (ManifestPayload_Validate payload (Some nowMilliseconds) = false) ErrInvalid
    end
  end.

Definition InitialBinding_LocalDeploymentID (binding : option InitialBinding) : UUID :=
  match binding with None => uuid_Nil | Some b => ib_localDeploymentID b end.

Definition InitialBinding_Scope (binding : option InitialBinding) : Scope :=
  match binding with
  | None => Scope_zero
  | Some b =>
    match Manifest_VerifiedPayload (ib_manifest b) with
    | None => Scope_zero
    | Some payload => mfp_Scope payload
    end
  end.

Definition InitialBinding_ManifestDigest (binding : option InitialBinding) : string :=
  match binding with None => "" | Some b => ib_manifestDigest b end.

Definition InitialBinding_Revision (binding : option InitialBinding) : uint64 :=
  match binding with None => 0 | Some b => ib_revision b end.

Definition InitialBindingsEqual (left right : option InitialBinding) : Prop :=
  match left, right with
  | None, None => True
  | Some l, Some r =>
    ib_localDeploymentID l = ib_localDeploymentID r ∧ ib_revision l = ib_revision r ∧
    ib_manifestDigest l = ib_manifestDigest r ∧ ib_manifestRecord l = ib_manifestRecord r
  | _, _ => False
  end.

#[global] Instance InitialBindingsEqual_dec l r : Decision (InitialBindingsEqual l r).
Proof. destruct l, r; simpl; apply _. Defined.
End binding.
