(* ===== verification/ComputePool.v ===== *)
(** * internal/computepool: contracts (contracts.go)

    The values that a compute pool, its workers and the Spaces bound to it
    exchange, with their validation; [DataUseConstraint_Permits] is the rule
    that decides whether a worker's data handling satisfies a Space's policy.
    Every [Validate] of the package returns the sentinel [ErrInvalid]. *)

From S2P Require Import Prelude GoEncoding GoText Sha256 P256 ServiceAuthority.
#[local] Open Scope Z_scope.

Inductive ContractError : Set := ErrInvalidContract.

(** [if cond { return ErrInvalid }; return nil] *)
Abbreviation invalid_when P := (err_when P ErrInvalidContract) (only parsing).

Definition SchemaVersion : Z := 2.
Definition WorkerCardSchemaVersion : Z := 1.
Definition SignatureSchemaVersion : Z := 1.
Definition MaximumResourceByteCount : uint64 := Z.shiftl 1 40.
Definition MaximumWallTimeMilliseconds : uint64 := 24 * 60 * 60 * 1000.
Definition maximumDisplayNameBytes : Z := 512.
Definition maximumDisplayNameRunes : Z := 128.
Definition maximumIdentifierBytes : Z := 256.
Definition maximumIdentifierCount : Z := 128.
Definition maximumClaimValueBytes : Z := 1024.

(** ** Text and lists *)

Definition decodeBase64URL (value : string) : option bytes :=
  decoded ← b64_DecodeString value;
  if decide (b64_EncodeToString decoded = value) then Some decoded else None.

Definition trimmed_text (maximum : Z) (value : string) : bool :=
  utf8_ValidString value && bool_decide (value = strings_TrimSpace value) &&
  bool_decide (value ≠ "") && bool_decide (len value ≤ maximum).

Definition validDisplayName (value : string) : bool :=
  trimmed_text maximumDisplayNameBytes value &&
  bool_decide (utf8_RuneCountInString value ≤ maximumDisplayNameRunes).
Definition validIdentifier (value : string) : bool := trimmed_text maximumIdentifierBytes value.
Definition validClaimValue (value : string) : bool := trimmed_text maximumClaimValueBytes value.

(** [sort.StringsAreSorted] *)
Fixpoint sort_StringsAreSorted (values : list string) : bool :=
  match values with
  | a :: (b :: _) as rest => bool_decide (¬ str_lt b a) && sort_StringsAreSorted rest
  | _ => true
  end.

Fixpoint identifiers_after (previous : string) (values : list string) : bool :=
  match values with
  | [] => true
  | value :: values =>
    validIdentifier value && bool_decide (value ≠ previous) && identifiers_after value values
  end.

Definition validIdentifiers (values : list string) (optional : bool) : bool :=
  bool_decide (¬ (zlen values > maximumIdentifierCount ∨ ¬ sort_StringsAreSorted values ∨
      (optional = false ∧ zlen values = 0))) &&
  identifiers_after "" values.

(** The loop of [validUUIDs] and [validSortedEnum]: strictly increasing text. *)
Fixpoint increasing_after {A} (valid : A → bool) (text : A → string) (previous : string)
    (values : list A) : bool :=
  match values with
  | [] => true
  | value :: values =>
    valid value && bool_decide (¬ str_le (text value) previous) &&
    increasing_after valid text (text value) values
  end.

Definition validUUIDs `{UuidLib} (values : list UUID) : bool :=
  bool_decide (zlen values ≤ maximumIdentifierCount) &&
  increasing_after (fun value => bool_decide (value ≠ uuid_Nil)) uuid_String "" values.

Definition validSortedEnum (values : list string) (valid : string → bool) : bool :=
  bool_decide (zlen values ≠ 0 ∧ zlen values ≤ maximumIdentifierCount) &&
  increasing_after valid (fun value => value) "" values.

Definition validTimestamps (created updated : int64) : bool :=
  bool_decide (created ≥ 0 ∧ updated ≥ created).

Definition validSHA256Hex (value : string) : bool :=
  bool_decide (len value = sha256_Size * 2 ∧ is_Some (hex_DecodeString value) ∧
    value = strings_ToLower value).

(** ** Ceilings *)

Record ResourceCeiling := mkResourceCeiling {
  rc_MaximumInputBytes : uint64;
  rc_MaximumOutputBytes : uint64;
  rc_MaximumMemoryBytes : uint64;
  rc_MaximumWallTimeMilliseconds : uint64 }.

#[global] Instance ResourceCeiling_eq_dec : EqDecision ResourceCeiling.
Proof. solve_decision. Defined.

Definition ResourceCeiling_Validate (c : ResourceCeiling) : option ContractError :=
  invalid_when (rc_MaximumInputBytes c = 0 ∨ rc_MaximumInputBytes c > MaximumResourceByteCount ∨
    rc_MaximumOutputBytes c = 0 ∨ rc_MaximumOutputBytes c > MaximumResourceByteCount ∨
    rc_MaximumMemoryBytes c = 0 ∨ rc_MaximumMemoryBytes c > MaximumResourceByteCount ∨
    rc_MaximumWallTimeMilliseconds c = 0 ∨
    rc_MaximumWallTimeMilliseconds c > MaximumWallTimeMilliseconds).

Record BudgetCeiling := mkBudgetCeiling {
  bc_MaximumCostMinorUnits : uint64;
  bc_CurrencyIdentifier : string }.

#[global] Instance BudgetCeiling_eq_dec : EqDecision BudgetCeiling.
Proof. solve_decision. Defined.

Definition BudgetCeiling_Validate (c : BudgetCeiling) : option ContractError :=
  invalid_when (bc_MaximumCostMinorUnits c = 0 ∨ ¬ validIdentifier (bc_CurrencyIdentifier c)).

(** ** Pool authority *)

Record AuthorityTrustAnchor := mkAuthorityTrustAnchor {
  ata_Version : Z;
  ata_Scope : Scope;
  ata_SignerID : UUID;
  ata_PublicSigningKeyX963 : string;
  ata_SigningKeyFingerprint : string }.

#[global] Instance AuthorityTrustAnchor_eq_dec : EqDecision AuthorityTrustAnchor.
Proof. solve_decision. Defined.

Definition AuthorityTrustAnchor_Validate `{CurveLib} (a : AuthorityTrustAnchor)
    : option ContractError :=
  let publicKey := decodeBase64URL (ata_PublicSigningKeyX963 a) in
  let key := default [] publicKey in
  let fingerprint := hex_EncodeToString (Sum256 key) in
  invalid_when (ata_Version a ≠ SignatureSchemaVersion ∨ is_Some (Scope_Validate (ata_Scope a)) ∨
    scope_Kind (ata_Scope a) ≠ ScopeComputePool ∨ ata_SignerID a = uuid_Nil ∨
    publicKey = None ∨ elliptic_Unmarshal key = None ∨
    fingerprint ≠ ata_SigningKeyFingerprint a).

Record AuthorityReference := mkAuthorityReference {
  ar_Version : Z;
  ar_PoolID : UUID;
  ar_TrustAnchor : AuthorityTrustAnchor;
  ar_AcceptedManifestRevision : uint64;
  ar_AcceptedManifestDigest : string }.

#[global] Instance AuthorityReference_eq_dec : EqDecision AuthorityReference.
Proof. solve_decision. Defined.

Definition AuthorityReference_Validate `{CurveLib} (r : AuthorityReference)
    : option ContractError :=
  invalid_when (ar_Version r ≠ SchemaVersion ∨ ar_PoolID r = uuid_Nil ∨
    ar_AcceptedManifestRevision r = 0 ∨ ¬ validSHA256Hex (ar_AcceptedManifestDigest r) ∨
    is_Some (AuthorityTrustAnchor_Validate (ar_TrustAnchor r)) ∨
    scope_ScopeID (ata_Scope (ar_TrustAnchor r)) ≠ ar_PoolID r).

Record Pool := mkPool {
  pool_Version : Z;
  pool_PoolID : UUID;
  pool_OwnerAuthorityID : UUID;
  pool_AuthorityRevision : uint64;
  pool_AuthorityManifestDigest : string;
  pool_DisplayName : string;
  pool_Enabled : bool;
  pool_Revision : uint64;
  pool_CreatedAtMilliseconds : int64;
  pool_UpdatedAtMilliseconds : int64 }.

Definition Pool_Validate (p : Pool) : option ContractError :=
  invalid_when (pool_Version p ≠ SchemaVersion ∨ pool_PoolID p = uuid_Nil ∨
    pool_OwnerAuthorityID p = uuid_Nil ∨ pool_AuthorityRevision p = 0 ∨ pool_Revision p = 0 ∨
    ¬ validSHA256Hex (pool_AuthorityManifestDigest p) ∨ ¬ validDisplayName (pool_DisplayName p) ∨
    ¬ validTimestamps (pool_CreatedAtMilliseconds p) (pool_UpdatedAtMilliseconds p)).

Record WorkerEnrollment := mkWorkerEnrollment {
  we_Version : Z;
  we_EnrollmentID : UUID;
  we_PoolID : UUID;
  we_WorkerID : UUID;
  we_WorkerOwnerAuthorityID : UUID;
  we_PublicSigningKeyEd25519 : string;
  we_SigningKeyFingerprint : string;
  we_ConsentRevision : uint64;
  we_Enabled : bool;
  we_Revision : uint64;
  we_CreatedAtMilliseconds : int64;
  we_UpdatedAtMilliseconds : int64 }.

Definition WorkerEnrollment_Validate (e : WorkerEnrollment) : option ContractError :=
  let publicKey := decodeBase64URL (we_PublicSigningKeyEd25519 e) in
  let key := default [] publicKey in
  let fingerprint := hex_EncodeToString (Sum256 key) in
  invalid_when (we_Version e ≠ SchemaVersion ∨ we_EnrollmentID e = uuid_Nil ∨
    we_PoolID e = uuid_Nil ∨ we_WorkerID e = uuid_Nil ∨ we_WorkerOwnerAuthorityID e = uuid_Nil ∨
    we_ConsentRevision e = 0 ∨ we_Revision e = 0 ∨ publicKey = None ∨ zlen key ≠ 32 ∨
    fingerprint ≠ we_SigningKeyFingerprint e ∨
    ¬ validTimestamps (we_CreatedAtMilliseconds e) (we_UpdatedAtMilliseconds e)).

(** ** Policy vocabulary *)

Abbreviation PrivacyClass := string (only parsing).
Definition PrivacyPublic : PrivacyClass := "public".
Definition PrivacyPersonal : PrivacyClass := "personal".
Definition PrivacyConfidential : PrivacyClass := "confidential".
Definition PrivacyRestricted : PrivacyClass := "restricted".

Definition privacyClasses : list PrivacyClass :=
  [PrivacyPublic; PrivacyPersonal; PrivacyConfidential; PrivacyRestricted].

Definition contains (values : list string) (target : string) : bool := bool_decide (target ∈ values).

Definition PrivacyClass_Valid (value : PrivacyClass) : bool := contains privacyClasses value.

Abbreviation PolicyControl := string (only parsing).
Definition ControlAllowed : PolicyControl := "allowed".
Definition ControlConsentRequired : PolicyControl := "consent_required".
Definition ControlProhibited : PolicyControl := "prohibited".

Definition PolicyControl_Valid (value : PolicyControl) : bool :=
  contains [ControlAllowed; ControlConsentRequired; ControlProhibited] value.

Abbreviation DisclosureAudience := string (only parsing).
Definition AudiencePrivateInvoker : DisclosureAudience := "private_invoker".
Definition AudienceInvitedSpace : DisclosureAudience := "invited_space".
Definition AudiencePublic : DisclosureAudience := "public_audience".

Definition DisclosureAudience_Valid (value : DisclosureAudience) : bool :=
  contains [AudiencePrivateInvoker; AudienceInvitedSpace; AudiencePublic] value.

Abbreviation PlaintextBoundary := string (only parsing).
Definition PlaintextBoundaryFacetsManagedLocalRuntime : PlaintextBoundary :=
  "facets_managed_local_runtime".
Definition PlaintextBoundarySeparateLocalProcess : PlaintextBoundary := "separate_local_process".
Definition PlaintextBoundaryPrivateInfrastructure : PlaintextBoundary := "private_infrastructure".
Definition PlaintextBoundaryExternalProvider : PlaintextBoundary := "external_provider".

Definition PlaintextBoundary_Valid (value : PlaintextBoundary) : bool :=
  contains [PlaintextBoundaryFacetsManagedLocalRuntime; PlaintextBoundarySeparateLocalProcess;
            PlaintextBoundaryPrivateInfrastructure; PlaintextBoundaryExternalProvider] value.

Definition PlaintextBoundary_rank (value : PlaintextBoundary) : Z :=
  if decide (value = PlaintextBoundaryFacetsManagedLocalRuntime) then 0
  else if decide (value = PlaintextBoundarySeparateLocalProcess) then 1
  else if decide (value = PlaintextBoundaryPrivateInfrastructure) then 2
  else 3.

Abbreviation NetworkEgress := string (only parsing).
Definition NetworkEgressNone : NetworkEgress := "none".
Definition NetworkEgressTorNetwork : NetworkEgress := "tor_network".
Definition NetworkEgressDirectInternet : NetworkEgress := "direct_internet".

Definition NetworkEgress_Valid (value : NetworkEgress) : bool :=
  contains [NetworkEgressNone; NetworkEgressTorNetwork; NetworkEgressDirectInternet] value.

Abbreviation RetentionMode := string (only parsing).
Definition RetentionNone : RetentionMode := "none".
Definition RetentionTransientUntilCompletion : RetentionMode := "transient_until_completion".
Definition RetentionEncryptedUntilDelivery : RetentionMode := "encrypted_until_delivery".
Definition RetentionDurationBound : RetentionMode := "duration_bound".
Definition RetentionProviderPolicy : RetentionMode := "provider_policy".
Definition RetentionUnknown : RetentionMode := "unknown".

Record RetentionPolicy := mkRetentionPolicy {
  rp_Mode : RetentionMode;
  rp_MaximumDurationMilliseconds : option uint64 }.

Definition RetentionPolicy_Validate (p : RetentionPolicy) : option ContractError :=
  let valid := contains [RetentionNone; RetentionTransientUntilCompletion;
    RetentionEncryptedUntilDelivery; RetentionDurationBound; RetentionProviderPolicy;
    RetentionUnknown] (rp_Mode p) in
  invalid_when (¬ valid ∨
    ¬ (rp_Mode p = RetentionDurationBound ↔ is_Some (rp_MaximumDurationMilliseconds p)) ∨
    some_and (rp_MaximumDurationMilliseconds p) (fun duration => duration = 0)).

Abbreviation TrainingUse := string (only parsing).
Definition TrainingProhibited : TrainingUse := "prohibited".
Definition TrainingProviderOptOut : TrainingUse := "provider_opt_out".
Definition TrainingPermitted : TrainingUse := "permitted".
Definition TrainingUnknown : TrainingUse := "unknown".

Definition TrainingUse_Valid (value : TrainingUse) : bool :=
  contains [TrainingProhibited; TrainingProviderOptOut; TrainingPermitted; TrainingUnknown] value.

Abbreviation ToolAccess := string (only parsing).
Definition ToolAccessNone : ToolAccess := "none".
Definition ToolAccessDeclaredSubset : ToolAccess := "declared_subset".
Definition ToolAccessUnrestricted : ToolAccess := "unrestricted".
Definition ToolAccessUnknown : ToolAccess := "unknown".

Definition ToolAccess_Valid (value : ToolAccess) : bool :=
  contains [ToolAccessNone; ToolAccessDeclaredSubset; ToolAccessUnrestricted; ToolAccessUnknown]
    value.

Abbreviation ResultPolicy := string (only parsing).
Definition ResultPrivateToInvoker : ResultPolicy := "private_to_invoker".
Definition ResultSharedImportAllowed : ResultPolicy := "shared_import_allowed".
Definition ResultSharedImportRequired : ResultPolicy := "shared_import_required".

Definition ResultPolicy_Valid (value : ResultPolicy) : bool :=
  contains [ResultPrivateToInvoker; ResultSharedImportAllowed; ResultSharedImportRequired] value.

(** ** Data handling *)

Record DataHandlingProfile := mkDataHandlingProfile {
  dhp_PlaintextBoundary : PlaintextBoundary;
  dhp_NetworkEgress : NetworkEgress;
  dhp_RequestRetention : RetentionPolicy;
  dhp_ResultRetention : RetentionPolicy;
  dhp_DiagnosticRetention : RetentionPolicy;
  dhp_TrainingUse : TrainingUse;
  dhp_ToolAccess : ToolAccess;
  dhp_ProviderIdentifier : string }.

Definition DataHandlingProfile_Validate (p : DataHandlingProfile) : option ContractError :=
  invalid_when (¬ PlaintextBoundary_Valid (dhp_PlaintextBoundary p) ∨
    ¬ NetworkEgress_Valid (dhp_NetworkEgress p) ∨
    is_Some (RetentionPolicy_Validate (dhp_RequestRetention p)) ∨
    is_Some (RetentionPolicy_Validate (dhp_ResultRetention p)) ∨
    is_Some (RetentionPolicy_Validate (dhp_DiagnosticRetention p)) ∨
    ¬ TrainingUse_Valid (dhp_TrainingUse p) ∨ ¬ ToolAccess_Valid (dhp_ToolAccess p) ∨
    ¬ validIdentifier (dhp_ProviderIdentifier p) ∨
    (dhp_PlaintextBoundary p = PlaintextBoundaryFacetsManagedLocalRuntime ∧
     dhp_NetworkEgress p ≠ NetworkEgressNone) ∨
    (dhp_PlaintextBoundary p = PlaintextBoundaryExternalProvider ∧
     dhp_NetworkEgress p = NetworkEgressNone)).

Record DataUseConstraint := mkDataUseConstraint {
  duc_PrivacyClass : PrivacyClass;
  duc_Audience : DisclosureAudience;
  duc_MaximumPlaintextBoundary : PlaintextBoundary;
  duc_PermittedProviderIdentifiers : Slice string;
  duc_PermittedNetworkEgress : list NetworkEgress;
  duc_MaximumRequestRetentionMilliseconds : option uint64;
  duc_PermittedTrainingUse : list TrainingUse;
  duc_PermittedToolAccess : list ToolAccess;
  duc_ResultPolicy : ResultPolicy;
  duc_OverrideControl : PolicyControl }.

#[global] Instance DataUseConstraint_eq_dec : EqDecision DataUseConstraint.
Proof. solve_decision. Defined.

Definition DataUseConstraint_Validate (c : DataUseConstraint) : option ContractError :=
  invalid_when (¬ PrivacyClass_Valid (duc_PrivacyClass c) ∨
    ¬ DisclosureAudience_Valid (duc_Audience c) ∨
    ¬ PlaintextBoundary_Valid (duc_MaximumPlaintextBoundary c) ∨
    ¬ validIdentifiers (elements (duc_PermittedProviderIdentifiers c)) true ∨
    ¬ validSortedEnum (duc_PermittedNetworkEgress c) NetworkEgress_Valid ∨
    ¬ validSortedEnum (duc_PermittedTrainingUse c) TrainingUse_Valid ∨
    ¬ validSortedEnum (duc_PermittedToolAccess c) ToolAccess_Valid ∨
    ¬ ResultPolicy_Valid (duc_ResultPolicy c) ∨ ¬ PolicyControl_Valid (duc_OverrideControl c) ∨
    some_and (duc_MaximumRequestRetentionMilliseconds c) (fun retention => retention = 0)).

(** The [switch] on the retention mode, for a bounded request retention. *)
Definition retention_within (maximum : uint64) (p : RetentionPolicy) : bool :=
  if decide (rp_Mode p = RetentionNone ∨ rp_Mode p = RetentionTransientUntilCompletion) then true
  else if decide (rp_Mode p = RetentionDurationBound) then
    bool_decide (some_and (rp_MaximumDurationMilliseconds p) (fun duration => duration ≤ maximum))
  else false.

Definition DataUseConstraint_Permits (c : DataUseConstraint) (p : DataHandlingProfile) : bool :=
  if decide (is_Some (DataHandlingProfile_Validate p) ∨
      PlaintextBoundary_rank (dhp_PlaintextBoundary p) >
        PlaintextBoundary_rank (duc_MaximumPlaintextBoundary c) ∨
      (zlen (elements (duc_PermittedProviderIdentifiers c)) > 0 ∧
       ¬ contains (elements (duc_PermittedProviderIdentifiers c)) (dhp_ProviderIdentifier p)) ∨
      ¬ contains (duc_PermittedNetworkEgress c) (dhp_NetworkEgress p) ∨
      ¬ contains (duc_PermittedTrainingUse c) (dhp_TrainingUse p) ∨
      ¬ contains (duc_PermittedToolAccess c) (dhp_ToolAccess p))
  then false
  else
    match duc_MaximumRequestRetentionMilliseconds c with
    | None => true
    | Some maximum => retention_within maximum (dhp_RequestRetention p)
    end.

(** ** Worker cards and offerings *)

Abbreviation AssuranceEvidenceKind := string (only parsing).
Definition EvidenceFacetsEnforced : AssuranceEvidenceKind := "facets_enforced".
Definition EvidenceConfigurationVerified : AssuranceEvidenceKind := "configuration_verified".
Definition EvidenceRemotelyAttested : AssuranceEvidenceKind := "remotely_attested".
Definition EvidenceWorkerOperatorDeclared : AssuranceEvidenceKind := "worker_operator_declared".
Definition EvidenceExternalProviderDeclared : AssuranceEvidenceKind := "external_provider_declared".
Definition EvidenceUnknown : AssuranceEvidenceKind := "unknown".

Definition AssuranceEvidenceKind_Valid (value : AssuranceEvidenceKind) : bool :=
  contains [EvidenceFacetsEnforced; EvidenceConfigurationVerified; EvidenceRemotelyAttested;
            EvidenceWorkerOperatorDeclared; EvidenceExternalProviderDeclared; EvidenceUnknown] value.

Definition assuranceDimensions : list string :=
  ["diagnostic_retention"; "execution_isolation"; "network_egress"; "plaintext_location";
   "provider_identity"; "request_retention"; "result_retention"; "runtime_integrity";
   "tool_access"; "training_use"]%string.

Record AssuranceClaim := mkAssuranceClaim {
  ac_DimensionIdentifier : string;
  ac_Value : string;
  ac_EvidenceKind : AssuranceEvidenceKind;
  ac_IssuerIdentifier : string;
  ac_EvidenceDigest : option string;
  ac_ValidFromMilliseconds : int64;
  ac_ExpiresAtMilliseconds : option int64;
  ac_Revision : uint64 }.

Definition AssuranceClaim_Validate (c : AssuranceClaim) : option ContractError :=
  invalid_when (¬ validIdentifier (ac_DimensionIdentifier c) ∨ ¬ validClaimValue (ac_Value c) ∨
    ¬ AssuranceEvidenceKind_Valid (ac_EvidenceKind c) ∨
    ¬ validIdentifier (ac_IssuerIdentifier c) ∨
    some_and (ac_EvidenceDigest c) (fun digest => ¬ validSHA256Hex digest) ∨
    ac_ValidFromMilliseconds c < 0 ∨
    some_and (ac_ExpiresAtMilliseconds c) (fun expires => expires ≤ ac_ValidFromMilliseconds c) ∨
    ac_Revision c = 0).

Record WorkerCard := mkWorkerCard {
  wc_Version : Z;
  wc_WorkerCardID : UUID;
  wc_PoolID : UUID;
  wc_WorkerEnrollmentID : UUID;
  wc_WorkerOwnerAuthorityID : UUID;
  wc_DisplayName : string;
  wc_RuntimeIdentifier : string;
  wc_BuildIdentifier : string;
  wc_Claims : list AssuranceClaim;
  wc_Revision : uint64;
  wc_CreatedAtMilliseconds : int64;
  wc_UpdatedAtMilliseconds : int64 }.

(** A loop over a list whose entries must have the given names, in order. *)
Definition matches_in_order {A} (name : A → string) (valid : A → bool) (names : list string)
    (values : list A) : bool :=
  forallb (fun vn => valid vn.1 && bool_decide (name vn.1 = vn.2)) (zip values names).

Definition WorkerCard_Validate (c : WorkerCard) : option ContractError :=
  invalid_when (wc_Version c ≠ WorkerCardSchemaVersion ∨ wc_WorkerCardID c = uuid_Nil ∨
    wc_PoolID c = uuid_Nil ∨ wc_WorkerEnrollmentID c = uuid_Nil ∨
    wc_WorkerOwnerAuthorityID c = uuid_Nil ∨ ¬ validDisplayName (wc_DisplayName c) ∨
    ¬ validIdentifier (wc_RuntimeIdentifier c) ∨ ¬ validIdentifier (wc_BuildIdentifier c) ∨
    wc_Revision c = 0 ∨
    ¬ validTimestamps (wc_CreatedAtMilliseconds c) (wc_UpdatedAtMilliseconds c) ∨
    zlen (wc_Claims c) ≠ zlen assuranceDimensions) >>?
  invalid_when (¬ matches_in_order ac_DimensionIdentifier
    (fun claim => bool_decide (AssuranceClaim_Validate claim = None)) assuranceDimensions
    (wc_Claims c)).

Abbreviation InteractionMode := string (only parsing).
Definition InteractionBatch : InteractionMode := "batch".
Definition InteractionStreamedRequest : InteractionMode := "streamed_request".
Definition InteractionInteractive : InteractionMode := "interactive_session".

Definition InteractionMode_Valid (mode : InteractionMode) : bool :=
  contains [InteractionBatch; InteractionStreamedRequest; InteractionInteractive] mode.

Record Offering := mkOffering {
  off_Version : Z;
  off_OfferingID : UUID;
  off_PoolID : UUID;
  off_WorkerEnrollmentID : UUID;
  off_WorkerCardID : UUID;
  off_WorkerCardRevision : uint64;
  off_WorkerCardDigest : string;
  off_ProviderIdentifier : string;
  off_ModelIdentifiers : list string;
  off_AllowedOperations : list string;
  off_InteractionModes : list InteractionMode;
  off_DataHandlingProfile : DataHandlingProfile;
  off_PricingRevision : uint64;
  off_ResourceCeiling : ResourceCeiling;
  off_Enabled : bool;
  off_Revision : uint64;
  off_CreatedAtMilliseconds : int64;
  off_UpdatedAtMilliseconds : int64 }.

Definition Offering_Validate (o : Offering) : option ContractError :=
  invalid_when (off_Version o ≠ SchemaVersion ∨ off_OfferingID o = uuid_Nil ∨
    off_PoolID o = uuid_Nil ∨ off_WorkerEnrollmentID o = uuid_Nil ∨
    off_WorkerCardID o = uuid_Nil ∨ off_WorkerCardRevision o = 0 ∨
    ¬ validSHA256Hex (off_WorkerCardDigest o) ∨ off_PricingRevision o = 0 ∨ off_Revision o = 0 ∨
    ¬ validIdentifier (off_ProviderIdentifier o) ∨
    ¬ validIdentifiers (off_ModelIdentifiers o) false ∨
    ¬ validIdentifiers (off_AllowedOperations o) false ∨
    ¬ validSortedEnum (off_InteractionModes o) InteractionMode_Valid ∨
    is_Some (DataHandlingProfile_Validate (off_DataHandlingProfile o)) ∨
    dhp_ProviderIdentifier (off_DataHandlingProfile o) ≠ off_ProviderIdentifier o ∨
    is_Some (ResourceCeiling_Validate (off_ResourceCeiling o)) ∨
    ¬ validTimestamps (off_CreatedAtMilliseconds o) (off_UpdatedAtMilliseconds o)).

(** ** Space bindings *)

Record SpaceBinding := mkSpaceBinding {
  sb_Version : Z;
  sb_BindingID : UUID;
  sb_SpaceID : UUID;
  sb_PoolAuthority : AuthorityReference;
  sb_AllowedOperations : list string;
  sb_EligiblePrincipalIDs : list UUID;
  sb_EligibleRoleIdentifiers : list string;
  sb_AllowedProviderIdentifiers : list string;
  sb_ResourceCeiling : ResourceCeiling;
  sb_BudgetCeiling : BudgetCeiling;
  sb_PricingRevision : uint64;
  sb_DataUseConstraints : list DataUseConstraint;
  sb_Revision : uint64;
  sb_SourceAuthorityRevision : uint64;
  sb_CreatedAtMilliseconds : int64;
  sb_UpdatedAtMilliseconds : int64 }.

#[global] Instance SpaceBinding_eq_dec : EqDecision SpaceBinding.
Proof. solve_decision. Defined.

Definition SpaceBinding_Validate `{UuidLib} `{CurveLib} (b : SpaceBinding) : option ContractError :=
  invalid_when (sb_Version b ≠ SchemaVersion ∨ sb_BindingID b = uuid_Nil ∨
    sb_SpaceID b = uuid_Nil ∨ sb_PricingRevision b = 0 ∨ sb_Revision b = 0 ∨
    sb_SourceAuthorityRevision b = 0 ∨ is_Some (AuthorityReference_Validate (sb_PoolAuthority b)) ∨
    ¬ validIdentifiers (sb_AllowedOperations b) false ∨ ¬ validUUIDs (sb_EligiblePrincipalIDs b) ∨
    ¬ validIdentifiers (sb_EligibleRoleIdentifiers b) true ∨
    (zlen (sb_EligiblePrincipalIDs b) = 0 ∧ zlen (sb_EligibleRoleIdentifiers b) = 0) ∨
    ¬ validIdentifiers (sb_AllowedProviderIdentifiers b) false ∨
    is_Some (ResourceCeiling_Validate (sb_ResourceCeiling b)) ∨
    is_Some (BudgetCeiling_Validate (sb_BudgetCeiling b)) ∨
    zlen (sb_DataUseConstraints b) ≠ zlen privacyClasses ∨
    ¬ validTimestamps (sb_CreatedAtMilliseconds b) (sb_UpdatedAtMilliseconds b)) >>?
  invalid_when (¬ matches_in_order duc_PrivacyClass
    (fun constraint => bool_decide (DataUseConstraint_Validate constraint = None)) privacyClasses
    (sb_DataUseConstraints b)).

(** ** Canonical records *)

Definition maximumCanonicalRecordBytes : Z := 262144.

Definition canonicalJSON (value : json) : option bytes :=
  let encoded := Marshal (canonical value) in
  if decide (zlen encoded > maximumCanonicalRecordBytes) then None else Some encoded.

Definition canonicalDigest (value : json) : option string :=
  encoded ← canonicalJSON value; Some (hex_EncodeToString (Sum256 encoded)).

Section json.
Context `{UuidLib}.
#[local] Open Scope string_scope.

Definition AssuranceClaim_json (c : AssuranceClaim) : json :=
  JObject (
    field "dimensionIdentifier" (JString (ac_DimensionIdentifier c)) ++
    field "value" (JString (ac_Value c)) ++
    field "evidenceKind" (JString (ac_EvidenceKind c)) ++
    field "issuerIdentifier" (JString (ac_IssuerIdentifier c)) ++
    optional "evidenceDigest" JString (ac_EvidenceDigest c) ++
    field "validFromMilliseconds" (JInt (ac_ValidFromMilliseconds c)) ++
    optional "expiresAtMilliseconds" JInt (ac_ExpiresAtMilliseconds c) ++
    field "revision" (JInt (ac_Revision c))).

Definition WorkerCard_json (c : WorkerCard) : json :=
  JObject (
    field "version" (JInt (wc_Version c)) ++
    field "workerCardID" (JUuid (wc_WorkerCardID c)) ++
    field "poolID" (JUuid (wc_PoolID c)) ++
    field "workerEnrollmentID" (JUuid (wc_WorkerEnrollmentID c)) ++
    field "workerOwnerAuthorityID" (JUuid (wc_WorkerOwnerAuthorityID c)) ++
    field "displayName" (JString (wc_DisplayName c)) ++
    field "runtimeIdentifier" (JString (wc_RuntimeIdentifier c)) ++
    field "buildIdentifier" (JString (wc_BuildIdentifier c)) ++
    field "claims" (JList AssuranceClaim_json (wc_Claims c)) ++
    field "revision" (JInt (wc_Revision c)) ++
    field "createdAtMilliseconds" (JInt (wc_CreatedAtMilliseconds c)) ++
    field "updatedAtMilliseconds" (JInt (wc_UpdatedAtMilliseconds c))).

Definition ResourceCeiling_json (c : ResourceCeiling) : json :=
  JObject (
    field "maximumInputBytes" (JInt (rc_MaximumInputBytes c)) ++
    field "maximumOutputBytes" (JInt (rc_MaximumOutputBytes c)) ++
    field "maximumMemoryBytes" (JInt (rc_MaximumMemoryBytes c)) ++
    field "maximumWallTimeMilliseconds" (JInt (rc_MaximumWallTimeMilliseconds c))).

Definition BudgetCeiling_json (c : BudgetCeiling) : json :=
  JObject (
    field "maximumCostMinorUnits" (JInt (bc_MaximumCostMinorUnits c)) ++
    field "currencyIdentifier" (JString (bc_CurrencyIdentifier c))).

Definition WorkerCard_Digest (c : WorkerCard) : option string := canonicalDigest (WorkerCard_json c).
End json.
