(* ===== verification/ComputePrivacy.v ===== *)
(** * internal/computepool: policies, signatures, disclosure plans, consent

    [privacy_contracts.go] and [policy_evaluator.go]: the protection policy of
    a Space with its signed revisions, acknowledgements by participants,
    signed worker cards, and the rule that decides when a revision takes
    effect.  [disclosure_contracts.go], and the consent part of
    [admission_contracts.go]: what a person is about to disclose, to whom, in
    which partitions, and the signed consent to it. *)

From S2P Require Import Prelude GoEncoding Sha256 RelayModel P256 GoText ServiceAuthority ComputePool.
#[local] Open Scope Z_scope.

(** Ed25519 of the standard library. *)
Class Ed25519Lib := {
  ed25519_NewKeyFromSeed : bytes → bytes;
  ed25519_Public : bytes → bytes;
  ed25519_Sign : bytes → bytes → bytes;
  ed25519_Verify : bytes → bytes → bytes → bool }.

Definition ed25519_SeedSize : Z := 32.
Definition ed25519_PublicKeySize : Z := 32.
Definition ed25519_PrivateKeySize : Z := 64.
Definition ed25519_SignatureSize : Z := 64.

Definition spacePolicyDomain : bytes := domain_separator "Facets Space protection policy v1".
Definition policyAcknowledgementDomain : bytes :=
  domain_separator "Facets Space protection acknowledgement v1".
Definition workerCardDomain : bytes := domain_separator "Facets Compute Worker Card v1".

(** ** Objects *)

Abbreviation PrivacyClassificationBasis := string (only parsing).
Definition BasisModelDefault : PrivacyClassificationBasis := "model_default".
Definition BasisUserAssigned : PrivacyClassificationBasis := "user_assigned".
Definition BasisInherited : PrivacyClassificationBasis := "inherited".
Definition BasisSpacePolicy : PrivacyClassificationBasis := "space_policy".

Definition PrivacyClassificationBasis_Valid (value : PrivacyClassificationBasis) : bool :=
  contains [BasisModelDefault; BasisUserAssigned; BasisInherited; BasisSpacePolicy] value.

Record ObjectPrivacyComponent := mkObjectPrivacyComponent {
  opc_Identifier : string;
  opc_PrivacyClass : PrivacyClass }.

Definition ObjectPrivacyComponent_Validate (c : ObjectPrivacyComponent) : option ContractError :=
  invalid_when (¬ validIdentifier (opc_Identifier c) ∨ ¬ PrivacyClass_Valid (opc_PrivacyClass c)).

Record FacetsObjectID := mkFacetsObjectID {
  foi_ProviderRootURI : string;
  foi_Kind : string;
  foi_SourceID : string }.

Definition FacetsObjectID_Validate (i : FacetsObjectID) : option ContractError :=
  invalid_when (foi_ProviderRootURI i = "" ∨ foi_Kind i = "" ∨ foi_SourceID i = "" ∨
    byte_of 0 ∈ str (foi_ProviderRootURI i) ∨ byte_of 0 ∈ str (foi_SourceID i)).

Record ObjectPrivacyDescriptor := mkObjectPrivacyDescriptor {
  opd_Version : Z;
  opd_ObjectID : FacetsObjectID;
  opd_ContentDigest : string;
  opd_ModelTypeIdentifier : string;
  opd_PrivacyClass : PrivacyClass;
  opd_Basis : PrivacyClassificationBasis;
  opd_Components : list ObjectPrivacyComponent }.

Definition ObjectPrivacyDescriptor_Validate (d : ObjectPrivacyDescriptor) : option ContractError :=
  invalid_when (opd_Version d ≠ 1 ∨ is_Some (FacetsObjectID_Validate (opd_ObjectID d)) ∨
    ¬ validSHA256Hex (opd_ContentDigest d) ∨ ¬ validIdentifier (opd_ModelTypeIdentifier d) ∨
    ¬ PrivacyClass_Valid (opd_PrivacyClass d) ∨ ¬ PrivacyClassificationBasis_Valid (opd_Basis d) ∨
    zlen (opd_Components d) > maximumIdentifierCount) >>?
  invalid_when (¬ increasing_after
    (fun c => bool_decide (ObjectPrivacyComponent_Validate c = None)) opc_Identifier ""
    (opd_Components d)).

Definition SpaceUseCaseTemplate_Valid (value : string) : bool :=
  contains ["personal_workspace"; "trusted_circle"; "confidential_relationship";
            "public_community"; "custom"]%string value.

Definition SpaceProtectionPosture_Valid (value : string) : bool :=
  contains ["standard"; "privacy_first"; "high_assurance"; "custom"]%string value.

Abbreviation SpaceSecurityProfile := string (only parsing).
Definition SecurityPrivate : SpaceSecurityProfile := "private".
Definition SecuritySecure : SpaceSecurityProfile := "secure".
Definition SecurityManaged : SpaceSecurityProfile := "managed".

Definition SpaceSecurityProfile_Valid (value : SpaceSecurityProfile) : bool :=
  contains [SecurityPrivate; SecuritySecure; SecurityManaged] value.

(** ** Protection policies *)

Record SpaceProtectionCommitments := mkSpaceProtectionCommitments {
  spc_Sharing : PolicyControl;
  spc_Computation : PolicyControl;
  spc_ExternalAgents : PolicyControl;
  spc_LocalLLM : PolicyControl;
  spc_PrivateInfrastructureLLM : PolicyControl;
  spc_ExternalProviderLLM : PolicyControl;
  spc_ExportCopy : PolicyControl;
  spc_DisclosureOverrides : PolicyControl;
  spc_SharedBrowserHistoryEnabled : bool;
  spc_PrivateUserConfigurationsByDefault : bool }.

Definition commitmentControls (c : SpaceProtectionCommitments) : list PolicyControl :=
  [spc_Sharing c; spc_Computation c; spc_ExternalAgents c; spc_LocalLLM c;
   spc_PrivateInfrastructureLLM c; spc_ExternalProviderLLM c; spc_ExportCopy c;
   spc_DisclosureOverrides c].

Definition SpaceProtectionCommitments_Validate (c : SpaceProtectionCommitments)
    : option ContractError :=
  invalid_when (¬ forallb PolicyControl_Valid (commitmentControls c)).

Record PrivacyClassRule := mkPrivacyClassRule {
  pcr_PrivacyClass : PrivacyClass;
  pcr_PublicSharing : PolicyControl;
  pcr_ExternalProcessing : PolicyControl;
  pcr_ExportCopy : PolicyControl;
  pcr_RememberedConsentAllowed : bool }.

Definition PrivacyClassRule_Validate (r : PrivacyClassRule) : option ContractError :=
  invalid_when (¬ PrivacyClass_Valid (pcr_PrivacyClass r) ∨
    ¬ PolicyControl_Valid (pcr_PublicSharing r) ∨ ¬ PolicyControl_Valid (pcr_ExternalProcessing r) ∨
    ¬ PolicyControl_Valid (pcr_ExportCopy r) ∨
    (pcr_RememberedConsentAllowed r ∧
     (pcr_PrivacyClass r = PrivacyConfidential ∨ pcr_PrivacyClass r = PrivacyRestricted))).

Record SpaceProtectionPolicy := mkSpaceProtectionPolicy {
  spp_Version : Z;
  spp_PolicyID : UUID;
  spp_SpaceID : UUID;
  spp_SharedSpaceSecurityProfile : option SpaceSecurityProfile;
  spp_Revision : uint64;
  spp_PredecessorDigest : option string;
  spp_Rules : list PrivacyClassRule;
  spp_Commitments : SpaceProtectionCommitments;
  spp_CreatedAtMilliseconds : int64 }.

Definition SpaceProtectionPolicy_Validate (p : SpaceProtectionPolicy) : option ContractError :=
  invalid_when (spp_Version p ≠ 1 ∨ spp_PolicyID p = uuid_Nil ∨ spp_SpaceID p = uuid_Nil ∨
    spp_Revision p = 0 ∨
    some_and (spp_SharedSpaceSecurityProfile p)
      (fun profile => ¬ SpaceSecurityProfile_Valid profile) ∨
    ¬ (spp_Revision p = 1 ↔ spp_PredecessorDigest p = None) ∨
    some_and (spp_PredecessorDigest p) (fun digest => ¬ validSHA256Hex digest) ∨
    zlen (spp_Rules p) ≠ zlen privacyClasses ∨
    is_Some (SpaceProtectionCommitments_Validate (spp_Commitments p)) ∨
    spp_CreatedAtMilliseconds p < 0) >>?
  invalid_when (¬ matches_in_order pcr_PrivacyClass
    (fun rule => bool_decide (PrivacyClassRule_Validate rule = None)) privacyClasses
    (spp_Rules p)) >>?
  invalid_when (is_Some (spp_SharedSpaceSecurityProfile p) ∧
    spc_SharedBrowserHistoryEnabled (spp_Commitments p)).

Section json.
Context `{UuidLib}.

Definition SpaceProtectionCommitments_json (c : SpaceProtectionCommitments) : json :=
  JObject (
    field "sharing" (JString (spc_Sharing c)) ++
    field "computation" (JString (spc_Computation c)) ++
    field "externalAgents" (JString (spc_ExternalAgents c)) ++
    field "localLLM" (JString (spc_LocalLLM c)) ++
    field "privateInfrastructureLLM" (JString (spc_PrivateInfrastructureLLM c)) ++
    field "externalProviderLLM" (JString (spc_ExternalProviderLLM c)) ++
    field "exportCopy" (JString (spc_ExportCopy c)) ++
    field "disclosureOverrides" (JString (spc_DisclosureOverrides c)) ++
    field "sharedBrowserHistoryEnabled" (JBool (spc_SharedBrowserHistoryEnabled c)) ++
    field "privateUserConfigurationsByDefault"
      (JBool (spc_PrivateUserConfigurationsByDefault c))).

Definition PrivacyClassRule_json (r : PrivacyClassRule) : json :=
  JObject (
    field "privacyClass" (JString (pcr_PrivacyClass r)) ++
    field "publicSharing" (JString (pcr_PublicSharing r)) ++
    field "externalProcessing" (JString (pcr_ExternalProcessing r)) ++
    field "exportCopy" (JString (pcr_ExportCopy r)) ++
    field "rememberedConsentAllowed" (JBool (pcr_RememberedConsentAllowed r))).

Definition SpaceProtectionPolicy_json (p : SpaceProtectionPolicy) : json :=
  JObject (
    field "version" (JInt (spp_Version p)) ++
    field "policyID" (JUuid (spp_PolicyID p)) ++
    field "spaceID" (JUuid (spp_SpaceID p)) ++
    optional "sharedSpaceSecurityProfile" JString (spp_SharedSpaceSecurityProfile p) ++
    field "revision" (JInt (spp_Revision p)) ++
    optional "predecessorDigest" JString (spp_PredecessorDigest p) ++
    field "rules" (JList PrivacyClassRule_json (spp_Rules p)) ++
    field "commitments" (SpaceProtectionCommitments_json (spp_Commitments p)) ++
    field "createdAtMilliseconds" (JInt (spp_CreatedAtMilliseconds p))).

Definition SpaceProtectionPolicy_Digest (p : SpaceProtectionPolicy) : option string :=
  canonicalDigest (SpaceProtectionPolicy_json p).
End json.

(** ** Signatures *)

Record ES256Signature := mkES256Signature {
  es_Algorithm : string;
  es_SignerID : UUID;
  es_PublicSigningKeyX963 : string;
  es_SigningKeyFingerprint : string;
  es_Signature : string }.

Record Ed25519Signature := mkEd25519Signature {
  ed_Algorithm : string;
  ed_SignerID : UUID;
  ed_PublicSigningKeyEd25519 : string;
  ed_SigningKeyFingerprint : string;
  ed_Signature : string }.

Definition ES256Signature_json `{UuidLib} (s : ES256Signature) : json :=
  JObject (
    field "algorithm" (JString (es_Algorithm s)) ++
    field "signerID" (JUuid (es_SignerID s)) ++
    field "publicSigningKeyX963" (JString (es_PublicSigningKeyX963 s)) ++
    field "signingKeyFingerprint" (JString (es_SigningKeyFingerprint s)) ++
    field "signature" (JString (es_Signature s))).

Definition Ed25519Signature_json `{UuidLib} (s : Ed25519Signature) : json :=
  JObject (
    field "algorithm" (JString (ed_Algorithm s)) ++
    field "signerID" (JUuid (ed_SignerID s)) ++
    field "publicSigningKeyEd25519" (JString (ed_PublicSigningKeyEd25519 s)) ++
    field "signingKeyFingerprint" (JString (ed_SigningKeyFingerprint s)) ++
    field "signature" (JString (ed_Signature s))).

(** [newBigInt] of the two halves of a signature. *)
Definition signature_halves (signature : bytes) : Z * Z :=
  (BigEndian_Uint (take 32 signature), BigEndian_Uint (drop 32 signature)).

Definition verifyES256 `{CurveLib} (signature : ES256Signature) (payload : json) (domain : bytes)
    : option ContractError :=
  let keyBytes := decodeBase64URL (es_PublicSigningKeyX963 signature) in
  let signatureBytes := decodeBase64URL (es_Signature signature) in
  let point := elliptic_Unmarshal (default [] keyBytes) in
  let fingerprint := hex_EncodeToString (Sum256 (default [] keyBytes)) in
  let encoded := canonicalJSON payload in
  invalid_when (es_Algorithm signature ≠ "ES256" ∨ es_SignerID signature = uuid_Nil ∨
    keyBytes = None ∨ signatureBytes = None ∨ zlen (default [] signatureBytes) ≠ 64 ∨
    point = None ∨ encoded = None ∨
    fingerprint ≠ es_SigningKeyFingerprint signature) >>?
  let '(r, s) := signature_halves (default [] signatureBytes) in
  let digest := Sum256 (domain ++ default [] encoded) in
  invalid_when (¬ some_and point (fun key => ecdsa_Verify key digest r s)).

Definition verifyEd25519 `{Ed25519Lib} (signature : Ed25519Signature) (payload : json)
    (domain : bytes) : option ContractError :=
  let keyBytes := decodeBase64URL (ed_PublicSigningKeyEd25519 signature) in
  let signatureBytes := decodeBase64URL (ed_Signature signature) in
  let fingerprint := hex_EncodeToString (Sum256 (default [] keyBytes)) in
  let encoded := canonicalJSON payload in
  let verified := ed25519_Verify (default [] keyBytes) (domain ++ default [] encoded)
    (default [] signatureBytes) in
  invalid_when (ed_Algorithm signature ≠ "Ed25519" ∨ ed_SignerID signature = uuid_Nil ∨
    keyBytes = None ∨ signatureBytes = None ∨
    zlen (default [] keyBytes) ≠ ed25519_PublicKeySize ∨
    zlen (default [] signatureBytes) ≠ ed25519_SignatureSize ∨ encoded = None ∨
    fingerprint ≠ ed_SigningKeyFingerprint signature ∨ verified = false).

Section signed.
Context `{UuidLib} `{CurveLib} `{Ed25519Lib}.

Record SignedSpaceProtectionPolicy := mkSignedSpaceProtectionPolicy {
  ssp_Policy : SpaceProtectionPolicy;
  ssp_Signature : ES256Signature }.

Definition SignedSpaceProtectionPolicy_Validate (signed : SignedSpaceProtectionPolicy)
    : option ContractError :=
  SpaceProtectionPolicy_Validate (ssp_Policy signed) >>?
  verifyES256 (ssp_Signature signed) (SpaceProtectionPolicy_json (ssp_Policy signed))
    spacePolicyDomain.

Record PolicyAcknowledgement := mkPolicyAcknowledgement {
  pa_Version : Z;
  pa_AcknowledgementID : UUID;
  pa_SpaceID : UUID;
  pa_PolicyID : UUID;
  pa_PolicyRevision : uint64;
  pa_PolicyDigest : string;
  pa_ParticipantID : UUID;
  pa_AcknowledgedAtMilliseconds : int64;
  pa_Signature : ES256Signature }.

Definition PolicyAcknowledgement_signingPayload (a : PolicyAcknowledgement) : json :=
  JObject (
    field "version" (JInt (pa_Version a)) ++
    field "acknowledgementID" (JUuid (pa_AcknowledgementID a)) ++
    field "spaceID" (JUuid (pa_SpaceID a)) ++
    field "policyID" (JUuid (pa_PolicyID a)) ++
    field "policyRevision" (JInt (pa_PolicyRevision a)) ++
    field "policyDigest" (JString (pa_PolicyDigest a)) ++
    field "participantID" (JUuid (pa_ParticipantID a)) ++
    field "acknowledgedAtMilliseconds" (JInt (pa_AcknowledgedAtMilliseconds a))).

Definition PolicyAcknowledgement_Validate (a : PolicyAcknowledgement) : option ContractError :=
  invalid_when (pa_Version a ≠ 1 ∨ pa_AcknowledgementID a = uuid_Nil ∨ pa_SpaceID a = uuid_Nil ∨
    pa_PolicyID a = uuid_Nil ∨ pa_PolicyRevision a = 0 ∨ ¬ validSHA256Hex (pa_PolicyDigest a) ∨
    pa_ParticipantID a = uuid_Nil ∨ pa_AcknowledgedAtMilliseconds a < 0 ∨
    es_SignerID (pa_Signature a) ≠ pa_ParticipantID a) >>?
  verifyES256 (pa_Signature a) (PolicyAcknowledgement_signingPayload a)
    policyAcknowledgementDomain.

(** ** Signed worker cards *)

Record SignedWorkerCard := mkSignedWorkerCard {
  swc_Card : WorkerCard;
  swc_Signature : Ed25519Signature }.

Definition NewSignedWorkerCard (card : WorkerCard) (privateKey : bytes)
    : ContractError + SignedWorkerCard :=
  if decide (is_Some (WorkerCard_Validate card) ∨ zlen privateKey ≠ ed25519_PrivateKeySize)
  then inl ErrInvalidContract
  else
    match canonicalJSON (WorkerCard_json card) with
    | None => inl ErrInvalidContract
    | Some encoded =>
      let publicKey := ed25519_Public privateKey in
      inr (mkSignedWorkerCard card (mkEd25519Signature "Ed25519" (wc_WorkerEnrollmentID card)
        (b64_EncodeToString publicKey) (hex_EncodeToString (Sum256 publicKey))
        (b64_EncodeToString (ed25519_Sign privateKey (workerCardDomain ++ encoded)))))
    end.

Definition SignedWorkerCard_Validate (signed : SignedWorkerCard) (enrollment : WorkerEnrollment)
    : option ContractError :=
  let card := swc_Card signed in
  let signature := swc_Signature signed in
  let cardError := WorkerCard_Validate card in
  let enrollmentError := WorkerEnrollment_Validate enrollment in
  invalid_when (is_Some cardError ∨ is_Some enrollmentError ∨
    ed_SignerID signature ≠ wc_WorkerEnrollmentID card ∨
    we_EnrollmentID enrollment ≠ wc_WorkerEnrollmentID card ∨
    we_PoolID enrollment ≠ wc_PoolID card ∨
    we_WorkerOwnerAuthorityID enrollment ≠ wc_WorkerOwnerAuthorityID card ∨
    we_PublicSigningKeyEd25519 enrollment ≠ ed_PublicSigningKeyEd25519 signature ∨
    we_SigningKeyFingerprint enrollment ≠ ed_SigningKeyFingerprint signature ∨
    we_Enabled enrollment = false) >>?
  verifyEd25519 signature (WorkerCard_json card) workerCardDomain.
End signed.

(** ** Trust preferences *)

Definition TrustDisposition_Valid (value : string) : bool :=
  contains ["do_not_use"; "ask_every_time"; "allow_public"; "allow_personal";
            "allow_confidential"; "allow_restricted"]%string value.

Definition OperatorTrust_Valid (value : string) : bool :=
  contains ["no_additional_trust"; "accept_claims_as_declared"; "personally_trust_operator"]%string
    value.

Record TrustPreference := mkTrustPreference {
  tp_Version : Z;
  tp_PoolID : UUID;
  tp_WorkerCardID : UUID;
  tp_AcceptedWorkerCardRevision : uint64;
  tp_AcceptedWorkerCardDigest : string;
  tp_Disposition : string;
  tp_OperatorTrust : string;
  tp_CreatedAtMilliseconds : int64;
  tp_ExpiresAtMilliseconds : option int64 }.

Definition TrustPreference_Validate (p : TrustPreference) : option ContractError :=
  invalid_when (tp_Version p ≠ 1 ∨ tp_PoolID p = uuid_Nil ∨ tp_WorkerCardID p = uuid_Nil ∨
    tp_AcceptedWorkerCardRevision p = 0 ∨ ¬ validSHA256Hex (tp_AcceptedWorkerCardDigest p) ∨
    ¬ TrustDisposition_Valid (tp_Disposition p) ∨ ¬ OperatorTrust_Valid (tp_OperatorTrust p) ∨
    tp_CreatedAtMilliseconds p < 0 ∨
    some_and (tp_ExpiresAtMilliseconds p) (fun expires => expires ≤ tp_CreatedAtMilliseconds p)).

(** ** When a policy takes effect (policy_evaluator.go) *)

Definition controlPermissiveness (value : PolicyControl) : Z :=
  if decide (value = ControlProhibited) then 0
  else if decide (value = ControlConsentRequired) then 1
  else 2.

(** Some control of the second list is more permissive than the one at its
    place in the first. *)
Definition controls_weaken (old new : list PolicyControl) : bool :=
  existsb (fun on => bool_decide (controlPermissiveness on.2 > controlPermissiveness on.1))
    (zip old new).

Definition rule_controls (r : PrivacyClassRule) : list PolicyControl :=
  [pcr_PublicSharing r; pcr_ExternalProcessing r; pcr_ExportCopy r].

Definition rule_weakens (old new : PrivacyClassRule) : bool :=
  controls_weaken (rule_controls old) (rule_controls new) ||
  (negb (pcr_RememberedConsentAllowed old) && pcr_RememberedConsentAllowed new).

Definition policyIsWeakening (current proposed : SpaceProtectionPolicy) : bool :=
  let old := spp_Commitments current in
  let new := spp_Commitments proposed in
  controls_weaken (commitmentControls old) (commitmentControls new) ||
  (negb (spc_SharedBrowserHistoryEnabled old) && spc_SharedBrowserHistoryEnabled new) ||
  (spc_PrivateUserConfigurationsByDefault old &&
   negb (spc_PrivateUserConfigurationsByDefault new)) ||
  existsb (fun on => rule_weakens on.1 on.2) (zip (spp_Rules current) (spp_Rules proposed)).

Inductive PolicyActivationRequirement : Set :=
  | PolicyActivationImmediate | PolicyActivationUnanimous.

Record PolicyActivationEvaluation := mkPolicyActivationEvaluation {
  pae_Requirement : PolicyActivationRequirement;
  pae_AuthoritativePolicy : SpaceProtectionPolicy;
  pae_PendingPolicy : option SpaceProtectionPolicy;
  pae_MissingParticipantIDs : list UUID }.

Record PolicyParticipantSigningAuthority := mkPolicyParticipantSigningAuthority {
  psa_ParticipantID : UUID;
  psa_SigningKeyFingerprint : string }.

Section evaluation.
Context `{UuidLib} `{CurveLib}.

Definition sortedUniqueUUIDs (values : list UUID) : bool :=
  let texts := map uuid_String values in
  forallb (fun value => bool_decide (value ≠ uuid_Nil)) values &&
  sort_StringsAreSorted texts && bool_decide (NoDup texts).

Definition authority_map (participants : list PolicyParticipantSigningAuthority)
    : gmap UUID string :=
  foldl (fun m a => <[psa_ParticipantID a := psa_SigningKeyFingerprint a]> m) ∅ participants.

(** One acknowledgement counts for its participant. *)
Definition acknowledges (proposed : SpaceProtectionPolicy) (proposedDigest : string)
    (authorities : gmap UUID string) (a : PolicyAcknowledgement) : Prop :=
  PolicyAcknowledgement_Validate a = None ∧ pa_SpaceID a = spp_SpaceID proposed ∧
  pa_PolicyID a = spp_PolicyID proposed ∧ pa_PolicyRevision a = spp_Revision proposed ∧
  pa_PolicyDigest a = proposedDigest ∧
  default ""%string (authorities !! pa_ParticipantID a) =
    es_SigningKeyFingerprint (pa_Signature a).

#[global] Instance acknowledges_dec p d m a : Decision (acknowledges p d m a).
Proof. unfold acknowledges. apply _. Defined.

Definition EvaluatePolicyActivation (signedCurrent signedProposed : SignedSpaceProtectionPolicy)
    (expectedPolicyAuthorityID : UUID) (expectedPolicySigningKeyFingerprint : string)
    (activeParticipants : list PolicyParticipantSigningAuthority)
    (acknowledgements : list PolicyAcknowledgement)
    : ContractError + PolicyActivationEvaluation :=
  let current := ssp_Policy signedCurrent in
  let proposed := ssp_Policy signedProposed in
  let participantIDs := map psa_ParticipantID activeParticipants in
  let authorityByParticipant := authority_map activeParticipants in
  match
    invalid_when (Exists (fun a => psa_ParticipantID a = uuid_Nil ∨
      ¬ validSHA256Hex (psa_SigningKeyFingerprint a)) activeParticipants) >>?
    invalid_when (is_Some (SignedSpaceProtectionPolicy_Validate signedCurrent) ∨
      is_Some (SignedSpaceProtectionPolicy_Validate signedProposed) ∨
      es_SignerID (ssp_Signature signedCurrent) ≠ expectedPolicyAuthorityID ∨
      es_SignerID (ssp_Signature signedProposed) ≠ expectedPolicyAuthorityID ∨
      es_SigningKeyFingerprint (ssp_Signature signedCurrent) ≠
        expectedPolicySigningKeyFingerprint ∨
      es_SigningKeyFingerprint (ssp_Signature signedProposed) ≠
        expectedPolicySigningKeyFingerprint ∨
      spp_PolicyID current ≠ spp_PolicyID proposed ∨ spp_SpaceID current ≠ spp_SpaceID proposed ∨
      spp_SharedSpaceSecurityProfile current ≠ spp_SharedSpaceSecurityProfile proposed ∨
      spp_Revision proposed ≠ u64 (spp_Revision current + 1) ∨
      spp_PredecessorDigest proposed = None ∨ zlen participantIDs = 0 ∨
      ¬ sortedUniqueUUIDs participantIDs ∨
      zsize authorityByParticipant ≠ zlen activeParticipants) >>?
    invalid_when (SpaceProtectionPolicy_Digest current = None ∨
      spp_PredecessorDigest proposed ≠ SpaceProtectionPolicy_Digest current)
  with
  | Some err => inl err
  | None =>
    if policyIsWeakening current proposed then
      let proposedDigest := default ""%string (SpaceProtectionPolicy_Digest proposed) in
      let accepted :=
        pa_ParticipantID <$>
        filter (acknowledges proposed proposedDigest authorityByParticipant) acknowledgements in
      let missing := filter (fun id => id ∉ accepted) participantIDs in
      match missing with
      | [] => inr (mkPolicyActivationEvaluation PolicyActivationUnanimous proposed None [])
      | _ => inr (mkPolicyActivationEvaluation PolicyActivationUnanimous current (Some proposed)
                missing)
      end
    else inr (mkPolicyActivationEvaluation PolicyActivationImmediate proposed None [])
  end.
End evaluation.

Definition consentReceiptDomain : bytes := domain_separator "Facets disclosure consent receipt v1".
Definition maximumConsentLifetimeMillis : int64 := 30 * 24 * 60 * 60 * 1000.

(** ** Vocabulary *)

Abbreviation DisclosureFrictionCode := string (only parsing).

Definition DisclosureFrictionCode_Valid (value : DisclosureFrictionCode) : bool :=
  contains ["restricted_to_public"; "sensitive_external_processing"; "first_use_external_provider";
    "mixed_privacy_selection"; "provider_outside_constraint"; "retention_outside_constraint";
    "tool_access_outside_constraint"; "space_commitment_prohibits";
    "space_policy_consent_required"; "data_use_constraint_consent_required";
    "worker_trust_insufficient"; "worker_trust_review_required";
    "offering_assurance_changed"]%string value.

Abbreviation DisclosureDecision := string (only parsing).
Definition DecisionAllow : DisclosureDecision := "allow".
Definition DecisionConsentRequired : DisclosureDecision := "consent_required".
Definition DecisionProhibit : DisclosureDecision := "prohibit".

Definition DisclosureDecision_Valid (value : DisclosureDecision) : bool :=
  contains [DecisionAllow; DecisionConsentRequired; DecisionProhibit] value.

Abbreviation DisclosureAction := string (only parsing).
Definition DisclosureShare : DisclosureAction := "share".
Definition DisclosureProcess : DisclosureAction := "process".
Definition DisclosureExportCopy : DisclosureAction := "export_copy".

Definition DisclosureAction_Valid (value : DisclosureAction) : bool :=
  contains [DisclosureShare; DisclosureProcess; DisclosureExportCopy] value.

Abbreviation DisclosureDestinationKind := string (only parsing).
Definition DestinationSpace : DisclosureDestinationKind := "space".
Definition DestinationPublicAudience : DisclosureDestinationKind := "public_audience".
Definition DestinationComputeOffering : DisclosureDestinationKind := "compute_offering".

(** ** Destinations

    The provider of a destination is a [*string], and the source compares
    destinations with [!=]: pointers by address. *)

Record StringPointer := mkStringPointer {
  sp_address : N;
  sp_value : string }.

Record DisclosureDestination := mkDisclosureDestination {
  dd_Kind : DisclosureDestinationKind;
  dd_DestinationIdentifier : string;
  dd_ProviderIdentifier : option StringPointer }.

Abbreviation is_compute d := (dd_Kind d = DestinationComputeOffering) (only parsing).

Definition DisclosureDestination_Validate (d : DisclosureDestination) : option ContractError :=
  invalid_when ((dd_Kind d ≠ DestinationSpace ∧ dd_Kind d ≠ DestinationPublicAudience ∧
      ¬ is_compute d) ∨
    ¬ validIdentifier (dd_DestinationIdentifier d) ∨
    ¬ (is_compute d ↔ is_Some (dd_ProviderIdentifier d)) ∨
    some_and (dd_ProviderIdentifier d) (fun provider => ¬ validIdentifier (sp_value provider))).

(** [left == right] on the structs. *)
Definition same_destination (left right : DisclosureDestination) : Prop :=
  dd_Kind left = dd_Kind right ∧
  dd_DestinationIdentifier left = dd_DestinationIdentifier right ∧
  (sp_address <$> dd_ProviderIdentifier left) = (sp_address <$> dd_ProviderIdentifier right).

#[global] Instance same_destination_dec l r : Decision (same_destination l r).
Proof. unfold same_destination. apply _. Defined.

(** ** Plans *)

Record DisclosureObjectScope := mkDisclosureObjectScope {
  dos_ObjectID : string;
  dos_ContentDigest : string;
  dos_PrivacyClass : PrivacyClass;
  dos_SelectedFields : Slice string }.

Definition DisclosureObjectScope_Validate (s : DisclosureObjectScope) : option ContractError :=
  invalid_when (¬ validIdentifier (dos_ObjectID s) ∨ ¬ validSHA256Hex (dos_ContentDigest s) ∨
    ¬ PrivacyClass_Valid (dos_PrivacyClass s) ∨
    ¬ validIdentifiers (elements (dos_SelectedFields s)) true).

Record DisclosurePrivacyComposition := mkDisclosurePrivacyComposition {
  dpc_PrivacyClass : PrivacyClass;
  dpc_ObjectCount : uint64 }.

#[global] Instance DisclosurePrivacyComposition_eq_dec : EqDecision DisclosurePrivacyComposition.
Proof. solve_decision. Defined.

Record DisclosurePartition := mkDisclosurePartition {
  dpt_PartitionID : UUID;
  dpt_ObjectIDs : list string;
  dpt_EffectivePrivacyClass : PrivacyClass;
  dpt_Destination : DisclosureDestination;
  dpt_WorkerCardID : option UUID;
  dpt_WorkerCardRevision : option uint64;
  dpt_WorkerCardDigest : option string;
  dpt_OfferingID : option UUID;
  dpt_OfferingRevision : option uint64;
  dpt_Decision : DisclosureDecision;
  dpt_FrictionCodes : Slice DisclosureFrictionCode }.

(** [value] is present exactly when [scoped]. *)
Definition scope_differs {A} (scoped : Prop) (value : option A) : Prop := ¬ (scoped ↔ is_Some value).

#[global] Instance scope_differs_dec {A} P `{Decision P} (o : option A) : Decision (scope_differs P o).
Proof. unfold scope_differs. apply _. Defined.

Fixpoint codes_after (previous : string) (values : list DisclosureFrictionCode) : bool :=
  match values with
  | [] => true
  | value :: values =>
    DisclosureFrictionCode_Valid value && bool_decide (value ≠ previous) && codes_after value values
  end.

Definition validFrictionCodes (values : list DisclosureFrictionCode) : bool :=
  bool_decide (zlen values ≤ maximumIdentifierCount) && sort_StringsAreSorted values &&
  codes_after "" values.

Definition DisclosurePartition_Validate (p : DisclosurePartition) : option ContractError :=
  invalid_when (dpt_PartitionID p = uuid_Nil ∨ ¬ validIdentifiers (dpt_ObjectIDs p) false ∨
    ¬ PrivacyClass_Valid (dpt_EffectivePrivacyClass p) ∨
    is_Some (DisclosureDestination_Validate (dpt_Destination p)) ∨
    scope_differs (is_compute (dpt_Destination p)) (dpt_WorkerCardID p) ∨
    scope_differs (is_compute (dpt_Destination p)) (dpt_WorkerCardRevision p) ∨
    scope_differs (is_compute (dpt_Destination p)) (dpt_WorkerCardDigest p) ∨
    scope_differs (is_compute (dpt_Destination p)) (dpt_OfferingID p) ∨
    scope_differs (is_compute (dpt_Destination p)) (dpt_OfferingRevision p) ∨
    some_and (dpt_WorkerCardID p) (fun id => id = uuid_Nil) ∨
    some_and (dpt_OfferingID p) (fun id => id = uuid_Nil) ∨
    some_and (dpt_WorkerCardRevision p) (fun revision => revision = 0) ∨
    some_and (dpt_OfferingRevision p) (fun revision => revision = 0) ∨
    some_and (dpt_WorkerCardDigest p) (fun digest => ¬ validSHA256Hex digest) ∨
    ¬ DisclosureDecision_Valid (dpt_Decision p) ∨
    ¬ validFrictionCodes (elements (dpt_FrictionCodes p)) ∨
    ¬ (dpt_Decision p = DecisionAllow ↔ zlen (elements (dpt_FrictionCodes p)) = 0)).

Record DisclosurePlan := mkDisclosurePlan {
  dp_Version : Z;
  dp_PlanID : UUID;
  dp_Action : DisclosureAction;
  dp_SourceSpaceID : option UUID;
  dp_SpacePolicyRevision : option uint64;
  dp_SpacePolicyDigest : option string;
  dp_RosterAudienceDigest : option string;
  dp_Objects : list DisclosureObjectScope;
  dp_PrivacyComposition : list DisclosurePrivacyComposition;
  dp_Destination : DisclosureDestination;
  dp_Consequences : Slice string;
  dp_FrictionCodes : Slice DisclosureFrictionCode;
  dp_Partitions : list DisclosurePartition;
  dp_Decision : DisclosureDecision;
  dp_CreatedAtMilliseconds : int64;
  dp_ExpiresAtMilliseconds : int64 }.

(** The rank of a privacy class, [-1] for an unknown one. *)
Definition privacyRank (value : PrivacyClass) : Z :=
  match list_find (fun candidate => candidate = value) privacyClasses with
  | Some (index, _) => Z.of_nat index
  | None => -1
  end.

Definition class_count (class : PrivacyClass) (objects : list DisclosureObjectScope) : uint64 :=
  u64 (zlen (filter (fun object => dos_PrivacyClass object = class) objects)).

Definition expected_composition (objects : list DisclosureObjectScope)
    : list DisclosurePrivacyComposition :=
  omap (fun class =>
    if decide (class_count class objects > 0)
    then Some (mkDisclosurePrivacyComposition class (class_count class objects)) else None)
    privacyClasses.

(** The decision of a plan is the strictest of its partitions. *)
Definition combine_decision (aggregate decision : DisclosureDecision) : DisclosureDecision :=
  if decide (decision = DecisionProhibit) then DecisionProhibit
  else if decide (decision = DecisionConsentRequired ∧ aggregate = DecisionAllow)
  then DecisionConsentRequired
  else aggregate.

Definition aggregate_decision (partitions : list DisclosurePartition) : DisclosureDecision :=
  foldl combine_decision DecisionAllow (dpt_Decision <$> partitions).

Definition aggregate_friction (partitions : list DisclosurePartition) : gset string :=
  list_to_set (partitions ≫= fun p => elements (dpt_FrictionCodes p)).

Definition object_by_id (objects : list DisclosureObjectScope) (id : string)
    : option DisclosureObjectScope :=
  snd <$> list_find (fun object => dos_ObjectID object = id) (reverse objects).

(** The objects of one partition: each is one of the plan, was in no earlier
    partition, and is no more private than the partition. *)
Fixpoint cover_objects (objects : list DisclosureObjectScope) (class : PrivacyClass)
    (covered : gset string) (ids : list string) : option (gset string) :=
  match ids with
  | [] => Some covered
  | id :: ids =>
    object ← object_by_id objects id;
    if decide (id ∈ covered ∨ ¬ PrivacyClass_Valid class ∨
               privacyRank class < privacyRank (dos_PrivacyClass object))
    then None else cover_objects objects class ({[id]} ∪ covered) ids
  end.

Section plan.
Context `{UuidLib}.

Fixpoint cover_partitions (plan : DisclosurePlan) (previous : string) (covered : gset string)
    (partitions : list DisclosurePartition) : option (gset string) :=
  match partitions with
  | [] => Some covered
  | p :: partitions =>
    let current := uuid_String (dpt_PartitionID p) in
    if decide (is_Some (DisclosurePartition_Validate p) ∨ str_le current previous ∨
               ¬ same_destination (dpt_Destination p) (dp_Destination plan))
    then None
    else
      covered ← cover_objects (dp_Objects plan) (dpt_EffectivePrivacyClass p) covered
        (dpt_ObjectIDs p);
      cover_partitions plan current covered partitions
  end.

Definition DisclosurePlan_Validate (p : DisclosurePlan) : option ContractError :=
  let codes := elements (dp_FrictionCodes p) in
  invalid_when (dp_Version p ≠ 1 ∨ dp_PlanID p = uuid_Nil ∨ ¬ DisclosureAction_Valid (dp_Action p) ∨
    scope_differs (is_Some (dp_SourceSpaceID p)) (dp_SpacePolicyRevision p) ∨
    scope_differs (is_Some (dp_SourceSpaceID p)) (dp_SpacePolicyDigest p) ∨
    scope_differs (is_Some (dp_SourceSpaceID p)) (dp_RosterAudienceDigest p) ∨
    some_and (dp_SourceSpaceID p) (fun id => id = uuid_Nil) ∨
    some_and (dp_SpacePolicyRevision p) (fun revision => revision = 0) ∨
    some_and (dp_SpacePolicyDigest p) (fun digest => ¬ validSHA256Hex digest) ∨
    some_and (dp_RosterAudienceDigest p) (fun digest => ¬ validSHA256Hex digest) ∨
    zlen (dp_Objects p) = 0 ∨ is_Some (DisclosureDestination_Validate (dp_Destination p)) ∨
    ¬ validIdentifiers (elements (dp_Consequences p)) true ∨ ¬ validFrictionCodes codes ∨
    zlen (dp_Partitions p) = 0 ∨ ¬ DisclosureDecision_Valid (dp_Decision p) ∨
    ¬ (dp_Decision p = DecisionAllow ↔ zlen codes = 0) ∨
    dp_CreatedAtMilliseconds p < 0 ∨
    dp_ExpiresAtMilliseconds p ≤ dp_CreatedAtMilliseconds p) >>?
  invalid_when (¬ increasing_after
    (fun object => bool_decide (DisclosureObjectScope_Validate object = None)) dos_ObjectID ""
    (dp_Objects p)) >>?
  invalid_when (expected_composition (dp_Objects p) ≠ dp_PrivacyComposition p) >>?
  match cover_partitions p "" ∅ (dp_Partitions p) with
  | None => Some ErrInvalidContract
  | Some covered =>
    let friction := aggregate_friction (dp_Partitions p) in
    invalid_when (Z.of_nat (size covered) ≠ zlen (dp_Objects p) ∨
      aggregate_decision (dp_Partitions p) ≠ dp_Decision p ∨
      Z.of_nat (size friction) ≠ zlen codes) >>?
    invalid_when (Exists (fun code => code ∉ friction) codes)
  end.

(** ** JSON *)

Definition DisclosureDestination_json (d : DisclosureDestination) : json :=
  JObject (
    field "kind" (JString (dd_Kind d)) ++
    field "destinationIdentifier" (JString (dd_DestinationIdentifier d)) ++
    optional "providerIdentifier" JString (sp_value <$> dd_ProviderIdentifier d)).

Definition DisclosureObjectScope_json (s : DisclosureObjectScope) : json :=
  JObject (
    field "objectID" (JString (dos_ObjectID s)) ++
    field "contentDigest" (JString (dos_ContentDigest s)) ++
    field "privacyClass" (JString (dos_PrivacyClass s)) ++
    field "selectedFields" (JSlice JString (dos_SelectedFields s))).

Definition DisclosurePrivacyComposition_json (c : DisclosurePrivacyComposition) : json :=
  JObject (
    field "privacyClass" (JString (dpc_PrivacyClass c)) ++
    field "objectCount" (JInt (dpc_ObjectCount c))).

Definition DisclosurePartition_json (p : DisclosurePartition) : json :=
  JObject (
    field "partitionID" (JUuid (dpt_PartitionID p)) ++
    field "objectIDs" (JList JString (dpt_ObjectIDs p)) ++
    field "effectivePrivacyClass" (JString (dpt_EffectivePrivacyClass p)) ++
    field "destination" (DisclosureDestination_json (dpt_Destination p)) ++
    optional "workerCardID" JUuid (dpt_WorkerCardID p) ++
    optional "workerCardRevision" JInt (dpt_WorkerCardRevision p) ++
    optional "workerCardDigest" JString (dpt_WorkerCardDigest p) ++
    optional "offeringID" JUuid (dpt_OfferingID p) ++
    optional "offeringRevision" JInt (dpt_OfferingRevision p) ++
    field "decision" (JString (dpt_Decision p)) ++
    field "frictionCodes" (JSlice JString (dpt_FrictionCodes p))).

Definition DisclosurePlan_json (p : DisclosurePlan) : json :=
  JObject (
    field "version" (JInt (dp_Version p)) ++
    field "planID" (JUuid (dp_PlanID p)) ++
    field "action" (JString (dp_Action p)) ++
    optional "sourceSpaceID" JUuid (dp_SourceSpaceID p) ++
    optional "spacePolicyRevision" JInt (dp_SpacePolicyRevision p) ++
    optional "spacePolicyDigest" JString (dp_SpacePolicyDigest p) ++
    optional "rosterAudienceDigest" JString (dp_RosterAudienceDigest p) ++
    field "objects" (JList DisclosureObjectScope_json (dp_Objects p)) ++
    field "privacyComposition"
      (JList DisclosurePrivacyComposition_json (dp_PrivacyComposition p)) ++
    field "destination" (DisclosureDestination_json (dp_Destination p)) ++
    field "consequences" (JSlice JString (dp_Consequences p)) ++
    field "frictionCodes" (JSlice JString (dp_FrictionCodes p)) ++
    field "partitions" (JList DisclosurePartition_json (dp_Partitions p)) ++
    field "decision" (JString (dp_Decision p)) ++
    field "createdAtMilliseconds" (JInt (dp_CreatedAtMilliseconds p)) ++
    field "expiresAtMilliseconds" (JInt (dp_ExpiresAtMilliseconds p))).

Definition DisclosurePlan_Digest (p : DisclosurePlan) : option string :=
  canonicalDigest (DisclosurePlan_json p).
End plan.
