(* ===== verification/ComputeAdmission.v ===== *)
(** * internal/computepool: authorization, admission and receipts

    [admission_contracts.go]: the signed records through which a job passes
    from consent to the application of its result, and the cross-checks
    between one record and the next. *)

From S2P Require Import Prelude GoEncoding GoText Sha256 P256 RelayModel ServiceAuthority ComputePool ComputePrivacy.
#[local] Open Scope Z_scope.

Definition invocationAuthorizationDomain : bytes :=
  domain_separator "Facets Compute invocation authorization v1".
Definition poolAdmissionDomain : bytes := domain_separator "Facets Compute Pool admission v1".
Definition poolJobTransitionDomain : bytes :=
  domain_separator "Facets Compute Pool job transition v1".
Definition workerExecutionDomain : bytes :=
  domain_separator "Facets Compute Worker execution receipt v1".
Definition resultApplicationDomain : bytes :=
  domain_separator "Facets Compute result application receipt v1".

(** ** Signing authorities *)

Record P256SigningAuthority := mkP256SigningAuthority {
  p256_SignerID : UUID;
  p256_SigningKeyFingerprint : string }.

Definition P256SigningAuthority_Validate (a : P256SigningAuthority) : option ContractError :=
  invalid_when (p256_SignerID a = uuid_Nil ∨ ¬ validSHA256Hex (p256_SigningKeyFingerprint a)).

Definition authorizes (a : P256SigningAuthority) (signature : ES256Signature) : bool :=
  bool_decide (p256_SignerID a = es_SignerID signature ∧
    p256_SigningKeyFingerprint a = es_SigningKeyFingerprint signature).

Definition anyP256AuthorityAuthorizes (authorities : list P256SigningAuthority)
    (signature : ES256Signature) : bool :=
  existsb (fun a => bool_decide (P256SigningAuthority_Validate a = None) && authorizes a signature)
    authorities.

Section records.
Context `{UuidLib} `{CurveLib} `{Ed25519Lib}.

(** ** Consent *)

Record ConsentReceipt := mkConsentReceipt {
  cr_Version : Z;
  cr_ReceiptID : UUID;
  cr_PlanID : UUID;
  cr_PlanDigest : string;
  cr_ConsentingDeviceID : UUID;
  cr_ConsentedAtMilliseconds : int64;
  cr_Signature : ES256Signature }.

Definition ConsentReceipt_fields (r : ConsentReceipt) : list (string * json) :=
  field "version" (JInt (cr_Version r)) ++
  field "receiptID" (JUuid (cr_ReceiptID r)) ++
  field "planID" (JUuid (cr_PlanID r)) ++
  field "planDigest" (JString (cr_PlanDigest r)) ++
  field "consentingDeviceID" (JUuid (cr_ConsentingDeviceID r)) ++
  field "consentedAtMilliseconds" (JInt (cr_ConsentedAtMilliseconds r)).

Definition ConsentReceipt_signingPayload (r : ConsentReceipt) : json :=
  JObject (ConsentReceipt_fields r).

Definition ConsentReceipt_Validate (r : ConsentReceipt) : option ContractError :=
  invalid_when (cr_Version r ≠ 1 ∨ cr_ReceiptID r = uuid_Nil ∨ cr_PlanID r = uuid_Nil ∨
    cr_ConsentingDeviceID r = uuid_Nil ∨
    es_SignerID (cr_Signature r) ≠ cr_ConsentingDeviceID r ∨
    ¬ validSHA256Hex (cr_PlanDigest r) ∨ cr_ConsentedAtMilliseconds r < 0) >>?
  verifyES256 (cr_Signature r) (ConsentReceipt_signingPayload r) consentReceiptDomain.

Definition ConsentReceipt_Digest (r : ConsentReceipt) : option string :=
  canonicalDigest (JObject (ConsentReceipt_fields r ++
    field "signature" (ES256Signature_json (cr_Signature r)))).

Definition ConsentReceipt_ValidatePlan (r : ConsentReceipt) (plan : DisclosurePlan)
    (consentingDeviceAuthority : P256SigningAuthority) : option ContractError :=
  let receiptError := ConsentReceipt_Validate r in
  let planError := DisclosurePlan_Validate plan in
  invalid_when (is_Some receiptError ∨ is_Some planError ∨
    ¬ authorizes consentingDeviceAuthority (cr_Signature r) ∨ cr_PlanID r ≠ dp_PlanID plan ∨
    dp_Decision plan ≠ DecisionConsentRequired ∨
    cr_ConsentedAtMilliseconds r < dp_CreatedAtMilliseconds plan ∨
    cr_ConsentedAtMilliseconds r ≥ dp_ExpiresAtMilliseconds plan) >>?
  invalid_when (DisclosurePlan_Digest plan ≠ Some (cr_PlanDigest r)).

Record ConsentRule := mkConsentRule {
  cru_Version : Z;
  cru_RuleID : UUID;
  cru_Action : DisclosureAction;
  cru_Destination : DisclosureDestination;
  cru_ObjectScopeDigest : string;
  cru_SelectedFields : list string;
  cru_MaximumPrivacyClass : PrivacyClass;
  cru_SourceSpaceID : option UUID;
  cru_SpacePolicyRevision : option uint64;
  cru_SpacePolicyDigest : option string;
  cru_RosterAudienceDigest : option string;
  cru_WorkerCardID : option UUID;
  cru_WorkerCardRevision : option uint64;
  cru_WorkerCardDigest : option string;
  cru_OfferingID : option UUID;
  cru_OfferingRevision : option uint64;
  cru_ProviderIdentifier : option string;
  cru_CreatedAtMilliseconds : int64;
  cru_ExpiresAtMilliseconds : int64 }.

Definition ConsentRule_Validate (r : ConsentRule) : option ContractError :=
  invalid_when (cru_Version r ≠ 1 ∨ cru_RuleID r = uuid_Nil ∨
    ¬ DisclosureAction_Valid (cru_Action r) ∨
    is_Some (DisclosureDestination_Validate (cru_Destination r)) ∨
    ¬ validSHA256Hex (cru_ObjectScopeDigest r) ∨ ¬ validIdentifiers (cru_SelectedFields r) true ∨
    (cru_MaximumPrivacyClass r ≠ PrivacyPublic ∧ cru_MaximumPrivacyClass r ≠ PrivacyPersonal) ∨
    scope_differs (is_Some (cru_SourceSpaceID r)) (cru_SpacePolicyRevision r) ∨
    scope_differs (is_Some (cru_SourceSpaceID r)) (cru_SpacePolicyDigest r) ∨
    scope_differs (is_Some (cru_SourceSpaceID r)) (cru_RosterAudienceDigest r) ∨
    scope_differs (is_compute (cru_Destination r)) (cru_WorkerCardID r) ∨
    scope_differs (is_compute (cru_Destination r)) (cru_WorkerCardRevision r) ∨
    scope_differs (is_compute (cru_Destination r)) (cru_WorkerCardDigest r) ∨
    scope_differs (is_compute (cru_Destination r)) (cru_OfferingID r) ∨
    scope_differs (is_compute (cru_Destination r)) (cru_OfferingRevision r) ∨
    scope_differs (is_compute (cru_Destination r)) (cru_ProviderIdentifier r) ∨
    some_and (cru_SourceSpaceID r) (fun id => id = uuid_Nil) ∨
    some_and (cru_WorkerCardID r) (fun id => id = uuid_Nil) ∨
    some_and (cru_OfferingID r) (fun id => id = uuid_Nil) ∨
    some_and (cru_SpacePolicyRevision r) (fun revision => revision = 0) ∨
    some_and (cru_WorkerCardRevision r) (fun revision => revision = 0) ∨
    some_and (cru_OfferingRevision r) (fun revision => revision = 0) ∨
    some_and (cru_SpacePolicyDigest r) (fun digest => ¬ validSHA256Hex digest) ∨
    some_and (cru_RosterAudienceDigest r) (fun digest => ¬ validSHA256Hex digest) ∨
    some_and (cru_WorkerCardDigest r) (fun digest => ¬ validSHA256Hex digest) ∨
    some_and (cru_ProviderIdentifier r) (fun provider => ¬ validIdentifier provider) ∨
    cru_CreatedAtMilliseconds r < 0 ∨
    cru_ExpiresAtMilliseconds r ≤ cru_CreatedAtMilliseconds r ∨
    i64 (cru_ExpiresAtMilliseconds r - cru_CreatedAtMilliseconds r) >
      maximumConsentLifetimeMillis).

(** ** Invocation authorizations *)

Record InvocationAuthorization := mkInvocationAuthorization {
  ia_Version : Z;
  ia_AuthorizationID : UUID;
  ia_RequestID : UUID;
  ia_PoolID : UUID;
  ia_WorkerCardID : UUID;
  ia_WorkerCardRevision : uint64;
  ia_WorkerCardDigest : string;
  ia_OfferingID : UUID;
  ia_OfferingRevision : uint64;
  ia_RequestDigest : string;
  ia_PayloadDigest : string;
  ia_DisclosurePlanDigest : string;
  ia_ConsentReceiptDigest : option string;
  ia_AuthorizedPrivacyClass : PrivacyClass;
  ia_AuthorizedAtMilliseconds : int64;
  ia_ExpiresAtMilliseconds : int64;
  ia_Signature : ES256Signature }.

Definition InvocationAuthorization_fields (a : InvocationAuthorization) : list (string * json) :=
  field "version" (JInt (ia_Version a)) ++
  field "authorizationID" (JUuid (ia_AuthorizationID a)) ++
  field "requestID" (JUuid (ia_RequestID a)) ++
  field "poolID" (JUuid (ia_PoolID a)) ++
  field "workerCardID" (JUuid (ia_WorkerCardID a)) ++
  field "workerCardRevision" (JInt (ia_WorkerCardRevision a)) ++
  field "workerCardDigest" (JString (ia_WorkerCardDigest a)) ++
  field "offeringID" (JUuid (ia_OfferingID a)) ++
  field "offeringRevision" (JInt (ia_OfferingRevision a)) ++
  field "requestDigest" (JString (ia_RequestDigest a)) ++
  field "payloadDigest" (JString (ia_PayloadDigest a)) ++
  field "disclosurePlanDigest" (JString (ia_DisclosurePlanDigest a)) ++
  optional "consentReceiptDigest" JString (ia_ConsentReceiptDigest a) ++
  field "authorizedPrivacyClass" (JString (ia_AuthorizedPrivacyClass a)) ++
  field "authorizedAtMilliseconds" (JInt (ia_AuthorizedAtMilliseconds a)) ++
  field "expiresAtMilliseconds" (JInt (ia_ExpiresAtMilliseconds a)).

Definition InvocationAuthorization_signingPayload (a : InvocationAuthorization) : json :=
  JObject (InvocationAuthorization_fields a).

Definition InvocationAuthorization_Validate (a : InvocationAuthorization) : option ContractError :=
  invalid_when (ia_Version a ≠ 1 ∨ ia_AuthorizationID a = uuid_Nil ∨ ia_RequestID a = uuid_Nil ∨
    ia_PoolID a = uuid_Nil ∨ ia_WorkerCardID a = uuid_Nil ∨ ia_OfferingID a = uuid_Nil ∨
    ia_WorkerCardRevision a = 0 ∨ ia_OfferingRevision a = 0 ∨
    ¬ validSHA256Hex (ia_WorkerCardDigest a) ∨ ¬ validSHA256Hex (ia_RequestDigest a) ∨
    ¬ validSHA256Hex (ia_PayloadDigest a) ∨ ¬ validSHA256Hex (ia_DisclosurePlanDigest a) ∨
    some_and (ia_ConsentReceiptDigest a) (fun digest => ¬ validSHA256Hex digest) ∨
    ¬ PrivacyClass_Valid (ia_AuthorizedPrivacyClass a) ∨ ia_AuthorizedAtMilliseconds a < 0 ∨
    ia_ExpiresAtMilliseconds a ≤ ia_AuthorizedAtMilliseconds a) >>?
  verifyES256 (ia_Signature a) (InvocationAuthorization_signingPayload a)
    invocationAuthorizationDomain.

Definition InvocationAuthorization_Digest (a : InvocationAuthorization) : option string :=
  canonicalDigest (JObject (InvocationAuthorization_fields a ++
    field "signature" (ES256Signature_json (ia_Signature a)))).

(** ** Pool admissions *)

Record PoolAdmission := mkPoolAdmission {
  pad_Version : Z;
  pad_AdmissionID : UUID;
  pad_JobID : UUID;
  pad_PoolID : UUID;
  pad_InvocationAuthorizationID : UUID;
  pad_InvocationAuthorizationDigest : string;
  pad_WorkerEnrollmentID : UUID;
  pad_WorkerCardID : UUID;
  pad_WorkerCardRevision : uint64;
  pad_WorkerCardDigest : string;
  pad_OfferingID : UUID;
  pad_OfferingRevision : uint64;
  pad_ResourceCeiling : ResourceCeiling;
  pad_BudgetCeiling : BudgetCeiling;
  pad_AdmittedAtMilliseconds : int64;
  pad_ExpiresAtMilliseconds : int64;
  pad_LeaseExpiresAtMilliseconds : int64;
  pad_Signature : ES256Signature }.

Definition PoolAdmission_fields (a : PoolAdmission) : list (string * json) :=
  field "version" (JInt (pad_Version a)) ++
  field "admissionID" (JUuid (pad_AdmissionID a)) ++
  field "jobID" (JUuid (pad_JobID a)) ++
  field "poolID" (JUuid (pad_PoolID a)) ++
  field "invocationAuthorizationID" (JUuid (pad_InvocationAuthorizationID a)) ++
  field "invocationAuthorizationDigest" (JString (pad_InvocationAuthorizationDigest a)) ++
  field "workerEnrollmentID" (JUuid (pad_WorkerEnrollmentID a)) ++
  field "workerCardID" (JUuid (pad_WorkerCardID a)) ++
  field "workerCardRevision" (JInt (pad_WorkerCardRevision a)) ++
  field "workerCardDigest" (JString (pad_WorkerCardDigest a)) ++
  field "offeringID" (JUuid (pad_OfferingID a)) ++
  field "offeringRevision" (JInt (pad_OfferingRevision a)) ++
  field "resourceCeiling" (ResourceCeiling_json (pad_ResourceCeiling a)) ++
  field "budgetCeiling" (BudgetCeiling_json (pad_BudgetCeiling a)) ++
  field "admittedAtMilliseconds" (JInt (pad_AdmittedAtMilliseconds a)) ++
  field "expiresAtMilliseconds" (JInt (pad_ExpiresAtMilliseconds a)) ++
  field "leaseExpiresAtMilliseconds" (JInt (pad_LeaseExpiresAtMilliseconds a)).

Definition PoolAdmission_signingPayload (a : PoolAdmission) : json :=
  JObject (PoolAdmission_fields a).

Definition PoolAdmission_Validate (a : PoolAdmission) : option ContractError :=
  invalid_when (pad_Version a ≠ 1 ∨ pad_AdmissionID a = uuid_Nil ∨ pad_JobID a = uuid_Nil ∨
    pad_PoolID a = uuid_Nil ∨ pad_InvocationAuthorizationID a = uuid_Nil ∨
    pad_WorkerEnrollmentID a = uuid_Nil ∨ pad_WorkerCardID a = uuid_Nil ∨
    pad_OfferingID a = uuid_Nil ∨ pad_WorkerCardRevision a = 0 ∨ pad_OfferingRevision a = 0 ∨
    ¬ validSHA256Hex (pad_InvocationAuthorizationDigest a) ∨
    ¬ validSHA256Hex (pad_WorkerCardDigest a) ∨
    is_Some (ResourceCeiling_Validate (pad_ResourceCeiling a)) ∨
    is_Some (BudgetCeiling_Validate (pad_BudgetCeiling a)) ∨ pad_AdmittedAtMilliseconds a < 0 ∨
    pad_ExpiresAtMilliseconds a ≤ pad_AdmittedAtMilliseconds a ∨
    pad_LeaseExpiresAtMilliseconds a ≤ pad_AdmittedAtMilliseconds a ∨
    pad_LeaseExpiresAtMilliseconds a > pad_ExpiresAtMilliseconds a) >>?
  verifyES256 (pad_Signature a) (PoolAdmission_signingPayload a) poolAdmissionDomain.

Definition PoolAdmission_Digest (a : PoolAdmission) : option string :=
  canonicalDigest (JObject (PoolAdmission_fields a ++
    field "signature" (ES256Signature_json (pad_Signature a)))).

Definition PoolAdmission_ValidateAuthorization (a : PoolAdmission)
    (authorization : InvocationAuthorization) : option ContractError :=
  let admissionError := PoolAdmission_Validate a in
  let authorizationError := InvocationAuthorization_Validate authorization in
  invalid_when (is_Some admissionError ∨ is_Some authorizationError ∨
    ia_AuthorizationID authorization ≠ pad_InvocationAuthorizationID a ∨
    ia_PoolID authorization ≠ pad_PoolID a ∨ ia_WorkerCardID authorization ≠ pad_WorkerCardID a ∨
    ia_WorkerCardRevision authorization ≠ pad_WorkerCardRevision a ∨
    ia_WorkerCardDigest authorization ≠ pad_WorkerCardDigest a ∨
    ia_OfferingID authorization ≠ pad_OfferingID a ∨
    ia_OfferingRevision authorization ≠ pad_OfferingRevision a ∨
    pad_AdmittedAtMilliseconds a < ia_AuthorizedAtMilliseconds authorization ∨
    pad_ExpiresAtMilliseconds a > ia_ExpiresAtMilliseconds authorization) >>?
  let digest := InvocationAuthorization_Digest authorization in
  invalid_when (digest ≠ Some (pad_InvocationAuthorizationDigest a)).

Definition PoolAdmission_ValidateInputRelease (a : PoolAdmission)
    (authorization : InvocationAuthorization) (signedWorkerCard : SignedWorkerCard)
    (enrollment : WorkerEnrollment) (offering : Offering)
    (expectedPoolAuthority : P256SigningAuthority)
    (permittedInvocationAuthorities : list P256SigningAuthority) (evaluatedAtMilliseconds : int64)
    : option ContractError :=
  let card := swc_Card signedWorkerCard in
  let authorizationError := PoolAdmission_ValidateAuthorization a authorization in
  let cardError := SignedWorkerCard_Validate signedWorkerCard enrollment in
  let cardDigest := WorkerCard_Digest card in
  invalid_when (is_Some authorizationError ∨ is_Some cardError ∨
    is_Some (P256SigningAuthority_Validate expectedPoolAuthority) ∨
    ¬ authorizes expectedPoolAuthority (pad_Signature a) ∨
    ¬ anyP256AuthorityAuthorizes permittedInvocationAuthorities (ia_Signature authorization) ∨
    evaluatedAtMilliseconds < pad_AdmittedAtMilliseconds a ∨
    evaluatedAtMilliseconds < ia_AuthorizedAtMilliseconds authorization ∨
    evaluatedAtMilliseconds ≥ pad_LeaseExpiresAtMilliseconds a ∨
    evaluatedAtMilliseconds ≥ pad_ExpiresAtMilliseconds a ∨
    evaluatedAtMilliseconds ≥ ia_ExpiresAtMilliseconds authorization) >>?
  invalid_when (we_EnrollmentID enrollment ≠ pad_WorkerEnrollmentID a ∨
    we_PoolID enrollment ≠ pad_PoolID a ∨ we_Enabled enrollment = false ∨
    wc_WorkerCardID card ≠ pad_WorkerCardID a ∨ wc_Revision card ≠ pad_WorkerCardRevision a ∨
    cardDigest ≠ Some (pad_WorkerCardDigest a) ∨
    off_OfferingID offering ≠ pad_OfferingID a ∨ off_PoolID offering ≠ pad_PoolID a ∨
    off_WorkerEnrollmentID offering ≠ pad_WorkerEnrollmentID a ∨
    off_WorkerCardID offering ≠ pad_WorkerCardID a ∨
    off_WorkerCardRevision offering ≠ pad_WorkerCardRevision a ∨
    off_WorkerCardDigest offering ≠ pad_WorkerCardDigest a ∨
    off_Revision offering ≠ pad_OfferingRevision a ∨ off_Enabled offering = false).
End records.
