(* ===== verification/ComputeJobs.v ===== *)
(** * internal/computepool: the life of a job

    The rest of [admission_contracts.go] (signed transitions of a job, receipts
    of workers, receipts of applied results) and [lifecycle_evaluator.go],
    which decides from those records alone whether they are one history. *)

From stdpp Require Import pretty.
From S2P Require Import Prelude GoEncoding GoText Sha256 P256 RelayModel ServiceAuthority ComputePool ComputePrivacy ComputeAdmission.
#[local] Open Scope Z_scope.

(** ** Job states *)

Abbreviation JobState := string (only parsing).
Definition JobAuthorized : JobState := "authorized".
Definition JobAdmitted : JobState := "admitted".
Definition JobQueued : JobState := "queued".
Definition JobLeased : JobState := "leased".
Definition JobExecuting : JobState := "executing".
Definition JobRetryWait : JobState := "retry_wait".
Definition JobResultStaged : JobState := "result_staged".
Definition JobResultDelivered : JobState := "result_delivered".
Definition JobResultApplied : JobState := "result_applied".
Definition JobCompleted : JobState := "completed".
Definition JobCancelRequested : JobState := "cancel_requested".
Definition JobCancelled : JobState := "cancelled".
Definition JobPaused : JobState := "paused".
Definition JobFailed : JobState := "failed".
Definition JobExpired : JobState := "expired".

Definition JobState_Valid (state : JobState) : bool :=
  contains [JobAuthorized; JobAdmitted; JobQueued; JobLeased; JobExecuting; JobRetryWait;
    JobResultStaged; JobResultDelivered; JobResultApplied; JobCompleted; JobCancelRequested;
    JobCancelled; JobPaused; JobFailed; JobExpired] state.

Definition allowedJobTransition (from to : JobState) : bool :=
  if decide (from = JobAuthorized) then
    contains [JobAdmitted; JobCancelRequested; JobExpired] to
  else if decide (from = JobAdmitted) then
    contains [JobQueued; JobLeased; JobCancelRequested; JobExpired] to
  else if decide (from = JobQueued) then
    contains [JobLeased; JobPaused; JobCancelRequested; JobFailed; JobExpired] to
  else if decide (from = JobLeased) then
    contains [JobExecuting; JobQueued; JobRetryWait; JobCancelRequested; JobFailed; JobExpired] to
  else if decide (from = JobExecuting) then
    contains [JobResultStaged; JobRetryWait; JobCancelRequested; JobFailed; JobExpired] to
  else if decide (from = JobRetryWait) then
    contains [JobQueued; JobLeased; JobPaused; JobCancelRequested; JobFailed; JobExpired] to
  else if decide (from = JobResultStaged) then
    contains [JobResultDelivered; JobCancelRequested; JobFailed] to
  else if decide (from = JobResultDelivered) then
    contains [JobResultApplied; JobCancelRequested; JobFailed] to
  else if decide (from = JobResultApplied) then bool_decide (to = JobCompleted)
  else if decide (from = JobCancelRequested) then
    contains [JobCancelled; JobFailed; JobExpired] to
  else if decide (from = JobPaused) then
    contains [JobQueued; JobCancelRequested; JobExpired] to
  else false.

Section records.
Context `{UuidLib} `{CurveLib} `{Ed25519Lib}.

(** ** Transitions *)

Record PoolJobTransition := mkPoolJobTransition {
  pjt_Version : Z;
  pjt_TransitionID : UUID;
  pjt_JobID : UUID;
  pjt_PoolID : UUID;
  pjt_Sequence : uint64;
  pjt_PredecessorDigest : option string;
  pjt_State : JobState;
  pjt_EvidenceDigest : option string;
  pjt_OccurredAtMilliseconds : int64;
  pjt_Signature : ES256Signature }.

Definition PoolJobTransition_fields (t : PoolJobTransition) : list (string * json) :=
  field "version" (JInt (pjt_Version t)) ++
  field "transitionID" (JUuid (pjt_TransitionID t)) ++
  field "jobID" (JUuid (pjt_JobID t)) ++
  field "poolID" (JUuid (pjt_PoolID t)) ++
  field "sequence" (JInt (pjt_Sequence t)) ++
  optional "predecessorDigest" JString (pjt_PredecessorDigest t) ++
  field "state" (JString (pjt_State t)) ++
  optional "evidenceDigest" JString (pjt_EvidenceDigest t) ++
  field "occurredAtMilliseconds" (JInt (pjt_OccurredAtMilliseconds t)).

Definition PoolJobTransition_signingPayload (t : PoolJobTransition) : json :=
  JObject (PoolJobTransition_fields t).

Definition PoolJobTransition_Validate (t : PoolJobTransition) : option ContractError :=
  invalid_when (pjt_Version t ≠ 1 ∨ pjt_TransitionID t = uuid_Nil ∨ pjt_JobID t = uuid_Nil ∨
    pjt_PoolID t = uuid_Nil ∨ pjt_Sequence t = 0 ∨
    ¬ (pjt_Sequence t = 1 ↔ pjt_PredecessorDigest t = None) ∨
    some_and (pjt_PredecessorDigest t) (fun digest => ¬ validSHA256Hex digest) ∨
    ¬ JobState_Valid (pjt_State t) ∨
    some_and (pjt_EvidenceDigest t) (fun digest => ¬ validSHA256Hex digest) ∨
    pjt_OccurredAtMilliseconds t < 0) >>?
  verifyES256 (pjt_Signature t) (PoolJobTransition_signingPayload t) poolJobTransitionDomain.

Definition PoolJobTransition_Digest (t : PoolJobTransition) : option string :=
  canonicalDigest (JObject (PoolJobTransition_fields t ++
    field "signature" (ES256Signature_json (pjt_Signature t)))).

(** ** Execution receipts *)

Record WorkerExecutionReceipt := mkWorkerExecutionReceipt {
  wer_Version : Z;
  wer_ReceiptID : UUID;
  wer_JobID : UUID;
  wer_AdmissionID : UUID;
  wer_AdmissionDigest : string;
  wer_WorkerEnrollmentID : UUID;
  wer_Attempt : uint64;
  wer_RequestDigest : string;
  wer_ResultDigest : string;
  wer_StartedAtMilliseconds : int64;
  wer_FinishedAtMilliseconds : int64;
  wer_Signature : Ed25519Signature }.

Definition WorkerExecutionReceipt_fields (r : WorkerExecutionReceipt) : list (string * json) :=
  field "version" (JInt (wer_Version r)) ++
  field "receiptID" (JUuid (wer_ReceiptID r)) ++
  field "jobID" (JUuid (wer_JobID r)) ++
  field "admissionID" (JUuid (wer_AdmissionID r)) ++
  field "admissionDigest" (JString (wer_AdmissionDigest r)) ++
  field "workerEnrollmentID" (JUuid (wer_WorkerEnrollmentID r)) ++
  field "attempt" (JInt (wer_Attempt r)) ++
  field "requestDigest" (JString (wer_RequestDigest r)) ++
  field "resultDigest" (JString (wer_ResultDigest r)) ++
  field "startedAtMilliseconds" (JInt (wer_StartedAtMilliseconds r)) ++
  field "finishedAtMilliseconds" (JInt (wer_FinishedAtMilliseconds r)).

Definition WorkerExecutionReceipt_signingPayload (r : WorkerExecutionReceipt) : json :=
  JObject (WorkerExecutionReceipt_fields r).

Definition WorkerExecutionReceipt_Validate (r : WorkerExecutionReceipt) : option ContractError :=
  invalid_when (wer_Version r ≠ 1 ∨ wer_ReceiptID r = uuid_Nil ∨ wer_JobID r = uuid_Nil ∨
    wer_AdmissionID r = uuid_Nil ∨ wer_WorkerEnrollmentID r = uuid_Nil ∨
    ed_SignerID (wer_Signature r) ≠ wer_WorkerEnrollmentID r ∨ wer_Attempt r = 0 ∨
    ¬ validSHA256Hex (wer_AdmissionDigest r) ∨ ¬ validSHA256Hex (wer_RequestDigest r) ∨
    ¬ validSHA256Hex (wer_ResultDigest r) ∨ wer_StartedAtMilliseconds r < 0 ∨
    wer_FinishedAtMilliseconds r < wer_StartedAtMilliseconds r) >>?
  verifyEd25519 (wer_Signature r) (WorkerExecutionReceipt_signingPayload r) workerExecutionDomain.

Definition WorkerExecutionReceipt_Digest (r : WorkerExecutionReceipt) : option string :=
  canonicalDigest (JObject (WorkerExecutionReceipt_fields r ++
    field "signature" (Ed25519Signature_json (wer_Signature r)))).

Definition WorkerExecutionReceipt_ValidateAdmission (r : WorkerExecutionReceipt)
    (admission : PoolAdmission) (authorization : InvocationAuthorization)
    (enrollment : WorkerEnrollment) : option ContractError :=
  let receiptError := WorkerExecutionReceipt_Validate r in
  let enrollmentError := WorkerEnrollment_Validate enrollment in
  invalid_when (is_Some receiptError ∨ wer_JobID r ≠ pad_JobID admission ∨
    wer_AdmissionID r ≠ pad_AdmissionID admission ∨
    wer_WorkerEnrollmentID r ≠ pad_WorkerEnrollmentID admission ∨
    wer_RequestDigest r ≠ ia_RequestDigest authorization ∨
    is_Some enrollmentError ∨ we_EnrollmentID enrollment ≠ wer_WorkerEnrollmentID r ∨
    we_PoolID enrollment ≠ pad_PoolID admission ∨
    we_PublicSigningKeyEd25519 enrollment ≠ ed_PublicSigningKeyEd25519 (wer_Signature r) ∨
    we_SigningKeyFingerprint enrollment ≠ ed_SigningKeyFingerprint (wer_Signature r) ∨
    we_Enabled enrollment = false) >>?
  let digest := PoolAdmission_Digest admission in
  let authorizationError := PoolAdmission_ValidateAuthorization admission authorization in
  invalid_when (digest ≠ Some (wer_AdmissionDigest r) ∨ is_Some authorizationError).

(** ** Application receipts *)

Record ResultApplicationReceipt := mkResultApplicationReceipt {
  rar_Version : Z;
  rar_ReceiptID : UUID;
  rar_JobID : UUID;
  rar_ExecutionReceiptID : UUID;
  rar_ExecutionReceiptDigest : string;
  rar_ResultDigest : string;
  rar_ApplicationDigest : string;
  rar_ApplyingDeviceID : UUID;
  rar_AppliedAtMilliseconds : int64;
  rar_Signature : ES256Signature }.

Definition ResultApplicationReceipt_fields (r : ResultApplicationReceipt) : list (string * json) :=
  field "version" (JInt (rar_Version r)) ++
  field "receiptID" (JUuid (rar_ReceiptID r)) ++
  field "jobID" (JUuid (rar_JobID r)) ++
  field "executionReceiptID" (JUuid (rar_ExecutionReceiptID r)) ++
  field "executionReceiptDigest" (JString (rar_ExecutionReceiptDigest r)) ++
  field "resultDigest" (JString (rar_ResultDigest r)) ++
  field "applicationDigest" (JString (rar_ApplicationDigest r)) ++
  field "applyingDeviceID" (JUuid (rar_ApplyingDeviceID r)) ++
  field "appliedAtMilliseconds" (JInt (rar_AppliedAtMilliseconds r)).

Definition ResultApplicationReceipt_signingPayload (r : ResultApplicationReceipt) : json :=
  JObject (ResultApplicationReceipt_fields r).

Definition ResultApplicationReceipt_Validate (r : ResultApplicationReceipt)
    : option ContractError :=
  invalid_when (rar_Version r ≠ 1 ∨ rar_ReceiptID r = uuid_Nil ∨ rar_JobID r = uuid_Nil ∨
    rar_ExecutionReceiptID r = uuid_Nil ∨ rar_ApplyingDeviceID r = uuid_Nil ∨
    es_SignerID (rar_Signature r) ≠ rar_ApplyingDeviceID r ∨
    ¬ validSHA256Hex (rar_ExecutionReceiptDigest r) ∨ ¬ validSHA256Hex (rar_ResultDigest r) ∨
    ¬ validSHA256Hex (rar_ApplicationDigest r) ∨ rar_AppliedAtMilliseconds r < 0) >>?
  verifyES256 (rar_Signature r) (ResultApplicationReceipt_signingPayload r)
    resultApplicationDomain.

Definition ResultApplicationReceipt_Digest (r : ResultApplicationReceipt) : option string :=
  canonicalDigest (JObject (ResultApplicationReceipt_fields r ++
    field "signature" (ES256Signature_json (rar_Signature r)))).

Definition ResultApplicationReceipt_ValidateExecution (r : ResultApplicationReceipt)
    (execution : WorkerExecutionReceipt) : option ContractError :=
  let executionError := WorkerExecutionReceipt_Validate execution in
  invalid_when (is_Some executionError ∨
    rar_JobID r ≠ wer_JobID execution ∨ rar_ExecutionReceiptID r ≠ wer_ReceiptID execution ∨
    rar_ResultDigest r ≠ wer_ResultDigest execution ∨
    rar_AppliedAtMilliseconds r < wer_FinishedAtMilliseconds execution) >>?
  let digest := WorkerExecutionReceipt_Digest execution in
  invalid_when (digest ≠ Some (rar_ExecutionReceiptDigest r)).

(** ** Repeated records

    A record that arrives again is counted and dropped; a different record in
    its place is an error. *)

Inductive LifecycleError : Set := ErrInvalidLifecycle.

Record transition_input := mkTransitionInput {
  ti_unique : list PoolJobTransition;
  ti_byID : gmap UUID string;
  ti_bySequence : gmap Z string;
  ti_duplicates : Z;
  ti_previousInputSequence : uint64 }.

Definition dedupe_transition (poolID poolAuthorityID : UUID) (poolFingerprint : string)
    (i : transition_input) (t : PoolJobTransition) : option transition_input :=
  let transitionError := PoolJobTransition_Validate t in
  if decide (pjt_Sequence t < ti_previousInputSequence i ∨ is_Some transitionError) then None
  else
    digest ← PoolJobTransition_Digest t;
    let duplicate prior :=
      if decide (prior ≠ digest) then None
      else Some (mkTransitionInput (ti_unique i) (ti_byID i) (ti_bySequence i)
             (ti_duplicates i + 1) (pjt_Sequence t)) in
    match ti_byID i !! pjt_TransitionID t with
    | Some prior => duplicate prior
    | None =>
      match ti_bySequence i !! pjt_Sequence t with
      | Some prior => duplicate prior
      | None =>
        if decide (pjt_PoolID t ≠ poolID ∨ es_SignerID (pjt_Signature t) ≠ poolAuthorityID ∨
                   es_SigningKeyFingerprint (pjt_Signature t) ≠ poolFingerprint)
        then None
        else Some (mkTransitionInput (ti_unique i ++ [t])
               (<[pjt_TransitionID t := digest]> (ti_byID i))
               (<[pjt_Sequence t := digest]> (ti_bySequence i)) (ti_duplicates i) (pjt_Sequence t))
      end
    end.

(** A loop that stops at the first error. *)
Fixpoint fold_option {A B} (f : B → A → option B) (b : B) (l : list A) : option B :=
  match l with [] => Some b | a :: l => b' ← f b a; fold_option f b' l end.

Definition dedupeTransitions poolID poolAuthorityID poolFingerprint
    : list PoolJobTransition → option transition_input :=
  fold_option (dedupe_transition poolID poolAuthorityID poolFingerprint)
    (mkTransitionInput [] ∅ ∅ 0 0).

Definition text_or_empty (digest : option string) : string := default ""%string digest.

Definition attempt_key (r : WorkerExecutionReceipt) : string :=
  (uuid_String (wer_JobID r) +:+ "|" +:+ pretty (wer_Attempt r))%string.

Definition dedupe_execution (m : gmap UUID WorkerExecutionReceipt * gmap string string)
    (r : WorkerExecutionReceipt)
    : option (gmap UUID WorkerExecutionReceipt * gmap string string) :=
  let '(byID, byAttempt) := m in
  if decide (is_Some (WorkerExecutionReceipt_Validate r)) then None
  else
    let digest := text_or_empty (WorkerExecutionReceipt_Digest r) in
    match byID !! wer_ReceiptID r with
    | Some prior =>
      if decide (text_or_empty (WorkerExecutionReceipt_Digest prior) ≠ digest) then None
      else Some (byID, byAttempt)
    | None =>
      if decide (some_and (byAttempt !! attempt_key r) (fun prior => prior ≠ digest)) then None
      else Some (<[wer_ReceiptID r := r]> byID, <[attempt_key r := digest]> byAttempt)
    end.

Definition dedupeExecutions (receipts : list WorkerExecutionReceipt)
    : option (gmap UUID WorkerExecutionReceipt * Z) :=
  m ← fold_option dedupe_execution (∅, ∅) receipts;
  Some (m.1, zlen receipts - zsize m.1).

Definition dedupe_application (m : gmap UUID ResultApplicationReceipt * gmap UUID string)
    (r : ResultApplicationReceipt)
    : option (gmap UUID ResultApplicationReceipt * gmap UUID string) :=
  let '(byID, byJob) := m in
  if decide (is_Some (ResultApplicationReceipt_Validate r)) then None
  else
    let digest := text_or_empty (ResultApplicationReceipt_Digest r) in
    match byID !! rar_ReceiptID r with
    | Some prior =>
      if decide (text_or_empty (ResultApplicationReceipt_Digest prior) ≠ digest) then None
      else Some (byID, byJob)
    | None =>
      if decide (some_and (byJob !! rar_JobID r) (fun prior => prior ≠ digest)) then None
      else Some (<[rar_ReceiptID r := r]> byID, <[rar_JobID r := digest]> byJob)
    end.

Definition dedupeApplications (receipts : list ResultApplicationReceipt)
    : option (gmap UUID ResultApplicationReceipt * Z) :=
  m ← fold_option dedupe_application (∅, ∅) receipts;
  Some (m.1, zlen receipts - zsize m.1).

(** A receipt with the given digest; the loop over the map stops at the first
    that it meets. *)
Definition receipt_for_digest {A} (digest_of : A → option string) (receipts : gmap UUID A)
    (digest : option string) : option A :=
  expected ← digest;
  (fun found => found.2.2) <$>
    list_find (fun kv => text_or_empty (digest_of kv.2) = expected) (map_to_list receipts).

Definition executionForDigest := receipt_for_digest WorkerExecutionReceipt_Digest.
Definition applicationForDigest := receipt_for_digest ResultApplicationReceipt_Digest.

(** ** The history *)

Record JobLifecycleEvaluation := mkJobLifecycleEvaluation {
  jle_JobID : UUID;
  jle_CurrentState : JobState;
  jle_AcceptedTransitionCount : Z;
  jle_DuplicateTransitionCount : Z;
  jle_AcceptedExecutionReceiptCount : Z;
  jle_DuplicateExecutionReceiptCount : Z;
  jle_AcceptedApplicationReceiptCount : Z;
  jle_DuplicateApplicationReceiptCount : Z }.

Record chain := mkChain {
  ch_previous : option PoolJobTransition;
  ch_sawResultApplied : bool;
  ch_appliedEvidenceDigest : string }.

Section history.
Variables (executions : gmap UUID WorkerExecutionReceipt)
  (applications : gmap UUID ResultApplicationReceipt)
  (authorization : InvocationAuthorization) (authorizationDigest : string)
  (admission : PoolAdmission) (admissionDigest : string) (jobID : UUID).

(** The place of [t] in the chain. *)
Definition follows (previous : option PoolJobTransition) (t : PoolJobTransition) : bool :=
  match previous with
  | None =>
    bool_decide (pjt_Sequence t = 1 ∧ pjt_PredecessorDigest t = None ∧
      pjt_State t = JobAuthorized ∧ pjt_EvidenceDigest t = Some authorizationDigest ∧
      pjt_OccurredAtMilliseconds t ≥ ia_AuthorizedAtMilliseconds authorization ∧
      pjt_OccurredAtMilliseconds t < ia_ExpiresAtMilliseconds authorization)
  | Some p =>
    let priorDigest := text_or_empty (PoolJobTransition_Digest p) in
    bool_decide (pjt_Sequence t = u64 (pjt_Sequence p + 1) ∧
      pjt_PredecessorDigest t = Some priorDigest ∧
      pjt_OccurredAtMilliseconds t ≥ pjt_OccurredAtMilliseconds p ∧
      allowedJobTransition (pjt_State p) (pjt_State t))
  end.

(** What the state that [t] enters requires. *)
Definition evidenced (t : PoolJobTransition) : bool :=
  let state := pjt_State t in
  let evidence := pjt_EvidenceDigest t in
  if decide (state = JobAdmitted) then
    bool_decide (evidence = Some admissionDigest ∧
      pjt_OccurredAtMilliseconds t ≥ pad_AdmittedAtMilliseconds admission ∧
      pjt_OccurredAtMilliseconds t < pad_ExpiresAtMilliseconds admission)
  else if decide (state = JobLeased ∨ state = JobExecuting) then
    bool_decide (pjt_OccurredAtMilliseconds t < pad_LeaseExpiresAtMilliseconds admission)
  else if decide (state = JobResultStaged ∨ state = JobResultDelivered) then
    let receipt := executionForDigest executions evidence in
    bool_decide (some_and receipt (fun r =>
      wer_FinishedAtMilliseconds r ≤ pjt_OccurredAtMilliseconds t))
  else if decide (state = JobResultApplied) then
    let receipt := applicationForDigest applications evidence in
    bool_decide (some_and receipt (fun r =>
      rar_AppliedAtMilliseconds r ≤ pjt_OccurredAtMilliseconds t))
  else true.

Definition chain_step (c : chain) (t : PoolJobTransition) : option chain :=
  let linked := follows (ch_previous c) t in
  let shown := evidenced t in
  if decide (pjt_JobID t ≠ jobID ∨ linked = false ∨ shown = false) then None
  else
    let c' :=
      if decide (pjt_State t = JobResultApplied)
      then mkChain (Some t) true (text_or_empty (pjt_EvidenceDigest t))
      else mkChain (Some t) (ch_sawResultApplied c) (ch_appliedEvidenceDigest c) in
    if decide (pjt_State t = JobCompleted ∧
        (ch_sawResultApplied c' = false ∨
         pjt_EvidenceDigest t ≠ Some (ch_appliedEvidenceDigest c')))
    then None else Some c'.

End history.

(** The receipts of the job, against its other records. *)
Definition execution_refused (authorization : InvocationAuthorization) (admission : PoolAdmission)
    (workerEnrollment : WorkerEnrollment) (jobID : UUID) (r : WorkerExecutionReceipt) : bool :=
  let admissionError :=
    WorkerExecutionReceipt_ValidateAdmission r admission authorization workerEnrollment in
  bool_decide (wer_JobID r ≠ jobID ∨ is_Some admissionError ∨
    wer_StartedAtMilliseconds r ≥ pad_LeaseExpiresAtMilliseconds admission ∨
    wer_FinishedAtMilliseconds r > pad_ExpiresAtMilliseconds admission ∨
    wer_FinishedAtMilliseconds r > ia_ExpiresAtMilliseconds authorization).

Definition application_refused (executionByID : gmap UUID WorkerExecutionReceipt)
    (permittedApplicationAuthorities : list P256SigningAuthority) (jobID : UUID)
    (r : ResultApplicationReceipt) : bool :=
  bool_decide (rar_JobID r ≠ jobID) ||
  negb (anyP256AuthorityAuthorizes permittedApplicationAuthorities (rar_Signature r)) ||
  match executionByID !! rar_ExecutionReceiptID r with
  | None => true
  | Some execution =>
    match ResultApplicationReceipt_ValidateExecution r execution with Some _ => true | None => false end
  end.

Definition EvaluateJobLifecycle (transitions : list PoolJobTransition)
    (executions : list WorkerExecutionReceipt) (applications : list ResultApplicationReceipt)
    (authorization : InvocationAuthorization) (admission : PoolAdmission)
    (signedWorkerCard : SignedWorkerCard) (workerEnrollment : WorkerEnrollment)
    (offering : Offering)
    (permittedInvocationAuthorities permittedApplicationAuthorities : list P256SigningAuthority)
    (expectedPoolID expectedPoolAuthorityID : UUID) (expectedPoolSigningKeyFingerprint : string)
    : LifecycleError + JobLifecycleEvaluation :=
  let outcome :=
    input ← dedupeTransitions expectedPoolID expectedPoolAuthorityID
      expectedPoolSigningKeyFingerprint transitions;
    '(executionByID, executionDuplicates) ← dedupeExecutions executions;
    '(applicationByID, applicationDuplicates) ← dedupeApplications applications;
    first ← head (ti_unique input);
    let jobID := pjt_JobID first in
    let poolAuthority :=
      mkP256SigningAuthority expectedPoolAuthorityID expectedPoolSigningKeyFingerprint in
    let releaseError :=
      PoolAdmission_ValidateInputRelease admission authorization signedWorkerCard
        workerEnrollment offering poolAuthority permittedInvocationAuthorities
        (pad_AdmittedAtMilliseconds admission) in
    let refusedExecution :=
      bool_decide (map_any (fun _ r =>
        execution_refused authorization admission workerEnrollment jobID r) executionByID) in
    let refusedApplication :=
      bool_decide (map_any (fun _ r =>
        application_refused executionByID permittedApplicationAuthorities jobID r)
        applicationByID) in
    if decide (pad_JobID admission ≠ jobID ∨ pad_PoolID admission ≠ expectedPoolID ∨
        is_Some releaseError ∨ refusedExecution = true ∨ refusedApplication = true)
    then None
    else
      let authorizationDigest := text_or_empty (InvocationAuthorization_Digest authorization) in
      let admissionDigest := text_or_empty (PoolAdmission_Digest admission) in
      c ← fold_option (chain_step executionByID applicationByID authorization
        authorizationDigest admission admissionDigest jobID) (mkChain None false "")
        (ti_unique input);
      final ← last (ti_unique input);
      Some (mkJobLifecycleEvaluation jobID (pjt_State final) (zlen (ti_unique input))
        (ti_duplicates input) (zsize executionByID) executionDuplicates (zsize applicationByID)
        applicationDuplicates) in
  match outcome with Some evaluation => inr evaluation | None => inl ErrInvalidLifecycle end.
End records.
