(* ===== verification/ComputePoolStore.v ===== *)
(** * internal/computepool: the store of pools

    [store.go]: pools with their worker enrollments, signed worker cards and
    offerings, each record under its own revision.  Iteration over a map of
    the store follows [map_to_list]; the lists of a status are sorted. *)

From S2P Require Import Prelude GoEncoding GoText Sha256 P256 RelayModel ServiceAuthority ComputePool ComputePrivacy.
#[local] Open Scope Z_scope.

Inductive PoolError : Set := ErrPoolInvalid | ErrPoolNotFound | ErrPoolConflict.

Section store.
Context `{UuidLib} `{CurveLib} `{Ed25519Lib}.

(** ** Status *)

Record Status := mkStatus {
  sta_Version : Z;
  sta_Pool : Pool;
  sta_WorkerEnrollments : list WorkerEnrollment;
  sta_WorkerCards : list SignedWorkerCard;
  sta_Offerings : list Offering }.

(** A loop over records in strictly increasing order of identifier; [seen] is
    what the earlier rounds put into a map. *)
Fixpoint in_order {A} (id : A → UUID) (valid : A → bool) (previous : string)
    (seen : gmap UUID A) (l : list A) : option (gmap UUID A) :=
  match l with
  | [] => Some seen
  | a :: l =>
    if decide (¬ valid a ∨ str_le (uuid_String (id a)) previous) then None
    else in_order id valid (uuid_String (id a)) (<[id a := a]> seen) l
  end.

Definition card_id (c : SignedWorkerCard) : UUID := wc_WorkerCardID (swc_Card c).

Definition enrollment_in_pool (poolID : UUID) (e : WorkerEnrollment) : bool :=
  bool_decide (WorkerEnrollment_Validate e = None ∧ we_PoolID e = poolID).

Definition card_in_pool (poolID : UUID) (enrollments : gmap UUID WorkerEnrollment)
    (c : SignedWorkerCard) : bool :=
  let card := swc_Card c in
  bool_decide (WorkerCard_Validate card = None ∧ wc_PoolID card = poolID ∧
    some_and (enrollments !! wc_WorkerEnrollmentID card) (fun enrollment =>
      wc_WorkerOwnerAuthorityID card = we_WorkerOwnerAuthorityID enrollment ∧
      SignedWorkerCard_Validate c enrollment = None)).

Definition offering_in_pool (poolID : UUID) (enrollments : gmap UUID WorkerEnrollment)
    (cards : gmap UUID SignedWorkerCard) (o : Offering) : bool :=
  bool_decide (Offering_Validate o = None ∧ off_PoolID o = poolID ∧
    is_Some (enrollments !! off_WorkerEnrollmentID o) ∧
    some_and (cards !! off_WorkerCardID o) (fun c =>
      wc_WorkerEnrollmentID (swc_Card c) = off_WorkerEnrollmentID o ∧
      off_WorkerCardRevision o = wc_Revision (swc_Card c) ∧
      WorkerCard_Digest (swc_Card c) = Some (off_WorkerCardDigest o))).

Definition Status_Validate (s : Status) : option PoolError :=
  let poolID := pool_PoolID (sta_Pool s) in
  err_when (sta_Version s ≠ SchemaVersion ∨ is_Some (Pool_Validate (sta_Pool s))) ErrPoolInvalid >>?
  match
    enrollments ← in_order we_EnrollmentID (enrollment_in_pool poolID) "" ∅
      (sta_WorkerEnrollments s);
    cards ← in_order card_id (card_in_pool poolID enrollments) "" ∅ (sta_WorkerCards s);
    in_order off_OfferingID (offering_in_pool poolID enrollments cards) "" ∅ (sta_Offerings s)
  with
  | Some _ => None
  | None => Some ErrPoolInvalid
  end.

(** ** State *)

Record MemoryStore := mkMemoryStore {
  ps_pools : gmap UUID Pool;
  ps_enrollments : gmap UUID WorkerEnrollment;
  ps_cards : gmap UUID SignedWorkerCard;
  ps_offerings : gmap UUID Offering }.

#[global] Instance eta_PoolStore : Eta MemoryStore := fun s =>
  mkMemoryStore (ps_pools s) (ps_enrollments s) (ps_cards s) (ps_offerings s).
#[global] Instance upd_ps_pools : Update ps_pools := ltac:(mk_update).
#[global] Instance upd_ps_enrollments : Update ps_enrollments := ltac:(mk_update).
#[global] Instance upd_ps_cards : Update ps_cards := ltac:(mk_update).
#[global] Instance upd_ps_offerings : Update ps_offerings := ltac:(mk_update).

Definition NewMemoryStore : MemoryStore := mkMemoryStore ∅ ∅ ∅ ∅.

Abbreviation PoolM A := (M PoolError MemoryStore A) (only parsing).

(** ** Pools *)

Definition CreatePool (pool : Pool) : PoolM unit :=
  reject_if (is_Some (Pool_Validate pool) ∨ pool_Revision pool ≠ 1) ErrPoolInvalid;;;
  let* s := get in
  reject_if (is_Some (ps_pools s !! pool_PoolID pool)) ErrPoolConflict;;;
  modify (fun s => s <| ps_pools := <[pool_PoolID pool := pool]> (ps_pools s) |>).

Definition UpdatePool (previousRevision : uint64) (pool : Pool) : PoolM unit :=
  reject_if (is_Some (Pool_Validate pool) ∨ previousRevision = 0 ∨
    pool_Revision pool ≠ u64 (previousRevision + 1)) ErrPoolInvalid;;;
  let* s := get in
  let* current := found_or (ps_pools s !! pool_PoolID pool) ErrPoolNotFound in
  reject_if (pool_Revision current ≠ previousRevision ∨
    pool_OwnerAuthorityID current ≠ pool_OwnerAuthorityID pool ∨
    pool_CreatedAtMilliseconds current ≠ pool_CreatedAtMilliseconds pool ∨
    pool_UpdatedAtMilliseconds pool < pool_UpdatedAtMilliseconds current ∨
    pool_AuthorityRevision pool < pool_AuthorityRevision current ∨
    (pool_AuthorityRevision pool = pool_AuthorityRevision current ∧
     pool_AuthorityManifestDigest pool ≠ pool_AuthorityManifestDigest current)) ErrPoolConflict;;;
  modify (fun s => s <| ps_pools := <[pool_PoolID pool := pool]> (ps_pools s) |>).

Definition DeletePool (poolID : UUID) (expectedRevision : uint64) : PoolM unit :=
  reject_if (poolID = uuid_Nil ∨ expectedRevision = 0) ErrPoolInvalid;;;
  let* s := get in
  let* pool := found_or (ps_pools s !! poolID) ErrPoolNotFound in
  reject_if (pool_Revision pool ≠ expectedRevision) ErrPoolConflict;;;
  modify (fun s => mkMemoryStore (delete poolID (ps_pools s))
    (filter (fun kv => we_PoolID kv.2 ≠ poolID) (ps_enrollments s))
    (filter (fun kv => wc_PoolID (swc_Card kv.2) ≠ poolID) (ps_cards s))
    (filter (fun kv => off_PoolID kv.2 ≠ poolID) (ps_offerings s))).

(** ** Workers *)

(** The revision rule of the [Put] methods: the first revision follows 0, and
    a later one must not conflict with what is stored. *)
Definition check_revision {A} (current : option A) (previousRevision : uint64)
    (conflicts : A → Prop) `{∀ a, Decision (conflicts a)} : PoolM unit :=
  match current with
  | None => reject_if (previousRevision ≠ 0) ErrPoolNotFound
  | Some a => reject_if (conflicts a) ErrPoolConflict
  end.

Definition PutWorkerEnrollment (previousRevision : uint64) (enrollment : WorkerEnrollment)
    : PoolM unit :=
  reject_if (is_Some (WorkerEnrollment_Validate enrollment) ∨
    we_Revision enrollment ≠ u64 (previousRevision + 1)) ErrPoolInvalid;;;
  let* s := get in
  reject_if (ps_pools s !! we_PoolID enrollment = None) ErrPoolNotFound;;;
  check_revision (ps_enrollments s !! we_EnrollmentID enrollment) previousRevision
    (fun current => we_Revision current ≠ previousRevision ∨
      we_PoolID current ≠ we_PoolID enrollment ∨ we_WorkerID current ≠ we_WorkerID enrollment ∨
      we_WorkerOwnerAuthorityID current ≠ we_WorkerOwnerAuthorityID enrollment ∨
      we_CreatedAtMilliseconds current ≠ we_CreatedAtMilliseconds enrollment ∨
      we_UpdatedAtMilliseconds enrollment < we_UpdatedAtMilliseconds current ∨
      we_ConsentRevision enrollment < we_ConsentRevision current ∨
      (we_ConsentRevision enrollment = we_ConsentRevision current ∧
       (we_PublicSigningKeyEd25519 enrollment ≠ we_PublicSigningKeyEd25519 current ∨
        we_SigningKeyFingerprint enrollment ≠ we_SigningKeyFingerprint current)));;;
  modify (fun s => s <| ps_enrollments :=
    <[we_EnrollmentID enrollment := enrollment]> (ps_enrollments s) |>).

Definition PutWorkerCard (previousRevision : uint64) (signedCard : SignedWorkerCard)
    : PoolM unit :=
  let card := swc_Card signedCard in
  reject_if (is_Some (WorkerCard_Validate card) ∨
    wc_Revision card ≠ u64 (previousRevision + 1)) ErrPoolInvalid;;;
  let* s := get in
  let* enrollment := found_or (ps_enrollments s !! wc_WorkerEnrollmentID card) ErrPoolNotFound in
  reject_if (we_PoolID enrollment ≠ wc_PoolID card ∨
    we_WorkerOwnerAuthorityID enrollment ≠ wc_WorkerOwnerAuthorityID card) ErrPoolNotFound;;;
  reject_if (is_Some (SignedWorkerCard_Validate signedCard enrollment)) ErrPoolInvalid;;;
  check_revision (swc_Card <$> ps_cards s !! wc_WorkerCardID card) previousRevision
    (fun current => wc_Revision current ≠ previousRevision ∨ wc_PoolID current ≠ wc_PoolID card ∨
      wc_WorkerEnrollmentID current ≠ wc_WorkerEnrollmentID card ∨
      wc_WorkerOwnerAuthorityID current ≠ wc_WorkerOwnerAuthorityID card ∨
      wc_CreatedAtMilliseconds current ≠ wc_CreatedAtMilliseconds card ∨
      wc_UpdatedAtMilliseconds card < wc_UpdatedAtMilliseconds current);;;
  modify (fun s => s <| ps_cards := <[wc_WorkerCardID card := signedCard]> (ps_cards s) |>).

Definition PutOffering (previousRevision : uint64) (offering : Offering) : PoolM unit :=
  reject_if (is_Some (Offering_Validate offering) ∨
    off_Revision offering ≠ u64 (previousRevision + 1)) ErrPoolInvalid;;;
  let* s := get in
  reject_if (ps_pools s !! off_PoolID offering = None) ErrPoolNotFound;;;
  let* enrollment := found_or (ps_enrollments s !! off_WorkerEnrollmentID offering)
    ErrPoolNotFound in
  reject_if (we_PoolID enrollment ≠ off_PoolID offering) ErrPoolNotFound;;;
  let* signedCard := found_or (ps_cards s !! off_WorkerCardID offering) ErrPoolNotFound in
  let card := swc_Card signedCard in
  reject_if (is_Some (SignedWorkerCard_Validate signedCard enrollment) ∨
    wc_PoolID card ≠ off_PoolID offering ∨
    wc_WorkerEnrollmentID card ≠ off_WorkerEnrollmentID offering ∨
    off_WorkerCardRevision offering ≠ wc_Revision card ∨
    WorkerCard_Digest card ≠ Some (off_WorkerCardDigest offering)) ErrPoolNotFound;;;
  check_revision (ps_offerings s !! off_OfferingID offering) previousRevision
    (fun current => off_Revision current ≠ previousRevision ∨
      off_PoolID current ≠ off_PoolID offering ∨
      off_WorkerEnrollmentID current ≠ off_WorkerEnrollmentID offering ∨
      off_CreatedAtMilliseconds current ≠ off_CreatedAtMilliseconds offering ∨
      off_UpdatedAtMilliseconds offering < off_UpdatedAtMilliseconds current ∨
      off_PricingRevision offering < off_PricingRevision current);;;
  modify (fun s => s <| ps_offerings := <[off_OfferingID offering := offering]> (ps_offerings s) |>).

(** ** Status of a pool *)

(** The records of a map that belong to the pool, by the text of their id. *)
Definition in_pool {A} (pool : A → UUID) (id : A → UUID) (poolID : UUID) (m : gmap UUID A)
    : list A :=
  merge_sort (fun a b => str_le (uuid_String (id a)) (uuid_String (id b)))
    (filter (fun a => pool a = poolID) (map_to_list m).*2).

Definition pool_status (s : MemoryStore) (poolID : UUID) (pool : Pool) : Status :=
  mkStatus SchemaVersion pool
    (in_pool we_PoolID we_EnrollmentID poolID (ps_enrollments s))
    (in_pool (fun c => wc_PoolID (swc_Card c)) card_id poolID (ps_cards s))
    (in_pool off_PoolID off_OfferingID poolID (ps_offerings s)).

Definition GetPoolStatus (poolID : UUID) : PoolM Status :=
  reject_if (poolID = uuid_Nil) ErrPoolInvalid;;;
  let* s := get in
  let* pool := found_or (ps_pools s !! poolID) ErrPoolNotFound in
  let status := pool_status s poolID pool in
  check (Status_Validate status);;;
  ret status.
End store.
