(* ===== verification/ComputePoolFacts.v ===== *)
(** * internal/computepool: what accepted records imply

    The store of pools: every record of a reachable store is valid and belongs
    to a pool of the store; a record that names another finds it, in the same
    pool.  Policies: a revision that permits no more than the policy in force
    takes effect at once; any other waits for the signed acknowledgement of
    every active participant.  Disclosure plans: every object is in exactly
    one partition, which is as private as the object or more; the decision is
    the strictest one. *)

From S2P Require Import Prelude GoEncoding Sha256 RelayModel P256 GoText ServiceAuthority ComputePool ComputePrivacy ComputePoolStore.
#[local] Open Scope Z_scope.

Section machine.
Context `{UuidLib} `{CurveLib} `{Ed25519Lib}.

(** ** The machine *)

Inductive PoolOp : Type :=
  | OpCreatePool (pool : Pool)
  | OpUpdatePool (previousRevision : uint64) (pool : Pool)
  | OpDeletePool (poolID : UUID) (expectedRevision : uint64)
  | OpPutWorkerEnrollment (previousRevision : uint64) (enrollment : WorkerEnrollment)
  | OpPutWorkerCard (previousRevision : uint64) (card : SignedWorkerCard)
  | OpPutOffering (previousRevision : uint64) (offering : Offering)
  | OpGetPoolStatus (poolID : UUID).

Definition perform_pool (op : PoolOp) (s : MemoryStore) : MemoryStore :=
  match op with
  | OpCreatePool pool => (CreatePool pool s).1
  | OpUpdatePool revision pool => (UpdatePool revision pool s).1
  | OpDeletePool poolID revision => (DeletePool poolID revision s).1
  | OpPutWorkerEnrollment revision enrollment => (PutWorkerEnrollment revision enrollment s).1
  | OpPutWorkerCard revision card => (PutWorkerCard revision card s).1
  | OpPutOffering revision offering => (PutOffering revision offering s).1
  | OpGetPoolStatus poolID => (GetPoolStatus poolID s).1
  end.

Inductive reachable_pools : MemoryStore → Prop :=
  | reachable_no_pools : reachable_pools NewMemoryStore
  | reachable_pool_step s op : reachable_pools s → reachable_pools (perform_pool op s).

(** ** The invariant *)

Definition enrollment_ok (s : MemoryStore) (id : UUID) (e : WorkerEnrollment) : Prop :=
  we_EnrollmentID e = id ∧ WorkerEnrollment_Validate e = None ∧
  is_Some (ps_pools s !! we_PoolID e).

Definition card_ok (s : MemoryStore) (id : UUID) (c : SignedWorkerCard) : Prop :=
  card_id c = id ∧ WorkerCard_Validate (swc_Card c) = None ∧
  ∃ e, ps_enrollments s !! wc_WorkerEnrollmentID (swc_Card c) = Some e ∧
    we_PoolID e = wc_PoolID (swc_Card c) ∧
    we_WorkerOwnerAuthorityID e = wc_WorkerOwnerAuthorityID (swc_Card c).

Definition offering_ok (s : MemoryStore) (id : UUID) (o : Offering) : Prop :=
  off_OfferingID o = id ∧ Offering_Validate o = None ∧
  (∃ e, ps_enrollments s !! off_WorkerEnrollmentID o = Some e ∧ we_PoolID e = off_PoolID o) ∧
  ∃ c, ps_cards s !! off_WorkerCardID o = Some c ∧ wc_PoolID (swc_Card c) = off_PoolID o ∧
    wc_WorkerEnrollmentID (swc_Card c) = off_WorkerEnrollmentID o.

Record pools_ok (s : MemoryStore) : Prop := {
  po_pools id p : ps_pools s !! id = Some p → pool_PoolID p = id ∧ Pool_Validate p = None;
  po_enrollments id e : ps_enrollments s !! id = Some e → enrollment_ok s id e;
  po_cards id c : ps_cards s !! id = Some c → card_ok s id c;
  po_offerings id o : ps_offerings s !! id = Some o → offering_ok s id o }.

(** Replacing a record by one that keeps its place. *)

Lemma put_pool_ok s p :
  pools_ok s → Pool_Validate p = None →
  pools_ok (s <| ps_pools := <[pool_PoolID p := p]> (ps_pools s) |>).
Proof.
  intros Hs Hp. split; cbn.
  - intros id q [[<- <-]|[_ Hq]]%lookup_insert_Some; [done|by apply Hs].
  - intros id e He. destruct (po_enrollments _ Hs _ _ He) as (? & ? & ?).
    split_and!; [done..|]. apply lookup_insert_is_Some'. by right.
  - apply Hs.
  - apply Hs.
Qed.

Lemma put_enrollment_ok s e :
  pools_ok s → WorkerEnrollment_Validate e = None → is_Some (ps_pools s !! we_PoolID e) →
  (∀ e', ps_enrollments s !! we_EnrollmentID e = Some e' → we_PoolID e' = we_PoolID e ∧
    we_WorkerOwnerAuthorityID e' = we_WorkerOwnerAuthorityID e) →
  pools_ok (s <| ps_enrollments := <[we_EnrollmentID e := e]> (ps_enrollments s) |>).
Proof.
  intros Hs He Hpool Hsame.
  assert (∀ id e', ps_enrollments s !! id = Some e' →
    ∃ e'', <[we_EnrollmentID e := e]> (ps_enrollments s) !! id = Some e'' ∧
      we_PoolID e'' = we_PoolID e' ∧
      we_WorkerOwnerAuthorityID e'' = we_WorkerOwnerAuthorityID e') as Hkeep.
  { intros id e' He'. destruct (decide (we_EnrollmentID e = id)) as [<-|].
    - exists e. rewrite lookup_insert_eq. destruct (Hsame _ He'). split_and!; done.
    - exists e'. by rewrite lookup_insert_ne. }
  split; cbn.
  - apply Hs.
  - intros id e' [[<- <-]|[_ He']]%lookup_insert_Some; [done|]. by apply (po_enrollments _ Hs).
  - intros id c Hc. destruct (po_cards _ Hs _ _ Hc) as (? & ? & e' & He' & Hp & Ho).
    split_and!; [done..|]. apply Hkeep in He' as (e'' & He'' & Hp' & Ho').
    exists e''. split_and!; [done|congruence..].
  - intros id o Ho. destruct (po_offerings _ Hs _ _ Ho) as (? & ? & (e' & He' & Hp) & Hc).
    split_and!; [done..| |done]. apply Hkeep in He' as (e'' & He'' & Hp' & _).
    exists e''. split; [done|congruence].
Qed.

Lemma put_card_ok s c :
  pools_ok s → card_ok s (card_id c) c →
  (∀ c', ps_cards s !! card_id c = Some c' → wc_PoolID (swc_Card c') = wc_PoolID (swc_Card c) ∧
    wc_WorkerEnrollmentID (swc_Card c') = wc_WorkerEnrollmentID (swc_Card c)) →
  pools_ok (s <| ps_cards := <[card_id c := c]> (ps_cards s) |>).
Proof.
  intros Hs Hc Hsame. split; cbn.
  - apply Hs.
  - apply Hs.
  - intros id c' [[<- <-]|[_ Hc']]%lookup_insert_Some; [done|]. by apply (po_cards _ Hs).
  - intros id o Ho. destruct (po_offerings _ Hs _ _ Ho) as (? & ? & He & c' & Hc' & Hp & Hw).
    split_and!; [done..|]. destruct (decide (card_id c = off_WorkerCardID o)) as [Heq|].
    + rewrite <- Heq in Hc'. destruct (Hsame _ Hc'). exists c. rewrite <- Heq.
      split_and!; [apply lookup_insert_eq|congruence..].
    + exists c'. split_and!; [|done..]. by apply lookup_insert_Some; right.
Qed.

Lemma put_offering_ok s o :
  pools_ok s → offering_ok s (off_OfferingID o) o →
  pools_ok (s <| ps_offerings := <[off_OfferingID o := o]> (ps_offerings s) |>).
Proof.
  intros Hs Ho. split; cbn; [apply Hs..|].
  intros id o' [[<- <-]|[_ Ho']]%lookup_insert_Some; [done|]. by apply (po_offerings _ Hs).
Qed.

Lemma delete_pool_ok s poolID :
  pools_ok s →
  pools_ok (mkMemoryStore (delete poolID (ps_pools s))
    (filter (fun kv => we_PoolID kv.2 ≠ poolID) (ps_enrollments s))
    (filter (fun kv => wc_PoolID (swc_Card kv.2) ≠ poolID) (ps_cards s))
    (filter (fun kv => off_PoolID kv.2 ≠ poolID) (ps_offerings s))).
Proof.
  intros Hs. split; cbn.
  - intros id p [_ Hp]%lookup_delete_Some. by apply Hs.
  - intros id e [He Hne]%map_lookup_filter_Some. destruct (po_enrollments _ Hs _ _ He) as (? & ? & Hp).
    split_and!; [done..|]. apply lookup_delete_is_Some. by split; [apply not_eq_sym|].
  - intros id c [Hc Hne]%map_lookup_filter_Some.
    destruct (po_cards _ Hs _ _ Hc) as (? & ? & e & He & Hp & Ho). split_and!; [done..|].
    exists e. split_and!; [|done..]. apply map_lookup_filter_Some. cbn in *. by rewrite Hp.
  - intros id o [Ho Hne]%map_lookup_filter_Some.
    destruct (po_offerings _ Hs _ _ Ho) as (? & ? & (e & He & Hp) & c & Hc & Hpc & Hw).
    split_and!; [done..| |].
    + exists e. split; [|done]. apply map_lookup_filter_Some. cbn in *. by rewrite Hp.
    + exists c. split_and!; [|done..]. apply map_lookup_filter_Some. cbn in *. by rewrite Hpc.
Qed.

Lemma wp_check_revision {A} (current : option A) (previousRevision : uint64)
    (conflicts : A → Prop) `{∀ a, Decision (conflicts a)} (Q : MemoryStore → PoolError + unit → Prop) s :
  (∀ err, Q s (inl err)) →
  ((∀ a, current = Some a → ¬ conflicts a) → Q s (inr tt)) →
  wp (check_revision current previousRevision conflicts) Q s.
Proof.
  intros Herr Hok. unfold check_revision.
  destruct current as [a|]; apply wp_reject_if; intros ?; try apply Herr; apply Hok.
  - by intros ? [= <-].
  - done.
Qed.

Lemma perform_pool_ok op s : pools_ok s → pools_ok (perform_pool op s).
Proof.
  intros Hs. destruct op; cbn [perform_pool];
    match goal with |- pools_ok (?m ?s).1 => change (wp m (fun s' _ => pools_ok s') s) end.
  - unfold CreatePool. wp_steps; try done. apply put_pool_ok; [done|].
    apply eq_None_not_Some. tauto.
  - unfold UpdatePool. wp_steps; try done. apply put_pool_ok; [done|].
    apply eq_None_not_Some. tauto.
  - unfold DeletePool. wp_steps; try done. by apply delete_pool_ok.
  - unfold PutWorkerEnrollment. wp_steps; try done.
    apply wp_check_revision; [done|]. intros Hcurrent. wp_steps. apply put_enrollment_ok; [done|..].
    + apply eq_None_not_Some. tauto.
    + by apply not_eq_None_Some.
    + intros e' He'. apply Hcurrent in He'.
      split; apply dec_stable; tauto.
  - unfold PutWorkerCard. cbv zeta. wp_steps; try done.
    apply wp_check_revision; [done|]. intros Hcurrent. wp_steps. apply put_card_ok; [done|..].
    + split_and!; [done|apply eq_None_not_Some; tauto|]. eexists. split; [eassumption|].
      split; apply dec_stable; tauto.
    + intros c' Hc'. specialize (Hcurrent _ (f_equal (fmap swc_Card) Hc')).
      split; apply dec_stable; tauto.
  - unfold PutOffering. cbv zeta. wp_steps; try done.
    apply wp_check_revision; [done|]. intros Hcurrent. wp_steps. apply put_offering_ok; [done|].
    split_and!; [done|apply eq_None_not_Some; tauto|..]; eexists; (split; [eassumption|]);
      [|split]; apply dec_stable; tauto.
  - unfold GetPoolStatus. cbv zeta. by wp_steps.
Qed.

(** [C40] In every reachable store of pools each record is valid, stored under
    its identifier and in a pool that exists: an enrollment names a pool of
    the store, a card an enrollment of the same pool and owner, and an offering
    an enrollment and a card of the same pool, the card being of that
    enrollment; so a deleted pool leaves none of its records behind. *)
Theorem pool_store_well_formed s :
  reachable_pools s →
  map_Forall (fun id p => pool_PoolID p = id ∧ Pool_Validate p = None) (ps_pools s) ∧
  map_Forall (enrollment_ok s) (ps_enrollments s) ∧
  map_Forall (card_ok s) (ps_cards s) ∧
  map_Forall (offering_ok s) (ps_offerings s) ∧
  (∀ poolID, ps_pools s !! poolID = None →
    map_Forall (fun _ e => we_PoolID e ≠ poolID) (ps_enrollments s) ∧
    map_Forall (fun _ c => wc_PoolID (swc_Card c) ≠ poolID) (ps_cards s) ∧
    map_Forall (fun _ o => off_PoolID o ≠ poolID) (ps_offerings s)).
Proof.
  intros Hreach. assert (pools_ok s) as Hs.
  { induction Hreach; [|by apply perform_pool_ok].
    split; cbn; intros ? ? Hk; by rewrite lookup_empty in Hk. }
  split; [exact (po_pools _ Hs)|]. split; [exact (po_enrollments _ Hs)|].
  split; [exact (po_cards _ Hs)|]. split; [exact (po_offerings _ Hs)|]. intros poolID Hnone.
  assert (∀ id e, ps_enrollments s !! id = Some e → we_PoolID e ≠ poolID) as Hno.
  { intros id e He <-. destruct (po_enrollments _ Hs _ _ He) as (_ & _ & Hp).
    rewrite Hnone in Hp. by destruct Hp. }
  split_and!; [exact Hno|..].
  - intros id c Hc. destruct (po_cards _ Hs _ _ Hc) as (_ & _ & e & He & <- & _). by eapply Hno.
  - intros id o Ho. destruct (po_offerings _ Hs _ _ Ho) as (_ & _ & (e & He & <-) & _).
    by eapply Hno.
Qed.
End machine.

(** ** Permissiveness *)

Definition no_more_permissive (old new : PolicyControl) : Prop :=
  controlPermissiveness new ≤ controlPermissiveness old.

(** A rule that allows nothing its predecessor did not. *)
Definition rule_within (old new : PrivacyClassRule) : Prop :=
  Forall2 no_more_permissive (rule_controls old) (rule_controls new) ∧
  (pcr_RememberedConsentAllowed new → pcr_RememberedConsentAllowed old).

(** A policy that allows nothing its predecessor did not. *)
Definition policy_within (old new : SpaceProtectionPolicy) : Prop :=
  let o := spp_Commitments old in
  let n := spp_Commitments new in
  Forall2 no_more_permissive (commitmentControls o) (commitmentControls n) ∧
  (spc_SharedBrowserHistoryEnabled n → spc_SharedBrowserHistoryEnabled o) ∧
  (spc_PrivateUserConfigurationsByDefault o → spc_PrivateUserConfigurationsByDefault n) ∧
  Forall2 rule_within (spp_Rules old) (spp_Rules new).

(** A check over pairs finds nothing exactly when all pairs pass. *)
Lemma existsb_zip_Forall2 {A B} (bad : A * B → bool) (good : A → B → Prop) l k :
  length l = length k → (∀ a b, bad (a, b) = false ↔ good a b) →
  existsb bad (zip l k) = false ↔ Forall2 good l k.
Proof.
  intros Hl Hgood. revert k Hl. induction l as [|a l IH]; intros [|b k] Hl; try done.
  injection Hl as Hl. cbn [zip zip_with existsb]. rewrite orb_false_iff, Hgood, (IH k Hl).
  by rewrite Forall2_cons.
Qed.

Lemma implied_not (a b : bool) : negb a && b = false ↔ (b → a).
Proof. destruct a, b; naive_solver. Qed.

Lemma controls_weaken_spec old new :
  length old = length new → controls_weaken old new = false ↔ Forall2 no_more_permissive old new.
Proof.
  intros Hl. apply existsb_zip_Forall2; [done|]. intros a b. rewrite bool_decide_eq_false.
  unfold no_more_permissive. cbn [fst snd]. lia.
Qed.

Lemma rule_weakens_spec old new : rule_weakens old new = false ↔ rule_within old new.
Proof.
  unfold rule_weakens, rule_within.
  by rewrite orb_false_iff, controls_weaken_spec, implied_not by done.
Qed.

Lemma policyIsWeakening_spec old new :
  length (spp_Rules old) = length (spp_Rules new) →
  policyIsWeakening old new = false ↔ policy_within old new.
Proof.
  intros Hl. unfold policyIsWeakening, policy_within. cbv zeta. rewrite !orb_false_iff.
  rewrite controls_weaken_spec, implied_not by done.
  rewrite (andb_comm (spc_PrivateUserConfigurationsByDefault _)), implied_not.
  rewrite (existsb_zip_Forall2 _ rule_within); [tauto|done|].
  intros a b. cbn [fst snd]. apply rule_weakens_spec.
Qed.

(** ** Acknowledgements *)

Section facts.
Context `{UuidLib} `{CurveLib}.

Lemma authority_map_snoc participants p :
  authority_map (participants ++ [p]) =
  <[psa_ParticipantID p := psa_SigningKeyFingerprint p]> (authority_map participants).
Proof. unfold authority_map. by rewrite foldl_app. Qed.

Lemma authority_map_lookup participants p :
  NoDup (psa_ParticipantID <$> participants) → p ∈ participants →
  authority_map participants !! psa_ParticipantID p = Some (psa_SigningKeyFingerprint p).
Proof.
  induction participants as [|q participants IH] using rev_ind; intros Hnd Hp.
  { by apply elem_of_nil in Hp. }
  rewrite authority_map_snoc. rewrite fmap_app in Hnd.
  apply NoDup_app in Hnd as (Hnd & Hdis & _).
  apply elem_of_app in Hp as [Hp| ->%list_elem_of_singleton].
  - rewrite lookup_insert_ne; [by apply IH|]. intros Heq.
    apply (Hdis (psa_ParticipantID p)); [by apply list_elem_of_fmap_2|].
    rewrite <- Heq. apply list_elem_of_here.
  - apply lookup_insert_eq.
Qed.

(** The participant has signed, with the key on record, an acknowledgement of
    exactly this revision of the policy. *)
Definition acknowledged_by (proposed : SpaceProtectionPolicy)
    (acknowledgements : list PolicyAcknowledgement) (p : PolicyParticipantSigningAuthority) : Prop :=
  ∃ a, a ∈ acknowledgements ∧ PolicyAcknowledgement_Validate a = None ∧
    pa_ParticipantID a = psa_ParticipantID p ∧
    es_SigningKeyFingerprint (pa_Signature a) = psa_SigningKeyFingerprint p ∧
    pa_SpaceID a = spp_SpaceID proposed ∧ pa_PolicyID a = spp_PolicyID proposed ∧
    pa_PolicyRevision a = spp_Revision proposed ∧
    pa_PolicyDigest a = default ""%string (SpaceProtectionPolicy_Digest proposed).

Lemma acknowledged_spec proposed acknowledgements participants p :
  NoDup (psa_ParticipantID <$> participants) → p ∈ participants →
  psa_ParticipantID p ∈ pa_ParticipantID <$>
    filter (acknowledges proposed (default ""%string (SpaceProtectionPolicy_Digest proposed))
      (authority_map participants)) acknowledgements ↔
  acknowledged_by proposed acknowledgements p.
Proof.
  intros Hnd Hp. assert (Hm := authority_map_lookup _ _ Hnd Hp).
  rewrite list_elem_of_fmap. unfold acknowledged_by, acknowledges. split.
  - intros (a & Hid & [(Hv & Hs & Hpol & Hr & Hd & Hkey) Ha]%list_elem_of_filter).
    rewrite <- Hid, Hm in Hkey. exists a. split_and!; done.
  - intros (a & Ha & Hv & Hid & Hkey & Hs & Hpol & Hr & Hd). exists a. split; [done|].
    apply list_elem_of_filter. split; [|done]. rewrite Hid, Hm. split_and!; done.
Qed.

Lemma sortedUniqueUUIDs_NoDup values : sortedUniqueUUIDs values → NoDup values.
Proof.
  unfold sortedUniqueUUIDs. rewrite !andb_True, bool_decide_spec. intros [_ Hnd].
  by apply NoDup_fmap_1 in Hnd.
Qed.

Lemma signed_policy_rules signed :
  SignedSpaceProtectionPolicy_Validate signed = None →
  zlen (spp_Rules (ssp_Policy signed)) = zlen privacyClasses.
Proof.
  unfold SignedSpaceProtectionPolicy_Validate, SpaceProtectionPolicy_Validate.
  rewrite !err_then_None, !err_when_None. intros [(Hv & _) _].
  destruct (decide (zlen (spp_Rules (ssp_Policy signed)) = zlen privacyClasses)); [done|tauto].
Qed.

(** What [EvaluatePolicyActivation] has checked when it answers. *)
Lemma evaluate_policy_inv signedCurrent signedProposed authority fingerprint active acks e :
  EvaluatePolicyActivation signedCurrent signedProposed authority fingerprint active acks = inr e →
  NoDup (psa_ParticipantID <$> active) ∧
  length (spp_Rules (ssp_Policy signedCurrent)) = length (spp_Rules (ssp_Policy signedProposed)) ∧
  spp_PredecessorDigest (ssp_Policy signedProposed) =
    SpaceProtectionPolicy_Digest (ssp_Policy signedCurrent) ∧
  spp_Revision (ssp_Policy signedProposed) = u64 (spp_Revision (ssp_Policy signedCurrent) + 1).
Proof.
  unfold EvaluatePolicyActivation. cbv zeta. destruct (_ >>? _) as [err|] eqn:Hchecks; [done|].
  intros _. rewrite !err_then_None, !err_when_None in Hchecks. destruct Hchecks as (_ & Hs & Hd).
  split_and!.
  - apply sortedUniqueUUIDs_NoDup. destruct (sortedUniqueUUIDs _); [done|].
    exfalso. apply Hs. naive_solver.
  - assert (∀ signed, ¬ is_Some (SignedSpaceProtectionPolicy_Validate signed) →
      length (spp_Rules (ssp_Policy signed)) = length privacyClasses) as Hrules.
    { intros signed Hn. rewrite <- eq_None_not_Some in Hn. apply signed_policy_rules in Hn.
      unfold zlen in Hn. lia. }
    rewrite !Hrules by tauto. done.
  - destruct (decide (spp_PredecessorDigest (ssp_Policy signedProposed) =
      SpaceProtectionPolicy_Digest (ssp_Policy signedCurrent))); [done|tauto].
  - destruct (decide (spp_Revision (ssp_Policy signedProposed) =
      u64 (spp_Revision (ssp_Policy signedCurrent) + 1))); [done|tauto].
Qed.

(** The answer, once the checks have passed. *)
Lemma evaluate_policy_result signedCurrent signedProposed authority fingerprint active acks e :
  EvaluatePolicyActivation signedCurrent signedProposed authority fingerprint active acks = inr e →
  let current := ssp_Policy signedCurrent in
  let proposed := ssp_Policy signedProposed in
  if policyIsWeakening current proposed then
    let accepted := pa_ParticipantID <$>
      filter (acknowledges proposed (default ""%string (SpaceProtectionPolicy_Digest proposed))
        (authority_map active)) acks in
    pae_MissingParticipantIDs e = filter (fun id => id ∉ accepted) (psa_ParticipantID <$> active) ∧
    pae_Requirement e = PolicyActivationUnanimous ∧
    (pae_AuthoritativePolicy e, pae_PendingPolicy e) =
      match pae_MissingParticipantIDs e with
      | [] => (proposed, None)
      | _ => (current, Some proposed)
      end
  else e = mkPolicyActivationEvaluation PolicyActivationImmediate proposed None [].
Proof.
  unfold EvaluatePolicyActivation. cbv zeta. destruct (_ >>? _); [done|].
  destruct (policyIsWeakening _ _); [|by intros [= <-]].
  change (map psa_ParticipantID active) with (psa_ParticipantID <$> active).
  destruct (filter _ (psa_ParticipantID <$> active)) eqn:Hm; intros [= <-]; done.
Qed.

(** [C39] A revision of a policy that permits no more than the policy in force
    takes effect at once; one that permits more in any control takes effect
    exactly when every active participant has signed, with the key on record,
    an acknowledgement of exactly that revision, and until then the policy in
    force stays, the revision is pending, and the evaluation names the active
    participants whose acknowledgement is missing.  Either way the revision is
    the successor of the policy in force and names its digest. *)
Theorem policy_takes_effect signedCurrent signedProposed authority fingerprint active acks e :
  EvaluatePolicyActivation signedCurrent signedProposed authority fingerprint active acks = inr e →
  let current := ssp_Policy signedCurrent in
  let proposed := ssp_Policy signedProposed in
  spp_PredecessorDigest proposed = SpaceProtectionPolicy_Digest current ∧
  spp_Revision proposed = u64 (spp_Revision current + 1) ∧
  (policy_within current proposed →
    e = mkPolicyActivationEvaluation PolicyActivationImmediate proposed None []) ∧
  (¬ policy_within current proposed →
    pae_Requirement e = PolicyActivationUnanimous ∧
    (∀ p, p ∈ active →
      psa_ParticipantID p ∈ pae_MissingParticipantIDs e ↔ ¬ acknowledged_by proposed acks p) ∧
    ((∀ p, p ∈ active → acknowledged_by proposed acks p) →
      pae_AuthoritativePolicy e = proposed ∧ pae_PendingPolicy e = None) ∧
    ((∃ p, p ∈ active ∧ ¬ acknowledged_by proposed acks p) →
      pae_AuthoritativePolicy e = current ∧ pae_PendingPolicy e = Some proposed)).
Proof.
  intros He. destruct (evaluate_policy_inv _ _ _ _ _ _ _ He) as (Hnd & Hrules & Hpred & Hrev).
  apply evaluate_policy_result in He. cbv zeta in *. split_and!; [done..| |];
    rewrite <- (policyIsWeakening_spec _ _ Hrules).
  { intros Hw. by rewrite Hw in He. }
  intros Hw. apply not_false_is_true in Hw. rewrite Hw in He. destruct He as (Hmissing & Hreq & Hout).
  assert (∀ p, p ∈ active → psa_ParticipantID p ∈ pae_MissingParticipantIDs e ↔
    ¬ acknowledged_by (ssp_Policy signedProposed) acks p) as Hmiss.
  { intros p Hp. rewrite Hmissing, list_elem_of_filter, acknowledged_spec by done.
    split; [by intros []|]. split; [done|]. by apply list_elem_of_fmap_2. }
  split_and!; [done|done| |].
  - intros Hall. assert (pae_MissingParticipantIDs e = []) as Hnil.
    { destruct (pae_MissingParticipantIDs e) as [|id ids]; [done|]. exfalso.
      assert (id ∈ id :: ids) as Hid by apply list_elem_of_here. assert (Hid' := Hid).
      rewrite Hmissing in Hid'.
      apply list_elem_of_filter in Hid' as [_ (p & -> & Hp)%list_elem_of_fmap].
      destruct (proj1 (Hmiss p Hp) Hid). by apply Hall. }
    rewrite Hnil in Hout. by injection Hout.
  - intros (p & Hp & Hno). apply Hmiss in Hno; [|done].
    destruct (pae_MissingParticipantIDs e); [by apply elem_of_nil in Hno|by injection Hout].
Qed.
End facts.

(** ** Strictly increasing lists *)

Lemma increasing_after_above {A} (valid : A → bool) (text : A → string) previous l a :
  increasing_after valid text previous l → a ∈ l → str_lt previous (text a).
Proof.
  revert previous. induction l as [|b l IH]; intros previous; [by intros _ ?%elem_of_nil|].
  cbn [increasing_after]. rewrite !andb_True, bool_decide_spec, <- str_lt_not_le.
  intros [[_ Hb] Hl] [->|Ha]%elem_of_cons; [done|]. transitivity (text b); [done|]. by apply IH.
Qed.

Lemma increasing_after_NoDup {A} (valid : A → bool) (text : A → string) previous l :
  increasing_after valid text previous l → NoDup (text <$> l).
Proof.
  revert previous. induction l as [|b l IH]; intros previous; [by constructor|].
  cbn [increasing_after fmap list_fmap]. rewrite !andb_True. intros [_ Hl]. constructor; [|by eapply IH].
  intros (a & Heq & Ha)%list_elem_of_fmap. apply (increasing_after_above _ _ _ _ _ Hl) in Ha.
  rewrite Heq, str_lt_not_le in Ha. by apply Ha.
Qed.

(** ** Coverage *)

Lemma object_by_id_elem objects id object :
  object_by_id objects id = Some object → object ∈ objects ∧ dos_ObjectID object = id.
Proof.
  unfold object_by_id. intros ([i o] & Hf & ->)%fmap_Some.
  apply list_find_Some in Hf as (Hi & Hid & _). split; [|done].
  apply list_elem_of_lookup_2 in Hi. by apply elem_of_reverse.
Qed.

(** An object of the plan under its identifier, no more private than [class]. *)
Definition may_go (objects : list DisclosureObjectScope) (class : PrivacyClass) (id : string) : Prop :=
  ∃ object, object ∈ objects ∧ dos_ObjectID object = id ∧
    privacyRank (dos_PrivacyClass object) ≤ privacyRank class.

Lemma cover_objects_spec objects class covered ids covered' :
  cover_objects objects class covered ids = Some covered' →
  covered' = list_to_set ids ∪ covered ∧ NoDup ids ∧ (∀ id, id ∈ ids → id ∉ covered) ∧
  Forall (may_go objects class) ids.
Proof.
  revert covered. induction ids as [|id ids IH]; intros covered; cbn [cover_objects].
  - intros [= <-]. split_and!; [set_solver|constructor|set_solver|constructor].
  - destruct (object_by_id objects id) as [object|] eqn:Ho; [|done]. cbn.
    case_decide as Hd; [done|]. intros (-> & Hnd & Hout & Hall)%IH.
    apply object_by_id_elem in Ho as [Hin Hid]. split_and!.
    + set_solver.
    + constructor; [|done]. intros Hx%Hout. set_solver.
    + intros id' [->|Hid']%elem_of_cons; [tauto|]. apply Hout in Hid'. set_solver.
    + constructor; [|done]. exists object. split_and!; [done..|lia].
Qed.

Section plan.
Context `{UuidLib}.

(** What a partition of a valid plan satisfies. *)
Definition partition_ok (plan : DisclosurePlan) (p : DisclosurePartition) : Prop :=
  DisclosurePartition_Validate p = None ∧
  same_destination (dpt_Destination p) (dp_Destination plan) ∧
  Forall (may_go (dp_Objects plan) (dpt_EffectivePrivacyClass p)) (dpt_ObjectIDs p).

Definition partition_ids (partitions : list DisclosurePartition) : list string :=
  partitions ≫= dpt_ObjectIDs.

Lemma cover_partitions_spec plan previous covered partitions covered' :
  cover_partitions plan previous covered partitions = Some covered' →
  covered' = list_to_set (partition_ids partitions) ∪ covered ∧
  NoDup (partition_ids partitions) ∧ (∀ id, id ∈ partition_ids partitions → id ∉ covered) ∧
  Forall (partition_ok plan) partitions.
Proof.
  revert previous covered. induction partitions as [|p partitions IH]; intros previous covered;
    cbn [cover_partitions].
  - intros [= <-]. split_and!; [set_solver|constructor|set_solver|constructor].
  - cbv zeta. case_decide as Hd; [done|].
    destruct (cover_objects _ _ _ _) as [c|] eqn:Hc; [|done]. cbn [mbind option_bind].
    intros (-> & Hnd & Hout & Hall)%IH. apply cover_objects_spec in Hc as (-> & Hnd' & Hout' & Hgo).
    change (partition_ids (p :: partitions)) with (dpt_ObjectIDs p ++ partition_ids partitions).
    split_and!.
    + rewrite list_to_set_app_L. set_solver.
    + apply NoDup_app. split_and!; [done| |done]. intros id Hid Hid'%Hout. set_solver.
    + intros id [Hid|Hid]%elem_of_app; [by apply Hout'|]. apply Hout in Hid. set_solver.
    + constructor; [|done]. apply Decidable.not_or in Hd as [Hv [_ Hs]%Decidable.not_or].
      split_and!; [by apply eq_None_not_Some|by apply dec_stable|done].
Qed.

(** ** The decision *)

Lemma combine_prohibit d x :
  combine_decision d x = DecisionProhibit ↔ d = DecisionProhibit ∨ x = DecisionProhibit.
Proof.
  unfold combine_decision. case_decide as Hx; [tauto|]. case_decide as Hc; [|tauto].
  destruct Hc as [-> ->]. split; [done|]. by intros [].
Qed.

Lemma combine_allow d x :
  DisclosureDecision_Valid x →
  combine_decision d x = DecisionAllow ↔ d = DecisionAllow ∧ x = DecisionAllow.
Proof.
  unfold DisclosureDecision_Valid, contains. rewrite bool_decide_spec. intros Hx.
  unfold combine_decision. case_decide as Hp; [subst; split; [done|by intros []]|].
  case_decide as Hc; [destruct Hc as [-> ->]; split; [done|by intros []]|].
  split; [|by intros []]. intros ->. split; [done|]. set_solver.
Qed.

Lemma aggregate_prohibit l d :
  foldl combine_decision d l = DecisionProhibit ↔ d = DecisionProhibit ∨ DecisionProhibit ∈ l.
Proof.
  revert d. induction l as [|x l IH]; intros d; cbn [foldl].
  - split; [by left|]. intros [|?%elem_of_nil]; done.
  - rewrite IH, combine_prohibit, elem_of_cons. intuition congruence.
Qed.

Lemma aggregate_allow l d :
  Forall DisclosureDecision_Valid l →
  foldl combine_decision d l = DecisionAllow ↔ d = DecisionAllow ∧ Forall (.= DecisionAllow) l.
Proof.
  intros Hv. revert d. induction Hv as [|x l Hx Hv IH]; intros d; cbn [foldl].
  - rewrite Forall_nil. tauto.
  - rewrite IH, combine_allow, Forall_cons by done. tauto.
Qed.

(** ** Plans *)

Lemma partition_decision p :
  DisclosurePartition_Validate p = None → DisclosureDecision_Valid (dpt_Decision p).
Proof.
  unfold DisclosurePartition_Validate. rewrite err_when_None. intros Hv.
  destruct (DisclosureDecision_Valid (dpt_Decision p)); [done|]. exfalso. apply Hv. naive_solver.
Qed.

Lemma plan_valid_inv plan :
  DisclosurePlan_Validate plan = None →
  NoDup (dos_ObjectID <$> dp_Objects plan) ∧
  aggregate_decision (dp_Partitions plan) = dp_Decision plan ∧
  ∃ covered, cover_partitions plan "" ∅ (dp_Partitions plan) = Some covered ∧
    Z.of_nat (size covered) = zlen (dp_Objects plan).
Proof.
  unfold DisclosurePlan_Validate. cbv zeta. rewrite !err_then_None, !err_when_None.
  intros (_ & Hinc & _ & Hcover).
  destruct (cover_partitions _ _ _ _) as [covered|]; [|done].
  rewrite err_then_None, !err_when_None in Hcover. destruct Hcover as [Hc _].
  split_and!.
  - apply dec_stable in Hinc. by eapply increasing_after_NoDup.
  - apply dec_stable. tauto.
  - exists covered. split; [done|]. apply dec_stable. tauto.
Qed.

(** In a valid disclosure plan the partitions list every object of the
    plan exactly once and nothing else; each partition is valid, goes to the
    plan's destination, and its privacy class is at least that of every object
    it holds; the plan prohibits exactly when some partition does, and allows
    without consent exactly when all do. *)
Theorem plan_partitions_objects plan :
  DisclosurePlan_Validate plan = None →
  partition_ids (dp_Partitions plan) ≡ₚ dos_ObjectID <$> dp_Objects plan ∧
  Forall (partition_ok plan) (dp_Partitions plan) ∧
  (dp_Decision plan = DecisionProhibit ↔
   Exists (fun p => dpt_Decision p = DecisionProhibit) (dp_Partitions plan)) ∧
  (dp_Decision plan = DecisionAllow ↔
   Forall (fun p => dpt_Decision p = DecisionAllow) (dp_Partitions plan)).
Proof.
  intros (Hnd & Hdecision & covered & Hcover & Hsize)%plan_valid_inv.
  apply cover_partitions_spec in Hcover as (-> & Hnd' & _ & Hall).
  rewrite (right_id_L ∅ (∪)), size_list_to_set in Hsize by done. unfold zlen in Hsize.
  split_and!; [|done|..].
  - apply submseteq_length_Permutation; [|rewrite length_fmap; lia].
    apply NoDup_submseteq; [done|]. intros id (p & Hid & Hp)%list_elem_of_bind.
    rewrite Forall_forall in Hall. destruct (Hall p Hp) as (_ & _ & Hgo).
    rewrite Forall_forall in Hgo. destruct (Hgo id Hid) as (object & Ho & <- & _).
    by apply list_elem_of_fmap_2.
  - rewrite <- Hdecision. unfold aggregate_decision. rewrite aggregate_prohibit, Exists_exists.
    rewrite list_elem_of_fmap. split; [intros [|(p & ? & ?)]; [done|eauto]|].
    intros (p & Hp & <-). right. eauto.
  - rewrite <- Hdecision. unfold aggregate_decision. rewrite aggregate_allow, Forall_fmap; [by split; [intros []|]|].
    apply Forall_fmap. eapply Forall_impl; [done|]. intros p (Hv & _). by apply partition_decision.
Qed.

(** Two destinations with distinct provider pointers are never the same, so a
    decoded plan that goes to a compute offering is refused. *)
Lemma provider_pointers_shared plan p :
  DisclosurePlan_Validate plan = None → p ∈ dp_Partitions plan →
  (sp_address <$> dd_ProviderIdentifier (dpt_Destination p)) =
    (sp_address <$> dd_ProviderIdentifier (dp_Destination plan)).
Proof.
  intros (_ & _ & covered & Hcover & _)%plan_valid_inv Hp.
  apply cover_partitions_spec in Hcover as (_ & _ & _ & Hall). rewrite Forall_forall in Hall.
  destruct (Hall p Hp) as (_ & (_ & _ & Hs) & _). done.
Qed.
End plan.
