(* ===== verification/ComputeJobsFacts.v ===== *)
(** * internal/computepool: what an accepted job lifecycle is

    An accepted set of records is one chain of signed transitions; a
    completed job has an executed and applied result; records that arrive
    twice change nothing. *)

From stdpp Require Import pretty.
From S2P Require Import Prelude GoEncoding GoText Sha256 P256 RelayModel ServiceAuthority ComputePool ComputePrivacy ComputeAdmission ComputeJobs.
#[local] Open Scope Z_scope.

(** ** Loops that stop at the first error *)

Lemma fold_option_app {A B} (f : B → A → option B) b l1 l2 :
  fold_option f b (l1 ++ l2) = b' ← fold_option f b l1; fold_option f b' l2.
Proof.
  revert b. induction l1 as [|a l1 IH]; intros b; [done|]. cbn [app fold_option].
  destruct (f b a); cbn; [apply IH|done].
Qed.

(** An invariant that sees the elements already consumed. *)
Lemma fold_option_invariant {A B} (P : list A → B → Prop) (f : B → A → option B) b l b' :
  P [] b → (∀ pre a b b', P pre b → f b a = Some b' → P (pre ++ [a]) b') →
  fold_option f b l = Some b' → P l b'.
Proof.
  intros Hb Hstep. enough (∀ pre b, P pre b → fold_option f b l = Some b' → P (pre ++ l) b') as Hg.
  { apply (Hg []). done. }
  clear b Hb. induction l as [|a l IH]; intros pre b Hb; cbn [fold_option].
  - intros [= <-]. by rewrite app_nil_r.
  - destruct (f b a) as [b1|] eqn:Hf; [|done]. cbn. intros Hl.
    change (a :: l) with ([a] ++ l). rewrite (assoc_L app).
    by apply (IH _ b1), Hl; eapply Hstep.
Qed.

Lemma bind_Some_inv {A B} (f : A → option B) (o : option A) b :
  o ≫= f = Some b → ∃ a, o = Some a ∧ f a = Some b.
Proof. destruct o; [eauto|done]. Qed.

(** ** States *)

Definition allStates : list JobState :=
  [JobAuthorized; JobAdmitted; JobQueued; JobLeased; JobExecuting; JobRetryWait;
   JobResultStaged; JobResultDelivered; JobResultApplied; JobCompleted; JobCancelRequested;
   JobCancelled; JobPaused; JobFailed; JobExpired].

Lemma contains_spec values target : contains values target ↔ target ∈ values.
Proof. unfold contains. by rewrite Is_true_true, bool_decide_eq_true. Qed.

(** Every successor is one of the states. *)
Lemma allowed_states from to : allowedJobTransition from to → from ∈ allStates ∧ to ∈ allStates.
Proof.
  unfold allowedJobTransition.
  repeat case_decide; subst; try (by intros []); intros Ha;
    (split; [by apply (bool_decide_unpack _)|]);
    [..|rewrite Is_true_true, bool_decide_eq_true in Ha| |]; try rewrite contains_spec in Ha;
    unfold allStates; set_solver.
Qed.

(** [within pre x]: the only way out of the states [pre] is through [x]. *)
Definition within (pre : list JobState) (x : JobState) : bool :=
  forallb (fun from => forallb (fun to =>
    negb (allowedJobTransition from to) || bool_decide (to = x ∨ to ∈ pre)) allStates) pre.

Lemma within_spec pre x from to :
  within pre x → from ∈ pre → allowedJobTransition from to → to = x ∨ to ∈ pre.
Proof.
  unfold within. intros Hw Hfrom Hto. apply Is_true_true, forallb_forall with (x := from) in Hw;
    [|by apply list_elem_of_In].
  assert (to ∈ allStates) as Hin by by apply (allowed_states from).
  apply forallb_forall with (x := to) in Hw; [|by apply list_elem_of_In].
  apply orb_true_iff in Hw as [Hn|Hd]; [|by apply bool_decide_eq_true in Hd].
  destruct (allowedJobTransition from to); done.
Qed.

(** Nothing follows the states in which a job has ended. *)
Definition final_states : list JobState := [JobCompleted; JobCancelled; JobFailed; JobExpired].

Lemma final_state_final from to : from ∈ final_states → ¬ allowedJobTransition from to.
Proof.
  unfold final_states. intros Hf Ha.
  repeat (apply elem_of_cons in Hf as [->|Hf]; [by vm_compute in Ha|]). by apply elem_of_nil in Hf.
Qed.

(** The element before position [i]. *)
Definition predecessor {A} (path : list A) (i : nat) : option A :=
  match i with O => None | S j => path !! j end.

Lemma predecessor_snoc {A} (path : list A) a i :
  (i ≤ length path)%nat → predecessor (path ++ [a]) i = predecessor path i.
Proof. destruct i; [done|]. intros. apply lookup_app_l. lia. Qed.

Lemma predecessor_last {A} (path : list A) : predecessor path (length path) = last path.
Proof. rewrite last_lookup. by destruct path. Qed.

Lemma elem_snoc_l {A} (l : list A) a x : x ∈ l → x ∈ l ++ [a].
Proof. intros. apply elem_of_app. by left. Qed.

Lemma elem_snoc_r {A} (l : list A) a : a ∈ l ++ [a].
Proof. apply elem_of_app. right. by apply list_elem_of_singleton. Qed.

Section facts.
Context `{UuidLib} `{CurveLib} `{Ed25519Lib}.
Implicit Types t : PoolJobTransition.

(** ** Repeated transitions *)

Definition accepted_transition poolID poolAuthorityID fingerprint t : Prop :=
  PoolJobTransition_Validate t = None ∧ pjt_PoolID t = poolID ∧
  es_SignerID (pjt_Signature t) = poolAuthorityID ∧
  es_SigningKeyFingerprint (pjt_Signature t) = fingerprint.

Definition known (m : list PoolJobTransition) {K} `{Countable K} (key : PoolJobTransition → K)
    (digests : gmap K string) : Prop :=
  ∀ k d, digests !! k = Some d → ∃ t, t ∈ m ∧ key t = k ∧ PoolJobTransition_Digest t = Some d.

(** What the loop has established about the transitions seen so far. *)
Record input_ok poolID poolAuthorityID fingerprint (seen : list PoolJobTransition)
    (i : transition_input) : Prop := {
  io_sublist : ti_unique i `sublist_of` seen;
  io_count : zlen seen = zlen (ti_unique i) + ti_duplicates i;
  io_accepted : Forall (accepted_transition poolID poolAuthorityID fingerprint) (ti_unique i);
  io_byID : known (ti_unique i) pjt_TransitionID (ti_byID i);
  io_bySequence : known (ti_unique i) pjt_Sequence (ti_bySequence i);
  io_covered : ∀ t, t ∈ seen → ∃ t', t' ∈ ti_unique i ∧
    PoolJobTransition_Digest t' = PoolJobTransition_Digest t }.

Lemma known_insert {K} `{Countable K} (key : PoolJobTransition → K) m t d (digests : gmap K string) :
  PoolJobTransition_Digest t = Some d → known m key digests →
  known (m ++ [t]) key (<[key t := d]> digests).
Proof.
  intros Hd Hm k d' Hk. apply lookup_insert_Some in Hk as [(<- & <-)|(_ & Hk)].
  - exists t. split_and!; [set_solver|done..].
  - apply Hm in Hk as (t' & ? & ? & ?). exists t'. split_and!; [set_solver|done..].
Qed.

(** A transition whose digest a known one already has. *)
Lemma input_duplicate poolID poolAuthorityID fingerprint seen i t t' d sequence :
  input_ok poolID poolAuthorityID fingerprint seen i → t' ∈ ti_unique i →
  PoolJobTransition_Digest t' = Some d → PoolJobTransition_Digest t = Some d →
  input_ok poolID poolAuthorityID fingerprint (seen ++ [t])
    (mkTransitionInput (ti_unique i) (ti_byID i) (ti_bySequence i) (ti_duplicates i + 1) sequence).
Proof.
  intros [] Ht' Hd' Hd. constructor; simpl; [|rewrite zlen_app; change (zlen [t]) with 1; lia|done..|].
  - by apply sublist_inserts_r.
  - intros t0 [Ht0| ->%list_elem_of_singleton]%elem_of_app; [auto|]. exists t'. by rewrite Hd', Hd.
Qed.

Lemma dedupe_transition_ok poolID poolAuthorityID fingerprint seen i t i' :
  input_ok poolID poolAuthorityID fingerprint seen i →
  dedupe_transition poolID poolAuthorityID fingerprint i t = Some i' →
  input_ok poolID poolAuthorityID fingerprint (seen ++ [t]) i'.
Proof.
  intros Hi. unfold dedupe_transition. case_decide as Hv; [done|].
  intros (d & Hd & Hrun)%bind_Some_inv.
  destruct (ti_byID i !! pjt_TransitionID t) as [prior|] eqn:Hid.
  { revert Hrun. case_decide as Hp; [done|]. intros [= <-]. subst prior.
    destruct (io_byID _ _ _ _ _ Hi _ _ Hid) as (t' & ? & ? & ?). by eapply input_duplicate. }
  destruct (ti_bySequence i !! pjt_Sequence t) as [prior|] eqn:Hseq.
  { revert Hrun. case_decide as Hp; [done|]. intros [= <-]. subst prior.
    destruct (io_bySequence _ _ _ _ _ Hi _ _ Hseq) as (t' & ? & ? & ?). by eapply input_duplicate. }
  revert Hrun. case_decide as Hs; [done|]. intros [= <-]. destruct Hi. constructor; simpl.
  - by apply sublist_app.
  - rewrite !zlen_app. change (zlen [t]) with 1. lia.
  - apply Forall_app. split; [done|]. apply Forall_singleton.
    unfold accepted_transition. apply Decidable.not_or in Hv as [_ Hv].
    rewrite <- eq_None_not_Some in Hv. apply Decidable.not_or in Hs as [? [? ?]%Decidable.not_or].
    split_and!; [done|by apply dec_stable..].
  - by apply known_insert.
  - by apply known_insert.
  - intros t0 [Ht0| ->%list_elem_of_singleton]%elem_of_app; [|exists t; set_solver].
    apply io_covered0 in Ht0 as (t' & ? & ?). exists t'. set_solver.
Qed.

Lemma dedupeTransitions_ok poolID poolAuthorityID fingerprint transitions i :
  dedupeTransitions poolID poolAuthorityID fingerprint transitions = Some i →
  input_ok poolID poolAuthorityID fingerprint transitions i.
Proof.
  apply (fold_option_invariant (input_ok poolID poolAuthorityID fingerprint)).
  - constructor; simpl; [done|done|by constructor| | |by intros ? ?%elem_of_nil];
      intros k d Hk; by rewrite lookup_empty in Hk.
  - intros. by eapply dedupe_transition_ok.
Qed.

(** ** Receipts *)

Lemma dedupeExecutions_elem executions byID duplicates id r :
  dedupeExecutions executions = Some (byID, duplicates) → byID !! id = Some r →
  r ∈ executions ∧ wer_ReceiptID r = id ∧ WorkerExecutionReceipt_Validate r = None.
Proof.
  intros ([m1 m2] & Hrun & [= <- _])%bind_Some_inv. revert id r.
  refine (fold_option_invariant (fun seen m => ∀ id r, m.1 !! id = Some r → r ∈ seen ∧
    wer_ReceiptID r = id ∧ WorkerExecutionReceipt_Validate r = None) _ _ _ _ _ _ Hrun).
  - intros id r Hr. simpl in Hr. by rewrite lookup_empty in Hr.
  - intros seen a [byID byAttempt] m' Hm. cbn [dedupe_execution]. case_decide as Hv; [done|].
    rewrite <- eq_None_not_Some in Hv. intros Hstep.
    assert (m'.1 = byID ∨ m'.1 = <[wer_ReceiptID a := a]> byID) as Hcase.
    { destruct (byID !! _); case_decide; try discriminate Hstep; apply (inj Some) in Hstep;
        subst m'; [by left|by right]. }
    clear Hstep. revert Hcase. generalize m'.1. intros m1' [->| ->].
    + intros id r Hr. apply Hm in Hr as (? & ? & ?). by eauto using elem_snoc_l.
    + intros id r Hr. apply lookup_insert_Some in Hr as [(<- & <-)|(_ & Hr)];
        [by eauto using elem_snoc_r|]. apply Hm in Hr as (? & ? & ?). by eauto using elem_snoc_l.
Qed.

Lemma dedupeApplications_elem applications byID duplicates id r :
  dedupeApplications applications = Some (byID, duplicates) → byID !! id = Some r →
  r ∈ applications ∧ rar_ReceiptID r = id ∧ ResultApplicationReceipt_Validate r = None.
Proof.
  intros ([m1 m2] & Hrun & [= <- _])%bind_Some_inv. revert id r.
  refine (fold_option_invariant (fun seen m => ∀ id r, m.1 !! id = Some r → r ∈ seen ∧
    rar_ReceiptID r = id ∧ ResultApplicationReceipt_Validate r = None) _ _ _ _ _ _ Hrun).
  - intros id r Hr. simpl in Hr. by rewrite lookup_empty in Hr.
  - intros seen a [byID byJob] m' Hm. cbn [dedupe_application]. case_decide as Hv; [done|].
    rewrite <- eq_None_not_Some in Hv. intros Hstep.
    assert (m'.1 = byID ∨ m'.1 = <[rar_ReceiptID a := a]> byID) as Hcase.
    { destruct (byID !! _); case_decide; try discriminate Hstep; apply (inj Some) in Hstep;
        subst m'; [by left|by right]. }
    clear Hstep. revert Hcase. generalize m'.1. intros m1' [->| ->].
    + intros id r Hr. apply Hm in Hr as (? & ? & ?). by eauto using elem_snoc_l.
    + intros id r Hr. apply lookup_insert_Some in Hr as [(<- & <-)|(_ & Hr)];
        [by eauto using elem_snoc_r|]. apply Hm in Hr as (? & ? & ?). by eauto using elem_snoc_l.
Qed.

Lemma receipt_for_digest_elem {A} (digest : A → option string) receipts expected r :
  receipt_for_digest digest receipts expected = Some r →
  ∃ id, receipts !! id = Some r ∧ expected = Some (text_or_empty (digest r)).
Proof.
  unfold receipt_for_digest. intros (e & -> & Hr)%bind_Some_inv.
  apply fmap_Some in Hr as ([i [id r']] & Hfind & ->).
  apply list_find_Some in Hfind as (Hi & <- & _). exists id. split; [|done].
  by apply list_elem_of_lookup_2, elem_of_map_to_list in Hi.
Qed.

(** ** The chain *)

Section chain.
Variables (executions : gmap UUID WorkerExecutionReceipt)
  (applications : gmap UUID ResultApplicationReceipt)
  (authorization : InvocationAuthorization) (authorizationDigest : string)
  (admission : PoolAdmission) (admissionDigest : string) (jobID : UUID).

(** What [follows] checks. *)
Lemma follows_first t :
  follows authorization authorizationDigest None t →
  pjt_State t = JobAuthorized ∧ pjt_Sequence t = 1 ∧
  pjt_EvidenceDigest t = Some authorizationDigest.
Proof. intros Hf%bool_decide_unpack. naive_solver. Qed.

Lemma follows_next p t :
  follows authorization authorizationDigest (Some p) t →
  allowedJobTransition (pjt_State p) (pjt_State t).
Proof. intros Hf%bool_decide_unpack. naive_solver. Qed.

Definition applied_in (path : list PoolJobTransition) (evidence : option string) : Prop :=
  ∃ r, r ∈ path ∧ pjt_State r = JobResultApplied ∧ pjt_EvidenceDigest r = evidence.

Record chain_ok (path : list PoolJobTransition) (c : chain) : Prop := {
  co_previous : ch_previous c = last path;
  co_linked : ∀ i t, path !! i = Some t →
    pjt_JobID t = jobID ∧ follows authorization authorizationDigest (predecessor path i) t ∧
    evidenced executions applications admission admissionDigest t;
  co_applied : ch_sawResultApplied c = true → applied_in path (Some (ch_appliedEvidenceDigest c));
  co_completed : ∀ t, t ∈ path → pjt_State t = JobCompleted →
    applied_in path (pjt_EvidenceDigest t) }.

Lemma applied_in_snoc path t evidence : applied_in path evidence → applied_in (path ++ [t]) evidence.
Proof. intros (r & ? & ? & ?). exists r. set_solver. Qed.

Lemma applied_evidence t :
  evidenced executions applications admission admissionDigest t → pjt_State t = JobResultApplied →
  ∃ id r, applications !! id = Some r ∧
    pjt_EvidenceDigest t = Some (text_or_empty (ResultApplicationReceipt_Digest r)).
Proof.
  unfold evidenced. intros He Hs. cbv zeta in He. rewrite Hs in He.
  do 3 (rewrite decide_False in He by (first [done|by intros [|]])).
  rewrite decide_True in He by done. apply bool_decide_unpack, some_and_Some in He as (r & Hr & _).
  apply receipt_for_digest_elem in Hr as (id & ? & ?). eauto.
Qed.

Lemma chain_step_ok path t c c' :
  chain_ok path c →
  chain_step executions applications authorization authorizationDigest admission
    admissionDigest jobID c t = Some c' →
  chain_ok (path ++ [t]) c'.
Proof.
  intros [Hprev Hlink Happ Hcomp]. unfold chain_step. case_decide as Hd; [done|].
  apply Decidable.not_or in Hd as [Hjob [Hf He]%Decidable.not_or].
  apply dec_stable in Hjob. apply not_false_is_true, Is_true_true in Hf, He. rewrite Hprev in Hf.
  set (c1 := if decide (pjt_State t = JobResultApplied) then _ else _).
  assert (ch_previous c1 = Some t ∧ (ch_sawResultApplied c1 = true →
    applied_in (path ++ [t]) (Some (ch_appliedEvidenceDigest c1)))) as [Hp1 Ha1].
  { unfold c1. case_decide as Hs; simpl; split; try done.
    - intros _. exists t. destruct (applied_evidence t He Hs) as (id & r & _ & Hr).
      rewrite Hr. split_and!; [apply elem_snoc_r|done|done].
    - intros Hsaw. by apply applied_in_snoc, Happ. }
  case_decide as Hc; [done|]. intros [= <-]. constructor.
  - by rewrite last_snoc.
  - intros i t' [[Hi Ht']|[-> ->]]%lookup_snoc_Some.
    + rewrite predecessor_snoc by lia. by apply Hlink.
    + by rewrite predecessor_snoc, predecessor_last by done.
  - done.
  - intros t' [Ht'| ->%list_elem_of_singleton]%elem_of_app Hs.
    + by apply applied_in_snoc, Hcomp.
    + destruct (ch_sawResultApplied c1) eqn:Hsaw; [|tauto].
      destruct (decide (pjt_EvidenceDigest t = Some (ch_appliedEvidenceDigest c1))) as [->|];
        [by apply Ha1|tauto].
Qed.

Lemma chain_fold_ok path c :
  fold_option (chain_step executions applications authorization authorizationDigest admission
    admissionDigest jobID)
    (mkChain None false "") path = Some c → chain_ok path c.
Proof.
  apply (fold_option_invariant chain_ok).
  - constructor; simpl; [done|done|done|by intros ? ?%elem_of_nil].
  - intros. by eapply chain_step_ok.
Qed.
End chain.

(** ** Accepted lifecycles *)

Section evaluation.
Variables (transitions : list PoolJobTransition) (executions : list WorkerExecutionReceipt)
  (applications : list ResultApplicationReceipt) (authorization : InvocationAuthorization)
  (admission : PoolAdmission) (signedWorkerCard : SignedWorkerCard)
  (workerEnrollment : WorkerEnrollment) (offering : Offering)
  (invocationAuthorities applicationAuthorities : list P256SigningAuthority)
  (poolID poolAuthorityID : UUID) (fingerprint : string).

Abbreviation authorization_digest :=
  (text_or_empty (InvocationAuthorization_Digest authorization)).
Abbreviation evaluate transitions :=
  (EvaluateJobLifecycle transitions executions applications authorization admission
    signedWorkerCard workerEnrollment offering invocationAuthorities applicationAuthorities
    poolID poolAuthorityID fingerprint).

Lemma evaluate_inv e :
  evaluate transitions = inr e →
  ∃ input executionByID executionDuplicates applicationByID applicationDuplicates c,
    input_ok poolID poolAuthorityID fingerprint transitions input ∧
    dedupeExecutions executions = Some (executionByID, executionDuplicates) ∧
    dedupeApplications applications = Some (applicationByID, applicationDuplicates) ∧
    chain_ok executionByID applicationByID authorization authorization_digest admission
      (text_or_empty (PoolAdmission_Digest admission)) (jle_JobID e) (ti_unique input) c ∧
    ti_unique input ≠ [] ∧ (pjt_State <$> last (ti_unique input)) = Some (jle_CurrentState e) ∧
    jle_AcceptedTransitionCount e = zlen (ti_unique input) ∧
    jle_DuplicateTransitionCount e = ti_duplicates input ∧
    (∀ id r, executionByID !! id = Some r →
      WorkerExecutionReceipt_ValidateAdmission r admission authorization workerEnrollment = None ∧
      wer_StartedAtMilliseconds r < pad_LeaseExpiresAtMilliseconds admission) ∧
    (∀ id r, applicationByID !! id = Some r →
      anyP256AuthorityAuthorizes applicationAuthorities (rar_Signature r) ∧
      ∃ execution, executionByID !! rar_ExecutionReceiptID r = Some execution ∧
        ResultApplicationReceipt_ValidateExecution r execution = None).
Proof.
  unfold EvaluateJobLifecycle.
  set (outcome := mbind _ (dedupeTransitions _ _ _ _)). destruct outcome as [e'|] eqn:Hrun; [|done].
  intros He. apply (inj inr) in He. subst e' outcome.
  apply bind_Some_inv in Hrun as (input & Hinput & Hrun).
  apply bind_Some_inv in Hrun as ([executionByID eds] & Hex & Hrun).
  apply bind_Some_inv in Hrun as ([applicationByID ads] & Hap & Hrun).
  apply bind_Some_inv in Hrun as (first & Hfirst & Hrun). revert Hrun. case_decide as Hd; [done|].
  intros (c & Hc & (final & Hfinal & He)%bind_Some_inv)%bind_Some_inv.
  apply (inj Some) in He. subst e. cbn [jle_JobID jle_CurrentState jle_AcceptedTransitionCount
    jle_DuplicateTransitionCount].
  apply Decidable.not_or in Hd as [_ [_ [_ [Hexs Haps]%Decidable.not_or]%Decidable.not_or]%Decidable.not_or].
  apply not_true_is_false, bool_decide_eq_false in Hexs, Haps.
  rewrite map_any_spec in Hexs. rewrite map_any_spec in Haps.
  exists input, executionByID, eds, applicationByID, ads, c. split_and!.
  - by apply dedupeTransitions_ok.
  - done.
  - done.
  - by apply chain_fold_ok.
  - intros Hnil. by rewrite Hnil in Hfirst.
  - by rewrite Hfinal.
  - done.
  - done.
  - intros id r Hr. assert (execution_refused authorization admission workerEnrollment
      (pjt_JobID first) r = false) as Hx.
    { apply Is_true_false. intros ?. apply Hexs. eauto. }
    unfold execution_refused in Hx. apply bool_decide_eq_false in Hx.
    apply Decidable.not_or in Hx as [_ [Hv [Hs _]%Decidable.not_or]%Decidable.not_or].
    rewrite <- eq_None_not_Some in Hv. split; [done|lia].
  - intros id r Hr. assert (application_refused executionByID applicationAuthorities
      (pjt_JobID first) r = false) as Hx.
    { apply Is_true_false. intros ?. apply Haps. eauto. }
    unfold application_refused in Hx. apply orb_false_iff in Hx as [[_ Ha]%orb_false_iff Hx].
    apply negb_false_iff in Ha. rewrite Ha. split; [done|].
    destruct (executionByID !! _) as [execution|]; [|done]. exists execution.
    destruct (ResultApplicationReceipt_ValidateExecution r execution); done.
Qed.

(** The states of an accepted history that has left [pre] include [x]. *)
Lemma chain_passes executionByID applicationByID admissionDigest jobID path c pre x final :
  chain_ok executionByID applicationByID authorization authorization_digest admission
    admissionDigest jobID path c →
  within pre x → JobAuthorized ∈ pre → last path = Some final → pjt_State final ∉ pre →
  ∃ t, t ∈ path ∧ pjt_State t = x.
Proof.
  intros Hc Hw Hpre Hlast Hfinal.
  assert (∀ i t, path !! i = Some t → pjt_State t ∈ pre ∨ ∃ t', t' ∈ path ∧ pjt_State t' = x) as Hall.
  { induction i as [|i IH]; intros t Ht;
      destruct (co_linked _ _ _ _ _ _ _ _ _ Hc _ _ Ht) as (_ & Hf & _).
    - apply follows_first in Hf as [-> _]. by left.
    - simpl in Hf. destruct (path !! i) as [p|] eqn:Hp.
      2: { apply lookup_ge_None in Hp. apply lookup_lt_Some in Ht. lia. }
      apply follows_next in Hf. destruct (IH p eq_refl) as [Hin|Hx]; [|by right].
      destruct (within_spec pre x _ _ Hw Hin Hf) as [Hs|Hs]; [|by left].
      right. exists t. split; [|done]. by apply (list_elem_of_lookup_2 _ (S i)). }
  rewrite last_lookup in Hlast. destruct (Hall _ _ Hlast) as [|Hx]; done.
Qed.

(** The states from which a job can still be without the given one. *)
Definition before_admitted : list JobState :=
  [JobAuthorized; JobCancelRequested; JobCancelled; JobFailed; JobExpired].
Definition before_leased : list JobState := before_admitted ++ [JobAdmitted; JobQueued; JobPaused].
Definition before_executing : list JobState := before_leased ++ [JobLeased; JobRetryWait].
Definition before_staged : list JobState := before_executing ++ [JobExecuting].
Definition before_delivered : list JobState := before_staged ++ [JobResultStaged].
Definition before_applied : list JobState := before_delivered ++ [JobResultDelivered].

Definition stages : list (list JobState * JobState) :=
  [(before_admitted, JobAdmitted); (before_leased, JobLeased); (before_executing, JobExecuting);
   (before_staged, JobResultStaged); (before_delivered, JobResultDelivered);
   (before_applied, JobResultApplied)].

Lemma stages_within pre x :
  (pre, x) ∈ stages → within pre x ∧ JobAuthorized ∈ pre ∧ JobCompleted ∉ pre.
Proof.
  intros Hin. unfold stages in Hin.
  repeat (apply elem_of_cons in Hin as [[= -> ->]|Hin]; [by apply (bool_decide_unpack _)|]).
  by apply elem_of_nil in Hin.
Qed.

(** [C37] An accepted lifecycle is one history: some of the given transitions,
    in their order, form a chain that starts with the authorization, in which
    each transition has the next sequence number, carries the digest of the
    one before, is no earlier, and is allowed from its state; all are of one
    job, signed by the pool's authority; no state in which a job has ended has
    a successor; every transition given is one of these or has the digest of
    one; and the evaluation reports its last state and how many were
    accepted and dropped. *)
Theorem lifecycle_is_one_history e :
  evaluate transitions = inr e →
  ∃ path, path `sublist_of` transitions ∧
    pjt_State <$> last path = Some (jle_CurrentState e) ∧
    zlen path = jle_AcceptedTransitionCount e ∧
    zlen transitions = jle_AcceptedTransitionCount e + jle_DuplicateTransitionCount e ∧
    Forall (accepted_transition poolID poolAuthorityID fingerprint) path ∧
    (∀ i t, path !! i = Some t →
      pjt_JobID t = jle_JobID e ∧
      follows authorization authorization_digest (predecessor path i) t) ∧
    (∀ i t t', path !! i = Some t → path !! S i = Some t' → pjt_State t ∉ final_states) ∧
    (∀ t, t ∈ transitions → ∃ t', t' ∈ path ∧
      PoolJobTransition_Digest t' = PoolJobTransition_Digest t).
Proof.
  intros (input & exs & eds & aps & ads & c & Hi & _ & _ & Hc & _ & Hlast & Hn & Hd & _)%evaluate_inv.
  exists (ti_unique input). split_and!.
  - apply Hi.
  - done.
  - done.
  - rewrite Hn, Hd. apply Hi.
  - apply Hi.
  - intros i t Ht. destruct (co_linked _ _ _ _ _ _ _ _ _ Hc _ _ Ht) as (? & ? & _). done.
  - intros i t t' Ht Ht' Hf. destruct (co_linked _ _ _ _ _ _ _ _ _ Hc _ _ Ht') as (_ & Hs & _).
    simpl in Hs. rewrite Ht in Hs. apply follows_next in Hs.
    by apply (final_state_final _ _ Hf) in Hs.
  - apply Hi.
Qed.

(** [C38] A job that an accepted lifecycle reports as completed was admitted,
    leased, executed, and its result staged, delivered and applied; and among
    the given receipts are one of an execution under this admission, started
    under the lease, and one of the application of that execution's result,
    signed by a permitted authority, whose digest the completing transition
    carries. *)
Theorem completed_job_was_applied e :
  evaluate transitions = inr e → jle_CurrentState e = JobCompleted →
  (∀ x, x ∈ [JobAdmitted; JobLeased; JobExecuting; JobResultStaged; JobResultDelivered;
             JobResultApplied] →
    ∃ t, t ∈ transitions ∧ pjt_State t = x) ∧
  ∃ execution application t, execution ∈ executions ∧ application ∈ applications ∧
    t ∈ transitions ∧ pjt_State t = JobCompleted ∧
    pjt_EvidenceDigest t = Some (text_or_empty (ResultApplicationReceipt_Digest application)) ∧
    anyP256AuthorityAuthorizes applicationAuthorities (rar_Signature application) ∧
    ResultApplicationReceipt_ValidateExecution application execution = None ∧
    WorkerExecutionReceipt_ValidateAdmission execution admission authorization
      workerEnrollment = None ∧
    wer_StartedAtMilliseconds execution < pad_LeaseExpiresAtMilliseconds admission.
Proof.
  intros (input & exs & eds & aps & ads & c & Hi & Hexs & Haps & Hc & _ & Hlast & _ & _ & Hex & Hap)%evaluate_inv
    Hdone.
  assert (∀ t, t ∈ ti_unique input → t ∈ transitions) as Hsub.
  { intros t Ht. eapply sublist_subseteq; [apply Hi|done]. }
  apply fmap_Some in Hlast as (final & Hlast & Hfinal). rewrite Hdone in Hfinal.
  assert (final ∈ ti_unique input) as Hin by by eapply last_Some_elem_of.
  split.
  - intros x Hx. assert (∃ pre, (pre, x) ∈ stages) as [pre Hpre].
    { change [JobAdmitted; JobLeased; JobExecuting; JobResultStaged; JobResultDelivered;
        JobResultApplied] with (snd <$> stages) in Hx.
      apply list_elem_of_fmap in Hx as ([pre x'] & -> & Hx). by exists pre. }
    apply stages_within in Hpre as (Hw & Ha & Hf).
    destruct (chain_passes _ _ _ _ _ _ pre x final Hc Hw Ha Hlast) as (t & Ht & Hs);
      [by rewrite <- Hfinal|]. exists t. auto.
  - destruct (co_completed _ _ _ _ _ _ _ _ _ Hc final Hin) as (r & Hr & Hsr & Her); [done|].
    apply list_elem_of_lookup in Hr as [i Hr].
    destruct (co_linked _ _ _ _ _ _ _ _ _ Hc _ _ Hr) as (_ & _ & Hrec).
    destruct (applied_evidence _ _ _ _ _ Hrec Hsr) as (id & application & Hid & Hdigest).
    destruct (Hap _ _ Hid) as (Hauth & execution & Hexecution & Hval).
    destruct (Hex _ _ Hexecution) as [Hadm Hlease].
    exists execution, application, final.
    split_and!; auto.
    + eapply dedupeExecutions_elem; eauto.
    + eapply dedupeApplications_elem; eauto.
    + congruence.
Qed.
End evaluation.

(** ** Repetition *)

Definition with_duplicate (i : transition_input) : transition_input :=
  mkTransitionInput (ti_unique i) (ti_byID i) (ti_bySequence i) (ti_duplicates i + 1)
    (ti_previousInputSequence i).

Lemma dedupe_with_duplicate poolID poolAuthorityID fingerprint i t :
  dedupe_transition poolID poolAuthorityID fingerprint (with_duplicate i) t =
  with_duplicate <$> dedupe_transition poolID poolAuthorityID fingerprint i t.
Proof.
  unfold dedupe_transition, with_duplicate. simpl. case_decide; [done|].
  destruct (PoolJobTransition_Digest t); [|done]. cbn [mbind option_bind].
  repeat (case_match || case_decide); done.
Qed.

Lemma fold_with_duplicate poolID poolAuthorityID fingerprint i l :
  fold_option (dedupe_transition poolID poolAuthorityID fingerprint) (with_duplicate i) l =
  with_duplicate <$> fold_option (dedupe_transition poolID poolAuthorityID fingerprint) i l.
Proof.
  revert i. induction l as [|t l IH]; intros i; [done|]. cbn [fold_option].
  rewrite dedupe_with_duplicate. destruct (dedupe_transition _ _ _ i t); [apply IH|done].
Qed.

Lemma dedupe_again poolID poolAuthorityID fingerprint i t i' :
  dedupe_transition poolID poolAuthorityID fingerprint i t = Some i' →
  dedupe_transition poolID poolAuthorityID fingerprint i' t = Some (with_duplicate i').
Proof.
  unfold dedupe_transition. case_decide as Hv; [done|]. intros (d & Hd & Hrun)%bind_Some_inv.
  assert (pjt_Sequence t = ti_previousInputSequence i' ∧
    (ti_byID i' !! pjt_TransitionID t = Some d ∨
     (ti_byID i' !! pjt_TransitionID t = None ∧ ti_bySequence i' !! pjt_Sequence t = Some d)))
    as [Hseq Hknown].
  { destruct (ti_byID i !! pjt_TransitionID t) as [prior|] eqn:Hid.
    { case_decide as Hp; [done|]. apply (inj Some) in Hrun. subst i' prior. auto. }
    destruct (ti_bySequence i !! pjt_Sequence t) as [prior|] eqn:Hs.
    { case_decide as Hp; [done|]. apply (inj Some) in Hrun. subst i' prior. auto. }
    case_decide; [done|]. apply (inj Some) in Hrun. subst i'. simpl. split; [done|]. left.
    apply lookup_insert_eq. }
  rewrite decide_False by (rewrite Hseq; intros [|]; [lia|tauto]). rewrite Hd. cbn [mbind option_bind].
  destruct Hknown as [->|[-> ->]]; rewrite decide_False by auto; unfold with_duplicate;
    by rewrite Hseq.
Qed.

(** Delivering a transition a second time, right after the first, changes
    nothing of an accepted lifecycle but the count of duplicates. *)
Theorem redelivery_changes_nothing l1 t l2 executions applications authorization admission
    signedWorkerCard workerEnrollment offering invocationAuthorities applicationAuthorities
    poolID poolAuthorityID fingerprint e :
  EvaluateJobLifecycle (l1 ++ t :: l2) executions applications authorization admission
    signedWorkerCard workerEnrollment offering invocationAuthorities applicationAuthorities
    poolID poolAuthorityID fingerprint = inr e →
  EvaluateJobLifecycle (l1 ++ t :: t :: l2) executions applications authorization admission
    signedWorkerCard workerEnrollment offering invocationAuthorities applicationAuthorities
    poolID poolAuthorityID fingerprint =
  inr (mkJobLifecycleEvaluation (jle_JobID e) (jle_CurrentState e)
    (jle_AcceptedTransitionCount e) (jle_DuplicateTransitionCount e + 1)
    (jle_AcceptedExecutionReceiptCount e) (jle_DuplicateExecutionReceiptCount e)
    (jle_AcceptedApplicationReceiptCount e) (jle_DuplicateApplicationReceiptCount e)).
Proof.
  unfold EvaluateJobLifecycle, dedupeTransitions. rewrite !fold_option_app.
  destruct (fold_option _ _ l1) as [i1|]; [|done]. cbn [mbind option_bind fold_option].
  destruct (dedupe_transition _ _ _ i1 t) as [i2|] eqn:Ht; [|done]. cbn [mbind option_bind].
  rewrite (dedupe_again _ _ _ _ _ _ Ht). cbn [mbind option_bind]. rewrite fold_with_duplicate.
  destruct (fold_option _ i2 l2) as [i3|]; [|done]. cbn [mbind option_bind fmap option_fmap option_map].
  destruct (dedupeExecutions executions) as [[exs eds]|]; [|done]. cbn [mbind option_bind].
  destruct (dedupeApplications applications) as [[aps ads]|]; [|done]. cbn [mbind option_bind].
  unfold with_duplicate. cbn [ti_unique ti_duplicates].
  destruct (head (ti_unique i3)) as [first|]; [|done]. cbn [mbind option_bind]. case_decide; [done|].
  destruct (fold_option _ _ (ti_unique i3)); [|done]. cbn [mbind option_bind].
  destruct (last (ti_unique i3)); [|done]. cbn [mbind option_bind].
  intros He. apply (inj inr) in He. by subst e.
Qed.
End facts.
