(* ===== verification/ComputeExample.v ===== *)
(** * internal/computepool: a concrete pool and job

    A worker, its offering and a job from authorization to completion, with a
    toy signature scheme in place of P-256 and Ed25519: the signature of a
    message is its hash.  The closed runs at the end are of records on which
    the code differs from its intent. *)

From stdpp Require Import pretty.
From S2P Require Import Prelude GoEncoding Sha256 RelayModel P256 GoText ServiceAuthority ComputePool ComputePrivacy ComputeAdmission ComputeJobs ComputePoolStore ComputePoolFacts ComputeJobsFacts.
#[local] Open Scope Z_scope.

#[local] Existing Instance rfc4122.

Definition toy_curve : CurveLib := {|
  elliptic_Unmarshal data := if decide (zlen data = 65) then Some (0, 0) else None;
  ecdsa_Verify _ digest r s := bool_decide (r = BigEndian_Uint digest ∧ s = 1) |}.
#[local] Existing Instance toy_curve.

Definition toy_mac (key message : bytes) : bytes :=
  let h := Sum256 (key ++ message) in h ++ h.

Definition toy_ed25519 : Ed25519Lib := {|
  ed25519_NewKeyFromSeed seed := seed ++ Sum256 seed;
  ed25519_Public privateKey := drop 32 privateKey;
  ed25519_Sign privateKey message := toy_mac (drop 32 privateKey) message;
  ed25519_Verify publicKey message signature :=
    bool_decide (signature = toy_mac publicKey message) |}.
#[local] Existing Instance toy_ed25519.

Definition es256_key (n : Z) : bytes := byte_of 4 :: be_bytes 64 n.
Definition es256_fingerprint (n : Z) : string := hex_EncodeToString (Sum256 (es256_key n)).

Definition es256_unsigned (signer : UUID) (key : Z) (signature : string) : ES256Signature :=
  mkES256Signature "ES256" signer (b64_EncodeToString (es256_key key)) (es256_fingerprint key)
    signature.

(** The signature of a record whose payload does not depend on it. *)
Definition es256_sign (signer : UUID) (key : Z) (payload : json) (domain : bytes)
    : ES256Signature :=
  es256_unsigned signer key
    (b64_EncodeToString (Sum256 (domain ++ default [] (canonicalJSON payload)) ++ be_bytes 32 1)).

Definition unsigned : ES256Signature := es256_unsigned uuid_Nil 0 "".

Definition pool_id : UUID := 1%N.
Definition pool_authority_id : UUID := 2%N.
Definition worker_owner_id : UUID := 3%N.
Definition enrollment_id : UUID := 4%N.
Definition device_id : UUID := 5%N.
Definition job_id : UUID := 6%N.
Definition authorization_id : UUID := 7%N.
Definition admission_id : UUID := 8%N.
Definition card_id_ : UUID := 9%N.
Definition offering_id : UUID := 10%N.
Definition pool_key : Z := 1.
Definition device_key : Z := 2.

Definition worker_seed : bytes := be_bytes 32 99.
Definition worker_private_key : bytes := Eval vm_compute in ed25519_NewKeyFromSeed worker_seed.
Definition worker_public_key : bytes := Eval vm_compute in ed25519_Public worker_private_key.
Definition digest_text (n : Z) : string := hex_EncodeToString (be_bytes 32 n).

Definition pool : Pool :=
  mkPool SchemaVersion pool_id pool_authority_id 1 (digest_text 1) "Pool" true 1 1000 1000.

Definition enrollment : WorkerEnrollment := Eval vm_compute in
  mkWorkerEnrollment SchemaVersion enrollment_id pool_id 11%N worker_owner_id
    (b64_EncodeToString worker_public_key) (hex_EncodeToString (Sum256 worker_public_key)) 1 true
    1 1000 1000.

Definition claim (dimension : string) : AssuranceClaim :=
  mkAssuranceClaim dimension "none" EvidenceFacetsEnforced "facets.runtime" None 1000 None 1.

Definition card : WorkerCard :=
  mkWorkerCard WorkerCardSchemaVersion card_id_ pool_id enrollment_id worker_owner_id "Worker"
    "facets.runtime" "build-1" (claim <$> assuranceDimensions) 1 1000 1000.

Definition signed_card : SignedWorkerCard := Eval vm_compute in
  match NewSignedWorkerCard card worker_private_key with
  | inr signed => signed
  | inl _ => mkSignedWorkerCard card (mkEd25519Signature "" 0%N "" "" "")
  end.

Definition card_digest : string := Eval vm_compute in text_or_empty (WorkerCard_Digest card).

Definition no_retention : RetentionPolicy := mkRetentionPolicy RetentionNone None.

Definition profile : DataHandlingProfile :=
  mkDataHandlingProfile PlaintextBoundaryFacetsManagedLocalRuntime NetworkEgressNone no_retention
    no_retention no_retention TrainingProhibited ToolAccessNone "facets.mlx".

Definition ceiling : ResourceCeiling := mkResourceCeiling 1024 1024 4096 60000.
Definition budget : BudgetCeiling := mkBudgetCeiling 100 "USD".

Definition offering : Offering :=
  mkOffering SchemaVersion offering_id pool_id enrollment_id card_id_ 1 card_digest "facets.mlx"
    ["mlx.local"%string] ["infer"%string] [InteractionBatch] profile 1 ceiling true 1 1000 1000.

(** ** The records of a job *)

Definition authorization_with (signature : ES256Signature) : InvocationAuthorization :=
  mkInvocationAuthorization 1 authorization_id 12%N pool_id card_id_ 1 card_digest offering_id 1
    (digest_text 2) (digest_text 3) (digest_text 4) None PrivacyPersonal 2000 90000 signature.

Definition authorization : InvocationAuthorization := Eval vm_compute in
  authorization_with (es256_sign device_id device_key
    (InvocationAuthorization_signingPayload (authorization_with unsigned))
    invocationAuthorizationDomain).

Definition authorization_digest : string := Eval vm_compute in
  text_or_empty (InvocationAuthorization_Digest authorization).

Definition admission_with (signature : ES256Signature) : PoolAdmission :=
  mkPoolAdmission 1 admission_id job_id pool_id authorization_id authorization_digest
    enrollment_id card_id_ 1 card_digest offering_id 1 ceiling budget 3000 80000 60000 signature.

Definition admission : PoolAdmission := Eval vm_compute in
  admission_with (es256_sign pool_authority_id pool_key
    (PoolAdmission_signingPayload (admission_with unsigned)) poolAdmissionDomain).

Definition admission_digest : string := Eval vm_compute in
  text_or_empty (PoolAdmission_Digest admission).

Definition execution_with (signature : Ed25519Signature) : WorkerExecutionReceipt :=
  mkWorkerExecutionReceipt 1 13%N job_id admission_id admission_digest enrollment_id 1
    (digest_text 2) (digest_text 5) 5000 6000 signature.

Definition execution : WorkerExecutionReceipt := Eval vm_compute in
  let key := b64_EncodeToString worker_public_key in
  let fingerprint := hex_EncodeToString (Sum256 worker_public_key) in
  let payload := WorkerExecutionReceipt_signingPayload
    (execution_with (mkEd25519Signature "Ed25519" enrollment_id key fingerprint "")) in
  execution_with (mkEd25519Signature "Ed25519" enrollment_id key fingerprint
    (b64_EncodeToString (ed25519_Sign worker_private_key
      (workerExecutionDomain ++ default [] (canonicalJSON payload))))).

Definition execution_digest : string := Eval vm_compute in
  text_or_empty (WorkerExecutionReceipt_Digest execution).

Definition application_with (signature : ES256Signature) : ResultApplicationReceipt :=
  mkResultApplicationReceipt 1 14%N job_id 13%N execution_digest (digest_text 5) (digest_text 6)
    device_id 8000 signature.

Definition application : ResultApplicationReceipt := Eval vm_compute in
  application_with (es256_sign device_id device_key
    (ResultApplicationReceipt_signingPayload (application_with unsigned))
    resultApplicationDomain).

Definition application_digest : string := Eval vm_compute in
  text_or_empty (ResultApplicationReceipt_Digest application).

Definition transition_with (id : UUID) (sequence : Z) (predecessor : option string)
    (state : JobState) (evidence : option string) (at_ : Z) (signature : ES256Signature)
    : PoolJobTransition :=
  mkPoolJobTransition 1 id job_id pool_id sequence predecessor state evidence at_ signature.

(** The next transition of a job, signed by the pool. *)
Definition next_transition (path : list PoolJobTransition) (step : JobState * option string * Z)
    : list PoolJobTransition :=
  let '(state, evidence, at_) := step in
  let sequence := zlen path + 1 in
  let t := transition_with (100 + Z.to_N sequence)%N sequence (last path ≫= PoolJobTransition_Digest)
    state evidence at_ in
  path ++ [t (es256_sign pool_authority_id pool_key
    (PoolJobTransition_signingPayload (t unsigned)) poolJobTransitionDomain)].

Definition job_path : list PoolJobTransition := Eval vm_compute in
  foldl next_transition []
    [(JobAuthorized, Some authorization_digest, 2500); (JobAdmitted, Some admission_digest, 3000);
     (JobLeased, None, 4000); (JobExecuting, None, 5000);
     (JobResultStaged, Some execution_digest, 6500);
     (JobResultDelivered, Some execution_digest, 7000);
     (JobResultApplied, Some application_digest, 8000);
     (JobCompleted, Some application_digest, 9000)].

Definition device_authority : P256SigningAuthority := Eval vm_compute in
  mkP256SigningAuthority device_id (es256_fingerprint device_key).

Definition pool_fingerprint : string := Eval vm_compute in es256_fingerprint pool_key.

Abbreviation evaluated transitions :=
  (EvaluateJobLifecycle transitions [execution; execution] [application] authorization admission
    signed_card enrollment offering [device_authority] [device_authority] pool_id
    pool_authority_id pool_fingerprint).

Definition completed : JobLifecycleEvaluation :=
  mkJobLifecycleEvaluation job_id JobCompleted 8 0 1 1 1 0.

Lemma job_path_completes : evaluated job_path = inr completed.
Proof. vm_cast_no_check (eq_refl (inr completed : LifecycleError + JobLifecycleEvaluation)). Qed.

Lemma lifecycle_is_one_history_witness :
  evaluated job_path = inr completed ∧
  ∃ path, path `sublist_of` job_path ∧ pjt_State <$> last path = Some JobCompleted ∧ zlen path = 8.
Proof.
  split; [exact job_path_completes|].
  destruct (lifecycle_is_one_history job_path [execution; execution] [application] authorization
    admission signed_card enrollment offering [device_authority] [device_authority] pool_id
    pool_authority_id pool_fingerprint completed job_path_completes) as (path & ? & ? & ? & _).
  exists path. done.
Defined.

Lemma completed_job_was_applied_witness :
  evaluated job_path = inr completed ∧
  ∃ t, t ∈ job_path ∧ pjt_State t = JobLeased.
Proof.
  split; [exact job_path_completes|].
  destruct (completed_job_was_applied job_path [execution; execution] [application] authorization
    admission signed_card enrollment offering [device_authority] [device_authority] pool_id
    pool_authority_id pool_fingerprint completed job_path_completes eq_refl) as [Hall _].
  apply Hall. by apply (bool_decide_unpack _).
Defined.

(** The fifth transition arrives twice. *)
Definition job_path_before : list PoolJobTransition := take 4 job_path.
Definition job_path_after : list PoolJobTransition := drop 5 job_path.
Definition staged_transition : PoolJobTransition := Eval vm_compute in
  default (transition_with 0%N 0 None "" None 0 unsigned) (job_path !! 4%nat).

Lemma job_path_split : job_path = job_path_before ++ staged_transition :: job_path_after.
Proof. reflexivity. Qed.

Lemma redelivery_changes_nothing_witness :
  evaluated (job_path_before ++ staged_transition :: job_path_after) = inr completed ∧
  evaluated (job_path_before ++ staged_transition :: staged_transition :: job_path_after) =
    inr (mkJobLifecycleEvaluation job_id JobCompleted 8 1 1 1 1 0).
Proof.
  assert (evaluated (job_path_before ++ staged_transition :: job_path_after) = inr completed) as He.
  { rewrite <- job_path_split. exact job_path_completes. }
  split; [exact He|].
  exact (redelivery_changes_nothing job_path_before staged_transition job_path_after
    [execution; execution] [application] authorization admission signed_card enrollment offering
    [device_authority] [device_authority] pool_id pool_authority_id pool_fingerprint completed He).
Defined.

(** ** A policy that allows more *)

Definition rule (class : PrivacyClass) (remembered : bool) : PrivacyClassRule :=
  mkPrivacyClassRule class ControlProhibited ControlConsentRequired ControlProhibited remembered.

Definition commitments (sharing : PolicyControl) : SpaceProtectionCommitments :=
  mkSpaceProtectionCommitments sharing ControlAllowed ControlProhibited ControlAllowed
    ControlAllowed ControlProhibited ControlProhibited ControlConsentRequired false true.

Definition policy (revision : Z) (predecessor : option string) (sharing : PolicyControl)
    : SpaceProtectionPolicy :=
  mkSpaceProtectionPolicy 1 15%N 12%N None revision predecessor
    [rule PrivacyPublic true; rule PrivacyPersonal false; rule PrivacyConfidential false;
     rule PrivacyRestricted false] (commitments sharing) 1000.

Definition sign_policy (p : SpaceProtectionPolicy) : SignedSpaceProtectionPolicy :=
  mkSignedSpaceProtectionPolicy p
    (es256_sign pool_authority_id pool_key (SpaceProtectionPolicy_json p) spacePolicyDomain).

Definition current_policy : SignedSpaceProtectionPolicy := Eval vm_compute in
  sign_policy (policy 1 None ControlProhibited).

Definition proposed_policy : SignedSpaceProtectionPolicy := Eval vm_compute in
  sign_policy (policy 2 (SpaceProtectionPolicy_Digest (ssp_Policy current_policy)) ControlAllowed).

Definition acknowledgement_with (signature : ES256Signature) : PolicyAcknowledgement :=
  mkPolicyAcknowledgement 1 16%N 12%N 15%N 2
    (text_or_empty (SpaceProtectionPolicy_Digest (ssp_Policy proposed_policy))) device_id 2000
    signature.

Definition acknowledgement : PolicyAcknowledgement := Eval vm_compute in
  acknowledgement_with (es256_sign device_id device_key
    (PolicyAcknowledgement_signingPayload (acknowledgement_with unsigned))
    policyAcknowledgementDomain).

Definition participants : list PolicyParticipantSigningAuthority := Eval vm_compute in
  [mkPolicyParticipantSigningAuthority worker_owner_id (es256_fingerprint 3);
   mkPolicyParticipantSigningAuthority device_id (es256_fingerprint device_key)].

Abbreviation activation participants acknowledgements :=
  (EvaluatePolicyActivation current_policy proposed_policy pool_authority_id pool_fingerprint
    participants acknowledgements).

Definition waiting : PolicyActivationEvaluation :=
  mkPolicyActivationEvaluation PolicyActivationUnanimous (ssp_Policy current_policy)
    (Some (ssp_Policy proposed_policy)) [worker_owner_id].

Lemma activation_waits : activation participants [acknowledgement] = inr waiting.
Proof.
  vm_cast_no_check (eq_refl (inr waiting : ContractError + PolicyActivationEvaluation)).
Qed.

Lemma policy_takes_effect_witness :
  activation participants [acknowledgement] = inr waiting ∧
  spp_PredecessorDigest (ssp_Policy proposed_policy) =
    SpaceProtectionPolicy_Digest (ssp_Policy current_policy).
Proof.
  split; [exact activation_waits|].
  apply (policy_takes_effect current_policy proposed_policy pool_authority_id pool_fingerprint
    participants [acknowledgement] waiting activation_waits).
Defined.

(** ** A plan with two objects *)

Definition object (id : string) (class : PrivacyClass) : DisclosureObjectScope :=
  mkDisclosureObjectScope id (digest_text 7) class None.

Definition destination (address : N) : DisclosureDestination :=
  mkDisclosureDestination DestinationComputeOffering "offering-1"
    (Some (mkStringPointer address "facets.mlx")).

Definition partition (address : N) : DisclosurePartition :=
  mkDisclosurePartition 17%N ["a"; "b"]%string PrivacyConfidential (destination address)
    (Some card_id_) (Some 1) (Some card_digest) (Some offering_id) (Some 1) DecisionAllow None.

(** The plan, with the address of the provider in its own destination and in
    that of its partition. *)
Definition plan (own partition's : N) : DisclosurePlan :=
  mkDisclosurePlan 1 18%N DisclosureProcess None None None None
    [object "a" PrivacyPersonal; object "b" PrivacyConfidential]
    [mkDisclosurePrivacyComposition PrivacyPersonal 1;
     mkDisclosurePrivacyComposition PrivacyConfidential 1]
    (destination own) None None [partition partition's] DecisionAllow 1000 2000.

Lemma plan_partitions_objects_witness :
  DisclosurePlan_Validate (plan 1 1) = None ∧
  Permutation ["a"; "b"]%string ["a"; "b"]%string.
Proof.
  assert (DisclosurePlan_Validate (plan 1 1) = None) as Hv by (vm_compute; reflexivity).
  split; [exact Hv|]. apply (plan_partitions_objects (plan 1 1) Hv).
Defined.

(** ** A pool with a worker *)

Definition pool_ops : list PoolOp :=
  [OpCreatePool pool; OpPutWorkerEnrollment 0 enrollment; OpPutWorkerCard 0 signed_card;
   OpPutOffering 0 offering].

Definition pool_store : MemoryStore := foldl (fun s op => perform_pool op s) NewMemoryStore pool_ops.

Lemma pool_store_reachable : reachable_pools pool_store.
Proof. repeat apply reachable_pool_step. apply reachable_no_pools. Qed.

Lemma pool_store_well_formed_witness :
  reachable_pools pool_store ∧ map_Forall (offering_ok pool_store) (ps_offerings pool_store).
Proof.
  split; [exact pool_store_reachable|].
  apply (pool_store_well_formed pool_store pool_store_reachable).
Defined.

#[local] Existing Instance rfc4122.
#[local] Existing Instance toy_curve.
#[local] Existing Instance toy_ed25519.

(** [json.Unmarshal] into [any] reads numbers as [float64]: two cards that
    differ in their revision have one digest. *)
Definition card_at (revision : uint64) : WorkerCard :=
  mkWorkerCard WorkerCardSchemaVersion card_id_ pool_id enrollment_id worker_owner_id "Worker"
    "facets.runtime" "build-1" (claim <$> assuranceDimensions) revision 1000 1000.

Example rounded_revisions_share_a_digest :
  WorkerCard_Validate (card_at (2 ^ 53)) = None ∧ WorkerCard_Validate (card_at (2 ^ 53 + 1)) = None ∧
  WorkerCard_Digest (card_at (2 ^ 53)) = WorkerCard_Digest (card_at (2 ^ 53 + 1)).
Proof. split_and!; vm_compute; reflexivity. Qed.

(** Decoding gives each destination its own provider string: the plan of the
    example is refused once its two destinations no longer share one. *)
Example decoded_plan_refused :
  DisclosurePlan_Validate (plan 1 1) = None ∧
  DisclosurePlan_Validate (plan 1 2) = Some ErrInvalidContract ∧
  DisclosurePlan_json (plan 1 1) = DisclosurePlan_json (plan 1 2).
Proof. split_and!; vm_compute; reflexivity. Qed.

(** Disabling an enrollment that has a card is accepted, and hides the whole
    pool. *)
Definition disabled_enrollment : WorkerEnrollment := Eval vm_compute in
  mkWorkerEnrollment SchemaVersion enrollment_id pool_id 11%N worker_owner_id
    (b64_EncodeToString worker_public_key) (hex_EncodeToString (Sum256 worker_public_key)) 1 false
    2 1000 1000.

Definition status_of (s : MemoryStore) : option PoolError :=
  match (GetPoolStatus pool_id s).2 with inl err => Some err | inr _ => None end.

Example disabled_worker_hides_pool :
  status_of pool_store = None ∧
  (PutWorkerEnrollment 1 disabled_enrollment pool_store).2 = inr tt ∧
  status_of (PutWorkerEnrollment 1 disabled_enrollment pool_store).1 = Some ErrPoolInvalid.
Proof. split_and!; vm_compute; reflexivity. Qed.

(** A copy of an accepted transition that arrives after a later one makes the
    whole evaluation fail. *)
Example late_duplicate_refused :
  evaluated (take 2 job_path) =
    inr (mkJobLifecycleEvaluation job_id JobAdmitted 2 0 1 1 1 0) ∧
  evaluated (take 2 job_path ++ take 1 job_path) = inl ErrInvalidLifecycle.
Proof.
  split.
  - vm_cast_no_check (eq_refl (inr (mkJobLifecycleEvaluation job_id JobAdmitted 2 0 1 1 1 0)
      : LifecycleError + JobLifecycleEvaluation)).
  - vm_cast_no_check (eq_refl (inl ErrInvalidLifecycle : LifecycleError + JobLifecycleEvaluation)).
Qed.
