(* ===== verification/KeyCustody.v ===== *)
(** * internal/keycustody: managed content keys (managed.go)

    Content keys that the service owns are stored wrapped: encrypted with
    AES-GCM under a deployment key, with the Space and the key epoch as
    associated data.  AES-GCM is the standard library's and a parameter
    ([AeadLib]); [crypto/rand] is a stream of bytes. *)

From S2P Require Import Prelude GoEncoding Sha256.
#[local] Open Scope Z_scope.

(** ** AES-GCM *)

(** [aes.NewCipher] followed by [cipher.NewGCM]; [Open] decrypts and verifies
    the tag of what follows the nonce. *)
Class AeadLib := {
  AEAD : Set;
  aes_gcm : bytes → option AEAD;
  Seal : AEAD → bytes → bytes → bytes → bytes;
  Open : AEAD → bytes → bytes → bytes → option bytes }.

(** The standard nonce and tag sizes of [cipher.NewGCM]. *)
Definition NonceSize : Z := 12.
Definition Overhead : Z := 16.

(** What GCM computes: the tag is as long as [Overhead], and a ciphertext
    opens to [plaintext] exactly when sealing [plaintext] yields it. *)
Class AeadLaws `{AeadLib} : Prop := {
  Seal_length aead nonce plaintext aad :
    zlen nonce = NonceSize → zlen (Seal aead nonce plaintext aad) = zlen plaintext + Overhead;
  Open_Seal aead nonce ciphertext aad plaintext :
    zlen nonce = NonceSize →
    Open aead nonce ciphertext aad = Some plaintext ↔ ciphertext = Seal aead nonce plaintext aad }.

(** ** Randomness *)

Record Rand := mkRand {
  rand_stream : N → ascii;
  rand_position : N }.

Definition rand_bytes (r : Rand) (n : Z) : bytes :=
  (fun i => rand_stream r (rand_position r + N.of_nat i)%N) <$> seq 0 (Z.to_nat n).

Definition rand_advance (r : Rand) (n : Z) : Rand :=
  mkRand (rand_stream r) (rand_position r + Z.to_N n)%N.

(** [rand.Read] of a slice of [n] bytes; it never fails. *)
Definition rand_Read {E} (n : Z) : M E Rand bytes := fun r => (rand_advance r n, inr (rand_bytes r n)).

Lemma rand_bytes_length r n : 0 ≤ n → zlen (rand_bytes r n) = n.
Proof. intros. unfold rand_bytes, zlen. rewrite length_fmap, length_seq. lia. Qed.

(** ** Custody *)

Definition ContentKeySize : Z := 32.
Definition wrappedVersion : ascii := byte_of 1.

Inductive CustodyError : Set := CustodyFailed (message : string).

Definition managedContentKeyAAD (spaceID : UUID) (keyEpoch : uint64) : bytes :=
  wrappedVersion :: uuid_bytes spaceID ++ BigEndian_PutUint64 keyEpoch.

Section custody.
Context `{AeadLib}.

(** A receiver is nil, or holds an AEAD. *)
Abbreviation ManagedContentKeys := (option AEAD) (only parsing).

Definition NewManagedContentKeys (masterKey : bytes) : CustodyError + ManagedContentKeys :=
  if decide (zlen masterKey ≠ ContentKeySize)
  then inl (CustodyFailed "managed content-key encryption key must be 32 bytes")
  else
    match aes_gcm masterKey with
    | None => inl (CustodyFailed "initialize managed content-key encryption")
    | Some aead => inr (Some aead)
    end.

Definition NewEphemeralManagedContentKeys : M CustodyError Rand ManagedContentKeys :=
  let* masterKey := rand_Read ContentKeySize in
  try (NewManagedContentKeys masterKey).

Definition Wrap (c : ManagedContentKeys) (spaceID : UUID) (keyEpoch : uint64) (plaintext : bytes)
    : M CustodyError Rand bytes :=
  let* aead := found_or c (CustodyFailed "managed content-key custody is not configured") in
  reject_if (spaceID = uuid_Nil ∨ keyEpoch = 0 ∨ zlen plaintext ≠ ContentKeySize)
    (CustodyFailed "managed content-key scope or material is invalid");;;
  let* nonce := rand_Read NonceSize in
  ret (wrappedVersion :: nonce ++ Seal aead nonce plaintext (managedContentKeyAAD spaceID keyEpoch)).

Definition Generate (c : ManagedContentKeys) (spaceID : UUID) (keyEpoch : uint64)
    : M CustodyError Rand (bytes * bytes) :=
  let* plaintext := rand_Read ContentKeySize in
  let* wrapped := Wrap c spaceID keyEpoch plaintext in
  ret (plaintext, wrapped).

Definition could_not_be_authenticated : CustodyError :=
  CustodyFailed "wrapped managed content key could not be authenticated".

Definition Unwrap (c : ManagedContentKeys) (spaceID : UUID) (keyEpoch : uint64) (wrapped : bytes)
    : CustodyError + bytes :=
  match c with
  | None => inl (CustodyFailed "managed content-key custody is not configured")
  | Some aead =>
    let minimumSize := 1 + NonceSize + ContentKeySize + Overhead in
    if decide (spaceID = uuid_Nil ∨ keyEpoch = 0 ∨ zlen wrapped ≠ minimumSize ∨
               head wrapped ≠ Some wrappedVersion)
    then inl (CustodyFailed "wrapped managed content key is invalid")
    else
      let nonce := take (Z.to_nat NonceSize) (tail wrapped) in
      let sealed := drop (Z.to_nat NonceSize) (tail wrapped) in
      match Open aead nonce sealed (managedContentKeyAAD spaceID keyEpoch) with
      | Some plaintext =>
        if decide (zlen plaintext ≠ ContentKeySize) then inl could_not_be_authenticated
        else inr plaintext
      | None => inl could_not_be_authenticated
      end
  end.

(** ** What unwrapping accepts *)

(** The wrapped form of [plaintext] under a nonce, for one Space and epoch. *)
Definition wrapping aead spaceID keyEpoch (nonce plaintext : bytes) : bytes :=
  wrappedVersion :: nonce ++ Seal aead nonce plaintext (managedContentKeyAAD spaceID keyEpoch).

Context `{!AeadLaws}.

Lemma wrapping_accepted aead spaceID keyEpoch nonce plaintext :
  spaceID ≠ uuid_Nil → keyEpoch ≠ 0 → zlen nonce = NonceSize → zlen plaintext = ContentKeySize →
  Unwrap (Some aead) spaceID keyEpoch (wrapping aead spaceID keyEpoch nonce plaintext) =
  inr plaintext.
Proof using All.
  intros Hs Hk Hn Hp. unfold Unwrap, wrapping. rewrite decide_False.
  2: { intros [|[|[Hl|Hh]]]; [done|done| |done]. apply Hl. change (wrappedVersion :: ?l) with ([wrappedVersion] ++ l).
       rewrite !zlen_app, Seal_length, Hn, Hp by done. done. }
  cbn [tail]. rewrite take_app_length', drop_app_length' by (unfold zlen in Hn; lia).
  assert (Open aead nonce (Seal aead nonce plaintext (managedContentKeyAAD spaceID keyEpoch))
    (managedContentKeyAAD spaceID keyEpoch) = Some plaintext) as -> by by apply Open_Seal.
  by rewrite decide_False by (by intros []).
Qed.

Lemma accepted_wrapping aead spaceID keyEpoch wrapped plaintext :
  Unwrap (Some aead) spaceID keyEpoch wrapped = inr plaintext →
  spaceID ≠ uuid_Nil ∧ keyEpoch ≠ 0 ∧ zlen plaintext = ContentKeySize ∧
  ∃ nonce, zlen nonce = NonceSize ∧ wrapped = wrapping aead spaceID keyEpoch nonce plaintext.
Proof using All.
  unfold Unwrap. case_decide as Hd; [done|].
  destruct (Open _ _ _ _) as [p|] eqn:Hopen; [|done]. case_decide as Hp; [done|]. intros [= ->].
  split_and!; [naive_solver..|by destruct (decide (zlen plaintext = ContentKeySize))|].
  assert (zlen wrapped = 1 + NonceSize + ContentKeySize + Overhead) as Hl.
  { destruct (decide (zlen wrapped = 1 + NonceSize + ContentKeySize + Overhead)); tauto. }
  destruct wrapped as [|v wrapped]; [done|]. simpl in *.
  assert (v = wrappedVersion) as -> by (destruct (decide (v = wrappedVersion)); naive_solver).
  assert (zlen (take (Z.to_nat NonceSize) wrapped) = NonceSize) as Hn.
  { unfold zlen in *. rewrite length_take. change (length (wrappedVersion :: wrapped)) with (S (length wrapped)) in Hl.
    unfold NonceSize, ContentKeySize, Overhead in *. lia. }
  eexists. split; [exact Hn|]. apply Open_Seal in Hopen; [|done].
  unfold wrapping. by rewrite <- Hopen, take_drop.
Qed.
End custody.

(** The associated data tells Spaces and epochs apart. *)
Lemma managedContentKeyAAD_inj s1 e1 s2 e2 :
  (s1 < 2 ^ 128)%N → (s2 < 2 ^ 128)%N → 0 ≤ e1 < 2 ^ 64 → 0 ≤ e2 < 2 ^ 64 →
  managedContentKeyAAD s1 e1 = managedContentKeyAAD s2 e2 → s1 = s2 ∧ e1 = e2.
Proof.
  intros Hs1 Hs2 He1 He2 Heq. unfold managedContentKeyAAD in Heq. apply (f_equal tail) in Heq.
  cbn [tail] in Heq. apply app_inj_1 in Heq as [Hs He];
    [|unfold uuid_bytes; by rewrite !be_bytes_length].
  apply (f_equal (be_value 0)) in Hs, He. unfold uuid_bytes, BigEndian_PutUint64 in *.
  rewrite !be_value_bytes in Hs, He.
  rewrite !Z.mod_small in Hs by (change (256 ^ Z.of_nat 16) with (Z.of_N (2 ^ 128)); lia).
  rewrite !Z.mod_small in He by (change (256 ^ Z.of_nat 8) with (2 ^ 64); lia). lia.
Qed.

(** ** The round trip *)

Section roundtrip.
Context `{AeadLaws}.

Lemma Wrap_wrapping aead spaceID keyEpoch plaintext r r' wrapped :
  Wrap (Some aead) spaceID keyEpoch plaintext r = (r', inr wrapped) →
  spaceID ≠ uuid_Nil ∧ keyEpoch ≠ 0 ∧ zlen plaintext = ContentKeySize ∧
  wrapped = wrapping aead spaceID keyEpoch (rand_bytes r NonceSize) plaintext.
Proof.
  unfold Wrap, reject_if, rand_Read, bind, ret, found_or. case_decide as Hd; [done|].
  intros [= _ <-]. split_and!; try tauto.
  destruct (decide (zlen plaintext = ContentKeySize)); tauto.
Qed.

Lemma wrapping_Wrap aead spaceID keyEpoch nonce plaintext :
  spaceID ≠ uuid_Nil → keyEpoch ≠ 0 → zlen plaintext = ContentKeySize → zlen nonce = NonceSize →
  ∃ r r', Wrap (Some aead) spaceID keyEpoch plaintext r =
    (r', inr (wrapping aead spaceID keyEpoch nonce plaintext)).
Proof.
  intros Hs Hk Hp Hn. set (r := mkRand (fun i => nth (N.to_nat i) nonce Ascii.zero) 0).
  assert (rand_bytes r NonceSize = nonce) as Hr.
  { unfold rand_bytes. change (Z.to_nat NonceSize) with 12%nat. unfold zlen, NonceSize in Hn.
    do 12 (destruct nonce as [|? nonce]; [simpl in Hn; lia|]). destruct nonce; [done|simpl in Hn; lia]. }
  exists r, (rand_advance r NonceSize).
  unfold Wrap, reject_if, rand_Read, bind, ret, found_or.
  rewrite decide_False by tauto. by rewrite Hr.
Qed.

(** Custody accepts a wrapped key for a Space and an epoch exactly when
    wrapping a 32-byte key for that Space and that epoch can produce it, and
    then returns that key; in particular a generated key comes back. *)
Theorem unwrap_inverts_wrap aead spaceID keyEpoch wrapped plaintext :
  (Unwrap (Some aead) spaceID keyEpoch wrapped = inr plaintext ↔
   ∃ r r', Wrap (Some aead) spaceID keyEpoch plaintext r = (r', inr wrapped)) ∧
  (∀ r r', Generate (Some aead) spaceID keyEpoch r = (r', inr (plaintext, wrapped)) →
   Unwrap (Some aead) spaceID keyEpoch wrapped = inr plaintext).
Proof using All.
  assert (∀ r r', Wrap (Some aead) spaceID keyEpoch plaintext r = (r', inr wrapped) →
    Unwrap (Some aead) spaceID keyEpoch wrapped = inr plaintext) as Hwrap.
  { intros r r' (Hs & Hk & Hp & ->)%Wrap_wrapping. apply wrapping_accepted; [done..| |done].
    by apply rand_bytes_length. }
  split; [split|].
  - intros (Hs & Hk & Hp & nonce & Hn & ->)%accepted_wrapping. by apply wrapping_Wrap.
  - intros (r & r' & Hr). by eapply Hwrap.
  - intros r r'. unfold Generate, rand_Read, bind, ret.
    destruct (Wrap _ _ _ _ _) as [r1 [|w]] eqn:Hw; [done|]. intros [= _ <- <-]. by eapply Hwrap.
Qed.
End roundtrip.

(** ** A concrete cipher

    The plaintext followed by a hash. *)

Definition toy_tag (nonce plaintext aad : bytes) : bytes :=
  take 16 (Sum256 (nonce ++ plaintext ++ aad)).

Definition toy_aead : AeadLib := {|
  AEAD := unit;
  aes_gcm _ := Some tt;
  Seal _ nonce plaintext aad := plaintext ++ toy_tag nonce plaintext aad;
  Open _ nonce ciphertext aad :=
    let plaintext := take (length ciphertext - 16) ciphertext in
    if decide (ciphertext = plaintext ++ toy_tag nonce plaintext aad) then Some plaintext
    else None |}.

Lemma toy_tag_length nonce plaintext aad : length (toy_tag nonce plaintext aad) = 16%nat.
Proof. unfold toy_tag. rewrite length_take. assert (Hl := Sum256_length (nonce ++ plaintext ++ aad)). unfold zlen in Hl. lia. Qed.

#[local] Existing Instance toy_aead.

Lemma toy_aead_laws : AeadLaws.
Proof.
  split.
  - intros ? nonce plaintext aad _. cbn [Seal toy_aead]. rewrite zlen_app. unfold zlen at 2.
    by rewrite toy_tag_length.
  - intros ? nonce ciphertext aad plaintext _. cbn [Seal Open toy_aead]. split.
    + case_decide as Hc; [|done]. intros [= Hp]. by rewrite Hp in Hc.
    + intros ->. rewrite length_app, toy_tag_length, Nat.add_sub, take_app_length.
      by rewrite decide_True.
Qed.
#[local] Existing Instance toy_aead_laws.

Lemma unwrap_inverts_wrap_witness :
  let r := mkRand (fun i => byte_of (Z.of_N i)) 0 in
  let generated := Generate (Some tt) 1%N 1 r in
  match generated.2 with
  | inl _ => False
  | inr (plaintext, wrapped) => Unwrap (Some tt) 1%N 1 wrapped = inr plaintext
  end.
Proof.
  intros r generated. destruct generated.2 as [err|[plaintext wrapped]] eqn:Hg.
  - exfalso. revert Hg. unfold generated, Generate, Wrap. done.
  - destruct (@unwrap_inverts_wrap toy_aead toy_aead_laws tt 1%N 1 wrapped plaintext) as [_ Hgen].
    apply (Hgen r generated.1). rewrite <- Hg. apply surjective_pairing.
Defined.
