(* ===== verification/DeviceSyncModel.v ===== *)
(** * internal/devicesync: values and validation

    The data of [model.go], [errors.go], [entitlement.go], [discovery.go],
    [join_request.go] and [space_sponsor.go]: one record per struct, one
    [_Validate] per [Validate] method, the credential digests and the
    sponsorship rules.  Names that the relay also uses are qualified. *)

From S2P Require Import Prelude GoEncoding GoText Sha256 RelayModel ServiceAuthority.
#[local] Open Scope Z_scope.

(** ** Errors (errors.go) *)

Inductive SyncErrorCode : Set :=
  | CodeInvalidAdmission | CodeInvalidPrincipal | CodeUnauthorized | CodeWrongScope
  | CodeAdmissionNotFound | CodeAdmissionExpired | CodeAdmissionClaimed | CodeAdmissionSuperseded
  | CodeAdmissionCollision | CodePrincipalCollision | CodeDeviceCollision | CodeDeviceNotFound
  | CodeDeviceRevoked | CodeLastDevice | CodeInvalidSpace | CodeSpaceCollision
  | CodeInvalidJoinRequest | CodeJoinRequestNotFound | CodeJoinRequestExpired
  | CodeJoinRequestClaimed | CodeJoinRequestCollision.

(** A [ProtocolError] of the package, an error of the relay or of the service
    authority passed on, or the sentinel of conflicting authorities. *)
Inductive SyncError : Set :=
  | SyncProtocolError (Code : SyncErrorCode) (message : string)
  | SyncPlainError (message : string)
  | SyncRelayError (err : GoError)
  | SyncAuthorityError (err : AuthorityError)
  | ErrInitialServiceAuthorityConflict.

Definition NewProtocolError (code : SyncErrorCode) (message : string) : SyncError :=
  SyncProtocolError code message.

Definition SyncErrorHasCode (err : SyncError) (code : SyncErrorCode) : Prop :=
  match err with SyncProtocolError c _ => c = code | _ => False end.

(** An error of the relay, returned as it is. *)
Definition from_relay (err : option GoError) : option SyncError := SyncRelayError <$> err.

(** ** Digests (model.go) *)

Definition SchemaVersion : Z := 1.
Definition MinimumAdmissionLifetimeMilliseconds : int64 := 5 * 60 * 1000.
Definition MaximumAdmissionLifetimeMilliseconds : int64 := 7 * 24 * 60 * 60 * 1000.

Definition admissionAuthorizationDomain : bytes :=
  domain_separator "Facets Device Sync account admission v1".

Definition validDigest (value : string) : Prop :=
  some_and (hex_DecodeString value) (fun decoded => zlen decoded = sha256_Size).

#[global] Instance validDigest_dec value : Decision (validDigest value).
Proof. unfold validDigest. apply _. Defined.

Definition digestEqual (left right : string) : Prop :=
  some_and (hex_DecodeString left) (fun l =>
  some_and (hex_DecodeString right) (fun r => zlen l = sha256_Size ∧ l = r)).

#[global] Instance digestEqual_dec l r : Decision (digestEqual l r).
Proof. unfold digestEqual. apply _. Defined.

(** A token of 32 bytes in canonical base64url. *)
Definition token_valid (value : string) : Prop :=
  some_and (b64_DecodeString value) (fun decoded =>
    zlen decoded = 32 ∧ b64_EncodeToString decoded = value).

#[global] Instance token_valid_dec value : Decision (token_valid value).
Proof. unfold token_valid. apply _. Defined.

(** SHA-256 over a domain, an identifier, a zero byte and a secret. *)
Definition identified_digest (domain : bytes) (id secret : string) : string :=
  hex_EncodeToString (Sum256 (domain ++ str id ++ [byte_of 0] ++ str secret)).

Definition digest_refused (actual : SyncError + string) (expected : string) : Prop :=
  match actual with inl _ => True | inr digest => ¬ digestEqual digest expected end.

#[global] Instance digest_refused_dec a e : Decision (digest_refused a e).
Proof. destruct a; simpl; apply _. Defined.

(** ** Account admissions (model.go, entitlement.go) *)

Record AdmissionCredential := mkAdmissionCredential {
  acc_AdmissionID : UUID;
  acc_Token : string }.

Definition AdmissionAuthorizationDigest `{UuidLib} (credential : AdmissionCredential)
    : SyncError + string :=
  if decide (acc_AdmissionID credential = uuid_Nil)
  then inl (SyncPlainError "admission scope is invalid")
  else if decide (¬ token_valid (acc_Token credential))
  then inl (SyncPlainError "admission token must be 32-byte unpadded base64url")
  else inr (identified_digest admissionAuthorizationDomain
              (uuid_String (acc_AdmissionID credential)) (acc_Token credential)).

Record ServiceEntitlement := mkServiceEntitlement {
  se_Version : Z;
  se_PlanID : string;
  se_TenantQuota : TenantQuota }.

#[global] Instance ServiceEntitlement_eq_dec : EqDecision ServiceEntitlement.
Proof. solve_decision. Defined.

Definition TenantQuota_zero : TenantQuota := mkTenantQuota 0 0 0 0 0.

Definition ServiceEntitlement_zero : ServiceEntitlement :=
  mkServiceEntitlement 0 "" TenantQuota_zero.

Definition DefaultServiceEntitlement : ServiceEntitlement :=
  mkServiceEntitlement SchemaVersion "self-hosted" TenantQuota_zero.

Definition validServicePlanID (value : string) : Prop :=
  ¬ (len value = 0 ∨ len value > 64 ∨ strings_TrimSpace value ≠ value) ∧
  Forall (fun character =>
    str_in_range "a" "z" character ∨ str_in_range "A" "Z" character ∨
    str_in_range "0" "9" character ∨ str_in_range "-" "-" character ∨
    str_in_range "_" "_" character ∨ str_in_range "." "." character) (runes value).

#[global] Instance validServicePlanID_dec value : Decision (validServicePlanID value).
Proof. unfold validServicePlanID. apply _. Defined.

Definition ServiceEntitlement_Validate (e : ServiceEntitlement) : option SyncError :=
  err_when (se_Version e ≠ SchemaVersion ∨ ¬ validServicePlanID (se_PlanID e) ∨
      ¬ TenantQuota_Valid (se_TenantQuota e) ∨
      (TenantQuota_UsesSharedCapacity (se_TenantQuota e) ∧ se_PlanID e ≠ "self-hosted"%string))
    (NewProtocolError CodeInvalidAdmission "Device Sync service entitlement is invalid").

Record AccountAdmission := mkAccountAdmission {
  aa_Version : Z;
  aa_RetryID : UUID;
  aa_AdmissionID : UUID;
  aa_AuthorizationDigest : string;
  aa_CreatedAtMilliseconds : int64;
  aa_ExpiresAtMilliseconds : int64;
  aa_Entitlement : ServiceEntitlement;
  aa_ClaimedAtMilliseconds : option int64;
  aa_ClaimedPrincipalID : option UUID }.

#[global] Instance eta_AccountAdmission : Eta AccountAdmission := fun a =>
  mkAccountAdmission (aa_Version a) (aa_RetryID a) (aa_AdmissionID a) (aa_AuthorizationDigest a)
    (aa_CreatedAtMilliseconds a) (aa_ExpiresAtMilliseconds a) (aa_Entitlement a)
    (aa_ClaimedAtMilliseconds a) (aa_ClaimedPrincipalID a).
#[global] Instance upd_aa_Entitlement : Update aa_Entitlement := ltac:(mk_update).
#[global] Instance upd_aa_ClaimedAtMilliseconds : Update aa_ClaimedAtMilliseconds := ltac:(mk_update).
#[global] Instance upd_aa_ClaimedPrincipalID : Update aa_ClaimedPrincipalID := ltac:(mk_update).

#[global] Instance AccountAdmission_eq_dec : EqDecision AccountAdmission.
Proof. solve_decision. Defined.

Definition AccountAdmission_EffectiveServiceEntitlement (a : AccountAdmission)
    : ServiceEntitlement :=
  if decide (aa_Entitlement a = ServiceEntitlement_zero) then DefaultServiceEntitlement
  else aa_Entitlement a.

Definition AccountAdmission_WithEffectiveServiceEntitlement (a : AccountAdmission)
    : AccountAdmission :=
  a <| aa_Entitlement := AccountAdmission_EffectiveServiceEntitlement a |>.

Definition AccountAdmission_Validate (a : AccountAdmission) : option SyncError :=
  let lifetime := i64 (aa_ExpiresAtMilliseconds a - aa_CreatedAtMilliseconds a) in
  err_when (aa_Version a ≠ SchemaVersion ∨ aa_RetryID a = uuid_Nil ∨ aa_AdmissionID a = uuid_Nil ∨
      ¬ validDigest (aa_AuthorizationDigest a) ∨ aa_CreatedAtMilliseconds a < 0 ∨
      lifetime < MinimumAdmissionLifetimeMilliseconds ∨
      lifetime > MaximumAdmissionLifetimeMilliseconds)
    (NewProtocolError CodeInvalidAdmission "account admission fields are invalid") >>?
  ServiceEntitlement_Validate (AccountAdmission_EffectiveServiceEntitlement a) >>?
  err_when (¬ (aa_ClaimedAtMilliseconds a = None ↔ aa_ClaimedPrincipalID a = None))
    (NewProtocolError CodeInvalidAdmission "account admission claim state is incomplete") >>?
  err_when (some_and (aa_ClaimedAtMilliseconds a) (fun claimed =>
      claimed < aa_CreatedAtMilliseconds a ∨ claimed ≥ aa_ExpiresAtMilliseconds a ∨
      some_and (aa_ClaimedPrincipalID a) (fun p => p = uuid_Nil)))
    (NewProtocolError CodeInvalidAdmission "account admission claim state is invalid").

Definition AccountAdmission_VerifyCredential `{UuidLib} (a : AccountAdmission)
    (credential : AdmissionCredential) : option SyncError :=
  err_when (acc_AdmissionID credential ≠ aa_AdmissionID a)
    (NewProtocolError CodeWrongScope "account admission credential has another scope") >>?
  err_when (digest_refused (AdmissionAuthorizationDigest credential) (aa_AuthorizationDigest a))
    (NewProtocolError CodeUnauthorized "account admission credential is invalid").

Definition AccountAdmission_RequireActive (a : AccountAdmission) (nowMilliseconds : int64)
    : option SyncError :=
  err_when (is_Some (aa_ClaimedAtMilliseconds a))
    (NewProtocolError CodeAdmissionClaimed "account admission was already claimed") >>?
  err_when (nowMilliseconds < aa_CreatedAtMilliseconds a ∨
      nowMilliseconds ≥ aa_ExpiresAtMilliseconds a)
    (NewProtocolError CodeAdmissionExpired "account admission is not active").

Record AdmissionCreateResult := mkAdmissionCreateResult {
  adr_Acceptance : Acceptance;
  adr_Admission : AccountAdmission }.

(** ** Principals *)

Record PrincipalProvisioning := mkPrincipalProvisioning {
  pp_Version : Z;
  pp_RetryID : UUID;
  pp_PrincipalID : UUID;
  pp_InitialDeviceID : UUID;
  pp_Tenant : TenantRegistration;
  pp_ControlDomain : DomainProvisioning;
  pp_CreatedAtMilliseconds : int64 }.

#[global] Instance PrincipalProvisioning_eq_dec : EqDecision PrincipalProvisioning.
Proof. solve_decision. Defined.

Definition PrincipalProvisioning_Validate (p : PrincipalProvisioning) : option SyncError :=
  let registration := dp_Registration (pp_ControlDomain p) in
  err_when (pp_Version p ≠ SchemaVersion ∨ pp_RetryID p = uuid_Nil ∨ pp_PrincipalID p = uuid_Nil ∨
      pp_InitialDeviceID p = uuid_Nil ∨ pp_CreatedAtMilliseconds p < 0)
    (NewProtocolError CodeInvalidPrincipal "principal provisioning fields are invalid") >>?
  from_relay (TenantRegistration_Validate (pp_Tenant p)) >>?
  from_relay (DomainProvisioning_Validate (pp_ControlDomain p)) >>?
  err_when (pp_PrincipalID p ≠ tr_TenantID (pp_Tenant p) ∨
      pp_PrincipalID p ≠ dr_TenantID registration ∨
      pp_InitialDeviceID p ≠ mr_MemberID (dp_InitialMember (pp_ControlDomain p)) ∨
      pp_CreatedAtMilliseconds p ≠ tr_CreatedAtMilliseconds (pp_Tenant p) ∨
      pp_CreatedAtMilliseconds p ≠ dr_CreatedAtMilliseconds registration)
    (NewProtocolError CodeWrongScope
       "principal, tenant, control domain, and initial device scopes differ").

Record PrincipalProvisioningResult := mkPrincipalProvisioningResult {
  ppr_Acceptance : Acceptance;
  ppr_RetryID : UUID;
  ppr_PrincipalID : UUID;
  ppr_DeviceID : UUID;
  ppr_Relay : TenantProvisioningResult;
  ppr_CreatedAtMilliseconds : int64 }.

Definition resultFor (provisioning : PrincipalProvisioning)
    (relayResult : TenantProvisioningResult) (acceptance : Acceptance)
    : PrincipalProvisioningResult :=
  mkPrincipalProvisioningResult acceptance (pp_RetryID provisioning)
    (pp_PrincipalID provisioning) (pp_InitialDeviceID provisioning) relayResult
    (pp_CreatedAtMilliseconds provisioning).

(** The quota of the entitlement replaces what the claimant asked for. *)
Definition ServiceEntitlement_Apply (e : ServiceEntitlement) (p : PrincipalProvisioning)
    : PrincipalProvisioning :=
  let q := se_TenantQuota e in
  let t := pp_Tenant p in
  let d := pp_ControlDomain p in
  mkPrincipalProvisioning (pp_Version p) (pp_RetryID p) (pp_PrincipalID p) (pp_InitialDeviceID p)
    (mkTenantRegistration (tr_Version t) (tr_RetryID t) (tr_TenantID t) (tr_AuthorizationDigest t)
       (tr_CreatedAtMilliseconds t) (tq_MaximumDomainCount q) (tq_MaximumAggregateMessageCount q)
       (tq_MaximumAggregateMessageByteCount q) (tq_MaximumAggregateBlobCount q)
       (tq_MaximumAggregateBlobByteCount q))
    (if decide (TenantQuota_UsesSharedCapacity q)
     then d <| dp_Registration := DomainRegistration_WithSharedCapacity (dp_Registration d) |>
     else d)
    (pp_CreatedAtMilliseconds p).

(** ** Device admissions *)

#[global] Instance upd_ma_CreatedAtMilliseconds : Update ma_CreatedAtMilliseconds := ltac:(mk_update).

(** What [DeviceAdmission] and [SpaceDeviceAdmission] ask of the relay
    admission they carry. *)
Definition relay_scope_differs (principalID : UUID) (createdAt : int64) (a : MemberAdmission)
    : Prop :=
  principalID ≠ ma_TenantID a ∨ createdAt ≠ ma_CreatedAtMilliseconds a ∨
  is_Some (ma_RevokedAtMilliseconds a) ∨ is_Some (ma_ClaimedAtMilliseconds a) ∨
  is_Some (ma_ClaimedMemberID a).

#[global] Instance relay_scope_differs_dec p c a : Decision (relay_scope_differs p c a).
Proof. unfold relay_scope_differs. apply _. Defined.

Record DeviceAdmission := mkDeviceAdmission {
  da_Version : Z;
  da_RetryID : UUID;
  da_PrincipalID : UUID;
  da_DeviceID : UUID;
  da_SubscriptionID : UUID;
  da_RelayAdmission : MemberAdmission;
  da_CreatedAtMilliseconds : int64 }.

#[global] Instance DeviceAdmission_eq_dec : EqDecision DeviceAdmission.
Proof. solve_decision. Defined.

Definition DeviceAdmission_Validate (a : DeviceAdmission) : option SyncError :=
  err_when (da_Version a ≠ SchemaVersion ∨ da_RetryID a = uuid_Nil ∨ da_PrincipalID a = uuid_Nil ∨
      da_DeviceID a = uuid_Nil ∨ da_SubscriptionID a = uuid_Nil ∨ da_CreatedAtMilliseconds a < 0)
    (NewProtocolError CodeInvalidAdmission "device admission fields are invalid") >>?
  from_relay (MemberAdmission_Validate (da_RelayAdmission a)) >>?
  err_when (relay_scope_differs (da_PrincipalID a) (da_CreatedAtMilliseconds a)
      (da_RelayAdmission a))
    (NewProtocolError CodeWrongScope "device admission and relay scopes differ").

Record DeviceAdmissionCreateResult := mkDeviceAdmissionCreateResult {
  dacr_Acceptance : Acceptance;
  dacr_Admission : DeviceAdmission }.

Record DeviceAdmissionCredential := mkDeviceAdmissionCredential {
  dac_PrincipalID : UUID;
  dac_AdmissionID : UUID;
  dac_Token : string }.

Record DeviceAdmissionClaim := mkDeviceAdmissionClaim {
  dcl_Version : Z;
  dcl_PrincipalID : UUID;
  dcl_DeviceID : UUID;
  dcl_RelayClaim : MemberAdmissionClaim;
  dcl_ClaimedAtMilliseconds : int64 }.

Definition DeviceAdmissionClaim_Validate (c : DeviceAdmissionClaim) : option SyncError :=
  err_when (dcl_Version c ≠ SchemaVersion ∨ dcl_PrincipalID c = uuid_Nil ∨
      dcl_DeviceID c = uuid_Nil ∨ dcl_ClaimedAtMilliseconds c < 0)
    (NewProtocolError CodeInvalidAdmission "device admission claim fields are invalid") >>?
  from_relay (MemberAdmissionClaim_Validate (dcl_RelayClaim c)) >>?
  err_when (dcl_DeviceID c ≠ mac_MemberID (dcl_RelayClaim c))
    (NewProtocolError CodeWrongScope "device and relay member scopes differ").

Record DeviceAdmissionClaimResult := mkDeviceAdmissionClaimResult {
  dclr_Acceptance : Acceptance;
  dclr_PrincipalID : UUID;
  dclr_DeviceID : UUID;
  dclr_Member : SubscriptionMemberRegistration }.

(** ** Spaces *)

Record SpaceProvisioning := mkSpaceProvisioning {
  sp_Version : Z;
  sp_RetryID : UUID;
  sp_PrincipalID : UUID;
  sp_SpaceID : UUID;
  sp_InitialDeviceID : UUID;
  sp_Domain : DomainProvisioning;
  sp_CreatedAtMilliseconds : int64 }.

#[global] Instance SpaceProvisioning_eq_dec : EqDecision SpaceProvisioning.
Proof. solve_decision. Defined.

Definition SpaceProvisioning_Validate (p : SpaceProvisioning) : option SyncError :=
  let registration := dp_Registration (sp_Domain p) in
  err_when (sp_Version p ≠ SchemaVersion ∨ sp_RetryID p = uuid_Nil ∨ sp_PrincipalID p = uuid_Nil ∨
      sp_SpaceID p = uuid_Nil ∨ sp_InitialDeviceID p = uuid_Nil ∨ sp_CreatedAtMilliseconds p < 0)
    (NewProtocolError CodeInvalidSpace "Device Sync Space fields are invalid") >>?
  from_relay (DomainProvisioning_Validate (sp_Domain p)) >>?
  err_when (sp_PrincipalID p ≠ dr_TenantID registration ∨
      sp_InitialDeviceID p ≠ mr_MemberID (dp_InitialMember (sp_Domain p)) ∨
      sp_CreatedAtMilliseconds p ≠ dr_CreatedAtMilliseconds registration)
    (NewProtocolError CodeWrongScope "Device Sync Space and relay scopes differ").

Record SpaceProvisioningResult := mkSpaceProvisioningResult {
  spr_Acceptance : Acceptance;
  spr_PrincipalID : UUID;
  spr_SpaceID : UUID;
  spr_Domain : DomainProvisioningResult }.

(** ** Sponsorship (space_sponsor.go) *)

Record SpaceSponsorCredential := mkSpaceSponsorCredential {
  ssp_Administration : AdministrationCredential;
  ssp_Control : Credential;
  ssp_Space : Credential }.

Record SpaceSponsorBinding := mkSpaceSponsorBinding {
  ssb_DeviceID : UUID;
  ssb_ControlSubscriptionID : UUID;
  ssb_SpaceSubscriptionID : UUID;
  ssb_TargetControlSubscriptionID : UUID;
  ssb_ControlAuthorizationDigest : string;
  ssb_SpaceAuthorizationDigest : string;
  ssb_TargetControlAuthorizationDigest : string }.

#[global] Instance SpaceSponsorBinding_eq_dec : EqDecision SpaceSponsorBinding.
Proof. solve_decision. Defined.

Definition SpaceSponsorshipLeaseMilliseconds : int64 := 2 * 60 * 1000.

Record SpaceDeviceAdmission := mkSpaceDeviceAdmission {
  sda_Sponsor : SpaceSponsorBinding;
  sda_Version : Z;
  sda_RetryID : UUID;
  sda_PrincipalID : UUID;
  sda_SpaceID : UUID;
  sda_DeviceID : UUID;
  sda_SubscriptionID : UUID;
  sda_RelayAdmission : MemberAdmission;
  sda_CreatedAtMilliseconds : int64 }.

#[global] Instance eta_SpaceDeviceAdmission : Eta SpaceDeviceAdmission := fun a =>
  mkSpaceDeviceAdmission (sda_Sponsor a) (sda_Version a) (sda_RetryID a) (sda_PrincipalID a)
    (sda_SpaceID a) (sda_DeviceID a) (sda_SubscriptionID a) (sda_RelayAdmission a)
    (sda_CreatedAtMilliseconds a).
#[global] Instance upd_sda_Sponsor : Update sda_Sponsor := ltac:(mk_update).
#[global] Instance upd_sda_RelayAdmission : Update sda_RelayAdmission := ltac:(mk_update).
#[global] Instance upd_sda_CreatedAtMilliseconds : Update sda_CreatedAtMilliseconds := ltac:(mk_update).

#[global] Instance SpaceDeviceAdmission_eq_dec : EqDecision SpaceDeviceAdmission.
Proof. solve_decision. Defined.

Definition SpaceDeviceAdmission_Validate (a : SpaceDeviceAdmission) : option SyncError :=
  err_when (sda_Version a ≠ SchemaVersion ∨ sda_RetryID a = uuid_Nil ∨ sda_PrincipalID a = uuid_Nil ∨
      sda_SpaceID a = uuid_Nil ∨ sda_DeviceID a = uuid_Nil ∨ sda_SubscriptionID a = uuid_Nil ∨
      sda_CreatedAtMilliseconds a < 0)
    (NewProtocolError CodeInvalidAdmission "Space device admission fields are invalid") >>?
  from_relay (MemberAdmission_Validate (sda_RelayAdmission a)) >>?
  err_when (relay_scope_differs (sda_PrincipalID a) (sda_CreatedAtMilliseconds a)
      (sda_RelayAdmission a))
    (NewProtocolError CodeWrongScope "Space device admission and relay scopes differ").

Definition SpaceDeviceAdmission_CanReplacePending (a : SpaceDeviceAdmission)
    (nowMilliseconds : int64) : Prop :=
  nowMilliseconds ≥ sda_CreatedAtMilliseconds a ∧
  (i64 (nowMilliseconds - sda_CreatedAtMilliseconds a) ≥ SpaceSponsorshipLeaseMilliseconds ∨
   nowMilliseconds ≥ ma_ExpiresAtMilliseconds (sda_RelayAdmission a)).

#[global] Instance SpaceDeviceAdmission_CanReplacePending_dec a now :
  Decision (SpaceDeviceAdmission_CanReplacePending a now).
Proof. unfold SpaceDeviceAdmission_CanReplacePending. apply _. Defined.

Record SpaceDeviceAdmissionCreateResult := mkSpaceDeviceAdmissionCreateResult {
  sdacr_Acceptance : Acceptance;
  sdacr_Admission : SpaceDeviceAdmission }.

Record SpaceDeviceAdmissionCredential := mkSpaceDeviceAdmissionCredential {
  sdac_PrincipalID : UUID;
  sdac_SpaceID : UUID;
  sdac_AdmissionID : UUID;
  sdac_Token : string }.

Record SpaceDeviceAdmissionClaim := mkSpaceDeviceAdmissionClaim {
  sdcl_Version : Z;
  sdcl_PrincipalID : UUID;
  sdcl_SpaceID : UUID;
  sdcl_DeviceID : UUID;
  sdcl_RelayClaim : MemberAdmissionClaim;
  sdcl_ClaimedAtMilliseconds : int64 }.

Definition SpaceDeviceAdmissionClaim_Validate (c : SpaceDeviceAdmissionClaim) : option SyncError :=
  err_when (sdcl_Version c ≠ SchemaVersion ∨ sdcl_PrincipalID c = uuid_Nil ∨
      sdcl_SpaceID c = uuid_Nil ∨ sdcl_DeviceID c = uuid_Nil ∨ sdcl_ClaimedAtMilliseconds c < 0)
    (NewProtocolError CodeInvalidAdmission "Space device admission claim fields are invalid") >>?
  from_relay (MemberAdmissionClaim_Validate (sdcl_RelayClaim c)) >>?
  err_when (sdcl_DeviceID c ≠ mac_MemberID (sdcl_RelayClaim c))
    (NewProtocolError CodeWrongScope "Space device and relay member scopes differ").

Record SpaceDeviceAdmissionClaimResult := mkSpaceDeviceAdmissionClaimResult {
  sdclr_Acceptance : Acceptance;
  sdclr_PrincipalID : UUID;
  sdclr_SpaceID : UUID;
  sdclr_DeviceID : UUID;
  sdclr_Member : SubscriptionMemberRegistration }.

Definition CurrentSpaceSponsorMember (member : MemberRegistration) (nowMilliseconds : int64)
    : Prop :=
  MemberRegistration_Validate member = None ∧
  mr_CreatedAtMilliseconds member ≤ nowMilliseconds ∧ mr_RevokedAtMilliseconds member = None ∧
  none_or (mr_ExpiresAtMilliseconds member) (fun expires => nowMilliseconds < expires).

#[global] Instance CurrentSpaceSponsorMember_dec m now : Decision (CurrentSpaceSponsorMember m now).
Proof. unfold CurrentSpaceSponsorMember. apply _. Defined.

Definition AuthenticateSpaceSponsor `{UuidLib} (credential : SpaceSponsorCredential)
    (control space : SubscriptionMemberRegistration) (now : int64) : option SyncError :=
  let controlMember := smr_MemberRegistration control in
  let spaceMember := smr_MemberRegistration space in
  err_when (mr_TenantID controlMember ≠ acred_TenantID (ssp_Administration credential) ∨
      mr_TenantID spaceMember ≠ acred_TenantID (ssp_Administration credential) ∨
      mr_DomainID spaceMember ≠ acred_DomainID (ssp_Administration credential) ∨
      mr_DomainID controlMember = mr_DomainID spaceMember ∨
      mr_MemberID controlMember ≠ mr_MemberID spaceMember)
    (NewProtocolError CodeWrongScope "Space sponsor scopes differ") >>?
  from_relay (MemberRegistration_Authorize controlMember (ssp_Control credential)
                CapabilityPublishMessage now) >>?
  from_relay (MemberRegistration_Authorize spaceMember (ssp_Space credential)
                CapabilityPublishMessage now).

Definition BindSpaceSponsor `{UuidLib} (credential : SpaceSponsorCredential)
    (control space target : SubscriptionMemberRegistration) (nowMilliseconds : int64)
    : SyncError + SpaceSponsorBinding :=
  let controlMember := smr_MemberRegistration control in
  let spaceMember := smr_MemberRegistration space in
  let targetMember := smr_MemberRegistration target in
  match
    AuthenticateSpaceSponsor credential control space nowMilliseconds >>?
    err_when (mr_TenantID targetMember ≠ mr_TenantID controlMember ∨
        mr_DomainID targetMember ≠ mr_DomainID controlMember ∨
        mr_MemberID targetMember = mr_MemberID controlMember)
      (NewProtocolError CodeWrongScope "Space sponsor and target scopes differ") >>?
    err_when (¬ CurrentSpaceSponsorMember targetMember nowMilliseconds)
      (NewProtocolError CodeUnauthorized "target control membership is not current")
  with
  | Some err => inl err
  | None => inr (mkSpaceSponsorBinding (mr_MemberID controlMember) (smr_SubscriptionID control)
      (smr_SubscriptionID space) (smr_SubscriptionID target)
      (mr_AuthorizationDigest controlMember) (mr_AuthorizationDigest spaceMember)
      (mr_AuthorizationDigest targetMember))
  end.

Definition SpaceSponsorBinding_IsCurrent (b : SpaceSponsorBinding)
    (control space target : SubscriptionMemberRegistration) (nowMilliseconds : int64) : Prop :=
  let controlMember := smr_MemberRegistration control in
  let spaceMember := smr_MemberRegistration space in
  let targetMember := smr_MemberRegistration target in
  ssb_DeviceID b ≠ uuid_Nil ∧ mr_MemberID controlMember = ssb_DeviceID b ∧
  mr_MemberID spaceMember = ssb_DeviceID b ∧
  smr_SubscriptionID control = ssb_ControlSubscriptionID b ∧
  smr_SubscriptionID space = ssb_SpaceSubscriptionID b ∧
  smr_SubscriptionID target = ssb_TargetControlSubscriptionID b ∧
  mr_AuthorizationDigest controlMember = ssb_ControlAuthorizationDigest b ∧
  mr_AuthorizationDigest spaceMember = ssb_SpaceAuthorizationDigest b ∧
  mr_AuthorizationDigest targetMember = ssb_TargetControlAuthorizationDigest b ∧
  CurrentSpaceSponsorMember controlMember nowMilliseconds ∧
  CurrentSpaceSponsorMember spaceMember nowMilliseconds ∧
  CurrentSpaceSponsorMember targetMember nowMilliseconds.

#[global] Instance SpaceSponsorBinding_IsCurrent_dec b c s t now :
  Decision (SpaceSponsorBinding_IsCurrent b c s t now).
Proof. unfold SpaceSponsorBinding_IsCurrent. apply _. Defined.

Record SpaceDeviceAdmissionCancellation := mkSpaceDeviceAdmissionCancellation {
  sdc_PrincipalID : UUID;
  sdc_SpaceID : UUID;
  sdc_DeviceID : UUID;
  sdc_AdmissionID : UUID;
  sdc_RetryID : UUID;
  sdc_SponsorDeviceID : UUID }.

#[global] Instance SpaceDeviceAdmissionCancellation_eq_dec :
  EqDecision SpaceDeviceAdmissionCancellation.
Proof. solve_decision. Defined.

Definition SpaceDeviceAdmissionCancellation_Validate (c : SpaceDeviceAdmissionCancellation)
    (sponsor : SpaceSponsorCredential) : option SyncError :=
  err_when (sdc_PrincipalID c = uuid_Nil ∨ sdc_SpaceID c = uuid_Nil ∨ sdc_DeviceID c = uuid_Nil ∨
      sdc_AdmissionID c = uuid_Nil ∨ sdc_RetryID c = uuid_Nil ∨
      sdc_SponsorDeviceID c ≠ cred_MemberID (ssp_Control sponsor) ∨
      sdc_SponsorDeviceID c = uuid_Nil ∨ sdc_SponsorDeviceID c = sdc_DeviceID c ∨
      sdc_PrincipalID c ≠ acred_TenantID (ssp_Administration sponsor))
    (NewProtocolError CodeWrongScope "Space admission cancellation scope is invalid").

Record SpaceDeviceAdmissionCancellationResult := mkSpaceDeviceAdmissionCancellationResult {
  sdcr_AdmissionID : UUID;
  sdcr_Cancelled : bool }.

(** ** Revocation and status *)

Record DeviceRevocation := mkDeviceRevocation {
  rev_Version : Z;
  rev_RetryID : UUID;
  rev_PrincipalID : UUID;
  rev_DeviceID : UUID;
  rev_RetirePrincipal : bool }.

#[global] Instance DeviceRevocation_eq_dec : EqDecision DeviceRevocation.
Proof. solve_decision. Defined.

Definition DeviceRevocation_Validate (r : DeviceRevocation) : option SyncError :=
  err_when (rev_Version r ≠ SchemaVersion ∨ rev_RetryID r = uuid_Nil ∨
      rev_PrincipalID r = uuid_Nil ∨ rev_DeviceID r = uuid_Nil)
    (NewProtocolError CodeInvalidPrincipal "device revocation fields are invalid").

Record DeviceRevocationResult := mkDeviceRevocationResult {
  rvr_Acceptance : Acceptance;
  rvr_RetryID : UUID;
  rvr_PrincipalID : UUID;
  rvr_DeviceID : UUID;
  rvr_RevokedAtMilliseconds : int64;
  rvr_Memberships : list TenantMembershipRevocationItem }.

#[global] Instance eta_DeviceRevocationResult : Eta DeviceRevocationResult := fun r =>
  mkDeviceRevocationResult (rvr_Acceptance r) (rvr_RetryID r) (rvr_PrincipalID r) (rvr_DeviceID r)
    (rvr_RevokedAtMilliseconds r) (rvr_Memberships r).
#[global] Instance upd_rvr_Acceptance : Update rvr_Acceptance := ltac:(mk_update).

Record DeviceStatus := mkDeviceStatus {
  ds_DeviceID : UUID;
  ds_ControlSubscriptionID : UUID;
  ds_ControlMemberID : UUID;
  ds_CreatedAtMilliseconds : int64;
  ds_RevokedAtMilliseconds : option int64 }.

#[global] Instance eta_DeviceStatus : Eta DeviceStatus := fun d =>
  mkDeviceStatus (ds_DeviceID d) (ds_ControlSubscriptionID d) (ds_ControlMemberID d)
    (ds_CreatedAtMilliseconds d) (ds_RevokedAtMilliseconds d).
#[global] Instance upd_ds_RevokedAtMilliseconds : Update ds_RevokedAtMilliseconds := ltac:(mk_update).

Record SpaceDeviceStatus := mkSpaceDeviceStatus {
  sds_DeviceID : UUID;
  sds_SubscriptionID : UUID;
  sds_MemberID : UUID;
  sds_CreatedAtMilliseconds : int64;
  sds_RevokedAtMilliseconds : option int64 }.

#[global] Instance eta_SpaceDeviceStatus : Eta SpaceDeviceStatus := fun d =>
  mkSpaceDeviceStatus (sds_DeviceID d) (sds_SubscriptionID d) (sds_MemberID d)
    (sds_CreatedAtMilliseconds d) (sds_RevokedAtMilliseconds d).
#[global] Instance upd_sds_RevokedAtMilliseconds : Update sds_RevokedAtMilliseconds := ltac:(mk_update).

Record SpaceStatus := mkSpaceStatus {
  sst_SpaceID : UUID;
  sst_DomainID : UUID;
  sst_InitialDeviceID : UUID;
  sst_CreatedAtMilliseconds : int64;
  sst_Devices : list SpaceDeviceStatus }.

#[global] Instance eta_SpaceStatus : Eta SpaceStatus := fun s =>
  mkSpaceStatus (sst_SpaceID s) (sst_DomainID s) (sst_InitialDeviceID s)
    (sst_CreatedAtMilliseconds s) (sst_Devices s).
#[global] Instance upd_sst_Devices : Update sst_Devices := ltac:(mk_update).

Record PrincipalStatus := mkPrincipalStatus {
  pst_Version : Z;
  pst_PrincipalID : UUID;
  pst_ControlDomainID : UUID;
  pst_Devices : list DeviceStatus;
  pst_Spaces : list SpaceStatus }.

(** ** Discovery profiles (discovery.go) *)

Record DiscoveryProfile := mkDiscoveryProfile {
  dpf_Version : Z;
  dpf_PrincipalID : UUID;
  dpf_SetDiscriminator : string;
  dpf_DisplayName : string;
  dpf_Revision : uint64;
  dpf_UpdatedMilliseconds : int64 }.

Definition lower_hex_byte (c : ascii) : Prop := 48 ≤ byte_val c ≤ 57 ∨ 97 ≤ byte_val c ≤ 102.

#[global] Instance lower_hex_byte_dec c : Decision (lower_hex_byte c).
Proof. unfold lower_hex_byte. apply _. Defined.

Definition DiscoveryProfile_Validate (profile : DiscoveryProfile) : option SyncError :=
  let name := strings_TrimSpace (dpf_DisplayName profile) in
  let invalid := NewProtocolError CodeInvalidPrincipal "Device Sync discovery profile is invalid" in
  err_when (dpf_Version profile ≠ SchemaVersion ∨ dpf_PrincipalID profile = uuid_Nil ∨
      name = ""%string ∨ name ≠ dpf_DisplayName profile ∨ utf8_RuneCountInString name > 128 ∨
      len name > 256 ∨ dpf_Revision profile = 0 ∨ dpf_Revision profile > MaxInt64 ∨
      dpf_UpdatedMilliseconds profile < 0 ∨ len (dpf_SetDiscriminator profile) ≠ 32) invalid >>?
  err_when (¬ Forall lower_hex_byte (str (dpf_SetDiscriminator profile))) invalid.

(** ** Join requests (join_request.go) *)

Definition MinimumJoinRequestLifetimeMilliseconds : int64 := 5 * 60 * 1000.
Definition MaximumJoinRequestLifetimeMilliseconds : int64 := 24 * 60 * 60 * 1000.
Definition JoinRequestPINLength : Z := 6.
Definition MaximumBootstrapPublicKeyByteCount : Z := 512.
Definition MaximumBootstrapCiphertextByteCount : Z := Z.shiftl 1 20.

Definition joinRequestPINAuthorizationDomain : bytes :=
  domain_separator "Facets Device Sync join request PIN v1".
Definition joinRequestPollingAuthorizationDomain : bytes :=
  domain_separator "Facets Device Sync join request polling v1".

Definition validUnpaddedBase64 (value : string) (maximumBytes : Z) : Prop :=
  ¬ (strings_TrimSpace value = ""%string ∨
     strings_ContainsAny value (of_str (bytes_of [61; 32; 9; 13; 10]))) ∧
  some_and (b64_DecodeString value) (fun decoded =>
    zlen decoded > 0 ∧ zlen decoded ≤ maximumBytes ∧ b64_EncodeToString decoded = value).

#[global] Instance validUnpaddedBase64_dec v n : Decision (validUnpaddedBase64 v n).
Proof. unfold validUnpaddedBase64. apply _. Defined.

Definition validJoinRequestPIN (pin : string) : Prop :=
  len pin = JoinRequestPINLength ∧ Forall (str_in_range "0" "9") (runes pin).

#[global] Instance validJoinRequestPIN_dec pin : Decision (validJoinRequestPIN pin).
Proof. unfold validJoinRequestPIN. apply _. Defined.

Record JoinBootstrapEnvelope := mkJoinBootstrapEnvelope {
  jbe_Version : Z;
  jbe_RequestID : UUID;
  jbe_Algorithm : string;
  jbe_EphemeralPublicKey : string;
  jbe_Nonce : string;
  jbe_Ciphertext : string;
  jbe_AuthenticationTag : string;
  jbe_CreatedAtMilliseconds : int64;
  jbe_ExpiresAtMilliseconds : int64 }.

#[global] Instance JoinBootstrapEnvelope_eq_dec : EqDecision JoinBootstrapEnvelope.
Proof. solve_decision. Defined.

Definition JoinBootstrapEnvelope_Validate (e : JoinBootstrapEnvelope) : option SyncError :=
  err_when (jbe_Version e ≠ SchemaVersion ∨ jbe_RequestID e = uuid_Nil ∨
      strings_TrimSpace (jbe_Algorithm e) = ""%string ∨ len (jbe_Algorithm e) > 128 ∨
      ¬ validUnpaddedBase64 (jbe_EphemeralPublicKey e) MaximumBootstrapPublicKeyByteCount ∨
      ¬ validUnpaddedBase64 (jbe_Nonce e) 64 ∨
      ¬ validUnpaddedBase64 (jbe_Ciphertext e) MaximumBootstrapCiphertextByteCount ∨
      ¬ validUnpaddedBase64 (jbe_AuthenticationTag e) 64 ∨ jbe_CreatedAtMilliseconds e < 0 ∨
      jbe_ExpiresAtMilliseconds e ≤ jbe_CreatedAtMilliseconds e)
    (NewProtocolError CodeInvalidJoinRequest "join request bootstrap envelope is invalid").

Record JoinRequest := mkJoinRequest {
  jr_Version : Z;
  jr_RetryID : UUID;
  jr_RequestID : UUID;
  jr_CandidateDeviceID : UUID;
  jr_CandidateBootstrapPublicKey : string;
  jr_PollingAuthorizationDigest : string;
  jr_PINAuthorizationDigest : string;
  jr_CreatedAtMilliseconds : int64;
  jr_ExpiresAtMilliseconds : int64;
  jr_PrincipalID : option UUID;
  jr_Bootstrap : option JoinBootstrapEnvelope;
  jr_Cancelled : bool }.

#[global] Instance eta_JoinRequest : Eta JoinRequest := fun r =>
  mkJoinRequest (jr_Version r) (jr_RetryID r) (jr_RequestID r) (jr_CandidateDeviceID r)
    (jr_CandidateBootstrapPublicKey r) (jr_PollingAuthorizationDigest r)
    (jr_PINAuthorizationDigest r) (jr_CreatedAtMilliseconds r) (jr_ExpiresAtMilliseconds r)
    (jr_PrincipalID r) (jr_Bootstrap r) (jr_Cancelled r).
#[global] Instance upd_jr_PrincipalID : Update jr_PrincipalID := ltac:(mk_update).
#[global] Instance upd_jr_Bootstrap : Update jr_Bootstrap := ltac:(mk_update).
#[global] Instance upd_jr_Cancelled : Update jr_Cancelled := ltac:(mk_update).

#[global] Instance JoinRequest_eq_dec : EqDecision JoinRequest.
Proof. solve_decision. Defined.

(** [PrincipalID] and [Bootstrap] are both present past the first test. *)
Definition JoinRequest_Validate (r : JoinRequest) : option SyncError :=
  let lifetime := i64 (jr_ExpiresAtMilliseconds r - jr_CreatedAtMilliseconds r) in
  err_when (jr_Version r ≠ SchemaVersion ∨ jr_RetryID r = uuid_Nil ∨ jr_RequestID r = uuid_Nil ∨
      jr_CandidateDeviceID r = uuid_Nil ∨
      ¬ validUnpaddedBase64 (jr_CandidateBootstrapPublicKey r) MaximumBootstrapPublicKeyByteCount ∨
      ¬ validDigest (jr_PollingAuthorizationDigest r) ∨ ¬ validDigest (jr_PINAuthorizationDigest r) ∨
      jr_CreatedAtMilliseconds r < 0 ∨ lifetime < MinimumJoinRequestLifetimeMilliseconds ∨
      lifetime > MaximumJoinRequestLifetimeMilliseconds ∨
      ¬ (jr_PrincipalID r = None ↔ jr_Bootstrap r = None))
    (NewProtocolError CodeInvalidJoinRequest "join request fields are invalid") >>?
  match jr_PrincipalID r, jr_Bootstrap r with
  | Some principalID, Some bootstrap =>
    err_when (principalID = uuid_Nil ∨ jbe_RequestID bootstrap ≠ jr_RequestID r ∨
        jbe_ExpiresAtMilliseconds bootstrap > jr_ExpiresAtMilliseconds r)
      (NewProtocolError CodeInvalidJoinRequest "join request bootstrap scope is invalid") >>?
    JoinBootstrapEnvelope_Validate bootstrap
  | _, _ => None
  end.

Definition JoinRequest_RequireActive (r : JoinRequest) (nowMilliseconds : int64)
    : option SyncError :=
  err_when (jr_Cancelled r = true)
    (NewProtocolError CodeJoinRequestNotFound "join request was cancelled") >>?
  err_when (nowMilliseconds < jr_CreatedAtMilliseconds r ∨
      nowMilliseconds ≥ jr_ExpiresAtMilliseconds r)
    (NewProtocolError CodeJoinRequestExpired "join request is not active").

Record JoinRequestCredential := mkJoinRequestCredential {
  jrc_RequestID : UUID;
  jrc_Token : string }.

Definition joinRequestAuthorizationDigest `{UuidLib} (domain : bytes) (requestID : UUID)
    (token : string) : string :=
  identified_digest domain (uuid_String requestID) token.

Definition JoinRequestPollingAuthorizationDigest `{UuidLib} (credential : JoinRequestCredential)
    : SyncError + string :=
  if decide (jrc_RequestID credential = uuid_Nil)
  then inl (SyncPlainError "join request scope is invalid")
  else if decide (¬ token_valid (jrc_Token credential))
  then inl (SyncPlainError "join request polling token must be 32-byte unpadded base64url")
  else inr (joinRequestAuthorizationDigest joinRequestPollingAuthorizationDomain
              (jrc_RequestID credential) (jrc_Token credential)).

Definition JoinRequestPINAuthorizationDigest (pin : string) : SyncError + string :=
  if decide (¬ validJoinRequestPIN pin)
  then inl (SyncPlainError "join request PIN must be six digits")
  else inr (hex_EncodeToString (Sum256 (joinRequestPINAuthorizationDomain ++ str pin))).

Definition JoinRequest_VerifyPollingCredential `{UuidLib} (r : JoinRequest)
    (credential : JoinRequestCredential) : option SyncError :=
  err_when (jrc_RequestID credential ≠ jr_RequestID r)
    (NewProtocolError CodeWrongScope "join request credential has another scope") >>?
  err_when (digest_refused (JoinRequestPollingAuthorizationDigest credential)
      (jr_PollingAuthorizationDigest r))
    (NewProtocolError CodeUnauthorized "join request polling credential is invalid").

Definition JoinRequest_MatchesPIN (r : JoinRequest) (pin : string) : Prop :=
  ¬ digest_refused (JoinRequestPINAuthorizationDigest pin) (jr_PINAuthorizationDigest r).

#[global] Instance JoinRequest_MatchesPIN_dec r pin : Decision (JoinRequest_MatchesPIN r pin).
Proof. unfold JoinRequest_MatchesPIN. apply _. Defined.

Record JoinRequestCreateResult := mkJoinRequestCreateResult {
  jcr_Acceptance : Acceptance;
  jcr_RequestID : UUID;
  jcr_ExpiresAtMilliseconds : int64 }.

Record JoinRequestSponsorPresentation := mkJoinRequestSponsorPresentation {
  jsp_Version : Z;
  jsp_RequestID : UUID;
  jsp_CandidateDeviceID : UUID;
  jsp_CandidateBootstrapPublicKey : string;
  jsp_ExpiresAtMilliseconds : int64 }.

Definition sponsorPresentation (request : JoinRequest) : JoinRequestSponsorPresentation :=
  mkJoinRequestSponsorPresentation (jr_Version request) (jr_RequestID request)
    (jr_CandidateDeviceID request) (jr_CandidateBootstrapPublicKey request)
    (jr_ExpiresAtMilliseconds request).
