(* ===== verification/DeviceSync.v ===== *)
(** * internal/devicesync: the store of principals, devices and Spaces

    [memory.go], [memory_sponsor.go] and [memory_sponsor_cancel.go].  The
    store keeps accounts, enrolled devices and Spaces, and carries them out on
    a relay: every operation that the source delegates is the modelled
    operation of the relay's own store, which is part of the state here. *)

From S2P Require Import Prelude GoEncoding Sha256 RelayModel RelayState RelayTenant RelayMember RelaySubscription ServiceAuthority DeviceSyncModel.
#[local] Open Scope Z_scope.

Section store.
Context `{UuidLib} `{ManifestLib}.

(** ** State *)

Record memoryPrincipal := mkMemoryPrincipal {
  prn_admissionID : UUID;
  prn_provisioning : PrincipalProvisioning;
  prn_result : TenantProvisioningResult;
  prn_initialAuthority : option InitialBinding;
  prn_authorityActive : bool }.

Record memoryDeviceAdmission := mkMemoryDeviceAdmission {
  mda_admission : DeviceAdmission;
  mda_result : option DeviceAdmissionClaimResult }.

Record memorySpace := mkMemorySpace {
  msp_provisioning : SpaceProvisioning;
  msp_result : DomainProvisioningResult;
  msp_devices : gmap UUID UUID }.

Record memorySpaceDeviceAdmission := mkMemorySpaceDeviceAdmission {
  msd_admission : SpaceDeviceAdmission;
  msd_result : option SpaceDeviceAdmissionClaimResult }.

Record MemoryStore := mkMemoryStore {
  ms_relay : RelayState.MemoryStore;
  ms_admissions : gmap UUID AccountAdmission;
  ms_admissionRetry : gmap UUID UUID;
  ms_principals : gmap UUID memoryPrincipal;
  ms_deviceAdmissions : gmap UUID memoryDeviceAdmission;
  ms_deviceAdmissionRetry : gmap UUID UUID;
  ms_spaces : gmap UUID memorySpace;
  ms_spaceRetry : gmap UUID UUID;
  ms_spaceDeviceAdmissions : gmap UUID memorySpaceDeviceAdmission;
  ms_spaceDeviceAdmissionRetry : gmap UUID UUID;
  ms_spaceAdmissionCancellations : gmap UUID SpaceDeviceAdmissionCancellation;
  ms_deviceRevocationRequests : gmap UUID DeviceRevocation;
  ms_deviceRevocations : gmap UUID DeviceRevocationResult;
  ms_revokedDevices : gmap UUID (gmap UUID int64);
  ms_retiredPrincipals : gmap UUID DeviceRevocationResult;
  ms_joinRequests : gmap UUID JoinRequest;
  ms_joinRequestRetry : gmap UUID UUID;
  ms_discoveryProfiles : gmap UUID DiscoveryProfile }.

#[global] Instance eta_MemoryStore : Eta MemoryStore := fun s =>
  mkMemoryStore (ms_relay s) (ms_admissions s) (ms_admissionRetry s) (ms_principals s)
    (ms_deviceAdmissions s) (ms_deviceAdmissionRetry s) (ms_spaces s) (ms_spaceRetry s)
    (ms_spaceDeviceAdmissions s) (ms_spaceDeviceAdmissionRetry s)
    (ms_spaceAdmissionCancellations s) (ms_deviceRevocationRequests s) (ms_deviceRevocations s)
    (ms_revokedDevices s) (ms_retiredPrincipals s) (ms_joinRequests s) (ms_joinRequestRetry s)
    (ms_discoveryProfiles s).
#[global] Instance upd_ms_relay : Update ms_relay := ltac:(mk_update).
#[global] Instance upd_ms_admissions : Update ms_admissions := ltac:(mk_update).
#[global] Instance upd_ms_admissionRetry : Update ms_admissionRetry := ltac:(mk_update).
#[global] Instance upd_ms_principals : Update ms_principals := ltac:(mk_update).
#[global] Instance upd_ms_deviceAdmissions : Update ms_deviceAdmissions := ltac:(mk_update).
#[global] Instance upd_ms_deviceAdmissionRetry : Update ms_deviceAdmissionRetry := ltac:(mk_update).
#[global] Instance upd_ms_spaces : Update ms_spaces := ltac:(mk_update).
#[global] Instance upd_ms_spaceRetry : Update ms_spaceRetry := ltac:(mk_update).
#[global] Instance upd_ms_spaceDeviceAdmissions : Update ms_spaceDeviceAdmissions := ltac:(mk_update).
#[global] Instance upd_ms_spaceDeviceAdmissionRetry : Update ms_spaceDeviceAdmissionRetry := ltac:(mk_update).
#[global] Instance upd_ms_spaceAdmissionCancellations : Update ms_spaceAdmissionCancellations := ltac:(mk_update).
#[global] Instance upd_ms_deviceRevocationRequests : Update ms_deviceRevocationRequests := ltac:(mk_update).
#[global] Instance upd_ms_deviceRevocations : Update ms_deviceRevocations := ltac:(mk_update).
#[global] Instance upd_ms_revokedDevices : Update ms_revokedDevices := ltac:(mk_update).
#[global] Instance upd_ms_retiredPrincipals : Update ms_retiredPrincipals := ltac:(mk_update).
#[global] Instance upd_ms_joinRequests : Update ms_joinRequests := ltac:(mk_update).
#[global] Instance upd_ms_joinRequestRetry : Update ms_joinRequestRetry := ltac:(mk_update).
#[global] Instance upd_ms_discoveryProfiles : Update ms_discoveryProfiles := ltac:(mk_update).

Definition NewMemoryStore (relayStore : RelayState.MemoryStore) : MemoryStore :=
  mkMemoryStore relayStore ∅ ∅ ∅ ∅ ∅ ∅ ∅ ∅ ∅ ∅ ∅ ∅ ∅ ∅ ∅ ∅ ∅.

Abbreviation SyncM A := (M SyncError MemoryStore A) (only parsing).

(** A call of [s.relay]; its error is returned as it is. *)
Definition relay {A} (call : M GoError RelayState.MemoryStore A) : SyncM A := fun s =>
  let '(r, result) := call (ms_relay s) in
  (s <| ms_relay := r |>, match result with inl err => inl (SyncRelayError err) | inr a => inr a end).

Definition unauthorized (message : string) : SyncError := NewProtocolError CodeUnauthorized message.

(** [if _, retired := s.retiredPrincipals[id]; retired { return ... }] *)
Definition require_not_retired (principalID : UUID) : SyncM unit :=
  let* s := get in
  reject_if (is_Some (ms_retiredPrincipals s !! principalID))
    (unauthorized "Device Sync principal is retired").

Definition find_principal (principalID : UUID) : SyncM memoryPrincipal :=
  let* s := get in
  found_or (ms_principals s !! principalID) (unauthorized "Device Sync principal was not found").

Definition control_domain (principal : memoryPrincipal) : UUID :=
  dr_DomainID (dp_Registration (pp_ControlDomain (prn_provisioning principal))).

(** ** Enrolled devices *)

(** The flag that [registeredPrincipalDevice] returns; no caller uses the
    record. *)
Definition registeredPrincipalDevice (s : MemoryStore) (principalID deviceID : UUID) : Prop :=
  map_any (fun _ admission => da_PrincipalID (mda_admission admission) = principalID ∧
      da_DeviceID (mda_admission admission) = deviceID ∧ is_Some (mda_result admission))
    (ms_deviceAdmissions s) ∨
  some_and (ms_principals s !! principalID) (fun principal =>
    pp_InitialDeviceID (prn_provisioning principal) = deviceID).

#[global] Instance registeredPrincipalDevice_dec s p d :
  Decision (registeredPrincipalDevice s p d).
Proof. unfold registeredPrincipalDevice. apply _. Defined.

Definition revoked_devices (s : MemoryStore) (principalID : UUID) : gmap UUID int64 :=
  default ∅ (ms_revokedDevices s !! principalID).

Definition principalDevice (s : MemoryStore) (principalID deviceID : UUID) : Prop :=
  revoked_devices s principalID !! deviceID = None ∧
  registeredPrincipalDevice s principalID deviceID.

#[global] Instance principalDevice_dec s p d : Decision (principalDevice s p d).
Proof. unfold principalDevice. apply _. Defined.

(** ** Discovery profiles *)

Definition PublishDiscoveryProfile (credential : TenantCredential) (profile : DiscoveryProfile)
    : SyncM unit :=
  let principalID := dpf_PrincipalID profile in
  check (DiscoveryProfile_Validate profile);;;
  reject_if (tcred_TenantID credential ≠ principalID)
    (NewProtocolError CodeWrongScope "discovery profile belongs to another principal");;;
  relay (GetTenantStatus credential);;;
  require_not_retired principalID;;;
  find_principal principalID;;;
  let* s := get in
  reject_if (some_and (ms_discoveryProfiles s !! principalID) (fun existing =>
      dpf_Revision profile < dpf_Revision existing))
    (NewProtocolError CodePrincipalCollision "discovery profile revision moved backwards");;;
  modify (fun s => s <| ms_discoveryProfiles :=
    <[principalID := profile]> (ms_discoveryProfiles s) |>).

Definition profile_le (a b : DiscoveryProfile) : Prop :=
  if decide (dpf_DisplayName a ≠ dpf_DisplayName b)
  then str_le (dpf_DisplayName a) (dpf_DisplayName b)
  else str_le (dpf_SetDiscriminator a) (dpf_SetDiscriminator b).

#[global] Instance profile_le_dec : RelDecision profile_le.
Proof. intros a b. unfold profile_le. destruct (decide _); apply _. Defined.

Definition ListDiscoveryProfiles : SyncM (list DiscoveryProfile) :=
  let* s := get in
  ret (merge_sort profile_le
    (filter (fun kv : UUID * DiscoveryProfile => ms_retiredPrincipals s !! kv.1 = None)
       (map_to_list (ms_discoveryProfiles s))).*2).

(** ** Join requests *)

Definition join_created (acceptance : Acceptance) (request : JoinRequest)
    : JoinRequestCreateResult :=
  mkJoinRequestCreateResult acceptance (jr_RequestID request) (jr_ExpiresAtMilliseconds request).

Definition JoinRequest_zero : JoinRequest :=
  mkJoinRequest 0 uuid_Nil uuid_Nil uuid_Nil "" "" "" 0 0 None None false.

Definition CreateJoinRequest (request : JoinRequest) (nowMilliseconds : int64)
    : SyncM JoinRequestCreateResult :=
  let collision := NewProtocolError CodeJoinRequestCollision in
  check (JoinRequest_Validate request);;;
  check (JoinRequest_RequireActive request nowMilliseconds);;;
  let* s := get in
  match ms_joinRequestRetry s !! jr_RetryID request with
  | Some requestID =>
    let existing := default JoinRequest_zero (ms_joinRequests s !! requestID) in
    if decide (existing = request) then ret (join_created AcceptanceDuplicate existing)
    else throw (collision "join request retry ID was reused"%string)
  | None =>
    match ms_joinRequests s !! jr_RequestID request with
    | Some existing =>
      if decide (existing = request) then ret (join_created AcceptanceDuplicate existing)
      else throw (collision "join request ID was reused"%string)
    | None =>
      reject_if (map_any (fun _ existing => jr_Cancelled existing = false ∧
          jr_PINAuthorizationDigest existing = jr_PINAuthorizationDigest request ∧
          jr_ExpiresAtMilliseconds existing > nowMilliseconds) (ms_joinRequests s))
        (collision "join request PIN is already active"%string);;;
      modify (fun s => s
        <| ms_joinRequests := <[jr_RequestID request := request]> (ms_joinRequests s) |>
        <| ms_joinRequestRetry :=
             <[jr_RetryID request := jr_RequestID request]> (ms_joinRequestRetry s) |>);;;
      ret (join_created AcceptanceAccepted request)
    end
  end.

(** The requests at which the loop of [LookupJoinRequest] stops, in the order
    of the iteration. *)
Definition matching_requests (s : MemoryStore) (pin : string) (nowMilliseconds : int64)
    : list JoinRequest :=
  filter (fun request => ¬ (jr_Cancelled request = true ∨
      jr_ExpiresAtMilliseconds request ≤ nowMilliseconds ∨ ¬ JoinRequest_MatchesPIN request pin))
    (map_to_list (ms_joinRequests s)).*2.

Definition LookupJoinRequest (credential : AdministrationCredential) (pin : string)
    (nowMilliseconds : int64) : SyncM JoinRequestSponsorPresentation :=
  let principalID := acred_TenantID credential in
  reject_if (¬ validJoinRequestPIN pin)
    (NewProtocolError CodeInvalidJoinRequest "join request PIN is invalid");;;
  relay (GetDomainStatus credential);;;
  require_not_retired principalID;;;
  let* principal := find_principal principalID in
  reject_if (acred_DomainID credential ≠ control_domain principal)
    (NewProtocolError CodeWrongScope "join request requires the principal control domain");;;
  let* s := get in
  match matching_requests s pin nowMilliseconds with
  | request :: _ =>
    check (JoinRequest_RequireActive request nowMilliseconds);;;
    reject_if (some_and (jr_PrincipalID request) (fun owner => owner ≠ principalID))
      (NewProtocolError CodeWrongScope
         "join request already belongs to another Device Sync principal");;;
    ret (sponsorPresentation request)
  | [] => throw (NewProtocolError CodeJoinRequestNotFound "join request was not found")
  end.

Definition find_join_request (requestID : UUID) : SyncM JoinRequest :=
  let* s := get in
  found_or (ms_joinRequests s !! requestID)
    (NewProtocolError CodeJoinRequestNotFound "join request was not found").

Definition put_join_request (requestID : UUID) (request : JoinRequest) (s : MemoryStore)
    : MemoryStore :=
  s <| ms_joinRequests := <[requestID := request]> (ms_joinRequests s) |>.

Definition StoreJoinRequestBootstrap (credential : AdministrationCredential)
    (bootstrap : JoinBootstrapEnvelope) (nowMilliseconds : int64) : SyncM Acceptance :=
  let principalID := acred_TenantID credential in
  check (JoinBootstrapEnvelope_Validate bootstrap);;;
  relay (GetDomainStatus credential);;;
  let* principal := find_principal principalID in
  reject_if (acred_DomainID credential ≠ control_domain principal)
    (NewProtocolError CodeWrongScope "join request requires the principal control domain");;;
  let* request := find_join_request (jbe_RequestID bootstrap) in
  check (JoinRequest_RequireActive request nowMilliseconds);;;
  reject_if (jbe_ExpiresAtMilliseconds bootstrap > jr_ExpiresAtMilliseconds request)
    (NewProtocolError CodeWrongScope "join request bootstrap outlives request");;;
  if decide (is_Some (jr_PrincipalID request) ∨ is_Some (jr_Bootstrap request)) then
    if decide (jr_PrincipalID request = Some principalID ∧ jr_Bootstrap request = Some bootstrap)
    then ret AcceptanceDuplicate
    else throw (NewProtocolError CodeJoinRequestClaimed "join request already has a bootstrap")
  else
    modify (put_join_request (jr_RequestID request)
      (request <| jr_PrincipalID := Some principalID |> <| jr_Bootstrap := Some bootstrap |>));;;
    ret AcceptanceAccepted.

Definition CancelJoinRequest (credential : JoinRequestCredential) : SyncM unit :=
  let* request := find_join_request (jrc_RequestID credential) in
  check (JoinRequest_VerifyPollingCredential request credential);;;
  modify (put_join_request (jrc_RequestID credential) (request <| jr_Cancelled := true |>)).

Definition FetchJoinRequestBootstrap (credential : JoinRequestCredential) (nowMilliseconds : int64)
    : SyncM JoinBootstrapEnvelope :=
  let* request := find_join_request (jrc_RequestID credential) in
  check (JoinRequest_VerifyPollingCredential request credential);;;
  check (JoinRequest_RequireActive request nowMilliseconds);;;
  found_or (jr_Bootstrap request)
    (NewProtocolError CodeJoinRequestNotFound "join request bootstrap is not available").

(** ** Accounts *)

Definition AccountAdmission_zero : AccountAdmission :=
  mkAccountAdmission 0 uuid_Nil uuid_Nil "" 0 0 ServiceEntitlement_zero None None.

Definition CreateAccountAdmission (admission : AccountAdmission) (nowMilliseconds : int64)
    : SyncM AdmissionCreateResult :=
  let collision := NewProtocolError CodeAdmissionCollision in
  let admission := AccountAdmission_WithEffectiveServiceEntitlement admission in
  check (AccountAdmission_Validate admission);;;
  reject_if (nowMilliseconds < aa_CreatedAtMilliseconds admission ∨
      nowMilliseconds ≥ aa_ExpiresAtMilliseconds admission ∨
      is_Some (aa_ClaimedAtMilliseconds admission))
    (NewProtocolError CodeInvalidAdmission "account admission is not currently issuable");;;
  let* s := get in
  match ms_admissionRetry s !! aa_RetryID admission with
  | Some admissionID =>
    let existing := default AccountAdmission_zero (ms_admissions s !! admissionID) in
    if decide (existing = admission) then ret (mkAdmissionCreateResult AcceptanceDuplicate existing)
    else throw (collision "account admission retry ID was reused"%string)
  | None =>
    match ms_admissions s !! aa_AdmissionID admission with
    | Some existing =>
      if decide (existing = admission)
      then ret (mkAdmissionCreateResult AcceptanceDuplicate existing)
      else throw (collision "account admission ID was reused"%string)
    | None =>
      modify (fun s => s
        <| ms_admissions := <[aa_AdmissionID admission := admission]> (ms_admissions s) |>
        <| ms_admissionRetry :=
             <[aa_RetryID admission := aa_AdmissionID admission]> (ms_admissionRetry s) |>);;;
      ret (mkAdmissionCreateResult AcceptanceAccepted admission)
    end
  end.

Definition claimAccountAdmission (credential : AdmissionCredential)
    (provisioning : PrincipalProvisioning) (initialAuthority : option InitialBinding)
    (nowMilliseconds : int64) : SyncM PrincipalProvisioningResult :=
  let* s := get in
  let* admission := found_or (ms_admissions s !! acc_AdmissionID credential)
    (NewProtocolError CodeAdmissionNotFound "account admission was not found") in
  check (AccountAdmission_VerifyCredential admission credential);;;
  let provisioning :=
    ServiceEntitlement_Apply (AccountAdmission_EffectiveServiceEntitlement admission)
      provisioning in
  let principalID := pp_PrincipalID provisioning in
  check (PrincipalProvisioning_Validate provisioning);;;
  match aa_ClaimedAtMilliseconds admission with
  | Some _ =>
    match (claimed ← aa_ClaimedPrincipalID admission; ms_principals s !! claimed) with
    | Some existing =>
      if decide (prn_admissionID existing = aa_AdmissionID admission ∧
                 prn_provisioning existing = provisioning ∧
                 InitialBindingsEqual (prn_initialAuthority existing) initialAuthority)
      then ret (resultFor provisioning (prn_result existing) AcceptanceDuplicate)
      else throw (NewProtocolError CodeAdmissionClaimed "account admission was already claimed")
    | None => throw (NewProtocolError CodeAdmissionClaimed "account admission was already claimed")
    end
  | None =>
    reject_if (pp_CreatedAtMilliseconds provisioning > nowMilliseconds)
      (NewProtocolError CodeInvalidPrincipal "principal starts in the future");;;
    check (AccountAdmission_RequireActive admission nowMilliseconds);;;
    reject_if (is_Some initialAuthority ∧
        is_Some (InitialBinding_RequireFreshClaimAt initialAuthority nowMilliseconds))
      (NewProtocolError CodeInvalidPrincipal
         "initial service authority enrollment is not current");;;
    reject_if (some_and (ms_principals s !! principalID) (fun existing =>
        prn_admissionID existing ≠ aa_AdmissionID admission ∨
        prn_provisioning existing ≠ provisioning))
      (NewProtocolError CodePrincipalCollision "principal ID was reused");;;
    let* relayResult :=
      relay (ProvisionTenant (pp_Tenant provisioning) (pp_ControlDomain provisioning)) in
    modify (fun s => s
      <| ms_admissions := <[aa_AdmissionID admission := admission
           <| aa_ClaimedAtMilliseconds := Some nowMilliseconds |>
           <| aa_ClaimedPrincipalID := Some principalID |>]> (ms_admissions s) |>
      <| ms_principals := <[principalID := mkMemoryPrincipal (aa_AdmissionID admission)
           provisioning relayResult initialAuthority false]> (ms_principals s) |>);;;
    ret (resultFor provisioning relayResult AcceptanceAccepted)
  end.

Definition ClaimAccountAdmission (credential : AdmissionCredential)
    (provisioning : PrincipalProvisioning) (nowMilliseconds : int64)
    : SyncM PrincipalProvisioningResult :=
  claimAccountAdmission credential provisioning None nowMilliseconds.

Definition ClaimAccountAdmissionWithAuthority (credential : AdmissionCredential)
    (provisioning : PrincipalProvisioning) (initialAuthority : option InitialBinding)
    (nowMilliseconds : int64) : SyncM PrincipalProvisioningResult :=
  reject_if (initialAuthority = None ∨ is_Some (InitialBinding_Validate initialAuthority) ∨
      InitialBinding_Scope initialAuthority ≠ mkScope ScopeDeviceSync (pp_PrincipalID provisioning))
    (SyncAuthorityError ErrInvalid);;;
  claimAccountAdmission credential provisioning initialAuthority nowMilliseconds.

Definition ActivateBoundDeviceSyncScope (principalID localDeploymentID : UUID)
    (expectedAuthorityRevision : uint64) (expectedAuthorityManifestDigest : string)
    (nowMilliseconds : int64) : SyncM unit :=
  reject_if (principalID = uuid_Nil ∨ localDeploymentID = uuid_Nil ∨
      expectedAuthorityRevision ≠ 1 ∨ ¬ validDigest expectedAuthorityManifestDigest ∨
      nowMilliseconds < 0) (SyncAuthorityError ErrInvalid);;;
  let* s := get in
  let* principal := found_or (ms_principals s !! principalID) ErrInitialServiceAuthorityConflict in
  reject_if (prn_initialAuthority principal = None ∨
      InitialBinding_LocalDeploymentID (prn_initialAuthority principal) ≠ localDeploymentID ∨
      InitialBinding_Revision (prn_initialAuthority principal) ≠ expectedAuthorityRevision ∨
      InitialBinding_ManifestDigest (prn_initialAuthority principal) ≠
        expectedAuthorityManifestDigest) ErrInitialServiceAuthorityConflict;;;
  if decide (prn_authorityActive principal = true) then ret tt
  else modify (fun s => s <| ms_principals := <[principalID :=
    mkMemoryPrincipal (prn_admissionID principal) (prn_provisioning principal)
      (prn_result principal) (prn_initialAuthority principal) true]> (ms_principals s) |>).
End store.
