(* ===== verification/DeviceSyncSpaces.v ===== *)
(** * internal/devicesync: devices and Spaces (memory.go, memory_sponsor.go,
    memory_sponsor_cancel.go)

    Enrolment and revocation of devices, the Spaces of a principal, and the
    sponsored admission of a device to a Space.

    Then the store as a state machine.  Every method of the device-sync store
    runs under its mutex; what it does to the relay is a series of calls of
    the relay's own methods, and the relay also serves calls that do not come
    from device sync.  An execution is a sequence of [Op]s.  A method's relay
    calls are taken to follow one another without a direct relay call in
    between. *)

From S2P Require Import Prelude GoEncoding Sha256 RelayModel RelayState RelayTenant RelayMember RelaySubscription RelayMachine ServiceAuthority DeviceSyncModel DeviceSync.
#[local] Open Scope Z_scope.

Section spaces.
Context `{UuidLib} `{ManifestLib}.

Abbreviation SyncM A := (M SyncError MemoryStore A) (only parsing).

(** ** Device admissions *)

Definition put_device_admission (admissionID : UUID) (record : memoryDeviceAdmission)
    (s : MemoryStore) : MemoryStore :=
  s <| ms_deviceAdmissions := <[admissionID := record]> (ms_deviceAdmissions s) |>.

(** The zero struct of a missing entry equals no valid admission. *)
Definition same_device_admission (s : MemoryStore) (admissionID : UUID)
    (admission : DeviceAdmission) : Prop :=
  some_and (ms_deviceAdmissions s !! admissionID) (fun existing =>
    mda_admission existing = admission).

#[global] Instance same_device_admission_dec s id a : Decision (same_device_admission s id a).
Proof. unfold same_device_admission. apply _. Defined.

Definition CreateDeviceAdmission (credential : AdministrationCredential)
    (admission : DeviceAdmission) (nowMilliseconds : int64) : SyncM DeviceAdmissionCreateResult :=
  let relayAdmission := da_RelayAdmission admission in
  let principalID := da_PrincipalID admission in
  let collision := NewProtocolError CodeAdmissionCollision in
  check (DeviceAdmission_Validate admission);;;
  reject_if (da_CreatedAtMilliseconds admission > nowMilliseconds ∨
      ma_ExpiresAtMilliseconds relayAdmission ≤ nowMilliseconds)
    (NewProtocolError CodeInvalidAdmission "device admission is not currently issuable");;;
  require_not_retired principalID;;;
  let* principal := find_principal principalID in
  reject_if (acred_TenantID credential ≠ principalID ∨
      acred_DomainID credential ≠ control_domain principal ∨
      ma_TenantID relayAdmission ≠ principalID ∨
      ma_DomainID relayAdmission ≠ acred_DomainID credential ∨
      da_SubscriptionID admission =
        sub_SubscriptionID (dp_Subscription (pp_ControlDomain (prn_provisioning principal))))
    (NewProtocolError CodeWrongScope "device admission belongs to another principal control domain");;;
  let* s := get in
  match ms_deviceAdmissionRetry s !! da_RetryID admission with
  | Some admissionID =>
    if decide (same_device_admission s admissionID admission)
    then ret (mkDeviceAdmissionCreateResult AcceptanceDuplicate admission)
    else throw (collision "device admission retry ID was reused"%string)
  | None =>
    if decide (is_Some (ms_deviceAdmissions s !! ma_AdmissionID relayAdmission)) then
      if decide (same_device_admission s (ma_AdmissionID relayAdmission) admission)
      then ret (mkDeviceAdmissionCreateResult AcceptanceDuplicate admission)
      else throw (collision "device admission ID was reused"%string)
    else
      reject_if (registeredPrincipalDevice s principalID (da_DeviceID admission))
        (NewProtocolError CodeDeviceCollision "device is already registered");;;
      relay (CreateSubscription credential (mkSubscriptionCreateRequest (da_RetryID admission)
        (da_SubscriptionID admission) (da_CreatedAtMilliseconds admission)));;;
      let* relayResult := relay (CreateSubscriptionAdmission credential
        (da_SubscriptionID admission) relayAdmission nowMilliseconds) in
      modify (put_device_admission (ma_AdmissionID relayAdmission)
        (mkMemoryDeviceAdmission admission None));;;
      modify (fun s => s <| ms_deviceAdmissionRetry :=
        <[da_RetryID admission := ma_AdmissionID relayAdmission]> (ms_deviceAdmissionRetry s) |>);;;
      ret (mkDeviceAdmissionCreateResult (sacr_Acceptance relayResult) admission)
  end.

Definition ClaimDeviceAdmission (credential : DeviceAdmissionCredential)
    (claim : DeviceAdmissionClaim) (nowMilliseconds : int64) : SyncM DeviceAdmissionClaimResult :=
  let admissionID := dac_AdmissionID credential in
  check (DeviceAdmissionClaim_Validate claim);;;
  reject_if (dcl_ClaimedAtMilliseconds claim ≠ nowMilliseconds)
    (NewProtocolError CodeInvalidAdmission "device claim time differs from server time");;;
  let* s := get in
  let* record := found_or (ms_deviceAdmissions s !! admissionID)
    (NewProtocolError CodeAdmissionNotFound "device admission was not found") in
  let admission := mda_admission record in
  require_not_retired (da_PrincipalID admission);;;
  reject_if (dac_PrincipalID credential ≠ da_PrincipalID admission ∨
      dcl_PrincipalID claim ≠ da_PrincipalID admission ∨
      dcl_DeviceID claim ≠ da_DeviceID admission)
    (NewProtocolError CodeWrongScope "device claim belongs to another admission");;;
  match mda_result record with
  | Some result =>
    if decide (dclr_DeviceID result = dcl_DeviceID claim ∧
        mr_AuthorizationDigest (smr_MemberRegistration (dclr_Member result)) =
          mac_AuthorizationDigest (dcl_RelayClaim claim))
    then ret (mkDeviceAdmissionClaimResult AcceptanceDuplicate (dclr_PrincipalID result)
                (dclr_DeviceID result) (dclr_Member result))
    else throw (NewProtocolError CodeAdmissionClaimed "device admission was already claimed")
  | None =>
    let* relayResult := relay (ClaimSubscriptionAdmission
      (RelayModel.mkAdmissionCredential (da_PrincipalID admission)
         (ma_DomainID (da_RelayAdmission admission)) admissionID (dac_Token credential))
      (dcl_RelayClaim claim) nowMilliseconds) in
    let result := mkDeviceAdmissionClaimResult (sacl_Acceptance relayResult)
      (dcl_PrincipalID claim) (dcl_DeviceID claim) (sacl_Member relayResult) in
    modify (put_device_admission admissionID (mkMemoryDeviceAdmission admission (Some result)));;;
    ret result
  end.

(** ** Revocation *)

(** Admissions of the principal that were claimed, whatever the device. *)
Definition claimed_by (principalID : UUID) (record : memoryDeviceAdmission) : Prop :=
  is_Some (mda_result record) ∧ da_PrincipalID (mda_admission record) = principalID.

#[global] Instance claimed_by_dec p r : Decision (claimed_by p r).
Proof. unfold claimed_by. apply _. Defined.

Definition activeDeviceCount (s : MemoryStore) (principalID : UUID) : Z :=
  1 + map_count (fun _ record => claimed_by principalID record) (ms_deviceAdmissions s)
    - zsize (revoked_devices s principalID).

Definition membership_of (domainID : UUID) (member : SubscriptionMemberRegistration)
    : TenantMembershipRevocationItem :=
  mkTenantMembershipRevocationItem domainID (smr_SubscriptionID member)
    (mr_MemberID (smr_MemberRegistration member)).

Definition initial_membership (provisioning : DomainProvisioning)
    : TenantMembershipRevocationItem :=
  mkTenantMembershipRevocationItem (dr_DomainID (dp_Registration provisioning))
    (sub_SubscriptionID (dp_Subscription provisioning))
    (mr_MemberID (dp_InitialMember provisioning)).

(** The control-domain target: the first claimed admission of the device. *)
Definition control_targets (s : MemoryStore) (principal : memoryPrincipal)
    (principalID deviceID : UUID) : list TenantMembershipRevocationItem :=
  if decide (deviceID = pp_InitialDeviceID (prn_provisioning principal))
  then [initial_membership (pp_ControlDomain (prn_provisioning principal))]
  else
    take 1 (omap (fun kv : UUID * memoryDeviceAdmission =>
      result ← mda_result kv.2;
      if decide (da_PrincipalID (mda_admission kv.2) = principalID ∧
                 da_DeviceID (mda_admission kv.2) = deviceID)
      then Some (membership_of (ma_DomainID (da_RelayAdmission (mda_admission kv.2)))
                   (dclr_Member result))
      else None) (map_to_list (ms_deviceAdmissions s))).

(** [space.devices[id]], nil when absent. *)
Definition space_device (space : memorySpace) (deviceID : UUID) : UUID :=
  default uuid_Nil (msp_devices space !! deviceID).

(** One turn of the loop over the Spaces. *)
Definition space_targets (s : MemoryStore) (principalID deviceID : UUID) (space : memorySpace)
    : list TenantMembershipRevocationItem :=
  let provisioning := msp_provisioning space in
  if decide (sp_PrincipalID provisioning ≠ principalID ∨ space_device space deviceID = uuid_Nil)
  then []
  else if decide (deviceID = sp_InitialDeviceID provisioning ∧
      space_device space deviceID = sub_SubscriptionID (dp_Subscription (sp_Domain provisioning)))
  then [initial_membership (sp_Domain provisioning)]
  else
    take 1 (omap (fun kv : UUID * memorySpaceDeviceAdmission =>
      result ← msd_result kv.2;
      if decide (sda_PrincipalID (msd_admission kv.2) = principalID ∧
                 sda_SpaceID (msd_admission kv.2) = sp_SpaceID provisioning ∧
                 sda_DeviceID (msd_admission kv.2) = deviceID ∧
                 smr_SubscriptionID (sdclr_Member result) = space_device space deviceID)
      then Some (membership_of (ma_DomainID (sda_RelayAdmission (msd_admission kv.2)))
                   (sdclr_Member result))
      else None) (map_to_list (ms_spaceDeviceAdmissions s))).

Definition target_le (left right : TenantMembershipRevocationItem) : Prop :=
  str_le (uuid_String (tri_DomainID left)) (uuid_String (tri_DomainID right)).

#[global] Instance target_le_dec : RelDecision target_le.
Proof. intros l r. unfold target_le. apply _. Defined.

Definition revocation_targets (s : MemoryStore) (principal : memoryPrincipal)
    (principalID deviceID : UUID) : list TenantMembershipRevocationItem :=
  merge_sort target_le
    (control_targets s principal principalID deviceID ++
     (map_to_list (ms_spaces s) ≫= fun kv : UUID * memorySpace =>
        space_targets s principalID deviceID kv.2)).

Definition record_device_revocation (revocation : DeviceRevocation)
    (result : DeviceRevocationResult) (nowMilliseconds : int64) (s : MemoryStore) : MemoryStore :=
  let principalID := rev_PrincipalID revocation in
  let s := s
    <| ms_revokedDevices := <[principalID :=
         <[rev_DeviceID revocation := nowMilliseconds]> (revoked_devices s principalID)]>
           (ms_revokedDevices s) |>
    <| ms_deviceRevocationRequests :=
         <[rev_RetryID revocation := revocation]> (ms_deviceRevocationRequests s) |>
    <| ms_deviceRevocations := <[rev_RetryID revocation := result]> (ms_deviceRevocations s) |> in
  if rev_RetirePrincipal revocation then
    s <| ms_retiredPrincipals := <[principalID := result]> (ms_retiredPrincipals s) |>
      <| ms_discoveryProfiles := delete principalID (ms_discoveryProfiles s) |>
  else s.

Definition RevokeDevice (credential : TenantCredential) (revocation : DeviceRevocation)
    (nowMilliseconds : int64) : SyncM DeviceRevocationResult :=
  let principalID := rev_PrincipalID revocation in
  let deviceID := rev_DeviceID revocation in
  check (DeviceRevocation_Validate revocation);;;
  reject_if (tcred_TenantID credential ≠ principalID ∨ nowMilliseconds < 0)
    (NewProtocolError CodeWrongScope "device revocation belongs to another principal");;;
  relay (GetTenantStatus credential);;;
  let* s := get in
  match ms_deviceRevocations s !! rev_RetryID revocation with
  | Some existing =>
    if decide (ms_deviceRevocationRequests s !! rev_RetryID revocation = Some revocation)
    then ret (existing <| rvr_Acceptance := AcceptanceDuplicate |>)
    else throw (NewProtocolError CodeDeviceCollision "device revocation retry ID was reused")
  | None =>
    require_not_retired principalID;;;
    let* principal := find_principal principalID in
    reject_if (is_Some (revoked_devices s principalID !! deviceID))
      (NewProtocolError CodeDeviceRevoked "device is already revoked");;;
    reject_if (¬ registeredPrincipalDevice s principalID deviceID)
      (NewProtocolError CodeDeviceNotFound "device is not enrolled");;;
    let active := activeDeviceCount s principalID in
    reject_if (rev_RetirePrincipal revocation = true ∧ active ≠ 1)
      (NewProtocolError CodeLastDevice "principal retirement requires exactly one active device");;;
    reject_if (active ≤ 1 ∧ rev_RetirePrincipal revocation = false)
      (NewProtocolError CodeLastDevice
         "last active device cannot be revoked without key recovery");;;
    let* relayResult := relay (RevokeTenantMemberships credential
      (mkTenantMembershipRevocation RelayModel.SchemaVersion (rev_RetryID revocation)
         nowMilliseconds (revocation_targets s principal principalID deviceID))) in
    let result := mkDeviceRevocationResult (tmrr_Acceptance relayResult) (rev_RetryID revocation)
      principalID deviceID nowMilliseconds (tmrr_Memberships relayResult) in
    modify (record_device_revocation revocation result nowMilliseconds);;;
    ret result
  end.

(** ** Spaces *)

Definition spaceProvisioningResult (provisioning : SpaceProvisioning)
    (relayResult : DomainProvisioningResult) (acceptance : Acceptance)
    : SpaceProvisioningResult :=
  mkSpaceProvisioningResult acceptance (sp_PrincipalID provisioning) (sp_SpaceID provisioning)
    (mkDomainProvisioningResult acceptance (dpr_RetryID relayResult) (dpr_TenantID relayResult)
       (dpr_DomainID relayResult) (dpr_SubscriptionID relayResult) (dpr_MemberID relayResult)
       (dpr_AdministrationAuthorizationDigest relayResult)
       (dpr_MemberAuthorizationDigest relayResult)).

Definition put_space (spaceID : UUID) (space : memorySpace) (s : MemoryStore) : MemoryStore :=
  s <| ms_spaces := <[spaceID := space]> (ms_spaces s) |>.

Definition ProvisionSpace (credential : TenantCredential) (provisioning : SpaceProvisioning)
    (nowMilliseconds : int64) : SyncM SpaceProvisioningResult :=
  let principalID := sp_PrincipalID provisioning in
  let spaceID := sp_SpaceID provisioning in
  check (SpaceProvisioning_Validate provisioning);;;
  reject_if (tcred_TenantID credential ≠ principalID ∨
      sp_CreatedAtMilliseconds provisioning > nowMilliseconds)
    (NewProtocolError CodeWrongScope "Device Sync Space belongs to another principal");;;
  require_not_retired principalID;;;
  find_principal principalID;;;
  let* s := get in
  reject_if (¬ principalDevice s principalID (sp_InitialDeviceID provisioning))
    (unauthorized "initial Space device is not enrolled");;;
  reject_if (some_and (ms_spaceRetry s !! sp_RetryID provisioning) (fun id => id ≠ spaceID))
    (NewProtocolError CodeSpaceCollision "Device Sync Space retry ID was reused");;;
  match ms_spaces s !! spaceID with
  | Some existing =>
    reject_if (msp_provisioning existing ≠ provisioning)
      (NewProtocolError CodeSpaceCollision "Device Sync Space ID was reused");;;
    let* relayResult :=
      relay (ProvisionDomain credential (sp_Domain provisioning) nowMilliseconds) in
    ret (spaceProvisioningResult provisioning relayResult AcceptanceDuplicate)
  | None =>
    let* relayResult :=
      relay (ProvisionDomain credential (sp_Domain provisioning) nowMilliseconds) in
    reject_if (dpr_Acceptance relayResult ≠ AcceptanceAccepted)
      (NewProtocolError CodeSpaceCollision "Space relay domain already exists");;;
    modify (put_space spaceID (mkMemorySpace provisioning relayResult
      {[sp_InitialDeviceID provisioning :=
          sub_SubscriptionID (dp_Subscription (sp_Domain provisioning))]}));;;
    modify (fun s => s <| ms_spaceRetry :=
      <[sp_RetryID provisioning := spaceID]> (ms_spaceRetry s) |>);;;
    ret (spaceProvisioningResult provisioning relayResult AcceptanceAccepted)
  end.

(** ** Sponsored admissions *)

Definition space_domain (space : memorySpace) : UUID :=
  dr_DomainID (dp_Registration (sp_Domain (msp_provisioning space))).

Definition sponsorMembers (principalID spaceID sponsorID targetID : UUID)
    : SyncM (SubscriptionMemberRegistration * SubscriptionMemberRegistration *
             SubscriptionMemberRegistration) :=
  let* s := get in
  let unavailable := unauthorized "sponsor or target membership unavailable" in
  let* principal := found_or (ms_principals s !! principalID) unavailable in
  let* space := found_or (ms_spaces s !! spaceID) unavailable in
  reject_if (sp_PrincipalID (msp_provisioning space) ≠ principalID ∨
      ¬ principalDevice s principalID sponsorID ∨ ¬ principalDevice s principalID targetID)
    unavailable;;;
  let* control := relay (GetMemberAuthority principalID (control_domain principal) sponsorID) in
  let* member := relay (GetMemberAuthority principalID (space_domain space) sponsorID) in
  reject_if (smr_SubscriptionID member ≠ space_device space sponsorID)
    (unauthorized "sponsor Space incarnation changed");;;
  let* target := relay (GetMemberAuthority principalID (control_domain principal) targetID) in
  ret (control, member, target).

(** The retry of a stored admission carries the times of the first one. *)
Definition with_times_of (existing admission : SpaceDeviceAdmission) : SpaceDeviceAdmission :=
  admission
    <| sda_CreatedAtMilliseconds := sda_CreatedAtMilliseconds existing |>
    <| sda_RelayAdmission := (sda_RelayAdmission admission)
         <| ma_CreatedAtMilliseconds := ma_CreatedAtMilliseconds (sda_RelayAdmission existing) |> |>.

Definition readmit (credential : AdministrationCredential)
    (existing : option memorySpaceDeviceAdmission) (admission : SpaceDeviceAdmission)
    (reused : string) : SyncM SpaceDeviceAdmissionCreateResult :=
  match existing with
  | Some existing =>
    let admission := with_times_of (msd_admission existing) admission in
    if decide (msd_admission existing = admission) then
      let* previous := relay (GetSubscription credential (sda_SubscriptionID admission)) in
      reject_if (sub_Status previous ≠ SubscriptionActive)
        (NewProtocolError CodeAdmissionClaimed "Space admission was retired");;;
      ret (mkSpaceDeviceAdmissionCreateResult AcceptanceDuplicate admission)
    else throw (NewProtocolError CodeAdmissionCollision reused)
  | None => throw (NewProtocolError CodeAdmissionCollision reused)
  end.

Definition inactive (status : SubscriptionStatus) : Prop :=
  ¬ (status ≠ SubscriptionRevoked ∧ status ≠ SubscriptionRebootstrapRequired).

#[global] Instance inactive_dec status : Decision (inactive status).
Proof. unfold inactive. apply _. Defined.

(** The unclaimed admission of the same device to the same Space. *)
Definition pending_for (admission : SpaceDeviceAdmission) (existing : memorySpaceDeviceAdmission)
    : Prop :=
  sda_PrincipalID (msd_admission existing) = sda_PrincipalID admission ∧
  sda_SpaceID (msd_admission existing) = sda_SpaceID admission ∧
  sda_DeviceID (msd_admission existing) = sda_DeviceID admission ∧ msd_result existing = None.

#[global] Instance pending_for_dec a e : Decision (pending_for a e).
Proof. unfold pending_for. apply _. Defined.

(** The loop that revokes the subscriptions of pending admissions; it returns
    the admissions to retire. *)
Fixpoint retire_pending (credential : AdministrationCredential) (admission : SpaceDeviceAdmission)
    (nowMilliseconds : int64) (entries : list (UUID * memorySpaceDeviceAdmission))
    : SyncM (list UUID) :=
  match entries with
  | [] => ret []
  | (admissionID, existing) :: entries =>
    let old := msd_admission existing in
    if decide (pending_for admission existing) then
      let* previous := relay (GetSubscription credential (sda_SubscriptionID old)) in
      (if decide (inactive (sub_Status previous)) then ret tt
       else
         reject_if (¬ SpaceDeviceAdmission_CanReplacePending old nowMilliseconds)
           (NewProtocolError CodeDeviceCollision
              "device already has another pending Space admission");;;
         relay (ChangeSubscriptionStatus credential (sub_SubscriptionID previous)
           (mkSubscriptionStatusChangeRequest (ma_AdmissionID (sda_RelayAdmission old))
              SubscriptionRevoked nowMilliseconds));;;
         ret tt);;;
      let* retiredIDs := retire_pending credential admission nowMilliseconds entries in
      ret (admissionID :: retiredIDs)
    else retire_pending credential admission nowMilliseconds entries
  end.

Definition forget_space_admission (s : MemoryStore) (admissionID : UUID) : MemoryStore :=
  match ms_spaceDeviceAdmissions s !! admissionID with
  | None => s <| ms_spaceDeviceAdmissionRetry := delete uuid_Nil (ms_spaceDeviceAdmissionRetry s) |>
  | Some previous => s
      <| ms_spaceDeviceAdmissionRetry :=
           delete (sda_RetryID (msd_admission previous)) (ms_spaceDeviceAdmissionRetry s) |>
      <| ms_spaceDeviceAdmissions := delete admissionID (ms_spaceDeviceAdmissions s) |>
  end.

Definition put_space_admission (admissionID : UUID) (record : memorySpaceDeviceAdmission)
    (s : MemoryStore) : MemoryStore :=
  s <| ms_spaceDeviceAdmissions := <[admissionID := record]> (ms_spaceDeviceAdmissions s) |>.

(** The part of [CreateSpaceDeviceAdmission] for a new admission. *)
Definition admit_to_space (credential : AdministrationCredential) (space : memorySpace)
    (admission : SpaceDeviceAdmission) (nowMilliseconds : int64)
    : SyncM SpaceDeviceAdmissionCreateResult :=
  let relayAdmission := sda_RelayAdmission admission in
  let previousSubscriptionID := space_device space (sda_DeviceID admission) in
  (if decide (previousSubscriptionID = uuid_Nil) then ret tt
   else
     let* previous := relay (GetSubscription credential previousSubscriptionID) in
     reject_if (¬ inactive (sub_Status previous))
       (NewProtocolError CodeDeviceCollision "device is already active in the Space"));;;
  let* s := get in
  let* retiredIDs := retire_pending credential admission nowMilliseconds
    (map_to_list (ms_spaceDeviceAdmissions s)) in
  relay (CreateSubscription credential (mkSubscriptionCreateRequest (sda_RetryID admission)
    (sda_SubscriptionID admission) (sda_CreatedAtMilliseconds admission)));;;
  let* relayResult := relay (CreateSubscriptionAdmission credential
    (sda_SubscriptionID admission) relayAdmission nowMilliseconds) in
  modify (fun s => foldl forget_space_admission s retiredIDs);;;
  modify (put_space_admission (ma_AdmissionID relayAdmission)
    (mkMemorySpaceDeviceAdmission admission None));;;
  modify (fun s => s <| ms_spaceDeviceAdmissionRetry :=
    <[sda_RetryID admission := ma_AdmissionID relayAdmission]>
      (ms_spaceDeviceAdmissionRetry s) |>);;;
  ret (mkSpaceDeviceAdmissionCreateResult (sacr_Acceptance relayResult) admission).

Definition CreateSpaceDeviceAdmission (sponsor : SpaceSponsorCredential)
    (admission : SpaceDeviceAdmission) (nowMilliseconds : int64)
    : SyncM SpaceDeviceAdmissionCreateResult :=
  let credential := ssp_Administration sponsor in
  let principalID := sda_PrincipalID admission in
  let relayAdmission := sda_RelayAdmission admission in
  check (SpaceDeviceAdmission_Validate admission);;;
  reject_if (sda_CreatedAtMilliseconds admission > nowMilliseconds ∨
      ma_ExpiresAtMilliseconds relayAdmission ≤ nowMilliseconds)
    (NewProtocolError CodeInvalidAdmission "Space device admission is not currently issuable");;;
  require_not_retired principalID;;;
  let* s := get in
  reject_if (¬ principalDevice s principalID (sda_DeviceID admission))
    (unauthorized "Space device is not enrolled in the Device Sync principal");;;
  let* space := found_or (ms_spaces s !! sda_SpaceID admission)
    (unauthorized "Device Sync Space was not found") in
  reject_if (sp_PrincipalID (msp_provisioning space) ≠ principalID)
    (unauthorized "Device Sync Space was not found");;;
  relay (GetDomainStatus credential);;;
  let* (control, member, target) := sponsorMembers principalID (sda_SpaceID admission)
    (cred_MemberID (ssp_Control sponsor)) (sda_DeviceID admission) in
  let* binding := try (BindSpaceSponsor sponsor control member target nowMilliseconds) in
  let admission := admission <| sda_Sponsor := binding |> in
  reject_if (map_any (fun _ cancelled => sdc_PrincipalID cancelled = principalID ∧
      sdc_SpaceID cancelled = sda_SpaceID admission ∧
      (sdc_AdmissionID cancelled = ma_AdmissionID relayAdmission ∨
       sdc_RetryID cancelled = sda_RetryID admission)) (ms_spaceAdmissionCancellations s))
    (NewProtocolError CodeAdmissionClaimed "Space admission was cancelled");;;
  reject_if (acred_TenantID credential ≠ principalID ∨
      acred_DomainID credential ≠ space_domain space ∨
      ma_TenantID relayAdmission ≠ principalID ∨
      ma_DomainID relayAdmission ≠ acred_DomainID credential ∨
      sda_SubscriptionID admission =
        sub_SubscriptionID (dp_Subscription (sp_Domain (msp_provisioning space))))
    (NewProtocolError CodeWrongScope "Space device admission belongs to another Space domain");;;
  match ms_spaceDeviceAdmissionRetry s !! sda_RetryID admission with
  | Some admissionID =>
    readmit credential (ms_spaceDeviceAdmissions s !! admissionID) admission
      "Space device admission retry ID was reused"
  | None =>
    match ms_spaceDeviceAdmissions s !! ma_AdmissionID relayAdmission with
    | Some existing =>
      readmit credential (Some existing) admission "Space device admission ID was reused"
    | None => admit_to_space credential space admission nowMilliseconds
    end
  end.

Definition SpaceProvisioning_zero : SpaceProvisioning :=
  mkSpaceProvisioning 0 uuid_Nil uuid_Nil uuid_Nil uuid_Nil
    (mkDomainProvisioning 0 uuid_Nil (mkDomainRegistration 0 uuid_Nil uuid_Nil "" 0 0 0 0 0)
       Subscription_zero MemberRegistration_zero "" "") 0.

Definition memorySpace_zero : memorySpace :=
  mkMemorySpace SpaceProvisioning_zero
    (mkDomainProvisioningResult AcceptanceDuplicate uuid_Nil uuid_Nil uuid_Nil uuid_Nil uuid_Nil
       "" "") ∅.

Definition space_of (s : MemoryStore) (spaceID : UUID) : memorySpace :=
  default memorySpace_zero (ms_spaces s !! spaceID).

(** The sponsor that issued the admission must still be what it was. *)
Definition require_sponsor (admission : SpaceDeviceAdmission) (nowMilliseconds : int64)
    : SyncM unit :=
  let* (control, member, target) := sponsorMembers (sda_PrincipalID admission)
    (sda_SpaceID admission) (ssb_DeviceID (sda_Sponsor admission)) (sda_DeviceID admission) in
  reject_if (¬ SpaceSponsorBinding_IsCurrent (sda_Sponsor admission) control member target
                 nowMilliseconds)
    (NewProtocolError CodeAdmissionSuperseded "Space sponsor authority changed before claim").

Definition ClaimSpaceDeviceAdmission (credential : SpaceDeviceAdmissionCredential)
    (claim : SpaceDeviceAdmissionClaim) (nowMilliseconds : int64)
    : SyncM SpaceDeviceAdmissionClaimResult :=
  let admissionID := sdac_AdmissionID credential in
  let relayClaim := sdcl_RelayClaim claim in
  check (SpaceDeviceAdmissionClaim_Validate claim);;;
  reject_if (sdcl_ClaimedAtMilliseconds claim ≠ nowMilliseconds)
    (NewProtocolError CodeInvalidAdmission "Space device claim time differs from server time");;;
  let* s := get in
  let* record := found_or (ms_spaceDeviceAdmissions s !! admissionID)
    (NewProtocolError CodeAdmissionNotFound "Space device admission was not found") in
  let admission := msd_admission record in
  require_not_retired (sda_PrincipalID admission);;;
  reject_if (¬ principalDevice s (sda_PrincipalID admission) (sda_DeviceID admission))
    (unauthorized "Space device is no longer enrolled in the principal");;;
  reject_if (sdac_PrincipalID credential ≠ sda_PrincipalID admission ∨
      sdac_SpaceID credential ≠ sda_SpaceID admission ∨
      sdcl_PrincipalID claim ≠ sda_PrincipalID admission ∨
      sdcl_SpaceID claim ≠ sda_SpaceID admission ∨ sdcl_DeviceID claim ≠ sda_DeviceID admission)
    (NewProtocolError CodeWrongScope "Space device claim belongs to another admission");;;
  let relayCredential := RelayModel.mkAdmissionCredential (sda_PrincipalID admission)
    (ma_DomainID (sda_RelayAdmission admission)) admissionID (sdac_Token credential) in
  let space := space_of s (sdcl_SpaceID claim) in
  match msd_result record with
  | Some result =>
    if decide (sdclr_DeviceID result = sdcl_DeviceID claim ∧
        mr_AuthorizationDigest (smr_MemberRegistration (sdclr_Member result)) =
          mac_AuthorizationDigest relayClaim ∧
        space_device space (sdcl_DeviceID claim) = smr_SubscriptionID (sdclr_Member result))
    then
      relay (ClaimSubscriptionAdmission relayCredential relayClaim nowMilliseconds);;;
      ret (mkSpaceDeviceAdmissionClaimResult AcceptanceDuplicate (sdclr_PrincipalID result)
             (sdclr_SpaceID result) (sdclr_DeviceID result) (sdclr_Member result))
    else throw (NewProtocolError CodeAdmissionClaimed "Space device admission was already claimed")
  | None =>
    require_sponsor admission nowMilliseconds;;;
    let previousSubscriptionID := space_device space (sdcl_DeviceID claim) in
    let* relayResult :=
      relay (if decide (previousSubscriptionID ≠ uuid_Nil)
             then ClaimSubscriptionAdmissionReplacingInactiveMembership relayCredential relayClaim
                    previousSubscriptionID nowMilliseconds
             else ClaimSubscriptionAdmission relayCredential relayClaim nowMilliseconds) in
    let member := sacl_Member relayResult in
    let result := mkSpaceDeviceAdmissionClaimResult (sacl_Acceptance relayResult)
      (sdcl_PrincipalID claim) (sdcl_SpaceID claim) (sdcl_DeviceID claim) member in
    modify (put_space (sdcl_SpaceID claim) (mkMemorySpace (msp_provisioning space)
      (msp_result space)
      (<[sdcl_DeviceID claim := smr_SubscriptionID member]> (msp_devices space))));;;
    modify (put_space_admission admissionID (mkMemorySpaceDeviceAdmission admission (Some result)));;;
    ret result
  end.

(** ** Cancellation (memory_sponsor_cancel.go) *)

Definition same_attempt (cancellation : SpaceDeviceAdmissionCancellation)
    (a : SpaceDeviceAdmission) : Prop :=
  ¬ (sda_PrincipalID a ≠ sdc_PrincipalID cancellation ∨
     sda_SpaceID a ≠ sdc_SpaceID cancellation ∨ sda_DeviceID a ≠ sdc_DeviceID cancellation ∨
     sda_RetryID a ≠ sdc_RetryID cancellation ∨
     ssb_DeviceID (sda_Sponsor a) ≠ sdc_SponsorDeviceID cancellation).

#[global] Instance same_attempt_dec c a : Decision (same_attempt c a).
Proof. unfold same_attempt. apply _. Defined.

(** The cancellations at which the loop stops, in the order of the iteration. *)
Definition earlier_cancellations (s : MemoryStore)
    (cancellation : SpaceDeviceAdmissionCancellation) : list SpaceDeviceAdmissionCancellation :=
  filter (fun old => sdc_AdmissionID old = sdc_AdmissionID cancellation ∨
      sdc_RetryID old = sdc_RetryID cancellation)
    (map_to_list (ms_spaceAdmissionCancellations s)).*2.

Definition record_cancellation (cancellation : SpaceDeviceAdmissionCancellation)
    : SyncM SpaceDeviceAdmissionCancellationResult :=
  modify (fun s => s <| ms_spaceAdmissionCancellations :=
    <[sdc_AdmissionID cancellation := cancellation]> (ms_spaceAdmissionCancellations s) |>);;;
  ret (mkSpaceDeviceAdmissionCancellationResult (sdc_AdmissionID cancellation) true).

Definition CancelSpaceDeviceAdmission (sponsor : SpaceSponsorCredential)
    (cancellation : SpaceDeviceAdmissionCancellation) (now : int64)
    : SyncM SpaceDeviceAdmissionCancellationResult :=
  let credential := ssp_Administration sponsor in
  let admissionID := sdc_AdmissionID cancellation in
  check (SpaceDeviceAdmissionCancellation_Validate cancellation sponsor);;;
  relay (GetDomainStatus credential);;;
  let* (control, member, _) := sponsorMembers (sdc_PrincipalID cancellation)
    (sdc_SpaceID cancellation) (sdc_SponsorDeviceID cancellation)
    (sdc_SponsorDeviceID cancellation) in
  check (AuthenticateSpaceSponsor sponsor control member now);;;
  let* s := get in
  match earlier_cancellations s cancellation with
  | old :: _ =>
    reject_if (old ≠ cancellation)
      (NewProtocolError CodeAdmissionCollision "cancellation identity was reused");;;
    ret (mkSpaceDeviceAdmissionCancellationResult admissionID true)
  | [] =>
    match ms_spaceDeviceAdmissions s !! admissionID with
    | None => record_cancellation cancellation
    | Some record =>
      let a := msd_admission record in
      reject_if (¬ same_attempt cancellation a)
        (NewProtocolError CodeWrongScope "cancellation does not own this attempt");;;
      if decide (is_Some (msd_result record))
      then ret (mkSpaceDeviceAdmissionCancellationResult admissionID false)
      else
        let* previous := relay (GetSubscription credential (sda_SubscriptionID a)) in
        (if decide (sub_Status previous = SubscriptionRevoked) then ret tt
         else
           relay (ChangeSubscriptionStatus credential (sda_SubscriptionID a)
             (mkSubscriptionStatusChangeRequest (ma_AdmissionID (sda_RelayAdmission a))
                SubscriptionRevoked (Z.max now (sub_UpdatedAtMilliseconds previous))));;;
           ret tt);;;
        record_cancellation cancellation
    end
  end.

(** ** Status *)

(** [if revokedAt, found := revoked[id]; found { ... }] *)
Definition revoked_at (revoked : gmap UUID int64) (deviceID : UUID) (otherwise : option int64)
    : option int64 :=
  match revoked !! deviceID with Some at_ => Some at_ | None => otherwise end.

Definition initial_device_status (p : PrincipalProvisioning) : DeviceStatus :=
  let d := pp_ControlDomain p in
  mkDeviceStatus (pp_InitialDeviceID p) (sub_SubscriptionID (dp_Subscription d))
    (mr_MemberID (dp_InitialMember d)) (pp_CreatedAtMilliseconds p)
    (mr_RevokedAtMilliseconds (dp_InitialMember d)).

Definition device_status (principalID : UUID) (record : memoryDeviceAdmission)
    : option DeviceStatus :=
  result ← mda_result record;
  let member := dclr_Member result in
  let registration := smr_MemberRegistration member in
  if decide (da_PrincipalID (mda_admission record) = principalID)
  then Some (mkDeviceStatus (dclr_DeviceID result) (smr_SubscriptionID member)
               (mr_MemberID registration) (mr_CreatedAtMilliseconds registration)
               (mr_RevokedAtMilliseconds registration))
  else None.

Definition space_device_status (principalID : UUID) (space : memorySpace)
    (record : memorySpaceDeviceAdmission) : option SpaceDeviceStatus :=
  result ← msd_result record;
  let member := sdclr_Member result in
  let registration := smr_MemberRegistration member in
  let admission := msd_admission record in
  if decide (sda_PrincipalID admission = principalID ∧
      sda_SpaceID admission = sp_SpaceID (msp_provisioning space) ∧
      smr_SubscriptionID member = space_device space (sda_DeviceID admission))
  then Some (mkSpaceDeviceStatus (sdclr_DeviceID result) (smr_SubscriptionID member)
               (mr_MemberID registration) (mr_CreatedAtMilliseconds registration)
               (mr_RevokedAtMilliseconds registration))
  else None.

Definition initial_space_device_status (space : memorySpace) : list SpaceDeviceStatus :=
  let p := msp_provisioning space in
  let d := sp_Domain p in
  if decide (space_device space (sp_InitialDeviceID p) = sub_SubscriptionID (dp_Subscription d))
  then [mkSpaceDeviceStatus (sp_InitialDeviceID p) (sub_SubscriptionID (dp_Subscription d))
          (mr_MemberID (dp_InitialMember d)) (mr_CreatedAtMilliseconds (dp_InitialMember d))
          (mr_RevokedAtMilliseconds (dp_InitialMember d))]
  else [].

Definition uuid_text_le (left right : UUID) : Prop :=
  str_le (uuid_String left) (uuid_String right).

#[global] Instance uuid_text_le_dec : RelDecision uuid_text_le.
Proof. intros l r. unfold uuid_text_le. apply _. Defined.

Definition device_status_le (l r : DeviceStatus) : Prop := uuid_text_le (ds_DeviceID l) (ds_DeviceID r).
Definition space_device_status_le (l r : SpaceDeviceStatus) : Prop :=
  uuid_text_le (sds_DeviceID l) (sds_DeviceID r).
Definition space_status_le (l r : SpaceStatus) : Prop := uuid_text_le (sst_SpaceID l) (sst_SpaceID r).

#[global] Instance device_status_le_dec : RelDecision device_status_le.
Proof. intros l r. unfold device_status_le. apply _. Defined.
#[global] Instance space_device_status_le_dec : RelDecision space_device_status_le.
Proof. intros l r. unfold space_device_status_le. apply _. Defined.
#[global] Instance space_status_le_dec : RelDecision space_status_le.
Proof. intros l r. unfold space_status_le. apply _. Defined.

Definition space_status (s : MemoryStore) (principalID : UUID) (space : memorySpace)
    : option SpaceStatus :=
  let p := msp_provisioning space in
  if decide (sp_PrincipalID p = principalID)
  then Some (mkSpaceStatus (sp_SpaceID p) (space_domain space) (sp_InitialDeviceID p)
    (sp_CreatedAtMilliseconds p)
    (merge_sort space_device_status_le
       (initial_space_device_status space ++
        omap (fun kv : UUID * memorySpaceDeviceAdmission => space_device_status principalID space kv.2)
          (map_to_list (ms_spaceDeviceAdmissions s)))))
  else None.

Definition mark_device (revoked : gmap UUID int64) (d : DeviceStatus) : DeviceStatus :=
  d <| ds_RevokedAtMilliseconds := revoked_at revoked (ds_DeviceID d) (ds_RevokedAtMilliseconds d) |>.

Definition mark_space_device (revoked : gmap UUID int64) (d : SpaceDeviceStatus)
    : SpaceDeviceStatus :=
  d <| sds_RevokedAtMilliseconds :=
    revoked_at revoked (sds_DeviceID d) (sds_RevokedAtMilliseconds d) |>.

Definition GetPrincipalStatus (credential : TenantCredential) : SyncM PrincipalStatus :=
  let principalID := tcred_TenantID credential in
  relay (GetTenantStatus credential);;;
  require_not_retired principalID;;;
  let* principal := find_principal principalID in
  let* s := get in
  let revoked := revoked_devices s principalID in
  let devices := merge_sort device_status_le
    (initial_device_status (prn_provisioning principal) ::
     omap (fun kv : UUID * memoryDeviceAdmission => device_status principalID kv.2)
       (map_to_list (ms_deviceAdmissions s))) in
  let spaces := merge_sort space_status_le
    (omap (fun kv : UUID * memorySpace => space_status s principalID kv.2)
       (map_to_list (ms_spaces s))) in
  ret (mkPrincipalStatus SchemaVersion principalID (control_domain principal)
    (mark_device revoked <$> devices)
    ((fun space => space <| sst_Devices := mark_space_device revoked <$> sst_Devices space |>)
       <$> spaces)).
End spaces.

Section machine.
Context `{UuidLib} `{ManifestLib}.

Inductive SyncOp :=
  | OpRelay (op : RelayMachine.Op)
  | OpPublishDiscoveryProfile (credential : TenantCredential) (profile : DiscoveryProfile)
  | OpListDiscoveryProfiles
  | OpCreateJoinRequest (request : JoinRequest) (now : int64)
  | OpLookupJoinRequest (credential : AdministrationCredential) (pin : string) (now : int64)
  | OpStoreJoinRequestBootstrap (credential : AdministrationCredential)
      (bootstrap : JoinBootstrapEnvelope) (now : int64)
  | OpCancelJoinRequest (credential : JoinRequestCredential)
  | OpFetchJoinRequestBootstrap (credential : JoinRequestCredential) (now : int64)
  | OpCreateAccountAdmission (admission : AccountAdmission) (now : int64)
  | OpClaimAccountAdmission (credential : AdmissionCredential)
      (provisioning : PrincipalProvisioning) (now : int64)
  | OpClaimAccountAdmissionWithAuthority (credential : AdmissionCredential)
      (provisioning : PrincipalProvisioning) (initialAuthority : option InitialBinding)
      (now : int64)
  | OpActivateBoundDeviceSyncScope (principalID localDeploymentID : UUID) (revision : uint64)
      (manifestDigest : string) (now : int64)
  | OpCreateDeviceAdmission (credential : AdministrationCredential) (admission : DeviceAdmission)
      (now : int64)
  | OpClaimDeviceAdmission (credential : DeviceAdmissionCredential) (claim : DeviceAdmissionClaim)
      (now : int64)
  | OpRevokeDevice (credential : TenantCredential) (revocation : DeviceRevocation) (now : int64)
  | OpProvisionSpace (credential : TenantCredential) (provisioning : SpaceProvisioning)
      (now : int64)
  | OpCreateSpaceDeviceAdmission (sponsor : SpaceSponsorCredential)
      (admission : SpaceDeviceAdmission) (now : int64)
  | OpClaimSpaceDeviceAdmission (credential : SpaceDeviceAdmissionCredential)
      (claim : SpaceDeviceAdmissionClaim) (now : int64)
  | OpCancelSpaceDeviceAdmission (sponsor : SpaceSponsorCredential)
      (cancellation : SpaceDeviceAdmissionCancellation) (now : int64)
  | OpGetPrincipalStatus (credential : TenantCredential).

(** The state a call leaves behind, whether it succeeded or failed. *)
Definition leaves {A} (m : M SyncError MemoryStore A) (s : MemoryStore) : MemoryStore := (m s).1.

Definition perform (op : SyncOp) : MemoryStore → MemoryStore :=
  match op with
  | OpRelay op => fun s => s <| ms_relay := RelayMachine.perform op (ms_relay s) |>
  | OpPublishDiscoveryProfile c p => leaves (PublishDiscoveryProfile c p)
  | OpListDiscoveryProfiles => leaves ListDiscoveryProfiles
  | OpCreateJoinRequest r now => leaves (CreateJoinRequest r now)
  | OpLookupJoinRequest c pin now => leaves (LookupJoinRequest c pin now)
  | OpStoreJoinRequestBootstrap c b now => leaves (StoreJoinRequestBootstrap c b now)
  | OpCancelJoinRequest c => leaves (CancelJoinRequest c)
  | OpFetchJoinRequestBootstrap c now => leaves (FetchJoinRequestBootstrap c now)
  | OpCreateAccountAdmission a now => leaves (CreateAccountAdmission a now)
  | OpClaimAccountAdmission c p now => leaves (ClaimAccountAdmission c p now)
  | OpClaimAccountAdmissionWithAuthority c p b now =>
    leaves (ClaimAccountAdmissionWithAuthority c p b now)
  | OpActivateBoundDeviceSyncScope p d r m now =>
    leaves (ActivateBoundDeviceSyncScope p d r m now)
  | OpCreateDeviceAdmission c a now => leaves (CreateDeviceAdmission c a now)
  | OpClaimDeviceAdmission c r now => leaves (ClaimDeviceAdmission c r now)
  | OpRevokeDevice c r now => leaves (RevokeDevice c r now)
  | OpProvisionSpace c p now => leaves (ProvisionSpace c p now)
  | OpCreateSpaceDeviceAdmission c a now => leaves (CreateSpaceDeviceAdmission c a now)
  | OpClaimSpaceDeviceAdmission c r now => leaves (ClaimSpaceDeviceAdmission c r now)
  | OpCancelSpaceDeviceAdmission c r now => leaves (CancelSpaceDeviceAdmission c r now)
  | OpGetPrincipalStatus c => leaves (GetPrincipalStatus c)
  end.

Definition perform_all (ops : list SyncOp) (s : MemoryStore) : MemoryStore :=
  foldl (fun s op => perform op s) s ops.

(** [reachable ttl s]: calls lead from a new store over a new relay to [s]. *)
Inductive reachable (ttl : list int64) : MemoryStore → Prop :=
  | reachable_new : reachable ttl (NewMemoryStore (RelayState.NewMemoryStore ttl))
  | reachable_step s op : reachable ttl s → reachable ttl (perform op s).

Lemma sync_reachable_perform_all ttl s ops : reachable ttl s → reachable ttl (perform_all ops s).
Proof. revert s. induction ops as [|op ops IH]; intros s Hs; [done|]. by apply IH, reachable_step. Qed.

(** An invariant of the steps holds after any calls. *)
Lemma perform_all_invariant (I : MemoryStore → Prop) s ops :
  (∀ op s, I s → I (perform op s)) → I s → I (perform_all ops s).
Proof. intros Hstep. revert s. induction ops as [|op ops IH]; intros s Hs; [done|]. by apply IH, Hstep. Qed.

Lemma reachable_invariant (I : MemoryStore → Prop) ttl s :
  I (NewMemoryStore (RelayState.NewMemoryStore ttl)) → (∀ op s, I s → I (perform op s)) →
  reachable ttl s → I s.
Proof. induction 3; auto. Qed.

(** ** Calls of the relay *)

(** The rule of a relay call: its own rule, on the relay inside. *)
Lemma wp_relay {A} (call : StoreM A) (Q : MemoryStore → SyncError + A → Prop) s :
  wp call (fun r res => Q (s <| ms_relay := r |>)
    (match res with inl err => inl (SyncRelayError err) | inr a => inr a end)) (ms_relay s) →
  wp (relay call) Q s.
Proof. unfold wp, relay. by destruct (call (ms_relay s)) as [r res]. Qed.
End machine.
