(* ===== verification/DeviceSyncExample.v ===== *)
(** * A concrete device-sync store

    A principal with two devices and a Space that both are in, obtained by
    calling the operations: the inputs at which the theorems are exercised. *)

From S2P Require Import Prelude GoEncoding Sha256 RelayModel RelayState RelayTenant RelayMember RelaySubscription RelayMachine RelayExample ServiceAuthority DeviceSyncModel DeviceSync DeviceSyncSpaces.
#[local] Open Scope Z_scope.

(** Manifests that verify as what they say. *)
Definition plain_manifests : ManifestLib := {|
  Manifest := Scope * UUID;
  ManifestPayload := Scope * UUID;
  Manifest_VerifiedPayload m := Some m;
  Manifest_ReferenceDigest m := Some "manifest digest"%string;
  Manifest_Marshal m := Some (be_bytes 16 (Z.of_N m.2));
  ManifestPayload_Validate _ _ := true;
  mfp_Scope p := p.1;
  mfp_Revision _ := 1;
  mfp_Transition _ := TransitionInitialActivation;
  mfp_ActiveDeploymentID p := p.2 |}.

#[global] Existing Instance plain_manifests.

Definition sync_digest (r : SyncError + string) : string :=
  match r with inl _ => "" | inr d => d end.

(** ** The account *)

Definition principalID : UUID := tenantID.
Definition device_a : UUID := 11%N.
Definition device_b : UUID := 12%N.

Definition account_credential := mkAdmissionCredential 203%N (token 203).

Definition example_entitlement : ServiceEntitlement :=
  mkServiceEntitlement SchemaVersion "personal" (mkTenantQuota 4 100 100000 10 100000).

Definition example_account : AccountAdmission :=
  mkAccountAdmission SchemaVersion 202%N 203%N
    (sync_digest (AdmissionAuthorizationDigest account_credential)) 0 600000 example_entitlement
    None None.

Definition example_principal : PrincipalProvisioning :=
  mkPrincipalProvisioning SchemaVersion 201%N principalID device_a example_tenant
    example_provisioning 0.

Definition account_setup : list SyncOp :=
  [ OpCreateAccountAdmission example_account 1000;
    OpClaimAccountAdmission account_credential example_principal 1000 ].

(** ** The second device *)

Definition relay_admission (domain admissionID : UUID) (at_ : int64) : MemberAdmission :=
  mkMemberAdmission RelayModel.SchemaVersion tenantID domain admissionID
    (digest_of (RelayModel.AdmissionAuthorizationDigest (RelayModel.mkAdmissionCredential tenantID
       domain admissionID (token (Z.of_N admissionID))))) all_capabilities at_ 600000
    None None None None.

Definition device_admission : DeviceAdmission :=
  mkDeviceAdmission SchemaVersion 210%N principalID device_b 22%N
    (relay_admission domainID 71%N 1000) 1000.

Definition device_claim (now : int64) : DeviceAdmissionClaim :=
  mkDeviceAdmissionClaim SchemaVersion principalID device_b
    (mkMemberAdmissionClaim device_b (digest_of (AuthorizationDigest bob))) now.

Definition device_credential := mkDeviceAdmissionCredential principalID 71%N (token 71).

Definition device_setup : list SyncOp :=
  [ OpCreateDeviceAdmission admin_credential device_admission 1000;
    OpClaimDeviceAdmission device_credential (device_claim 1100) 1100 ].

(** ** A Space of both devices *)

Definition spaceID : UUID := 301%N.
Definition space_domainID : UUID := 5%N.
Definition space_admin := mkAdministrationCredential tenantID space_domainID (token 50).
Definition alice_in_space := mkCredential tenantID space_domainID device_a (token 51).
Definition bob_in_space := mkCredential tenantID space_domainID device_b (token 52).

Definition space_provisioning : SpaceProvisioning :=
  mkSpaceProvisioning SchemaVersion 220%N principalID spaceID device_a
    (mkDomainProvisioning RelayModel.SchemaVersion 221%N
       (mkDomainRegistration RelayModel.SchemaVersion tenantID space_domainID
          (digest_of (AdministrationDigest space_admin)) 1200 5 1000 2 1000)
       (mkSubscription RelayModel.SchemaVersion tenantID space_domainID 51%N SubscriptionActive None
          1200 1200)
       (mkMemberRegistration RelayModel.SchemaVersion tenantID space_domainID device_a
          (digest_of (AuthorizationDigest alice_in_space)) all_capabilities 1200 None None) "" "")
    1200.

Definition example_sponsor := mkSpaceSponsorCredential space_admin alice alice_in_space.

Definition no_binding : SpaceSponsorBinding :=
  mkSpaceSponsorBinding uuid_Nil uuid_Nil uuid_Nil uuid_Nil "" "" "".

Definition space_admission : SpaceDeviceAdmission :=
  mkSpaceDeviceAdmission no_binding SchemaVersion 230%N principalID spaceID device_b 52%N
    (relay_admission space_domainID 72%N 1350) 1350.

Definition space_claim (now : int64) : SpaceDeviceAdmissionClaim :=
  mkSpaceDeviceAdmissionClaim SchemaVersion principalID spaceID device_b
    (mkMemberAdmissionClaim device_b (digest_of (AuthorizationDigest bob_in_space))) now.

Definition space_device_credential :=
  mkSpaceDeviceAdmissionCredential principalID spaceID 72%N (token 72).

Definition provision_space : SyncOp := OpProvisionSpace tenant_credential space_provisioning 1300.
Definition admit_space_device : SyncOp :=
  OpCreateSpaceDeviceAdmission example_sponsor space_admission 1400.
Definition claim_space_device : SyncOp :=
  OpClaimSpaceDeviceAdmission space_device_credential (space_claim 1500) 1500.

(** ** Stores *)

Definition sync_new : MemoryStore := NewMemoryStore (RelayState.NewMemoryStore []).

(** One principal; two devices; a Space; the Space with an admission pending;
    the Space of both. *)
Definition sync_one : MemoryStore := perform_all account_setup sync_new.
Definition sync_two : MemoryStore := perform_all device_setup sync_one.
Definition sync_space : MemoryStore := perform provision_space sync_two.
Definition sync_pending : MemoryStore := perform admit_space_device sync_space.
Definition sync_both : MemoryStore := perform claim_space_device sync_pending.

Example sync_both_populated :
  (zsize (ms_principals sync_both), zsize (ms_deviceAdmissions sync_both),
   msp_devices <$> ms_spaces sync_both !! spaceID) =
  (1, 1, Some {[device_a := 51%N; device_b := 52%N]}).
Proof. vm_compute. reflexivity. Qed.

(** The revocation of the second device. *)
Definition revoke_b : DeviceRevocation :=
  mkDeviceRevocation SchemaVersion 240%N principalID device_b false.

Lemma sync_both_reachable : reachable [] sync_both.
Proof.
  apply reachable_step, reachable_step, reachable_step, sync_reachable_perform_all, sync_reachable_perform_all.
  apply reachable_new.
Qed.
