(* ===== verification/DeviceSyncFacts.v ===== *)
(** * internal/devicesync: device sync over the relay

    How the calls of device sync act on the relay, and the generic rules with
    which invariants of the two stores together are carried over all calls. *)

From S2P Require Import Prelude GoEncoding Sha256 RelayModel RelayState RelayTenant RelayMember RelaySubscription RelayMachine RelayReachable RelayAccess ServiceAuthority DeviceSyncModel DeviceSync DeviceSyncSpaces.
#[local] Open Scope Z_scope.

(** ** Invariants over the calls *)

Section over.
Context `{UuidLib} `{ManifestLib}.

(** [I] outlives every [ok] call of the relay. *)
Definition StableUnder (ok : RelayMachine.Op → Prop) (I : MemoryStore → Prop) : Prop :=
  ∀ op s, ok op → I s → I (s <| ms_relay := RelayMachine.perform op (ms_relay s) |>).

Definition any_call (op : RelayMachine.Op) : Prop := True.

(** A relay call whose result satisfies [P]. *)
Lemma wp_call_spec {A} ok (I : MemoryStore → Prop) (call : StoreM A)
    (P : RelayState.MemoryStore → A → Prop)
    (Q : MemoryStore → SyncError + A → Prop) s :
  StableUnder ok I → CallOf ok call → I s →
  wp call (fun r res => ∀ a, res = inr a → P r a) (ms_relay s) →
  (∀ r res, I (s <| ms_relay := r |>) → (∀ a, res = inr a → P r a) → Q (s <| ms_relay := r |>) res) →
  wp (relay call) Q s.
Proof.
  intros HI [op [Hok Hop]] Hs HP HQ. apply wp_relay, wp_intro. intros r res Hrun. unfold wp in HP.
  rewrite Hrun in HP. simpl in HP. apply HQ.
  - specialize (Hop (ms_relay s)). rewrite Hrun in Hop. simpl in Hop. subst r. by apply HI.
  - destruct res; [done|]. intros a' [= <-]. by apply HP.
Qed.

Lemma wp_call {A} ok (I : MemoryStore → Prop) (call : StoreM A)
    (Q : MemoryStore → SyncError + A → Prop) s :
  StableUnder ok I → CallOf ok call → I s →
  (∀ r res, I (s <| ms_relay := r |>) → Q (s <| ms_relay := r |>) res) →
  wp (relay call) Q s.
Proof. intros HI Hc Hs HQ. by apply (wp_call_spec ok I call (fun _ _ => True)); auto. Qed.

(** The read-only helper of the sponsored operations. *)
Lemma wp_sponsorMembers ok (I : MemoryStore → Prop) p space sponsor target
    (Q : MemoryStore → SyncError + _ → Prop) s :
  StableUnder ok I → (∀ op, plain op → ok op) → I s →
  (∀ r res, I (s <| ms_relay := r |>) → Q (s <| ms_relay := r |>) res) →
  wp (sponsorMembers p space sponsor target) Q s.
Proof.
  intros HI Hok Hs HQ. assert (∀ e, Q s (inl e)) as He.
  { intros e. specialize (HQ (ms_relay s) (inl e)). destruct s. by apply HQ. }
  unfold sponsorMembers. wp_steps; try apply He.
  eapply (wp_call _ I); [done|apply _|done|]. intros r1 [e|c] Hr1; [by apply HQ|]. wp_step.
  eapply (wp_call _ I); [done|apply _|done|]. intros r2 [e|m] Hr2; [by apply HQ|]. wp_steps; [by apply HQ|].
  eapply (wp_call _ I); [done|apply _|done|]. intros r3 [e|t] Hr3; [by apply HQ|]. wp_steps. by apply HQ.
Qed.

(** Only unclaimed admissions are retired. *)
Lemma wp_retire_pending ok (I : MemoryStore → Prop) credential admission now entries
    (Q : MemoryStore → SyncError + list UUID → Prop) s :
  StableUnder ok I → (∀ op, plain op → ok op) → I s →
  (∀ r res, I (s <| ms_relay := r |>) →
    (∀ ids id, res = inr ids → id ∈ ids → ∃ e, (id, e) ∈ entries ∧ msd_result e = None) →
    Q (s <| ms_relay := r |>) res) →
  wp (retire_pending credential admission now entries) Q s.
Proof.
  intros HI Hok. revert s Q. induction entries as [|[id e] entries IH]; intros s Q Hs HQ.
  { specialize (HQ (ms_relay s) (inr [])). destruct s. apply HQ; [done|].
    by intros ? ? [= <-] ?%elem_of_nil. }
  assert (∀ r err, I (s <| ms_relay := r |>) → Q (s <| ms_relay := r |>) (inl err)) as Herr.
  { intros r err Hr. by apply HQ. }
  cbn [retire_pending]. wp_step.
  - assert (msd_result e = None) as Hun by (match goal with Hp : pending_for _ _ |- _ => apply Hp end).
    assert (∀ r, I (s <| ms_relay := r |>) → wp (let* retiredIDs := retire_pending credential admission
      now entries in ret (id :: retiredIDs)) Q (s <| ms_relay := r |>)) as Hrest.
    { intros r Hr. wp_step. apply IH; [done|]. intros r2 [err|l] H2 Hl; [by apply Herr|].
      wp_step. apply HQ; [done|]. intros ? k [= <-] [->|Hk]%elem_of_cons.
      - exists e. split; [by left|done].
      - destruct (Hl _ _ eq_refl Hk) as (x & Hx & ?). exists x. split; [by right|done]. }
    wp_step. eapply (wp_call _ I); [done|apply _|done|]. intros r1 [err|sub] Hr1; [by apply Herr|].
    wp_step. wp_step; [wp_step; by apply Hrest|]. wp_step. wp_step; [by apply Herr|]. wp_step.
    eapply (wp_call _ I); [done|apply _|done|]. intros r2 [err|sub'] Hr2; [by apply Herr|]. wp_step.
    by apply (Hrest r2).
  - apply IH; [done|]. intros r res Hr Hl. apply HQ; [done|]. intros ids k Hids Hk.
    destruct (Hl _ _ Hids Hk) as (x & Hx & ?). exists x. split; [by right|done].
Qed.
End over.

Abbreviation RelayStable := (StableUnder any_call) (only parsing).

(** [sync_steps I] runs a method of device sync; the relay's calls keep [I]. *)
Ltac sync_step I :=
  lazymatch goal with
  | |- wp (relay _) _ _ => eapply (wp_call _ I); [done|apply _|done|intros ? [?|?] ?]; cbn beta iota
  | |- wp (sponsorMembers _ _ _ _) _ _ =>
    eapply (wp_sponsorMembers _ I); [done|by intros []|done|intros ? [?|?] ?]; cbn beta iota
  | |- wp (retire_pending _ _ _ _) _ _ =>
    eapply (wp_retire_pending _ I); [done|by intros []|done|intros ? [?|?] ? ?]; cbn beta iota
  | |- wp (require_not_retired _) _ _ => unfold require_not_retired
  | |- wp (find_principal _) _ _ => unfold find_principal
  | |- wp (find_join_request _) _ _ => unfold find_join_request
  | |- wp (require_sponsor _ _) _ _ => unfold require_sponsor
  | |- wp (readmit _ _ _ _) _ _ => unfold readmit
  | |- wp (admit_to_space _ _ _ _) _ _ => unfold admit_to_space
  | |- wp (record_cancellation _) _ _ => unfold record_cancellation
  | |- wp (claimAccountAdmission _ _ _ _) _ _ => unfold claimAccountAdmission
  | |- _ => wp_step
  end.
Ltac sync_steps I := repeat sync_step I.

(** One case per method; the method is unfolded. *)
Ltac sync_call op :=
  destruct op; cbn [perform]; unfold leaves;
  lazymatch goal with
  | |- ?P (?m ?s).1 => change (wp m (fun s' _ => P s') s); unfold_call
  | |- _ => idtac
  end.

(** ** What retiring and revoking leave alone *)

Section bookkeeping.
Context `{UuidLib} `{ManifestLib}.

(** [s'] differs from [s] in the pending Space admissions only. *)
Definition same_but_space_admissions (s s' : MemoryStore) : Prop :=
  s' = s <| ms_spaceDeviceAdmissions := ms_spaceDeviceAdmissions s' |>
         <| ms_spaceDeviceAdmissionRetry := ms_spaceDeviceAdmissionRetry s' |>.

Lemma forget_same s ids : same_but_space_admissions s (foldl forget_space_admission s ids).
Proof.
  apply (foldl_invariant (same_but_space_admissions s)); [by destruct s|].
  intros s' id Hs. unfold forget_space_admission. rewrite Hs.
  by destruct (ms_spaceDeviceAdmissions _ !! id).
Qed.

Lemma forget_lookup s ids id r :
  ms_spaceDeviceAdmissions (foldl forget_space_admission s ids) !! id = Some r ↔
  ms_spaceDeviceAdmissions s !! id = Some r ∧ id ∉ ids.
Proof.
  rewrite <- lookup_foldl_delete. f_equiv. f_equal. clear id r.
  revert s. induction ids as [|id ids IH]; intros s; [done|]. simpl. rewrite IH. f_equal.
  unfold forget_space_admission. destruct (ms_spaceDeviceAdmissions s !! id) eqn:Hid; [done|].
  cbn. by rewrite delete_id.
Qed.
End bookkeeping.

Section simulation.
Context `{UuidLib} `{ManifestLib}.

(** ** Device sync uses the relay through its calls *)

Definition relay_steps (r r' : RelayState.MemoryStore) : Prop :=
  ∃ ops, r' = RelayMachine.perform_all ops r.

(** What every call of the relay keeps, every call of device sync keeps. *)
Lemma perform_over (R : RelayState.MemoryStore → Prop) op s :
  (∀ op r, R r → R (RelayMachine.perform op r)) → R (ms_relay s) → R (ms_relay (perform op s)).
Proof.
  intros HR Hs. set (inv := fun s => R (ms_relay s)). change (inv (perform op s)). change (inv s) in Hs.
  assert (RelayStable inv) as HI by (intros op' s' Hs'; by apply HR).
  sync_call op. by apply HI.
  all: sync_steps inv; try done.
  1: unfold inv, record_device_revocation. by destruct (rev_RetirePrincipal revocation).
  all: unfold inv; cbn; match goal with |- context [foldl forget_space_admission ?x ?l] =>
    rewrite (forget_same x l) end; assumption.
Qed.

Lemma perform_all_over (R : RelayState.MemoryStore → Prop) ops s :
  (∀ op r, R r → R (RelayMachine.perform op r)) → R (ms_relay s) → R (ms_relay (perform_all ops s)).
Proof.
  intros HR. apply (perform_all_invariant (fun s => R (ms_relay s))). intros. by apply perform_over.
Qed.

(** Device sync uses the relay through its calls alone: whatever a call of device sync does,
    on every branch and with every argument, its effect on the relay is that
    of a sequence of the relay's own calls; so the relay under any device
    sync execution is a reachable relay, and has every property that
    reachable relays have. *)
Theorem sync_over_relay ttl ops :
  (∃ n, RelayMachine.reachable ttl n
    (ms_relay (perform_all ops (NewMemoryStore (RelayState.NewMemoryStore ttl))))) ∧
  ∀ op s, ∃ relay_ops, ms_relay (perform op s) = RelayMachine.perform_all relay_ops (ms_relay s).
Proof.
  split.
  - apply (perform_all_over (fun r => ∃ n, RelayMachine.reachable ttl n r));
      [|exists 0%N; apply RelayMachine.reachable_new].
    intros op r [n Hr]. exists (n + 1)%N. by apply RelayMachine.reachable_step.
  - intros op s. apply (perform_over (relay_steps (ms_relay s))); [|by exists []].
    intros op' r [l ->]. exists (l ++ [op']). unfold RelayMachine.perform_all. by rewrite foldl_app.
Qed.
End simulation.
