(* ===== verification/DeviceSyncInvariant.v ===== *)
(** * internal/devicesync: what holds between calls

    The records of the store name existing principals, Spaces and relay
    domains, and what a claim recorded is the membership that the relay
    gave. *)

From S2P Require Import Prelude GoEncoding Sha256 RelayModel RelayState RelayTenant RelayMember RelaySubscription RelayMachine RelayReachable RelayAccess RelayClaims ServiceAuthority DeviceSyncModel DeviceSync DeviceSyncSpaces DeviceSyncFacts.
#[local] Open Scope Z_scope.

Section records.
Context `{UuidLib} `{ManifestLib}.

Abbreviation Principals := (gmap UUID memoryPrincipal) (only parsing).
Abbreviation Devices := (gmap UUID memoryDeviceAdmission) (only parsing).
Abbreviation Spaces := (gmap UUID memorySpace) (only parsing).
Abbreviation SpaceDevices := (gmap UUID memorySpaceDeviceAdmission) (only parsing).

Definition member_of (m : SubscriptionMemberRegistration) : UUID :=
  mr_MemberID (smr_MemberRegistration m).

(** A device admission is for the control domain of its principal; once
    claimed, it holds the membership of its device. *)
Record DeviceRecord (principals : Principals) (id : UUID) (r : memoryDeviceAdmission) : Prop := {
  dr_id : ma_AdmissionID (da_RelayAdmission (mda_admission r)) = id;
  dr_principal : ∃ p, principals !! da_PrincipalID (mda_admission r) = Some p ∧
    ma_DomainID (da_RelayAdmission (mda_admission r)) = control_domain p;
  dr_member res : mda_result r = Some res →
    member_of (dclr_Member res) = da_DeviceID (mda_admission r) }.

(** The admission through which a device got its Space subscription. *)
Definition admitted_by (records : SpaceDevices) (principalID spaceID deviceID subscriptionID : UUID)
    : Prop :=
  ∃ id r res, records !! id = Some r ∧ msd_result r = Some res ∧
    sda_PrincipalID (msd_admission r) = principalID ∧ sda_SpaceID (msd_admission r) = spaceID ∧
    sda_DeviceID (msd_admission r) = deviceID ∧
    smr_SubscriptionID (sdclr_Member res) = subscriptionID.

Record SpaceRecord (records : SpaceDevices) (id : UUID) (space : memorySpace) : Prop := {
  sr_id : sp_SpaceID (msp_provisioning space) = id;
  sr_valid : SpaceProvisioning_Validate (msp_provisioning space) = None;
  sr_devices deviceID subscriptionID : msp_devices space !! deviceID = Some subscriptionID →
    (deviceID = sp_InitialDeviceID (msp_provisioning space) ∧
     subscriptionID = sub_SubscriptionID (dp_Subscription (sp_Domain (msp_provisioning space)))) ∨
    admitted_by records (sp_PrincipalID (msp_provisioning space)) id deviceID subscriptionID }.

Record SpaceDeviceRecord (spaces : Spaces) (id : UUID) (r : memorySpaceDeviceAdmission) : Prop := {
  sdr_id : ma_AdmissionID (sda_RelayAdmission (msd_admission r)) = id;
  sdr_space : ∃ space, spaces !! sda_SpaceID (msd_admission r) = Some space ∧
    sp_PrincipalID (msp_provisioning space) = sda_PrincipalID (msd_admission r) ∧
    ma_DomainID (sda_RelayAdmission (msd_admission r)) = space_domain space;
  sdr_member res : msd_result r = Some res →
    member_of (sdclr_Member res) = sda_DeviceID (msd_admission r) }.

Record SyncFacts (principals : Principals) (devices : Devices) (spaces : Spaces)
    (spaceDevices : SpaceDevices) : Prop := {
  sf_principal id p : principals !! id = Some p →
    pp_PrincipalID (prn_provisioning p) = id ∧ PrincipalProvisioning_Validate (prn_provisioning p) = None;
  sf_device id r : devices !! id = Some r → DeviceRecord principals id r;
  sf_space id space : spaces !! id = Some space →
    is_Some (principals !! sp_PrincipalID (msp_provisioning space)) ∧ SpaceRecord spaceDevices id space;
  sf_space_device id r : spaceDevices !! id = Some r → SpaceDeviceRecord spaces id r }.

(** ** The changes of the maps *)

(** Principals are never dropped and keep what they were provisioned with. *)
Lemma put_principal principals devices spaces spaceDevices id p :
  SyncFacts principals devices spaces spaceDevices →
  pp_PrincipalID (prn_provisioning p) = id → PrincipalProvisioning_Validate (prn_provisioning p) = None →
  (∀ p', principals !! id = Some p' → prn_provisioning p' = prn_provisioning p) →
  SyncFacts (<[id := p]> principals) devices spaces spaceDevices.
Proof.
  intros [Hp Hd Hs Hsd] Hid Hv Hold.
  assert (∀ k q, principals !! k = Some q → ∃ q', <[id := p]> principals !! k = Some q' ∧
    prn_provisioning q' = prn_provisioning q) as Hgrow.
  { intros k q Hq. destruct (decide (k = id)) as [->|Hne].
    - exists p. rewrite lookup_insert_eq. split; [done|]. by rewrite (Hold q).
    - exists q. by rewrite lookup_insert_ne. }
  split; [| | |done].
  - intros k q [[<- <-]|[_ Hq]]%lookup_insert_Some; [done|by apply Hp].
  - intros k r Hr. destruct (Hd k r Hr) as [H1 (q & Hq & Hdom) H3]. split; [done| |done].
    destruct (Hgrow _ _ Hq) as (q' & Hq' & Heq). exists q'. split; [done|].
    unfold control_domain. by rewrite Heq.
  - intros k sp Hsp. destruct (Hs k sp Hsp) as [[q Hq] H2]. split; [|done].
    destruct (Hgrow _ _ Hq) as (q' & Hq' & _). by exists q'.
Qed.

Lemma put_device principals devices spaces spaceDevices id r :
  SyncFacts principals devices spaces spaceDevices → DeviceRecord principals id r →
  SyncFacts principals (<[id := r]> devices) spaces spaceDevices.
Proof.
  intros [Hp Hd Hs Hsd] Hr. split; [done| |done|done].
  intros k x [[<- <-]|[_ Hx]]%lookup_insert_Some; [done|by apply Hd].
Qed.

Lemma put_new_space principals devices spaces spaceDevices id space :
  SyncFacts principals devices spaces spaceDevices → spaces !! id = None →
  is_Some (principals !! sp_PrincipalID (msp_provisioning space)) → SpaceRecord spaceDevices id space →
  SyncFacts principals devices (<[id := space]> spaces) spaceDevices.
Proof.
  intros [Hp Hd Hs Hsd] Hnew Hpr Hsp. split; [done|done| |].
  - intros k x [[<- <-]|[_ Hx]]%lookup_insert_Some; [done|by apply Hs].
  - intros k r Hr. destruct (Hsd k r Hr) as [H1 (sp & Hsp' & H2) H3]. split; [done| |done].
    exists sp. rewrite lookup_insert_ne; [done|]. intros ->. congruence.
Qed.

(** Only unclaimed admissions are retired. *)
Lemma drop_space_devices principals devices spaces spaceDevices spaceDevices' :
  SyncFacts principals devices spaces spaceDevices →
  (∀ id r, spaceDevices' !! id = Some r → spaceDevices !! id = Some r) →
  (∀ id r, spaceDevices !! id = Some r → is_Some (msd_result r) → spaceDevices' !! id = Some r) →
  SyncFacts principals devices spaces spaceDevices'.
Proof.
  intros [Hp Hd Hs Hsd] Hsub Hkeep. split; [done|done| |].
  - intros k sp Hsp. destruct (Hs k sp Hsp) as [Hpr [H1 H2 H3]]. split; [done|]. split; [done|done|].
    intros D sub Hsub'. destruct (H3 D sub Hsub') as [?|(i & r & res & Hr & Hres & Hrest)]; [by left|].
    right. exists i, r, res. split; [|done]. apply Hkeep; [done|by exists res].
  - intros k r Hr. by apply Hsd, Hsub.
Qed.

Lemma put_new_space_device principals devices spaces spaceDevices id r :
  SyncFacts principals devices spaces spaceDevices → spaceDevices !! id = None →
  SpaceDeviceRecord spaces id r → SyncFacts principals devices spaces (<[id := r]> spaceDevices).
Proof.
  intros [Hp Hd Hs Hsd] Hnew Hr. split; [done|done| |].
  - intros k sp Hsp. destruct (Hs k sp Hsp) as [Hpr [H1 H2 H3]]. split; [done|]. split; [done|done|].
    intros D sub Hsub. destruct (H3 D sub Hsub) as [?|(i & x & res & Hx & Hrest)]; [by left|].
    right. exists i, x, res. split; [|done]. rewrite lookup_insert_ne; [done|]. intros ->. congruence.
  - intros k x [[<- <-]|[_ Hx]]%lookup_insert_Some; [done|by apply Hsd].
Qed.

(** A claim records its result and makes the device's subscription the claimed
    one. *)
Lemma claim_space_device principals devices spaces spaceDevices id r res space :
  SyncFacts principals devices spaces spaceDevices →
  spaceDevices !! id = Some r → msd_result r = None →
  spaces !! sda_SpaceID (msd_admission r) = Some space →
  member_of (sdclr_Member res) = sda_DeviceID (msd_admission r) →
  SyncFacts principals devices
    (<[sda_SpaceID (msd_admission r) := mkMemorySpace (msp_provisioning space) (msp_result space)
        (<[sda_DeviceID (msd_admission r) := smr_SubscriptionID (sdclr_Member res)]>
           (msp_devices space))]> spaces)
    (<[id := mkMemorySpaceDeviceAdmission (msd_admission r) (Some res)]> spaceDevices).
Proof.
  intros [Hp Hd Hs Hsd] Hr Hun Hsp Hm.
  destruct (Hsd id r Hr) as [Hid (sp & Hsp' & Hpr & Hdom) _].
  assert (sp = space) as -> by congruence. clear Hsp'.
  assert (∀ p k D sub, admitted_by spaceDevices p k D sub →
    admitted_by (<[id := mkMemorySpaceDeviceAdmission (msd_admission r) (Some res)]> spaceDevices)
      p k D sub) as Hgrow.
  { intros p k D sub (i & x & y & Hx & Hy & Hrest). exists i, x, y. split; [|done].
    rewrite lookup_insert_ne; [done|]. intros ->. congruence. }
  split; [done|done| |].
  - intros k x [[<- <-]|[_ Hx]]%lookup_insert_Some.
    + destruct (Hs _ _ Hsp) as [Hprn [H1 H2 H3]]. cbn. split; [done|]. split; cbn; [done|done|].
      intros D sub [[<- <-]|[_ Hsub]]%lookup_insert_Some.
      * right. exists id, (mkMemorySpaceDeviceAdmission (msd_admission r) (Some res)), res.
        by rewrite lookup_insert_eq.
      * destruct (H3 D sub Hsub) as [?|?]; [by left|right; by apply Hgrow].
    + destruct (Hs _ _ Hx) as [Hprn [H1 H2 H3]]. split; [done|]. split; [done|done|].
      intros D sub Hsub. destruct (H3 D sub Hsub) as [?|?]; [by left|right; by apply Hgrow].
  - assert (∀ k x, SpaceDeviceRecord spaces k x → SpaceDeviceRecord (<[sda_SpaceID (msd_admission r) :=
      mkMemorySpace (msp_provisioning space) (msp_result space)
        (<[sda_DeviceID (msd_admission r) := smr_SubscriptionID (sdclr_Member res)]>
           (msp_devices space))]> spaces) k x) as Hkeep.
    { intros k x [H1 (y & Hy & H2) H3]. split; [done| |done].
      destruct (decide (sda_SpaceID (msd_admission x) = sda_SpaceID (msd_admission r))) as [Heq|Hne].
      - rewrite Heq in Hy |- *. assert (y = space) as -> by congruence. eexists.
        rewrite lookup_insert_eq. split; [done|]. done.
      - exists y. by rewrite lookup_insert_ne. }
    intros k x [[<- <-]|[_ Hx]]%lookup_insert_Some; apply Hkeep; [|by apply Hsd].
    split; cbn; [done|by exists space|]. by intros ? [= <-].
Qed.
End records.

(** ** Every call keeps the facts *)

Section calls.
Context `{UuidLib} `{ManifestLib}.

Record SyncWF (s : MemoryStore) : Prop := {
  sw_owned : owned (ms_relay s);
  sw_claims : each_domain (Roster ClaimFacts) (ms_relay s);
  sw_facts : SyncFacts (ms_principals s) (ms_deviceAdmissions s) (ms_spaces s)
    (ms_spaceDeviceAdmissions s) }.

Lemma sync_wf_stable : RelayStable SyncWF.
Proof.
  intros op s _ [Ho Hc Hf]. split; cbn; [by apply perform_owned|by apply perform_claim_facts|done].
Qed.

(** What a claim answers is the claimant's membership. *)
Lemma claim_member credential claim previous now r :
  each_domain (Roster ClaimFacts) r →
  wp (claimSubscriptionAdmission credential claim previous now)
    (fun _ res => ∀ a, res = inr a → member_of (sacl_Member a) = mac_MemberID claim) r.
Proof.
  intros Hr. unfold claimSubscriptionAdmission. wp_steps; [done|]. unfold in_found_domain. wp_steps.
  unfold wp, in_domain. destruct (st_domains r !! _) as [d|] eqn:Hd; [|done]. simpl.
  specialize (Hr _ _ Hd). destruct (claimAdmission _ _ _ _ d) as [d' res] eqn:Hrun. simpl.
  refine (wp_elim _ (fun _ res => ∀ a, res = inr a → _) _ _ _ _ Hrun). clear Hrun res d'.
  unfold claimAdmission, claimed_admission_result. wp_steps; try done; intros res [= <-]; [|done..].
  match goal with Hx : ma_ClaimedMemberID ?x = Some ?m, Ha : dom_admissions d !! _ = Some ?x,
    Hy : ?m = _ ∧ _ |- _ =>
    destruct (cl_claimed _ _ Hr _ _ _ Ha Hx) as [y Hm]; unfold member_of; cbn; rewrite Hm; cbn;
    rewrite (cl_member _ _ Hr _ _ Hm); apply Hy end.
Qed.

Lemma claim_member_plain credential claim now r :
  each_domain (Roster ClaimFacts) r →
  wp (ClaimSubscriptionAdmission credential claim now)
    (fun _ res => ∀ a, res = inr a → member_of (sacl_Member a) = mac_MemberID claim) r.
Proof. apply claim_member. Qed.

Lemma claim_member_replacing credential claim previous now r :
  each_domain (Roster ClaimFacts) r →
  wp (ClaimSubscriptionAdmissionReplacingInactiveMembership credential claim previous now)
    (fun _ res => ∀ a, res = inr a → member_of (sacl_Member a) = mac_MemberID claim) r.
Proof.
  intros Hr. unfold ClaimSubscriptionAdmissionReplacingInactiveMembership. wp_steps; [done|].
  by apply claim_member.
Qed.

#[local] Hint Resolve sync_wf_stable : core.

#[local] Ltac facts Hs :=
  split; [exact (sw_owned _ Hs)|exact (sw_claims _ Hs)|]; cbn;
  pose proof (sw_facts _ Hs) as Hfacts; cbn in Hfacts.

Lemma wf_claimAccountAdmission credential provisioning authority now :
  Preserves SyncWF (claimAccountAdmission credential provisioning authority now).
Proof.
  intros s Hs. unfold claimAccountAdmission. sync_steps SyncWF; try done.
  match goal with Hr : SyncWF (s <| ms_relay := _ |>) |- _ => facts Hr end.
  apply put_principal; [done|done|done|]. cbn. intros p' Hp'.
  apply dec_stable. intros Hne. match goal with Hx : ¬ some_and (ms_principals s !! _) _ |- _ =>
    apply Hx, some_and_Some; exists p'; split; [exact Hp'|by right] end.
Qed.

Lemma wf_activateScope p d r m now : Preserves SyncWF (ActivateBoundDeviceSyncScope p d r m now).
Proof.
  intros s Hs. unfold ActivateBoundDeviceSyncScope. sync_steps SyncWF; try done.
  facts Hs. match goal with Hp : ms_principals s !! p = Some ?a |- _ =>
    destruct (sf_principal _ _ _ _ Hfacts p a Hp) as [Hid Hv];
    apply put_principal; [done|done|done|]; cbn; intros p' Hp'; congruence end.
Qed.

Lemma wf_CreateDeviceAdmission credential admission now :
  Preserves SyncWF (CreateDeviceAdmission credential admission now).
Proof.
  intros s Hs. unfold CreateDeviceAdmission. sync_steps SyncWF; try done.
  match goal with Hr : SyncWF ((s <| ms_relay := _ |>) <| ms_relay := _ |>) |- _ => facts Hr end.
  apply put_device; [done|]. split; cbn; [done| |done].
  match goal with Hp : ms_principals s !! _ = Some ?p |- _ => exists p; split; [done|] end.
  apply dec_stable. intros Hne.
  match goal with Hx : ¬ (acred_TenantID credential ≠ _ ∨ _) |- _ =>
    apply Hx; right; apply dec_stable; intros Hy end.
  apply not_eq_sym in Hne. apply Decidable.not_or in Hy as [Hy1%dec_stable Hy]. 
  apply Hy. right. left. congruence.
Qed.

Lemma wf_ClaimDeviceAdmission credential claim now :
  Preserves SyncWF (ClaimDeviceAdmission credential claim now).
Proof.
  intros s Hs. unfold ClaimDeviceAdmission.
  repeat (lazymatch goal with |- wp (relay _) _ _ => fail | |- _ => sync_step SyncWF end); try done.
  eapply (wp_call_spec _ SyncWF); [done|apply _|done|apply claim_member_plain, Hs|].
  intros r [e|sam] Hr Ha; sync_steps SyncWF; try done. facts Hr.
  match goal with Hx : ms_deviceAdmissions s !! _ = Some ?x |- _ =>
    pose proof (sf_device _ _ _ _ Hfacts _ _ Hx) as [Hdr1 Hdr2 _] end.
  apply put_device; [done|]. split; cbn; [done|done|]. intros res [= <-]. cbn. 
  rewrite (Ha _ eq_refl).
  match goal with Hv : DeviceAdmissionClaim_Validate claim = None |- _ =>
    unfold DeviceAdmissionClaim_Validate in Hv; rewrite !err_then_None, !err_when_None in Hv;
    destruct Hv as (_ & _ & Hdcl%dec_stable) end.
  rewrite <- Hdcl. apply dec_stable. tauto.
Qed.

Lemma wf_ProvisionSpace credential provisioning now :
  Preserves SyncWF (ProvisionSpace credential provisioning now).
Proof.
  intros s Hs. unfold ProvisionSpace. sync_steps SyncWF; try done.
  match goal with Hr : SyncWF (s <| ms_relay := _ |>) |- _ => facts Hr end.
  apply put_new_space; [done|done|by eexists|]. split; cbn; [done|done|].
  intros D sub [<- <-]%lookup_singleton_Some. by left.
Qed.

Lemma wf_admit_to_space credential space admission now s :
  SyncWF s → ms_spaces s !! sda_SpaceID admission = Some space →
  sp_PrincipalID (msp_provisioning space) = sda_PrincipalID admission →
  ma_DomainID (sda_RelayAdmission admission) = space_domain space →
  ms_spaceDeviceAdmissions s !! ma_AdmissionID (sda_RelayAdmission admission) = None →
  wp (admit_to_space credential space admission now) (fun s' _ => SyncWF s') s.
Proof.
  intros Hs Hsp Hpr Hdom Hnew. unfold admit_to_space. sync_steps SyncWF; try done.
  all: match goal with Hr : SyncWF ?x |- context [foldl forget_space_admission ?x ?l] =>
    rewrite (forget_same x l); facts Hr end.
  all: apply put_new_space_device; [eapply drop_space_devices; [exact Hfacts|..]| |].
  all: try (intros id x Hx; apply forget_lookup in Hx as [Hx _]; exact Hx).
  all: try (intros id x Hx Hres; apply forget_lookup; split; [exact Hx|]; intros Hin;
    match goal with Hl : ∀ ids id, inr _ = inr ids → _ |- _ =>
      destruct (Hl _ _ eq_refl Hin) as (er & Her & Hun) end;
    apply elem_of_map_to_list in Her; cbn in Her; rewrite Hx in Her; injection Her as <-;
    rewrite Hun in Hres; by destruct Hres).
  all: try (apply eq_None_not_Some; intros [x Hx]; apply forget_lookup in Hx as [Hx _]; cbn in Hx;
    congruence).
  all: split; cbn; [done|by exists space|done].
Qed.

Lemma wf_CreateSpaceDeviceAdmission sponsor admission now :
  Preserves SyncWF (CreateSpaceDeviceAdmission sponsor admission now).
Proof.
  intros s Hs. unfold CreateSpaceDeviceAdmission.
  repeat (lazymatch goal with
    | |- wp (admit_to_space _ _ _ _) _ _ => fail | |- _ => sync_step SyncWF end); try done.
  match goal with Hx : ¬ (acred_TenantID _ ≠ _ ∨ _) |- _ =>
    apply Decidable.not_or in Hx as [_ [Hx1%dec_stable [_ [Hx2%dec_stable _]%Decidable.not_or
      ]%Decidable.not_or]%Decidable.not_or] end.
  apply wf_admit_to_space; cbn; try done; [|by rewrite Hx2].
  apply dec_stable. assumption.
Qed.

Lemma wf_ClaimSpaceDeviceAdmission credential claim now :
  Preserves SyncWF (ClaimSpaceDeviceAdmission credential claim now).
Proof.
  intros s Hs. unfold ClaimSpaceDeviceAdmission.
  repeat (lazymatch goal with |- wp (relay (if _ then _ else _)) _ _ => fail
    | |- _ => sync_step SyncWF end); try done.
  match goal with Hr : SyncWF (s <| ms_relay := _ |>) |- _ => rename Hr into Hs1 end.
  eapply (wp_call_spec _ SyncWF); [done|apply _|done| |].
  { case_decide; [apply claim_member_replacing|apply claim_member_plain]; apply Hs1. }
  intros r2 [e|sam] Hr Ha; sync_steps SyncWF; try done. facts Hr.
  match goal with Hx : ¬ (sdac_PrincipalID credential ≠ _ ∨ _) |- _ =>
    apply Decidable.not_or in Hx as [_ [_ [_ [Hid2%dec_stable Hid3%dec_stable]%Decidable.not_or
      ]%Decidable.not_or]%Decidable.not_or] end.
  match goal with Hx : ms_spaceDeviceAdmissions s !! _ = Some ?x, Hun : msd_result ?x = None |- _ =>
    destruct (sdr_space _ _ _ (sf_space_device _ _ _ _ Hfacts _ _ Hx)) as (space & Hsp & _);
    unfold space_of; rewrite Hid2, Hid3, Hsp end.
  match goal with |- SyncFacts _ _ _ (<[_ := mkMemorySpaceDeviceAdmission _ (Some ?res)]> _) =>
    apply (claim_space_device _ _ _ _ _ _ res); try done end.
  cbn. rewrite (Ha _ eq_refl).
  match goal with Hv : SpaceDeviceAdmissionClaim_Validate claim = None |- _ =>
    unfold SpaceDeviceAdmissionClaim_Validate in Hv; rewrite !err_then_None, !err_when_None in Hv;
    destruct Hv as (_ & _ & Hdcl%dec_stable) end.
  by rewrite <- Hdcl.
Qed.

Lemma perform_sync_wf op s : SyncWF s → SyncWF (perform op s).
Proof.
  intros Hs. sync_call op; [by apply sync_wf_stable|..].
  all: try (first [ by apply wf_CreateDeviceAdmission | by apply wf_ClaimDeviceAdmission
    | by apply wf_ProvisionSpace | by apply wf_CreateSpaceDeviceAdmission
    | by apply wf_ClaimSpaceDeviceAdmission | by apply wf_activateScope ]).
  all: try solve [by apply wf_claimAccountAdmission|wp_steps; [done|by apply wf_claimAccountAdmission]].
  all: sync_steps SyncWF; try done.
  all: try (match goal with Hr : SyncWF ?x |- SyncWF _ =>
    by split; [exact (sw_owned _ Hr)|exact (sw_claims _ Hr)|exact (sw_facts _ Hr)] end).
  match goal with Hr : SyncWF ((s <| ms_relay := _ |>) <| ms_relay := _ |>) |- _ => destruct Hr end.
  unfold record_device_revocation. by destruct (rev_RetirePrincipal revocation).
Qed.

Lemma reachable_sync_wf ttl s : reachable ttl s → SyncWF s.
Proof.
  apply reachable_invariant; [|apply perform_sync_wf]. split; cbn.
  - intros key. rewrite new_store_domains, lookup_empty. by intros [? ?].
  - intros key d. rewrite new_store_domains. by intros ?%lookup_empty_Some.
  - split; by intros ? ? ?%lookup_empty_Some.
Qed.
End calls.
