(* ===== verification/DeviceSyncRevocation.v ===== *)
(** * internal/devicesync: revoking a device

    What a revocation reaches in the relay, and that it is for good. *)

From S2P Require Import Prelude GoEncoding Sha256 RelayModel RelayState RelayTenant RelayMember RelaySubscription RelayMachine RelayInvariant RelayReachable RelayAccess RelayClaims ServiceAuthority DeviceSyncModel DeviceSync DeviceSyncSpaces DeviceSyncFacts DeviceSyncInvariant RelayExample DeviceSyncExample.
#[local] Open Scope Z_scope.

(** ** In the relay *)

(** The member of the domain [key] is revoked, and so is the subscription that
    the relay has it under. *)
Definition fenced (r : RelayState.MemoryStore) (key : domainKey) (memberID : UUID) (at_ : int64)
    (subscriptionID : UUID) : Prop :=
  ∃ d m sub, st_domains r !! key = Some d ∧
    dom_members d !! memberID = Some m ∧ mr_RevokedAtMilliseconds m = Some at_ ∧
    default uuid_Nil (dom_memberSubscriptions d !! memberID) = subscriptionID ∧
    dom_subscriptions d !! subscriptionID = Some sub ∧ sub_Status sub = SubscriptionRevoked.

Section relay.
Context `{UuidLib}.

(** A member is served by its subscription. *)
Definition serves (key : domainKey) (memberID subscriptionID : UUID) (r : RelayState.MemoryStore)
    : Prop :=
  ∃ d, st_domains r !! key = Some d ∧
    default uuid_Nil (dom_memberSubscriptions d !! memberID) = subscriptionID.

Lemma serves_revoke_target key m sub tenant at_ target r :
  serves key m sub r → serves key m sub (revoke_target tenant at_ r target).
Proof.
  intros (d & Hd & Hs). unfold revoke_target.
  destruct (st_domains r !! (tenant, _)) as [e|] eqn:He; [|by exists d].
  destruct (decide ((tenant, tri_DomainID target) = key)) as [<-|Hne].
  - assert (e = d) as -> by congruence. exists (revoke_membership at_ target d).
    unfold put_domain. cbn. by rewrite lookup_insert_eq.
  - exists d. unfold put_domain. cbn. by rewrite lookup_insert_ne.
Qed.

Lemma target_error_serves r tenant revocation target :
  revocation_target_error r tenant revocation target = None →
  serves (tenant, tri_DomainID target) (tri_MemberID target) (tri_SubscriptionID target) r.
Proof.
  unfold revocation_target_error, serves. destruct (st_domains r !! _) as [d|]; [|done].
  destruct (dom_members d !! _); [|done]. rewrite err_then_None, err_when_None.
  intros [Hs _]. exists d. split; [done|]. by apply dec_stable.
Qed.

Lemma serves_revoke_targets key m sub tenant at_ targets r :
  serves key m sub r → serves key m sub (foldl (revoke_target tenant at_) r targets).
Proof.
  intros Hs. apply (foldl_invariant (serves key m sub)); [done|].
  intros. by apply serves_revoke_target.
Qed.

Lemma targets_not_nil scopes targets :
  revocation_targets_valid scopes targets = None →
  Forall (fun t => tri_SubscriptionID t ≠ uuid_Nil) targets.
Proof.
  revert scopes. induction targets as [|t l IH]; intros scopes; [constructor|]. simpl.
  rewrite !err_then_None, !err_when_None. intros (Hn & _ & Hl). constructor; [tauto|by eapply IH].
Qed.

(** An accepted revocation fences every membership it names. *)
Lemma revocation_fences credential revocation r :
  wp (RevokeTenantMemberships credential revocation) (fun r' res => ∀ a, res = inr a →
    tmrr_Acceptance a = AcceptanceAccepted →
    tmrr_Memberships a = tmr_Memberships revocation ∧
    Forall (fun t => fenced r' (tcred_TenantID credential, tri_DomainID t) (tri_MemberID t)
      (tmr_RevokedAtMilliseconds revocation) (tri_SubscriptionID t) ∧
      tri_SubscriptionID t ≠ uuid_Nil) (tmr_Memberships revocation)) r.
Proof.
  unfold RevokeTenantMemberships. wp_steps; intros res [=]; subst; try done.
  intros _. split; [done|].
  match goal with Hx : revocation_errors _ _ _ _ = None |- _ =>
    pose proof (revocation_errors_None _ _ _ _ Hx) as Hok end.
  match goal with Hx : TenantMembershipRevocation_Validate _ = None |- _ =>
    apply err_then_None in Hx as [_ Hv%targets_not_nil] end.
  assert (Forall (target_present r (tcred_TenantID credential)) (tmr_Memberships revocation))
    as Hdone%(revoke_targets_done _ (tmr_RevokedAtMilliseconds revocation)).
  { eapply Forall_impl; [exact Hok|]. intros t. apply target_error_present. }
  rewrite Forall_forall in Hok, Hv, Hdone |- *. intros t Ht. split; [|by apply Hv].
  destruct (Hdone t Ht) as (d & m & sub & Hd & Hm & Hrev & Hsub & Hst).
  destruct (serves_revoke_targets _ _ _ (tcred_TenantID credential)
    (tmr_RevokedAtMilliseconds revocation) (tmr_Memberships revocation) _
    (target_error_serves _ _ _ _ (Hok t Ht))) as (e & He & Hs).
  exists d, m, sub. split_and!; try done. congruence.
Qed.

(** A fenced subscription stays revoked. *)
Lemma fenced_forever ttl n r key memberID at_ subscriptionID :
  RelayMachine.reachable ttl n r → Z.of_N n ≤ MaximumSequence →
  fenced r key memberID at_ subscriptionID → owned r ∧ at_domain key (Revoked subscriptionID) r.
Proof.
  intros Hr Hn (d & _ & sub & Hd & _ & _ & _ & Hsub & Hst). split; [by eapply reachable_owned|].
  exists d. split; [done|]. split; [|by exists sub].
  apply (if_subscriptions _ _ _ _ (wf_identities _ _ (reachable_wf ttl n r Hr Hn key d Hd))).
Qed.
End relay.

(** ** The targets *)

Section targets.
Context `{UuidLib} `{ManifestLib}.

Lemma take_one {A} (l : list A) x : x ∈ l → ∃ y, y ∈ l ∧ take 1 l = [y].
Proof. destruct l as [|y l]; [by intros ?%elem_of_nil|]. exists y. by split; [left|]. Qed.

Lemma initial_member_device p :
  PrincipalProvisioning_Validate p = None →
  mr_MemberID (dp_InitialMember (pp_ControlDomain p)) = pp_InitialDeviceID p.
Proof.
  unfold PrincipalProvisioning_Validate. rewrite !err_then_None, !err_when_None.
  intros (_ & _ & _ & Hs). symmetry. apply dec_stable. tauto.
Qed.

Lemma initial_space_member p :
  SpaceProvisioning_Validate p = None →
  mr_MemberID (dp_InitialMember (sp_Domain p)) = sp_InitialDeviceID p.
Proof.
  unfold SpaceProvisioning_Validate. rewrite !err_then_None, !err_when_None.
  intros (_ & _ & Hs). symmetry. apply dec_stable. tauto.
Qed.

(** The device's membership of the control domain is among the targets. *)
Lemma control_target s principalID principal deviceID :
  SyncWF s → ms_principals s !! principalID = Some principal →
  registeredPrincipalDevice s principalID deviceID →
  ∃ t, t ∈ revocation_targets s principal principalID deviceID ∧
    tri_DomainID t = control_domain principal ∧ tri_MemberID t = deviceID.
Proof.
  intros Hs Hp Hreg. pose proof (sw_facts _ Hs) as Hf.
  destruct (sf_principal _ _ _ _ Hf _ _ Hp) as [Hid Hv].
  enough (∃ t, t ∈ control_targets s principal principalID deviceID ∧
    tri_DomainID t = control_domain principal ∧ tri_MemberID t = deviceID) as (t & Ht & Hrest).
  { exists t. split; [|done]. unfold revocation_targets. rewrite merge_sort_Permutation.
    apply elem_of_app. by left. }
  unfold control_targets. case_decide as Hinit.
  { eexists. split; [by left|]. split; [done|]. by rewrite Hinit, <- initial_member_device. }
  destruct Hreg as [(id & r & Hr & Hr1 & Hr2 & res & Hres)%map_any_spec
    |(q & Hq & Hdev)%some_and_Some]; [|congruence].
  match goal with |- ∃ t, t ∈ take 1 ?l ∧ _ =>
    destruct (take_one l (membership_of (ma_DomainID (da_RelayAdmission (mda_admission r)))
      (dclr_Member res))) as (t & Ht & ->) end.
  { apply list_elem_of_omap. exists (id, r). rewrite elem_of_map_to_list. split; [done|]. simpl.
    rewrite Hres. simpl. by rewrite decide_True. }
  exists t. split; [by left|]. apply list_elem_of_omap in Ht as ([id' r'] & Hin & Ht).
  apply elem_of_map_to_list in Hin. simpl in Ht. destruct (mda_result r') as [res'|] eqn:Hres'; [|done].
  simpl in Ht. case_decide as Hx; [|done]. injection Ht as <-. destruct Hx as [Hx1 Hx2].
  destruct (sf_device _ _ _ _ Hf _ _ Hin) as [_ (q & Hq & Hdom) Hm].
  cbn. split; [|by rewrite <- Hx2, <- (Hm res')]. rewrite Hdom. congruence.
Qed.

(** So is its membership of every Space that it is in. *)
Lemma space_target s principalID principal deviceID spaceID space :
  SyncWF s → ms_spaces s !! spaceID = Some space →
  sp_PrincipalID (msp_provisioning space) = principalID →
  space_device space deviceID ≠ uuid_Nil →
  ∃ t, t ∈ revocation_targets s principal principalID deviceID ∧
    tri_DomainID t = space_domain space ∧ tri_MemberID t = deviceID ∧
    tri_SubscriptionID t = space_device space deviceID.
Proof.
  intros Hs Hsp Hpr Hnn. pose proof (sw_facts _ Hs) as Hf.
  destruct (sf_space _ _ _ _ Hf _ _ Hsp) as [_ [Hid Hv Hdev]].
  enough (∃ t, t ∈ space_targets s principalID deviceID space ∧
    tri_DomainID t = space_domain space ∧ tri_MemberID t = deviceID ∧
    tri_SubscriptionID t = space_device space deviceID) as (t & Ht & Hrest).
  { exists t. split; [|done]. unfold revocation_targets. rewrite merge_sort_Permutation.
    apply elem_of_app. right. apply list_elem_of_bind. exists (spaceID, space).
    by rewrite elem_of_map_to_list. }
  unfold space_targets. rewrite decide_False by naive_solver. case_decide as Hinit.
  { destruct Hinit as [Hi Hsub]. eexists. split; [by left|]. cbn.
    by rewrite initial_space_member, Hsub. }
  unfold space_device in *. destruct (msp_devices space !! deviceID) as [sub|] eqn:Hd; [|done].
  simpl in *. destruct (Hdev _ _ Hd) as [?|(id & r & res & Hr & Hres & H1 & H2 & H3 & H4)];
    [tauto|].
  match goal with |- ∃ t, t ∈ take 1 ?l ∧ _ =>
    destruct (take_one l (membership_of (ma_DomainID (sda_RelayAdmission (msd_admission r)))
      (sdclr_Member res))) as (t & Ht & ->) end.
  { apply list_elem_of_omap. exists (id, r). rewrite elem_of_map_to_list. split; [done|]. simpl.
    rewrite Hres. simpl. rewrite decide_True; [done|]. split_and!; congruence. }
  exists t. split; [by left|]. apply list_elem_of_omap in Ht as ([id' r'] & Hin & Ht).
  apply elem_of_map_to_list in Hin. simpl in Ht. destruct (msd_result r') as [res'|] eqn:Hres'; [|done].
  simpl in Ht. case_decide as Hx; [|done]. injection Ht as <-. destruct Hx as (Hx1 & Hx2 & Hx3 & Hx4).
  destruct (sf_space_device _ _ _ _ Hf _ _ Hin) as [_ (q & Hq & _ & Hdom) Hm].
  cbn. split_and!; [|by rewrite <- Hx3, <- (Hm res')|done]. rewrite Hdom. congruence.
Qed.
End targets.

(** ** For good *)

Section forever.
Context `{UuidLib} `{ManifestLib}.

Definition device_revoked (principalID deviceID : UUID) (s : MemoryStore) : Prop :=
  is_Some (revoked_devices s principalID !! deviceID).

Lemma record_revokes revocation result now s :
  device_revoked (rev_PrincipalID revocation) (rev_DeviceID revocation)
    (record_device_revocation revocation result now s).
Proof.
  unfold device_revoked, revoked_devices, record_device_revocation.
  destruct (rev_RetirePrincipal revocation); cbn; rewrite lookup_insert_eq; cbn;
    by rewrite lookup_insert_eq.
Qed.

Lemma record_keeps_revoked p d revocation result now s :
  device_revoked p d s → device_revoked p d (record_device_revocation revocation result now s).
Proof.
  intros Hs. assert (∀ m : gmap UUID (gmap UUID int64), m = <[rev_PrincipalID revocation :=
    <[rev_DeviceID revocation := now]> (revoked_devices s (rev_PrincipalID revocation))]>
      (ms_revokedDevices s) → is_Some (default ∅ (m !! p) !! d)) as Hm.
  { intros m ->. unfold device_revoked, revoked_devices in *.
    destruct (decide (rev_PrincipalID revocation = p)) as [->|Hne].
    - rewrite lookup_insert_eq. cbn. apply lookup_insert_is_Some'. by right.
    - by rewrite lookup_insert_ne. }
  unfold device_revoked, revoked_devices, record_device_revocation.
  destruct (rev_RetirePrincipal revocation); cbn; by apply Hm.
Qed.

Lemma perform_device_revoked p d op s : device_revoked p d s → device_revoked p d (perform op s).
Proof.
  intros Hs. set (inv := device_revoked p d) in *.
  assert (RelayStable inv) as HI by (by intros op' s' Hs').
  change (inv s) in Hs. change (inv (perform op s)). sync_call op; [by apply HI|..].
  all: sync_steps inv; try done.
  - by apply record_keeps_revoked.
  - unfold inv. cbn. match goal with |- context [foldl forget_space_admission ?x ?l] =>
      rewrite (forget_same x l) end. assumption.
  - unfold inv. cbn. match goal with |- context [foldl forget_space_admission ?x ?l] =>
      rewrite (forget_same x l) end. assumption.
Qed.

Lemma revoked_not_device p d s : device_revoked p d s → ¬ principalDevice s p d.
Proof. intros [? Hr] [Hn _]. congruence. Qed.

(** What a successful first call does. *)
Lemma revocation_effect credential revocation now s :
  SyncWF s →
  wp (RevokeDevice credential revocation now) (fun s' r => ∀ res, r = inr res →
    rvr_Acceptance res = AcceptanceAccepted →
    let p := rev_PrincipalID revocation in let d := rev_DeviceID revocation in
    device_revoked p d s' ∧ ∃ principal, ms_principals s !! p = Some principal ∧
      registeredPrincipalDevice s p d ∧
      rvr_Memberships res = revocation_targets s principal p d ∧
      Forall (fun t => fenced (ms_relay s') (p, tri_DomainID t) (tri_MemberID t) now
        (tri_SubscriptionID t) ∧ tri_SubscriptionID t ≠ uuid_Nil) (rvr_Memberships res)) s.
Proof.
  intros Hs. pose proof sync_wf_stable as HI. unfold RevokeDevice.
  repeat (lazymatch goal with |- wp (relay (RevokeTenantMemberships _ _)) _ _ => fail
    | |- _ => sync_step SyncWF end); try (by intros ? [=]).
  { intros res [= <-]. done. }
  apply wp_relay. eapply wp_mono; [apply revocation_fences|]. cbv beta.
  intros r' [e|res0] Hres; wp_steps; [by intros ? [=]|]. intros res [= <-] Hacc. cbn in Hacc |- *.
  destruct (Hres _ eq_refl Hacc) as [Hm Hf]. split; [apply record_revokes|].
  eexists. split; [eassumption|]. split; [by apply dec_stable|]. rewrite Hm. split; [done|].
  match goal with Hc : ¬ (tcred_TenantID credential ≠ _ ∨ _) |- _ =>
    apply Decidable.not_or in Hc as [Hc1%dec_stable _]; rewrite Hc1 in Hf end.
  unfold record_device_revocation. destruct (rev_RetirePrincipal revocation); exact Hf.
Qed.
End forever.

(** The subscription is revoked in the relay. *)
Definition subscription_revoked (r : RelayState.MemoryStore) (key : domainKey) (id : UUID) : Prop :=
  ∃ d sub, st_domains r !! key = Some d ∧ dom_subscriptions d !! id = Some sub ∧
    sub_Status sub = SubscriptionRevoked.

Section fencing.
Context `{UuidLib} `{ManifestLib}.

Lemma fenced_subscription_forever ttl n s key memberID at_ subscriptionID ops :
  RelayMachine.reachable ttl n (ms_relay s) → Z.of_N n ≤ MaximumSequence →
  subscriptionID ≠ uuid_Nil → fenced (ms_relay s) key memberID at_ subscriptionID →
  subscription_revoked (ms_relay (perform_all ops s)) key subscriptionID.
Proof.
  intros Hr Hn Hnil Hf. destruct (fenced_forever _ _ _ _ _ _ _ Hr Hn Hf) as [Hown Hat].
  destruct (perform_all_over (fun r => owned r ∧ at_domain key (Revoked subscriptionID) r) ops s)
    as [_ (d & Hd & _ & sub & Hs & Hst)]; [|done|by exists d, sub].
  intros op r [Ho Ha]. split; [by apply perform_owned|by apply perform_revoked].
Qed.

(** [C14] A revoked device is fenced everywhere, for good.  When the first call
    of a device revocation succeeds, then in the relay the device's member of
    the principal's control domain, and of every Space that the device is in,
    is revoked at the time of the call together with the subscription that
    serves it; these subscriptions stay revoked under any further calls of
    device sync and of the relay; and the device never again counts as a
    device of the principal. *)
Theorem revoked_device_fenced ttl n s credential revocation now s' res ops :
  reachable ttl s → RelayMachine.reachable ttl n (ms_relay s') → Z.of_N n ≤ MaximumSequence →
  RevokeDevice credential revocation now s = (s', inr res) →
  rvr_Acceptance res = AcceptanceAccepted →
  let p := rev_PrincipalID revocation in
  let d := rev_DeviceID revocation in
  let later := perform_all ops s' in
  (∃ principal sub, ms_principals s !! p = Some principal ∧
     fenced (ms_relay s') (p, control_domain principal) d now sub ∧
     subscription_revoked (ms_relay later) (p, control_domain principal) sub) ∧
  (∀ spaceID space, ms_spaces s !! spaceID = Some space →
     sp_PrincipalID (msp_provisioning space) = p → space_device space d ≠ uuid_Nil →
     fenced (ms_relay s') (p, space_domain space) d now (space_device space d) ∧
     subscription_revoked (ms_relay later) (p, space_domain space) (space_device space d)) ∧
  ¬ principalDevice later p d.
Proof.
  intros Hs Hr Hn Hrun Hacc p d later. apply reachable_sync_wf in Hs.
  pose proof (wp_elim _ _ _ _ _ (revocation_effect credential revocation now s Hs) Hrun res eq_refl
    Hacc) as (Hrev & principal & Hp & Hreg & Hm & Hall).
  rewrite Hm in Hall. rewrite Forall_forall in Hall.
  split_and!.
  - destruct (control_target s p principal d Hs Hp Hreg) as (t & Ht & Hdom & Hmem).
    destruct (Hall t Ht) as [Hf Hnil]. rewrite Hdom, Hmem in Hf.
    exists principal, (tri_SubscriptionID t). split_and!; [done|done|].
    by eapply fenced_subscription_forever.
  - intros id space Hsp Hpr Hdev.
    destruct (space_target s p principal d id space Hs Hsp Hpr Hdev) as (t & Ht & Hdom & Hmem & Hsub).
    destruct (Hall t Ht) as [Hf Hnil]. rewrite Hdom, Hmem, Hsub in Hf. split; [done|].
    by eapply fenced_subscription_forever.
  - apply revoked_not_device. apply (perform_all_invariant (device_revoked p d)); [|done].
    intros. by apply perform_device_revoked.
Qed.
End fencing.

(** The calls of device sync that led to the example's store are calls of the
    relay too. *)
Definition sync_revoked : MemoryStore := (RevokeDevice tenant_credential revoke_b 2000 sync_both).1.

Definition sync_both_calls : list RelayMachine.Op :=
  [ OpProvisionTenant example_tenant example_provisioning;
    OpCreateSubscription admin_credential (mkSubscriptionCreateRequest 210%N 22%N 1000);
    OpCreateSubscriptionAdmission admin_credential 22%N (relay_admission domainID 71%N 1000) 1000;
    OpClaimSubscriptionAdmission (RelayModel.mkAdmissionCredential tenantID domainID 71%N (token 71))
      (dcl_RelayClaim (device_claim 1100)) 1100;
    OpProvisionDomain tenant_credential (sp_Domain space_provisioning) 1300;
    OpCreateSubscription space_admin (mkSubscriptionCreateRequest 230%N 52%N 1350);
    OpCreateSubscriptionAdmission space_admin 52%N (relay_admission space_domainID 72%N 1350) 1400;
    OpClaimSubscriptionAdmission
      (RelayModel.mkAdmissionCredential tenantID space_domainID 72%N (token 72))
      (sdcl_RelayClaim (space_claim 1500)) 1500;
    OpRevokeTenantMemberships tenant_credential (mkTenantMembershipRevocation
      RelayModel.SchemaVersion 240%N 2000
      [mkTenantMembershipRevocationItem domainID 22%N device_b;
       mkTenantMembershipRevocationItem space_domainID 52%N device_b]) ].

Lemma sync_revoked_relay : RelayMachine.reachable [] 9 (ms_relay sync_revoked).
Proof.
  replace (ms_relay sync_revoked) with (RelayMachine.perform_all sync_both_calls new_store)
    by (vm_compute; reflexivity).
  exact (RelayMachine.reachable_perform_all [] 0 new_store sync_both_calls
    (RelayMachine.reachable_new [])).
Qed.

Lemma revoked_device_fenced_witness :
  let later := perform_all [provision_space; OpRelay publish_one] sync_revoked in
  subscription_revoked (ms_relay later) (tenantID, space_domainID) 52%N ∧
  ¬ principalDevice later principalID device_b.
Proof.
  destruct (revoked_device_fenced [] 9 sync_both tenant_credential revoke_b 2000
    sync_revoked
    (mkDeviceRevocationResult AcceptanceAccepted 240%N principalID device_b 2000
       [mkTenantMembershipRevocationItem domainID 22%N device_b;
        mkTenantMembershipRevocationItem space_domainID 52%N device_b])
    [provision_space; OpRelay publish_one] sync_both_reachable sync_revoked_relay)
    as (_ & Hspaces & Hgone).
  - vm_compute. discriminate.
  - unfold sync_revoked. apply ran. vm_compute. reflexivity.
  - reflexivity.
  - split; [|exact Hgone].
    apply (Hspaces spaceID (space_of sync_both spaceID)); vm_compute; (reflexivity || discriminate).
Defined.
