(* ===== verification/DeviceSyncDevices.v ===== *)
(** * internal/devicesync: the devices of a principal

    The arithmetic with which [RevokeDevice] protects the last device counts
    the devices that device sync enrolled and did not revoke itself, and leaves
    at least one until the principal is retired.  A membership that is revoked
    at the relay directly does not count as revoked: the concrete run at the
    end is of behaviour that the memory store has and
    docs/device-sync-bootstrap.md excludes. *)

From S2P Require Import Prelude GoEncoding Sha256 RelayModel RelayState RelayTenant RelayMember RelaySubscription RelayMachine RelayExample RelayReachable RelayAccess RelayClaims ServiceAuthority DeviceSyncModel DeviceSync DeviceSyncSpaces DeviceSyncExample DeviceSyncFacts DeviceSyncInvariant DeviceSyncRevocation.
#[local] Open Scope Z_scope.

(** ** Counting *)

Section counting.
Context {A : Type} (P : UUID → A → Prop) `{∀ k a, Decision (P k a)}.

Lemma map_count_update (m : gmap UUID A) k y :
  (∀ x, m !! k = Some x → ¬ P k x) → ¬ P k y → map_count P (<[k := y]> m) = map_count P m.
Proof. intros Hm HP. unfold map_count. by rewrite map_filter_insert_not' by done. Qed.

(** An entry that comes to satisfy [P]. *)
Lemma map_count_becomes (m : gmap UUID A) k y :
  (∀ x, m !! k = Some x → ¬ P k x) → P k y → map_count P (<[k := y]> m) = map_count P m + 1.
Proof.
  intros Hm HP. unfold map_count. rewrite map_filter_insert_True by done.
  apply zsize_insert_new. apply map_lookup_filter_None. right. exact Hm.
Qed.

Lemma map_count_zero (m : gmap UUID A) : (∀ k x, m !! k = Some x → ¬ P k x) → map_count P m = 0.
Proof.
  intros Hm. unfold map_count, zsize.
  replace (filter (fun kv : UUID * A => P kv.1 kv.2) m) with (∅ : gmap UUID A);
    [by rewrite map_size_empty|].
  symmetry. apply map_empty. intros k. apply map_lookup_filter_None. right. intros x Hx. by apply Hm.
Qed.

End counting.

(** ** The invariant *)

Section devices.
Context `{UuidLib} `{ManifestLib}.

Definition retired_principal (s : MemoryStore) (p : UUID) : Prop :=
  is_Some (ms_retiredPrincipals s !! p).

(** The domain is that of a Space. *)
Definition space_key (spaces : gmap UUID memorySpace) (key : domainKey) : Prop :=
  ∃ id space, spaces !! id = Some space ∧
    key = (sp_PrincipalID (msp_provisioning space), space_domain space).

(** What the store's own maps say. *)
Record DeviceFacts (s : MemoryStore) : Prop := {
  df_initial id r q : ms_deviceAdmissions s !! id = Some r →
    ms_principals s !! da_PrincipalID (mda_admission r) = Some q →
    da_DeviceID (mda_admission r) ≠ pp_InitialDeviceID (prn_provisioning q);
  df_distinct id1 id2 r1 r2 : ms_deviceAdmissions s !! id1 = Some r1 →
    ms_deviceAdmissions s !! id2 = Some r2 → is_Some (mda_result r1) → is_Some (mda_result r2) →
    da_PrincipalID (mda_admission r1) = da_PrincipalID (mda_admission r2) →
    da_DeviceID (mda_admission r1) = da_DeviceID (mda_admission r2) → id1 = id2;
  df_revoked p d : is_Some (revoked_devices s p !! d) → registeredPrincipalDevice s p d;
  df_retired p : retired_principal s p → is_Some (ms_principals s !! p);
  df_count p : is_Some (ms_principals s !! p) →
    if decide (retired_principal s p) then activeDeviceCount s p = 0 else 1 ≤ activeDeviceCount s p }.

(** Together with the relay: the control domains are no Space's, plain claims
    are one per member there, and a recorded claim is its member's only one. *)
Record DeviceRest (s : MemoryStore) : Prop := {
  dw_control p q : ms_principals s !! p = Some q →
    at_domain (p, control_domain q) (Roster ClaimFacts) (ms_relay s) ∧
    ¬ space_key (ms_spaces s) (p, control_domain q);
  dw_unique key : ¬ space_key (ms_spaces s) key → where_present key (Roster Unique) (ms_relay s);
  dw_sole id r q : ms_deviceAdmissions s !! id = Some r → is_Some (mda_result r) →
    ms_principals s !! da_PrincipalID (mda_admission r) = Some q →
    at_domain (da_PrincipalID (mda_admission r), control_domain q)
      (Roster (Sole id (da_DeviceID (mda_admission r)))) (ms_relay s);
  dw_facts : DeviceFacts s }.

Definition DeviceWF (s : MemoryStore) : Prop := SyncWF s ∧ DeviceRest s.

Lemma device_facts_same s s' :
  ms_principals s' = ms_principals s → ms_deviceAdmissions s' = ms_deviceAdmissions s →
  ms_revokedDevices s' = ms_revokedDevices s → ms_retiredPrincipals s' = ms_retiredPrincipals s →
  DeviceFacts s → DeviceFacts s'.
Proof.
  destruct s, s'. simpl. intros -> -> -> -> [Hi Hd Hr Ht Hc]. split; [exact Hi|exact Hd|exact Hr|exact Ht|].
  intros p Hp. specialize (Hc p Hp). unfold retired_principal, activeDeviceCount, revoked_devices in *.
  simpl in *. exact Hc.
Qed.

(** The relay's calls, but for replacing claims on a domain that is no
    Space's. *)
Lemma device_wf_relay op s :
  (∀ key, ¬ space_key (ms_spaces s) key → replaces_elsewhere key op) → DeviceWF s →
  DeviceWF (s <| ms_relay := RelayMachine.perform op (ms_relay s) |>).
Proof.
  intros Hop [Hs [Hc Hu Ho Hf]]. pose proof (sw_owned _ Hs) as Hown.
  split; [by apply sync_wf_stable|]. split; cbn.
  - intros p q Hq. destruct (Hc p q Hq) as [Hat Hsp]. split; [|done].
    by apply (perform_roster_at true _ claim_facts_closed).
  - intros key Hk. apply perform_unique; [by apply Hop|done|by apply Hu].
  - intros id r q Hr Hres Hq. apply (perform_roster_at false _ (sole_closed _ _)); [|done|by apply Ho].
    intros _. apply Hop. by apply (Hc _ _ Hq).
  - by apply (device_facts_same s).
Qed.

Lemma device_wf_stable : StableUnder plain DeviceWF.
Proof. intros op s Hop. apply device_wf_relay. intros key _. by destruct op. Qed.

(** ** The operations *)

#[local] Hint Resolve device_wf_stable : core.

(** Changes of the store's own maps that leave Spaces and the relay alone. *)
Lemma device_rest_same s s' :
  ms_relay s' = ms_relay s → ms_spaces s' = ms_spaces s →
  ms_principals s' = ms_principals s → ms_deviceAdmissions s' = ms_deviceAdmissions s →
  DeviceFacts s' → DeviceRest s → DeviceRest s'.
Proof.
  intros Hr Hsp Hp Hd Hf [Hc Hu Ho _]. split; rewrite ?Hr, ?Hsp, ?Hp, ?Hd; done.
Qed.

Lemma device_rest_other s s' :
  ms_relay s' = ms_relay s → ms_spaces s' = ms_spaces s → ms_principals s' = ms_principals s →
  ms_deviceAdmissions s' = ms_deviceAdmissions s → ms_revokedDevices s' = ms_revokedDevices s →
  ms_retiredPrincipals s' = ms_retiredPrincipals s → DeviceRest s → DeviceRest s'.
Proof.
  intros Hr Hsp Hp Hd Hv Ht Hs. apply (device_rest_same s); try done.
  by apply (device_facts_same s); [..|apply dw_facts].
Qed.

(** Principals that are provisioned as before. *)
Lemma put_principal_rest s p q :
  (∀ q', ms_principals s !! p = Some q' → prn_provisioning q' = prn_provisioning q) →
  is_Some (ms_principals s !! p) → DeviceRest s →
  DeviceRest (s <| ms_principals := <[p := q]> (ms_principals s) |>).
Proof.
  intros Hold [q0 Hq0] [Hc Hu Ho [Hi Hd Hr Ht Hn]].
  assert (∀ k x, <[p := q]> (ms_principals s) !! k = Some x →
    ∃ y, ms_principals s !! k = Some y ∧ prn_provisioning y = prn_provisioning x) as Hback.
  { intros k x [[<- <-]|[_ Hx]]%lookup_insert_Some; [exists q0; auto|by exists x]. }
  assert (∀ k, is_Some (<[p := q]> (ms_principals s) !! k) ↔ is_Some (ms_principals s !! k)) as Hdom.
  { intros k. rewrite lookup_insert_is_Some'. split; [intros [<-|?]; [by exists q0|done]|by right]. }
  split; cbn.
  - intros k x Hx. destruct (Hback _ _ Hx) as (y & Hy & Heq). unfold control_domain.
    rewrite <- Heq. by apply Hc.
  - done.
  - intros id r x Hrec Hres Hx. destruct (Hback _ _ Hx) as (y & Hy & Heq). unfold control_domain.
    rewrite <- Heq. by apply Ho.
  - split; cbn.
    + intros id r x Hrec Hx. destruct (Hback _ _ Hx) as (y & Hy & <-). by eapply Hi.
    + done.
    + intros k d Hk. destruct (Hr k d Hk) as [Hl|(y & Hy & Hdev)%some_and_Some]; [by left|].
      right. cbn. destruct (decide (k = p)) as [->|Hne].
      * rewrite lookup_insert_eq. cbn. by rewrite <- (Hold y).
      * by rewrite lookup_insert_ne, Hy.
    + intros k Hk. apply Hdom. by apply Ht.
    + intros k Hk%Hdom. by apply Hn.
Qed.

(** The relay's answer to a provisioning: the domain is there. *)
Lemma provision_present tenant p r :
  wp (ProvisionTenant tenant p) (fun r' res => ∀ a, res = inr a →
    is_Some (st_domains r' !! (dr_TenantID (dp_Registration p), dr_DomainID (dp_Registration p)))) r.
Proof.
  unfold ProvisionTenant. wp_steps; try done; intros res [= <-].
  all: match goal with Hp : TenantRegistration_ApplyCapacityPolicy _ _ = inr ?q,
      Hid : ¬ (tr_TenantID _ ≠ _ ∨ _) |- _ =>
    pose proof (apply_policy_key _ _ _ Hp) as [= Hk1 Hk2];
    apply Decidable.not_or in Hid as [Htid%dec_stable _]; rewrite <- Hk2 end.
  - match goal with Hx : _ ∧ domainProvisioningEqual _ _ |- _ => pose proof (proj2 Hx) as Heq end.
    apply some_and_Some in Heq as (d & Hd & _). rewrite <- Htid, Hd. by eexists.
  - unfold createDomainLocked, put_domain, provisioning_key. cbn. rewrite Hk1, lookup_insert_eq.
    by eexists.
Qed.

(** An accepted provisioning made the domain. *)
Lemma provision_domain_fresh credential p now r :
  wp (ProvisionDomain credential p now) (fun _ res => ∀ a, res = inr a →
    dpr_Acceptance a = AcceptanceAccepted →
    st_domains r !! (tcred_TenantID credential, dr_DomainID (dp_Registration p)) = None) r.
Proof.
  unfold ProvisionDomain. wp_steps; try done; intros res [= <-]; [done|]. intros _.
  match goal with Hp : TenantRegistration_ApplyCapacityPolicy _ _ = inr _ |- _ =>
    apply apply_policy_key in Hp as [= _ Hk] end.
  by rewrite <- Hk.
Qed.

Lemma registered_principal s p d :
  SyncWF s → registeredPrincipalDevice s p d → is_Some (ms_principals s !! p).
Proof.
  intros Hs [(id & r & Hr & <- & _)%map_any_spec|(q & Hq & _)%some_and_Some]; [|by exists q].
  destruct (dr_principal _ _ _ (sf_device _ _ _ _ (sw_facts _ Hs) _ _ Hr)) as (q & Hq & _).
  by exists q.
Qed.

(** A new principal has one device. *)
Lemma new_principal_rest s p q :
  DeviceWF s → ms_principals s !! p = None →
  is_Some (st_domains (ms_relay s) !! (p, control_domain q)) →
  DeviceRest (s <| ms_principals := <[p := q]> (ms_principals s) |>).
Proof.
  intros [Hs [Hc Hu Ho [Hi Hd Hr Ht Hn]]] Hnew [d Hdom]. pose proof (sw_facts _ Hs) as Hf.
  assert (∀ id r, ms_deviceAdmissions s !! id = Some r → da_PrincipalID (mda_admission r) ≠ p) as Hrec.
  { intros id r Hrec Heq. destruct (dr_principal _ _ _ (sf_device _ _ _ _ Hf _ _ Hrec)) as (? & ? & _).
    congruence. }
  assert (∀ d, ¬ registeredPrincipalDevice s p d) as Hnone.
  { intros d' Hreg. apply (registered_principal _ _ _ Hs) in Hreg as [? ?]. congruence. }
  split; cbn.
  - intros k x [[<- <-]|[_ Hx]]%lookup_insert_Some; [|by apply Hc]. split.
    + exists d. split; [done|]. by apply (sw_claims _ Hs _ _ Hdom).
    + intros (id & space & Hsp & [= Heq _]).
      destruct (sf_space _ _ _ _ Hf _ _ Hsp) as [[? Hx] _]. congruence.
  - done.
  - intros id r x Hr' Hres [[Heq _]|[_ Hx]]%lookup_insert_Some; [by destruct (Hrec _ _ Hr')|].
    by apply Ho.
  - split; cbn.
    + intros id r x Hr' [[Heq _]|[_ Hx]]%lookup_insert_Some; [by destruct (Hrec _ _ Hr')|].
      by eapply Hi.
    + done.
    + intros k d' Hk. destruct (decide (k = p)) as [->|Hne]; [by destruct (Hnone d'); apply Hr|].
      destruct (Hr k d' Hk) as [Hl|Hl]; [by left|right]. cbn. by rewrite lookup_insert_ne.
    + intros k Hk. apply lookup_insert_is_Some'. right. by apply Ht.
    + intros k [->|[Hne Hk]]%lookup_insert_is_Some; [|by apply Hn].
      rewrite decide_False by (intros [? ?]%Ht; congruence).
      change (1 ≤ activeDeviceCount s k). unfold activeDeviceCount.
      rewrite map_count_zero by (intros id r Hr' [_ Hp]; by apply (Hrec _ _ Hr')).
      replace (revoked_devices s k) with (∅ : gmap UUID int64); [done|].
      symmetry. apply map_empty. intros d'. apply eq_None_not_Some. intros Hrev.
      apply (Hnone d'). by apply Hr.
Qed.

Lemma rest_claimAccountAdmission credential provisioning authority now s :
  DeviceWF s → wp (claimAccountAdmission credential provisioning authority now)
    (fun s' _ => DeviceRest s') s.
Proof.
  intros Hs. unfold claimAccountAdmission.
  repeat (lazymatch goal with |- wp (relay _) _ _ => fail | |- _ => sync_step DeviceWF end);
    try apply Hs.
  eapply (wp_call_spec _ DeviceWF); [done|apply _|done|apply provision_present|].
  intros r [e|res] Hr Hp; wp_steps; [apply Hr|]. specialize (Hp _ eq_refl).
  match goal with Hv : PrincipalProvisioning_Validate ?x = None |- _ => set (prov := x) in * end.
  match goal with |- DeviceRest (_ <| ms_principals := <[_ := ?q]> _ |>) => 
    apply (device_rest_other ((s <| ms_relay := r |>)
      <| ms_principals := <[pp_PrincipalID prov := q]> (ms_principals (s <| ms_relay := r |>)) |>));
      try reflexivity end.
  destruct (ms_principals s !! pp_PrincipalID prov) as [q|] eqn:Hq.
  - match goal with |- DeviceRest (_ <| ms_principals := <[?k := ?x]> _ |>) =>
      apply (put_principal_rest (s <| ms_relay := r |>) k x); [|by exists q|apply Hr] end.
    intros q' Hq'. change (ms_principals s !! pp_PrincipalID prov = Some q') in Hq'.
    change (prn_provisioning q' = prov). apply dec_stable. intros Hne.
    match goal with Hx : ¬ some_and _ _ |- _ => apply Hx end. assert (q' = q) as -> by congruence.
    by right.
  - match goal with |- DeviceRest (_ <| ms_principals := <[?k := ?x]> _ |>) =>
      apply (new_principal_rest (s <| ms_relay := r |>) k x); [done|done|] end.
    match goal with Hv : PrincipalProvisioning_Validate prov = None |- _ =>
      unfold PrincipalProvisioning_Validate in Hv; rewrite !err_then_None, !err_when_None in Hv;
      destruct Hv as (_ & _ & _ & Hscope) end.
    apply Decidable.not_or in Hscope as [_ [Ht%dec_stable _]%Decidable.not_or].
    unfold control_domain. cbn. cbn in Ht, Hp. by rewrite Ht.
Qed.

Lemma rest_activate p d r m now s :
  DeviceWF s → wp (ActivateBoundDeviceSyncScope p d r m now) (fun s' _ => DeviceRest s') s.
Proof.
  intros Hs. unfold ActivateBoundDeviceSyncScope. sync_steps DeviceWF; try apply Hs.
  apply put_principal_rest; [|by eexists|apply Hs]. intros q' Hq'. cbn. congruence.
Qed.

(** ** Device admissions *)

Lemma registered_grows s s' :
  ms_principals s' = ms_principals s →
  (∀ id r, ms_deviceAdmissions s !! id = Some r → ∃ r', ms_deviceAdmissions s' !! id = Some r' ∧
     mda_admission r' = mda_admission r ∧ (is_Some (mda_result r) → is_Some (mda_result r'))) →
  ∀ p d, registeredPrincipalDevice s p d → registeredPrincipalDevice s' p d.
Proof.
  intros Hp Hd p d [(id & r & Hr & H1 & H2 & H3)%map_any_spec|Hx]; [left|right; by rewrite Hp].
  destruct (Hd _ _ Hr) as (r' & Hr' & Heq & Hres). apply map_any_spec. exists id, r'.
  rewrite Heq. auto.
Qed.

(** A new, unclaimed admission. *)
Lemma put_device_rest s id a :
  ms_deviceAdmissions s !! id = None →
  (∀ q, ms_principals s !! da_PrincipalID a = Some q →
     da_DeviceID a ≠ pp_InitialDeviceID (prn_provisioning q)) →
  DeviceRest s → DeviceRest (put_device_admission id (mkMemoryDeviceAdmission a None) s).
Proof.
  intros Hnew Hini [Hc Hu Ho [Hi Hd Hr Ht Hn]]. unfold put_device_admission. split; cbn.
  - done.
  - done.
  - intros k r q [[<- <-]|[_ Hk]]%lookup_insert_Some Hres; [by destruct Hres|by apply Ho].
  - split; cbn.
    + intros k r q [[<- <-]|[_ Hk]]%lookup_insert_Some; [apply Hini|by apply (Hi k)].
    + intros k1 k2 r1 r2 [[<- <-]|[_ H1]]%lookup_insert_Some [[<- <-]|[_ H2]]%lookup_insert_Some
        Hr1 Hr2; [done|by destruct Hr1|by destruct Hr2|by apply (Hd k1 k2 r1 r2)].
    + intros p d Hpd. eapply registered_grows; [..|by apply Hr]; [done|]. cbn.
      intros k r Hk. exists r. rewrite lookup_insert_ne; [done|]. intros ->. congruence.
    + done.
    + intros p Hp. specialize (Hn p Hp). unfold retired_principal, activeDeviceCount, revoked_devices in *.
      cbn. rewrite map_count_update; [exact Hn| |by intros [[? ?] _]].
      intros x Hx. congruence.
Qed.

(** A claim. *)
Lemma claim_device_rest s id a res q :
  ms_deviceAdmissions s !! id = Some (mkMemoryDeviceAdmission a None) →
  ms_principals s !! da_PrincipalID a = Some q → ¬ retired_principal s (da_PrincipalID a) →
  at_domain (da_PrincipalID a, control_domain q) (Roster (Sole id (da_DeviceID a))) (ms_relay s) →
  (∀ k r, ms_deviceAdmissions s !! k = Some r → is_Some (mda_result r) →
     da_PrincipalID (mda_admission r) = da_PrincipalID a → da_DeviceID (mda_admission r) ≠ da_DeviceID a) →
  DeviceRest s → DeviceRest (put_device_admission id (mkMemoryDeviceAdmission a (Some res)) s).
Proof.
  intros Hold Hq Hnr Hsole Hother [Hc Hu Ho [Hi Hd Hr Ht Hn]]. unfold put_device_admission.
  split; cbn.
  - done.
  - done.
  - intros k r q' [[<- <-]|[_ Hk]]%lookup_insert_Some Hres Hq'; [|by apply Ho].
    cbn in *. assert (q' = q) as -> by congruence. done.
  - split; cbn.
    + intros k r q' [[<- <-]|[_ Hk]]%lookup_insert_Some; [exact (Hi id _ q' Hold)|by apply (Hi k)].
    + intros k1 k2 r1 r2 [[<- <-]|[_ H1]]%lookup_insert_Some [[<- <-]|[_ H2]]%lookup_insert_Some
        Hr1 Hr2 Hp Hdev; cbn in *; [done| | |by apply (Hd k1 k2 r1 r2)].
      * by destruct (Hother _ _ H2 Hr2).
      * by destruct (Hother _ _ H1 Hr1).
    + intros p d Hpd. eapply registered_grows; [..|by apply Hr]; [done|]. cbn.
      intros k r Hk. destruct (decide (k = id)) as [->|Hne].
      * assert (r = mkMemoryDeviceAdmission a None) as -> by congruence.
        eexists. rewrite lookup_insert_eq. split; [done|]. split; [done|by intros [? ?]].
      * exists r. by rewrite lookup_insert_ne.
    + done.
    + intros p Hp. specialize (Hn p Hp). unfold activeDeviceCount, revoked_devices, retired_principal in *.
      cbn in *. destruct (decide (da_PrincipalID a = p)) as [<-|Hne].
      * rewrite decide_False in Hn |- * by done. rewrite map_count_becomes; [lia| |].
        -- intros x Hx. rewrite Hold in Hx. injection Hx as <-. by intros [[? ?] _].
        -- split; [by eexists|done].
      * rewrite map_count_update; [exact Hn| |by intros [_ ?]].
        intros x Hx. rewrite Hold in Hx. injection Hx as <-. by intros [[? ?] _].
Qed.

Lemma rest_CreateDeviceAdmission credential admission now s :
  DeviceWF s → wp (CreateDeviceAdmission credential admission now) (fun s' _ => DeviceRest s') s.
Proof.
  intros Hs. unfold CreateDeviceAdmission. sync_steps DeviceWF;
    try match goal with Hr : DeviceWF ?x |- DeviceRest ?x => exact (proj2 Hr) end.
  match goal with |- DeviceRest (?x <| ms_deviceAdmissionRetry := _ |>) =>
    apply (device_rest_other x); try reflexivity end.
  apply put_device_rest; [by apply eq_None_not_Some| |].
  - match goal with Hx : ms_principals s !! _ = Some ?p, Hn : ¬ registeredPrincipalDevice s _ _ |- _ =>
      intros q Hq Heq; apply Hn; right; cbn in Hq; rewrite Hq; by cbn end.
  - match goal with Hr : DeviceWF ((s <| ms_relay := _ |>) <| ms_relay := _ |>) |- _ =>
      exact (proj2 Hr) end.
Qed.

Lemma rest_ClaimDeviceAdmission credential claim now s :
  DeviceWF s → wp (ClaimDeviceAdmission credential claim now) (fun s' _ => DeviceRest s') s.
Proof.
  intros Hs. unfold ClaimDeviceAdmission.
  repeat (lazymatch goal with |- wp (relay _) _ _ => fail | |- _ => sync_step DeviceWF end);
    try apply Hs.
  destruct Hs as [Hwf Hrest]. pose proof (sw_facts _ Hwf) as Hf.
  match goal with Hx : ms_deviceAdmissions s !! _ = Some ?x, Hun : mda_result ?x = None |- _ =>
    destruct (sf_device _ _ _ _ Hf _ _ Hx) as [Hid (q & Hq & Hdom) _];
    destruct x as [a res]; cbn in Hid, Hq, Hdom, Hun; subst res; rename Hx into Hrec end.
  match goal with Hx : ¬ (dac_PrincipalID credential ≠ _ ∨ _) |- _ =>
    apply Decidable.not_or in Hx as [_ [_ Hdev%dec_stable]%Decidable.not_or] end.
  match goal with Hv : DeviceAdmissionClaim_Validate claim = None |- _ =>
    unfold DeviceAdmissionClaim_Validate in Hv; rewrite !err_then_None, !err_when_None in Hv;
    destruct Hv as (_ & _ & Hdcl%dec_stable) end.
  destruct (dw_control _ Hrest _ _ Hq) as [_ Hnsp].
  eapply (wp_call_spec _ DeviceWF); [done|apply _|by split|apply claim_sole; cbn; rewrite Hdom;
    by apply (dw_unique _ Hrest)|].
  intros r [e|res] Hr Hp; sync_steps DeviceWF; try apply Hr. specialize (Hp _ eq_refl).
  cbn in Hp. rewrite Hdom, <- Hdcl in Hp. cbn in Hdev. rewrite Hdev in Hp. destruct Hp as [Hsole Honly].
  cbn. apply (claim_device_rest (s <| ms_relay := r |>) _ _ _ q); [done|done| |done| |apply Hr].
  - match goal with Hx : ¬ is_Some (ms_retiredPrincipals s !! _) |- _ => exact Hx end.
  - intros k x Hk Hres Hp Hd. cbn in Hk.
    assert (k = dac_AdmissionID credential) as ->.
    { apply Honly. rewrite <- Hp, <- Hd. apply (dw_sole _ Hrest); [done|done|]. by rewrite Hp. }
    rewrite Hrec in Hk. injection Hk as <-. by destruct Hres.
Qed.

(** A revocation takes one device away. *)
Lemma revoke_device_rest s revocation result now :
  let p := rev_PrincipalID revocation in
  is_Some (ms_principals s !! p) → ¬ retired_principal s p →
  revoked_devices s p !! rev_DeviceID revocation = None →
  registeredPrincipalDevice s p (rev_DeviceID revocation) →
  (if rev_RetirePrincipal revocation then activeDeviceCount s p = 1 else 2 ≤ activeDeviceCount s p) →
  DeviceRest s → DeviceRest (record_device_revocation revocation result now s).
Proof.
  intros p Hp Hnr Hnew Hreg Hcount Hrest.
  set (s' := record_device_revocation revocation result now s).
  assert (ms_revokedDevices s' = <[p := <[rev_DeviceID revocation := now]> (revoked_devices s p)]>
    (ms_revokedDevices s)) as Hrev.
  { unfold s', record_device_revocation. by destruct (rev_RetirePrincipal revocation). }
  assert (∀ k, revoked_devices s' k = if decide (k = p) then
    <[rev_DeviceID revocation := now]> (revoked_devices s p) else revoked_devices s k) as Hrevs.
  { intros k. unfold revoked_devices at 1. rewrite Hrev. case_decide as Hk.
    - by rewrite Hk, lookup_insert_eq.
    - by rewrite lookup_insert_ne. }
  assert (∀ k, retired_principal s' k ↔ retired_principal s k ∨
    (k = p ∧ rev_RetirePrincipal revocation = true)) as Hret.
  { intros k. unfold s', record_device_revocation, retired_principal.
    destruct (rev_RetirePrincipal revocation); cbn; [|naive_solver].
    rewrite lookup_insert_is_Some'. naive_solver. }
  assert (ms_principals s' = ms_principals s ∧ ms_deviceAdmissions s' = ms_deviceAdmissions s ∧
    ms_relay s' = ms_relay s ∧ ms_spaces s' = ms_spaces s) as (Hp' & Hd' & Hr' & Hs').
  { unfold s', record_device_revocation. by destruct (rev_RetirePrincipal revocation). }
  apply (device_rest_same s); [done|done|done|done| |done].
  destruct (dw_facts _ Hrest) as [Hi Hd Hr Ht Hn]. split; rewrite ?Hp', ?Hd'; [done|done|..].
  - intros k d. rewrite Hrevs. intros Hk. unfold registeredPrincipalDevice. rewrite Hp', Hd'.
    case_decide as Heq; [|by apply Hr]. subst k.
    apply lookup_insert_is_Some' in Hk as [<-|Hk]; [done|by apply Hr].
  - intros k [Hk|[-> _]]%Hret; [by apply Ht|done].
  - intros k Hk. specialize (Hn k Hk).
    destruct (decide (k = p)) as [->|Hne].
    + assert (activeDeviceCount s' p = activeDeviceCount s p - 1) as ->.
      { unfold activeDeviceCount. rewrite Hd', Hrevs, decide_True by done.
        rewrite zsize_insert_new by done. lia. }
      rewrite decide_False in Hn by done. destruct (rev_RetirePrincipal revocation) eqn:Hrp.
      * rewrite decide_True by (apply Hret; by right). lia.
      * rewrite decide_False by (intros [?|[_ ?]]%Hret; done). lia.
    + assert (activeDeviceCount s' k = activeDeviceCount s k) as ->.
      { unfold activeDeviceCount. by rewrite Hd', Hrevs, decide_False. }
      assert (retired_principal s' k ↔ retired_principal s k) as Hiff by (rewrite Hret; naive_solver).
      destruct (decide (retired_principal s k)) as [Hrk|Hrk].
      * rewrite decide_True by (by apply Hiff). exact Hn.
      * rewrite decide_False by (by rewrite Hiff). exact Hn.
Qed.

Lemma rest_RevokeDevice credential revocation now s :
  DeviceWF s → wp (RevokeDevice credential revocation now) (fun s' _ => DeviceRest s') s.
Proof.
  intros Hs. unfold RevokeDevice. sync_steps DeviceWF;
    try match goal with Hr : DeviceWF ?x |- DeviceRest ?x => exact (proj2 Hr) end.
  match goal with Hr : DeviceWF ((s <| ms_relay := _ |>) <| ms_relay := _ |>) |- _ =>
    destruct Hr as [_ Hrest] end.
  apply revoke_device_rest; [by eexists|assumption|by apply eq_None_not_Some|by apply dec_stable| |done].
  match goal with Ha : ¬ (rev_RetirePrincipal revocation = true ∧ ?n ≠ 1) |- _ =>
    change (if rev_RetirePrincipal revocation then n = 1 else 2 ≤ n) end.
  destruct (rev_RetirePrincipal revocation); lia.
Qed.
(** ** Spaces *)

(** A new Space on a domain that is no control domain. *)
Lemma put_space_rest s spaceID space :
  ms_spaces s !! spaceID = None →
  (∀ p q, ms_principals s !! p = Some q →
     (p, control_domain q) ≠ (sp_PrincipalID (msp_provisioning space), space_domain space)) →
  DeviceRest s → DeviceRest (put_space spaceID space s).
Proof.
  intros Hnew Hctl [Hc Hu Ho Hf]. unfold put_space. split; cbn; [| |done|by apply (device_facts_same s)].
  - intros p q Hq. destruct (Hc p q Hq) as [Hat Hno]. split; [done|].
    intros (id & sp & [[<- <-]|[_ Hsp]]%lookup_insert_Some & Hkey); [by apply (Hctl p q)|].
    apply Hno. by exists id, sp.
  - intros key Hno. apply Hu. intros (id & sp & Hsp & ->). apply Hno. exists id, sp.
    rewrite lookup_insert_ne; [done|]. intros ->. congruence.
Qed.

(** A Space that is provisioned as before. *)
Lemma same_space_rest s spaceID space old :
  ms_spaces s !! spaceID = Some old → msp_provisioning space = msp_provisioning old →
  DeviceRest s → DeviceRest (put_space spaceID space s).
Proof.
  intros Hold Heq [Hc Hu Ho Hf]. unfold put_space.
  assert (∀ key, space_key (<[spaceID := space]> (ms_spaces s)) key ↔ space_key (ms_spaces s) key) as Hkey.
  { intros key. unfold space_key, space_domain. split.
    - intros (id & sp & [[<- <-]|[_ Hsp]]%lookup_insert_Some & ->).
      + exists spaceID, old. by rewrite Heq.
      + by exists id, sp.
    - intros (id & sp & Hsp & ->). destruct (decide (id = spaceID)) as [->|Hne].
      + exists spaceID, space. rewrite lookup_insert_eq, Heq. split; [done|]. by replace sp with old by congruence.
      + exists id, sp. by rewrite lookup_insert_ne. }
  split; cbn; [| |done|by apply (device_facts_same s)].
  - intros p q Hq. rewrite Hkey. by apply Hc.
  - intros key. rewrite Hkey. apply Hu.
Qed.

Lemma rest_ProvisionSpace credential provisioning now s :
  DeviceWF s → wp (ProvisionSpace credential provisioning now) (fun s' _ => DeviceRest s') s.
Proof.
  intros Hs. unfold ProvisionSpace.
  repeat (lazymatch goal with |- wp (relay _) _ _ => fail | |- _ => sync_step DeviceWF end);
    try apply Hs.
  - eapply (wp_call _ DeviceWF); [done|apply _|done|intros r [?|?] Hr]; cbn beta iota;
      sync_steps DeviceWF; apply Hr.
  - eapply (wp_call_spec _ DeviceWF); [done|apply _|done|apply provision_domain_fresh|].
    intros r [e|res] Hr Hp; sync_steps DeviceWF; try apply Hr.
    match goal with |- DeviceRest (?x <| ms_spaceRetry := _ |>) => apply (device_rest_other x); try reflexivity end.
    match goal with Hx : ¬ (dpr_Acceptance _ ≠ _) |- _ =>
      apply dec_stable in Hx; specialize (Hp _ eq_refl Hx) end.
    apply put_space_rest; [done| |apply Hr]. cbn. intros p q Hq Heq.
    destruct (dw_control _ (proj2 Hs) p q Hq) as [(d & Hd & _) _]. rewrite Heq in Hd.
    match goal with Hx : ¬ (tcred_TenantID credential ≠ _ ∨ _) |- _ =>
      apply Decidable.not_or in Hx as [Ht%dec_stable _] end.
    unfold space_domain in Hd. cbn in Hd. congruence.
Qed.

Lemma rest_CreateSpaceDeviceAdmission sponsor admission now s :
  DeviceWF s → wp (CreateSpaceDeviceAdmission sponsor admission now) (fun s' _ => DeviceRest s') s.
Proof.
  intros Hs. unfold CreateSpaceDeviceAdmission. sync_steps DeviceWF;
    try match goal with Hr : DeviceWF ?x |- DeviceRest ?x => exact (proj2 Hr) end.
  all: match goal with Hr : DeviceWF ?x |- context [foldl forget_space_admission ?x ?l] =>
    rewrite (forget_same x l); apply (device_rest_other x); try reflexivity; exact (proj2 Hr) end.
Qed.

Lemma rest_ClaimSpaceDeviceAdmission credential claim now s :
  DeviceWF s → wp (ClaimSpaceDeviceAdmission credential claim now) (fun s' _ => DeviceRest s') s.
Proof.
  intros Hs. unfold ClaimSpaceDeviceAdmission, require_sponsor.
  repeat (lazymatch goal with |- wp (relay (if _ then _ else _)) _ _ => fail
    | |- _ => sync_step DeviceWF end); try (match goal with Hr : DeviceWF ?x |- DeviceRest ?x =>
      exact (proj2 Hr) end).
  match goal with Hr : DeviceWF ?x |- wp _ _ ?x =>
    rename Hr into Hs1; assert (ms_spaces x = ms_spaces s) as Hsp1 by done end.
  match goal with Hx : ¬ (sdac_PrincipalID credential ≠ _ ∨ _) |- _ =>
    apply Decidable.not_or in Hx as [_ [_ [_ [Hid2%dec_stable _]%Decidable.not_or
      ]%Decidable.not_or]%Decidable.not_or] end.
  match goal with Hx : ms_spaceDeviceAdmissions s !! _ = Some ?x |- _ =>
    destruct (sdr_space _ _ _ (sf_space_device _ _ _ _ (sw_facts _ (proj1 Hs)) _ _ Hx))
      as (space & Hsp & Hpr & Hdom); unfold space_of; rewrite Hid2, Hsp end.
  eapply (wp_call (fun op => ∀ key, ¬ space_key (ms_spaces s) key → replaces_elsewhere key op)
    (fun s' => ms_spaces s' = ms_spaces s ∧ DeviceWF s')).
  - intros op s' Hop [Heq Hs']. split; [done|]. apply device_wf_relay; [by rewrite Heq|done].
  - case_decide.
    + eexists (OpClaimReplacing _ _ _ _). split; [|reflexivity]. cbn. intros key Hno Hk. apply Hno.
      rewrite <- Hk, <- Hpr, Hdom. by exists (sda_SpaceID (msd_admission a)), space.
    + by eexists (OpClaimSubscriptionAdmission _ _ _).
  - done.
  - intros r2 [e|sam] [_ Hr]; sync_steps DeviceWF; [apply Hr|].
    match goal with |- DeviceRest (put_space_admission _ _ ?x) => apply (device_rest_other x); try reflexivity end.
    apply (same_space_rest _ _ _ space); [done|done|apply Hr].
Qed.

(** Every call but a direct replacing claim at the relay. *)
Definition direct (op : SyncOp) : Prop :=
  match op with OpRelay op => plain op | _ => True end.

Lemma perform_device_wf op s : direct op → DeviceWF s → DeviceWF (perform op s).
Proof.
  intros Hd Hs. split; [apply perform_sync_wf, Hs|]. sync_call op; [by apply device_wf_stable|..].
  all: try (first [ by apply rest_CreateDeviceAdmission | by apply rest_ClaimDeviceAdmission
    | by apply rest_ProvisionSpace | by apply rest_CreateSpaceDeviceAdmission | by apply rest_RevokeDevice
    | by apply rest_ClaimSpaceDeviceAdmission | by apply rest_activate ]).
  all: try solve [by apply rest_claimAccountAdmission|wp_steps; [apply Hs|by apply rest_claimAccountAdmission]].
  all: sync_steps DeviceWF; try (match goal with Hr : DeviceWF ?x |- DeviceRest ?x => exact (proj2 Hr) end).
  all: match goal with Hr : DeviceWF ?x |- DeviceRest _ => apply (device_rest_other x); try reflexivity; exact (proj2 Hr) end.
Qed.
(** ** The devices that are in use *)

(** The initial device and those of claimed admissions. *)
Definition enrolled_devices (s : MemoryStore) (p : UUID) : gset UUID :=
  (match ms_principals s !! p with
   | Some q => {[pp_InitialDeviceID (prn_provisioning q)]}
   | None => ∅
   end) ∪
  list_to_set (map (fun kv : UUID * memoryDeviceAdmission => da_DeviceID (mda_admission kv.2))
    (map_to_list (filter (fun kv : UUID * memoryDeviceAdmission => claimed_by p kv.2)
       (ms_deviceAdmissions s)))).

Definition active_devices (s : MemoryStore) (p : UUID) : gset UUID :=
  enrolled_devices s p ∖ dom (revoked_devices s p).

Lemma claimed_entry s p kv :
  kv ∈ map_to_list (filter (fun kv : UUID * memoryDeviceAdmission => claimed_by p kv.2)
    (ms_deviceAdmissions s)) ↔
  ms_deviceAdmissions s !! kv.1 = Some kv.2 ∧ claimed_by p kv.2.
Proof. destruct kv as [k r]. by rewrite elem_of_map_to_list, map_lookup_filter_Some. Qed.

Lemma registered_enrolled s p d : registeredPrincipalDevice s p d → d ∈ enrolled_devices s p.
Proof.
  unfold enrolled_devices. intros [(id & r & Hr & H1 & H2 & H3)%map_any_spec|(q & -> & <-)%some_and_Some].
  - apply elem_of_union_r, elem_of_list_to_set, list_elem_of_fmap. exists (id, r).
    by rewrite claimed_entry.
  - by apply elem_of_union_l, elem_of_singleton.
Qed.

(** The number of enrolled devices, for facts that hold between calls. *)
Lemma enrolled_size s p q :
  DeviceFacts s → ms_principals s !! p = Some q →
  Z.of_nat (size (enrolled_devices s p)) =
  1 + map_count (fun _ record => claimed_by p record) (ms_deviceAdmissions s).
Proof.
  intros [Hi Hd _ _ _] Hq. unfold enrolled_devices, map_count, zsize. rewrite Hq.
  rewrite size_union; [|apply disjoint_singleton_l; rewrite elem_of_list_to_set;
    intros (kv & Heq & [Hkv [Hres Hp]]%claimed_entry)%list_elem_of_fmap].
  - rewrite size_singleton, size_list_to_set.
    + rewrite length_map. rewrite length_map_to_list. lia.
    + apply NoDup_fmap_2_strong; [|apply NoDup_map_to_list].
      intros [k1 r1] [k2 r2] [H1 [Hr1 Hp1]]%claimed_entry [H2 [Hr2 Hp2]]%claimed_entry Heq.
      cbn in *. assert (k1 = k2) as <- by (apply (Hd k1 k2 r1 r2); congruence). congruence.
  - apply (Hi kv.1 kv.2 q); [done|by rewrite Hp|done].
Qed.

Lemma active_size s p q :
  DeviceFacts s → ms_principals s !! p = Some q →
  activeDeviceCount s p = Z.of_nat (size (active_devices s p)).
Proof.
  intros Hf Hq. unfold active_devices. assert (dom (revoked_devices s p) ⊆ enrolled_devices s p) as Hsub.
  { intros d Hd%elem_of_dom. apply registered_enrolled. by apply (df_revoked _ Hf). }
  pose proof (subseteq_size _ _ Hsub). rewrite size_difference by done.
  unfold activeDeviceCount. rewrite Nat2Z.inj_sub, (enrolled_size s p q) by done.
  unfold zsize. by rewrite size_dom.
Qed.

Lemma new_device_wf ttl : DeviceWF (NewMemoryStore (RelayState.NewMemoryStore ttl)).
Proof using All.
  split; [apply (reachable_sync_wf ttl), reachable_new|]. split; cbn.
  - by intros ? ? ?%lookup_empty_Some.
  - intros key _ d. rewrite new_store_domains. by intros ?%lookup_empty_Some.
  - by intros ? ? ? ?%lookup_empty_Some.
  - split; cbn; try by intros ? ? ? ?%lookup_empty_Some.
    + by intros ? ? ? ? ?%lookup_empty_Some.
    + intros p d. unfold revoked_devices. cbn. rewrite lookup_empty. cbn. rewrite lookup_empty.
      by intros [? ?].
    + intros p. unfold retired_principal. cbn. rewrite lookup_empty. by intros [? ?].
    + intros p. rewrite lookup_empty. by intros [? ?].
Qed.

Lemma perform_all_device_wf ops s : Forall direct ops → DeviceWF s → DeviceWF (perform_all ops s).
Proof.
  intros Hops. revert s. induction Hops as [|op ops Hop _ IH]; intros s Hs; [done|].
  by apply IH, perform_device_wf.
Qed.

End devices.

(** The second device's control membership, revoked at the relay itself. *)
Definition revoked_directly : MemoryStore :=
  perform (OpRelay (RelayMachine.OpRevokeMember admin_credential device_b 1500)) sync_two.

Definition revoke_a : DeviceRevocation :=
  mkDeviceRevocation SchemaVersion 241%N principalID device_a false.

Definition revoked_both : MemoryStore :=
  (RevokeDevice tenant_credential revoke_a 2000 revoked_directly).1.

Definition control_member_revoked (s : MemoryStore) (deviceID : UUID) : option bool :=
  d ← st_domains (ms_relay s) !! (tenantID, domainID);
  m ← dom_members d !! deviceID;
  Some (bool_decide (is_Some (mr_RevokedAtMilliseconds m))).

(** The device can no longer be revoked by device sync; and as it still counts
    as active, the other device, the last one that the relay serves, is
    revoked, although the principal is not retired. *)
Example revoked_directly_counts :
  (match (RevokeDevice tenant_credential revoke_b 2000 revoked_directly).2 with
   | inl _ => true | inr _ => false end,
   activeDeviceCount revoked_directly principalID,
   activeDeviceCount revoked_both principalID,
   control_member_revoked revoked_both device_a, control_member_revoked revoked_both device_b,
   ms_retiredPrincipals revoked_both !! principalID) =
  (true, 2, 1, Some true, Some true, None).
Proof. vm_compute. reflexivity. Qed.
