(* ===== verification/DeviceSyncRegistry.v ===== *)
(** * internal/devicesync: the registry of devices

    What device sync promises about the devices of a principal, as a small
    state machine: a device is enrolled once and withdrawn once, a principal
    keeps a device until it is retired, and retirement is for good.  The store
    refines it.  The machine speaks of what device sync itself enrolled and
    revoked; a membership that is revoked at the relay directly is no part of
    it (see [DeviceSyncDevices.revoked_directly_counts]). *)

From S2P Require Import Prelude GoEncoding Sha256 RelayModel RelayState RelayTenant RelayMember RelaySubscription RelayMachine RelayExample RelayReachable RelayAccess RelayClaims ServiceAuthority DeviceSyncModel DeviceSync DeviceSyncSpaces DeviceSyncExample DeviceSyncFacts DeviceSyncInvariant DeviceSyncRevocation DeviceSyncDevices.
#[local] Open Scope Z_scope.

(** ** The specification *)

(** The devices that a principal ever had, those withdrawn, and whether it was
    retired. *)
Record Registry := mkRegistry {
  rg_enrolled : gset UUID;
  rg_revoked : gset UUID;
  rg_retired : bool }.

Inductive Request :=
  | Open (principalID deviceID : UUID)
  | Enrol (principalID deviceID : UUID)
  | Withdraw (principalID deviceID : UUID) (retire : bool).

Definition subject (q : Request) : UUID :=
  match q with Open p _ | Enrol p _ | Withdraw p _ _ => p end.

(** A principal starts with one device.  A device is enrolled once, and
    withdrawn once: by itself only while another one is left, together with
    the principal only when it is the last.  Nothing follows retirement. *)
Inductive registry_step : Request → option Registry → option Registry → Prop :=
  | step_open p d : registry_step (Open p d) None (Some (mkRegistry {[d]} ∅ false))
  | step_enrol p d E R : d ∉ E →
      registry_step (Enrol p d) (Some (mkRegistry E R false))
        (Some (mkRegistry ({[d]} ∪ E) R false))
  | step_withdraw p d E R : d ∈ E → d ∉ R → E ∖ ({[d]} ∪ R) ≠ ∅ →
      registry_step (Withdraw p d false) (Some (mkRegistry E R false))
        (Some (mkRegistry E ({[d]} ∪ R) false))
  | step_retire p d E R : E ∖ R = {[d]} →
      registry_step (Withdraw p d true) (Some (mkRegistry E R false))
        (Some (mkRegistry E ({[d]} ∪ R) true)).

Section refinement.
Context `{UuidLib} `{ManifestLib}.

(** The request that a call makes of the registry. *)
Definition request_of (op : SyncOp) : option Request :=
  match op with
  | OpClaimAccountAdmission _ provisioning _
  | OpClaimAccountAdmissionWithAuthority _ provisioning _ _ =>
    Some (Open (pp_PrincipalID provisioning) (pp_InitialDeviceID provisioning))
  | OpClaimDeviceAdmission _ claim _ => Some (Enrol (dcl_PrincipalID claim) (dcl_DeviceID claim))
  | OpRevokeDevice _ revocation _ => Some (Withdraw (rev_PrincipalID revocation)
      (rev_DeviceID revocation) (rev_RetirePrincipal revocation))
  | _ => None
  end.

(** The call reports that it enrolled, or revoked, the device. *)
Definition accepted (op : SyncOp) (s : MemoryStore) : Prop :=
  match op with
  | OpClaimDeviceAdmission credential claim now => ∃ res,
    (ClaimDeviceAdmission credential claim now s).2 = inr res ∧
    dclr_Acceptance res = AcceptanceAccepted
  | OpRevokeDevice credential revocation now => ∃ res,
    (RevokeDevice credential revocation now s).2 = inr res ∧
    rvr_Acceptance res = AcceptanceAccepted
  | _ => False
  end.

(** The registry of the principal [p] in the store. *)
Definition registry (s : MemoryStore) (p : UUID) : option Registry :=
  _ ← ms_principals s !! p;
  Some (mkRegistry (enrolled_devices s p) (dom (revoked_devices s p))
    (bool_decide (retired_principal s p))).

Definition same_registries (s s' : MemoryStore) : Prop := ∀ p, registry s' p = registry s p.

(** One principal makes the step, the others stay as they are. *)
Definition takes (q : Request) (s s' : MemoryStore) : Prop :=
  registry_step q (registry s (subject q)) (registry s' (subject q)) ∧
  ∀ p, p ≠ subject q → registry s' p = registry s p.

(** ** What the registry depends on *)

Lemma enrolled_registered s p d : d ∈ enrolled_devices s p ↔ registeredPrincipalDevice s p d.
Proof.
  split; [|apply registered_enrolled]. unfold enrolled_devices, registeredPrincipalDevice.
  intros [Hi|Hc]%elem_of_union; [right|left].
  - destruct (ms_principals s !! p); [|set_solver]. by apply elem_of_singleton in Hi as ->.
  - apply elem_of_list_to_set, list_elem_of_fmap in Hc as ([id r] & -> & [Hr [Hres Hp]]%claimed_entry).
    apply map_any_spec. by exists id, r.
Qed.

Lemma registry_eq s s' p :
  (is_Some (ms_principals s' !! p) ↔ is_Some (ms_principals s !! p)) →
  (∀ d, registeredPrincipalDevice s' p d ↔ registeredPrincipalDevice s p d) →
  ms_revokedDevices s' !! p = ms_revokedDevices s !! p →
  (retired_principal s' p ↔ retired_principal s p) →
  registry s' p = registry s p.
Proof.
  intros Hp Hd Hr Ht. unfold registry.
  assert (enrolled_devices s' p = enrolled_devices s p) as ->
    by (apply set_eq; intros d; by rewrite !enrolled_registered).
  assert (revoked_devices s' p = revoked_devices s p) as -> by (unfold revoked_devices; by rewrite Hr).
  rewrite (bool_decide_ext _ _ Ht). destruct (ms_principals s' !! p), (ms_principals s !! p); try done.
  - destruct Hp as [Hp _]. by destruct Hp as [? [=]].
  - destruct Hp as [_ Hp]. by destruct Hp as [? [=]].
Qed.

Lemma registries_same s s' :
  ms_principals s' = ms_principals s → ms_deviceAdmissions s' = ms_deviceAdmissions s →
  ms_revokedDevices s' = ms_revokedDevices s → ms_retiredPrincipals s' = ms_retiredPrincipals s →
  same_registries s s'.
Proof.
  intros Hp Hd Hr Ht p. apply registry_eq; unfold registeredPrincipalDevice, retired_principal;
    by rewrite ?Hp, ?Hd, ?Hr, ?Ht.
Qed.

Lemma registries_trans s s1 s2 :
  same_registries s s1 → same_registries s1 s2 → same_registries s s2.
Proof. intros H1 H2 p. by rewrite H2. Qed.

Lemma registries_stable s : RelayStable (same_registries s).
Proof. intros op s' _ Hs'. eapply registries_trans; [exact Hs'|]. by apply registries_same. Qed.

(** A new, unclaimed admission enrols nobody. *)
Lemma registries_unclaimed s id a :
  ms_deviceAdmissions s !! id = None →
  same_registries s (put_device_admission id (mkMemoryDeviceAdmission a None) s).
Proof.
  intros Hnew p. apply registry_eq; try done. intros d. unfold registeredPrincipalDevice.
  cbn. rewrite !map_any_spec. split; (intros [(k & r & Hr & Hrest)|?]; [left|by right]).
  - apply lookup_insert_Some in Hr as [[<- <-]|[_ Hr]]; [by destruct Hrest as (_ & _ & [? ?])|].
    by exists k, r.
  - exists k, r. rewrite lookup_insert_ne; [done|]. intros ->. congruence.
Qed.

(** Neither does a principal that is recorded anew. *)
Lemma registries_principal s p q q' :
  ms_principals s !! p = Some q → prn_provisioning q' = prn_provisioning q →
  same_registries s (s <| ms_principals := <[p := q']> (ms_principals s) |>).
Proof.
  intros Hq Heq p'. apply registry_eq; try done.
  - cbn. rewrite lookup_insert_is_Some'. split; [intros [<-|?]; [by exists q|done]|by right].
  - intros d. unfold registeredPrincipalDevice. cbn. destruct (decide (p' = p)) as [->|Hne].
    + rewrite lookup_insert_eq, Hq. cbn. by rewrite Heq.
    + by rewrite lookup_insert_ne.
Qed.

(** ** The changes *)

Lemma only_left (E R : gset UUID) d : d ∈ E → d ∉ R → E ∖ ({[d]} ∪ R) = ∅ → E ∖ R = {[d]}.
Proof using Type.
  intros Hin Hout Hempty. apply set_eq. intros x. rewrite elem_of_difference, elem_of_singleton.
  split; [|by intros ->]. intros [HxE HxR]. destruct (decide (x = d)) as [|Hne]; [done|].
  assert (x ∈ E ∖ ({[d]} ∪ R)) as Hx; [|by rewrite Hempty in Hx].
  rewrite elem_of_difference, elem_of_union, elem_of_singleton. tauto.
Qed.

Lemma opens s p q :
  SyncWF s → DeviceFacts s → ms_principals s !! p = None →
  takes (Open p (pp_InitialDeviceID (prn_provisioning q))) s
    (s <| ms_principals := <[p := q]> (ms_principals s) |>).
Proof.
  intros Hs Hf Hnew. set (s' := s <| ms_principals := _ |>).
  assert (∀ d, ¬ registeredPrincipalDevice s p d) as Hnone.
  { intros d Hd. apply (registered_principal _ _ _ Hs) in Hd as [? ?]. congruence. }
  split; cbn [subject].
  - assert (registry s p = None) as -> by (unfold registry; by rewrite Hnew).
    assert (registry s' p = Some (mkRegistry {[pp_InitialDeviceID (prn_provisioning q)]} ∅ false)) as ->;
      [|constructor].
    unfold registry. change (ms_principals s') with (<[p := q]> (ms_principals s)).
    rewrite lookup_insert_eq. cbn. f_equal. f_equal.
    + apply set_eq. intros d. rewrite enrolled_registered, elem_of_singleton.
      unfold registeredPrincipalDevice, s'. cbn. rewrite lookup_insert_eq. cbn.
      split; [|by right]. intros [Hd|Hd]; [|done]. destruct (Hnone d). by left.
    + apply set_eq. intros d. rewrite elem_of_dom. split; [|set_solver].
      intros Hd. destruct (Hnone d). by apply (df_revoked _ Hf).
    + apply bool_decide_eq_false. intros Hr. destruct (df_retired _ Hf p Hr). congruence.
  - intros p' Hp'. apply registry_eq; try done; cbn.
    + by rewrite lookup_insert_ne.
    + intros d. unfold registeredPrincipalDevice. cbn. by rewrite lookup_insert_ne.
Qed.

Lemma enrols s id a res :
  SyncWF s → DeviceFacts s → ¬ retired_principal s (da_PrincipalID a) →
  ms_deviceAdmissions s !! id = Some (mkMemoryDeviceAdmission a None) →
  let s' := put_device_admission id (mkMemoryDeviceAdmission a (Some res)) s in
  DeviceFacts s' → takes (Enrol (da_PrincipalID a) (da_DeviceID a)) s s'.
Proof.
  intros Hs Hf Hnr Hid s' Hf'.
  destruct (dr_principal _ _ _ (sf_device _ _ _ _ (sw_facts _ Hs) _ _ Hid)) as (q & Hq & _).
  cbn in Hq. assert (∀ p d, registeredPrincipalDevice s' p d ↔
    (p = da_PrincipalID a ∧ d = da_DeviceID a) ∨ registeredPrincipalDevice s p d) as Hreg.
  { intros p d. unfold registeredPrincipalDevice, s', put_device_admission. cbn. rewrite !map_any_spec. split.
    - intros [(k & r & Hr & Hrest)|?]; [|by right; right].
      apply lookup_insert_Some in Hr as [[<- <-]|[_ Hr]]; [left; naive_solver|].
      right. left. by exists k, r.
    - intros [[-> ->]|[(k & r & Hr & Hp & Hd & Hres)|?]]; [left|left|by right].
      + exists id, (mkMemoryDeviceAdmission a (Some res)). by rewrite lookup_insert_eq.
      + exists k, r. rewrite lookup_insert_ne; [done|]. intros ->. rewrite Hid in Hr.
        injection Hr as <-. by destruct Hres. }
  split; cbn [subject].
  - assert (da_DeviceID a ∉ enrolled_devices s (da_PrincipalID a)) as Hfresh.
    { rewrite enrolled_registered.
      intros [(k & r & Hr & Hp & Hd & Hres)%map_any_spec|(q' & Hq' & Hd)%some_and_Some].
      - assert (id ≠ k) as Hne by (intros ->; rewrite Hid in Hr; injection Hr as <-; by destruct Hres).
        apply Hne. assert (ms_deviceAdmissions s' !! id = Some (mkMemoryDeviceAdmission a (Some res)))
          as Hid' by apply lookup_insert_eq.
        assert (ms_deviceAdmissions s' !! k = Some r) as Hr' by (rewrite <- Hr; by apply lookup_insert_ne).
        apply (df_distinct _ Hf' _ _ _ _ Hid' Hr'); [by eexists|done..].
      - by apply (df_initial _ Hf id _ q' Hid). }
    unfold registry. change (ms_principals s') with (ms_principals s). rewrite Hq. cbn.
    change (retired_principal s' _) with (retired_principal s (da_PrincipalID a)).
    change (revoked_devices s' _) with (revoked_devices s (da_PrincipalID a)).
    rewrite bool_decide_eq_false_2 by done.
    replace (enrolled_devices s' (da_PrincipalID a))
      with ({[da_DeviceID a]} ∪ enrolled_devices s (da_PrincipalID a)); [by constructor|].
    apply set_eq. intros d. rewrite elem_of_union, elem_of_singleton, !enrolled_registered, Hreg. naive_solver.
  - intros p Hp. apply registry_eq; try done. intros d. rewrite Hreg. naive_solver.
Qed.

Lemma withdraws s revocation result now :
  let p := rev_PrincipalID revocation in
  let s' := record_device_revocation revocation result now s in
  is_Some (ms_principals s !! p) → ¬ retired_principal s p →
  revoked_devices s p !! rev_DeviceID revocation = None →
  registeredPrincipalDevice s p (rev_DeviceID revocation) →
  DeviceFacts s' →
  takes (Withdraw p (rev_DeviceID revocation) (rev_RetirePrincipal revocation)) s s'.
Proof.
  intros p s' [q Hq] Hnr Hnew Hreg Hf'. set (d := rev_DeviceID revocation) in *.
  assert (ms_revokedDevices s' = <[p := <[d := now]> (revoked_devices s p)]> (ms_revokedDevices s) ∧
    ms_principals s' = ms_principals s ∧ ms_deviceAdmissions s' = ms_deviceAdmissions s)
    as (Hrev & Hp & Hd).
  { unfold s', record_device_revocation. by destruct (rev_RetirePrincipal revocation). }
  assert (∀ k, retired_principal s' k ↔
    retired_principal s k ∨ (k = p ∧ rev_RetirePrincipal revocation = true)) as Hret.
  { intros k. unfold s', record_device_revocation, retired_principal.
    destruct (rev_RetirePrincipal revocation); cbn; [|naive_solver].
    rewrite lookup_insert_is_Some'. naive_solver. }
  assert (revoked_devices s' p = <[d := now]> (revoked_devices s p)) as Hrevs.
  { unfold revoked_devices at 1. by rewrite Hrev, lookup_insert_eq. }
  assert (∀ k, enrolled_devices s' k = enrolled_devices s k) as Hen.
  { intros k. unfold enrolled_devices. by rewrite Hp, Hd. }
  split; cbn [subject].
  - assert (ms_principals s' !! p = Some q) as Hq' by by rewrite Hp.
    pose proof (active_size s' p q Hf' Hq') as Hsize.
    pose proof (df_count _ Hf' p (ex_intro _ q Hq')) as Hcount.
    unfold active_devices in Hsize. rewrite Hen, Hrevs, dom_insert_L in Hsize.
    unfold registry. rewrite Hq, Hq', Hen, Hrevs, dom_insert_L. cbn.
    rewrite (bool_decide_eq_false_2 (retired_principal s p)) by done.
    assert (d ∈ enrolled_devices s p) as Hin by by apply enrolled_registered.
    assert (d ∉ dom (revoked_devices s p)) as Hout by by apply not_elem_of_dom.
    destruct (rev_RetirePrincipal revocation) eqn:Hr.
    + rewrite (decide_True (P := retired_principal s' p)) in Hcount by (apply Hret; by right).
      rewrite (bool_decide_eq_true_2 (retired_principal s' p)) by (apply Hret; by right).
      constructor. apply only_left; [done|done|]. apply leibniz_equiv, size_empty_inv. lia.
    + rewrite (decide_False (P := retired_principal s' p)) in Hcount by (intros [?|[_ ?]]%Hret; done).
      rewrite (bool_decide_eq_false_2 (retired_principal s' p)) by (intros [?|[_ ?]]%Hret; done).
      constructor; [done|done|]. intros Hempty. rewrite Hempty, size_empty in Hsize. lia.
  - intros k Hk. apply registry_eq; [by rewrite Hp| |by rewrite Hrev, lookup_insert_ne|rewrite Hret; naive_solver].
    intros x. unfold registeredPrincipalDevice. by rewrite Hp, Hd.
Qed.

(** ** The calls *)

#[local] Hint Resolve registries_stable : core.

(** The call kept every registry, or took the step that it asks for. *)
Definition moves (q : Request) (s s' : MemoryStore) : Prop := same_registries s s' ∨ takes q s s'.

Lemma takes_after q s s1 s2 :
  same_registries s s1 → takes q s1 s2 → takes q s s2.
Proof.
  intros Hsame [Hstep Hothers]. split; [by rewrite <- Hsame|]. intros p Hp. by rewrite Hothers.
Qed.

(** Another part of the store. *)
Lemma takes_then q s s1 s2 :
  takes q s s1 → same_registries s1 s2 → takes q s s2.
Proof.
  intros [Hstep Hothers] Hsame. split; [by rewrite Hsame|]. intros p Hp. by rewrite Hsame, Hothers.
Qed.

Lemma moves_claimAccountAdmission credential provisioning authority now s :
  DeviceWF s → wp (claimAccountAdmission credential provisioning authority now)
    (fun s' _ => moves (Open (pp_PrincipalID provisioning) (pp_InitialDeviceID provisioning)) s s') s.
Proof.
  intros [Hs Hrest]. assert (same_registries s s) as Hself by done.
  unfold claimAccountAdmission. sync_steps (same_registries s); try by left.
  match goal with |- moves _ _ (_ <| ms_principals := <[?k := ?x]> _ |>) =>
    set (p := k) in *; set (q := x) in * end.
  set (s2 := s <| ms_principals := <[p := q]> (ms_principals s) |>).
  match goal with |- moves _ _ ?s' => assert (same_registries s2 s') as Hlast by by apply registries_same end.
  destruct (ms_principals s !! p) as [old|] eqn:Hold.
  - left. eapply registries_trans; [|exact Hlast]. apply (registries_principal s p old q Hold).
    apply dec_stable. intros Hne. match goal with Hx : ¬ some_and _ _ |- _ => apply Hx end.
    right. intros Heq. by apply Hne.
  - right. eapply takes_then; [|exact Hlast]. exact (opens s p q Hs (dw_facts _ Hrest) Hold).
Qed.

Lemma moves_ClaimDeviceAdmission credential claim now s :
  DeviceWF s → wp (ClaimDeviceAdmission credential claim now) (fun s' r => DeviceFacts s' →
    let q := Enrol (dcl_PrincipalID claim) (dcl_DeviceID claim) in
    moves q s s' ∧ ∀ res, r = inr res → dclr_Acceptance res = AcceptanceAccepted → takes q s s') s.
Proof.
  intros [Hs Hrest]. assert (same_registries s s) as Hself by done.
  unfold ClaimDeviceAdmission. sync_steps (same_registries s);
    try (intros _; split; [by left|by intros ? [= <-]]).
  match goal with Hx : ms_deviceAdmissions s !! _ = Some ?x, Hun : mda_result ?x = None |- _ =>
    destruct x as [a res]; cbn in Hun; subst res; rename Hx into Hrec end.
  match goal with Hx : ¬ (dac_PrincipalID credential ≠ _ ∨ _) |- _ =>
    apply Decidable.not_or in Hx as [_ [Hp%dec_stable Hd%dec_stable]%Decidable.not_or] end.
  intros Hf'. cbn in Hp, Hd. set (p := dcl_PrincipalID claim) in *. set (d := dcl_DeviceID claim) in *.
  match goal with |- moves _ s ?s' ∧ _ => assert (takes (Enrol p d) s s') as Ht end;
    [|by split; [right|]].
  match type of Hf' with DeviceFacts (put_device_admission ?id (mkMemoryDeviceAdmission _ (Some ?res)) _) =>
    apply (takes_then _ _ (put_device_admission id (mkMemoryDeviceAdmission a (Some res)) s)) end;
    [|by apply registries_same].
  rewrite Hp, Hd at 1. apply enrols; [done|exact (dw_facts _ Hrest)|done|done|].
  eapply device_facts_same; [..|exact Hf']; done.
Qed.

Lemma moves_RevokeDevice credential revocation now s :
  DeviceWF s → wp (RevokeDevice credential revocation now) (fun s' r => DeviceFacts s' →
    let q := Withdraw (rev_PrincipalID revocation) (rev_DeviceID revocation)
      (rev_RetirePrincipal revocation) in
    moves q s s' ∧ ∀ res, r = inr res → rvr_Acceptance res = AcceptanceAccepted → takes q s s') s.
Proof.
  intros [Hs Hrest]. assert (same_registries s s) as Hself by done.
  unfold RevokeDevice. sync_steps (same_registries s);
    try (intros _; split; [by left|by intros ? [= <-]]).
  intros Hf'. match goal with |- moves ?q s ?s' ∧ _ => assert (takes q s s') as Ht end;
    [|by split; [right|]].
  match type of Hf' with DeviceFacts (record_device_revocation _ ?res _ ?s1) =>
    assert (same_registries (record_device_revocation revocation res now s)
      (record_device_revocation revocation res now s1)) as Hlast
      by (unfold record_device_revocation; destruct (rev_RetirePrincipal revocation); by apply registries_same);
    apply (takes_then _ _ (record_device_revocation revocation res now s)); [|exact Hlast] end.
  apply withdraws; [by eexists|assumption|by apply eq_None_not_Some|by apply dec_stable|].
  eapply device_facts_same; [..|exact Hf'];
    unfold record_device_revocation; by destruct (rev_RetirePrincipal revocation).
Qed.

(** Every call that makes no request of the registry. *)
Lemma same_perform op s : request_of op = None → same_registries s (perform op s).
Proof.
  intros Hq. set (inv := same_registries s). assert (inv s) as Hs by done.
  assert (RelayStable inv) as HI by apply registries_stable.
  change (inv (perform op s)). sync_call op; try done.
  all: sync_steps inv; try done.
  - unfold inv. by eapply registries_principal.
  - match goal with |- inv (?x <| ms_deviceAdmissionRetry := _ |>) =>
      apply (registries_trans _ x); [|by apply registries_same] end.
    eapply registries_trans; [|by apply registries_unclaimed, eq_None_not_Some]. by apply registries_same.
  - match goal with |- context [foldl forget_space_admission ?x ?l] => rewrite (forget_same x l) end.
    by apply registries_same.
  - match goal with |- context [foldl forget_space_admission ?x ?l] => rewrite (forget_same x l) end.
    by apply registries_same.
Qed.

End refinement.

