(* ===== verification/SharedSpacesModel.v ===== *)
(** * internal/sharedspaces: values and validation (model.go, errors.go)

    Participants with their signing and device keys, Spaces, invitations, key
    grants, and the signed roster of a Secure Space.  The device keys of a
    participant are a slice that the store shares between records: the records
    that carry one are polymorphic in its type, [Slice ParticipantDeviceKey]
    for a value and a reference in the store. *)

From S2P Require Import Prelude GoEncoding GoText Sha256 P256 RelayModel ServiceAuthority KeyCustody ComputePool.
#[local] Open Scope Z_scope.

(** ** Errors (errors.go) *)

Inductive SpaceErrorCode : Set :=
  | CodeInvalidSpace | CodeSpaceCollision | CodeSpaceNotFound
  | CodeInvalidProvisioningAdmission | CodeProvisioningAdmissionCollision
  | CodeProvisioningAdmissionNotFound | CodeProvisioningAdmissionClaimed
  | CodeProvisioningAdmissionExpired
  | CodeInvalidInvitation | CodeInvitationCollision | CodeInvitationNotFound
  | CodeInvitationClaimed | CodeInvitationCancelled | CodeInvitationCancellationCollision
  | CodeInvalidParticipant | CodeInvalidParticipantPresentation | CodeParticipantCollision
  | CodeParticipantPresentationCollision | CodeParticipantRoleCollision | CodeParticipantNotFound
  | CodeParticipantRevoked | CodeParticipantRosterUnavailable | CodeInitialHost
  | CodeUnauthorized | CodeWrongScope | CodeWrongKeyEpoch | CodeKeyGrantNotFound
  | CodeBootstrapNotReady | CodeInvalidAuthorityEvent | CodeInvalidComputeBinding
  | CodeComputeBindingCollision | CodeComputeBindingNotFound | CodeInvalidComputeCapability
  | CodeComputeCapabilityUnauthorized | CodeComputeCapabilityExpired.

(** A [ProtocolError] of the package, or an error of the relay, the service
    authority, key custody or the compute pool passed on. *)
Inductive SpaceError : Set :=
  | SpaceProtocolError (Code : SpaceErrorCode) (message : string)
  | SpacePlainError (message : string)
  | SpaceRelayError (err : GoError)
  | SpaceAuthorityError (err : AuthorityError)
  | SpaceCustodyError (err : CustodyError)
  | SpaceContractError (err : ContractError)
  | ErrInitialServiceAuthorityConflict.

Definition NewProtocolError (code : SpaceErrorCode) (message : string) : SpaceError :=
  SpaceProtocolError code message.

Definition ErrorHasCode (err : SpaceError) (code : SpaceErrorCode) : Prop :=
  match err with SpaceProtocolError c _ => c = code | _ => False end.

(** [if cond { return NewProtocolError(code, message) }] *)
Abbreviation refuse_when P code message := (err_when P (NewProtocolError code message)) (only parsing).

(** An error of the relay, returned as it is. *)
Definition from_relay (err : option GoError) : option SpaceError := SpaceRelayError <$> err.

(** ** Constants *)

Definition SchemaVersion : Z := 1.
Definition InitialKeyEpoch : uint64 := 1.
Definition ParticipantKeyGrantAlgorithm : string := "P256-HKDF-SHA256+A256GCM".
Definition ParticipantKeyGrantSignatureAlgorithm : string := "ES256".
Definition ManagedContentKeyAlgorithm : string := "A256GCM".
Definition MaximumParticipantKeyGrantCiphertextByteCount : Z := 16 * 1024.
Definition MaximumAuthorityEventPageSize : Z := 100.
Definition MaximumSecureRosterAttestationPageSize : Z := 100.
Definition MaximumParticipantDisplayNameBytes : Z := 512.
Definition MaximumParticipantDisplayNameRunes : Z := 128.

(** [validFingerprint] is the relay's [validDigest]. *)
Abbreviation validFingerprint value := (validDigest value) (only parsing).

Definition validParticipantDisplayName (value : string) : bool :=
  utf8_ValidString value && bool_decide (strings_TrimSpace value = value) &&
  bool_decide (value ≠ "" ∧ len value ≤ MaximumParticipantDisplayNameBytes ∧
    utf8_RuneCountInString value ≤ MaximumParticipantDisplayNameRunes).

(** The bytes of a base64url text that was checked before. *)
Definition decoded (value : string) : bytes := default [] (b64_DecodeString value).

Definition key_fingerprint (publicKeyX963 : string) : string :=
  hex_EncodeToString (Sum256 (decoded publicKeyX963)).

(** ** Signatures and keys *)

Record ParticipantKeyGrantSignature := mkParticipantKeyGrantSignature {
  kgs_Algorithm : string;
  kgs_PublicSigningKeyX963 : string;
  kgs_SigningKeyFingerprint : string;
  kgs_Signature : string }.

#[global] Instance ParticipantKeyGrantSignature_eq_dec : EqDecision ParticipantKeyGrantSignature.
Proof. solve_decision. Defined.

Definition ParticipantKeyGrantSignature_json (s : ParticipantKeyGrantSignature) : json :=
  JObject (
    field "algorithm" (JString (kgs_Algorithm s)) ++
    field "publicSigningKeyX963" (JString (kgs_PublicSigningKeyX963 s)) ++
    field "signingKeyFingerprint" (JString (kgs_SigningKeyFingerprint s)) ++
    field "signature" (JString (kgs_Signature s))).

(** The ES256 signature of the payload of a record. *)
Definition signature_verifies `{CurveLib} (publicKeyX963 signature : string) (payload : json)
    : bool :=
  let signatureBytes := decoded signature in
  let digest := Sum256 (Marshal payload) in
  match elliptic_Unmarshal (decoded publicKeyX963) with
  | None => false
  | Some key =>
    ecdsa_Verify key digest (BigEndian_Uint (take 32 signatureBytes))
      (BigEndian_Uint (drop 32 signatureBytes))
  end.

Record ParticipantSigningKey := mkParticipantSigningKey {
  psk_Algorithm : string;
  psk_PublicKeyX963 : string;
  psk_SigningKeyFingerprint : string }.

#[global] Instance ParticipantSigningKey_eq_dec : EqDecision ParticipantSigningKey.
Proof. solve_decision. Defined.

Definition ParticipantSigningKey_json (k : ParticipantSigningKey) : json :=
  JObject (
    field "algorithm" (JString (psk_Algorithm k)) ++
    field "publicKeyX963" (JString (psk_PublicKeyX963 k)) ++
    field "signingKeyFingerprint" (JString (psk_SigningKeyFingerprint k))).

Definition ParticipantSigningKey_Validate `{CurveLib} (k : ParticipantSigningKey)
    : option SpaceError :=
  let fingerprint := key_fingerprint (psk_PublicKeyX963 k) in
  let point := elliptic_Unmarshal (decoded (psk_PublicKeyX963 k)) in
  refuse_when (psk_Algorithm k ≠ ParticipantKeyGrantSignatureAlgorithm ∨
      ¬ validFingerprint (psk_SigningKeyFingerprint k) ∨
      ¬ validBase64URLSize (psk_PublicKeyX963 k) 65 65)
    CodeInvalidParticipant "Shared Space participant signing key fields are invalid" >>?
  refuse_when (fingerprint ≠ psk_SigningKeyFingerprint k)
    CodeInvalidParticipant "Shared Space participant signing-key fingerprint differs" >>?
  refuse_when (point = None)
    CodeInvalidParticipant "Shared Space participant signing key is invalid".

Definition ParticipantSigningKey_MatchesGrantSignature (k : ParticipantSigningKey)
    (signature : ParticipantKeyGrantSignature) : bool :=
  bool_decide (psk_Algorithm k = kgs_Algorithm signature ∧
    psk_PublicKeyX963 k = kgs_PublicSigningKeyX963 signature ∧
    psk_SigningKeyFingerprint k = kgs_SigningKeyFingerprint signature).

Record ParticipantDeviceKey := mkParticipantDeviceKey {
  pdk_Version : Z;
  pdk_SpaceID : UUID;
  pdk_ParticipantID : UUID;
  pdk_DeviceID : UUID;
  pdk_Algorithm : string;
  pdk_AgreementPublicKeyX963 : string;
  pdk_AgreementKeyFingerprint : string;
  pdk_CreatedAtMilliseconds : int64;
  pdk_RevokedAtMilliseconds : option int64;
  pdk_Signature : ParticipantKeyGrantSignature }.

#[global] Instance ParticipantDeviceKey_eq_dec : EqDecision ParticipantDeviceKey.
Proof. solve_decision. Defined.

Definition ParticipantDeviceKey_fields `{UuidLib} (k : ParticipantDeviceKey)
    : list (string * json) :=
  field "version" (JInt (pdk_Version k)) ++
  field "spaceID" (JUuid (pdk_SpaceID k)) ++
  field "participantID" (JUuid (pdk_ParticipantID k)) ++
  field "deviceID" (JUuid (pdk_DeviceID k)) ++
  field "algorithm" (JString (pdk_Algorithm k)) ++
  field "agreementPublicKeyX963" (JString (pdk_AgreementPublicKeyX963 k)) ++
  field "agreementKeyFingerprint" (JString (pdk_AgreementKeyFingerprint k)) ++
  field "createdAtMilliseconds" (JInt (pdk_CreatedAtMilliseconds k)) ++
  optional "revokedAtMilliseconds" JInt (pdk_RevokedAtMilliseconds k).

Definition ParticipantDeviceKey_SigningPayload `{UuidLib} (k : ParticipantDeviceKey) : json :=
  JObject (ParticipantDeviceKey_fields k).

Definition ParticipantDeviceKey_json `{UuidLib} (k : ParticipantDeviceKey) : json :=
  JObject (ParticipantDeviceKey_fields k ++
    field "signature" (ParticipantKeyGrantSignature_json (pdk_Signature k))).

(** [k.RevokedAtMilliseconds == nil] *)
Abbreviation device_active k := (pdk_RevokedAtMilliseconds k = None) (only parsing).

Definition hasActiveParticipantDeviceKey (keys : list ParticipantDeviceKey) (deviceID : UUID)
    (fingerprint : string) : Prop :=
  Exists (fun key => pdk_DeviceID key = deviceID ∧ device_active key ∧
    pdk_AgreementKeyFingerprint key = fingerprint) keys.

#[global] Instance hasActiveParticipantDeviceKey_dec keys id fingerprint :
  Decision (hasActiveParticipantDeviceKey keys id fingerprint).
Proof. unfold hasActiveParticipantDeviceKey. apply _. Defined.

(** ** Modes, kinds and roles *)

Abbreviation SecurityMode := string (only parsing).
Definition SecurityModePrivate : SecurityMode := "private".
Definition SecurityModeSecure : SecurityMode := "secure".
Definition SecurityModeManaged : SecurityMode := "managed".

Definition SecurityMode_Valid (m : SecurityMode) : Prop :=
  m = SecurityModePrivate ∨ m = SecurityModeSecure ∨ m = SecurityModeManaged.

#[global] Instance SecurityMode_Valid_dec m : Decision (SecurityMode_Valid m).
Proof. unfold SecurityMode_Valid. apply _. Defined.

Definition SecurityMode_ContentBlind (m : SecurityMode) : Prop :=
  m = SecurityModePrivate ∨ m = SecurityModeSecure.

#[global] Instance SecurityMode_ContentBlind_dec m : Decision (SecurityMode_ContentBlind m).
Proof. unfold SecurityMode_ContentBlind. apply _. Defined.

Abbreviation InteractionMode := string (only parsing).
Definition InteractionModeBroadcast : InteractionMode := "broadcast".
Definition InteractionModeCommunity : InteractionMode := "community".
Definition InteractionModeCollaborative : InteractionMode := "collaborative".

Definition InteractionMode_Valid (m : InteractionMode) : Prop :=
  m = InteractionModeBroadcast ∨ m = InteractionModeCommunity ∨ m = InteractionModeCollaborative.

#[global] Instance InteractionMode_Valid_dec m : Decision (InteractionMode_Valid m).
Proof. unfold InteractionMode_Valid. apply _. Defined.

Abbreviation ParticipantKind := string (only parsing).
Definition ParticipantPerson : ParticipantKind := "person".
Definition ParticipantNonhuman : ParticipantKind := "nonhuman".

Definition ParticipantKind_Valid (k : ParticipantKind) : Prop :=
  k = ParticipantPerson ∨ k = ParticipantNonhuman.

#[global] Instance ParticipantKind_Valid_dec k : Decision (ParticipantKind_Valid k).
Proof. unfold ParticipantKind_Valid. apply _. Defined.

Abbreviation Role := string (only parsing).
Definition RoleHost : Role := "host".
Definition RoleModerator : Role := "moderator".
Definition RoleParticipant : Role := "participant".
Definition RoleReader : Role := "reader".

Definition Role_Valid (r : Role) : Prop :=
  r = RoleHost ∨ r = RoleModerator ∨ r = RoleParticipant ∨ r = RoleReader.

#[global] Instance Role_Valid_dec r : Decision (Role_Valid r).
Proof. unfold Role_Valid. apply _. Defined.

(** [role == RoleHost || role == RoleModerator] *)
Definition may_administer (r : Role) : Prop := r = RoleHost ∨ r = RoleModerator.

#[global] Instance may_administer_dec r : Decision (may_administer r).
Proof. unfold may_administer. apply _. Defined.

Definition readCapabilities : list Capability :=
  [CapabilityAcknowledgeMessage; CapabilityFetchBlob; CapabilityFetchMessage].
Definition allCapabilities : list Capability :=
  readCapabilities ++
  [CapabilityPublishBlob; CapabilityPublishCheckpoint; CapabilityPublishMessage].

Definition Role_Capabilities (r : Role) (mode : InteractionMode) : list Capability :=
  if decide (¬ Role_Valid r ∨ ¬ InteractionMode_Valid mode) then []
  else
    merge_sort str_le
      (if decide (r = RoleHost ∨ r = RoleModerator) then allCapabilities
       else if decide (r = RoleReader ∨ mode = InteractionModeBroadcast) then readCapabilities
       else if decide (mode = InteractionModeCommunity)
       then readCapabilities ++ [CapabilityPublishBlob; CapabilityPublishMessage]
       else if decide (mode = InteractionModeCollaborative) then allCapabilities
       else []).

Definition sameCapabilities (left right : list Capability) : Prop := left = right.

#[global] Instance sameCapabilities_dec l r : Decision (sameCapabilities l r).
Proof. unfold sameCapabilities. apply _. Defined.

(** ** Participants *)

Record Participant (K : Type) := mkParticipant {
  prt_Version : Z;
  prt_SpaceID : UUID;
  prt_ParticipantID : UUID;
  prt_SubscriptionID : UUID;
  prt_Kind : ParticipantKind;
  prt_Role : Role;
  prt_SigningKey : ParticipantSigningKey;
  prt_DeviceKeys : K;
  prt_CreatedAtMilliseconds : int64;
  prt_RevokedAtMilliseconds : option int64 }.
#[global] Arguments mkParticipant {_} _ _ _ _ _ _ _ _ _ _.
#[global] Arguments prt_Version {_} _.
#[global] Arguments prt_SpaceID {_} _.
#[global] Arguments prt_ParticipantID {_} _.
#[global] Arguments prt_SubscriptionID {_} _.
#[global] Arguments prt_Kind {_} _.
#[global] Arguments prt_Role {_} _.
#[global] Arguments prt_SigningKey {_} _.
#[global] Arguments prt_DeviceKeys {_} _.
#[global] Arguments prt_CreatedAtMilliseconds {_} _.
#[global] Arguments prt_RevokedAtMilliseconds {_} _.

#[global] Instance Participant_eq_dec {K} `{EqDecision K} : EqDecision (Participant K).
Proof. solve_decision. Defined.

#[global] Instance eta_Participant K : Eta (Participant K) := fun p =>
  mkParticipant (prt_Version p) (prt_SpaceID p) (prt_ParticipantID p) (prt_SubscriptionID p)
    (prt_Kind p) (prt_Role p) (prt_SigningKey p) (prt_DeviceKeys p) (prt_CreatedAtMilliseconds p)
    (prt_RevokedAtMilliseconds p).
#[global] Instance upd_prt_Role {K} : Update (@prt_Role K) := ltac:(mk_update).
#[global] Instance upd_prt_DeviceKeys {K} : Update (@prt_DeviceKeys K) := ltac:(mk_update).
#[global] Instance upd_prt_RevokedAtMilliseconds {K} : Update (@prt_RevokedAtMilliseconds K) :=
  ltac:(mk_update).

(** The same participant with its device keys read or stored. *)
Definition with_keys {K L} (f : K → L) (p : Participant K) : Participant L :=
  mkParticipant (prt_Version p) (prt_SpaceID p) (prt_ParticipantID p) (prt_SubscriptionID p)
    (prt_Kind p) (prt_Role p) (prt_SigningKey p) (f (prt_DeviceKeys p))
    (prt_CreatedAtMilliseconds p) (prt_RevokedAtMilliseconds p).

(** Device keys as a value, and a participant that carries them. *)
Abbreviation DeviceKeys := (Slice ParticipantDeviceKey) (only parsing).
Abbreviation ParticipantV := (Participant (Slice ParticipantDeviceKey)) (only parsing).

(** [p.RevokedAtMilliseconds == nil] *)
Abbreviation participant_active p := (prt_RevokedAtMilliseconds p = None) (only parsing).

Section validation.
Context `{UuidLib} `{CurveLib}.

(** The participant's signing key was validated before. *)
Definition ParticipantDeviceKey_Validate {K} (k : ParticipantDeviceKey) (participant : Participant K)
    : option SpaceError :=
  let fingerprint := key_fingerprint (pdk_AgreementPublicKeyX963 k) in
  let point := elliptic_Unmarshal (decoded (pdk_AgreementPublicKeyX963 k)) in
  refuse_when (pdk_Version k ≠ SchemaVersion ∨ pdk_SpaceID k ≠ prt_SpaceID participant ∨
      pdk_ParticipantID k ≠ prt_ParticipantID participant ∨ pdk_DeviceID k = uuid_Nil ∨
      pdk_Algorithm k ≠ "P256"%string ∨ pdk_CreatedAtMilliseconds k < 0 ∨
      some_and (pdk_RevokedAtMilliseconds k) (fun revoked =>
        revoked < pdk_CreatedAtMilliseconds k) ∨
      ¬ validFingerprint (pdk_AgreementKeyFingerprint k) ∨
      ¬ validBase64URLSize (pdk_AgreementPublicKeyX963 k) 65 65 ∨
      ¬ ParticipantSigningKey_MatchesGrantSignature (prt_SigningKey participant)
          (pdk_Signature k) ∨
      kgs_Algorithm (pdk_Signature k) ≠ ParticipantKeyGrantSignatureAlgorithm ∨
      ¬ validBase64URLSize (kgs_Signature (pdk_Signature k)) 64 64)
    CodeInvalidParticipant "Shared Space participant device-key fields are invalid" >>?
  refuse_when (fingerprint ≠ pdk_AgreementKeyFingerprint k)
    CodeInvalidParticipant "Shared Space participant agreement-key fingerprint differs" >>?
  refuse_when (point = None)
    CodeInvalidParticipant "Shared Space participant agreement key is invalid" >>?
  refuse_when (¬ signature_verifies (psk_PublicKeyX963 (prt_SigningKey participant))
      (kgs_Signature (pdk_Signature k)) (ParticipantDeviceKey_SigningPayload k))
    CodeInvalidParticipant "Shared Space participant device-key signature is invalid".

(** [previous != "" && previous >= next] *)
Definition out_of_order (previous : string) (next : UUID) : Prop :=
  previous ≠ "" ∧ str_le (uuid_String next) previous.

#[global] Instance out_of_order_dec previous next : Decision (out_of_order previous next).
Proof. unfold out_of_order. apply _. Defined.

Fixpoint device_keys_valid {K} (p : Participant K) (previousDeviceID : string)
    (keys : list ParticipantDeviceKey) : option SpaceError :=
  match keys with
  | [] => None
  | deviceKey :: keys =>
    refuse_when (pdk_SpaceID deviceKey ≠ prt_SpaceID p ∨
        pdk_ParticipantID deviceKey ≠ prt_ParticipantID p)
      CodeWrongScope "Shared Space participant device key has the wrong scope" >>?
    ParticipantDeviceKey_Validate deviceKey p >>?
    refuse_when (out_of_order previousDeviceID (pdk_DeviceID deviceKey))
      CodeInvalidParticipant "Shared Space participant device keys are invalid" >>?
    device_keys_valid p (uuid_String (pdk_DeviceID deviceKey)) keys
  end.

Definition Participant_Validate (p : ParticipantV) : option SpaceError :=
  refuse_when (prt_Version p ≠ SchemaVersion ∨ prt_SpaceID p = uuid_Nil ∨
      prt_ParticipantID p = uuid_Nil ∨ prt_SubscriptionID p = uuid_Nil ∨
      ¬ ParticipantKind_Valid (prt_Kind p) ∨ ¬ Role_Valid (prt_Role p) ∨
      prt_CreatedAtMilliseconds p < 0 ∨
      some_and (prt_RevokedAtMilliseconds p) (fun revoked =>
        revoked < prt_CreatedAtMilliseconds p))
    CodeInvalidParticipant "Shared Space participant fields are invalid" >>?
  ParticipantSigningKey_Validate (prt_SigningKey p) >>?
  device_keys_valid p "" (elements (prt_DeviceKeys p)).

Definition Participant_HasActiveDeviceKey (p : ParticipantV) (deviceID : UUID)
    (fingerprint : string) : Prop :=
  hasActiveParticipantDeviceKey (elements (prt_DeviceKeys p)) deviceID fingerprint.

(** ** Presentations *)

Record ParticipantPresentation := mkParticipantPresentation {
  ppr_Version : Z;
  ppr_SpaceID : UUID;
  ppr_ParticipantID : UUID;
  ppr_DisplayName : string;
  ppr_Revision : uint64;
  ppr_UpdatedAtMilliseconds : int64 }.

Definition ParticipantPresentation_Validate (p : ParticipantPresentation) : option SpaceError :=
  refuse_when (ppr_Version p ≠ SchemaVersion ∨ ppr_SpaceID p = uuid_Nil ∨
      ppr_ParticipantID p = uuid_Nil ∨ ppr_Revision p = 0 ∨ ppr_UpdatedAtMilliseconds p < 0 ∨
      ¬ validParticipantDisplayName (ppr_DisplayName p))
    CodeInvalidParticipantPresentation
    "Shared Space participant presentation fields are invalid".

Record ParticipantPresentationUpdate := mkParticipantPresentationUpdate {
  ppu_Version : Z;
  ppu_RetryID : UUID;
  ppu_SpaceID : UUID;
  ppu_ParticipantID : UUID;
  ppu_PreviousRevision : uint64;
  ppu_DisplayName : string;
  ppu_UpdatedAtMilliseconds : int64 }.

#[global] Instance ParticipantPresentationUpdate_eq_dec :
  EqDecision ParticipantPresentationUpdate.
Proof. solve_decision. Defined.

Definition ParticipantPresentationUpdate_Validate (u : ParticipantPresentationUpdate)
    : option SpaceError :=
  refuse_when (ppu_Version u ≠ SchemaVersion ∨ ppu_RetryID u = uuid_Nil ∨
      ppu_SpaceID u = uuid_Nil ∨ ppu_ParticipantID u = uuid_Nil ∨
      ppu_UpdatedAtMilliseconds u < 0 ∨ ¬ validParticipantDisplayName (ppu_DisplayName u))
    CodeInvalidParticipantPresentation
    "Shared Space participant presentation update fields are invalid".

Record ParticipantPresentationUpdateResult := mkParticipantPresentationUpdateResult {
  ppur_Acceptance : Acceptance;
  ppur_RetryID : UUID;
  ppur_Presentation : ParticipantPresentation }.

(** ** Secure rosters *)

Record SecureRosterAttestation := mkSecureRosterAttestation {
  sra_Version : Z;
  sra_SpaceID : UUID;
  sra_DomainID : UUID;
  sra_Revision : uint64;
  sra_PreviousDigest : string;
  sra_CurrentKeyEpoch : uint64;
  sra_Participants : list ParticipantV;
  sra_IssuerParticipantID : UUID;
  sra_CreatedAtMilliseconds : int64;
  sra_Signature : ParticipantKeyGrantSignature }.

#[global] Instance SecureRosterAttestation_eq_dec : EqDecision SecureRosterAttestation.
Proof. solve_decision. Defined.

Definition Participant_json (p : ParticipantV) : json :=
  JObject (
    field "version" (JInt (prt_Version p)) ++
    field "spaceID" (JUuid (prt_SpaceID p)) ++
    field "participantID" (JUuid (prt_ParticipantID p)) ++
    field "subscriptionID" (JUuid (prt_SubscriptionID p)) ++
    field "kind" (JString (prt_Kind p)) ++
    field "role" (JString (prt_Role p)) ++
    field "signingKey" (ParticipantSigningKey_json (prt_SigningKey p)) ++
    field "deviceKeys" (JSlice ParticipantDeviceKey_json (prt_DeviceKeys p)) ++
    field "createdAtMilliseconds" (JInt (prt_CreatedAtMilliseconds p)) ++
    optional "revokedAtMilliseconds" JInt (prt_RevokedAtMilliseconds p)).

(** A string that [omitempty] leaves out. *)
Definition optional_text (name : string) (value : string) : list (string * json) :=
  if decide (value = "") then [] else field name (JString value).

Definition SecureRosterAttestation_fields (a : SecureRosterAttestation) : list (string * json) :=
  field "version" (JInt (sra_Version a)) ++
  field "spaceID" (JUuid (sra_SpaceID a)) ++
  field "domainID" (JUuid (sra_DomainID a)) ++
  field "revision" (JInt (sra_Revision a)) ++
  optional_text "previousDigest" (sra_PreviousDigest a) ++
  field "currentKeyEpoch" (JInt (sra_CurrentKeyEpoch a)) ++
  field "participants" (JList Participant_json (sra_Participants a)) ++
  field "issuerParticipantID" (JUuid (sra_IssuerParticipantID a)) ++
  field "createdAtMilliseconds" (JInt (sra_CreatedAtMilliseconds a)).

Definition SecureRosterAttestation_signingPayload (a : SecureRosterAttestation) : json :=
  JObject (SecureRosterAttestation_fields a).

Definition SecureRosterAttestation_Digest (a : SecureRosterAttestation) : string :=
  hex_EncodeToString (Sum256 (Marshal (JObject (SecureRosterAttestation_fields a ++
    field "signature" (ParticipantKeyGrantSignature_json (sra_Signature a)))))).

Definition roster_error {A} (message : string) : SpaceError + A :=
  inl (NewProtocolError CodeInvalidParticipant message).

(** The inner loop over a participant's keys: the number of active keys. *)
Fixpoint roster_device_keys (participant : ParticipantV) (previousDeviceID : string)
    (activeDeviceKeys : Z) (keys : list ParticipantDeviceKey) : SpaceError + Z :=
  match keys with
  | [] => inr activeDeviceKeys
  | deviceKey :: keys =>
    if decide (is_Some (ParticipantDeviceKey_Validate deviceKey participant) ∨
        out_of_order previousDeviceID (pdk_DeviceID deviceKey))
    then roster_error "Secure Shared Space roster participant device keys are invalid"
    else roster_device_keys participant (uuid_String (pdk_DeviceID deviceKey))
      (if decide (device_active deviceKey) then activeDeviceKeys + 1 else activeDeviceKeys) keys
  end.

(** The outer loop; [previousID] is the text of the participant before. *)
Fixpoint roster_participants (a : SecureRosterAttestation) (previousID : option string)
    (participantIDs : gset UUID) (participants : list ParticipantV) : SpaceError + gset UUID :=
  match participants with
  | [] => inr participantIDs
  | participant :: participants =>
    match Participant_Validate participant with
    | Some err => inl err
    | None =>
      if decide (zlen (elements (prt_DeviceKeys participant)) = 0)
      then roster_error "Secure Shared Space roster participant has no device key"
      else
        match roster_device_keys participant "" 0 (elements (prt_DeviceKeys participant)) with
        | inl err => inl err
        | inr activeDeviceKeys =>
          let text := uuid_String (prt_ParticipantID participant) in
          if decide (activeDeviceKeys = 0)
          then roster_error "Secure Shared Space roster participant has no active device key"
          else if decide (prt_SpaceID participant ≠ sra_SpaceID a ∨
              ¬ participant_active participant ∨
              some_and previousID (fun previous => str_le text previous))
          then roster_error "Secure Shared Space roster attestation participants are invalid"
          else if decide (prt_ParticipantID participant ∈ participantIDs)
          then roster_error "Secure Shared Space roster attestation contains duplicate participants"
          else roster_participants a (Some text)
            ({[prt_ParticipantID participant]} ∪ participantIDs) participants
        end
    end
  end.

Definition SecureRosterAttestation_Validate (a : SecureRosterAttestation) : option SpaceError :=
  refuse_when (sra_Version a ≠ SchemaVersion ∨ sra_SpaceID a = uuid_Nil ∨
      sra_DomainID a = uuid_Nil ∨ sra_Revision a = 0 ∨ sra_CurrentKeyEpoch a = 0 ∨
      sra_IssuerParticipantID a = uuid_Nil ∨ sra_CreatedAtMilliseconds a < 0 ∨
      (sra_Revision a = 1 ∧ sra_PreviousDigest a ≠ "") ∨
      (sra_Revision a > 1 ∧ ¬ validFingerprint (sra_PreviousDigest a)))
    CodeInvalidParticipant "Secure Shared Space roster attestation fields are invalid" >>?
  match roster_participants a None ∅ (sra_Participants a) with
  | inl err => Some err
  | inr participantIDs =>
    let publicKey := kgs_PublicSigningKeyX963 (sra_Signature a) in
    let fingerprint := key_fingerprint publicKey in
    let point := elliptic_Unmarshal (decoded publicKey) in
    refuse_when (sra_IssuerParticipantID a ∉ participantIDs ∨
        kgs_Algorithm (sra_Signature a) ≠ ParticipantKeyGrantSignatureAlgorithm ∨
        ¬ validFingerprint (kgs_SigningKeyFingerprint (sra_Signature a)) ∨
        ¬ validBase64URLSize publicKey 65 65 ∨
        ¬ validBase64URLSize (kgs_Signature (sra_Signature a)) 64 64)
      CodeInvalidParticipant
      "Secure Shared Space roster attestation issuer or signature is invalid" >>?
    refuse_when (fingerprint ≠ kgs_SigningKeyFingerprint (sra_Signature a))
      CodeInvalidParticipant
      "Secure Shared Space roster attestation signing-key fingerprint differs" >>?
    refuse_when (point = None)
      CodeInvalidParticipant
      "Secure Shared Space roster attestation signing key is invalid" >>?
    refuse_when (¬ signature_verifies publicKey (kgs_Signature (sra_Signature a))
        (SecureRosterAttestation_signingPayload a))
      CodeInvalidParticipant
      "Secure Shared Space roster attestation signature is invalid"
  end.

(** [sameParticipants]: [reflect.DeepEqual] of every pair. *)
Definition sameParticipants (left right : list ParticipantV) : Prop := left = right.

#[global] Instance sameParticipants_dec l r : Decision (sameParticipants l r).
Proof. unfold sameParticipants. apply _. Defined.

Definition SecureRosterAttestation_ValidateInitial (a : SecureRosterAttestation)
    (host : ParticipantV) : option SpaceError :=
  SecureRosterAttestation_Validate a >>?
  refuse_when (sra_Revision a ≠ 1 ∨ sra_PreviousDigest a ≠ "" ∨
      sra_CurrentKeyEpoch a ≠ InitialKeyEpoch ∨
      sra_IssuerParticipantID a ≠ prt_ParticipantID host ∨ prt_Role host ≠ RoleHost ∨
      ¬ ParticipantSigningKey_MatchesGrantSignature (prt_SigningKey host) (sra_Signature a) ∨
      zlen (sra_Participants a) ≠ 1 ∨ head (sra_Participants a) ≠ Some host)
    CodeUnauthorized "Secure Shared Space initial roster attestation is not bound to its host".

(** The loop that finds the issuer of a record in a roster. *)
Definition find_participant {K} (participants : list (Participant K)) (participantID : UUID)
    : option (Participant K) :=
  snd <$> list_find (fun candidate => prt_ParticipantID candidate = participantID) participants.

(** [issuer == nil || (issuer.Role != RoleHost && ...) || !issuer.SigningKey...] *)
Definition unauthorized_issuer {K} (issuer : option (Participant K))
    (signature : ParticipantKeyGrantSignature) : Prop :=
  match issuer with
  | None => True
  | Some issuer =>
    ¬ may_administer (prt_Role issuer) ∨
    ¬ ParticipantSigningKey_MatchesGrantSignature (prt_SigningKey issuer) signature
  end.

#[global] Instance unauthorized_issuer_dec {K} (issuer : option (Participant K)) signature :
  Decision (unauthorized_issuer issuer signature).
Proof. destruct issuer; simpl; apply _. Defined.

Definition SecureRosterAttestation_ValidateSuccessor (a previous : SecureRosterAttestation)
    (expectedParticipants : list ParticipantV) (expectedKeyEpoch : uint64) : option SpaceError :=
  SecureRosterAttestation_Validate a >>?
  SecureRosterAttestation_Validate previous >>?
  let previousDigest := SecureRosterAttestation_Digest previous in
  refuse_when (sra_SpaceID a ≠ sra_SpaceID previous ∨ sra_DomainID a ≠ sra_DomainID previous ∨
      sra_Revision a ≠ u64 (sra_Revision previous + 1) ∨
      sra_PreviousDigest a ≠ previousDigest ∨ sra_CurrentKeyEpoch a ≠ expectedKeyEpoch ∨
      ¬ sameParticipants (sra_Participants a) expectedParticipants)
    CodeWrongScope
    "Secure Shared Space roster attestation transition differs from authority state" >>?
  refuse_when (unauthorized_issuer
      (find_participant (sra_Participants previous) (sra_IssuerParticipantID a)) (sra_Signature a))
    CodeUnauthorized
    "Secure Shared Space roster attestation issuer is not an authorized prior member".

Definition sameOptionalSecureRosterAttestation (left right : option SecureRosterAttestation)
    : Prop := left = right.

#[global] Instance sameOptionalSecureRosterAttestation_dec l r :
  Decision (sameOptionalSecureRosterAttestation l r).
Proof. unfold sameOptionalSecureRosterAttestation. apply _. Defined.

(** ** Key grants *)

Record ParticipantKeyGrant := mkParticipantKeyGrant {
  kgr_Version : Z;
  kgr_SpaceID : UUID;
  kgr_ParticipantID : UUID;
  kgr_RecipientDeviceID : UUID;
  kgr_IssuerParticipantID : UUID;
  kgr_KeyEpoch : uint64;
  kgr_Algorithm : string;
  kgr_RecipientAgreementKeyFingerprint : string;
  kgr_EphemeralAgreementPublicKeyX963 : string;
  kgr_Nonce : string;
  kgr_Ciphertext : string;
  kgr_AuthenticationTag : string;
  kgr_CreatedAtMilliseconds : int64;
  kgr_Signature : ParticipantKeyGrantSignature }.

#[global] Instance ParticipantKeyGrant_eq_dec : EqDecision ParticipantKeyGrant.
Proof. solve_decision. Defined.

Definition ParticipantKeyGrant_signingPayload (g : ParticipantKeyGrant) : json :=
  JObject (
    field "version" (JInt (kgr_Version g)) ++
    field "spaceID" (JUuid (kgr_SpaceID g)) ++
    field "participantID" (JUuid (kgr_ParticipantID g)) ++
    field "recipientDeviceID" (JUuid (kgr_RecipientDeviceID g)) ++
    field "issuerParticipantID" (JUuid (kgr_IssuerParticipantID g)) ++
    field "keyEpoch" (JInt (kgr_KeyEpoch g)) ++
    field "algorithm" (JString (kgr_Algorithm g)) ++
    field "recipientAgreementKeyFingerprint" (JString (kgr_RecipientAgreementKeyFingerprint g)) ++
    field "ephemeralAgreementPublicKeyX963" (JString (kgr_EphemeralAgreementPublicKeyX963 g)) ++
    field "nonce" (JString (kgr_Nonce g)) ++
    field "ciphertext" (JString (kgr_Ciphertext g)) ++
    field "authenticationTag" (JString (kgr_AuthenticationTag g)) ++
    field "createdAtMilliseconds" (JInt (kgr_CreatedAtMilliseconds g))).

Definition ParticipantKeyGrant_Validate (g : ParticipantKeyGrant) : option SpaceError :=
  let publicKey := kgs_PublicSigningKeyX963 (kgr_Signature g) in
  let fingerprint := key_fingerprint publicKey in
  let point := elliptic_Unmarshal (decoded publicKey) in
  refuse_when (kgr_Version g ≠ SchemaVersion ∨ kgr_SpaceID g = uuid_Nil ∨
      kgr_ParticipantID g = uuid_Nil ∨ kgr_RecipientDeviceID g = uuid_Nil ∨
      kgr_IssuerParticipantID g = uuid_Nil ∨ kgr_KeyEpoch g = 0 ∨
      kgr_Algorithm g ≠ ParticipantKeyGrantAlgorithm ∨ kgr_CreatedAtMilliseconds g < 0 ∨
      ¬ validFingerprint (kgr_RecipientAgreementKeyFingerprint g) ∨
      ¬ validBase64URLSize (kgr_EphemeralAgreementPublicKeyX963 g) 65 65 ∨
      ¬ validBase64URLSize (kgr_Nonce g) 12 12 ∨
      ¬ validBase64URLSize (kgr_Ciphertext g) 1 MaximumParticipantKeyGrantCiphertextByteCount ∨
      ¬ validBase64URLSize (kgr_AuthenticationTag g) 16 16 ∨
      kgs_Algorithm (kgr_Signature g) ≠ ParticipantKeyGrantSignatureAlgorithm ∨
      ¬ validFingerprint (kgs_SigningKeyFingerprint (kgr_Signature g)) ∨
      ¬ validBase64URLSize publicKey 65 65 ∨
      ¬ validBase64URLSize (kgs_Signature (kgr_Signature g)) 64 64)
    CodeInvalidInvitation "Shared Space participant key grant fields are invalid" >>?
  refuse_when (fingerprint ≠ kgs_SigningKeyFingerprint (kgr_Signature g))
    CodeInvalidInvitation "Shared Space participant key grant signing-key fingerprint differs" >>?
  refuse_when (point = None)
    CodeInvalidInvitation "Shared Space participant key grant signing key is invalid" >>?
  refuse_when (¬ signature_verifies publicKey (kgs_Signature (kgr_Signature g))
      (ParticipantKeyGrant_signingPayload g))
    CodeInvalidInvitation "Shared Space participant key grant signature is invalid".

(** ** Provisioning *)

Record SpaceProvisioning (K : Type) := mkSpaceProvisioning {
  spv_Version : Z;
  spv_RetryID : UUID;
  spv_SpaceID : UUID;
  spv_SecurityMode : SecurityMode;
  spv_InteractionMode : InteractionMode;
  spv_InitialParticipantID : UUID;
  spv_InitialParticipantKind : ParticipantKind;
  spv_InitialParticipantSigningKey : ParticipantSigningKey;
  spv_InitialParticipantDeviceKeys : K;
  spv_InitialSecureRosterAttestation : option SecureRosterAttestation;
  spv_Tenant : TenantRegistration;
  spv_Domain : DomainProvisioning;
  spv_CreatedAtMilliseconds : int64 }.
#[global] Arguments mkSpaceProvisioning {_} _ _ _ _ _ _ _ _ _ _ _ _ _.
#[global] Arguments spv_Version {_} _.
#[global] Arguments spv_RetryID {_} _.
#[global] Arguments spv_SpaceID {_} _.
#[global] Arguments spv_SecurityMode {_} _.
#[global] Arguments spv_InteractionMode {_} _.
#[global] Arguments spv_InitialParticipantID {_} _.
#[global] Arguments spv_InitialParticipantKind {_} _.
#[global] Arguments spv_InitialParticipantSigningKey {_} _.
#[global] Arguments spv_InitialParticipantDeviceKeys {_} _.
#[global] Arguments spv_InitialSecureRosterAttestation {_} _.
#[global] Arguments spv_Tenant {_} _.
#[global] Arguments spv_Domain {_} _.
#[global] Arguments spv_CreatedAtMilliseconds {_} _.

#[global] Instance SpaceProvisioning_eq_dec {K} `{EqDecision K} : EqDecision (SpaceProvisioning K).
Proof. solve_decision. Defined.

Definition provisioning_with_keys {K L} (f : K → L) (p : SpaceProvisioning K)
    : SpaceProvisioning L :=
  mkSpaceProvisioning (spv_Version p) (spv_RetryID p) (spv_SpaceID p) (spv_SecurityMode p)
    (spv_InteractionMode p) (spv_InitialParticipantID p) (spv_InitialParticipantKind p)
    (spv_InitialParticipantSigningKey p) (f (spv_InitialParticipantDeviceKeys p))
    (spv_InitialSecureRosterAttestation p) (spv_Tenant p) (spv_Domain p)
    (spv_CreatedAtMilliseconds p).

(** The participant that provisioning creates. *)
Definition initial_participant {K} (p : SpaceProvisioning K) : Participant K :=
  mkParticipant SchemaVersion (spv_SpaceID p) (spv_InitialParticipantID p)
    (sub_SubscriptionID (dp_Subscription (spv_Domain p))) (spv_InitialParticipantKind p) RoleHost
    (spv_InitialParticipantSigningKey p) (spv_InitialParticipantDeviceKeys p)
    (spv_CreatedAtMilliseconds p) None.

Definition SpaceProvisioning_Validate (p : SpaceProvisioning DeviceKeys) : option SpaceError :=
  let host := initial_participant p in
  refuse_when (spv_Version p ≠ SchemaVersion ∨ spv_RetryID p = uuid_Nil ∨
      spv_SpaceID p = uuid_Nil ∨ ¬ SecurityMode_Valid (spv_SecurityMode p) ∨
      ¬ InteractionMode_Valid (spv_InteractionMode p) ∨ spv_InitialParticipantID p = uuid_Nil ∨
      ¬ ParticipantKind_Valid (spv_InitialParticipantKind p) ∨ spv_CreatedAtMilliseconds p < 0)
    CodeInvalidSpace "Shared Space provisioning fields are invalid" >>?
  from_relay (TenantRegistration_Validate (spv_Tenant p)) >>?
  from_relay (DomainProvisioning_Validate (spv_Domain p)) >>?
  ParticipantSigningKey_Validate (spv_InitialParticipantSigningKey p) >>?
  Participant_Validate host >>?
  (if decide (spv_SecurityMode p = SecurityModeSecure) then
     match spv_InitialSecureRosterAttestation p with
     | None => Some (NewProtocolError CodeInvalidSpace
         "Secure Shared Space provisioning is missing its initial roster attestation")
     | Some attestation => SecureRosterAttestation_ValidateInitial attestation host
     end
   else
     refuse_when (is_Some (spv_InitialSecureRosterAttestation p)) CodeInvalidSpace
       "only Secure Shared Space provisioning may carry a roster attestation") >>?
  refuse_when (spv_SpaceID p ≠ tr_TenantID (spv_Tenant p) ∨
      spv_SpaceID p ≠ dr_TenantID (dp_Registration (spv_Domain p)) ∨
      spv_InitialParticipantID p ≠ mr_MemberID (dp_InitialMember (spv_Domain p)) ∨
      spv_CreatedAtMilliseconds p ≠ tr_CreatedAtMilliseconds (spv_Tenant p) ∨
      spv_CreatedAtMilliseconds p ≠ dr_CreatedAtMilliseconds (dp_Registration (spv_Domain p)))
    CodeWrongScope "Shared Space, relay tenant, domain, and initial host scopes differ" >>?
  refuse_when (¬ sameCapabilities (mr_Capabilities (dp_InitialMember (spv_Domain p)))
      (Role_Capabilities RoleHost (spv_InteractionMode p)))
    CodeWrongScope "initial host relay capabilities are invalid".

Record SpaceProvisioningResult := mkSpaceProvisioningResult {
  spr_Acceptance : Acceptance;
  spr_RetryID : UUID;
  spr_SpaceID : UUID;
  spr_SecurityMode : SecurityMode;
  spr_InteractionMode : InteractionMode;
  spr_CurrentKeyEpoch : uint64;
  spr_InitialParticipant : ParticipantV;
  spr_Relay : TenantProvisioningResult }.

(** ** Invitations *)

Record Invitation (K : Type) := mkInvitation {
  inv_Version : Z;
  inv_RetryID : UUID;
  inv_SpaceID : UUID;
  inv_InvitationID : UUID;
  inv_ParticipantID : UUID;
  inv_SubscriptionID : UUID;
  inv_Kind : ParticipantKind;
  inv_Role : Role;
  inv_InteractionMode : InteractionMode;
  inv_ParticipantSigningKey : ParticipantSigningKey;
  inv_ParticipantDeviceKeys : K;
  inv_KeyGrant : option ParticipantKeyGrant;
  inv_ActivationSecureRosterAttestation : option SecureRosterAttestation;
  inv_RelayAdmission : MemberAdmission;
  inv_CreatedAtMilliseconds : int64 }.
#[global] Arguments mkInvitation {_} _ _ _ _ _ _ _ _ _ _ _ _ _ _ _.
#[global] Arguments inv_Version {_} _.
#[global] Arguments inv_RetryID {_} _.
#[global] Arguments inv_SpaceID {_} _.
#[global] Arguments inv_InvitationID {_} _.
#[global] Arguments inv_ParticipantID {_} _.
#[global] Arguments inv_SubscriptionID {_} _.
#[global] Arguments inv_Kind {_} _.
#[global] Arguments inv_Role {_} _.
#[global] Arguments inv_InteractionMode {_} _.
#[global] Arguments inv_ParticipantSigningKey {_} _.
#[global] Arguments inv_ParticipantDeviceKeys {_} _.
#[global] Arguments inv_KeyGrant {_} _.
#[global] Arguments inv_ActivationSecureRosterAttestation {_} _.
#[global] Arguments inv_RelayAdmission {_} _.
#[global] Arguments inv_CreatedAtMilliseconds {_} _.

#[global] Instance Invitation_eq_dec {K} `{EqDecision K} : EqDecision (Invitation K).
Proof. solve_decision. Defined.

Definition invitation_with_keys {K L} (f : K → L) (i : Invitation K) : Invitation L :=
  mkInvitation (inv_Version i) (inv_RetryID i) (inv_SpaceID i) (inv_InvitationID i)
    (inv_ParticipantID i) (inv_SubscriptionID i) (inv_Kind i) (inv_Role i) (inv_InteractionMode i)
    (inv_ParticipantSigningKey i) (f (inv_ParticipantDeviceKeys i)) (inv_KeyGrant i)
    (inv_ActivationSecureRosterAttestation i) (inv_RelayAdmission i) (inv_CreatedAtMilliseconds i).

(** [participantFromInvitation] (memory.go) *)
Definition participantFromInvitation {K} (i : Invitation K) : Participant K :=
  mkParticipant SchemaVersion (inv_SpaceID i) (inv_ParticipantID i) (inv_SubscriptionID i)
    (inv_Kind i) (inv_Role i) (inv_ParticipantSigningKey i) (inv_ParticipantDeviceKeys i)
    (inv_CreatedAtMilliseconds i) None.

(** The error of a check on a value that may be nil. *)
Definition check_some {A} (f : A → option SpaceError) (o : option A) : option SpaceError :=
  match o with Some a => f a | None => None end.

Definition Invitation_Validate (i : Invitation DeviceKeys) : option SpaceError :=
  let admission := inv_RelayAdmission i in
  refuse_when (inv_Version i ≠ SchemaVersion ∨ inv_RetryID i = uuid_Nil ∨
      inv_SpaceID i = uuid_Nil ∨ inv_InvitationID i = uuid_Nil ∨ inv_ParticipantID i = uuid_Nil ∨
      inv_SubscriptionID i = uuid_Nil ∨ ¬ ParticipantKind_Valid (inv_Kind i) ∨
      ¬ Role_Valid (inv_Role i) ∨ ¬ InteractionMode_Valid (inv_InteractionMode i) ∨
      inv_CreatedAtMilliseconds i < 0)
    CodeInvalidInvitation "Shared Space invitation fields are invalid" >>?
  from_relay (MemberAdmission_Validate admission) >>?
  ParticipantSigningKey_Validate (inv_ParticipantSigningKey i) >>?
  Participant_Validate (participantFromInvitation i) >>?
  check_some ParticipantKeyGrant_Validate (inv_KeyGrant i) >>?
  refuse_when (some_and (inv_ActivationSecureRosterAttestation i) (fun attestation =>
      sra_SpaceID attestation ≠ inv_SpaceID i))
    CodeWrongScope "Shared Space invitation roster attestation belongs to another Space" >>?
  refuse_when (inv_SpaceID i ≠ ma_TenantID admission ∨
      inv_InvitationID i ≠ ma_AdmissionID admission ∨
      inv_CreatedAtMilliseconds i ≠ ma_CreatedAtMilliseconds admission ∨
      is_Some (ma_ClaimedAtMilliseconds admission) ∨ is_Some (ma_ClaimedMemberID admission) ∨
      is_Some (ma_RevokedAtMilliseconds admission) ∨
      ¬ sameCapabilities (ma_Capabilities admission)
          (Role_Capabilities (inv_Role i) (inv_InteractionMode i)))
    CodeWrongScope "Shared Space invitation and relay admission scopes differ".

(** The number of keys that are not revoked. *)
Definition active_key_count (keys : list ParticipantDeviceKey) : Z :=
  zlen (filter (fun key => device_active key) keys).

Definition Invitation_ValidateKeyGrant (i : Invitation DeviceKeys) (mode : SecurityMode)
    (currentKeyEpoch : uint64) : option SpaceError :=
  let keys := elements (inv_ParticipantDeviceKeys i) in
  refuse_when (¬ SecurityMode_Valid mode)
    CodeInvalidSpace "Shared Space security mode is invalid" >>?
  if decide (mode = SecurityModeManaged) then
    refuse_when (is_Some (inv_KeyGrant i)) CodeInvalidInvitation
      "managed Shared Space invitations cannot carry participant key grants"
  else
    match inv_KeyGrant i with
    | None => Some (NewProtocolError CodeInvalidInvitation
        "content-blind Shared Space invitation is missing its participant key grant")
    | Some grant =>
      refuse_when (active_key_count keys ≠ 1) CodeInvalidInvitation
        "content-blind Shared Space invitation must admit exactly one active participant device" >>?
      refuse_when (kgr_SpaceID grant ≠ inv_SpaceID i ∨
          kgr_ParticipantID grant ≠ inv_ParticipantID i ∨
          kgr_CreatedAtMilliseconds grant ≠ inv_CreatedAtMilliseconds i)
        CodeWrongScope "Shared Space invitation and participant key grant scopes differ" >>?
      refuse_when (kgr_KeyEpoch grant ≠ currentKeyEpoch) CodeWrongKeyEpoch
        "Shared Space participant key grant is not for the current key epoch" >>?
      refuse_when (¬ hasActiveParticipantDeviceKey keys (kgr_RecipientDeviceID grant)
          (kgr_RecipientAgreementKeyFingerprint grant)) CodeWrongScope
        "Shared Space participant key grant does not target an active invited device key"
    end.

Record InvitationCreateResult := mkInvitationCreateResult {
  icr_Acceptance : Acceptance;
  icr_Invitation : Invitation DeviceKeys }.

Record InvitationCredential := mkInvitationCredential {
  ivc_SpaceID : UUID;
  ivc_DomainID : UUID;
  ivc_InvitationID : UUID;
  ivc_Token : string }.

Record InvitationClaim := mkInvitationClaim {
  icl_Version : Z;
  icl_SpaceID : UUID;
  icl_ParticipantID : UUID;
  icl_RelayClaim : MemberAdmissionClaim;
  icl_ClaimedAtMilliseconds : int64 }.

Definition InvitationClaim_Validate (c : InvitationClaim) : option SpaceError :=
  refuse_when (icl_Version c ≠ SchemaVersion ∨ icl_SpaceID c = uuid_Nil ∨
      icl_ParticipantID c = uuid_Nil ∨ icl_ClaimedAtMilliseconds c < 0)
    CodeInvalidInvitation "Shared Space invitation claim fields are invalid" >>?
  from_relay (MemberAdmissionClaim_Validate (icl_RelayClaim c)) >>?
  refuse_when (icl_ParticipantID c ≠ mac_MemberID (icl_RelayClaim c))
    CodeWrongScope "participant and relay member scopes differ".

Record InvitationClaimResult (K : Type) := mkInvitationClaimResult {
  iclr_Acceptance : Acceptance;
  iclr_CurrentKeyEpoch : uint64;
  iclr_KeyGrant : option ParticipantKeyGrant;
  iclr_SecureRosterAttestation : option SecureRosterAttestation;
  iclr_Participant : Participant K;
  iclr_Member : SubscriptionMemberRegistration }.
#[global] Arguments mkInvitationClaimResult {_} _ _ _ _ _ _.
#[global] Arguments iclr_Acceptance {_} _.
#[global] Arguments iclr_CurrentKeyEpoch {_} _.
#[global] Arguments iclr_KeyGrant {_} _.
#[global] Arguments iclr_SecureRosterAttestation {_} _.
#[global] Arguments iclr_Participant {_} _.
#[global] Arguments iclr_Member {_} _.

Definition claim_result_with {K L} (acceptance : Acceptance) (f : K → L)
    (r : InvitationClaimResult K) : InvitationClaimResult L :=
  mkInvitationClaimResult acceptance (iclr_CurrentKeyEpoch r) (iclr_KeyGrant r)
    (iclr_SecureRosterAttestation r) (with_keys f (iclr_Participant r)) (iclr_Member r).

Record InvitationCancellation := mkInvitationCancellation {
  ica_Version : Z;
  ica_RetryID : UUID;
  ica_SpaceID : UUID;
  ica_InvitationID : UUID;
  ica_CancelledAtMilliseconds : int64 }.

#[global] Instance InvitationCancellation_eq_dec : EqDecision InvitationCancellation.
Proof. solve_decision. Defined.

Definition InvitationCancellation_Validate (c : InvitationCancellation) : option SpaceError :=
  refuse_when (ica_Version c ≠ SchemaVersion ∨ ica_RetryID c = uuid_Nil ∨
      ica_SpaceID c = uuid_Nil ∨ ica_InvitationID c = uuid_Nil ∨
      ica_CancelledAtMilliseconds c < 0)
    CodeInvalidInvitation "Shared Space invitation cancellation fields are invalid".

Record InvitationCancellationResult := mkInvitationCancellationResult {
  icar_Acceptance : Acceptance;
  icar_RetryID : UUID;
  icar_SpaceID : UUID;
  icar_InvitationID : UUID;
  icar_CancelledAtMilliseconds : int64 }.

#[global] Instance eta_InvitationCancellationResult : Eta InvitationCancellationResult := fun r =>
  mkInvitationCancellationResult (icar_Acceptance r) (icar_RetryID r) (icar_SpaceID r)
    (icar_InvitationID r) (icar_CancelledAtMilliseconds r).
#[global] Instance upd_icar_Acceptance : Update icar_Acceptance := ltac:(mk_update).

Inductive InvitationState : Set :=
  InvitationPending | InvitationClaimed | InvitationCancelled | InvitationExpired.

Record InvitationStatus := mkInvitationStatus {
  ist_Version : Z;
  ist_SpaceID : UUID;
  ist_InvitationID : UUID;
  ist_ParticipantID : UUID;
  ist_SubscriptionID : UUID;
  ist_Kind : ParticipantKind;
  ist_Role : Role;
  ist_InteractionMode : InteractionMode;
  ist_State : InvitationState;
  ist_CreatedAtMilliseconds : int64;
  ist_ExpiresAtMilliseconds : int64;
  ist_ClaimedAtMilliseconds : option int64;
  ist_CancelledAtMilliseconds : option int64 }.

Record InvitationList := mkInvitationList {
  ilist_Version : Z;
  ilist_SpaceID : UUID;
  ilist_Invitations : list InvitationStatus }.
End validation.
