(* ===== verification/SharedSpacesChanges.v ===== *)
(** * internal/sharedspaces: changes of authority, views and admissions
    (model.go, provisioning_admission.go)

    Role changes, device enrollment and revocation, participant revocation,
    with the rules that decide which key grants must come with them, and the
    authority events that record them.

    What a participant or an administrator reads back: status, roster, the
    pages of signed rosters, managed content keys and the bootstrap record,
    with their validation; and the admissions that let an operator provision a
    Space. *)

From S2P Require Import Prelude GoEncoding Sha256 RelayModel P256 GoText ComputePool SharedSpacesModel.
#[local] Open Scope Z_scope.

(** ** Authority events *)

Inductive AuthorityEventType : Set :=
  | AuthorityEventSpaceProvisioned | AuthorityEventInvitationCreated
  | AuthorityEventInvitationClaimed | AuthorityEventInvitationCancelled
  | AuthorityEventParticipantRoleChanged | AuthorityEventParticipantDeviceEnrolled
  | AuthorityEventParticipantDeviceRevoked | AuthorityEventParticipantRevoked
  | AuthorityEventSpaceComputeBindingChanged
  | AuthorityEventOther (t : string).

#[global] Instance AuthorityEventType_eq_dec : EqDecision AuthorityEventType.
Proof. solve_decision. Defined.

Definition AuthorityEventType_Valid (t : AuthorityEventType) : bool :=
  match t with AuthorityEventOther _ => false | _ => true end.

Record AuthorityEvent := mkAuthorityEvent {
  aev_Version : Z;
  aev_Sequence : uint64;
  aev_EventID : UUID;
  aev_SpaceID : UUID;
  aev_DomainID : UUID;
  aev_EventType : AuthorityEventType;
  aev_SubjectParticipantID : option UUID;
  aev_SubjectDeviceID : option UUID;
  aev_InvitationID : option UUID;
  aev_PreviousRole : option Role;
  aev_CurrentRole : option Role;
  aev_PreviousKeyEpoch : option uint64;
  aev_CurrentKeyEpoch : option uint64;
  aev_ComputeBindingID : option UUID;
  aev_ComputePoolID : option UUID;
  aev_PreviousBindingRevision : option uint64;
  aev_CurrentBindingRevision : option uint64;
  aev_SecureRosterDigest : option string;
  aev_OccurredAtMilliseconds : int64 }.

#[global] Instance eta_AuthorityEvent : Eta AuthorityEvent := fun e =>
  mkAuthorityEvent (aev_Version e) (aev_Sequence e) (aev_EventID e) (aev_SpaceID e)
    (aev_DomainID e) (aev_EventType e) (aev_SubjectParticipantID e) (aev_SubjectDeviceID e)
    (aev_InvitationID e) (aev_PreviousRole e) (aev_CurrentRole e) (aev_PreviousKeyEpoch e)
    (aev_CurrentKeyEpoch e) (aev_ComputeBindingID e) (aev_ComputePoolID e)
    (aev_PreviousBindingRevision e) (aev_CurrentBindingRevision e) (aev_SecureRosterDigest e)
    (aev_OccurredAtMilliseconds e).
#[global] Instance upd_aev_Version : Update aev_Version := ltac:(mk_update).
#[global] Instance upd_aev_Sequence : Update aev_Sequence := ltac:(mk_update).
#[global] Instance upd_aev_SubjectParticipantID : Update aev_SubjectParticipantID := ltac:(mk_update).
#[global] Instance upd_aev_SubjectDeviceID : Update aev_SubjectDeviceID := ltac:(mk_update).
#[global] Instance upd_aev_InvitationID : Update aev_InvitationID := ltac:(mk_update).
#[global] Instance upd_aev_PreviousRole : Update aev_PreviousRole := ltac:(mk_update).
#[global] Instance upd_aev_CurrentRole : Update aev_CurrentRole := ltac:(mk_update).
#[global] Instance upd_aev_PreviousKeyEpoch : Update aev_PreviousKeyEpoch := ltac:(mk_update).
#[global] Instance upd_aev_CurrentKeyEpoch : Update aev_CurrentKeyEpoch := ltac:(mk_update).
#[global] Instance upd_aev_ComputeBindingID : Update aev_ComputeBindingID := ltac:(mk_update).
#[global] Instance upd_aev_ComputePoolID : Update aev_ComputePoolID := ltac:(mk_update).
#[global] Instance upd_aev_PreviousBindingRevision : Update aev_PreviousBindingRevision := ltac:(mk_update).
#[global] Instance upd_aev_CurrentBindingRevision : Update aev_CurrentBindingRevision := ltac:(mk_update).
#[global] Instance upd_aev_SecureRosterDigest : Update aev_SecureRosterDigest := ltac:(mk_update).

(** The event literal with only its identity; the other fields are nil. *)
Definition new_event (eventID spaceID domainID : UUID) (eventType : AuthorityEventType)
    (occurredAtMilliseconds : int64) : AuthorityEvent :=
  mkAuthorityEvent 0 0 eventID spaceID domainID eventType None None None None None None None None
    None None None None occurredAtMilliseconds.

Abbreviation absent o := (o = None) (only parsing).
Abbreviation present o := (is_Some o) (only parsing).

Definition AuthorityEvent_validTransitionShape (e : AuthorityEvent) : Prop :=
  let computeFieldsAbsent :=
    bool_decide (absent (aev_ComputeBindingID e) ∧ absent (aev_ComputePoolID e) ∧
      absent (aev_PreviousBindingRevision e) ∧ absent (aev_CurrentBindingRevision e)) in
  match aev_EventType e with
  | AuthorityEventSpaceProvisioned =>
    present (aev_SubjectParticipantID e) ∧ absent (aev_SubjectDeviceID e) ∧
    absent (aev_InvitationID e) ∧ absent (aev_PreviousRole e) ∧
    aev_CurrentRole e = Some RoleHost ∧ absent (aev_PreviousKeyEpoch e) ∧
    present (aev_CurrentKeyEpoch e) ∧ computeFieldsAbsent
  | AuthorityEventInvitationCreated | AuthorityEventInvitationClaimed =>
    present (aev_SubjectParticipantID e) ∧ absent (aev_SubjectDeviceID e) ∧
    present (aev_InvitationID e) ∧ absent (aev_PreviousRole e) ∧ present (aev_CurrentRole e) ∧
    absent (aev_PreviousKeyEpoch e) ∧ present (aev_CurrentKeyEpoch e) ∧ computeFieldsAbsent
  | AuthorityEventInvitationCancelled =>
    present (aev_SubjectParticipantID e) ∧ absent (aev_SubjectDeviceID e) ∧
    present (aev_InvitationID e) ∧ absent (aev_PreviousRole e) ∧ absent (aev_CurrentRole e) ∧
    absent (aev_PreviousKeyEpoch e) ∧ absent (aev_CurrentKeyEpoch e) ∧ computeFieldsAbsent
  | AuthorityEventParticipantRoleChanged =>
    present (aev_SubjectParticipantID e) ∧ absent (aev_SubjectDeviceID e) ∧
    absent (aev_InvitationID e) ∧ present (aev_PreviousRole e) ∧ present (aev_CurrentRole e) ∧
    absent (aev_PreviousKeyEpoch e) ∧ absent (aev_CurrentKeyEpoch e) ∧ computeFieldsAbsent
  | AuthorityEventParticipantDeviceEnrolled =>
    present (aev_SubjectParticipantID e) ∧ present (aev_SubjectDeviceID e) ∧
    absent (aev_InvitationID e) ∧ absent (aev_PreviousRole e) ∧ absent (aev_CurrentRole e) ∧
    absent (aev_PreviousKeyEpoch e) ∧ present (aev_CurrentKeyEpoch e) ∧ computeFieldsAbsent
  | AuthorityEventParticipantDeviceRevoked =>
    present (aev_SubjectParticipantID e) ∧ present (aev_SubjectDeviceID e) ∧
    absent (aev_InvitationID e) ∧ absent (aev_PreviousRole e) ∧ absent (aev_CurrentRole e) ∧
    present (aev_PreviousKeyEpoch e) ∧ present (aev_CurrentKeyEpoch e) ∧ computeFieldsAbsent
  | AuthorityEventParticipantRevoked =>
    present (aev_SubjectParticipantID e) ∧ absent (aev_SubjectDeviceID e) ∧
    absent (aev_InvitationID e) ∧ absent (aev_PreviousRole e) ∧ absent (aev_CurrentRole e) ∧
    present (aev_PreviousKeyEpoch e) ∧ present (aev_CurrentKeyEpoch e) ∧ computeFieldsAbsent
  | AuthorityEventSpaceComputeBindingChanged =>
    absent (aev_SubjectParticipantID e) ∧ absent (aev_SubjectDeviceID e) ∧
    absent (aev_InvitationID e) ∧ absent (aev_PreviousRole e) ∧ absent (aev_CurrentRole e) ∧
    absent (aev_PreviousKeyEpoch e) ∧ absent (aev_CurrentKeyEpoch e) ∧
    present (aev_ComputeBindingID e) ∧ present (aev_ComputePoolID e) ∧
    some_and (aev_PreviousBindingRevision e) (fun previous =>
      aev_CurrentBindingRevision e = Some (u64 (previous + 1)))
  | AuthorityEventOther _ => False
  end.

#[global] Instance AuthorityEvent_validTransitionShape_dec e :
  Decision (AuthorityEvent_validTransitionShape e).
Proof. unfold AuthorityEvent_validTransitionShape. destruct (aev_EventType e); apply _. Defined.

Definition AuthorityEvent_Validate (e : AuthorityEvent) : option SpaceError :=
  refuse_when (aev_Version e ≠ SchemaVersion ∨ aev_Sequence e = 0 ∨ aev_EventID e = uuid_Nil ∨
      aev_SpaceID e = uuid_Nil ∨ aev_DomainID e = uuid_Nil ∨
      ¬ AuthorityEventType_Valid (aev_EventType e) ∨ aev_OccurredAtMilliseconds e < 0 ∨
      some_and (aev_SubjectParticipantID e) (fun id => id = uuid_Nil) ∨
      some_and (aev_SubjectDeviceID e) (fun id => id = uuid_Nil) ∨
      some_and (aev_InvitationID e) (fun id => id = uuid_Nil) ∨
      some_and (aev_PreviousRole e) (fun role => ¬ Role_Valid role) ∨
      some_and (aev_CurrentRole e) (fun role => ¬ Role_Valid role) ∨
      some_and (aev_PreviousKeyEpoch e) (fun epoch => epoch = 0) ∨
      some_and (aev_CurrentKeyEpoch e) (fun epoch => epoch = 0) ∨
      some_and (aev_ComputeBindingID e) (fun id => id = uuid_Nil) ∨
      some_and (aev_ComputePoolID e) (fun id => id = uuid_Nil) ∨
      some_and (aev_CurrentBindingRevision e) (fun revision => revision = 0) ∨
      some_and (aev_SecureRosterDigest e) (fun digest => ¬ validFingerprint digest))
    CodeInvalidAuthorityEvent "Shared Space authority event fields are invalid" >>?
  refuse_when (¬ AuthorityEvent_validTransitionShape e) CodeInvalidAuthorityEvent
    "Shared Space authority event transition fields are invalid".

Record AuthorityEventPage := mkAuthorityEventPage {
  aep_Version : Z;
  aep_SpaceID : UUID;
  aep_Events : list AuthorityEvent;
  aep_NextSequence : uint64 }.

(** ** Role changes *)

Record ParticipantRoleChange := mkParticipantRoleChange {
  prc_Version : Z;
  prc_RetryID : UUID;
  prc_SpaceID : UUID;
  prc_ParticipantID : UUID;
  prc_PreviousRole : Role;
  prc_NextRole : Role;
  prc_ChangedAtMilliseconds : int64;
  prc_SecureRosterAttestation : option SecureRosterAttestation }.

#[global] Instance ParticipantRoleChange_eq_dec : EqDecision ParticipantRoleChange.
Proof. solve_decision. Defined.

Definition ParticipantRoleChange_Validate (c : ParticipantRoleChange) : option SpaceError :=
  refuse_when (prc_Version c ≠ SchemaVersion ∨ prc_RetryID c = uuid_Nil ∨
      prc_SpaceID c = uuid_Nil ∨ prc_ParticipantID c = uuid_Nil ∨
      ¬ Role_Valid (prc_PreviousRole c) ∨ ¬ Role_Valid (prc_NextRole c) ∨
      prc_PreviousRole c = prc_NextRole c ∨ prc_ChangedAtMilliseconds c < 0)
    CodeInvalidParticipant "Shared Space participant role change fields are invalid".

Record ParticipantRoleChangeResult := mkParticipantRoleChangeResult {
  prcr_Acceptance : Acceptance;
  prcr_RetryID : UUID;
  prcr_SpaceID : UUID;
  prcr_ParticipantID : UUID;
  prcr_PreviousRole : Role;
  prcr_CurrentRole : Role;
  prcr_ChangedAtMilliseconds : int64 }.

#[global] Instance eta_ParticipantRoleChangeResult : Eta ParticipantRoleChangeResult := fun r =>
  mkParticipantRoleChangeResult (prcr_Acceptance r) (prcr_RetryID r) (prcr_SpaceID r)
    (prcr_ParticipantID r) (prcr_PreviousRole r) (prcr_CurrentRole r)
    (prcr_ChangedAtMilliseconds r).
#[global] Instance upd_prcr_Acceptance : Update prcr_Acceptance := ltac:(mk_update).

(** [grantTarget], and [participantDeviceGrantTarget] of the store: a
    participant and a device. *)
Abbreviation GrantTarget := (UUID * UUID)%type (only parsing).

Section changes.
Context `{UuidLib} `{CurveLib}.

(** ** Device enrollment *)

Record ParticipantDeviceEnrollment := mkParticipantDeviceEnrollment {
  pde_Version : Z;
  pde_RetryID : UUID;
  pde_SpaceID : UUID;
  pde_ParticipantID : UUID;
  pde_DeviceKey : ParticipantDeviceKey;
  pde_KeyGrant : option ParticipantKeyGrant;
  pde_EnrolledAtMilliseconds : int64;
  pde_SecureRosterAttestation : option SecureRosterAttestation }.

#[global] Instance ParticipantDeviceEnrollment_eq_dec : EqDecision ParticipantDeviceEnrollment.
Proof. solve_decision. Defined.

Definition ParticipantDeviceEnrollment_Validate (e : ParticipantDeviceEnrollment)
    : option SpaceError :=
  let key := pde_DeviceKey e in
  refuse_when (pde_Version e ≠ SchemaVersion ∨ pde_RetryID e = uuid_Nil ∨
      pde_SpaceID e = uuid_Nil ∨ pde_ParticipantID e = uuid_Nil ∨ pdk_DeviceID key = uuid_Nil ∨
      pde_EnrolledAtMilliseconds e < 0 ∨ pdk_CreatedAtMilliseconds key < 0 ∨
      pdk_CreatedAtMilliseconds key > pde_EnrolledAtMilliseconds e ∨ ¬ device_active key)
    CodeInvalidParticipant "Shared Space participant device enrollment fields are invalid" >>?
  refuse_when (pdk_SpaceID key ≠ pde_SpaceID e ∨ pdk_ParticipantID key ≠ pde_ParticipantID e)
    CodeWrongScope "Shared Space participant device enrollment key has the wrong scope" >>?
  check_some (fun grant =>
    ParticipantKeyGrant_Validate grant >>?
    refuse_when (kgr_SpaceID grant ≠ pde_SpaceID e ∨
        kgr_ParticipantID grant ≠ pde_ParticipantID e ∨
        kgr_RecipientDeviceID grant ≠ pdk_DeviceID key ∨
        kgr_RecipientAgreementKeyFingerprint grant ≠ pdk_AgreementKeyFingerprint key ∨
        kgr_CreatedAtMilliseconds grant < pdk_CreatedAtMilliseconds key ∨
        kgr_CreatedAtMilliseconds grant > pde_EnrolledAtMilliseconds e)
      CodeWrongScope "Shared Space participant device enrollment grant has the wrong scope")
    (pde_KeyGrant e) >>?
  check_some (fun attestation =>
    refuse_when (sra_SpaceID attestation ≠ pde_SpaceID e) CodeWrongScope
      "Shared Space participant device enrollment roster has the wrong scope" >>?
    refuse_when (sra_CreatedAtMilliseconds attestation ≠ pde_EnrolledAtMilliseconds e)
      CodeInvalidParticipant
      "Shared Space participant device enrollment roster time is invalid")
    (pde_SecureRosterAttestation e).

(** The loop that finds an active participant. *)
Definition find_active_participant {K} (participants : list (Participant K))
    (participantID : UUID) : option (Participant K) :=
  snd <$> list_find (fun candidate =>
    prt_ParticipantID candidate = participantID ∧ participant_active candidate) participants.

Definition ParticipantDeviceEnrollment_ValidateKeyGrant {K} (e : ParticipantDeviceEnrollment)
    (mode : SecurityMode) (currentKeyEpoch : uint64) (participants : list (Participant K))
    (nowMilliseconds : int64) : option SpaceError :=
  refuse_when (mode ≠ SecurityModePrivate ∧ mode ≠ SecurityModeSecure) CodeInvalidParticipant
    "managed Shared Spaces do not enroll participant agreement-key devices" >>?
  match pde_KeyGrant e with
  | None => Some (NewProtocolError CodeInvalidParticipant
      "content-blind Shared Space device enrollment is missing its key grant")
  | Some grant =>
    refuse_when (kgr_KeyEpoch grant ≠ currentKeyEpoch) CodeWrongKeyEpoch
      "Shared Space participant device enrollment grant is not current" >>?
    refuse_when (kgr_CreatedAtMilliseconds grant > nowMilliseconds) CodeInvalidParticipant
      "Shared Space participant device enrollment grant was created in the future" >>?
    refuse_when (unauthorized_issuer
        (find_active_participant participants (kgr_IssuerParticipantID grant))
        (kgr_Signature grant)) CodeUnauthorized
      "Shared Space participant device enrollment grant issuer is not an active host or moderator"
  end.

Record ParticipantDeviceEnrollmentResult := mkParticipantDeviceEnrollmentResult {
  pder_Acceptance : Acceptance;
  pder_RetryID : UUID;
  pder_SpaceID : UUID;
  pder_ParticipantID : UUID;
  pder_DeviceID : UUID;
  pder_CurrentKeyEpoch : uint64;
  pder_EnrolledAtMilliseconds : int64 }.

#[global] Instance eta_ParticipantDeviceEnrollmentResult : Eta ParticipantDeviceEnrollmentResult :=
  fun r => mkParticipantDeviceEnrollmentResult (pder_Acceptance r) (pder_RetryID r)
    (pder_SpaceID r) (pder_ParticipantID r) (pder_DeviceID r) (pder_CurrentKeyEpoch r)
    (pder_EnrolledAtMilliseconds r).
#[global] Instance upd_pder_Acceptance : Update pder_Acceptance := ltac:(mk_update).

(** ** Grants for every remaining device *)

Definition grant_target (grant : ParticipantKeyGrant) : GrantTarget :=
  (kgr_ParticipantID grant, kgr_RecipientDeviceID grant).

(** [map[grantTarget]ParticipantKeyGrant], filled from a list; [None] at a
    repeated target. *)
Fixpoint index_grants (grants : list ParticipantKeyGrant)
    (index : gmap GrantTarget ParticipantKeyGrant)
    : option (gmap GrantTarget ParticipantKeyGrant) :=
  match grants with
  | [] => Some index
  | grant :: grants =>
    match index !! grant_target grant with
    | Some _ => None
    | None => index_grants grants (<[grant_target grant := grant]> index)
    end
  end.

(** The comparison of grants in the two [Equivalent] methods. *)
Definition same_grants (left right : list ParticipantKeyGrant) : bool :=
  match index_grants left ∅ with
  | None => false
  | Some index =>
    forallb (fun grant => bool_decide (index !! grant_target grant = Some grant)) right
  end.

(** The maps that the two [ValidateKeyGrants] methods collect from the
    participants. *)
Record GrantScope := mkGrantScope {
  gsc_active : gset UUID;
  gsc_expectedTargets : gmap GrantTarget string;
  gsc_authorizedIssuers : gmap UUID ParticipantSigningKey;
  gsc_targetFound : bool }.

Definition empty_scope : GrantScope := mkGrantScope ∅ ∅ ∅ false.

(** The inner loop: the active devices of a participant, without [excluded];
    [targetFound] becomes whether the last excluded key is active. *)
Fixpoint expect_devices (participantID : UUID) (excluded : option UUID)
    (keys : list ParticipantDeviceKey) (scope : GrantScope) : GrantScope :=
  match keys with
  | [] => scope
  | deviceKey :: keys =>
    expect_devices participantID excluded keys
      (if decide (excluded = Some (pdk_DeviceID deviceKey))
       then mkGrantScope (gsc_active scope) (gsc_expectedTargets scope)
         (gsc_authorizedIssuers scope) (bool_decide (device_active deviceKey))
       else if decide (device_active deviceKey)
       then mkGrantScope (gsc_active scope)
         (<[(participantID, pdk_DeviceID deviceKey) := pdk_AgreementKeyFingerprint deviceKey]>
            (gsc_expectedTargets scope))
         (gsc_authorizedIssuers scope) (gsc_targetFound scope)
       else scope)
  end.

(** One participant that counts. *)
Definition expect_participant (excluded : option UUID) (participant : ParticipantV)
    (scope : GrantScope) : GrantScope :=
  let id := prt_ParticipantID participant in
  expect_devices id excluded (elements (prt_DeviceKeys participant))
    (mkGrantScope ({[id]} ∪ gsc_active scope) (gsc_expectedTargets scope)
       (if decide (may_administer (prt_Role participant))
        then <[id := prt_SigningKey participant]> (gsc_authorizedIssuers scope)
        else gsc_authorizedIssuers scope)
       (gsc_targetFound scope)).

(** The outer loop; [skipped] participants do not count, and [excluded] names
    the device of a participant that does not. *)
Fixpoint expect_participants (spaceID : UUID) (skipped : ParticipantV → Prop)
    `{∀ p, Decision (skipped p)} (excluded : ParticipantV → option UUID)
    (participants : list ParticipantV) (scope : GrantScope) : SpaceError + GrantScope :=
  match participants with
  | [] => inr scope
  | participant :: participants =>
    if decide (prt_SpaceID participant ≠ spaceID)
    then inl (NewProtocolError CodeWrongScope
      "Shared Space participant belongs to another Space")
    else if decide (skipped participant)
    then expect_participants spaceID skipped excluded participants scope
    else expect_participants spaceID skipped excluded participants
      (expect_participant (excluded participant) participant scope)
  end.

(** ** Device revocation *)

Record ParticipantDeviceRevocation := mkParticipantDeviceRevocation {
  pdv_Version : Z;
  pdv_RetryID : UUID;
  pdv_SpaceID : UUID;
  pdv_ParticipantID : UUID;
  pdv_DeviceID : UUID;
  pdv_DeviceKey : ParticipantDeviceKey;
  pdv_PreviousKeyEpoch : uint64;
  pdv_NextKeyEpoch : uint64;
  pdv_KeyGrants : list ParticipantKeyGrant;
  pdv_SecureRosterAttestation : option SecureRosterAttestation }.

Definition ParticipantDeviceRevocation_Validate (r : ParticipantDeviceRevocation)
    : option SpaceError :=
  let key := pdv_DeviceKey r in
  refuse_when (pdv_Version r ≠ SchemaVersion ∨ pdv_RetryID r = uuid_Nil ∨
      pdv_SpaceID r = uuid_Nil ∨ pdv_ParticipantID r = uuid_Nil ∨ pdv_DeviceID r = uuid_Nil ∨
      pdk_SpaceID key ≠ pdv_SpaceID r ∨ pdk_ParticipantID key ≠ pdv_ParticipantID r ∨
      pdk_DeviceID key ≠ pdv_DeviceID r ∨ device_active key ∨
      pdv_PreviousKeyEpoch r < InitialKeyEpoch ∨ pdv_NextKeyEpoch r < pdv_PreviousKeyEpoch r ∨
      pdv_NextKeyEpoch r > u64 (pdv_PreviousKeyEpoch r + 1))
    CodeInvalidParticipant "Shared Space participant device revocation fields are invalid" >>?
  refuse_when (some_and (pdv_SecureRosterAttestation r) (fun attestation =>
      Some (sra_CreatedAtMilliseconds attestation) ≠ pdk_RevokedAtMilliseconds key))
    CodeInvalidParticipant "Shared Space participant device revocation roster time is invalid".

Definition ParticipantDeviceRevocation_ValidateDeviceKey {K} (r : ParticipantDeviceRevocation)
    (participant : Participant K) (current : ParticipantDeviceKey) (nowMilliseconds : int64)
    : option SpaceError :=
  let key := pdv_DeviceKey r in
  refuse_when (¬ device_active current ∨
      none_or (pdk_RevokedAtMilliseconds key) (fun revoked => revoked > nowMilliseconds) ∨
      pdk_Version key ≠ pdk_Version current ∨ pdk_SpaceID key ≠ pdk_SpaceID current ∨
      pdk_ParticipantID key ≠ pdk_ParticipantID current ∨
      pdk_DeviceID key ≠ pdk_DeviceID current ∨ pdk_Algorithm key ≠ pdk_Algorithm current ∨
      pdk_AgreementPublicKeyX963 key ≠ pdk_AgreementPublicKeyX963 current ∨
      pdk_AgreementKeyFingerprint key ≠ pdk_AgreementKeyFingerprint current ∨
      pdk_CreatedAtMilliseconds key ≠ pdk_CreatedAtMilliseconds current)
    CodeWrongScope
    "Shared Space participant device revocation key differs from the enrolled device" >>?
  ParticipantDeviceKey_Validate key participant.

(** The loop over the grants of a device revocation. *)
Fixpoint device_revocation_grants (r : ParticipantDeviceRevocation) (scope : GrantScope)
    (nowMilliseconds : int64) (seen : gset GrantTarget) (grants : list ParticipantKeyGrant)
    : option SpaceError :=
  match grants with
  | [] => None
  | grant :: grants =>
    ParticipantKeyGrant_Validate grant >>?
    refuse_when (kgr_SpaceID grant ≠ pdv_SpaceID r ∨
        gsc_expectedTargets scope !! grant_target grant ≠
          Some (kgr_RecipientAgreementKeyFingerprint grant)) CodeWrongScope
      "Shared Space device revocation key grant does not target a remaining active device" >>?
    refuse_when (kgr_KeyEpoch grant ≠ pdv_NextKeyEpoch r) CodeWrongKeyEpoch
      "Shared Space device revocation key grant is not for the next key epoch" >>?
    refuse_when (kgr_CreatedAtMilliseconds grant > nowMilliseconds) CodeInvalidParticipant
      "Shared Space device revocation key grant was created in the future" >>?
    refuse_when (some_and (pdk_RevokedAtMilliseconds (pdv_DeviceKey r)) (fun revoked =>
        kgr_CreatedAtMilliseconds grant > revoked)) CodeInvalidParticipant
      "Shared Space device revocation key grant postdates revocation" >>?
    refuse_when (none_or (gsc_authorizedIssuers scope !! kgr_IssuerParticipantID grant)
        (fun issuerKey =>
          ¬ ParticipantSigningKey_MatchesGrantSignature issuerKey (kgr_Signature grant)))
      CodeUnauthorized
      "Shared Space device revocation key grant issuer is not an active host or moderator" >>?
    refuse_when (grant_target grant ∈ seen) CodeInvalidParticipant
      "Shared Space device revocation contains duplicate device key grants" >>?
    device_revocation_grants r scope nowMilliseconds ({[grant_target grant]} ∪ seen) grants
  end.

Definition device_revocation_scope (r : ParticipantDeviceRevocation)
    (participants : list ParticipantV) : SpaceError + GrantScope :=
  expect_participants (pdv_SpaceID r) (fun participant => ¬ participant_active participant)
    (fun participant => if decide (prt_ParticipantID participant = pdv_ParticipantID r)
      then Some (pdv_DeviceID r) else None)
    participants empty_scope.

Definition ParticipantDeviceRevocation_ValidateKeyGrants (r : ParticipantDeviceRevocation)
    (mode : SecurityMode) (participants : list ParticipantV) (nowMilliseconds : int64)
    : option SpaceError :=
  if decide (mode = SecurityModeManaged) then
    Some (NewProtocolError CodeInvalidParticipant
      "managed Shared Spaces do not revoke participant agreement-key devices")
  else if decide (mode = SecurityModePrivate) then
    refuse_when (pdv_NextKeyEpoch r ≠ pdv_PreviousKeyEpoch r ∨ zlen (pdv_KeyGrants r) ≠ 0)
      CodeInvalidParticipant
      "private Shared Space device revocation must retain its static key epoch without key grants"
  else
    refuse_when (mode ≠ SecurityModeSecure ∨
        pdv_NextKeyEpoch r ≠ u64 (pdv_PreviousKeyEpoch r + 1)) CodeInvalidParticipant
      "secure Shared Space device revocation must advance its key epoch" >>?
    match device_revocation_scope r participants with
    | inl err => Some err
    | inr scope =>
      refuse_when (gsc_targetFound scope = false) CodeParticipantNotFound
        "active participant device was not found" >>?
      refuse_when (zlen (pdv_KeyGrants r) ≠ zsize (gsc_expectedTargets scope))
        CodeInvalidParticipant
        "secure Shared Space device revocation does not grant the next key epoch to every remaining device" >>?
      device_revocation_grants r scope nowMilliseconds ∅ (pdv_KeyGrants r)
    end.

Definition ParticipantDeviceRevocation_Equivalent (r other : ParticipantDeviceRevocation) : bool :=
  bool_decide (pdv_Version r = pdv_Version other ∧ pdv_RetryID r = pdv_RetryID other ∧
    pdv_SpaceID r = pdv_SpaceID other ∧ pdv_ParticipantID r = pdv_ParticipantID other ∧
    pdv_DeviceID r = pdv_DeviceID other ∧ pdv_DeviceKey r = pdv_DeviceKey other ∧
    pdv_PreviousKeyEpoch r = pdv_PreviousKeyEpoch other ∧
    pdv_NextKeyEpoch r = pdv_NextKeyEpoch other ∧
    zlen (pdv_KeyGrants r) = zlen (pdv_KeyGrants other) ∧
    sameOptionalSecureRosterAttestation (pdv_SecureRosterAttestation r)
      (pdv_SecureRosterAttestation other)) &&
  same_grants (pdv_KeyGrants r) (pdv_KeyGrants other).

Record ParticipantDeviceRevocationResult := mkParticipantDeviceRevocationResult {
  pdvr_Acceptance : Acceptance;
  pdvr_RetryID : UUID;
  pdvr_SpaceID : UUID;
  pdvr_ParticipantID : UUID;
  pdvr_DeviceID : UUID;
  pdvr_PreviousKeyEpoch : uint64;
  pdvr_CurrentKeyEpoch : uint64;
  pdvr_RevokedAtMilliseconds : int64 }.

#[global] Instance eta_ParticipantDeviceRevocationResult : Eta ParticipantDeviceRevocationResult :=
  fun r => mkParticipantDeviceRevocationResult (pdvr_Acceptance r) (pdvr_RetryID r)
    (pdvr_SpaceID r) (pdvr_ParticipantID r) (pdvr_DeviceID r) (pdvr_PreviousKeyEpoch r)
    (pdvr_CurrentKeyEpoch r) (pdvr_RevokedAtMilliseconds r).
#[global] Instance upd_pdvr_Acceptance : Update pdvr_Acceptance := ltac:(mk_update).

(** ** Participant revocation *)

Record ParticipantRevocation := mkParticipantRevocation {
  prv_Version : Z;
  prv_RetryID : UUID;
  prv_SpaceID : UUID;
  prv_ParticipantID : UUID;
  prv_PreviousKeyEpoch : uint64;
  prv_NextKeyEpoch : uint64;
  prv_KeyGrants : list ParticipantKeyGrant;
  prv_SecureRosterAttestation : option SecureRosterAttestation }.

Definition ParticipantRevocation_Validate (r : ParticipantRevocation) : option SpaceError :=
  refuse_when (prv_Version r ≠ SchemaVersion ∨ prv_RetryID r = uuid_Nil ∨
      prv_SpaceID r = uuid_Nil ∨ prv_ParticipantID r = uuid_Nil ∨
      prv_PreviousKeyEpoch r < InitialKeyEpoch ∨ prv_NextKeyEpoch r < prv_PreviousKeyEpoch r ∨
      prv_NextKeyEpoch r > u64 (prv_PreviousKeyEpoch r + 1))
    CodeInvalidParticipant "Shared Space participant revocation fields are invalid".

(** The loop over the grants of a revocation. *)
Fixpoint revocation_grants (r : ParticipantRevocation) (scope : GrantScope)
    (nowMilliseconds : int64) (seen : gset GrantTarget) (grants : list ParticipantKeyGrant)
    : option SpaceError :=
  match grants with
  | [] => None
  | grant :: grants =>
    ParticipantKeyGrant_Validate grant >>?
    refuse_when (kgr_SpaceID grant ≠ prv_SpaceID r ∨ kgr_ParticipantID grant = prv_ParticipantID r)
      CodeWrongScope "Shared Space revocation key grant scope differs" >>?
    refuse_when (kgr_KeyEpoch grant ≠ prv_NextKeyEpoch r) CodeWrongKeyEpoch
      "Shared Space revocation key grant is not for the next key epoch" >>?
    refuse_when (kgr_CreatedAtMilliseconds grant > nowMilliseconds) CodeInvalidParticipant
      "Shared Space revocation key grant was created in the future" >>?
    refuse_when (kgr_ParticipantID grant ∉ gsc_active scope) CodeWrongScope
      "Shared Space revocation key grant targets an inactive participant" >>?
    refuse_when (gsc_expectedTargets scope !! grant_target grant ≠
        Some (kgr_RecipientAgreementKeyFingerprint grant)) CodeWrongScope
      "Shared Space revocation key grant does not target an active participant device key" >>?
    refuse_when (gsc_authorizedIssuers scope !! kgr_IssuerParticipantID grant = None)
      CodeUnauthorized
      "Shared Space revocation key grant issuer is not an active host or moderator" >>?
    refuse_when (none_or (gsc_authorizedIssuers scope !! kgr_IssuerParticipantID grant)
        (fun issuerKey =>
          ¬ ParticipantSigningKey_MatchesGrantSignature issuerKey (kgr_Signature grant)))
      CodeUnauthorized
      "Shared Space revocation key grant signature is not bound to its issuer" >>?
    refuse_when (grant_target grant ∈ seen) CodeInvalidParticipant
      "Shared Space revocation contains duplicate participant device key grants" >>?
    revocation_grants r scope nowMilliseconds ({[grant_target grant]} ∪ seen) grants
  end.

Definition revocation_scope (r : ParticipantRevocation) (participants : list ParticipantV)
    : SpaceError + GrantScope :=
  expect_participants (prv_SpaceID r)
    (fun participant => ¬ participant_active participant ∨
       prt_ParticipantID participant = prv_ParticipantID r)
    (fun _ => None) participants empty_scope.

Definition ParticipantRevocation_ValidateKeyGrants (r : ParticipantRevocation)
    (mode : SecurityMode) (participants : list ParticipantV) (nowMilliseconds : int64)
    : option SpaceError :=
  refuse_when (¬ SecurityMode_Valid mode) CodeInvalidSpace
    "Shared Space security mode is invalid" >>?
  if decide (mode = SecurityModePrivate) then
    refuse_when (prv_NextKeyEpoch r ≠ prv_PreviousKeyEpoch r ∨ zlen (prv_KeyGrants r) ≠ 0)
      CodeInvalidParticipant
      "private Shared Space revocation must retain its static key epoch without key grants"
  else if decide (mode = SecurityModeManaged) then
    refuse_when (prv_NextKeyEpoch r ≠ u64 (prv_PreviousKeyEpoch r + 1) ∨
        zlen (prv_KeyGrants r) ≠ 0) CodeInvalidParticipant
      "managed Shared Space revocation must rotate its key epoch without participant key grants"
  else
    refuse_when (prv_NextKeyEpoch r ≠ u64 (prv_PreviousKeyEpoch r + 1)) CodeInvalidParticipant
      "secure Shared Space revocation must advance its key epoch" >>?
    match revocation_scope r participants with
    | inl err => Some err
    | inr scope =>
      refuse_when (zlen (prv_KeyGrants r) ≠ zsize (gsc_expectedTargets scope))
        CodeInvalidParticipant
        "secure Shared Space revocation does not grant the next key epoch to every remaining participant device" >>?
      revocation_grants r scope nowMilliseconds ∅ (prv_KeyGrants r)
    end.

Definition ParticipantRevocation_Equivalent (r other : ParticipantRevocation) : bool :=
  bool_decide (prv_Version r = prv_Version other ∧ prv_RetryID r = prv_RetryID other ∧
    prv_SpaceID r = prv_SpaceID other ∧ prv_ParticipantID r = prv_ParticipantID other ∧
    prv_PreviousKeyEpoch r = prv_PreviousKeyEpoch other ∧
    prv_NextKeyEpoch r = prv_NextKeyEpoch other ∧
    zlen (prv_KeyGrants r) = zlen (prv_KeyGrants other) ∧
    sameOptionalSecureRosterAttestation (prv_SecureRosterAttestation r)
      (prv_SecureRosterAttestation other)) &&
  same_grants (prv_KeyGrants r) (prv_KeyGrants other).

Record ParticipantRevocationResult := mkParticipantRevocationResult {
  prvr_Acceptance : Acceptance;
  prvr_RetryID : UUID;
  prvr_SpaceID : UUID;
  prvr_ParticipantID : UUID;
  prvr_PreviousKeyEpoch : uint64;
  prvr_CurrentKeyEpoch : uint64;
  prvr_RevokedAtMilliseconds : int64 }.

#[global] Instance eta_ParticipantRevocationResult : Eta ParticipantRevocationResult := fun r =>
  mkParticipantRevocationResult (prvr_Acceptance r) (prvr_RetryID r) (prvr_SpaceID r)
    (prvr_ParticipantID r) (prvr_PreviousKeyEpoch r) (prvr_CurrentKeyEpoch r)
    (prvr_RevokedAtMilliseconds r).
#[global] Instance upd_prvr_Acceptance : Update prvr_Acceptance := ltac:(mk_update).
End changes.

Section views.
Context `{UuidLib} `{CurveLib}.

(** ** Participant status *)

Record ParticipantStatus := mkParticipantStatus {
  pst_Version : Z;
  pst_SpaceID : UUID;
  pst_DomainID : UUID;
  pst_SecurityMode : SecurityMode;
  pst_InteractionMode : InteractionMode;
  pst_CurrentKeyEpoch : uint64;
  pst_BootstrapReady : bool;
  pst_ActiveCheckpointEpoch : option uint64;
  pst_Participant : ParticipantV;
  pst_Presentation : option ParticipantPresentation;
  pst_Capabilities : list Capability;
  pst_CreatedAtMilliseconds : int64 }.

Definition ParticipantStatus_Validate (s : ParticipantStatus) : option SpaceError :=
  let participant := pst_Participant s in
  refuse_when (pst_Version s ≠ SchemaVersion ∨ pst_SpaceID s = uuid_Nil ∨
      pst_DomainID s = uuid_Nil ∨ ¬ SecurityMode_Valid (pst_SecurityMode s) ∨
      ¬ InteractionMode_Valid (pst_InteractionMode s) ∨ pst_CurrentKeyEpoch s = 0 ∨
      pst_CreatedAtMilliseconds s < 0 ∨ prt_SpaceID participant ≠ pst_SpaceID s ∨
      ¬ participant_active participant)
    CodeInvalidParticipant "Shared Space participant status fields are invalid" >>?
  Participant_Validate participant >>?
  check_some (fun presentation =>
    ParticipantPresentation_Validate presentation >>?
    refuse_when (ppr_SpaceID presentation ≠ pst_SpaceID s ∨
        ppr_ParticipantID presentation ≠ prt_ParticipantID participant)
      CodeInvalidParticipantPresentation
      "Shared Space participant presentation scope is invalid") (pst_Presentation s) >>?
  refuse_when (¬ sameCapabilities (pst_Capabilities s)
      (Role_Capabilities (prt_Role participant) (pst_InteractionMode s)))
    CodeInvalidParticipant "Shared Space participant status capabilities are invalid" >>?
  refuse_when (pst_BootstrapReady s ≠
      bool_decide (pst_ActiveCheckpointEpoch s = Some (pst_CurrentKeyEpoch s)))
    CodeInvalidParticipant "Shared Space participant bootstrap status is invalid".

(** ** Rosters *)

Record ParticipantRoster := mkParticipantRoster {
  pro_Version : Z;
  pro_SpaceID : UUID;
  pro_DomainID : UUID;
  pro_SecurityMode : SecurityMode;
  pro_AuthoritySequence : uint64;
  pro_CurrentKeyEpoch : uint64;
  pro_Participants : list ParticipantV;
  pro_Presentations : list ParticipantPresentation;
  pro_AuthorityAttestation : SecureRosterAttestation;
  pro_CreatedAtMilliseconds : int64 }.

(** The loop over the participants of a roster. *)
Fixpoint roster_members (r : ParticipantRoster) (previousID : option string)
    (participantIDs : gset UUID) (participants : list ParticipantV) : SpaceError + gset UUID :=
  match participants with
  | [] => inr participantIDs
  | participant :: participants =>
    let text := uuid_String (prt_ParticipantID participant) in
    match Participant_Validate participant with
    | Some err => inl err
    | None =>
      if decide (prt_SpaceID participant ≠ pro_SpaceID r ∨ ¬ participant_active participant)
      then roster_error "Shared Space participant roster includes an invalid member"
      else if decide (prt_ParticipantID participant ∈ participantIDs ∨
          some_and previousID (fun previous => str_le text previous))
      then roster_error "Shared Space participant roster order is invalid"
      else roster_members r (Some text)
        ({[prt_ParticipantID participant]} ∪ participantIDs) participants
    end
  end.

(** The loop over its presentations. *)
Fixpoint roster_presentations (r : ParticipantRoster) (participantIDs : gset UUID)
    (previousID : option string) (presentations : list ParticipantPresentation)
    : option SpaceError :=
  match presentations with
  | [] => None
  | presentation :: presentations =>
    let text := uuid_String (ppr_ParticipantID presentation) in
    ParticipantPresentation_Validate presentation >>?
    refuse_when (ppr_SpaceID presentation ≠ pro_SpaceID r) CodeInvalidParticipantPresentation
      "Shared Space participant roster presentation scope is invalid" >>?
    refuse_when (ppr_ParticipantID presentation ∉ participantIDs ∨
        some_and previousID (fun previous => str_le text previous))
      CodeInvalidParticipantPresentation
      "Shared Space participant roster presentation is invalid" >>?
    roster_presentations r participantIDs (Some text) presentations
  end.

Definition ParticipantRoster_Validate (r : ParticipantRoster) : option SpaceError :=
  let attestation := pro_AuthorityAttestation r in
  refuse_when (pro_Version r ≠ SchemaVersion ∨ pro_SpaceID r = uuid_Nil ∨
      pro_DomainID r = uuid_Nil ∨ pro_SecurityMode r ≠ SecurityModeSecure ∨
      pro_AuthoritySequence r = 0 ∨ pro_CurrentKeyEpoch r = 0 ∨ pro_CreatedAtMilliseconds r < 0)
    CodeInvalidParticipant "Shared Space participant roster fields are invalid" >>?
  match roster_members r None ∅ (pro_Participants r) with
  | inl err => Some err
  | inr participantIDs =>
    roster_presentations r participantIDs None (pro_Presentations r) >>?
    SecureRosterAttestation_Validate attestation >>?
    refuse_when (sra_SpaceID attestation ≠ pro_SpaceID r ∨
        sra_DomainID attestation ≠ pro_DomainID r ∨
        sra_CurrentKeyEpoch attestation ≠ pro_CurrentKeyEpoch r ∨
        ¬ sameParticipants (sra_Participants attestation) (pro_Participants r))
      CodeInvalidParticipant
      "Shared Space participant roster authority attestation differs from roster state"
  end.

Record SecureRosterAttestationPage := mkSecureRosterAttestationPage {
  srp_Version : Z;
  srp_SpaceID : UUID;
  srp_DomainID : UUID;
  srp_Attestations : list SecureRosterAttestation;
  srp_NextRevision : uint64 }.

(** The loop over the records of a page. *)
Fixpoint page_attestations (p : SecureRosterAttestationPage)
    (previous : option SecureRosterAttestation) (attestations : list SecureRosterAttestation)
    : option SpaceError :=
  match attestations with
  | [] => None
  | attestation :: attestations =>
    SecureRosterAttestation_Validate attestation >>?
    refuse_when (sra_SpaceID attestation ≠ srp_SpaceID p ∨
        sra_DomainID attestation ≠ srp_DomainID p ∨
        some_and previous (fun previous => sra_Revision previous ≥ sra_Revision attestation))
      CodeInvalidParticipant "Secure Shared Space roster authority page order is invalid" >>?
    check_some (fun previous =>
      refuse_when (is_Some (SecureRosterAttestation_ValidateSuccessor attestation previous
          (sra_Participants attestation) (sra_CurrentKeyEpoch attestation)))
        CodeInvalidParticipant
        "Secure Shared Space roster authority page is discontinuous") previous >>?
    page_attestations p (Some attestation) attestations
  end.

Definition SecureRosterAttestationPage_Validate (p : SecureRosterAttestationPage)
    : option SpaceError :=
  refuse_when (srp_Version p ≠ SchemaVersion ∨ srp_SpaceID p = uuid_Nil ∨
      srp_DomainID p = uuid_Nil ∨
      zlen (srp_Attestations p) > MaximumSecureRosterAttestationPageSize)
    CodeInvalidParticipant "Secure Shared Space roster authority page fields are invalid" >>?
  page_attestations p None (srp_Attestations p) >>?
  refuse_when (some_and (last (srp_Attestations p)) (fun attestation =>
      srp_NextRevision p ≠ sra_Revision attestation))
    CodeInvalidParticipant "Secure Shared Space roster authority page continuation is invalid".

(** ** Keys and bootstrap *)

Record ParticipantKeyGrantResult := mkParticipantKeyGrantResult {
  kgres_Version : Z;
  kgres_SpaceID : UUID;
  kgres_ParticipantID : UUID;
  kgres_CurrentKeyEpoch : uint64;
  kgres_KeyGrant : ParticipantKeyGrant }.

Record ManagedContentKey := mkManagedContentKey {
  mck_Version : Z;
  mck_SpaceID : UUID;
  mck_ParticipantID : UUID;
  mck_KeyEpoch : uint64;
  mck_Algorithm : string;
  mck_KeyMaterial : string }.

Definition ManagedContentKey_Validate (k : ManagedContentKey) : option SpaceError :=
  refuse_when (mck_Version k ≠ SchemaVersion ∨ mck_SpaceID k = uuid_Nil ∨
      mck_ParticipantID k = uuid_Nil ∨ mck_KeyEpoch k = 0 ∨
      mck_Algorithm k ≠ ManagedContentKeyAlgorithm ∨
      none_or (b64_DecodeString (mck_KeyMaterial k)) (fun decoded =>
        zlen decoded ≠ 32 ∨ b64_EncodeToString decoded ≠ mck_KeyMaterial k))
    CodeInvalidParticipant "managed Shared Space content key is invalid".

Record ParticipantBootstrap := mkParticipantBootstrap {
  pbs_Version : Z;
  pbs_Status : ParticipantStatus;
  pbs_KeyGrant : option ParticipantKeyGrantResult;
  pbs_ManagedContentKey : option ManagedContentKey;
  pbs_Roster : option ParticipantRoster }.

Definition bootstrap_error (message : string) : option SpaceError :=
  Some (NewProtocolError CodeInvalidParticipant message).

Definition ParticipantBootstrap_Validate (b : ParticipantBootstrap) : option SpaceError :=
  let status := pbs_Status b in
  refuse_when (pbs_Version b ≠ SchemaVersion) CodeInvalidParticipant
    "Shared Space participant bootstrap version is invalid" >>?
  ParticipantStatus_Validate status >>?
  if decide (pst_SecurityMode status = SecurityModeManaged) then
    let inconsistent :=
      bootstrap_error "managed Shared Space participant bootstrap key is inconsistent" in
    match pbs_ManagedContentKey b with
    | None => inconsistent
    | Some key =>
      if decide (is_Some (pbs_KeyGrant b) ∨ is_Some (pbs_Roster b) ∨
          mck_SpaceID key ≠ pst_SpaceID status ∨
          mck_ParticipantID key ≠ prt_ParticipantID (pst_Participant status) ∨
          mck_KeyEpoch key ≠ pst_CurrentKeyEpoch status)
      then inconsistent
      else ManagedContentKey_Validate key
    end
  else
    let inconsistent :=
      bootstrap_error "content-blind Shared Space participant bootstrap key grant is inconsistent" in
    match pbs_KeyGrant b with
    | None => inconsistent
    | Some result =>
      let grant := kgres_KeyGrant result in
      (if decide (is_Some (pbs_ManagedContentKey b) ∨ kgres_Version result ≠ SchemaVersion ∨
          kgres_SpaceID result ≠ pst_SpaceID status ∨
          kgres_ParticipantID result ≠ prt_ParticipantID (pst_Participant status) ∨
          kgres_CurrentKeyEpoch result ≠ pst_CurrentKeyEpoch status ∨
          kgr_SpaceID grant ≠ pst_SpaceID status ∨
          kgr_ParticipantID grant ≠ prt_ParticipantID (pst_Participant status) ∨
          kgr_KeyEpoch grant ≠ pst_CurrentKeyEpoch status ∨
          ¬ Participant_HasActiveDeviceKey (pst_Participant status) (kgr_RecipientDeviceID grant)
              (kgr_RecipientAgreementKeyFingerprint grant))
       then inconsistent else None) >>?
      ParticipantKeyGrant_Validate grant >>?
      if decide (pst_SecurityMode status ≠ SecurityModeSecure) then
        if decide (is_Some (pbs_Roster b))
        then bootstrap_error "Private Shared Space participant bootstrap must not include a roster"
        else None
      else
        match pbs_Roster b with
        | None =>
          bootstrap_error "Secure Shared Space participant bootstrap roster is missing"
        | Some roster =>
          ParticipantRoster_Validate roster >>?
          refuse_when (pro_SpaceID roster ≠ pst_SpaceID status ∨
              pro_DomainID roster ≠ pst_DomainID status ∨
              pro_SecurityMode roster ≠ pst_SecurityMode status ∨
              pro_CurrentKeyEpoch roster ≠ pst_CurrentKeyEpoch status) CodeInvalidParticipant
            "Secure Shared Space participant bootstrap roster is inconsistent"
        end
    end.

Record SpaceStatus := mkSpaceStatus {
  sst_Version : Z;
  sst_SpaceID : UUID;
  sst_SecurityMode : SecurityMode;
  sst_InteractionMode : InteractionMode;
  sst_CurrentKeyEpoch : uint64;
  sst_BootstrapReady : bool;
  sst_ActiveCheckpointEpoch : option uint64;
  sst_DomainID : UUID;
  sst_InitialParticipantID : UUID;
  sst_Participants : list ParticipantV;
  sst_Presentations : list ParticipantPresentation;
  sst_ComputeBindings : list SpaceBinding;
  sst_Relay : DomainStatus;
  sst_CreatedAtMilliseconds : int64 }.

(** ** Provisioning admissions (provisioning_admission.go) *)

Definition MinimumProvisioningAdmissionLifetimeMilliseconds : int64 := 5 * 60 * 1000.
Definition MaximumProvisioningAdmissionLifetimeMilliseconds : int64 := 7 * 24 * 60 * 60 * 1000.

Definition provisioningAdmissionAuthorizationDomain : bytes :=
  domain_separator "Facets Shared Space provisioning admission v1".

Record ProvisioningAdmissionCredential := mkProvisioningAdmissionCredential {
  pac_AdmissionID : UUID;
  pac_Token : string }.

(** [None] is an error; no caller looks at which. *)
Definition ProvisioningAdmissionAuthorizationDigest (credential : ProvisioningAdmissionCredential)
    : option string :=
  if decide (pac_AdmissionID credential = uuid_Nil ∨
      none_or (b64_DecodeString (pac_Token credential)) (fun decoded =>
        zlen decoded ≠ 32 ∨ b64_EncodeToString decoded ≠ pac_Token credential))
  then None
  else Some (hex_EncodeToString (Sum256 (provisioningAdmissionAuthorizationDomain ++
    str (uuid_String (pac_AdmissionID credential)) ++ [byte_of 0] ++ str (pac_Token credential)))).

Record ProvisioningAdmission := mkProvisioningAdmission {
  pad_Version : Z;
  pad_RetryID : UUID;
  pad_AdmissionID : UUID;
  pad_AuthorizationDigest : string;
  pad_CreatedAtMilliseconds : int64;
  pad_ExpiresAtMilliseconds : int64;
  pad_ClaimedAtMilliseconds : option int64;
  pad_ClaimedSpaceID : option UUID;
  pad_ClaimedRequestDigest : option string }.

#[global] Instance eta_ProvisioningAdmission : Eta ProvisioningAdmission := fun a =>
  mkProvisioningAdmission (pad_Version a) (pad_RetryID a) (pad_AdmissionID a)
    (pad_AuthorizationDigest a) (pad_CreatedAtMilliseconds a) (pad_ExpiresAtMilliseconds a)
    (pad_ClaimedAtMilliseconds a) (pad_ClaimedSpaceID a) (pad_ClaimedRequestDigest a).
#[global] Instance upd_pad_ClaimedAtMilliseconds : Update pad_ClaimedAtMilliseconds :=
  ltac:(mk_update).
#[global] Instance upd_pad_ClaimedSpaceID : Update pad_ClaimedSpaceID := ltac:(mk_update).
#[global] Instance upd_pad_ClaimedRequestDigest : Update pad_ClaimedRequestDigest :=
  ltac:(mk_update).

Definition ProvisioningAdmission_Validate (a : ProvisioningAdmission) : option SpaceError :=
  let lifetime := i64 (pad_ExpiresAtMilliseconds a - pad_CreatedAtMilliseconds a) in
  let claimed := pad_ClaimedAtMilliseconds a in
  let space := pad_ClaimedSpaceID a in
  let digest := pad_ClaimedRequestDigest a in
  refuse_when (pad_Version a ≠ SchemaVersion ∨ pad_RetryID a = uuid_Nil ∨
      pad_AdmissionID a = uuid_Nil ∨ ¬ validFingerprint (pad_AuthorizationDigest a) ∨
      pad_CreatedAtMilliseconds a < 0 ∨
      lifetime < MinimumProvisioningAdmissionLifetimeMilliseconds ∨
      lifetime > MaximumProvisioningAdmissionLifetimeMilliseconds)
    CodeInvalidProvisioningAdmission "Shared Space provisioning admission fields are invalid" >>?
  refuse_when (¬ (claimed = None ∧ space = None ∧ digest = None) ∧
      ¬ (is_Some claimed ∧ is_Some space ∧ is_Some digest))
    CodeInvalidProvisioningAdmission
    "Shared Space provisioning admission claim state is incomplete" >>?
  refuse_when (some_and claimed (fun claimed =>
      claimed < pad_CreatedAtMilliseconds a ∨ claimed ≥ pad_ExpiresAtMilliseconds a ∨
      some_and space (fun space => space = uuid_Nil) ∨
      some_and digest (fun digest => ¬ validFingerprint digest)))
    CodeInvalidProvisioningAdmission
    "Shared Space provisioning admission claim state is invalid".

Definition ProvisioningAdmission_SameIssuance (a other : ProvisioningAdmission) : Prop :=
  pad_Version a = pad_Version other ∧ pad_RetryID a = pad_RetryID other ∧
  pad_AdmissionID a = pad_AdmissionID other ∧
  pad_AuthorizationDigest a = pad_AuthorizationDigest other ∧
  pad_CreatedAtMilliseconds a = pad_CreatedAtMilliseconds other ∧
  pad_ExpiresAtMilliseconds a = pad_ExpiresAtMilliseconds other.

#[global] Instance ProvisioningAdmission_SameIssuance_dec a b :
  Decision (ProvisioningAdmission_SameIssuance a b).
Proof. unfold ProvisioningAdmission_SameIssuance. apply _. Defined.

Definition ProvisioningAdmission_VerifyCredential (a : ProvisioningAdmission)
    (credential : ProvisioningAdmissionCredential) : option SpaceError :=
  let digest := ProvisioningAdmissionAuthorizationDigest credential in
  refuse_when (pac_AdmissionID credential ≠ pad_AdmissionID a) CodeWrongScope
    "Shared Space provisioning admission credential has another scope" >>?
  refuse_when (digest ≠ Some (pad_AuthorizationDigest a)) CodeUnauthorized
    "Shared Space provisioning admission credential is invalid".

Definition ProvisioningAdmission_RequireActive (a : ProvisioningAdmission)
    (nowMilliseconds : int64) : option SpaceError :=
  refuse_when (is_Some (pad_ClaimedAtMilliseconds a)) CodeProvisioningAdmissionClaimed
    "Shared Space provisioning admission was already claimed" >>?
  refuse_when (nowMilliseconds < pad_CreatedAtMilliseconds a ∨
      nowMilliseconds ≥ pad_ExpiresAtMilliseconds a) CodeProvisioningAdmissionExpired
    "Shared Space provisioning admission is not active".

Record ProvisioningAdmissionClaim := mkProvisioningAdmissionClaim {
  pacl_Version : Z;
  pacl_SpaceID : UUID;
  pacl_RequestDigest : string;
  pacl_ClaimedAtMilliseconds : int64 }.

Definition ProvisioningAdmissionClaim_Validate (c : ProvisioningAdmissionClaim)
    : option SpaceError :=
  refuse_when (pacl_Version c ≠ SchemaVersion ∨ pacl_SpaceID c = uuid_Nil ∨
      ¬ validFingerprint (pacl_RequestDigest c) ∨ pacl_ClaimedAtMilliseconds c < 0)
    CodeInvalidProvisioningAdmission "Shared Space provisioning admission claim is invalid".

Record ProvisioningAdmissionCreateResult := mkProvisioningAdmissionCreateResult {
  pacr_Acceptance : Acceptance;
  pacr_Admission : ProvisioningAdmission }.

Record ProvisioningAdmissionClaimResult := mkProvisioningAdmissionClaimResult {
  paclr_Acceptance : Acceptance;
  paclr_AdmissionID : UUID;
  paclr_SpaceID : UUID;
  paclr_RequestDigest : string;
  paclr_ClaimedAtMilliseconds : int64 }.
End views.
