(* ===== verification/SharedSpacesCompute.v ===== *)
(** * internal/sharedspaces: compute bindings and capabilities (compute.go, compute_capability.go)

    A Space refers to a compute pool by a binding, and issues its participants
    signed capabilities: immutable claims that a broker checks without reading
    the Space. *)

From S2P Require Import Prelude GoEncoding GoText Sha256 P256 RelayModel ComputePool ComputePrivacy SharedSpacesModel.
#[local] Open Scope Z_scope.

Section compute.
Context `{UuidLib} `{CurveLib}.

(** ** Bindings (compute.go) *)

Record SpaceComputeBindingChange := mkSpaceComputeBindingChange {
  sbc_Version : Z;
  sbc_RetryID : UUID;
  sbc_SpaceID : UUID;
  sbc_BindingID : UUID;
  sbc_PoolAuthority : AuthorityReference;
  sbc_PreviousBindingRevision : uint64;
  sbc_AllowedOperations : list string;
  sbc_EligiblePrincipalIDs : Slice UUID;
  sbc_EligibleRoleIdentifiers : Slice string;
  sbc_AllowedProviderIdentifiers : list string;
  sbc_ResourceCeiling : ResourceCeiling;
  sbc_BudgetCeiling : BudgetCeiling;
  sbc_PricingRevision : uint64;
  sbc_DataUseConstraints : list DataUseConstraint;
  sbc_SourceAuthorityRevision : uint64;
  sbc_ChangedAtMilliseconds : int64 }.

#[global] Instance SpaceComputeBindingChange_eq_dec : EqDecision SpaceComputeBindingChange.
Proof. solve_decision. Defined.

(** [change.binding]; a copy made with [append([]T(nil), ...)] is a list. *)
Definition SpaceComputeBindingChange_binding (change : SpaceComputeBindingChange)
    (revision : uint64) (createdAtMilliseconds updatedAtMilliseconds : int64) : SpaceBinding :=
  mkSpaceBinding ComputePool.SchemaVersion (sbc_BindingID change) (sbc_SpaceID change)
    (sbc_PoolAuthority change) (sbc_AllowedOperations change)
    (elements (sbc_EligiblePrincipalIDs change)) (elements (sbc_EligibleRoleIdentifiers change))
    (sbc_AllowedProviderIdentifiers change) (sbc_ResourceCeiling change) (sbc_BudgetCeiling change)
    (sbc_PricingRevision change) (sbc_DataUseConstraints change) revision
    (sbc_SourceAuthorityRevision change) createdAtMilliseconds updatedAtMilliseconds.

Definition SpaceComputeBindingChange_NextBinding (change : SpaceComputeBindingChange)
    (createdAtMilliseconds : int64) : SpaceBinding :=
  SpaceComputeBindingChange_binding change (u64 (sbc_PreviousBindingRevision change + 1))
    createdAtMilliseconds (sbc_ChangedAtMilliseconds change).

Definition SpaceComputeBindingChange_Validate (change : SpaceComputeBindingChange)
    : option SpaceError :=
  let binding := SpaceComputeBindingChange_binding change
    (u64 (sbc_PreviousBindingRevision change + 1)) (sbc_ChangedAtMilliseconds change)
    (sbc_ChangedAtMilliseconds change) in
  refuse_when (sbc_Version change ≠ SchemaVersion ∨ sbc_RetryID change = uuid_Nil ∨
      sbc_SpaceID change = uuid_Nil ∨ sbc_BindingID change = uuid_Nil ∨
      sbc_ChangedAtMilliseconds change < 0)
    CodeInvalidComputeBinding "Shared Space compute binding change fields are invalid" >>?
  refuse_when (is_Some (SpaceBinding_Validate binding))
    CodeInvalidComputeBinding "Shared Space compute binding policy is invalid".

Record SpaceComputeBindingChangeResult := mkSpaceComputeBindingChangeResult {
  sbcr_Acceptance : Acceptance;
  sbcr_RetryID : UUID;
  sbcr_Binding : SpaceBinding }.

#[global] Instance eta_SpaceComputeBindingChangeResult : Eta SpaceComputeBindingChangeResult :=
  fun r => mkSpaceComputeBindingChangeResult (sbcr_Acceptance r) (sbcr_RetryID r) (sbcr_Binding r).
#[global] Instance upd_sbcr_Acceptance : Update sbcr_Acceptance := ltac:(mk_update).

(** Both acceptances are valid ones. *)
Definition SpaceComputeBindingChangeResult_Validate (r : SpaceComputeBindingChangeResult)
    : option SpaceError :=
  refuse_when (sbcr_RetryID r = uuid_Nil ∨ is_Some (SpaceBinding_Validate (sbcr_Binding r)))
    CodeInvalidComputeBinding "Shared Space compute binding result fields are invalid".

(** ** Text and lists (compute_capability.go) *)

Definition ComputeCapabilityAlgorithm : string := "Ed25519".
Definition MaximumComputeCapabilityLifetimeMillis : int64 := 15 * 60 * 1000.
Definition computeCapabilitySignatureDomain : bytes :=
  domain_separator "Facets Shared Space Compute Capability v1".
Definition maximumComputeCapabilityIssuerByteCount : Z := 512.

Definition computeCapabilityKeyID (publicKey : bytes) : string :=
  b64_EncodeToString (Sum256 publicKey).

Definition validComputeKeyID (value : string) : bool :=
  bool_decide (some_and (b64_DecodeString value) (fun decoded =>
    zlen decoded = sha256_Size ∧ b64_EncodeToString decoded = value)).

Definition validComputeIssuer (value : string) : bool :=
  bool_decide (strings_TrimSpace value = value ∧ value ≠ "" ∧
    len value ≤ maximumComputeCapabilityIssuerByteCount).

Definition validComputeIdentifier (value : string) : bool :=
  utf8_ValidString value && bool_decide (value = strings_TrimSpace value) &&
  bool_decide (value ≠ "" ∧ len value ≤ 256).

Definition validComputeOperation (value : string) : bool := validComputeIdentifier value.

(** The loop of [validComputeIdentifiers]. *)
Fixpoint compute_identifiers_after (previous : string) (values : list string) : bool :=
  match values with
  | [] => true
  | value :: values =>
    validComputeIdentifier value && bool_decide (value ≠ previous) &&
    compute_identifiers_after value values
  end.

Definition validComputeIdentifiers (values : list string) (optional : bool) : bool :=
  bool_decide (¬ (zlen values > 128 ∨ ¬ sort_StringsAreSorted values ∨
      (optional = false ∧ zlen values = 0))) &&
  compute_identifiers_after "" values.

Definition validComputeDataUseConstraints (values : list DataUseConstraint) : bool :=
  bool_decide (zlen values = zlen privacyClasses) &&
  matches_in_order duc_PrivacyClass
    (fun value => bool_decide (DataUseConstraint_Validate value = None)) privacyClasses values.

(** [sort.SearchStrings] and a comparison. *)
Definition sortedStringsContain (values : list string) (value : string) : bool :=
  let index := sort_Search (zlen values) (fun i =>
    bool_decide (str_le value (nth (Z.to_nat i) values ""))) in
  bool_decide (index < zlen values ∧ values !! Z.to_nat index = Some value).

Definition ResourceCeiling_zero : ResourceCeiling := mkResourceCeiling 0 0 0 0.

Definition computeResourceCeilingContains (ceiling request : ResourceCeiling) : bool :=
  if decide (request = ResourceCeiling_zero) then true
  else if decide (is_Some (ResourceCeiling_Validate request)) then false
  else bool_decide (rc_MaximumInputBytes request ≤ rc_MaximumInputBytes ceiling ∧
    rc_MaximumOutputBytes request ≤ rc_MaximumOutputBytes ceiling ∧
    rc_MaximumMemoryBytes request ≤ rc_MaximumMemoryBytes ceiling ∧
    rc_MaximumWallTimeMilliseconds request ≤ rc_MaximumWallTimeMilliseconds ceiling).

(** ** Claims *)

Record ComputeCapabilityClaims := mkComputeCapabilityClaims {
  ccc_Version : Z;
  ccc_CapabilityID : UUID;
  ccc_Issuer : string;
  ccc_KeyID : string;
  ccc_SubjectParticipantID : UUID;
  ccc_SpaceID : UUID;
  ccc_BindingID : UUID;
  ccc_PoolID : UUID;
  ccc_PoolAuthorityRevision : uint64;
  ccc_PoolAuthorityDigest : string;
  ccc_Operation : string;
  ccc_AllowedProviderIdentifiers : list string;
  ccc_ResourceCeiling : ResourceCeiling;
  ccc_BudgetCeiling : BudgetCeiling;
  ccc_PricingRevision : uint64;
  ccc_DataUseConstraints : list DataUseConstraint;
  ccc_BindingRevision : uint64;
  ccc_SourceAuthorityRevision : uint64;
  ccc_KeyEpoch : uint64;
  ccc_IssuedAtMilliseconds : int64;
  ccc_ExpiresAtMilliseconds : int64 }.

Definition from_contract (err : option ContractError) : option SpaceError :=
  SpaceContractError <$> err.

Definition ComputeCapabilityClaims_Validate (c : ComputeCapabilityClaims) : option SpaceError :=
  refuse_when (ccc_Version c ≠ SchemaVersion ∨ ccc_CapabilityID c = uuid_Nil ∨
      ccc_SubjectParticipantID c = uuid_Nil ∨ ccc_SpaceID c = uuid_Nil ∨
      ccc_BindingID c = uuid_Nil ∨ ccc_PoolID c = uuid_Nil ∨ ccc_PoolAuthorityRevision c = 0 ∨
      ¬ validFingerprint (ccc_PoolAuthorityDigest c) ∨ ccc_PricingRevision c = 0 ∨
      ccc_BindingRevision c = 0 ∨ ccc_SourceAuthorityRevision c = 0 ∨ ccc_KeyEpoch c = 0 ∨
      ¬ validComputeIssuer (ccc_Issuer c) ∨ ¬ validComputeKeyID (ccc_KeyID c) ∨
      ¬ validComputeOperation (ccc_Operation c) ∨
      ¬ validComputeIdentifiers (ccc_AllowedProviderIdentifiers c) false ∨
      is_Some (BudgetCeiling_Validate (ccc_BudgetCeiling c)) ∨
      ¬ validComputeDataUseConstraints (ccc_DataUseConstraints c) ∨
      ccc_IssuedAtMilliseconds c < 0 ∨
      ccc_ExpiresAtMilliseconds c ≤ ccc_IssuedAtMilliseconds c ∨
      i64 (ccc_ExpiresAtMilliseconds c - ccc_IssuedAtMilliseconds c) >
        MaximumComputeCapabilityLifetimeMillis)
    CodeInvalidComputeCapability "Shared Space compute capability claims are invalid" >>?
  from_contract (ResourceCeiling_Validate (ccc_ResourceCeiling c)).

Record ComputeCapabilityRequest := mkComputeCapabilityRequest {
  ccq_Version : Z;
  ccq_RetryID : UUID;
  ccq_SpaceID : UUID;
  ccq_BindingID : UUID;
  ccq_PoolID : UUID;
  ccq_Operation : string;
  ccq_ResourceRequest : ResourceCeiling;
  ccq_ExpectedBindingRevision : uint64;
  ccq_ExpectedKeyEpoch : uint64;
  ccq_IssuedAtMilliseconds : int64;
  ccq_ExpiresAtMilliseconds : int64 }.

Definition ComputeCapabilityRequest_Validate (r : ComputeCapabilityRequest) : option SpaceError :=
  refuse_when (ccq_Version r ≠ SchemaVersion ∨ ccq_RetryID r = uuid_Nil ∨
      ccq_SpaceID r = uuid_Nil ∨ ccq_BindingID r = uuid_Nil ∨ ccq_PoolID r = uuid_Nil ∨
      ccq_ExpectedBindingRevision r = 0 ∨ ccq_ExpectedKeyEpoch r = 0 ∨
      ¬ validComputeOperation (ccq_Operation r) ∨ ccq_IssuedAtMilliseconds r < 0 ∨
      ccq_ExpiresAtMilliseconds r ≤ ccq_IssuedAtMilliseconds r ∨
      i64 (ccq_ExpiresAtMilliseconds r - ccq_IssuedAtMilliseconds r) >
        MaximumComputeCapabilityLifetimeMillis)
    CodeInvalidComputeCapability "Shared Space compute capability request is invalid" >>?
  refuse_when (is_Some (ResourceCeiling_Validate (ccq_ResourceRequest r)))
    CodeInvalidComputeCapability
    "Shared Space compute capability resource request is invalid".

(** ** Authorizations *)

Record ComputeCapabilityAuthorization := mkComputeCapabilityAuthorization {
  cca_Version : Z;
  cca_CapabilityID : UUID;
  cca_SubjectParticipantID : UUID;
  cca_SpaceID : UUID;
  cca_BindingID : UUID;
  cca_PoolID : UUID;
  cca_PoolAuthorityRevision : uint64;
  cca_PoolAuthorityDigest : string;
  cca_Operation : string;
  cca_AllowedProviderIdentifiers : list string;
  cca_ResourceCeiling : ResourceCeiling;
  cca_BudgetCeiling : BudgetCeiling;
  cca_PricingRevision : uint64;
  cca_DataUseConstraints : list DataUseConstraint;
  cca_BindingRevision : uint64;
  cca_SourceAuthorityRevision : uint64;
  cca_KeyEpoch : uint64;
  cca_IssuedAtMilliseconds : int64;
  cca_ExpiresAtMilliseconds : int64 }.

(** The claims with the content of an authorization. *)
Definition claims_of (a : ComputeCapabilityAuthorization) (issuer keyID : string)
    : ComputeCapabilityClaims :=
  mkComputeCapabilityClaims (cca_Version a) (cca_CapabilityID a) issuer keyID
    (cca_SubjectParticipantID a) (cca_SpaceID a) (cca_BindingID a) (cca_PoolID a)
    (cca_PoolAuthorityRevision a) (cca_PoolAuthorityDigest a) (cca_Operation a)
    (cca_AllowedProviderIdentifiers a) (cca_ResourceCeiling a) (cca_BudgetCeiling a)
    (cca_PricingRevision a) (cca_DataUseConstraints a) (cca_BindingRevision a)
    (cca_SourceAuthorityRevision a) (cca_KeyEpoch a) (cca_IssuedAtMilliseconds a)
    (cca_ExpiresAtMilliseconds a).

Definition ComputeCapabilityAuthorization_Validate (a : ComputeCapabilityAuthorization)
    : option SpaceError :=
  ComputeCapabilityClaims_Validate
    (claims_of a "authorization" (b64_EncodeToString (replicate 32 (byte_of 0)))).

Definition bindingAllowsParticipant (binding : SpaceBinding) (participantID : UUID)
    (participantRole : Role) : bool :=
  let participant := uuid_String participantID in
  let principals := sb_EligiblePrincipalIDs binding in
  let principalIndex := sort_Search (zlen principals) (fun i =>
    bool_decide (str_le participant (uuid_String (nth (Z.to_nat i) principals uuid_Nil)))) in
  bool_decide (principalIndex < zlen principals ∧
    principals !! Z.to_nat principalIndex = Some participantID) ||
  sortedStringsContain (sb_EligibleRoleIdentifiers binding) participantRole.

Definition AuthorizeComputeCapability (request : ComputeCapabilityRequest) (participantID : UUID)
    (participantRole : Role) (currentKeyEpoch : uint64) (binding : SpaceBinding)
    (nowMilliseconds : int64) : SpaceError + ComputeCapabilityAuthorization :=
  match
    ComputeCapabilityRequest_Validate request >>?
    refuse_when (participantID = uuid_Nil ∨ ¬ Role_Valid participantRole ∨
        ccq_IssuedAtMilliseconds request > nowMilliseconds ∨
        nowMilliseconds ≥ ccq_ExpiresAtMilliseconds request) CodeInvalidComputeCapability
      "Shared Space compute capability request is not currently valid" >>?
    refuse_when (is_Some (SpaceBinding_Validate binding)) CodeInvalidComputeBinding
      "Shared Space compute binding is invalid" >>?
    refuse_when (sb_SpaceID binding ≠ ccq_SpaceID request ∨
        sb_BindingID binding ≠ ccq_BindingID request ∨
        ar_PoolID (sb_PoolAuthority binding) ≠ ccq_PoolID request ∨
        sb_Revision binding ≠ ccq_ExpectedBindingRevision request ∨
        sb_SourceAuthorityRevision binding ≠ currentKeyEpoch ∨
        currentKeyEpoch ≠ ccq_ExpectedKeyEpoch request) CodeComputeCapabilityUnauthorized
      "Shared Space compute capability policy changed or is unavailable" >>?
    refuse_when (¬ bindingAllowsParticipant binding participantID participantRole ∨
        ¬ sortedStringsContain (sb_AllowedOperations binding) (ccq_Operation request) ∨
        ¬ computeResourceCeilingContains (sb_ResourceCeiling binding)
            (ccq_ResourceRequest request)) CodeComputeCapabilityUnauthorized
      "Shared Space compute capability request exceeds its binding policy"
  with
  | Some err => inl err
  | None => inr (mkComputeCapabilityAuthorization SchemaVersion (ccq_RetryID request) participantID
      (ccq_SpaceID request) (ccq_BindingID request) (ccq_PoolID request)
      (ar_AcceptedManifestRevision (sb_PoolAuthority binding))
      (ar_AcceptedManifestDigest (sb_PoolAuthority binding)) (ccq_Operation request)
      (sb_AllowedProviderIdentifiers binding) (ccq_ResourceRequest request)
      (sb_BudgetCeiling binding) (sb_PricingRevision binding) (sb_DataUseConstraints binding)
      (sb_Revision binding) (sb_SourceAuthorityRevision binding) currentKeyEpoch
      (ccq_IssuedAtMilliseconds request) (ccq_ExpiresAtMilliseconds request))
  end.

(** ** Signed capabilities *)

Definition DataUseConstraint_json (c : DataUseConstraint) : json :=
  JObject (
    field "privacyClass" (JString (duc_PrivacyClass c)) ++
    field "audience" (JString (duc_Audience c)) ++
    field "maximumPlaintextBoundary" (JString (duc_MaximumPlaintextBoundary c)) ++
    field "permittedProviderIdentifiers" (JSlice JString (duc_PermittedProviderIdentifiers c)) ++
    field "permittedNetworkEgress" (JList JString (duc_PermittedNetworkEgress c)) ++
    optional "maximumRequestRetentionMilliseconds" JInt
      (duc_MaximumRequestRetentionMilliseconds c) ++
    field "permittedTrainingUse" (JList JString (duc_PermittedTrainingUse c)) ++
    field "permittedToolAccess" (JList JString (duc_PermittedToolAccess c)) ++
    field "resultPolicy" (JString (duc_ResultPolicy c)) ++
    field "overrideControl" (JString (duc_OverrideControl c))).

Definition ComputeCapabilityClaims_json (c : ComputeCapabilityClaims) : json :=
  JObject (
    field "version" (JInt (ccc_Version c)) ++
    field "capabilityID" (JUuid (ccc_CapabilityID c)) ++
    field "issuer" (JString (ccc_Issuer c)) ++
    field "keyID" (JString (ccc_KeyID c)) ++
    field "subjectParticipantID" (JUuid (ccc_SubjectParticipantID c)) ++
    field "spaceID" (JUuid (ccc_SpaceID c)) ++
    field "bindingID" (JUuid (ccc_BindingID c)) ++
    field "poolID" (JUuid (ccc_PoolID c)) ++
    field "poolAuthorityRevision" (JInt (ccc_PoolAuthorityRevision c)) ++
    field "poolAuthorityDigest" (JString (ccc_PoolAuthorityDigest c)) ++
    field "operation" (JString (ccc_Operation c)) ++
    field "allowedProviderIdentifiers" (JList JString (ccc_AllowedProviderIdentifiers c)) ++
    field "resourceCeiling" (ResourceCeiling_json (ccc_ResourceCeiling c)) ++
    field "budgetCeiling" (BudgetCeiling_json (ccc_BudgetCeiling c)) ++
    field "pricingRevision" (JInt (ccc_PricingRevision c)) ++
    field "dataUseConstraints" (JList DataUseConstraint_json (ccc_DataUseConstraints c)) ++
    field "bindingRevision" (JInt (ccc_BindingRevision c)) ++
    field "sourceAuthorityRevision" (JInt (ccc_SourceAuthorityRevision c)) ++
    field "keyEpoch" (JInt (ccc_KeyEpoch c)) ++
    field "issuedAtMilliseconds" (JInt (ccc_IssuedAtMilliseconds c)) ++
    field "expiresAtMilliseconds" (JInt (ccc_ExpiresAtMilliseconds c))).

Definition computeCapabilitySignaturePayload (claims : ComputeCapabilityClaims) : bytes :=
  computeCapabilitySignatureDomain ++ Marshal (ComputeCapabilityClaims_json claims).

Record SignedComputeCapability := mkSignedComputeCapability {
  scc_Version : Z;
  scc_Algorithm : string;
  scc_Claims : ComputeCapabilityClaims;
  scc_Signature : string }.

Definition SignedComputeCapability_Validate (c : SignedComputeCapability) : option SpaceError :=
  refuse_when (scc_Version c ≠ SchemaVersion ∨ scc_Algorithm c ≠ ComputeCapabilityAlgorithm ∨
      none_or (b64_DecodeString (scc_Signature c)) (fun decoded =>
        zlen decoded ≠ ed25519_SignatureSize ∨ b64_EncodeToString decoded ≠ scc_Signature c))
    CodeInvalidComputeCapability "signed Shared Space compute capability is invalid" >>?
  ComputeCapabilityClaims_Validate (scc_Claims c).

Record ComputeCapabilityVerificationKey := mkComputeCapabilityVerificationKey {
  cvk_Version : Z;
  cvk_Issuer : string;
  cvk_KeyID : string;
  cvk_Algorithm : string;
  cvk_PublicKey : string }.

Definition ComputeCapabilityVerificationKey_Validate (k : ComputeCapabilityVerificationKey)
    : option SpaceError :=
  refuse_when (cvk_Version k ≠ SchemaVersion ∨ cvk_Algorithm k ≠ ComputeCapabilityAlgorithm ∨
      ¬ validComputeIssuer (cvk_Issuer k) ∨ ¬ validComputeKeyID (cvk_KeyID k) ∨
      none_or (b64_DecodeString (cvk_PublicKey k)) (fun decoded =>
        zlen decoded ≠ ed25519_PublicKeySize ∨ b64_EncodeToString decoded ≠ cvk_PublicKey k ∨
        computeCapabilityKeyID decoded ≠ cvk_KeyID k))
    CodeInvalidComputeCapability
    "Shared Space compute capability verification key is invalid".

Record ComputeCapabilitySigner := mkComputeCapabilitySigner {
  ccs_issuer : string;
  ccs_keyID : string;
  ccs_privateKey : bytes;
  ccs_publicKey : bytes }.

Context `{Ed25519Lib}.

Definition NewComputeCapabilitySigner (seed : bytes) (issuer : string)
    : SpaceError + ComputeCapabilitySigner :=
  if decide (zlen seed ≠ ed25519_SeedSize ∨ ¬ validComputeIssuer issuer)
  then inl (NewProtocolError CodeInvalidComputeCapability
    "Shared Space compute capability signer configuration is invalid")
  else
    let privateKey := ed25519_NewKeyFromSeed seed in
    let publicKey := ed25519_Public privateKey in
    inr (mkComputeCapabilitySigner issuer (computeCapabilityKeyID publicKey) privateKey publicKey).

Definition ComputeCapabilitySigner_VerificationKey (s : ComputeCapabilitySigner)
    : ComputeCapabilityVerificationKey :=
  mkComputeCapabilityVerificationKey SchemaVersion (ccs_issuer s) (ccs_keyID s)
    ComputeCapabilityAlgorithm (b64_EncodeToString (ccs_publicKey s)).

Definition ComputeCapabilitySigner_Sign (s : ComputeCapabilitySigner)
    (claims : ComputeCapabilityClaims) : SpaceError + SignedComputeCapability :=
  match
    refuse_when (ccc_Issuer claims ≠ ccs_issuer s ∨ ccc_KeyID claims ≠ ccs_keyID s)
      CodeInvalidComputeCapability
      "Shared Space compute capability claims use another signing authority" >>?
    ComputeCapabilityClaims_Validate claims
  with
  | Some err => inl err
  | None => inr (mkSignedComputeCapability SchemaVersion ComputeCapabilityAlgorithm claims
      (b64_EncodeToString
        (ed25519_Sign (ccs_privateKey s) (computeCapabilitySignaturePayload claims))))
  end.

Definition ComputeCapabilitySigner_Issue (s : ComputeCapabilitySigner)
    (authorization : ComputeCapabilityAuthorization) : SpaceError + SignedComputeCapability :=
  match ComputeCapabilityAuthorization_Validate authorization with
  | Some err => inl err
  | None => ComputeCapabilitySigner_Sign s
      (claims_of authorization (ccs_issuer s) (ccs_keyID s))
  end.

(** ** Verification *)

Record computeCapabilityVerifierKey := mkComputeCapabilityVerifierKey {
  cck_issuer : string;
  cck_publicKey : bytes }.

Abbreviation ComputeCapabilityVerifier := (gmap string computeCapabilityVerifierKey) (only parsing).

(** The loop of [NewComputeCapabilityVerifier]. *)
Fixpoint verifier_keys (keys : list ComputeCapabilityVerificationKey)
    (verifier : ComputeCapabilityVerifier) : SpaceError + ComputeCapabilityVerifier :=
  match keys with
  | [] => inr verifier
  | key :: keys =>
    match
      ComputeCapabilityVerificationKey_Validate key >>?
      refuse_when (is_Some (verifier !! cvk_KeyID key)) CodeInvalidComputeCapability
        "Shared Space compute capability verification key ID is duplicated"
    with
    | Some err => inl err
    | None => verifier_keys keys
        (<[cvk_KeyID key :=
           mkComputeCapabilityVerifierKey (cvk_Issuer key) (decoded (cvk_PublicKey key))]> verifier)
    end
  end.

Definition NewComputeCapabilityVerifier (keys : list ComputeCapabilityVerificationKey)
    : SpaceError + ComputeCapabilityVerifier :=
  verifier_keys keys ∅.

Record ComputeCapabilityRequirement := mkComputeCapabilityRequirement {
  ccr_Issuer : string;
  ccr_SubjectParticipantID : UUID;
  ccr_SpaceID : UUID;
  ccr_BindingID : UUID;
  ccr_PoolID : UUID;
  ccr_PoolAuthorityRevision : uint64;
  ccr_PoolAuthorityDigest : string;
  ccr_SourceAuthorityRevision : uint64;
  ccr_ProviderIdentifier : string;
  ccr_Operation : string;
  ccr_ResourceRequest : ResourceCeiling;
  ccr_KeyEpoch : uint64 }.

(** The scope comparison of [Verify]: a zero requirement asks for nothing. *)
Definition outside_scope (claims : ComputeCapabilityClaims) (r : ComputeCapabilityRequirement)
    : Prop :=
  (ccr_Issuer r ≠ "" ∧ ccc_Issuer claims ≠ ccr_Issuer r) ∨
  (ccr_SubjectParticipantID r ≠ uuid_Nil ∧
   ccc_SubjectParticipantID claims ≠ ccr_SubjectParticipantID r) ∨
  (ccr_SpaceID r ≠ uuid_Nil ∧ ccc_SpaceID claims ≠ ccr_SpaceID r) ∨
  (ccr_BindingID r ≠ uuid_Nil ∧ ccc_BindingID claims ≠ ccr_BindingID r) ∨
  (ccr_PoolID r ≠ uuid_Nil ∧ ccc_PoolID claims ≠ ccr_PoolID r) ∨
  (ccr_PoolAuthorityRevision r ≠ 0 ∧
   ccc_PoolAuthorityRevision claims ≠ ccr_PoolAuthorityRevision r) ∨
  (ccr_PoolAuthorityDigest r ≠ "" ∧ ccc_PoolAuthorityDigest claims ≠ ccr_PoolAuthorityDigest r) ∨
  (ccr_SourceAuthorityRevision r ≠ 0 ∧
   ccc_SourceAuthorityRevision claims ≠ ccr_SourceAuthorityRevision r) ∨
  (ccr_Operation r ≠ "" ∧ ccc_Operation claims ≠ ccr_Operation r) ∨
  (ccr_KeyEpoch r ≠ 0 ∧ ccc_KeyEpoch claims ≠ ccr_KeyEpoch r).

#[global] Instance outside_scope_dec claims r : Decision (outside_scope claims r).
Proof. unfold outside_scope. apply _. Defined.

Definition ComputeCapabilityVerifier_Verify (v : ComputeCapabilityVerifier)
    (capability : SignedComputeCapability) (requirement : ComputeCapabilityRequirement)
    (nowMilliseconds : int64) : SpaceError + ComputeCapabilityClaims :=
  let claims := scc_Claims capability in
  match
    SignedComputeCapability_Validate capability >>?
    match v !! ccc_KeyID claims with
    | None => Some (NewProtocolError CodeComputeCapabilityUnauthorized
        "Shared Space compute capability signing authority is not trusted")
    | Some key =>
      let verified := ed25519_Verify (cck_publicKey key) (computeCapabilitySignaturePayload claims)
        (decoded (scc_Signature capability)) in
      refuse_when (cck_issuer key ≠ ccc_Issuer claims) CodeComputeCapabilityUnauthorized
        "Shared Space compute capability signing authority is not trusted" >>?
      refuse_when (verified = false) CodeComputeCapabilityUnauthorized
        "Shared Space compute capability signature is invalid"
    end >>?
    refuse_when (nowMilliseconds < ccc_IssuedAtMilliseconds claims ∨
        nowMilliseconds ≥ ccc_ExpiresAtMilliseconds claims) CodeComputeCapabilityExpired
      "Shared Space compute capability is not currently valid" >>?
    refuse_when (outside_scope claims requirement) CodeComputeCapabilityUnauthorized
      "Shared Space compute capability scope does not authorize this request" >>?
    refuse_when (ccr_ProviderIdentifier requirement ≠ "" ∧
        ¬ sortedStringsContain (ccc_AllowedProviderIdentifiers claims)
            (ccr_ProviderIdentifier requirement)) CodeComputeCapabilityUnauthorized
      "Shared Space compute capability does not authorize this provider" >>?
    refuse_when (¬ computeResourceCeilingContains (ccc_ResourceCeiling claims)
        (ccr_ResourceRequest requirement)) CodeComputeCapabilityUnauthorized
      "Shared Space compute capability resource ceiling was exceeded"
  with
  | Some err => inl err
  | None => inr claims
  end.
End compute.
