(* ===== verification/SharedSpaces.v ===== *)
(** * internal/sharedspaces: the store of Spaces and invitations (memory.go)

    The in-memory store up to invitations.  It carries out membership on a
    relay, whose own store is part of the state here, and shares slices of
    device keys between its records: a provisioning record and its host, an
    invitation and the participant it admits.  Such a slice is a reference
    into [ms_arrays]. *)

From S2P Require Import Prelude GoEncoding GoText Sha256 P256 RelayModel RelayState RelayTenant RelayMember RelaySubscription RelayDelivery ServiceAuthority KeyCustody ComputePool SharedSpacesModel SharedSpacesChanges SharedSpacesCompute.
#[local] Open Scope Z_scope.

(** The spare capacity that the Go runtime gives a slice of [n] elements that a
    caller passes in, and the one that [append] gives a slice that outgrows
    its capacity. *)
Class SliceLib := {
  argument_spare : nat → nat;
  growslice_spare : nat → nat → nat }.

(** A slice of device keys in the store: nil, or an array and a length. *)
Record KeySlice := mkKeySlice { ks_array : N; ks_length : nat }.

Abbreviation KeyRef := (option KeySlice) (only parsing).

Definition ParticipantKeyGrantSignature_zero : ParticipantKeyGrantSignature :=
  mkParticipantKeyGrantSignature "" "" "" "".
Definition ParticipantDeviceKey_zero : ParticipantDeviceKey :=
  mkParticipantDeviceKey 0 uuid_Nil uuid_Nil uuid_Nil "" "" "" 0 None
    ParticipantKeyGrantSignature_zero.

Section store.
Context `{UuidLib} `{ManifestLib} `{CurveLib} `{AeadLib} `{SliceLib}.

(** ** State *)

Record memorySpace := mkMemorySpace {
  msp_provisioning : SpaceProvisioning KeyRef;
  msp_result : TenantProvisioningResult;
  msp_participants : gmap UUID (Participant KeyRef);
  msp_secureRosterAttestation : option SecureRosterAttestation;
  msp_secureRosterHistory : list SecureRosterAttestation;
  msp_presentations : gmap UUID ParticipantPresentation;
  msp_keyGrants : gmap uint64 (gmap GrantTarget ParticipantKeyGrant);
  msp_managedContentKeys : gmap uint64 bytes;
  msp_computeBindings : gmap UUID SpaceBinding;
  msp_keyEpoch : uint64;
  msp_activeCheckpointEpoch : uint64;
  msp_initialAuthority : option InitialBinding;
  msp_authorityActive : bool }.

#[global] Instance eta_memorySpace : Eta memorySpace := fun s =>
  mkMemorySpace (msp_provisioning s) (msp_result s) (msp_participants s)
    (msp_secureRosterAttestation s) (msp_secureRosterHistory s) (msp_presentations s)
    (msp_keyGrants s) (msp_managedContentKeys s) (msp_computeBindings s) (msp_keyEpoch s)
    (msp_activeCheckpointEpoch s) (msp_initialAuthority s) (msp_authorityActive s).
#[global] Instance upd_msp_participants : Update msp_participants := ltac:(mk_update).
#[global] Instance upd_msp_secureRosterAttestation : Update msp_secureRosterAttestation := ltac:(mk_update).
#[global] Instance upd_msp_secureRosterHistory : Update msp_secureRosterHistory := ltac:(mk_update).
#[global] Instance upd_msp_presentations : Update msp_presentations := ltac:(mk_update).
#[global] Instance upd_msp_keyGrants : Update msp_keyGrants := ltac:(mk_update).
#[global] Instance upd_msp_managedContentKeys : Update msp_managedContentKeys := ltac:(mk_update).
#[global] Instance upd_msp_computeBindings : Update msp_computeBindings := ltac:(mk_update).
#[global] Instance upd_msp_keyEpoch : Update msp_keyEpoch := ltac:(mk_update).
#[global] Instance upd_msp_activeCheckpointEpoch : Update msp_activeCheckpointEpoch := ltac:(mk_update).
#[global] Instance upd_msp_authorityActive : Update msp_authorityActive := ltac:(mk_update).

Record memoryInvitation := mkMemoryInvitation {
  miv_invitation : Invitation KeyRef;
  miv_result : option (InvitationClaimResult KeyRef);
  miv_cancellation : option InvitationCancellationResult;
  miv_claimedAtMilliseconds : option int64 }.

Record MemoryStore := mkMemoryStore {
  ms_relay : RelayState.MemoryStore;
  ms_arrays : gmap N (list ParticipantDeviceKey);
  ms_arrayCount : N;
  ms_rand : Rand;
  ms_spaces : gmap UUID memorySpace;
  ms_spaceRetries : gmap UUID UUID;
  ms_provisioningAdmissions : gmap UUID ProvisioningAdmission;
  ms_provisioningAdmissionRetries : gmap UUID UUID;
  ms_invitations : gmap UUID memoryInvitation;
  ms_invitationRetries : gmap UUID UUID;
  ms_invitationCancellationRequests : gmap UUID InvitationCancellation;
  ms_invitationCancellationResponses : gmap UUID InvitationCancellationResult;
  ms_revocationRequests : gmap UUID ParticipantRevocation;
  ms_revocationResponses : gmap UUID ParticipantRevocationResult;
  ms_roleChangeRequests : gmap UUID ParticipantRoleChange;
  ms_roleChangeResponses : gmap UUID ParticipantRoleChangeResult;
  ms_deviceEnrollmentRequests : gmap UUID ParticipantDeviceEnrollment;
  ms_deviceEnrollmentResponses : gmap UUID ParticipantDeviceEnrollmentResult;
  ms_deviceRevocationRequests : gmap UUID ParticipantDeviceRevocation;
  ms_deviceRevocationResponses : gmap UUID ParticipantDeviceRevocationResult;
  ms_presentationUpdateRequests : gmap UUID ParticipantPresentationUpdate;
  ms_presentationUpdateResponses : gmap UUID ParticipantPresentationUpdateResult;
  ms_computeBindingChangeRequests : gmap UUID SpaceComputeBindingChange;
  ms_computeBindingChangeResponses : gmap UUID SpaceComputeBindingChangeResult;
  ms_checkpointEpochs : gmap UUID uint64;
  ms_authorityEvents : gmap UUID (list AuthorityEvent);
  ms_nextAuthoritySequences : gmap UUID uint64;
  ms_managedContentKeys : option AEAD }.

#[global] Instance eta_MemoryStore : Eta MemoryStore := fun s =>
  mkMemoryStore (ms_relay s) (ms_arrays s) (ms_arrayCount s) (ms_rand s) (ms_spaces s)
    (ms_spaceRetries s) (ms_provisioningAdmissions s) (ms_provisioningAdmissionRetries s)
    (ms_invitations s) (ms_invitationRetries s) (ms_invitationCancellationRequests s)
    (ms_invitationCancellationResponses s) (ms_revocationRequests s) (ms_revocationResponses s)
    (ms_roleChangeRequests s) (ms_roleChangeResponses s) (ms_deviceEnrollmentRequests s)
    (ms_deviceEnrollmentResponses s) (ms_deviceRevocationRequests s)
    (ms_deviceRevocationResponses s) (ms_presentationUpdateRequests s)
    (ms_presentationUpdateResponses s) (ms_computeBindingChangeRequests s)
    (ms_computeBindingChangeResponses s) (ms_checkpointEpochs s) (ms_authorityEvents s)
    (ms_nextAuthoritySequences s) (ms_managedContentKeys s).
#[global] Instance upd_ms_relay : Update ms_relay := ltac:(mk_update).
#[global] Instance upd_ms_arrays : Update ms_arrays := ltac:(mk_update).
#[global] Instance upd_ms_arrayCount : Update ms_arrayCount := ltac:(mk_update).
#[global] Instance upd_ms_rand : Update ms_rand := ltac:(mk_update).
#[global] Instance upd_ms_spaces : Update ms_spaces := ltac:(mk_update).
#[global] Instance upd_ms_spaceRetries : Update ms_spaceRetries := ltac:(mk_update).
#[global] Instance upd_ms_provisioningAdmissions : Update ms_provisioningAdmissions := ltac:(mk_update).
#[global] Instance upd_ms_provisioningAdmissionRetries : Update ms_provisioningAdmissionRetries := ltac:(mk_update).
#[global] Instance upd_ms_invitations : Update ms_invitations := ltac:(mk_update).
#[global] Instance upd_ms_invitationRetries : Update ms_invitationRetries := ltac:(mk_update).
#[global] Instance upd_ms_invitationCancellationRequests : Update ms_invitationCancellationRequests := ltac:(mk_update).
#[global] Instance upd_ms_invitationCancellationResponses : Update ms_invitationCancellationResponses := ltac:(mk_update).
#[global] Instance upd_ms_revocationRequests : Update ms_revocationRequests := ltac:(mk_update).
#[global] Instance upd_ms_revocationResponses : Update ms_revocationResponses := ltac:(mk_update).
#[global] Instance upd_ms_roleChangeRequests : Update ms_roleChangeRequests := ltac:(mk_update).
#[global] Instance upd_ms_roleChangeResponses : Update ms_roleChangeResponses := ltac:(mk_update).
#[global] Instance upd_ms_deviceEnrollmentRequests : Update ms_deviceEnrollmentRequests := ltac:(mk_update).
#[global] Instance upd_ms_deviceEnrollmentResponses : Update ms_deviceEnrollmentResponses := ltac:(mk_update).
#[global] Instance upd_ms_deviceRevocationRequests : Update ms_deviceRevocationRequests := ltac:(mk_update).
#[global] Instance upd_ms_deviceRevocationResponses : Update ms_deviceRevocationResponses := ltac:(mk_update).
#[global] Instance upd_ms_presentationUpdateRequests : Update ms_presentationUpdateRequests := ltac:(mk_update).
#[global] Instance upd_ms_presentationUpdateResponses : Update ms_presentationUpdateResponses := ltac:(mk_update).
#[global] Instance upd_ms_computeBindingChangeRequests : Update ms_computeBindingChangeRequests := ltac:(mk_update).
#[global] Instance upd_ms_computeBindingChangeResponses : Update ms_computeBindingChangeResponses := ltac:(mk_update).
#[global] Instance upd_ms_checkpointEpochs : Update ms_checkpointEpochs := ltac:(mk_update).
#[global] Instance upd_ms_authorityEvents : Update ms_authorityEvents := ltac:(mk_update).
#[global] Instance upd_ms_nextAuthoritySequences : Update ms_nextAuthoritySequences := ltac:(mk_update).

(** Without custodians the store makes a key of its own. *)
Definition NewMemoryStore (relayStore : RelayState.MemoryStore) (rand : Rand)
    (custodians : list (option AEAD)) : MemoryStore :=
  let '(rand, custodian) :=
    match custodians with
    | custodian :: _ => (rand, custodian)
    | [] =>
      let '(rand, result) := NewEphemeralManagedContentKeys rand in
      (rand, match result with inr custodian => custodian | inl _ => None end)
    end in
  mkMemoryStore relayStore ∅ 0 rand ∅ ∅ ∅ ∅ ∅ ∅ ∅ ∅ ∅ ∅ ∅ ∅ ∅ ∅ ∅ ∅ ∅ ∅ ∅ ∅ ∅ ∅ ∅ custodian.

Abbreviation SpaceM A := (M SpaceError MemoryStore A) (only parsing).

(** A call of [s.relay]; its error is returned as it is. *)
Definition relay {A} (call : M GoError RelayState.MemoryStore A) : SpaceM A := fun s =>
  let '(r, result) := call (ms_relay s) in
  (s <| ms_relay := r |>, match result with inl err => inl (SpaceRelayError err) | inr a => inr a end).

(** A call of [s.managedContentKeys] that draws randomness. *)
Definition custody {A} (call : M CustodyError Rand A) : SpaceM A := fun s =>
  let '(r, result) := call (ms_rand s) in
  (s <| ms_rand := r |>, match result with inl err => inl (SpaceCustodyError err) | inr a => inr a end).

(** ** Slices *)

Definition array_of (s : MemoryStore) (slice : KeySlice) : list ParticipantDeviceKey :=
  default [] (ms_arrays s !! ks_array slice).

Definition read_keys (s : MemoryStore) (keys : KeyRef) : DeviceKeys :=
  match keys with
  | None => None
  | Some slice => Some (take (ks_length slice) (array_of s slice))
  end.

Definition participant_value (s : MemoryStore) (p : Participant KeyRef) : ParticipantV :=
  with_keys (read_keys s) p.

Definition provisioning_value (s : MemoryStore) (p : SpaceProvisioning KeyRef)
    : SpaceProvisioning DeviceKeys :=
  provisioning_with_keys (read_keys s) p.

Definition invitation_value (s : MemoryStore) (i : Invitation KeyRef) : Invitation DeviceKeys :=
  invitation_with_keys (read_keys s) i.

(** A new array that holds [keys] and has spare capacity. *)
Definition new_array (keys : list ParticipantDeviceKey) (spare : nat) : SpaceM KeySlice :=
  let* s := get in
  modify (fun s => s
    <| ms_arrays := <[ms_arrayCount s := keys ++ replicate spare ParticipantDeviceKey_zero]> (ms_arrays s) |>
    <| ms_arrayCount := (ms_arrayCount s + 1)%N |>);;;
  ret (mkKeySlice (ms_arrayCount s) (length keys)).

(** The slice of a caller's argument that the store keeps. *)
Definition argument_keys (keys : DeviceKeys) : SpaceM KeyRef :=
  match keys with
  | None => ret None
  | Some l => let* slice := new_array l (argument_spare (length l)) in ret (Some slice)
  end.

Definition write_array (slice : KeySlice)
    (f : list ParticipantDeviceKey → list ParticipantDeviceKey) (s : MemoryStore) : MemoryStore :=
  s <| ms_arrays := <[ks_array slice := f (array_of s slice)]> (ms_arrays s) |>.

(** [append(keys, key)]: in place when the array has room. *)
Definition append_key (keys : KeyRef) (key : ParticipantDeviceKey) : SpaceM KeyRef :=
  let* s := get in
  match keys with
  | None => let* slice := new_array [key] (growslice_spare 0 1) in ret (Some slice)
  | Some slice =>
    let length := ks_length slice in
    if decide (length < Datatypes.length (array_of s slice))%nat then
      modify (write_array slice (fun array => <[length := key]> array));;;
      ret (Some (mkKeySlice (ks_array slice) (S length)))
    else
      let* slice := new_array (take length (array_of s slice) ++ [key])
        (growslice_spare (Datatypes.length (array_of s slice)) (S length)) in
      ret (Some slice)
  end.

Definition device_le (a b : ParticipantDeviceKey) : Prop :=
  str_le (uuid_String (pdk_DeviceID a)) (uuid_String (pdk_DeviceID b)).

#[global] Instance device_le_dec : RelDecision device_le.
Proof. intros a b. unfold device_le. apply _. Defined.

(** [sort.Slice] of a slice of keys, in place. *)
Definition sort_keys (keys : KeyRef) : SpaceM unit :=
  match keys with
  | None => ret tt
  | Some slice => modify (write_array slice (fun array =>
      merge_sort device_le (take (ks_length slice) array) ++ drop (ks_length slice) array))
  end.

(** [keys[index] = key], for an index in range. *)
Definition write_key (keys : KeyRef) (index : nat) (key : ParticipantDeviceKey) : SpaceM unit :=
  match keys with
  | None => ret tt
  | Some slice => modify (write_array slice (fun array => <[index := key]> array))
  end.

(** ** Shared steps *)

Definition space_not_found : SpaceError :=
  NewProtocolError CodeSpaceNotFound "Shared Space was not found".

Definition find_space (spaceID : UUID) : SpaceM memorySpace :=
  let* s := get in
  found_or (ms_spaces s !! spaceID) space_not_found.

Definition put_space (spaceID : UUID) (space : memorySpace) (s : MemoryStore) : MemoryStore :=
  s <| ms_spaces := <[spaceID := space]> (ms_spaces s) |>.

(** [space.provisioning.Domain.Registration.DomainID] *)
Definition space_domain (space : memorySpace) : UUID :=
  dr_DomainID (dp_Registration (spv_Domain (msp_provisioning space))).

Definition space_mode (space : memorySpace) : SecurityMode :=
  spv_SecurityMode (msp_provisioning space).

Definition secureRosterDigest (attestation : option SecureRosterAttestation) : option string :=
  SecureRosterAttestation_Digest <$> attestation.

Definition appendAuthorityEvent (event : AuthorityEvent) (s : MemoryStore) : MemoryStore :=
  let id := aev_SpaceID event in
  let next := u64 (default 0 (ms_nextAuthoritySequences s !! id) + 1) in
  s <| ms_nextAuthoritySequences := <[id := next]> (ms_nextAuthoritySequences s) |>
    <| ms_authorityEvents :=
         <[id := default [] (ms_authorityEvents s !! id) ++
                 [event <| aev_Version := SchemaVersion |> <| aev_Sequence := next |>]]>
           (ms_authorityEvents s) |>.

(** The two assignments that record a signed roster. *)
Definition record_roster (attestation : option SecureRosterAttestation) (space : memorySpace)
    : memorySpace :=
  match attestation with
  | None => space
  | Some attestation => space
      <| msp_secureRosterAttestation := Some attestation |>
      <| msp_secureRosterHistory := msp_secureRosterHistory space ++ [attestation] |>
  end.

(** ** Provisioning admissions *)

Definition ProvisioningAdmission_zero : ProvisioningAdmission :=
  mkProvisioningAdmission 0 uuid_Nil uuid_Nil "" 0 0 None None None.

Definition CreateProvisioningAdmission (admission : ProvisioningAdmission)
    (nowMilliseconds : int64) : SpaceM ProvisioningAdmissionCreateResult :=
  let collision := NewProtocolError CodeProvisioningAdmissionCollision in
  reject_if (is_Some (ProvisioningAdmission_Validate admission) ∨
      is_Some (pad_ClaimedAtMilliseconds admission) ∨
      pad_CreatedAtMilliseconds admission ≠ nowMilliseconds ∨
      nowMilliseconds ≥ pad_ExpiresAtMilliseconds admission)
    (NewProtocolError CodeInvalidProvisioningAdmission
       "Shared Space provisioning admission is not currently issuable");;;
  let* s := get in
  match ms_provisioningAdmissionRetries s !! pad_RetryID admission with
  | Some existingID =>
    let existing :=
      default ProvisioningAdmission_zero (ms_provisioningAdmissions s !! existingID) in
    if decide (ProvisioningAdmission_SameIssuance existing admission)
    then ret (mkProvisioningAdmissionCreateResult AcceptanceDuplicate existing)
    else throw (collision "Shared Space provisioning admission retry ID was reused"%string)
  | None =>
    match ms_provisioningAdmissions s !! pad_AdmissionID admission with
    | Some existing =>
      if decide (ProvisioningAdmission_SameIssuance existing admission)
      then ret (mkProvisioningAdmissionCreateResult AcceptanceDuplicate existing)
      else throw (collision "Shared Space provisioning admission ID was reused"%string)
    | None =>
      modify (fun s => s
        <| ms_provisioningAdmissions :=
             <[pad_AdmissionID admission := admission]> (ms_provisioningAdmissions s) |>
        <| ms_provisioningAdmissionRetries :=
             <[pad_RetryID admission := pad_AdmissionID admission]>
               (ms_provisioningAdmissionRetries s) |>);;;
      ret (mkProvisioningAdmissionCreateResult AcceptanceAccepted admission)
    end
  end.

(** The claim fields are all set when this is called. *)
Definition provisioningAdmissionClaimResult (admission : ProvisioningAdmission)
    (acceptance : Acceptance) : ProvisioningAdmissionClaimResult :=
  mkProvisioningAdmissionClaimResult acceptance (pad_AdmissionID admission)
    (default uuid_Nil (pad_ClaimedSpaceID admission))
    (default ""%string (pad_ClaimedRequestDigest admission))
    (default 0 (pad_ClaimedAtMilliseconds admission)).

Definition ClaimProvisioningAdmission (credential : ProvisioningAdmissionCredential)
    (claim : ProvisioningAdmissionClaim) (nowMilliseconds : int64)
    : SpaceM ProvisioningAdmissionClaimResult :=
  let not_current := NewProtocolError CodeInvalidProvisioningAdmission
    "Shared Space provisioning admission claim is not current" in
  reject_if (is_Some (ProvisioningAdmissionClaim_Validate claim)) not_current;;;
  let* s := get in
  let* admission := found_or (ms_provisioningAdmissions s !! pac_AdmissionID credential)
    (NewProtocolError CodeProvisioningAdmissionNotFound
       "Shared Space provisioning admission was not found") in
  check (ProvisioningAdmission_VerifyCredential admission credential);;;
  match pad_ClaimedAtMilliseconds admission with
  | Some _ =>
    if decide (pad_ClaimedSpaceID admission = Some (pacl_SpaceID claim) ∧
               pad_ClaimedRequestDigest admission = Some (pacl_RequestDigest claim))
    then ret (provisioningAdmissionClaimResult admission AcceptanceDuplicate)
    else throw (NewProtocolError CodeProvisioningAdmissionClaimed
           "Shared Space provisioning admission was claimed by another request")
  | None =>
    reject_if (pacl_ClaimedAtMilliseconds claim ≠ nowMilliseconds) not_current;;;
    check (ProvisioningAdmission_RequireActive admission nowMilliseconds);;;
    let admission := admission
      <| pad_ClaimedAtMilliseconds := Some (pacl_ClaimedAtMilliseconds claim) |>
      <| pad_ClaimedSpaceID := Some (pacl_SpaceID claim) |>
      <| pad_ClaimedRequestDigest := Some (pacl_RequestDigest claim) |> in
    check (ProvisioningAdmission_Validate admission);;;
    modify (fun s => s <| ms_provisioningAdmissions :=
      <[pad_AdmissionID admission := admission]> (ms_provisioningAdmissions s) |>);;;
    ret (provisioningAdmissionClaimResult admission AcceptanceAccepted)
  end.

(** ** Provisioning *)

(** The initial participant stays in its map. *)
Definition spaceProvisioningResult (s : MemoryStore) (space : memorySpace) (acceptance : Acceptance)
    : SpaceProvisioningResult :=
  let provisioning := msp_provisioning space in
  let initial :=
    default (initial_participant provisioning)
      (msp_participants space !! spv_InitialParticipantID provisioning) in
  mkSpaceProvisioningResult acceptance (spv_RetryID provisioning) (spv_SpaceID provisioning)
    (spv_SecurityMode provisioning) (spv_InteractionMode provisioning) (msp_keyEpoch space)
    (participant_value s initial) (msp_result space).

(** [reflect.DeepEqual(...) && serviceauthority.InitialBindingsEqual(...)] *)
Definition same_provisioning (s : MemoryStore) (space : memorySpace)
    (provisioning : SpaceProvisioning DeviceKeys) (initialAuthority : option InitialBinding) : Prop :=
  provisioning_value s (msp_provisioning space) = provisioning ∧
  InitialBindingsEqual (msp_initialAuthority space) initialAuthority.

#[global] Instance same_provisioning_dec s space p a : Decision (same_provisioning s space p a).
Proof. unfold same_provisioning. apply _. Defined.

(** The wrapped key that a managed Space starts an epoch with. *)
Definition managed_wrapped_key (mode : SecurityMode) (spaceID : UUID) (keyEpoch : uint64)
    : SpaceM (option bytes) :=
  if decide (mode = SecurityModeManaged) then
    let* s := get in
    match ms_managedContentKeys s with
    | None => throw (NewProtocolError CodeInvalidSpace
        "managed Shared Space key custody is unavailable")
    | Some aead =>
      let* generated := custody (Generate (Some aead) spaceID keyEpoch) in
      ret (Some generated.2)
    end
  else ret None.

(** The Space that provisioning creates, and its event. *)
Definition provisioned_space (provisioning : SpaceProvisioning KeyRef)
    (relayResult : TenantProvisioningResult) (managedWrappedKey : option bytes)
    (initialAuthority : option InitialBinding) : memorySpace :=
  let participant := initial_participant provisioning in
  record_roster (spv_InitialSecureRosterAttestation provisioning)
    (mkMemorySpace provisioning relayResult {[prt_ParticipantID participant := participant]} None []
       ∅ ∅
       (match managedWrappedKey with Some wrapped => {[InitialKeyEpoch := wrapped]} | None => ∅ end)
       ∅ InitialKeyEpoch 0 initialAuthority false).

Definition event_space_provisioned {K} (provisioning : SpaceProvisioning K) : AuthorityEvent :=
  (new_event (spv_RetryID provisioning) (spv_SpaceID provisioning)
     (dr_DomainID (dp_Registration (spv_Domain provisioning))) AuthorityEventSpaceProvisioned
     (spv_CreatedAtMilliseconds provisioning))
    <| aev_SubjectParticipantID := Some (spv_InitialParticipantID provisioning) |>
    <| aev_CurrentRole := Some RoleHost |> <| aev_CurrentKeyEpoch := Some InitialKeyEpoch |>
    <| aev_SecureRosterDigest :=
         secureRosterDigest (spv_InitialSecureRosterAttestation provisioning) |>.

Definition provisionSpace (provisioning : SpaceProvisioning DeviceKeys)
    (initialAuthority : option InitialBinding) (nowMilliseconds : int64)
    : SpaceM SpaceProvisioningResult :=
  let spaceID := spv_SpaceID provisioning in
  let collision := NewProtocolError CodeSpaceCollision in
  check (SpaceProvisioning_Validate provisioning);;;
  reject_if (spv_CreatedAtMilliseconds provisioning > nowMilliseconds)
    (NewProtocolError CodeInvalidSpace "Shared Space starts in the future");;;
  let* s := get in
  match ms_spaceRetries s !! spv_RetryID provisioning with
  | Some existingID =>
    match ms_spaces s !! existingID with
    | Some existing =>
      if decide (same_provisioning s existing provisioning initialAuthority)
      then ret (spaceProvisioningResult s existing AcceptanceDuplicate)
      else throw (collision "Shared Space retry ID was reused"%string)
    | None => throw (collision "Shared Space retry ID was reused"%string)
    end
  | None =>
    match ms_spaces s !! spaceID with
    | Some existing =>
      if decide (same_provisioning s existing provisioning initialAuthority)
      then ret (spaceProvisioningResult s existing AcceptanceDuplicate)
      else throw (collision "Shared Space ID was reused"%string)
    | None =>
      reject_if (is_Some initialAuthority ∧
          is_Some (InitialBinding_RequireFreshClaimAt initialAuthority nowMilliseconds))
        (NewProtocolError CodeInvalidSpace
           "initial service authority enrollment is not current");;;
      let* managedWrappedKey :=
        managed_wrapped_key (spv_SecurityMode provisioning) spaceID InitialKeyEpoch in
      let* relayResult :=
        relay (ProvisionTenant (spv_Tenant provisioning) (spv_Domain provisioning)) in
      let* keys := argument_keys (spv_InitialParticipantDeviceKeys provisioning) in
      let space := provisioned_space (provisioning_with_keys (fun _ => keys) provisioning)
        relayResult managedWrappedKey initialAuthority in
      modify (fun s => put_space spaceID space s
        <| ms_spaceRetries := <[spv_RetryID provisioning := spaceID]> (ms_spaceRetries s) |>);;;
      modify (appendAuthorityEvent (event_space_provisioned provisioning));;;
      let* s := get in
      ret (spaceProvisioningResult s space AcceptanceAccepted)
    end
  end.

Definition ProvisionSpace (provisioning : SpaceProvisioning DeviceKeys) (nowMilliseconds : int64)
    : SpaceM SpaceProvisioningResult :=
  provisionSpace provisioning None nowMilliseconds.

Definition ProvisionSpaceWithAuthority (provisioning : SpaceProvisioning DeviceKeys)
    (initialAuthority : option InitialBinding) (nowMilliseconds : int64)
    : SpaceM SpaceProvisioningResult :=
  reject_if (initialAuthority = None ∨ is_Some (InitialBinding_Validate initialAuthority) ∨
      InitialBinding_Scope initialAuthority ≠ mkScope ScopeSharedSpace (spv_SpaceID provisioning))
    (SpaceAuthorityError ErrInvalid);;;
  provisionSpace provisioning initialAuthority nowMilliseconds.

(** service_authority.go *)
Definition ValidServiceAuthorityDigest (value : string) : Prop :=
  some_and (hex_DecodeString value) (fun decoded =>
    zlen decoded = 32 ∧ hex_EncodeToString decoded = value).

#[global] Instance ValidServiceAuthorityDigest_dec value :
  Decision (ValidServiceAuthorityDigest value).
Proof. unfold ValidServiceAuthorityDigest. apply _. Defined.

Definition ActivateBoundSharedSpaceScope (spaceID localDeploymentID : UUID)
    (expectedAuthorityRevision : uint64) (expectedAuthorityManifestDigest : string)
    (nowMilliseconds : int64) : SpaceM unit :=
  reject_if (spaceID = uuid_Nil ∨ localDeploymentID = uuid_Nil ∨ expectedAuthorityRevision ≠ 1 ∨
      ¬ ValidServiceAuthorityDigest expectedAuthorityManifestDigest ∨ nowMilliseconds < 0)
    (SpaceAuthorityError ErrInvalid);;;
  let* s := get in
  let* space := found_or (ms_spaces s !! spaceID) ErrInitialServiceAuthorityConflict in
  let authority := msp_initialAuthority space in
  reject_if (authority = None ∨ InitialBinding_LocalDeploymentID authority ≠ localDeploymentID ∨
      InitialBinding_Revision authority ≠ expectedAuthorityRevision ∨
      InitialBinding_ManifestDigest authority ≠ expectedAuthorityManifestDigest)
    ErrInitialServiceAuthorityConflict;;;
  if decide (msp_authorityActive space = true) then ret tt
  else modify (put_space spaceID (space <| msp_authorityActive := true |>)).

(** ** Active participants *)

Definition participant_le {K} (a b : Participant K) : Prop :=
  str_le (uuid_String (prt_ParticipantID a)) (uuid_String (prt_ParticipantID b)).

#[global] Instance participant_le_dec {K} : RelDecision (@participant_le K).
Proof. intros a b. unfold participant_le. apply _. Defined.

Definition all_participants (space : memorySpace) : list (Participant KeyRef) :=
  (map_to_list (msp_participants space)).*2.

Definition activeMemoryParticipants (space : memorySpace) : list (Participant KeyRef) :=
  merge_sort participant_le
    (filter (fun participant => participant_active participant) (all_participants space)).

Definition only_secure (code : SpaceErrorCode) : SpaceError :=
  NewProtocolError code "only Secure Shared Spaces may carry a roster attestation".

(** The frame that the five roster checks share: outside Secure Spaces no
    attestation may come; in a Secure Space the current one and the new one
    are compared. *)
Definition roster_check (space : memorySpace) (attestation : option SecureRosterAttestation)
    (code : SpaceErrorCode) (missing : string)
    (compare : SecureRosterAttestation → SecureRosterAttestation → option SpaceError)
    : option SpaceError :=
  if decide (space_mode space ≠ SecurityModeSecure) then
    err_when (is_Some attestation) (only_secure code)
  else
    match msp_secureRosterAttestation space, attestation with
    | Some current, Some attestation => compare current attestation
    | _, _ => Some (NewProtocolError code missing)
    end.

(** ** Invitations *)

Definition validateInvitationRosterAttestation (s : MemoryStore) (space : memorySpace)
    (invitation : Invitation DeviceKeys) : option SpaceError :=
  roster_check space (inv_ActivationSecureRosterAttestation invitation) CodeInvalidInvitation
    "Secure Shared Space invitation is missing its roster authority attestation"
    (fun current attestation =>
      let expected := merge_sort participant_le
        ((participant_value s <$> activeMemoryParticipants space) ++
         [participantFromInvitation invitation]) in
      SecureRosterAttestation_ValidateSuccessor attestation current expected (msp_keyEpoch space)).

Definition participantCreationTime {K} (space : memorySpace) (invitation : Invitation K)
    (nowMilliseconds : int64) : int64 :=
  if decide (space_mode space = SecurityModeSecure) then inv_CreatedAtMilliseconds invitation
  else nowMilliseconds.

(** The check of the issuer of an invitation's grant. *)
Definition invitation_issuer (space : memorySpace) (grant : ParticipantKeyGrant)
    : option SpaceError :=
  match msp_participants space !! kgr_IssuerParticipantID grant with
  | None => Some (NewProtocolError CodeUnauthorized
      "participant key grant issuer is not an active Shared Space host or moderator")
  | Some issuer =>
    refuse_when (¬ participant_active issuer ∨ ¬ may_administer (prt_Role issuer))
      CodeUnauthorized
      "participant key grant issuer is not an active Shared Space host or moderator" >>?
    refuse_when (¬ ParticipantSigningKey_MatchesGrantSignature (prt_SigningKey issuer)
        (kgr_Signature grant)) CodeUnauthorized
      "participant key grant signature is not bound to its issuer"
  end.

Definition memoryInvitation_zero : memoryInvitation :=
  mkMemoryInvitation (mkInvitation 0 uuid_Nil uuid_Nil uuid_Nil uuid_Nil uuid_Nil "" "" ""
    (mkParticipantSigningKey "" "" "") None None None
    (mkMemberAdmission 0 uuid_Nil uuid_Nil uuid_Nil "" [] 0 0 None None None None) 0)
    None None None.

Definition bootstrap_not_ready : SpaceError :=
  NewProtocolError CodeBootstrapNotReady
    "Shared Space does not have an activated checkpoint for the current key epoch".

Definition event_invitation_created {K} (credential : AdministrationCredential)
    (invitation : Invitation K) (space : memorySpace) : AuthorityEvent :=
  (new_event (inv_RetryID invitation) (inv_SpaceID invitation) (acred_DomainID credential)
     AuthorityEventInvitationCreated (inv_CreatedAtMilliseconds invitation))
    <| aev_SubjectParticipantID := Some (inv_ParticipantID invitation) |>
    <| aev_InvitationID := Some (inv_InvitationID invitation) |>
    <| aev_CurrentRole := Some (inv_Role invitation) |>
    <| aev_CurrentKeyEpoch := Some (msp_keyEpoch space) |>.

Definition CreateInvitation (credential : AdministrationCredential)
    (invitation : Invitation DeviceKeys) (nowMilliseconds : int64)
    : SpaceM InvitationCreateResult :=
  let admission := inv_RelayAdmission invitation in
  let duplicate := mkInvitationCreateResult AcceptanceDuplicate in
  let collision := NewProtocolError CodeInvitationCollision in
  check (Invitation_Validate invitation);;;
  reject_if (inv_CreatedAtMilliseconds invitation > nowMilliseconds ∨
      ma_ExpiresAtMilliseconds admission ≤ nowMilliseconds)
    (NewProtocolError CodeInvalidInvitation "Shared Space invitation is not currently issuable");;;
  let* space := find_space (inv_SpaceID invitation) in
  reject_if (acred_TenantID credential ≠ inv_SpaceID invitation ∨
      acred_DomainID credential ≠ space_domain space ∨
      ma_DomainID admission ≠ acred_DomainID credential)
    (NewProtocolError CodeWrongScope "invitation belongs to another Shared Space");;;
  reject_if (inv_InteractionMode invitation ≠ spv_InteractionMode (msp_provisioning space))
    (NewProtocolError CodeInvalidInvitation
       "invitation interaction mode differs from its Shared Space");;;
  let* s := get in
  match ms_invitationRetries s !! inv_RetryID invitation with
  | Some invitationID =>
    let existing := invitation_value s (miv_invitation
      (default memoryInvitation_zero (ms_invitations s !! invitationID))) in
    if decide (existing = invitation) then ret (duplicate existing)
    else throw (collision "invitation retry ID was reused"%string)
  | None =>
    match ms_invitations s !! inv_InvitationID invitation with
    | Some record =>
      let existing := invitation_value s (miv_invitation record) in
      if decide (existing = invitation) then ret (duplicate existing)
      else throw (collision "invitation ID was reused"%string)
    | None =>
      reject_if (msp_activeCheckpointEpoch space ≠ msp_keyEpoch space) bootstrap_not_ready;;;
      check (Invitation_ValidateKeyGrant invitation (space_mode space) (msp_keyEpoch space));;;
      check (check_some (invitation_issuer space) (inv_KeyGrant invitation));;;
      check (validateInvitationRosterAttestation s space invitation);;;
      reject_if (some_and (msp_participants space !! inv_ParticipantID invitation)
          (fun participant => participant_active participant))
        (NewProtocolError CodeParticipantCollision "participant is already active");;;
      let* subscription := relay (CreateSubscription credential
        (mkSubscriptionCreateRequest (inv_RetryID invitation) (inv_SubscriptionID invitation)
           (inv_CreatedAtMilliseconds invitation))) in
      let* created := relay (CreateSubscriptionAdmission credential
        (sub_SubscriptionID (sr_Subscription subscription)) admission nowMilliseconds) in
      let* keys := argument_keys (inv_ParticipantDeviceKeys invitation) in
      modify (fun s => s
        <| ms_invitations := <[inv_InvitationID invitation := mkMemoryInvitation
             (invitation_with_keys (fun _ => keys) invitation) None None None]> (ms_invitations s) |>
        <| ms_invitationRetries :=
             <[inv_RetryID invitation := inv_InvitationID invitation]> (ms_invitationRetries s) |>);;;
      modify (appendAuthorityEvent (event_invitation_created credential invitation space));;;
      ret (mkInvitationCreateResult (sacr_Acceptance created) invitation)
    end
  end.

Definition find_invitation (invitationID : UUID) : SpaceM memoryInvitation :=
  let* s := get in
  found_or (ms_invitations s !! invitationID)
    (NewProtocolError CodeInvitationNotFound "Shared Space invitation was not found").

(** The grants of an epoch, with one more. *)
Definition add_grant (epoch : uint64) (target : GrantTarget) (grant : ParticipantKeyGrant)
    (space : memorySpace) : memorySpace :=
  space <| msp_keyGrants :=
    <[epoch := <[target := grant]> (default ∅ (msp_keyGrants space !! epoch))]>
      (msp_keyGrants space) |>.

(** What a claim does to its Space. *)
Definition admit_participant {K} (invitation : Invitation K) (participant : Participant KeyRef)
    (space : memorySpace) : memorySpace :=
  let space := record_roster (inv_ActivationSecureRosterAttestation invitation)
    (space <| msp_participants :=
       <[prt_ParticipantID participant := participant]> (msp_participants space) |>) in
  match inv_KeyGrant invitation with
  | None => space
  | Some grant => add_grant (msp_keyEpoch space) (grant_target grant) grant space
  end.

Definition event_invitation_claimed {K} (credential : InvitationCredential) (claim : InvitationClaim)
    (invitation : Invitation K) (space : memorySpace) : AuthorityEvent :=
  (new_event (ivc_InvitationID credential) (icl_SpaceID claim) (ivc_DomainID credential)
     AuthorityEventInvitationClaimed (icl_ClaimedAtMilliseconds claim))
    <| aev_SubjectParticipantID := Some (icl_ParticipantID claim) |>
    <| aev_InvitationID := Some (ivc_InvitationID credential) |>
    <| aev_CurrentRole := Some (inv_Role invitation) |>
    <| aev_CurrentKeyEpoch := Some (msp_keyEpoch space) |>
    <| aev_SecureRosterDigest :=
         secureRosterDigest (inv_ActivationSecureRosterAttestation invitation) |>.

(** The participant that a claim admits. *)
Definition claimed_participant (claim : InvitationClaim) (invitation : Invitation KeyRef)
    (space : memorySpace) (nowMilliseconds : int64) : Participant KeyRef :=
  mkParticipant SchemaVersion (icl_SpaceID claim) (icl_ParticipantID claim)
    (inv_SubscriptionID invitation) (inv_Kind invitation) (inv_Role invitation)
    (inv_ParticipantSigningKey invitation) (inv_ParticipantDeviceKeys invitation)
    (participantCreationTime space invitation nowMilliseconds) None.

(** [memorySpace] is a pointer: the relay calls leave what it points to. *)
Definition ClaimInvitation (credential : InvitationCredential) (claim : InvitationClaim)
    (nowMilliseconds : int64) : SpaceM (InvitationClaimResult DeviceKeys) :=
  let wrong_scope message := NewProtocolError CodeWrongScope message in
  check (InvitationClaim_Validate claim);;;
  reject_if (ivc_SpaceID credential ≠ icl_SpaceID claim ∨ ivc_InvitationID credential = uuid_Nil)
    (wrong_scope "invitation credential belongs to another Shared Space"%string);;;
  let* record := find_invitation (ivc_InvitationID credential) in
  let invitation := miv_invitation record in
  reject_if (inv_SpaceID invitation ≠ icl_SpaceID claim ∨
      inv_ParticipantID invitation ≠ icl_ParticipantID claim ∨
      ivc_DomainID credential ≠ ma_DomainID (inv_RelayAdmission invitation))
    (wrong_scope "invitation claim scope differs"%string);;;
  match miv_result record with
  | Some result =>
    if decide (prt_ParticipantID (iclr_Participant result) = icl_ParticipantID claim ∧
        mr_AuthorizationDigest (smr_MemberRegistration (iclr_Member result)) =
          mac_AuthorizationDigest (icl_RelayClaim claim))
    then
      let* s := get in
      ret (claim_result_with AcceptanceDuplicate (read_keys s) result)
    else throw (NewProtocolError CodeInvitationClaimed
           "Shared Space invitation was already claimed")
  | None =>
    reject_if (is_Some (miv_cancellation record))
      (NewProtocolError CodeInvitationCancelled "Shared Space invitation was cancelled");;;
    let* space := find_space (icl_SpaceID claim) in
    let* s := get in
    check (Invitation_ValidateKeyGrant (invitation_value s invitation) (space_mode space)
      (msp_keyEpoch space));;;
    check (validateInvitationRosterAttestation s space (invitation_value s invitation));;;
    let* relayResult := relay (ClaimSubscriptionAdmission
      (mkAdmissionCredential (ivc_SpaceID credential) (ivc_DomainID credential)
         (ivc_InvitationID credential) (ivc_Token credential))
      (icl_RelayClaim claim) nowMilliseconds) in
    let participant := claimed_participant claim invitation space nowMilliseconds in
    let result := mkInvitationClaimResult (sacl_Acceptance relayResult) (msp_keyEpoch space)
      (inv_KeyGrant invitation) (inv_ActivationSecureRosterAttestation invitation) participant
      (sacl_Member relayResult) in
    modify (fun s => put_space (icl_SpaceID claim) (admit_participant invitation participant space) s
      <| ms_invitations := <[ivc_InvitationID credential := mkMemoryInvitation invitation
           (Some result) (miv_cancellation record) (Some (icl_ClaimedAtMilliseconds claim))]>
           (ms_invitations s) |>);;;
    modify (appendAuthorityEvent (event_invitation_claimed credential claim invitation space));;;
    let* s := get in
    ret (claim_result_with (sacl_Acceptance relayResult) (read_keys s) result)
  end.

Definition SubscriptionRevoked_change (cancellation : InvitationCancellation)
    : SubscriptionStatusChangeRequest :=
  mkSubscriptionStatusChangeRequest (ica_RetryID cancellation) SubscriptionRevoked
    (ica_CancelledAtMilliseconds cancellation).

Definition InvitationCancellation_zero : InvitationCancellation :=
  mkInvitationCancellation 0 uuid_Nil uuid_Nil uuid_Nil 0.

Definition event_invitation_cancelled {K} (credential : AdministrationCredential)
    (cancellation : InvitationCancellation) (invitation : Invitation K) : AuthorityEvent :=
  (new_event (ica_RetryID cancellation) (ica_SpaceID cancellation) (acred_DomainID credential)
     AuthorityEventInvitationCancelled (ica_CancelledAtMilliseconds cancellation))
    <| aev_SubjectParticipantID := Some (inv_ParticipantID invitation) |>
    <| aev_InvitationID := Some (ica_InvitationID cancellation) |>.

Definition CancelInvitation (credential : AdministrationCredential)
    (cancellation : InvitationCancellation) (nowMilliseconds : int64)
    : SpaceM InvitationCancellationResult :=
  let retryID := ica_RetryID cancellation in
  let another_space :=
    NewProtocolError CodeWrongScope "invitation cancellation belongs to another Shared Space" in
  check (InvitationCancellation_Validate cancellation);;;
  let* space := find_space (ica_SpaceID cancellation) in
  reject_if (acred_TenantID credential ≠ ica_SpaceID cancellation ∨
      acred_DomainID credential ≠ space_domain space) another_space;;;
  let* s := get in
  match ms_invitationCancellationResponses s !! retryID with
  | Some existing =>
    if decide (default InvitationCancellation_zero
        (ms_invitationCancellationRequests s !! retryID) = cancellation)
    then ret (existing <| icar_Acceptance := AcceptanceDuplicate |>)
    else throw (NewProtocolError CodeInvitationCancellationCollision
           "invitation cancellation retry ID was reused")
  | None =>
    let* record := find_invitation (ica_InvitationID cancellation) in
    let invitation := miv_invitation record in
    reject_if (inv_SpaceID invitation ≠ ica_SpaceID cancellation) another_space;;;
    reject_if (is_Some (miv_result record))
      (NewProtocolError CodeInvitationClaimed
         "claimed Shared Space invitation cannot be cancelled");;;
    reject_if (is_Some (miv_cancellation record))
      (NewProtocolError CodeInvitationCancellationCollision
         "Shared Space invitation was already cancelled by another request");;;
    reject_if (ica_CancelledAtMilliseconds cancellation < inv_CreatedAtMilliseconds invitation ∨
        ica_CancelledAtMilliseconds cancellation > nowMilliseconds)
      (NewProtocolError CodeInvalidInvitation
         "Shared Space invitation cancellation time is invalid");;;
    let* acceptance := relay (RevokeAdmission credential (ica_InvitationID cancellation)
      (ica_CancelledAtMilliseconds cancellation)) in
    relay (ChangeSubscriptionStatus credential (inv_SubscriptionID invitation)
      (SubscriptionRevoked_change cancellation));;;
    let result := mkInvitationCancellationResult acceptance retryID (ica_SpaceID cancellation)
      (ica_InvitationID cancellation) (ica_CancelledAtMilliseconds cancellation) in
    modify (fun s => s
      <| ms_invitations := <[ica_InvitationID cancellation := mkMemoryInvitation invitation
           (miv_result record) (Some result) (miv_claimedAtMilliseconds record)]>
           (ms_invitations s) |>
      <| ms_invitationCancellationRequests :=
           <[retryID := cancellation]> (ms_invitationCancellationRequests s) |>
      <| ms_invitationCancellationResponses :=
           <[retryID := result]> (ms_invitationCancellationResponses s) |>);;;
    modify (appendAuthorityEvent (event_invitation_cancelled credential cancellation invitation));;;
    ret result
  end.

(** The state and the two times that [ListInvitations] reports. *)
Definition invitation_state (record : memoryInvitation) (nowMilliseconds : int64)
    : InvitationState * option int64 * option int64 :=
  match miv_result record, miv_cancellation record with
  | Some result, _ =>
    (InvitationClaimed, Some (default (prt_CreatedAtMilliseconds (iclr_Participant result))
       (miv_claimedAtMilliseconds record)), None)
  | None, Some cancellation =>
    (InvitationCancelled, None, Some (icar_CancelledAtMilliseconds cancellation))
  | None, None =>
    (if decide (ma_ExpiresAtMilliseconds (inv_RelayAdmission (miv_invitation record)) ≤
          nowMilliseconds) then InvitationExpired else InvitationPending, None, None)
  end.

Definition invitation_status (record : memoryInvitation) (nowMilliseconds : int64)
    : InvitationStatus :=
  let i := miv_invitation record in
  let '(state, claimedAt, cancelledAt) := invitation_state record nowMilliseconds in
  mkInvitationStatus (inv_Version i) (inv_SpaceID i) (inv_InvitationID i) (inv_ParticipantID i)
    (inv_SubscriptionID i) (inv_Kind i) (inv_Role i) (inv_InteractionMode i) state
    (inv_CreatedAtMilliseconds i) (ma_ExpiresAtMilliseconds (inv_RelayAdmission i)) claimedAt
    cancelledAt.

Definition status_le (a b : InvitationStatus) : Prop :=
  str_le (uuid_String (ist_InvitationID a)) (uuid_String (ist_InvitationID b)).

#[global] Instance status_le_dec : RelDecision status_le.
Proof. intros a b. unfold status_le. apply _. Defined.

Definition ListInvitations (credential : AdministrationCredential) (nowMilliseconds : int64)
    : SpaceM InvitationList :=
  let spaceID := acred_TenantID credential in
  reject_if (nowMilliseconds < 0)
    (NewProtocolError CodeInvalidInvitation "invitation status time is invalid");;;
  let* space := find_space spaceID in
  reject_if (acred_DomainID credential ≠ space_domain space)
    (NewProtocolError CodeWrongScope
       "invitation status credential belongs to another Shared Space");;;
  relay (GetDomainStatus credential);;;
  let* s := get in
  let records := filter (fun record => inv_SpaceID (miv_invitation record) = spaceID)
    (map_to_list (ms_invitations s)).*2 in
  ret (mkInvitationList SchemaVersion spaceID
    (merge_sort status_le ((fun record => invitation_status record nowMilliseconds) <$> records))).

(** ** Status *)

Definition presentation_le (a b : ParticipantPresentation) : Prop :=
  str_le (uuid_String (ppr_ParticipantID a)) (uuid_String (ppr_ParticipantID b)).

#[global] Instance presentation_le_dec : RelDecision presentation_le.
Proof. intros a b. unfold presentation_le. apply _. Defined.

Definition binding_le (a b : SpaceBinding) : Prop :=
  str_le (uuid_String (sb_BindingID a)) (uuid_String (sb_BindingID b)).

#[global] Instance binding_le_dec : RelDecision binding_le.
Proof. intros a b. unfold binding_le. apply _. Defined.

(** The pointer that is nil while no checkpoint was activated. *)
Definition active_checkpoint_epoch (space : memorySpace) : option uint64 :=
  if decide (msp_activeCheckpointEpoch space ≠ 0) then Some (msp_activeCheckpointEpoch space)
  else None.

Definition GetSpaceStatus (credential : AdministrationCredential) : SpaceM SpaceStatus :=
  let* space := find_space (acred_TenantID credential) in
  let provisioning := msp_provisioning space in
  reject_if (acred_DomainID credential ≠ space_domain space)
    (NewProtocolError CodeWrongScope "status credential belongs to another Shared Space");;;
  let* relayStatus := relay (GetDomainStatus credential) in
  let* s := get in
  ret (mkSpaceStatus SchemaVersion (spv_SpaceID provisioning) (space_mode space)
    (spv_InteractionMode provisioning) (msp_keyEpoch space)
    (bool_decide (msp_activeCheckpointEpoch space = msp_keyEpoch space))
    (active_checkpoint_epoch space) (space_domain space) (spv_InitialParticipantID provisioning)
    (participant_value s <$> merge_sort participant_le (all_participants space))
    (merge_sort presentation_le (map_to_list (msp_presentations space)).*2)
    (merge_sort binding_le (map_to_list (msp_computeBindings space)).*2) relayStatus
    (spv_CreatedAtMilliseconds provisioning)).
End store.
