(* ===== verification/SharedSpacesAuthority.v ===== *)
(** * internal/sharedspaces: changes of authority and participant calls (memory.go)

    Role changes, device enrollment and revocation, participant revocation,
    compute bindings, and what a participant reads or publishes.  Two of the
    roster checks write into device keys that the store keeps: they are
    stateful here. *)

From S2P Require Import Prelude GoEncoding GoText Sha256 P256 RelayModel RelayState RelayTenant RelayMember RelaySubscription RelayDelivery RelayCheckpoint ServiceAuthority KeyCustody ComputePool SharedSpacesModel SharedSpacesChanges SharedSpacesCompute SharedSpaces.
#[local] Open Scope Z_scope.

Section store.
Context `{UuidLib} `{ManifestLib} `{CurveLib} `{AeadLib} `{SliceLib}.

Abbreviation SpaceM A := (M SpaceError MemoryStore A) (only parsing).

Definition wrong_scope (message : string) : SpaceError := NewProtocolError CodeWrongScope message.
Definition invalid_participant (message : string) : SpaceError :=
  NewProtocolError CodeInvalidParticipant message.
Definition participant_not_found : SpaceError :=
  NewProtocolError CodeParticipantNotFound "participant was not found".
Definition participant_is_revoked : SpaceError :=
  NewProtocolError CodeParticipantRevoked "participant is revoked".

(** The Space that an administrator's change names, in its scope. *)
Definition administered_space (spaceID : UUID) (credential : AdministrationCredential)
    (message : string) : SpaceM memorySpace :=
  let* space := find_space spaceID in
  reject_if (acred_TenantID credential ≠ spaceID ∨ acred_DomainID credential ≠ space_domain space)
    (wrong_scope message);;;
  ret space.

(** A participant that was not revoked. *)
Definition find_participant_of (space : memorySpace) (participantID : UUID)
    (revoked : SpaceError) : SpaceM (Participant KeyRef) :=
  let* participant := found_or (msp_participants space !! participantID) participant_not_found in
  reject_if (¬ participant_active participant) revoked;;;
  ret participant.

Definition put_participant (participant : Participant KeyRef) (space : memorySpace)
    : memorySpace :=
  space <| msp_participants :=
    <[prt_ParticipantID participant := participant]> (msp_participants space) |>.

(** ** Compute bindings *)

(** The comparisons with the binding that exists. *)
Definition binding_change_allowed (existing : option SpaceBinding)
    (change : SpaceComputeBindingChange) : option SpaceError :=
  match existing with
  | None =>
    refuse_when (sbc_PreviousBindingRevision change ≠ 0) CodeComputeBindingNotFound
      "compute binding was not found"
  | Some existing =>
    let old := sb_PoolAuthority existing in
    let new := sbc_PoolAuthority change in
    refuse_when (sb_Revision existing ≠ sbc_PreviousBindingRevision change)
      CodeComputeBindingCollision "compute binding revision changed" >>?
    refuse_when (ar_PoolID old ≠ ar_PoolID new ∨ ar_TrustAnchor old ≠ ar_TrustAnchor new)
      CodeComputeBindingCollision "compute binding cannot silently change Pool authority" >>?
    refuse_when (ar_AcceptedManifestRevision new < ar_AcceptedManifestRevision old ∨
        (ar_AcceptedManifestRevision new = ar_AcceptedManifestRevision old ∧
         ar_AcceptedManifestDigest new ≠ ar_AcceptedManifestDigest old) ∨
        sbc_SourceAuthorityRevision change < sb_SourceAuthorityRevision existing)
      CodeComputeBindingCollision "compute binding authority revision rolled back" >>?
    refuse_when (sbc_ChangedAtMilliseconds change < sb_UpdatedAtMilliseconds existing)
      CodeInvalidComputeBinding "compute binding change predates current state"
  end.

Definition with_binding (binding : SpaceBinding) (space : memorySpace) : memorySpace :=
  space <| msp_computeBindings := <[sb_BindingID binding := binding]> (msp_computeBindings space) |>.

Definition event_binding_changed (credential : AdministrationCredential)
    (change : SpaceComputeBindingChange) : AuthorityEvent :=
  (new_event (sbc_RetryID change) (sbc_SpaceID change) (acred_DomainID credential)
     AuthorityEventSpaceComputeBindingChanged (sbc_ChangedAtMilliseconds change))
    <| aev_ComputeBindingID := Some (sbc_BindingID change) |>
    <| aev_ComputePoolID := Some (ar_PoolID (sbc_PoolAuthority change)) |>
    <| aev_PreviousBindingRevision := Some (sbc_PreviousBindingRevision change) |>
    <| aev_CurrentBindingRevision := Some (u64 (sbc_PreviousBindingRevision change + 1)) |>.

Definition ChangeComputeBinding (credential : AdministrationCredential)
    (change : SpaceComputeBindingChange) (nowMilliseconds : int64)
    : SpaceM SpaceComputeBindingChangeResult :=
  let retryID := sbc_RetryID change in
  let collision := NewProtocolError CodeComputeBindingCollision in
  check (SpaceComputeBindingChange_Validate change);;;
  reject_if (sbc_ChangedAtMilliseconds change > nowMilliseconds)
    (NewProtocolError CodeInvalidComputeBinding
       "Shared Space compute binding change starts in the future");;;
  let* space := administered_space (sbc_SpaceID change) credential
    "compute binding belongs to another Shared Space" in
  relay (GetDomainStatus credential);;;
  let* s := get in
  match ms_computeBindingChangeRequests s !! retryID with
  | Some existing =>
    if decide (existing = change) then
      (** Requests and responses are recorded together. *)
      let* result := found_or (ms_computeBindingChangeResponses s !! retryID)
        (SpacePlainError "no response") in
      ret (result <| sbcr_Acceptance := AcceptanceDuplicate |>)
    else throw (collision "compute binding retry ID was reused"%string)
  | None =>
    reject_if (sbc_SourceAuthorityRevision change ≠ msp_keyEpoch space)
      (collision "compute binding source authority revision changed"%string);;;
    let existingBinding := msp_computeBindings space !! sbc_BindingID change in
    check (binding_change_allowed existingBinding change);;;
    let createdAt :=
      match existingBinding with
      | Some existing => sb_CreatedAtMilliseconds existing
      | None => sbc_ChangedAtMilliseconds change
      end in
    let nextRevision := u64 (sbc_PreviousBindingRevision change + 1) in
    let binding := SpaceComputeBindingChange_binding change nextRevision createdAt
      (sbc_ChangedAtMilliseconds change) in
    let result := mkSpaceComputeBindingChangeResult AcceptanceAccepted retryID binding in
    modify (fun s => put_space (sbc_SpaceID change) (with_binding binding space) s
      <| ms_computeBindingChangeRequests :=
           <[retryID := change]> (ms_computeBindingChangeRequests s) |>
      <| ms_computeBindingChangeResponses :=
           <[retryID := result]> (ms_computeBindingChangeResponses s) |>);;;
    modify (appendAuthorityEvent (event_binding_changed credential change));;;
    ret result
  end.

(** ** Events *)

(** The loop of [ListAuthorityEvents]: the events after a sequence, at most
    [limit] of them. *)
Definition events_after (afterSequence : uint64) (limit : Z) (events : list AuthorityEvent)
    : list AuthorityEvent :=
  take (Z.to_nat limit) (filter (fun event => ¬ aev_Sequence event ≤ afterSequence) events).

Definition ListAuthorityEvents (credential : AdministrationCredential) (afterSequence : uint64)
    (limit : Z) : SpaceM AuthorityEventPage :=
  let spaceID := acred_TenantID credential in
  reject_if (limit < 1 ∨ limit > MaximumAuthorityEventPageSize)
    (NewProtocolError CodeInvalidAuthorityEvent
       "Shared Space authority event page size is invalid");;;
  let* space := find_space spaceID in
  reject_if (acred_DomainID credential ≠ space_domain space)
    (wrong_scope "authority event credential belongs to another Shared Space");;;
  relay (GetDomainStatus credential);;;
  let* s := get in
  let events := events_after afterSequence limit (default [] (ms_authorityEvents s !! spaceID)) in
  ret (mkAuthorityEventPage SchemaVersion spaceID events
    (default afterSequence (aev_Sequence <$> last events))).

(** ** Role changes *)

(** The first participant with an ID gets another role. *)
Definition set_role (participantID : UUID) (role : Role) (participants : list ParticipantV)
    : list ParticipantV :=
  match list_find (fun participant => prt_ParticipantID participant = participantID) participants with
  | Some (index, participant) => <[index := participant <| prt_Role := role |>]> participants
  | None => participants
  end.

Definition validateRoleChangeRosterAttestation (s : MemoryStore) (space : memorySpace)
    (change : ParticipantRoleChange) : option SpaceError :=
  roster_check space (prc_SecureRosterAttestation change) CodeInvalidParticipant
    "Secure Shared Space role change is missing its roster authority attestation"
    (fun current attestation =>
      let expected := set_role (prc_ParticipantID change) (prc_NextRole change)
        (participant_value s <$> activeMemoryParticipants space) in
      SecureRosterAttestation_ValidateSuccessor attestation current expected (msp_keyEpoch space)).

Definition with_role (change : ParticipantRoleChange) (participant : Participant KeyRef)
    (space : memorySpace) : memorySpace :=
  record_roster (prc_SecureRosterAttestation change)
    (put_participant (participant <| prt_Role := prc_NextRole change |>) space).

Definition event_role_changed (credential : AdministrationCredential)
    (change : ParticipantRoleChange) : AuthorityEvent :=
  (new_event (prc_RetryID change) (prc_SpaceID change) (acred_DomainID credential)
     AuthorityEventParticipantRoleChanged (prc_ChangedAtMilliseconds change))
    <| aev_SubjectParticipantID := Some (prc_ParticipantID change) |>
    <| aev_PreviousRole := Some (prc_PreviousRole change) |>
    <| aev_CurrentRole := Some (prc_NextRole change) |>
    <| aev_SecureRosterDigest := secureRosterDigest (prc_SecureRosterAttestation change) |>.

Definition ChangeParticipantRole (credential : AdministrationCredential)
    (change : ParticipantRoleChange) (nowMilliseconds : int64)
    : SpaceM ParticipantRoleChangeResult :=
  let retryID := prc_RetryID change in
  let collision := NewProtocolError CodeParticipantRoleCollision in
  check (ParticipantRoleChange_Validate change);;;
  let* space := administered_space (prc_SpaceID change) credential
    "role change belongs to another Shared Space" in
  let mode := spv_InteractionMode (msp_provisioning space) in
  reject_if (prc_ParticipantID change = spv_InitialParticipantID (msp_provisioning space) ∨
      prc_PreviousRole change = RoleHost ∨ prc_NextRole change = RoleHost)
    (NewProtocolError CodeInitialHost "initial host role cannot be changed");;;
  let* s := get in
  match ms_roleChangeResponses s !! retryID with
  | Some existing =>
    if decide (ms_roleChangeRequests s !! retryID = Some change)
    then ret (existing <| prcr_Acceptance := AcceptanceDuplicate |>)
    else throw (collision "participant role change retry ID was reused"%string)
  | None =>
    let* participant :=
      find_participant_of space (prc_ParticipantID change) participant_is_revoked in
    reject_if (prc_ChangedAtMilliseconds change > nowMilliseconds ∨
        prc_ChangedAtMilliseconds change < prt_CreatedAtMilliseconds participant)
      (invalid_participant "participant role change time is invalid");;;
    reject_if (prt_Role participant ≠ prc_PreviousRole change)
      (collision "participant role changed concurrently"%string);;;
    check (validateRoleChangeRosterAttestation s space change);;;
    let* relayResult := relay (ChangeMemberCapabilities credential
      (mkMemberCapabilityChange RelayModel.SchemaVersion retryID (prc_ParticipantID change)
         (Role_Capabilities (prc_PreviousRole change) mode)
         (Role_Capabilities (prc_NextRole change) mode) (prc_ChangedAtMilliseconds change))
      nowMilliseconds) in
    let result := mkParticipantRoleChangeResult (mcr_Acceptance relayResult) retryID
      (prc_SpaceID change) (prc_ParticipantID change) (prc_PreviousRole change)
      (prc_NextRole change) (prc_ChangedAtMilliseconds change) in
    modify (fun s => put_space (prc_SpaceID change) (with_role change participant space) s
      <| ms_roleChangeRequests := <[retryID := change]> (ms_roleChangeRequests s) |>
      <| ms_roleChangeResponses := <[retryID := result]> (ms_roleChangeResponses s) |>);;;
    modify (appendAuthorityEvent (event_role_changed credential change));;;
    ret result
  end.

(** ** Device enrollment *)

(** Without a Secure Space an attestation is refused; in one both must be there. *)
Definition require_roster (space : memorySpace) (attestation : option SecureRosterAttestation)
    (missing : string)
    (compare : SecureRosterAttestation → SecureRosterAttestation → SpaceM unit) : SpaceM unit :=
  if decide (space_mode space ≠ SecurityModeSecure) then
    reject_if (is_Some attestation) (only_secure CodeInvalidParticipant)
  else
    match msp_secureRosterAttestation space, attestation with
    | Some current, Some attestation => compare current attestation
    | _, _ => throw (invalid_participant missing)
    end.

(** The participant whose keys the roster check changes, and the values it
    then compares. *)
Definition find_expected (expected : list (Participant KeyRef)) (participantID : UUID)
    (message : string) : SpaceM (nat * Participant KeyRef) :=
  found_or (list_find (fun participant => prt_ParticipantID participant = participantID) expected)
    (NewProtocolError CodeParticipantNotFound message).

Definition validateDeviceEnrollmentRosterAttestation (space : memorySpace)
    (enrollment : ParticipantDeviceEnrollment) : SpaceM unit :=
  require_roster space (pde_SecureRosterAttestation enrollment)
    "Secure Shared Space device enrollment is missing its roster authority attestation"
    (fun current attestation =>
      let expected := activeMemoryParticipants space in
      let* found := find_expected expected (pde_ParticipantID enrollment)
        "participant was not found" in
      let* keys := append_key (prt_DeviceKeys found.2) (pde_DeviceKey enrollment) in
      sort_keys keys;;;
      let* s := get in
      check (SecureRosterAttestation_ValidateSuccessor attestation current
        (participant_value s <$> <[found.1 := found.2 <| prt_DeviceKeys := keys |>]> expected)
        (msp_keyEpoch space))).

(** The Space with one more device, [keys] being the participant's new slice. *)
Definition with_device (enrollment : ParticipantDeviceEnrollment) (grant : ParticipantKeyGrant)
    (keys : KeyRef) (participant : Participant KeyRef) (space : memorySpace) : memorySpace :=
  record_roster (pde_SecureRosterAttestation enrollment)
    (add_grant (msp_keyEpoch space)
       (prt_ParticipantID participant, pdk_DeviceID (pde_DeviceKey enrollment)) grant
       (put_participant (participant <| prt_DeviceKeys := keys |>) space)).

Definition event_device_enrolled (credential : AdministrationCredential)
    (enrollment : ParticipantDeviceEnrollment) (space : memorySpace) : AuthorityEvent :=
  (new_event (pde_RetryID enrollment) (pde_SpaceID enrollment) (acred_DomainID credential)
     AuthorityEventParticipantDeviceEnrolled (pde_EnrolledAtMilliseconds enrollment))
    <| aev_SubjectParticipantID := Some (pde_ParticipantID enrollment) |>
    <| aev_SubjectDeviceID := Some (pdk_DeviceID (pde_DeviceKey enrollment)) |>
    <| aev_CurrentKeyEpoch := Some (msp_keyEpoch space) |>
    <| aev_SecureRosterDigest := secureRosterDigest (pde_SecureRosterAttestation enrollment) |>.

Definition EnrollParticipantDevice (credential : AdministrationCredential)
    (enrollment : ParticipantDeviceEnrollment) (nowMilliseconds : int64)
    : SpaceM ParticipantDeviceEnrollmentResult :=
  let retryID := pde_RetryID enrollment in
  let key := pde_DeviceKey enrollment in
  let collision := NewProtocolError CodeParticipantCollision in
  check (ParticipantDeviceEnrollment_Validate enrollment);;;
  let* space := administered_space (pde_SpaceID enrollment) credential
    "device enrollment belongs to another Shared Space" in
  let* s := get in
  match ms_deviceEnrollmentResponses s !! retryID with
  | Some existing =>
    if decide (ms_deviceEnrollmentRequests s !! retryID = Some enrollment)
    then ret (existing <| pder_Acceptance := AcceptanceDuplicate |>)
    else throw (collision "participant device enrollment retry ID was reused"%string)
  | None =>
    let* participant :=
      find_participant_of space (pde_ParticipantID enrollment) participant_is_revoked in
    reject_if (pde_EnrolledAtMilliseconds enrollment > nowMilliseconds ∨
        pde_EnrolledAtMilliseconds enrollment < prt_CreatedAtMilliseconds participant)
      (invalid_participant "participant device enrollment time is invalid");;;
    reject_if (msp_activeCheckpointEpoch space ≠ msp_keyEpoch space) bootstrap_not_ready;;;
    reject_if (Exists (fun deviceKey => pdk_DeviceID deviceKey = pdk_DeviceID key)
        (elements (read_keys s (prt_DeviceKeys participant))))
      (collision "participant device is already registered"%string);;;
    check (ParticipantDeviceKey_Validate key participant);;;
    check (ParticipantDeviceEnrollment_ValidateKeyGrant enrollment (space_mode space)
      (msp_keyEpoch space) (all_participants space) nowMilliseconds);;;
    validateDeviceEnrollmentRosterAttestation space enrollment;;;
    (** [grant := *enrollment.KeyGrant], which [ValidateKeyGrant] has seen. *)
    let* grant := found_or (pde_KeyGrant enrollment) (SpacePlainError "nil key grant") in
    let* keys := append_key (prt_DeviceKeys participant) key in
    sort_keys keys;;;
    let result := mkParticipantDeviceEnrollmentResult AcceptanceAccepted retryID
      (pde_SpaceID enrollment) (pde_ParticipantID enrollment) (pdk_DeviceID key)
      (msp_keyEpoch space) (pde_EnrolledAtMilliseconds enrollment) in
    modify (fun s => put_space (pde_SpaceID enrollment)
        (with_device enrollment grant keys participant space) s
      <| ms_deviceEnrollmentRequests := <[retryID := enrollment]> (ms_deviceEnrollmentRequests s) |>
      <| ms_deviceEnrollmentResponses := <[retryID := result]> (ms_deviceEnrollmentResponses s) |>);;;
    modify (appendAuthorityEvent (event_device_enrolled credential enrollment space));;;
    ret result
  end.

(** ** Device revocation *)

Definition active_device_not_found : SpaceError :=
  NewProtocolError CodeParticipantNotFound "active participant device was not found".

Definition validateDeviceRevocationRosterAttestation (space : memorySpace)
    (revocation : ParticipantDeviceRevocation) : SpaceM unit :=
  require_roster space (pdv_SecureRosterAttestation revocation)
    "Secure Shared Space device revocation is missing its roster authority attestation"
    (fun current attestation =>
      let expected := activeMemoryParticipants space in
      let* found := find_expected expected (pdv_ParticipantID revocation)
        "active participant device was not found" in
      let* s := get in
      let* device := found_or (list_find (fun deviceKey =>
          pdk_DeviceID deviceKey = pdv_DeviceID revocation ∧ device_active deviceKey)
        (elements (read_keys s (prt_DeviceKeys found.2)))) active_device_not_found in
      write_key (prt_DeviceKeys found.2) device.1 (pdv_DeviceKey revocation);;;
      let* s := get in
      check (SecureRosterAttestation_ValidateSuccessor attestation current
        (participant_value s <$> expected) (pdv_NextKeyEpoch revocation))).

(** The loop that counts the active devices and remembers the target's index. *)
Fixpoint active_devices (deviceID : UUID) (index : nat) (keys : list ParticipantDeviceKey)
    (activeDeviceCount : Z) (targetIndex : option nat) : Z * option nat :=
  match keys with
  | [] => (activeDeviceCount, targetIndex)
  | deviceKey :: keys =>
    if decide (device_active deviceKey) then
      active_devices deviceID (S index) keys (activeDeviceCount + 1)
        (if decide (pdk_DeviceID deviceKey = deviceID) then Some index else targetIndex)
    else active_devices deviceID (S index) keys activeDeviceCount targetIndex
  end.

(** The grants of a new epoch; none replaces the old map by none. *)
Definition put_grants (epoch : uint64) (grants : list ParticipantKeyGrant) (space : memorySpace)
    : memorySpace :=
  if decide (zlen grants > 0) then
    space <| msp_keyGrants := <[epoch := foldl (fun index grant =>
      <[grant_target grant := grant]> index) ∅ grants]> (msp_keyGrants space) |>
  else space.

(** The Space after the revocation of a device; the key itself was written in
    place. *)
Definition without_device (revocation : ParticipantDeviceRevocation)
    (participant : Participant KeyRef) (space : memorySpace) : memorySpace :=
  put_grants (pdv_NextKeyEpoch revocation) (pdv_KeyGrants revocation)
    (record_roster (pdv_SecureRosterAttestation revocation)
       ((put_participant participant space) <| msp_keyEpoch := pdv_NextKeyEpoch revocation |>)).

Definition device_revoked_at (revocation : ParticipantDeviceRevocation) : int64 :=
  default 0 (pdk_RevokedAtMilliseconds (pdv_DeviceKey revocation)).

Definition event_device_revoked (credential : AdministrationCredential)
    (revocation : ParticipantDeviceRevocation) : AuthorityEvent :=
  (new_event (pdv_RetryID revocation) (pdv_SpaceID revocation) (acred_DomainID credential)
     AuthorityEventParticipantDeviceRevoked (device_revoked_at revocation))
    <| aev_SubjectParticipantID := Some (pdv_ParticipantID revocation) |>
    <| aev_SubjectDeviceID := Some (pdv_DeviceID revocation) |>
    <| aev_PreviousKeyEpoch := Some (pdv_PreviousKeyEpoch revocation) |>
    <| aev_CurrentKeyEpoch := Some (pdv_NextKeyEpoch revocation) |>
    <| aev_SecureRosterDigest := secureRosterDigest (pdv_SecureRosterAttestation revocation) |>.

Definition RevokeParticipantDevice (credential : AdministrationCredential)
    (revocation : ParticipantDeviceRevocation) (nowMilliseconds : int64)
    : SpaceM ParticipantDeviceRevocationResult :=
  let retryID := pdv_RetryID revocation in
  check (ParticipantDeviceRevocation_Validate revocation);;;
  let* space := administered_space (pdv_SpaceID revocation) credential
    "device revocation belongs to another Shared Space" in
  let* s := get in
  match ms_deviceRevocationResponses s !! retryID with
  | Some existing =>
    if decide (some_and (ms_deviceRevocationRequests s !! retryID) (fun request =>
        ParticipantDeviceRevocation_Equivalent request revocation))
    then ret (existing <| pdvr_Acceptance := AcceptanceDuplicate |>)
    else throw (NewProtocolError CodeParticipantCollision
           "participant device revocation retry ID was reused")
  | None =>
    reject_if (space_mode space = SecurityModeManaged)
      (invalid_participant
         "managed Shared Spaces do not revoke participant agreement-key devices");;;
    reject_if (pdv_PreviousKeyEpoch revocation ≠ msp_keyEpoch space)
      (NewProtocolError CodeWrongKeyEpoch "participant device revocation key epoch is stale");;;
    reject_if (msp_activeCheckpointEpoch space ≠ msp_keyEpoch space) bootstrap_not_ready;;;
    let* participant :=
      find_participant_of space (pdv_ParticipantID revocation) participant_is_revoked in
    let deviceKeys := elements (read_keys s (prt_DeviceKeys participant)) in
    let '(activeDeviceCount, target) :=
      active_devices (pdv_DeviceID revocation) 0 deviceKeys 0 None in
    let* targetIndex := found_or target active_device_not_found in
    reject_if (activeDeviceCount = 1)
      (invalid_participant "participant's last active device cannot be revoked");;;
    check (ParticipantDeviceRevocation_ValidateDeviceKey revocation participant
      (nth targetIndex deviceKeys ParticipantDeviceKey_zero) nowMilliseconds);;;
    check (ParticipantDeviceRevocation_ValidateKeyGrants revocation (space_mode space)
      (participant_value s <$> all_participants space) nowMilliseconds);;;
    validateDeviceRevocationRosterAttestation space revocation;;;
    write_key (prt_DeviceKeys participant) targetIndex (pdv_DeviceKey revocation);;;
    let result := mkParticipantDeviceRevocationResult AcceptanceAccepted retryID
      (pdv_SpaceID revocation) (pdv_ParticipantID revocation) (pdv_DeviceID revocation)
      (pdv_PreviousKeyEpoch revocation) (pdv_NextKeyEpoch revocation)
      (device_revoked_at revocation) in
    modify (fun s => put_space (pdv_SpaceID revocation) (without_device revocation participant space) s
      <| ms_deviceRevocationRequests := <[retryID := revocation]> (ms_deviceRevocationRequests s) |>
      <| ms_deviceRevocationResponses := <[retryID := result]> (ms_deviceRevocationResponses s) |>);;;
    modify (appendAuthorityEvent (event_device_revoked credential revocation));;;
    ret result
  end.

(** ** Participant revocation *)

Definition validateRevocationRosterAttestation (s : MemoryStore) (space : memorySpace)
    (revocation : ParticipantRevocation) : option SpaceError :=
  roster_check space (prv_SecureRosterAttestation revocation) CodeInvalidParticipant
    "Secure Shared Space revocation is missing its roster authority attestation"
    (fun current attestation =>
      let expected := participant_value s <$>
        filter (fun participant => prt_ParticipantID participant ≠ prv_ParticipantID revocation)
          (activeMemoryParticipants space) in
      SecureRosterAttestation_ValidateSuccessor attestation current expected
        (prv_NextKeyEpoch revocation)).

(** The keys that a revocation installs for its epoch. *)
Definition rotate_keys (managedWrappedKey : option bytes) (revocation : ParticipantRevocation)
    (space : memorySpace) : memorySpace :=
  match managedWrappedKey with
  | Some wrapped => space <| msp_managedContentKeys :=
      <[prv_NextKeyEpoch revocation := wrapped]> (msp_managedContentKeys space) |>
  | None => put_grants (prv_NextKeyEpoch revocation) (prv_KeyGrants revocation) space
  end.

(** The Space after the revocation of a participant. *)
Definition without_participant (revocation : ParticipantRevocation)
    (managedWrappedKey : option bytes) (nowMilliseconds : int64)
    (participant : Participant KeyRef) (space : memorySpace) : memorySpace :=
  rotate_keys managedWrappedKey revocation
    (record_roster (prv_SecureRosterAttestation revocation)
       ((put_participant (participant <| prt_RevokedAtMilliseconds := Some nowMilliseconds |>) space)
          <| msp_keyEpoch := prv_NextKeyEpoch revocation |>)).

Definition event_participant_revoked (credential : AdministrationCredential)
    (revocation : ParticipantRevocation) (nowMilliseconds : int64) : AuthorityEvent :=
  (new_event (prv_RetryID revocation) (prv_SpaceID revocation) (acred_DomainID credential)
     AuthorityEventParticipantRevoked nowMilliseconds)
    <| aev_SubjectParticipantID := Some (prv_ParticipantID revocation) |>
    <| aev_PreviousKeyEpoch := Some (prv_PreviousKeyEpoch revocation) |>
    <| aev_CurrentKeyEpoch := Some (prv_NextKeyEpoch revocation) |>
    <| aev_SecureRosterDigest := secureRosterDigest (prv_SecureRosterAttestation revocation) |>.

Definition RevokeParticipant (credential : AdministrationCredential)
    (revocation : ParticipantRevocation) (nowMilliseconds : int64)
    : SpaceM ParticipantRevocationResult :=
  let retryID := prv_RetryID revocation in
  check (ParticipantRevocation_Validate revocation);;;
  let* space := administered_space (prv_SpaceID revocation) credential
    "revocation belongs to another Shared Space" in
  reject_if (prv_ParticipantID revocation = spv_InitialParticipantID (msp_provisioning space))
    (NewProtocolError CodeInitialHost "initial host cannot be revoked");;;
  let* s := get in
  match ms_revocationResponses s !! retryID with
  | Some existing =>
    if decide (some_and (ms_revocationRequests s !! retryID) (fun request =>
        ParticipantRevocation_Equivalent request revocation))
    then ret (existing <| prvr_Acceptance := AcceptanceDuplicate |>)
    else throw (NewProtocolError CodeParticipantCollision
           "participant revocation retry ID was reused")
  | None =>
    reject_if (prv_PreviousKeyEpoch revocation ≠ msp_keyEpoch space)
      (NewProtocolError CodeWrongKeyEpoch "participant revocation key epoch is stale");;;
    let* participant := find_participant_of space (prv_ParticipantID revocation)
      (NewProtocolError CodeParticipantRevoked "participant is already revoked") in
    check (ParticipantRevocation_ValidateKeyGrants revocation (space_mode space)
      (participant_value s <$> all_participants space) nowMilliseconds);;;
    check (validateRevocationRosterAttestation s space revocation);;;
    let* managedWrappedKey := managed_wrapped_key (space_mode space) (prv_SpaceID revocation)
      (prv_NextKeyEpoch revocation) in
    let* acceptance :=
      relay (RevokeMember credential (prv_ParticipantID revocation) nowMilliseconds) in
    let result := mkParticipantRevocationResult acceptance retryID (prv_SpaceID revocation)
      (prv_ParticipantID revocation) (prv_PreviousKeyEpoch revocation)
      (prv_NextKeyEpoch revocation) nowMilliseconds in
    modify (fun s => put_space (prv_SpaceID revocation)
        (without_participant revocation managedWrappedKey nowMilliseconds participant space) s
      <| ms_revocationRequests := <[retryID := revocation]> (ms_revocationRequests s) |>
      <| ms_revocationResponses := <[retryID := result]> (ms_revocationResponses s) |>);;;
    modify (appendAuthorityEvent
      (event_participant_revoked credential revocation nowMilliseconds));;;
    ret result
  end.

(** ** Participant calls *)

Definition credential_incomplete (credential : Credential) : Prop :=
  cred_TenantID credential = uuid_Nil ∨ cred_DomainID credential = uuid_Nil ∨
  cred_MemberID credential = uuid_Nil.

#[global] Instance credential_incomplete_dec c : Decision (credential_incomplete c).
Proof. unfold credential_incomplete. apply _. Defined.

(** The Space of a participant's credential. *)
Definition participant_space (credential : Credential) (message : string) : SpaceM memorySpace :=
  let* space := find_space (cred_TenantID credential) in
  reject_if (cred_DomainID credential ≠ space_domain space) (wrong_scope message);;;
  ret space.

(** The call with which the relay authenticates a participant. *)
Definition authenticate (credential : Credential) (nowMilliseconds : int64) : SpaceM unit :=
  relay (Fetch credential 0 1 nowMilliseconds);;; ret tt.

Definition MemoryStore_AuthorizeComputeCapability (credential : Credential)
    (request : ComputeCapabilityRequest) (nowMilliseconds : int64)
    : SpaceM ComputeCapabilityAuthorization :=
  check (ComputeCapabilityRequest_Validate request);;;
  reject_if (cred_TenantID credential ≠ ccq_SpaceID request ∨
      cred_DomainID credential = uuid_Nil ∨ cred_MemberID credential = uuid_Nil)
    (wrong_scope "compute capability credential scope is invalid");;;
  let* space := find_space (ccq_SpaceID request) in
  reject_if (cred_DomainID credential ≠ space_domain space)
    (wrong_scope "compute capability belongs to another Shared Space");;;
  let* participant :=
    find_participant_of space (cred_MemberID credential) participant_is_revoked in
  authenticate credential nowMilliseconds;;;
  let* binding := found_or (msp_computeBindings space !! ccq_BindingID request)
    (NewProtocolError CodeComputeBindingNotFound "compute binding was not found") in
  try (AuthorizeComputeCapability request (prt_ParticipantID participant) (prt_Role participant)
    (msp_keyEpoch space) binding nowMilliseconds).

(** The status that [GetParticipantStatus] and [GetParticipantBootstrap] build. *)
Definition participant_status (s : MemoryStore) (space : memorySpace)
    (participant : Participant KeyRef) (credential : Credential) : ParticipantStatus :=
  let provisioning := msp_provisioning space in
  let mode := spv_InteractionMode provisioning in
  mkParticipantStatus SchemaVersion (spv_SpaceID provisioning) (cred_DomainID credential)
    (space_mode space) mode (msp_keyEpoch space)
    (bool_decide (active_checkpoint_epoch space = Some (msp_keyEpoch space)))
    (active_checkpoint_epoch space) (participant_value s participant)
    (msp_presentations space !! cred_MemberID credential)
    (Role_Capabilities (prt_Role participant) mode) (spv_CreatedAtMilliseconds provisioning).

Definition GetParticipantStatus (credential : Credential) (nowMilliseconds : int64)
    : SpaceM ParticipantStatus :=
  reject_if (credential_incomplete credential)
    (wrong_scope "participant status credential scope is invalid");;;
  let* space := participant_space credential "participant status belongs to another Shared Space" in
  let* participant :=
    find_participant_of space (cred_MemberID credential) participant_is_revoked in
  authenticate credential nowMilliseconds;;;
  let* s := get in
  let status := participant_status s space participant credential in
  check (ParticipantStatus_Validate status);;;
  ret status.

(** ** Rosters *)

Definition participantRosterLocked (space : memorySpace) (domainID : UUID)
    : SpaceM ParticipantRoster :=
  let* s := get in
  let provisioning := msp_provisioning space in
  let participants := activeMemoryParticipants space in
  let presentations := merge_sort presentation_le
    (omap (fun candidate => msp_presentations space !! prt_ParticipantID candidate) participants) in
  let* attestation := found_or (msp_secureRosterAttestation space)
    (invalid_participant "Secure Shared Space roster authority attestation is unavailable") in
  let roster := mkParticipantRoster SchemaVersion (spv_SpaceID provisioning) domainID
    (space_mode space) (default 0 (ms_nextAuthoritySequences s !! spv_SpaceID provisioning))
    (msp_keyEpoch space) (participant_value s <$> participants) presentations attestation
    (spv_CreatedAtMilliseconds provisioning) in
  check (ParticipantRoster_Validate roster);;;
  ret roster.

Definition GetParticipantRoster (credential : Credential) (nowMilliseconds : int64)
    : SpaceM ParticipantRoster :=
  reject_if (credential_incomplete credential)
    (wrong_scope "participant roster credential scope is invalid");;;
  let* space := participant_space credential "participant roster belongs to another Shared Space" in
  reject_if (space_mode space ≠ SecurityModeSecure)
    (NewProtocolError CodeParticipantRosterUnavailable
       "participant roster is available only for Secure Shared Spaces");;;
  let* _ := find_participant_of space (cred_MemberID credential) participant_is_revoked in
  authenticate credential nowMilliseconds;;;
  participantRosterLocked space (cred_DomainID credential).

(** The loop of [ListSecureRosterAttestations]. *)
Definition attestations_after (afterRevision : uint64) (limit : Z)
    (history : list SecureRosterAttestation) : list SecureRosterAttestation :=
  take (Z.to_nat limit)
    (filter (fun attestation => ¬ sra_Revision attestation ≤ afterRevision) history).

Definition ListSecureRosterAttestations (credential : Credential) (afterRevision : uint64)
    (limit : Z) (nowMilliseconds : int64) : SpaceM SecureRosterAttestationPage :=
  reject_if (limit < 1 ∨ limit > MaximumSecureRosterAttestationPageSize)
    (invalid_participant "Secure Shared Space roster authority page size is invalid");;;
  reject_if (credential_incomplete credential)
    (wrong_scope "Secure Shared Space roster authority credential scope is invalid");;;
  let* space := participant_space credential
    "Secure Shared Space roster authority belongs to another Shared Space" in
  reject_if (space_mode space ≠ SecurityModeSecure)
    (NewProtocolError CodeParticipantRosterUnavailable
       "roster authority is available only for Secure Shared Spaces");;;
  let* _ := find_participant_of space (cred_MemberID credential) participant_is_revoked in
  authenticate credential nowMilliseconds;;;
  let attestations := attestations_after afterRevision limit (msp_secureRosterHistory space) in
  let page := mkSecureRosterAttestationPage SchemaVersion (spv_SpaceID (msp_provisioning space))
    (cred_DomainID credential) attestations
    (default afterRevision (sra_Revision <$> last attestations)) in
  check (SecureRosterAttestationPage_Validate page);;;
  ret page.

(** ** Presentations *)

Definition UpdateParticipantPresentation (credential : Credential)
    (update : ParticipantPresentationUpdate) (nowMilliseconds : int64)
    : SpaceM ParticipantPresentationUpdateResult :=
  let retryID := ppu_RetryID update in
  let participantID := ppu_ParticipantID update in
  let collision := NewProtocolError CodeParticipantPresentationCollision in
  check (ParticipantPresentationUpdate_Validate update);;;
  reject_if (credential_incomplete credential)
    (wrong_scope "participant presentation credential scope is invalid");;;
  let* space := find_space (ppu_SpaceID update) in
  reject_if (cred_TenantID credential ≠ ppu_SpaceID update ∨
      cred_DomainID credential ≠ space_domain space ∨ cred_MemberID credential ≠ participantID)
    (wrong_scope "participant presentation belongs to another participant");;;
  let* participant := find_participant_of space participantID participant_is_revoked in
  authenticate credential nowMilliseconds;;;
  let* s := get in
  match ms_presentationUpdateResponses s !! retryID with
  | Some existing =>
    if decide (ms_presentationUpdateRequests s !! retryID = Some update)
    then ret (mkParticipantPresentationUpdateResult AcceptanceDuplicate (ppur_RetryID existing)
           (ppur_Presentation existing))
    else throw (collision "participant presentation retry ID was reused"%string)
  | None =>
    reject_if (ppu_UpdatedAtMilliseconds update > nowMilliseconds ∨
        ppu_UpdatedAtMilliseconds update < prt_CreatedAtMilliseconds participant)
      (NewProtocolError CodeInvalidParticipantPresentation
         "participant presentation update time is invalid");;;
    let currentRevision := default 0 (ppr_Revision <$> msp_presentations space !! participantID) in
    reject_if (ppu_PreviousRevision update ≠ currentRevision)
      (collision "participant presentation changed concurrently"%string);;;
    let presentation := mkParticipantPresentation SchemaVersion (ppu_SpaceID update) participantID
      (ppu_DisplayName update) (u64 (currentRevision + 1)) (ppu_UpdatedAtMilliseconds update) in
    let result := mkParticipantPresentationUpdateResult AcceptanceAccepted retryID presentation in
    modify (fun s => put_space (ppu_SpaceID update)
        (space <| msp_presentations :=
           <[participantID := presentation]> (msp_presentations space) |>) s
      <| ms_presentationUpdateRequests := <[retryID := update]> (ms_presentationUpdateRequests s) |>
      <| ms_presentationUpdateResponses :=
           <[retryID := result]> (ms_presentationUpdateResponses s) |>);;;
    ret result
  end.

(** ** Keys *)

Definition key_grant_not_found : SpaceError :=
  NewProtocolError CodeKeyGrantNotFound "current participant key grant was not found".

(** The grant of the current epoch for one device of the participant. *)
Definition current_grant (s : MemoryStore) (space : memorySpace) (participant : Participant KeyRef)
    (memberID recipientDeviceID : UUID) : SpaceError + ParticipantKeyGrant :=
  match (grants ← msp_keyGrants space !! msp_keyEpoch space;
         (grants : gmap GrantTarget ParticipantKeyGrant) !! (memberID, recipientDeviceID)) with
  | None => inl key_grant_not_found
  | Some grant =>
    if decide (Participant_HasActiveDeviceKey (participant_value s participant)
      (kgr_RecipientDeviceID grant) (kgr_RecipientAgreementKeyFingerprint grant))
    then inr grant
    else inl key_grant_not_found
  end.

Definition key_grant_result (space : memorySpace) (credential : Credential)
    (grant : ParticipantKeyGrant) : ParticipantKeyGrantResult :=
  mkParticipantKeyGrantResult SchemaVersion (cred_TenantID credential) (cred_MemberID credential)
    (msp_keyEpoch space) grant.

Definition GetParticipantKeyGrant (credential : Credential) (recipientDeviceID : UUID)
    (nowMilliseconds : int64) : SpaceM ParticipantKeyGrantResult :=
  reject_if (credential_incomplete credential ∨ recipientDeviceID = uuid_Nil)
    (wrong_scope "participant key grant credential scope is invalid");;;
  let* space :=
    participant_space credential "participant key grant belongs to another Shared Space" in
  let* participant :=
    find_participant_of space (cred_MemberID credential) participant_is_revoked in
  reject_if (¬ SecurityMode_ContentBlind (space_mode space))
    (NewProtocolError CodeKeyGrantNotFound
       "managed Shared Spaces do not have participant key grants");;;
  authenticate credential nowMilliseconds;;;
  let* s := get in
  let* grant :=
    try (current_grant s space participant (cred_MemberID credential) recipientDeviceID) in
  ret (key_grant_result space credential grant).

(** The managed content key of the current epoch, unwrapped. *)
Definition managed_content_key (s : MemoryStore) (space : memorySpace) (credential : Credential)
    : SpaceError + ManagedContentKey :=
  match msp_managedContentKeys space !! msp_keyEpoch space, ms_managedContentKeys s with
  | Some wrapped, Some aead =>
    match Unwrap (Some aead) (spv_SpaceID (msp_provisioning space)) (msp_keyEpoch space) wrapped with
    | inl err => inl (SpaceCustodyError err)
    | inr plaintext => inr (mkManagedContentKey SchemaVersion (cred_TenantID credential)
        (cred_MemberID credential) (msp_keyEpoch space) ManagedContentKeyAlgorithm
        (b64_EncodeToString plaintext))
    end
  | _, _ => inl (NewProtocolError CodeKeyGrantNotFound
      "current managed content key was not found")
  end.

Definition GetParticipantBootstrap (credential : Credential) (recipientDeviceID : UUID)
    (nowMilliseconds : int64) : SpaceM ParticipantBootstrap :=
  reject_if (credential_incomplete credential ∨ recipientDeviceID = uuid_Nil)
    (wrong_scope "participant bootstrap credential scope is invalid");;;
  let* space := participant_space credential "participant bootstrap belongs to another Shared Space" in
  let* participant :=
    find_participant_of space (cred_MemberID credential) participant_is_revoked in
  authenticate credential nowMilliseconds;;;
  let* s := get in
  let status := participant_status s space participant credential in
  let* result :=
    (if decide (SecurityMode_ContentBlind (space_mode space)) then
       let* grant :=
         try (current_grant s space participant (cred_MemberID credential) recipientDeviceID) in
       ret (mkParticipantBootstrap SchemaVersion status
         (Some (key_grant_result space credential grant)) None None)
     else
       let* key := try (managed_content_key s space credential) in
       ret (mkParticipantBootstrap SchemaVersion status None (Some key) None)) in
  let* result :=
    (if decide (space_mode space = SecurityModeSecure) then
       let* roster := participantRosterLocked space (cred_DomainID credential) in
       ret (mkParticipantBootstrap SchemaVersion status (pbs_KeyGrant result)
         (pbs_ManagedContentKey result) (Some roster))
     else ret result) in
  check (ParticipantBootstrap_Validate result);;;
  ret result.

(** ** Envelopes and checkpoints *)

Definition PublishEnvelope (credential : Credential) (envelope : Envelope)
    (nowMilliseconds : int64) : SpaceM PublishResult :=
  let* space := find_space (cred_TenantID credential) in
  reject_if (cred_DomainID credential ≠ space_domain space ∨
      env_TenantID envelope ≠ cred_TenantID credential ∨
      env_DomainID envelope ≠ cred_DomainID credential)
    (wrong_scope "envelope belongs to another Shared Space");;;
  reject_if (env_KeyEpoch envelope ≠ msp_keyEpoch space)
    (NewProtocolError CodeWrongKeyEpoch "envelope key epoch is not current");;;
  relay (Publish credential envelope nowMilliseconds).

Definition StageCheckpoint (credential : Credential) (candidate : CheckpointCandidate)
    (nowMilliseconds : int64) : SpaceM CheckpointStageResponse :=
  let* space := find_space (cred_TenantID credential) in
  reject_if (cred_DomainID credential ≠ space_domain space ∨
      cc_TenantID candidate ≠ cred_TenantID credential ∨
      cc_DomainID candidate ≠ cred_DomainID credential)
    (wrong_scope "checkpoint belongs to another Shared Space");;;
  reject_if (cc_KeyEpoch candidate ≠ msp_keyEpoch space)
    (NewProtocolError CodeWrongKeyEpoch "checkpoint key epoch is not current");;;
  let* result := relay (RelayCheckpoint.StageCheckpoint credential candidate nowMilliseconds) in
  modify (fun s => s <| ms_checkpointEpochs :=
    <[cc_CheckpointID candidate := cc_KeyEpoch candidate]> (ms_checkpointEpochs s) |>);;;
  ret result.

Definition ActivateCheckpoint (credential : AdministrationCredential)
    (request : CheckpointActivationRequest) (nowMilliseconds : int64)
    : SpaceM CheckpointActivationResponse :=
  let* space := find_space (acred_TenantID credential) in
  reject_if (acred_DomainID credential ≠ space_domain space)
    (wrong_scope "checkpoint belongs to another Shared Space");;;
  let* s := get in
  reject_if (default 0 (ms_checkpointEpochs s !! caq_CheckpointID request) ≠ msp_keyEpoch space)
    (NewProtocolError CodeWrongKeyEpoch "checkpoint key epoch is not current");;;
  let* result := relay (RelayCheckpoint.ActivateCheckpoint credential request nowMilliseconds) in
  modify (put_space (acred_TenantID credential)
    (space <| msp_activeCheckpointEpoch := msp_keyEpoch space |>));;;
  ret result.
End store.
