(* ===== verification/SharedSpacesSpec.v ===== *)
(** * internal/sharedspaces: the store as a machine, and what a call may do

    Every method of the shared-space store runs under its mutex, and the relay
    below also serves calls of its own: an execution is a sequence of
    [SpaceOp]s.  A method's relay calls are taken to follow one another
    without a direct relay call in between.

    The authority of a store is its Spaces, its invitations and its event log.
    [AuthorityStep] lists the transitions that authority may make, each with
    its conditions; [perform_authority] shows that every call of the store,
    with any arguments and on every branch, makes one of them. *)

From S2P Require Import Prelude GoEncoding Sha256 RelayModel RelayState RelayTenant RelayMember RelaySubscription RelayDelivery RelayCheckpoint RelayMachine RelayReachable P256 GoText ServiceAuthority ComputePool KeyCustody SharedSpacesModel SharedSpacesChanges SharedSpacesCompute SharedSpaces SharedSpacesAuthority.
#[local] Open Scope Z_scope.

Section machine.
Context `{UuidLib} `{ManifestLib} `{CurveLib} `{AeadLib} `{SliceLib}.

Inductive SpaceOp :=
  | OpRelay (op : RelayMachine.Op)
  | OpCreateProvisioningAdmission (admission : ProvisioningAdmission) (now : int64)
  | OpClaimProvisioningAdmission (credential : ProvisioningAdmissionCredential)
      (claim : ProvisioningAdmissionClaim) (now : int64)
  | OpProvisionSpace (provisioning : SpaceProvisioning DeviceKeys) (now : int64)
  | OpProvisionSpaceWithAuthority (provisioning : SpaceProvisioning DeviceKeys)
      (initialAuthority : option InitialBinding) (now : int64)
  | OpActivateBoundSharedSpaceScope (spaceID localDeploymentID : UUID) (revision : uint64)
      (manifestDigest : string) (now : int64)
  | OpCreateInvitation (credential : AdministrationCredential)
      (invitation : Invitation DeviceKeys) (now : int64)
  | OpClaimInvitation (credential : InvitationCredential) (claim : InvitationClaim) (now : int64)
  | OpCancelInvitation (credential : AdministrationCredential)
      (cancellation : InvitationCancellation) (now : int64)
  | OpListInvitations (credential : AdministrationCredential) (now : int64)
  | OpGetSpaceStatus (credential : AdministrationCredential)
  | OpChangeComputeBinding (credential : AdministrationCredential)
      (change : SpaceComputeBindingChange) (now : int64)
  | OpAuthorizeComputeCapability (credential : Credential) (request : ComputeCapabilityRequest)
      (now : int64)
  | OpListAuthorityEvents (credential : AdministrationCredential) (afterSequence : uint64)
      (limit : Z)
  | OpChangeParticipantRole (credential : AdministrationCredential)
      (change : ParticipantRoleChange) (now : int64)
  | OpEnrollParticipantDevice (credential : AdministrationCredential)
      (enrollment : ParticipantDeviceEnrollment) (now : int64)
  | OpRevokeParticipantDevice (credential : AdministrationCredential)
      (revocation : ParticipantDeviceRevocation) (now : int64)
  | OpRevokeParticipant (credential : AdministrationCredential)
      (revocation : ParticipantRevocation) (now : int64)
  | OpGetParticipantStatus (credential : Credential) (now : int64)
  | OpGetParticipantRoster (credential : Credential) (now : int64)
  | OpListSecureRosterAttestations (credential : Credential) (afterRevision : uint64) (limit : Z)
      (now : int64)
  | OpUpdateParticipantPresentation (credential : Credential)
      (update : ParticipantPresentationUpdate) (now : int64)
  | OpGetParticipantKeyGrant (credential : Credential) (recipientDeviceID : UUID) (now : int64)
  | OpGetParticipantBootstrap (credential : Credential) (recipientDeviceID : UUID) (now : int64)
  | OpPublishEnvelope (credential : Credential) (envelope : Envelope) (now : int64)
  | OpStageSpaceCheckpoint (credential : Credential) (candidate : CheckpointCandidate)
      (now : int64)
  | OpActivateSpaceCheckpoint (credential : AdministrationCredential)
      (request : CheckpointActivationRequest) (now : int64).

(** The state a call leaves behind, whether it succeeded or failed. *)
Definition leaves {A} (m : M SpaceError MemoryStore A) (s : MemoryStore) : MemoryStore := (m s).1.

Definition perform (op : SpaceOp) : MemoryStore → MemoryStore :=
  match op with
  | OpRelay op => fun s => s <| ms_relay := RelayMachine.perform op (ms_relay s) |>
  | OpCreateProvisioningAdmission a now => leaves (CreateProvisioningAdmission a now)
  | OpClaimProvisioningAdmission c r now => leaves (ClaimProvisioningAdmission c r now)
  | OpProvisionSpace p now => leaves (ProvisionSpace p now)
  | OpProvisionSpaceWithAuthority p b now => leaves (ProvisionSpaceWithAuthority p b now)
  | OpActivateBoundSharedSpaceScope id d r m now =>
    leaves (ActivateBoundSharedSpaceScope id d r m now)
  | OpCreateInvitation c i now => leaves (CreateInvitation c i now)
  | OpClaimInvitation c r now => leaves (ClaimInvitation c r now)
  | OpCancelInvitation c r now => leaves (CancelInvitation c r now)
  | OpListInvitations c now => leaves (ListInvitations c now)
  | OpGetSpaceStatus c => leaves (GetSpaceStatus c)
  | OpChangeComputeBinding c r now => leaves (ChangeComputeBinding c r now)
  | OpAuthorizeComputeCapability c r now => leaves (MemoryStore_AuthorizeComputeCapability c r now)
  | OpListAuthorityEvents c n limit => leaves (ListAuthorityEvents c n limit)
  | OpChangeParticipantRole c r now => leaves (ChangeParticipantRole c r now)
  | OpEnrollParticipantDevice c e now => leaves (EnrollParticipantDevice c e now)
  | OpRevokeParticipantDevice c r now => leaves (RevokeParticipantDevice c r now)
  | OpRevokeParticipant c r now => leaves (RevokeParticipant c r now)
  | OpGetParticipantStatus c now => leaves (GetParticipantStatus c now)
  | OpGetParticipantRoster c now => leaves (GetParticipantRoster c now)
  | OpListSecureRosterAttestations c n limit now =>
    leaves (ListSecureRosterAttestations c n limit now)
  | OpUpdateParticipantPresentation c u now => leaves (UpdateParticipantPresentation c u now)
  | OpGetParticipantKeyGrant c id now => leaves (GetParticipantKeyGrant c id now)
  | OpGetParticipantBootstrap c id now => leaves (GetParticipantBootstrap c id now)
  | OpPublishEnvelope c e now => leaves (PublishEnvelope c e now)
  | OpStageSpaceCheckpoint c r now => leaves (StageCheckpoint c r now)
  | OpActivateSpaceCheckpoint c r now => leaves (ActivateCheckpoint c r now)
  end.

Definition perform_all (ops : list SpaceOp) (s : MemoryStore) : MemoryStore :=
  foldl (fun s op => perform op s) s ops.

(** A new store over a new relay. *)
Definition start (ttl : list int64) (rand : Rand) (custodians : list (option AEAD)) : MemoryStore :=
  NewMemoryStore (RelayState.NewMemoryStore ttl) rand custodians.

(** Calls lead from a new store to this one. *)
Inductive reachable : MemoryStore → Prop :=
  | reachable_new ttl rand custodians : reachable (start ttl rand custodians)
  | reachable_step s op : reachable s → reachable (perform op s).

Lemma space_reachable_perform_all s ops : reachable s → reachable (perform_all ops s).
Proof. revert s. induction ops as [|op ops IH]; intros s Hs; [done|]. by apply IH, reachable_step. Qed.

Lemma space_perform_all_invariant (I : MemoryStore → Prop) s ops :
  (∀ op s, I s → I (perform op s)) → I s → I (perform_all ops s).
Proof. intros Hstep. revert s. induction ops as [|op ops IH]; intros s Hs; [done|]. by apply IH, Hstep. Qed.

Lemma space_reachable_invariant (I : MemoryStore → Prop) s :
  (∀ ttl rand custodians, I (start ttl rand custodians)) → (∀ op s, I s → I (perform op s)) →
  reachable s → I s.
Proof. induction 3; auto. Qed.
End machine.

Section spec.
Context `{UuidLib} `{ManifestLib} `{CurveLib} `{AeadLib} `{SliceLib}.

(** ** Authority *)

Record Authority := mkAuthority {
  au_spaces : gmap UUID memorySpace;
  au_invitations : gmap UUID memoryInvitation;
  au_events : gmap UUID (list AuthorityEvent);
  au_sequences : gmap UUID uint64;
  au_custodian : option AEAD }.

Definition authority (s : MemoryStore) : Authority :=
  mkAuthority (ms_spaces s) (ms_invitations s) (ms_authorityEvents s) (ms_nextAuthoritySequences s)
    (ms_managedContentKeys s).

(** An event gets the next sequence number of its Space. *)
Definition record_event (event : AuthorityEvent) (a : Authority) : Authority :=
  let next := u64 (default 0 (au_sequences a !! aev_SpaceID event) + 1) in
  mkAuthority (au_spaces a) (au_invitations a)
    (<[aev_SpaceID event := default [] (au_events a !! aev_SpaceID event) ++
        [event <| aev_Version := SchemaVersion |> <| aev_Sequence := next |>]]> (au_events a))
    (<[aev_SpaceID event := next]> (au_sequences a)) (au_custodian a).

Definition change_space (id : UUID) (space : memorySpace) (a : Authority) : Authority :=
  mkAuthority (<[id := space]> (au_spaces a)) (au_invitations a) (au_events a) (au_sequences a)
    (au_custodian a).

Definition change_invitation (id : UUID) (record : memoryInvitation) (a : Authority) : Authority :=
  mkAuthority (au_spaces a) (<[id := record]> (au_invitations a)) (au_events a) (au_sequences a)
    (au_custodian a).

(** The key that a managed Space starts an epoch with was generated and wrapped
    for that Space and epoch; no other Space has one. *)
Definition wrapped_for (custodian : option AEAD) (mode : SecurityMode) (id : UUID)
    (epoch : uint64) (wrapped : option bytes) : Prop :=
  match wrapped with
  | None => mode ≠ SecurityModeManaged
  | Some w => mode = SecurityModeManaged ∧
    ∃ r r' plaintext, Generate custodian id epoch r = (r', inr (plaintext, w))
  end.

(** The roster that comes with a change of a Secure Space succeeds the current
    one at [epoch]; no other Space carries one. *)
Definition roster_follows (space : memorySpace) (attestation : option SecureRosterAttestation)
    (epoch : uint64) : Prop :=
  if decide (space_mode space = SecurityModeSecure) then
    ∃ current next expected, msp_secureRosterAttestation space = Some current ∧
      attestation = Some next ∧
      SecureRosterAttestation_ValidateSuccessor next current expected epoch = None
  else attestation = None.

(** What the calls that are no change of authority may change in a Space. *)
Definition same_but_views (space space' : memorySpace) : Prop :=
  space' = space <| msp_presentations := msp_presentations space' |>
    <| msp_activeCheckpointEpoch := msp_activeCheckpointEpoch space' |>
    <| msp_authorityActive := msp_authorityActive space' |> ∧
  (msp_activeCheckpointEpoch space' = msp_activeCheckpointEpoch space ∨
   msp_activeCheckpointEpoch space' = msp_keyEpoch space).

(** The participant of a change is in the Space and active. *)
Definition active_in (space : memorySpace) (participantID : UUID) (participant : Participant KeyRef)
    : Prop :=
  msp_participants space !! participantID = Some participant ∧ participant_active participant.

Inductive AuthorityStep (s : MemoryStore) : Authority → Prop :=
  | step_silent : AuthorityStep s (authority s)
  | step_view id space space' :
    ms_spaces s !! id = Some space → same_but_views space space' →
    AuthorityStep s (change_space id space' (authority s))
  | step_provision p keys result wrapped binding :
    SpaceProvisioning_Validate p = None → ms_spaces s !! spv_SpaceID p = None →
    wrapped_for (ms_managedContentKeys s) (spv_SecurityMode p) (spv_SpaceID p) InitialKeyEpoch
      wrapped →
    AuthorityStep s (record_event (event_space_provisioned p) (change_space (spv_SpaceID p)
      (provisioned_space (provisioning_with_keys (fun _ => keys) p) result wrapped binding)
      (authority s)))
  | step_invite credential i keys space :
    ms_spaces s !! inv_SpaceID i = Some space → Invitation_Validate i = None →
    ms_invitations s !! inv_InvitationID i = None →
    msp_activeCheckpointEpoch space = msp_keyEpoch space →
    ¬ some_and (msp_participants space !! inv_ParticipantID i) (fun p => participant_active p) →
    AuthorityStep s (record_event (event_invitation_created credential i space)
      (change_invitation (inv_InvitationID i)
         (mkMemoryInvitation (invitation_with_keys (fun _ => keys) i) None None None)
         (authority s)))
  | step_admit credential claim record result space now :
    let i := miv_invitation record in
    ms_invitations s !! ivc_InvitationID credential = Some record →
    miv_result record = None → miv_cancellation record = None →
    ms_spaces s !! icl_SpaceID claim = Some space →
    inv_SpaceID i = icl_SpaceID claim → inv_ParticipantID i = icl_ParticipantID claim →
    Invitation_ValidateKeyGrant (invitation_value s i) (space_mode space) (msp_keyEpoch space) = None →
    roster_follows space (inv_ActivationSecureRosterAttestation i) (msp_keyEpoch space) →
    AuthorityStep s (record_event (event_invitation_claimed credential claim i space)
      (change_invitation (ivc_InvitationID credential)
         (mkMemoryInvitation i (Some result) (miv_cancellation record)
            (Some (icl_ClaimedAtMilliseconds claim)))
         (change_space (icl_SpaceID claim)
            (admit_participant i (claimed_participant claim i space now) space) (authority s))))
  | step_cancel credential cancellation record result space :
    ms_invitations s !! ica_InvitationID cancellation = Some record →
    miv_result record = None → miv_cancellation record = None →
    ms_spaces s !! ica_SpaceID cancellation = Some space →
    inv_SpaceID (miv_invitation record) = ica_SpaceID cancellation →
    AuthorityStep s
      (record_event (event_invitation_cancelled credential cancellation (miv_invitation record))
         (change_invitation (ica_InvitationID cancellation)
            (mkMemoryInvitation (miv_invitation record) (miv_result record) (Some result)
               (miv_claimedAtMilliseconds record)) (authority s)))
  | step_role credential c participant space :
    ms_spaces s !! prc_SpaceID c = Some space → ParticipantRoleChange_Validate c = None →
    prc_ParticipantID c ≠ spv_InitialParticipantID (msp_provisioning space) →
    prc_NextRole c ≠ RoleHost → active_in space (prc_ParticipantID c) participant →
    prt_Role participant = prc_PreviousRole c →
    roster_follows space (prc_SecureRosterAttestation c) (msp_keyEpoch space) →
    AuthorityStep s (record_event (event_role_changed credential c)
      (change_space (prc_SpaceID c) (with_role c participant space) (authority s)))
  | step_enroll credential e grant keys participant space now :
    ms_spaces s !! pde_SpaceID e = Some space → ParticipantDeviceEnrollment_Validate e = None →
    active_in space (pde_ParticipantID e) participant → pde_KeyGrant e = Some grant →
    ParticipantDeviceEnrollment_ValidateKeyGrant e (space_mode space) (msp_keyEpoch space)
      (all_participants space) now = None →
    msp_activeCheckpointEpoch space = msp_keyEpoch space →
    roster_follows space (pde_SecureRosterAttestation e) (msp_keyEpoch space) →
    AuthorityStep s (record_event (event_device_enrolled credential e space)
      (change_space (pde_SpaceID e) (with_device e grant keys participant space) (authority s)))
  | step_revoke_device credential r participant space now :
    ms_spaces s !! pdv_SpaceID r = Some space → ParticipantDeviceRevocation_Validate r = None →
    pdv_PreviousKeyEpoch r = msp_keyEpoch space →
    msp_activeCheckpointEpoch space = msp_keyEpoch space →
    active_in space (pdv_ParticipantID r) participant →
    ParticipantDeviceRevocation_ValidateKeyGrants r (space_mode space)
      (participant_value s <$> all_participants space) now = None →
    roster_follows space (pdv_SecureRosterAttestation r) (pdv_NextKeyEpoch r) →
    AuthorityStep s (record_event (event_device_revoked credential r)
      (change_space (pdv_SpaceID r) (without_device r participant space) (authority s)))
  | step_revoke credential r wrapped participant space now :
    ms_spaces s !! prv_SpaceID r = Some space → ParticipantRevocation_Validate r = None →
    prv_ParticipantID r ≠ spv_InitialParticipantID (msp_provisioning space) →
    prv_PreviousKeyEpoch r = msp_keyEpoch space →
    active_in space (prv_ParticipantID r) participant →
    ParticipantRevocation_ValidateKeyGrants r (space_mode space)
      (participant_value s <$> all_participants space) now = None →
    wrapped_for (ms_managedContentKeys s) (space_mode space) (prv_SpaceID r) (prv_NextKeyEpoch r)
      wrapped →
    roster_follows space (prv_SecureRosterAttestation r) (prv_NextKeyEpoch r) →
    AuthorityStep s (record_event (event_participant_revoked credential r now)
      (change_space (prv_SpaceID r)
         (without_participant r wrapped now participant space) (authority s)))
  | step_bind credential change binding space :
    ms_spaces s !! sbc_SpaceID change = Some space →
    SpaceComputeBindingChange_Validate change = None →
    sbc_SourceAuthorityRevision change = msp_keyEpoch space →
    binding_change_allowed (msp_computeBindings space !! sbc_BindingID change) change = None →
    sb_BindingID binding = sbc_BindingID change →
    sb_Revision binding = u64 (sbc_PreviousBindingRevision change + 1) →
    sb_SourceAuthorityRevision binding = sbc_SourceAuthorityRevision change →
    AuthorityStep s (record_event (event_binding_changed credential change)
      (change_space (sbc_SpaceID change) (with_binding binding space) (authority s))).

(** ** The calls make these steps *)

(** The rule of a relay call whose effect on the relay does not matter. *)
Lemma wp_relay_any {A} (call : M GoError RelayState.MemoryStore A)
    (Q : MemoryStore → SpaceError + A → Prop) s :
  (∀ r res, Q (s <| ms_relay := r |>) res) → wp (relay call) Q s.
Proof. intros HQ. unfold wp, relay. destruct (call (ms_relay s)) as [r res]. apply HQ. Qed.

Lemma wp_custody_any {A} (call : M CustodyError Rand A)
    (Q : MemoryStore → SpaceError + A → Prop) s :
  (∀ r res, Q (s <| ms_rand := r |>) res) → wp (custody call) Q s.
Proof. intros HQ. unfold wp, custody. destruct (call (ms_rand s)) as [r res]. apply HQ. Qed.

(** Operations on slices change arrays only. *)
Lemma wp_argument_keys keys (Q : MemoryStore → SpaceError + KeyRef → Prop) s :
  (∀ arrays n ref, Q (s <| ms_arrays := arrays |> <| ms_arrayCount := n |>) (inr ref)) →
  wp (argument_keys keys) Q s.
Proof.
  intros HQ. destruct keys; cbn [argument_keys]; unfold new_array; wp_steps; [apply HQ|].
  specialize (HQ (ms_arrays s) (ms_arrayCount s) None). by destruct s.
Qed.

Lemma wp_append_key keys key (Q : MemoryStore → SpaceError + KeyRef → Prop) s :
  (∀ arrays n ref, Q (s <| ms_arrays := arrays |> <| ms_arrayCount := n |>) (inr ref)) →
  wp (append_key keys key) Q s.
Proof.
  intros HQ. unfold append_key, new_array. wp_steps; try apply HQ.
Qed.

Lemma wp_sort_keys keys (Q : MemoryStore → SpaceError + unit → Prop) s :
  (∀ arrays, Q (s <| ms_arrays := arrays |>) (inr tt)) → wp (sort_keys keys) Q s.
Proof.
  intros HQ. destruct keys; cbn [sort_keys]; wp_steps; [apply HQ|].
  specialize (HQ (ms_arrays s)). by destruct s.
Qed.

Lemma wp_write_key keys i key (Q : MemoryStore → SpaceError + unit → Prop) s :
  (∀ arrays, Q (s <| ms_arrays := arrays |>) (inr tt)) → wp (write_key keys i key) Q s.
Proof.
  intros HQ. destruct keys; cbn [write_key]; wp_steps; [apply HQ|].
  specialize (HQ (ms_arrays s)). by destruct s.
Qed.

Lemma wp_managed_wrapped_key mode id epoch (Q : MemoryStore → SpaceError + option bytes → Prop) s :
  (∀ r res, (∀ wrapped, res = inr wrapped →
      wrapped_for (ms_managedContentKeys s) mode id epoch wrapped) →
    Q (s <| ms_rand := r |>) res) →
  wp (managed_wrapped_key mode id epoch) Q s.
Proof.
  intros HQ. unfold managed_wrapped_key. assert (s = s <| ms_rand := ms_rand s |>) as Hs by by destruct s.
  case_decide as Hm.
  - wp_steps; [|rewrite Hs; by apply HQ].

    unfold wp, bind, custody. destruct (Generate _ _ _ _) as [r [e|g]] eqn:Hg; apply HQ; [done|].
    intros w [= <-]. split; [done|]. destruct g. by do 3 eexists.
  - wp_steps. rewrite Hs. apply HQ. by intros w [= <-].
Qed.

(** [s] with other arrays. *)
Abbreviation rearranged s arrays n := (s <| ms_arrays := arrays |> <| ms_arrayCount := n |>)
  (only parsing).

Lemma roster_check_follows space attestation code missing compare epoch :
  (∀ current next, compare current next = None → ∃ expected,
    SecureRosterAttestation_ValidateSuccessor next current expected epoch = None) →
  roster_check space attestation code missing compare = None →
  roster_follows space attestation epoch.
Proof.
  intros Hcompare. unfold roster_check, roster_follows. destruct (decide (space_mode space ≠ _)) as [Hm|Hm].
  - rewrite decide_False by done. intros Hn%err_when_None. destruct attestation; [|done].
    exfalso. by apply Hn.
  - rewrite decide_True by (by apply dec_stable). repeat case_match; try done. naive_solver.
Qed.

Lemma invitation_roster_follows s space i :
  validateInvitationRosterAttestation s space i = None →
  roster_follows space (inv_ActivationSecureRosterAttestation i) (msp_keyEpoch space).
Proof. apply roster_check_follows. eauto. Qed.

Lemma role_roster_follows s space c :
  validateRoleChangeRosterAttestation s space c = None →
  roster_follows space (prc_SecureRosterAttestation c) (msp_keyEpoch space).
Proof. apply roster_check_follows. eauto. Qed.

Lemma revocation_roster_follows s space r :
  validateRevocationRosterAttestation s space r = None →
  roster_follows space (prv_SecureRosterAttestation r) (prv_NextKeyEpoch r).
Proof. apply roster_check_follows. eauto. Qed.

(** The two checks that write into arrays. *)
Lemma wp_require_roster space attestation missing compare epoch
    (Q : MemoryStore → SpaceError + unit → Prop) s :
  (∀ arrays n e, Q (rearranged s arrays n) (inl e)) →
  (roster_follows space attestation epoch → ∀ arrays n, Q (rearranged s arrays n) (inr tt)) →
  (∀ current next, wp (compare current next) (fun s' res =>
    (∃ arrays n, s' = rearranged s arrays n) ∧
    (res = inr tt → ∃ expected,
      SecureRosterAttestation_ValidateSuccessor next current expected epoch = None)) s) →
  wp (require_roster space attestation missing compare) Q s.
Proof.
  intros Herr Hok Hcompare. unfold require_roster. unfold roster_follows in Hok.
  assert (s = rearranged s (ms_arrays s) (ms_arrayCount s)) as Hs by by destruct s.
  destruct (decide (space_mode space ≠ _)) as [Hm|Hm].
  - wp_step; rewrite Hs; [apply Herr|]. apply Hok. rewrite decide_False by done.
    destruct attestation; [|done]. exfalso. eauto.
  - rewrite decide_True in Hok by (by apply dec_stable).
    repeat case_match; try (wp_step; rewrite Hs; apply Herr).
    eapply wp_mono; [apply Hcompare|]. intros s' [e|[]] [(arrays & n & ->) Hv]; [apply Herr|].
    apply Hok. destruct (Hv eq_refl). eauto 10.
Qed.

Lemma wp_enrollment_roster space e (Q : MemoryStore → SpaceError + unit → Prop) s :
  (∀ arrays n err, Q (rearranged s arrays n) (inl err)) →
  (roster_follows space (pde_SecureRosterAttestation e) (msp_keyEpoch space) →
   ∀ arrays n, Q (rearranged s arrays n) (inr tt)) →
  wp (validateDeviceEnrollmentRosterAttestation space e) Q s.
Proof.
  intros Herr Hok. eapply wp_require_roster; [done|done|]. intros current next. unfold find_expected.
  assert (s = rearranged s (ms_arrays s) (ms_arrayCount s)) as Hs by by destruct s.
  wp_step. wp_step; [split; [by do 2 eexists|done]|]. wp_step. apply wp_append_key. intros arrays n ref.
  cbn beta iota. wp_step. apply wp_sort_keys. intros arrays'. cbn beta iota. wp_steps.
  - split; [by exists arrays', n|done].
  - split; [by exists arrays', n|eauto].
Qed.

Lemma wp_revocation_roster space r (Q : MemoryStore → SpaceError + unit → Prop) s :
  (∀ arrays n err, Q (rearranged s arrays n) (inl err)) →
  (roster_follows space (pdv_SecureRosterAttestation r) (pdv_NextKeyEpoch r) →
   ∀ arrays n, Q (rearranged s arrays n) (inr tt)) →
  wp (validateDeviceRevocationRosterAttestation space r) Q s.
Proof.
  intros Herr Hok. eapply wp_require_roster; [done|done|]. intros current next. unfold find_expected.
  assert (s = rearranged s (ms_arrays s) (ms_arrayCount s)) as Hs by by destruct s.
  wp_step. wp_step; [split; [by do 2 eexists|done]|]. do 2 wp_step. wp_step.
  wp_step; [split; [by do 2 eexists|done]|]. wp_step. apply wp_write_key. intros arrays.
  cbn beta iota. wp_steps.
  - split; [by exists arrays, (ms_arrayCount s)|done].
  - split; [by exists arrays, (ms_arrayCount s)|eauto].
Qed.
End spec.

(** [space_steps] runs a method; the relay, the random source and the arrays
    may change in any way. *)
Ltac space_step :=
  lazymatch goal with
  | |- wp (relay _) _ _ => apply wp_relay_any; intros ? [?|?]; cbn beta iota
  | |- wp (managed_wrapped_key _ _ _) _ _ =>
    apply wp_managed_wrapped_key; intros ? [?|?] ?; cbn beta iota
  | |- wp (argument_keys _) _ _ => apply wp_argument_keys; intros ? ? ?; cbn beta iota
  | |- wp (append_key _ _) _ _ => apply wp_append_key; intros ? ? ?; cbn beta iota
  | |- wp (sort_keys _) _ _ => apply wp_sort_keys; intros ?; cbn beta iota
  | |- wp (write_key _ _ _) _ _ => apply wp_write_key; intros ?; cbn beta iota
  | |- wp (validateDeviceEnrollmentRosterAttestation _ _) _ _ =>
    apply wp_enrollment_roster; [intros ? ? ?|intros ? ? ?]; cbn beta iota
  | |- wp (validateDeviceRevocationRosterAttestation _ _) _ _ =>
    apply wp_revocation_roster; [intros ? ? ?|intros ? ? ?]; cbn beta iota
  | |- wp (find_space _) _ _ => unfold find_space
  | |- wp (administered_space _ _ _) _ _ => unfold administered_space
  | |- wp (participant_space _ _) _ _ => unfold participant_space
  | |- wp (find_participant_of _ _ _) _ _ => unfold find_participant_of
  | |- wp (find_invitation _) _ _ => unfold find_invitation
  | |- wp (authenticate _ _) _ _ => unfold authenticate
  | |- wp (participantRosterLocked _ _) _ _ => unfold participantRosterLocked
  | |- wp (provisionSpace _ _ _) _ _ => unfold provisionSpace
  | |- _ => wp_step
  end.
Ltac space_steps := repeat space_step.

(** One case per method; the method is unfolded. *)
Ltac space_call op :=
  destruct op; cbn [perform]; unfold leaves;
  lazymatch goal with
  | |- ?P (?m ?s).1 => change (wp m (fun s' _ => P s') s); unfold_call
  | |- _ => idtac
  end.

(** The transition a final state shows. *)
Ltac make_step s :=
  lazymatch goal with
  | |- _ (appendAuthorityEvent (event_space_provisioned ?p) (put_space _
        (provisioned_space (provisioning_with_keys (fun _ => ?keys) _) ?t ?w ?b) _)) =>
    refine (step_provision s p keys t w b _ _ _)
  | |- _ (appendAuthorityEvent (event_invitation_created ?c ?i ?space)
        (_ <| ms_invitations := <[_ := mkMemoryInvitation (invitation_with_keys (fun _ => ?keys) _)
           _ _ _]> _ |> <| ms_invitationRetries := _ |>)) =>
    refine (step_invite s c i keys space _ _ _ _ _)
  | |- _ (appendAuthorityEvent (event_invitation_claimed ?c ?claim (miv_invitation ?record) ?space)
        (put_space _ (admit_participant _ (claimed_participant _ _ _ ?now) _)
          (_ <| ms_invitations := <[_ := mkMemoryInvitation _ (Some ?result) _ _]> _ |>))) =>
    refine (step_admit s c claim record result space now _ _ _ _ _ _ _ _)
  | |- _ (appendAuthorityEvent (event_invitation_cancelled ?c ?x (miv_invitation ?record))
        (_ <| ms_invitations := <[_ := mkMemoryInvitation _ _ (Some ?result) _]> _ |>
           <| ms_invitationCancellationRequests := _ |>
           <| ms_invitationCancellationResponses := _ |>)) =>
    eapply (step_cancel s c x record result)
  | |- _ (appendAuthorityEvent (event_role_changed ?c ?x)
        (put_space _ (with_role _ ?participant ?space) _)) =>
    refine (step_role s c x participant space _ _ _ _ _ _ _)
  | _ : ParticipantDeviceEnrollment_ValidateKeyGrant _ _ _ _ ?now = None
    |- _ (appendAuthorityEvent (event_device_enrolled ?c ?x ?space)
        (put_space _ (with_device _ ?grant ?keys ?participant _) _)) =>
    refine (step_enroll s c x grant keys participant space now _ _ _ _ _ _ _)
  | _ : ParticipantDeviceRevocation_ValidateKeyGrants _ _ _ ?now = None
    |- _ (appendAuthorityEvent (event_device_revoked ?c ?x)
        (put_space _ (without_device _ ?participant ?space) _)) =>
    refine (step_revoke_device s c x participant space now _ _ _ _ _ _ _)
  | |- _ (appendAuthorityEvent (event_participant_revoked ?c ?x ?now)
        (put_space _ (without_participant _ ?w _ ?participant ?space) _)) =>
    refine (step_revoke s c x w participant space now _ _ _ _ _ _ _ _)
  | |- _ (appendAuthorityEvent (event_binding_changed ?c ?x)
        (put_space _ (with_binding ?binding ?space) _)) =>
    refine (step_bind s c x binding space _ _ _ _ _ _ _)
  | |- _ (put_space _ (?space <| msp_authorityActive := _ |>) _) =>
    refine (step_view s _ space _ _ _)
  | |- _ (put_space _ (?space <| msp_presentations := _ |>) _) =>
    refine (step_view s _ space _ _ _)
  | |- _ (put_space _ (?space <| msp_activeCheckpointEpoch := _ |>) _) =>
    refine (step_view s _ space _ _ _)
  end.

Section calls.
Context `{UuidLib} `{ManifestLib} `{CurveLib} `{AeadLib} `{SliceLib}.

(** The conditions of a transition, from what the call has checked. *)
#[local] Hint Resolve role_roster_follows revocation_roster_follows : space.
#[local] Hint Extern 0 (_ = _) => eassumption || by apply dec_stable : space.
#[local] Hint Extern 1 (_ = None) => by apply eq_None_not_Some : space.
#[local] Hint Extern 1 (_ = _) => apply dec_stable; tauto : space.
#[local] Hint Extern 1 (_ ≠ _) => tauto : space.
#[local] Hint Extern 1 (wrapped_for _ _ _ _ _) => auto : space.
#[local] Hint Extern 1 (roster_follows _ (inv_ActivationSecureRosterAttestation _) _) =>
  lazymatch goal with
  | H : validateInvitationRosterAttestation ?s ?space ?i = None |- _ =>
    exact (invitation_roster_follows s space i H)
  end : space.
#[local] Hint Extern 1 (active_in _ _ _) => split; [eassumption|by apply dec_stable] : space.
#[local] Hint Extern 1 (same_but_views ?space _) =>
  split; [by destruct space|by (left + right)] : space.

Theorem perform_authority (op : SpaceOp) s : AuthorityStep s (authority (perform op s)).
Proof.
  set (P := fun s' => AuthorityStep s (authority s')). change (P (perform op s)).
  space_call op. exact (step_silent s).
  all: space_steps; try exact (step_silent s).
  all: make_step s; try eassumption; eauto with space.
Qed.
End calls.
