(* ===== verification/SharedSpacesInvariant.v ===== *)
(** * internal/sharedspaces: the invariant of authority

    [authority_good] holds of a new store and every [AuthorityStep] keeps it:
    each Space stands as its event log says, with its initial host, a key
    epoch that counts the rotations and a chain of rosters that the log
    commits to.  The first part defines these notions and the lemmas about
    logs, counts and chains; the second shows that every step keeps them. *)

From S2P Require Import Prelude GoEncoding Sha256 RelayModel RelayState RelayTenant RelayMember RelaySubscription RelayDelivery RelayCheckpoint RelayMachine RelayReachable P256 GoText ServiceAuthority ComputePool KeyCustody SharedSpacesModel SharedSpacesChanges SharedSpacesCompute SharedSpaces SharedSpacesAuthority SharedSpacesSpec.
#[local] Open Scope Z_scope.

(** ** Replaying a log *)

(** What the events of a Space say of it: the key epoch, every participant's
    role and whether they are active, the digest of the current roster and
    the revisions of the compute bindings. *)
Record Replay := mkReplay {
  rp_epoch : uint64;
  rp_participants : gmap UUID (Role * bool);
  rp_roster : option string;
  rp_bindings : gmap UUID uint64 }.

Definition replay_start : Replay := mkReplay 0 ∅ None ∅.

Definition replay_participants (e : AuthorityEvent) (participants : gmap UUID (Role * bool))
    : gmap UUID (Role * bool) :=
  match aev_EventType e, aev_SubjectParticipantID e, aev_CurrentRole e with
  | (AuthorityEventSpaceProvisioned | AuthorityEventInvitationClaimed |
     AuthorityEventParticipantRoleChanged), Some id, Some role => <[id := (role, true)]> participants
  | AuthorityEventParticipantRevoked, Some id, _ =>
    alter (fun entry => (entry.1, false)) id participants
  | _, _, _ => participants
  end.

Definition replay_bindings (e : AuthorityEvent) (bindings : gmap UUID uint64) : gmap UUID uint64 :=
  match aev_ComputeBindingID e, aev_CurrentBindingRevision e with
  | Some id, Some revision => <[id := revision]> bindings
  | _, _ => bindings
  end.

Definition replay_event (r : Replay) (e : AuthorityEvent) : Replay :=
  mkReplay (default (rp_epoch r) (aev_CurrentKeyEpoch e)) (replay_participants e (rp_participants r))
    (match aev_SecureRosterDigest e with Some digest => Some digest | None => rp_roster r end)
    (replay_bindings e (rp_bindings r)).

Definition replay (events : list AuthorityEvent) : Replay := foldl replay_event replay_start events.

(** An event that takes the Space to another key epoch. *)
Definition rotates (e : AuthorityEvent) : Prop :=
  is_Some (aev_PreviousKeyEpoch e) ∧ aev_PreviousKeyEpoch e ≠ aev_CurrentKeyEpoch e.

#[global] Instance rotates_dec e : Decision (rotates e).
Proof. unfold rotates. apply _. Defined.

Definition rotations (events : list AuthorityEvent) : Z := zlen (filter rotates events).

Section facts.
Context `{UuidLib} `{ManifestLib} `{CurveLib} `{AeadLib} `{SliceLib}.

(** The same of the Space itself. *)
Definition current (space : memorySpace) : Replay :=
  mkReplay (msp_keyEpoch space)
    ((fun p => (prt_Role p, bool_decide (participant_active p))) <$> msp_participants space)
    (secureRosterDigest (msp_secureRosterAttestation space))
    (sb_Revision <$> msp_computeBindings space).

(** ** Rosters *)

(** A roster that succeeds another in the same Space. *)
Record succeeds (next previous : SecureRosterAttestation) : Prop := mkSucceeds {
  su_space : sra_SpaceID next = sra_SpaceID previous;
  su_domain : sra_DomainID next = sra_DomainID previous;
  su_digest : sra_PreviousDigest next = SecureRosterAttestation_Digest previous;
  su_issuer : ∃ issuer, issuer ∈ sra_Participants previous ∧
    prt_ParticipantID issuer = sra_IssuerParticipantID next ∧ may_administer (prt_Role issuer) ∧
    ParticipantSigningKey_MatchesGrantSignature (prt_SigningKey issuer) (sra_Signature next) }.

Lemma validated_successor next previous expected epoch :
  SecureRosterAttestation_ValidateSuccessor next previous expected epoch = None →
  succeeds next previous ∧ sra_Revision next = u64 (sra_Revision previous + 1) ∧
  sra_Revision next ≠ 0 ∧ sra_CurrentKeyEpoch next = epoch ∧ sra_Participants next = expected.
Proof.
  unfold SecureRosterAttestation_ValidateSuccessor. rewrite !err_then_None, !err_when_None.
  intros (Hvalid & _ & Hfields & Hissuer).
  assert (sra_Revision next ≠ 0) as Hrevision.
  { unfold SecureRosterAttestation_Validate in Hvalid. rewrite err_then_None, err_when_None in Hvalid.
    tauto. }
  split; [|repeat split; try done; try (apply dec_stable; tauto)].
  - split; try (apply dec_stable; tauto).
    unfold find_participant in Hissuer.
    destruct (list_find _ _) as [[i issuer]|] eqn:Hfind; simpl in Hissuer; [|tauto].
    apply list_find_Some in Hfind as (Hi & Hid & _).
    exists issuer. split; [by eapply list_elem_of_lookup_2|].
    split; [done|]. split; apply dec_stable; tauto.
Qed.

(** The recorded rosters of a Secure Space: numbered from one, each the
    successor of the one before, the last the current one, of the current
    epoch. *)
Record roster_chain (space : memorySpace) : Prop := mkChain {
  rc_current : last (msp_secureRosterHistory space) = msp_secureRosterAttestation space;
  rc_exists : is_Some (msp_secureRosterAttestation space);
  rc_numbered : ∀ i a, msp_secureRosterHistory space !! i = Some a →
    sra_Revision a = Z.of_nat i + 1 ∧ Z.of_nat i + 1 < 2 ^ 64;
  rc_linked : ∀ i a b, msp_secureRosterHistory space !! i = Some a →
    msp_secureRosterHistory space !! S i = Some b → succeeds b a;
  rc_epoch : ∀ a, msp_secureRosterAttestation space = Some a →
    sra_CurrentKeyEpoch a = msp_keyEpoch space }.

Definition rosters_good (space : memorySpace) : Prop :=
  if decide (space_mode space = SecurityModeSecure) then roster_chain space
  else msp_secureRosterAttestation space = None ∧ msp_secureRosterHistory space = [].

(** [space'] has recorded the roster [attestation], if there is one, and
    otherwise the rosters of [space]. *)
Definition rosters_after (attestation : option SecureRosterAttestation) (space space' : memorySpace)
    : Prop :=
  space_mode space' = space_mode space ∧
  msp_secureRosterAttestation space' =
    msp_secureRosterAttestation (record_roster attestation space) ∧
  msp_secureRosterHistory space' = msp_secureRosterHistory (record_roster attestation space).

Lemma chain_record a space space' expected current :
  roster_chain space → msp_secureRosterAttestation space = Some current →
  SecureRosterAttestation_ValidateSuccessor a current expected (msp_keyEpoch space') = None →
  msp_secureRosterAttestation space' = Some a →
  msp_secureRosterHistory space' = msp_secureRosterHistory space ++ [a] →
  roster_chain space'.
Proof.
  intros [Hlast _ Hnumbered Hlinked _] Hcurrent Hvalid Hatt Hhist.
  apply validated_successor in Hvalid as (Hsucc & Hrevision & Hnonzero & Hepoch & _).
  rewrite Hcurrent, last_lookup in Hlast.
  assert (msp_secureRosterHistory space ≠ []) as Hne by by destruct (msp_secureRosterHistory space).
  split; rewrite ?Hhist, ?Hatt.
  - by rewrite last_snoc.
  - done.
  - intros i b [[_ Hi]|[-> <-]]%lookup_snoc_Some; [by apply Hnumbered|].
    destruct (Hnumbered _ _ Hlast) as [Hr Hmax].
    rewrite Hr in Hrevision.
    assert (Z.of_nat (pred (length (msp_secureRosterHistory space))) + 1 =
      Z.of_nat (length (msp_secureRosterHistory space))) as Hpred
      by (destruct (msp_secureRosterHistory space); [done|simpl; lia]).
    rewrite Hpred in Hrevision, Hmax.
    destruct (decide (Z.of_nat (length (msp_secureRosterHistory space)) + 1 < 2 ^ 64)) as [Hlt|Hge].
    + by rewrite u64_small in Hrevision by lia.
    + exfalso. apply Hnonzero. rewrite Hrevision.
      assert (Z.of_nat (length (msp_secureRosterHistory space)) = 2 ^ 64 - 1) as -> by lia. done.
  - intros i b c Hb [[Hi Hc]|[Hc <-]]%lookup_snoc_Some.
    + apply lookup_snoc_Some in Hb as [[_ Hb]|[-> _]]; [by eapply Hlinked|lia].
    + apply lookup_snoc_Some in Hb as [[_ Hb]|[-> _]]; [|lia].
      rewrite <- Hc in Hlast. simpl in Hlast. rewrite Hlast in Hb. by apply (inj Some) in Hb; subst.
  - by intros b [= <-].
Qed.

Lemma rosters_recorded attestation space space' :
  rosters_good space → roster_follows space attestation (msp_keyEpoch space') →
  rosters_after attestation space space' → rosters_good space'.
Proof.
  unfold rosters_good, roster_follows. intros Hgood Hfollows (-> & Hatt & Hhist).
  destruct (decide (space_mode space = SecurityModeSecure)).
  - destruct Hfollows as (current & next & expected & Hcurrent & -> & Hvalid).
    by eapply chain_record.
  - by subst attestation; simpl in *; rewrite Hatt, Hhist.
Qed.

Lemma rosters_kept space space' :
  rosters_good space → rosters_after None space space' →
  msp_keyEpoch space' = msp_keyEpoch space → rosters_good space'.
Proof.
  unfold rosters_good. intros Hgood (-> & Hatt & Hhist) Hepoch. simpl in *.
  destruct (decide _); [|by rewrite Hatt, Hhist].
  destruct Hgood as [? ? ? ? ?]. by split; rewrite ?Hatt, ?Hhist, ?Hepoch.
Qed.
End facts.

Section invariant.
Context `{UuidLib} `{ManifestLib} `{CurveLib} `{AeadLib} `{SliceLib}.

(** The [i]-th event of the log of a Space. *)
Record event_good (id : UUID) (i : nat) (e : AuthorityEvent) : Prop := mkEventGood {
  eg_version : aev_Version e = SchemaVersion;
  eg_sequence : aev_Sequence e = u64 (Z.of_nat i + 1);
  eg_space : aev_SpaceID e = id;
  eg_shape : AuthorityEvent_validTransitionShape e }.

Definition host_stays (space : memorySpace) : Prop :=
  ∃ host, active_in space (spv_InitialParticipantID (msp_provisioning space)) host ∧
    prt_Role host = RoleHost.

(** The key epoch of a Space, [n] rotations after its first. *)
Record epoch_good (space : memorySpace) (n : Z) : Prop := mkEpochGood {
  ep_count : msp_keyEpoch space = InitialKeyEpoch + n;
  ep_bound : InitialKeyEpoch ≤ msp_keyEpoch space < 2 ^ 64;
  ep_static : space_mode space = SecurityModePrivate → n = 0;
  ep_checkpoint : 0 ≤ msp_activeCheckpointEpoch space ≤ msp_keyEpoch space }.

Record space_good (id : UUID) (space : memorySpace) (events : list AuthorityEvent) : Prop := mkGood {
  sg_id : spv_SpaceID (msp_provisioning space) = id;
  sg_keyed : map_Forall (fun k p => prt_ParticipantID p = k) (msp_participants space);
  sg_replay : replay events = current space;
  sg_events : ∀ i e, events !! i = Some e → event_good id i e;
  sg_host : host_stays space;
  sg_epoch : epoch_good space (rotations events);
  sg_rosters : rosters_good space;
  sg_digests : omap aev_SecureRosterDigest events =
    SecureRosterAttestation_Digest <$> msp_secureRosterHistory space }.

Record authority_good (a : Authority) : Prop := mkAuthorityGood {
  ag_spaces : ∀ id space, au_spaces a !! id = Some space →
    ∃ events, au_events a !! id = Some events ∧ space_good id space events;
  ag_events : ∀ id, is_Some (au_events a !! id) → is_Some (au_spaces a !! id);
  ag_sequences : ∀ id, au_sequences a !! id = (fun events => u64 (zlen events)) <$> au_events a !! id;
  ag_invitations : ∀ id record, au_invitations a !! id = Some record →
    ∃ space, au_spaces a !! inv_SpaceID (miv_invitation record) = Some space ∧
      inv_ParticipantID (miv_invitation record) ≠
        spv_InitialParticipantID (msp_provisioning space) }.

(** ** A change of a Space with its event *)

(** The event as the store records it. *)
Definition recorded (n : nat) (e : AuthorityEvent) : AuthorityEvent :=
  e <| aev_Version := SchemaVersion |> <| aev_Sequence := u64 (Z.of_nat n + 1) |>.

(** What the event [e] must say of the change from [space] to [space']. *)
Record told (e : AuthorityEvent) (space space' : memorySpace) : Prop := mkTold {
  td_provisioning : msp_provisioning space' = msp_provisioning space;
  td_keyed : map_Forall (fun k p => prt_ParticipantID p = k) (msp_participants space');
  td_replay : replay_event (current space) e = current space';
  td_shape : AuthorityEvent_validTransitionShape e;
  td_host : host_stays space';
  td_epoch : msp_keyEpoch space' = msp_keyEpoch space + (if decide (rotates e) then 1 else 0);
  td_bound : msp_keyEpoch space' < 2 ^ 64;
  td_static : space_mode space = SecurityModePrivate → ¬ rotates e;
  td_checkpoint : msp_activeCheckpointEpoch space' = msp_activeCheckpointEpoch space;
  td_rosters : ∃ attestation, rosters_after attestation space space' ∧
    aev_SecureRosterDigest e = secureRosterDigest attestation ∧
    (roster_follows space attestation (msp_keyEpoch space') ∨
     attestation = None ∧ msp_keyEpoch space' = msp_keyEpoch space) }.

Lemma replay_event_recorded r n e : replay_event r (recorded n e) = replay_event r e.
Proof. done. Qed.

Lemma rotations_snoc events n e :
  rotations (events ++ [recorded n e]) = rotations events + (if decide (rotates e) then 1 else 0).
Proof.
  unfold rotations. rewrite filter_app, zlen_app. f_equal.
  rewrite filter_cons, filter_nil.
  destruct (decide (rotates e)) as [Hr|Hr]; [by rewrite decide_True|by rewrite decide_False].
Qed.

Lemma told_good id space space' e events :
  space_good id space events → told e space space' → aev_SpaceID e = id →
  space_good id space' (events ++ [recorded (length events) e]).
Proof.
  intros [Hid Hkeyed Hreplay Hevents Hhost Hepoch Hrosters Hdigests]
    [Hprov Hkeyed' Hreplay' Hshape Hhost' Hepoch' Hbound Hstatic Hcheckpoint (att & Hafter & Hdigest & Hfollows)] Hspace.
  split; try done.
  - by rewrite Hprov.
  - unfold replay in *. by rewrite foldl_app, Hreplay.
  - intros i e' [[_ He]|[-> <-]]%lookup_snoc_Some; [by apply Hevents|]. by split.
  - rewrite rotations_snoc. destruct Hepoch as [Hcount Hrange Hprivate Hchk].
    assert (space_mode space' = space_mode space) as Hmode by (unfold space_mode; by rewrite Hprov).
    split; [lia| |rewrite Hmode; intros Hm|].
    + unfold InitialKeyEpoch in *. case_decide; lia.
    + rewrite decide_False by auto. rewrite Hprivate; done.
    + case_decide; lia.
  - destruct Hfollows as [Hfollows|[-> Hsame]]; [by eapply rosters_recorded|by eapply rosters_kept].
  - rewrite omap_app, Hdigests. destruct Hafter as (_ & _ & ->). simpl. rewrite Hdigest.
    destruct att; simpl; [by rewrite fmap_app|by rewrite app_nil_r].
Qed.

(** ** Changes of the store *)

Lemma record_event_good a id space' e space :
  aev_SpaceID e = id → authority_good a → au_spaces a !! id = Some space → told e space space' →
  authority_good (record_event e (change_space id space' a)).
Proof.
  intros Hid [Hspaces Hevents Hseq Hinv] Hspace Htold.
  destruct (Hspaces _ _ Hspace) as (events & He & Hgood).
  assert (u64 (default 0 (au_sequences a !! id) + 1) = u64 (Z.of_nat (length events) + 1)) as Hnext.
  { rewrite Hseq, He. simpl. unfold zlen, u64. by rewrite Zplus_mod_idemp_l. }
  unfold record_event, change_space. simpl. rewrite Hid, He, Hnext. simpl.
  split; simpl.
  - intros id' space''. destruct (decide (id' = id)) as [->|Hne].
    + rewrite !lookup_insert_eq. intros [= <-]. eexists. split; [done|]. by eapply told_good.
    + rewrite !lookup_insert_ne by done. apply Hspaces.
  - intros id'. destruct (decide (id' = id)) as [->|Hne]; [rewrite !lookup_insert_eq; eauto|].
    rewrite !lookup_insert_ne by done. apply Hevents.
  - intros id'. destruct (decide (id' = id)) as [->|Hne].
    + rewrite !lookup_insert_eq. simpl. unfold zlen. rewrite length_app. simpl. do 2 f_equal. lia.
    + rewrite !lookup_insert_ne by done. apply Hseq.
  - intros id' record Hrecord. destruct (Hinv _ _ Hrecord) as (space0 & Hspace0 & Hne).
    destruct (decide (inv_SpaceID (miv_invitation record) = id)) as [Heq|Hne'].
    + rewrite Heq, lookup_insert_eq. exists space'. split; [done|].
      rewrite (td_provisioning _ _ _ Htold). rewrite Heq, Hspace in Hspace0.
      apply (inj Some) in Hspace0. by subst.
    + rewrite lookup_insert_ne by done. by exists space0.
Qed.

Lemma record_event_same a id e space :
  aev_SpaceID e = id → authority_good a → au_spaces a !! id = Some space → told e space space →
  authority_good (record_event e a).
Proof.
  intros Hid Ha Hspace Htold. assert (a = change_space id space a) as ->.
  { destruct a. unfold change_space. simpl in *. by rewrite insert_id. }
  by eapply record_event_good.
Qed.

Lemma change_invitation_good a id record space :
  authority_good a → au_spaces a !! inv_SpaceID (miv_invitation record) = Some space →
  inv_ParticipantID (miv_invitation record) ≠ spv_InitialParticipantID (msp_provisioning space) →
  authority_good (change_invitation id record a).
Proof.
  intros [? ? ? Hinv] Hspace Hne. split; try done. simpl. intros id' record'.
  destruct (decide (id' = id)) as [->|]; [rewrite lookup_insert_eq|rewrite lookup_insert_ne by done].
  - intros [= <-]. eauto.
  - apply Hinv.
Qed.

(** Changes that no event tells keep what the log tells. *)
Lemma view_good a id space space' :
  authority_good a → au_spaces a !! id = Some space → same_but_views space space' →
  authority_good (change_space id space' a).
Proof.
  intros [Hspaces Hevents Hseq Hinv] Hspace [Hsame Hcheckpoint].
  assert (msp_provisioning space' = msp_provisioning space) as Hprov by by rewrite Hsame.
  split; simpl; try done.
  - intros id' space''. destruct (decide (id' = id)) as [->|Hne].
    + rewrite lookup_insert_eq. intros [= <-]. destruct (Hspaces _ _ Hspace) as (events & He & Hgood).
      exists events. split; [done|]. destruct Hgood as [? ? ? ? ? [? ? ? ?] ? ?].
      assert (msp_keyEpoch space' = msp_keyEpoch space) as Hepoch by by rewrite Hsame.
      apply mkGood; try done; try (by rewrite Hsame).
      2: apply (rosters_kept space); [done|by rewrite Hsame|done].
      split; rewrite ?Hepoch; try done; [by rewrite Hsame|].
      destruct Hcheckpoint as [-> | ->]; unfold InitialKeyEpoch in *; lia.
    + rewrite lookup_insert_ne by done. apply Hspaces.
  - intros id' Hid'. destruct (decide (id' = id)) as [->|]; [by rewrite lookup_insert_eq|].
    rewrite lookup_insert_ne by done. by apply Hevents.
  - intros id' record Hrecord. destruct (Hinv _ _ Hrecord) as (space0 & Hspace0 & Hne).
    destruct (decide (inv_SpaceID (miv_invitation record) = id)) as [Heq|Hne'].
    + rewrite Heq, lookup_insert_eq. exists space'. split; [done|]. rewrite Hprov.
      rewrite Heq, Hspace in Hspace0. apply (inj Some) in Hspace0. by subst.
    + rewrite lookup_insert_ne by done. by exists space0.
Qed.

(** ** What the events tell *)

Lemma next_epoch previous next :
  1 ≤ previous < 2 ^ 64 → previous ≤ next ≤ u64 (previous + 1) →
  next = previous ∨ next = previous + 1 ∧ next < 2 ^ 64.
Proof.
  intros Hp Hn. destruct (decide (previous + 1 < 2 ^ 64)).
  - rewrite u64_small in Hn by lia. lia.
  - assert (previous = 2 ^ 64 - 1) as -> by lia. simpl in Hn. change (u64 _) with 0 in Hn. lia.
Qed.

(** [space'] is [space] with another record of a participant and, when a
    roster came with the change, that roster. *)
Record changed (id : UUID) (participant : Participant KeyRef)
    (attestation : option SecureRosterAttestation) (space space' : memorySpace) : Prop := mkChanged {
  ch_id : prt_ParticipantID participant = id;
  ch_provisioning : msp_provisioning space' = msp_provisioning space;
  ch_participants : msp_participants space' = <[id := participant]> (msp_participants space);
  ch_bindings : msp_computeBindings space' = msp_computeBindings space;
  ch_checkpoint : msp_activeCheckpointEpoch space' = msp_activeCheckpointEpoch space;
  ch_rosters : rosters_after attestation space space' }.

(** What the log says of a participant. *)
Definition entry (p : Participant KeyRef) : Role * bool :=
  (prt_Role p, bool_decide (participant_active p)).

(** An event tells the change of a participant. *)
Lemma told_participant e attestation id participant space space' :
  host_stays space → map_Forall (fun k p => prt_ParticipantID p = k) (msp_participants space) →
  msp_keyEpoch space < 2 ^ 64 → changed id participant attestation space space' →
  (id = spv_InitialParticipantID (msp_provisioning space) →
   participant_active participant ∧ prt_Role participant = RoleHost) →
  AuthorityEvent_validTransitionShape e → aev_ComputeBindingID e = None →
  aev_SecureRosterDigest e = secureRosterDigest attestation →
  replay_participants e (entry <$> msp_participants space) =
    <[id := entry participant]> (entry <$> msp_participants space) →
  default (msp_keyEpoch space) (aev_CurrentKeyEpoch e) = msp_keyEpoch space' →
  (msp_keyEpoch space' = msp_keyEpoch space ∧ ¬ rotates e ∨
   msp_keyEpoch space' = msp_keyEpoch space + 1 ∧ msp_keyEpoch space' < 2 ^ 64 ∧ rotates e ∧
   space_mode space ≠ SecurityModePrivate) →
  roster_follows space attestation (msp_keyEpoch space') →
  told e space space'.
Proof.
  intros (host & [Hhost Hactive] & Hrole) Hkeyed Hbound [Hid Hprov Hparts Hbindings Hcheckpoint Hafter]
    Hinitial Hshape Hbinding Hdigest Hreplay Hepoch Hrotates Hfollows.
  split; try done.
  - rewrite Hparts. by apply map_Forall_insert_2.
  - unfold replay_event, current. simpl. fold entry. rewrite Hepoch, Hparts, fmap_insert.
    rewrite Hreplay, Hdigest, Hbindings. unfold replay_bindings. rewrite Hbinding. f_equal.
    destruct Hafter as (_ & -> & _). by destruct attestation.
  - unfold host_stays, active_in. rewrite Hprov, Hparts.
    destruct (decide (id = spv_InitialParticipantID (msp_provisioning space))) as [Heq|Hne].
    + destruct (Hinitial Heq). exists participant. by rewrite Heq, lookup_insert_eq.
    + exists host. by rewrite lookup_insert_ne.
  - destruct Hrotates as [[-> Hr]|(-> & _ & Hr & _)]; [rewrite decide_False|rewrite decide_True]; [lia|done..].
  - destruct Hrotates as [[-> _]|(_ & ? & _)]; done.
  - intros Hprivate. by destruct Hrotates as [[_ ?]|(_ & _ & _ & ?)].
  - exists attestation. auto.
Qed.

(** The same participant with the same standing. *)
Lemma entry_kept e id participant participant' space :
  active_in space id participant →
  replay_participants e (entry <$> msp_participants space) = entry <$> msp_participants space →
  entry participant' = entry participant →
  replay_participants e (entry <$> msp_participants space) =
    <[id := entry participant']> (entry <$> msp_participants space).
Proof.
  intros [Hparticipant _] -> ->. by rewrite insert_id by (by rewrite lookup_fmap, Hparticipant).
Qed.

(** ** The five changes of a participant *)

Lemma put_grants_fields epoch grants space : ∃ map,
  put_grants epoch grants space = space <| msp_keyGrants := map |>.
Proof.
  unfold put_grants. case_decide; [by eexists|]. exists (msp_keyGrants space). by destruct space.
Qed.

Lemma rotate_keys_fields wrapped r space : ∃ grants keys,
  rotate_keys wrapped r space =
    space <| msp_keyGrants := grants |> <| msp_managedContentKeys := keys |>.
Proof.
  unfold rotate_keys. destruct wrapped.
  - exists (msp_keyGrants space). eexists. by destruct space.
  - destruct (put_grants_fields (prv_NextKeyEpoch r) (prv_KeyGrants r) space) as [map ->].
    exists map, (msp_managedContentKeys space). by destruct space.
Qed.

Lemma changed_with_role c participant space :
  prt_ParticipantID participant = prc_ParticipantID c →
  changed (prc_ParticipantID c) (participant <| prt_Role := prc_NextRole c |>)
    (prc_SecureRosterAttestation c) space (with_role c participant space) ∧
  msp_keyEpoch (with_role c participant space) = msp_keyEpoch space.
Proof.
  intros <-. unfold with_role. by destruct (prc_SecureRosterAttestation c).
Qed.

Lemma changed_with_device e grant keys participant space :
  prt_ParticipantID participant = pde_ParticipantID e →
  changed (pde_ParticipantID e) (participant <| prt_DeviceKeys := keys |>)
    (pde_SecureRosterAttestation e) space (with_device e grant keys participant space) ∧
  msp_keyEpoch (with_device e grant keys participant space) = msp_keyEpoch space.
Proof.
  intros <-. unfold with_device. by destruct (pde_SecureRosterAttestation e).
Qed.

Lemma changed_without_device r participant space :
  prt_ParticipantID participant = pdv_ParticipantID r →
  changed (pdv_ParticipantID r) participant (pdv_SecureRosterAttestation r) space
    (without_device r participant space) ∧
  msp_keyEpoch (without_device r participant space) = pdv_NextKeyEpoch r.
Proof.
  intros <-. unfold without_device.
  match goal with |- context [put_grants ?e ?g ?s] => destruct (put_grants_fields e g s) as [map ->] end.
  by destruct (pdv_SecureRosterAttestation r).
Qed.

Lemma changed_without_participant r wrapped now participant space :
  prt_ParticipantID participant = prv_ParticipantID r →
  changed (prv_ParticipantID r) (participant <| prt_RevokedAtMilliseconds := Some now |>)
    (prv_SecureRosterAttestation r) space (without_participant r wrapped now participant space) ∧
  msp_keyEpoch (without_participant r wrapped now participant space) = prv_NextKeyEpoch r.
Proof.
  intros <-. unfold without_participant.
  match goal with |- context [rotate_keys ?w ?r ?s] =>
    destruct (rotate_keys_fields w r s) as (grants & keys & ->) end.
  by destruct (prv_SecureRosterAttestation r).
Qed.

Lemma changed_admit_participant {K} (i : Invitation K) participant space :
  changed (prt_ParticipantID participant) participant (inv_ActivationSecureRosterAttestation i) space
    (admit_participant i participant space) ∧
  msp_keyEpoch (admit_participant i participant space) = msp_keyEpoch space.
Proof.
  unfold admit_participant. destruct (inv_ActivationSecureRosterAttestation i), (inv_KeyGrant i); done.
Qed.

(** ** Rotations *)

Lemma revocation_epoch r mode participants now :
  ParticipantRevocation_Validate r = None → prv_PreviousKeyEpoch r < 2 ^ 64 →
  ParticipantRevocation_ValidateKeyGrants r mode participants now = None →
  prv_NextKeyEpoch r = prv_PreviousKeyEpoch r ∨
  prv_NextKeyEpoch r = prv_PreviousKeyEpoch r + 1 ∧ prv_NextKeyEpoch r < 2 ^ 64 ∧
    mode ≠ SecurityModePrivate.
Proof.
  unfold ParticipantRevocation_Validate, ParticipantRevocation_ValidateKeyGrants, InitialKeyEpoch.
  rewrite err_when_None, err_then_None. intros Hvalid Hmax [_ Hgrants].
  destruct (next_epoch (prv_PreviousKeyEpoch r) (prv_NextKeyEpoch r)) as [?|[? ?]]; [lia..|by left|].
  destruct (decide (mode = SecurityModePrivate)) as [->|]; [|by right].
  apply err_when_None in Hgrants. lia.
Qed.

Lemma device_revocation_epoch r mode participants now :
  ParticipantDeviceRevocation_Validate r = None → pdv_PreviousKeyEpoch r < 2 ^ 64 →
  ParticipantDeviceRevocation_ValidateKeyGrants r mode participants now = None →
  pdv_NextKeyEpoch r = pdv_PreviousKeyEpoch r ∨
  pdv_NextKeyEpoch r = pdv_PreviousKeyEpoch r + 1 ∧ pdv_NextKeyEpoch r < 2 ^ 64 ∧
    mode ≠ SecurityModePrivate.
Proof.
  unfold ParticipantDeviceRevocation_Validate, ParticipantDeviceRevocation_ValidateKeyGrants, InitialKeyEpoch.
  rewrite err_then_None, err_when_None. intros [Hvalid _] Hmax Hgrants.
  destruct (next_epoch (pdv_PreviousKeyEpoch r) (pdv_NextKeyEpoch r)) as [?|[? ?]]; [lia..|by left|].
  destruct (decide (mode = SecurityModePrivate)) as [->|]; [|by right].
  rewrite decide_False in Hgrants by done. apply err_when_None in Hgrants. lia.
Qed.

(** ** The shapes of the events *)

Section shapes.
Context (v : Z) (n : uint64) (id space domain : UUID) (digest : option string) (at_ : int64).

Lemma shape_device_revoked subject device (previous next : uint64) :
  AuthorityEvent_validTransitionShape (mkAuthorityEvent v n id space domain
    AuthorityEventParticipantDeviceRevoked (Some subject) (Some device) None None None
    (Some previous) (Some next) None None None None digest at_).
Proof. repeat split; by eexists. Qed.

Lemma shape_participant_revoked subject (previous next : uint64) :
  AuthorityEvent_validTransitionShape (mkAuthorityEvent v n id space domain
    AuthorityEventParticipantRevoked (Some subject) None None None None
    (Some previous) (Some next) None None None None digest at_).
Proof. repeat split; by eexists. Qed.

Lemma shape_device_enrolled subject device (next : uint64) :
  AuthorityEvent_validTransitionShape (mkAuthorityEvent v n id space domain
    AuthorityEventParticipantDeviceEnrolled (Some subject) (Some device) None None None
    None (Some next) None None None None digest at_).
Proof. repeat split; by eexists. Qed.

Lemma shape_role_changed subject (previous next : Role) :
  AuthorityEvent_validTransitionShape (mkAuthorityEvent v n id space domain
    AuthorityEventParticipantRoleChanged (Some subject) None None (Some previous) (Some next)
    None None None None None None digest at_).
Proof. repeat split; by eexists. Qed.

Lemma shape_invitation_claimed subject invitation (role : Role) (epoch : uint64) :
  AuthorityEvent_validTransitionShape (mkAuthorityEvent v n id space domain
    AuthorityEventInvitationClaimed (Some subject) None (Some invitation) None (Some role)
    None (Some epoch) None None None None digest at_).
Proof. repeat split; by eexists. Qed.

Lemma shape_space_provisioned subject (epoch : uint64) :
  AuthorityEvent_validTransitionShape (mkAuthorityEvent v n id space domain
    AuthorityEventSpaceProvisioned (Some subject) None None None (Some RoleHost)
    None (Some epoch) None None None None digest at_).
Proof. repeat split; by eexists. Qed.

Lemma shape_invitation_created subject invitation (role : Role) (epoch : uint64) :
  AuthorityEvent_validTransitionShape (mkAuthorityEvent v n id space domain
    AuthorityEventInvitationCreated (Some subject) None (Some invitation) None (Some role)
    None (Some epoch) None None None None digest at_).
Proof. repeat split; by eexists. Qed.

Lemma shape_invitation_cancelled subject invitation :
  AuthorityEvent_validTransitionShape (mkAuthorityEvent v n id space domain
    AuthorityEventInvitationCancelled (Some subject) None (Some invitation) None None
    None None None None None None digest at_).
Proof. repeat split; by eexists. Qed.

Lemma shape_binding_changed binding pool (previous : uint64) :
  AuthorityEvent_validTransitionShape (mkAuthorityEvent v n id space domain
    AuthorityEventSpaceComputeBindingChanged None None None None None None None
    (Some binding) (Some pool) (Some previous) (Some (u64 (previous + 1))) digest at_).
Proof. repeat split; by eexists. Qed.
End shapes.

(** ** The steps *)

(** A change of an active participant's record that keeps its standing. *)
Lemma standing_kept space id participant participant' :
  host_stays space → active_in space id participant → entry participant' = entry participant →
  id = spv_InitialParticipantID (msp_provisioning space) →
  participant_active participant' ∧ prt_Role participant' = RoleHost.
Proof.
  intros (host & [Hhost Hactive] & Hrole) [Hparticipant _] Hentry ->.
  rewrite Hhost in Hparticipant. apply (inj Some) in Hparticipant. subst participant.
  unfold entry in Hentry. apply (inj2 pair) in Hentry as [-> Hsame]. split; [|done].
  apply (bool_decide_eq_true_1 (participant_active participant')).
  by rewrite Hsame, bool_decide_eq_true_2.
Qed.

Lemma entry_active p : participant_active p → entry p = (prt_Role p, true).
Proof. intros Hp. unfold entry. by rewrite bool_decide_eq_true_2. Qed.

Section space.
Context (id : UUID) (space : memorySpace) (events : list AuthorityEvent)
  (Hgood : space_good id space events).

Lemma told_role credential c participant :
  prc_ParticipantID c ≠ spv_InitialParticipantID (msp_provisioning space) →
  active_in space (prc_ParticipantID c) participant →
  roster_follows space (prc_SecureRosterAttestation c) (msp_keyEpoch space) →
  told (event_role_changed credential c) space (with_role c participant space).
Proof using All.
  intros Hne Hactive Hroster. destruct Hgood as [_ Hkeyed _ _ Hhost [_ Hbound _ _] _ _].
  destruct (changed_with_role c participant space) as [Hchanged Hepoch]; [by apply Hkeyed, Hactive|].
  eapply told_participant; try exact Hchanged; try apply shape_role_changed; try done; [lia| |by left; rewrite Hepoch; split; [|intros [[? [=]] _]]|by rewrite Hepoch].
  rewrite entry_active by apply Hactive. done.
Qed.

Lemma told_enroll credential e grant keys participant :
  active_in space (pde_ParticipantID e) participant →
  roster_follows space (pde_SecureRosterAttestation e) (msp_keyEpoch space) →
  told (event_device_enrolled credential e space) space (with_device e grant keys participant space).
Proof using All.
  intros Hactive Hroster. destruct Hgood as [_ Hkeyed _ _ Hhost [_ Hbound _ _] _ _].
  destruct (changed_with_device e grant keys participant space) as [Hchanged Hepoch]; [by apply Hkeyed, Hactive|].
  eapply told_participant; try exact Hchanged; try apply shape_device_enrolled; try done; [lia|exact (standing_kept _ _ _ _ Hhost Hactive eq_refl)|by apply (entry_kept _ _ _ _ _ Hactive)| |by rewrite Hepoch].
  left. rewrite Hepoch. split; [done|]. by intros [[? [=]] _].
Qed.

Lemma told_revoke_device credential r participant now :
  ParticipantDeviceRevocation_Validate r = None → pdv_PreviousKeyEpoch r = msp_keyEpoch space →
  active_in space (pdv_ParticipantID r) participant →
  ParticipantDeviceRevocation_ValidateKeyGrants r (space_mode space) now.1 now.2 = None →
  roster_follows space (pdv_SecureRosterAttestation r) (pdv_NextKeyEpoch r) →
  told (event_device_revoked credential r) space (without_device r participant space).
Proof using All.
  intros Hvalid Hprevious Hactive Hgrants Hroster. destruct Hgood as [_ Hkeyed _ _ Hhost [_ Hbound _ _] _ _].
  destruct (changed_without_device r participant space) as [Hchanged Hepoch]; [by apply Hkeyed, Hactive|].
  eapply told_participant; try exact Hchanged; try apply shape_device_revoked; try done; [lia|exact (standing_kept _ _ _ _ Hhost Hactive eq_refl)|by apply (entry_kept _ _ _ _ _ Hactive)| |by rewrite Hepoch].
  rewrite Hepoch, <- Hprevious.
  destruct (device_revocation_epoch _ _ _ _ Hvalid ltac:(lia) Hgrants) as [Hsame|(Hnext & ? & ?)]; [left|right].
  - split; [done|]. intros [_ Hne]. by apply Hne; simpl; rewrite Hsame.
  - do 2 (split; [done|]). split; [split; [done|intros [=Heq]; lia]|done].
Qed.

Lemma told_revoke credential r wrapped participant now participants :
  ParticipantRevocation_Validate r = None →
  prv_ParticipantID r ≠ spv_InitialParticipantID (msp_provisioning space) →
  prv_PreviousKeyEpoch r = msp_keyEpoch space → active_in space (prv_ParticipantID r) participant →
  ParticipantRevocation_ValidateKeyGrants r (space_mode space) participants now = None →
  roster_follows space (prv_SecureRosterAttestation r) (prv_NextKeyEpoch r) →
  told (event_participant_revoked credential r now) space
    (without_participant r wrapped now participant space).
Proof using All.
  intros Hvalid Hne Hprevious Hactive Hgrants Hroster. destruct Hgood as [_ Hkeyed _ _ Hhost [_ Hbound _ _] _ _].
  destruct (changed_without_participant r wrapped now participant space) as [Hchanged Hepoch]; [by apply Hkeyed, Hactive|].
  eapply told_participant; try exact Hchanged; try apply shape_participant_revoked; try done; [lia| | |by rewrite Hepoch].
  - unfold replay_participants. simpl. unfold entry at 3. simpl. apply map_eq. intros k.
    destruct (decide (k = prv_ParticipantID r)) as [->|].
    + rewrite lookup_alter_eq, lookup_insert_eq, lookup_fmap. destruct Hactive as [-> _]. done.
    + by rewrite lookup_alter_ne, lookup_insert_ne by done.
  - rewrite Hepoch, <- Hprevious.
    destruct (revocation_epoch _ _ _ _ Hvalid ltac:(lia) Hgrants) as [Hsame|(Hnext & ? & ?)]; [left|right].
    + split; [done|]. intros [_ Hneq]. by apply Hneq; simpl; rewrite Hsame.
    + do 2 (split; [done|]). split; [split; [done|intros [=Heq]; lia]|done].
Qed.

Lemma told_admit {K} credential claim (i : Invitation K) participant :
  icl_ParticipantID claim ≠ spv_InitialParticipantID (msp_provisioning space) →
  prt_ParticipantID participant = icl_ParticipantID claim → prt_Role participant = inv_Role i →
  participant_active participant →
  roster_follows space (inv_ActivationSecureRosterAttestation i) (msp_keyEpoch space) →
  told (event_invitation_claimed credential claim i space) space (admit_participant i participant space).
Proof using All.
  intros Hne Hid Hrole Hactive Hroster. destruct Hgood as [_ Hkeyed _ _ Hhost [_ Hbound _ _] _ _].
  destruct (changed_admit_participant i participant space) as [Hchanged Hepoch].
  eapply told_participant; try exact Hchanged; try apply shape_invitation_claimed; try done; [lia|by rewrite Hid| | |by rewrite Hepoch].
  - rewrite entry_active by done. unfold replay_participants. simpl. by rewrite Hid, Hrole.
  - left. rewrite Hepoch. split; [done|]. by intros [[? [=]] _].
Qed.

(** An event that tells no change of a participant, a roster or an epoch. *)
Lemma told_other e bindings :
  AuthorityEvent_validTransitionShape e → aev_SecureRosterDigest e = None →
  replay_participants e (entry <$> msp_participants space) = entry <$> msp_participants space →
  default (msp_keyEpoch space) (aev_CurrentKeyEpoch e) = msp_keyEpoch space →
  aev_PreviousKeyEpoch e = None →
  replay_bindings e (sb_Revision <$> msp_computeBindings space) = sb_Revision <$> bindings →
  told e space (space <| msp_computeBindings := bindings |>).
Proof using All.
  intros Hshape Hdigest Hparts Hepoch Hprevious Hbindings.
  destruct Hgood as [_ Hkeyed _ _ Hhost [_ Hbound _ _] _ _].
  assert (¬ rotates e) as Hr by (intros [[? Hsome] _]; congruence).
  split; try done; simpl.
  - unfold replay_event, current. simpl. fold entry. by rewrite Hparts, Hdigest, Hepoch, Hbindings.
  - rewrite decide_False by done. lia.
  - lia.
  - exists None. split; [done|]. split; [done|]. by right.
Qed.

Lemma told_invited {K} credential (i : Invitation K) :
  told (event_invitation_created credential i space) space space.
Proof using All.
  assert (space <| msp_computeBindings := msp_computeBindings space |> = space) as Hsame
    by by destruct space.
  rewrite <- Hsame at 3. apply told_other; [apply shape_invitation_created|done..].
Qed.

Lemma told_cancelled {K} credential c (i : Invitation K) :
  told (event_invitation_cancelled credential c i) space space.
Proof using All.
  assert (space <| msp_computeBindings := msp_computeBindings space |> = space) as Hsame
    by by destruct space.
  rewrite <- Hsame at 2. apply told_other; [apply shape_invitation_cancelled|done..].
Qed.

Lemma told_bound credential change binding :
  sb_BindingID binding = sbc_BindingID change →
  sb_Revision binding = u64 (sbc_PreviousBindingRevision change + 1) →
  told (event_binding_changed credential change) space (with_binding binding space).
Proof using All.
  intros Hid Hrevision. apply told_other; [apply shape_binding_changed|done..|].
  unfold replay_bindings. simpl. by rewrite fmap_insert, Hid, Hrevision.
Qed.
End space.

(** ** The invariant *)

Lemma provisioned_good p keys result wrapped binding :
  SpaceProvisioning_Validate p = None →
  space_good (spv_SpaceID p)
    (provisioned_space (provisioning_with_keys (fun _ => keys) p) result wrapped binding)
    [recorded 0 (event_space_provisioned p)].
Proof.
  intros Hvalid. set (p' := provisioning_with_keys (fun _ => keys) p).
  assert (if decide (spv_SecurityMode p = SecurityModeSecure)
    then ∃ a, spv_InitialSecureRosterAttestation p = Some a ∧ sra_Revision a = 1 ∧
      sra_CurrentKeyEpoch a = InitialKeyEpoch
    else spv_InitialSecureRosterAttestation p = None) as Hroster.
  { unfold SpaceProvisioning_Validate in Hvalid. rewrite !err_then_None in Hvalid.
    destruct Hvalid as (_ & _ & _ & _ & _ & Hr & _). case_decide.
    - destruct (spv_InitialSecureRosterAttestation p) as [a|]; [|done]. exists a. split; [done|].
      unfold SecureRosterAttestation_ValidateInitial in Hr. rewrite err_then_None, err_when_None in Hr.
      split; apply dec_stable; tauto.
    - apply err_when_None in Hr. by apply eq_None_not_Some. }
  set (space := provisioned_space p' result wrapped binding).
  assert (msp_participants space = {[spv_InitialParticipantID p := initial_participant p']} ∧
    msp_provisioning space = p' ∧ msp_keyEpoch space = InitialKeyEpoch ∧
    msp_activeCheckpointEpoch space = 0 ∧ msp_computeBindings space = ∅ ∧
    msp_secureRosterAttestation space = spv_InitialSecureRosterAttestation p ∧
    msp_secureRosterHistory space = option_list (spv_InitialSecureRosterAttestation p))
    as (Hparts & Hprov & Hepoch & Hcheckpoint & Hbindings & Hatt & Hhist).
  { unfold space, provisioned_space.
    change (spv_InitialSecureRosterAttestation p') with (spv_InitialSecureRosterAttestation p).
    by destruct (spv_InitialSecureRosterAttestation p). }
  apply mkGood.
  - by rewrite Hprov.
  - rewrite Hparts. by apply map_Forall_singleton.
  - unfold replay, replay_event, current. simpl. rewrite Hparts, Hepoch, Hbindings, Hatt.
    rewrite map_fmap_singleton. simpl. f_equal.
    by destruct (spv_InitialSecureRosterAttestation p).
  - intros [|i] e; [|done]. simpl. intros [= <-].
    apply mkEventGood; [done|done|done|apply shape_space_provisioned].
  - exists (initial_participant p'). unfold active_in. rewrite Hprov, Hparts. by rewrite lookup_singleton_eq.
  - assert (rotations [recorded 0 (event_space_provisioned p)] = 0) as ->.
    { unfold rotations. rewrite filter_cons_False; [done|]. by intros [[? [=]] _]. }
    split; unfold space_mode; rewrite ?Hprov, ?Hepoch, ?Hcheckpoint; unfold InitialKeyEpoch; lia.
  - unfold rosters_good, space_mode. rewrite Hprov. simpl. case_decide; rewrite ?Hatt, ?Hhist, ?Hroster; [|done].
    destruct Hroster as (a & Ha & Hrevision & Hkey).
    split; rewrite ?Hatt, ?Hhist, ?Ha, ?Hepoch; simpl; try done.
    + intros [|i] b; [|done]. simpl. intros [= <-]. lia.
    + by intros b [= <-].
  - rewrite Hhist. simpl. by destruct (spv_InitialSecureRosterAttestation p).
Qed.

Lemma provision_good a p keys result wrapped binding :
  authority_good a → SpaceProvisioning_Validate p = None → au_spaces a !! spv_SpaceID p = None →
  authority_good (record_event (event_space_provisioned p) (change_space (spv_SpaceID p)
    (provisioned_space (provisioning_with_keys (fun _ => keys) p) result wrapped binding) a)).
Proof.
  intros [Hspaces Hevents Hseq Hinv] Hvalid Hfresh.
  assert (au_events a !! spv_SpaceID p = None) as Hnone.
  { apply eq_None_not_Some. intros [? He]%Hevents. congruence. }
  pose proof (provisioned_good p keys result wrapped binding Hvalid) as Hgood.
  set (space' := provisioned_space _ _ _ _) in *. clearbody space'.
  unfold record_event, change_space. simpl. rewrite Hseq, Hnone. simpl. set (id := spv_SpaceID p) in *.
  split; simpl.
  - intros id' space''. destruct (decide (id' = id)) as [->|Hne].
    + rewrite !lookup_insert_eq. intros [= <-]. by eexists.
    + rewrite !lookup_insert_ne by done. apply Hspaces.
  - intros id'. destruct (decide (id' = id)) as [->|Hne]; [rewrite !lookup_insert_eq; eauto|].
    rewrite !lookup_insert_ne by done. apply Hevents.
  - intros id'. destruct (decide (id' = id)) as [->|Hne]; [by rewrite !lookup_insert_eq|].
    rewrite !lookup_insert_ne by done. apply Hseq.
  - intros id' record Hrecord. destruct (Hinv _ _ Hrecord) as (space0 & Hspace0 & Hne).
    exists space0. rewrite lookup_insert_ne; [done|]. intros Heq. rewrite <- Heq in Hspace0. congruence.
Qed.

(** Every transition keeps the invariant. *)
Lemma authority_step_good s a : authority_good (authority s) → AuthorityStep s a → authority_good a.
Proof using All.
  intros Hs Hstep. pose proof (ag_spaces _ Hs) as Hspaces. pose proof (ag_invitations _ Hs) as Hinv.
  destruct Hstep as [|id space space' Hspace Hview|p keys result wrapped binding Hvalid Hfresh _
    |c i keys space Hspace _ _ _ Hinactive
    |c claim record result space now i Hrecord _ _ Hspace Hid Hsubject _ Hroster
    |c x record result space Hrecord _ _ Hspace Hid
    |c x participant space Hspace _ Hne _ Hactive _ Hroster
    |c e grant keys participant space now Hspace _ Hactive _ _ _ Hroster
    |c r participant space now Hspace Hvalid Hprevious _ Hactive Hgrants Hroster
    |c r wrapped participant space now Hspace Hvalid Hne Hprevious Hactive Hgrants _ Hroster
    |c x binding space Hspace _ _ _ Hid Hrevision _];
    [done|by eapply view_good|by apply provision_good|..];
    destruct (Hspaces _ _ Hspace) as (events & _ & Hgood).
  - eapply (record_event_same _ (inv_SpaceID i)); [done| |exact Hspace|by eapply told_invited].
    eapply change_invitation_good; [done|exact Hspace|]. simpl. intros Heq. apply Hinactive.
    destruct (sg_host _ _ _ Hgood) as (host & [Hhost Hactive] & _). apply some_and_Some.
    exists host. by rewrite Heq.
  - subst i. destruct (Hinv _ _ Hrecord) as (space0 & Hspace0 & Hne).
    simpl in Hspace0. rewrite Hid, Hspace in Hspace0. apply (inj Some) in Hspace0 as <-.
    rewrite Hsubject in Hne.
    pose proof (told_admit _ _ _ Hgood c claim (miv_invitation record)
      (claimed_participant claim (miv_invitation record) space now) Hne eq_refl eq_refl eq_refl Hroster) as Htold.
    eapply (change_invitation_good (record_event _ (change_space _ _ _))).
    + by eapply record_event_good; [|exact Hs|exact Hspace|exact Htold].
    + simpl. by rewrite Hid, lookup_insert_eq.
    + rewrite (td_provisioning _ _ _ Htold). simpl. by rewrite Hsubject.
  - destruct (Hinv _ _ Hrecord) as (space0 & Hspace0 & Hne).
    eapply (record_event_same _ (ica_SpaceID x)); [done| |exact Hspace|by eapply told_cancelled].
    eapply change_invitation_good; [done|exact Hspace0|exact Hne].
  - eapply record_event_good; [done|exact Hs|exact Hspace|]. by eapply told_role.
  - eapply record_event_good; [done|exact Hs|exact Hspace|]. by eapply told_enroll.
  - eapply record_event_good; [done|exact Hs|exact Hspace|].
    exact (told_revoke_device _ _ _ Hgood c r participant (_, _) Hvalid Hprevious Hactive Hgrants Hroster).
  - eapply record_event_good; [done|exact Hs|exact Hspace|]. by eapply told_revoke.
  - eapply record_event_good; [done|exact Hs|exact Hspace|]. by eapply told_bound.
Qed.

Lemma new_authority_good ttl rand custodians : authority_good (authority (start ttl rand custodians)).
Proof using All.
  unfold start, NewMemoryStore, authority. repeat case_match; split; simpl;
    try (intros ? ? Hnone; rewrite lookup_empty in Hnone; done);
    intros; rewrite ?lookup_empty in *; try done; by destruct 0.
Qed.

Lemma perform_all_authority_good ttl rand custodians ops :
  authority_good (authority (perform_all ops (start ttl rand custodians))).
Proof using All.
  apply (space_perform_all_invariant (fun s => authority_good (authority s))); [|apply new_authority_good].
  intros op s Hs. eapply authority_step_good; [done|apply perform_authority].
Qed.
End invariant.
