(* ===== verification/SharedSpacesMembership.v ===== *)
(** * internal/sharedspaces: membership of a Space

    What the store of Spaces promises about who is in a Space and under which
    key epoch, as a small state machine: the host that founded a Space stays,
    others are admitted, given other roles and removed, and a removal moves a
    Space that rotates its keys to the next epoch.  The store refines it. *)

From S2P Require Import Prelude GoEncoding Sha256 RelayModel RelayState RelayTenant RelayMember RelaySubscription RelayDelivery RelayCheckpoint RelayMachine RelayReachable P256 GoText ServiceAuthority ComputePool KeyCustody SharedSpacesModel SharedSpacesChanges SharedSpacesCompute SharedSpaces SharedSpacesAuthority SharedSpacesSpec SharedSpacesInvariant.
#[local] Open Scope Z_scope.

(** ** The specification *)

(** The active participants of a Space with their roles, and its epoch. *)
Record Membership := mkMembership {
  mb_mode : SecurityMode;
  mb_host : UUID;
  mb_epoch : uint64;
  mb_members : gmap UUID Role }.

(** A Private Space keeps its epoch for good; others go on to the next one. *)
Definition rekeys (mode : SecurityMode) (epoch epoch' : uint64) : Prop :=
  if decide (mode = SecurityModePrivate) then epoch' = epoch
  else epoch' = epoch + 1 ∧ epoch' < 2 ^ 64.

Inductive membership_step : option Membership → option Membership → Prop :=
  | step_found mode host : SecurityMode_Valid mode →
      membership_step None (Some (mkMembership mode host InitialKeyEpoch {[host := RoleHost]}))
  | step_admitted mode host epoch members p role : p ≠ host →
      membership_step (Some (mkMembership mode host epoch members))
        (Some (mkMembership mode host epoch (<[p := role]> members)))
  | step_promoted mode host epoch members p role role' :
      p ≠ host → members !! p = Some role → role' ≠ RoleHost →
      membership_step (Some (mkMembership mode host epoch members))
        (Some (mkMembership mode host epoch (<[p := role']> members)))
  | step_device_gone mode host epoch epoch' members p :
      is_Some (members !! p) → mode ≠ SecurityModeManaged → rekeys mode epoch epoch' →
      membership_step (Some (mkMembership mode host epoch members))
        (Some (mkMembership mode host epoch' members))
  | step_removed mode host epoch epoch' members p :
      p ≠ host → is_Some (members !! p) → rekeys mode epoch epoch' →
      membership_step (Some (mkMembership mode host epoch members))
        (Some (mkMembership mode host epoch' (delete p members))).

Section refinement.
Context `{UuidLib} `{ManifestLib} `{CurveLib} `{AeadLib} `{SliceLib}.

Definition standing (p : Participant KeyRef) : option Role :=
  if decide (participant_active p) then Some (prt_Role p) else None.

Definition space_membership (space : memorySpace) : Membership :=
  mkMembership (space_mode space) (spv_InitialParticipantID (msp_provisioning space))
    (msp_keyEpoch space) (omap standing (msp_participants space)).

(** The membership of the Space [id] in the store. *)
Definition membership (s : MemoryStore) (id : UUID) : option Membership :=
  space_membership <$> ms_spaces s !! id.

(** At most one Space changes, by one step. *)
Definition advances (spaces spaces' : gmap UUID memorySpace) : Prop :=
  (∀ id, space_membership <$> spaces' !! id = space_membership <$> spaces !! id) ∨
  ∃ id, membership_step (space_membership <$> spaces !! id) (space_membership <$> spaces' !! id) ∧
    ∀ id', id' ≠ id → space_membership <$> spaces' !! id' = space_membership <$> spaces !! id'.

Lemma advances_same spaces id space space' :
  spaces !! id = Some space → space_membership space' = space_membership space →
  advances spaces (<[id := space']> spaces).
Proof.
  intros Hid Heq. left. intros id'. destruct (decide (id' = id)) as [->|].
  - by rewrite lookup_insert_eq, Hid; simpl; rewrite Heq.
  - by rewrite lookup_insert_ne.
Qed.

Lemma advances_step spaces id space space' :
  spaces !! id = Some space → membership_step (Some (space_membership space)) (Some (space_membership space')) →
  advances spaces (<[id := space']> spaces).
Proof.
  intros Hid Hstep. right. exists id. split; [by rewrite lookup_insert_eq, Hid|].
  intros id' Hne. by rewrite lookup_insert_ne.
Qed.

(** ** A change of a participant *)

Lemma membership_changed id participant attestation space space' :
  changed id participant attestation space space' →
  space_membership space' = mkMembership (space_mode space)
    (spv_InitialParticipantID (msp_provisioning space)) (msp_keyEpoch space')
    (match standing participant with
     | Some role => <[id := role]> (omap standing (msp_participants space))
     | None => delete id (omap standing (msp_participants space))
     end).
Proof.
  intros [_ Hprov Hparts _ _ _]. unfold space_membership, space_mode. rewrite Hprov, Hparts.
  rewrite omap_insert. by destruct (standing participant).
Qed.

Lemma standing_active p : participant_active p → standing p = Some (prt_Role p).
Proof. intros Hp. unfold standing. by rewrite decide_True. Qed.

Lemma active_member space id participant :
  active_in space id participant →
  omap standing (msp_participants space) !! id = Some (prt_Role participant).
Proof. intros [Hid Ha]. rewrite lookup_omap, Hid. simpl. by apply standing_active. Qed.

Lemma rekeys_next mode epoch next :
  1 ≤ epoch < 2 ^ 64 → epoch ≤ next ≤ u64 (epoch + 1) →
  (mode = SecurityModePrivate → next = epoch) →
  (mode ≠ SecurityModePrivate → next = u64 (epoch + 1)) → rekeys mode epoch next.
Proof.
  intros Hepoch Hnext Hprivate Hother. unfold rekeys. case_decide as Hm; [by apply Hprivate|].
  specialize (Hother Hm). destruct (next_epoch epoch next Hepoch Hnext) as [Hsame|[? ?]]; [|done].
  exfalso. unfold u64 in *. destruct (decide (epoch + 1 < 2 ^ 64)).
  - rewrite Z.mod_small in Hother by lia. lia.
  - assert (epoch = 2 ^ 64 - 1) as Heq by lia. rewrite Hsame, Heq in Hother.
    by vm_compute in Hother.
Qed.

Lemma revocation_next r mode participants now :
  ParticipantRevocation_Validate r = None → prv_PreviousKeyEpoch r < 2 ^ 64 →
  ParticipantRevocation_ValidateKeyGrants r mode participants now = None →
  rekeys mode (prv_PreviousKeyEpoch r) (prv_NextKeyEpoch r).
Proof.
  unfold ParticipantRevocation_Validate, ParticipantRevocation_ValidateKeyGrants, InitialKeyEpoch.
  rewrite err_when_None, err_then_None. intros Hvalid Hmax [_ Hgrants].
  apply rekeys_next; [lia|lia|intros ->|intros Hm].
  - apply err_when_None in Hgrants. lia.
  - rewrite decide_False in Hgrants by done. case_decide; [|apply err_then_None in Hgrants as [Hgrants _]];
      apply err_when_None in Hgrants; apply dec_stable; tauto.
Qed.

Lemma device_revocation_next r mode participants now :
  ParticipantDeviceRevocation_Validate r = None → pdv_PreviousKeyEpoch r < 2 ^ 64 →
  ParticipantDeviceRevocation_ValidateKeyGrants r mode participants now = None →
  mode ≠ SecurityModeManaged ∧ rekeys mode (pdv_PreviousKeyEpoch r) (pdv_NextKeyEpoch r).
Proof.
  unfold ParticipantDeviceRevocation_Validate, ParticipantDeviceRevocation_ValidateKeyGrants, InitialKeyEpoch.
  rewrite err_then_None, err_when_None. intros [Hvalid _] Hmax Hgrants.
  case_decide as Hmanaged; [done|]. split; [done|]. apply rekeys_next; [lia|lia|intros ->|intros Hm].
  - rewrite decide_True in Hgrants by done. apply err_when_None in Hgrants. lia.
  - rewrite decide_False in Hgrants by done. apply err_then_None in Hgrants as [Hgrants _].
    apply err_when_None in Hgrants. apply dec_stable. tauto.
Qed.

(** ** The steps of authority *)

(** The same participant with the same standing. *)
Lemma changed_same id participant participant' attestation space space' :
  changed id participant' attestation space space' → active_in space id participant →
  standing participant' = standing participant →
  space_membership space' = mkMembership (space_mode space)
    (spv_InitialParticipantID (msp_provisioning space)) (msp_keyEpoch space')
    (omap standing (msp_participants space)).
Proof.
  intros Hc Ha Hst. rewrite (membership_changed _ _ _ _ _ Hc), Hst.
  rewrite (standing_active participant (proj2 Ha)). f_equal. apply insert_id. by apply active_member.
Qed.

(** A new Space has its host. *)
Lemma membership_provisioned (p : SpaceProvisioning DeviceKeys) keys result wrapped binding :
  SpaceProvisioning_Validate p = None →
  membership_step None (Some (space_membership
    (provisioned_space (provisioning_with_keys (fun _ => keys) p) result wrapped binding))).
Proof.
  intros Hvalid. set (space := provisioned_space _ _ _ _).
  assert (space_membership space = mkMembership (spv_SecurityMode p) (spv_InitialParticipantID p)
    InitialKeyEpoch {[spv_InitialParticipantID p := RoleHost]}) as ->; [|constructor].
  - unfold space_membership, space, provisioned_space.
    change (spv_InitialSecureRosterAttestation (provisioning_with_keys (fun _ => keys) p))
      with (spv_InitialSecureRosterAttestation p).
    destruct (spv_InitialSecureRosterAttestation p); simpl; by rewrite omap_singleton.
  - unfold SpaceProvisioning_Validate in Hvalid. rewrite !err_then_None, !err_when_None in Hvalid.
    apply dec_stable. tauto.
Qed.

Lemma authority_advances s a :
  authority_good (authority s) → AuthorityStep s a → advances (ms_spaces s) (au_spaces a).
Proof using All.
  intros Hs Hstep. pose proof (ag_spaces _ Hs) as Hspaces. pose proof (ag_invitations _ Hs) as Hinv.
  destruct Hstep as [|id space space' Hspace [Hview _]|p keys result wrapped binding Hvalid Hfresh _
    |c i keys space _ _ _ _ _
    |c claim record result space now i Hrecord _ _ Hspace Hid Hsubject _ _
    |c x record result space _ _ _ _ _
    |c x participant space Hspace _ Hne Hrole Hactive _ _
    |c e grant keys participant space now Hspace _ Hactive _ _ _ _
    |c r participant space now Hspace Hvalid Hprevious _ Hactive Hgrants _
    |c r wrapped participant space now Hspace Hvalid Hne Hprevious Hactive Hgrants _ _
    |c x binding space Hspace _ _ _ _ _ _]; try (by left).
  - apply (advances_same _ _ space); [done|]. by rewrite Hview.
  - right. exists (spv_SpaceID p). simpl. rewrite lookup_insert_eq, Hfresh. split.
    + by apply membership_provisioned.
    + intros id Hne. by rewrite lookup_insert_ne.
  - apply (advances_step _ _ space); [done|]. destruct (Hinv _ _ Hrecord) as (space0 & Hspace0 & Hne).
    simpl in Hspace0. fold i in Hspace0, Hne. rewrite Hid in Hspace0.
    assert (space0 = space) as -> by congruence.
    destruct (changed_admit_participant i (claimed_participant claim i space now) space) as [Hc He].
    rewrite (membership_changed _ _ _ _ _ Hc), He. apply step_admitted. simpl. by rewrite <- Hsubject.
  - apply (advances_step _ _ space); [done|]. destruct (Hspaces _ _ Hspace) as (events & _ & Hgood).
    destruct (changed_with_role x participant space) as [Hc He];
      [by apply (sg_keyed _ _ _ Hgood), Hactive|].
    rewrite (membership_changed _ _ _ _ _ Hc), He.
    rewrite (standing_active (participant <| prt_Role := prc_NextRole x |>)) by apply Hactive.
    by eapply step_promoted; [|apply active_member|].
  - apply (advances_same _ _ space); [done|]. destruct (Hspaces _ _ Hspace) as (events & _ & Hgood).
    destruct (changed_with_device e grant keys participant space) as [Hc He];
      [by apply (sg_keyed _ _ _ Hgood), Hactive|].
    by rewrite (changed_same _ participant _ _ _ _ Hc Hactive), He.
  - apply (advances_step _ _ space); [done|]. destruct (Hspaces _ _ Hspace) as (events & _ & Hgood).
    destruct (changed_without_device r participant space) as [Hc He];
      [by apply (sg_keyed _ _ _ Hgood), Hactive|].
    rewrite (changed_same _ participant _ _ _ _ Hc Hactive eq_refl), He.
    pose proof (ep_bound _ _ (sg_epoch _ _ _ Hgood)) as Hbound.
    destruct (device_revocation_next _ _ _ _ Hvalid ltac:(lia) Hgrants) as [Hmode Hrekeys].
    rewrite Hprevious in Hrekeys.
    apply (step_device_gone _ _ _ _ _ (pdv_ParticipantID r)); [|done|done].
    by rewrite (active_member _ _ _ Hactive).
  - apply (advances_step _ _ space); [done|]. destruct (Hspaces _ _ Hspace) as (events & _ & Hgood).
    destruct (changed_without_participant r wrapped now participant space) as [Hc He];
      [by apply (sg_keyed _ _ _ Hgood), Hactive|].
    rewrite (membership_changed _ _ _ _ _ Hc), He.
    pose proof (ep_bound _ _ (sg_epoch _ _ _ Hgood)) as Hbound.
    pose proof (revocation_next _ _ _ _ Hvalid ltac:(lia) Hgrants) as Hrekeys.
    rewrite Hprevious in Hrekeys.
    apply step_removed; [done| |done]. by rewrite (active_member _ _ _ Hactive).
  - by apply (advances_same _ _ space).
Qed.

End refinement.
