(* ===== verification/SharedSpacesAudit.v ===== *)
(** * internal/sharedspaces: what an auditor may conclude

    The concrete Spaces of the witnesses come first: a Secure Space from its
    provisioning to the revocation of a participant, and a Managed Space, with
    toy signatures and a toy cipher in place of P-256 and AES-GCM.  Slices are
    given no spare capacity by their callers and grow by doubling.

    Then the properties of every reachable store that follow from the
    invariant of authority: the event log tells how a Space stands, the key
    epoch counts the rotations in it, the initial host stays, and the signed
    rosters form one chain that the log commits to.

    Last, how the calls of the store act on the relay below, and who may make
    the calls of a participant: the Space and the relay must both know the
    caller. *)

From S2P Require Import Prelude GoEncoding Sha256 RelayModel RelayState RelayTenant RelayMember RelaySubscription RelayDelivery RelayCheckpoint RelayMachine RelayExample RelayInvariant RelayReachable P256 GoText ServiceAuthority ComputePool ComputeExample KeyCustody DeviceSyncExample SharedSpacesModel SharedSpacesChanges SharedSpacesCompute SharedSpaces SharedSpacesAuthority SharedSpacesSpec SharedSpacesInvariant.
#[local] Open Scope Z_scope.

#[local] Existing Instance toy_curve.
#[local] Existing Instance toy_aead.

Definition doubling_slices : SliceLib := {|
  argument_spare _ := 0%nat;
  growslice_spare capacity length := (2 * capacity - length)%nat |}.
#[local] Existing Instance doubling_slices.

(** ** Keys and signatures *)

Definition x963 (n : Z) : string := b64_EncodeToString (es256_key n).

Definition signing_key (n : Z) : ParticipantSigningKey :=
  mkParticipantSigningKey ParticipantKeyGrantSignatureAlgorithm (x963 n) (es256_fingerprint n).

Definition signature_with (n : Z) (signature : string) : ParticipantKeyGrantSignature :=
  mkParticipantKeyGrantSignature ParticipantKeyGrantSignatureAlgorithm (x963 n)
    (es256_fingerprint n) signature.

Definition sign (n : Z) (payload : json) : ParticipantKeyGrantSignature :=
  signature_with n (b64_EncodeToString (Sum256 (Marshal payload) ++ be_bytes 32 1)).

Definition device (key : Z) (participant id : UUID) (createdAt : int64) (revokedAt : option int64)
    : ParticipantDeviceKey :=
  let unsigned signature := mkParticipantDeviceKey SchemaVersion tenantID participant id "P256"
    (x963 (Z.of_N id)) (es256_fingerprint (Z.of_N id)) createdAt revokedAt signature in
  unsigned (sign key (ParticipantDeviceKey_SigningPayload (unsigned (signature_with key "")))).

Definition grant_to (participant deviceID : UUID) (epoch : uint64) (createdAt : int64)
    : ParticipantKeyGrant :=
  let unsigned signature := mkParticipantKeyGrant SchemaVersion tenantID participant deviceID 11%N
    epoch ParticipantKeyGrantAlgorithm (es256_fingerprint (Z.of_N deviceID)) (x963 7)
    (b64_EncodeToString (be_bytes 12 7)) (b64_EncodeToString (be_bytes 32 9))
    (b64_EncodeToString (be_bytes 16 8)) createdAt signature in
  unsigned (sign 1 (ParticipantKeyGrant_signingPayload (unsigned (signature_with 1 "")))).

(** A roster that the host signs. *)
Definition roster (revision : uint64) (previous : string) (epoch : uint64)
    (participants : list ParticipantV) (at_ : int64) : SecureRosterAttestation :=
  let unsigned signature := mkSecureRosterAttestation SchemaVersion tenantID domainID revision
    previous epoch participants 11%N at_ signature in
  unsigned (sign 1 (SecureRosterAttestation_signingPayload (unsigned (signature_with 1 "")))).

(** ** The participants of the Secure Space *)

Definition host_device : ParticipantDeviceKey := Eval vm_compute in device 1 11%N 61%N 0 None.
Definition bob_device : ParticipantDeviceKey := Eval vm_compute in device 2 12%N 71%N 2000 None.
Definition second_device : ParticipantDeviceKey := Eval vm_compute in device 2 12%N 72%N 2300 None.

Definition host_participant : ParticipantV :=
  mkParticipant SchemaVersion tenantID 11%N 21%N ParticipantPerson RoleHost (signing_key 1)
    (Some [host_device]) 0 None.

Definition bob_participant (role : Role) (keys : list ParticipantDeviceKey) : ParticipantV :=
  mkParticipant SchemaVersion tenantID 12%N 22%N ParticipantPerson role (signing_key 2)
    (Some keys) 2000 None.

Definition roster1 : SecureRosterAttestation := Eval vm_compute in roster 1 "" 1 [host_participant] 0.
Definition digest1 : string := Eval vm_compute in SecureRosterAttestation_Digest roster1.
Definition roster2 : SecureRosterAttestation := Eval vm_compute in
  roster 2 digest1 1 [host_participant; bob_participant RoleParticipant [bob_device]] 2000.
Definition digest2 : string := Eval vm_compute in SecureRosterAttestation_Digest roster2.
Definition roster3 : SecureRosterAttestation := Eval vm_compute in
  roster 3 digest2 1 [host_participant; bob_participant RoleReader [bob_device]] 2200.
Definition digest3 : string := Eval vm_compute in SecureRosterAttestation_Digest roster3.
Definition roster4 : SecureRosterAttestation := Eval vm_compute in
  roster 4 digest3 1 [host_participant; bob_participant RoleReader [bob_device; second_device]] 2300.
Definition digest4 : string := Eval vm_compute in SecureRosterAttestation_Digest roster4.
Definition roster5 : SecureRosterAttestation := Eval vm_compute in
  roster 5 digest4 2 [host_participant] 2500.
Definition digest5 : string := Eval vm_compute in SecureRosterAttestation_Digest roster5.

(** ** The calls *)

Definition vault : SpaceProvisioning DeviceKeys :=
  mkSpaceProvisioning SchemaVersion 501%N tenantID SecurityModeSecure InteractionModeCollaborative
    11%N ParticipantPerson (signing_key 1) (Some [host_device]) (Some roster1) example_tenant
    example_provisioning 0.

Definition space_checkpoint : list SpaceOp :=
  [ OpPublishEnvelope alice (example_envelope alice 101%N) 1000;
    OpRelay fence_one;
    OpStageSpaceCheckpoint alice (example_candidate 43%N 44%N 42%N (EncodeCursor 1) [] 1001) 1001;
    OpActivateSpaceCheckpoint admin_credential example_activation 1002 ].

Definition member_admission (id : UUID) (capabilities : list Capability) (at_ : int64)
    : MemberAdmission :=
  mkMemberAdmission RelayModel.SchemaVersion tenantID domainID id
    (digest_of (RelayModel.AdmissionAuthorizationDigest (RelayModel.mkAdmissionCredential tenantID
       domainID id (token (Z.of_N id))))) capabilities at_ 600000 None None None None.

Definition invite_bob : Invitation DeviceKeys :=
  mkInvitation SchemaVersion 502%N tenantID 81%N 12%N 22%N ParticipantPerson RoleParticipant
    InteractionModeCollaborative (signing_key 2) (Some [bob_device]) (Some (grant_to 12%N 71%N 1 2000))
    (Some roster2)
    (member_admission 81%N (Role_Capabilities RoleParticipant InteractionModeCollaborative) 2000)
    2000.

Definition bob_claim : InvitationClaim :=
  mkInvitationClaim SchemaVersion tenantID 12%N
    (mkMemberAdmissionClaim 12%N (digest_of (AuthorizationDigest bob))) 2100.

Definition bob_invitation : InvitationCredential :=
  mkInvitationCredential tenantID domainID 81%N (token 81).

Definition demote_bob : ParticipantRoleChange :=
  mkParticipantRoleChange SchemaVersion 503%N tenantID 12%N RoleParticipant RoleReader 2200
    (Some roster3).

Definition enroll_second : ParticipantDeviceEnrollment :=
  mkParticipantDeviceEnrollment SchemaVersion 504%N tenantID 12%N second_device
    (Some (grant_to 12%N 72%N 1 2300)) 2300 (Some roster4).

Definition revoke_bob : ParticipantRevocation :=
  mkParticipantRevocation SchemaVersion 505%N tenantID 12%N 1 2 [grant_to 11%N 61%N 2 2500]
    (Some roster5).

Definition admit_bob : list SpaceOp :=
  [ OpCreateInvitation admin_credential invite_bob 2000;
    OpClaimInvitation bob_invitation bob_claim 2100 ].

Definition rand0 : Rand := mkRand (fun i => byte_of (Z.of_N i)) 0.

Definition vault_new : MemoryStore :=
  perform (OpProvisionSpace vault 1000) (start [] rand0 []).
Definition vault_ready : MemoryStore := perform_all space_checkpoint vault_new.
Definition vault_two : MemoryStore := perform_all admit_bob vault_ready.
Definition vault_devices : MemoryStore :=
  perform_all [ OpChangeParticipantRole admin_credential demote_bob 2200;
    OpEnrollParticipantDevice admin_credential enroll_second 2300 ] vault_two.
Definition vault_revoked : MemoryStore :=
  perform (OpRevokeParticipant admin_credential revoke_bob 2500) vault_devices.

Definition space_of (s : MemoryStore) : option memorySpace := ms_spaces s !! tenantID.
Definition log_of (s : MemoryStore) : list AuthorityEvent :=
  default [] (ms_authorityEvents s !! tenantID).

Section audit.
Context `{UuidLib} `{ManifestLib} `{CurveLib} `{AeadLib} `{SliceLib}.

Lemma reachable_authority_good s : reachable s → authority_good (authority s).
Proof using All.
  intros Hs. induction Hs as [|s op _ IH]; [apply new_authority_good|].
  eapply authority_step_good; [done|apply perform_authority].
Qed.

(** A Space of a reachable store, its log and what the invariant says of them. *)
Lemma reachable_space_good s id space :
  reachable s → ms_spaces s !! id = Some space →
  ∃ events, ms_authorityEvents s !! id = Some events ∧ space_good id space events.
Proof using All. intros Hs Hspace. exact (ag_spaces _ (reachable_authority_good _ Hs) _ _ Hspace). Qed.

Lemma reachable_log_good s id space events :
  reachable s → ms_spaces s !! id = Some space → ms_authorityEvents s !! id = Some events →
  space_good id space events.
Proof using All.
  intros Hs Hspace Hevents. destruct (reachable_space_good _ _ _ Hs Hspace) as (events' & He & Hgood).
  by assert (events' = events) as -> by congruence.
Qed.

(** [C16] The event log of a Space tells how it stands.  In every reachable
    store a Space has a log exactly when it exists, and replaying the log
    gives its key epoch, the role and standing of every participant it ever
    had, the digest of its current roster and the revision of every compute
    binding.  The [i]-th event carries the sequence number [i + 1], the
    Space's identifier and the fields its kind asks for, and the next event
    will get the number after the last. *)
Theorem authority_log_tells_the_space s id :
  reachable s →
  replay <$> ms_authorityEvents s !! id = current <$> ms_spaces s !! id ∧
  (∀ events, ms_authorityEvents s !! id = Some events →
     ms_nextAuthoritySequences s !! id = Some (u64 (zlen events)) ∧
     ∀ i e, events !! i = Some e → event_good id i e).
Proof using All.
  intros Hs. pose proof (reachable_authority_good _ Hs) as [Hspaces Hevents Hsequences _].
  simpl in *. destruct (ms_spaces s !! id) as [space|] eqn:Hspace.
  - destruct (Hspaces _ _ Hspace) as (events & He & Hgood). rewrite He. simpl.
    rewrite (sg_replay _ _ _ Hgood). split; [done|]. intros ? [= <-].
    rewrite Hsequences, He. split; [done|]. apply (sg_events _ _ _ Hgood).
  - assert (ms_authorityEvents s !! id = None) as ->; [|done].
    apply eq_None_not_Some. intros Hlog%Hevents. rewrite Hspace in Hlog. by destruct Hlog.
Qed.

(** [C21] The key epoch of a Space counts its rotations.  It is one more than
    the number of events that took the Space to another epoch, never wraps
    its 64 bits, is never behind the epoch of the active checkpoint, and stays
    the first one in a Private Space. *)
Theorem key_epoch_counts_rotations s id space events :
  reachable s → ms_spaces s !! id = Some space → ms_authorityEvents s !! id = Some events →
  msp_keyEpoch space = InitialKeyEpoch + rotations events ∧
  InitialKeyEpoch ≤ msp_keyEpoch space < 2 ^ 64 ∧
  0 ≤ msp_activeCheckpointEpoch space ≤ msp_keyEpoch space ∧
  (space_mode space = SecurityModePrivate → msp_keyEpoch space = InitialKeyEpoch).
Proof using All.
  intros Hs Hspace Hevents.
  destruct (sg_epoch _ _ _ (reachable_log_good _ _ _ _ Hs Hspace Hevents)) as [Hcount ? Hstatic ?].
  split_and!; try lia. intros Hm%Hstatic. lia.
Qed.

(** A Space is never left without its host.  Whatever calls were made, the
    participant that a Space was provisioned with is in it, active and its
    host. *)
Theorem initial_host_stays s id space :
  reachable s → ms_spaces s !! id = Some space →
  ∃ host, msp_participants space !! spv_InitialParticipantID (msp_provisioning space) = Some host ∧
    participant_active host ∧ prt_Role host = RoleHost.
Proof using All.
  intros Hs Hspace. destruct (reachable_space_good _ _ _ Hs Hspace) as (events & _ & Hgood).
  destruct (sg_host _ _ _ Hgood) as (host & [? ?] & ?). by exists host.
Qed.

(** [C19] The signed rosters of a Secure Space form one chain.  The recorded
    rosters are numbered from one without a gap; each names the digest of the
    one before and is signed with the key of a host or moderator that the one
    before lists; the last one is the current one and carries the current key
    epoch; and the event log commits to the digest of every one of them, in
    order. *)
Theorem rosters_form_one_chain s id space events :
  reachable s → ms_spaces s !! id = Some space → space_mode space = SecurityModeSecure →
  ms_authorityEvents s !! id = Some events →
  let history := msp_secureRosterHistory space in
  (∀ i a, history !! i = Some a → sra_Revision a = Z.of_nat i + 1) ∧
  (∀ i a b, history !! i = Some a → history !! S i = Some b → succeeds b a) ∧
  (∃ a, last history = Some a ∧ msp_secureRosterAttestation space = Some a ∧
     sra_CurrentKeyEpoch a = msp_keyEpoch space) ∧
  omap aev_SecureRosterDigest events = SecureRosterAttestation_Digest <$> history.
Proof using All.
  intros Hs Hspace Hmode Hevents history.
  pose proof (reachable_log_good _ _ _ _ Hs Hspace Hevents) as Hgood.
  pose proof (sg_rosters _ _ _ Hgood) as Hchain. unfold rosters_good in Hchain.
  rewrite decide_True in Hchain by done. destruct Hchain as [Hcurrent [a Ha] Hnumbered Hlinked Hepoch].
  split_and!; [|done| |by apply (sg_digests _ _ _ Hgood)].
  - intros i b Hb. by apply Hnumbered in Hb as [].
  - exists a. split; [by rewrite <- Ha, <- Hcurrent|]. split; [done|]. by apply Hepoch.
Qed.
End audit.

(** ** The concrete Space *)

#[local] Existing Instance toy_curve.
#[local] Existing Instance toy_aead.
#[local] Existing Instance doubling_slices.

Lemma vault_new_reachable : reachable vault_new.
Proof. apply reachable_step, reachable_new. Qed.

(** The Space of [vault_new] and its log, as values. *)
Definition new_space : memorySpace := ltac:(
  let space := eval vm_compute in (space_of vault_new) in
  lazymatch space with Some ?space => exact space end).
Definition new_log : list AuthorityEvent := Eval vm_compute in log_of vault_new.

Lemma vault_new_contents :
  ms_spaces vault_new !! tenantID = Some new_space ∧
  ms_authorityEvents vault_new !! tenantID = Some new_log.
Proof.
  assert ((ms_spaces vault_new !! tenantID, ms_authorityEvents vault_new !! tenantID) =
    (Some new_space, Some new_log)) as Heq
    by vm_cast_no_check (eq_refl (Some new_space, Some new_log)).
  exact (conj (f_equal fst Heq) (f_equal snd Heq)).
Qed.

Lemma authority_log_tells_the_space_witness :
  replay new_log = current new_space ∧
  match new_log with [e] => event_good tenantID 0 e | _ => False end.
Proof.
  destruct vault_new_contents as [Hspace Hlog].
  destruct (authority_log_tells_the_space vault_new tenantID vault_new_reachable) as [Hreplay Hgood].
  rewrite Hspace, Hlog in Hreplay. split; [exact (inj Some _ _ Hreplay)|].
  destruct (Hgood _ Hlog) as [_ Hevents]. exact (Hevents 0%nat _ eq_refl).
Defined.

Lemma key_epoch_counts_rotations_witness :
  msp_keyEpoch new_space = InitialKeyEpoch + rotations new_log ∧
  0 ≤ msp_activeCheckpointEpoch new_space ≤ msp_keyEpoch new_space.
Proof.
  destruct vault_new_contents as [Hspace Hlog].
  destruct (key_epoch_counts_rotations vault_new tenantID new_space new_log vault_new_reachable Hspace Hlog)
    as (Hcount & _ & Hcheckpoint & _).
  exact (conj Hcount Hcheckpoint).
Defined.

Lemma initial_host_stays_witness :
  ∃ host,
    msp_participants new_space !! spv_InitialParticipantID (msp_provisioning new_space) = Some host ∧
    participant_active host ∧ prt_Role host = RoleHost.
Proof.
  destruct vault_new_contents as [Hspace _].
  exact (initial_host_stays vault_new tenantID new_space vault_new_reachable Hspace).
Defined.

Lemma rosters_form_one_chain_witness :
  (∀ i a, msp_secureRosterHistory new_space !! i = Some a → sra_Revision a = Z.of_nat i + 1) ∧
  omap aev_SecureRosterDigest new_log =
    SecureRosterAttestation_Digest <$> msp_secureRosterHistory new_space.
Proof.
  destruct vault_new_contents as [Hspace Hlog].
  destruct (rosters_form_one_chain vault_new tenantID new_space new_log vault_new_reachable Hspace
    eq_refl Hlog) as (Hnumbered & _ & _ & Hdigests).
  exact (conj Hnumbered Hdigests).
Defined.

Section over.
Context `{UuidLib} `{ManifestLib} `{CurveLib} `{AeadLib} `{SliceLib}.

(** ** Every relay call is one of the relay's own *)

Definition any_relay_call (op : RelayMachine.Op) : Prop := True.

Lemma wp_relay_over {A} (R : RelayState.MemoryStore → Prop) (call : M GoError RelayState.MemoryStore A)
    (Q : MemoryStore → SpaceError + A → Prop) s :
  (∀ op r, R r → R (RelayMachine.perform op r)) → CallOf any_relay_call call → R (ms_relay s) →
  (∀ r res, R r → Q (s <| ms_relay := r |>) res) → wp (relay call) Q s.
Proof.
  intros HR [op [_ Hop]] Hs HQ. unfold wp, relay. specialize (Hop (ms_relay s)).
  destruct (call (ms_relay s)) as [r res]. simpl in *. subst r. apply HQ. by apply HR.
Qed.
End over.

(** [relay_space_steps R] runs a method whose relay calls keep [R]. *)
Ltac relay_space_step R :=
  lazymatch goal with
  | |- wp (relay (if decide _ then _ else _)) _ _ =>
    eapply (wp_relay_over R); [done|case_decide; apply _|done|intros ? [?|?] ?]; cbn beta iota
  | |- wp (relay _) _ _ =>
    eapply (wp_relay_over R); [done|apply _|done|intros ? [?|?] ?]; cbn beta iota
  | |- _ => space_step
  end.
Ltac relay_space_steps R := repeat relay_space_step R.

Section refinement.
Context `{UuidLib} `{ManifestLib} `{CurveLib} `{AeadLib} `{SliceLib}.

(** What every call of the relay keeps, every call of the store keeps. *)
Lemma space_perform_over (R : RelayState.MemoryStore → Prop) op s :
  (∀ op r, R r → R (RelayMachine.perform op r)) → R (ms_relay s) → R (ms_relay (perform op s)).
Proof.
  intros HR Hs. set (P := fun s' => R (ms_relay s')). change (P (perform op s)).
  space_call op. by apply HR.
  all: relay_space_steps R; try exact Hs; try assumption.
Qed.

(** The store of Spaces uses the relay through its calls alone: whatever one of its calls does,
    on every branch and with every argument, its effect on the relay is that
    of a sequence of the relay's own calls; so the relay under any execution
    of the store is a reachable relay, and has every property that reachable
    relays have. *)
Theorem spaces_over_relay ttl rand custodians ops :
  (∃ n, RelayMachine.reachable ttl n (ms_relay (perform_all ops (start ttl rand custodians)))) ∧
  ∀ op s, ∃ relay_ops, ms_relay (perform op s) = RelayMachine.perform_all relay_ops (ms_relay s).
Proof using All.
  split.
  - apply (space_perform_all_invariant (fun s => ∃ n, RelayMachine.reachable ttl n (ms_relay s))).
    + intros op s. apply (space_perform_over (fun r => ∃ n, RelayMachine.reachable ttl n r)).
      intros op' r [n Hr]. exists (n + 1)%N. by apply RelayMachine.reachable_step.
    + exists 0%N. unfold start, NewMemoryStore. repeat case_match; apply RelayMachine.reachable_new.
  - intros op s. apply (space_perform_over (fun r => ∃ l, r = RelayMachine.perform_all l (ms_relay s)));
      [|by exists []].
    intros op' r [l ->]. exists (l ++ [op']). unfold RelayMachine.perform_all. by rewrite foldl_app.
Qed.
End refinement.

(** ** Who may make a participant's calls *)

Section participants.
Context `{UuidLib} `{ManifestLib} `{CurveLib} `{AeadLib} `{SliceLib}.

(** The Space lists the caller as an active participant, and the relay knows
    the credential as that of a member which is active now and may fetch. *)
Definition admitted (credential : Credential) (now : int64) (s : MemoryStore) : Prop :=
  ∃ space participant domain member,
    ms_spaces s !! cred_TenantID credential = Some space ∧
    space_domain space = cred_DomainID credential ∧
    active_in space (cred_MemberID credential) participant ∧
    st_domains (ms_relay s) !! (cred_TenantID credential, cred_DomainID credential) = Some domain ∧
    dom_members domain !! cred_MemberID credential = Some member ∧
    memberActiveAt member now ∧
    AuthorizationDigest credential = inr (mr_AuthorizationDigest member) ∧
    CapabilityFetchMessage ∈ mr_Capabilities member.

Lemma Fetch_authorizes credential after limit now relayStore relayStore' batch :
  Fetch credential after limit now relayStore = (relayStore', inr batch) →
  ∃ domain member,
    st_domains relayStore !! (cred_TenantID credential, cred_DomainID credential) = Some domain ∧
    dom_members domain !! cred_MemberID credential = Some member ∧
    MemberRegistration_Authorize member credential CapabilityFetchMessage now = None.
Proof.
  unfold Fetch, as_member, bind, get, in_domain, reject_if. case_decide; [done|].
  unfold authorizedMember. destruct (st_domains relayStore !! _) as [domain|]; [|done].
  destruct (dom_members domain !! _) as [member|] eqn:Hm; [|done].
  destruct (MemberRegistration_Authorize _ _ _ _) eqn:Ha; [done|]. intros _. by exists domain, member.
Qed.

(** What [authenticate] and the checks before it establish. *)
Lemma wp_authenticate credential now (Q : MemoryStore → SpaceError + unit → Prop) s :
  (∀ r e, Q (s <| ms_relay := r |>) (inl e)) →
  (∀ r, (∃ domain member,
      st_domains (ms_relay s) !! (cred_TenantID credential, cred_DomainID credential) = Some domain ∧
      dom_members domain !! cred_MemberID credential = Some member ∧
      MemberRegistration_Authorize member credential CapabilityFetchMessage now = None) →
    Q (s <| ms_relay := r |>) (inr tt)) →
  wp (authenticate credential now) Q s.
Proof.
  intros Herr Hok. unfold authenticate. wp_step. unfold wp at 1, relay.
  destruct (Fetch credential 0 1 now (ms_relay s)) as [r [e|batch]] eqn:Hf; [apply Herr|].
  cbn [fst snd]. wp_step. apply Hok. by eapply Fetch_authorizes.
Qed.

(** [guard_steps] runs a method up to its authentication and beyond. *)
#[local] Ltac guard_step :=
  lazymatch goal with
  | |- wp (authenticate _ _) _ _ =>
    apply wp_authenticate; [intros ? ?|intros ? (?domain & ?member & ?Hdomain & ?Hmember & ?Hauth)];
    cbn beta iota
  | |- _ => space_step
  end.
#[local] Ltac guard_steps := repeat guard_step.

(** Only what is checked before the answer matters. *)
Lemma guarded {A} (m : M SpaceError MemoryStore A) credential now s :
  wp m (fun _ res => ∀ a, res = inr a → admitted credential now s) s →
  ∀ a, (m s).2 = inr a → admitted credential now s.
Proof. unfold wp. destruct (m s) as [s' res]. simpl. auto. Qed.

Lemma admitted_intro credential now s space participant domain member id :
  ms_spaces s !! id = Some space → cred_TenantID credential = id →
  cred_DomainID credential = space_domain space →
  msp_participants space !! cred_MemberID credential = Some participant →
  participant_active participant →
  st_domains (ms_relay s) !! (cred_TenantID credential, cred_DomainID credential) = Some domain →
  dom_members domain !! cred_MemberID credential = Some member →
  MemberRegistration_Authorize member credential CapabilityFetchMessage now = None →
  admitted credential now s.
Proof.
  intros Hspace <- Hdomain Hp Hactive Hd Hm (_ & _ & Hnow & Hdigest & Hcap)%authorize_iff.
  exists space, participant, domain, member. by split_and!.
Qed.

(** [C18] Nothing is handed to a stranger.  If one of the calls that a
    participant makes succeeds (status, roster, signed rosters, key grant,
    bootstrap with the content key, compute authorization, presentation), then
    at that moment the Space lists the caller as an active participant, and
    the relay has the caller as an active member whose token the credential
    holds and who may fetch messages. *)
Theorem participant_calls_guarded credential now s :
  (∀ x, (GetParticipantStatus credential now s).2 = inr x → admitted credential now s) ∧
  (∀ x, (GetParticipantRoster credential now s).2 = inr x → admitted credential now s) ∧
  (∀ after limit x, (ListSecureRosterAttestations credential after limit now s).2 = inr x →
     admitted credential now s) ∧
  (∀ device x, (GetParticipantKeyGrant credential device now s).2 = inr x →
     admitted credential now s) ∧
  (∀ device x, (GetParticipantBootstrap credential device now s).2 = inr x →
     admitted credential now s) ∧
  (∀ request x, (MemoryStore_AuthorizeComputeCapability credential request now s).2 = inr x →
     admitted credential now s) ∧
  (∀ update x, (UpdateParticipantPresentation credential update now s).2 = inr x →
     admitted credential now s).
Proof.
  split_and!; intros; match goal with H : (_ s).2 = inr ?x |- _ => revert x H end; apply guarded.
  all: unfold_call; guard_steps; try done; intros _ _; eapply admitted_intro;
    try eassumption; try (apply dec_stable; tauto).
  all: try (lazymatch goal with Hp : msp_participants _ !! ?id = Some ?p |- msp_participants _ !! _ = _ =>
    replace (cred_MemberID credential) with id by (symmetry; apply dec_stable; tauto); exact Hp end).
  all: by apply dec_stable.
Qed.
End participants.

(** ** The concrete Space *)

#[local] Existing Instance toy_curve.
#[local] Existing Instance toy_aead.
#[local] Existing Instance doubling_slices.

Definition succeeded {A} (res : SpaceError + A) : bool :=
  match res with inl _ => false | inr _ => true end.

Lemma succeeded_inr {A} (res : SpaceError + A) : succeeded res = true → ∃ a, res = inr a.
Proof. destruct res as [|a]; [done|]. by exists a. Qed.

Lemma alice_status_succeeds : succeeded (GetParticipantStatus alice 1500 vault_new).2 = true.
Proof. vm_cast_no_check (eq_refl true). Qed.

Lemma participant_calls_guarded_witness : admitted alice 1500 vault_new.
Proof.
  destruct (succeeded_inr _ alice_status_succeeds) as [status Hstatus].
  exact (proj1 (participant_calls_guarded alice 1500 vault_new) status Hstatus).
Defined.
