(* ===== verification/SharedSpacesCapability.v ===== *)
(** * internal/sharedspaces: compute capabilities from end to end

    What [AuthorizeComputeCapability] grants stays within the binding's
    policy; what it grants can always be issued; and what was issued verifies
    exactly for the requests that the authorization covers. *)

From S2P Require Import Prelude GoEncoding GoText Sha256 P256 RelayModel ServiceAuthority ComputePool ComputePrivacy ComputeExample SharedSpacesModel SharedSpacesChanges SharedSpacesCompute.
#[local] Open Scope Z_scope.

(** What Ed25519 promises: sizes, and that a signature made with a seed's key
    verifies under its public half. *)
Class Ed25519Laws `{Ed25519Lib} : Prop := {
  ed25519_public_length seed : zlen seed = ed25519_SeedSize →
    zlen (ed25519_Public (ed25519_NewKeyFromSeed seed)) = ed25519_PublicKeySize;
  ed25519_signature_length seed message : zlen seed = ed25519_SeedSize →
    zlen (ed25519_Sign (ed25519_NewKeyFromSeed seed) message) = ed25519_SignatureSize;
  ed25519_correct seed message : zlen seed = ed25519_SeedSize →
    ed25519_Verify (ed25519_Public (ed25519_NewKeyFromSeed seed)) message
      (ed25519_Sign (ed25519_NewKeyFromSeed seed) message) = true }.

(** ** The two packages' checks agree *)

Lemma same_identifier value : validComputeIdentifier value = validIdentifier value.
Proof.
  unfold validComputeIdentifier, validIdentifier, trimmed_text.
  destruct (utf8_ValidString value), (bool_decide (value = strings_TrimSpace value)); try done. cbn.
  rewrite bool_decide_and. done.
Qed.

Lemma same_identifiers values optional :
  validComputeIdentifiers values optional = validIdentifiers values optional.
Proof.
  unfold validComputeIdentifiers, validIdentifiers. f_equal. generalize "".
  induction values as [|value values IH]; intros previous; [done|]. simpl.
  by rewrite same_identifier, IH.
Qed.

Lemma same_digest value : validSHA256Hex value → validDigest value.
Proof.
  unfold validSHA256Hex, validDigest. intros (Hlen & [l Hl] & Hlow)%bool_decide_unpack.
  split; [intros [?|?]; congruence|]. apply some_and_Some. exists l. split; [done|].
  pose proof (hex_encode_decode _ _ (eq_sym Hlow) Hl) as He. rewrite <- He, hex_encode_length in Hlen.
  unfold sha256_Size in *. lia.
Qed.

Lemma own_key_id publicKey : validComputeKeyID (computeCapabilityKeyID publicKey).
Proof.
  unfold validComputeKeyID, computeCapabilityKeyID. apply bool_decide_pack, some_and_Some.
  eexists. rewrite b64_decode_encode. split; [done|]. split; [apply Sum256_length|done].
Qed.

(** ** Membership by binary search *)

Lemma sorted_contains values value : sortedStringsContain values value → value ∈ values.
Proof.
  unfold sortedStringsContain. intros [_ Hin]%bool_decide_unpack. by eapply list_elem_of_lookup_2.
Qed.

Lemma binding_allows `{UuidLib} binding participantID role :
  bindingAllowsParticipant binding participantID role →
  participantID ∈ sb_EligiblePrincipalIDs binding ∨ role ∈ sb_EligibleRoleIdentifiers binding.
Proof.
  unfold bindingAllowsParticipant. intros [[_ Hin]%bool_decide_unpack|Hrole%sorted_contains]%orb_prop_elim.
  - left. by eapply list_elem_of_lookup_2.
  - by right.
Qed.

Section capability.
Context `{UuidLib} `{CurveLib} `{Ed25519Lib}.

(** What an authorization was checked against. *)
Record within_policy (request : ComputeCapabilityRequest) (participantID : UUID) (role : Role)
    (epoch : uint64) (binding : SpaceBinding) (now : int64) (a : ComputeCapabilityAuthorization)
    : Prop := mkWithin {
  wi_request : ComputeCapabilityRequest_Validate request = None;
  wi_binding : SpaceBinding_Validate binding = None;
  wi_current : ccq_IssuedAtMilliseconds request ≤ now < ccq_ExpiresAtMilliseconds request;
  wi_role : participantID ≠ uuid_Nil ∧ Role_Valid role;
  wi_scope : sb_SpaceID binding = ccq_SpaceID request ∧ sb_BindingID binding = ccq_BindingID request ∧
    ar_PoolID (sb_PoolAuthority binding) = ccq_PoolID request;
  wi_revision : sb_Revision binding = ccq_ExpectedBindingRevision request ∧
    sb_SourceAuthorityRevision binding = epoch ∧ ccq_ExpectedKeyEpoch request = epoch;
  wi_eligible : bindingAllowsParticipant binding participantID role;
  wi_operation : sortedStringsContain (sb_AllowedOperations binding) (ccq_Operation request);
  wi_resources : computeResourceCeilingContains (sb_ResourceCeiling binding)
    (ccq_ResourceRequest request);
  wi_result : a = mkComputeCapabilityAuthorization SchemaVersion (ccq_RetryID request) participantID
      (ccq_SpaceID request) (ccq_BindingID request) (ccq_PoolID request)
      (ar_AcceptedManifestRevision (sb_PoolAuthority binding))
      (ar_AcceptedManifestDigest (sb_PoolAuthority binding)) (ccq_Operation request)
      (sb_AllowedProviderIdentifiers binding) (ccq_ResourceRequest request)
      (sb_BudgetCeiling binding) (sb_PricingRevision binding) (sb_DataUseConstraints binding)
      (sb_Revision binding) (sb_SourceAuthorityRevision binding) epoch
      (ccq_IssuedAtMilliseconds request) (ccq_ExpiresAtMilliseconds request) }.

Lemma authorized_within request participantID role epoch binding now a :
  AuthorizeComputeCapability request participantID role epoch binding now = inr a →
  within_policy request participantID role epoch binding now a.
Proof.
  unfold AuthorizeComputeCapability.
  destruct (_ >>? _) eqn:Hv; [done|]. intros [= <-]. rewrite !err_then_None, !err_when_None in Hv.
  destruct Hv as (Hrequest & Hnow & Hbinding & Hscope & Hpolicy).
  apply mkWithin.
  - exact Hrequest.
  - by apply eq_None_not_Some.
  - clear -Hnow. destruct (decide (ccq_IssuedAtMilliseconds request > now)); [tauto|].
    destruct (decide (now ≥ ccq_ExpiresAtMilliseconds request)); [tauto|]. lia.
  - split; [tauto|apply dec_stable; tauto].
  - split_and!; apply dec_stable; tauto.
  - split; [apply dec_stable; tauto|]. assert (epoch = ccq_ExpectedKeyEpoch request) by (apply dec_stable; tauto).
    split; [apply dec_stable; tauto|done].
  - apply dec_stable. tauto.
  - apply dec_stable. tauto.
  - apply dec_stable. tauto.
  - done.
Qed.

(** Its claims are valid for any signing authority. *)
Lemma within_policy_valid request participantID role epoch binding now a issuer keyID :
  within_policy request participantID role epoch binding now a →
  validComputeIssuer issuer → validComputeKeyID keyID →
  ComputeCapabilityClaims_Validate (claims_of a issuer keyID) = None.
Proof.
  intros [Hrequest Hbinding _ [Hsubject _] _ (_ & Hepoch & _) _ _ _ ->] Hissuer Hkey.
  unfold ComputeCapabilityRequest_Validate in Hrequest. rewrite err_then_None, !err_when_None in Hrequest.
  destruct Hrequest as [Hrequest Hresources].
  unfold SpaceBinding_Validate in Hbinding. rewrite err_then_None, !err_when_None in Hbinding.
  destruct Hbinding as [Hbinding Hmatches].
  assert (AuthorityReference_Validate (sb_PoolAuthority binding) = None) as Hauthority
    by (apply eq_None_not_Some; tauto).
  unfold AuthorityReference_Validate in Hauthority. rewrite err_when_None in Hauthority.
  unfold ComputeCapabilityClaims_Validate. cbn -[MaximumComputeCapabilityLifetimeMillis].
  apply err_then_None. split.
  - apply err_when_None. rewrite same_identifiers.
    assert (validDigest (ar_AcceptedManifestDigest (sb_PoolAuthority binding)))
      by (apply same_digest, dec_stable; tauto).
    assert (validComputeDataUseConstraints (sb_DataUseConstraints binding)).
    { unfold validComputeDataUseConstraints. apply andb_prop_intro.
      split; [apply bool_decide_pack, dec_stable; tauto|by apply dec_stable]. }
    rewrite Hepoch in *. unfold SchemaVersion. tauto.
  - unfold from_contract. by rewrite (proj2 (eq_None_not_Some _) Hresources).
Qed.

(** The signer's own key in a verifier. *)
Lemma verifier_keys_find keys : ∀ verifier0 verifier key,
  verifier_keys keys verifier0 = inr verifier → key ∈ keys ∨ verifier0 !! cvk_KeyID key =
    Some (mkComputeCapabilityVerifierKey (cvk_Issuer key) (decoded (cvk_PublicKey key))) →
  verifier !! cvk_KeyID key =
    Some (mkComputeCapabilityVerifierKey (cvk_Issuer key) (decoded (cvk_PublicKey key))).
Proof.
  induction keys as [|k keys IH]; intros verifier0 verifier key; simpl.
  { intros [= ->] [?%elem_of_nil|?]; done. }
  destruct (_ >>? _) eqn:Hv; [done|]. rewrite err_then_None, err_when_None in Hv. destruct Hv as [_ Hfresh].
  intros Hrec Hkey. apply (IH _ _ _ Hrec).
  destruct (decide (cvk_KeyID key = cvk_KeyID k)) as [Heq|Hne].
  - destruct Hkey as [[->|?]%elem_of_cons|Hin]; [|by left|].
    + right. by rewrite lookup_insert_eq.
    + rewrite Heq in Hin. by destruct Hfresh.
  - rewrite lookup_insert_ne by done. destruct Hkey as [[->|?]%elem_of_cons|Hin]; [done|by left|by right].
Qed.

Lemma signer_of seed issuer signer :
  NewComputeCapabilitySigner seed issuer = inr signer →
  zlen seed = ed25519_SeedSize ∧ validComputeIssuer issuer ∧
  signer = mkComputeCapabilitySigner issuer
    (computeCapabilityKeyID (ed25519_Public (ed25519_NewKeyFromSeed seed)))
    (ed25519_NewKeyFromSeed seed) (ed25519_Public (ed25519_NewKeyFromSeed seed)).
Proof.
  unfold NewComputeCapabilitySigner. case_decide as Hd; [done|]. intros [= <-].
  split; [apply dec_stable; tauto|]. split; [apply dec_stable; tauto|done].
Qed.

Lemma checked_inr {A} (o : option SpaceError) (a b : A) :
  match o with Some err => inl err | None => inr a end = inr b ↔ o = None ∧ a = b.
Proof. destruct o; split; [done|by intros []|by intros [= ->]|by intros [_ ->]]. Qed.

Lemma replicated_key : validComputeKeyID (b64_EncodeToString (replicate 32 (byte_of 0))).
Proof. by vm_compute. Qed.

(** When a verifier that trusts the signer accepts what the signer signed. *)
Lemma signed_verifies `{!Ed25519Laws} seed issuer signer keys verifier claims0 requirement now claims :
  NewComputeCapabilitySigner seed issuer = inr signer →
  NewComputeCapabilityVerifier keys = inr verifier →
  ComputeCapabilitySigner_VerificationKey signer ∈ keys →
  ccc_Issuer claims0 = ccs_issuer signer → ccc_KeyID claims0 = ccs_keyID signer →
  ComputeCapabilityClaims_Validate claims0 = None →
  ComputeCapabilityVerifier_Verify verifier (mkSignedComputeCapability SchemaVersion
    ComputeCapabilityAlgorithm claims0 (b64_EncodeToString
      (ed25519_Sign (ccs_privateKey signer) (computeCapabilitySignaturePayload claims0))))
    requirement now = inr claims ↔
  claims = claims0 ∧ ccc_IssuedAtMilliseconds claims0 ≤ now < ccc_ExpiresAtMilliseconds claims0 ∧
  ¬ outside_scope claims0 requirement ∧
  (ccr_ProviderIdentifier requirement = "" ∨
   sortedStringsContain (ccc_AllowedProviderIdentifiers claims0) (ccr_ProviderIdentifier requirement)) ∧
  computeResourceCeilingContains (ccc_ResourceCeiling claims0) (ccr_ResourceRequest requirement).
Proof.
  intros (Hseed & _ & ->)%signer_of Hverifier Htrusted Hissuer Hkey Hvalid. simpl in Hissuer, Hkey.
  set (public := ed25519_Public (ed25519_NewKeyFromSeed seed)) in *.
  pose proof (verifier_keys_find keys ∅ verifier _ Hverifier (or_introl Htrusted)) as Hfind.
  cbn [ComputeCapabilitySigner_VerificationKey cvk_KeyID cvk_Issuer cvk_PublicKey ccs_keyID ccs_issuer
    ccs_publicKey] in Hfind. fold public in Hfind.
  unfold ComputeCapabilityVerifier_Verify. cbn [scc_Claims scc_Signature ccs_privateKey].
  rewrite Hkey, Hfind. cbn [cck_issuer cck_publicKey].
  assert (∀ l, decoded (b64_EncodeToString l) = l) as Hdecoded
    by (intros l; unfold decoded; by rewrite b64_decode_encode).
  rewrite !Hdecoded. unfold public. rewrite ed25519_correct by done.
  assert (SignedComputeCapability_Validate (mkSignedComputeCapability SchemaVersion
    ComputeCapabilityAlgorithm claims0 (b64_EncodeToString (ed25519_Sign (ed25519_NewKeyFromSeed seed)
      (computeCapabilitySignaturePayload claims0)))) = None) as Hsigned.
  { unfold SignedComputeCapability_Validate. cbn [scc_Version scc_Algorithm scc_Claims scc_Signature].
    apply err_then_None. split; [|done]. apply err_when_None. rewrite b64_decode_encode.
    intros [?|[?|Hbad]]; [done|done|]. rewrite none_or_spec in Hbad. specialize (Hbad _ eq_refl).
    rewrite ed25519_signature_length in Hbad by done. by destruct Hbad. }
  rewrite Hsigned, checked_inr, !err_then_None, !err_when_None. clear -Hissuer.
  split.
  - intros ((_ & _ & Htime & Hscope & Hprovider & Hresources) & <-). split; [done|].
    split; [destruct (decide (now < ccc_IssuedAtMilliseconds claims0)), (decide (now ≥ ccc_ExpiresAtMilliseconds claims0)); [exfalso; tauto..|lia]|].
    split; [done|]. split; [|by apply dec_stable].
    destruct (decide (ccr_ProviderIdentifier requirement = "")); [by left|right]. apply dec_stable. tauto.
  - intros (-> & Htime & Hscope & Hprovider & Hresources). split; [|done].
    split; [done|]. split; [split; [intros Hne; by apply Hne|done]|]. split; [intros [?|?]; lia|]. split; [done|].
    split; [|tauto]. intros [Hne Hno]. by destruct Hprovider.
Qed.

(** [C23] What a Space authorizes can be issued and verifies exactly.  When
    [AuthorizeComputeCapability] grants a request, the caller is one of the
    principals or roles of the binding, the operation is one of its allowed
    ones, and the resources fit its ceiling.  The grant can always be issued
    as a signed capability; and a verifier that trusts the signer's key
    accepts this capability for a requirement exactly while it is in time, the
    requirement asks for nothing outside its scope, the provider, if one is
    named, is allowed, and the resources fit; it then returns the claims that
    were authorized. *)
Theorem authorized_capability_verifies `{!Ed25519Laws} seed issuer signer keys verifier request
    participantID role epoch binding now a :
  NewComputeCapabilitySigner seed issuer = inr signer →
  NewComputeCapabilityVerifier keys = inr verifier →
  ComputeCapabilitySigner_VerificationKey signer ∈ keys →
  AuthorizeComputeCapability request participantID role epoch binding now = inr a →
  let granted := claims_of a (ccs_issuer signer) (ccs_keyID signer) in
  ((participantID ∈ sb_EligiblePrincipalIDs binding ∨ role ∈ sb_EligibleRoleIdentifiers binding) ∧
   ccq_Operation request ∈ sb_AllowedOperations binding ∧
   computeResourceCeilingContains (sb_ResourceCeiling binding) (ccc_ResourceCeiling granted)) ∧
  ∃ capability, ComputeCapabilitySigner_Issue signer a = inr capability ∧
    ∀ requirement later claims,
      ComputeCapabilityVerifier_Verify verifier capability requirement later = inr claims ↔
      claims = granted ∧
      ccq_IssuedAtMilliseconds request ≤ later < ccq_ExpiresAtMilliseconds request ∧
      ¬ outside_scope granted requirement ∧
      (ccr_ProviderIdentifier requirement = "" ∨
       sortedStringsContain (sb_AllowedProviderIdentifiers binding)
         (ccr_ProviderIdentifier requirement)) ∧
      computeResourceCeilingContains (ccq_ResourceRequest request) (ccr_ResourceRequest requirement).
Proof.
  intros Hsigner Hverifier Htrusted Ha%authorized_within granted.
  pose proof (signer_of _ _ _ Hsigner) as (Hseed & Hissuer & Heq).
  assert (validComputeKeyID (ccs_keyID signer)) as Hkey by (subst signer; apply own_key_id).
  assert (validComputeIssuer (ccs_issuer signer)) as Hissuer' by by subst signer.
  pose proof (within_policy_valid _ _ _ _ _ _ _ _ _ Ha Hissuer' Hkey) as Hvalid.
  split.
  - destruct Ha as [_ _ _ _ _ _ Heligible Hoperation Hresources ->].
    split; [by apply binding_allows|]. split; [by apply sorted_contains|exact Hresources].
  - eexists. split.
    + unfold ComputeCapabilitySigner_Issue, ComputeCapabilityAuthorization_Validate.
      rewrite (within_policy_valid _ _ _ _ _ _ _ "authorization" _ Ha); [|done|by apply replicated_key].
      unfold ComputeCapabilitySigner_Sign. rewrite (proj2 (err_then_None _ _)); [reflexivity|].
      split; [apply err_when_None; by intros [?|?]|exact Hvalid].
    + intros requirement later claims.
      etransitivity; [exact (signed_verifies _ _ _ _ _ granted _ _ _ Hsigner Hverifier Htrusted eq_refl eq_refl Hvalid)|].
      subst granted. by destruct Ha as [_ _ _ _ _ _ _ _ _ ->].
Qed.
End capability.

(** ** A concrete binding and capability *)

#[local] Existing Instance rfc4122.
#[local] Existing Instance toy_curve.
#[local] Existing Instance toy_ed25519.

Lemma toy_ed25519_laws : Ed25519Laws.
Proof.
  assert (∀ seed : bytes, zlen seed = ed25519_SeedSize → length seed = 32%nat) as Hlength.
  { intros seed Hs. unfold zlen, ed25519_SeedSize in Hs. lia. }
  split; intros seed; [|intros message..]; intros Hs%Hlength; cbn [ed25519_Public ed25519_NewKeyFromSeed
    ed25519_Sign ed25519_Verify toy_ed25519]; rewrite ?drop_app_length' by done.
  - apply Sum256_length.
  - unfold toy_mac. by rewrite zlen_app, !Sum256_length.
  - by apply bool_decide_eq_true.
Qed.
#[local] Existing Instance toy_ed25519_laws.

Definition constraint_for (class : PrivacyClass) : DataUseConstraint :=
  mkDataUseConstraint class AudienceInvitedSpace PlaintextBoundaryPrivateInfrastructure None
    [NetworkEgressNone] None [TrainingProhibited] [ToolAccessNone] ResultSharedImportAllowed
    ControlConsentRequired.

Definition space_binding : SpaceBinding :=
  mkSpaceBinding ComputePool.SchemaVersion 31%N 5%N
    (mkAuthorityReference ComputePool.SchemaVersion pool_id
       (mkAuthorityTrustAnchor SignatureSchemaVersion (mkScope ScopeComputePool pool_id)
          pool_authority_id (b64_EncodeToString (es256_key 1)) (es256_fingerprint 1))
       1 (hex_EncodeToString (Sum256 [])))
    ["summarize"; "transcribe"] [] ["host"; "participant"] ["provider-a"; "provider-b"] ceiling budget
    1 (constraint_for <$> privacyClasses) 2 3 10 20.

Definition compute_request : ComputeCapabilityRequest :=
  mkComputeCapabilityRequest SharedSpacesModel.SchemaVersion 601%N 5%N 31%N pool_id "transcribe"
    (mkResourceCeiling 512 512 1024 1000) 2 3 1000 61000.

Definition seed : bytes := replicate 32 (byte_of 9).
Definition issuer_name : string := "https://spaces.example".

Definition the_signer : ComputeCapabilitySigner :=
  mkComputeCapabilitySigner issuer_name (computeCapabilityKeyID (Sum256 seed)) (seed ++ Sum256 seed)
    (Sum256 seed).

Definition trusted_keys : list ComputeCapabilityVerificationKey :=
  [ComputeCapabilitySigner_VerificationKey the_signer].

Definition the_verifier : gmap string computeCapabilityVerifierKey := Eval vm_compute in
  match NewComputeCapabilityVerifier trusted_keys with inr verifier => verifier | inl _ => ∅ end.

Definition compute_grant : ComputeCapabilityAuthorization := Eval vm_compute in
  match AuthorizeComputeCapability compute_request 12%N RoleParticipant 3 space_binding 2000 with
  | inr a => a
  | inl _ => mkComputeCapabilityAuthorization 0 0%N 0%N 0%N 0%N 0%N 0 "" "" [] ceiling budget 0 [] 0 0 0 0 0
  end.

(** A worker that asks for this Space, the second provider and what it needs. *)
Definition worker_requirement : ComputeCapabilityRequirement :=
  mkComputeCapabilityRequirement issuer_name uuid_Nil 5%N 31%N pool_id 1 "" 3 "provider-b" "transcribe"
    (mkResourceCeiling 256 256 1024 500) 3.

Lemma compute_example_runs :
  NewComputeCapabilitySigner seed issuer_name = inr the_signer ∧
  NewComputeCapabilityVerifier trusted_keys = inr the_verifier ∧
  AuthorizeComputeCapability compute_request 12%N RoleParticipant 3 space_binding 2000 =
    inr compute_grant.
Proof. split_and!; vm_compute; reflexivity. Qed.

Lemma authorized_capability_verifies_witness :
  ∃ capability, ComputeCapabilitySigner_Issue the_signer compute_grant = inr capability ∧
    ComputeCapabilityVerifier_Verify the_verifier capability worker_requirement 5000 =
      inr (claims_of compute_grant issuer_name (ccs_keyID the_signer)).
Proof.
  destruct compute_example_runs as (Hsigner & Hverifier & Hauthorized).
  destruct (authorized_capability_verifies seed issuer_name the_signer trusted_keys the_verifier
    compute_request 12%N RoleParticipant 3 space_binding 2000 compute_grant Hsigner Hverifier
    ltac:(by left) Hauthorized) as [_ (capability & Hissued & Hverifies)].
  exists capability. split; [exact Hissued|]. apply Hverifies. split; [reflexivity|].
  split; [split; [discriminate|reflexivity]|]. split; [by intros Hout; apply (bool_decide_pack _) in Hout|].
  split; [by right; vm_compute|by vm_compute].
Defined.
