(* ===== verification/SharedSpacesKeys.v ===== *)
(** * internal/sharedspaces: who gets the content keys

    Revoking a participant of a Secure Space gives the next content key to
    exactly the devices that remain; a managed Space always has the wrapped
    key of its current epoch. *)

From S2P Require Import Prelude GoEncoding GoText Sha256 P256 RelayModel RelayState RelayTenant RelayMember RelaySubscription RelayDelivery RelayCheckpoint RelayMachine RelayReachable RelayExample ServiceAuthority KeyCustody ComputePool ComputeExample DeviceSyncExample SharedSpacesModel SharedSpacesChanges SharedSpacesCompute SharedSpaces SharedSpacesAuthority SharedSpacesSpec SharedSpacesInvariant SharedSpacesAudit.
#[local] Open Scope Z_scope.

Section keys.
Context `{UuidLib} `{ManifestLib} `{CurveLib} `{AeadLib} `{SliceLib}.

(** ** The devices that the next key must reach *)

(** A device of one of the participants, neither revoked nor excluded. *)
Definition expects (participants : list ParticipantV) (counts : ParticipantV → Prop)
    (excluded : ParticipantV → option UUID) (target : GrantTarget) (fingerprint : string) : Prop :=
  ∃ p key, p ∈ participants ∧ counts p ∧ key ∈ elements (prt_DeviceKeys p) ∧
    excluded p ≠ Some (pdk_DeviceID key) ∧ device_active key ∧
    target = (prt_ParticipantID p, pdk_DeviceID key) ∧ fingerprint = pdk_AgreementKeyFingerprint key.

(** Every entry of [m'] is one of [m] or satisfies [P], and [m'] has an entry
    wherever [m] has one or [P] asks for one. *)
Definition extends_by {A} (P : GrantTarget → A → Prop) (m m' : gmap GrantTarget A) : Prop :=
  (∀ t a, m' !! t = Some a → m !! t = Some a ∨ P t a) ∧
  (∀ t, is_Some (m !! t) ∨ (∃ a, P t a) → is_Some (m' !! t)).

Lemma extends_by_id {A} (P : GrantTarget → A → Prop) m : (∀ t a, ¬ P t a) → extends_by P m m.
Proof. intros HP. split; [by left|]. intros t [?|[a Ha]]; [done|]. by destruct (HP t a). Qed.

Lemma extends_by_trans {A} (P Q R : GrantTarget → A → Prop) m1 m2 m3 :
  extends_by P m1 m2 → extends_by Q m2 m3 → (∀ t a, R t a ↔ P t a ∨ Q t a) → extends_by R m1 m3.
Proof.
  intros [H12 H12'] [H23 H23'] HR. split.
  - intros t a [Ha|Ha]%H23; [apply H12 in Ha as [?|?]|]; rewrite ?HR; auto.
  - intros t [Hm|[a Ha]]; apply H23'; [left; apply H12'; by left|].
    apply HR in Ha as [?|?]; [left; apply H12'|]; right; by exists a.
Qed.

Lemma extends_by_insert {A} t (a : A) m : extends_by (fun t' a' => t' = t ∧ a' = a) m (<[t := a]> m).
Proof.
  split; intros t'.
  - intros a'. destruct (decide (t' = t)) as [->|]; [rewrite lookup_insert_eq|rewrite lookup_insert_ne by done].
    + intros [= <-]. by right.
    + by left.
  - destruct (decide (t' = t)) as [->|]; [by rewrite lookup_insert_eq|rewrite lookup_insert_ne by done].
    intros [?|(a' & ? & _)]; done.
Qed.

Lemma expect_devices_spec id excluded keys scope :
  extends_by (fun t fp => ∃ key, key ∈ keys ∧ excluded ≠ Some (pdk_DeviceID key) ∧ device_active key ∧
      t = (id, pdk_DeviceID key) ∧ fp = pdk_AgreementKeyFingerprint key)
    (gsc_expectedTargets scope) (gsc_expectedTargets (expect_devices id excluded keys scope)).
Proof.
  revert scope. induction keys as [|key keys IH]; intros scope; simpl.
  { apply extends_by_id. intros t a (key & Hkey & _). by apply elem_of_nil in Hkey. }
  destruct (decide (excluded = Some (pdk_DeviceID key))) as [He|He];
    [|destruct (decide (device_active key)) as [Ha|Ha]].
  - eapply extends_by_trans; [apply (extends_by_id (fun _ _ => False)); tauto|exact (IH (mkGrantScope _ _ _ _))|].
    intros t a. setoid_rewrite elem_of_cons. naive_solver.
  - eapply extends_by_trans; [apply extends_by_insert|exact (IH (mkGrantScope _ _ _ _))|].
    intros t a. setoid_rewrite elem_of_cons. naive_solver.
  - eapply extends_by_trans; [apply (extends_by_id (fun _ _ => False)); tauto|exact (IH scope)|].
    intros t a. setoid_rewrite elem_of_cons. naive_solver.
Qed.

Lemma expect_participants_spec spaceID skipped `{∀ p, Decision (skipped p)} excluded participants
    scope scope' :
  expect_participants spaceID skipped excluded participants scope = inr scope' →
  extends_by (expects participants (fun p => ¬ skipped p) excluded) (gsc_expectedTargets scope)
    (gsc_expectedTargets scope').
Proof.
  revert scope. induction participants as [|p participants IH]; intros scope; simpl.
  { intros [= <-]. apply extends_by_id. intros t a (p & key & Hp & _). by apply elem_of_nil in Hp. }
  destruct (decide (_ ≠ _)); [done|]. destruct (decide (skipped p)) as [Hs|Hs]; intros Hrec%IH.
  - eapply extends_by_trans; [apply (extends_by_id (fun _ _ => False)); tauto|exact Hrec|].
    intros t a. unfold expects. setoid_rewrite elem_of_cons. naive_solver.
  - unfold expect_participant in Hrec. eapply extends_by_trans; [|exact Hrec|].
    { exact (expect_devices_spec _ _ _ (mkGrantScope _ _ _ _)). }
    intros t a. unfold expects. setoid_rewrite elem_of_cons. naive_solver.
Qed.

(** ** The grants of a revocation *)

(** A grant that the next epoch needs. *)
Definition grant_fits (r : ParticipantRevocation) (scope : GrantScope) (now : int64)
    (grant : ParticipantKeyGrant) : Prop :=
  ParticipantKeyGrant_Validate grant = None ∧ kgr_SpaceID grant = prv_SpaceID r ∧
  kgr_KeyEpoch grant = prv_NextKeyEpoch r ∧ kgr_CreatedAtMilliseconds grant ≤ now ∧
  gsc_expectedTargets scope !! grant_target grant = Some (kgr_RecipientAgreementKeyFingerprint grant) ∧
  ∃ issuer, gsc_authorizedIssuers scope !! kgr_IssuerParticipantID grant = Some issuer ∧
    ParticipantSigningKey_MatchesGrantSignature issuer (kgr_Signature grant).

Lemma revocation_grants_fit r scope now seen grants :
  revocation_grants r scope now seen grants = None →
  Forall (grant_fits r scope now) grants ∧ NoDup (grant_target <$> grants) ∧
  (∀ grant, grant ∈ grants → grant_target grant ∉ seen).
Proof.
  revert seen. induction grants as [|grant grants IH]; intros seen; simpl.
  { intros _. split; [constructor|]. split; [constructor|]. by intros grant ?%elem_of_nil. }
  rewrite !err_then_None, !err_when_None.
  intros (Hvalid & Hscope & Hepoch & Hcreated & _ & Htarget & _ & Hissuer & Hseen & Hrest).
  destruct (IH _ Hrest) as (Hfits & Hnodup & Hfresh). split; [|split].
  - constructor; [|done]. split; [done|]. split; [apply dec_stable; tauto|].
    split; [by apply dec_stable|]. split; [lia|]. split; [by apply dec_stable|].
    destruct (gsc_authorizedIssuers scope !! _) as [issuer|]; [|by destruct Hissuer].
    exists issuer. split; [done|]. by apply dec_stable.
  - simpl. constructor; [|done]. intros (grant' & Heq & Hin)%list_elem_of_fmap.
    apply (Hfresh _ Hin). rewrite <- Heq. set_solver.
  - intros grant' [->|Hin]%elem_of_cons; [done|]. apply Hfresh in Hin. set_solver.
Qed.

(** As many grants as targets, all for different ones: every target has one. *)
Lemma grants_cover (targets : gmap GrantTarget string) (grants : list ParticipantKeyGrant) :
  NoDup (grant_target <$> grants) → (∀ grant, grant ∈ grants → is_Some (targets !! grant_target grant)) →
  zlen grants = zsize targets → ∀ t, is_Some (targets !! t) → t ∈ grant_target <$> grants.
Proof.
  intros Hnodup Hsub Hlen t Ht.
  assert (list_to_set (grant_target <$> grants) = (dom targets : gset GrantTarget)) as Heq.
  { apply set_subseteq_size_eq.
    - intros x (grant & -> & Hin)%elem_of_list_to_set%list_elem_of_fmap. by apply elem_of_dom, Hsub.
    - rewrite size_list_to_set, length_fmap, size_dom by done. unfold zlen, zsize in Hlen. lia. }
  apply elem_of_dom in Ht. rewrite <- Heq in Ht. by apply elem_of_list_to_set in Ht.
Qed.

(** The map that [put_grants] builds. *)
Lemma index_lookup grants : ∀ (m : gmap GrantTarget ParticipantKeyGrant) t grant,
  foldl (fun index grant => <[grant_target grant := grant]> index) m grants !! t = Some grant →
  grant ∈ grants ∧ t = grant_target grant ∨ m !! t = Some grant.
Proof.
  induction grants as [|g grants IH]; intros m t grant; simpl; [by right|].
  intros [[Hin ->]|Hm]%IH; [left; by split; [right|]|].
  destruct (decide (t = grant_target g)) as [->|]; [rewrite lookup_insert_eq in Hm|rewrite lookup_insert_ne in Hm by done].
  - apply (inj Some) in Hm as ->. left. by split; [left|].
  - by right.
Qed.

Lemma index_covers grants : ∀ (m : gmap GrantTarget ParticipantKeyGrant) t,
  t ∈ grant_target <$> grants ∨ is_Some (m !! t) →
  is_Some (foldl (fun index grant => <[grant_target grant := grant]> index) m grants !! t).
Proof.
  induction grants as [|g grants IH]; intros m t; simpl; [by intros [?%elem_of_nil|]|].
  intros Ht. apply IH. destruct (decide (t = grant_target g)) as [->|Hne]; [right; by rewrite lookup_insert_eq|].
  rewrite lookup_insert_ne by done. destruct Ht as [[?|?]%elem_of_cons|?]; [done|by left|by right].
Qed.

(** ** Managed keys *)

(** A managed Space has, for each of its epochs, a wrapped key that was
    generated for it. *)
Definition keys_good (custodian : option AEAD) (id : UUID) (space : memorySpace) : Prop :=
  space_mode space = SecurityModeManaged → ∀ epoch, InitialKeyEpoch ≤ epoch ≤ msp_keyEpoch space →
    ∃ w, msp_managedContentKeys space !! epoch = Some w ∧
      wrapped_for custodian SecurityModeManaged id epoch (Some w).

Definition all_keys_good (a : Authority) : Prop :=
  ∀ id space, au_spaces a !! id = Some space → keys_good (au_custodian a) id space.

Lemma keys_kept custodian id space space' :
  keys_good custodian id space → space_mode space' = space_mode space →
  msp_managedContentKeys space' = msp_managedContentKeys space →
  (msp_keyEpoch space' = msp_keyEpoch space ∨ space_mode space ≠ SecurityModeManaged) →
  keys_good custodian id space'.
Proof.
  unfold keys_good. intros Hgood -> -> [-> | Hne]; [done|]. intros Hm. by destruct Hne.
Qed.

Lemma all_keys_change a id space :
  all_keys_good a → keys_good (au_custodian a) id space → all_keys_good (change_space id space a).
Proof.
  intros Ha Hgood id' space'. simpl. destruct (decide (id' = id)) as [->|].
  - rewrite lookup_insert_eq. intros [= <-]. exact Hgood.
  - rewrite lookup_insert_ne by done. apply Ha.
Qed.

Lemma keys_provisioned custodian (p : SpaceProvisioning DeviceKeys) keys result wrapped binding :
  wrapped_for custodian (spv_SecurityMode p) (spv_SpaceID p) InitialKeyEpoch wrapped →
  keys_good custodian (spv_SpaceID p)
    (provisioned_space (provisioning_with_keys (fun _ => keys) p) result wrapped binding).
Proof.
  intros Hwrapped Hmode epoch Hepoch.
  set (space := provisioned_space _ _ _ _) in *.
  assert (space_mode space = spv_SecurityMode p ∧ msp_keyEpoch space = InitialKeyEpoch ∧
    msp_managedContentKeys space =
      match wrapped with Some w => {[InitialKeyEpoch := w]} | None => ∅ end) as (Hm & He & Hk).
  { unfold space, provisioned_space.
    change (spv_InitialSecureRosterAttestation (provisioning_with_keys (fun _ => keys) p))
      with (spv_InitialSecureRosterAttestation p).
    by destruct (spv_InitialSecureRosterAttestation p), wrapped. }
  rewrite Hm in Hmode. rewrite He in Hepoch. assert (epoch = InitialKeyEpoch) as -> by lia.
  rewrite Hmode in Hwrapped. rewrite Hk. destruct wrapped as [w|]; [|done].
  exists w. by rewrite lookup_singleton_eq.
Qed.

Lemma keys_revoked custodian r wrapped now participant space :
  keys_good custodian (prv_SpaceID r) space → ParticipantRevocation_Validate r = None →
  prv_PreviousKeyEpoch r = msp_keyEpoch space →
  wrapped_for custodian (space_mode space) (prv_SpaceID r) (prv_NextKeyEpoch r) wrapped →
  keys_good custodian (prv_SpaceID r) (without_participant r wrapped now participant space).
Proof.
  intros Hgood Hvalid Hprevious Hwrapped Hmode epoch Hepoch.
  set (space' := without_participant _ _ _ _ _) in *.
  assert (space_mode space' = space_mode space ∧ msp_keyEpoch space' = prv_NextKeyEpoch r ∧
    (wrapped ≠ None → msp_managedContentKeys space' =
       match wrapped with Some w => <[prv_NextKeyEpoch r := w]> (msp_managedContentKeys space)
       | None => ∅ end)) as (Hm & He & Hk).
  { unfold space', without_participant, rotate_keys, put_grants.
    destruct (prv_SecureRosterAttestation r), wrapped; try case_decide; done. }
  rewrite Hm in Hmode. rewrite Hmode in Hwrapped. destruct wrapped as [w|]; [|done].
  rewrite Hk by done. rewrite He in Hepoch.
  destruct (decide (epoch = prv_NextKeyEpoch r)) as [->|Hne].
  { exists w. by rewrite lookup_insert_eq. }
  rewrite lookup_insert_ne by done. apply Hgood; [done|]. rewrite <- Hprevious.
  apply err_when_None in Hvalid. unfold u64 in Hvalid.
  assert ((prv_PreviousKeyEpoch r + 1) mod 2 ^ 64 ≤ prv_PreviousKeyEpoch r + 1 ∨
    prv_PreviousKeyEpoch r < InitialKeyEpoch) as [?|?]; unfold InitialKeyEpoch in *; [|lia..].
  destruct (decide (0 ≤ prv_PreviousKeyEpoch r + 1)); [left; by apply Z.mod_le|right; lia].
Qed.

Lemma step_keys_good s a : all_keys_good (authority s) → AuthorityStep s a → all_keys_good a.
Proof.
  intros Hs Hstep. destruct Hstep as [|id space space' Hspace [Hsame _]|p keys result wrapped binding _ _ Hw
    |c i keys space Hspace _ _ _ _|c claim record result space now i _ _ _ Hspace _ _ _ _
    |c x record result space _ _ _ _ _|c x participant space Hspace _ _ _ _ _ _
    |c e grant keys participant space now Hspace _ _ _ _ _ _
    |c r participant space now Hspace _ _ _ _ Hgrants _
    |c r wrapped participant space now Hspace Hvalid _ Hprevious _ _ Hw _
    |c x binding space Hspace _ _ _ _ _ _]; try exact Hs;
    [|apply (all_keys_change (authority s)); [exact Hs|by apply keys_provisioned]|..];
    refine (all_keys_change (authority s) _ _ Hs _); pose proof (Hs _ _ Hspace) as Hold.
  - eapply keys_kept; [exact Hold|by rewrite Hsame..|left; by rewrite Hsame].
  - unfold admit_participant. eapply keys_kept; [exact Hold|..];
      destruct (inv_ActivationSecureRosterAttestation i), (inv_KeyGrant i); auto.
  - unfold with_role. eapply keys_kept; [exact Hold|..]; destruct (prc_SecureRosterAttestation x); auto.
  - unfold with_device. eapply keys_kept; [exact Hold|..]; destruct (pde_SecureRosterAttestation e); auto.
  - unfold without_device, put_grants. assert (space_mode space ≠ SecurityModeManaged) as Hm.
    { intros Hm. unfold ParticipantDeviceRevocation_ValidateKeyGrants in Hgrants. by rewrite decide_True in Hgrants. }
    eapply keys_kept; [exact Hold|..]; destruct (pdv_SecureRosterAttestation r); case_decide; auto.
  - by eapply keys_revoked.
  - eapply keys_kept; [exact Hold|..]; auto.
Qed.

Lemma reachable_keys_good s : reachable s → all_keys_good (authority s).
Proof using All.
  intros Hs. induction Hs as [ttl rand custodians|s op _ IH].
  - intros id space. unfold start, NewMemoryStore, authority. repeat case_match; simpl; by rewrite lookup_empty.
  - eapply step_keys_good; [exact IH|apply perform_authority].
Qed.

Lemma Generate_unwraps `{!AeadLaws} custodian id epoch r r' plaintext w :
  Generate custodian id epoch r = (r', inr (plaintext, w)) →
  zlen plaintext = ContentKeySize ∧ Unwrap custodian id epoch w = inr plaintext.
Proof.
  unfold Generate, rand_Read, bind, ret. destruct custodian as [aead|]; [|done].
  destruct (Wrap _ _ _ _ _) as [r1 [|w']] eqn:Hw; [done|]. intros [= _ <- <-].
  apply Wrap_wrapping in Hw as (Hid & He & Hp & ->). split; [done|].
  by apply wrapping_accepted.
Qed.

(** ** A key once stored stays *)

(** The keys of the epochs that a managed Space has had stay as they are. *)
Record keys_stay (space space' : memorySpace) : Prop := mkKeysStay {
  ks_mode : space_mode space' = space_mode space;
  ks_epoch : msp_keyEpoch space ≤ msp_keyEpoch space';
  ks_keys : space_mode space = SecurityModeManaged → ∀ epoch, epoch ≤ msp_keyEpoch space →
    msp_managedContentKeys space' !! epoch = msp_managedContentKeys space !! epoch }.

Lemma keys_stay_same space space' :
  space_mode space' = space_mode space → msp_keyEpoch space ≤ msp_keyEpoch space' →
  msp_managedContentKeys space' = msp_managedContentKeys space → keys_stay space space'.
Proof. intros Hmode Hepoch Hkeys. split; [done..|]. intros _ epoch _. by rewrite Hkeys. Qed.

Lemma keys_stay_trans space1 space2 space3 :
  keys_stay space1 space2 → keys_stay space2 space3 → keys_stay space1 space3.
Proof.
  intros [Hm He Hk] [Hm' He' Hk']. split; [congruence|lia|].
  intros Hmode epoch Hepoch. rewrite Hk' by (lia || congruence). by apply Hk.
Qed.

(** A managed Space that loses a participant stores the new key under the
    epoch after the current one. *)
Lemma keys_stay_revoked r wrapped now participant space participants now' :
  ParticipantRevocation_Validate r = None → prv_PreviousKeyEpoch r = msp_keyEpoch space →
  msp_keyEpoch space < 2 ^ 64 →
  ParticipantRevocation_ValidateKeyGrants r (space_mode space) participants now' = None →
  (space_mode space = SecurityModeManaged → wrapped ≠ None) →
  keys_stay space (without_participant r wrapped now participant space).
Proof.
  intros Hvalid Hprevious Hbound Hgrants Hwrapped.
  set (space' := without_participant _ _ _ _ _) in *.
  assert (space_mode space' = space_mode space ∧ msp_keyEpoch space' = prv_NextKeyEpoch r ∧
    (wrapped ≠ None → msp_managedContentKeys space' =
       match wrapped with Some w => <[prv_NextKeyEpoch r := w]> (msp_managedContentKeys space)
       | None => ∅ end)) as (Hm & He & Hk).
  { unfold space', without_participant, rotate_keys, put_grants.
    destruct (prv_SecureRosterAttestation r), wrapped; try case_decide; done. }
  assert (prv_PreviousKeyEpoch r < 2 ^ 64) as Hlt by lia.
  split; [done|rewrite He; destruct (revocation_epoch _ _ _ _ Hvalid Hlt Hgrants); lia|].
  intros Hmode epoch Hepoch. pose proof (Hwrapped Hmode). destruct wrapped as [w|]; [|done].
  rewrite Hk by done. apply lookup_insert_ne.
  destruct (revocation_epoch _ _ _ _ Hvalid Hlt Hgrants) as [Hsame|]; [exfalso|lia].
  unfold ParticipantRevocation_ValidateKeyGrants in Hgrants. rewrite Hmode in Hgrants.
  rewrite err_then_None, decide_False, decide_True in Hgrants by done.
  destruct Hgrants as [_ Hnext]. apply err_when_None in Hnext. apply err_when_None in Hvalid. rewrite Hsame in Hnext.
  unfold u64, InitialKeyEpoch in *. destruct (decide (prv_PreviousKeyEpoch r + 1 < 2 ^ 64)).
  - rewrite Z.mod_small in Hnext by lia. apply Hnext. left. lia.
  - assert (prv_PreviousKeyEpoch r = 2 ^ 64 - 1) as Heq by lia. rewrite Heq in Hnext. apply Hnext. by left.
Qed.

Lemma keys_stay_change a id' space' id space :
  au_spaces a !! id = Some space → (id' = id → keys_stay space space') →
  ∃ space'', au_spaces (change_space id' space' a) !! id = Some space'' ∧ keys_stay space space''.
Proof.
  intros Hspace Hstay. simpl. destruct (decide (id' = id)) as [->|Hne].
  - exists space'. by rewrite lookup_insert_eq; auto.
  - exists space. rewrite lookup_insert_ne by done. split; [done|]. by apply keys_stay_same.
Qed.

Lemma step_keys_stay s a id space :
  ms_spaces s !! id = Some space → msp_keyEpoch space < 2 ^ 64 → AuthorityStep s a →
  au_custodian a = ms_managedContentKeys s ∧
  ∃ space', au_spaces a !! id = Some space' ∧ keys_stay space space'.
Proof.
  intros Hs Hbound Hstep. split; [by destruct Hstep|].
  assert (∃ space', au_spaces (authority s) !! id = Some space' ∧ keys_stay space space') as Hsilent.
  { exists space. split; [done|]. by apply keys_stay_same. }
  destruct Hstep as [|sid sp space' Hspace [Hsame _]|p keys result wrapped binding _ Hnew _
    |c i keys sp Hspace _ _ _ _|c claim record result sp now i _ _ _ Hspace _ _ _ _
    |c x record result sp _ _ _ _ _|c x participant sp Hspace _ _ _ _ _ _
    |c e grant keys participant sp now Hspace _ _ _ _ _ _
    |c r participant sp now Hspace Hvalid Hprevious _ _ Hgrants _
    |c r wrapped participant sp now Hspace Hvalid _ Hprevious _ Hgrants Hw _
    |c x binding sp Hspace _ _ _ _ _ _]; try exact Hsilent;
    refine (keys_stay_change (authority s) _ _ _ _ Hs _); intros <-; simplify_eq.
  - apply keys_stay_same; rewrite Hsame; done.
  - unfold admit_participant. destruct (inv_ActivationSecureRosterAttestation i), (inv_KeyGrant i);
      by apply keys_stay_same.
  - unfold with_role. destruct (prc_SecureRosterAttestation x); by apply keys_stay_same.
  - unfold with_device. destruct (pde_SecureRosterAttestation e); by apply keys_stay_same.
  - unfold without_device, put_grants. assert (pdv_PreviousKeyEpoch r < 2 ^ 64) as Hlt by lia.
    destruct (device_revocation_epoch _ _ _ _ Hvalid Hlt Hgrants);
      destruct (pdv_SecureRosterAttestation r); case_decide; apply keys_stay_same; simpl; done || lia.
  - eapply keys_stay_revoked; [done..|]. intros Hmode ->. by apply Hw.
  - by apply keys_stay_same.
Qed.

(** What every execution from [s] keeps of a Space. *)
Lemma perform_all_keys_stay s id space ops :
  reachable s → ms_spaces s !! id = Some space →
  ms_managedContentKeys (perform_all ops s) = ms_managedContentKeys s ∧
  ∃ space', ms_spaces (perform_all ops s) !! id = Some space' ∧ keys_stay space space'.
Proof using All.
  revert s space. induction ops as [|op ops IH]; intros s space Hs Hspace.
  { split; [done|]. exists space. split; [done|]. by apply keys_stay_same. }
  destruct (reachable_space_good _ _ _ Hs Hspace) as (events & _ & Hgood).
  destruct (step_keys_stay s _ id space Hspace (proj2 (ep_bound _ _ (sg_epoch _ _ _ Hgood)))
    (perform_authority op s)) as (Hcustodian & space' & Hspace' & Hstay).
  destruct (IH (perform op s) space' (reachable_step _ _ Hs) Hspace') as (Hrest & space'' & ? & ?).
  split; [exact (eq_trans Hrest Hcustodian)|]. exists space''. split; [done|].
  by eapply keys_stay_trans.
Qed.

(** [wrapped] is what custody made of [plaintext], a content key generated for
    an epoch of a Space. *)
Definition generated_for (custodian : option AEAD) (id : UUID) (epoch : uint64)
    (plaintext wrapped : bytes) : Prop :=
  ∃ r r', Generate custodian id epoch r = (r', inr (plaintext, wrapped)).

(** The key of [epoch] in [s] is [plaintext]. *)
Definition holds_key (s : MemoryStore) (id : UUID) (epoch : uint64) (plaintext wrapped : bytes) : Prop :=
  ∃ space, ms_spaces s !! id = Some space ∧ space_mode space = SecurityModeManaged ∧
    epoch ≤ msp_keyEpoch space ∧ msp_managedContentKeys space !! epoch = Some wrapped ∧
    Unwrap (ms_managedContentKeys s) id epoch wrapped = inr plaintext.

(** [C20] The content keys of a managed Space are never lost.  In every
    reachable store, for each epoch that a managed Space has had, there is a
    32-byte key that was generated and wrapped for that Space and that epoch,
    and after any further calls of the store the Space still holds that same
    wrapped key under that epoch and custody gets that same key back from it:
    no rotation replaces the key of an earlier epoch.  While the epoch is the
    current one, it is that key that [GetParticipantBootstrap] hands out. *)
Theorem managed_keys_available `{!AeadLaws} s id space epoch :
  reachable s → ms_spaces s !! id = Some space → space_mode space = SecurityModeManaged →
  InitialKeyEpoch ≤ epoch ≤ msp_keyEpoch space →
  ∃ plaintext wrapped, zlen plaintext = ContentKeySize ∧
    generated_for (ms_managedContentKeys s) id epoch plaintext wrapped ∧
    ∀ ops, holds_key (perform_all ops s) id epoch plaintext wrapped ∧
      ∀ later credential, ms_spaces (perform_all ops s) !! id = Some later →
        msp_keyEpoch later = epoch →
        managed_content_key (perform_all ops s) later credential =
          inr (mkManagedContentKey SchemaVersion (cred_TenantID credential) (cred_MemberID credential)
            epoch ManagedContentKeyAlgorithm (b64_EncodeToString plaintext)).
Proof using All.
  intros Hs Hspace Hmode Hepoch.
  destruct (reachable_keys_good _ Hs _ _ Hspace Hmode epoch Hepoch)
    as (wrapped & Hw & _ & r & r' & plaintext & Hg).
  change (au_custodian (authority s)) with (ms_managedContentKeys s) in Hg.
  exists plaintext, wrapped. destruct (Generate_unwraps _ _ _ _ _ _ _ Hg) as [Hlen Hunwrap].
  split; [done|]. split; [by exists r, r'|]. intros ops.
  destruct (perform_all_keys_stay s id space ops Hs Hspace) as (Hcustodian & space' & Hspace' & Hstay).
  pose proof (ks_epoch _ _ Hstay). rewrite <- Hcustodian in Hunwrap.
  assert (msp_managedContentKeys space' !! epoch = Some wrapped) as Hw'
    by (rewrite (ks_keys _ _ Hstay) by (done || lia); exact Hw).
  split.
  { exists space'. split; [done|]. split; [by rewrite (ks_mode _ _ Hstay)|]. split; [lia|done]. }
  intros later credential Hlater Hcurrent. rewrite Hspace' in Hlater. injection Hlater as <-.
  destruct (reachable_space_good _ _ _ (space_reachable_perform_all _ ops Hs) Hspace') as (events & _ & Hgood).
  unfold managed_content_key. rewrite Hcurrent, Hw', (sg_id _ _ _ Hgood).
  destruct (ms_managedContentKeys (perform_all ops s)) as [aead|]; [|done]. by rewrite Hunwrap.
Qed.

(** ** Revoking a participant *)

(** The administrators whose grants count. *)
Lemma expect_participants_issuers spaceID skipped `{∀ p, Decision (skipped p)} excluded participants
    scope scope' id key :
  expect_participants spaceID skipped excluded participants scope = inr scope' →
  gsc_authorizedIssuers scope' !! id = Some key →
  gsc_authorizedIssuers scope !! id = Some key ∨
  ∃ p, p ∈ participants ∧ ¬ skipped p ∧ prt_ParticipantID p = id ∧ may_administer (prt_Role p) ∧
    prt_SigningKey p = key.
Proof.
  assert (∀ id excluded keys scope, gsc_authorizedIssuers (expect_devices id excluded keys scope) =
    gsc_authorizedIssuers scope) as Hdevices.
  { intros id' excluded' keys. induction keys as [|k keys IH]; intros sc; simpl; [done|].
    rewrite IH. by repeat case_decide. }
  revert scope. induction participants as [|p participants IH]; intros scope; simpl.
  { intros [= <-]. by left. }
  destruct (decide (_ ≠ _)); [done|]. destruct (decide (skipped p)) as [Hs|Hs]; intros Hrec Hkey.
  - destruct (IH _ Hrec Hkey) as [?|(q & ? & ?)]; [by left|right; exists q; split; [by right|done]].
  - destruct (IH _ Hrec Hkey) as [Hin|(q & ? & ?)]; [|right; exists q; split; [by right|done]].
    unfold expect_participant in Hin. rewrite Hdevices in Hin. cbn in Hin. case_decide as Hm; [|by left].
    destruct (decide (id = prt_ParticipantID p)) as [->|].
    + rewrite lookup_insert_eq in Hin. right. exists p. split; [by left|]. by simplify_eq.
    + rewrite lookup_insert_ne in Hin by done. by left.
Qed.

(** A signed roster lists an active device. *)
Lemma roster_device_keys_active participant keys : ∀ previous n n',
  roster_device_keys participant previous n keys = inr n' → n' ≠ n →
  ∃ key, key ∈ keys ∧ device_active key.
Proof.
  induction keys as [|key keys IH]; intros previous n n'; simpl; [intros [= ->]; done|].
  case_decide; [done|]. intros Hrec Hne.
  destruct (decide (device_active key)); [exists key; split; [by left|done]|].
  destruct (IH _ _ _ Hrec Hne) as (k & ? & ?). exists k. split; [by right|done].
Qed.

Lemma roster_participants_active a participants : ∀ previous ids ids' id,
  roster_participants a previous ids participants = inr ids' → id ∈ ids' → id ∉ ids →
  ∃ p key, p ∈ participants ∧ key ∈ elements (prt_DeviceKeys p) ∧ device_active key.
Proof.
  induction participants as [|p participants IH]; intros previous ids ids' id; simpl.
  { intros [= ->]. done. }
  destruct (Participant_Validate p); [done|]. case_decide; [done|].
  destruct (roster_device_keys p _ _ _) as [|n] eqn:Hkeys; [done|]. case_decide as Hn; [done|]. intros _ _ _.
  destruct (roster_device_keys_active _ _ _ _ _ Hkeys Hn) as (key & ? & ?).
  exists p, key. split; [by left|done].
Qed.

Lemma validated_roster_active a :
  SecureRosterAttestation_Validate a = None →
  ∃ p key, p ∈ sra_Participants a ∧ key ∈ elements (prt_DeviceKeys p) ∧ device_active key.
Proof.
  unfold SecureRosterAttestation_Validate. rewrite err_then_None. intros [_ Hrest].
  destruct (roster_participants a None ∅ _) as [|ids] eqn:Hids; [done|].
  rewrite !err_then_None, !err_when_None in Hrest. destruct Hrest as (Hfields & _).
  eapply (roster_participants_active a _ _ _ _ (sra_IssuerParticipantID a)); [exact Hids| |set_solver].
  apply dec_stable. tauto.
Qed.
End keys.

(** ** A concrete managed Space *)

#[local] Existing Instance toy_curve.
#[local] Existing Instance toy_aead.
#[local] Existing Instance toy_aead_laws.
#[local] Existing Instance doubling_slices.

Definition managed_vault : SpaceProvisioning DeviceKeys :=
  mkSpaceProvisioning SchemaVersion 501%N tenantID SecurityModeManaged InteractionModeCollaborative
    11%N ParticipantPerson (signing_key 1) (Some [host_device]) None example_tenant
    example_provisioning 0.

Definition managed_new : MemoryStore :=
  perform (OpProvisionSpace managed_vault 1000) (start [] rand0 []).

Lemma managed_new_reachable : reachable managed_new.
Proof. apply reachable_step, reachable_new. Qed.

Definition managed_space : memorySpace := ltac:(
  let space := eval vm_compute in (space_of managed_new) in
  lazymatch space with Some ?space => exact space end).

Lemma managed_new_space : ms_spaces managed_new !! tenantID = Some managed_space.
Proof. vm_cast_no_check (eq_refl (Some managed_space)). Qed.

Lemma managed_keys_available_witness :
  ∃ plaintext wrapped, zlen plaintext = ContentKeySize ∧
    generated_for (ms_managedContentKeys managed_new) tenantID InitialKeyEpoch plaintext wrapped ∧
    ∀ ops, holds_key (perform_all ops managed_new) tenantID InitialKeyEpoch plaintext wrapped ∧
      ∀ later credential, ms_spaces (perform_all ops managed_new) !! tenantID = Some later →
        msp_keyEpoch later = InitialKeyEpoch →
        managed_content_key (perform_all ops managed_new) later credential =
          inr (mkManagedContentKey SchemaVersion (cred_TenantID credential) (cred_MemberID credential)
            InitialKeyEpoch ManagedContentKeyAlgorithm (b64_EncodeToString plaintext)).
Proof.
  apply (managed_keys_available managed_new tenantID managed_space InitialKeyEpoch
    managed_new_reachable managed_new_space eq_refl). split; vm_compute; discriminate.
Defined.
