(* ===== verification/SharedSpacesRevocation.v ===== *)
(** * internal/sharedspaces: what a revocation leaves behind

    [RevokeParticipant] of a Secure Space, taken apart: the Space is one epoch
    further, the participant is out of the Space and of the relay, and the
    next content key is granted to exactly the devices that remain.

    The last part is about role changes.  A role change is passed on to the
    relay as a change of member capabilities, and the relay refuses a change
    between equal capability sets.  Where two roles have the same
    capabilities, no participant can move from one to the other. *)

From S2P Require Import Prelude GoEncoding Sha256 RelayModel RelayState RelayTenant RelayMember RelaySubscription RelayDelivery RelayCheckpoint RelayMachine RelayExample RelayReachable P256 GoText ServiceAuthority ComputePool ComputeExample KeyCustody DeviceSyncExample SharedSpacesModel SharedSpacesChanges SharedSpacesCompute SharedSpaces SharedSpacesAuthority SharedSpacesSpec SharedSpacesInvariant SharedSpacesAudit SharedSpacesKeys.
#[local] Open Scope Z_scope.

Section revocation.
Context `{UuidLib} `{ManifestLib} `{CurveLib} `{AeadLib} `{SliceLib}.

(** The rule of a relay call. *)
Lemma wp_relay_result {A} (call : M GoError RelayState.MemoryStore A)
    (Q : MemoryStore → SpaceError + A → Prop) s :
  (∀ r e, Q (s <| ms_relay := r |>) (inl e)) →
  (∀ r a, call (ms_relay s) = (r, inr a) → Q (s <| ms_relay := r |>) (inr a)) → wp (relay call) Q s.
Proof.
  intros Herr Hok. unfold wp, relay. destruct (call (ms_relay s)) as [r [e|a]] eqn:Hc; [apply Herr|by apply Hok].
Qed.

(** What the first call of a revocation has checked and done. *)
Record revoked_with (credential : AdministrationCredential) (r : ParticipantRevocation) (now : int64)
    (s s' : MemoryStore) (space : memorySpace) (participant : Participant KeyRef)
    (wrapped : option bytes) : Prop := mkRevokedWith {
  rw_space : ms_spaces s !! prv_SpaceID r = Some space;
  rw_tenant : acred_TenantID credential = prv_SpaceID r;
  rw_domain : acred_DomainID credential = space_domain space;
  rw_valid : ParticipantRevocation_Validate r = None;
  rw_epoch : prv_PreviousKeyEpoch r = msp_keyEpoch space;
  rw_active : active_in space (prv_ParticipantID r) participant;
  rw_grants : ParticipantRevocation_ValidateKeyGrants r (space_mode space)
    (participant_value s <$> all_participants space) now = None;
  rw_roster : validateRevocationRosterAttestation s space r = None;
  rw_wrapped : wrapped_for (ms_managedContentKeys s) (space_mode space) (prv_SpaceID r)
    (prv_NextKeyEpoch r) wrapped;
  rw_relay : ∃ acceptance, RevokeMember credential (prv_ParticipantID r) now (ms_relay s) =
    (ms_relay s', inr acceptance);
  rw_arrays : ms_arrays s' = ms_arrays s;
  rw_spaces : ms_spaces s' = <[prv_SpaceID r :=
    without_participant r wrapped now participant space]> (ms_spaces s) }.

Lemma revoke_participant_effect credential r now s s' result :
  ms_revocationResponses s !! prv_RetryID r = None →
  RevokeParticipant credential r now s = (s', inr result) →
  ∃ space participant wrapped, revoked_with credential r now s s' space participant wrapped.
Proof.
  intros Hfirst Hrun.
  assert (wp (RevokeParticipant credential r now) (fun s' res => res = inr result →
    ∃ space participant wrapped, revoked_with credential r now s s' space participant wrapped) s) as Hwp.
  { unfold RevokeParticipant.
    repeat lazymatch goal with |- wp (relay _) _ _ => fail | |- _ => space_step end; try done; try congruence.
    apply wp_relay_result; [done|]. intros rs acceptance Hrelay. space_steps. intros _.
    do 3 eexists. split; try eassumption; try done; eauto; try (apply dec_stable; tauto).
    split; [eassumption|by apply dec_stable]. }
  exact (wp_elim _ _ _ _ _ Hwp Hrun eq_refl).
Qed.

(** The relay no longer serves the member. *)
Definition member_revoked (relayStore : RelayState.MemoryStore) (key : domainKey) (memberID : UUID)
    : Prop :=
  ∃ d member, st_domains relayStore !! key = Some d ∧ dom_members d !! memberID = Some member ∧
    is_Some (mr_RevokedAtMilliseconds member).

Lemma revoke_member_effect credential id now relayStore relayStore' acceptance :
  RevokeMember credential id now relayStore = (relayStore', inr acceptance) →
  member_revoked relayStore' (acred_TenantID credential, acred_DomainID credential) id.
Proof.
  unfold RevokeMember, as_administrator, bind, get, in_domain.
  destruct (authorizedDomain relayStore credential) as [|domain]; [done|].
  destruct (revokeMember id now domain) as [domain' result] eqn:Hrun. intros [= <- ->].
  assert (wp (revokeMember id now) (fun d res => res = inr acceptance →
    ∃ member, dom_members d !! id = Some member ∧ is_Some (mr_RevokedAtMilliseconds member)) domain) as Hwp.
  { unfold revokeMember. wp_steps; try done; intros _; eexists.
    - by split; [eassumption|].
    - split; [by simpl; rewrite lookup_insert_eq|done]. }
  destruct (wp_elim _ _ _ _ _ Hwp Hrun eq_refl) as (member & Hmember & Hrevoked).
  exists domain', member. split; [|done]. unfold put_domain. simpl. by rewrite lookup_insert_eq.
Qed.

(** ** The devices that remain *)

(** An active device of an active participant, with its agreement key. *)
Definition device_in (s : MemoryStore) (space : memorySpace) (t : GrantTarget) (fingerprint : string)
    : Prop :=
  ∃ p key, msp_participants space !! t.1 = Some p ∧ participant_active p ∧
    key ∈ elements (read_keys s (prt_DeviceKeys p)) ∧ device_active key ∧ pdk_DeviceID key = t.2 ∧
    pdk_AgreementKeyFingerprint key = fingerprint.

(** The key grant that a device finds, as [GetParticipantKeyGrant] looks it up. *)
Definition grant_of (space : memorySpace) (t : GrantTarget) : option ParticipantKeyGrant :=
  grants ← msp_keyGrants space !! msp_keyEpoch space;
  (grants : gmap GrantTarget ParticipantKeyGrant) !! t.

(** A valid grant of the current epoch to this device, signed with the key of
    an active host or moderator. *)
Definition granted (space : memorySpace) (now : int64) (t : GrantTarget)
    (grant : ParticipantKeyGrant) : Prop :=
  ParticipantKeyGrant_Validate grant = None ∧ grant_target grant = t ∧
  kgr_KeyEpoch grant = msp_keyEpoch space ∧ kgr_CreatedAtMilliseconds grant ≤ now ∧
  ∃ issuer, msp_participants space !! kgr_IssuerParticipantID grant = Some issuer ∧
    participant_active issuer ∧ may_administer (prt_Role issuer) ∧
    ParticipantSigningKey_MatchesGrantSignature (prt_SigningKey issuer) (kgr_Signature grant).

Lemma elem_of_all_participants space p :
  map_Forall (fun k p => prt_ParticipantID p = k) (msp_participants space) →
  p ∈ all_participants space ↔ msp_participants space !! prt_ParticipantID p = Some p.
Proof.
  intros Hkeyed. unfold all_participants. rewrite list_elem_of_fmap. split.
  - intros ([k q] & -> & Hq%elem_of_map_to_list). simpl. by rewrite (Hkeyed _ _ Hq).
  - intros Hp. eexists (_, p). split; [done|]. by apply elem_of_map_to_list.
Qed.

(** The participants that count in a revocation are the active ones of the
    Space afterwards. *)
Lemma counted_after id gone s space space' p :
  map_Forall (fun k p => prt_ParticipantID p = k) (msp_participants space) →
  msp_participants space' = <[id := gone]> (msp_participants space) → ¬ participant_active gone →
  (p ∈ participant_value s <$> all_participants space) ∧
    ¬ (¬ participant_active p ∨ prt_ParticipantID p = id) ↔
  ∃ q, p = participant_value s q ∧ msp_participants space' !! prt_ParticipantID p = Some q ∧
    participant_active q.
Proof.
  intros Hkeyed Hspace' Hgone. rewrite list_elem_of_fmap, Hspace'. split.
  - intros [(q & -> & Hq%elem_of_all_participants) Hcounts]; [|done]. exists q. split; [done|].
    simpl in *. split; [|by apply dec_stable; tauto]. rewrite lookup_insert_ne; [done|]. intros ->. tauto.
  - intros (q & -> & Hq & Hactive). simpl in *. destruct (decide (prt_ParticipantID q = id)) as [Hid|Hne].
    + rewrite Hid, lookup_insert_eq in Hq. by simplify_eq.
    + rewrite lookup_insert_ne in Hq by done. split; [|tauto]. exists q. split; [done|].
      by apply elem_of_all_participants.
Qed.

Lemma expects_after id gone s space space' t fingerprint :
  map_Forall (fun k p => prt_ParticipantID p = k) (msp_participants space) →
  msp_participants space' = <[id := gone]> (msp_participants space) →
  prt_ParticipantID gone = id → ¬ participant_active gone →
  expects (participant_value s <$> all_participants space)
    (fun p => ¬ (¬ participant_active p ∨ prt_ParticipantID p = id)) (fun _ => None) t fingerprint ↔
  device_in s space' t fingerprint.
Proof.
  intros Hkeyed Hspace' Hid Hgone. unfold expects, device_in. split.
  - intros (p & key & Hp & Hcounts & Hkey & _ & Hactive & -> & ->).
    destruct (proj1 (counted_after id gone s space space' p Hkeyed Hspace' Hgone) (conj Hp Hcounts))
      as (q & -> & Hq & Hqa). by exists q, key.
  - intros (q & key & Hq & Hqa & Hkey & Hactive & Hdevice & <-).
    assert (prt_ParticipantID q = t.1) as Hqid.
    { rewrite Hspace' in Hq. destruct (decide (t.1 = id)) as [Ht|Ht].
      - rewrite Ht, lookup_insert_eq in Hq. by simplify_eq.
      - rewrite lookup_insert_ne in Hq by done. exact (Hkeyed _ _ Hq). }
    destruct (proj2 (counted_after id gone s space space' (participant_value s q) Hkeyed Hspace' Hgone))
      as [Hin Hcounts]; [exists q; simpl; by rewrite Hqid|].
    exists (participant_value s q), key. split_and!; try done. destruct t; simpl in *. by subst.
Qed.

(** What the checks of a revocation in a Secure Space establish. *)
Lemma secure_revocation_checked r s space now :
  space_mode space = SecurityModeSecure →
  ParticipantRevocation_ValidateKeyGrants r (space_mode space)
    (participant_value s <$> all_participants space) now = None →
  prv_NextKeyEpoch r = u64 (prv_PreviousKeyEpoch r + 1) ∧
  ∃ scope, revocation_scope r (participant_value s <$> all_participants space) = inr scope ∧
    zlen (prv_KeyGrants r) = zsize (gsc_expectedTargets scope) ∧
    Forall (grant_fits r scope now) (prv_KeyGrants r) ∧ NoDup (grant_target <$> prv_KeyGrants r).
Proof.
  intros Hm. unfold ParticipantRevocation_ValidateKeyGrants. rewrite Hm. rewrite err_then_None.
  intros [_ Hv]. rewrite !decide_False in Hv by done. rewrite err_then_None, err_when_None in Hv.
  destruct Hv as [Hnext Hv]. split; [by apply dec_stable|].
  destruct (revocation_scope _ _) as [|scope] eqn:Hscope; [done|]. exists scope. split; [done|].
  rewrite err_then_None, err_when_None in Hv. destruct Hv as [Hlen Hv].
  apply revocation_grants_fit in Hv as (? & ? & _). split; [by apply dec_stable|done].
Qed.

(** The roster that comes with it lists a remaining device. *)
Lemma revocation_leaves_device r s space :
  space_mode space = SecurityModeSecure → validateRevocationRosterAttestation s space r = None →
  ∃ p key, p ∈ participant_value s <$> all_participants space ∧
    ¬ (¬ participant_active p ∨ prt_ParticipantID p = prv_ParticipantID r) ∧
    key ∈ elements (prt_DeviceKeys p) ∧ device_active key.
Proof.
  intros Hm. unfold validateRevocationRosterAttestation, roster_check. rewrite decide_False by tauto.
  destruct (msp_secureRosterAttestation space) as [current|]; [|done].
  destruct (prv_SecureRosterAttestation r) as [next|]; [|done]. intros Hv.
  assert (SecureRosterAttestation_Validate next = None) as Hvalid.
  { unfold SecureRosterAttestation_ValidateSuccessor in Hv. rewrite err_then_None in Hv. by destruct Hv. }
  apply validated_successor in Hv as (_ & _ & _ & _ & Hparts).
  apply validated_roster_active in Hvalid as (p & key & Hp & Hkey & Hactive).
  rewrite Hparts in Hp. apply list_elem_of_fmap in Hp as (q & -> & Hq).
  apply list_elem_of_filter in Hq as [Hne Hq]. unfold activeMemoryParticipants in Hq.
  rewrite merge_sort_Permutation in Hq. apply list_elem_of_filter in Hq as [Hqa Hq].
  exists (participant_value s q), key. split; [apply list_elem_of_fmap; by exists q|].
  split; [simpl; tauto|done].
Qed.

Lemma index_grants_at grants (t : GrantTarget) :
  let index := foldl (fun index grant => <[grant_target grant := grant]> index)
    (∅ : gmap GrantTarget ParticipantKeyGrant) grants in
  (∀ grant, index !! t = Some grant → grant ∈ grants ∧ t = grant_target grant) ∧
  (t ∈ grant_target <$> grants → is_Some (index !! t)).
Proof.
  split; [|by intros Ht; apply index_covers; left].
  intros grant [?|Hnone]%index_lookup; [done|]. by rewrite lookup_empty in Hnone.
Qed.

(** The Space after the revocation, in a Secure Space. *)
Lemma without_participant_secure r now participant space :
  prv_KeyGrants r ≠ [] →
  let space' := without_participant r None now participant space in
  msp_keyEpoch space' = prv_NextKeyEpoch r ∧
  msp_participants space' = <[prt_ParticipantID participant :=
    participant <| prt_RevokedAtMilliseconds := Some now |>]> (msp_participants space) ∧
  ∀ t, grant_of space' t = foldl (fun index grant => <[grant_target grant := grant]> index)
    (∅ : gmap GrantTarget ParticipantKeyGrant) (prv_KeyGrants r) !! t.
Proof.
  intros Hne space'. unfold space', without_participant, rotate_keys, put_grants.
  assert (zlen (prv_KeyGrants r) > 0) as Hpos.
  { unfold zlen. destruct (prv_KeyGrants r); [done|]. simpl. lia. }
  rewrite decide_True by done. unfold grant_of.
  destruct (prv_SecureRosterAttestation r); (split; [done|]; split; [done|]); intros t; simpl;
    by rewrite lookup_insert_eq.
Qed.

(** [C17] Revoking a participant of a Secure Space takes the keys away.  When
    the first call of a revocation succeeds in a reachable store, the Space is
    exactly one key epoch further, the participant is marked revoked in it,
    all others stand as before, and the relay serves the participant's member
    no more.  A device finds a key grant of the new epoch exactly when it is
    an active device of a participant that is still active, and what it finds
    is a valid grant for its own agreement key, signed with the key of an
    active host or moderator. *)
Theorem revocation_rekeys credential r now s s' result space :
  reachable s → ms_spaces s !! prv_SpaceID r = Some space → space_mode space = SecurityModeSecure →
  ms_revocationResponses s !! prv_RetryID r = None →
  RevokeParticipant credential r now s = (s', inr result) →
  ∃ space' participant, ms_spaces s' !! prv_SpaceID r = Some space' ∧
    msp_keyEpoch space' = msp_keyEpoch space + 1 ∧
    active_in space (prv_ParticipantID r) participant ∧
    msp_participants space' = <[prv_ParticipantID r :=
      participant <| prt_RevokedAtMilliseconds := Some now |>]> (msp_participants space) ∧
    member_revoked (ms_relay s') (prv_SpaceID r, space_domain space) (prv_ParticipantID r) ∧
    (∀ t fingerprint, device_in s' space' t fingerprint →
       ∃ grant, grant_of space' t = Some grant) ∧
    (∀ t grant, grant_of space' t = Some grant →
       device_in s' space' t (kgr_RecipientAgreementKeyFingerprint grant) ∧
       granted space' now t grant).
Proof using All.
  intros Hs Hspace Hmode Hfirst Hrun.
  destruct (reachable_space_good _ _ _ Hs Hspace) as (events & _ & Hgood).
  pose proof (sg_keyed _ _ _ Hgood) as Hkeyed. destruct (sg_epoch _ _ _ Hgood) as [_ Hbound _ _].
  destruct (revoke_participant_effect _ _ _ _ _ _ Hfirst Hrun) as (space0 & participant & wrapped & Heff).
  destruct Heff as [Hspace0 Htenant Hdomain Hvalid Hprevious Hactive Hgrants Hroster Hwrapped [acceptance Hrelay] Harrays Hspaces].
  assert (space0 = space) as -> by congruence. clear Hspace0.
  destruct wrapped as [w|]; [exfalso; destruct Hwrapped as [Hm _]; by rewrite Hmode in Hm|].
  destruct (secure_revocation_checked _ _ _ _ Hmode Hgrants) as (Hnext & scope & Hscope & Hlen & Hfits & Hnodup).
  pose proof (Hkeyed _ _ (proj1 Hactive)) as Hid. simpl in Hid.
  set (gone := participant <| prt_RevokedAtMilliseconds := Some now |>).
  apply revoke_member_effect in Hrelay. rewrite Htenant, Hdomain in Hrelay.
  destruct (revocation_leaves_device _ _ _ Hmode Hroster) as (p & key & Hp & Hcounts & Hkey & Hka).
  pose proof (expect_participants_spec _ _ _ _ _ _ Hscope) as [Htargets Htargets'].
  assert (∀ t, is_Some (gsc_expectedTargets scope !! t) → t ∈ grant_target <$> prv_KeyGrants r) as Hcover.
  { apply grants_cover; [done| |done]. intros grant Hin. eapply Forall_forall in Hfits; [|exact Hin].
    destruct Hfits as (_ & _ & _ & _ & Ht & _). by rewrite Ht. }
  assert (prv_KeyGrants r ≠ []) as Hne.
  { intros Hnil. assert (grant_target <$> prv_KeyGrants r = []) as Hempty by by rewrite Hnil.
    pose proof (Hcover (prt_ParticipantID p, pdk_DeviceID key)) as Hc. rewrite Hempty in Hc.
    apply (elem_of_nil (A := GrantTarget) (prt_ParticipantID p, pdk_DeviceID key)). apply Hc.
    apply Htargets'. right. exists (pdk_AgreementKeyFingerprint key). by exists p, key. }
  destruct (without_participant_secure r now participant space Hne) as (Hepoch & Hparts & Hgrant).
  set (space' := without_participant r None now participant space) in *. rewrite Hid in Hparts.
  assert (∀ t fp, expects (participant_value s <$> all_participants space)
    (fun p => ¬ (¬ participant_active p ∨ prt_ParticipantID p = prv_ParticipantID r))
    (fun _ => None) t fp ↔ device_in s' space' t fp) as Hdevices.
  { intros t fp. assert (device_in s' space' t fp ↔ device_in s space' t fp) as ->.
    { unfold device_in, read_keys, array_of. by rewrite Harrays. }
    eapply expects_after; [done|exact Hparts|exact Hid|done]. }
  exists space', participant. rewrite Hspaces, lookup_insert_eq, Hepoch, Hnext, Hprevious.
  split_and!; [done| |done|done|done| |].
  - apply err_when_None in Hvalid. assert (¬ prv_NextKeyEpoch r < msp_keyEpoch space) by (rewrite <- Hprevious; tauto).
    rewrite Hnext, Hprevious in *. unfold InitialKeyEpoch in Hbound.
    destruct (decide (msp_keyEpoch space + 1 = 2 ^ 64)) as [Heq|]; [|by rewrite u64_small by lia].
    rewrite Heq in *. change (u64 (2 ^ 64)) with 0 in *. lia.
  - intros t fp Ht%Hdevices. rewrite Hgrant.
    apply (proj2 (index_grants_at (prv_KeyGrants r) t)), Hcover, Htargets'. right. by exists fp.
  - intros t grant Hg. rewrite Hgrant in Hg. apply (proj1 (index_grants_at (prv_KeyGrants r) t)) in Hg as [Hin ->].
    eapply Forall_forall in Hfits; [|exact Hin].
    destruct Hfits as (Hgv & _ & Hge & Hgc & Ht & issuer & Hissuer & Hmatches).
    split; [apply Hdevices; destruct (Htargets _ _ Ht) as [Hempty|]; [discriminate Hempty|done]|].
    split_and!; try done; [by rewrite Hepoch|].
    destruct (expect_participants_issuers _ _ _ _ _ _ _ _ Hscope Hissuer) as [Hempty|(q & Hq & Hqc & Hqid & Hqm & <-)].
    { discriminate Hempty. }
    destruct (proj1 (counted_after _ gone s space space' q Hkeyed Hparts ltac:(done)) (conj Hq Hqc))
      as (q' & -> & Hq' & Hqa). exists q'. simpl in Hqid. by rewrite <- Hqid.
Qed.
End revocation.

(** ** The concrete Space *)

#[local] Existing Instance toy_curve.
#[local] Existing Instance toy_aead.
#[local] Existing Instance doubling_slices.

Definition roster3_without_bob : SecureRosterAttestation := Eval vm_compute in
  roster 3 digest2 2 [host_participant] 2500.

(** The host revokes Bob as soon as he is in. *)
Definition revoke_bob_at_once : ParticipantRevocation :=
  mkParticipantRevocation SchemaVersion 506%N tenantID 12%N 1 2 [grant_to 11%N 61%N 2 2500]
    (Some roster3_without_bob).

Definition without_bob : MemoryStore :=
  (RevokeParticipant admin_credential revoke_bob_at_once 2500 vault_two).1.

Lemma vault_two_reachable : reachable vault_two.
Proof. apply space_reachable_perform_all, space_reachable_perform_all, vault_new_reachable. Qed.

(** The Space with Bob in it. *)
Definition space_with_bob : memorySpace := ltac:(
  let space := eval vm_compute in (space_of vault_two) in
  lazymatch space with Some ?space => exact space end).

Definition bob_revoked : ParticipantRevocationResult :=
  mkParticipantRevocationResult AcceptanceAccepted 506%N tenantID 12%N 1 2 2500.

Lemma triple_eq {A B C} (a a' : A) (b b' : B) (c c' : C) :
  (a, b, c) = (a', b', c') → a = a' ∧ b = b' ∧ c = c'.
Proof. by intros [= -> -> ->]. Qed.

Lemma vault_two_runs :
  ms_spaces vault_two !! tenantID = Some space_with_bob ∧
  ms_revocationResponses vault_two !! 506%N = None ∧
  (RevokeParticipant admin_credential revoke_bob_at_once 2500 vault_two).2 = inr bob_revoked.
Proof.
  apply triple_eq. vm_cast_no_check (eq_refl (Some space_with_bob,
    @None ParticipantRevocationResult, @inr SpaceError _ bob_revoked)).
Qed.

Lemma revocation_rekeys_witness :
  ∃ space', ms_spaces without_bob !! tenantID = Some space' ∧ msp_keyEpoch space' = 2 ∧
    member_revoked (ms_relay without_bob) (tenantID, domainID) 12%N ∧
    ∀ t fingerprint, device_in without_bob space' t fingerprint →
      ∃ grant, grant_of space' t = Some grant.
Proof.
  destruct vault_two_runs as (Hspace & Hfirst & Hresult).
  pose proof (surjective_pairing (RevokeParticipant admin_credential revoke_bob_at_once 2500 vault_two)) as Hrun.
  rewrite Hresult in Hrun. fold without_bob in Hrun.
  destruct (revocation_rekeys admin_credential revoke_bob_at_once 2500 vault_two without_bob bob_revoked
    space_with_bob vault_two_reachable Hspace eq_refl Hfirst Hrun)
    as (space' & participant & Hspace' & Hepoch & _ & _ & Hrelay & Hdevices & _).
  exact (ex_intro _ space' (conj Hspace' (conj Hepoch (conj Hrelay Hdevices)))).
Defined.

Section role_changes.
Context `{UuidLib} `{ManifestLib} `{CurveLib} `{AeadLib} `{SliceLib}.

Lemma capabilitiesEqual_refl l : capabilitiesEqual l l.
Proof. reflexivity. Qed.

(** The relay refuses to replace capabilities by the same capabilities. *)
Lemma equal_capabilities_refused c :
  mcc_PreviousCapabilities c = mcc_NextCapabilities c → MemberCapabilityChange_Validate c ≠ None.
Proof.
  intros Hsame. unfold MemberCapabilityChange_Validate. rewrite err_when_None, Hsame.
  pose proof (capabilitiesEqual_refl (mcc_NextCapabilities c)). tauto.
Qed.

(** Between roles with equal capabilities no first attempt of a role change
    succeeds, whatever the state and whoever asks. *)
Lemma equal_roles_refused credential change now s s' result space :
  ms_roleChangeResponses s !! prc_RetryID change = None →
  ms_spaces s !! prc_SpaceID change = Some space →
  Role_Capabilities (prc_PreviousRole change) (spv_InteractionMode (msp_provisioning space)) =
    Role_Capabilities (prc_NextRole change) (spv_InteractionMode (msp_provisioning space)) →
  ChangeParticipantRole credential change now s ≠ (s', inr result).
Proof.
  intros Hfirst Hspace Hsame Hrun.
  assert (wp (ChangeParticipantRole credential change now) (fun _ res => res ≠ inr result) s) as Hwp;
    [|exact (wp_elim _ _ _ _ _ Hwp Hrun eq_refl)].
  unfold ChangeParticipantRole.
  repeat lazymatch goal with |- wp (relay _) _ _ => fail | |- _ => space_step end; try done;
    try congruence.
  apply wp_relay_result; [done|]. intros r accepted Hrelay. exfalso. revert Hrelay.
  unfold ChangeMemberCapabilities, bind at 1, check.
  destruct (MemberCapabilityChange_Validate _) eqn:Hvalid; [done|].
  apply equal_capabilities_refused in Hvalid; [done|]. simpl. congruence.
Qed.

(** Participants and moderators of a collaborative Space, and participants and
    readers of a broadcast, are such roles. *)
Lemma equal_roles :
  Role_Capabilities RoleParticipant InteractionModeCollaborative =
    Role_Capabilities RoleModerator InteractionModeCollaborative ∧
  Role_Capabilities RoleParticipant InteractionModeBroadcast =
    Role_Capabilities RoleReader InteractionModeBroadcast.
Proof. split; reflexivity. Qed.
End role_changes.
