(* ===== verification/ComputeQueue.v ===== *)
(** * internal/computequeue: errors and primitives (canonical.go, primitives.go)

    The portable records of the compute queue are checked by [Validate]
    methods and by functions that compare a record with its predecessor and
    with verified receipts; nothing here stores or schedules.  This file holds
    the error classes, identifiers, digests and enumerations that all of them
    share.  The parser of UUID texts, github.com/google/uuid, is the parameter
    [UuidParser]. *)

From stdpp Require Import pretty.
From S2P Require Import Prelude GoEncoding GoText Sha256 ComputePool.
#[local] Open Scope Z_scope.

(** ** Errors *)

Inductive FailureClass : Set :=
  | FailureDuplicateValue
  | FailureInvalidIdentifier
  | FailureInvalidDigest
  | FailureInvalidField
  | FailureNonCanonicalEncoding
  | FailureUnsupportedProtocolVersion.

#[global] Instance FailureClass_eq_dec : EqDecision FailureClass.
Proof. solve_decision. Defined.

(** A [ContractError] always wraps [ErrInvalidRecord]; [InvalidRecord] is that
    sentinel wrapped with a text; the last two come from signature checks. *)
Inductive QueueError : Set :=
  | ContractError (class : FailureClass) (field : string)
  | ErrNonCanonical
  | InvalidRecord (text : string)
  | ErrJobCustodyAdmissionAuthentication
  | VerifierError (text : string).

#[global] Instance QueueError_eq_dec : EqDecision QueueError.
Proof. solve_decision. Defined.

Definition FailureClassOf (err : QueueError) : FailureClass :=
  match err with
  | ContractError class _ => class
  | ErrNonCanonical => FailureNonCanonicalEncoding
  | _ => FailureInvalidField
  end.

Definition classified (class : FailureClass) (field : string) : QueueError :=
  ContractError class field.

Definition invalid (field : string) : QueueError := classified FailureInvalidField field.

Definition duplicateValue (field : string) : QueueError := classified FailureDuplicateValue field.

(** [if cond { return invalid(field) }] *)
Abbreviation invalid_when P field := (err_when P (invalid field)) (only parsing).

(** ** Results

    A function that returns a value and an error is a sum.  [let?] passes an
    error on as a sum, [let!] as the bare error of a function that returns
    nothing else, and [o >>= e] checks an error before going on with a sum. *)

Definition result_then {E A B} (r : E + A) (k : A → E + B) : E + B :=
  match r with inl e => inl e | inr a => k a end.

Definition result_check {E A} (r : E + A) (k : A → option E) : option E :=
  match r with inl e => Some e | inr a => k a end.

Definition checked {E B} (o : option E) (k : E + B) : E + B :=
  match o with Some e => inl e | None => k end.

Notation "'let?' x ':=' r 'in' k" := (result_then r (fun x => k))
  (at level 10, x pattern, r at level 99, k at level 200) : go_scope.
Notation "'let!' x ':=' r 'in' k" := (result_check r (fun x => k))
  (at level 10, x pattern, r at level 99, k at level 200) : go_scope.
Notation "a >>! b" := (checked a b) (at level 100, right associativity) : go_scope.

(** [for _, x := range list { if err := f(x); err != nil { return err } }] *)
Fixpoint each {E A} (f : A → option E) (l : list A) : option E :=
  match l with
  | [] => None
  | x :: l => f x >>? each f l
  end.

(** The same with the index. *)
Fixpoint each_from {E A} (index : Z) (f : Z → A → option E) (l : list A) : option E :=
  match l with
  | [] => None
  | x :: l => f index x >>? each_from (index + 1) f l
  end.

Definition each_indexed {E A} (f : Z → A → option E) (l : list A) : option E := each_from 0 f l.

(** [if p != nil { return f( *p ) }; return nil] *)
Definition when_present {E A} (f : A → option E) (o : option A) : option E :=
  match o with Some a => f a | None => None end.

(** ** Identifiers, digests, times *)

Abbreviation Digest := string (only parsing).
Abbreviation Timestamp := Z (only parsing).
Abbreviation ScheduleID := string (only parsing).
Abbreviation OccurrenceID := string (only parsing).
Abbreviation AttemptID := string (only parsing).
Abbreviation AssignmentID := string (only parsing).
Abbreviation ItemID := string (only parsing).
Abbreviation ReceiptID := string (only parsing).
Abbreviation TransitionID := string (only parsing).
Abbreviation WorkerID := string (only parsing).
Abbreviation OfferingID := string (only parsing).
Abbreviation JobCapsuleID := string (only parsing).
Abbreviation OperationDefinitionID := string (only parsing).
Abbreviation PolicyID := string (only parsing).
Abbreviation LeaseID := string (only parsing).
Abbreviation ErrorID := string (only parsing).
Abbreviation LifecycleID := string (only parsing).
Abbreviation SignerID := string (only parsing).
Abbreviation SigningKeyID := string (only parsing).
Abbreviation SignatureValue := string (only parsing).

(** [uuid.Parse]; on a canonical text [String] gives that text back. *)
Class UuidParser `{UuidLib} := { uuid_Parse : string → option UUID }.

Definition ProtocolVersion : Z := 1.
Definition MaximumDocumentBytes : Z := 16 * 1024 * 1024.

Definition Digest_Validate (value : Digest) : option QueueError :=
  err_when (len value ≠ sha256_Size * 2 ∨ value ≠ strings_ToLower value)
    (classified FailureInvalidDigest "digest") >>?
  err_when (none_or (hex_DecodeString value) (fun decoded => zlen decoded ≠ sha256_Size))
    (classified FailureInvalidDigest "digest").

Definition Timestamp_Validate (value : Timestamp) : option QueueError :=
  invalid_when (value < 0) "timestamp".

Definition validateOpaqueID `{UuidParser} (value : string) : option QueueError :=
  err_when (none_or (uuid_Parse value) (fun parsed => parsed = uuid_Nil ∨ len value ≠ 36 ∨
      uuid_String parsed ≠ value ∨ strings_ToLower value ≠ value))
    (classified FailureInvalidIdentifier "identifier").

(** The length of a component in eight bytes, then the component. *)
Definition framed (component : bytes) : bytes :=
  BigEndian_PutUint64 (zlen component) ++ component.

Definition SHA256Digest (domain : string) (components : list string) : Digest :=
  hex_EncodeToString (Sum256 (concat (framed ∘ str <$> domain :: components))).

Definition ExactBytesDigest (domain : string) (value : bytes) (maximum : int64)
    : QueueError + Digest :=
  if decide (zlen value = 0 ∨ zlen value > maximum) then inl (invalid "exactBytes")
  else inr (hex_EncodeToString (Sum256 (framed (str domain) ++ framed value))).

(** ** Field checks *)

(** [fmt.Sprint] of an integer. *)
Definition fmt_Sprint (n : Z) : string := pretty n.

Definition oneOf (value : string) (values : list string) : bool := bool_decide (value ∈ values).

Definition requireProtocol (value : Z) : option QueueError :=
  err_when (value ≠ ProtocolVersion)
    (classified FailureUnsupportedProtocolVersion (fmt_Sprint value)).

Definition requirePositive (value : uint64) (field : string) : option QueueError :=
  invalid_when (value = 0) field.

Definition contains_byte (value : string) (b : Z) : bool := bool_decide (byte_of b ∈ str value).

Definition requireNonempty (value field : string) : option QueueError :=
  invalid_when (value = ""%string ∨ strings_TrimSpace value ≠ value ∨ contains_byte value 0 ∨
    len value > 512 ∨ ¬ utf8_ValidString value) field.

Definition digit_or_letter (c : ascii) : bool :=
  in_range 48 57 c || in_range 65 90 c || in_range 97 122 c.

Definition machine_byte (c : ascii) : bool :=
  digit_or_letter c || bool_decide (c ∈ str "-.:_").

Definition requireMachineToken (value field : string) : option QueueError :=
  invalid_when (value = ""%string ∨ len value > 128) field >>?
  invalid_when (¬ forallb machine_byte (str value)) field.

(** The loop that compares neighbours. *)
Fixpoint has_equal_neighbours (values : list string) : bool :=
  match values with
  | a :: (b :: _) as rest => bool_decide (b = a) || has_equal_neighbours rest
  | _ => false
  end.

Definition requireUniqueSorted (values : list string) (field : string) : option QueueError :=
  invalid_when (¬ sort_StringsAreSorted values) (field +:+ ".order") >>?
  invalid_when (has_equal_neighbours values) (field +:+ ".duplicate").

Definition optionalString (value : option string) : string := default ""%string value.
Definition optionalTimestamp (value : option Timestamp) : string :=
  from_option fmt_Sprint ""%string value.

(** ** Signers and signatures *)

Definition SignerID_Validate (value : SignerID) : option QueueError :=
  requireMachineToken value "signerID".
Definition SigningKeyID_Validate (value : SigningKeyID) : option QueueError :=
  requireMachineToken value "signingKeyID".

Record ReceiptSignerBinding := mkReceiptSignerBinding {
  rsb_SignerID : SignerID;
  rsb_SigningKeyID : SigningKeyID;
  rsb_SigningKeyRevision : uint64;
  rsb_SignatureProfileID : string }.

#[global] Instance ReceiptSignerBinding_eq_dec : EqDecision ReceiptSignerBinding.
Proof. solve_decision. Defined.

Definition ReceiptSignerBinding_json (v : ReceiptSignerBinding) : json :=
  JObject (
    field "signerID" (JString (rsb_SignerID v)) ++
    field "signingKeyID" (JString (rsb_SigningKeyID v)) ++
    field "signingKeyRevision" (JInt (rsb_SigningKeyRevision v)) ++
    field "signatureProfileID" (JString (rsb_SignatureProfileID v))).

Definition ReceiptSignerBinding_Validate (value : ReceiptSignerBinding) : option QueueError :=
  SignerID_Validate (rsb_SignerID value) >>?
  SigningKeyID_Validate (rsb_SigningKeyID value) >>?
  requirePositive (rsb_SigningKeyRevision value) "signingKeyRevision" >>?
  requireMachineToken (rsb_SignatureProfileID value) "signatureProfileID".

Definition maximumSignatureBytes : Z := 16 * 1024.

Definition base64url_byte (c : ascii) : bool := digit_or_letter c || bool_decide (c ∈ str "-_").

(** The decoder of the source ignores trailing bits; the comparison with the
    encoded value refuses what strict decoding refuses. *)
Definition SignatureValue_Validate (raw : SignatureValue) : option QueueError :=
  invalid_when (raw = ""%string ∨ len raw > (maximumSignatureBytes * 4 + 2) / 3)
    "signature.base64URL" >>?
  invalid_when (¬ forallb base64url_byte (str raw)) "signature.base64URL" >>?
  invalid_when (none_or (b64_DecodeString raw) (fun decoded =>
      zlen decoded = 0 ∨ zlen decoded > maximumSignatureBytes ∨
      b64_EncodeToString decoded ≠ raw)) "signature.base64URL".

(** ** Enumerations *)

Abbreviation TransitionAuthority := string (only parsing).
Abbreviation ScheduleState := string (only parsing).
Abbreviation OccurrenceState := string (only parsing).
Abbreviation AttemptState := string (only parsing).
Abbreviation AssignmentState := string (only parsing).
Abbreviation ItemDisposition := string (only parsing).
Abbreviation ReceiptStage := string (only parsing).
Abbreviation EligibilityKind := string (only parsing).
Abbreviation DestinationKind := string (only parsing).
Abbreviation ManualClosePolicy := string (only parsing).
Abbreviation AutoClosePolicy := string (only parsing).
Abbreviation ExecutorKind := string (only parsing).
Abbreviation ExecutionOutcome := string (only parsing).
Abbreviation ItemExecutionOutcome := string (only parsing).
Abbreviation ItemAttemptOutcome := string (only parsing).
Abbreviation ErrorCode := string (only parsing).
Abbreviation ReasonCode := string (only parsing).

Definition AuthoritySourceDevice : TransitionAuthority := "sourceDevice".
Definition AuthorityJobCustody : TransitionAuthority := "jobCustody".
Definition AuthorityWorker : TransitionAuthority := "worker".
Definition AuthorityStorageCapacity : TransitionAuthority := "storageCapacityAuthority".
Definition AuthorityComputePool : TransitionAuthority := "computePool".

Definition TransitionAuthority_valid (value : TransitionAuthority) : bool :=
  oneOf value ["sourceDevice"; "jobCustody"; "worker"; "storageCapacityAuthority"; "computePool"].

Definition DestinationDirectLocal : DestinationKind := "directLocal".
Definition DestinationFixedWorkers : DestinationKind := "fixedWorkers".
Definition DestinationComputePool : DestinationKind := "computePool".
Definition ExecutorSourceLocal : ExecutorKind := "sourceLocal".
Definition ExecutorWorker : ExecutorKind := "worker".

Definition scheduleStates : list string := ["active"; "paused"; "cancelled"; "expired"].
Definition occurrenceStates : list string :=
  ["eligible"; "preparing"; "waitingForSpace"; "waitingForStorage"; "securelyQueued"; "running";
   "resultsPendingSpace"; "applying"; "localRunning"; "localApplying"; "completed";
   "completedWithErrors"; "paused"; "cancellationRequested"; "cancellationUnconfirmed";
   "cancelled"; "failed"; "needsAttention"].
Definition executionStates : list string :=
  ["prepared"; "sealed"; "admissionPending"; "custodied"; "waitingForWorker"; "claimed";
   "executing"; "resultCustodied"; "delivered"; "applied"; "released"; "retryableRejected";
   "expired"; "custodyCancellationRequested"; "custodyCancellationConfirmed";
   "workerCancellationRequested"; "workerCancellationConfirmed"; "executionFailed";
   "invalidResult"; "uncertainTermination"; "settled"; "localExecuting"; "localResultReady";
   "localApplied"; "localReleased"; "localCancellationRequested"; "localCancellationConfirmed";
   "localExecutionFailed"; "localInvalidResult"; "localUncertainTermination"].
Definition itemDispositions : list string :=
  ["applied"; "skippedSourceMissing"; "skippedSourceMissingBeforeDisclosure";
   "skippedSourceChangedBeforeDisclosure"; "resultNotAppliedSourceMissing";
   "resultNotAppliedSourceChanged"; "failedPreparation"; "failedExecution"; "invalidResult";
   "cancelledBeforeDisclosure"; "cancelledAfterDisclosure"].
Definition receiptStages : list string :=
  ["sourceSealed"; "custodyAccepted"; "waitingForWorker"; "admissionRejected"; "leaseRenewed";
   "leaseExpired"; "workerClaimed"; "executionStarted"; "executionCompleted"; "resultCustodied";
   "resultDelivered"; "sourceResultRejected"; "sourceApplied"; "cancellationRequested";
   "custodyCancellationConfirmed"; "workerCancellationConfirmed"; "releaseRequested";
   "custodyReleased"; "workerReleased"; "localExecutionStarted"; "localExecutionCompleted";
   "localReleased"; "localCancellationConfirmed"].
Definition errorCodes : list string :=
  ["unsupportedProtocol"; "malformedIdentifier"; "invalidDigest"; "invalidRecord"; "staleRevision";
   "invalidPredecessor"; "unauthorizedTransition"; "replayedTransition"; "fixedWorkerSetMutation";
   "counterMismatch"; "storagePressure"; "quotaExceeded"; "capacityUnavailable";
   "reservationExpired"; "sourceMissing"; "sourceChanged"; "workerUnavailable";
   "cancellationUnconfirmed"; "resultRejected"].
Definition reasonCodes : list string :=
  ["userRequested"; "automaticClose"; "scheduleExpired"; "spaceClosedBeforeSecureHandoff";
   "waitingForOpenSpace"; "retryBackoff"; "cancellationUnconfirmed"; "leaseExpired";
   "mixedTerminalOutcomes"; "error"].

Definition ScheduleState_valid (value : ScheduleState) : bool := oneOf value scheduleStates.
Definition OccurrenceState_valid (value : OccurrenceState) : bool := oneOf value occurrenceStates.
Definition AttemptState_valid (value : AttemptState) : bool := oneOf value executionStates.
Definition AssignmentState_valid (value : AssignmentState) : bool :=
  oneOf value executionStates && bool_decide (value ≠ "settled"%string).
Definition ItemDisposition_valid (value : ItemDisposition) : bool := oneOf value itemDispositions.
Definition ReceiptStage_valid (value : ReceiptStage) : bool := oneOf value receiptStages.
Definition EligibilityKind_valid (value : EligibilityKind) : bool :=
  oneOf value ["immediate"; "recurring"].
Definition DestinationKind_valid (value : DestinationKind) : bool :=
  oneOf value ["directLocal"; "fixedWorkers"; "computePool"].
Definition ManualClosePolicy_valid (value : ManualClosePolicy) : bool :=
  oneOf value ["askWithActiveWork"; "continueSecurelyQueued"; "requestCancellation"].
Definition AutoClosePolicy_valid (value : AutoClosePolicy) : bool :=
  oneOf value ["requestCancellation"; "continueSecurelyQueued"].
Definition ExecutorKind_valid (value : ExecutorKind) : bool :=
  oneOf value ["sourceLocal"; "worker"].
Definition ExecutionOutcome_valid (value : ExecutionOutcome) : bool :=
  oneOf value ["succeeded"; "failed"].
Definition ItemExecutionOutcome_valid (value : ItemExecutionOutcome) : bool :=
  oneOf value ["succeeded"; "failed"].
Definition ItemAttemptOutcome_valid (value : ItemAttemptOutcome) : bool :=
  oneOf value ["admissionRejected"; "succeeded"; "failedExecution"; "invalidResult";
    "cancelledBeforeDisclosure"; "cancelledAfterDisclosure"].
Definition ErrorCode_valid (value : ErrorCode) : bool := oneOf value errorCodes.
Definition ReasonCode_valid (value : ReasonCode) : bool := oneOf value reasonCodes.

(** ** Object identifiers *)

Record FacetsObjectID := mkFacetsObjectID {
  oid_ProviderRootURI : string;
  oid_Kind : string;
  oid_SourceID : string }.

#[global] Instance FacetsObjectID_eq_dec : EqDecision FacetsObjectID.
Proof. solve_decision. Defined.

Definition FacetsObjectID_json (v : FacetsObjectID) : json :=
  JObject (
    field "providerRootURI" (JString (oid_ProviderRootURI v)) ++
    field "kind" (JString (oid_Kind v)) ++
    field "sourceID" (JString (oid_SourceID v))).

Definition validObjectKind (value : string) : bool :=
  oneOf value
    ["canonical_place"; "provider_place"; "social_post"; "discussion_forum"; "media_item";
     "media_item_collection"; "media_stream"; "calendar"; "unified_calendar_event";
     "provider_calendar_event"; "provider_reminder"; "unified_life_event"; "provider_life_event";
     "unified_person"; "provider_person"; "persona"; "commerce_order"; "commerce_product";
     "web_link"; "web_link_visit"; "web_link_bookmark"; "web_link_bookmark_folder"; "web_search";
     "short_message_thread"; "short_message"; "journal_entry"; "note"; "note_folder";
     "long_message"; "mailbox"; "ai_conversation"; "ai_interaction"; "ai_event"; "dataset";
     "home_automation_event"; "personality_test_result"; "document"; "structured_text_work";
     "structured_text_reading"; "fitness"; "financial_balance"; "financial_transaction";
     "financial_record"; "health_record"; "education_record"; "government_record"; "annotation";
     "text"; "semantic_passage"].

Definition scheme_byte (c : ascii) : bool := digit_or_letter c || bool_decide (c ∈ str "+-.").

(** The bytes before the first colon; [None] when there is no colon. *)
Fixpoint before_colon (l : bytes) : option bytes :=
  match l with
  | [] => None
  | c :: l => if decide (byte_val c = 58) then Some [] else cons c <$> before_colon l
  end.

Definition hasURLComponentsCompatibleScheme (value : string) : bool :=
  match before_colon (str value) with
  | None | Some [] => false
  | Some (first :: rest) =>
    (in_range 65 90 first || in_range 97 122 first) && forallb scheme_byte rest
  end.

Definition FacetsObjectID_RawValue (identifier : FacetsObjectID) : string :=
  let encode value := str (b64_EncodeToString (str value)) in
  of_str (join (str ":") [str "facets-object-id"; str "v1"; encode (oid_ProviderRootURI identifier);
    str (oid_Kind identifier); encode (oid_SourceID identifier)]).

Definition object_text_refused (value : string) : Prop :=
  value = ""%string ∨ strings_TrimSpace value ≠ value ∨ contains_byte value 0 ∨
  ¬ utf8_ValidString value ∨ len value > 16 * 1024.

#[global] Instance object_text_refused_dec value : Decision (object_text_refused value).
Proof. unfold object_text_refused. apply _. Defined.

Definition FacetsObjectID_Validate (identifier : FacetsObjectID) : option QueueError :=
  invalid_when (object_text_refused (oid_ProviderRootURI identifier) ∨
    object_text_refused (oid_SourceID identifier) ∨
    ¬ validObjectKind (oid_Kind identifier)) "objectID" >>?
  invalid_when (¬ hasURLComponentsCompatibleScheme (oid_ProviderRootURI identifier) ∨
    len (FacetsObjectID_RawValue identifier) > 32 * 1024) "objectID.providerRootURI".
