(* ===== verification/ComputeQueueCanonical.v ===== *)
(** * internal/computequeue: canonical JSON (canonical.go)

    The bounded parser of JSON documents and the writer of their canonical
    form: keys in byte order, no white space, one spelling for every string
    and integer.  A parser is its remaining bytes with the number of nodes
    seen.  The nesting of values carries the fuel [maximumDepth + 2], one more
    than the parser's own depth check lets through, and a loop the bytes that
    are left, of which every round takes at least one. *)

From S2P Require Import Prelude GoEncoding GoText ComputeQueue.
#[local] Open Scope Z_scope.

(** ** Runes *)

(** [utf8.EncodeRune]; what is no Unicode scalar value becomes U+FFFD. *)
Definition utf8_EncodeRune (r : Z) : bytes :=
  if decide (0 ≤ r < 128) then [byte_of r]
  else if decide (128 ≤ r < 2048) then bytes_of [192 + r / 64; 128 + r mod 64]
  else if decide (r < 0 ∨ r > 1114111 ∨ 55296 ≤ r < 57344) then bytes_of [239; 191; 189]
  else if decide (r < 65536) then
    bytes_of [224 + r / 4096; 128 + r / 64 mod 64; 128 + r mod 64]
  else bytes_of [240 + r / 262144; 128 + r / 4096 mod 64; 128 + r / 64 mod 64; 128 + r mod 64].

(** [string(runes)] *)
Definition string_of_runes (output : list Z) : string := of_str (output ≫= utf8_EncodeRune).

Definition utf16_IsSurrogate (r : Z) : bool := bool_decide (55296 ≤ r < 57344).

Definition utf16_DecodeRune (r1 r2 : Z) : Z := (r1 - 55296) * 1024 + (r2 - 56320) + 65536.

(** ** Values and bounds *)

Definition MaximumDepth : Z := 64.
Definition MaximumContainerEntries : Z := 250000.
Definition MaximumNodeCount : Z := 1000000.
Definition maximumCustodyDocumentBytes : Z := 64 * 1024.
Definition maximumCustodyDepth : Z := 8.
Definition maximumCustodyContainerEntries : Z := 32.
Definition maximumCustodyNodeCount : Z := 128.

Record jsonBounds := mkjsonBounds {
  maximumDocumentBytes : Z;
  maximumDepth : Z;
  maximumContainerEntries : Z;
  maximumNodeCount : Z }.

Definition sourceJSONBounds : jsonBounds :=
  mkjsonBounds MaximumDocumentBytes MaximumDepth MaximumContainerEntries MaximumNodeCount.

Definition custodyJSONBounds : jsonBounds :=
  mkjsonBounds maximumCustodyDocumentBytes maximumCustodyDepth maximumCustodyContainerEntries
    maximumCustodyNodeCount.

Inductive canonicalValue :=
  | canonicalObject (object : list (string * canonicalValue))
  | canonicalArray (array : list canonicalValue)
  | canonicalString (text : string)
  | canonicalInteger (text : string)
  | canonicalBoolean (boolean : bool)
  | canonicalNull.

(** ** Writing *)

Definition write_rune (current : Z) : bytes :=
  if decide (current = 34 ∨ current = 92) then byte_of 92 :: utf8_EncodeRune current
  else if decide (current = 8) then str "\b"
  else if decide (current = 12) then str "\f"
  else if decide (current = 10) then str "\n"
  else if decide (current = 13) then str "\r"
  else if decide (current = 9) then str "\t"
  else if decide (current = 8232) then str "\u2028"
  else if decide (current = 8233) then str "\u2029"
  else if decide (current < 32) then
    str "\u00" ++ [hex_digit (current / 16); hex_digit (current mod 16)]
  else utf8_EncodeRune current.

Definition writeCanonicalString (value : string) : bytes :=
  [byte_of 34] ++ (runes value ≫= write_rune) ++ [byte_of 34].

(** The order of [sortCanonicalEntries], on entries of any kind. *)
Definition entry_le {A} (left right : string * A) : Prop := str_le left.1 right.1.

#[global] Instance entry_le_dec {A} (left right : string * A) : Decision (entry_le left right).
Proof. unfold entry_le. apply _. Defined.

Definition sortCanonicalEntries {A} (entries : list (string * A)) : list (string * A) :=
  merge_sort entry_le entries.

Definition write_entry (entry : string * bytes) : bytes :=
  writeCanonicalString entry.1 ++ [byte_of 58] ++ entry.2.

(** The entries of an object are sorted with their written values. *)
Fixpoint write (value : canonicalValue) : bytes :=
  match value with
  | canonicalObject object =>
    str "{" ++ join (str ",") (write_entry <$>
      sortCanonicalEntries (map (fun entry => (entry.1, write entry.2)) object)) ++ str "}"
  | canonicalArray array => str "[" ++ join (str ",") (map write array) ++ str "]"
  | canonicalString text => writeCanonicalString text
  | canonicalInteger text => str text
  | canonicalBoolean boolean => str (if boolean then "true" else "false")
  | canonicalNull => str "null"
  end.

(** ** Parsing *)

Record canonicalParser := mkcanonicalParser {
  cp_rest : bytes;
  cp_nodeCount : Z }.

#[global] Instance canonicalParser_eta : Eta canonicalParser :=
  fun p => mkcanonicalParser (cp_rest p) (cp_nodeCount p).
#[global] Instance update_cp_rest : Update cp_rest := ltac:(mk_update).
#[global] Instance update_cp_nodeCount : Update cp_nodeCount := ltac:(mk_update).

Abbreviation ParserM A := (M QueueError canonicalParser A) (only parsing).

(** The next byte exists and satisfies a test. *)
Definition starts (test : ascii → bool) (l : bytes) : bool :=
  match l with c :: _ => test c | [] => false end.

Definition whitespace (c : ascii) : bool :=
  bool_decide (byte_val c = 32 ∨ byte_val c = 9 ∨ byte_val c = 10 ∨ byte_val c = 13).

Definition isJSONDelimiter (c : ascii) : bool :=
  bool_decide (byte_val c = 44 ∨ byte_val c = 93 ∨ byte_val c = 125) || whitespace c.

Fixpoint skip_spaces (l : bytes) : bytes :=
  match l with
  | c :: rest => if whitespace c then skip_spaces rest else l
  | [] => []
  end.

Definition skipWhitespace : ParserM unit :=
  modify (fun parser => parser <| cp_rest := skip_spaces (cp_rest parser) |>).

Definition consumeByte (value : Z) : ParserM bool := fun parser =>
  match cp_rest parser with
  | c :: rest =>
    if decide (byte_val c = value) then (parser <| cp_rest := rest |>, inr true)
    else (parser, inr false)
  | [] => (parser, inr false)
  end.

(** [if !parser.consumeByte(value) { return ErrNonCanonical }] *)
Definition expectByte (value : Z) : ParserM unit :=
  let* consumed := consumeByte value in
  reject_if (¬ consumed) ErrNonCanonical.

(** The byte after a literal or an integer is a delimiter, or there is none. *)
Definition at_delimiter : ParserM unit :=
  let* parser := get in
  match cp_rest parser with
  | c :: _ => reject_if (¬ isJSONDelimiter c) ErrNonCanonical
  | [] => ret tt
  end.

Definition consumeLiteral (value : string) : ParserM unit :=
  let* parser := get in
  reject_if (take (String.length value) (cp_rest parser) ≠ str value) ErrNonCanonical;;;
  modify (fun parser => parser <| cp_rest := drop (String.length value) (cp_rest parser) |>);;;
  at_delimiter.

Definition digit_byte (c : ascii) : bool := in_range 48 57 c.

(** The digits at the head of the input, and what follows them. *)
Fixpoint digits (l : bytes) : bytes * bytes :=
  match l with
  | c :: rest =>
    if digit_byte c then let '(d, rest) := digits rest in (c :: d, rest) else ([], l)
  | [] => ([], [])
  end.

Definition parseInteger : ParserM string :=
  let* negative := consumeByte 45 in
  let* parser := get in
  match cp_rest parser with
  | [] => throw ErrNonCanonical
  | first :: rest =>
    let sign := if negative then str "-" else [] in
    (if decide (byte_val first = 48) then
       reject_if negative ErrNonCanonical;;;
       modify (fun parser => parser <| cp_rest := rest |>);;;
       reject_if (starts digit_byte rest) ErrNonCanonical;;;
       ret (of_str [first])
     else
       reject_if (¬ in_range 49 57 first) ErrNonCanonical;;;
       modify (fun parser => parser <| cp_rest := (digits (cp_rest parser)).2 |>);;;
       ret (of_str (sign ++ (digits (cp_rest parser)).1)))
  end.

(** An integer is followed by a delimiter. *)
Definition parseDelimitedInteger : ParserM string :=
  let* text := parseInteger in
  at_delimiter;;;
  ret text.

(** [strconv.ParseUint] of four hexadecimal digits. *)
Definition parseHexQuad : ParserM Z :=
  let* parser := get in
  match cp_rest parser with
  | a :: b :: c :: d :: rest =>
    match mapM hex_value [a; b; c; d] with
    | Some [a; b; c; d] =>
      modify (fun parser => parser <| cp_rest := rest |>);;;
      ret (((a * 16 + b) * 16 + c) * 16 + d)
    | _ => throw ErrNonCanonical
    end
  | _ => throw ErrNonCanonical
  end.

(** After [\u]: a code unit, or a surrogate pair. *)
Definition unicode_escape : ParserM Z :=
  let* first := parseHexQuad in
  if utf16_IsSurrogate first then
    let* parser := get in
    reject_if (first < 55296 ∨ first > 56319 ∨ take 2 (cp_rest parser) ≠ str "\u")
      ErrNonCanonical;;;
    modify (fun parser => parser <| cp_rest := drop 2 (cp_rest parser) |>);;;
    let* second := parseHexQuad in
    reject_if (second < 56320 ∨ second > 57343) ErrNonCanonical;;;
    ret (utf16_DecodeRune first second)
  else ret first.

Definition escape_rune (escaped : Z) : ParserM Z :=
  if decide (escaped = 34 ∨ escaped = 92 ∨ escaped = 47) then ret escaped
  else if decide (escaped = 98) then ret 8
  else if decide (escaped = 102) then ret 12
  else if decide (escaped = 110) then ret 10
  else if decide (escaped = 114) then ret 13
  else if decide (escaped = 116) then ret 9
  else if decide (escaped = 117) then unicode_escape
  else throw ErrNonCanonical.

Definition next_byte : ParserM Z := fun parser =>
  match cp_rest parser with
  | c :: rest => (parser <| cp_rest := rest |>, inr (byte_val c))
  | [] => (parser, inl ErrNonCanonical)
  end.

(** A byte that is neither a quote nor an escape starts a rune. *)
Definition raw_rune : ParserM Z := fun parser =>
  let '(r, width) := decode_rune (cp_rest parser) in
  if decide (r = RuneError ∧ width = 1%nat) then (parser, inl ErrNonCanonical)
  else (parser <| cp_rest := drop width (cp_rest parser) |>, inr r).

(** One round of the loop of [parseString]: the next rune, [None] at the
    closing quote. *)
Definition string_rune : ParserM (option Z) := fun parser =>
  match cp_rest parser with
  | [] => (parser, inl ErrNonCanonical)
  | c :: rest =>
    let current := byte_val c in
    if decide (current = 34) then (parser <| cp_rest := rest |>, inr None)
    else if decide (current = 92) then
      (let* escaped := next_byte in
       let* r := escape_rune escaped in
       ret (Some r)) (parser <| cp_rest := rest |>)
    else if decide (current < 32) then (parser, inl ErrNonCanonical)
    else (let* r := raw_rune in ret (Some r)) parser
  end.

Fixpoint string_loop (fuel : nat) (output : list Z) : ParserM string :=
  match fuel with
  | O => throw ErrNonCanonical
  | S fuel =>
    let* r := string_rune in
    match r with
    | Some r => string_loop fuel (output ++ [r])
    | None => ret (string_of_runes output)
    end
  end.

Definition parseString : ParserM string :=
  expectByte 34;;;
  let* parser := get in
  string_loop (length (cp_rest parser)) [].

(** The loop of [parseObject]. *)
Fixpoint object_loop (bounds : jsonBounds) (child : ParserM canonicalValue) (fuel : nat)
    (entries : list (string * canonicalValue)) : ParserM canonicalValue :=
  match fuel with
  | O => throw ErrNonCanonical
  | S fuel =>
    let* parser := get in
    reject_if (zlen entries ≥ maximumContainerEntries bounds ∨
        ¬ starts (in_range 34 34) (cp_rest parser))
      (InvalidRecord "jsonContainerEntries");;;
    let* key := parseString in
    reject_if (key ∈ entries.*1) (duplicateValue "jsonKey");;;
    skipWhitespace;;;
    expectByte 58;;;
    skipWhitespace;;;
    let* value := child in
    let entries := entries ++ [(key, value)] in
    skipWhitespace;;;
    let* closed := consumeByte 125 in
    if (closed : bool) then ret (canonicalObject entries)
    else
      expectByte 44;;;
      skipWhitespace;;;
      object_loop bounds child fuel entries
  end.

Definition parseObject (bounds : jsonBounds) (child : ParserM canonicalValue)
    : ParserM canonicalValue :=
  modify (fun parser => parser <| cp_rest := drop 1 (cp_rest parser) |>);;;
  skipWhitespace;;;
  let* closed := consumeByte 125 in
  if (closed : bool) then ret (canonicalObject [])
  else
    let* parser := get in
    object_loop bounds child (S (length (cp_rest parser))) [].

(** The loop of [parseArray]. *)
Fixpoint array_loop (bounds : jsonBounds) (child : ParserM canonicalValue) (fuel : nat)
    (values : list canonicalValue) : ParserM canonicalValue :=
  match fuel with
  | O => throw ErrNonCanonical
  | S fuel =>
    reject_if (zlen values ≥ maximumContainerEntries bounds)
      (InvalidRecord "jsonContainerEntries");;;
    let* value := child in
    let values := values ++ [value] in
    skipWhitespace;;;
    let* closed := consumeByte 93 in
    if (closed : bool) then ret (canonicalArray values)
    else
      expectByte 44;;;
      skipWhitespace;;;
      array_loop bounds child fuel values
  end.

Definition parseArray (bounds : jsonBounds) (child : ParserM canonicalValue)
    : ParserM canonicalValue :=
  modify (fun parser => parser <| cp_rest := drop 1 (cp_rest parser) |>);;;
  skipWhitespace;;;
  let* closed := consumeByte 93 in
  if (closed : bool) then ret (canonicalArray [])
  else
    let* parser := get in
    array_loop bounds child (S (length (cp_rest parser))) [].

(** The switch of [parseValue] on the first byte. *)
Definition parse_by (bounds : jsonBounds) (child : ParserM canonicalValue) (first : Z)
    : ParserM canonicalValue :=
  if decide (first = 123) then parseObject bounds child
  else if decide (first = 91) then parseArray bounds child
  else if decide (first = 34) then let* text := parseString in ret (canonicalString text)
  else if decide (first = 116) then consumeLiteral "true";;; ret (canonicalBoolean true)
  else if decide (first = 102) then consumeLiteral "false";;; ret (canonicalBoolean false)
  else if decide (first = 110) then consumeLiteral "null";;; ret canonicalNull
  else if decide (first = 45 ∨ 48 ≤ first ≤ 57) then
    let* integer := parseDelimitedInteger in ret (canonicalInteger integer)
  else throw ErrNonCanonical.

Fixpoint parseValue (bounds : jsonBounds) (fuel : nat) (depth : Z) : ParserM canonicalValue :=
  match fuel with
  | O => throw ErrNonCanonical
  | S fuel =>
    let* parser := get in
    match cp_rest parser with
    | first :: _ =>
      reject_if (depth > maximumDepth bounds) ErrNonCanonical;;;
      modify (fun parser => parser <| cp_nodeCount := cp_nodeCount parser + 1 |>);;;
      reject_if (cp_nodeCount parser + 1 > maximumNodeCount bounds)
        (InvalidRecord "jsonNodeCount");;;
      parse_by bounds (parseValue bounds fuel (depth + 1)) (byte_val first)
    | [] => throw ErrNonCanonical
    end
  end.

Definition depth_fuel (bounds : jsonBounds) : nat := (Z.to_nat (maximumDepth bounds) + 2)%nat.

Definition parse (bounds : jsonBounds) : ParserM canonicalValue :=
  skipWhitespace;;;
  let* value := parseValue bounds (depth_fuel bounds) 0 in
  skipWhitespace;;;
  let* parser := get in
  reject_if (cp_rest parser ≠ []) ErrNonCanonical;;;
  ret value.

(** ** The canonical form *)

Definition canonicalizeWithBounds (data : bytes) (bounds : jsonBounds) : QueueError + bytes :=
  if decide (zlen data = 0 ∨ zlen data > maximumDocumentBytes bounds ∨
             ¬ utf8_ValidString (of_str data)) then inl (InvalidRecord "documentBytes")
  else
    let? value := (parse bounds (mkcanonicalParser data 0)).2 in
    let output := write value in
    if decide (zlen output > maximumDocumentBytes bounds) then inl (InvalidRecord "documentBytes")
    else inr output.

Definition canonicalize (data : bytes) : QueueError + bytes :=
  canonicalizeWithBounds data sourceJSONBounds.

(** A typed contract: its validation and the tree that [json.Marshal] writes. *)
Class Validatable (T : Type) := {
  Validate : T → option QueueError;
  to_json : T → json }.

(** [json.Decoder.Decode] for a type, which goes by reflection. *)
Class JsonDecoder (T : Type) := { json_Decode : bytes → option T }.

Section codec.
Context {T : Type} `{!Validatable T, !JsonDecoder T}.

Definition encodeCanonicalWithBounds (value : T) (bounds : jsonBounds) : QueueError + bytes :=
  Validate value >>! canonicalizeWithBounds (Marshal (to_json value)) bounds.

Definition EncodeCanonical (value : T) : QueueError + bytes :=
  encodeCanonicalWithBounds value sourceJSONBounds.

Definition decodeCanonicalWithBounds (data : bytes) (bounds : jsonBounds) : QueueError + T :=
  let? canonical := canonicalizeWithBounds data bounds in
  if decide (canonical ≠ data) then inl ErrNonCanonical
  else
    match json_Decode data with
    | None => inl (InvalidRecord "decode")
    | Some value =>
      Validate value >>!
      let? encoded := EncodeCanonical value in
      if decide (encoded ≠ data) then inl ErrNonCanonical else inr value
    end.

Definition DecodeCanonical (data : bytes) : QueueError + T :=
  decodeCanonicalWithBounds data sourceJSONBounds.
End codec.

(** ** Examples *)

Definition quoted (s : string) : bytes := [byte_of 34] ++ str s ++ [byte_of 34].

Example canonicalize_object :
  canonicalize (str "{ " ++ quoted "b" ++ str " : [1, -20 ,true] ," ++ quoted "a\u0041\/" ++
    str ":null}" ++ [byte_of 10]) =
  inr (str "{" ++ quoted "aA/" ++ str ":null," ++ quoted "b" ++ str ":[1,-20,true]}").
Proof. vm_compute. reflexivity. Qed.

Example canonicalize_refused :
  map (fun text => canonicalize (str text)) ["01"; "-0"; "1.5"; "[1,]"; "[1]x"]%string =
  [inl ErrNonCanonical; inl ErrNonCanonical; inl ErrNonCanonical; inl ErrNonCanonical;
   inl ErrNonCanonical].
Proof. vm_compute. reflexivity. Qed.

Example canonicalize_duplicate :
  canonicalize (str "{" ++ quoted "a" ++ str ":1," ++ quoted "\u0061" ++ str ":2}") =
  inl (duplicateValue "jsonKey").
Proof. vm_compute. reflexivity. Qed.
