(* ===== verification/ComputeQueueAuthorization.v ===== *)
(** * internal/computequeue: bindings (authorization.go, source_base.go)

    What a schedule, an occurrence and an attempt are bound to: the operation,
    the policy with its retry rule, the execution identity, the executors, the
    destination, the eligibility, leases and the reasons of transitions.  Each
    has a validation and a digest that stands for it in later comparisons. *)

From S2P Require Import Prelude GoEncoding GoText Sha256 ComputeQueue ComputeQueueCanonical.
#[local] Open Scope Z_scope.

Definition MaximumRetries : Z := 31.
Definition MaximumBackoffMilliseconds : uint64 := 2592000000.
Definition maximumItems : Z := 250000.
Definition maximumAssignmentItems : Z := 50000.
Definition maximumTargetManifestChunkItems : Z := 4096.
Definition maximumAssignments : Z := 512.
Definition maximumReceipts : Z := 16384.
Definition maximumTargetManifestChunkBytes : Z := 1024 * 1024.

(** [^uint64(0)] *)
Definition MaxUint64 : Z := 2 ^ 64 - 1.

(** [previous.Revision == ^uint64(0) || value.Revision != previous.Revision+1] *)
Definition not_next_revision (previous value : uint64) : Prop :=
  previous = MaxUint64 ∨ value ≠ u64 (previous + 1).

#[global] Instance not_next_revision_dec previous value : Decision (not_next_revision previous value).
Proof. unfold not_next_revision. apply _. Defined.

(** ** Operations *)

Record OperationBinding := mkOperationBinding {
  ob_TypeID : string;
  ob_SchemaVersion : uint64;
  ob_DefinitionID : OperationDefinitionID;
  ob_DefinitionRevision : uint64;
  ob_DefinitionDigest : Digest;
  ob_DefinitionByteCount : int64 }.

#[global] Instance OperationBinding_eq_dec : EqDecision OperationBinding.
Proof. solve_decision. Defined.

Definition containsEither (value : string) (first second : Z) : bool :=
  existsb (fun c => bool_decide (byte_val c = first ∨ byte_val c = second)) (str value).

Section operation.
Context `{UuidParser}.

Definition OperationBinding_Validate (value : OperationBinding) : option QueueError :=
  invalid_when (is_Some (requireMachineToken (ob_TypeID value) "operationBinding.typeID") ∨
    ¬ containsEither (ob_TypeID value) 46 58) "operationBinding.typeID" >>?
  requirePositive (ob_SchemaVersion value) "operationBinding.schemaVersion" >>?
  validateOpaqueID (ob_DefinitionID value) >>?
  requirePositive (ob_DefinitionRevision value) "operationBinding.definitionRevision" >>?
  Digest_Validate (ob_DefinitionDigest value) >>?
  invalid_when (ob_DefinitionByteCount value ≤ 0 ∨
    ob_DefinitionByteCount value > MaximumDocumentBytes) "operationBinding.definitionByteCount".

Definition OperationBinding_Digest (value : OperationBinding) : Digest :=
  SHA256Digest "facets.compute-queue.operation-binding.v1"
    [ob_TypeID value; fmt_Sprint (ob_SchemaVersion value); ob_DefinitionID value;
     fmt_Sprint (ob_DefinitionRevision value); ob_DefinitionDigest value;
     fmt_Sprint (ob_DefinitionByteCount value)].

Definition OperationDefinitionDigest (exactBytes : bytes) : QueueError + Digest :=
  ExactBytesDigest "facets.compute-queue.operation-definition-bytes.v1" exactBytes
    MaximumDocumentBytes.

Definition OperationBinding_ValidateExactBytes (value : OperationBinding) (exactBytes : bytes)
    : option QueueError :=
  OperationBinding_Validate value >>?
  match OperationDefinitionDigest exactBytes with
  | inl _ => Some (invalid "operationBinding.definitionBytes")
  | inr digest =>
    invalid_when (ob_DefinitionByteCount value ≠ zlen exactBytes ∨
      ob_DefinitionDigest value ≠ digest) "operationBinding.definitionBytes"
  end.
End operation.

(** ** Retries *)

Record RetryPolicy := mkRetryPolicy {
  rp_BackoffMillisecondsByRetry : Slice uint64;
  rp_RetryableErrorCodes : Slice ErrorCode }.

#[global] Instance RetryPolicy_eq_dec : EqDecision RetryPolicy.
Proof. solve_decision. Defined.

(** The loop over the delays: none is zero, too long or shorter than the one
    before. *)
Fixpoint delays_refused (previous : uint64) (delays : list uint64) : Prop :=
  match delays with
  | [] => False
  | delay :: delays =>
    (delay = 0 ∨ delay > MaximumBackoffMilliseconds ∨ delay < previous) ∨
    delays_refused delay delays
  end.

#[global] Instance delays_refused_dec previous delays : Decision (delays_refused previous delays).
Proof. revert previous. induction delays; intros; simpl; apply _. Defined.

Definition RetryPolicy_Validate (value : RetryPolicy) : option QueueError :=
  let delays := elements (rp_BackoffMillisecondsByRetry value) in
  let codes := elements (rp_RetryableErrorCodes value) in
  invalid_when (rp_BackoffMillisecondsByRetry value = None ∨ rp_RetryableErrorCodes value = None)
    "retryPolicy" >>?
  invalid_when (zlen delays > MaximumRetries ∨ zlen codes > zlen errorCodes) "retryPolicy" >>?
  invalid_when (bool_decide (zlen delays = 0) ≠ bool_decide (zlen codes = 0))
    "retryPolicy.retryableErrorCodes" >>?
  invalid_when (delays_refused 0 delays) "retryPolicy.backoffMillisecondsByRetry" >>?
  each (fun code => invalid_when (¬ ErrorCode_valid code) "retryPolicy.retryableErrorCodes")
    codes >>?
  requireUniqueSorted codes "retryPolicy.retryableErrorCodes".

Definition RetryPolicy_MaximumAttempts (value : RetryPolicy) : uint64 :=
  u64 (zlen (elements (rp_BackoffMillisecondsByRetry value)) + 1).

Definition RetryPolicy_Digest (value : RetryPolicy) : Digest :=
  let delays := elements (rp_BackoffMillisecondsByRetry value) in
  let codes := elements (rp_RetryableErrorCodes value) in
  SHA256Digest "facets.compute-queue.retry-policy.v1"
    ([fmt_Sprint (zlen delays)] ++ (fmt_Sprint <$> delays) ++ [fmt_Sprint (zlen codes)] ++ codes).

(** ** Policies *)

Record PolicyBinding := mkPolicyBinding {
  pb_PolicyID : PolicyID;
  pb_PolicyRevision : uint64;
  pb_PolicySchemaVersion : uint64;
  pb_PolicyDocumentDigest : Digest;
  pb_PolicyDocumentByteCount : int64;
  pb_RetryPolicy : RetryPolicy;
  pb_ScheduleExpiresAt : option Timestamp;
  pb_ManualClosePolicy : ManualClosePolicy;
  pb_AutoClosePolicy : AutoClosePolicy }.

#[global] Instance PolicyBinding_eq_dec : EqDecision PolicyBinding.
Proof. solve_decision. Defined.

Record OccurrencePolicySnapshot := mkOccurrencePolicySnapshot {
  ops_PolicyBinding : PolicyBinding;
  ops_AdmissionNotBeforeAt : Timestamp;
  ops_ExecutionExpiresAt : Timestamp;
  ops_InputRetentionUntil : Timestamp;
  ops_ResultRetentionUntil : Timestamp;
  ops_ReceiptRetentionUntil : Timestamp }.

#[global] Instance OccurrencePolicySnapshot_eq_dec : EqDecision OccurrencePolicySnapshot.
Proof. solve_decision. Defined.

Section policy.
Context `{UuidParser}.

Definition PolicyBinding_Validate (value : PolicyBinding) : option QueueError :=
  validateOpaqueID (pb_PolicyID value) >>?
  requirePositive (pb_PolicyRevision value) "policyBinding.policyRevision" >>?
  requirePositive (pb_PolicySchemaVersion value) "policyBinding.policySchemaVersion" >>?
  Digest_Validate (pb_PolicyDocumentDigest value) >>?
  invalid_when (pb_PolicyDocumentByteCount value ≤ 0 ∨
    pb_PolicyDocumentByteCount value > MaximumDocumentBytes)
    "policyBinding.policyDocumentByteCount" >>?
  RetryPolicy_Validate (pb_RetryPolicy value) >>?
  when_present Timestamp_Validate (pb_ScheduleExpiresAt value) >>?
  invalid_when (¬ ManualClosePolicy_valid (pb_ManualClosePolicy value) ∨
    ¬ AutoClosePolicy_valid (pb_AutoClosePolicy value)) "policyBinding.closePolicy".

Definition PolicyBinding_Digest (value : PolicyBinding) : Digest :=
  SHA256Digest "facets.compute-queue.policy-binding.v1"
    [pb_PolicyID value; fmt_Sprint (pb_PolicyRevision value);
     fmt_Sprint (pb_PolicySchemaVersion value); pb_PolicyDocumentDigest value;
     fmt_Sprint (pb_PolicyDocumentByteCount value); RetryPolicy_Digest (pb_RetryPolicy value);
     optionalTimestamp (pb_ScheduleExpiresAt value); pb_ManualClosePolicy value;
     pb_AutoClosePolicy value].

Definition PolicyDocumentDigest (exactBytes : bytes) : QueueError + Digest :=
  ExactBytesDigest "facets.compute-queue.policy-document-bytes.v1" exactBytes MaximumDocumentBytes.

Definition PolicyBinding_ValidateExactBytes (value : PolicyBinding) (exactBytes : bytes)
    : option QueueError :=
  PolicyBinding_Validate value >>?
  match PolicyDocumentDigest exactBytes with
  | inl _ => Some (invalid "policyBinding.policyDocumentBytes")
  | inr digest =>
    invalid_when (pb_PolicyDocumentByteCount value ≠ zlen exactBytes ∨
      pb_PolicyDocumentDigest value ≠ digest) "policyBinding.policyDocumentBytes"
  end.

Definition OccurrencePolicySnapshot_Validate (value : OccurrencePolicySnapshot)
    : option QueueError :=
  PolicyBinding_Validate (ops_PolicyBinding value) >>?
  each Timestamp_Validate [ops_AdmissionNotBeforeAt value; ops_ExecutionExpiresAt value;
    ops_InputRetentionUntil value; ops_ResultRetentionUntil value;
    ops_ReceiptRetentionUntil value] >>?
  invalid_when (ops_AdmissionNotBeforeAt value ≥ ops_ExecutionExpiresAt value ∨
    ops_InputRetentionUntil value < ops_ExecutionExpiresAt value ∨
    ops_ResultRetentionUntil value < ops_ExecutionExpiresAt value ∨
    ops_ReceiptRetentionUntil value < ops_InputRetentionUntil value ∨
    ops_ReceiptRetentionUntil value < ops_ResultRetentionUntil value)
    "occurrencePolicySnapshot.timestamps" >>?
  invalid_when (some_and (pb_ScheduleExpiresAt (ops_PolicyBinding value))
    (fun expires => ops_ExecutionExpiresAt value > expires))
    "occurrencePolicySnapshot.executionExpiresAt".

Definition OccurrencePolicySnapshot_Digest (value : OccurrencePolicySnapshot) : Digest :=
  SHA256Digest "facets.compute-queue.occurrence-policy-snapshot.v1"
    [PolicyBinding_Digest (ops_PolicyBinding value); fmt_Sprint (ops_AdmissionNotBeforeAt value);
     fmt_Sprint (ops_ExecutionExpiresAt value); fmt_Sprint (ops_InputRetentionUntil value);
     fmt_Sprint (ops_ResultRetentionUntil value); fmt_Sprint (ops_ReceiptRetentionUntil value)].
End policy.

(** ** Leases *)

Record LeaseBinding := mkLeaseBinding {
  lb_ID : LeaseID;
  lb_Revision : uint64;
  lb_IssuedAt : Timestamp;
  lb_ExpiresAt : Timestamp;
  lb_MaximumExpiresAt : Timestamp }.

#[global] Instance LeaseBinding_eq_dec : EqDecision LeaseBinding.
Proof. solve_decision. Defined.

Definition LeaseBinding_json (v : LeaseBinding) : json :=
  JObject (
    field "id" (JString (lb_ID v)) ++
    field "revision" (JInt (lb_Revision v)) ++
    field "issuedAt" (JInt (lb_IssuedAt v)) ++
    field "expiresAt" (JInt (lb_ExpiresAt v)) ++
    field "maximumExpiresAt" (JInt (lb_MaximumExpiresAt v))).

Section leases.
Context `{UuidParser}.

Definition LeaseBinding_Validate (value : LeaseBinding) : option QueueError :=
  validateOpaqueID (lb_ID value) >>?
  requirePositive (lb_Revision value) "leaseBinding.revision" >>?
  invalid_when (lb_IssuedAt value < 0 ∨ lb_IssuedAt value ≥ lb_ExpiresAt value ∨
    lb_ExpiresAt value > lb_MaximumExpiresAt value) "leaseBinding.timestamps".

Definition LeaseBinding_Digest (value : LeaseBinding) : Digest :=
  SHA256Digest "facets.compute-queue.lease-binding.v1"
    [lb_ID value; fmt_Sprint (lb_Revision value); fmt_Sprint (lb_IssuedAt value);
     fmt_Sprint (lb_ExpiresAt value); fmt_Sprint (lb_MaximumExpiresAt value)].

Definition LeaseBinding_ValidateRenewal (value previous : LeaseBinding) : option QueueError :=
  LeaseBinding_Validate value >>?
  LeaseBinding_Validate previous >>?
  invalid_when (lb_ID value ≠ lb_ID previous ∨
    lb_MaximumExpiresAt value ≠ lb_MaximumExpiresAt previous) "leaseBinding" >>?
  invalid_when (not_next_revision (lb_Revision previous) (lb_Revision value))
    "leaseBinding.revision" >>?
  invalid_when (lb_IssuedAt value < lb_IssuedAt previous ∨
    lb_IssuedAt value > lb_ExpiresAt previous ∨ lb_ExpiresAt value ≤ lb_ExpiresAt previous)
    "leaseBinding.renewal".
End leases.

(** ** Reasons *)

Record TransitionReason := mkTransitionReason {
  tr_Code : ReasonCode;
  tr_ErrorID : option ErrorID }.

#[global] Instance TransitionReason_eq_dec : EqDecision TransitionReason.
Proof. solve_decision. Defined.

Section reasons.
Context `{UuidParser}.

Definition TransitionReason_Validate (value : TransitionReason) : option QueueError :=
  invalid_when (¬ ReasonCode_valid (tr_Code value) ∨
    bool_decide (tr_Code value = "error"%string) ≠ bool_decide (tr_ErrorID value ≠ None))
    "transitionReason.errorID" >>?
  when_present validateOpaqueID (tr_ErrorID value).

Definition TransitionReason_Digest (value : TransitionReason) : Digest :=
  SHA256Digest "facets.compute-queue.transition-reason.v1"
    [tr_Code value; optionalString (tr_ErrorID value)].
End reasons.

(** ** Executors *)

Record ExecutionIdentity := mkExecutionIdentity {
  ei_BackendFamilyID : string;
  ei_BackendFamilyRevision : string;
  ei_ModelID : string;
  ei_ModelArtifactDigest : Digest;
  ei_AdapterID : string;
  ei_AdapterRevision : string;
  ei_DecisionContractDigest : Digest;
  ei_ExecutionSettingsDigest : Digest;
  ei_Quantization : option string }.

#[global] Instance ExecutionIdentity_eq_dec : EqDecision ExecutionIdentity.
Proof. solve_decision. Defined.

Definition ExecutionIdentity_json (v : ExecutionIdentity) : json :=
  JObject (
    field "backendFamilyID" (JString (ei_BackendFamilyID v)) ++
    field "backendFamilyRevision" (JString (ei_BackendFamilyRevision v)) ++
    field "modelID" (JString (ei_ModelID v)) ++
    field "modelArtifactDigest" (JString (ei_ModelArtifactDigest v)) ++
    field "adapterID" (JString (ei_AdapterID v)) ++
    field "adapterRevision" (JString (ei_AdapterRevision v)) ++
    field "decisionContractDigest" (JString (ei_DecisionContractDigest v)) ++
    field "executionSettingsDigest" (JString (ei_ExecutionSettingsDigest v)) ++
    optional "quantization" JString (ei_Quantization v)).

(** The source goes over these fields in the order of a map, which decides
    only which of several faults is named. *)
Definition ExecutionIdentity_Validate (value : ExecutionIdentity) : option QueueError :=
  each (fun field => requireNonempty field.2 field.1)
    [("backendFamilyID", ei_BackendFamilyID value);
     ("backendFamilyRevision", ei_BackendFamilyRevision value); ("modelID", ei_ModelID value);
     ("adapterID", ei_AdapterID value); ("adapterRevision", ei_AdapterRevision value)]%string >>?
  each Digest_Validate [ei_ModelArtifactDigest value; ei_DecisionContractDigest value;
    ei_ExecutionSettingsDigest value] >>?
  when_present (fun quantization => requireNonempty quantization "quantization")
    (ei_Quantization value).

Definition ExecutionIdentity_Digest (value : ExecutionIdentity) : Digest :=
  SHA256Digest "facets.compute-queue.execution-identity.v1"
    [ei_BackendFamilyID value; ei_BackendFamilyRevision value; ei_ModelID value;
     ei_ModelArtifactDigest value; ei_AdapterID value; ei_AdapterRevision value;
     ei_DecisionContractDigest value; ei_ExecutionSettingsDigest value;
     optionalString (ei_Quantization value)].

Record WorkerBinding := mkWorkerBinding {
  wb_WorkerID : WorkerID;
  wb_ExecutorID : string;
  wb_ExecutorRevision : uint64;
  wb_OfferingID : OfferingID;
  wb_OfferingRevision : uint64;
  wb_OfferingDigest : Digest;
  wb_RecipientKeyID : string;
  wb_RecipientKeyRevision : uint64;
  wb_ReceiptSigner : ReceiptSignerBinding }.

#[global] Instance WorkerBinding_eq_dec : EqDecision WorkerBinding.
Proof. solve_decision. Defined.

Definition WorkerBinding_json (v : WorkerBinding) : json :=
  JObject (
    field "workerID" (JString (wb_WorkerID v)) ++
    field "executorID" (JString (wb_ExecutorID v)) ++
    field "executorRevision" (JInt (wb_ExecutorRevision v)) ++
    field "offeringID" (JString (wb_OfferingID v)) ++
    field "offeringRevision" (JInt (wb_OfferingRevision v)) ++
    field "offeringDigest" (JString (wb_OfferingDigest v)) ++
    field "recipientKeyID" (JString (wb_RecipientKeyID v)) ++
    field "recipientKeyRevision" (JInt (wb_RecipientKeyRevision v)) ++
    field "receiptSigner" (ReceiptSignerBinding_json (wb_ReceiptSigner v))).

Record LocalExecutorBinding := mkLocalExecutorBinding {
  leb_ExecutorID : string;
  leb_ExecutorRevision : uint64;
  leb_RuntimeDigest : Digest;
  leb_ReceiptSigner : ReceiptSignerBinding }.

#[global] Instance LocalExecutorBinding_eq_dec : EqDecision LocalExecutorBinding.
Proof. solve_decision. Defined.

Definition LocalExecutorBinding_json (v : LocalExecutorBinding) : json :=
  JObject (
    field "executorID" (JString (leb_ExecutorID v)) ++
    field "executorRevision" (JInt (leb_ExecutorRevision v)) ++
    field "runtimeDigest" (JString (leb_RuntimeDigest v)) ++
    field "receiptSigner" (ReceiptSignerBinding_json (leb_ReceiptSigner v))).

Record ExecutorBinding := mkExecutorBinding {
  eb_Kind : ExecutorKind;
  eb_SourceLocal : option LocalExecutorBinding;
  eb_Worker : option WorkerBinding }.

#[global] Instance ExecutorBinding_eq_dec : EqDecision ExecutorBinding.
Proof. solve_decision. Defined.

Definition ExecutorBinding_json (v : ExecutorBinding) : json :=
  JObject (
    field "kind" (JString (eb_Kind v)) ++
    optional "sourceLocal" LocalExecutorBinding_json (eb_SourceLocal v) ++
    optional "worker" WorkerBinding_json (eb_Worker v)).

Definition signer_components (signer : ReceiptSignerBinding) : list string :=
  [rsb_SignerID signer; rsb_SigningKeyID signer; fmt_Sprint (rsb_SigningKeyRevision signer);
   rsb_SignatureProfileID signer].

Definition WorkerBinding_digestComponents (value : WorkerBinding) : list string :=
  [wb_WorkerID value; wb_ExecutorID value; fmt_Sprint (wb_ExecutorRevision value);
   wb_OfferingID value; fmt_Sprint (wb_OfferingRevision value); wb_OfferingDigest value;
   wb_RecipientKeyID value; fmt_Sprint (wb_RecipientKeyRevision value)] ++
  signer_components (wb_ReceiptSigner value).

Definition LocalExecutorBinding_Validate (value : LocalExecutorBinding) : option QueueError :=
  requireMachineToken (leb_ExecutorID value) "localExecutor.executorID" >>?
  requirePositive (leb_ExecutorRevision value) "localExecutor.executorRevision" >>?
  Digest_Validate (leb_RuntimeDigest value) >>?
  ReceiptSignerBinding_Validate (leb_ReceiptSigner value).

Definition LocalExecutorBinding_digestComponents (value : LocalExecutorBinding) : list string :=
  ["sourceLocal"%string; leb_ExecutorID value; fmt_Sprint (leb_ExecutorRevision value);
   leb_RuntimeDigest value] ++ signer_components (leb_ReceiptSigner value).

(** The callers have validated the executor, so that the pointer its kind
    names is set. *)
Definition ExecutorBinding_stableID (value : ExecutorBinding) : string :=
  if decide (eb_Kind value = ExecutorWorker)
  then "worker:" +:+ from_option wb_WorkerID ""%string (eb_Worker value)
  else "sourceLocal:" +:+ from_option leb_ExecutorID ""%string (eb_SourceLocal value).

Definition equalExecutorBinding (left right : ExecutorBinding) : bool :=
  if decide (eb_Kind left ≠ eb_Kind right) then false
  else if decide (eb_Kind left = ExecutorSourceLocal) then
    match eb_SourceLocal left, eb_SourceLocal right with
    | Some l, Some r => bool_decide (l = r ∧ eb_Worker left = None ∧ eb_Worker right = None)
    | l, r => bool_decide (l = None ∧ r = None)
    end
  else if decide (eb_Kind left = ExecutorWorker) then
    match eb_Worker left, eb_Worker right with
    | Some l, Some r =>
      bool_decide (l = r ∧ eb_SourceLocal left = None ∧ eb_SourceLocal right = None)
    | l, r => bool_decide (l = None ∧ r = None)
    end
  else false.

Definition ExecutorBinding_digestComponents (value : ExecutorBinding) : list string :=
  if decide (eb_Kind value = ExecutorWorker) then
    "worker"%string :: from_option WorkerBinding_digestComponents [] (eb_Worker value)
  else if decide (eb_Kind value = ExecutorSourceLocal) then
    from_option LocalExecutorBinding_digestComponents ["sourceLocal"%string] (eb_SourceLocal value)
  else [eb_Kind value].

Section executors.
Context `{UuidParser}.

Definition WorkerBinding_Validate (value : WorkerBinding) : option QueueError :=
  validateOpaqueID (wb_WorkerID value) >>?
  requireMachineToken (wb_ExecutorID value) "executorID" >>?
  requirePositive (wb_ExecutorRevision value) "executorRevision" >>?
  validateOpaqueID (wb_OfferingID value) >>?
  requirePositive (wb_OfferingRevision value) "offeringRevision" >>?
  Digest_Validate (wb_OfferingDigest value) >>?
  requireMachineToken (wb_RecipientKeyID value) "recipientKeyID" >>?
  requirePositive (wb_RecipientKeyRevision value) "recipientKeyRevision" >>?
  ReceiptSignerBinding_Validate (wb_ReceiptSigner value).

Definition ExecutorBinding_Validate (value : ExecutorBinding) : option QueueError :=
  invalid_when (¬ ExecutorKind_valid (eb_Kind value)) "executor.kind" >>?
  (if decide (eb_Kind value = ExecutorSourceLocal) then
     match eb_SourceLocal value, eb_Worker value with
     | Some executor, None => LocalExecutorBinding_Validate executor
     | _, _ => Some (invalid "executor")
     end
   else if decide (eb_Kind value = ExecutorWorker) then
     match eb_Worker value, eb_SourceLocal value with
     | Some worker, None => WorkerBinding_Validate worker
     | _, _ => Some (invalid "executor")
     end
   else Some (invalid "executor")).
End executors.

(** ** Destinations *)

Record FixedWorkerSet := mkFixedWorkerSet {
  fws_Workers : list WorkerBinding;
  fws_Digest : Digest }.

#[global] Instance FixedWorkerSet_eq_dec : EqDecision FixedWorkerSet.
Proof. solve_decision. Defined.

Record DestinationPolicy := mkDestinationPolicy {
  dp_Kind : DestinationKind;
  dp_FixedWorkerSet : option FixedWorkerSet;
  dp_ComputePoolPolicyDigest : option Digest;
  dp_CustodyReceiptSigner : option ReceiptSignerBinding }.

#[global] Instance DestinationPolicy_eq_dec : EqDecision DestinationPolicy.
Proof. solve_decision. Defined.

(** The digest of a list of workers, shared by [FixedWorkerSet.Validate] and
    [AssignmentPlan.WorkerSetDigest]. *)
Definition worker_set_digest (workers : list WorkerBinding) : Digest :=
  SHA256Digest "facets.compute-queue.fixed-worker-set.v1"
    (workers ≫= WorkerBinding_digestComponents).

Definition DestinationPolicy_Digest (value : DestinationPolicy) : Digest :=
  SHA256Digest "facets.compute-queue.destination-policy.v1"
    ([dp_Kind value; from_option fws_Digest ""%string (dp_FixedWorkerSet value);
      optionalString (dp_ComputePoolPolicyDigest value)] ++
     from_option signer_components ["";"";"";""]%string (dp_CustodyReceiptSigner value)).

Section destinations.
Context `{UuidParser}.

Definition FixedWorkerSet_Validate (value : FixedWorkerSet) : option QueueError :=
  let workers := fws_Workers value in
  invalid_when (zlen workers = 0 ∨ zlen workers > maximumAssignments) "workers" >>?
  each WorkerBinding_Validate workers >>?
  requireUniqueSorted (wb_WorkerID <$> workers) "workers.workerID" >>?
  invalid_when (¬ NoDup (wb_OfferingID <$> workers)) "workers.offeringID" >>?
  invalid_when (fws_Digest value ≠ worker_set_digest workers) "workers.digest".

Definition DestinationPolicy_Validate (value : DestinationPolicy) : option QueueError :=
  let fixed := dp_FixedWorkerSet value in
  let pool := dp_ComputePoolPolicyDigest value in
  let custody := dp_CustodyReceiptSigner value in
  invalid_when (¬ DestinationKind_valid (dp_Kind value)) "destinationPolicy.kind" >>?
  when_present ReceiptSignerBinding_Validate custody >>?
  (if decide (dp_Kind value = DestinationDirectLocal) then
     invalid_when (fixed ≠ None ∨ pool ≠ None ∨ custody ≠ None) "destinationPolicy.directLocal"
   else if decide (dp_Kind value = DestinationFixedWorkers) then
     invalid_when (fixed = None ∨ pool ≠ None ∨ custody = None)
       "destinationPolicy.fixedWorkers" >>?
     when_present FixedWorkerSet_Validate fixed
   else if decide (dp_Kind value = DestinationComputePool) then
     invalid_when (fixed ≠ None ∨ pool = None ∨ custody = None) "destinationPolicy.computePool" >>?
     when_present Digest_Validate pool
   else None).
End destinations.

(** ** Eligibility *)

Record Eligibility := mkEligibility {
  el_Kind : EligibilityKind;
  el_FirstEligibleAt : Timestamp;
  el_RecurrenceExpression : option string;
  el_RecurrenceProfileID : option string }.

#[global] Instance Eligibility_eq_dec : EqDecision Eligibility.
Proof. solve_decision. Defined.

Definition Eligibility_Validate (value : Eligibility) : option QueueError :=
  invalid_when (¬ EligibilityKind_valid (el_Kind value)) "eligibility.kind" >>?
  Timestamp_Validate (el_FirstEligibleAt value) >>?
  (if decide (el_Kind value = "immediate"%string) then
     invalid_when (el_RecurrenceExpression value ≠ None ∨ el_RecurrenceProfileID value ≠ None)
       "eligibility.recurrenceExpression"
   else
     match el_RecurrenceExpression value, el_RecurrenceProfileID value with
     | Some expression, Some profile =>
       requireNonempty expression "eligibility.recurrenceExpression" >>?
       requireMachineToken profile "eligibility.recurrenceProfileID"
     | _, _ => Some (invalid "eligibility.recurrenceExpression")
     end).

Definition Eligibility_Digest (value : Eligibility) : Digest :=
  SHA256Digest "facets.compute-queue.eligibility.v1"
    [el_Kind value; fmt_Sprint (el_FirstEligibleAt value);
     optionalString (el_RecurrenceExpression value); optionalString (el_RecurrenceProfileID value)].
