(* ===== verification/ComputeQueueReceipts.v ===== *)
(** * internal/computequeue: receipts (receipts.go, verified_receipts.go)

    A receipt is signed evidence of one stage in the life of an attempt or an
    assignment.  A [VerifiedReceipt] comes only out of
    [acceptVerifiedReceiptEnvelope]; the lifecycle files take verified
    receipts through an index that refuses two of them for one slot. *)

From S2P Require Import Prelude GoEncoding GoText Sha256 ComputeQueue ComputeQueueCanonical ComputeQueueAuthorization.
#[local] Open Scope Z_scope.

(** ** Receipts *)

Record ReceiptRecord := mkReceiptRecord {
  rr_ProtocolVersion : Z;
  rr_ID : ReceiptID;
  rr_OccurrenceID : OccurrenceID;
  rr_AttemptID : AttemptID;
  rr_AssignmentID : option AssignmentID;
  rr_ItemID : option ItemID;
  rr_Stage : ReceiptStage;
  rr_Authority : TransitionAuthority;
  rr_ExecutionOutcome : option ExecutionOutcome;
  rr_ResultDigest : option Digest;
  rr_ResultCapsuleDigest : option Digest;
  rr_ErrorID : option ErrorID;
  rr_ErrorDigest : option Digest;
  rr_LeaseID : option LeaseID;
  rr_LeaseRevision : option uint64;
  rr_LeaseExpiresAt : option Timestamp;
  rr_CancellationFence : uint64;
  rr_SignerID : SignerID;
  rr_SigningKeyID : SigningKeyID;
  rr_SigningKeyRevision : uint64;
  rr_SubjectDigest : Digest;
  rr_IdempotencyKey : Digest;
  rr_RecordedAt : Timestamp }.

#[global] Instance ReceiptRecord_eq_dec : EqDecision ReceiptRecord.
Proof. solve_decision. Defined.

Definition ReceiptRecord_json (v : ReceiptRecord) : json :=
  JObject (
    field "protocolVersion" (JInt (rr_ProtocolVersion v)) ++
    field "id" (JString (rr_ID v)) ++
    field "occurrenceID" (JString (rr_OccurrenceID v)) ++
    field "attemptID" (JString (rr_AttemptID v)) ++
    optional "assignmentID" JString (rr_AssignmentID v) ++
    optional "itemID" JString (rr_ItemID v) ++
    field "stage" (JString (rr_Stage v)) ++
    field "authority" (JString (rr_Authority v)) ++
    optional "executionOutcome" JString (rr_ExecutionOutcome v) ++
    optional "resultDigest" JString (rr_ResultDigest v) ++
    optional "resultCapsuleDigest" JString (rr_ResultCapsuleDigest v) ++
    optional "errorID" JString (rr_ErrorID v) ++
    optional "errorDigest" JString (rr_ErrorDigest v) ++
    optional "leaseID" JString (rr_LeaseID v) ++
    optional "leaseRevision" JInt (rr_LeaseRevision v) ++
    optional "leaseExpiresAt" JInt (rr_LeaseExpiresAt v) ++
    field "cancellationFence" (JInt (rr_CancellationFence v)) ++
    field "signerID" (JString (rr_SignerID v)) ++
    field "signingKeyID" (JString (rr_SigningKeyID v)) ++
    field "signingKeyRevision" (JInt (rr_SigningKeyRevision v)) ++
    field "subjectDigest" (JString (rr_SubjectDigest v)) ++
    field "idempotencyKey" (JString (rr_IdempotencyKey v)) ++
    field "recordedAt" (JInt (rr_RecordedAt v))).

Definition optionalUint64 (value : option uint64) : string := from_option fmt_Sprint ""%string value.

Definition receiptAuthority (stage : ReceiptStage) : TransitionAuthority :=
  if oneOf stage ["sourceSealed"; "resultDelivered"; "sourceResultRejected"; "sourceApplied";
       "cancellationRequested"; "releaseRequested"; "localExecutionStarted";
       "localExecutionCompleted"; "localReleased"; "localCancellationConfirmed"]%string
  then AuthoritySourceDevice
  else if oneOf stage ["custodyAccepted"; "waitingForWorker"; "admissionRejected"; "leaseExpired";
       "resultCustodied"; "custodyReleased"; "custodyCancellationConfirmed"]%string
  then AuthorityJobCustody
  else AuthorityWorker.

Definition local_stage (stage : ReceiptStage) : bool :=
  oneOf stage ["localExecutionStarted"; "localExecutionCompleted"; "localReleased";
    "localCancellationConfirmed"].

Definition receiptRequiresAssignment (stage : ReceiptStage) : bool :=
  if oneOf stage ["sourceResultRejected"; "localExecutionStarted"; "localExecutionCompleted";
       "localReleased"; "localCancellationConfirmed"]%string then true
  else bool_decide (receiptAuthority stage ≠ AuthoritySourceDevice).

Definition ReceiptRecord_MakeIdempotencyKey (value : ReceiptRecord) : Digest :=
  SHA256Digest "facets.compute-queue.receipt-idempotency.v1"
    [rr_OccurrenceID value; rr_AttemptID value; optionalString (rr_AssignmentID value);
     optionalString (rr_ItemID value); rr_Stage value; rr_Authority value;
     optionalString (rr_ExecutionOutcome value); optionalString (rr_ResultDigest value);
     optionalString (rr_ResultCapsuleDigest value); optionalString (rr_ErrorID value);
     optionalString (rr_ErrorDigest value); optionalString (rr_LeaseID value);
     optionalUint64 (rr_LeaseRevision value); optionalTimestamp (rr_LeaseExpiresAt value);
     fmt_Sprint (rr_CancellationFence value); rr_SignerID value; rr_SigningKeyID value;
     fmt_Sprint (rr_SigningKeyRevision value); rr_SubjectDigest value].

Definition ReceiptRecord_LogicalSlotKey (value : ReceiptRecord) : Digest :=
  SHA256Digest "facets.compute-queue.receipt-logical-slot.v1"
    [rr_OccurrenceID value; rr_AttemptID value; optionalString (rr_AssignmentID value);
     optionalString (rr_ItemID value); rr_Stage value; rr_Authority value;
     optionalString (rr_LeaseID value); optionalUint64 (rr_LeaseRevision value);
     fmt_Sprint (rr_CancellationFence value)].

Definition hasNoLease (value : ReceiptRecord) : Prop :=
  rr_LeaseID value = None ∧ rr_LeaseRevision value = None ∧ rr_LeaseExpiresAt value = None ∧
  rr_CancellationFence value = 0.

Definition hasExternalLease (value : ReceiptRecord) : Prop :=
  rr_LeaseID value ≠ None ∧ some_and (rr_LeaseRevision value) (fun revision => revision > 0) ∧
  rr_LeaseExpiresAt value ≠ None ∧ rr_CancellationFence value > 0.

Definition hasError (value : ReceiptRecord) : Prop :=
  rr_ErrorID value ≠ None ∧ rr_ErrorDigest value ≠ None.

#[global] Instance hasNoLease_dec value : Decision (hasNoLease value).
Proof. unfold hasNoLease. apply _. Defined.
#[global] Instance hasExternalLease_dec value : Decision (hasExternalLease value).
Proof. unfold hasExternalLease. apply _. Defined.
#[global] Instance hasError_dec value : Decision (hasError value).
Proof. unfold hasError. apply _. Defined.

(** The lease that the stage and the authority of a receipt call for. *)
Definition receipt_lease_check (value : ReceiptRecord) : option QueueError :=
  if decide (rr_AssignmentID value = None ∨ local_stage (rr_Stage value)) then
    invalid_when (¬ hasNoLease value) "receipt.lease"
  else if decide (rr_Authority value = AuthoritySourceDevice) then
    invalid_when (¬ hasNoLease value ∧ ¬ hasExternalLease value) "receipt.lease"
  else invalid_when (¬ hasExternalLease value) "receipt.lease".

(** The final switch of [Validate]: the evidence that each stage carries. *)
Definition receipt_evidence_check (value : ReceiptRecord) : option QueueError :=
  let stage := rr_Stage value in
  let item := rr_ItemID value in
  let outcome := rr_ExecutionOutcome value in
  let result := rr_ResultDigest value in
  let capsule := rr_ResultCapsuleDigest value in
  let failed := hasError value in
  if decide (stage = "executionCompleted"%string) then
    invalid_when (item ≠ None ∨ outcome = None) "executionCompleted.outcome" >>?
    (if decide (outcome = Some "succeeded"%string) then
       invalid_when (result = None ∨ capsule = None ∨ failed) "executionCompleted.result"
     else invalid_when (result ≠ None ∨ capsule ≠ None ∨ ¬ failed) "executionCompleted.failure")
  else if oneOf stage ["resultCustodied"; "resultDelivered"]%string then
    invalid_when (item ≠ None ∨ outcome ≠ Some "succeeded"%string ∨ result = None ∨
      capsule = None ∨ failed) "custodiedResult"
  else if decide (stage = "localExecutionCompleted"%string) then
    invalid_when (item ≠ None ∨ outcome = None ∨ capsule ≠ None)
      "localExecutionCompleted.outcome" >>?
    (if decide (outcome = Some "succeeded"%string) then
       invalid_when (result = None ∨ failed) "localExecutionCompleted.result"
     else invalid_when (result ≠ None ∨ ¬ failed) "localExecutionCompleted.failure")
  else if oneOf stage ["admissionRejected"; "leaseExpired"]%string then
    invalid_when (item ≠ None ∨ outcome ≠ None ∨ result ≠ None ∨ capsule ≠ None ∨ ¬ failed)
      "receipt.errorEvidence"
  else if decide (stage = "sourceResultRejected"%string) then
    invalid_when (outcome ≠ None ∨ result = None ∨ capsule ≠ None ∨ ¬ failed)
      "receipt.sourceResultRejected"
  else invalid_when (outcome ≠ None ∨ result ≠ None ∨ capsule ≠ None ∨ failed)
    "receipt.resultEvidence".

Section receipts.
Context `{UuidParser}.

Definition ReceiptRecord_Validate (value : ReceiptRecord) : option QueueError :=
  requireProtocol (rr_ProtocolVersion value) >>?
  validateOpaqueID (rr_ID value) >>?
  validateOpaqueID (rr_OccurrenceID value) >>?
  validateOpaqueID (rr_AttemptID value) >>?
  when_present validateOpaqueID (rr_AssignmentID value) >>?
  when_present validateOpaqueID (rr_ItemID value) >>?
  invalid_when (¬ ReceiptStage_valid (rr_Stage value) ∨
    ¬ TransitionAuthority_valid (rr_Authority value) ∨
    rr_Authority value ≠ receiptAuthority (rr_Stage value)) "receipt.authority" >>?
  invalid_when (some_and (rr_ExecutionOutcome value) (fun outcome =>
    ¬ ExecutionOutcome_valid outcome)) "receipt.executionOutcome" >>?
  each (when_present Digest_Validate) [rr_ResultDigest value; rr_ResultCapsuleDigest value;
    rr_ErrorDigest value; Some (rr_SubjectDigest value); Some (rr_IdempotencyKey value)] >>?
  when_present validateOpaqueID (rr_ErrorID value) >>?
  when_present validateOpaqueID (rr_LeaseID value) >>?
  when_present Timestamp_Validate (rr_LeaseExpiresAt value) >>?
  SignerID_Validate (rr_SignerID value) >>?
  SigningKeyID_Validate (rr_SigningKeyID value) >>?
  requirePositive (rr_SigningKeyRevision value) "signingKeyRevision" >>?
  Timestamp_Validate (rr_RecordedAt value) >>?
  receipt_lease_check value >>?
  invalid_when (receiptRequiresAssignment (rr_Stage value) ∧ rr_AssignmentID value = None)
    "assignmentID" >>?
  invalid_when (rr_ItemID value ≠ None ∧ rr_AssignmentID value = None) "itemID" >>?
  (if decide (rr_Stage value = "sourceResultRejected"%string) then
     invalid_when (rr_AssignmentID value = None ∨ rr_ItemID value = None) "itemID"
   else invalid_when (rr_Stage value ≠ "sourceApplied"%string ∧ rr_ItemID value ≠ None)
     "itemID") >>?
  invalid_when (bool_decide (rr_ErrorID value = None) ≠ bool_decide (rr_ErrorDigest value = None))
    "receipt.errorEvidence" >>?
  receipt_evidence_check value >>?
  invalid_when (rr_IdempotencyKey value ≠ ReceiptRecord_MakeIdempotencyKey value)
    "receipt.idempotencyKey".

#[global] Instance ReceiptRecord_Validatable : Validatable ReceiptRecord :=
  {| Validate := ReceiptRecord_Validate; to_json := ReceiptRecord_json |}.
End receipts.

(** ** Envelopes *)

Record SignedReceiptEnvelope := mkSignedReceiptEnvelope {
  sre_ProtocolVersion : Z;
  sre_Record : ReceiptRecord;
  sre_CanonicalRecordDigest : Digest;
  sre_SignatureProfileID : string;
  sre_Signature : SignatureValue }.

#[global] Instance SignedReceiptEnvelope_eq_dec : EqDecision SignedReceiptEnvelope.
Proof. solve_decision. Defined.

Definition SignedReceiptEnvelope_json (v : SignedReceiptEnvelope) : json :=
  JObject (
    field "protocolVersion" (JInt (sre_ProtocolVersion v)) ++
    field "record" (ReceiptRecord_json (sre_Record v)) ++
    field "canonicalRecordDigest" (JString (sre_CanonicalRecordDigest v)) ++
    field "signatureProfileID" (JString (sre_SignatureProfileID v)) ++
    field "signature" (JString (sre_Signature v))).

Definition SignedReceiptEnvelope_SignaturePayloadDigest (value : SignedReceiptEnvelope) : Digest :=
  SHA256Digest "facets.compute-queue.receipt-signature-payload.v1"
    [fmt_Sprint (sre_ProtocolVersion value); sre_SignatureProfileID value;
     sre_CanonicalRecordDigest value].

Section envelopes.
Context `{UuidParser}.

Definition SignedReceiptEnvelope_Validate (value : SignedReceiptEnvelope) : option QueueError :=
  requireProtocol (sre_ProtocolVersion value) >>?
  ReceiptRecord_Validate (sre_Record value) >>?
  requireMachineToken (sre_SignatureProfileID value) "receiptEnvelope.signatureProfileID" >>?
  SignatureValue_Validate (sre_Signature value) >>?
  let! encoded := EncodeCanonical (sre_Record value) in
  invalid_when (sre_CanonicalRecordDigest value ≠
    SHA256Digest "facets.compute-queue.receipt-record-canonical.v1" [of_str encoded])
    "receiptEnvelope.canonicalRecordDigest".

#[global] Instance SignedReceiptEnvelope_Validatable : Validatable SignedReceiptEnvelope :=
  {| Validate := SignedReceiptEnvelope_Validate; to_json := SignedReceiptEnvelope_json |}.

Definition EncodeCustodyCanonical (value : SignedReceiptEnvelope) : QueueError + bytes :=
  encodeCanonicalWithBounds value custodyJSONBounds.

Definition DecodeCustodyCanonical `{!JsonDecoder SignedReceiptEnvelope} (data : bytes)
    : QueueError + SignedReceiptEnvelope :=
  decodeCanonicalWithBounds data custodyJSONBounds.

Definition SignedReceiptEnvelope_ValidateSignerBinding (value : SignedReceiptEnvelope)
    (expected : ReceiptSignerBinding) : option QueueError :=
  SignedReceiptEnvelope_Validate value >>?
  ReceiptSignerBinding_Validate expected >>?
  invalid_when (sre_SignatureProfileID value ≠ rsb_SignatureProfileID expected ∨
    rr_SignerID (sre_Record value) ≠ rsb_SignerID expected ∨
    rr_SigningKeyID (sre_Record value) ≠ rsb_SigningKeyID expected ∨
    rr_SigningKeyRevision (sre_Record value) ≠ rsb_SigningKeyRevision expected)
    "receiptEnvelope.signerBinding".
End envelopes.

(** ** Errors as records *)

Record ErrorRecord := mkErrorRecord {
  er_ProtocolVersion : Z;
  er_ID : ErrorID;
  er_OccurrenceID : OccurrenceID;
  er_Code : ErrorCode;
  er_Authority : TransitionAuthority;
  er_Retryable : bool;
  er_ObservedAt : Timestamp;
  er_AttemptID : option AttemptID;
  er_AssignmentID : option AssignmentID;
  er_ItemID : option ItemID;
  er_DiagnosticCode : option string }.

#[global] Instance ErrorRecord_eq_dec : EqDecision ErrorRecord.
Proof. solve_decision. Defined.

Definition diagnostic_byte (c : ascii) : bool := digit_or_letter c || bool_decide (c ∈ str "-._").

Definition ErrorRecord_Digest (value : ErrorRecord) : Digest :=
  SHA256Digest "facets.compute-queue.error-record.v1"
    [er_ID value; er_OccurrenceID value; er_Code value; er_Authority value;
     if er_Retryable value then "true"%string else "false"%string;
     fmt_Sprint (er_ObservedAt value); optionalString (er_AttemptID value);
     optionalString (er_AssignmentID value); optionalString (er_ItemID value);
     optionalString (er_DiagnosticCode value)].

Section errors.
Context `{UuidParser}.

Definition ErrorRecord_Validate (value : ErrorRecord) : option QueueError :=
  requireProtocol (er_ProtocolVersion value) >>?
  validateOpaqueID (er_ID value) >>?
  validateOpaqueID (er_OccurrenceID value) >>?
  invalid_when (¬ ErrorCode_valid (er_Code value) ∨ ¬ TransitionAuthority_valid (er_Authority value))
    "error.enum" >>?
  Timestamp_Validate (er_ObservedAt value) >>?
  when_present validateOpaqueID (er_AttemptID value) >>?
  when_present validateOpaqueID (er_AssignmentID value) >>?
  when_present validateOpaqueID (er_ItemID value) >>?
  invalid_when (er_ItemID value ≠ None ∧ (er_AssignmentID value = None ∨ er_AttemptID value = None))
    "error.itemID" >>?
  invalid_when (er_AssignmentID value ≠ None ∧ er_AttemptID value = None) "error.assignmentID" >>?
  when_present (fun code =>
    invalid_when (code = ""%string ∨ len code > 64 ∨ ¬ forallb diagnostic_byte (str code))
      "diagnosticCode") (er_DiagnosticCode value).
End errors.

(** ** Verified receipts *)

Record VerifiedReceipt := mkVerifiedReceipt {
  vr_record : ReceiptRecord;
  vr_expectedSigner : ReceiptSignerBinding;
  vr_expectedSubjectDigest : Digest }.

#[global] Instance VerifiedReceipt_eq_dec : EqDecision VerifiedReceipt.
Proof. solve_decision. Defined.

Definition receiptMatchesSigner (receipt : ReceiptRecord) (signer : ReceiptSignerBinding) : Prop :=
  rr_SignerID receipt = rsb_SignerID signer ∧ rr_SigningKeyID receipt = rsb_SigningKeyID signer ∧
  rr_SigningKeyRevision receipt = rsb_SigningKeyRevision signer.

#[global] Instance receiptMatchesSigner_dec receipt signer :
  Decision (receiptMatchesSigner receipt signer).
Proof. unfold receiptMatchesSigner. apply _. Defined.

Definition VerifiedReceipt_matches (value : VerifiedReceipt)
    (expectedSigner : ReceiptSignerBinding) (expectedSubjectDigest : Digest) : Prop :=
  vr_expectedSigner value = expectedSigner ∧
  vr_expectedSubjectDigest value = expectedSubjectDigest ∧
  receiptMatchesSigner (vr_record value) expectedSigner ∧
  rr_SubjectDigest (vr_record value) = expectedSubjectDigest.

#[global] Instance VerifiedReceipt_matches_dec value signer subject :
  Decision (VerifiedReceipt_matches value signer subject).
Proof. unfold VerifiedReceipt_matches. apply _. Defined.

(** [receiptSignatureVerifier]: the interface of the package; nil is [None]. *)
Record receiptSignatureVerifier := mkreceiptSignatureVerifier {
  VerifySignature : SignatureValue → Digest → ReceiptSignerBinding → option QueueError }.

(** The index by ID. *)
Abbreviation verifiedReceiptIndex := (gmap ReceiptID VerifiedReceipt) (only parsing).

Section verified.
Context `{UuidParser}.

Definition sameVerifiedReceipt (left right : VerifiedReceipt) : bool :=
  match EncodeCanonical (vr_record left), EncodeCanonical (vr_record right) with
  | inr leftBytes, inr rightBytes =>
    bool_decide (leftBytes = rightBytes ∧ vr_expectedSigner left = vr_expectedSigner right ∧
      vr_expectedSubjectDigest left = vr_expectedSubjectDigest right)
  | _, _ => false
  end.

Definition acceptVerifiedReceiptEnvelope (envelope : SignedReceiptEnvelope)
    (expectedSigner : ReceiptSignerBinding) (expectedSubjectDigest : Digest)
    (verifier : option receiptSignatureVerifier) : QueueError + VerifiedReceipt :=
  SignedReceiptEnvelope_Validate envelope >>!
  ReceiptSignerBinding_Validate expectedSigner >>!
  Digest_Validate expectedSubjectDigest >>!
  match verifier with
  | None => inl (invalid "receiptEnvelope.verifier")
  | Some verifier =>
    invalid_when (sre_SignatureProfileID envelope ≠ rsb_SignatureProfileID expectedSigner)
      "receiptEnvelope.signatureProfileID" >>!
    VerifySignature verifier (sre_Signature envelope)
      (SignedReceiptEnvelope_SignaturePayloadDigest envelope) expectedSigner >>!
    invalid_when (¬ receiptMatchesSigner (sre_Record envelope) expectedSigner ∨
      rr_SubjectDigest (sre_Record envelope) ≠ expectedSubjectDigest) "verifiedReceipt" >>!
    inr (mkVerifiedReceipt (sre_Record envelope) expectedSigner expectedSubjectDigest)
  end.

(** The loop of [newVerifiedReceiptIndex]; the keys and slots seen so far are
    those of the receipts before. *)
Fixpoint index_receipts (index : verifiedReceiptIndex) (keys slots : gset Digest)
    (receipts : list VerifiedReceipt) : QueueError + verifiedReceiptIndex :=
  match receipts with
  | [] => inr index
  | receipt :: receipts =>
    let record := vr_record receipt in
    let slot := ReceiptRecord_LogicalSlotKey record in
    ReceiptRecord_Validate record >>!
    err_when (is_Some (index !! rr_ID record)) (duplicateValue "receipts.id") >>!
    err_when (rr_IdempotencyKey record ∈ keys) (duplicateValue "receipts.idempotencyKey") >>!
    err_when (slot ∈ slots) (duplicateValue "receipts.logicalSlot") >>!
    index_receipts (<[rr_ID record := receipt]> index) ({[rr_IdempotencyKey record]} ∪ keys)
      ({[slot]} ∪ slots) receipts
  end.

Definition newVerifiedReceiptIndex (receipts : list VerifiedReceipt)
    : QueueError + verifiedReceiptIndex :=
  invalid_when (zlen receipts > maximumReceipts) "receipts" >>!
  index_receipts ∅ ∅ ∅ receipts.
End verified.

(** Membership and inclusion of receipt IDs. *)
Definition containsReceiptID (values : list ReceiptID) (value : ReceiptID) : bool :=
  bool_decide (value ∈ values).

Definition receiptSubset (left right : list ReceiptID) : bool :=
  forallb (containsReceiptID right) left.

(** The groups one after the other, without repetitions. *)
Definition uniqueReceiptIDs (groups : list (list ReceiptID)) : list ReceiptID :=
  foldl (fun result id => if decide (id ∈ result) then result else result ++ [id]) []
    (concat groups).

Definition validateReceiptIDs `{UuidParser} (ids : list ReceiptID) : option QueueError :=
  invalid_when (zlen ids > maximumReceipts) "receiptIDs" >>?
  each validateOpaqueID ids >>?
  requireUniqueSorted ids "receiptIDs".
