(* ===== verification/ComputeQueueTransitions.v ===== *)
(** * internal/computequeue: transitions (transitions.go) and schedules
    (source_base.go)

    One type of event for four lifecycles.  The type parameter of the source
    is the value [Lifecycle]; the graph, the authority, the reason and the
    evidence of a transition depend on it.

    A schedule fixes what is to be computed, on what targets, where and under
    which policy; its definition never changes, only its state does.  The
    targets are published as a manifest of chunks. *)

From S2P Require Import Prelude GoEncoding Sha256 GoText ComputeQueue ComputeQueueCanonical ComputeQueueAuthorization ComputeQueueReceipts.
#[local] Open Scope Z_scope.

Definition maximumSupportingReceiptIDs : Z := 2048.

(** The instances of [transitionState]. *)
Inductive Lifecycle : Set := ScheduleLife | OccurrenceLife | AttemptLife | AssignmentLife.

#[global] Instance Lifecycle_eq_dec : EqDecision Lifecycle.
Proof. solve_decision. Defined.

Record StateTransition := mkStateTransition {
  st_ProtocolVersion : Z;
  st_ID : TransitionID;
  st_LifecycleID : LifecycleID;
  st_From : string;
  st_To : string;
  st_Authority : TransitionAuthority;
  st_ExpectedRevision : uint64;
  st_ResultingRevision : uint64;
  st_OccurredAt : Timestamp;
  st_SupportingReceiptIDs : Slice ReceiptID;
  st_SealedAssignmentSetDigest : option Digest;
  st_Reason : option TransitionReason;
  st_LeaseID : option LeaseID;
  st_LeaseRevision : option uint64;
  st_CancellationFence : uint64 }.

#[global] Instance StateTransition_eq_dec : EqDecision StateTransition.
Proof. solve_decision. Defined.

(** ** The graph *)

Definition occurrenceTerminal (state : OccurrenceState) : bool :=
  oneOf state ["completed"; "completedWithErrors"; "cancelled"; "failed"].

Definition attemptTerminal (state : AttemptState) : bool :=
  oneOf state ["released"; "expired"; "custodyCancellationConfirmed";
    "workerCancellationConfirmed"; "executionFailed"; "invalidResult"; "uncertainTermination";
    "localReleased"; "localCancellationConfirmed"; "localExecutionFailed"; "localInvalidResult";
    "localUncertainTermination"].

Definition transitionStateValid (life : Lifecycle) (state : string) : bool :=
  match life with
  | ScheduleLife => ScheduleState_valid state
  | OccurrenceLife => OccurrenceState_valid state
  | AttemptLife => AttemptState_valid state
  | AssignmentLife => AssignmentState_valid state
  end.

Definition transitionRequiresSealedDigest (life : Lifecycle) (state : string) : bool :=
  match life with
  | AttemptLife | AssignmentLife => bool_decide (state ≠ "prepared"%string)
  | _ => false
  end.

Definition execution_authority (state : string) : TransitionAuthority :=
  if oneOf state ["custodied"; "waitingForWorker"; "resultCustodied"; "retryableRejected";
       "expired"; "custodyCancellationConfirmed"]%string then AuthorityJobCustody
  else if oneOf state ["claimed"; "executing"; "workerCancellationConfirmed"; "executionFailed"]%string
  then AuthorityWorker
  else AuthoritySourceDevice.

Definition transitionRequiredAuthority (life : Lifecycle) (state : string) : TransitionAuthority :=
  match life with
  | ScheduleLife | OccurrenceLife => AuthoritySourceDevice
  | _ => execution_authority state
  end.

(** The value of the first entry of a table whose key a text equals. *)
Fixpoint case_of {A} (table : list (string * A)) (default : A) (text : string) : A :=
  match table with
  | [] => default
  | (key, value) :: table => if decide (text = key) then value else case_of table default text
  end.

Definition occurrence_stages : list (string * list ReceiptStage) :=
  [("securelyQueued", ["custodyAccepted"]); ("running", ["executionStarted"]);
   ("localRunning", ["localExecutionStarted"]); ("resultsPendingSpace", ["resultCustodied"]);
   ("applying", ["resultDelivered"]); ("localApplying", ["localExecutionCompleted"]);
   ("completed", ["sourceApplied"]); ("cancellationUnconfirmed", ["cancellationRequested"])]%string.

Definition execution_stages : list (string * list ReceiptStage) :=
  [("sealed", ["sourceSealed"]); ("custodied", ["custodyAccepted"]);
   ("waitingForWorker", ["waitingForWorker"]); ("claimed", ["workerClaimed"]);
   ("executing", ["executionStarted"]); ("resultCustodied", ["resultCustodied"]);
   ("delivered", ["resultDelivered"]); ("applied", ["sourceApplied"]);
   ("retryableRejected", ["admissionRejected"]); ("expired", ["leaseExpired"]);
   ("custodyCancellationRequested", ["cancellationRequested"]);
   ("workerCancellationRequested", ["cancellationRequested"]);
   ("uncertainTermination", ["cancellationRequested"]);
   ("localCancellationRequested", ["cancellationRequested"]);
   ("localUncertainTermination", ["cancellationRequested"]);
   ("custodyCancellationConfirmed", ["custodyCancellationConfirmed"]);
   ("workerCancellationConfirmed", ["workerCancellationConfirmed"]);
   ("executionFailed", ["executionCompleted"]); ("invalidResult", ["resultDelivered"]);
   ("localExecuting", ["localExecutionStarted"]);
   ("localResultReady", ["localExecutionCompleted"]);
   ("localExecutionFailed", ["localExecutionCompleted"]);
   ("localInvalidResult", ["localExecutionCompleted"]); ("localApplied", ["sourceApplied"]);
   ("localReleased", ["localReleased"]);
   ("localCancellationConfirmed", ["localCancellationConfirmed"])]%string.

Definition transitionRequiredReceiptStages (life : Lifecycle) (to : string) : list ReceiptStage :=
  match life with
  | OccurrenceLife => case_of occurrence_stages [] to
  | AttemptLife | AssignmentLife => case_of execution_stages [] to
  | ScheduleLife => []
  end.

Definition schedule_permits (to from : string) : bool :=
  case_of
    [("active", oneOf from ["paused"]); ("paused", oneOf from ["active"]);
     ("cancelled", oneOf from ["active"; "paused"]);
     ("expired", oneOf from ["active"; "paused"])]%string false to.

Definition occurrence_permits (to from : string) : bool :=
  let terminal := occurrenceTerminal from in
  case_of
    [("eligible", false);
     ("preparing", oneOf from ["eligible"; "waitingForSpace"; "waitingForStorage"; "paused";
        "needsAttention"]);
     ("waitingForSpace", oneOf from ["eligible"; "preparing"; "paused"; "needsAttention"]);
     ("waitingForStorage", oneOf from ["preparing"; "paused"; "needsAttention"]);
     ("securelyQueued", oneOf from ["preparing"; "waitingForStorage"]);
     ("running", oneOf from ["securelyQueued"]);
     ("localRunning", oneOf from ["preparing"; "waitingForSpace"; "paused"]);
     ("resultsPendingSpace", oneOf from ["running"]);
     ("applying", oneOf from ["running"; "resultsPendingSpace"]);
     ("localApplying", oneOf from ["localRunning"]);
     ("completed", oneOf from ["applying"; "localApplying"]);
     ("completedWithErrors", oneOf from ["applying"; "localApplying"; "running";
        "resultsPendingSpace"; "localRunning"; "cancellationRequested"; "cancellationUnconfirmed";
        "preparing"; "waitingForSpace"; "waitingForStorage"]);
     ("paused", oneOf from ["eligible"; "preparing"; "waitingForSpace"; "waitingForStorage";
        "needsAttention"]);
     ("cancellationRequested", negb terminal && negb (oneOf from ["cancellationRequested"]));
     ("cancellationUnconfirmed", oneOf from ["cancellationRequested"]);
     ("cancelled", oneOf from ["cancellationRequested"; "cancellationUnconfirmed"; "eligible";
        "preparing"; "waitingForSpace"; "waitingForStorage"]);
     ("failed", negb terminal && negb (oneOf from [to]));
     ("needsAttention", negb terminal && negb (oneOf from [to]))]%string false to.

Definition execution_permits (to from : string) : bool :=
  case_of
    [("prepared", false); ("sealed", oneOf from ["prepared"]);
     ("admissionPending", oneOf from ["sealed"]); ("custodied", oneOf from ["admissionPending"]);
     ("waitingForWorker", oneOf from ["custodied"]);
     ("claimed", oneOf from ["custodied"; "waitingForWorker"]);
     ("executing", oneOf from ["claimed"]); ("resultCustodied", oneOf from ["executing"]);
     ("delivered", oneOf from ["resultCustodied"]); ("applied", oneOf from ["delivered"]);
     ("released", oneOf from ["applied"; "custodyCancellationConfirmed";
        "workerCancellationConfirmed"; "executionFailed"; "invalidResult"; "expired";
        "uncertainTermination"; "settled"]);
     ("retryableRejected", oneOf from ["admissionPending"]);
     ("expired", oneOf from ["admissionPending"; "custodied"; "waitingForWorker"; "claimed"]);
     ("custodyCancellationRequested", oneOf from ["admissionPending"; "custodied";
        "waitingForWorker"; "retryableRejected"]);
     ("custodyCancellationConfirmed", oneOf from ["custodyCancellationRequested";
        "uncertainTermination"]);
     ("workerCancellationRequested", oneOf from ["claimed"; "executing"]);
     ("workerCancellationConfirmed", oneOf from ["workerCancellationRequested";
        "uncertainTermination"]);
     ("executionFailed", oneOf from ["claimed"; "executing"]);
     ("invalidResult", oneOf from ["resultCustodied"; "delivered"]);
     ("uncertainTermination", oneOf from ["custodyCancellationRequested";
        "workerCancellationRequested"]);
     ("settled", negb (attemptTerminal from)); ("localExecuting", oneOf from ["sealed"]);
     ("localResultReady", oneOf from ["localExecuting"]);
     ("localApplied", oneOf from ["localResultReady"]);
     ("localReleased", oneOf from ["localApplied"; "localCancellationConfirmed";
        "localExecutionFailed"; "localInvalidResult"; "localUncertainTermination"]);
     ("localCancellationRequested", oneOf from ["localExecuting"; "localResultReady"]);
     ("localCancellationConfirmed", oneOf from ["localCancellationRequested";
        "localUncertainTermination"]);
     ("localExecutionFailed", oneOf from ["localExecuting"]);
     ("localInvalidResult", oneOf from ["localResultReady"]);
     ("localUncertainTermination", oneOf from ["localCancellationRequested"])]%string false to.

(** A switch of the source that names no [to] falls through to the graph of
    attempts and assignments. *)
Definition transitionPermits (life : Lifecycle) (to from : string) : bool :=
  match life with
  | ScheduleLife =>
    if oneOf to scheduleStates then schedule_permits to from else execution_permits to from
  | OccurrenceLife =>
    if oneOf to occurrenceStates then occurrence_permits to from else execution_permits to from
  | _ => execution_permits to from
  end.

(** ** Reasons

    The codes that a transition calls for; [None] when it has no reason. *)

Definition close_reasons : list ReasonCode :=
  ["userRequested"; "automaticClose"; "scheduleExpired"]%string.

Definition required_reasons (life : Lifecycle) (to from : string) : option (list ReasonCode) :=
  match life with
  | ScheduleLife =>
    case_of
      [("active", Some ["userRequested"]); ("paused", Some ["userRequested"; "automaticClose"]);
       ("cancelled", Some ["userRequested"; "automaticClose"; "scheduleExpired"; "error"]);
       ("expired", Some ["scheduleExpired"])]%string None to
  | OccurrenceLife =>
    case_of
      [("waitingForSpace", Some ["waitingForOpenSpace"]); ("waitingForStorage", Some ["error"]);
       ("failed", Some ["error"]); ("needsAttention", Some ["error"]);
       ("paused", Some ["userRequested"; "automaticClose"]);
       ("cancellationRequested", Some close_reasons);
       ("cancellationUnconfirmed", Some ["cancellationUnconfirmed"]);
       ("completedWithErrors", Some ["mixedTerminalOutcomes"]);
       ("cancelled", if oneOf from ["cancellationRequested"; "cancellationUnconfirmed"] then None
                     else Some close_reasons)]%string None to
  | _ =>
    case_of
      [("retryableRejected", Some ["error"]); ("executionFailed", Some ["error"]);
       ("invalidResult", Some ["error"]); ("localExecutionFailed", Some ["error"]);
       ("localInvalidResult", Some ["error"]); ("expired", Some ["leaseExpired"]);
       ("custodyCancellationRequested", Some close_reasons);
       ("workerCancellationRequested", Some close_reasons);
       ("localCancellationRequested", Some close_reasons);
       ("uncertainTermination", Some ["cancellationUnconfirmed"]);
       ("localUncertainTermination", Some ["cancellationUnconfirmed"]);
       ("settled", Some ["mixedTerminalOutcomes"])]%string None to
  end.

Definition transitionPermitsReason (life : Lifecycle) (to from : string)
    (reason : option TransitionReason) : bool :=
  match required_reasons life to from, reason with
  | None, reason => bool_decide (reason = None)
  | Some _, None => false
  | Some required, Some reason => oneOf (tr_Code reason) required
  end.

(** ** Validation *)

Section transitions.
Context `{UuidParser} (life : Lifecycle).

(** The lease and the fence of a transition come together. *)
Definition transition_lease_check (value : StateTransition) : option QueueError :=
  match st_LeaseID value, st_LeaseRevision value with
  | None, None => invalid_when (st_CancellationFence value ≠ 0) "transition.cancellationFence"
  | Some id, Some revision =>
    validateOpaqueID id >>?
    invalid_when (revision = 0 ∨ st_CancellationFence value = 0) "transition.lease"
  | _, _ => Some (invalid "transition.lease")
  end.

Definition StateTransition_Validate (value : StateTransition) : option QueueError :=
  let ids := elements (st_SupportingReceiptIDs value) in
  let requiredStages := transitionRequiredReceiptStages life (st_To value) in
  requireProtocol (st_ProtocolVersion value) >>?
  validateOpaqueID (st_ID value) >>?
  validateOpaqueID (st_LifecycleID value) >>?
  invalid_when (¬ transitionStateValid life (st_From value) ∨
    ¬ transitionStateValid life (st_To value)) "transition.state" >>?
  invalid_when (not_next_revision (st_ExpectedRevision value) (st_ResultingRevision value))
    "transition.revision" >>?
  invalid_when (¬ transitionPermits life (st_To value) (st_From value)) "transition.predecessor" >>?
  when_present TransitionReason_Validate (st_Reason value) >>?
  invalid_when (¬ transitionPermitsReason life (st_To value) (st_From value) (st_Reason value))
    "transition.reason" >>?
  transition_lease_check value >>?
  invalid_when (st_Authority value ≠ transitionRequiredAuthority life (st_To value))
    "transition.authority" >>?
  invalid_when ((st_Authority value ≠ AuthoritySourceDevice ∧ requiredStages = []) ∨
    ((st_Authority value ≠ AuthoritySourceDevice ∨ requiredStages ≠ []) ∧ ids = []))
    "transition.receipts" >>?
  invalid_when (st_SupportingReceiptIDs value = None ∨ zlen ids > maximumSupportingReceiptIDs)
    "supportingReceiptIDs" >>?
  each validateOpaqueID ids >>?
  requireUniqueSorted ids "supportingReceiptIDs" >>?
  (if transitionRequiresSealedDigest life (st_From value) ||
      transitionRequiresSealedDigest life (st_To value) then
     invalid_when (st_SealedAssignmentSetDigest value = None) "sealedAssignmentSetDigest" >>?
     when_present Digest_Validate (st_SealedAssignmentSetDigest value)
   else when_present Digest_Validate (st_SealedAssignmentSetDigest value)) >>?
  Timestamp_Validate (st_OccurredAt value).

(** The stages of the supporting receipts. *)
Definition supporting_stages (receipts : verifiedReceiptIndex) (ids : list ReceiptID)
    : list ReceiptStage :=
  omap (fun id => rr_Stage ∘ vr_record <$> receipts !! id) ids.

Definition StateTransition_validateAgainst (value : StateTransition) (currentState : string)
    (currentRevision : uint64) (lifecycleID : LifecycleID)
    (currentSealedAssignmentSetDigest : option Digest) (appliedEventIDs : gset TransitionID)
    (receipts : verifiedReceiptIndex) : option QueueError :=
  let ids := elements (st_SupportingReceiptIDs value) in
  StateTransition_Validate value >>?
  invalid_when (st_ID value ∈ appliedEventIDs) "transition.replayed" >>?
  invalid_when (st_LifecycleID value ≠ lifecycleID) "lifecycleID" >>?
  invalid_when (st_ExpectedRevision value ≠ currentRevision) "transition.staleRevision" >>?
  invalid_when (st_From value ≠ currentState) "transition.predecessor" >>?
  invalid_when (some_and currentSealedAssignmentSetDigest (fun sealed =>
    st_SealedAssignmentSetDigest value ≠ Some sealed)) "sealedAssignmentSetDigest" >>?
  each (fun id => invalid_when (receipts !! id = None) "transition.receipts") ids >>?
  each (fun stage => invalid_when (stage ∉ supporting_stages receipts ids) "transition.receipts")
    (transitionRequiredReceiptStages life (st_To value)).
End transitions.

Abbreviation ScheduleTransition := StateTransition (only parsing).
Abbreviation OccurrenceTransition := StateTransition (only parsing).
Abbreviation AttemptTransition := StateTransition (only parsing).
Abbreviation AssignmentTransition := StateTransition (only parsing).

(** ** Manifests of targets *)

Record TargetManifestChunk := mkTargetManifestChunk {
  tmc_ProtocolVersion : Z;
  tmc_ScheduleID : ScheduleID;
  tmc_TargetSetDigest : Digest;
  tmc_ChunkIndex : int64;
  tmc_ChunkCount : int64;
  tmc_FirstTargetOrdinal : int64;
  tmc_TargetObjectIDs : list FacetsObjectID;
  tmc_ChunkDigest : Digest }.

#[global] Instance TargetManifestChunk_eq_dec : EqDecision TargetManifestChunk.
Proof. solve_decision. Defined.

Definition TargetManifestChunk_digest (value : TargetManifestChunk) : Digest :=
  SHA256Digest "facets.compute-queue.target-manifest-chunk.v1"
    ([tmc_ScheduleID value; tmc_TargetSetDigest value; fmt_Sprint (tmc_ChunkIndex value);
      fmt_Sprint (tmc_ChunkCount value); fmt_Sprint (tmc_FirstTargetOrdinal value)] ++
     (FacetsObjectID_RawValue <$> tmc_TargetObjectIDs value)).

Definition MakeTargetSetDigest (values : list FacetsObjectID) : Digest :=
  SHA256Digest "facets.compute-queue.target-set.v1" (FacetsObjectID_RawValue <$> values).

Section manifests.
Context `{UuidParser}.

Definition TargetManifestChunk_Validate (value : TargetManifestChunk) : option QueueError :=
  let objects := tmc_TargetObjectIDs value in
  requireProtocol (tmc_ProtocolVersion value) >>?
  validateOpaqueID (tmc_ScheduleID value) >>?
  Digest_Validate (tmc_TargetSetDigest value) >>?
  invalid_when (tmc_ChunkIndex value < 0 ∨ tmc_ChunkCount value ≤ 0 ∨
    tmc_ChunkCount value > maximumItems ∨ tmc_ChunkIndex value ≥ tmc_ChunkCount value ∨
    tmc_FirstTargetOrdinal value < 0 ∨ tmc_FirstTargetOrdinal value ≥ maximumItems ∨
    zlen objects = 0 ∨ zlen objects > maximumTargetManifestChunkItems ∨
    i64 (tmc_FirstTargetOrdinal value + zlen objects) > maximumItems) "targetManifestChunk" >>?
  each FacetsObjectID_Validate objects >>?
  requireUniqueSorted (FacetsObjectID_RawValue <$> objects)
    "targetManifestChunk.targetObjectIDs" >>?
  match canonicalizeWithBounds (Marshal (JList FacetsObjectID_json objects)) sourceJSONBounds with
  | inl _ => Some (invalid "targetManifestChunk.targetObjectIDs")
  | inr encoded =>
    invalid_when (zlen encoded > maximumTargetManifestChunkBytes)
      "targetManifestChunk.targetObjectIDs"
  end >>?
  invalid_when (tmc_ChunkDigest value ≠ TargetManifestChunk_digest value)
    "targetManifestChunk.chunkDigest".
End manifests.

(** ** Schedules *)

Record ScheduleRecord := mkScheduleRecord {
  sr_ProtocolVersion : Z;
  sr_ID : ScheduleID;
  sr_Revision : uint64;
  sr_State : ScheduleState;
  sr_CreatedAt : Timestamp;
  sr_Eligibility : Eligibility;
  sr_TargetCount : int64;
  sr_TargetSetDigest : Digest;
  sr_OperationBinding : OperationBinding;
  sr_PolicyBinding : PolicyBinding;
  sr_ExecutionIdentity : ExecutionIdentity;
  sr_DestinationPolicy : DestinationPolicy;
  sr_SourceReceiptSigner : ReceiptSignerBinding }.

#[global] Instance ScheduleRecord_eq_dec : EqDecision ScheduleRecord.
Proof. solve_decision. Defined.

Definition scheduleAuthorizationDigest (scheduleID : ScheduleID) (eligibilityDigest : Digest)
    (targetCount : int64) (targetSetDigest operationBindingDigest policyBindingDigest
    executionIdentityDigest destinationPolicyDigest : Digest) (source : ReceiptSignerBinding)
    (custody : option ReceiptSignerBinding) : Digest :=
  SHA256Digest "facets.compute-queue.schedule-authorization.v1"
    ([scheduleID; eligibilityDigest; fmt_Sprint targetCount; targetSetDigest;
      operationBindingDigest; policyBindingDigest; executionIdentityDigest;
      destinationPolicyDigest] ++ signer_components source ++
     from_option signer_components ["";"";"";""]%string custody).

Definition ScheduleRecord_AuthorizationDigest (value : ScheduleRecord) : Digest :=
  scheduleAuthorizationDigest (sr_ID value) (Eligibility_Digest (sr_Eligibility value))
    (sr_TargetCount value) (sr_TargetSetDigest value)
    (OperationBinding_Digest (sr_OperationBinding value))
    (PolicyBinding_Digest (sr_PolicyBinding value))
    (ExecutionIdentity_Digest (sr_ExecutionIdentity value))
    (DestinationPolicy_Digest (sr_DestinationPolicy value)) (sr_SourceReceiptSigner value)
    (dp_CustodyReceiptSigner (sr_DestinationPolicy value)).

Definition ScheduleRecord_sameImmutableDefinition (value other : ScheduleRecord) : Prop :=
  sr_ID value = sr_ID other ∧
  sr_CreatedAt value = sr_CreatedAt other ∧
  Eligibility_Digest (sr_Eligibility value) = Eligibility_Digest (sr_Eligibility other) ∧
  sr_TargetCount value = sr_TargetCount other ∧
  sr_TargetSetDigest value = sr_TargetSetDigest other ∧
  OperationBinding_Digest (sr_OperationBinding value) =
    OperationBinding_Digest (sr_OperationBinding other) ∧
  PolicyBinding_Digest (sr_PolicyBinding value) = PolicyBinding_Digest (sr_PolicyBinding other) ∧
  ExecutionIdentity_Digest (sr_ExecutionIdentity value) =
    ExecutionIdentity_Digest (sr_ExecutionIdentity other) ∧
  DestinationPolicy_Digest (sr_DestinationPolicy value) =
    DestinationPolicy_Digest (sr_DestinationPolicy other) ∧
  sr_SourceReceiptSigner value = sr_SourceReceiptSigner other.

#[global] Instance sameImmutableDefinition_dec value other :
  Decision (ScheduleRecord_sameImmutableDefinition value other).
Proof. unfold ScheduleRecord_sameImmutableDefinition. apply _. Defined.

Section schedules.
Context `{UuidParser}.

Definition ScheduleRecord_Validate (value : ScheduleRecord) : option QueueError :=
  requireProtocol (sr_ProtocolVersion value) >>?
  validateOpaqueID (sr_ID value) >>?
  requirePositive (sr_Revision value) "revision" >>?
  invalid_when (¬ ScheduleState_valid (sr_State value)) "schedule.state" >>?
  Timestamp_Validate (sr_CreatedAt value) >>?
  Eligibility_Validate (sr_Eligibility value) >>?
  invalid_when (sr_TargetCount value ≤ 0 ∨ sr_TargetCount value > maximumItems) "targetCount" >>?
  Digest_Validate (sr_TargetSetDigest value) >>?
  OperationBinding_Validate (sr_OperationBinding value) >>?
  PolicyBinding_Validate (sr_PolicyBinding value) >>?
  invalid_when (some_and (pb_ScheduleExpiresAt (sr_PolicyBinding value))
    (fun expires => expires ≤ sr_CreatedAt value)) "policyBinding.scheduleExpiresAt" >>?
  ExecutionIdentity_Validate (sr_ExecutionIdentity value) >>?
  DestinationPolicy_Validate (sr_DestinationPolicy value) >>?
  ReceiptSignerBinding_Validate (sr_SourceReceiptSigner value) >>?
  invalid_when (dp_Kind (sr_DestinationPolicy value) = DestinationDirectLocal ∧
    sr_TargetCount value > maximumAssignmentItems) "directLocal.targetCount".

Definition ScheduleRecord_ValidateUpdateFrom (value previous : ScheduleRecord)
    : option QueueError :=
  ScheduleRecord_Validate value >>?
  invalid_when (sr_State value ≠ sr_State previous) "schedule.state" >>?
  invalid_when (¬ ScheduleRecord_sameImmutableDefinition value previous) "schedule" >>?
  invalid_when (not_next_revision (sr_Revision previous) (sr_Revision value)) "schedule.revision".

Definition ScheduleRecord_ValidateTransitionFrom (value previous : ScheduleRecord)
    (transition : ScheduleTransition) (receipts : list VerifiedReceipt)
    (appliedEventIDs : gset TransitionID) : option QueueError :=
  ScheduleRecord_Validate value >>?
  invalid_when (¬ ScheduleRecord_sameImmutableDefinition value previous ∨
    sr_Revision value ≠ st_ResultingRevision transition ∨
    sr_State value ≠ st_To transition) "schedule" >>?
  let! receiptIndex := newVerifiedReceiptIndex receipts in
  StateTransition_validateAgainst ScheduleLife transition (sr_State previous) (sr_Revision previous)
    (sr_ID previous) None appliedEventIDs receiptIndex.

Definition chunk_le (left right : TargetManifestChunk) : Prop :=
  tmc_ChunkIndex left ≤ tmc_ChunkIndex right.

#[global] Instance chunk_le_dec left right : Decision (chunk_le left right).
Proof. unfold chunk_le. apply _. Defined.

(** The loop over the ordered chunks, with the ordinal that the next one has
    to start at. *)
Fixpoint manifest_chunks (value : ScheduleRecord) (count : Z) (index expectedOrdinal : Z)
    (chunks : list TargetManifestChunk) : option QueueError :=
  match chunks with
  | [] => None
  | chunk :: chunks =>
    TargetManifestChunk_Validate chunk >>?
    invalid_when (tmc_ChunkIndex chunk ≠ index ∨ tmc_ChunkCount chunk ≠ count ∨
      tmc_ScheduleID chunk ≠ sr_ID value ∨ tmc_TargetSetDigest chunk ≠ sr_TargetSetDigest value ∨
      tmc_FirstTargetOrdinal chunk ≠ expectedOrdinal) "targetManifestChunks.identity" >>?
    manifest_chunks value count (index + 1) (expectedOrdinal + zlen (tmc_TargetObjectIDs chunk))
      chunks
  end.

Definition ScheduleRecord_ValidateTargetManifest (value : ScheduleRecord)
    (chunks : list TargetManifestChunk) : option QueueError :=
  let ordered := merge_sort chunk_le chunks in
  let objects := ordered ≫= tmc_TargetObjectIDs in
  ScheduleRecord_Validate value >>?
  invalid_when (zlen chunks = 0 ∨ zlen chunks > sr_TargetCount value ∨ zlen chunks > maximumItems)
    "targetManifestChunks" >>?
  manifest_chunks value (zlen chunks) 0 0 ordered >>?
  requireUniqueSorted (FacetsObjectID_RawValue <$> objects)
    "targetManifestChunks.targetObjectIDs" >>?
  invalid_when (zlen objects ≠ sr_TargetCount value ∨
    MakeTargetSetDigest objects ≠ sr_TargetSetDigest value) "targetManifestChunks.coverage".
End schedules.
