(* ===== verification/ComputeQueueAttempts.v ===== *)
(** * internal/computequeue: attempts and assignments (attempt_assignment.go)

    An attempt executes the items of an occurrence through a fixed plan of
    assignments, one per executor; an assignment record follows one of them
    through its life. *)

From S2P Require Import Prelude GoEncoding GoText Sha256 ComputeQueue ComputeQueueCanonical ComputeQueueAuthorization ComputeQueueReceipts ComputeQueueTransitions.
#[local] Open Scope Z_scope.

(** ** Plans *)

Record AssignmentAuthorization := mkAssignmentAuthorization {
  aa_AssignmentID : AssignmentID;
  aa_Executor : ExecutorBinding;
  aa_ItemIDs : list ItemID;
  aa_ItemSetDigest : Digest;
  aa_ExecutionPayloadDigest : Digest;
  aa_CapsuleID : option JobCapsuleID;
  aa_CapsuleDigest : option Digest;
  aa_InitialLease : option LeaseBinding;
  aa_CancellationFence : uint64 }.

#[global] Instance AssignmentAuthorization_eq_dec : EqDecision AssignmentAuthorization.
Proof. solve_decision. Defined.

Definition AssignmentAuthorization_json (v : AssignmentAuthorization) : json :=
  JObject (
    field "assignmentID" (JString (aa_AssignmentID v)) ++
    field "executor" (ExecutorBinding_json (aa_Executor v)) ++
    field "itemIDs" (JList JString (aa_ItemIDs v)) ++
    field "itemSetDigest" (JString (aa_ItemSetDigest v)) ++
    field "executionPayloadDigest" (JString (aa_ExecutionPayloadDigest v)) ++
    optional "capsuleID" JString (aa_CapsuleID v) ++
    optional "capsuleDigest" JString (aa_CapsuleDigest v) ++
    optional "initialLease" LeaseBinding_json (aa_InitialLease v) ++
    field "cancellationFence" (JInt (aa_CancellationFence v))).

Record AssignmentPlan := mkAssignmentPlan {
  ap_Assignments : list AssignmentAuthorization;
  ap_AssignmentSetDigest : Digest }.

#[global] Instance AssignmentPlan_eq_dec : EqDecision AssignmentPlan.
Proof. solve_decision. Defined.

Definition AssignmentPlan_json (v : AssignmentPlan) : json :=
  JObject (
    field "assignments" (JList AssignmentAuthorization_json (ap_Assignments v)) ++
    field "assignmentSetDigest" (JString (ap_AssignmentSetDigest v))).

Definition MakeAssignmentItemSetDigest (itemIDs : list ItemID) : Digest :=
  SHA256Digest "facets.compute-queue.assignment-item-set.v1" itemIDs.

Definition AssignmentAuthorization_digestComponents (value : AssignmentAuthorization)
    : list string :=
  [aa_AssignmentID value] ++ ExecutorBinding_digestComponents (aa_Executor value) ++
  aa_ItemIDs value ++
  [aa_ItemSetDigest value; aa_ExecutionPayloadDigest value; optionalString (aa_CapsuleID value);
   optionalString (aa_CapsuleDigest value);
   from_option LeaseBinding_Digest ""%string (aa_InitialLease value);
   fmt_Sprint (aa_CancellationFence value)].

(** The lease fields that a receipt leaves out are those of the initial lease. *)
Definition AssignmentAuthorization_receiptSubjectDigest (value : AssignmentAuthorization)
    (occurrenceID : OccurrenceID) (attemptID : AttemptID) (receipt : ReceiptRecord) : Digest :=
  let lease := aa_InitialLease value in
  let or_initial {A} (field : option A) (initial : LeaseBinding → A) :=
    match field with Some x => Some x | None => initial <$> lease end in
  SHA256Digest "facets.compute-queue.assignment-receipt-subject.v1"
    ([occurrenceID; attemptID; aa_AssignmentID value] ++
     ExecutorBinding_digestComponents (aa_Executor value) ++ aa_ItemIDs value ++
     [aa_ItemSetDigest value; aa_ExecutionPayloadDigest value; optionalString (aa_CapsuleID value);
      optionalString (aa_CapsuleDigest value); rr_Stage receipt; optionalString (rr_ItemID receipt);
      optionalString (rr_ExecutionOutcome receipt); optionalString (rr_ResultDigest receipt);
      optionalString (rr_ResultCapsuleDigest receipt); optionalString (rr_ErrorID receipt);
      optionalString (rr_ErrorDigest receipt);
      optionalString (or_initial (rr_LeaseID receipt) lb_ID);
      optionalUint64 (or_initial (rr_LeaseRevision receipt) lb_Revision);
      optionalTimestamp (or_initial (rr_LeaseExpiresAt receipt) lb_ExpiresAt);
      fmt_Sprint (rr_CancellationFence receipt)]).

Definition AssignmentPlan_makeDigest (value : AssignmentPlan) : Digest :=
  SHA256Digest "facets.compute-queue.assignment-set.v1"
    (ap_Assignments value ≫= AssignmentAuthorization_digestComponents).

Definition worker_le (left right : WorkerBinding) : Prop :=
  str_le (wb_WorkerID left) (wb_WorkerID right).

#[global] Instance worker_le_dec left right : Decision (worker_le left right).
Proof. unfold worker_le. apply _. Defined.

(** [None] when some executor is not a worker. *)
Definition AssignmentPlan_WorkerSetDigest (value : AssignmentPlan) : option Digest :=
  workers ← mapM (fun assignment => eb_Worker (aa_Executor assignment)) (ap_Assignments value);
  Some (worker_set_digest (merge_sort worker_le workers)).

Section plans.
Context `{UuidParser}.

Definition AssignmentAuthorization_Validate (value : AssignmentAuthorization)
    : option QueueError :=
  validateOpaqueID (aa_AssignmentID value) >>?
  ExecutorBinding_Validate (aa_Executor value) >>?
  invalid_when (zlen (aa_ItemIDs value) = 0 ∨ zlen (aa_ItemIDs value) > maximumAssignmentItems)
    "assignmentAuthorization.itemIDs" >>?
  each validateOpaqueID (aa_ItemIDs value) >>?
  requireUniqueSorted (aa_ItemIDs value) "assignmentAuthorization.itemIDs" >>?
  invalid_when (aa_ItemSetDigest value ≠ MakeAssignmentItemSetDigest (aa_ItemIDs value))
    "assignmentAuthorization.itemIDs" >>?
  Digest_Validate (aa_ExecutionPayloadDigest value) >>?
  (if decide (eb_Kind (aa_Executor value) = ExecutorSourceLocal) then
     invalid_when (aa_CapsuleID value ≠ None ∨ aa_CapsuleDigest value ≠ None ∨
       aa_InitialLease value ≠ None ∨ aa_CancellationFence value ≠ 0)
       "assignmentAuthorization.localCapsule"
   else
     invalid_when (aa_CapsuleID value = None ∨ aa_CapsuleDigest value = None ∨
       aa_InitialLease value = None ∨ aa_CancellationFence value ≠ 1)
       "assignmentAuthorization.workerCapsule" >>?
     when_present validateOpaqueID (aa_CapsuleID value) >>?
     when_present Digest_Validate (aa_CapsuleDigest value) >>?
     when_present LeaseBinding_Validate (aa_InitialLease value)).

(** The loop of [AssignmentPlan.Validate] with what it has seen so far. *)
Fixpoint plan_assignments (executors offerings items : gset string) (totalItems : Z)
    (assignments : list AssignmentAuthorization) : option QueueError :=
  match assignments with
  | [] => None
  | assignment :: assignments =>
    let stableID := ExecutorBinding_stableID (aa_Executor assignment) in
    let offering := wb_OfferingID <$> eb_Worker (aa_Executor assignment) in
    let ids := aa_ItemIDs assignment in
    AssignmentAuthorization_Validate assignment >>?
    invalid_when (stableID ∈ executors) "assignments.executor" >>?
    invalid_when (some_and offering (fun id => id ∈ offerings)) "assignments.offeringID" >>?
    invalid_when (totalItems + zlen ids > maximumItems) "assignments.itemIDs" >>?
    invalid_when (¬ NoDup ids ∨ Exists (fun id => id ∈ items) ids) "assignments.itemIDs" >>?
    plan_assignments ({[stableID]} ∪ executors)
      (from_option (fun id => {[id]}) ∅ offering ∪ offerings) (list_to_set ids ∪ items)
      (totalItems + zlen ids) assignments
  end.

Definition AssignmentPlan_Validate (value : AssignmentPlan) : option QueueError :=
  let assignments := ap_Assignments value in
  invalid_when (zlen assignments = 0 ∨ zlen assignments > maximumAssignments) "assignments" >>?
  plan_assignments ∅ ∅ ∅ 0 assignments >>?
  requireUniqueSorted (aa_AssignmentID <$> assignments) "assignments.assignmentID" >>?
  invalid_when (ap_AssignmentSetDigest value ≠ AssignmentPlan_makeDigest value)
    "assignmentSetDigest".

(** Both lists are sorted and compared. *)
Definition AssignmentPlan_ValidateCovers (value : AssignmentPlan) (itemIDs : list ItemID)
    : option QueueError :=
  AssignmentPlan_Validate value >>?
  invalid_when (merge_sort str_le itemIDs ≠ merge_sort str_le (ap_Assignments value ≫= aa_ItemIDs))
    "assignmentPlan.coverage".
End plans.

(** The first assignment of a plan with an ID. *)
Definition authorization_of (plan : AssignmentPlan) (id : AssignmentID)
    : option AssignmentAuthorization :=
  snd <$> list_find (fun candidate => aa_AssignmentID candidate = id) (ap_Assignments plan).

(** ** Attempts *)

Record AttemptRecord := mkAttemptRecord {
  at_ProtocolVersion : Z;
  at_ID : AttemptID;
  at_OccurrenceID : OccurrenceID;
  at_Revision : uint64;
  at_AttemptNumber : uint64;
  at_State : AttemptState;
  at_DestinationKind : DestinationKind;
  at_ExecutionIdentity : ExecutionIdentity;
  at_OccurrenceSnapshotDigest : Digest;
  at_OperationBindingDigest : Digest;
  at_PolicySnapshotDigest : Digest;
  at_RetryPolicyDigest : Digest;
  at_PreviousAttemptID : option AttemptID;
  at_RetryErrorID : option ErrorID;
  at_NotBeforeAt : option Timestamp;
  at_AssignmentPlan : AssignmentPlan;
  at_AuthorizedWorkerSetDigest : option Digest;
  at_ComputePoolPolicyDigest : option Digest;
  at_ComputePoolGrantDigest : option Digest;
  at_ComputePoolAssignmentSetDigest : option Digest;
  at_SourceReceiptSigner : ReceiptSignerBinding;
  at_CustodyReceiptSigner : option ReceiptSignerBinding;
  at_TerminalAssignmentOutcomesDigest : option Digest;
  at_CreatedAt : Timestamp;
  at_DeadlineAt : option Timestamp;
  at_ReceiptIDs : Slice ReceiptID }.

#[global] Instance AttemptRecord_eq_dec : EqDecision AttemptRecord.
Proof. solve_decision. Defined.

Definition AttemptRecord_json (v : AttemptRecord) : json :=
  JObject (
    field "protocolVersion" (JInt (at_ProtocolVersion v)) ++
    field "id" (JString (at_ID v)) ++
    field "occurrenceID" (JString (at_OccurrenceID v)) ++
    field "revision" (JInt (at_Revision v)) ++
    field "attemptNumber" (JInt (at_AttemptNumber v)) ++
    field "state" (JString (at_State v)) ++
    field "destinationKind" (JString (at_DestinationKind v)) ++
    field "executionIdentity" (ExecutionIdentity_json (at_ExecutionIdentity v)) ++
    field "occurrenceSnapshotDigest" (JString (at_OccurrenceSnapshotDigest v)) ++
    field "operationBindingDigest" (JString (at_OperationBindingDigest v)) ++
    field "policySnapshotDigest" (JString (at_PolicySnapshotDigest v)) ++
    field "retryPolicyDigest" (JString (at_RetryPolicyDigest v)) ++
    optional "previousAttemptID" JString (at_PreviousAttemptID v) ++
    optional "retryErrorID" JString (at_RetryErrorID v) ++
    optional "notBeforeAt" JInt (at_NotBeforeAt v) ++
    field "assignmentPlan" (AssignmentPlan_json (at_AssignmentPlan v)) ++
    optional "authorizedWorkerSetDigest" JString (at_AuthorizedWorkerSetDigest v) ++
    optional "computePoolPolicyDigest" JString (at_ComputePoolPolicyDigest v) ++
    optional "computePoolGrantDigest" JString (at_ComputePoolGrantDigest v) ++
    optional "computePoolAssignmentSetDigest" JString (at_ComputePoolAssignmentSetDigest v) ++
    field "sourceReceiptSigner" (ReceiptSignerBinding_json (at_SourceReceiptSigner v)) ++
    optional "custodyReceiptSigner" ReceiptSignerBinding_json (at_CustodyReceiptSigner v) ++
    optional "terminalAssignmentOutcomesDigest" JString (at_TerminalAssignmentOutcomesDigest v) ++
    field "createdAt" (JInt (at_CreatedAt v)) ++
    optional "deadlineAt" JInt (at_DeadlineAt v) ++
    field "receiptIDs" (JSlice JString (at_ReceiptIDs v))).

Definition attemptLocalOnly (state : AttemptState) : bool :=
  oneOf state ["localExecuting"; "localResultReady"; "localApplied"; "localReleased";
    "localCancellationRequested"; "localCancellationConfirmed"; "localExecutionFailed";
    "localInvalidResult"; "localUncertainTermination"].

Definition attemptExternalOnly (state : AttemptState) : bool :=
  bool_decide (state ≠ "prepared"%string ∧ state ≠ "sealed"%string) &&
  negb (attemptLocalOnly state).

Definition assignmentLocalOnly (state : AssignmentState) : bool := attemptLocalOnly state.
Definition assignmentExternalOnly (state : AssignmentState) : bool := attemptExternalOnly state.
Definition assignmentHasSealedItemSet (state : AssignmentState) : bool :=
  bool_decide (state ≠ "prepared"%string).

Section attempts.
Context `{UuidParser}.

(** The lineage fields are there from the second attempt on. *)
Definition attempt_lineage_check (value : AttemptRecord) : option QueueError :=
  if decide (at_AttemptNumber value = 1) then
    invalid_when (at_PreviousAttemptID value ≠ None ∨ at_RetryErrorID value ≠ None ∨
      at_NotBeforeAt value ≠ None) "attempt.retryLineage"
  else
    invalid_when (at_PreviousAttemptID value = None ∨ at_RetryErrorID value = None ∨
      at_NotBeforeAt value = None) "attempt.retryLineage" >>?
    when_present validateOpaqueID (at_PreviousAttemptID value) >>?
    when_present validateOpaqueID (at_RetryErrorID value) >>?
    when_present Timestamp_Validate (at_NotBeforeAt value).

(** What the destination of an attempt calls for. *)
Definition attempt_destination_check (value : AttemptRecord) : option QueueError :=
  let plan := at_AssignmentPlan value in
  let workerDigest := AssignmentPlan_WorkerSetDigest plan in
  if decide (at_DestinationKind value = DestinationDirectLocal) then
    invalid_when (zlen (ap_Assignments plan) ≠ 1 ∨
      ¬ Forall (fun assignment => eb_Kind (aa_Executor assignment) = ExecutorSourceLocal)
          (take 1 (ap_Assignments plan)) ∨
      attemptExternalOnly (at_State value) ∨ at_AuthorizedWorkerSetDigest value ≠ None ∨
      at_ComputePoolPolicyDigest value ≠ None ∨ at_ComputePoolGrantDigest value ≠ None ∨
      at_ComputePoolAssignmentSetDigest value ≠ None ∨ at_CustodyReceiptSigner value ≠ None)
      "attempt.directLocal"
  else if decide (at_DestinationKind value = DestinationFixedWorkers) then
    invalid_when (workerDigest = None ∨ at_AuthorizedWorkerSetDigest value = None ∨
      attemptLocalOnly (at_State value) ∨ at_CustodyReceiptSigner value = None ∨
      at_ComputePoolPolicyDigest value ≠ None ∨ at_ComputePoolGrantDigest value ≠ None ∨
      at_ComputePoolAssignmentSetDigest value ≠ None) "attempt.fixedWorkers"
  else
    invalid_when (at_AuthorizedWorkerSetDigest value ≠ None ∨ workerDigest = None ∨
      attemptLocalOnly (at_State value) ∨ at_CustodyReceiptSigner value = None ∨
      at_ComputePoolPolicyDigest value = None ∨ at_ComputePoolGrantDigest value = None ∨
      at_ComputePoolAssignmentSetDigest value ≠ Some (ap_AssignmentSetDigest plan))
      "attempt.computePool".

(** [DeadlineAt] of attempts and assignments. *)
Definition deadline_check (createdAt : Timestamp) (deadlineAt : option Timestamp)
    : option QueueError :=
  when_present (fun deadline =>
    Timestamp_Validate deadline >>? invalid_when (deadline ≤ createdAt) "deadlineAt") deadlineAt.

(** [ReceiptIDs] of attempts and assignments. *)
Definition receipt_ids_check (ids : Slice ReceiptID) : option QueueError :=
  invalid_when (ids = None) "receiptIDs" >>? validateReceiptIDs (elements ids).

Definition AttemptRecord_Validate (value : AttemptRecord) : option QueueError :=
  requireProtocol (at_ProtocolVersion value) >>?
  validateOpaqueID (at_ID value) >>?
  validateOpaqueID (at_OccurrenceID value) >>?
  ExecutionIdentity_Validate (at_ExecutionIdentity value) >>?
  each Digest_Validate [at_OccurrenceSnapshotDigest value; at_OperationBindingDigest value;
    at_PolicySnapshotDigest value; at_RetryPolicyDigest value] >>?
  ReceiptSignerBinding_Validate (at_SourceReceiptSigner value) >>?
  requirePositive (at_Revision value) "revision" >>?
  requirePositive (at_AttemptNumber value) "attemptNumber" >>?
  invalid_when (¬ AttemptState_valid (at_State value) ∨
    ¬ DestinationKind_valid (at_DestinationKind value)) "attempt.state" >>?
  AssignmentPlan_Validate (at_AssignmentPlan value) >>?
  attempt_lineage_check value >>?
  attempt_destination_check value >>?
  each (when_present Digest_Validate) [at_AuthorizedWorkerSetDigest value;
    at_ComputePoolPolicyDigest value; at_ComputePoolGrantDigest value;
    at_ComputePoolAssignmentSetDigest value; at_TerminalAssignmentOutcomesDigest value] >>?
  when_present ReceiptSignerBinding_Validate (at_CustodyReceiptSigner value) >>?
  (if decide (at_State value = "settled"%string) then
     invalid_when (at_TerminalAssignmentOutcomesDigest value = None)
       "terminalAssignmentOutcomesDigest"
   else invalid_when (at_State value ≠ "released"%string ∧
     at_TerminalAssignmentOutcomesDigest value ≠ None) "terminalAssignmentOutcomesDigest") >>?
  Timestamp_Validate (at_CreatedAt value) >>?
  deadline_check (at_CreatedAt value) (at_DeadlineAt value) >>?
  receipt_ids_check (at_ReceiptIDs value).

#[global] Instance AttemptRecord_Validatable : Validatable AttemptRecord :=
  {| Validate := AttemptRecord_Validate; to_json := AttemptRecord_json |}.

(** The fields of an attempt that no update and no advance changes, the
    plan's digest and [TerminalAssignmentOutcomesDigest] apart. *)
Definition same_attempt_binding (value previous : AttemptRecord) : Prop :=
  at_DestinationKind value = at_DestinationKind previous ∧
  ExecutionIdentity_Digest (at_ExecutionIdentity value) =
    ExecutionIdentity_Digest (at_ExecutionIdentity previous) ∧
  at_OccurrenceSnapshotDigest value = at_OccurrenceSnapshotDigest previous ∧
  at_OperationBindingDigest value = at_OperationBindingDigest previous ∧
  at_PolicySnapshotDigest value = at_PolicySnapshotDigest previous ∧
  at_RetryPolicyDigest value = at_RetryPolicyDigest previous ∧
  at_PreviousAttemptID value = at_PreviousAttemptID previous ∧
  at_RetryErrorID value = at_RetryErrorID previous ∧
  at_NotBeforeAt value = at_NotBeforeAt previous ∧
  at_AuthorizedWorkerSetDigest value = at_AuthorizedWorkerSetDigest previous ∧
  at_ComputePoolPolicyDigest value = at_ComputePoolPolicyDigest previous ∧
  at_ComputePoolGrantDigest value = at_ComputePoolGrantDigest previous ∧
  at_ComputePoolAssignmentSetDigest value = at_ComputePoolAssignmentSetDigest previous ∧
  at_SourceReceiptSigner value = at_SourceReceiptSigner previous ∧
  at_CustodyReceiptSigner value = at_CustodyReceiptSigner previous ∧
  at_CreatedAt value = at_CreatedAt previous ∧
  at_DeadlineAt value = at_DeadlineAt previous.

#[global] Instance same_attempt_binding_dec value previous :
  Decision (same_attempt_binding value previous).
Proof. unfold same_attempt_binding. apply _. Defined.

Definition AttemptRecord_ValidateUpdateFrom (value previous : AttemptRecord) : option QueueError :=
  AttemptRecord_Validate value >>?
  invalid_when (at_State value ≠ at_State previous ∨ at_ID value ≠ at_ID previous ∨
    at_OccurrenceID value ≠ at_OccurrenceID previous ∨
    at_AttemptNumber value ≠ at_AttemptNumber previous ∨
    not_next_revision (at_Revision previous) (at_Revision value)) "attempt" >>?
  invalid_when (¬ same_attempt_binding value previous ∨
    at_TerminalAssignmentOutcomesDigest value ≠ at_TerminalAssignmentOutcomesDigest previous)
    "executionIdentity" >>?
  invalid_when (ap_AssignmentSetDigest (at_AssignmentPlan value) ≠
    ap_AssignmentSetDigest (at_AssignmentPlan previous)) "fixedWorkerSetMutation" >>?
  invalid_when (¬ receiptSubset (elements (at_ReceiptIDs previous)) (elements (at_ReceiptIDs value)))
    "receiptIDs".
End attempts.

(** The proof that an attempt crossed the authorization boundary: only
    [AuthorizeInitialAttempt], [AuthorizeRetryAttempt] and [Advance] make one. *)
Record AuthorizedAttempt := mkAuthorizedAttempt { auth_record : AttemptRecord }.

#[global] Instance AuthorizedAttempt_eq_dec : EqDecision AuthorizedAttempt.
Proof. solve_decision. Defined.

(** ** Assignments *)

Record AssignmentRecord := mkAssignmentRecord {
  as_ProtocolVersion : Z;
  as_ID : AssignmentID;
  as_OccurrenceID : OccurrenceID;
  as_AttemptID : AttemptID;
  as_Revision : uint64;
  as_State : AssignmentState;
  as_Executor : ExecutorBinding;
  as_ItemIDs : list ItemID;
  as_ItemSetDigest : Digest;
  as_ExecutionPayloadDigest : Digest;
  as_CapsuleID : option JobCapsuleID;
  as_CapsuleDigest : option Digest;
  as_InitialLease : option LeaseBinding;
  as_CurrentLease : option LeaseBinding;
  as_InitialCancellationFence : uint64;
  as_CancellationFence : uint64;
  as_SourceReceiptSigner : ReceiptSignerBinding;
  as_CustodyReceiptSigner : option ReceiptSignerBinding;
  as_CreatedAt : Timestamp;
  as_DeadlineAt : option Timestamp;
  as_ReceiptIDs : Slice ReceiptID }.

#[global] Instance AssignmentRecord_eq_dec : EqDecision AssignmentRecord.
Proof. solve_decision. Defined.

Section assignments.
Context `{UuidParser}.

(** Leases, fences and capsules of a worker's assignment. *)
Definition worker_assignment_check (value : AssignmentRecord) (initial current : LeaseBinding)
    : option QueueError :=
  LeaseBinding_Validate initial >>?
  LeaseBinding_Validate current >>?
  invalid_when (lb_ID current ≠ lb_ID initial ∨
    lb_MaximumExpiresAt current ≠ lb_MaximumExpiresAt initial ∨
    lb_Revision current < lb_Revision initial ∨ lb_ExpiresAt current < lb_ExpiresAt initial)
    "assignment.lease" >>?
  invalid_when (as_CancellationFence value ≠ as_InitialCancellationFence value ∧
    not_next_revision (as_InitialCancellationFence value) (as_CancellationFence value))
    "assignment.cancellationFence" >>?
  (if assignmentHasSealedItemSet (as_State value)
   then invalid_when (as_CapsuleID value = None ∨ as_CapsuleDigest value = None) "capsule"
   else invalid_when (as_CapsuleID value ≠ None ∨ as_CapsuleDigest value ≠ None) "capsule").

Definition assignment_executor_check (value : AssignmentRecord) : option QueueError :=
  if decide (eb_Kind (as_Executor value) = ExecutorSourceLocal) then
    invalid_when (assignmentExternalOnly (as_State value) ∨ as_CapsuleID value ≠ None ∨
      as_CapsuleDigest value ≠ None ∨ as_CustodyReceiptSigner value ≠ None ∨
      as_InitialLease value ≠ None ∨ as_CurrentLease value ≠ None ∨
      as_InitialCancellationFence value ≠ 0 ∨ as_CancellationFence value ≠ 0) "localCapsule"
  else
    invalid_when (assignmentLocalOnly (as_State value) ∨ as_CustodyReceiptSigner value = None ∨
      as_InitialLease value = None ∨ as_CurrentLease value = None ∨
      as_InitialCancellationFence value = 0 ∨ as_CancellationFence value = 0) "workerState" >>?
    match as_InitialLease value, as_CurrentLease value with
    | Some initial, Some current => worker_assignment_check value initial current
    | _, _ => None
    end.

Definition AssignmentRecord_Validate (value : AssignmentRecord) : option QueueError :=
  requireProtocol (as_ProtocolVersion value) >>?
  validateOpaqueID (as_ID value) >>?
  validateOpaqueID (as_OccurrenceID value) >>?
  validateOpaqueID (as_AttemptID value) >>?
  ExecutorBinding_Validate (as_Executor value) >>?
  Digest_Validate (as_ItemSetDigest value) >>?
  Digest_Validate (as_ExecutionPayloadDigest value) >>?
  ReceiptSignerBinding_Validate (as_SourceReceiptSigner value) >>?
  requirePositive (as_Revision value) "revision" >>?
  invalid_when (¬ AssignmentState_valid (as_State value)) "assignment.state" >>?
  invalid_when (zlen (as_ItemIDs value) = 0 ∨ zlen (as_ItemIDs value) > maximumAssignmentItems)
    "itemIDs" >>?
  each validateOpaqueID (as_ItemIDs value) >>?
  requireUniqueSorted (as_ItemIDs value) "itemIDs" >>?
  invalid_when (as_ItemSetDigest value ≠ MakeAssignmentItemSetDigest (as_ItemIDs value))
    "itemSetDigest" >>?
  assignment_executor_check value >>?
  when_present validateOpaqueID (as_CapsuleID value) >>?
  when_present Digest_Validate (as_CapsuleDigest value) >>?
  when_present ReceiptSignerBinding_Validate (as_CustodyReceiptSigner value) >>?
  Timestamp_Validate (as_CreatedAt value) >>?
  deadline_check (as_CreatedAt value) (as_DeadlineAt value) >>?
  receipt_ids_check (as_ReceiptIDs value).
End assignments.

Definition AssignmentRecord_receiptSubjectDigest (value : AssignmentRecord)
    (receipt : ReceiptRecord) : Digest :=
  AssignmentAuthorization_receiptSubjectDigest
    (mkAssignmentAuthorization (as_ID value) (as_Executor value) (as_ItemIDs value)
       (as_ItemSetDigest value) (as_ExecutionPayloadDigest value) (as_CapsuleID value)
       (as_CapsuleDigest value) (as_InitialLease value) (as_InitialCancellationFence value))
    (as_OccurrenceID value) (as_AttemptID value) receipt.
