(* ===== verification/ComputeQueueItems.v ===== *)
(** * internal/computequeue: items and reports (items.go)

    Result manifests of assignments, the executions of an item, items with
    their updates, and the counters that a report reconciles over all items of
    an occurrence.  The updates that need evidence from assignments are in
    [ComputeQueueLifecycle].

    The second part has the sixteen counters of an occurrence's report, the
    report that follows from the items, and the digest of the final outcome of
    all items. *)

From S2P Require Import Prelude GoEncoding Sha256 GoText ComputeQueue ComputeQueueCanonical ComputeQueueAuthorization ComputeQueueReceipts ComputeQueueTransitions ComputeQueueAttempts.
#[local] Open Scope Z_scope.

(** ** Executions *)

Record ItemExecutionRecord := mkItemExecutionRecord {
  ie_ProtocolVersion : Z;
  ie_Revision : uint64;
  ie_OccurrenceID : OccurrenceID;
  ie_ItemID : ItemID;
  ie_DestinationKind : DestinationKind;
  ie_AttemptID : AttemptID;
  ie_AttemptNumber : uint64;
  ie_AssignmentID : AssignmentID;
  ie_WorkerID : option WorkerID;
  ie_ExecutionInputCommittedAt : option Timestamp;
  ie_DisclosureCommittedAt : option Timestamp;
  ie_CustodyAcceptedAt : option Timestamp;
  ie_ResultCompletedAt : option Timestamp;
  ie_TerminalAt : option Timestamp;
  ie_ResultDigest : option Digest;
  ie_CancellationUnconfirmed : bool;
  ie_Outcome : option ItemAttemptOutcome;
  ie_ErrorID : option ErrorID }.

#[global] Instance ItemExecutionRecord_eq_dec : EqDecision ItemExecutionRecord.
Proof. solve_decision. Defined.

(** The times of an execution that are set do not go back. *)
Fixpoint times_check (previous : option Timestamp) (times : list (option Timestamp))
    : option QueueError :=
  match times with
  | [] => None
  | None :: times => times_check previous times
  | Some current :: times =>
    Timestamp_Validate current >>?
    invalid_when (some_and previous (fun previous => current < previous))
      "itemExecution.timestamps" >>?
    times_check (Some current) times
  end.

(** The final switch of [Validate]: the milestones that an outcome allows. *)
Definition execution_outcome_check (value : ItemExecutionRecord) : option QueueError :=
  let direct := ie_DestinationKind value = DestinationDirectLocal in
  let input := ie_ExecutionInputCommittedAt value in
  let disclosure := ie_DisclosureCommittedAt value in
  let custody := ie_CustodyAcceptedAt value in
  let completed := ie_ResultCompletedAt value in
  let result := ie_ResultDigest value in
  let error := ie_ErrorID value in
  match ie_Outcome value with
  | None => invalid_when (error ≠ None) "itemExecution.errorID"
  | Some outcome =>
    if decide (outcome = "admissionRejected"%string) then
      invalid_when (input ≠ None ∨ disclosure ≠ None ∨ custody ≠ None ∨ completed ≠ None ∨
        error = None) "itemExecution.admissionRejected"
    else if decide (outcome = "succeeded"%string) then
      invalid_when (completed = None ∨ result = None ∨ error ≠ None) "itemExecution.succeeded"
    else if decide (outcome = "failedExecution"%string) then
      invalid_when (input = None ∨ (¬ direct ∧ (disclosure = None ∨ custody = None)) ∨
        completed ≠ None ∨ error = None) "itemExecution.failedExecution"
    else if decide (outcome = "invalidResult"%string) then
      invalid_when (completed = None ∨ result = None ∨ error = None) "itemExecution.invalidResult"
    else if decide (outcome = "cancelledBeforeDisclosure"%string) then
      invalid_when (disclosure ≠ None ∨ custody ≠ None ∨ completed ≠ None ∨ error ≠ None)
        "itemExecution.cancelledBeforeDisclosure"
    else if decide (outcome = "cancelledAfterDisclosure"%string) then
      invalid_when (direct ∨ disclosure = None ∨ completed ≠ None ∨ error ≠ None)
        "itemExecution.cancelledAfterDisclosure"
    else None
  end.

Definition ItemExecutionRecord_authorizesRetry (value : ItemExecutionRecord) : bool :=
  bool_decide (ie_Outcome value = Some "admissionRejected"%string ∨
    ie_Outcome value = Some "failedExecution"%string).

(** What identifies an execution, and the next revision of it. *)
Definition same_execution (value previous : ItemExecutionRecord) : Prop :=
  ie_OccurrenceID value = ie_OccurrenceID previous ∧ ie_ItemID value = ie_ItemID previous ∧
  ie_DestinationKind value = ie_DestinationKind previous ∧
  ie_AttemptID value = ie_AttemptID previous ∧
  ie_AttemptNumber value = ie_AttemptNumber previous ∧
  ie_AssignmentID value = ie_AssignmentID previous ∧ ie_WorkerID value = ie_WorkerID previous ∧
  ¬ not_next_revision (ie_Revision previous) (ie_Revision value).

#[global] Instance same_execution_dec value previous : Decision (same_execution value previous).
Proof. unfold same_execution. apply _. Defined.

(** [previous != nil && !equal(value, previous)] *)
Definition replaced {A} `{EqDecision A} (previous value : option A) : Prop :=
  previous ≠ None ∧ value ≠ previous.

#[global] Instance replaced_dec {A} `{EqDecision A} (previous value : option A) :
  Decision (replaced previous value).
Proof. unfold replaced. apply _. Defined.

Section executions.
Context `{UuidParser}.

Definition ItemExecutionRecord_Validate (value : ItemExecutionRecord) : option QueueError :=
  let direct := ie_DestinationKind value = DestinationDirectLocal in
  let input := ie_ExecutionInputCommittedAt value in
  let disclosure := ie_DisclosureCommittedAt value in
  let custody := ie_CustodyAcceptedAt value in
  let completed := ie_ResultCompletedAt value in
  requireProtocol (ie_ProtocolVersion value) >>?
  requirePositive (ie_Revision value) "revision" >>?
  each validateOpaqueID [ie_OccurrenceID value; ie_ItemID value; ie_AttemptID value;
    ie_AssignmentID value] >>?
  invalid_when (¬ DestinationKind_valid (ie_DestinationKind value))
    "itemExecution.destinationKind" >>?
  requirePositive (ie_AttemptNumber value) "itemExecution.attemptNumber" >>?
  when_present validateOpaqueID (ie_WorkerID value) >>?
  when_present Digest_Validate (ie_ResultDigest value) >>?
  when_present validateOpaqueID (ie_ErrorID value) >>?
  invalid_when (some_and (ie_Outcome value) (fun outcome => ¬ ItemAttemptOutcome_valid outcome))
    "itemExecution.outcome" >>?
  (if decide direct then
     invalid_when (ie_WorkerID value ≠ None ∨ disclosure ≠ None ∨ custody ≠ None)
       "itemExecution.directLocal"
   else invalid_when (ie_WorkerID value = None) "itemExecution.workerID") >>?
  invalid_when (disclosure ≠ None ∧ input = None) "itemExecution.disclosureCommittedAt" >>?
  invalid_when (custody ≠ None ∧ disclosure = None) "itemExecution.custodyAcceptedAt" >>?
  invalid_when (completed ≠ None ∧ input = None) "itemExecution.resultCompletedAt" >>?
  invalid_when
    (bool_decide (completed = None) ≠ bool_decide (ie_ResultDigest value = None) ∨
     bool_decide (ie_TerminalAt value = None) ≠ bool_decide (ie_Outcome value = None))
    "itemExecution.terminal" >>?
  invalid_when (¬ direct ∧ completed ≠ None ∧ custody = None)
    "itemExecution.externalResultWithoutCustody" >>?
  invalid_when (ie_CancellationUnconfirmed value ∧
    (ie_Outcome value ≠ None ∨ input = None ∨ (¬ direct ∧ disclosure = None)))
    "itemExecution.cancellationUnconfirmed" >>?
  execution_outcome_check value >>?
  times_check None [input; disclosure; custody; completed; ie_TerminalAt value].

Definition ItemExecutionRecord_ValidateUpdateFrom (value previous : ItemExecutionRecord)
    : option QueueError :=
  ItemExecutionRecord_Validate value >>?
  invalid_when (¬ same_execution value previous) "itemExecution.identity" >>?
  invalid_when (replaced (ie_ExecutionInputCommittedAt previous)
    (ie_ExecutionInputCommittedAt value)) "itemExecution.executionInputCommittedAt" >>?
  invalid_when (replaced (ie_DisclosureCommittedAt previous) (ie_DisclosureCommittedAt value))
    "itemExecution.disclosureCommittedAt" >>?
  invalid_when (replaced (ie_CustodyAcceptedAt previous) (ie_CustodyAcceptedAt value))
    "itemExecution.custodyAcceptedAt" >>?
  invalid_when (ie_ResultCompletedAt previous ≠ None ∧
    (ie_ResultCompletedAt value ≠ ie_ResultCompletedAt previous ∨
     ie_ResultDigest value ≠ ie_ResultDigest previous)) "itemExecution.result" >>?
  invalid_when (ie_CancellationUnconfirmed previous ∧ ¬ ie_CancellationUnconfirmed value)
    "itemExecution.cancellationUnconfirmed" >>?
  invalid_when (ie_Outcome previous ≠ None) "itemExecution.terminal".

(** The outcome of an execution whose cancellation is confirmed at last. *)
Definition reconciled_outcome (kind : DestinationKind) : string :=
  if decide (kind = DestinationDirectLocal) then "cancelledBeforeDisclosure"
  else "cancelledAfterDisclosure".

Definition ItemExecutionRecord_validateCancellationReconciliationFrom
    (value previous : ItemExecutionRecord) : option QueueError :=
  ItemExecutionRecord_Validate value >>?
  invalid_when (¬ same_execution value previous ∨
    ie_ExecutionInputCommittedAt value ≠ ie_ExecutionInputCommittedAt previous ∨
    ie_DisclosureCommittedAt value ≠ ie_DisclosureCommittedAt previous ∨
    ie_CustodyAcceptedAt value ≠ ie_CustodyAcceptedAt previous ∨
    ie_ResultCompletedAt value ≠ ie_ResultCompletedAt previous ∨
    ie_ResultDigest value ≠ ie_ResultDigest previous ∨
    ¬ ie_CancellationUnconfirmed previous ∨ ie_CancellationUnconfirmed value ∨
    ie_Outcome previous ≠ None ∨
    ie_Outcome value ≠ Some (reconciled_outcome (ie_DestinationKind value)) ∨
    ie_ErrorID value ≠ None) "itemExecution.cancellationReconciliation".
End executions.

(** The comparison leaves nothing out, so it is equality. *)
Definition equalItemExecution (left right : ItemExecutionRecord) : bool :=
  bool_decide (left = right).

Definition equalItemExecutionPrefix (left right : list ItemExecutionRecord) : bool :=
  bool_decide (length left = length right) &&
  forallb (fun pair => equalItemExecution pair.1 pair.2) (zip left right).

(** ** Items *)

Record ItemRecord := mkItemRecord {
  item_ProtocolVersion : Z;
  item_ID : ItemID;
  item_OccurrenceID : OccurrenceID;
  item_Revision : uint64;
  item_DestinationKind : DestinationKind;
  item_SourceObjectID : FacetsObjectID;
  item_SourceRevision : option string;
  item_SourceFingerprint : option Digest;
  item_PreparedAt : option Timestamp;
  item_Executions : Slice ItemExecutionRecord;
  item_TerminalAt : option Timestamp;
  item_ApplicationReceiptID : option ReceiptID;
  item_Disposition : option ItemDisposition;
  item_ErrorID : option ErrorID }.

#[global] Instance ItemRecord_eq_dec : EqDecision ItemRecord.
Proof. solve_decision. Defined.

Definition executions (value : ItemRecord) : list ItemExecutionRecord :=
  elements (item_Executions value).

Definition ItemRecord_CurrentExecution (value : ItemRecord) : option ItemExecutionRecord :=
  last (executions value).

(** [current != nil && current.field ...] with a nil field when there is none. *)
Definition of_current {A} (value : ItemRecord) (field : ItemExecutionRecord → option A)
    : option A :=
  ItemRecord_CurrentExecution value ≫= field.

Definition ItemRecord_validateDisposition (value : ItemRecord) : option QueueError :=
  let current := ItemRecord_CurrentExecution value in
  let input := of_current value ie_ExecutionInputCommittedAt in
  let disclosure := of_current value ie_DisclosureCommittedAt in
  let custody := of_current value ie_CustodyAcceptedAt in
  let completed := of_current value ie_ResultCompletedAt in
  let result := of_current value ie_ResultDigest in
  let outcome := of_current value ie_Outcome in
  when_present (fun disposition =>
    if decide (disposition = "skippedSourceMissing"%string) then
      invalid_when (item_PreparedAt value ≠ None ∨ current ≠ None) "skippedSourceMissing"
    else if oneOf disposition ["skippedSourceMissingBeforeDisclosure";
                               "skippedSourceChangedBeforeDisclosure"]%string then
      invalid_when (item_PreparedAt value = None ∨ input ≠ None ∨ disclosure ≠ None ∨
        custody ≠ None ∨ completed ≠ None ∨ result ≠ None) "skippedBeforeDisclosure"
    else if oneOf disposition ["resultNotAppliedSourceMissing";
                               "resultNotAppliedSourceChanged"]%string then
      invalid_when (input = None ∨ completed = None ∨ result = None ∨
        outcome ≠ Some "succeeded"%string) "resultNotApplied"
    else if decide (disposition = "failedPreparation"%string) then
      invalid_when (input ≠ None ∨ disclosure ≠ None ∨ custody ≠ None ∨ completed ≠ None ∨
        result ≠ None ∨ (current ≠ None ∧ outcome ≠ Some "admissionRejected"%string))
        "terminalBeforeDisclosure"
    else if decide (disposition = "cancelledBeforeDisclosure"%string) then
      invalid_when (disclosure ≠ None ∨ custody ≠ None ∨ completed ≠ None ∨ result ≠ None ∨
        (current ≠ None ∧ outcome ≠ Some "cancelledBeforeDisclosure"%string))
        "cancelledBeforeDisclosure"
    else if decide (disposition = "failedExecution"%string) then
      invalid_when (current = None ∨ input = None ∨ completed ≠ None ∨ result ≠ None ∨
        outcome ≠ Some "failedExecution"%string ∨
        of_current value ie_ErrorID ≠ item_ErrorID value) "failedExecution"
    else if decide (disposition = "cancelledAfterDisclosure"%string) then
      invalid_when (item_DestinationKind value = DestinationDirectLocal ∨ disclosure = None ∨
        outcome ≠ Some "cancelledAfterDisclosure"%string) "terminalAfterDisclosure"
    else if decide (disposition = "invalidResult"%string) then
      invalid_when (current = None ∨ input = None ∨ completed = None ∨ result = None ∨
        outcome ≠ Some "invalidResult"%string ∨
        of_current value ie_ErrorID ≠ item_ErrorID value) "invalidResult"
    else None) (item_Disposition value).

Definition ItemRecord_ApplicationProofDigest (value : ItemRecord) : Digest :=
  let current := ItemRecord_CurrentExecution value in
  SHA256Digest "facets.compute-queue.item-application-proof.v1"
    [item_ID value; item_OccurrenceID value; from_option ie_AttemptID ""%string current;
     from_option ie_AssignmentID ""%string current;
     FacetsObjectID_RawValue (item_SourceObjectID value);
     optionalString (item_SourceRevision value); optionalString (item_SourceFingerprint value);
     optionalString (of_current value ie_ResultDigest); optionalString (item_Disposition value);
     optionalTimestamp (item_TerminalAt value)].

Section items.
Context `{UuidParser}.

(** One execution of an item: its identity, and that every execution before
    the last authorizes a retry. *)
Definition item_execution_check (value : ItemRecord) (index : Z) (execution : ItemExecutionRecord)
    : option QueueError :=
  ItemExecutionRecord_Validate execution >>?
  invalid_when (ie_OccurrenceID execution ≠ item_OccurrenceID value ∨
    ie_ItemID execution ≠ item_ID value ∨
    ie_DestinationKind execution ≠ item_DestinationKind value ∨
    ie_AttemptNumber execution ≠ u64 (index + 1)) "item.executions.identity" >>?
  invalid_when (index < zlen (executions value) - 1 ∧
    (¬ ItemExecutionRecord_authorizesRetry execution ∨ ie_CancellationUnconfirmed execution))
    "item.executions.retryLineage".

Definition ItemRecord_Validate (value : ItemRecord) : option QueueError :=
  let current := ItemRecord_CurrentExecution value in
  requireProtocol (item_ProtocolVersion value) >>?
  validateOpaqueID (item_ID value) >>?
  validateOpaqueID (item_OccurrenceID value) >>?
  requirePositive (item_Revision value) "revision" >>?
  invalid_when (¬ DestinationKind_valid (item_DestinationKind value)) "item.destinationKind" >>?
  FacetsObjectID_Validate (item_SourceObjectID value) >>?
  when_present (fun revision => requireNonempty revision "sourceRevision")
    (item_SourceRevision value) >>?
  when_present Digest_Validate (item_SourceFingerprint value) >>?
  invalid_when (bool_decide (item_PreparedAt value = None) ≠
    bool_decide (item_SourceFingerprint value = None)) "sourceFingerprint" >>?
  invalid_when (item_Executions value = None ∨ zlen (executions value) > MaximumRetries + 1)
    "item.executions" >>?
  each_indexed (item_execution_check value) (executions value) >>?
  invalid_when (¬ NoDup (ie_AttemptID <$> executions value)) "item.executions.attemptID" >>?
  invalid_when (zlen (executions value) > 0 ∧ item_PreparedAt value = None)
    "item.executions.preparedAt" >>?
  invalid_when (bool_decide (item_Disposition value = None) ≠
    bool_decide (item_TerminalAt value = None)) "terminalAt" >>?
  invalid_when (some_and (item_Disposition value) (fun disposition =>
    ¬ ItemDisposition_valid disposition)) "disposition" >>?
  when_present validateOpaqueID (item_ErrorID value) >>?
  invalid_when (bool_decide (some_and (item_Disposition value) (fun disposition =>
      oneOf disposition ["failedPreparation"; "failedExecution"; "invalidResult"]%string)) ≠
    bool_decide (item_ErrorID value ≠ None)) "item.errorID" >>?
  when_present validateOpaqueID (item_ApplicationReceiptID value) >>?
  (if decide (item_Disposition value = Some "applied"%string) then
     invalid_when (of_current value ie_ResultCompletedAt = None ∨
       of_current value ie_ResultDigest = None ∨
       of_current value ie_Outcome ≠ Some "succeeded"%string ∨
       item_ApplicationReceiptID value = None) "applied"
   else invalid_when (item_ApplicationReceiptID value ≠ None) "applicationReceiptID") >>?
  ItemRecord_validateDisposition value >>?
  when_present Timestamp_Validate (item_PreparedAt value) >>?
  when_present (fun terminal =>
    Timestamp_Validate terminal >>?
    invalid_when (some_and (item_PreparedAt value) (fun prepared => terminal < prepared))
      "terminalAt" >>?
    invalid_when (some_and (of_current value ie_TerminalAt) (fun execution =>
      terminal < execution)) "terminalAt") (item_TerminalAt value).

(** The executions of an update: the same ones with the last revised, or the
    first one. *)
Definition item_executions_update (value previous : ItemRecord) (reconciling : bool)
    : option QueueError :=
  let new := executions value in
  let old := executions previous in
  if decide (length new = length old) then
    match last new, last old with
    | Some current, Some prior =>
      invalid_when (¬ equalItemExecutionPrefix (removelast new) (removelast old))
        "item.executions.history" >>?
      (if equalItemExecution current prior then None
       else if reconciling then
         ItemExecutionRecord_validateCancellationReconciliationFrom current prior
       else ItemExecutionRecord_ValidateUpdateFrom current prior)
    | _, _ => None
    end
  else
    invalid_when (zlen old ≠ 0 ∨ zlen new ≠ 1 ∨ (ie_AttemptNumber <$> head new) ≠ Some 1)
      "item.executions".

(** What the milestones of the prior execution freeze. *)
Definition item_milestones_kept (value previous : ItemRecord) (reconciling : bool)
    (prior : ItemExecutionRecord) : option QueueError :=
  let current := ItemRecord_CurrentExecution value in
  let kept {A} `{EqDecision A} (field : ItemExecutionRecord → option A) :=
    current ≠ None ∧ of_current value field = field prior in
  invalid_when (ie_ExecutionInputCommittedAt prior ≠ None ∧
    (none_or current (fun current => ie_AttemptID current ≠ ie_AttemptID prior ∨
       ie_AssignmentID current ≠ ie_AssignmentID prior ∨
       ie_WorkerID current ≠ ie_WorkerID prior) ∨
     item_SourceFingerprint value ≠ item_SourceFingerprint previous)) "executionInput" >>?
  invalid_when (ie_ExecutionInputCommittedAt prior ≠ None ∧ ¬ kept ie_ExecutionInputCommittedAt)
    "executionInputCommittedAt" >>?
  invalid_when (ie_DisclosureCommittedAt prior ≠ None ∧ ¬ kept ie_DisclosureCommittedAt)
    "disclosureCommittedAt" >>?
  invalid_when (ie_CustodyAcceptedAt prior ≠ None ∧ ¬ kept ie_CustodyAcceptedAt)
    "custodyAcceptedAt" >>?
  invalid_when (ie_ResultCompletedAt prior ≠ None ∧
    (¬ kept ie_ResultCompletedAt ∨ ¬ kept ie_ResultDigest)) "completedResult" >>?
  invalid_when (ie_CancellationUnconfirmed prior ∧
    none_or current (fun current => ¬ ie_CancellationUnconfirmed current) ∧ ¬ reconciling)
    "cancellationUnconfirmed".

Definition ItemRecord_validateUpdateFrom (value previous : ItemRecord) (reconciling : bool)
    : option QueueError :=
  ItemRecord_Validate value >>?
  invalid_when (item_ID value ≠ item_ID previous ∨
    item_OccurrenceID value ≠ item_OccurrenceID previous ∨
    item_DestinationKind value ≠ item_DestinationKind previous ∨
    item_SourceObjectID value ≠ item_SourceObjectID previous) "item" >>?
  invalid_when (not_next_revision (item_Revision previous) (item_Revision value))
    "item.revision" >>?
  item_executions_update value previous reconciling >>?
  invalid_when (replaced (item_Disposition previous) (item_Disposition value)) "disposition" >>?
  invalid_when (item_PreparedAt previous ≠ None ∧
    (item_SourceRevision value ≠ item_SourceRevision previous ∨
     item_SourceFingerprint value ≠ item_SourceFingerprint previous ∨
     item_PreparedAt value ≠ item_PreparedAt previous)) "preparedSnapshot" >>?
  when_present (item_milestones_kept value previous reconciling)
    (ItemRecord_CurrentExecution previous) >>?
  invalid_when (item_Disposition previous ≠ None) "terminalItem".

Definition ItemRecord_ValidateUpdateFrom (value previous : ItemRecord) : option QueueError :=
  ItemRecord_validateUpdateFrom value previous false.

(** ** Application *)

Definition ItemRecord_validateApplication_indexed (value : ItemRecord)
    (receiptIndex : verifiedReceiptIndex) (sourceReceiptSigner : ReceiptSignerBinding)
    : option QueueError :=
  let missing := invalid "missingTransitionReceipt" in
  ItemRecord_Validate value >>?
  if decide (item_Disposition value ≠ Some "applied"%string) then None
  else
    match item_ApplicationReceiptID value, ItemRecord_CurrentExecution value with
    | Some id, Some current =>
      match receiptIndex !! id with
      | None => Some missing
      | Some receipt =>
        let record := vr_record receipt in
        err_when (rr_Stage record ≠ "sourceApplied"%string ∨
          rr_Authority record ≠ AuthoritySourceDevice ∨
          rr_OccurrenceID record ≠ item_OccurrenceID value ∨
          rr_AttemptID record ≠ ie_AttemptID current ∨
          rr_AssignmentID record ≠ Some (ie_AssignmentID current) ∨
          rr_ItemID record ≠ Some (item_ID value) ∨
          ¬ VerifiedReceipt_matches receipt sourceReceiptSigner
              (ItemRecord_ApplicationProofDigest value)) missing
      end
    | _, _ => Some missing
    end.

Definition ItemRecord_ValidateApplication (value : ItemRecord) (receipts : list VerifiedReceipt)
    (sourceReceiptSigner : ReceiptSignerBinding) : option QueueError :=
  let! receiptIndex := newVerifiedReceiptIndex receipts in
  ItemRecord_validateApplication_indexed value receiptIndex sourceReceiptSigner.
End items.

(** ** Result manifests *)

Record AssignmentResultEntry := mkAssignmentResultEntry {
  re_ItemID : ItemID;
  re_Outcome : ItemExecutionOutcome;
  re_ResultDigest : option Digest;
  re_ErrorID : option ErrorID;
  re_ErrorDigest : option Digest }.

#[global] Instance AssignmentResultEntry_eq_dec : EqDecision AssignmentResultEntry.
Proof. solve_decision. Defined.

Record AssignmentResultManifest := mkAssignmentResultManifest {
  rm_ProtocolVersion : Z;
  rm_OccurrenceID : OccurrenceID;
  rm_AttemptID : AttemptID;
  rm_AssignmentID : AssignmentID;
  rm_Entries : list AssignmentResultEntry;
  rm_ResultSetDigest : Digest }.

#[global] Instance AssignmentResultManifest_eq_dec : EqDecision AssignmentResultManifest.
Proof. solve_decision. Defined.

Definition AssignmentResultEntry_digestComponents (value : AssignmentResultEntry) : list string :=
  [re_ItemID value; re_Outcome value; optionalString (re_ResultDigest value);
   optionalString (re_ErrorID value); optionalString (re_ErrorDigest value)].

Definition result_set_digest (value : AssignmentResultManifest) : Digest :=
  SHA256Digest "facets.compute-queue.assignment-result-set.v1"
    ([rm_OccurrenceID value; rm_AttemptID value; rm_AssignmentID value] ++
     (rm_Entries value ≫= AssignmentResultEntry_digestComponents)).

Section result_manifests.
Context `{UuidParser}.

Definition AssignmentResultEntry_Validate (value : AssignmentResultEntry) : option QueueError :=
  validateOpaqueID (re_ItemID value) >>?
  invalid_when (¬ ItemExecutionOutcome_valid (re_Outcome value)) "resultEntry.outcome" >>?
  when_present Digest_Validate (re_ResultDigest value) >>?
  when_present validateOpaqueID (re_ErrorID value) >>?
  when_present Digest_Validate (re_ErrorDigest value) >>?
  (if decide (re_Outcome value = "succeeded"%string) then
     invalid_when (re_ResultDigest value = None ∨ re_ErrorID value ≠ None ∨
       re_ErrorDigest value ≠ None) "resultEntry.resultDigest"
   else
     invalid_when (re_ResultDigest value ≠ None ∨ re_ErrorID value = None ∨
       re_ErrorDigest value = None) "resultEntry.resultDigest").

Definition AssignmentResultManifest_Validate (value : AssignmentResultManifest)
    : option QueueError :=
  let entries := rm_Entries value in
  requireProtocol (rm_ProtocolVersion value) >>?
  validateOpaqueID (rm_OccurrenceID value) >>?
  validateOpaqueID (rm_AttemptID value) >>?
  validateOpaqueID (rm_AssignmentID value) >>?
  invalid_when (zlen entries = 0 ∨ zlen entries > maximumAssignmentItems)
    "resultManifest.entries" >>?
  each AssignmentResultEntry_Validate entries >>?
  requireUniqueSorted (re_ItemID <$> entries) "resultManifest.itemIDs" >>?
  invalid_when (rm_ResultSetDigest value ≠ result_set_digest value)
    "resultManifest.resultSetDigest".

Definition AssignmentResultManifest_ValidateAuthorizedBy (value : AssignmentResultManifest)
    (assignment : AssignmentRecord) (expectedOccurrenceID : OccurrenceID) : option QueueError :=
  AssignmentResultManifest_Validate value >>?
  AssignmentRecord_Validate assignment >>?
  invalid_when (rm_OccurrenceID value ≠ expectedOccurrenceID ∨
    rm_AttemptID value ≠ as_AttemptID assignment ∨ rm_AssignmentID value ≠ as_ID assignment ∨
    length (rm_Entries value) ≠ length (as_ItemIDs assignment)) "resultManifest.authorization" >>?
  invalid_when ((re_ItemID <$> rm_Entries value) ≠ as_ItemIDs assignment)
    "resultManifest.authorization".

(** One entry against the execution of its item that the manifest is about. *)
Definition manifest_entry_check (value : AssignmentResultManifest)
    (itemsByID : gmap ItemID ItemRecord) (entry : AssignmentResultEntry) : option QueueError :=
  match itemsByID !! re_ItemID entry with
  | None => Some (invalid "resultManifest.itemCoverage")
  | Some item =>
    match list_find (fun candidate => ie_AttemptID candidate = rm_AttemptID value ∧
        ie_AssignmentID candidate = rm_AssignmentID value) (executions item) with
    | None => Some (invalid "resultManifest.itemCoverage")
    | Some (_, execution) =>
      invalid_when (item_OccurrenceID item ≠ rm_OccurrenceID value ∨
        ie_OccurrenceID execution ≠ rm_OccurrenceID value) "resultManifest.itemIdentity" >>?
      (if decide (re_Outcome entry = "succeeded"%string) then
         invalid_when (ie_ResultCompletedAt execution = None ∨
           ie_ResultDigest execution ≠ re_ResultDigest entry ∨
           none_or (ie_Outcome execution) (fun outcome =>
             ¬ oneOf outcome ["succeeded"; "invalidResult"]%string)) "resultManifest.itemResult"
       else if decide (re_Outcome entry = "failed"%string) then
         invalid_when (ie_ResultCompletedAt execution ≠ None ∨ ie_ResultDigest execution ≠ None ∨
           ie_Outcome execution ≠ Some "failedExecution"%string ∨
           ie_ErrorID execution ≠ re_ErrorID entry) "resultManifest.itemResult"
       else None)
    end
  end.

Definition AssignmentResultManifest_validateAgainstItemIndex (value : AssignmentResultManifest)
    (itemsByID : gmap ItemID ItemRecord) : option QueueError :=
  AssignmentResultManifest_Validate value >>?
  each (manifest_entry_check value itemsByID) (rm_Entries value).

(** Items by ID, refusing an ID that comes twice. *)
Fixpoint items_by_id (duplicate : string) (index : gmap ItemID ItemRecord)
    (items : list ItemRecord) : QueueError + gmap ItemID ItemRecord :=
  match items with
  | [] => inr index
  | item :: items =>
    err_when (is_Some (index !! item_ID item)) (duplicateValue duplicate) >>!
    items_by_id duplicate (<[item_ID item := item]> index) items
  end.

Definition AssignmentResultManifest_ValidateAgainstItems (value : AssignmentResultManifest)
    (items : list ItemRecord) : option QueueError :=
  let! itemsByID := items_by_id "resultManifest.items.id" ∅ items in
  AssignmentResultManifest_validateAgainstItemIndex value itemsByID.
End result_manifests.

Record ReportCounters := mkReportCounters {
  rc_Targeted : int64;
  rc_Prepared : int64;
  rc_Submitted : int64;
  rc_Completed : int64;
  rc_Applied : int64;
  rc_SkippedSourceMissing : int64;
  rc_SkippedSourceMissingBeforeDisclosure : int64;
  rc_SkippedSourceChangedBeforeDisclosure : int64;
  rc_ResultNotAppliedSourceMissing : int64;
  rc_ResultNotAppliedSourceChanged : int64;
  rc_FailedPreparation : int64;
  rc_FailedExecution : int64;
  rc_InvalidResult : int64;
  rc_CancelledBeforeDisclosure : int64;
  rc_CancelledAfterDisclosure : int64;
  rc_CancellationUnconfirmed : int64 }.

#[global] Instance ReportCounters_eq_dec : EqDecision ReportCounters.
Proof. solve_decision. Defined.

#[global] Instance ReportCounters_eta : Eta ReportCounters := fun r =>
  mkReportCounters (rc_Targeted r) (rc_Prepared r) (rc_Submitted r) (rc_Completed r) (rc_Applied r)
    (rc_SkippedSourceMissing r) (rc_SkippedSourceMissingBeforeDisclosure r)
    (rc_SkippedSourceChangedBeforeDisclosure r) (rc_ResultNotAppliedSourceMissing r)
    (rc_ResultNotAppliedSourceChanged r) (rc_FailedPreparation r) (rc_FailedExecution r)
    (rc_InvalidResult r) (rc_CancelledBeforeDisclosure r) (rc_CancelledAfterDisclosure r)
    (rc_CancellationUnconfirmed r).

#[global] Instance update_rc_Prepared : Update rc_Prepared := ltac:(mk_update).
#[global] Instance update_rc_Submitted : Update rc_Submitted := ltac:(mk_update).
#[global] Instance update_rc_Completed : Update rc_Completed := ltac:(mk_update).
#[global] Instance update_rc_Applied : Update rc_Applied := ltac:(mk_update).
#[global] Instance update_rc_SkippedSourceMissing : Update rc_SkippedSourceMissing := ltac:(mk_update).
#[global] Instance update_rc_SkippedSourceMissingBeforeDisclosure :
  Update rc_SkippedSourceMissingBeforeDisclosure := ltac:(mk_update).
#[global] Instance update_rc_SkippedSourceChangedBeforeDisclosure :
  Update rc_SkippedSourceChangedBeforeDisclosure := ltac:(mk_update).
#[global] Instance update_rc_ResultNotAppliedSourceMissing :
  Update rc_ResultNotAppliedSourceMissing := ltac:(mk_update).
#[global] Instance update_rc_ResultNotAppliedSourceChanged :
  Update rc_ResultNotAppliedSourceChanged := ltac:(mk_update).
#[global] Instance update_rc_FailedPreparation : Update rc_FailedPreparation := ltac:(mk_update).
#[global] Instance update_rc_FailedExecution : Update rc_FailedExecution := ltac:(mk_update).
#[global] Instance update_rc_InvalidResult : Update rc_InvalidResult := ltac:(mk_update).
#[global] Instance update_rc_CancelledBeforeDisclosure :
  Update rc_CancelledBeforeDisclosure := ltac:(mk_update).
#[global] Instance update_rc_CancelledAfterDisclosure :
  Update rc_CancelledAfterDisclosure := ltac:(mk_update).
#[global] Instance update_rc_CancellationUnconfirmed :
  Update rc_CancellationUnconfirmed := ltac:(mk_update).

Definition ReportCounters_values (value : ReportCounters) : list int64 :=
  [rc_Targeted value; rc_Prepared value; rc_Submitted value; rc_Completed value; rc_Applied value;
   rc_SkippedSourceMissing value; rc_SkippedSourceMissingBeforeDisclosure value;
   rc_SkippedSourceChangedBeforeDisclosure value; rc_ResultNotAppliedSourceMissing value;
   rc_ResultNotAppliedSourceChanged value; rc_FailedPreparation value; rc_FailedExecution value;
   rc_InvalidResult value; rc_CancelledBeforeDisclosure value; rc_CancelledAfterDisclosure value;
   rc_CancellationUnconfirmed value].

Definition ReportCounters_TerminalCount (value : ReportCounters) : int64 :=
  i64 (rc_Applied value + rc_SkippedSourceMissing value +
    rc_SkippedSourceMissingBeforeDisclosure value + rc_SkippedSourceChangedBeforeDisclosure value +
    rc_ResultNotAppliedSourceMissing value + rc_ResultNotAppliedSourceChanged value +
    rc_FailedPreparation value + rc_FailedExecution value + rc_InvalidResult value +
    rc_CancelledBeforeDisclosure value + rc_CancelledAfterDisclosure value).

Definition ReportCounters_ValidateLogicalBounds (value : ReportCounters) (allTerminal : bool)
    : option QueueError :=
  let targeted := rc_Targeted value in
  let terminal := ReportCounters_TerminalCount value in
  let resultTerminal := i64 (rc_Applied value + rc_ResultNotAppliedSourceMissing value +
    rc_ResultNotAppliedSourceChanged value + rc_InvalidResult value) in
  let executionTerminal := i64 (resultTerminal + rc_FailedExecution value +
    rc_CancelledAfterDisclosure value) in
  invalid_when (targeted < 0 ∨ targeted > maximumItems) "counters.targeted" >>?
  each (fun current => invalid_when (current < 0 ∨ current > targeted) "counters.bounds")
    (tail (ReportCounters_values value)) >>?
  invalid_when (rc_Prepared value > targeted ∨ rc_Submitted value > rc_Prepared value ∨
    rc_Completed value > rc_Submitted value ∨ rc_Applied value > rc_Completed value ∨
    resultTerminal > rc_Completed value ∨ executionTerminal > rc_Submitted value ∨
    terminal > targeted ∨ rc_CancellationUnconfirmed value > rc_Submitted value ∨
    i64 (rc_CancellationUnconfirmed value + terminal) > targeted ∨
    (allTerminal ∧ terminal ≠ targeted)) "counters.bounds".

Definition ReportCounters_Validate (value : ReportCounters) : option QueueError :=
  ReportCounters_ValidateLogicalBounds value false.

Definition ReportCounters_Digest (value : ReportCounters) : Digest :=
  SHA256Digest "facets.compute-queue.report-counters.v1"
    (fmt_Sprint <$> ReportCounters_values value).

(** ** Reconciliation *)

Definition counted (holds : Prop) `{Decision holds} (counter : int64) : int64 :=
  if decide holds then i64 (counter + 1) else counter.

(** The switch on the disposition. *)
Definition count_disposition (disposition : ItemDisposition) (r : ReportCounters)
    : ReportCounters :=
  let named name := disposition = name in
  if decide (named "applied"%string) then r <| rc_Applied := i64 (rc_Applied r + 1) |>
  else if decide (named "skippedSourceMissing"%string) then
    r <| rc_SkippedSourceMissing := i64 (rc_SkippedSourceMissing r + 1) |>
  else if decide (named "skippedSourceMissingBeforeDisclosure"%string) then
    r <| rc_SkippedSourceMissingBeforeDisclosure :=
      i64 (rc_SkippedSourceMissingBeforeDisclosure r + 1) |>
  else if decide (named "skippedSourceChangedBeforeDisclosure"%string) then
    r <| rc_SkippedSourceChangedBeforeDisclosure :=
      i64 (rc_SkippedSourceChangedBeforeDisclosure r + 1) |>
  else if decide (named "resultNotAppliedSourceMissing"%string) then
    r <| rc_ResultNotAppliedSourceMissing := i64 (rc_ResultNotAppliedSourceMissing r + 1) |>
  else if decide (named "resultNotAppliedSourceChanged"%string) then
    r <| rc_ResultNotAppliedSourceChanged := i64 (rc_ResultNotAppliedSourceChanged r + 1) |>
  else if decide (named "failedPreparation"%string) then
    r <| rc_FailedPreparation := i64 (rc_FailedPreparation r + 1) |>
  else if decide (named "failedExecution"%string) then
    r <| rc_FailedExecution := i64 (rc_FailedExecution r + 1) |>
  else if decide (named "invalidResult"%string) then
    r <| rc_InvalidResult := i64 (rc_InvalidResult r + 1) |>
  else if decide (named "cancelledBeforeDisclosure"%string) then
    r <| rc_CancelledBeforeDisclosure := i64 (rc_CancelledBeforeDisclosure r + 1) |>
  else if decide (named "cancelledAfterDisclosure"%string) then
    r <| rc_CancelledAfterDisclosure := i64 (rc_CancelledAfterDisclosure r + 1) |>
  else r.

Definition submitted_item (item : ItemRecord) : Prop :=
  Exists (fun execution => ie_ExecutionInputCommittedAt execution ≠ None) (executions item).
Definition completed_item (item : ItemRecord) : Prop :=
  Exists (fun execution => ie_ResultCompletedAt execution ≠ None) (executions item).
Definition unconfirmed_item (item : ItemRecord) : Prop :=
  some_and (ItemRecord_CurrentExecution item) (fun current => ie_CancellationUnconfirmed current).

#[global] Instance submitted_item_dec item : Decision (submitted_item item).
Proof. unfold submitted_item. apply _. Defined.
#[global] Instance completed_item_dec item : Decision (completed_item item).
Proof. unfold completed_item. apply _. Defined.
#[global] Instance unconfirmed_item_dec item : Decision (unconfirmed_item item).
Proof. unfold unconfirmed_item. apply _. Defined.

(** The body of the loop of [ReconcileReport]. *)
Definition count_item (r : ReportCounters) (item : ItemRecord) : ReportCounters :=
  let r := r <| rc_Prepared := counted (item_PreparedAt item ≠ None) (rc_Prepared r) |>
             <| rc_Submitted := counted (submitted_item item) (rc_Submitted r) |>
             <| rc_Completed := counted (completed_item item) (rc_Completed r) |>
             <| rc_CancellationUnconfirmed :=
                  counted (unconfirmed_item item) (rc_CancellationUnconfirmed r) |> in
  match item_Disposition item with
  | None => r
  | Some disposition => count_disposition disposition r
  end.

Definition targeted_report (targeted : int64) : ReportCounters :=
  mkReportCounters targeted 0 0 0 0 0 0 0 0 0 0 0 0 0 0 0.

Section reports.
Context `{UuidParser}.

Fixpoint reconcile_items (r : ReportCounters) (items : list ItemRecord)
    : QueueError + ReportCounters :=
  match items with
  | [] => inr r
  | item :: items => ItemRecord_Validate item >>! reconcile_items (count_item r item) items
  end.

(** The source returns the counters together with the error of their
    validation; a caller uses them only without an error. *)
Definition ReconcileReport (items : list ItemRecord) : QueueError + ReportCounters :=
  let? r := reconcile_items (targeted_report (zlen items)) items in
  ReportCounters_Validate r >>! inr r.

(** ** Final outcomes *)

Definition item_le (left right : ItemRecord) : Prop := str_le (item_ID left) (item_ID right).

#[global] Instance item_le_dec left right : Decision (item_le left right).
Proof. unfold item_le. apply _. Defined.

Definition execution_components (e : ItemExecutionRecord) : list string :=
  [fmt_Sprint (ie_Revision e); ie_AttemptID e; fmt_Sprint (ie_AttemptNumber e); ie_AssignmentID e;
   optionalString (ie_WorkerID e); optionalTimestamp (ie_ExecutionInputCommittedAt e);
   optionalTimestamp (ie_DisclosureCommittedAt e); optionalTimestamp (ie_CustodyAcceptedAt e);
   optionalTimestamp (ie_ResultCompletedAt e); optionalTimestamp (ie_TerminalAt e);
   optionalString (ie_ResultDigest e); optionalString (ie_Outcome e); optionalString (ie_ErrorID e);
   if ie_CancellationUnconfirmed e then "true"%string else "false"%string].

Definition item_components (item : ItemRecord) : list string :=
  [item_ID item; item_OccurrenceID item; fmt_Sprint (item_Revision item);
   FacetsObjectID_RawValue (item_SourceObjectID item); optionalString (item_SourceRevision item);
   optionalString (item_SourceFingerprint item); item_DestinationKind item;
   optionalString (item_Disposition item); optionalTimestamp (item_PreparedAt item);
   fmt_Sprint (zlen (executions item))] ++
  (executions item ≫= execution_components) ++
  [optionalTimestamp (item_TerminalAt item); optionalString (item_ApplicationReceiptID item);
   optionalString (item_ErrorID item)].

(** The loop over the ordered items, with the ID of the one before. *)
Fixpoint terminal_items_check (previous : ItemID) (items : list ItemRecord) : option QueueError :=
  match items with
  | [] => None
  | item :: items =>
    ItemRecord_Validate item >>?
    invalid_when (item_Disposition item = None ∨ item_ID item = previous) "terminalItems" >>?
    terminal_items_check (item_ID item) items
  end.

Definition TerminalItemOutcomesDigest (items : list ItemRecord) : QueueError + Digest :=
  let ordered := merge_sort item_le items in
  invalid_when (zlen items = 0 ∨ zlen items > maximumItems) "terminalItems" >>!
  terminal_items_check "" ordered >>!
  inr (SHA256Digest "facets.compute-queue.terminal-item-outcomes.v1" (ordered ≫= item_components)).
End reports.
