(* ===== verification/ComputeQueueLifecycle.v ===== *)
(** * internal/computequeue: the life of an assignment (assignment_lifecycle.go)

    An assignment advances only under an authorized attempt and with verified
    receipts: who has to sign a receipt, in which lease, which stages a result,
    a failure or a release needs.  The updates of items that need such
    evidence (items.go) are here as well. *)

From S2P Require Import Prelude GoEncoding GoText Sha256 ComputeQueue ComputeQueueCanonical ComputeQueueAuthorization ComputeQueueReceipts ComputeQueueTransitions ComputeQueueAttempts ComputeQueueItems.
#[local] Open Scope Z_scope.

Definition missingTransitionReceipt : QueueError := invalid "missingTransitionReceipt".

(** [if cond { return invalid("missingTransitionReceipt") }] *)
Abbreviation missing_when P := (err_when P missingTransitionReceipt) (only parsing).

(** ** Stages *)

(** The stages of receipts, by assignment. *)
Definition add_stage (receiptIndex : verifiedReceiptIndex)
    (result : gmap AssignmentID (gset ReceiptStage)) (receiptID : ReceiptID)
    : gmap AssignmentID (gset ReceiptStage) :=
  match receiptIndex !! receiptID with
  | Some receipt =>
    match rr_AssignmentID (vr_record receipt) with
    | Some id => <[id := {[rr_Stage (vr_record receipt)]} ∪ default ∅ (result !! id)]> result
    | None => result
    end
  | None => result
  end.

Definition receiptStagesByAssignment (receiptIDs : list ReceiptID)
    (receiptIndex : verifiedReceiptIndex) : gmap AssignmentID (gset ReceiptStage) :=
  foldl (add_stage receiptIndex) ∅ receiptIDs.

Definition stages_at (stages : gmap AssignmentID (gset ReceiptStage)) (id : AssignmentID)
    : gset ReceiptStage :=
  default ∅ (stages !! id).

Definition containsAnyReceiptStage (stages : gset ReceiptStage) (candidates : list ReceiptStage)
    : bool :=
  existsb (fun candidate => bool_decide (candidate ∈ stages)) candidates.

(** The receipts of an assignment by stage; two of one stage are refused. *)
Fixpoint index_stages (result : gmap ReceiptStage VerifiedReceipt)
    (receiptIndex : verifiedReceiptIndex) (assignmentID : AssignmentID)
    (receiptIDs : list ReceiptID) : QueueError + gmap ReceiptStage VerifiedReceipt :=
  match receiptIDs with
  | [] => inr result
  | receiptID :: receiptIDs =>
    match receiptIndex !! receiptID with
    | None => inl missingTransitionReceipt
    | Some receipt =>
      let stage := rr_Stage (vr_record receipt) in
      if decide (rr_AssignmentID (vr_record receipt) ≠ Some assignmentID)
      then index_stages result receiptIndex assignmentID receiptIDs
      else
        err_when (is_Some (result !! stage)) (duplicateValue "receipts.assignmentStage") >>!
        index_stages (<[stage := receipt]> result) receiptIndex assignmentID receiptIDs
    end
  end.

Definition indexAssignmentStageReceipts (receiptIDs : list ReceiptID)
    (receiptIndex : verifiedReceiptIndex) (assignmentID : AssignmentID)
    : QueueError + gmap ReceiptStage VerifiedReceipt :=
  index_stages ∅ receiptIndex assignmentID receiptIDs.

(** ** Signers and leases *)

Definition AssignmentRecord_expectedSigner (value : AssignmentRecord) (record : ReceiptRecord)
    : option ReceiptSignerBinding :=
  if local_stage (rr_Stage record) then leb_ReceiptSigner <$> eb_SourceLocal (as_Executor value)
  else
    let authority := receiptAuthority (rr_Stage record) in
    if decide (authority = AuthoritySourceDevice) then Some (as_SourceReceiptSigner value)
    else if decide (authority = AuthorityJobCustody) then as_CustodyReceiptSigner value
    else if decide (authority = AuthorityWorker) then
      wb_ReceiptSigner <$> eb_Worker (as_Executor value)
    else None.

(** The stages that have to be recorded before the lease runs out. *)
Definition lease_bound_stage (stage : ReceiptStage) : bool :=
  oneOf stage ["waitingForWorker"; "workerClaimed"; "executionStarted"; "executionCompleted";
    "leaseRenewed"].

Definition AssignmentRecord_matchesLeaseContext (value : AssignmentRecord) (record : ReceiptRecord)
    (acceptedLeases : gmap uint64 LeaseBinding) (expectedFence : option uint64)
    (requireCurrentRevision : bool) : bool :=
  if decide (eb_Kind (as_Executor value) = ExecutorSourceLocal) then
    bool_decide (rr_LeaseID record = None ∧ rr_LeaseRevision record = None ∧
      rr_LeaseExpiresAt record = None ∧ rr_CancellationFence record = 0)
  else
    match as_CurrentLease value, rr_LeaseID record, rr_LeaseRevision record,
          rr_LeaseExpiresAt record with
    | Some current, Some leaseID, Some revision, Some expiresAt =>
      bool_decide (leaseID = lb_ID current ∧ rr_CancellationFence record ≠ 0) &&
      match acceptedLeases !! revision with
      | None => false
      | Some accepted =>
        bool_decide (expiresAt = lb_ExpiresAt accepted ∧
          ¬ rr_RecordedAt record < lb_IssuedAt accepted) &&
        (if decide (rr_Stage record = "leaseExpired"%string)
         then bool_decide (¬ rr_RecordedAt record < lb_ExpiresAt accepted)
         else bool_decide (¬ (lease_bound_stage (rr_Stage record) ∧
                              rr_RecordedAt record > lb_ExpiresAt accepted))) &&
        match expectedFence with
        | Some fence => bool_decide (rr_CancellationFence record = fence)
        | None => bool_decide (¬ rr_CancellationFence record > as_CancellationFence value)
        end &&
        (if requireCurrentRevision
         then bool_decide (revision = lb_Revision current ∧ expiresAt = lb_ExpiresAt current)
         else true)
      end
    | _, _, _, _ => false
    end.

Definition AssignmentRecord_terminalReceiptMatchesCurrentLease (value : AssignmentRecord)
    (receipt : VerifiedReceipt) : bool :=
  if decide (eb_Kind (as_Executor value) = ExecutorSourceLocal) then
    AssignmentRecord_matchesLeaseContext value (vr_record receipt) ∅ (Some 0) true
  else
    match as_CurrentLease value with
    | None => false
    | Some current =>
      AssignmentRecord_matchesLeaseContext value (vr_record receipt) {[lb_Revision current := current]}
        (Some (as_CancellationFence value)) true
    end.

Definition renewal_revision (receipt : VerifiedReceipt) : uint64 :=
  default 0 (rr_LeaseRevision (vr_record receipt)).

Definition renewal_le (left right : VerifiedReceipt) : Prop :=
  renewal_revision left ≤ renewal_revision right.

#[global] Instance renewal_le_dec left right : Decision (renewal_le left right).
Proof. unfold renewal_le. apply _. Defined.

Definition assignment_receipt_ids (value : AssignmentRecord) : list ReceiptID :=
  elements (as_ReceiptIDs value).

(** The receipt is signed by whom the stage calls for, about this assignment. *)
Definition signed_receipt (value : AssignmentRecord) (receipt : VerifiedReceipt) : Prop :=
  some_and (AssignmentRecord_expectedSigner value (vr_record receipt)) (fun signer =>
    VerifiedReceipt_matches receipt signer
      (AssignmentRecord_receiptSubjectDigest value (vr_record receipt))).

#[global] Instance signed_receipt_dec value receipt : Decision (signed_receipt value receipt).
Proof. unfold signed_receipt. apply _. Defined.

(** The receipt names this occurrence, attempt and assignment. *)
Definition receipt_of_assignment (value : AssignmentRecord) (record : ReceiptRecord) : Prop :=
  rr_OccurrenceID record = as_OccurrenceID value ∧ rr_AttemptID record = as_AttemptID value ∧
  rr_AssignmentID record = Some (as_ID value).

#[global] Instance receipt_of_assignment_dec value record :
  Decision (receipt_of_assignment value record).
Proof. unfold receipt_of_assignment. apply _. Defined.

Section leases.
Context `{UuidParser}.

(** The loop over the renewals, with the leases accepted so far and the last
    of them. *)
Fixpoint lease_history (value : AssignmentRecord) (history : gmap uint64 LeaseBinding)
    (previous : LeaseBinding) (renewals : list VerifiedReceipt)
    : QueueError + gmap uint64 LeaseBinding * LeaseBinding :=
  match renewals with
  | [] => inr (history, previous)
  | receipt :: renewals =>
    let record := vr_record receipt in
    match rr_LeaseRevision record, rr_LeaseExpiresAt record with
    | Some revision, Some expiresAt =>
      invalid_when (¬ receipt_of_assignment value record ∨
        rr_Stage record ≠ "leaseRenewed"%string ∨ rr_LeaseID record ≠ Some (lb_ID previous) ∨
        rr_RecordedAt record > lb_ExpiresAt previous ∨
        rr_CancellationFence record ≠ as_InitialCancellationFence value ∨
        ¬ signed_receipt value receipt) "assignment.leaseHistory" >>!
      let renewal := mkLeaseBinding (lb_ID previous) revision (rr_RecordedAt record) expiresAt
        (lb_MaximumExpiresAt previous) in
      LeaseBinding_ValidateRenewal renewal previous >>!
      err_when (is_Some (history !! revision)) (duplicateValue "assignment.leaseRevision") >>!
      lease_history value (<[revision := renewal]> history) renewal renewals
    | _, _ => inl (invalid "assignment.leaseHistory")
    end
  end.

(** The renewals among the receipts of an assignment. *)
Definition renewals_of (value : AssignmentRecord) (receiptIndex : verifiedReceiptIndex)
    : list VerifiedReceipt :=
  filter (fun receipt => rr_Stage (vr_record receipt) = "leaseRenewed"%string)
    (omap (fun id => receiptIndex !! id) (assignment_receipt_ids value)).

Definition AssignmentRecord_validatedLeaseHistory (value : AssignmentRecord)
    (receiptIndex : verifiedReceiptIndex) : QueueError + gmap uint64 LeaseBinding :=
  if decide (eb_Kind (as_Executor value) = ExecutorSourceLocal) then
    invalid_when (as_InitialLease value ≠ None ∨ as_CurrentLease value ≠ None)
      "assignment.leaseHistory" >>!
    inr ∅
  else
    match as_InitialLease value, as_CurrentLease value with
    | Some initial, Some current =>
      let? leases := lease_history value {[lb_Revision initial := initial]} initial
        (merge_sort renewal_le (renewals_of value receiptIndex)) in
      invalid_when (leases.2 ≠ current) "assignment.leaseHistory" >>!
      inr leases.1
    | _, _ => inl (invalid "assignment.leaseHistory")
    end.

Definition AssignmentRecord_validateReceiptTrustWithLeases (value : AssignmentRecord)
    (receipt : VerifiedReceipt) (acceptedLeases : gmap uint64 LeaseBinding) : option QueueError :=
  let record := vr_record receipt in
  invalid_when (¬ receipt_of_assignment value record) "receipt.assignmentID" >>?
  match AssignmentRecord_expectedSigner value record with
  | None => Some (invalid "receipt.signer")
  | Some signer =>
    invalid_when (¬ VerifiedReceipt_matches receipt signer
      (AssignmentRecord_receiptSubjectDigest value record)) "receipt.trust"
  end >>?
  invalid_when (¬ AssignmentRecord_matchesLeaseContext value record acceptedLeases None false)
    "receipt.lease".

Definition AssignmentRecord_validateReceiptTrust (value : AssignmentRecord)
    (receipt : VerifiedReceipt) : option QueueError :=
  let! index := newVerifiedReceiptIndex [receipt] in
  let! acceptedLeases := AssignmentRecord_validatedLeaseHistory value index in
  AssignmentRecord_validateReceiptTrustWithLeases value receipt acceptedLeases.
End leases.

(** ** Authorization *)

Definition assignmentFenceAuthorized (value : AssignmentRecord) (authorizedFence : uint64) : bool :=
  let fence := as_CancellationFence value in
  let incremented := authorizedFence ≠ MaxUint64 ∧ fence = u64 (authorizedFence + 1) in
  if decide (eb_Kind (as_Executor value) = ExecutorSourceLocal) then bool_decide (fence = 0)
  else if oneOf (as_State value) ["custodyCancellationRequested"; "custodyCancellationConfirmed";
            "workerCancellationRequested"; "workerCancellationConfirmed";
            "uncertainTermination"]%string
  then bool_decide incremented
  else if decide (as_State value = "released"%string)
  then bool_decide (fence = authorizedFence ∨ incremented)
  else bool_decide (fence = authorizedFence).

Section authorized.
Context `{UuidParser}.

Definition AssignmentRecord_ValidateAuthorizedBy (value : AssignmentRecord)
    (attempt : AuthorizedAttempt) (receipts : list VerifiedReceipt) : option QueueError :=
  let record := auth_record attempt in
  AssignmentRecord_Validate value >>?
  AttemptRecord_Validate record >>?
  match authorization_of (at_AssignmentPlan record) (as_ID value) with
  | None => Some (invalid "assignment.authorization")
  | Some authorization =>
    invalid_when (as_AttemptID value ≠ at_ID record ∨
      as_OccurrenceID value ≠ at_OccurrenceID record ∨
      ¬ equalExecutorBinding (as_Executor value) (aa_Executor authorization) ∨
      as_ItemIDs value ≠ aa_ItemIDs authorization ∨
      as_ItemSetDigest value ≠ aa_ItemSetDigest authorization ∨
      as_ExecutionPayloadDigest value ≠ aa_ExecutionPayloadDigest authorization ∨
      as_InitialLease value ≠ aa_InitialLease authorization ∨
      as_InitialCancellationFence value ≠ aa_CancellationFence authorization ∨
      as_SourceReceiptSigner value ≠ at_SourceReceiptSigner record ∨
      as_CustodyReceiptSigner value ≠ at_CustodyReceiptSigner record ∨
      as_DeadlineAt value ≠ at_DeadlineAt record) "assignment.authorization" >>?
    invalid_when (¬ assignmentFenceAuthorized value (aa_CancellationFence authorization))
      "assignment.cancellationFence" >>?
    invalid_when (assignmentHasSealedItemSet (as_State value) ∧
      (as_CapsuleID value ≠ aa_CapsuleID authorization ∨
       as_CapsuleDigest value ≠ aa_CapsuleDigest authorization))
      "assignment.capsuleAuthorization" >>?
    let! receiptIndex := newVerifiedReceiptIndex receipts in
    let! acceptedLeases := AssignmentRecord_validatedLeaseHistory value receiptIndex in
    each (fun receiptID =>
      match receiptIndex !! receiptID with
      | None => Some missingTransitionReceipt
      | Some receipt =>
        AssignmentRecord_validateReceiptTrustWithLeases value receipt acceptedLeases
      end) (assignment_receipt_ids value)
  end.

(** The fields that no update, renewal or event of an assignment changes. *)
Definition same_assignment (value previous : AssignmentRecord) : Prop :=
  as_ID value = as_ID previous ∧ as_AttemptID value = as_AttemptID previous ∧
  equalExecutorBinding (as_Executor value) (as_Executor previous) ∧
  as_OccurrenceID value = as_OccurrenceID previous ∧
  as_ExecutionPayloadDigest value = as_ExecutionPayloadDigest previous ∧
  as_InitialLease value = as_InitialLease previous ∧
  as_SourceReceiptSigner value = as_SourceReceiptSigner previous ∧
  as_CustodyReceiptSigner value = as_CustodyReceiptSigner previous ∧
  as_ItemSetDigest value = as_ItemSetDigest previous.

#[global] Instance same_assignment_dec value previous : Decision (same_assignment value previous).
Proof. unfold same_assignment. apply _. Defined.

Definition same_capsule (value previous : AssignmentRecord) : Prop :=
  as_CapsuleID value = as_CapsuleID previous ∧ as_CapsuleDigest value = as_CapsuleDigest previous.

#[global] Instance same_capsule_dec value previous : Decision (same_capsule value previous).
Proof. unfold same_capsule. apply _. Defined.

Definition AssignmentRecord_ValidateUpdateFrom (value previous : AssignmentRecord)
    (authorizedBy : AuthorizedAttempt) (receipts : list VerifiedReceipt) : option QueueError :=
  AssignmentRecord_Validate value >>?
  invalid_when (as_State value ≠ as_State previous) "assignment.state" >>?
  invalid_when (¬ same_assignment value previous ∨
    not_next_revision (as_Revision previous) (as_Revision value) ∨
    as_CurrentLease value ≠ as_CurrentLease previous ∨
    as_InitialCancellationFence value ≠ as_InitialCancellationFence previous ∨
    as_CancellationFence value ≠ as_CancellationFence previous) "assignment.update" >>?
  invalid_when (assignmentHasSealedItemSet (as_State previous) ∧ ¬ same_capsule value previous)
    "assignment.capsuleMutation" >>?
  invalid_when (as_CreatedAt value ≠ as_CreatedAt previous ∨
    as_DeadlineAt value ≠ as_DeadlineAt previous ∨
    ¬ receiptSubset (assignment_receipt_ids previous) (assignment_receipt_ids value))
    "assignment.lifecycle" >>?
  AssignmentRecord_ValidateAuthorizedBy previous authorizedBy receipts >>?
  AssignmentRecord_ValidateAuthorizedBy value authorizedBy receipts.

(** The receipt of a renewal fits the new lease. *)
Definition renewal_receipt_fits (value : AssignmentRecord) (receipt : VerifiedReceipt)
    (current prior : LeaseBinding) : Prop :=
  let record := vr_record receipt in
  receipt_of_assignment value record ∧ rr_Stage record = "leaseRenewed"%string ∧
  rr_LeaseID record = Some (lb_ID current) ∧ rr_LeaseRevision record = Some (lb_Revision current) ∧
  rr_LeaseExpiresAt record = Some (lb_ExpiresAt current) ∧
  rr_CancellationFence record = as_CancellationFence value ∧
  rr_RecordedAt record = lb_IssuedAt current ∧ ¬ rr_RecordedAt record > lb_ExpiresAt prior ∧
  some_and (eb_Worker (as_Executor value)) (fun worker =>
    VerifiedReceipt_matches receipt (wb_ReceiptSigner worker)
      (AssignmentRecord_receiptSubjectDigest value record)).

#[global] Instance renewal_receipt_fits_dec value receipt current prior :
  Decision (renewal_receipt_fits value receipt current prior).
Proof. unfold renewal_receipt_fits. apply _. Defined.

Definition AssignmentRecord_ValidateLeaseRenewalFrom (value previous : AssignmentRecord)
    (authorizedBy : AuthorizedAttempt) (receipt : VerifiedReceipt)
    (receipts : list VerifiedReceipt) : option QueueError :=
  let id := rr_ID (vr_record receipt) in
  AssignmentRecord_Validate value >>?
  let! receiptIndex := newVerifiedReceiptIndex receipts in
  missing_when (none_or (receiptIndex !! id) (fun indexed =>
    ¬ sameVerifiedReceipt indexed receipt)) >>?
  AssignmentRecord_ValidateAuthorizedBy previous authorizedBy receipts >>?
  AssignmentRecord_ValidateAuthorizedBy value authorizedBy receipts >>?
  match as_CurrentLease value, as_CurrentLease previous with
  | Some current, Some prior =>
    invalid_when (eb_Kind (as_Executor value) ≠ ExecutorWorker ∨
      ¬ oneOf (as_State previous) ["claimed"; "executing"]%string ∨
      as_State value ≠ as_State previous ∨ ¬ same_assignment value previous ∨
      ¬ same_capsule value previous ∨
      as_InitialCancellationFence value ≠ as_InitialCancellationFence previous ∨
      as_CreatedAt value ≠ as_CreatedAt previous ∨ as_DeadlineAt value ≠ as_DeadlineAt previous ∨
      as_CancellationFence value ≠ as_CancellationFence previous ∨
      not_next_revision (as_Revision previous) (as_Revision value)) "assignmentLeaseRenewal" >>?
    LeaseBinding_ValidateRenewal current prior >>?
    invalid_when (¬ renewal_receipt_fits value receipt current prior)
      "assignmentLeaseRenewal.receipt" >>?
    invalid_when (¬ containsReceiptID (assignment_receipt_ids value) id ∨
      ¬ receiptSubset (assignment_receipt_ids previous) (assignment_receipt_ids value))
      "assignmentLeaseRenewal.receiptIDs"
  | _, _ => Some (invalid "assignmentLeaseRenewal")
  end.
End authorized.

(** ** Evidence of results, failures and releases *)

(** The participation that a history of stages shows, and what a release of it
    needs. *)
Definition release_check (history releases : gset ReceiptStage) : option QueueError :=
  let workerParticipated := containsAnyReceiptStage history
    ["workerClaimed"; "executionStarted"; "executionCompleted"; "workerCancellationConfirmed";
     "workerReleased"]%string in
  let custodyParticipated := workerParticipated || containsAnyReceiptStage history
    ["custodyAccepted"; "waitingForWorker"; "resultCustodied"; "custodyCancellationConfirmed";
     "custodyReleased"]%string in
  missing_when (custodyParticipated ∧
    ¬ containsAnyReceiptStage releases ["custodyReleased"]%string) >>?
  missing_when (workerParticipated ∧
    ¬ containsAnyReceiptStage releases ["workerReleased"; "leaseExpired"]%string).

Definition requireExternalReleaseEvidence (occurrenceID : OccurrenceID) (attemptID : AttemptID)
    (assignmentIDs : list AssignmentID) (durableReceiptIDs supportingReceiptIDs : list ReceiptID)
    (receiptIndex : verifiedReceiptIndex) : option QueueError :=
  let historyStages := receiptStagesByAssignment durableReceiptIDs receiptIndex in
  let releaseStages := receiptStagesByAssignment supportingReceiptIDs receiptIndex in
  each (fun receiptID =>
    missing_when (none_or (receiptIndex !! receiptID) (fun receipt =>
      rr_OccurrenceID (vr_record receipt) ≠ occurrenceID ∨
      rr_AttemptID (vr_record receipt) ≠ attemptID)))
    (uniqueReceiptIDs [durableReceiptIDs; supportingReceiptIDs]) >>?
  each (fun id => release_check (stages_at historyStages id) (stages_at releaseStages id))
    assignmentIDs.

Section evidence.
Context `{UuidParser}.

Definition AssignmentRecord_validateSuccessfulResultEvidence (value : AssignmentRecord)
    (receiptIDs : list ReceiptID) (receiptIndex : verifiedReceiptIndex)
    (resultManifest : option AssignmentResultManifest) (requireDurableReceiptIDs : bool)
    : option QueueError :=
  match resultManifest with
  | None => Some missingTransitionReceipt
  | Some manifest =>
    missing_when (eb_Kind (as_Executor value) ≠ ExecutorWorker) >>?
    let! byStage := indexAssignmentStageReceipts receiptIDs receiptIndex (as_ID value) in
    match byStage !! "executionCompleted"%string, byStage !! "resultCustodied"%string with
    | Some workerReceipt, Some custodyReceipt =>
      let workerRecord := vr_record workerReceipt in
      let custodyRecord := vr_record custodyReceipt in
      missing_when (¬ AssignmentRecord_terminalReceiptMatchesCurrentLease value workerReceipt ∨
        ¬ AssignmentRecord_terminalReceiptMatchesCurrentLease value custodyReceipt) >>?
      AssignmentResultManifest_ValidateAuthorizedBy manifest value
        (rr_OccurrenceID workerRecord) >>?
      invalid_when (rr_OccurrenceID workerRecord ≠ rr_OccurrenceID custodyRecord ∨
        rr_ExecutionOutcome workerRecord ≠ Some "succeeded"%string ∨
        rr_ExecutionOutcome custodyRecord ≠ Some "succeeded"%string ∨
        rr_ResultDigest workerRecord ≠ Some (rm_ResultSetDigest manifest) ∨
        rr_ResultDigest custodyRecord ≠ Some (rm_ResultSetDigest manifest) ∨
        rr_ResultCapsuleDigest workerRecord = None ∨
        rr_ResultCapsuleDigest workerRecord ≠ rr_ResultCapsuleDigest custodyRecord)
        "assignment.resultEvidence" >>?
      missing_when (requireDurableReceiptIDs ∧
        (¬ containsReceiptID (assignment_receipt_ids value) (rr_ID workerRecord) ∨
         ¬ containsReceiptID (assignment_receipt_ids value) (rr_ID custodyRecord)))
    | _, _ => Some missingTransitionReceipt
    end
  end.

Definition AssignmentRecord_validateDeliveredResultEvidence (value : AssignmentRecord)
    (supportingReceiptIDs : list ReceiptID) (receiptIndex : verifiedReceiptIndex)
    (resultManifest : option AssignmentResultManifest) : option QueueError :=
  match resultManifest with
  | None => Some missingTransitionReceipt
  | Some manifest =>
    let allEvidenceIDs := uniqueReceiptIDs [assignment_receipt_ids value; supportingReceiptIDs] in
    AssignmentRecord_validateSuccessfulResultEvidence value allEvidenceIDs receiptIndex
      resultManifest false >>?
    let! byStage := indexAssignmentStageReceipts allEvidenceIDs receiptIndex (as_ID value) in
    match byStage !! "resultDelivered"%string, byStage !! "resultCustodied"%string with
    | Some delivery, Some custody =>
      invalid_when (¬ containsReceiptID supportingReceiptIDs (rr_ID (vr_record delivery)) ∨
        ¬ AssignmentRecord_terminalReceiptMatchesCurrentLease value delivery ∨
        ¬ AssignmentRecord_terminalReceiptMatchesCurrentLease value custody ∨
        rr_ExecutionOutcome (vr_record delivery) ≠ Some "succeeded"%string ∨
        rr_ResultDigest (vr_record delivery) ≠ Some (rm_ResultSetDigest manifest) ∨
        rr_ResultDigest (vr_record delivery) ≠ rr_ResultDigest (vr_record custody) ∨
        rr_ResultCapsuleDigest (vr_record delivery) = None ∨
        rr_ResultCapsuleDigest (vr_record delivery) ≠ rr_ResultCapsuleDigest (vr_record custody))
        "assignment.deliveryResultEvidence"
    | _, _ => Some (invalid "assignment.deliveryResultEvidence")
    end
  end.

Definition AssignmentRecord_validateFailedExecutionEvidence (value : AssignmentRecord)
    (receiptIDs : list ReceiptID) (receiptIndex : verifiedReceiptIndex)
    (requireDurableReceiptIDs : bool) : option QueueError :=
  let stage := if decide (eb_Kind (as_Executor value) = ExecutorSourceLocal)
    then "localExecutionCompleted"%string else "executionCompleted"%string in
  let! byStage := indexAssignmentStageReceipts receiptIDs receiptIndex (as_ID value) in
  match byStage !! stage with
  | None => Some missingTransitionReceipt
  | Some receipt =>
    let record := vr_record receipt in
    missing_when (¬ AssignmentRecord_terminalReceiptMatchesCurrentLease value receipt ∨
      rr_ExecutionOutcome record ≠ Some "failed"%string ∨ rr_ResultDigest record ≠ None ∨
      rr_ResultCapsuleDigest record ≠ None ∨ rr_ErrorID record = None ∨
      rr_ErrorDigest record = None) >>?
    missing_when (requireDurableReceiptIDs ∧
      ¬ containsReceiptID (assignment_receipt_ids value) (rr_ID record))
  end.

(** ** Transitions *)

Definition is_cancellation_request (state : AssignmentState) : bool :=
  oneOf state ["custodyCancellationRequested"; "workerCancellationRequested"].

(** The fence goes up by one with a cancellation request, and only then. *)
Definition transition_fence_check (value previous : AssignmentRecord) (to : AssignmentState)
    : option QueueError :=
  if is_cancellation_request to then
    invalid_when (not_next_revision (as_CancellationFence previous) (as_CancellationFence value))
      "assignment.cancellationFence"
  else invalid_when (as_CancellationFence value ≠ as_CancellationFence previous)
    "assignment.cancellationFence".

(** The lease and the fence that the event itself names. *)
Definition assignment_transition_lease (value previous : AssignmentRecord)
    (transition : AssignmentTransition) : option QueueError :=
  let fence := as_CancellationFence previous in
  let requested := is_cancellation_request (st_To transition) in
  let kind := eb_Kind (as_Executor value) in
  let expectedFence := if requested then u64 (fence + 1) else fence in
  if decide (kind = ExecutorSourceLocal) then
    invalid_when (st_LeaseID transition ≠ None ∨ st_LeaseRevision transition ≠ None ∨
      st_CancellationFence transition ≠ 0) "assignment.transitionLease"
  else if decide (kind = ExecutorWorker) then
    invalid_when (requested ∧ fence = MaxUint64) "assignment.transitionLease" >>?
    invalid_when (none_or (as_CurrentLease previous) (fun current =>
      st_LeaseID transition ≠ Some (lb_ID current) ∨
      st_LeaseRevision transition ≠ Some (lb_Revision current) ∨
      st_CancellationFence transition ≠ expectedFence)) "assignment.transitionLease"
  else None.

(** The stage of the receipt that authorizes a retry after this state. *)
Definition retryAuthorizingStage (to : AssignmentState) : option ReceiptStage :=
  case_of [("retryableRejected", Some "admissionRejected");
    ("executionFailed", Some "executionCompleted");
    ("localExecutionFailed", Some "localExecutionCompleted")]%string None to.

(** A failure names its error, and a supporting receipt of that stage with it. *)
Definition retry_evidence_check (transition : AssignmentTransition)
    (receiptIndex : verifiedReceiptIndex) : option QueueError :=
  when_present (fun stage =>
    match st_Reason transition with
    | Some reason =>
      missing_when (tr_Code reason ≠ "error"%string ∨ tr_ErrorID reason = None) >>?
      missing_when (¬ Exists (fun receiptID => some_and (receiptIndex !! receiptID) (fun receipt =>
          rr_Stage (vr_record receipt) = stage ∧
          rr_ErrorID (vr_record receipt) = tr_ErrorID reason ∧
          rr_ErrorDigest (vr_record receipt) ≠ None))
        (elements (st_SupportingReceiptIDs transition)))
    | None => Some missingTransitionReceipt
    end) (retryAuthorizingStage (st_To transition)).

(** A supporting receipt: in the current lease, with the fence of the event,
    signed. *)
Definition supporting_receipt_check (value : AssignmentRecord) (transition : AssignmentTransition)
    (receiptIndex : verifiedReceiptIndex) (acceptedLeases : gmap uint64 LeaseBinding)
    (receiptID : ReceiptID) : option QueueError :=
  match receiptIndex !! receiptID with
  | None => Some missingTransitionReceipt
  | Some receipt =>
    missing_when (¬ AssignmentRecord_matchesLeaseContext value (vr_record receipt) acceptedLeases
      (Some (st_CancellationFence transition)) true) >>?
    missing_when (¬ signed_receipt value receipt)
  end.

(** The final switch: what the new state has to show. *)
Definition new_state_evidence (value previous : AssignmentRecord)
    (transition : AssignmentTransition) (receiptIndex : verifiedReceiptIndex)
    (resultManifest : option AssignmentResultManifest) : option QueueError :=
  let ids := elements (st_SupportingReceiptIDs transition) in
  let to := st_To transition in
  if decide (to = "resultCustodied"%string) then
    AssignmentRecord_validateSuccessfulResultEvidence value ids receiptIndex resultManifest false
  else if decide (to = "delivered"%string) then
    AssignmentRecord_validateDeliveredResultEvidence value ids receiptIndex resultManifest
  else if decide (to = "executionFailed"%string) then
    AssignmentRecord_validateFailedExecutionEvidence value ids receiptIndex false
  else if decide (to = "released"%string) then
    requireExternalReleaseEvidence (as_OccurrenceID value) (as_AttemptID value) [as_ID value]
      (assignment_receipt_ids previous) ids receiptIndex
  else None.

Definition AssignmentRecord_ValidateTransitionFrom (value previous : AssignmentRecord)
    (transition : AssignmentTransition) (authorizedBy : AuthorizedAttempt)
    (receipts : list VerifiedReceipt) (resultManifest : option AssignmentResultManifest)
    (appliedEventIDs : gset TransitionID) : option QueueError :=
  let ids := elements (st_SupportingReceiptIDs transition) in
  AssignmentRecord_Validate value >>?
  invalid_when (¬ same_assignment value previous ∨
    as_CurrentLease value ≠ as_CurrentLease previous ∨
    as_Revision value ≠ st_ResultingRevision transition ∨ as_State value ≠ st_To transition ∨
    as_CreatedAt value ≠ as_CreatedAt previous ∨ as_DeadlineAt value ≠ as_DeadlineAt previous)
    "assignment.update" >>?
  invalid_when (as_State previous ≠ "prepared"%string ∧ ¬ same_capsule value previous)
    "assignment.capsuleMutation" >>?
  invalid_when (¬ receiptSubset (assignment_receipt_ids previous) (assignment_receipt_ids value) ∨
    ¬ receiptSubset ids (assignment_receipt_ids value)) "assignment.receiptIDs" >>?
  AssignmentRecord_ValidateAuthorizedBy previous authorizedBy receipts >>?
  AssignmentRecord_ValidateAuthorizedBy value authorizedBy receipts >>?
  transition_fence_check value previous (st_To transition) >>?
  let! receiptIndex := newVerifiedReceiptIndex receipts in
  assignment_transition_lease value previous transition >>?
  StateTransition_validateAgainst AssignmentLife transition (as_State previous)
    (as_Revision previous) (as_ID previous)
    (if decide (as_State previous ≠ "prepared"%string) then Some (as_ItemSetDigest previous)
     else None) appliedEventIDs receiptIndex >>?
  invalid_when (transitionRequiresSealedDigest AssignmentLife (st_To transition) ∧
    st_SealedAssignmentSetDigest transition ≠ Some (as_ItemSetDigest value))
    "assignment.itemSetDigest" >>?
  let! acceptedLeases := AssignmentRecord_validatedLeaseHistory value receiptIndex in
  each (supporting_receipt_check value transition receiptIndex acceptedLeases) ids >>?
  retry_evidence_check transition receiptIndex >>?
  new_state_evidence value previous transition receiptIndex resultManifest.
End evidence.

(** ** Cancellation evidence (occurrence_transition.go) *)

(** The stages that show that someone holds or executes protected bytes. *)
Definition participation_stages (destinationKind : DestinationKind) : list ReceiptStage :=
  if decide (destinationKind = DestinationDirectLocal)
  then ["localExecutionStarted"; "localExecutionCompleted"]%string
  else ["custodyAccepted"; "waitingForWorker"; "workerClaimed"; "executionStarted";
        "executionCompleted"; "resultCustodied"]%string.

(** One participating assignment: every participant has confirmed. *)
Definition cancellation_confirmed (destinationKind : DestinationKind) (required : bool)
    (history confirmations : gset ReceiptStage) : option QueueError :=
  if decide (destinationKind = DestinationDirectLocal) then
    missing_when (¬ containsAnyReceiptStage confirmations ["localCancellationConfirmed"]%string)
  else
    let workerParticipated := containsAnyReceiptStage history
      ["workerClaimed"; "executionStarted"; "executionCompleted"]%string in
    let custodyParticipated := workerParticipated || required || containsAnyReceiptStage history
      ["custodyAccepted"; "waitingForWorker"; "resultCustodied"]%string in
    missing_when (custodyParticipated ∧
      ¬ containsAnyReceiptStage confirmations ["custodyCancellationConfirmed"]%string) >>?
    missing_when (workerParticipated ∧
      ¬ containsAnyReceiptStage confirmations ["workerCancellationConfirmed"]%string).

Definition requireOccurrenceCancellationEvidence (destinationKind : DestinationKind)
    (occurrenceID : OccurrenceID) (requiredAssignmentIDs : list AssignmentID)
    (durableReceiptIDs supportingReceiptIDs : list ReceiptID)
    (receiptIndex : verifiedReceiptIndex) : option QueueError :=
  let required : gset AssignmentID := list_to_set requiredAssignmentIDs in
  let historyStages := receiptStagesByAssignment durableReceiptIDs receiptIndex in
  let confirmationStages := receiptStagesByAssignment supportingReceiptIDs receiptIndex in
  let participating := required ∪ dom (filter (fun entry =>
    containsAnyReceiptStage entry.2 (participation_stages destinationKind)) historyStages) in
  invalid_when (zlen requiredAssignmentIDs > maximumItems) "requiredAssignmentIDs" >>?
  invalid_when (Z.of_nat (size required) > maximumAssignments) "requiredAssignmentIDs" >>?
  each (fun receiptID =>
    missing_when (none_or (receiptIndex !! receiptID) (fun receipt =>
      rr_OccurrenceID (vr_record receipt) ≠ occurrenceID)))
    (uniqueReceiptIDs [durableReceiptIDs; supportingReceiptIDs]) >>?
  each (fun id => cancellation_confirmed destinationKind (bool_decide (id ∈ required))
    (stages_at historyStages id) (stages_at confirmationStages id)) (base.elements participating).

(** ** Items with evidence (items.go) *)

Definition confirmation_stage (stage : ReceiptStage) : bool :=
  oneOf stage ["custodyCancellationConfirmed"; "workerCancellationConfirmed";
    "localCancellationConfirmed"].

(** The cancellation confirmations among the receipts of an assignment, all of
    which have to be signed. *)
Fixpoint confirmation_receipts (assignment : AssignmentRecord)
    (receiptIndex : verifiedReceiptIndex) (receiptIDs : list ReceiptID)
    : QueueError + list ReceiptID :=
  match receiptIDs with
  | [] => inr []
  | receiptID :: receiptIDs =>
    match receiptIndex !! receiptID with
    | None => inl missingTransitionReceipt
    | Some receipt =>
      let record := vr_record receipt in
      missing_when (¬ signed_receipt assignment receipt ∨
        rr_AttemptID record ≠ as_AttemptID assignment ∨
        rr_AssignmentID record ≠ Some (as_ID assignment)) >>!
      let? rest := confirmation_receipts assignment receiptIndex receiptIDs in
      inr (if confirmation_stage (rr_Stage record) then receiptID :: rest else rest)
    end
  end.

Section items.
Context `{UuidParser}.

Definition ItemRecord_ValidateReconciledUpdateFrom (value previous : ItemRecord)
    (assignment : AssignmentRecord) (receipts : list VerifiedReceipt) : option QueueError :=
  let direct := item_DestinationKind value = DestinationDirectLocal in
  let! receiptIndex := newVerifiedReceiptIndex receipts in
  match ItemRecord_CurrentExecution previous, ItemRecord_CurrentExecution value with
  | Some prior, Some current =>
    invalid_when (¬ ie_CancellationUnconfirmed prior ∨ ie_CancellationUnconfirmed current ∨
      item_Disposition value ≠ Some (reconciled_outcome (item_DestinationKind value)) ∨
      as_ID assignment ≠ ie_AssignmentID current ∨
      as_AttemptID assignment ≠ ie_AttemptID current ∨ item_ID value ∉ as_ItemIDs assignment)
      "cancellationReconciliation" >>?
    let! supporting := confirmation_receipts assignment receiptIndex
      (assignment_receipt_ids assignment) in
    let stages := stages_at (receiptStagesByAssignment supporting receiptIndex)
      (as_ID assignment) in
    (if decide direct then
       missing_when (¬ containsAnyReceiptStage stages ["localCancellationConfirmed"]%string)
     else
       missing_when (¬ containsAnyReceiptStage stages ["custodyCancellationConfirmed"]%string ∨
         (ie_WorkerID current ≠ None ∧
          ¬ containsAnyReceiptStage stages ["workerCancellationConfirmed"]%string))) >>?
    requireOccurrenceCancellationEvidence (item_DestinationKind value) (item_OccurrenceID value)
      [as_ID assignment] (assignment_receipt_ids assignment) supporting receiptIndex >>?
    ItemRecord_validateUpdateFrom value previous true
  | _, _ => Some (invalid "cancellationReconciliation")
  end.

(** The appended execution is the first step of the retry that the attempt was
    authorized for. *)
Definition retry_execution_fits (value : ItemRecord) (attempt : AttemptRecord)
    (prior current : ItemExecutionRecord) : Prop :=
  ItemExecutionRecord_authorizesRetry prior ∧ ¬ ie_CancellationUnconfirmed prior ∧
  ¬ not_next_revision (ie_AttemptNumber prior) (ie_AttemptNumber current) ∧
  ie_AttemptID current = at_ID attempt ∧ ie_AttemptNumber current = at_AttemptNumber attempt ∧
  ie_OccurrenceID current = at_OccurrenceID attempt ∧ ie_ItemID current = item_ID value ∧
  ie_Outcome current = None ∧ ie_ExecutionInputCommittedAt current = None ∧
  ie_DisclosureCommittedAt current = None ∧ ie_CustodyAcceptedAt current = None ∧
  ie_ResultCompletedAt current = None ∧ ¬ ie_CancellationUnconfirmed current ∧
  at_PreviousAttemptID attempt = Some (ie_AttemptID prior) ∧
  at_RetryErrorID attempt ≠ None ∧ at_RetryErrorID attempt = ie_ErrorID prior.

#[global] Instance retry_execution_fits_dec value attempt prior current :
  Decision (retry_execution_fits value attempt prior current).
Proof. unfold retry_execution_fits. apply _. Defined.

Definition ItemRecord_ValidateRetryAppendFrom (value previous : ItemRecord)
    (authorizedBy : AuthorizedAttempt) : option QueueError :=
  let attempt := auth_record authorizedBy in
  ItemRecord_Validate value >>?
  invalid_when (item_ID value ≠ item_ID previous ∨
    item_OccurrenceID value ≠ item_OccurrenceID previous ∨
    item_DestinationKind value ≠ item_DestinationKind previous ∨
    item_SourceObjectID value ≠ item_SourceObjectID previous ∨
    item_SourceRevision value ≠ item_SourceRevision previous ∨
    item_SourceFingerprint value ≠ item_SourceFingerprint previous ∨
    item_PreparedAt value ≠ item_PreparedAt previous ∨
    not_next_revision (item_Revision previous) (item_Revision value) ∨
    item_Disposition previous ≠ None ∨ item_Disposition value ≠ None ∨
    item_TerminalAt value ≠ None ∨ item_ApplicationReceiptID value ≠ None ∨
    item_ErrorID value ≠ None ∨
    length (executions value) ≠ (length (executions previous) + 1)%nat ∨
    ¬ equalItemExecutionPrefix (removelast (executions value)) (executions previous))
    "item.retryAppend" >>?
  match ItemRecord_CurrentExecution previous, ItemRecord_CurrentExecution value with
  | Some prior, Some current =>
    invalid_when (¬ retry_execution_fits value attempt prior current) "item.retryAppend" >>?
    match authorization_of (at_AssignmentPlan attempt) (ie_AssignmentID current) with
    | None => Some (invalid "item.retryAppend")
    | Some authorization =>
      invalid_when (item_ID value ∉ aa_ItemIDs authorization) "item.retryAppend" >>?
      invalid_when (ie_WorkerID current ≠ wb_WorkerID <$> eb_Worker (aa_Executor authorization))
        "item.retryAppend"
    end
  | _, _ => Some (invalid "item.retryAppend")
  end.
End items.
