(* ===== verification/ComputeQueueOccurrence.v ===== *)
(** * internal/computequeue: occurrences (occurrence.go)

    An occurrence is one run of a schedule: the frozen snapshot of what the
    schedule authorized, its state, its report and the receipts that got it
    there.  This file has the record, its checks, and its comparison with the
    schedule and with its items; transitions and the evidence of a final state
    are in [ComputeQueueEvidence]. *)

From S2P Require Import Prelude GoEncoding GoText Sha256 ComputeQueue ComputeQueueCanonical ComputeQueueAuthorization ComputeQueueReceipts ComputeQueueTransitions ComputeQueueAttempts ComputeQueueItems.
#[local] Open Scope Z_scope.

Record OccurrenceRecord := mkOccurrenceRecord {
  oc_ProtocolVersion : Z;
  oc_ID : OccurrenceID;
  oc_ScheduleID : ScheduleID;
  oc_DestinationKind : DestinationKind;
  oc_Revision : uint64;
  oc_EligibilityKey : string;
  oc_EligibilityDigest : Digest;
  oc_ScheduledFor : Timestamp;
  oc_EligibleAt : Timestamp;
  oc_PreparedAt : option Timestamp;
  oc_State : OccurrenceState;
  oc_ScheduleRevision : uint64;
  oc_TargetSetDigest : Digest;
  oc_OperationBinding : OperationBinding;
  oc_PolicySnapshot : OccurrencePolicySnapshot;
  oc_ExecutionIdentityDigest : Digest;
  oc_DestinationPolicyDigest : Digest;
  oc_OccurrenceSnapshotDigest : Digest;
  oc_Report : ReportCounters;
  oc_TerminalItemOutcomesDigest : option Digest;
  oc_TerminalReportDigest : option Digest;
  oc_ReceiptIDs : Slice ReceiptID;
  oc_SourceReceiptSigner : ReceiptSignerBinding;
  oc_CustodyReceiptSigner : option ReceiptSignerBinding;
  oc_LastTransitionID : option TransitionID;
  oc_StateChangedAt : Timestamp;
  oc_LastReason : option TransitionReason;
  oc_LastErrorID : option ErrorID }.

#[global] Instance OccurrenceRecord_eq_dec : EqDecision OccurrenceRecord.
Proof. solve_decision. Defined.

Definition MakeEligibilityKey (scheduledFor : Timestamp) : string :=
  "slot:" +:+ fmt_Sprint scheduledFor.

Definition OccurrenceRecord_ScheduleAuthorizationDigest (value : OccurrenceRecord) : Digest :=
  scheduleAuthorizationDigest (oc_ScheduleID value) (oc_EligibilityDigest value)
    (rc_Targeted (oc_Report value)) (oc_TargetSetDigest value)
    (OperationBinding_Digest (oc_OperationBinding value))
    (PolicyBinding_Digest (ops_PolicyBinding (oc_PolicySnapshot value)))
    (oc_ExecutionIdentityDigest value) (oc_DestinationPolicyDigest value)
    (oc_SourceReceiptSigner value) (oc_CustodyReceiptSigner value).

Definition OccurrenceRecord_MakeSnapshotDigest (value : OccurrenceRecord) : Digest :=
  SHA256Digest "facets.compute-queue.occurrence-snapshot.v1"
    ([oc_ID value; oc_ScheduleID value; fmt_Sprint (oc_ScheduleRevision value);
      oc_DestinationKind value; oc_EligibilityKey value; oc_EligibilityDigest value;
      fmt_Sprint (oc_ScheduledFor value); fmt_Sprint (oc_EligibleAt value);
      fmt_Sprint (rc_Targeted (oc_Report value)); oc_TargetSetDigest value;
      OperationBinding_Digest (oc_OperationBinding value);
      OccurrencePolicySnapshot_Digest (oc_PolicySnapshot value);
      oc_ExecutionIdentityDigest value; oc_DestinationPolicyDigest value] ++
     signer_components (oc_SourceReceiptSigner value) ++
     from_option signer_components ["";"";"";""]%string (oc_CustodyReceiptSigner value)).

Definition MakeTerminalReportDigest (reportDigest itemOutcomesDigest : Digest) : Digest :=
  SHA256Digest "facets.compute-queue.terminal-report.v1" [reportDigest; itemOutcomesDigest].

Definition occurrenceExternalOnly (state : OccurrenceState) : bool :=
  oneOf state ["waitingForSpace"; "waitingForStorage"; "securelyQueued"; "running";
    "resultsPendingSpace"; "applying"].

Definition occurrenceLocalOnly (state : OccurrenceState) : bool :=
  oneOf state ["localRunning"; "localApplying"].

(** No reason goes with no error; otherwise both name the same error, or none. *)
Definition sameErrorID (reason : option TransitionReason) (errorID : option ErrorID) : bool :=
  match reason with
  | None => bool_decide (errorID = None)
  | Some reason => bool_decide (tr_ErrorID reason = errorID)
  end.

(** What a final state says about the report. *)
Definition OccurrenceRecord_validateTerminalStateReport (value : OccurrenceRecord)
    : option QueueError :=
  let report := oc_Report value in
  let state := oc_State value in
  let targeted := rc_Targeted report in
  let cancelled := i64 (rc_CancelledBeforeDisclosure report + rc_CancelledAfterDisclosure report) in
  let failed := i64 (rc_FailedPreparation report + rc_FailedExecution report +
    rc_InvalidResult report) in
  if negb (occurrenceTerminal state) then None
  else if decide (state = "completed"%string) then
    invalid_when (rc_Applied report ≠ targeted) "completedState"
  else if decide (state = "cancelled"%string) then
    invalid_when (cancelled ≠ targeted) "cancelledState"
  else if decide (state = "failed"%string) then
    invalid_when (failed ≠ targeted) "failedState"
  else if decide (state = "completedWithErrors"%string) then
    invalid_when (rc_Applied report = targeted ∨ cancelled = targeted ∨ failed = targeted)
      "completedWithErrorsState"
  else None.

(** The occurrence has not moved since it became eligible, or names the event
    that moved it last. *)
Definition last_transition_check `{UuidParser} (value : OccurrenceRecord) : option QueueError :=
  match oc_LastTransitionID value with
  | None =>
    invalid_when (oc_State value ≠ "eligible"%string ∨ oc_Revision value ≠ 1 ∨
      oc_StateChangedAt value ≠ oc_EligibleAt value ∨ oc_LastReason value ≠ None ∨
      oc_LastErrorID value ≠ None) "occurrence.initialState"
  | Some id =>
    validateOpaqueID id >>?
    invalid_when (oc_Revision value ≤ 1) "occurrence.lastTransition"
  end.

Definition occurrence_destination_check (value : OccurrenceRecord) : option QueueError :=
  if decide (oc_DestinationKind value = DestinationDirectLocal) then
    invalid_when (occurrenceExternalOnly (oc_State value) ∨ oc_CustodyReceiptSigner value ≠ None)
      "occurrence.directLocalState"
  else
    invalid_when (occurrenceLocalOnly (oc_State value) ∨ oc_CustodyReceiptSigner value = None)
      "occurrence.externalState" >>?
    when_present ReceiptSignerBinding_Validate (oc_CustodyReceiptSigner value).

(** Exactly a final state has the digests of the final report. *)
Definition terminal_digests_check (value : OccurrenceRecord) : option QueueError :=
  if occurrenceTerminal (oc_State value) then
    match oc_TerminalItemOutcomesDigest value, oc_TerminalReportDigest value with
    | Some outcomes, Some report =>
      Digest_Validate outcomes >>?
      Digest_Validate report >>?
      invalid_when (report ≠ MakeTerminalReportDigest (ReportCounters_Digest (oc_Report value))
        outcomes) "terminalReportDigest"
    | _, _ => Some (invalid "terminalReportDigest")
    end
  else invalid_when (oc_TerminalItemOutcomesDigest value ≠ None ∨
    oc_TerminalReportDigest value ≠ None) "terminalReportDigest".

(** The counters that never go down: all but the first, the number of targets,
    and the last, the unconfirmed cancellations. *)
Definition growing_counters (report : ReportCounters) : list int64 :=
  removelast (tail (ReportCounters_values report)).

Definition counters_regressed (previous value : ReportCounters) : Prop :=
  Exists (fun pair => pair.2 < pair.1) (zip (growing_counters previous) (growing_counters value)).

#[global] Instance counters_regressed_dec previous value :
  Decision (counters_regressed previous value).
Proof. unfold counters_regressed. apply _. Defined.

Definition occurrence_receipt_ids (value : OccurrenceRecord) : list ReceiptID :=
  elements (oc_ReceiptIDs value).

(** What an occurrence is about: the fields that no update and no transition
    changes. *)
Definition same_occurrence (value previous : OccurrenceRecord) : Prop :=
  oc_ID value = oc_ID previous ∧ oc_ScheduleID value = oc_ScheduleID previous ∧
  oc_DestinationKind value = oc_DestinationKind previous ∧
  oc_EligibilityKey value = oc_EligibilityKey previous ∧
  oc_EligibilityDigest value = oc_EligibilityDigest previous ∧
  oc_ScheduledFor value = oc_ScheduledFor previous ∧
  oc_EligibleAt value = oc_EligibleAt previous ∧
  oc_ScheduleRevision value = oc_ScheduleRevision previous ∧
  oc_TargetSetDigest value = oc_TargetSetDigest previous ∧
  OperationBinding_Digest (oc_OperationBinding value) =
    OperationBinding_Digest (oc_OperationBinding previous) ∧
  OccurrencePolicySnapshot_Digest (oc_PolicySnapshot value) =
    OccurrencePolicySnapshot_Digest (oc_PolicySnapshot previous) ∧
  oc_ExecutionIdentityDigest value = oc_ExecutionIdentityDigest previous ∧
  oc_DestinationPolicyDigest value = oc_DestinationPolicyDigest previous ∧
  oc_OccurrenceSnapshotDigest value = oc_OccurrenceSnapshotDigest previous ∧
  oc_SourceReceiptSigner value = oc_SourceReceiptSigner previous ∧
  oc_CustodyReceiptSigner value = oc_CustodyReceiptSigner previous.

#[global] Instance same_occurrence_dec value previous : Decision (same_occurrence value previous).
Proof. unfold same_occurrence. apply _. Defined.

Section occurrences.
Context `{UuidParser}.

(** The times and the snapshot of an occurrence. *)
Definition occurrence_snapshot_check (value : OccurrenceRecord) : option QueueError :=
  requireNonempty (oc_EligibilityKey value) "eligibilityKey" >>?
  invalid_when (oc_EligibilityKey value ≠ MakeEligibilityKey (oc_ScheduledFor value))
    "occurrence.eligibilityKey" >>?
  Timestamp_Validate (oc_ScheduledFor value) >>?
  Timestamp_Validate (oc_EligibleAt value) >>?
  invalid_when (oc_EligibleAt value < oc_ScheduledFor value) "eligibleAt" >>?
  when_present (fun prepared =>
    Timestamp_Validate prepared >>?
    invalid_when (prepared < oc_EligibleAt value) "preparedAt") (oc_PreparedAt value) >>?
  Timestamp_Validate (oc_StateChangedAt value) >>?
  invalid_when (oc_StateChangedAt value < oc_EligibleAt value ∨
    oc_EligibleAt value < ops_AdmissionNotBeforeAt (oc_PolicySnapshot value) ∨
    oc_EligibleAt value ≥ ops_ExecutionExpiresAt (oc_PolicySnapshot value))
    "occurrenceSnapshotDigest" >>?
  invalid_when (oc_OccurrenceSnapshotDigest value ≠ OccurrenceRecord_MakeSnapshotDigest value)
    "occurrenceSnapshotDigest".

Definition OccurrenceRecord_Validate (value : OccurrenceRecord) : option QueueError :=
  requireProtocol (oc_ProtocolVersion value) >>?
  validateOpaqueID (oc_ID value) >>?
  validateOpaqueID (oc_ScheduleID value) >>?
  each Digest_Validate [oc_EligibilityDigest value; oc_TargetSetDigest value;
    oc_ExecutionIdentityDigest value; oc_DestinationPolicyDigest value;
    oc_OccurrenceSnapshotDigest value] >>?
  ReceiptSignerBinding_Validate (oc_SourceReceiptSigner value) >>?
  requirePositive (oc_Revision value) "revision" >>?
  requirePositive (oc_ScheduleRevision value) "scheduleRevision" >>?
  invalid_when (¬ DestinationKind_valid (oc_DestinationKind value) ∨
    ¬ OccurrenceState_valid (oc_State value)) "occurrence.state" >>?
  OperationBinding_Validate (oc_OperationBinding value) >>?
  OccurrencePolicySnapshot_Validate (oc_PolicySnapshot value) >>?
  occurrence_snapshot_check value >>?
  when_present TransitionReason_Validate (oc_LastReason value) >>?
  invalid_when (¬ sameErrorID (oc_LastReason value) (oc_LastErrorID value))
    "occurrence.lastTransition" >>?
  last_transition_check value >>?
  occurrence_destination_check value >>?
  ReportCounters_ValidateLogicalBounds (oc_Report value) (occurrenceTerminal (oc_State value)) >>?
  receipt_ids_check (oc_ReceiptIDs value) >>?
  terminal_digests_check value >>?
  OccurrenceRecord_validateTerminalStateReport value.

Definition OccurrenceRecord_ValidateUpdateFrom (value previous : OccurrenceRecord)
    : option QueueError :=
  OccurrenceRecord_Validate value >>?
  invalid_when (occurrenceTerminal (oc_State previous) ∨ oc_State value ≠ oc_State previous ∨
    ¬ same_occurrence value previous ∨ oc_LastTransitionID value ≠ oc_LastTransitionID previous ∨
    oc_StateChangedAt value ≠ oc_StateChangedAt previous ∨
    oc_LastReason value ≠ oc_LastReason previous ∨
    oc_LastErrorID value ≠ oc_LastErrorID previous) "occurrence" >>?
  invalid_when (replaced (oc_PreparedAt previous) (oc_PreparedAt value)) "preparedAt" >>?
  invalid_when (not_next_revision (oc_Revision previous) (oc_Revision value))
    "occurrence.revision" >>?
  invalid_when (rc_Targeted (oc_Report value) ≠ rc_Targeted (oc_Report previous))
    "counters.regression" >>?
  invalid_when (counters_regressed (oc_Report previous) (oc_Report value)) "counters.regression" >>?
  invalid_when (¬ receiptSubset (occurrence_receipt_ids previous) (occurrence_receipt_ids value))
    "receiptIDs".

Definition OccurrenceRecord_ValidateAuthorizedBy (value : OccurrenceRecord)
    (schedule : ScheduleRecord) : option QueueError :=
  let policy := sr_DestinationPolicy schedule in
  OccurrenceRecord_Validate value >>?
  ScheduleRecord_Validate schedule >>?
  invalid_when (oc_ScheduleID value ≠ sr_ID schedule ∨
    oc_ScheduleRevision value > sr_Revision schedule ∨
    OccurrenceRecord_ScheduleAuthorizationDigest value ≠ ScheduleRecord_AuthorizationDigest schedule ∨
    oc_EligibilityDigest value ≠ Eligibility_Digest (sr_Eligibility schedule) ∨
    oc_DestinationKind value ≠ dp_Kind policy ∨
    oc_TargetSetDigest value ≠ sr_TargetSetDigest schedule ∨
    oc_OperationBinding value ≠ sr_OperationBinding schedule ∨
    PolicyBinding_Digest (ops_PolicyBinding (oc_PolicySnapshot value)) ≠
      PolicyBinding_Digest (sr_PolicyBinding schedule) ∨
    oc_ExecutionIdentityDigest value ≠ ExecutionIdentity_Digest (sr_ExecutionIdentity schedule) ∨
    oc_DestinationPolicyDigest value ≠ DestinationPolicy_Digest policy ∨
    rc_Targeted (oc_Report value) ≠ sr_TargetCount schedule ∨
    oc_SourceReceiptSigner value ≠ sr_SourceReceiptSigner schedule ∨
    oc_CustodyReceiptSigner value ≠ dp_CustodyReceiptSigner policy)
    "scheduleOccurrenceAuthorization".

Definition OccurrenceRecord_ValidateCreation (value : OccurrenceRecord) (schedule : ScheduleRecord)
    : option QueueError :=
  let eligibility := sr_Eligibility schedule in
  OccurrenceRecord_ValidateAuthorizedBy value schedule >>?
  invalid_when (sr_State schedule ≠ "active"%string ∨
    oc_ScheduleRevision value ≠ sr_Revision schedule)
    "occurrence.scheduleCreationAuthorization" >>?
  (if decide (el_Kind eligibility = "immediate"%string) then
     invalid_when (oc_ScheduledFor value ≠ el_FirstEligibleAt eligibility ∨
       oc_EligibleAt value ≠ el_FirstEligibleAt eligibility) "occurrence.immediateEligibility"
   else invalid_when (oc_ScheduledFor value < el_FirstEligibleAt eligibility)
     "occurrence.recurringEligibility").

Definition object_le (left right : FacetsObjectID) : Prop :=
  str_le (FacetsObjectID_RawValue left) (FacetsObjectID_RawValue right).

#[global] Instance object_le_dec left right : Decision (object_le left right).
Proof. unfold object_le. apply _. Defined.

(** The digests of a final state against its items. *)
Definition terminal_items_match (value : OccurrenceRecord) (items : list ItemRecord)
    : option QueueError :=
  if occurrenceTerminal (oc_State value) then
    let! digest := TerminalItemOutcomesDigest items in
    invalid_when (oc_TerminalItemOutcomesDigest value ≠ Some digest ∨
      oc_TerminalReportDigest value ≠
        Some (MakeTerminalReportDigest (ReportCounters_Digest (oc_Report value)) digest))
      "terminalReportDigest"
  else None.

Definition OccurrenceRecord_ValidateAgainstItems (value : OccurrenceRecord)
    (items : list ItemRecord) : option QueueError :=
  let ids := merge_sort object_le (item_SourceObjectID <$> items) in
  OccurrenceRecord_Validate value >>?
  each (fun item =>
    ItemRecord_Validate item >>?
    invalid_when (item_OccurrenceID item ≠ oc_ID value ∨
      item_DestinationKind item ≠ oc_DestinationKind value) "occurrence.items") items >>?
  requireUniqueSorted (FacetsObjectID_RawValue <$> ids) "occurrence.items.sourceObjectID" >>?
  invalid_when (MakeTargetSetDigest ids ≠ oc_TargetSetDigest value) "targetSetDigest" >>?
  let! reconciled := ReconcileReport items in
  invalid_when (reconciled ≠ oc_Report value) "report" >>?
  terminal_items_match value items.
End occurrences.
