(* ===== verification/ComputeQueueBoundary.v ===== *)
(** * internal/computequeue: the authorization boundary (authorization_boundary.go)

    The only ways to an [AuthorizedAttempt]: the first attempt of an
    occurrence, a retry with the evidence of the failure before it, and the
    advance of an authorized attempt by one event.  An attempt that gets one
    agrees with its schedule, its occurrence and the items it plans. *)

From S2P Require Import Prelude GoEncoding GoText Sha256 ComputeQueue ComputeQueueCanonical ComputeQueueAuthorization ComputeQueueReceipts ComputeQueueTransitions ComputeQueueAttempts ComputeQueueItems ComputeQueueLifecycle ComputeQueueOccurrence.
#[local] Open Scope Z_scope.

(** ** The receipts of an attempt *)

Definition AttemptRecord_attemptReceiptSubjectDigest (value : AttemptRecord)
    (receipt : ReceiptRecord) (authorization : option AssignmentAuthorization) : Digest :=
  match authorization with
  | Some authorization =>
    AssignmentAuthorization_receiptSubjectDigest authorization (at_OccurrenceID value)
      (at_ID value) receipt
  | None =>
    SHA256Digest "facets.compute-queue.attempt-receipt-subject.v1"
      [at_OccurrenceID value; at_ID value; at_DestinationKind value;
       ExecutionIdentity_Digest (at_ExecutionIdentity value);
       ap_AssignmentSetDigest (at_AssignmentPlan value); rr_Stage receipt;
       optionalString (rr_ItemID receipt); optionalString (rr_ErrorID receipt);
       optionalString (rr_ErrorDigest receipt)]
  end.

(** Who has to sign a receipt of a stage. *)
Definition AttemptRecord_expectedReceiptSigner (value : AttemptRecord) (stage : ReceiptStage)
    (authorization : option AssignmentAuthorization) : option ReceiptSignerBinding :=
  let executor := aa_Executor <$> authorization in
  if local_stage stage then leb_ReceiptSigner <$> (executor ≫= eb_SourceLocal)
  else
    let authority := receiptAuthority stage in
    if decide (authority = AuthoritySourceDevice) then Some (at_SourceReceiptSigner value)
    else if decide (authority = AuthorityJobCustody) then at_CustodyReceiptSigner value
    else if decide (authority = AuthorityWorker) then wb_ReceiptSigner <$> (executor ≫= eb_Worker)
    else None.

Definition AttemptRecord_expectedReceiptTrust (value : AttemptRecord) (record : ReceiptRecord)
    : QueueError + ReceiptSignerBinding * Digest :=
  let authorization := rr_AssignmentID record ≫= authorization_of (at_AssignmentPlan value) in
  invalid_when (rr_OccurrenceID record ≠ at_OccurrenceID value ∨
    rr_AttemptID record ≠ at_ID value) "receipt.attemptID" >>!
  match AttemptRecord_expectedReceiptSigner value (rr_Stage record) authorization with
  | None => inl (invalid "receipt.signer")
  | Some signer =>
    inr (signer, AttemptRecord_attemptReceiptSubjectDigest value record authorization)
  end.

Definition AttemptRecord_validateReceiptTrust (value : AttemptRecord) (receipt : VerifiedReceipt)
    : option QueueError :=
  let! expected := AttemptRecord_expectedReceiptTrust value (vr_record receipt) in
  invalid_when (¬ VerifiedReceipt_matches receipt expected.1 expected.2) "receipt.subjectDigest".

(** ** Exact assignments (occurrence_transition.go) *)

Definition assignment_le (left right : AssignmentRecord) : Prop :=
  str_le (as_ID left) (as_ID right).

#[global] Instance assignment_le_dec left right : Decision (assignment_le left right).
Proof. unfold assignment_le. apply _. Defined.

Definition sortAssignments (values : list AssignmentRecord) : list AssignmentRecord :=
  merge_sort assignment_le values.

Definition assignmentsForAttempt (assignments : list AssignmentRecord) (attemptID : AttemptID)
    : list AssignmentRecord :=
  filter (fun assignment => as_AttemptID assignment = attemptID) assignments.

Section boundary.
Context `{UuidParser}.

Definition AuthorizedAttempt_validateExactAssignments (value : AuthorizedAttempt)
    (assignments : list AssignmentRecord) (receipts : list VerifiedReceipt)
    : option QueueError :=
  let expected := ap_Assignments (at_AssignmentPlan (auth_record value)) in
  invalid_when (length assignments ≠ length expected) "fixedWorkerSetMutation" >>?
  each (fun pair =>
    invalid_when (as_ID pair.1 ≠ aa_AssignmentID pair.2) "fixedWorkerSetMutation" >>?
    AssignmentRecord_ValidateAuthorizedBy pair.1 value receipts)
    (zip (sortAssignments assignments) expected).

Definition terminal_assignment_components (assignment : AssignmentRecord) : list string :=
  [as_ID assignment; as_AttemptID assignment; fmt_Sprint (as_Revision assignment);
   as_State assignment; ExecutorBinding_stableID (as_Executor assignment);
   as_ItemSetDigest assignment; as_ExecutionPayloadDigest assignment;
   optionalString (as_CapsuleID assignment); optionalString (as_CapsuleDigest assignment)] ++
  assignment_receipt_ids assignment.

(** The loop over the ordered assignments, with the ID of the one before. *)
Fixpoint terminal_assignments_check (previous : AssignmentID) (assignments : list AssignmentRecord)
    : option QueueError :=
  match assignments with
  | [] => None
  | assignment :: assignments =>
    AssignmentRecord_Validate assignment >>?
    invalid_when (as_ID assignment = previous ∨ ¬ attemptTerminal (as_State assignment))
      "terminalAssignments" >>?
    terminal_assignments_check (as_ID assignment) assignments
  end.

Definition MakeTerminalAssignmentOutcomesDigest (assignments : list AssignmentRecord)
    : QueueError + Digest :=
  let ordered := sortAssignments assignments in
  invalid_when (zlen assignments = 0 ∨ zlen assignments > maximumAssignments)
    "terminalAssignments" >>!
  terminal_assignments_check "" ordered >>!
  inr (SHA256Digest "facets.compute-queue.terminal-assignment-outcomes.v1"
    (ordered ≫= terminal_assignment_components)).

(** ** Creation *)

(** The fixed workers of a schedule by ID; of two entries the later one. *)
Definition authorized_workers (workers : list WorkerBinding) : gmap WorkerID WorkerBinding :=
  foldl (fun index worker => <[wb_WorkerID worker := worker]> index) ∅ workers.

Definition attempt_schedule_destination (value : AttemptRecord) (policy : DestinationPolicy)
    : option QueueError :=
  let plan := at_AssignmentPlan value in
  if decide (at_DestinationKind value = DestinationFixedWorkers) then
    match dp_FixedWorkerSet policy with
    | None => Some (invalid "fixedWorkerSet")
    | Some workers =>
      let authorized := authorized_workers (fws_Workers workers) in
      invalid_when (at_AuthorizedWorkerSetDigest value ≠ Some (fws_Digest workers))
        "fixedWorkerSet" >>?
      each (fun assignment => invalid_when (none_or (eb_Worker (aa_Executor assignment))
        (fun worker => authorized !! wb_WorkerID worker ≠ Some worker)) "fixedWorkerSet")
        (ap_Assignments plan)
    end
  else if decide (at_DestinationKind value = DestinationComputePool) then
    invalid_when (dp_ComputePoolPolicyDigest policy = None ∨
      at_ComputePoolPolicyDigest value ≠ dp_ComputePoolPolicyDigest policy ∨
      at_ComputePoolGrantDigest value = None ∨
      at_ComputePoolAssignmentSetDigest value ≠ Some (ap_AssignmentSetDigest plan))
      "computePoolGrant"
  else None.

Definition AttemptRecord_validateAuthorizedBySchedule (value : AttemptRecord)
    (schedule : ScheduleRecord) : option QueueError :=
  let policy := sr_DestinationPolicy schedule in
  AttemptRecord_Validate value >>?
  ScheduleRecord_Validate schedule >>?
  invalid_when (ExecutionIdentity_Digest (at_ExecutionIdentity value) ≠
      ExecutionIdentity_Digest (sr_ExecutionIdentity schedule) ∨
    at_OperationBindingDigest value ≠ OperationBinding_Digest (sr_OperationBinding schedule) ∨
    at_RetryPolicyDigest value ≠ RetryPolicy_Digest (pb_RetryPolicy (sr_PolicyBinding schedule)) ∨
    at_DestinationKind value ≠ dp_Kind policy ∨
    at_SourceReceiptSigner value ≠ sr_SourceReceiptSigner schedule ∨
    at_CustodyReceiptSigner value ≠ dp_CustodyReceiptSigner policy)
    "scheduleExecutionAuthorization" >>?
  attempt_schedule_destination value policy.

(** The time by which the execution is over: that of the snapshot, or the
    deadline of the attempt when it is earlier. *)
Definition execution_boundary (value : AttemptRecord) (occurrence : OccurrenceRecord) : Timestamp :=
  let expires := ops_ExecutionExpiresAt (oc_PolicySnapshot occurrence) in
  match at_DeadlineAt value with
  | Some deadline => if decide (deadline < expires) then deadline else expires
  | None => expires
  end.

Definition occurrence_retry_policy (occurrence : OccurrenceRecord) : RetryPolicy :=
  pb_RetryPolicy (ops_PolicyBinding (oc_PolicySnapshot occurrence)).

(** Items by ID, none with more executions than the policy allows. *)
Fixpoint creation_items (maximumAttempts : uint64) (index : gmap ItemID ItemRecord)
    (items : list ItemRecord) : QueueError + gmap ItemID ItemRecord :=
  match items with
  | [] => inr index
  | item :: items =>
    invalid_when (zlen (executions item) > maximumAttempts) "attempt.retryLimit" >>!
    err_when (is_Some (index !! item_ID item)) (duplicateValue "occurrence.items") >>!
    creation_items maximumAttempts (<[item_ID item := item]> index) items
  end.

(** The planned items in the order of the plan, and the authorization of each. *)
Record PlannedItems := mkPlannedItems {
  planned_items : list ItemRecord;
  planned_by : gmap ItemID AssignmentAuthorization }.

Fixpoint plan_items (itemsByID : gmap ItemID ItemRecord) (planned : PlannedItems)
    (entries : list (AssignmentAuthorization * ItemID)) : QueueError + PlannedItems :=
  match entries with
  | [] => inr planned
  | (authorization, itemID) :: entries =>
    match itemsByID !! itemID with
    | None => inl (invalid "assignmentPlan.coverage")
    | Some item =>
      err_when (is_Some (planned_by planned !! itemID))
        (duplicateValue "assignmentPlan.coverage") >>!
      plan_items itemsByID (mkPlannedItems (planned_items planned ++ [item])
        (<[itemID := authorization]> (planned_by planned))) entries
    end
  end.

Definition plan_entries (plan : AssignmentPlan) : list (AssignmentAuthorization * ItemID) :=
  ap_Assignments plan ≫= fun authorization => pair authorization <$> aa_ItemIDs authorization.

(** An item that the plan leaves out has ended already. *)
Definition omitted_item_check (item : ItemRecord) : option QueueError :=
  match ItemRecord_CurrentExecution item with
  | None =>
    invalid_when (none_or (item_Disposition item) (fun disposition =>
      ¬ oneOf disposition ["skippedSourceMissing"; "skippedSourceMissingBeforeDisclosure";
          "skippedSourceChangedBeforeDisclosure"; "failedPreparation";
          "cancelledBeforeDisclosure"]%string)) "assignmentPlan.omittedRunnableItem"
  | Some current =>
    invalid_when (item_Disposition item = None ∨ ie_CancellationUnconfirmed current)
      "assignmentPlan.priorAttemptOutcome"
  end.

(** A planned item: of a first attempt it is assigned already, of a retry it
    waits for one. *)
Definition planned_item_check (value : AttemptRecord) (authorization : AssignmentAuthorization)
    (item : ItemRecord) : option QueueError :=
  let executor := aa_Executor authorization in
  match ItemRecord_CurrentExecution item with
  | None => Some (invalid (if decide (at_AttemptNumber value = 1)
      then "assignmentPlan.itemAssignment" else "assignmentPlan.itemRetryCandidate"))
  | Some current =>
    if decide (at_AttemptNumber value = 1) then
      invalid_when (ie_AttemptID current ≠ at_ID value ∨
        ie_AssignmentID current ≠ aa_AssignmentID authorization ∨ ie_Outcome current ≠ None)
        "assignmentPlan.itemAssignment" >>?
      (if decide (eb_Kind executor = ExecutorSourceLocal)
       then invalid_when (ie_WorkerID current ≠ None) "fixedWorkerSet"
       else invalid_when (ie_WorkerID current = None ∨
         ie_WorkerID current ≠ wb_WorkerID <$> eb_Worker executor) "fixedWorkerSet")
    else
      invalid_when (ie_AttemptID current = at_ID value ∨ item_Disposition item ≠ None ∨
        ¬ ItemExecutionRecord_authorizesRetry current ∨ ie_CancellationUnconfirmed current)
        "assignmentPlan.itemRetryCandidate"
  end.

(** The attempt carries the digests of its occurrence, and lies within its
    times. *)
Definition attempt_occurrence_fits (value : AttemptRecord) (occurrence : OccurrenceRecord) : Prop :=
  let snapshot := oc_PolicySnapshot occurrence in
  oc_ID occurrence = at_OccurrenceID value ∧
  oc_DestinationKind occurrence = at_DestinationKind value ∧
  at_OccurrenceSnapshotDigest value = oc_OccurrenceSnapshotDigest occurrence ∧
  at_OperationBindingDigest value = OperationBinding_Digest (oc_OperationBinding occurrence) ∧
  at_PolicySnapshotDigest value = OccurrencePolicySnapshot_Digest snapshot ∧
  at_RetryPolicyDigest value = RetryPolicy_Digest (occurrence_retry_policy occurrence) ∧
  oc_EligibleAt occurrence ≤ at_CreatedAt value ∧
  ops_AdmissionNotBeforeAt snapshot ≤ at_CreatedAt value ∧
  at_CreatedAt value < ops_ExecutionExpiresAt snapshot ∧
  ¬ some_and (at_DeadlineAt value) (fun deadline => deadline > ops_ExecutionExpiresAt snapshot).

#[global] Instance attempt_occurrence_fits_dec value occurrence :
  Decision (attempt_occurrence_fits value occurrence).
Proof. unfold attempt_occurrence_fits. apply _. Defined.

Definition AttemptRecord_validateCreationBoundary (value : AttemptRecord)
    (schedule : ScheduleRecord) (occurrence : OccurrenceRecord) (items : list ItemRecord)
    : QueueError + list ItemRecord :=
  let plan := at_AssignmentPlan value in
  let maximum := RetryPolicy_MaximumAttempts (occurrence_retry_policy occurrence) in
  AttemptRecord_validateAuthorizedBySchedule value schedule >>!
  OccurrenceRecord_ValidateAuthorizedBy occurrence schedule >>!
  OccurrenceRecord_ValidateAgainstItems occurrence items >>!
  invalid_when (¬ attempt_occurrence_fits value occurrence) "attempt.occurrenceAuthorization" >>!
  invalid_when (Exists (fun assignment => some_and (aa_InitialLease assignment) (fun lease =>
    lb_MaximumExpiresAt lease > execution_boundary value occurrence)) (ap_Assignments plan))
    "attempt.occurrenceAuthorization" >>!
  invalid_when (at_AttemptNumber value > maximum) "attempt.retryLimit" >>!
  let? itemsByID := creation_items maximum ∅ items in
  let? planned := plan_items itemsByID (mkPlannedItems [] ∅) (plan_entries plan) in
  AssignmentPlan_ValidateCovers plan (item_ID <$> planned_items planned) >>!
  each omitted_item_check
    (filter (fun item => planned_by planned !! item_ID item = None) items) >>!
  each (fun item => match planned_by planned !! item_ID item with
    | Some authorization => planned_item_check value authorization item
    | None => None
    end) (planned_items planned) >>!
  inr (planned_items planned).

Definition newAuthorizedAttempt (record : AttemptRecord) : AuthorizedAttempt :=
  mkAuthorizedAttempt record.

Definition AuthorizeInitialAttempt (record : AttemptRecord) (schedule : ScheduleRecord)
    (occurrence : OccurrenceRecord) (items : list ItemRecord) : QueueError + AuthorizedAttempt :=
  let? planned := AttemptRecord_validateCreationBoundary record schedule occurrence items in
  invalid_when (at_AttemptNumber record ≠ 1 ∨ at_PreviousAttemptID record ≠ None ∨
    at_RetryErrorID record ≠ None ∨ at_NotBeforeAt record ≠ None) "attempt.retryLineage" >>!
  each (fun item => invalid_when (zlen (executions item) ≠ 1 ∨
    none_or (ItemRecord_CurrentExecution item) (fun current =>
      ie_AttemptID current ≠ at_ID record ∨ ie_AttemptNumber current ≠ 1 ∨
      ie_Outcome current ≠ None)) "attempt.retryLineage") planned >>!
  inr (newAuthorizedAttempt record).

(** ** Retries *)

(** The attempt after [prior], for an error of it that the policy retries. *)
Definition retry_lineage (record prior : AttemptRecord) (retryError : ErrorRecord)
    (policy : RetryPolicy) : Prop :=
  at_AttemptNumber record > 1 ∧ at_PreviousAttemptID record = Some (at_ID prior) ∧
  at_RetryErrorID record = Some (er_ID retryError) ∧ at_NotBeforeAt record ≠ None ∧
  at_OccurrenceID prior = at_OccurrenceID record ∧
  ¬ not_next_revision (at_AttemptNumber prior) (at_AttemptNumber record) ∧
  at_OccurrenceSnapshotDigest prior = at_OccurrenceSnapshotDigest record ∧
  at_OperationBindingDigest prior = at_OperationBindingDigest record ∧
  at_PolicySnapshotDigest prior = at_PolicySnapshotDigest record ∧
  at_RetryPolicyDigest prior = at_RetryPolicyDigest record ∧
  ExecutionIdentity_Digest (at_ExecutionIdentity prior) =
    ExecutionIdentity_Digest (at_ExecutionIdentity record) ∧
  at_DestinationKind prior = at_DestinationKind record ∧
  at_SourceReceiptSigner prior = at_SourceReceiptSigner record ∧
  at_CustodyReceiptSigner prior = at_CustodyReceiptSigner record ∧
  oneOf (at_State prior) ["retryableRejected"; "executionFailed"; "localExecutionFailed"]%string ∧
  er_OccurrenceID retryError = at_OccurrenceID record ∧
  er_AttemptID retryError = Some (at_ID prior) ∧ er_ItemID retryError = None ∧
  er_Retryable retryError ∧ at_CreatedAt prior ≤ er_ObservedAt retryError ∧
  er_ObservedAt retryError ≤ at_CreatedAt record ∧
  er_Code retryError ∈ elements (rp_RetryableErrorCodes policy).

#[global] Instance retry_lineage_dec record prior retryError policy :
  Decision (retry_lineage record prior retryError policy).
Proof. unfold retry_lineage. apply _. Defined.

(** An item of the retry ended in the prior attempt with that error. *)
Definition retry_item_fits (prior : AttemptRecord) (retryError : ErrorRecord) (item : ItemRecord)
    : Prop :=
  some_and (ItemRecord_CurrentExecution item) (fun current =>
    ie_AttemptID current = at_ID prior ∧ ie_AttemptNumber current = at_AttemptNumber prior ∧
    ie_ErrorID current = Some (er_ID retryError) ∧
    ie_Outcome current = Some (if decide (at_State prior = "retryableRejected"%string)
      then "admissionRejected"%string else "failedExecution"%string) ∧
    ¬ ie_CancellationUnconfirmed current).

#[global] Instance retry_item_fits_dec prior retryError item :
  Decision (retry_item_fits prior retryError item).
Proof. unfold retry_item_fits. apply _. Defined.

Definition retry_evidence_stage (state : AttemptState) : ReceiptStage :=
  if decide (state = "retryableRejected"%string) then "admissionRejected"
  else if decide (state = "executionFailed"%string) then "executionCompleted"
  else "localExecutionCompleted".

(** The event that ended the prior attempt and its one receipt, which carries
    the error. *)
Definition retry_evidence_fits (record prior : AttemptRecord) (retryError : ErrorRecord)
    (transition : AttemptTransition) (evidence : ReceiptRecord) : Prop :=
  st_LifecycleID transition = at_ID prior ∧ st_To transition = at_State prior ∧
  st_ResultingRevision transition = at_Revision prior ∧
  some_and (st_Reason transition) (fun reason =>
    tr_Code reason = "error"%string ∧ tr_ErrorID reason = Some (er_ID retryError)) ∧
  elements (st_SupportingReceiptIDs transition) = [rr_ID evidence] ∧
  rr_RecordedAt evidence ≤ st_OccurredAt transition ∧
  st_OccurredAt transition ≤ at_CreatedAt record ∧
  containsReceiptID (elements (at_ReceiptIDs prior)) (rr_ID evidence) ∧
  rr_OccurrenceID evidence = at_OccurrenceID record ∧ rr_AttemptID evidence = at_ID prior ∧
  rr_AssignmentID evidence ≠ None ∧ rr_AssignmentID evidence = er_AssignmentID retryError ∧
  rr_ItemID evidence = None ∧ rr_Stage evidence = retry_evidence_stage (at_State prior) ∧
  rr_ErrorID evidence = Some (er_ID retryError) ∧
  rr_ErrorDigest evidence = Some (ErrorRecord_Digest retryError) ∧
  rr_Authority evidence = er_Authority retryError ∧
  er_ObservedAt retryError = rr_RecordedAt evidence.

#[global] Instance retry_evidence_fits_dec record prior retryError transition evidence :
  Decision (retry_evidence_fits record prior retryError transition evidence).
Proof. unfold retry_evidence_fits. apply _. Defined.

Definition MaxInt64 : Z := 2 ^ 63 - 1.

(** The retry starts when its delay is over, and in time. *)
Definition retry_backoff_check (record : AttemptRecord) (retryError : ErrorRecord)
    (occurrence : OccurrenceRecord) : option QueueError :=
  let delays := elements (rp_BackoffMillisecondsByRetry (occurrence_retry_policy occurrence)) in
  match delays !! Z.to_nat (u64 (at_AttemptNumber record - 2)) with
  | None => Some (invalid "attempt.retryBackoff")
  | Some delay =>
    invalid_when (delay > MaxInt64 ∨ er_ObservedAt retryError > MaxInt64 - delay)
      "attempt.retryBackoff" >>?
    invalid_when (at_NotBeforeAt record ≠ Some (i64 (er_ObservedAt retryError + delay)) ∨
      none_or (at_NotBeforeAt record) (fun notBefore =>
        notBefore ≥ execution_boundary record occurrence)) "attempt.retryBackoff"
  end.

Definition AuthorizeRetryAttempt (record : AttemptRecord) (schedule : ScheduleRecord)
    (occurrence : OccurrenceRecord) (items : list ItemRecord) (previous : AuthorizedAttempt)
    (retryError : ErrorRecord) (previousTerminalTransition : AttemptTransition)
    (retryEvidence : VerifiedReceipt) : QueueError + AuthorizedAttempt :=
  let prior := auth_record previous in
  let? planned := AttemptRecord_validateCreationBoundary record schedule occurrence items in
  invalid_when (¬ retry_lineage record prior retryError (occurrence_retry_policy occurrence))
    "attempt.retryLineage" >>!
  each (fun item => invalid_when (¬ retry_item_fits prior retryError item)
    "attempt.itemRetryLineage") planned >>!
  ErrorRecord_Validate retryError >>!
  StateTransition_Validate AttemptLife previousTerminalTransition >>!
  invalid_when (¬ retry_evidence_fits record prior retryError previousTerminalTransition
    (vr_record retryEvidence)) "attempt.retryEvidence" >>!
  AttemptRecord_validateReceiptTrust prior retryEvidence >>!
  retry_backoff_check record retryError occurrence >>!
  inr (newAuthorizedAttempt record).

(** ** Advance *)

(** The result manifests by assignment. *)
Fixpoint index_manifests (result : gmap AssignmentID AssignmentResultManifest) (totalEntries : Z)
    (values : list AssignmentResultManifest)
    : QueueError + gmap AssignmentID AssignmentResultManifest :=
  match values with
  | [] => inr result
  | value :: values =>
    let id := rm_AssignmentID value in
    let totalEntries := totalEntries + zlen (rm_Entries value) in
    AssignmentResultManifest_Validate value >>!
    invalid_when (totalEntries > maximumItems) "resultManifests.entries" >>!
    err_when (is_Some (result !! id)) (duplicateValue "resultManifests.assignmentID") >>!
    index_manifests (<[id := value]> result) totalEntries values
  end.

Definition indexResultManifests (values : list AssignmentResultManifest)
    : QueueError + gmap AssignmentID AssignmentResultManifest :=
  invalid_when (zlen values > maximumAssignments) "resultManifests" >>!
  index_manifests ∅ 0 values.

Definition verifiedReceiptSlice (index : verifiedReceiptIndex) : list VerifiedReceipt :=
  snd <$> map_to_list index.

(** One assignment at the barrier: in the new state of the attempt, or ended
    when the attempt goes on; with its receipt and the evidence of a result. *)
Definition barrier_assignment_check (transition : AttemptTransition)
    (receiptIndex : verifiedReceiptIndex) (manifests : gmap AssignmentID AssignmentResultManifest)
    (assignment : AssignmentRecord) : option QueueError :=
  let to := st_To transition in
  let ids := elements (st_SupportingReceiptIDs transition) in
  let manifest := manifests !! as_ID assignment in
  if decide (attemptTerminal (as_State assignment) ∧ ¬ attemptTerminal to) then None
  else
    invalid_when (as_State assignment ≠ to) "attempt.assignmentBarrier" >>?
    when_present (fun stage =>
      let! byStage := indexAssignmentStageReceipts ids receiptIndex (as_ID assignment) in
      missing_when (none_or (byStage !! stage) (fun receipt =>
        ¬ containsReceiptID (assignment_receipt_ids assignment) (rr_ID (vr_record receipt)))))
      (head (transitionRequiredReceiptStages AssignmentLife to)) >>?
    (if decide (to = "resultCustodied"%string) then
       AssignmentRecord_validateSuccessfulResultEvidence assignment ids receiptIndex manifest true
     else if decide (to = "delivered"%string) then
       AssignmentRecord_validateDeliveredResultEvidence assignment ids receiptIndex manifest
     else if decide (to = "executionFailed"%string) then
       AssignmentRecord_validateFailedExecutionEvidence assignment ids receiptIndex true
     else None).

Definition AuthorizedAttempt_validateAssignmentBarrier (value : AuthorizedAttempt)
    (updated : AttemptRecord) (transition : AttemptTransition)
    (assignments : list AssignmentRecord) (resultManifests : list AssignmentResultManifest)
    (receiptIndex : verifiedReceiptIndex) : option QueueError :=
  AuthorizedAttempt_validateExactAssignments value assignments
    (verifiedReceiptSlice receiptIndex) >>?
  if decide (st_To transition = "settled"%string) then
    invalid_when (Exists (fun assignment => ¬ attemptTerminal (as_State assignment)) assignments)
      "attempt.assignmentBarrier" >>?
    match MakeTerminalAssignmentOutcomesDigest assignments with
    | inl _ => Some (invalid "terminalAssignmentOutcomesDigest")
    | inr digest =>
      invalid_when (at_TerminalAssignmentOutcomesDigest updated ≠ Some digest)
        "terminalAssignmentOutcomesDigest"
    end
  else if negb (AssignmentState_valid (st_To transition)) then None
  else
    let! manifests := indexResultManifests resultManifests in
    each (barrier_assignment_check transition receiptIndex manifests) assignments.

Record AttemptAdvanceEvidence := mkAttemptAdvanceEvidence {
  aae_Assignments : list AssignmentRecord;
  aae_ResultManifests : list AssignmentResultManifest;
  aae_AppliedEventIDs : gset TransitionID }.

Definition AuthorizedAttempt_Advance (value : AuthorizedAttempt) (updated : AttemptRecord)
    (transition : AttemptTransition) (receipts : list VerifiedReceipt)
    (evidence : list AttemptAdvanceEvidence) : QueueError + AuthorizedAttempt :=
  let previous := auth_record value in
  let plan := at_AssignmentPlan previous in
  let context := default (mkAttemptAdvanceEvidence [] [] ∅) (head evidence) in
  let ids := elements (st_SupportingReceiptIDs transition) in
  let sealed := if decide (at_State previous ≠ "prepared"%string)
    then Some (ap_AssignmentSetDigest plan) else None in
  AttemptRecord_Validate previous >>!
  AttemptRecord_Validate updated >>!
  invalid_when (zlen evidence > 1) "attempt.advanceEvidence" >>!
  invalid_when (at_ID updated ≠ at_ID previous ∨
    at_OccurrenceID updated ≠ at_OccurrenceID previous ∨
    at_AttemptNumber updated ≠ at_AttemptNumber previous ∨
    ¬ same_attempt_binding updated previous ∨
    ap_AssignmentSetDigest (at_AssignmentPlan updated) ≠ ap_AssignmentSetDigest plan ∨
    at_Revision updated ≠ st_ResultingRevision transition ∨ at_State updated ≠ st_To transition)
    "attempt.update" >>!
  invalid_when (st_To transition ≠ "settled"%string ∧
    at_TerminalAssignmentOutcomesDigest updated ≠ at_TerminalAssignmentOutcomesDigest previous)
    "terminalAssignmentOutcomesDigest" >>!
  let? receiptIndex := newVerifiedReceiptIndex receipts in
  StateTransition_validateAgainst AttemptLife transition (at_State previous) (at_Revision previous)
    (at_ID previous) sealed (aae_AppliedEventIDs context) receiptIndex >>!
  invalid_when (transitionRequiresSealedDigest AttemptLife (st_To transition) ∧
    st_SealedAssignmentSetDigest transition ≠ Some (ap_AssignmentSetDigest plan))
    "fixedWorkerSet" >>!
  each (fun id => match receiptIndex !! id with
    | None => Some (invalid "receiptIDs")
    | Some receipt => AttemptRecord_validateReceiptTrust previous receipt
    end) (elements (at_ReceiptIDs updated)) >>!
  invalid_when (¬ receiptSubset (elements (at_ReceiptIDs previous))
      (elements (at_ReceiptIDs updated)) ∨
    ¬ receiptSubset ids (elements (at_ReceiptIDs updated))) "receiptIDs" >>!
  (if decide (st_To transition ≠ "sealed"%string) then
     AuthorizedAttempt_validateAssignmentBarrier value updated transition
       (aae_Assignments context) (aae_ResultManifests context) receiptIndex
   else None) >>!
  (if decide (st_To transition = "released"%string) then
     requireExternalReleaseEvidence (at_OccurrenceID previous) (at_ID previous)
       (aa_AssignmentID <$> ap_Assignments plan) (elements (at_ReceiptIDs previous)) ids
       receiptIndex
   else None) >>!
  inr (newAuthorizedAttempt updated).
End boundary.
