(* ===== verification/ComputeQueueTerminal.v ===== *)
(** * internal/computequeue: the evidence of a final state (occurrence_update.go)

    A final occurrence accounts for every execution of every item: with the
    authorized attempt and the assignment it ran under, with a result manifest
    or with the receipts of a failure, a rejection, an expired lease or a
    confirmed cancellation, and with no piece of evidence left over.  The sets
    of used evidence, which the source fills through its maps, are passed on
    from one assignment to the next. *)

From S2P Require Import Prelude GoEncoding GoText Sha256 ComputeQueue ComputeQueueCanonical ComputeQueueAuthorization ComputeQueueReceipts ComputeQueueTransitions ComputeQueueAttempts ComputeQueueItems ComputeQueueLifecycle ComputeQueueOccurrence ComputeQueueBoundary.
#[local] Open Scope Z_scope.

(** A loop that changes a state and may return an error. *)
Fixpoint fold_checked {E S A} (f : S → A → E + S) (s : S) (l : list A) : E + S :=
  match l with
  | [] => inr s
  | x :: l => let? s := f s x in fold_checked f s l
  end.

(** ** Chronology *)

Fixpoint first_present {A} (values : list (option A)) : option A :=
  match values with
  | [] => None
  | Some value :: _ => Some value
  | None :: values => first_present values
  end.

(** The latest milestone of an execution. *)
Definition latest_milestone (execution : ItemExecutionRecord) : option Timestamp :=
  first_present [ie_ResultCompletedAt execution; ie_CustodyAcceptedAt execution;
    ie_DisclosureCommittedAt execution; ie_ExecutionInputCommittedAt execution].

Definition validateTerminalEvidenceChronology (execution : ItemExecutionRecord)
    (evidenceAt : option Timestamp) (errorRecord : option ErrorRecord) : option QueueError :=
  let lowerBound := latest_milestone execution in
  let out_of_order (at_ : option Timestamp) :=
    some_and at_ (fun time => some_and lowerBound (fun lower => time < lower) ∨
      some_and (ie_TerminalAt execution) (fun terminal => time > terminal)) in
  invalid_when (out_of_order evidenceAt) "receipt.timestamp" >>?
  invalid_when (out_of_order (er_ObservedAt <$> errorRecord)) "error.timestamp".

Definition validateSuccessfulResultChronology (execution : ItemExecutionRecord)
    (executionCompletedAt : Timestamp) (resultCustodiedAt resultDeliveredAt : option Timestamp)
    : option QueueError :=
  invalid_when (none_or (ie_ResultCompletedAt execution) (fun completed =>
    completed > executionCompletedAt)) "receipt.timestamp" >>?
  invalid_when (some_and resultCustodiedAt (fun custodied => executionCompletedAt > custodied))
    "receipt.timestamp" >>?
  invalid_when (some_and resultDeliveredAt (fun delivered =>
    none_or resultCustodiedAt (fun custodied => custodied > delivered))) "receipt.timestamp".

Definition executionsForAssignment (items : list ItemRecord) (assignmentID : AssignmentID)
    : list ItemExecutionRecord :=
  filter (fun execution => ie_AssignmentID execution = assignmentID) (items ≫= executions).

(** ** Errors *)

Definition containsItemExecution (values : list ItemExecutionRecord)
    (expected : ItemExecutionRecord) : bool :=
  existsb (fun value => equalItemExecution value expected) values.

Section terminal.
Context `{UuidParser}.

(** The item of an error and its execution, where there are some. *)
Definition error_item_check (record : ErrorRecord) (occurrence : OccurrenceRecord)
    (attempt : option AttemptRecord) (assignment : option AssignmentRecord)
    (item : option ItemRecord) (execution : option ItemExecutionRecord) : option QueueError :=
  let refused := Some (invalid "error.lifecycleHierarchy") in
  match item, execution with
  | Some item, Some execution =>
    invalid_when (item_OccurrenceID item ≠ oc_ID occurrence ∨
      ie_OccurrenceID execution ≠ oc_ID occurrence ∨ ie_ItemID execution ≠ item_ID item ∨
      at_ID <$> attempt ≠ Some (ie_AttemptID execution) ∨
      as_ID <$> assignment ≠ Some (ie_AssignmentID execution) ∨
      ie_ErrorID execution ≠ Some (er_ID record) ∨
      ¬ containsItemExecution (executions item) execution) "error.lifecycleHierarchy"
  | Some _, None | None, Some _ => refused
  | None, None => None
  end.

Definition validateErrorHierarchy (record : ErrorRecord) (occurrence : OccurrenceRecord)
    (attempt : option AttemptRecord) (assignment : option AssignmentRecord)
    (item : option ItemRecord) (execution : option ItemExecutionRecord) : option QueueError :=
  ErrorRecord_Validate record >>?
  invalid_when (er_OccurrenceID record ≠ oc_ID occurrence ∨
    er_AttemptID record ≠ at_ID <$> attempt ∨ er_AssignmentID record ≠ as_ID <$> assignment ∨
    er_ItemID record ≠ item_ID <$> item) "error.lifecycleHierarchy" >>?
  invalid_when (some_and attempt (fun attempt => at_OccurrenceID attempt ≠ oc_ID occurrence))
    "error.lifecycleHierarchy" >>?
  when_present (fun assignment =>
    invalid_when (none_or attempt (fun attempt =>
      as_OccurrenceID assignment ≠ oc_ID occurrence ∨ as_AttemptID assignment ≠ at_ID attempt))
      "error.lifecycleHierarchy") assignment >>?
  error_item_check record occurrence attempt assignment item execution.

(** ** Summaries *)

Record assignmentExecutionSummary := mkassignmentExecutionSummary {
  aes_itemCount : int64;
  aes_terminalOutcomeCount : int64;
  aes_outcomes : gset ItemAttemptOutcome;
  aes_errorIDs : gset ErrorID;
  aes_hasCancellationUnconfirmed : bool;
  aes_hasProtectedByteParticipation : bool }.

Definition empty_summary : assignmentExecutionSummary :=
  mkassignmentExecutionSummary 0 0 ∅ ∅ false false.

(** An execution that has had protected bytes. *)
Definition protected_bytes (execution : ItemExecutionRecord) : bool :=
  if decide (ie_DestinationKind execution = DestinationDirectLocal)
  then bool_decide (ie_ExecutionInputCommittedAt execution ≠ None)
  else bool_decide (ie_DisclosureCommittedAt execution ≠ None ∨
    ie_CustodyAcceptedAt execution ≠ None).

Definition add_execution (summary : assignmentExecutionSummary) (execution : ItemExecutionRecord)
    : assignmentExecutionSummary :=
  mkassignmentExecutionSummary (i64 (aes_itemCount summary + 1))
    (counted (ie_Outcome execution ≠ None) (aes_terminalOutcomeCount summary))
    (from_option (fun outcome => {[outcome]}) ∅ (ie_Outcome execution) ∪ aes_outcomes summary)
    (from_option (fun id => {[id]}) ∅ (ie_ErrorID execution) ∪ aes_errorIDs summary)
    (aes_hasCancellationUnconfirmed summary || ie_CancellationUnconfirmed execution)
    (aes_hasProtectedByteParticipation summary || protected_bytes execution).

(** The evidence of an occurrence by ID. *)
Record TerminalIndex := mkTerminalIndex {
  ti_attemptsByID : gmap AttemptID AuthorizedAttempt;
  ti_assignmentsByID : gmap AssignmentID AssignmentRecord;
  ti_assignmentsByAttempt : gmap AttemptID (list AssignmentRecord);
  ti_manifestsByAssignment : gmap AssignmentID AssignmentResultManifest;
  ti_errorsByID : gmap ErrorID ErrorRecord }.

(** The attempt and the assignment of an execution authorize it. *)
Definition execution_authorized (value : OccurrenceRecord) (index : TerminalIndex)
    (item : ItemRecord) (execution : ItemExecutionRecord) : bool :=
  match ti_attemptsByID index !! ie_AttemptID execution,
        ti_assignmentsByID index !! ie_AssignmentID execution with
  | Some proof, Some assignment =>
    bool_decide (at_AttemptNumber (auth_record proof) = ie_AttemptNumber execution ∧
      as_AttemptID assignment = ie_AttemptID execution ∧
      as_OccurrenceID assignment = oc_ID value ∧ item_ID item ∈ as_ItemIDs assignment) &&
    match authorization_of (at_AssignmentPlan (auth_record proof)) (ie_AssignmentID execution) with
    | Some authorization =>
      bool_decide (item_ID item ∈ aa_ItemIDs authorization ∧
        ie_WorkerID execution = wb_WorkerID <$> eb_Worker (aa_Executor authorization))
    | None => false
    end
  | _, _ => false
  end.

(** The summaries by assignment and the attempts that some execution names. *)
Record Summaries := mkSummaries {
  sum_byAssignment : gmap AssignmentID assignmentExecutionSummary;
  sum_usedAttempts : gset AttemptID }.

Definition summarize_execution (value : OccurrenceRecord) (index : TerminalIndex)
    (summaries : Summaries) (entry : ItemRecord * ItemExecutionRecord) : QueueError + Summaries :=
  let execution := entry.2 in
  let id := ie_AssignmentID execution in
  invalid_when (¬ execution_authorized value index entry.1 execution)
    "terminal.executionAuthorization" >>!
  let summary := default empty_summary (sum_byAssignment summaries !! id) in
  inr (mkSummaries (<[id := add_execution summary execution]> (sum_byAssignment summaries))
    ({[ie_AttemptID execution]} ∪ sum_usedAttempts summaries)).

Definition item_entries (items : list ItemRecord) : list (ItemRecord * ItemExecutionRecord) :=
  items ≫= fun item => pair item <$> executions item.

(** ** The evidence that is used up *)

Record UsedEvidence := mkUsedEvidence {
  ue_usedManifests : gset AssignmentID;
  ue_usedErrors : gset ErrorID;
  ue_receiptErrorIDs : gset ErrorID;
  ue_sourceRejectionReceiptIDs : gset ReceiptID;
  ue_usedSourceRejectionReceiptIDs : gset ReceiptID }.

#[global] Instance UsedEvidence_eta : Eta UsedEvidence := fun u =>
  mkUsedEvidence (ue_usedManifests u) (ue_usedErrors u) (ue_receiptErrorIDs u)
    (ue_sourceRejectionReceiptIDs u) (ue_usedSourceRejectionReceiptIDs u).

#[global] Instance update_ue_usedManifests : Update ue_usedManifests := ltac:(mk_update).
#[global] Instance update_ue_usedErrors : Update ue_usedErrors := ltac:(mk_update).
#[global] Instance update_ue_receiptErrorIDs : Update ue_receiptErrorIDs := ltac:(mk_update).
#[global] Instance update_ue_sourceRejectionReceiptIDs :
  Update ue_sourceRejectionReceiptIDs := ltac:(mk_update).
#[global] Instance update_ue_usedSourceRejectionReceiptIDs :
  Update ue_usedSourceRejectionReceiptIDs := ltac:(mk_update).

Definition use_error (used : UsedEvidence) (id : ErrorID) : UsedEvidence :=
  used <| ue_usedErrors := {[id]} ∪ ue_usedErrors used |>.

(** The receipts of an assignment that the index holds; the caller has checked
    that it holds them all. *)
Definition assignment_receipts (assignment : AssignmentRecord) (receiptIndex : verifiedReceiptIndex)
    : list VerifiedReceipt :=
  omap (fun id => receiptIndex !! id) (assignment_receipt_ids assignment).

Definition stage_of (receipt : VerifiedReceipt) : ReceiptStage := rr_Stage (vr_record receipt).

Definition assignmentReceiptStageSet (assignment : AssignmentRecord)
    (receiptIndex : verifiedReceiptIndex) (currentLeaseOnly : bool) : gset ReceiptStage :=
  list_to_set (stage_of <$> filter (fun receipt => ¬ currentLeaseOnly ∨
    AssignmentRecord_terminalReceiptMatchesCurrentLease assignment receipt)
    (assignment_receipts assignment receiptIndex)).

Definition assignmentResultEvidenceReceiptIDs (assignment : AssignmentRecord)
    (receiptIndex : verifiedReceiptIndex) : QueueError + list ReceiptID :=
  let ids := assignment_receipt_ids assignment in
  each (fun id => missing_when (receiptIndex !! id = None)) ids >>!
  inr (filter (fun id => none_or (receiptIndex !! id) (fun receipt =>
    stage_of receipt ≠ "sourceResultRejected"%string)) ids).

(** ** Assignments with a result manifest *)

(** The result of an assignment on the source itself. *)
Definition local_manifest_evidence (assignment : AssignmentRecord) (hasInvalidResult : bool)
    (stages : gset ReceiptStage) (manifest : AssignmentResultManifest) (items : list ItemRecord)
    (receiptIndex : verifiedReceiptIndex) : option QueueError :=
  let stateIsInvalid := bool_decide (as_State assignment = "localInvalidResult"%string) in
  missing_when (stateIsInvalid ≠ hasInvalidResult ∨
    (¬ stateIsInvalid ∧ ¬ oneOf (as_State assignment)
      ["localResultReady"; "localApplied"; "localReleased"]%string) ∨
    ¬ containsAnyReceiptStage stages ["localExecutionStarted"]%string) >>?
  match filter (fun receipt => stage_of receipt = "localExecutionCompleted"%string)
          (assignment_receipts assignment receiptIndex) with
  | [completion] =>
    let record := vr_record completion in
    missing_when (rr_ExecutionOutcome record ≠ Some "succeeded"%string ∨
      rr_ResultDigest record ≠ Some (rm_ResultSetDigest manifest)) >>?
    each (fun execution =>
      if decide (ie_ResultCompletedAt execution ≠ None)
      then validateSuccessfulResultChronology execution (rr_RecordedAt record) None None
      else None) (executionsForAssignment items (as_ID assignment))
  | _ => Some missingTransitionReceipt
  end.

(** The time of the last receipt of a stage in the current lease. *)
Definition current_stage_time (assignment : AssignmentRecord) (receiptIndex : verifiedReceiptIndex)
    (stage : ReceiptStage) : option Timestamp :=
  rr_RecordedAt ∘ vr_record <$> last (filter (fun receipt => stage_of receipt = stage ∧
    AssignmentRecord_terminalReceiptMatchesCurrentLease assignment receipt)
    (assignment_receipts assignment receiptIndex)).

(** The result of a worker's assignment, delivered through custody. *)
Definition worker_manifest_evidence (assignment : AssignmentRecord)
    (summary : assignmentExecutionSummary) (hasInvalidResult : bool) (stages : gset ReceiptStage)
    (manifest : AssignmentResultManifest) (items : list ItemRecord)
    (receiptIndex : verifiedReceiptIndex) : option QueueError :=
  let stateIsInvalid := bool_decide (as_State assignment = "invalidResult"%string) in
  let time stage := current_stage_time assignment receiptIndex stage in
  missing_when (stateIsInvalid ≠ hasInvalidResult ∨
    (¬ stateIsInvalid ∧ ¬ oneOf (as_State assignment) ["delivered"; "applied"; "released"]%string) ∨
    ¬ aes_hasProtectedByteParticipation summary ∨
    ¬ containsAnyReceiptStage stages ["custodyAccepted"]%string ∨
    ¬ containsAnyReceiptStage stages ["executionStarted"]%string) >>?
  let! resultReceiptIDs := assignmentResultEvidenceReceiptIDs assignment receiptIndex in
  AssignmentRecord_validateDeliveredResultEvidence assignment resultReceiptIDs receiptIndex
    (Some manifest) >>?
  match time "executionCompleted"%string, time "resultCustodied"%string,
        time "resultDelivered"%string with
  | Some executionCompletedAt, Some resultCustodiedAt, Some resultDeliveredAt =>
    each (fun execution =>
      if decide (ie_ResultCompletedAt execution ≠ None)
      then validateSuccessfulResultChronology execution executionCompletedAt
             (Some resultCustodiedAt) (Some resultDeliveredAt)
      else None) (executionsForAssignment items (as_ID assignment))
  | _, _, _ => Some missingTransitionReceipt
  end.

(** The source's rejection of the result of an item. *)
Definition rejection_fits (assignment : AssignmentRecord) (item : ItemRecord)
    (execution : ItemExecutionRecord) (errorRecord : ErrorRecord) (rejection : VerifiedReceipt)
    : Prop :=
  let record := vr_record rejection in
  rr_Stage record = "sourceResultRejected"%string ∧ rr_ItemID record = Some (item_ID item) ∧
  rr_ResultDigest record = ie_ResultDigest execution ∧
  rr_ErrorID record = Some (er_ID errorRecord) ∧
  rr_ErrorDigest record = Some (ErrorRecord_Digest errorRecord) ∧
  AssignmentRecord_terminalReceiptMatchesCurrentLease assignment rejection ∧
  er_ObservedAt errorRecord = rr_RecordedAt record.

#[global] Instance rejection_fits_dec assignment item execution errorRecord rejection :
  Decision (rejection_fits assignment item execution errorRecord rejection).
Proof. unfold rejection_fits. apply _. Defined.

(** The error of a failed or refused execution of an assignment with a
    manifest: it is the error of the manifest's entry, or of a rejection. *)
Definition manifest_error_evidence (assignment : AssignmentRecord) (item : ItemRecord)
    (execution : ItemExecutionRecord) (entry : AssignmentResultEntry) (errorRecord : ErrorRecord)
    (receiptIndex : verifiedReceiptIndex) (used : UsedEvidence) : QueueError + UsedEvidence :=
  let local := eb_Kind (as_Executor assignment) = ExecutorSourceLocal in
  if decide (ie_Outcome execution = Some "failedExecution"%string) then
    missing_when (re_Outcome entry ≠ "failed"%string ∨
      re_ErrorID entry ≠ Some (er_ID errorRecord) ∨
      re_ErrorDigest entry ≠ Some (ErrorRecord_Digest errorRecord) ∨
      er_Authority errorRecord ≠ (if decide local then AuthoritySourceDevice else AuthorityWorker)) >>!
    validateTerminalEvidenceChronology execution None (Some errorRecord) >>!
    inr (use_error used (er_ID errorRecord))
  else
    missing_when (re_Outcome entry ≠ "succeeded"%string ∨
      er_Authority errorRecord ≠ AuthoritySourceDevice) >>!
    match list_find (rejection_fits assignment item execution errorRecord)
            (assignment_receipts assignment receiptIndex) with
    | None => inl missingTransitionReceipt
    | Some (_, rejection) =>
      let record := vr_record rejection in
      validateTerminalEvidenceChronology execution (Some (rr_RecordedAt record))
        (Some errorRecord) >>!
      inr ((use_error used (er_ID errorRecord))
        <| ue_usedSourceRejectionReceiptIDs :=
             {[rr_ID record]} ∪ ue_usedSourceRejectionReceiptIDs used |>)
    end.

(** The body of the loop over the executions with an error. *)
Definition manifest_execution_evidence (occurrence : OccurrenceRecord)
    (assignment : AssignmentRecord) (entriesByItem : gmap ItemID AssignmentResultEntry)
    (index : TerminalIndex) (receiptIndex : verifiedReceiptIndex) (used : UsedEvidence)
    (pair : ItemRecord * ItemExecutionRecord) : QueueError + UsedEvidence :=
  let item := pair.1 in
  let execution := pair.2 in
  if decide (ie_AssignmentID execution ≠ as_ID assignment ∨ ie_ErrorID execution = None ∨
       none_or (ie_Outcome execution) (fun outcome =>
         ¬ oneOf outcome ["failedExecution"; "invalidResult"]%string)) then inr used
  else
    match entriesByItem !! item_ID item, ie_ErrorID execution ≫= (ti_errorsByID index !!.),
          ti_attemptsByID index !! as_AttemptID assignment with
    | Some entry, Some errorRecord, Some attempt =>
      missing_when (validateErrorHierarchy errorRecord occurrence (Some (auth_record attempt))
        (Some assignment) (Some item) (Some execution) ≠ None) >>!
      manifest_error_evidence assignment item execution entry errorRecord receiptIndex used
    | _, _, _ => inl missingTransitionReceipt
    end.

Definition entries_by_item (manifest : AssignmentResultManifest)
    : gmap ItemID AssignmentResultEntry :=
  foldl (fun entries entry => <[re_ItemID entry := entry]> entries) ∅ (rm_Entries manifest).

Definition validateTerminalManifestAssignment (occurrence : OccurrenceRecord)
    (assignment : AssignmentRecord) (summary : assignmentExecutionSummary)
    (manifest : AssignmentResultManifest) (items : list ItemRecord) (index : TerminalIndex)
    (receiptIndex : verifiedReceiptIndex) (used : UsedEvidence) : QueueError + UsedEvidence :=
  let stages := assignmentReceiptStageSet assignment receiptIndex false in
  let hasInvalidResult := bool_decide ("invalidResult"%string ∈ aes_outcomes summary) in
  invalid_when (containsAnyReceiptStage stages ["admissionRejected"; "leaseExpired"]%string)
    "terminal.incompatibleErrorEvidence" >>!
  (if decide (eb_Kind (as_Executor assignment) = ExecutorSourceLocal)
   then local_manifest_evidence assignment hasInvalidResult stages manifest items receiptIndex
   else worker_manifest_evidence assignment summary hasInvalidResult stages manifest items
          receiptIndex) >>!
  fold_checked (manifest_execution_evidence occurrence assignment (entries_by_item manifest) index
    receiptIndex) used (item_entries items).

(** ** Assignments without one *)

Definition errorIDSetEqualsOne (values : gset ErrorID) (expected : ErrorID) : bool :=
  bool_decide (size values = 1%nat ∧ expected ∈ values).

(** The error of a receipt, by an authority, about this assignment. *)
Definition receipt_error_fits (occurrence : OccurrenceRecord) (assignment : AssignmentRecord)
    (index : TerminalIndex) (authority : TransitionAuthority) (record : ReceiptRecord)
    (errorRecord : ErrorRecord) : Prop :=
  rr_ErrorDigest record = Some (ErrorRecord_Digest errorRecord) ∧
  er_AttemptID errorRecord = Some (as_AttemptID assignment) ∧
  er_AssignmentID errorRecord = Some (as_ID assignment) ∧ er_ItemID errorRecord = None ∧
  er_Authority errorRecord = authority ∧ er_ObservedAt errorRecord = rr_RecordedAt record ∧
  some_and (ti_attemptsByID index !! as_AttemptID assignment) (fun attempt =>
    validateErrorHierarchy errorRecord occurrence (Some (auth_record attempt)) (Some assignment)
      None None = None).

#[global] Instance receipt_error_fits_dec occurrence assignment index authority record errorRecord :
  Decision (receipt_error_fits occurrence assignment index authority record errorRecord).
Proof. unfold receipt_error_fits. apply _. Defined.

Definition receipt_error (index : TerminalIndex) (record : ReceiptRecord) : option ErrorRecord :=
  rr_ErrorID record ≫= (ti_errorsByID index !!.).

(** Every execution of the assignment is in order with the receipt, and the
    error is used. *)
Definition error_accepted (assignment : AssignmentRecord) (items : list ItemRecord)
    (record : ReceiptRecord) (errorRecord : ErrorRecord) (used : UsedEvidence)
    : QueueError + UsedEvidence :=
  each (fun execution => validateTerminalEvidenceChronology execution (Some (rr_RecordedAt record))
    (Some errorRecord)) (executionsForAssignment items (as_ID assignment)) >>!
  inr (use_error used (er_ID errorRecord)).

(** All items of the assignment failed. *)
Definition all_failed_evidence (occurrence : OccurrenceRecord) (assignment : AssignmentRecord)
    (summary : assignmentExecutionSummary) (items : list ItemRecord) (index : TerminalIndex)
    (receiptIndex : verifiedReceiptIndex) (used : UsedEvidence) : QueueError + UsedEvidence :=
  let stages := assignmentReceiptStageSet assignment receiptIndex false in
  let kind := eb_Kind (as_Executor assignment) in
  let ids := assignment_receipt_ids assignment in
  let validState := (kind = ExecutorSourceLocal ∧
      oneOf (as_State assignment) ["localExecutionFailed"; "localReleased"]%string) ∨
    (kind = ExecutorWorker ∧ oneOf (as_State assignment) ["executionFailed"; "released"]%string) in
  let hasAntecedents := if decide (kind = ExecutorWorker)
    then aes_hasProtectedByteParticipation summary &&
      containsAnyReceiptStage stages ["custodyAccepted"]%string &&
      containsAnyReceiptStage stages ["executionStarted"]%string
    else containsAnyReceiptStage stages ["localExecutionStarted"]%string in
  let failureStage := if decide (kind = ExecutorSourceLocal)
    then "localExecutionCompleted"%string else "executionCompleted"%string in
  missing_when (¬ validState ∨ ¬ hasAntecedents ∨ size (aes_errorIDs summary) ≠ 1%nat) >>!
  match indexAssignmentStageReceipts ids receiptIndex (as_ID assignment) with
  | inl _ => inl missingTransitionReceipt
  | inr byStage =>
    missing_when (AssignmentRecord_validateFailedExecutionEvidence assignment ids receiptIndex true
      ≠ None) >>!
    match byStage !! failureStage with
    | None => inl missingTransitionReceipt
    | Some failure =>
      let record := vr_record failure in
      match receipt_error index record with
      | None => inl missingTransitionReceipt
      | Some errorRecord =>
        missing_when (¬ errorIDSetEqualsOne (aes_errorIDs summary) (er_ID errorRecord) ∨
          ¬ receipt_error_fits occurrence assignment index (rr_Authority record) record
              errorRecord) >>!
        error_accepted assignment items record errorRecord used
      end
    end
  end.

(** The receipt that refused the admission of an assignment. *)
Definition admission_rejection_fits (occurrence : OccurrenceRecord) (assignment : AssignmentRecord)
    (summary : assignmentExecutionSummary) (index : TerminalIndex) (receipt : VerifiedReceipt)
    : Prop :=
  let record := vr_record receipt in
  rr_Stage record = "admissionRejected"%string ∧
  some_and (receipt_error index record) (fun errorRecord =>
    errorIDSetEqualsOne (aes_errorIDs summary) (er_ID errorRecord) ∧ er_Retryable errorRecord ∧
    AssignmentRecord_terminalReceiptMatchesCurrentLease assignment receipt ∧
    receipt_error_fits occurrence assignment index AuthorityJobCustody record errorRecord).

#[global] Instance admission_rejection_fits_dec occurrence assignment summary index receipt :
  Decision (admission_rejection_fits occurrence assignment summary index receipt).
Proof. unfold admission_rejection_fits. apply _. Defined.

(** All items of the assignment were refused admission. *)
Definition all_rejected_evidence (occurrence : OccurrenceRecord) (assignment : AssignmentRecord)
    (summary : assignmentExecutionSummary) (items : list ItemRecord) (index : TerminalIndex)
    (receiptIndex : verifiedReceiptIndex) (used : UsedEvidence) : QueueError + UsedEvidence :=
  missing_when (as_State assignment ≠ "retryableRejected"%string ∨
    size (aes_errorIDs summary) ≠ 1%nat) >>!
  match list_find (admission_rejection_fits occurrence assignment summary index)
          (assignment_receipts assignment receiptIndex) with
  | None => inl missingTransitionReceipt
  | Some (_, receipt) =>
    match receipt_error index (vr_record receipt) with
    | None => inl missingTransitionReceipt
    | Some errorRecord => error_accepted assignment items (vr_record receipt) errorRecord used
    end
  end.

Definition validateCancellationRequestSemantics (hasProtectedByteParticipation acceptedExpiry : bool)
    (currentStages : gset ReceiptStage) : option QueueError :=
  let requested := containsAnyReceiptStage currentStages ["cancellationRequested"]%string in
  let expired := containsAnyReceiptStage currentStages ["leaseExpired"]%string in
  let confirmationsPresent := containsAnyReceiptStage currentStages
    ["custodyCancellationConfirmed"; "workerCancellationConfirmed";
     "localCancellationConfirmed"]%string in
  if acceptedExpiry then missing_when (¬ expired ∨ (confirmationsPresent ∧ ¬ requested))
  else if hasProtectedByteParticipation then missing_when (¬ requested)
  else missing_when (confirmationsPresent ∨ expired).

(** The lease ran out before the cancellation was confirmed. *)
Definition expiry_evidence (occurrence : OccurrenceRecord) (assignment : AssignmentRecord)
    (items : list ItemRecord) (index : TerminalIndex) (record : ReceiptRecord)
    (used : UsedEvidence) : QueueError + UsedEvidence :=
  match receipt_error index record with
  | None => inl missingTransitionReceipt
  | Some errorRecord =>
    missing_when (¬ receipt_error_fits occurrence assignment index AuthorityJobCustody record
      errorRecord) >>!
    error_accepted assignment items record errorRecord used
  end.

(** The receipts of the cancellation in the current lease: a request, and
    every confirmation at or after it. *)
Definition confirmed_cancellation_evidence (occurrence : OccurrenceRecord)
    (assignment : AssignmentRecord) (items : list ItemRecord)
    (stages currentStages : gset ReceiptStage) (receiptIndex : verifiedReceiptIndex)
    : option QueueError :=
  let ids := assignment_receipt_ids assignment in
  let worker := eb_Kind (as_Executor assignment) = ExecutorWorker in
  let requiredStages := if decide worker
    then "custodyCancellationConfirmed"%string ::
      (if containsAnyReceiptStage stages
            ["workerClaimed"; "executionStarted"; "executionCompleted"]%string
       then ["workerCancellationConfirmed"]%string else [])
    else ["localCancellationConfirmed"]%string in
  requireOccurrenceCancellationEvidence (oc_DestinationKind occurrence) (oc_ID occurrence)
    [as_ID assignment] ids ids receiptIndex >>?
  missing_when (¬ containsAnyReceiptStage currentStages ["cancellationRequested"]%string) >>?
  each (fun stage => missing_when (¬ containsAnyReceiptStage currentStages [stage]))
    requiredStages >>?
  match current_stage_time assignment receiptIndex "cancellationRequested" with
  | None => Some missingTransitionReceipt
  | Some requestAt =>
    each (fun receipt =>
      let record := vr_record receipt in
      invalid_when (rr_Stage record ≠ "cancellationRequested"%string ∧
        rr_RecordedAt record < requestAt) "receipt.timestamp" >>?
      each (fun execution => validateTerminalEvidenceChronology execution
        (Some (rr_RecordedAt record)) None) (executionsForAssignment items (as_ID assignment)))
      (filter (fun receipt =>
        AssignmentRecord_terminalReceiptMatchesCurrentLease assignment receipt ∧
        oneOf (stage_of receipt) ["cancellationRequested"; "custodyCancellationConfirmed";
          "workerCancellationConfirmed"; "localCancellationConfirmed"]%string)
        (assignment_receipts assignment receiptIndex))
  end.

(** All items of the assignment were cancelled. *)
Definition all_cancelled_evidence (occurrence : OccurrenceRecord) (assignment : AssignmentRecord)
    (summary : assignmentExecutionSummary) (items : list ItemRecord) (index : TerminalIndex)
    (receiptIndex : verifiedReceiptIndex) (used : UsedEvidence) : QueueError + UsedEvidence :=
  let stages := assignmentReceiptStageSet assignment receiptIndex false in
  let currentStages := assignmentReceiptStageSet assignment receiptIndex true in
  let kind := eb_Kind (as_Executor assignment) in
  let receiptParticipation := if decide (kind = ExecutorWorker)
    then containsAnyReceiptStage stages
      ["custodyAccepted"; "waitingForWorker"; "workerClaimed"; "executionStarted";
       "executionCompleted"; "resultCustodied"; "resultDelivered"]%string
    else containsAnyReceiptStage stages
      ["localExecutionStarted"; "localExecutionCompleted"]%string in
  let hasParticipation := aes_hasProtectedByteParticipation summary || receiptParticipation in
  let acceptedExpiry := snd <$> list_find (fun receipt =>
    stage_of receipt = "leaseExpired"%string ∧ rr_ErrorID (vr_record receipt) ≠ None ∧
    rr_ErrorDigest (vr_record receipt) ≠ None ∧
    AssignmentRecord_terminalReceiptMatchesCurrentLease assignment receipt)
    (assignment_receipts assignment receiptIndex) in
  let validState := (kind = ExecutorSourceLocal ∧
      oneOf (as_State assignment) ["localCancellationConfirmed"; "localReleased"]%string) ∨
    (kind = ExecutorWorker ∧ oneOf (as_State assignment) ["custodyCancellationConfirmed";
      "workerCancellationConfirmed"; "expired"; "released"]%string) in
  validateCancellationRequestSemantics hasParticipation (bool_decide (acceptedExpiry ≠ None))
    currentStages >>!
  if negb hasParticipation then
    missing_when (¬ oneOf (as_State assignment) ["prepared"; "sealed";
      "custodyCancellationConfirmed"; "workerCancellationConfirmed"; "localCancellationConfirmed";
      "released"; "localReleased"]%string) >>!
    inr used
  else
    missing_when (¬ validState) >>!
    match acceptedExpiry with
    | Some receipt => expiry_evidence occurrence assignment items index (vr_record receipt) used
    | None =>
      confirmed_cancellation_evidence occurrence assignment items stages currentStages
        receiptIndex >>!
      inr used
    end.

Definition validateManifestlessTerminalAssignment (occurrence : OccurrenceRecord)
    (assignment : AssignmentRecord) (summary : assignmentExecutionSummary)
    (items : list ItemRecord) (index : TerminalIndex) (receiptIndex : verifiedReceiptIndex)
    (used : UsedEvidence) : QueueError + UsedEvidence :=
  let outcomes := aes_outcomes summary in
  if decide (outcomes = {["failedExecution"%string]}) then
    all_failed_evidence occurrence assignment summary items index receiptIndex used
  else if decide (outcomes = {["admissionRejected"%string]}) then
    all_rejected_evidence occurrence assignment summary items index receiptIndex used
  else
    missing_when (Exists (fun outcome =>
      ¬ oneOf outcome ["cancelledBeforeDisclosure"; "cancelledAfterDisclosure"]%string)
      (base.elements outcomes)) >>!
    missing_when (outcomes = ∅) >>!
    all_cancelled_evidence occurrence assignment summary items index receiptIndex used.
End terminal.
