(* ===== verification/ComputeQueueEvidence.v ===== *)
(** * internal/computequeue: occurrence transitions (occurrence_transition.go, occurrence_update.go)

    An occurrence moves by an event that the receipts, the authorized attempts
    and the assignments support; a final state needs the complete evidence of
    [ComputeQueueTerminal].  [ValidateTransition] checks the event against the
    record before it, [ValidateTransitionUpdateFrom] the record after it, and
    [ValidateSourceBound] a stored record with all that belongs to it. *)

From S2P Require Import Prelude GoEncoding GoText Sha256 ComputeQueue ComputeQueueCanonical ComputeQueueAuthorization ComputeQueueReceipts ComputeQueueTransitions ComputeQueueAttempts ComputeQueueItems ComputeQueueLifecycle ComputeQueueOccurrence ComputeQueueBoundary ComputeQueueTerminal.
#[local] Open Scope Z_scope.

Section evidence.
Context `{UuidParser}.

(** ** Evidence by ID *)

Fixpoint index_assignments (index : gmap AssignmentID AssignmentRecord)
    (assignments : list AssignmentRecord) : QueueError + gmap AssignmentID AssignmentRecord :=
  match assignments with
  | [] => inr index
  | assignment :: assignments =>
    AssignmentRecord_Validate assignment >>!
    err_when (is_Some (index !! as_ID assignment)) (duplicateValue "assignments") >>!
    index_assignments (<[as_ID assignment := assignment]> index) assignments
  end.

Definition assignments_by_attempt (assignments : list AssignmentRecord)
    : gmap AttemptID (list AssignmentRecord) :=
  foldl (fun index assignment =>
    let id := as_AttemptID assignment in
    <[id := default [] (index !! id) ++ [assignment]]> index) ∅ assignments.

(** Items by ID, each of them valid. *)
Fixpoint index_items (index : gmap ItemID ItemRecord) (items : list ItemRecord)
    : QueueError + gmap ItemID ItemRecord :=
  match items with
  | [] => inr index
  | item :: items =>
    ItemRecord_Validate item >>!
    err_when (is_Some (index !! item_ID item)) (duplicateValue "items") >>!
    index_items (<[item_ID item := item]> index) items
  end.

Definition sameAuthorizedAttempt (left right : AuthorizedAttempt) : bool :=
  match EncodeCanonical (auth_record left), EncodeCanonical (auth_record right) with
  | inr leftBytes, inr rightBytes => bool_decide (leftBytes = rightBytes)
  | _, _ => false
  end.

(** Proofs by attempt; the same proof may come twice. *)
Fixpoint index_proofs (index : gmap AttemptID AuthorizedAttempt)
    (proofs : list AuthorizedAttempt) : QueueError + gmap AttemptID AuthorizedAttempt :=
  match proofs with
  | [] => inr index
  | proof :: proofs =>
    let id := at_ID (auth_record proof) in
    match index !! id with
    | Some existing =>
      err_when (¬ sameAuthorizedAttempt existing proof)
        (duplicateValue "occurrence.authorizedAttempt") >>!
      index_proofs index proofs
    | None => index_proofs (<[id := proof]> index) proofs
    end
  end.

(** ** The receipts of an occurrence *)

Definition OccurrenceRecord_receiptSubjectDigest (value : OccurrenceRecord)
    (record : ReceiptRecord) : Digest :=
  SHA256Digest "facets.compute-queue.occurrence-receipt-subject.v1"
    [oc_ID value; oc_ScheduleID value; oc_TargetSetDigest value; oc_OccurrenceSnapshotDigest value;
     rr_AttemptID record; rr_Stage record; optionalString (rr_ItemID record)].

(** The item of an application receipt; another receipt has none. *)
Definition applied_item (record : ReceiptRecord) : option ItemID :=
  if decide (rr_Stage record = "sourceApplied"%string) then rr_ItemID record else None.

Definition OccurrenceRecord_validateReceiptTrust (value : OccurrenceRecord)
    (receipt : VerifiedReceipt) (authorizedAttempts : gmap AttemptID AuthorizedAttempt)
    (assignments : gmap AssignmentID AssignmentRecord) (items : gmap ItemID ItemRecord)
    : option QueueError :=
  let record := vr_record receipt in
  invalid_when (rr_OccurrenceID record ≠ oc_ID value) "receipt.occurrenceID" >>?
  match applied_item record, rr_AssignmentID record with
  | Some itemID, _ =>
    invalid_when (none_or (items !! itemID) (fun item =>
      ¬ VerifiedReceipt_matches receipt (oc_SourceReceiptSigner value)
          (ItemRecord_ApplicationProofDigest item))) "receipt.sourceApplied"
  | None, Some assignmentID =>
    match assignments !! assignmentID, authorizedAttempts !! rr_AttemptID record with
    | Some assignment, Some proof =>
      invalid_when (as_AttemptID assignment ≠ at_ID (auth_record proof)) "receipt.assignmentID" >>?
      invalid_when (¬ signed_receipt assignment receipt) "receipt.signer"
    | _, _ => Some (invalid "receipt.assignmentID")
    end
  | None, None =>
    invalid_when (rr_Authority record ≠ AuthoritySourceDevice) "receipt.signer" >>?
    invalid_when (¬ VerifiedReceipt_matches receipt (oc_SourceReceiptSigner value)
      (OccurrenceRecord_receiptSubjectDigest value record)) "receipt.subjectDigest"
  end.

(** ** Transitions *)

(** The attempts that the receipts on assignments come from. *)
Definition evidence_attempts (ids : list ReceiptID) (receiptIndex : verifiedReceiptIndex)
    : gset AttemptID :=
  list_to_set (omap (fun id =>
    receipt ← receiptIndex !! id;
    _ ← rr_AssignmentID (vr_record receipt);
    Some (rr_AttemptID (vr_record receipt))) ids).

Definition custody_receipt (assignment : AssignmentRecord) (record : ReceiptRecord) : Prop :=
  rr_AssignmentID record = Some (as_ID assignment) ∧ rr_Stage record = "custodyAccepted"%string ∧
  containsReceiptID (assignment_receipt_ids assignment) (rr_ID record).

#[global] Instance custody_receipt_dec assignment record :
  Decision (custody_receipt assignment record).
Proof. unfold custody_receipt. apply _. Defined.

(** An assignment is custodied: past its admission, with a supporting receipt
    of the custody that it records itself. *)
Definition custody_check (assignment : AssignmentRecord) (supporting : list ReceiptID)
    (receiptIndex : verifiedReceiptIndex) : option QueueError :=
  invalid_when (oneOf (as_State assignment)
    ["prepared"; "sealed"; "admissionPending"; "retryableRejected"]%string)
    "occurrence.assignments" >>?
  invalid_when (¬ Exists (fun id => some_and (receiptIndex !! id) (fun receipt =>
    custody_receipt assignment (vr_record receipt))) supporting) "occurrence.custodyAccepted".

(** The admission boundary: every assignment that the caller supplies is
    custodied, those of the active attempt among them. *)
Definition securely_queued_check (value : OccurrenceRecord) (receipts : list VerifiedReceipt)
    (activeAttempt : option AuthorizedAttempt) (assignments : list AssignmentRecord)
    (supporting : list ReceiptID) (receiptIndex : verifiedReceiptIndex) : option QueueError :=
  match activeAttempt with
  | None => Some (invalid "occurrence.activeAttempt")
  | Some active =>
    let attempt := auth_record active in
    invalid_when (at_OccurrenceID attempt ≠ oc_ID value ∨
      at_DestinationKind attempt ≠ oc_DestinationKind value) "occurrence.activeAttempt" >>?
    AuthorizedAttempt_validateExactAssignments active
      (assignmentsForAttempt assignments (at_ID attempt)) receipts >>?
    each (fun assignment => custody_check assignment supporting receiptIndex) assignments
  end.

(** The assignments that the items' current executions ran under. *)
Definition current_assignments (items : list ItemRecord) : list AssignmentID :=
  ie_AssignmentID <$> omap ItemRecord_CurrentExecution items.

(** A transition that ends a cancellation. *)
Definition ends_cancellation (transition : OccurrenceTransition) : bool :=
  oneOf (st_To transition) ["cancelled"; "completedWithErrors"]%string &&
  oneOf (st_From transition) ["cancellationRequested"; "cancellationUnconfirmed"]%string.

Definition OccurrenceRecord_ValidateTransition (value : OccurrenceRecord)
    (transition : OccurrenceTransition) (receipts : list VerifiedReceipt)
    (activeAttempt : option AuthorizedAttempt) (authorizedAttempts : list AuthorizedAttempt)
    (assignments : list AssignmentRecord) (items : list ItemRecord)
    (appliedEventIDs : gset TransitionID) : option QueueError :=
  let ids := occurrence_receipt_ids value in
  let supporting := elements (st_SupportingReceiptIDs transition) in
  let! receiptIndex := newVerifiedReceiptIndex receipts in
  invalid_when (zlen assignments > maximumAssignments) "assignments" >>?
  invalid_when (zlen items > maximumItems) "items" >>?
  let! assignmentIndex := index_assignments ∅ assignments in
  let! itemIndex := index_items ∅ items in
  let! proofsByAttemptID := index_proofs ∅ (authorizedAttempts ++ option_list activeAttempt) in
  StateTransition_validateAgainst OccurrenceLife transition (oc_State value) (oc_Revision value)
    (oc_ID value) None appliedEventIDs receiptIndex >>?
  invalid_when (st_OccurredAt transition < oc_StateChangedAt value) "transition.occurredAt" >>?
  each (fun attemptID => match proofsByAttemptID !! attemptID with
    | None => Some missingTransitionReceipt
    | Some proof =>
      missing_when (at_OccurrenceID (auth_record proof) ≠ oc_ID value ∨
        at_DestinationKind (auth_record proof) ≠ oc_DestinationKind value) >>?
      AuthorizedAttempt_validateExactAssignments proof
        (assignmentsForAttempt assignments attemptID) receipts
    end) (base.elements (evidence_attempts (ids ++ supporting) receiptIndex)) >>?
  each (fun id => match receiptIndex !! id with
    | None => Some (invalid "receiptIDs")
    | Some receipt => OccurrenceRecord_validateReceiptTrust value receipt proofsByAttemptID
        assignmentIndex itemIndex
    end) ids >>?
  each (fun id => match receiptIndex !! id with
    | None => Some (invalid "transition.receipts")
    | Some receipt =>
      invalid_when (rr_OccurrenceID (vr_record receipt) ≠ oc_ID value) "transition.receipts" >>?
      OccurrenceRecord_validateReceiptTrust value receipt proofsByAttemptID assignmentIndex
        itemIndex
    end) supporting >>?
  (if decide (st_To transition = "securelyQueued"%string)
   then securely_queued_check value receipts activeAttempt assignments supporting receiptIndex
   else None) >>?
  (if ends_cancellation transition
   then requireOccurrenceCancellationEvidence (oc_DestinationKind value) (oc_ID value)
     (current_assignments items) ids supporting receiptIndex
   else None).

(** ** Final states *)

Fixpoint index_terminal_attempts (value : OccurrenceRecord)
    (index : gmap AttemptID AuthorizedAttempt) (proofs : list AuthorizedAttempt)
    : QueueError + gmap AttemptID AuthorizedAttempt :=
  match proofs with
  | [] => inr index
  | proof :: proofs =>
    let attempt := auth_record proof in
    AttemptRecord_Validate attempt >>!
    invalid_when (at_OccurrenceID attempt ≠ oc_ID value ∨
      at_OccurrenceSnapshotDigest attempt ≠ oc_OccurrenceSnapshotDigest value)
      "terminal.attemptEvidence" >>!
    invalid_when (is_Some (index !! at_ID attempt)) "terminal.attemptEvidence" >>!
    index_terminal_attempts value (<[at_ID attempt := proof]> index) proofs
  end.

Fixpoint index_terminal_errors (value : OccurrenceRecord) (index : gmap ErrorID ErrorRecord)
    (records : list ErrorRecord) : QueueError + gmap ErrorID ErrorRecord :=
  match records with
  | [] => inr index
  | record :: records =>
    ErrorRecord_Validate record >>!
    invalid_when (er_OccurrenceID record ≠ oc_ID value) "terminal.errorRecords" >>!
    invalid_when (is_Some (index !! er_ID record)) "terminal.errorRecords" >>!
    index_terminal_errors value (<[er_ID record := record]> index) records
  end.

(** A manifest is about an assignment of the evidence and agrees with the
    items. *)
Definition terminal_manifest_check (value : OccurrenceRecord)
    (assignmentsByID : gmap AssignmentID AssignmentRecord) (itemsByID : gmap ItemID ItemRecord)
    (entry : AssignmentID * AssignmentResultManifest) : option QueueError :=
  match assignmentsByID !! entry.1 with
  | None => Some (invalid "resultManifest.assignmentID")
  | Some assignment =>
    AssignmentResultManifest_ValidateAuthorizedBy entry.2 assignment (oc_ID value) >>?
    AssignmentResultManifest_validateAgainstItemIndex entry.2 itemsByID
  end.

(** The first part of [validateTerminalResultEvidence]: everything by ID. *)
Definition terminal_index (value : OccurrenceRecord) (items : list ItemRecord)
    (authorizedAttempts : list AuthorizedAttempt) (assignments : list AssignmentRecord)
    (resultManifests : list AssignmentResultManifest) (errorRecords : list ErrorRecord)
    : QueueError + TerminalIndex :=
  let? attemptsByID := index_terminal_attempts value ∅ authorizedAttempts in
  invalid_when (zlen assignments > maximumAssignments) "assignments" >>!
  let? assignmentsByID := index_assignments ∅ assignments in
  let? itemsByID := items_by_id "items" ∅ items in
  let? manifests := indexResultManifests resultManifests in
  each (terminal_manifest_check value assignmentsByID itemsByID) (map_to_list manifests) >>!
  let? errorsByID := index_terminal_errors value ∅ errorRecords in
  inr (mkTerminalIndex attemptsByID assignmentsByID (assignments_by_attempt assignments) manifests
    errorsByID).

(** All assignments of an attempt have ended the way the attempt did. *)
Definition attempt_outcome_check (index : TerminalIndex) (receiptIndex : verifiedReceiptIndex)
    (entry : AttemptID * list AssignmentRecord) : option QueueError :=
  match ti_attemptsByID index !! entry.1 with
  | None => Some (invalid "terminal.attemptCoverage")
  | Some proof =>
    let attempt := auth_record proof in
    AuthorizedAttempt_validateExactAssignments proof entry.2 (verifiedReceiptSlice receiptIndex) >>?
    if decide (at_State attempt = "settled"%string) then
      match MakeTerminalAssignmentOutcomesDigest entry.2 with
      | inl _ => Some (invalid "terminal.attemptOutcome")
      | inr digest =>
        invalid_when (at_TerminalAssignmentOutcomesDigest attempt ≠ Some digest)
          "terminal.attemptOutcome"
      end
    else
      invalid_when (Exists (fun assignment => as_State assignment ≠ at_State attempt) entry.2)
        "terminal.attemptOutcome"
  end.

(** One receipt of an assignment: signed, and about this assignment. *)
Definition terminal_receipt (value : OccurrenceRecord) (assignment : AssignmentRecord)
    (receiptIndex : verifiedReceiptIndex) (used : UsedEvidence) (receiptID : ReceiptID)
    : QueueError + UsedEvidence :=
  match receiptIndex !! receiptID with
  | None => inl missingTransitionReceipt
  | Some receipt =>
    let record := vr_record receipt in
    missing_when (¬ signed_receipt assignment receipt ∨ rr_OccurrenceID record ≠ oc_ID value ∨
      rr_AttemptID record ≠ as_AttemptID assignment ∨
      rr_AssignmentID record ≠ Some (as_ID assignment)) >>!
    inr (used
      <| ue_sourceRejectionReceiptIDs :=
           (if decide (rr_Stage record = "sourceResultRejected"%string) then {[receiptID]} else ∅) ∪
           ue_sourceRejectionReceiptIDs used |>
      <| ue_receiptErrorIDs :=
           from_option (fun id => {[id]}) ∅ (rr_ErrorID record) ∪ ue_receiptErrorIDs used |>)
  end.

(** A released assignment shows its release. *)
Definition release_evidence (value : OccurrenceRecord) (assignment : AssignmentRecord)
    (receiptIndex : verifiedReceiptIndex) : option QueueError :=
  let ids := assignment_receipt_ids assignment in
  if decide (as_State assignment = "released"%string) then
    requireExternalReleaseEvidence (oc_ID value) (as_AttemptID assignment) [as_ID assignment] ids
      ids receiptIndex
  else if decide (as_State assignment = "localReleased"%string) then
    missing_when (¬ Exists (fun receipt => stage_of receipt = "localReleased"%string ∧
      AssignmentRecord_terminalReceiptMatchesCurrentLease assignment receipt)
      (assignment_receipts assignment receiptIndex))
  else None.

(** The body of the loop over the summaries. *)
Definition terminal_assignment (value : OccurrenceRecord) (items : list ItemRecord)
    (index : TerminalIndex) (receiptIndex : verifiedReceiptIndex) (used : UsedEvidence)
    (entry : AssignmentID * assignmentExecutionSummary) : QueueError + UsedEvidence :=
  let summary := entry.2 in
  match ti_assignmentsByID index !! entry.1 with
  | None => inl (invalid "terminal.incompleteAssignmentOutcome")
  | Some assignment =>
    invalid_when (as_OccurrenceID assignment ≠ oc_ID value ∨
      aes_itemCount summary ≠ zlen (as_ItemIDs assignment) ∨
      aes_terminalOutcomeCount summary ≠ aes_itemCount summary ∨
      aes_hasCancellationUnconfirmed summary ∨
      ¬ receiptSubset (assignment_receipt_ids assignment) (occurrence_receipt_ids value))
      "terminal.incompleteAssignmentOutcome" >>!
    let? used := fold_checked (terminal_receipt value assignment receiptIndex) used
      (assignment_receipt_ids assignment) in
    release_evidence value assignment receiptIndex >>!
    match ti_manifestsByAssignment index !! entry.1 with
    | Some manifest =>
      validateTerminalManifestAssignment value assignment summary manifest items index receiptIndex
        (used <| ue_usedManifests := {[entry.1]} ∪ ue_usedManifests used |>)
    | None =>
      validateManifestlessTerminalAssignment value assignment summary items index receiptIndex used
    end
  end.

Definition no_evidence_used : UsedEvidence := mkUsedEvidence ∅ ∅ ∅ ∅ ∅.

(** Nothing of the evidence is left over. *)
Definition all_evidence_used (index : TerminalIndex) (used : UsedEvidence) : Prop :=
  size (ue_usedManifests used) = size (ti_manifestsByAssignment index) ∧
  ue_usedErrors used = dom (ti_errorsByID index) ∧
  ue_receiptErrorIDs used ⊆ ue_usedErrors used ∧
  ue_usedSourceRejectionReceiptIDs used = ue_sourceRejectionReceiptIDs used.

#[global] Instance all_evidence_used_dec index used : Decision (all_evidence_used index used).
Proof. unfold all_evidence_used. apply _. Defined.

Definition OccurrenceRecord_validateTerminalResultEvidence (value : OccurrenceRecord)
    (items : list ItemRecord) (authorizedAttempts : list AuthorizedAttempt)
    (assignments : list AssignmentRecord) (resultManifests : list AssignmentResultManifest)
    (errorRecords : list ErrorRecord) (receiptIndex : verifiedReceiptIndex) : option QueueError :=
  if decide ((items ≫= executions) = []) then
    invalid_when (zlen resultManifests ≠ 0 ∨ zlen assignments ≠ 0 ∨ zlen authorizedAttempts ≠ 0 ∨
      zlen errorRecords ≠ 0) "terminal.assignmentEvidence"
  else
    invalid_when (zlen authorizedAttempts > maximumAssignments ∨
      zlen errorRecords > maximumItems + maximumAssignments) "terminal.attemptEvidence" >>?
    let! index := terminal_index value items authorizedAttempts assignments resultManifests
      errorRecords in
    let! summaries := fold_checked (summarize_execution value index) (mkSummaries ∅ ∅)
      (item_entries items) in
    let attempts := size (sum_usedAttempts summaries) in
    invalid_when (size (ti_assignmentsByID index) ≠ size (sum_byAssignment summaries) ∨
      size (ti_attemptsByID index) ≠ attempts ∨ size (ti_assignmentsByAttempt index) ≠ attempts)
      "terminal.assignmentCoverage" >>?
    each (attempt_outcome_check index receiptIndex)
      (map_to_list (ti_assignmentsByAttempt index)) >>?
    let! used := fold_checked (terminal_assignment value items index receiptIndex) no_evidence_used
      (map_to_list (sum_byAssignment summaries)) in
    invalid_when (¬ all_evidence_used index used) "terminal.unusedEvidence".

(** Every item is checked against its application receipt, and the occurrence
    has recorded that receipt. *)
Definition applied_items_check (value : OccurrenceRecord) (items : list ItemRecord)
    (receiptIndex : verifiedReceiptIndex) : option QueueError :=
  each (fun item =>
    ItemRecord_validateApplication_indexed item receiptIndex (oc_SourceReceiptSigner value) >>?
    missing_when (some_and (item_ApplicationReceiptID item) (fun id =>
      ¬ containsReceiptID (occurrence_receipt_ids value) id))) items.

(** ** Publication *)

Record OccurrenceUpdateEvidence := mkOccurrenceUpdateEvidence {
  oue_Receipts : list VerifiedReceipt;
  oue_ActiveAttempt : option AuthorizedAttempt;
  oue_AuthorizedAttempts : list AuthorizedAttempt;
  oue_Assignments : list AssignmentRecord;
  oue_Items : list ItemRecord;
  oue_ResultManifests : list AssignmentResultManifest;
  oue_ErrorRecords : list ErrorRecord;
  oue_AppliedEventIDs : gset TransitionID }.

(** The record names the event that led to it. *)
Definition result_of_transition (value : OccurrenceRecord) (transition : OccurrenceTransition)
    : Prop :=
  oc_Revision value = st_ResultingRevision transition ∧ oc_State value = st_To transition ∧
  oc_LastTransitionID value = Some (st_ID transition) ∧
  oc_StateChangedAt value = st_OccurredAt transition ∧
  oc_LastReason value = st_Reason transition ∧
  oc_LastErrorID value = (st_Reason transition ≫= tr_ErrorID).

#[global] Instance result_of_transition_dec value transition :
  Decision (result_of_transition value transition).
Proof. unfold result_of_transition. apply _. Defined.

(** An occurrence that ends before execution has nothing to report but what
    ended before execution. *)
Definition pre_execution_terminal_check (value previous : OccurrenceRecord) : option QueueError :=
  let report := oc_Report value in
  if decide (oc_State value = "completedWithErrors"%string ∧
       oneOf (oc_State previous) ["preparing"; "waitingForSpace"; "waitingForStorage"]%string) then
    invalid_when (rc_Submitted report ≠ 0 ∨ rc_Completed report ≠ 0 ∨ rc_Applied report ≠ 0 ∨
      rc_ResultNotAppliedSourceMissing report ≠ 0 ∨
      rc_ResultNotAppliedSourceChanged report ≠ 0 ∨ rc_FailedExecution report ≠ 0 ∨
      rc_InvalidResult report ≠ 0 ∨ rc_CancelledAfterDisclosure report ≠ 0 ∨
      ReportCounters_TerminalCount report ≠ rc_Targeted report) "counters.preExecutionTerminal"
  else None.

(** What a published final state has to show. *)
Definition terminal_publication_check (value : OccurrenceRecord)
    (evidence : OccurrenceUpdateEvidence) : option QueueError :=
  OccurrenceRecord_ValidateAgainstItems value (oue_Items evidence) >>?
  let! receiptIndex := newVerifiedReceiptIndex (oue_Receipts evidence) in
  OccurrenceRecord_validateTerminalResultEvidence value (oue_Items evidence)
    (oue_AuthorizedAttempts evidence) (oue_Assignments evidence) (oue_ResultManifests evidence)
    (oue_ErrorRecords evidence) receiptIndex >>?
  applied_items_check value (oue_Items evidence) receiptIndex.

Definition OccurrenceRecord_ValidateTransitionUpdateFrom (value previous : OccurrenceRecord)
    (transition : OccurrenceTransition) (evidence : OccurrenceUpdateEvidence)
    : option QueueError :=
  let ids := occurrence_receipt_ids value in
  OccurrenceRecord_Validate value >>?
  invalid_when (¬ same_occurrence value previous ∨ ¬ result_of_transition value transition)
    "occurrence" >>?
  invalid_when (replaced (oc_PreparedAt previous) (oc_PreparedAt value)) "preparedAt" >>?
  invalid_when (rc_Targeted (oc_Report value) ≠ rc_Targeted (oc_Report previous))
    "counters.targeted" >>?
  invalid_when (counters_regressed (oc_Report previous) (oc_Report value)) "counters.regression" >>?
  pre_execution_terminal_check value previous >>?
  invalid_when (¬ receiptSubset (occurrence_receipt_ids previous) ids ∨
    ¬ receiptSubset (elements (st_SupportingReceiptIDs transition)) ids) "receiptIDs" >>?
  OccurrenceRecord_ValidateTransition previous transition (oue_Receipts evidence)
    (oue_ActiveAttempt evidence) (oue_AuthorizedAttempts evidence) (oue_Assignments evidence)
    (oue_Items evidence) (oue_AppliedEventIDs evidence) >>?
  if occurrenceTerminal (oc_State value) then terminal_publication_check value evidence else None.

(** The boundary for an occurrence that was loaded (occurrence.go). *)
Definition OccurrenceRecord_ValidateSourceBound (value : OccurrenceRecord)
    (schedule : ScheduleRecord) (items : list ItemRecord) (receipts : list VerifiedReceipt)
    (authorizedAttempts : list AuthorizedAttempt) (assignments : list AssignmentRecord)
    (resultManifests : list AssignmentResultManifest) (errorRecords : list ErrorRecord)
    : option QueueError :=
  OccurrenceRecord_ValidateAuthorizedBy value schedule >>?
  OccurrenceRecord_ValidateAgainstItems value items >>?
  let! receiptIndex := newVerifiedReceiptIndex receipts in
  OccurrenceRecord_validateTerminalResultEvidence value items authorizedAttempts assignments
    resultManifests errorRecords receiptIndex >>?
  applied_items_check value items receiptIndex.
End evidence.
