(* ===== verification/ComputeQueueAdmission.v ===== *)
(** * internal/computequeue: job custody admission (job_custody_admission.go, _crypto.go, _key_file.go)

    The header of a protected job capsule, its signed envelope, and the
    verifier that accepts an envelope only under a trusted P-256 key.  The
    curve is the parameter [CurveLib]; the decoder of the key file is the
    parameter [JsonDecoder]. *)

From S2P Require Import Prelude GoEncoding GoText Sha256 P256 ComputeQueue ComputeQueueCanonical ComputeQueueAuthorization ComputeQueueReceipts.
#[local] Open Scope Z_scope.

Definition MaximumJobCustodyProtectedBytes : int64 := 2 ^ 40.
Definition MaximumJobCustodyChunkBytes : int64 := 8 * 1024 * 1024.

(** ** Protected objects *)

Record JobCapsuleProtectedObjectDescriptor := mkJobCapsuleProtectedObjectDescriptor {
  jpo_ByteCount : int64;
  jpo_SHA256 : Digest;
  jpo_ChunkByteCount : int64;
  jpo_ChunkCount : int64 }.

#[global] Instance JobCapsuleProtectedObjectDescriptor_eq_dec : EqDecision JobCapsuleProtectedObjectDescriptor.
Proof. solve_decision. Defined.

Definition JobCapsuleProtectedObjectDescriptor_json (v : JobCapsuleProtectedObjectDescriptor) : json :=
  JObject (
    field "byteCount" (JInt (jpo_ByteCount v)) ++
    field "sha256" (JString (jpo_SHA256 v)) ++
    field "chunkByteCount" (JInt (jpo_ChunkByteCount v)) ++
    field "chunkCount" (JInt (jpo_ChunkCount v))).

(** The number of chunks; the callers have refused a chunk size of zero. *)
Definition chunk_count (byteCount chunkByteCount : int64) : int64 :=
  i64 (Z.quot (i64 (byteCount - 1)) chunkByteCount + 1).

Definition JobCapsuleProtectedObjectDescriptor_Validate
    (value : JobCapsuleProtectedObjectDescriptor) : option QueueError :=
  invalid_when (jpo_ByteCount value ≤ 0 ∨ jpo_ByteCount value > MaximumJobCustodyProtectedBytes ∨
    jpo_ChunkByteCount value ≤ 0 ∨ jpo_ChunkByteCount value > MaximumJobCustodyChunkBytes ∨
    jpo_ChunkCount value ≤ 0 ∨
    jpo_ChunkCount value ≠ chunk_count (jpo_ByteCount value) (jpo_ChunkByteCount value))
    "protectedObject.geometry" >>?
  Digest_Validate (jpo_SHA256 value).

Definition NewJobCapsuleProtectedObjectDescriptor (byteCount : int64) (sha256 : Digest)
    (chunkByteCount : int64) : QueueError + JobCapsuleProtectedObjectDescriptor :=
  let value := mkJobCapsuleProtectedObjectDescriptor byteCount sha256 chunkByteCount
    (chunk_count byteCount chunkByteCount) in
  invalid_when (byteCount ≤ 0 ∨ chunkByteCount ≤ 0) "protectedObject.geometry" >>!
  JobCapsuleProtectedObjectDescriptor_Validate value >>!
  inr value.

Definition JobCapsuleProtectedObjectDescriptor_Digest
    (value : JobCapsuleProtectedObjectDescriptor) : Digest :=
  SHA256Digest "facets.job-custody.protected-object.v1"
    [fmt_Sprint (jpo_ByteCount value); jpo_SHA256 value; fmt_Sprint (jpo_ChunkByteCount value);
     fmt_Sprint (jpo_ChunkCount value)].

(** ** Headers *)

Record JobCustodyAdmissionHeader := mkJobCustodyAdmissionHeader {
  jah_ProtocolVersion : Z;
  jah_CapsuleID : JobCapsuleID;
  jah_AssignmentID : AssignmentID;
  jah_RouteRecipientWorkerID : WorkerID;
  jah_RouteRecipientKeyFingerprint : Digest;
  jah_ProtectedObject : JobCapsuleProtectedObjectDescriptor;
  jah_NotBeforeAt : Timestamp;
  jah_ExpiresAt : Timestamp;
  jah_RetentionUntil : Timestamp;
  jah_IdempotencyKey : Digest }.

#[global] Instance JobCustodyAdmissionHeader_eq_dec : EqDecision JobCustodyAdmissionHeader.
Proof. solve_decision. Defined.

Definition JobCustodyAdmissionHeader_json (v : JobCustodyAdmissionHeader) : json :=
  JObject (
    field "protocolVersion" (JInt (jah_ProtocolVersion v)) ++
    field "capsuleID" (JString (jah_CapsuleID v)) ++
    field "assignmentID" (JString (jah_AssignmentID v)) ++
    field "routeRecipientWorkerID" (JString (jah_RouteRecipientWorkerID v)) ++
    field "routeRecipientKeyFingerprint" (JString (jah_RouteRecipientKeyFingerprint v)) ++
    field "protectedObject" (JobCapsuleProtectedObjectDescriptor_json (jah_ProtectedObject v)) ++
    field "notBeforeAt" (JInt (jah_NotBeforeAt v)) ++
    field "expiresAt" (JInt (jah_ExpiresAt v)) ++
    field "retentionUntil" (JInt (jah_RetentionUntil v)) ++
    field "idempotencyKey" (JString (jah_IdempotencyKey v))).

Definition header_components (value : JobCustodyAdmissionHeader) : list string :=
  [jah_CapsuleID value; jah_AssignmentID value; jah_RouteRecipientWorkerID value;
   jah_RouteRecipientKeyFingerprint value;
   JobCapsuleProtectedObjectDescriptor_Digest (jah_ProtectedObject value);
   fmt_Sprint (jah_NotBeforeAt value); fmt_Sprint (jah_ExpiresAt value);
   fmt_Sprint (jah_RetentionUntil value)].

Definition JobCustodyAdmissionHeader_MakeIdempotencyKey (value : JobCustodyAdmissionHeader)
    : Digest :=
  SHA256Digest "facets.job-custody.admission-idempotency.v1" (header_components value).

Definition JobCustodyAdmissionHeader_Digest (value : JobCustodyAdmissionHeader) : Digest :=
  SHA256Digest "facets.job-custody.admission-header.v1"
    ([fmt_Sprint (jah_ProtocolVersion value)] ++ header_components value ++
     [jah_IdempotencyKey value]).

Section headers.
Context `{UuidParser}.

Definition JobCustodyAdmissionHeader_Validate (value : JobCustodyAdmissionHeader)
    : option QueueError :=
  requireProtocol (jah_ProtocolVersion value) >>?
  validateOpaqueID (jah_CapsuleID value) >>?
  validateOpaqueID (jah_AssignmentID value) >>?
  validateOpaqueID (jah_RouteRecipientWorkerID value) >>?
  Digest_Validate (jah_RouteRecipientKeyFingerprint value) >>?
  JobCapsuleProtectedObjectDescriptor_Validate (jah_ProtectedObject value) >>?
  Timestamp_Validate (jah_NotBeforeAt value) >>?
  Timestamp_Validate (jah_ExpiresAt value) >>?
  Timestamp_Validate (jah_RetentionUntil value) >>?
  invalid_when (jah_NotBeforeAt value ≥ jah_ExpiresAt value ∨
    jah_ExpiresAt value > jah_RetentionUntil value ∨
    jah_IdempotencyKey value ≠ JobCustodyAdmissionHeader_MakeIdempotencyKey value)
    "jobCustodyAdmissionHeader".

#[global] Instance JobCustodyAdmissionHeader_Validatable : Validatable JobCustodyAdmissionHeader :=
  {| Validate := JobCustodyAdmissionHeader_Validate; to_json := JobCustodyAdmissionHeader_json |}.

Definition NewJobCustodyAdmissionHeader (capsuleID : JobCapsuleID) (assignmentID : AssignmentID)
    (routeRecipientWorkerID : WorkerID) (routeRecipientKeyFingerprint : Digest)
    (protectedObject : JobCapsuleProtectedObjectDescriptor)
    (notBeforeAt expiresAt retentionUntil : Timestamp) : QueueError + JobCustodyAdmissionHeader :=
  let header := mkJobCustodyAdmissionHeader ProtocolVersion capsuleID assignmentID
    routeRecipientWorkerID routeRecipientKeyFingerprint protectedObject notBeforeAt expiresAt
    retentionUntil in
  let value := header (JobCustodyAdmissionHeader_MakeIdempotencyKey (header ""%string)) in
  JobCustodyAdmissionHeader_Validate value >>!
  inr value.

Definition jobCustodyCanonicalHeaderDigest (header : JobCustodyAdmissionHeader)
    : QueueError + Digest :=
  let? encoded := EncodeCanonical header in
  inr (SHA256Digest "facets.job-custody.admission-header-canonical.v1" [of_str encoded]).
End headers.

(** ** Envelopes *)

Record JobCustodySignedAdmissionEnvelope := mkJobCustodySignedAdmissionEnvelope {
  jse_ProtocolVersion : Z;
  jse_Header : JobCustodyAdmissionHeader;
  jse_CanonicalHeaderDigest : Digest;
  jse_SignatureProfileID : string;
  jse_Signature : SignatureValue }.

#[global] Instance JobCustodySignedAdmissionEnvelope_eq_dec : EqDecision JobCustodySignedAdmissionEnvelope.
Proof. solve_decision. Defined.

Definition JobCustodySignedAdmissionEnvelope_json (v : JobCustodySignedAdmissionEnvelope) : json :=
  JObject (
    field "protocolVersion" (JInt (jse_ProtocolVersion v)) ++
    field "header" (JobCustodyAdmissionHeader_json (jse_Header v)) ++
    field "canonicalHeaderDigest" (JString (jse_CanonicalHeaderDigest v)) ++
    field "signatureProfileID" (JString (jse_SignatureProfileID v)) ++
    field "signature" (JString (jse_Signature v))).

(** A header and the instant of its admission. *)
Record JobCustodyAdmissionExpectation := mkJobCustodyAdmissionExpectation {
  jax_header : JobCustodyAdmissionHeader;
  jax_acceptedAt : Timestamp }.

Record VerifiedJobCustodyAdmission := mkVerifiedJobCustodyAdmission {
  vja_header : JobCustodyAdmissionHeader;
  vja_expectedSigner : ReceiptSignerBinding }.

Section envelopes.
Context `{UuidParser}.

Definition JobCustodySignedAdmissionEnvelope_Validate (value : JobCustodySignedAdmissionEnvelope)
    : option QueueError :=
  requireProtocol (jse_ProtocolVersion value) >>?
  JobCustodyAdmissionHeader_Validate (jse_Header value) >>?
  requireMachineToken (jse_SignatureProfileID value) "admissionEnvelope.signatureProfileID" >>?
  SignatureValue_Validate (jse_Signature value) >>?
  let! expected := jobCustodyCanonicalHeaderDigest (jse_Header value) in
  invalid_when (jse_CanonicalHeaderDigest value ≠ expected)
    "admissionEnvelope.canonicalHeaderDigest".

#[global] Instance JobCustodySignedAdmissionEnvelope_Validatable :
  Validatable JobCustodySignedAdmissionEnvelope :=
  {| Validate := JobCustodySignedAdmissionEnvelope_Validate;
     to_json := JobCustodySignedAdmissionEnvelope_json |}.

Definition EncodeJobCustodyAdmissionCanonical (value : JobCustodySignedAdmissionEnvelope)
    : QueueError + bytes :=
  encodeCanonicalWithBounds value custodyJSONBounds.

Definition DecodeJobCustodyAdmissionCanonical `{!JsonDecoder JobCustodySignedAdmissionEnvelope}
    (data : bytes) : QueueError + JobCustodySignedAdmissionEnvelope :=
  decodeCanonicalWithBounds data custodyJSONBounds.

Definition NewJobCustodySignedAdmissionEnvelope (header : JobCustodyAdmissionHeader)
    (signatureProfileID : string) (signature : SignatureValue)
    : QueueError + JobCustodySignedAdmissionEnvelope :=
  let? digest := jobCustodyCanonicalHeaderDigest header in
  let value := mkJobCustodySignedAdmissionEnvelope ProtocolVersion header digest
    signatureProfileID signature in
  JobCustodySignedAdmissionEnvelope_Validate value >>!
  inr value.

Definition JobCustodyAdmissionSigningPayloadDigest (header : JobCustodyAdmissionHeader)
    (signer : ReceiptSignerBinding) : QueueError + Digest :=
  JobCustodyAdmissionHeader_Validate header >>!
  ReceiptSignerBinding_Validate signer >>!
  let? canonicalHeaderDigest := jobCustodyCanonicalHeaderDigest header in
  inr (SHA256Digest "facets.job-custody.admission-signature-payload.v1"
    [fmt_Sprint ProtocolVersion; rsb_SignatureProfileID signer; rsb_SignerID signer;
     rsb_SigningKeyID signer; fmt_Sprint (rsb_SigningKeyRevision signer); canonicalHeaderDigest]).

Definition JobCustodySignedAdmissionEnvelope_SignaturePayloadDigest
    (value : JobCustodySignedAdmissionEnvelope) (expectedSigner : ReceiptSignerBinding)
    : QueueError + Digest :=
  ReceiptSignerBinding_Validate expectedSigner >>!
  invalid_when (jse_SignatureProfileID value ≠ rsb_SignatureProfileID expectedSigner)
    "admissionEnvelope.signatureProfileID" >>!
  JobCustodyAdmissionSigningPayloadDigest (jse_Header value) expectedSigner.

Definition NewJobCustodyAdmissionExpectation (header : JobCustodyAdmissionHeader)
    (acceptedAt : Timestamp) : QueueError + JobCustodyAdmissionExpectation :=
  JobCustodyAdmissionHeader_Validate header >>!
  Timestamp_Validate acceptedAt >>!
  invalid_when (acceptedAt < jah_NotBeforeAt header ∨ acceptedAt ≥ jah_ExpiresAt header)
    "jobCustodyAdmission.acceptedAt" >>!
  inr (mkJobCustodyAdmissionExpectation header acceptedAt).

(** The interface of the verifiers is that of [receiptSignatureVerifier]. *)
Definition acceptVerifiedJobCustodyAdmission (envelope : JobCustodySignedAdmissionEnvelope)
    (expectation : JobCustodyAdmissionExpectation) (expectedSigner : ReceiptSignerBinding)
    (verifier : option receiptSignatureVerifier) : QueueError + VerifiedJobCustodyAdmission :=
  JobCustodySignedAdmissionEnvelope_Validate envelope >>!
  JobCustodyAdmissionHeader_Validate (jax_header expectation) >>!
  ReceiptSignerBinding_Validate expectedSigner >>!
  match verifier with
  | None => inl (invalid "admissionEnvelope.verifier")
  | Some verifier =>
    invalid_when (jse_Header envelope ≠ jax_header expectation ∨
      jse_SignatureProfileID envelope ≠ rsb_SignatureProfileID expectedSigner)
      "verifiedJobCustodyAdmission" >>!
    let? payloadDigest :=
      JobCustodySignedAdmissionEnvelope_SignaturePayloadDigest envelope expectedSigner in
    VerifySignature verifier (jse_Signature envelope) payloadDigest expectedSigner >>!
    inr (mkVerifiedJobCustodyAdmission (jse_Header envelope) expectedSigner)
  end.
End envelopes.

(** ** The P-256 verifier (job_custody_admission_crypto.go) *)

Definition JobCustodyP256AdmissionSignatureProfile : string := "facets.p256-sha256.utf8-digest-v1".

Definition authentication_when (P : Prop) `{Decision P} : option QueueError :=
  err_when P ErrJobCustodyAdmissionAuthentication.

(** The public key is a point of the curve. *)
Record JobCustodyP256AdmissionVerificationKey := mkJobCustodyP256AdmissionVerificationKey {
  jvk_signer : ReceiptSignerBinding;
  jvk_publicKey : Z * Z }.

#[global] Instance ReceiptSignerBinding_countable : Countable ReceiptSignerBinding.
Proof.
  refine (inj_countable' (fun b => (rsb_SignerID b, rsb_SigningKeyID b, rsb_SigningKeyRevision b,
    rsb_SignatureProfileID b)) (fun t => mkReceiptSignerBinding t.1.1.1 t.1.1.2 t.1.2 t.2) _).
  by intros [].
Defined.

(** [base64.RawURLEncoding] ignores the trailing bits that strict decoding
    refuses. *)
Fixpoint b64_loose_unsextets (l : list Z) : option bytes :=
  match l with
  | [] => Some []
  | [_] => None
  | [x; y] => Some [byte_of (x * 4 + y / 16)]
  | [x; y; z] => Some [byte_of (x * 4 + y / 16); byte_of (y mod 16 * 16 + z / 4)]
  | x :: y :: z :: w :: l' =>
    rest ← b64_loose_unsextets l';
    Some (byte_of (x * 4 + y / 16) :: byte_of (y mod 16 * 16 + z / 4)
          :: byte_of (z mod 4 * 64 + w) :: rest)
  end.

Definition b64_loose_DecodeString (s : string) : option bytes :=
  sextets ← mapM b64_value (b64_significant (str s));
  b64_loose_unsextets sextets.

Section p256.
Context `{CurveLib}.

(** The source checks the point again with [IsOnCurve]; [Unmarshal] returns no
    other points. *)
Definition NewJobCustodyP256AdmissionVerificationKey (signer : ReceiptSignerBinding)
    (publicKeyX963 : bytes) : QueueError + JobCustodyP256AdmissionVerificationKey :=
  authentication_when (ReceiptSignerBinding_Validate signer ≠ None ∨
    rsb_SignatureProfileID signer ≠ JobCustodyP256AdmissionSignatureProfile ∨
    zlen publicKeyX963 ≠ 65) >>!
  match elliptic_Unmarshal publicKeyX963 with
  | None => inl ErrJobCustodyAdmissionAuthentication
  | Some point => inr (mkJobCustodyP256AdmissionVerificationKey signer point)
  end.

(** [keys] of the verifier. *)
Record JobCustodyP256AdmissionVerifier := mkJobCustodyP256AdmissionVerifier {
  jav_keys : gmap ReceiptSignerBinding JobCustodyP256AdmissionVerificationKey }.

Fixpoint index_keys (keys : gmap ReceiptSignerBinding JobCustodyP256AdmissionVerificationKey)
    (trustedKeys : list JobCustodyP256AdmissionVerificationKey)
    : QueueError + JobCustodyP256AdmissionVerifier :=
  match trustedKeys with
  | [] => inr (mkJobCustodyP256AdmissionVerifier keys)
  | key :: trustedKeys =>
    authentication_when (is_Some (keys !! jvk_signer key) ∨
      rsb_SignatureProfileID (jvk_signer key) ≠ JobCustodyP256AdmissionSignatureProfile) >>!
    index_keys (<[jvk_signer key := key]> keys) trustedKeys
  end.

Definition NewJobCustodyP256AdmissionVerifier
    (trustedKeys : list JobCustodyP256AdmissionVerificationKey)
    : QueueError + JobCustodyP256AdmissionVerifier :=
  index_keys ∅ trustedKeys.

(** [jobCustodyP256SignatureVerifier.VerifySignature] *)
Definition p256_VerifySignature (key : JobCustodyP256AdmissionVerificationKey)
    (signature : SignatureValue) (payloadDigest : Digest) (expectedSigner : ReceiptSignerBinding)
    : option QueueError :=
  authentication_when (expectedSigner ≠ jvk_signer key ∨
    rsb_SignatureProfileID expectedSigner ≠ JobCustodyP256AdmissionSignatureProfile) >>?
  match b64_loose_DecodeString signature with
  | None => Some ErrJobCustodyAdmissionAuthentication
  | Some raw =>
    let r := BigEndian_Uint (take 32 raw) in
    let s := BigEndian_Uint (drop 32 raw) in
    authentication_when (zlen raw ≠ 64) >>?
    authentication_when (r ≤ 0 ∨ s ≤ 0 ∨
      ecdsa_Verify (jvk_publicKey key) (Sum256 (str payloadDigest)) r s = false)
  end.

Definition jobCustodyP256SignatureVerifier (key : JobCustodyP256AdmissionVerificationKey)
    : receiptSignatureVerifier :=
  {| VerifySignature := p256_VerifySignature key |}.

Definition JobCustodyP256AdmissionVerifier_Verify `{UuidParser}
    (verifier : option JobCustodyP256AdmissionVerifier)
    (envelope : JobCustodySignedAdmissionEnvelope) (expectation : JobCustodyAdmissionExpectation)
    (expectedSigner : ReceiptSignerBinding) : QueueError + VerifiedJobCustodyAdmission :=
  match verifier with
  | None => inl ErrJobCustodyAdmissionAuthentication
  | Some verifier =>
    match jav_keys verifier !! expectedSigner with
    | None => inl ErrJobCustodyAdmissionAuthentication
    | Some key =>
      acceptVerifiedJobCustodyAdmission envelope expectation expectedSigner
        (Some (jobCustodyP256SignatureVerifier key))
    end
  end.

(** ** The key file (job_custody_admission_key_file.go)

    What follows the reading of the file. *)

Definition JobCustodyAdmissionKeyFileVersion : Z := 1.
Definition MaximumJobCustodyAdmissionKeys : Z := 64.

Record JobCustodyAdmissionKeyFileEntry := mkJobCustodyAdmissionKeyFileEntry {
  jke_PublicKeyX963 : string;
  jke_Signer : ReceiptSignerBinding }.

Record JobCustodyAdmissionKeyFile := mkJobCustodyAdmissionKeyFile {
  jkf_Keys : list JobCustodyAdmissionKeyFileEntry;
  jkf_Version : Z }.

Definition JobCustodyAdmissionKeyFileEntry_json (v : JobCustodyAdmissionKeyFileEntry) : json :=
  JObject (
    field "publicKeyX963" (JString (jke_PublicKeyX963 v)) ++
    field "signer" (ReceiptSignerBinding_json (jke_Signer v))).

Definition JobCustodyAdmissionKeyFile_json (v : JobCustodyAdmissionKeyFile) : json :=
  JObject (
    field "keys" (JList JobCustodyAdmissionKeyFileEntry_json (jkf_Keys v)) ++
    field "version" (JInt (jkf_Version v))).

(** The loop over the entries, with the fingerprints seen so far. *)
Fixpoint trusted_keys (seenPublicKeys : gset (list ascii))
    (trusted : list JobCustodyP256AdmissionVerificationKey)
    (entries : list JobCustodyAdmissionKeyFileEntry)
    : QueueError + list JobCustodyP256AdmissionVerificationKey :=
  match entries with
  | [] => inr trusted
  | entry :: entries =>
    match b64_DecodeString (jke_PublicKeyX963 entry) with
    | None => inl ErrJobCustodyAdmissionAuthentication
    | Some publicKey =>
      let fingerprint := Sum256 publicKey in
      authentication_when (b64_EncodeToString publicKey ≠ jke_PublicKeyX963 entry) >>!
      authentication_when (fingerprint ∈ seenPublicKeys) >>!
      let? key := NewJobCustodyP256AdmissionVerificationKey (jke_Signer entry) publicKey in
      trusted_keys ({[fingerprint]} ∪ seenPublicKeys) (trusted ++ [key]) entries
    end
  end.

(** The decoder accepts one document with known fields and nothing after it. *)
Definition LoadJobCustodyP256AdmissionVerifier `{!JsonDecoder JobCustodyAdmissionKeyFile}
    (data : bytes) : QueueError + JobCustodyP256AdmissionVerifier :=
  match json_Decode data with
  | None => inl ErrJobCustodyAdmissionAuthentication
  | Some value =>
    authentication_when (jkf_Version value ≠ JobCustodyAdmissionKeyFileVersion ∨
      zlen (jkf_Keys value) = 0 ∨ zlen (jkf_Keys value) > MaximumJobCustodyAdmissionKeys) >>!
    authentication_when (data ≠ Marshal (JobCustodyAdmissionKeyFile_json value) ++ [byte_of 10]) >>!
    let? trusted := trusted_keys ∅ [] (jkf_Keys value) in
    NewJobCustodyP256AdmissionVerifier trusted
  end.
End p256.
