(* ===== verification/ComputeQueueFacts.v ===== *)
(** * internal/computequeue: digests, checks and graphs

    Rules for the checks of the compute queue with the tactic [passes], which
    takes an accepted check apart; what equal digests mean; and the graphs of
    the lifecycles.  Then, for the witnesses, a parser of canonical UUID texts
    and one attempt of a source-local executor with its assignment; the two
    digests that are recomputed by the checks are left as they are defined. *)

From S2P Require Import Prelude GoEncoding Sha256 RelayInvariant GoText ComputeQueue ComputeQueueCanonical ComputeQueueAuthorization ComputeQueueReceipts ComputeQueueTransitions ComputeQueueAttempts ComputeQueueItems ComputeQueueLifecycle.
#[local] Open Scope Z_scope.

(** ** Rules *)

Lemma queue_checked_inr {E B} (o : option E) (k : E + B) b : checked o k = inr b ↔ o = None ∧ k = inr b.
Proof. destruct o; simpl; naive_solver. Qed.

Lemma result_then_inr {E A B} (r : E + A) (k : A → E + B) b :
  result_then r k = inr b ↔ ∃ a, r = inr a ∧ k a = inr b.
Proof. destruct r; simpl; naive_solver. Qed.

Lemma result_check_None {E A} (r : E + A) (k : A → option E) :
  result_check r k = None ↔ ∃ a, r = inr a ∧ k a = None.
Proof. destruct r; simpl; naive_solver. Qed.

Lemma each_None {E A} (f : A → option E) l : each f l = None ↔ Forall (fun x => f x = None) l.
Proof.
  induction l as [|x l IH]; simpl; [by rewrite Forall_nil|].
  by rewrite err_then_None, IH, Forall_cons.
Qed.

Lemma when_present_None {E A} (f : A → option E) o :
  when_present f o = None ↔ ∀ x, o = Some x → f x = None.
Proof. destruct o; simpl; naive_solver. Qed.

Lemma oneOf_spec value values : oneOf value values ↔ value ∈ values.
Proof. unfold oneOf. by rewrite bool_decide_spec. Qed.

Lemma receiptSubset_spec left right : receiptSubset left right ↔ left ⊆ right.
Proof.
  unfold receiptSubset, containsReceiptID. rewrite Is_true_true, forallb_forall.
  split.
  - intros H id Hid. apply list_elem_of_In, H in Hid. by apply bool_decide_eq_true in Hid.
  - intros H id Hid. apply bool_decide_eq_true. apply H. by apply list_elem_of_In.
Qed.

(** Takes an accepted chain of checks apart, one hypothesis per check. *)
Ltac passes H :=
  lazymatch type of H with
  | err_then _ _ = None =>
    let H' := fresh "H" in apply err_then_None in H; destruct H as [H' H]; passes H'; passes H
  | checked _ _ = inr _ =>
    let H' := fresh "H" in apply queue_checked_inr in H; destruct H as [H' H]; passes H'; passes H
  | result_then _ _ = inr _ =>
    let a := fresh "a" in let H' := fresh "H" in
    apply result_then_inr in H; destruct H as (a & H' & H); passes H
  | result_check _ _ = None =>
    let a := fresh "a" in let H' := fresh "H" in
    apply result_check_None in H; destruct H as (a & H' & H); passes H
  | err_when _ _ = None => apply err_when_None in H
  | inr _ = inr _ => injection H as H
  | _ => idtac
  end.

(** ** Digests *)

(** No component has 2^64 bytes. *)
Definition component_fits (component : string) : Prop := len component < 2 ^ 64.

Lemma framed_app_inj a b x y :
  component_fits a → component_fits b → framed (str a) ++ x = framed (str b) ++ y → a = b ∧ x = y.
Proof.
  unfold component_fits, framed, BigEndian_PutUint64, len. intros Ha Hb H.
  rewrite <- !app_assoc in H. apply app_inj_1 in H as [Hlen H]; [|by rewrite !be_bytes_length].
  apply (f_equal (be_value 0)) in Hlen. rewrite !be_value_bytes in Hlen.
  assert (∀ s : string, zlen (str s) = Z.of_nat (String.length s)) as Hz.
  { intros s. rewrite <- len_of_str. by rewrite of_str_str. }
  rewrite !Hz, !Z.mod_small in Hlen by (unfold zlen; lia).
  apply app_inj_1 in H as [Hs Hx].
  - split; [|done]. by rewrite <- (of_str_str a), Hs, of_str_str.
  - specialize (Hz a) as Hza. specialize (Hz b). unfold zlen in *. lia.
Qed.

Lemma framing_inj l l' :
  Forall component_fits l → Forall component_fits l' →
  concat (framed ∘ str <$> l) = concat (framed ∘ str <$> l') → l = l'.
Proof.
  intros Hl. revert l'. induction Hl as [|a l Ha Hl IH]; intros [|b l'] Hl' H; [done| | |].
  1, 2: exfalso; cbn in H; unfold framed, BigEndian_PutUint64 in H;
    apply (f_equal length) in H; rewrite ?length_app, ?be_bytes_length in H; simpl in H; lia.
  apply Forall_cons in Hl' as [Hb Hl']. cbn in H.
  apply framed_app_inj in H as [-> H]; [|done..]. by rewrite (IH l' Hl' H).
Qed.

(** The bytes under a digest. *)
Definition digest_input (domain : string) (components : list string) : bytes :=
  concat (framed ∘ str <$> domain :: components).

(** Two given byte strings are distinct and have one SHA-256 digest. *)
Definition sha256_collision (l l' : bytes) : Prop := l ≠ l' ∧ Sum256 l = Sum256 l'.

(** [C30] A digest of the compute queue stands for one purpose and one list of components: two
    equal digests come from the same domain and the same components in the same places, or the
    two framed inputs themselves are a collision of SHA-256.  No component can be moved across
    a boundary, dropped or merged with its neighbour. *)
Theorem digest_binds_components domain domain' components components' :
  Forall component_fits (domain :: components) → Forall component_fits (domain' :: components') →
  SHA256Digest domain components = SHA256Digest domain' components' →
  (domain = domain' ∧ components = components') ∨
  sha256_collision (digest_input domain components) (digest_input domain' components').
Proof.
  intros Hl Hl' H. unfold SHA256Digest in H. apply (inj hex_EncodeToString) in H.
  destruct (decide (digest_input domain components = digest_input domain' components'))
    as [Heq|Hne]; [|by right].
  apply framing_inj in Heq; [|done..]. left. by simplify_eq.
Qed.

Lemma digest_binds_components_witness :
  ("bind"%string = "bind"%string ∧ ["a"; ""; "bc"]%string = ["a"; ""; "bc"]%string) ∨
  sha256_collision (digest_input "bind" ["a"; ""; "bc"]%string)
    (digest_input "bind" ["a"; ""; "bc"]%string).
Proof.
  apply (digest_binds_components "bind" "bind" ["a"; ""; "bc"]%string ["a"; ""; "bc"]%string);
    [repeat constructor..|reflexivity].
Defined.

Lemma digest_valid l : zlen l = 32 → Digest_Validate (hex_EncodeToString l) = None.
Proof.
  intros Hl. unfold Digest_Validate. apply err_then_None. split; apply err_when_None.
  - rewrite hex_encode_length, lower_hex_encode, Hl. by intros [?|?].
  - rewrite hex_decode_encode. simpl. intros H. by apply H.
Qed.

(** Every digest that the package computes passes the check of a digest. *)
Lemma SHA256Digest_valid domain components : Digest_Validate (SHA256Digest domain components) = None.
Proof. apply digest_valid, Sum256_length. Qed.

(** ** Graphs *)

Lemma listed_permits (P : string → bool) (R : string → string → bool) to from :
  forallb (fun from => negb (P from) || forallb (fun to => negb (R to from)) occurrenceStates)
    occurrenceStates →
  OccurrenceState_valid from → OccurrenceState_valid to → P from → R to from = false.
Proof.
  rewrite Is_true_true, forallb_forall. unfold OccurrenceState_valid. rewrite !oneOf_spec.
  intros Ht Hfrom%list_elem_of_In Hto%list_elem_of_In HP. specialize (Ht _ Hfrom).
  apply Is_true_eq_true in HP. rewrite HP in Ht. cbn [negb orb] in Ht. rewrite forallb_forall in Ht.
  specialize (Ht _ Hto). by destruct (R to from).
Qed.

(** No event leads out of a final state of an occurrence. *)
Lemma terminal_occurrence_permits to from :
  OccurrenceState_valid from → OccurrenceState_valid to → occurrenceTerminal from →
  transitionPermits OccurrenceLife to from = false.
Proof. apply (listed_permits occurrenceTerminal). by vm_compute. Qed.

(** How many events an assignment has ahead of it at most. *)
Definition assignment_rank (state : AssignmentState) : nat :=
  case_of
    [("prepared", 10); ("sealed", 9); ("admissionPending", 8); ("custodied", 7);
     ("waitingForWorker", 6); ("claimed", 5); ("localExecuting", 5); ("executing", 4);
     ("retryableRejected", 4); ("localResultReady", 4); ("resultCustodied", 3);
     ("custodyCancellationRequested", 3); ("workerCancellationRequested", 3);
     ("localCancellationRequested", 3); ("delivered", 2); ("uncertainTermination", 2);
     ("localUncertainTermination", 2); ("applied", 1); ("custodyCancellationConfirmed", 1);
     ("workerCancellationConfirmed", 1); ("executionFailed", 1); ("invalidResult", 1);
     ("expired", 1); ("localApplied", 1); ("localCancellationConfirmed", 1);
     ("localExecutionFailed", 1); ("localInvalidResult", 1)]%string%nat 0%nat state.

Lemma assignment_rank_table :
  forallb (fun from => forallb (fun to =>
    negb (AssignmentState_valid from && AssignmentState_valid to && execution_permits to from) ||
    bool_decide (assignment_rank to < assignment_rank from)%nat) executionStates) executionStates.
Proof. by vm_compute. Qed.

Lemma AssignmentState_listed state : AssignmentState_valid state → state ∈ executionStates.
Proof. unfold AssignmentState_valid. rewrite andb_True, oneOf_spec. by intros []. Qed.

(** Every event of an assignment takes it further down. *)
Lemma assignment_rank_decreases to from :
  AssignmentState_valid from → AssignmentState_valid to →
  transitionPermits AssignmentLife to from →
  (assignment_rank to < assignment_rank from)%nat.
Proof.
  intros Hfrom Hto Hpermits. pose proof assignment_rank_table as Ht.
  rewrite Is_true_true, forallb_forall in Ht.
  specialize (Ht from). rewrite <- list_elem_of_In in Ht. specialize (Ht (AssignmentState_listed _ Hfrom)).
  rewrite forallb_forall in Ht. specialize (Ht to). rewrite <- list_elem_of_In in Ht.
  specialize (Ht (AssignmentState_listed _ Hto)).
  apply Is_true_eq_true in Hfrom, Hto, Hpermits. cbn [transitionPermits] in Hpermits.
  rewrite Hfrom, Hto, Hpermits in Ht. simpl in Ht. by apply bool_decide_eq_true in Ht.
Qed.

Lemma assignment_rank_bound state : (assignment_rank state ≤ 10)%nat.
Proof. unfold assignment_rank, case_of. repeat case_decide; lia. Qed.

(** ** Revisions *)

Lemma next_revision previous value :
  0 ≤ previous < 2 ^ 64 → ¬ not_next_revision previous value →
  value = previous + 1 ∧ value < 2 ^ 64.
Proof.
  unfold not_next_revision, MaxUint64. intros Hp H.
  destruct (decide (value = u64 (previous + 1))) as [->|Hne]; [|tauto].
  destruct (decide (previous = 2 ^ 64 - 1)); [tauto|]. unfold u64. rewrite Z.mod_small; lia.
Qed.

(** Turns a refused disjunction of mismatches into equations. *)
Ltac settle :=
  repeat match goal with
  | H : ¬ (_ ∨ _) |- _ => apply Decidable.not_or in H; destruct H
  | H : ¬ (¬ _) |- _ => apply dec_stable in H
  | H : _ ∧ _ |- _ => destruct H
  end.

Lemma equalExecutorBinding_eq `{UuidParser} value previous :
  ExecutorBinding_Validate value = None → equalExecutorBinding value previous → value = previous.
Proof.
  destruct value as [k l w], previous as [k' l' w'].
  unfold ExecutorBinding_Validate, equalExecutorBinding. simpl. intros Hv. passes Hv.
  intros He. case_decide as Hk; [done|]. settle. subst k'.
  repeat case_decide; destruct l, w; try done; destruct l', w'; try done;
    apply bool_decide_spec in He; naive_solver.
Qed.

(** The canonical form of 36 characters. *)
Definition undashed (value : string) : string :=
  (String.substring 0 8 value +:+ String.substring 9 4 value +:+ String.substring 14 4 value +:+
   String.substring 19 4 value +:+ String.substring 24 12 value)%string.

#[local] Existing Instance rfc4122.

Definition rfc4122_parser : UuidParser := {|
  uuid_Parse value :=
    decoded ← hex_DecodeString (undashed value);
    if decide (len value = 36 ∧ dashed (undashed value) = value)
    then Some (Z.to_N (be_value 0 decoded)) else None |}.

#[local] Existing Instance rfc4122_parser.

Definition hex64 : Digest :=
  "0123456789abcdef0123456789abcdef0123456789abcdef0123456789abcdef".

Definition id_attempt : string := "00000000-0000-4000-8000-000000000001".
Definition id_occurrence : string := "00000000-0000-4000-8000-000000000002".
Definition id_assignment : string := "00000000-0000-4000-8000-000000000003".
Definition id_item : string := "00000000-0000-4000-8000-000000000004".

Definition device_signer : ReceiptSignerBinding := mkReceiptSignerBinding "device" "key-1" 1 "p256".
Definition local_executor : ExecutorBinding :=
  mkExecutorBinding ExecutorSourceLocal
    (Some (mkLocalExecutorBinding "local" 1 hex64 (mkReceiptSignerBinding "exec" "key-2" 1 "p256")))
    None.

Definition sample_authorization : AssignmentAuthorization :=
  mkAssignmentAuthorization id_assignment local_executor [id_item]
    (MakeAssignmentItemSetDigest [id_item]) hex64 None None None 0.

Definition sample_plan : AssignmentPlan :=
  mkAssignmentPlan [sample_authorization]
    (AssignmentPlan_makeDigest (mkAssignmentPlan [sample_authorization] "")).

Definition sample_attempt : AttemptRecord :=
  mkAttemptRecord 1 id_attempt id_occurrence 1 1 "prepared" DestinationDirectLocal
    (mkExecutionIdentity "backend" "1" "model" hex64 "adapter" "1" hex64 hex64 None)
    hex64 hex64 hex64 hex64 None None None sample_plan None None None None device_signer None None
    1000 None (Some []).

Definition sample_assignment (revision : uint64) : AssignmentRecord :=
  mkAssignmentRecord 1 id_assignment id_occurrence id_attempt revision "prepared" local_executor
    [id_item] (MakeAssignmentItemSetDigest [id_item]) hex64 None None None None 0 0 device_signer
    None 1000 None (Some []).

#[local] Opaque SHA256Digest Sum256.

(** One mismatch that is none: sides that are the same as they stand, or a closed condition. *)
Ltac refute Hx :=
  lazymatch type of Hx with
  | _ ∨ _ => destruct Hx as [Hx|Hx]; refute Hx
  | not_next_revision _ _ => destruct Hx as [Hx|Hx]; [discriminate Hx|apply Hx; reflexivity]
  | ¬ same_assignment _ _ => apply Hx; repeat apply conj; try reflexivity; vm_compute; exact I
  | ?x ≠ ?y => apply Hx; reflexivity
  | _ => by vm_compute in Hx
  end.

(** Takes a validation apart.  The checks that compare digests hold by their shape; what is left
    has none to compute. *)
Ltac holds :=
  lazymatch goal with
  | |- err_then _ _ = None => apply err_then_None; split; holds
  | |- each _ (_ :: _) = None => apply each_None; holds
  | |- Forall _ (_ :: _) => constructor; [cbv beta|]; holds
  | |- Forall _ [] => by constructor
  | |- Digest_Validate _ = None => first [by apply SHA256Digest_valid|by vm_compute]
  | |- err_when _ _ = None =>
    try solve [apply err_when_None; let Hx := fresh in intros Hx; refute Hx]
  | |- _ => idtac
  end.

Lemma sample_authorization_valid : AssignmentAuthorization_Validate sample_authorization = None.
Proof. unfold AssignmentAuthorization_Validate. holds. all: by vm_compute. Qed.

Lemma sample_plan_valid : AssignmentPlan_Validate sample_plan = None.
Proof.
  unfold AssignmentPlan_Validate. cbn [plan_assignments ap_Assignments sample_plan]. holds.
  all: lazymatch goal with
  | |- AssignmentAuthorization_Validate _ = None => apply sample_authorization_valid
  | |- _ => by vm_compute
  end.
Qed.

Lemma sample_attempt_valid : AttemptRecord_Validate sample_attempt = None.
Proof.
  unfold AttemptRecord_Validate. holds.
  all: lazymatch goal with
  | |- AssignmentPlan_Validate _ = None => apply sample_plan_valid
  | |- _ => by vm_compute
  end.
Qed.

Lemma sample_assignment_valid revision :
  0 < revision → AssignmentRecord_Validate (sample_assignment revision) = None.
Proof.
  intros Hr. unfold AssignmentRecord_Validate. holds.
  all: lazymatch goal with
  | |- requirePositive _ _ = None => apply err_when_None; simpl; lia
  | |- _ => by vm_compute
  end.
Qed.

Lemma sample_assignment_authorized revision :
  0 < revision →
  AssignmentRecord_ValidateAuthorizedBy (sample_assignment revision)
    (mkAuthorizedAttempt sample_attempt) [] = None.
Proof.
  intros Hr. unfold AssignmentRecord_ValidateAuthorizedBy. cbv zeta.
  apply err_then_None. split; [by apply sample_assignment_valid|].
  apply err_then_None. split; [apply sample_attempt_valid|].
  change (authorization_of _ _) with (Some sample_authorization). cbv iota beta.
  apply err_then_None. split; [|holds; by vm_compute].
  apply err_when_None. intros Hx.
  do 2 (destruct Hx as [Hx|Hx]; [by apply Hx|]). destruct Hx as [Hx|Hx]; [by vm_compute in Hx|].
  refute Hx.
Qed.

(** The first update of the assignment. *)
Lemma sample_update :
  AssignmentRecord_ValidateUpdateFrom (sample_assignment 2) (sample_assignment 1)
    (mkAuthorizedAttempt sample_attempt) [] = None.
Proof.
  unfold AssignmentRecord_ValidateUpdateFrom.
  apply err_then_None. split; [by apply sample_assignment_valid|]. holds.
  all: lazymatch goal with
  | |- AssignmentRecord_ValidateAuthorizedBy _ _ _ = None => by apply sample_assignment_authorized
  | |- _ => by vm_compute
  end.
Qed.

(** ** Items *)

(** An item whose source is gone. *)
Definition sample_skipped_item : ItemRecord :=
  mkItemRecord 1 id_attempt id_occurrence 2 DestinationDirectLocal
    (mkFacetsObjectID "facets://root" "note" "b") None None None (Some []) (Some 2000) None
    (Some "skippedSourceMissing"%string) None.

(** An item whose result was applied. *)
Definition sample_applied_item : ItemRecord :=
  mkItemRecord 1 id_item id_occurrence 3 DestinationDirectLocal
    (mkFacetsObjectID "facets://root" "note" "a") None (Some hex64) (Some 1000)
    (Some [mkItemExecutionRecord 1 2 id_occurrence id_item DestinationDirectLocal id_attempt 1
       id_assignment None (Some 1500) None None (Some 1800) (Some 1800) (Some hex64) false
       (Some "succeeded"%string) None])
    (Some 2000) (Some id_assignment) (Some "applied"%string) None.

Lemma sample_items_valid :
  Forall (fun item => ItemRecord_Validate item = None) [sample_applied_item; sample_skipped_item].
Proof. by repeat constructor; vm_compute. Qed.
