(* ===== verification/ComputeQueueReportFacts.v ===== *)
(** * internal/computequeue: what a report counts, and the attempts behind it

    [ReconcileReport] goes over the items once and wraps its counters; the
    report is the plain count of each kind of item, and the checks that follow
    never refuse it.

    An attempt is authorized as the first one or as the retry of an attempt
    that failed, and advances event by event; the chain of attempts of an
    occurrence is bounded by its retry policy. *)

From S2P Require Import Prelude GoEncoding Sha256 GoText ComputeQueue ComputeQueueCanonical ComputeQueueAuthorization ComputeQueueReceipts ComputeQueueTransitions ComputeQueueAttempts ComputeQueueItems ComputeQueueLifecycle ComputeQueueOccurrence ComputeQueueBoundary ComputeQueueFacts.
#[local] Open Scope Z_scope.

(** ** Counting *)

Definition tally (p : ItemRecord → bool) (items : list ItemRecord) : Z :=
  foldr (fun item n => Z.b2z (p item) + n) 0 items.

Definition tallies (ps : list (ItemRecord → bool)) (items : list ItemRecord) : Z :=
  foldr (fun p n => tally p items + n) 0 ps.

Lemma tally_snoc p items item : tally p (items ++ [item]) = tally p items + Z.b2z (p item).
Proof. induction items as [|x items IH]; simpl; [lia|]. unfold tally in *. lia. Qed.

Lemma tally_bounds p items : 0 ≤ tally p items ≤ zlen items.
Proof.
  induction items as [|x items IH]; [done|]. unfold zlen in *. simpl. destruct (p x); simpl; lia.
Qed.

(** Kinds that are together in one kind are together no more than it. *)
Lemma tallies_le ps q items :
  Forall (fun item => foldr (fun p n => Z.b2z (p item) + n) 0 ps ≤ Z.b2z (q item)) items →
  tallies ps items ≤ tally q items.
Proof.
  induction 1 as [|item items Hitem _ IH]; simpl.
  - induction ps; simpl in *; lia.
  - enough (tallies ps (item :: items) =
      foldr (fun p n => Z.b2z (p item) + n) 0 ps + tallies ps items) by lia.
    clear. induction ps as [|p ps IH]; simpl; [done|]. unfold tallies in *. simpl in *. lia.
Qed.

Lemma tally_all p items : tally p items = zlen items → Forall (fun item => p item) items.
Proof.
  induction items as [|x items IH]; [by constructor|]. pose proof (tally_bounds p items).
  unfold zlen in *. simpl. intros Hx. destruct (p x) eqn:E; simpl in Hx; [|lia].
  constructor; [by rewrite E|]. apply IH. lia.
Qed.

(** ** The report *)

Definition disposed (name : string) (item : ItemRecord) : bool :=
  bool_decide (item_Disposition item = Some name).
Definition prepared (item : ItemRecord) : bool := bool_decide (item_PreparedAt item ≠ None).
Definition submitted (item : ItemRecord) : bool := bool_decide (submitted_item item).
Definition completed (item : ItemRecord) : bool := bool_decide (completed_item item).
Definition unconfirmed (item : ItemRecord) : bool := bool_decide (unconfirmed_item item).

(** The number of items of each kind. *)
Definition exact_report (targeted : Z) (items : list ItemRecord) : ReportCounters :=
  let count name := tally (disposed name) items in
  mkReportCounters targeted (tally prepared items) (tally submitted items) (tally completed items)
    (count "applied"%string) (count "skippedSourceMissing"%string)
    (count "skippedSourceMissingBeforeDisclosure"%string)
    (count "skippedSourceChangedBeforeDisclosure"%string)
    (count "resultNotAppliedSourceMissing"%string) (count "resultNotAppliedSourceChanged"%string)
    (count "failedPreparation"%string) (count "failedExecution"%string)
    (count "invalidResult"%string) (count "cancelledBeforeDisclosure"%string)
    (count "cancelledAfterDisclosure"%string) (tally unconfirmed items).

Lemma counted_b2z (P : Prop) `{Decision P} n :
  0 ≤ n < 2 ^ 62 → counted P n = n + Z.b2z (bool_decide P).
Proof.
  intros Hn. unfold counted. rewrite bool_decide_decide. destruct (decide P); simpl; [|lia].
  apply i64_small. lia.
Qed.

Definition small (n : Z) : Prop := 0 ≤ n < 2 ^ 62.

Definition one_if (P : Prop) `{Decision P} : Z := Z.b2z (bool_decide P).

Lemma one_if_false (P : Prop) `{Decision P} : ¬ P → one_if P = 0.
Proof. intros HP. unfold one_if. by rewrite bool_decide_false. Qed.

#[local] Ltac evaluate_ones :=
  repeat lazymatch goal with
  | |- context [one_if (String ?c ?x = ?y)] =>
    let v := eval vm_compute in (one_if (String c x = y)) in change (one_if (String c x = y)) with v
  end.

Lemma count_disposition_exact d t p s c n1 n2 n3 n4 n5 n6 n7 n8 n9 n10 n11 u :
  Forall small [n1; n2; n3; n4; n5; n6; n7; n8; n9; n10; n11] →
  count_disposition d (mkReportCounters t p s c n1 n2 n3 n4 n5 n6 n7 n8 n9 n10 n11 u) =
  mkReportCounters t p s c (n1 + one_if (d = "applied"%string))
    (n2 + one_if (d = "skippedSourceMissing"%string))
    (n3 + one_if (d = "skippedSourceMissingBeforeDisclosure"%string))
    (n4 + one_if (d = "skippedSourceChangedBeforeDisclosure"%string))
    (n5 + one_if (d = "resultNotAppliedSourceMissing"%string))
    (n6 + one_if (d = "resultNotAppliedSourceChanged"%string))
    (n7 + one_if (d = "failedPreparation"%string)) (n8 + one_if (d = "failedExecution"%string))
    (n9 + one_if (d = "invalidResult"%string)) (n10 + one_if (d = "cancelledBeforeDisclosure"%string))
    (n11 + one_if (d = "cancelledAfterDisclosure"%string)) u.
Proof.
  unfold small. rewrite !Forall_cons. intros (?&?&?&?&?&?&?&?&?&?&?&_).
  unfold count_disposition.
  repeat lazymatch goal with
  | |- context [decide (d = ?name)] =>
    let Hn := fresh in destruct (decide (d = name)) as [->|Hn];
    [rewrite i64_small by (simpl; lia); evaluate_ones; rewrite ?Z.add_0_r; reflexivity
    |rewrite (one_if_false (d = name) Hn)]
  end.
  by rewrite !Z.add_0_r.
Qed.

Lemma count_exact targeted items item :
  zlen items < 2 ^ 62 →
  count_item (exact_report targeted items) item = exact_report targeted (items ++ [item]).
Proof.
  intros Hlen.
  assert (∀ p, small (tally p items)) as Hb
    by (intros p; pose proof (tally_bounds p items); unfold small; lia).
  unfold count_item. cbv zeta. set (r := exact_report _ _).
  set (r' := _ <| rc_CancellationUnconfirmed := _ |>).
  assert (r' = mkReportCounters targeted (tally prepared (items ++ [item]))
    (tally submitted (items ++ [item])) (tally completed (items ++ [item])) (rc_Applied r)
    (rc_SkippedSourceMissing r) (rc_SkippedSourceMissingBeforeDisclosure r)
    (rc_SkippedSourceChangedBeforeDisclosure r) (rc_ResultNotAppliedSourceMissing r)
    (rc_ResultNotAppliedSourceChanged r) (rc_FailedPreparation r) (rc_FailedExecution r)
    (rc_InvalidResult r) (rc_CancelledBeforeDisclosure r) (rc_CancelledAfterDisclosure r)
    (tally unconfirmed (items ++ [item]))) as ->.
  { rewrite !tally_snoc. unfold prepared, submitted, completed, unconfirmed.
    subst r'. by rewrite <- !counted_b2z by apply Hb. }
  unfold r, exact_report. cbn [rc_Applied].
  destruct (item_Disposition item) as [d|] eqn:Hd.
  - rewrite count_disposition_exact by (repeat constructor; apply Hb).
    rewrite !tally_snoc. unfold disposed, one_if. rewrite !Hd.
    f_equal; f_equal; f_equal; apply bool_decide_ext; naive_solver.
  - rewrite !tally_snoc. unfold disposed. rewrite !Hd. cbn. by rewrite !Z.add_0_r.
Qed.

(** ** What a valid item says *)

Lemma each_from_None {E A} (f : Z → A → option E) n l :
  each_from n f l = None → Forall (fun x => ∃ i, f i x = None) l.
Proof.
  revert n. induction l as [|x l IH]; intros n; simpl; [by constructor|].
  intros [Hx Hl]%err_then_None. constructor; [by exists n|]. by eapply IH.
Qed.

Section items.
Context `{UuidParser}.

Lemma execution_facts e :
  ItemExecutionRecord_Validate e = None →
  (ie_DisclosureCommittedAt e ≠ None → ie_ExecutionInputCommittedAt e ≠ None) ∧
  (ie_ResultCompletedAt e ≠ None → ie_ExecutionInputCommittedAt e ≠ None) ∧
  (ie_CancellationUnconfirmed e → ie_Outcome e = None ∧ ie_ExecutionInputCommittedAt e ≠ None).
Proof.
  unfold ItemExecutionRecord_Validate. cbv zeta. intros Hv. passes Hv.
  split; [|split].
  - intros Hd Hi. match goal with H : ¬ (ie_DisclosureCommittedAt e ≠ None ∧ _) |- _ => by apply H end.
  - intros Hc Hi. match goal with H : ¬ (ie_ResultCompletedAt e ≠ None ∧ ie_ExecutionInputCommittedAt e = None) |- _ => by apply H end.
  - intros Hu. match goal with H : ¬ (Is_true (ie_CancellationUnconfirmed e) ∧ _) |- _ => rename H into Hn end.
    clear - Hu Hn. split; [apply dec_stable|]; intros ?; apply Hn; auto.
Qed.

Lemma item_executions_valid item :
  ItemRecord_Validate item = None →
  Forall (fun e => ItemExecutionRecord_Validate e = None) (executions item) ∧
  (executions item ≠ [] → item_PreparedAt item ≠ None).
Proof.
  unfold ItemRecord_Validate. cbv zeta. intros Hv. passes Hv. split.
  - match goal with H : each_indexed _ _ = None |- _ => apply each_from_None in H;
      eapply Forall_impl; [exact H|] end.
    intros e [i He]. unfold item_execution_check in He. by passes He.
  - intros Hne Hp. match goal with H : ¬ (zlen _ > 0 ∧ _) |- _ => apply H end.
    split; [|done]. unfold zlen. destruct (executions item); [done|]. simpl. lia.
Qed.

Lemma current_execution item e :
  ItemRecord_CurrentExecution item = Some e → e ∈ executions item.
Proof. unfold ItemRecord_CurrentExecution. intros He. by apply last_Some_elem_of. Qed.

Lemma item_disposition_valid item :
  ItemRecord_Validate item = None →
  (disposed "applied" item → of_current item ie_ResultCompletedAt ≠ None ∧
     of_current item ie_Outcome = Some "succeeded"%string ∧ item_ApplicationReceiptID item ≠ None) ∧
  ItemRecord_validateDisposition item = None.
Proof.
  unfold ItemRecord_Validate. cbv zeta. intros Hv. passes Hv. split; [|done].
  unfold disposed. rewrite bool_decide_spec. intros Hd. case_decide; [|done].
  match goal with H : err_when (_ ∨ _ ∨ _ ∨ item_ApplicationReceiptID item = None) _ = None |- _ =>
    apply err_when_None in H; settle end. split_and!; done.
Qed.

(** What the check of a disposition comes to at one of the names. *)
#[local] Ltac at_disposition Hv Hd :=
  unfold ItemRecord_validateDisposition in Hv; cbv zeta in Hv; rewrite Hd in Hv;
  cbn [when_present] in Hv;
  repeat lazymatch type of Hv with
  | context [decide (String ?c ?x = ?y)] =>
    first [rewrite (decide_False (P := String c x = y)) in Hv by done
          |rewrite (decide_True (P := String c x = y)) in Hv by done]
  | context [oneOf ?x ?l] =>
    let b := eval vm_compute in (oneOf x l) in change (oneOf x l) with b in Hv; cbn iota in Hv
  end;
  try apply err_when_None in Hv; settle.

Definition result_dispositions : list string :=
  ["applied"; "resultNotAppliedSourceMissing"; "resultNotAppliedSourceChanged"; "invalidResult"].

Lemma result_dispositions_completed item d :
  ItemRecord_Validate item = None → item_Disposition item = Some d → d ∈ result_dispositions →
  of_current item ie_ResultCompletedAt ≠ None ∧ of_current item ie_Outcome ≠ None.
Proof.
  intros [Happ Hv]%item_disposition_valid Hd Hin.
  repeat (apply elem_of_cons in Hin as [->|Hin]); [..|by apply elem_of_nil in Hin].
  - destruct Happ as (? & Ho & _); [by apply bool_decide_spec|]. by rewrite Ho.
  - at_disposition Hv Hd. split; congruence.
  - at_disposition Hv Hd. split; congruence.
  - at_disposition Hv Hd. split; congruence.
Qed.

Lemma of_current_Some {A} item (field : ItemExecutionRecord → option A) :
  of_current item field ≠ None →
  ∃ e, ItemRecord_CurrentExecution item = Some e ∧ field e ≠ None.
Proof. unfold of_current. destruct (ItemRecord_CurrentExecution item); simpl; naive_solver. Qed.

(** A field of the current execution is one of some execution. *)
Lemma current_exists {A} item (field : ItemExecutionRecord → option A) :
  of_current item field ≠ None → Exists (fun e => field e ≠ None) (executions item).
Proof.
  intros (e & He & Hf)%of_current_Some. apply Exists_exists. exists e.
  split; [by apply current_execution|done].
Qed.

Lemma completed_submitted item :
  ItemRecord_Validate item = None → completed_item item → submitted_item item.
Proof.
  intros [Hv _]%item_executions_valid [e [He Hc]]%Exists_exists. apply Exists_exists. exists e.
  split; [done|]. rewrite Forall_forall in Hv. by apply execution_facts in Hc; [|apply Hv].
Qed.

Lemma submitted_prepared item :
  ItemRecord_Validate item = None → submitted_item item → item_PreparedAt item ≠ None.
Proof.
  intros [_ Hp]%item_executions_valid [e [He _]]%Exists_exists. apply Hp.
  intros Hn. rewrite Hn in He. by apply elem_of_nil in He.
Qed.

Definition executed_dispositions : list string :=
  result_dispositions ++ ["failedExecution"; "cancelledAfterDisclosure"]%string.

Lemma executed_dispositions_submitted item d :
  ItemRecord_Validate item = None → item_Disposition item = Some d → d ∈ executed_dispositions →
  submitted_item item.
Proof.
  intros Hv Hd [Hin|Hin]%elem_of_app.
  - apply completed_submitted; [done|]. apply current_exists.
    by apply (result_dispositions_completed item d).
  - destruct (item_executions_valid item Hv) as [He _]. apply item_disposition_valid in Hv as [_ Hv].
    repeat (apply elem_of_cons in Hin as [->|Hin]); [..|by apply elem_of_nil in Hin].
    + at_disposition Hv Hd. by apply current_exists.
    + at_disposition Hv Hd.
      match goal with H : of_current item ie_DisclosureCommittedAt ≠ None |- _ =>
        apply current_exists, Exists_exists in H as (e & Hin & Hf) end.
      apply Exists_exists. exists e. split; [done|]. rewrite Forall_forall in He.
      by apply execution_facts in Hf; [|apply He].
Qed.

Lemma unconfirmed_facts item :
  ItemRecord_Validate item = None → unconfirmed_item item →
  ItemRecord_CurrentExecution item ≠ None ∧ of_current item ie_Outcome = None ∧
  of_current item ie_ExecutionInputCommittedAt ≠ None.
Proof.
  intros [Hv _]%item_executions_valid [e [He Hu]]%some_and_Some.
  rewrite Forall_forall in Hv. pose proof (current_execution _ _ He) as Hin.
  destruct (execution_facts e (Hv _ Hin)) as (_ & _ & [Ho Hi]); [done|].
  unfold of_current. rewrite He. done.
Qed.

Lemma unconfirmed_undisposed item d :
  ItemRecord_Validate item = None → unconfirmed_item item → item_Disposition item = Some d →
  d ∈ itemDispositions → False.
Proof.
  intros Hv Hu Hd Hin. destruct (unconfirmed_facts item Hv Hu) as (Hc & Ho & Hi).
  destruct (decide (d ∈ result_dispositions)) as [Hr|Hr].
  { by destruct (result_dispositions_completed item d). }
  apply item_disposition_valid in Hv as [_ Hv].
  repeat (apply elem_of_cons in Hin as [->|Hin]); [..|by apply elem_of_nil in Hin];
    try (apply Hr, (bool_decide_unpack _); vm_compute; exact I); at_disposition Hv Hd;
    try congruence.
  all: match goal with H : ¬ (_ ∧ _) |- _ => apply H; split; congruence end.
Qed.

Lemma disposition_listed item d :
  ItemRecord_Validate item = None → item_Disposition item = Some d → d ∈ itemDispositions.
Proof.
  unfold ItemRecord_Validate. cbv zeta. intros Hv Hd. passes Hv.
  match goal with H : ¬ some_and (item_Disposition item) _ |- _ => rewrite Hd in H; rename H into Hl end.
  apply dec_stable in Hl. by apply oneOf_spec.
Qed.

(** Of several dispositions an item has at most one. *)
Lemma disposed_sum_le names item (b : bool) :
  NoDup names → (∀ d, item_Disposition item = Some d → d ∈ names → b) →
  foldr (fun p n => Z.b2z (p item) + n) 0 (disposed <$> names) ≤ Z.b2z b.
Proof.
  intros Hnd Hb. induction Hnd as [|name names Hname Hnd IH]; [by destruct b|].
  rewrite fmap_cons. cbn [foldr].
  unfold disposed at 1. case_bool_decide as Hd; simpl.
  - assert (b) as Ht by (apply (Hb name); [done|apply elem_of_cons; by left]). destruct b; [|done]. simpl.
    enough (foldr (fun p n => Z.b2z (p item) + n) 0 (disposed <$> names) ≤ 0) by lia.
    clear - Hd Hname. induction names as [|x names IH]; [done|].
    rewrite fmap_cons. cbn [foldr].
    apply not_elem_of_cons in Hname as [Hx Hname]. specialize (IH Hname). unfold disposed at 1.
    rewrite bool_decide_false by congruence. simpl. lia.
  - apply IH. intros d Hd' Hin. apply (Hb d); [done|]. apply elem_of_cons. by right.
Qed.

Definition count_of (names : list string) (items : list ItemRecord) : Z :=
  tallies (disposed <$> names) items.

Lemma one_le (p q : ItemRecord → bool) items :
  Forall (fun item => p item → q item) items → tally p items ≤ tally q items.
Proof.
  intros Hpq. pose proof (tallies_le [p] q items) as Hle. unfold tallies in Hle. simpl in Hle.
  rewrite Z.add_0_r in Hle. apply Hle. eapply Forall_impl; [exact Hpq|]. intros item. simpl.
  destruct (p item), (q item); simpl; intros Hi; try lia; by destruct (Hi I).
Qed.

Lemma count_of_le names (q : ItemRecord → bool) items :
  NoDup names →
  Forall (fun item => ∀ d, item_Disposition item = Some d → d ∈ names → q item) items →
  count_of names items ≤ tally q items.
Proof.
  intros Hnd Hq. apply tallies_le. eapply Forall_impl; [exact Hq|]. intros item Hi.
  by apply disposed_sum_le.
Qed.

(** Items that are unconfirmed and items that have ended are different items. *)
Lemma unconfirmed_or_disposed items :
  Forall (fun item => ItemRecord_Validate item = None) items →
  tally unconfirmed items + count_of itemDispositions items ≤ zlen items.
Proof.
  intros Hv. assert (tally (fun _ => true) items = zlen items) as <-.
  { clear. unfold zlen. induction items as [|x items IH]; simpl; lia. }
  change (tallies (unconfirmed :: (disposed <$> itemDispositions)) items ≤ tally (fun _ => true) items).
  apply tallies_le. eapply Forall_impl; [exact Hv|]. intros item Hi. cbn [foldr].
  destruct (unconfirmed item) eqn:Hu; cbn [Z.b2z].
  - enough (foldr (fun p n => Z.b2z (p item) + n) 0 (disposed <$> itemDispositions) ≤ Z.b2z false)
      by (simpl in *; lia).
    apply disposed_sum_le; [by apply (bool_decide_unpack _); vm_compute|].
    intros d Hd Hin. apply (unconfirmed_undisposed item d Hi); [|done..].
    by apply bool_decide_eq_true in Hu.
  - apply (disposed_sum_le itemDispositions item true); [|done].
    by apply (bool_decide_unpack _); vm_compute.
Qed.

(** ** Reports *)

Lemma reconcile_items_inr r items r' :
  reconcile_items r items = inr r' ↔
  Forall (fun item => ItemRecord_Validate item = None) items ∧ r' = foldl count_item r items.
Proof.
  revert r. induction items as [|item items IH]; intros r; simpl.
  - rewrite Forall_nil. naive_solver.
  - rewrite queue_checked_inr, IH, Forall_cons. naive_solver.
Qed.

Lemma counted_report targeted items :
  zlen items < 2 ^ 62 →
  foldl count_item (targeted_report targeted) items = exact_report targeted items.
Proof.
  induction items as [|item items IH] using rev_ind; intros Hlen; [done|].
  assert (zlen items < 2 ^ 62) as Hs by (unfold zlen in *; rewrite length_app in Hlen; lia).
  rewrite foldl_app. simpl. rewrite IH by done. by apply count_exact.
Qed.

Lemma count_item_targeted r item : rc_Targeted (count_item r item) = rc_Targeted r.
Proof.
  unfold count_item. cbv zeta. destruct (item_Disposition item) as [d|]; [|done].
  unfold count_disposition. repeat case_decide; done.
Qed.

Lemma counted_targeted r items : rc_Targeted (foldl count_item r items) = rc_Targeted r.
Proof.
  revert r. induction items as [|item items IH]; intros r; [done|]. simpl.
  by rewrite IH, count_item_targeted.
Qed.

(** The bounds as inequalities, where no sum wraps. *)
Lemma logical_bounds t p s c n1 n2 n3 n4 n5 n6 n7 n8 n9 n10 n11 u :
  0 ≤ t ≤ maximumItems →
  Forall (fun n => 0 ≤ n) [p; s; c; n1; n2; n3; n4; n5; n6; n7; n8; n9; n10; n11; u] →
  p ≤ t → s ≤ p → c ≤ s → u ≤ s →
  n1 + (n5 + (n6 + (n9 + 0))) ≤ c → n1 + (n5 + (n6 + (n9 + (n8 + (n11 + 0))))) ≤ s →
  u + (n1 + (n2 + (n3 + (n4 + (n5 + (n6 + (n7 + (n8 + (n9 + (n10 + (n11 + 0))))))))))) ≤ t →
  ReportCounters_Validate (mkReportCounters t p s c n1 n2 n3 n4 n5 n6 n7 n8 n9 n10 n11 u) = None.
Proof.
  unfold maximumItems. rewrite !Forall_cons.
  intros Ht (?&?&?&?&?&?&?&?&?&?&?&?&?&?&?&_) ???????.
  unfold ReportCounters_Validate, ReportCounters_ValidateLogicalBounds, ReportCounters_TerminalCount,
    maximumItems. cbn -[Z.add i64].
  rewrite !i64_small by lia.
  repeat (apply err_then_None; split); apply err_when_None || done; try lia.
Qed.

(** The counts of valid items are within the bounds of a report. *)
Lemma exact_report_bounds items :
  Forall (fun item => ItemRecord_Validate item = None) items → zlen items ≤ maximumItems →
  ReportCounters_Validate (exact_report (zlen items) items) = None.
Proof.
  intros Hv Hlen. unfold maximumItems in Hlen.
  assert (tally submitted items ≤ tally prepared items) as H1.
  { apply one_le. eapply Forall_impl; [exact Hv|]. intros item Hi. unfold submitted, prepared.
    rewrite !bool_decide_spec. by apply submitted_prepared. }
  assert (tally completed items ≤ tally submitted items) as H2.
  { apply one_le. eapply Forall_impl; [exact Hv|]. intros item Hi. unfold submitted, completed.
    rewrite !bool_decide_spec. by apply completed_submitted. }
  assert (tally unconfirmed items ≤ tally submitted items) as H3.
  { apply one_le. eapply Forall_impl; [exact Hv|]. intros item Hi. unfold submitted, unconfirmed.
    rewrite !bool_decide_spec. intros Hu. apply current_exists. by apply unconfirmed_facts. }
  assert (count_of result_dispositions items ≤ tally completed items) as H4.
  { apply count_of_le; [by apply (bool_decide_unpack _); vm_compute|].
    eapply Forall_impl; [exact Hv|]. intros item Hi d Hd Hin. apply bool_decide_spec.
    apply current_exists. by apply (result_dispositions_completed item d). }
  assert (count_of executed_dispositions items ≤ tally submitted items) as H5.
  { apply count_of_le; [by apply (bool_decide_unpack _); vm_compute|].
    eapply Forall_impl; [exact Hv|]. intros item Hi d Hd Hin. apply bool_decide_spec.
    by apply (executed_dispositions_submitted item d). }
  pose proof (unconfirmed_or_disposed items Hv) as H6.
  assert (∀ p, 0 ≤ tally p items ≤ zlen items) as Hb by (intros; apply tally_bounds).
  unfold count_of, tallies in H4, H5, H6. cbn in H4, H5, H6.
  apply logical_bounds; try done; try apply Hb.
  - unfold zlen, maximumItems in *. lia.
  - repeat constructor; apply Hb.
Qed.

Lemma reconciled_exact items r :
  ReconcileReport items = inr r →
  Forall (fun item => ItemRecord_Validate item = None) items ∧ zlen items ≤ maximumItems ∧
  r = exact_report (zlen items) items.
Proof.
  unfold ReconcileReport. rewrite result_then_inr.
  intros (r' & [Hv ->]%reconcile_items_inr & Hr). apply queue_checked_inr in Hr as [Hb Hr].
  simplify_eq. assert (zlen items ≤ maximumItems) as Hlen.
  { unfold ReportCounters_Validate, ReportCounters_ValidateLogicalBounds in Hb. cbv zeta in Hb.
    passes Hb. rewrite counted_targeted in *. cbn [rc_Targeted targeted_report] in *. lia. }
  split; [done|]. split; [done|]. apply counted_report. unfold maximumItems in Hlen. lia.
Qed.

(** [C27] A report is made exactly of items that are all valid and at most 250000, and then it
    is the plain count: each counter is the number of the items of its kind, although the loop
    wraps at 64 bits.  The checks of the bounds that follow never refuse such a report, because
    valid items keep them: what is applied was completed, what was completed was submitted,
    what was submitted was prepared, and an unconfirmed cancellation has not ended. *)
Theorem report_counts_items items r :
  ReconcileReport items = inr r ↔
  Forall (fun item => ItemRecord_Validate item = None) items ∧ zlen items ≤ maximumItems ∧
  r = exact_report (zlen items) items.
Proof.
  split; [apply reconciled_exact|]. intros (Hv & Hlen & ->).
  unfold ReconcileReport. rewrite result_then_inr. exists (exact_report (zlen items) items). split.
  - apply reconcile_items_inr. split; [done|]. symmetry. apply counted_report.
    unfold maximumItems in Hlen. lia.
  - apply queue_checked_inr. split; [|done]. by apply exact_report_bounds.
Qed.
End items.

Example sample_report :
  @ReconcileReport rfc4122 rfc4122_parser [sample_applied_item; sample_skipped_item] =
  inr (mkReportCounters 2 1 1 1 1 1 0 0 0 0 0 0 0 0 0 0).
Proof. by vm_compute. Qed.

Section attempts.
Context `{UuidParser}.

(** The attempts that grow from a first one, with the number of retries. *)
Inductive attempt_chain (first : AttemptRecord) : nat → AuthorizedAttempt → Prop :=
  | chain_initial schedule occurrence items proof :
      AuthorizeInitialAttempt first schedule occurrence items = inr proof →
      attempt_chain first 0 proof
  | chain_retry retries previous record schedule occurrence items retryError transition evidence
      proof :
      attempt_chain first retries previous →
      AuthorizeRetryAttempt record schedule occurrence items previous retryError transition evidence
        = inr proof →
      attempt_chain first (S retries) proof
  | chain_advance retries value updated transition receipts evidence proof :
      attempt_chain first retries value →
      AuthorizedAttempt_Advance value updated transition receipts evidence = inr proof →
      attempt_chain first retries proof.

(** What binds every attempt of a chain. *)
Record same_run (first value : AttemptRecord) : Prop := {
  run_occurrence : at_OccurrenceID value = at_OccurrenceID first;
  run_destination : at_DestinationKind value = at_DestinationKind first;
  run_snapshot : at_OccurrenceSnapshotDigest value = at_OccurrenceSnapshotDigest first;
  run_operation : at_OperationBindingDigest value = at_OperationBindingDigest first;
  run_policy : at_PolicySnapshotDigest value = at_PolicySnapshotDigest first;
  run_retries : at_RetryPolicyDigest value = at_RetryPolicyDigest first;
  run_identity : ExecutionIdentity_Digest (at_ExecutionIdentity value) =
    ExecutionIdentity_Digest (at_ExecutionIdentity first);
  run_source : at_SourceReceiptSigner value = at_SourceReceiptSigner first;
  run_custody : at_CustodyReceiptSigner value = at_CustodyReceiptSigner first;
  run_clock : at_CreatedAt first ≤ at_CreatedAt value }.

Lemma same_run_refl a : same_run a a.
Proof. by split. Qed.

Lemma same_run_trans a b c : same_run a b → same_run b c → same_run a c.
Proof. intros [] []. split; try congruence. lia. Qed.

(** A valid policy retries 31 times at most. *)
Lemma RetryPolicy_maximum policy :
  RetryPolicy_Validate policy = None → RetryPolicy_MaximumAttempts policy ≤ MaximumRetries + 1.
Proof.
  unfold RetryPolicy_Validate, RetryPolicy_MaximumAttempts, MaximumRetries. cbv zeta.
  intros Hv. passes Hv. unfold u64. rewrite Z.mod_small; unfold zlen in *; lia.
Qed.

Lemma creation_boundary_shows value schedule occurrence items planned :
  AttemptRecord_validateCreationBoundary value schedule occurrence items = inr planned →
  at_AttemptNumber value ≤ MaximumRetries + 1.
Proof.
  unfold AttemptRecord_validateCreationBoundary. cbv zeta. intros Hv. passes Hv.
  match goal with H : OccurrenceRecord_ValidateAuthorizedBy _ _ = None |- _ =>
    unfold OccurrenceRecord_ValidateAuthorizedBy in H; passes H end.
  match goal with H : OccurrenceRecord_Validate _ = None |- _ =>
    unfold OccurrenceRecord_Validate in H; passes H end.
  match goal with H : OccurrencePolicySnapshot_Validate _ = None |- _ =>
    unfold OccurrencePolicySnapshot_Validate, PolicyBinding_Validate in H; passes H end.
  match goal with H : RetryPolicy_Validate _ = None |- _ => apply RetryPolicy_maximum in H end.
  unfold occurrence_retry_policy in *. lia.
Qed.

Lemma initial_attempt_shows record schedule occurrence items proof :
  AuthorizeInitialAttempt record schedule occurrence items = inr proof →
  auth_record proof = record ∧ at_AttemptNumber record = 1.
Proof.
  unfold AuthorizeInitialAttempt. intros Hv. passes Hv. settle. by subst.
Qed.

Lemma retry_attempt_shows record schedule occurrence items previous retryError transition evidence
    proof :
  AuthorizeRetryAttempt record schedule occurrence items previous retryError transition evidence
    = inr proof →
  auth_record proof = record ∧ same_run (auth_record previous) record ∧
  ¬ not_next_revision (at_AttemptNumber (auth_record previous)) (at_AttemptNumber record) ∧
  at_AttemptNumber record ≤ MaximumRetries + 1.
Proof.
  unfold AuthorizeRetryAttempt. cbv zeta. intros Hv. passes Hv. settle. subst.
  match goal with H : AttemptRecord_validateCreationBoundary _ _ _ _ = inr _ |- _ =>
    apply creation_boundary_shows in H end.
  match goal with H : retry_lineage _ _ _ _ |- _ => unfold retry_lineage in H end. destruct_and!.
  split_and!; [done| |done..]. split; try done. lia.
Qed.

Lemma advance_shows value updated transition receipts evidence proof :
  AuthorizedAttempt_Advance value updated transition receipts evidence = inr proof →
  auth_record proof = updated ∧ same_run (auth_record value) updated ∧
  at_AttemptNumber updated = at_AttemptNumber (auth_record value).
Proof.
  unfold AuthorizedAttempt_Advance. cbv zeta. intros Hv. passes Hv. settle. subst.
  match goal with H : same_attempt_binding _ _ |- _ => unfold same_attempt_binding in H end.
  destruct_and!. split_and!; [done| |done]. split; try done. lia.
Qed.

(** [C29] The attempts of an occurrence form one bounded chain: however they are authorized,
    retried and advanced, the attempt number counts the retries, no chain has more than 32
    attempts, and every attempt stays bound to the occurrence, destination, snapshot, operation,
    policies, execution identity and signers of the first, and is created no earlier. *)
Theorem attempt_chain_bounded first retries proof :
  attempt_chain first retries proof →
  at_AttemptNumber (auth_record proof) = Z.of_nat retries + 1 ∧ (retries ≤ 31)%nat ∧
  same_run first (auth_record proof).
Proof.
  induction 1 as [schedule occurrence items proof Hp
    |retries previous record schedule occurrence items retryError transition evidence proof Hc IH Hp
    |retries value updated transition receipts evidence proof Hc IH Hp].
  - apply initial_attempt_shows in Hp as [-> Hn]. split_and!; [lia..|]. apply same_run_refl.
  - apply retry_attempt_shows in Hp as (-> & Hs & Hn & Hm). destruct IH as (Hi & Hle & Hrun).
    unfold MaximumRetries in Hm. apply next_revision in Hn as [Hn _]; [|lia].
    split_and!; [lia..|]. by eapply same_run_trans.
  - apply advance_shows in Hp as (-> & Hs & Hn). destruct IH as (Hi & Hle & Hrun).
    split_and!; [lia|done|]. by eapply same_run_trans.
Qed.
End attempts.

(** ** A concrete first attempt *)

#[local] Existing Instance rfc4122.
#[local] Existing Instance rfc4122_parser.

Definition first_object : FacetsObjectID := mkFacetsObjectID "facets://root" "note" "a".
Definition first_operation : OperationBinding :=
  mkOperationBinding "facets.note" 1 id_item 1 hex64 10.
Definition first_policy : PolicyBinding :=
  mkPolicyBinding id_attempt 1 1 hex64 10 (mkRetryPolicy (Some []) (Some [])) None
    "requestCancellation" "requestCancellation".
Definition first_snapshot : OccurrencePolicySnapshot :=
  mkOccurrencePolicySnapshot first_policy 0 9000 9000 9000 9000.
Definition first_identity : ExecutionIdentity :=
  mkExecutionIdentity "backend" "1" "model" hex64 "adapter" "1" hex64 hex64 None.
Definition first_destination : DestinationPolicy :=
  mkDestinationPolicy DestinationDirectLocal None None None.
Definition first_eligibility : Eligibility := mkEligibility "immediate" 1000 None None.

Definition first_schedule : ScheduleRecord :=
  mkScheduleRecord 1 id_attempt 1 "active" 500 first_eligibility 1
    (MakeTargetSetDigest [first_object]) first_operation first_policy first_identity
    first_destination device_signer.

Definition first_occurrence_with (snapshot : Digest) : OccurrenceRecord :=
  mkOccurrenceRecord 1 id_occurrence id_attempt DestinationDirectLocal 3 "slot:1000"
    (Eligibility_Digest first_eligibility) 1000 1000 (Some 1200) "preparing" 1
    (MakeTargetSetDigest [first_object]) first_operation first_snapshot
    (ExecutionIdentity_Digest first_identity) (DestinationPolicy_Digest first_destination) snapshot
    (mkReportCounters 1 1 0 0 0 0 0 0 0 0 0 0 0 0 0 0) None None (Some []) device_signer None
    (Some id_assignment) 1100 None None.

Definition first_occurrence : OccurrenceRecord :=
  first_occurrence_with (OccurrenceRecord_MakeSnapshotDigest (first_occurrence_with "")).

Definition first_item : ItemRecord :=
  mkItemRecord 1 id_item id_occurrence 2 DestinationDirectLocal first_object None (Some hex64)
    (Some 1200)
    (Some [mkItemExecutionRecord 1 1 id_occurrence id_item DestinationDirectLocal id_attempt 1
       id_assignment None None None None None None None false None None]) None None None None.

Definition first_attempt : AttemptRecord :=
  mkAttemptRecord 1 id_attempt id_occurrence 1 1 "prepared" DestinationDirectLocal first_identity
    (oc_OccurrenceSnapshotDigest first_occurrence) (OperationBinding_Digest first_operation)
    (OccurrencePolicySnapshot_Digest first_snapshot)
    (RetryPolicy_Digest (pb_RetryPolicy first_policy)) None None None sample_plan None None None None
    device_signer None None 1500 None (Some []).

#[local] Opaque SHA256Digest Sum256.

Lemma first_schedule_valid : ScheduleRecord_Validate first_schedule = None.
Proof. unfold ScheduleRecord_Validate. holds. all: by vm_compute. Qed.

Lemma first_occurrence_valid : OccurrenceRecord_Validate first_occurrence = None.
Proof.
  unfold OccurrenceRecord_Validate, occurrence_snapshot_check. holds. all: by vm_compute.
Qed.

Lemma first_attempt_valid : AttemptRecord_Validate first_attempt = None.
Proof.
  unfold AttemptRecord_Validate. holds.
  all: lazymatch goal with
  | |- AssignmentPlan_Validate _ = None => apply sample_plan_valid
  | |- _ => by vm_compute
  end.
Qed.

Lemma first_authorized_by_schedule :
  AttemptRecord_validateAuthorizedBySchedule first_attempt first_schedule = None.
Proof.
  unfold AttemptRecord_validateAuthorizedBySchedule. holds.
  all: lazymatch goal with
  | |- AttemptRecord_Validate _ = None => apply first_attempt_valid
  | |- ScheduleRecord_Validate _ = None => apply first_schedule_valid
  | |- _ => idtac
  end.
  unfold attempt_schedule_destination. by rewrite !decide_False by done.
Qed.

Lemma first_occurrence_authorized :
  OccurrenceRecord_ValidateAuthorizedBy first_occurrence first_schedule = None.
Proof.
  unfold OccurrenceRecord_ValidateAuthorizedBy. apply err_then_None.
  split; [apply first_occurrence_valid|]. apply err_then_None.
  split; [apply first_schedule_valid|]. apply err_when_None. intros Hx.
  destruct Hx as [Hx|[Hx|Hx]]; [by apply Hx|by vm_compute in Hx|]. refute Hx.
Qed.

Lemma first_items_fit : OccurrenceRecord_ValidateAgainstItems first_occurrence [first_item] = None.
Proof.
  unfold OccurrenceRecord_ValidateAgainstItems. cbv zeta.
  change (merge_sort object_le (item_SourceObjectID <$> [first_item])) with [first_object].
  apply err_then_None. split; [apply first_occurrence_valid|]. holds; [by vm_compute..|].
  assert (ReconcileReport [first_item] =
    inr (mkReportCounters 1 1 0 0 0 0 0 0 0 0 0 0 0 0 0 0)) as -> by (by vm_compute).
  cbn [result_check]. holds. by vm_compute.
Qed.

Lemma first_boundary :
  AttemptRecord_validateCreationBoundary first_attempt first_schedule first_occurrence [first_item]
  = inr [first_item].
Proof.
  unfold AttemptRecord_validateCreationBoundary. cbv zeta.
  apply queue_checked_inr. split; [apply first_authorized_by_schedule|].
  apply queue_checked_inr. split; [apply first_occurrence_authorized|].
  apply queue_checked_inr. split; [apply first_items_fit|].
  apply queue_checked_inr. split.
  { apply err_when_None. intros Hx. apply Hx. repeat apply conj; try reflexivity; by vm_compute. }
  do 2 (apply queue_checked_inr; split; [by vm_compute|]).
  assert (creation_items (RetryPolicy_MaximumAttempts (occurrence_retry_policy first_occurrence)) ∅
    [first_item] = inr {[id_item := first_item]}) as ->.
  { cbn [creation_items]. apply queue_checked_inr. split; [by vm_compute|]. by apply queue_checked_inr. }
  cbn [result_then].
  assert (plan_items {[id_item := first_item]} (mkPlannedItems [] ∅)
    (plan_entries (at_AssignmentPlan first_attempt)) =
    inr (mkPlannedItems [first_item] {[id_item := sample_authorization]})) as ->.
  { change (plan_entries _) with [(sample_authorization, id_item)]. cbn [plan_items].
    by rewrite lookup_singleton_eq. }
  cbn [result_then planned_items planned_by]. apply queue_checked_inr. split.
  { apply err_then_None. split; [apply sample_plan_valid|]. by vm_compute. }
  apply queue_checked_inr. split; [by rewrite filter_cons_False|].
  apply queue_checked_inr. split; [|done]. apply each_None, Forall_singleton.
  change (item_ID first_item) with id_item. rewrite lookup_singleton_eq. by vm_compute.
Qed.

Lemma first_attempt_authorized :
  AuthorizeInitialAttempt first_attempt first_schedule first_occurrence [first_item] =
  inr (mkAuthorizedAttempt first_attempt).
Proof.
  unfold AuthorizeInitialAttempt. rewrite first_boundary. cbn [result_then].
  do 2 (apply queue_checked_inr; split; [by vm_compute|]). done.
Qed.

Lemma attempt_chain_bounded_witness :
  at_AttemptNumber first_attempt = Z.of_nat 0 + 1 ∧ (0 ≤ 31)%nat ∧
  same_run first_attempt first_attempt.
Proof.
  apply (@attempt_chain_bounded rfc4122 rfc4122_parser first_attempt 0
    (mkAuthorizedAttempt first_attempt)).
  eapply chain_initial. exact first_attempt_authorized.
Defined.
