(* ===== verification/ComputeQueueHistoryFacts.v ===== *)
(** * internal/computequeue: histories of assignments and occurrences

    An assignment record is followed through any sequence of accepted updates,
    lease renewals and events; an occurrence through any sequence of accepted
    updates and transitions.  Both stay what was authorized. *)

From S2P Require Import Prelude GoEncoding Sha256 GoText ComputeQueue ComputeQueueCanonical ComputeQueueAuthorization ComputeQueueReceipts ComputeQueueTransitions ComputeQueueAttempts ComputeQueueItems ComputeQueueLifecycle ComputeQueueOccurrence ComputeQueueBoundary ComputeQueueTerminal ComputeQueueEvidence ComputeQueueFacts ComputeQueueReportFacts.
#[local] Open Scope Z_scope.

Section assignments.
Context `{UuidParser}.

(** Histories with the number of events and the number of accepted calls. *)
Inductive assignment_history : nat → nat → AssignmentRecord → AssignmentRecord → Prop :=
  | history_start a : assignment_history 0 0 a a
  | history_update events calls a previous value authorizedBy receipts :
      assignment_history events calls a previous →
      AssignmentRecord_ValidateUpdateFrom value previous authorizedBy receipts = None →
      assignment_history events (S calls) a value
  | history_renewal events calls a previous value authorizedBy receipt receipts :
      assignment_history events calls a previous →
      AssignmentRecord_ValidateLeaseRenewalFrom value previous authorizedBy receipt receipts
        = None →
      assignment_history events (S calls) a value
  | history_event events calls a previous value transition authorizedBy receipts manifest applied :
      assignment_history events calls a previous →
      AssignmentRecord_ValidateTransitionFrom value previous transition authorizedBy receipts
        manifest applied = None →
      assignment_history (S events) (S calls) a value.

(** The lease is the same one, with the same last end, and not shortened. *)
Definition lease_extends (previous value : option LeaseBinding) : Prop :=
  match previous, value with
  | None, None => True
  | Some previous, Some value =>
    lb_ID value = lb_ID previous ∧ lb_MaximumExpiresAt value = lb_MaximumExpiresAt previous ∧
    lb_ExpiresAt previous ≤ lb_ExpiresAt value
  | _, _ => False
  end.

(** What an assignment keeps. *)
Record assignment_kept (previous value : AssignmentRecord) : Prop := {
  kept_identity : as_ID value = as_ID previous ∧ as_AttemptID value = as_AttemptID previous ∧
    as_OccurrenceID value = as_OccurrenceID previous;
  kept_work : as_Executor value = as_Executor previous ∧
    as_ItemSetDigest value = as_ItemSetDigest previous ∧
    as_ExecutionPayloadDigest value = as_ExecutionPayloadDigest previous ∧
    as_InitialLease value = as_InitialLease previous;
  kept_signers : as_SourceReceiptSigner value = as_SourceReceiptSigner previous ∧
    as_CustodyReceiptSigner value = as_CustodyReceiptSigner previous;
  kept_times : as_CreatedAt value = as_CreatedAt previous ∧
    as_DeadlineAt value = as_DeadlineAt previous;
  kept_lease : lease_extends (as_CurrentLease previous) (as_CurrentLease value);
  kept_capsule : as_State previous ≠ "prepared"%string →
    as_State value ≠ "prepared"%string ∧ same_capsule value previous;
  kept_receipts : assignment_receipt_ids previous ⊆ assignment_receipt_ids value }.

Lemma lease_extends_refl l : lease_extends l l.
Proof. destruct l; simpl; [|done]. split; [done|]. split; [done|lia]. Qed.

Lemma lease_extends_trans a b c : lease_extends a b → lease_extends b c → lease_extends a c.
Proof. destruct a, b, c; simpl; try done. intros (-> & -> & ?) (-> & -> & ?). split_and!; done || lia || congruence. Qed.

Lemma assignment_kept_refl a : assignment_kept a a.
Proof. split; done || apply lease_extends_refl. Qed.

Lemma assignment_kept_trans a b c :
  assignment_kept a b → assignment_kept b c → assignment_kept a c.
Proof.
  intros [] []. split; try (destruct_and?; split_and?; congruence).
  - by eapply lease_extends_trans.
  - unfold same_capsule in *. intros Hp. destruct kept_capsule0 as (Hb & ? & ?); [done|].
    destruct kept_capsule1 as (Hc & ? & ?); [done|]. split; [done|]. split; congruence.
  - by etrans.
Qed.

Lemma AssignmentRecord_Validate_facts value :
  AssignmentRecord_Validate value = None →
  ExecutorBinding_Validate (as_Executor value) = None ∧ AssignmentState_valid (as_State value).
Proof. unfold AssignmentRecord_Validate. intros Hv. passes Hv. split; [done|]. by apply dec_stable. Qed.

Lemma authorized_facts value attempt receipts :
  AssignmentRecord_ValidateAuthorizedBy value attempt receipts = None →
  AssignmentRecord_Validate value = None.
Proof. unfold AssignmentRecord_ValidateAuthorizedBy. intros Hv. by passes Hv. Qed.

(** One accepted call that does not change the state. *)
Lemma kept_in_state value previous :
  AssignmentRecord_Validate value = None → as_State value = as_State previous →
  same_assignment value previous →
  (as_State previous ≠ "prepared"%string → same_capsule value previous) →
  as_CreatedAt value = as_CreatedAt previous → as_DeadlineAt value = as_DeadlineAt previous →
  lease_extends (as_CurrentLease previous) (as_CurrentLease value) →
  assignment_receipt_ids previous ⊆ assignment_receipt_ids value →
  assignment_kept previous value.
Proof.
  intros [He _]%AssignmentRecord_Validate_facts Hs Hsame Hcap Hc Hd Hl Hr.
  destruct Hsame as (? & ? & Hx & ? & ? & ? & ? & ? & ?).
  apply equalExecutorBinding_eq in Hx; [|done]. split; try done. intros Hp. rewrite Hs. auto.
Qed.

(** One event. *)
Lemma transition_permits life value state revision id sealed applied receipts :
  StateTransition_validateAgainst life value state revision id sealed applied receipts = None →
  transitionPermits life (st_To value) state ∧
  ¬ not_next_revision revision (st_ResultingRevision value) ∧
  transitionStateValid life state ∧ transitionStateValid life (st_To value).
Proof.
  unfold StateTransition_validateAgainst, StateTransition_Validate. intros Hv. passes Hv. settle.
  by simplify_eq.
Qed.

Lemma update_kept value previous authorizedBy receipts :
  AssignmentRecord_ValidateUpdateFrom value previous authorizedBy receipts = None →
  assignment_kept previous value ∧ as_State value = as_State previous ∧
  ¬ not_next_revision (as_Revision previous) (as_Revision value).
Proof.
  unfold AssignmentRecord_ValidateUpdateFrom. intros Hv. passes Hv. settle.
  match goal with H : Is_true (receiptSubset _ _) |- _ => apply receiptSubset_spec in H end.
  split; [|done]. apply kept_in_state; try done.
  - intros Hp. apply dec_stable. intros Hc.
    match goal with H : ¬ (Is_true (assignmentHasSealedItemSet _) ∧ _) |- _ => apply H end.
    split; [|done]. by apply bool_decide_spec.
  - match goal with H : as_CurrentLease _ = _ |- _ => rewrite H end. apply lease_extends_refl.
Qed.

Lemma renewal_kept value previous authorizedBy receipt receipts :
  AssignmentRecord_ValidateLeaseRenewalFrom value previous authorizedBy receipt receipts = None →
  assignment_kept previous value ∧ as_State value = as_State previous ∧
  ¬ not_next_revision (as_Revision previous) (as_Revision value).
Proof.
  unfold AssignmentRecord_ValidateLeaseRenewalFrom. cbv zeta. intros Hv. passes Hv.
  destruct (as_CurrentLease value) as [current|] eqn:Hcurrent; [|done].
  destruct (as_CurrentLease previous) as [prior|] eqn:Hprior; [|done]. passes Hv. settle.
  match goal with H : Is_true (receiptSubset _ _) |- _ => apply receiptSubset_spec in H end.
  match goal with H : LeaseBinding_ValidateRenewal _ _ = None |- _ =>
    unfold LeaseBinding_ValidateRenewal in H; passes H; settle end.
  split; [|done]. apply kept_in_state; try done. rewrite Hcurrent, Hprior. simpl.
  split_and?; [done..|lia].
Qed.

Lemma event_kept value previous transition authorizedBy receipts manifest applied :
  AssignmentRecord_ValidateTransitionFrom value previous transition authorizedBy receipts
    manifest applied = None →
  assignment_kept previous value ∧
  (assignment_rank (as_State value) < assignment_rank (as_State previous))%nat ∧
  ¬ not_next_revision (as_Revision previous) (as_Revision value).
Proof.
  unfold AssignmentRecord_ValidateTransitionFrom. cbv zeta. intros Hv. passes Hv. settle.
  match goal with H : StateTransition_validateAgainst _ _ _ _ _ _ _ _ = None |- _ =>
    apply transition_permits in H as (Hpermits & Hrev & Hfrom & Hto) end.
  match goal with H : as_State value = _ |- _ => rename H into Hs end.
  match goal with H : as_Revision value = _ |- _ => rename H into Hr end.
  rewrite <- Hs in Hpermits, Hto. rewrite <- Hr in Hrev.
  assert (assignment_rank (as_State value) < assignment_rank (as_State previous))%nat as Hrank
    by (by apply assignment_rank_decreases).
  split; [|done]. repeat match goal with H : Is_true (receiptSubset _ _) |- _ => apply receiptSubset_spec in H end.
  match goal with H : AssignmentRecord_Validate value = None |- _ =>
    apply AssignmentRecord_Validate_facts in H as [He _] end.
  match goal with H : same_assignment _ _ |- _ => destruct H as (? & ? & Hx & ? & ? & ? & ? & ? & ?) end.
  apply equalExecutorBinding_eq in Hx; [|done]. split; try done.
  - match goal with H : as_CurrentLease _ = _ |- _ => rewrite H end. apply lease_extends_refl.
  - intros Hp. split.
    + intros Hv'. rewrite Hv' in Hrank. pose proof (assignment_rank_bound (as_State previous)).
      change (assignment_rank "prepared") with 10%nat in Hrank. lia.
    + apply dec_stable. tauto.
Qed.

(** [C28] Whatever accepted updates, lease renewals and events an assignment goes through, it
    stays the assignment that was authorized: its identity, executor, items, payload, signers
    and deadline, the capsule once it is sealed, and its receipts stay; the lease is only
    prolonged, with the same last end; the revision counts the accepted calls; and at most ten
    events are ever accepted. *)
Theorem assignment_history_kept events calls a value :
  0 ≤ as_Revision a < 2 ^ 64 → assignment_history events calls a value →
  assignment_kept a value ∧ as_Revision value = as_Revision a + Z.of_nat calls ∧
  as_Revision value < 2 ^ 64 ∧
  (events + assignment_rank (as_State value) ≤ assignment_rank (as_State a) ∧ events ≤ 10)%nat.
Proof.
  intros Ha Hh.
  assert (assignment_kept a value ∧ as_Revision value = as_Revision a + Z.of_nat calls ∧
    as_Revision value < 2 ^ 64 ∧
    (events + assignment_rank (as_State value) ≤ assignment_rank (as_State a))%nat) as (?&?&?&?).
  { induction Hh as [a|events calls a previous value authorizedBy receipts _ IH Hu
      |events calls a previous value authorizedBy receipt receipts _ IH Hu
      |events calls a previous value transition authorizedBy receipts manifest applied _ IH Hu].
    - split; [apply assignment_kept_refl|]. split_and!; lia.
    - apply update_kept in Hu as (Hk & Hs & Hr). destruct (IH Ha) as (? & Hp & ? & ?).
      apply next_revision in Hr as [Hr ?]; [|lia].
      split; [by eapply assignment_kept_trans|]. rewrite Hs. split_and!; lia.
    - apply renewal_kept in Hu as (Hk & Hs & Hr). destruct (IH Ha) as (? & Hp & ? & ?).
      apply next_revision in Hr as [Hr ?]; [|lia].
      split; [by eapply assignment_kept_trans|]. rewrite Hs. split_and!; lia.
    - apply event_kept in Hu as (Hk & Hs & Hr). destruct (IH Ha) as (? & Hp & ? & ?).
      apply next_revision in Hr as [Hr ?]; [|lia].
      split; [by eapply assignment_kept_trans|]. split_and!; lia. }
  split; [done|]. pose proof (assignment_rank_bound (as_State a)). split_and!; lia.
Qed.
End assignments.

Lemma assignment_history_kept_witness :
  @assignment_kept (sample_assignment 1) (sample_assignment 2) ∧
  as_Revision (sample_assignment 2) = as_Revision (sample_assignment 1) + Z.of_nat 1 ∧
  as_Revision (sample_assignment 2) < 2 ^ 64 ∧
  (0 + assignment_rank (as_State (sample_assignment 2)) ≤
     assignment_rank (as_State (sample_assignment 1)) ∧ 0 ≤ 10)%nat.
Proof.
  apply (@assignment_history_kept rfc4122 rfc4122_parser 0 1); [simpl; lia|].
  eapply history_update; [apply history_start|exact sample_update].
Defined.

Section occurrences.
Context `{UuidParser}.

(** Histories with the number of transitions and of accepted calls. *)
Inductive occurrence_history : nat → nat → OccurrenceRecord → OccurrenceRecord → Prop :=
  | occurrence_start a : occurrence_history 0 0 a a
  | occurrence_update events calls a previous value :
      occurrence_history events calls a previous →
      OccurrenceRecord_ValidateUpdateFrom value previous = None →
      occurrence_history events (S calls) a value
  | occurrence_event events calls a previous value transition evidence :
      occurrence_history events calls a previous →
      OccurrenceRecord_ValidateTransitionUpdateFrom value previous transition evidence = None →
      occurrence_history (S events) (S calls) a value.

(** The number of targets stays, and no other counter goes down but that of
    unconfirmed cancellations, which may also be confirmed. *)
Record report_grows (previous value : ReportCounters) : Prop := {
  grows_targeted : rc_Targeted value = rc_Targeted previous;
  grows_prepared : rc_Prepared previous ≤ rc_Prepared value;
  grows_submitted : rc_Submitted previous ≤ rc_Submitted value;
  grows_completed : rc_Completed previous ≤ rc_Completed value;
  grows_applied : rc_Applied previous ≤ rc_Applied value;
  grows_skipped_missing : rc_SkippedSourceMissing previous ≤ rc_SkippedSourceMissing value;
  grows_skipped_missing_before : rc_SkippedSourceMissingBeforeDisclosure previous ≤
    rc_SkippedSourceMissingBeforeDisclosure value;
  grows_skipped_changed_before : rc_SkippedSourceChangedBeforeDisclosure previous ≤
    rc_SkippedSourceChangedBeforeDisclosure value;
  grows_not_applied_missing : rc_ResultNotAppliedSourceMissing previous ≤
    rc_ResultNotAppliedSourceMissing value;
  grows_not_applied_changed : rc_ResultNotAppliedSourceChanged previous ≤
    rc_ResultNotAppliedSourceChanged value;
  grows_failed_preparation : rc_FailedPreparation previous ≤ rc_FailedPreparation value;
  grows_failed_execution : rc_FailedExecution previous ≤ rc_FailedExecution value;
  grows_invalid : rc_InvalidResult previous ≤ rc_InvalidResult value;
  grows_cancelled_before : rc_CancelledBeforeDisclosure previous ≤
    rc_CancelledBeforeDisclosure value;
  grows_cancelled_after : rc_CancelledAfterDisclosure previous ≤ rc_CancelledAfterDisclosure value }.

(** What an occurrence keeps. *)
Record occurrence_kept (previous value : OccurrenceRecord) : Prop := {
  kept_occurrence_id : oc_ID value = oc_ID previous;
  kept_schedule : oc_ScheduleID value = oc_ScheduleID previous;
  kept_schedule_revision : oc_ScheduleRevision value = oc_ScheduleRevision previous;
  kept_destination : oc_DestinationKind value = oc_DestinationKind previous;
  kept_eligibility_key : oc_EligibilityKey value = oc_EligibilityKey previous;
  kept_eligibility : oc_EligibilityDigest value = oc_EligibilityDigest previous;
  kept_scheduled_for : oc_ScheduledFor value = oc_ScheduledFor previous;
  kept_eligible_at : oc_EligibleAt value = oc_EligibleAt previous;
  kept_targets : oc_TargetSetDigest value = oc_TargetSetDigest previous;
  kept_operation : OperationBinding_Digest (oc_OperationBinding value) =
    OperationBinding_Digest (oc_OperationBinding previous);
  kept_policy : OccurrencePolicySnapshot_Digest (oc_PolicySnapshot value) =
    OccurrencePolicySnapshot_Digest (oc_PolicySnapshot previous);
  kept_execution_identity : oc_ExecutionIdentityDigest value = oc_ExecutionIdentityDigest previous;
  kept_destination_policy : oc_DestinationPolicyDigest value = oc_DestinationPolicyDigest previous;
  kept_snapshot : oc_OccurrenceSnapshotDigest value = oc_OccurrenceSnapshotDigest previous;
  kept_source_signer : oc_SourceReceiptSigner value = oc_SourceReceiptSigner previous;
  kept_custody_signer : oc_CustodyReceiptSigner value = oc_CustodyReceiptSigner previous;
  kept_preparation : oc_PreparedAt previous ≠ None → oc_PreparedAt value = oc_PreparedAt previous;
  kept_report : report_grows (oc_Report previous) (oc_Report value);
  kept_clock : oc_StateChangedAt previous ≤ oc_StateChangedAt value;
  kept_receipt_ids : elements (oc_ReceiptIDs previous) ⊆ elements (oc_ReceiptIDs value) }.

Lemma report_grows_refl r : report_grows r r.
Proof. split; lia. Qed.

Lemma report_grows_trans a b c : report_grows a b → report_grows b c → report_grows a c.
Proof. intros [] []. split; lia. Qed.

Lemma report_grows_check previous value :
  rc_Targeted value = rc_Targeted previous → ¬ counters_regressed previous value →
  report_grows previous value.
Proof.
  intros Ht Hc. unfold counters_regressed in Hc. rewrite <- Forall_Exists_neg in Hc.
  destruct previous, value. cbn in *. rewrite !Forall_cons in Hc. cbn in Hc.
  destruct Hc as (?&?&?&?&?&?&?&?&?&?&?&?&?&?&_). split; cbn; lia.
Qed.

(** A record that passes the checks is kept. *)
Lemma occurrence_kept_check value previous :
  same_occurrence value previous → ¬ replaced (oc_PreparedAt previous) (oc_PreparedAt value) →
  rc_Targeted (oc_Report value) = rc_Targeted (oc_Report previous) →
  ¬ counters_regressed (oc_Report previous) (oc_Report value) →
  oc_StateChangedAt previous ≤ oc_StateChangedAt value →
  occurrence_receipt_ids previous ⊆ occurrence_receipt_ids value → occurrence_kept previous value.
Proof.
  intros (?&?&?&?&?&?&?&?&?&?&?&?&?&?&?&?) Hp Ht Hc Hclock Hids.
  split; try assumption; [|by apply report_grows_check].
  intros Hprepared. apply dec_stable. intros Hn. apply Hp. split; assumption.
Qed.

Lemma occurrence_kept_refl a : occurrence_kept a a.
Proof. split; done || apply report_grows_refl. Qed.

Lemma occurrence_kept_trans a b c :
  occurrence_kept a b → occurrence_kept b c → occurrence_kept a c.
Proof.
  intros [] []. split; try congruence; [|by eapply report_grows_trans|lia|by etrans].
  intros Ha. match goal with Hb : oc_PreparedAt b ≠ None → _, Ha' : oc_PreparedAt a ≠ None → _ |- _ =>
    rewrite Hb by (by rewrite Ha'); by apply Ha' end.
Qed.

Lemma occurrence_update_kept value previous :
  OccurrenceRecord_ValidateUpdateFrom value previous = None →
  occurrence_kept previous value ∧ oc_State value = oc_State previous ∧
  ¬ occurrenceTerminal (oc_State previous) ∧
  ¬ not_next_revision (oc_Revision previous) (oc_Revision value).
Proof.
  unfold OccurrenceRecord_ValidateUpdateFrom. intros Hv. passes Hv. settle.
  match goal with H : Is_true (receiptSubset _ _) |- _ => apply receiptSubset_spec in H end.
  split; [|done]. apply occurrence_kept_check; try done.
  match goal with H : oc_StateChangedAt value = _ |- _ => rewrite H end. done.
Qed.

(** What an accepted transition has shown about the record before it. *)
Lemma transition_shows previous transition receipts active attempts assignments items applied :
  OccurrenceRecord_ValidateTransition previous transition receipts active attempts assignments
    items applied = None →
  ∃ receiptIndex, newVerifiedReceiptIndex receipts = inr receiptIndex ∧
    StateTransition_validateAgainst OccurrenceLife transition (oc_State previous)
      (oc_Revision previous) (oc_ID previous) None applied receiptIndex = None ∧
    oc_StateChangedAt previous ≤ st_OccurredAt transition ∧
    (st_To transition = "securelyQueued"%string →
     securely_queued_check previous receipts active assignments
       (elements (st_SupportingReceiptIDs transition)) receiptIndex = None).
Proof.
  unfold OccurrenceRecord_ValidateTransition. cbv zeta. intros Hv. passes Hv.
  eexists. split; [done|]. split; [done|]. split; [lia|]. intros Hs. by case_decide.
Qed.

Lemma occurrence_event_kept value previous transition evidence :
  OccurrenceRecord_ValidateTransitionUpdateFrom value previous transition evidence = None →
  occurrence_kept previous value ∧ ¬ occurrenceTerminal (oc_State previous) ∧
  transitionPermits OccurrenceLife (oc_State value) (oc_State previous) ∧
  ¬ not_next_revision (oc_Revision previous) (oc_Revision value).
Proof.
  unfold OccurrenceRecord_ValidateTransitionUpdateFrom. cbv zeta. intros Hv. passes Hv. settle.
  match goal with H : result_of_transition _ _ |- _ => destruct H as (Hr & Hs & _ & Hc & _) end.
  match goal with H : OccurrenceRecord_ValidateTransition _ _ _ _ _ _ _ _ = None |- _ =>
    apply transition_shows in H as (index & _ & Ht & Hclock & _) end.
  apply transition_permits in Ht as (Hp & Hn & Hfrom & Hto). rewrite <- Hs in Hp, Hto.
  rewrite <- Hr in Hn.
  repeat match goal with H : Is_true (receiptSubset _ _) |- _ => apply receiptSubset_spec in H end.
  split; [|split; [|done]].
  - apply occurrence_kept_check; try done. by rewrite Hc.
  - intros Hterm. pose proof (terminal_occurrence_permits _ _ Hfrom Hto Hterm) as Hf.
    rewrite Hf in Hp. done.
Qed.

(** [C24] Whatever accepted updates and transitions an occurrence goes through, it stays the same
    run of the same schedule: its identifiers, times and destination, its snapshot, its operation
    and policy digests, its targets and its signers stay, its preparation time once it is set,
    every receipt it has recorded; its number of targets stays, and of the other counters of its
    report only that of unconfirmed cancellations may go down; its revision counts the accepted
    calls and its clock does not go back.  From a final state nothing is accepted any more,
    neither a transition nor an update. *)
Theorem occurrence_history_kept events calls a value :
  0 ≤ oc_Revision a < 2 ^ 64 → occurrence_history events calls a value →
  occurrence_kept a value ∧ oc_Revision value = oc_Revision a + Z.of_nat calls ∧
  oc_Revision value < 2 ^ 64 ∧ (occurrenceTerminal (oc_State a) → value = a).
Proof.
  intros Ha Hh. induction Hh as [a|events calls a previous value Hp IH Hu
    |events calls a previous value transition evidence Hp IH Hu].
  - split; [apply occurrence_kept_refl|]. split_and!; try lia. done.
  - apply occurrence_update_kept in Hu as (Hk & Hs & Ht & Hr).
    destruct (IH Ha) as (? & Hrev & ? & Hterm). apply next_revision in Hr as [Hr ?]; [|lia].
    split; [by eapply occurrence_kept_trans|]. split_and!; [lia..|].
    intros Hta. by rewrite (Hterm Hta) in Ht.
  - apply occurrence_event_kept in Hu as (Hk & Ht & _ & Hr).
    destruct (IH Ha) as (? & Hrev & ? & Hterm). apply next_revision in Hr as [Hr ?]; [|lia].
    split; [by eapply occurrence_kept_trans|]. split_and!; [lia..|].
    intros Hta. by rewrite (Hterm Hta) in Ht.
Qed.
End occurrences.

(** ** A concrete occurrence *)

#[local] Existing Instance rfc4122.
#[local] Existing Instance rfc4122_parser.

Definition sample_policy : OccurrencePolicySnapshot :=
  mkOccurrencePolicySnapshot
    (mkPolicyBinding id_attempt 1 1 hex64 10 (mkRetryPolicy (Some []) (Some [])) None
       "requestCancellation" "requestCancellation") 0 9000 9000 9000 9000.

Definition occurrence_with (revision : uint64) (prepared : Z) (snapshot : Digest)
    : OccurrenceRecord :=
  mkOccurrenceRecord 1 id_occurrence id_attempt DestinationDirectLocal revision "slot:1000" hex64
    1000 1000 None "preparing" 1 hex64 (mkOperationBinding "facets.note" 1 id_item 1 hex64 10)
    sample_policy hex64 hex64 snapshot (mkReportCounters 2 prepared 0 0 0 0 0 0 0 0 0 0 0 0 0 0)
    None None (Some []) device_signer None (Some id_assignment) 1500 None None.

Definition sample_occurrence (revision : uint64) (prepared : Z) : OccurrenceRecord :=
  occurrence_with revision prepared (OccurrenceRecord_MakeSnapshotDigest (occurrence_with 2 0 "")).

#[local] Opaque SHA256Digest Sum256.

Lemma sample_occurrence_valid : OccurrenceRecord_Validate (sample_occurrence 3 1) = None.
Proof.
  unfold OccurrenceRecord_Validate, occurrence_snapshot_check. holds. all: by vm_compute.
Qed.

(** An update that counts a prepared item. *)
Lemma sample_occurrence_update :
  OccurrenceRecord_ValidateUpdateFrom (sample_occurrence 3 1) (sample_occurrence 2 0) = None.
Proof.
  unfold OccurrenceRecord_ValidateUpdateFrom.
  apply err_then_None. split; [apply sample_occurrence_valid|].
  apply err_then_None. split; [|holds; by vm_compute].
  apply err_when_None. intros [Hx|[Hx|[Hx|Hx]]]; [by vm_compute in Hx|by apply Hx| |refute Hx].
  apply Hx. by repeat apply conj.
Qed.

Lemma occurrence_history_kept_witness :
  occurrence_kept (sample_occurrence 2 0) (sample_occurrence 3 1) ∧
  oc_Revision (sample_occurrence 3 1) = oc_Revision (sample_occurrence 2 0) + Z.of_nat 1 ∧
  oc_Revision (sample_occurrence 3 1) < 2 ^ 64 ∧
  (occurrenceTerminal (oc_State (sample_occurrence 2 0)) →
   sample_occurrence 3 1 = sample_occurrence 2 0).
Proof.
  apply (occurrence_history_kept 0); [simpl; lia|].
  eapply occurrence_update; [apply occurrence_start|exact sample_occurrence_update].
Defined.
