(* ===== verification/ComputeQueueCustodyFacts.v ===== *)
(** * internal/computequeue: custody and completion

    What the admission boundary and the final state "completed" stand for:
    signed receipts of custody for every assignment of the active attempt, and
    a signed application receipt for every item.

    The first part is the concrete admission of the witness: an occurrence
    that goes from "preparing" to "securelyQueued" with the receipt of the
    custody service for its one assignment.  Digests are left as they are
    defined. *)

From S2P Require Import Prelude GoEncoding Sha256 GoText ComputeQueue ComputeQueueCanonical ComputeQueueAuthorization ComputeQueueReceipts ComputeQueueTransitions ComputeQueueAttempts ComputeQueueItems ComputeQueueLifecycle ComputeQueueOccurrence ComputeQueueBoundary ComputeQueueTerminal ComputeQueueEvidence ComputeQueueFacts ComputeQueueReportFacts ComputeQueueHistoryFacts.
#[local] Open Scope Z_scope.

#[local] Existing Instance rfc4122.
#[local] Existing Instance rfc4122_parser.

Definition id_worker : string := "00000000-0000-4000-8000-000000000005".
Definition id_offering : string := "00000000-0000-4000-8000-000000000006".
Definition id_lease : string := "00000000-0000-4000-8000-000000000007".
Definition id_capsule : string := "00000000-0000-4000-8000-000000000008".
Definition id_receipt : string := "00000000-0000-4000-8000-000000000009".
Definition id_event : string := "00000000-0000-4000-8000-00000000000a".

Definition custody_signer : ReceiptSignerBinding :=
  mkReceiptSignerBinding "custody" "key-3" 1 "p256".

Definition worker_executor : ExecutorBinding :=
  mkExecutorBinding ExecutorWorker None
    (Some (mkWorkerBinding id_worker "exec" 1 id_offering 1 hex64 "recipient" 1
       (mkReceiptSignerBinding "worker" "key-4" 1 "p256"))).

Definition worker_lease : LeaseBinding := mkLeaseBinding id_lease 1 1000 5000 9000.

Definition worker_authorization : AssignmentAuthorization :=
  mkAssignmentAuthorization id_assignment worker_executor [id_item]
    (MakeAssignmentItemSetDigest [id_item]) hex64 (Some id_capsule) (Some hex64)
    (Some worker_lease) 1.

Definition worker_plan : AssignmentPlan :=
  mkAssignmentPlan [worker_authorization]
    (AssignmentPlan_makeDigest (mkAssignmentPlan [worker_authorization] "")).

Definition worker_attempt : AuthorizedAttempt :=
  mkAuthorizedAttempt
    (mkAttemptRecord 1 id_attempt id_occurrence 3 1 "custodied" DestinationFixedWorkers
       (mkExecutionIdentity "backend" "1" "model" hex64 "adapter" "1" hex64 hex64 None)
       hex64 hex64 hex64 hex64 None None None worker_plan (Some hex64) None None None device_signer
       (Some custody_signer) None 1000 None (Some [])).

Definition worker_assignment : AssignmentRecord :=
  mkAssignmentRecord 1 id_assignment id_occurrence id_attempt 4 "custodied" worker_executor
    [id_item] (MakeAssignmentItemSetDigest [id_item]) hex64 (Some id_capsule) (Some hex64)
    (Some worker_lease) (Some worker_lease) 1 1 device_signer (Some custody_signer) 1000 None
    (Some [id_receipt]).

Definition record_with (subject key : Digest) : ReceiptRecord :=
  mkReceiptRecord 1 id_receipt id_occurrence id_attempt (Some id_assignment) None "custodyAccepted"
    AuthorityJobCustody None None None None None (Some id_lease) (Some 1) (Some 5000) 1 "custody"
    "key-3" 1 subject key 1600.

Definition custody_subject : Digest :=
  AssignmentRecord_receiptSubjectDigest worker_assignment (record_with "" "").

Definition custody_record : ReceiptRecord :=
  record_with custody_subject (ReceiptRecord_MakeIdempotencyKey (record_with custody_subject "")).

Definition custody_proof : VerifiedReceipt :=
  mkVerifiedReceipt custody_record custody_signer custody_subject.

Definition queue_occurrence_with (revision : uint64) (state : OccurrenceState)
    (event : TransitionID) (changed : Timestamp) (receipts : list ReceiptID) (snapshot : Digest)
    : OccurrenceRecord :=
  mkOccurrenceRecord 1 id_occurrence id_attempt DestinationFixedWorkers revision "slot:1000" hex64
    1000 1000 (Some 1200) state 1 hex64 (mkOperationBinding "facets.note" 1 id_item 1 hex64 10)
    sample_policy hex64 hex64 snapshot (mkReportCounters 1 1 0 0 0 0 0 0 0 0 0 0 0 0 0 0)
    None None (Some receipts) device_signer (Some custody_signer) (Some event) changed None None.

Definition queue_snapshot : Digest :=
  OccurrenceRecord_MakeSnapshotDigest (queue_occurrence_with 2 "" "" 0 [] "").

Definition before_queue : OccurrenceRecord :=
  queue_occurrence_with 2 "preparing" id_assignment 1500 [] queue_snapshot.
Definition after_queue : OccurrenceRecord :=
  queue_occurrence_with 3 "securelyQueued" id_event 2000 [id_receipt] queue_snapshot.

Definition queue_transition : OccurrenceTransition :=
  mkStateTransition 1 id_event id_occurrence "preparing" "securelyQueued" AuthoritySourceDevice 2 3
    2000 (Some [id_receipt]) None None None None 0.

Definition queue_evidence : OccurrenceUpdateEvidence :=
  mkOccurrenceUpdateEvidence [custody_proof] (Some worker_attempt) []
    [worker_assignment] [] [] [] ∅.

#[local] Opaque SHA256Digest Sum256.

Lemma worker_authorization_valid : AssignmentAuthorization_Validate worker_authorization = None.
Proof. unfold AssignmentAuthorization_Validate. holds. all: by vm_compute. Qed.

Lemma worker_plan_valid : AssignmentPlan_Validate worker_plan = None.
Proof.
  unfold AssignmentPlan_Validate. cbn [plan_assignments ap_Assignments worker_plan]. holds.
  all: lazymatch goal with
  | |- AssignmentAuthorization_Validate _ = None => apply worker_authorization_valid
  | |- _ => by vm_compute
  end.
Qed.

Lemma worker_attempt_valid : AttemptRecord_Validate (auth_record worker_attempt) = None.
Proof.
  unfold AttemptRecord_Validate. holds.
  all: lazymatch goal with
  | |- AssignmentPlan_Validate _ = None => apply worker_plan_valid
  | |- _ => by vm_compute
  end.
Qed.

Lemma worker_assignment_valid : AssignmentRecord_Validate worker_assignment = None.
Proof. unfold AssignmentRecord_Validate. holds. all: by vm_compute. Qed.

Lemma custody_record_valid : ReceiptRecord_Validate custody_record = None.
Proof.
  unfold ReceiptRecord_Validate. holds.
  all: lazymatch goal with
  | |- when_present Digest_Validate (Some _) = None => apply SHA256Digest_valid
  | |- _ => by vm_compute
  end.
Qed.

Lemma custody_index : newVerifiedReceiptIndex [custody_proof] = inr {[id_receipt := custody_proof]}.
Proof.
  unfold newVerifiedReceiptIndex. apply queue_checked_inr. split; [by vm_compute|].
  cbn [index_receipts]. cbv zeta. apply queue_checked_inr. split; [apply custody_record_valid|].
  repeat (apply queue_checked_inr; split; [by apply err_when_None; intros Hx; (apply elem_of_empty in Hx || destruct Hx)|]).
  done.
Qed.

(** The receipt is in the lease of the assignment. *)
Lemma custody_in_lease :
  AssignmentRecord_matchesLeaseContext worker_assignment custody_record {[1 := worker_lease]} None
    false.
Proof. by vm_compute. Qed.

Lemma worker_assignment_leases :
  AssignmentRecord_validatedLeaseHistory worker_assignment {[id_receipt := custody_proof]} =
  inr {[1 := worker_lease]}.
Proof.
  unfold AssignmentRecord_validatedLeaseHistory. rewrite decide_False by done.
  change (as_InitialLease worker_assignment) with (Some worker_lease).
  change (as_CurrentLease worker_assignment) with (Some worker_lease). cbv iota beta.
  assert (renewals_of worker_assignment {[id_receipt := custody_proof]} = []) as ->; [|by vm_compute].
  unfold renewals_of. change (assignment_receipt_ids worker_assignment) with [id_receipt].
  cbn [omap list_omap]. rewrite lookup_singleton_eq. by rewrite filter_cons_False.
Qed.

Lemma worker_assignment_authorized :
  AssignmentRecord_ValidateAuthorizedBy worker_assignment worker_attempt [custody_proof] = None.
Proof.
  unfold AssignmentRecord_ValidateAuthorizedBy. cbv zeta.
  apply err_then_None. split; [apply worker_assignment_valid|].
  apply err_then_None. split; [apply worker_attempt_valid|].
  change (authorization_of _ _) with (Some worker_authorization). cbv iota beta.
  apply err_then_None. split.
  { apply err_when_None. intros Hx.
    repeat (destruct Hx as [Hx|Hx]; [apply Hx; reflexivity || (vm_compute; exact I)|]).
    by apply Hx. }
  apply err_then_None. split; [by vm_compute|].
  apply err_then_None. split; [by vm_compute|].
  rewrite custody_index. cbn [result_check]. rewrite worker_assignment_leases. cbn [result_check].
  change (assignment_receipt_ids worker_assignment) with [id_receipt]. apply each_None.
  apply Forall_singleton. rewrite lookup_singleton_eq.
  unfold AssignmentRecord_validateReceiptTrustWithLeases. cbv zeta.
  apply err_then_None. split; [by vm_compute|]. apply err_then_None. split.
  - change (AssignmentRecord_expectedSigner _ _) with (Some custody_signer). cbv iota beta.
    apply err_when_None. intros Hx. apply Hx. by repeat apply conj.
  - apply err_when_None. intros Hx. apply Hx. apply custody_in_lease.
Qed.

Lemma worker_exact_assignments :
  AuthorizedAttempt_validateExactAssignments worker_attempt
    (assignmentsForAttempt [worker_assignment] id_attempt) [custody_proof] = None.
Proof.
  unfold AuthorizedAttempt_validateExactAssignments. cbv zeta.
  assert (assignmentsForAttempt [worker_assignment] id_attempt = [worker_assignment]) as ->
    by (unfold assignmentsForAttempt; by rewrite filter_cons_True).
  apply err_then_None. split; [by vm_compute|].
  change (ap_Assignments (at_AssignmentPlan (auth_record worker_attempt)))
    with [worker_authorization].
  change (sortAssignments [worker_assignment]) with [worker_assignment].
  cbn [zip zip_with each fst snd]. apply err_then_None. split; [|done].
  apply err_then_None. split; [by vm_compute|]. apply worker_assignment_authorized.
Qed.

Lemma queue_transition_valid :
  StateTransition_validateAgainst OccurrenceLife queue_transition (oc_State before_queue)
    (oc_Revision before_queue) (oc_ID before_queue) None ∅ {[id_receipt := custody_proof]} = None.
Proof.
  unfold StateTransition_validateAgainst, StateTransition_Validate. cbv zeta. 
  repeat lazymatch goal with |- err_then _ _ = None => apply err_then_None; split end.
  all: try (vm_compute; reflexivity).
Qed.

Lemma queue_receipt_trusted assignments :
  assignments !! id_assignment = Some worker_assignment →
  OccurrenceRecord_validateReceiptTrust before_queue custody_proof {[id_attempt := worker_attempt]}
    assignments ∅ = None.
Proof.
  intros Ha. unfold OccurrenceRecord_validateReceiptTrust. cbv zeta.
  apply err_then_None. split; [by vm_compute|].
  change (applied_item _) with (@None string). change (rr_AssignmentID _) with (Some id_assignment).
  cbv iota beta. rewrite Ha. change (rr_AttemptID _) with id_attempt. rewrite lookup_singleton_eq.
  apply err_then_None. split; [by vm_compute|]. apply err_when_None. intros Hx. apply Hx.
  apply some_and_Some. exists custody_signer. split; [done|]. by repeat apply conj.
Qed.

Lemma queue_accepted :
  OccurrenceRecord_ValidateTransition before_queue queue_transition [custody_proof]
    (Some worker_attempt) [] [worker_assignment] [] ∅ = None.
Proof.
  unfold OccurrenceRecord_ValidateTransition. cbv zeta. rewrite custody_index. cbn [result_check].
  apply err_then_None. split; [by vm_compute|]. apply err_then_None. split; [by vm_compute|].
  assert (index_assignments ∅ [worker_assignment] = inr {[id_assignment := worker_assignment]}) as ->.
  { cbn [index_assignments]. apply queue_checked_inr. split; [apply worker_assignment_valid|].
    by apply queue_checked_inr. }
  cbn [result_check index_items].
  change (index_proofs ∅ ([] ++ option_list (Some worker_attempt)))
    with (@inr QueueError (gmap AttemptID AuthorizedAttempt) {[id_attempt := worker_attempt]}).
  cbn [result_check].
  apply err_then_None. split; [apply queue_transition_valid|].
  apply err_then_None. split; [by vm_compute|].
  apply err_then_None. split.
  { assert (evidence_attempts (occurrence_receipt_ids before_queue ++
      elements (st_SupportingReceiptIDs queue_transition)) {[id_receipt := custody_proof]} =
      {[id_attempt]}) as ->.
    { unfold evidence_attempts.
      change (_ ++ elements (st_SupportingReceiptIDs queue_transition)) with [id_receipt].
      cbn [omap list_omap]. rewrite lookup_singleton_eq.
      change (list_to_set [id_attempt] =@{gset AttemptID} {[id_attempt]}). set_solver. }
    rewrite elements_singleton. apply each_None, Forall_singleton. rewrite lookup_singleton_eq.
    apply err_then_None. split; [by vm_compute|]. apply worker_exact_assignments. }
  apply err_then_None. split; [done|].
  change (elements (st_SupportingReceiptIDs queue_transition)) with [id_receipt].
  apply err_then_None. split.
  { apply each_None, Forall_singleton. rewrite lookup_singleton_eq.
    apply err_then_None. split; [by vm_compute|]. apply queue_receipt_trusted.
    apply lookup_singleton_eq. }
  rewrite decide_True by done. apply err_then_None. split; [|done].
  apply err_then_None. split; [by vm_compute|].
  apply err_then_None. split; [apply worker_exact_assignments|].
  apply each_None, Forall_singleton. apply err_then_None. split; [by vm_compute|].
  apply err_when_None. intros Hx. apply Hx. apply Exists_cons_hd. rewrite lookup_singleton_eq.
  by repeat apply conj.
Qed.

Lemma after_queue_valid : OccurrenceRecord_Validate after_queue = None.
Proof.
  unfold OccurrenceRecord_Validate, occurrence_snapshot_check. holds.
  all: lazymatch goal with
  | |- Digest_Validate (oc_OccurrenceSnapshotDigest _) = None => apply SHA256Digest_valid
  | |- _ => by vm_compute
  end.
Qed.

(** The occurrence enters "securelyQueued". *)
Lemma queue_published :
  OccurrenceRecord_ValidateTransitionUpdateFrom after_queue before_queue queue_transition
    queue_evidence = None.
Proof.
  unfold OccurrenceRecord_ValidateTransitionUpdateFrom. cbv zeta.
  apply err_then_None. split; [apply after_queue_valid|].
  apply err_then_None. split.
  { apply err_when_None. intros [Hx|Hx]; apply Hx; repeat apply conj; reflexivity. }
  do 5 (apply err_then_None; split; [by vm_compute|]).
  apply err_then_None. split; [apply queue_accepted|]. by vm_compute.
Qed.

Section custody.
Context `{UuidParser}.

(** An index holds the receipts under their IDs. *)
Lemma index_receipts_spec index keys slots receipts result :
  index_receipts index keys slots receipts = inr result →
  ∀ id receipt, result !! id = Some receipt →
    index !! id = Some receipt ∨ (receipt ∈ receipts ∧ rr_ID (vr_record receipt) = id).
Proof.
  revert index keys slots. induction receipts as [|receipt receipts IH]; intros index keys slots Hr.
  - injection Hr as <-. auto.
  - cbn [index_receipts] in Hr. cbv zeta in Hr. passes Hr. intros id r Hid.
    destruct (IH _ _ _ Hr id r Hid) as [Hi|[Hin Hi]].
    + apply lookup_insert_Some in Hi as [[<- <-]|[_ Hi]]; [|by left].
      right. split; [|done]. apply elem_of_cons. by left.
    + right. split; [|done]. apply elem_of_cons. by right.
Qed.

Lemma verified_index_spec receipts index id receipt :
  newVerifiedReceiptIndex receipts = inr index → index !! id = Some receipt →
  receipt ∈ receipts ∧ rr_ID (vr_record receipt) = id.
Proof.
  unfold newVerifiedReceiptIndex. intros Hn Hid. passes Hn.
  by destruct (index_receipts_spec _ _ _ _ _ Hn id receipt Hid) as [?|?].
Qed.

(** The receipts that an authorized assignment records are signed. *)
Lemma authorized_receipt value attempt receipts index id receipt :
  AssignmentRecord_ValidateAuthorizedBy value attempt receipts = None →
  newVerifiedReceiptIndex receipts = inr index →
  id ∈ assignment_receipt_ids value → index !! id = Some receipt →
  ∃ signer, AssignmentRecord_expectedSigner value (vr_record receipt) = Some signer ∧
    VerifiedReceipt_matches receipt signer
      (AssignmentRecord_receiptSubjectDigest value (vr_record receipt)).
Proof.
  unfold AssignmentRecord_ValidateAuthorizedBy. cbv zeta. intros Hv Hn Hin Hid. passes Hv.
  destruct (authorization_of _ _) as [authorization|]; [|done]. passes Hv. rewrite Hn in *.
  simplify_eq. rewrite each_None, Forall_forall in Hv. specialize (Hv id Hin). rewrite Hid in Hv.
  unfold AssignmentRecord_validateReceiptTrustWithLeases in Hv. cbv zeta in Hv. passes Hv.
  destruct (AssignmentRecord_expectedSigner value (vr_record receipt)) as [signer|]; [|done].
  exists signer. split; [done|].
  match goal with H : err_when (¬ VerifiedReceipt_matches _ _ _) _ = None |- _ =>
    apply err_when_None in H; by apply dec_stable end.
Qed.

(** The exact assignments of an attempt: one for each authorization. *)
Lemma exact_assignments proof assignments receipts authorization :
  AuthorizedAttempt_validateExactAssignments proof assignments receipts = None →
  authorization ∈ ap_Assignments (at_AssignmentPlan (auth_record proof)) →
  ∃ assignment, assignment ∈ assignments ∧ as_ID assignment = aa_AssignmentID authorization ∧
    AssignmentRecord_ValidateAuthorizedBy assignment proof receipts = None.
Proof.
  unfold AuthorizedAttempt_validateExactAssignments. cbv zeta. intros Hv Hin. passes Hv.
  apply list_elem_of_lookup in Hin as [i Hi]. settle.
  assert (length (sortAssignments assignments) =
    length (ap_Assignments (at_AssignmentPlan (auth_record proof)))) as Hl.
  { unfold sortAssignments. by rewrite merge_sort_Permutation. }
  destruct (lookup_lt_is_Some_2 (sortAssignments assignments) i) as [assignment Ha].
  { rewrite Hl. by eapply lookup_lt_Some. }
  rewrite each_None, Forall_forall in Hv.
  specialize (Hv (assignment, authorization)).
  assert ((assignment, authorization) ∈ zip (sortAssignments assignments)
    (ap_Assignments (at_AssignmentPlan (auth_record proof)))) as Hz.
  { apply list_elem_of_lookup. exists i. apply lookup_zip_with_Some. by exists assignment, authorization. }
  specialize (Hv Hz). cbn in Hv. passes Hv. exists assignment. split_and!; [|by apply dec_stable|done].
  rewrite <- (merge_sort_Permutation assignment_le assignments). by eapply list_elem_of_lookup_2.
Qed.

(** The assignment is past its admission, and the occurrence has recorded the receipt, signed by
    the custody service of this assignment, that says so. *)
Definition in_custody (value : OccurrenceRecord) (receipts : list VerifiedReceipt)
    (assignment : AssignmentRecord) : Prop :=
  as_State assignment ∉
    ["prepared"; "sealed"; "admissionPending"; "retryableRejected"]%string ∧
  ∃ receipt signer, receipt ∈ receipts ∧ rr_ID (vr_record receipt) ∈ occurrence_receipt_ids value ∧
    rr_Stage (vr_record receipt) = "custodyAccepted"%string ∧
    rr_AssignmentID (vr_record receipt) = Some (as_ID assignment) ∧
    as_CustodyReceiptSigner assignment = Some signer ∧
    VerifiedReceipt_matches receipt signer
      (AssignmentRecord_receiptSubjectDigest assignment (vr_record receipt)).

(** A check of custody in an index of receipts. *)
Lemma custody_check_shows value assignment attempt receipts index supporting :
  AssignmentRecord_ValidateAuthorizedBy assignment attempt receipts = None →
  newVerifiedReceiptIndex receipts = inr index →
  supporting ⊆ occurrence_receipt_ids value →
  custody_check assignment supporting index = None →
  in_custody value receipts assignment.
Proof.
  intros Ha Hn Hs Hc. unfold custody_check in Hc. passes Hc. settle. split.
  { intros Hin. match goal with H : ¬ Is_true (oneOf _ _) |- _ => by apply H, oneOf_spec end. }
  apply Exists_exists in Hc as (id & Hid & (receipt & Hr & Hc)%some_and_Some).
  destruct (verified_index_spec _ _ _ _ Hn Hr) as [Hin Hrid].
  destruct Hc as (Hassign & Hstage & Hrecorded).
  apply bool_decide_spec in Hrecorded. rewrite Hrid in Hrecorded.
  destruct (authorized_receipt _ _ _ _ _ _ Ha Hn Hrecorded Hr) as (signer & Hsigner & Hm).
  exists receipt, signer. split_and!; try done; [by rewrite Hrid; apply Hs|].
  unfold AssignmentRecord_expectedSigner in Hsigner. by rewrite Hstage in Hsigner.
Qed.

(** [C25] An occurrence enters "securelyQueued" only when the whole plan of its active attempt is
    in custody: every assignment that the plan authorizes is there, exactly as authorized, and
    for each of them the occurrence has recorded a receipt of its custody that the custody
    service signed. *)
Theorem securely_queued_in_custody value previous transition evidence :
  OccurrenceRecord_ValidateTransitionUpdateFrom value previous transition evidence = None →
  oc_State value = "securelyQueued"%string →
  ∃ active, oue_ActiveAttempt evidence = Some active ∧
    at_OccurrenceID (auth_record active) = oc_ID value ∧
    ∀ authorization, authorization ∈ ap_Assignments (at_AssignmentPlan (auth_record active)) →
      ∃ assignment, assignment ∈ oue_Assignments evidence ∧
        as_ID assignment = aa_AssignmentID authorization ∧
        AssignmentRecord_ValidateAuthorizedBy assignment active (oue_Receipts evidence) = None ∧
        in_custody value (oue_Receipts evidence) assignment.
Proof.
  unfold OccurrenceRecord_ValidateTransitionUpdateFrom. cbv zeta. intros Hv Hstate. passes Hv. settle.
  match goal with H : result_of_transition _ _ |- _ => destruct H as (_ & Hs & _) end.
  match goal with H : OccurrenceRecord_ValidateTransition _ _ _ _ _ _ _ _ = None |- _ =>
    apply transition_shows in H as (index & Hn & _ & _ & Hq) end.
  rewrite Hs in Hstate. specialize (Hq Hstate).
  match goal with H : Is_true (receiptSubset (elements (st_SupportingReceiptIDs _)) _) |- _ =>
    apply receiptSubset_spec in H; rename H into Hsub end.
  match goal with H : same_occurrence _ _ |- _ => destruct H as [Hid _] end.
  unfold securely_queued_check in Hq. destruct (oue_ActiveAttempt evidence) as [active|]; [|done].
  cbv zeta in Hq. passes Hq. settle. exists active. split; [done|]. split; [congruence|].
  intros authorization Hin.
  match goal with H : AuthorizedAttempt_validateExactAssignments _ _ _ = None |- _ =>
    destruct (exact_assignments _ _ _ _ H Hin) as (assignment & Ha & Haid & Hauth) end.
  apply list_elem_of_filter in Ha as [_ Ha]. exists assignment. split_and!; try done.
  rewrite each_None, Forall_forall in Hq. by eapply custody_check_shows; [done|done|done|apply Hq].
Qed.

(** ** Completion *)

(** The result of the item was applied, and the occurrence has recorded the receipt of that,
    about this very item, signed by its source device. *)
Definition application_proved (value : OccurrenceRecord) (receipts : list VerifiedReceipt)
    (item : ItemRecord) : Prop :=
  item_Disposition item = Some "applied"%string ∧
  ∃ receipt, receipt ∈ receipts ∧
    item_ApplicationReceiptID item = Some (rr_ID (vr_record receipt)) ∧
    rr_ID (vr_record receipt) ∈ occurrence_receipt_ids value ∧
    rr_Stage (vr_record receipt) = "sourceApplied"%string ∧
    rr_ItemID (vr_record receipt) = Some (item_ID item) ∧
    VerifiedReceipt_matches receipt (oc_SourceReceiptSigner value)
      (ItemRecord_ApplicationProofDigest item).

Lemma applied_items_proved value items receipts index item :
  newVerifiedReceiptIndex receipts = inr index →
  applied_items_check value items index = None → item ∈ items →
  item_Disposition item = Some "applied"%string → application_proved value receipts item.
Proof.
  intros Hn Hc Hin Hd. unfold applied_items_check in Hc. rewrite each_None, Forall_forall in Hc.
  specialize (Hc item Hin). passes Hc.
  match goal with H : ItemRecord_validateApplication_indexed _ _ _ = None |- _ => rename H into Hv end.
  unfold ItemRecord_validateApplication_indexed in Hv. cbv zeta in Hv. passes Hv.
  case_decide; [done|]. destruct (item_ApplicationReceiptID item) as [id|] eqn:Happ; [|done].
  destruct (ItemRecord_CurrentExecution item); [|done].
  destruct (index !! id) as [receipt|] eqn:Hid; [|done]. passes Hv. settle.
  destruct (verified_index_spec _ _ _ _ Hn Hid) as [Hr Hrid]. split; [done|]. exists receipt.
  rewrite Hrid. split_and!; try done. simpl in Hc. apply dec_stable in Hc. by apply bool_decide_spec in Hc.
Qed.

Lemma completed_report value :
  OccurrenceRecord_Validate value = None → oc_State value = "completed"%string →
  rc_Applied (oc_Report value) = rc_Targeted (oc_Report value).
Proof.
  unfold OccurrenceRecord_Validate. intros Hv Hs. passes Hv.
  unfold OccurrenceRecord_validateTerminalStateReport in Hv. cbv zeta in Hv. rewrite Hs in Hv.
  change (negb (occurrenceTerminal "completed")) with false in Hv. cbv iota in Hv.
  case_decide; [|done]. apply err_when_None in Hv. by apply dec_stable.
Qed.

(** A completed occurrence that agrees with its items has applied all of them. *)
Lemma completed_all_applied value items :
  OccurrenceRecord_ValidateAgainstItems value items = None →
  oc_State value = "completed"%string →
  Forall (fun item => disposed "applied" item) items.
Proof.
  unfold OccurrenceRecord_ValidateAgainstItems. cbv zeta. intros Hv Hs. passes Hv. settle.
  match goal with H : ReconcileReport _ = inr _ |- _ =>
    apply reconciled_exact in H as (_ & _ & ->) end.
  match goal with H : OccurrenceRecord_Validate _ = None |- _ =>
    apply completed_report in H; [|done]; rename H into Hc end.
  apply tally_all. match goal with H : exact_report _ _ = oc_Report value |- _ => by rewrite <- H in Hc end.
Qed.

(** [C26] A completed occurrence is refused, whatever the rest of the evidence is, unless every
    single item was applied with a receipt that the occurrence has recorded, that is about this
    item and its result, and that the source device signed. *)
Theorem completed_needs_application value schedule items receipts attempts assignments manifests
    errors item :
  oc_State value = "completed"%string → item ∈ items → ¬ application_proved value receipts item →
  OccurrenceRecord_ValidateSourceBound value schedule items receipts attempts assignments
    manifests errors ≠ None.
Proof.
  intros Hs Hin Hn Hv. unfold OccurrenceRecord_ValidateSourceBound in Hv. passes Hv.
  match goal with H : OccurrenceRecord_ValidateAgainstItems _ _ = None |- _ =>
    apply completed_all_applied in H; [|done]; rename H into Hall end.
  rewrite Forall_forall in Hall. specialize (Hall item Hin). apply bool_decide_spec in Hall.
  apply Hn. by eapply applied_items_proved.
Qed.
End custody.

Lemma securely_queued_in_custody_witness :
  ∃ active, oue_ActiveAttempt queue_evidence = Some active ∧
    at_OccurrenceID (auth_record active) = oc_ID after_queue ∧
    ∀ authorization, authorization ∈ ap_Assignments (at_AssignmentPlan (auth_record active)) →
      ∃ assignment, assignment ∈ oue_Assignments queue_evidence ∧
        as_ID assignment = aa_AssignmentID authorization ∧
        @AssignmentRecord_ValidateAuthorizedBy rfc4122 rfc4122_parser assignment active
          (oue_Receipts queue_evidence) = None ∧
        in_custody after_queue (oue_Receipts queue_evidence) assignment.
Proof.
  apply (@securely_queued_in_custody rfc4122 rfc4122_parser after_queue before_queue
    queue_transition queue_evidence); [exact queue_published|reflexivity].
Defined.

(** A completed occurrence with an item whose source is gone. *)
Definition completed_occurrence : OccurrenceRecord :=
  queue_occurrence_with 9 "completed" id_event 3000 [] queue_snapshot.

Lemma completed_needs_application_witness :
  ¬ application_proved completed_occurrence [] sample_skipped_item ∧
  ∀ schedule, @OccurrenceRecord_ValidateSourceBound rfc4122 rfc4122_parser completed_occurrence
    schedule [sample_skipped_item] [] [] [] [] [] ≠ None.
Proof.
  assert (¬ application_proved completed_occurrence [] sample_skipped_item) as Hn
    by (intros [Hd _]; discriminate Hd).
  split; [exact Hn|]. intros schedule.
  apply (@completed_needs_application rfc4122 rfc4122_parser completed_occurrence schedule
    [sample_skipped_item] [] [] [] [] [] sample_skipped_item);
    [reflexivity|apply elem_of_cons; by left|exact Hn].
Defined.
